(* ===== verification/_CoqProject ===== *)
-Q . S2P
Prelude.v
Std.v
Float64.v
FloatBounds.v
Cbor.v
DaemonText.v
Numbers.v
NumbersLaws.v
DaemonConfig.v
DaemonIdentity.v
QtCbor.v
Protocol.v
DeviceSnapshot.v
SnapshotCodec.v
SnapshotWire.v
Registry.v
RegistryLaws.v
RegistrySpec.v
Receiver.v
DaemonCollector.v
DaemonRun.v
Interop.v
DaemonReports.v
DaemonMetricsReport.v
DaemonUnderstood.v
QtText.v
QtModel.v
Bindings.v
MetricHistory.v
HistoryGeometry.v
HistoryGeometryLaws.v
HistorySeries.v
HistorySeriesLaws.v
HistoryScene.v
HistorySceneLaws.v
Screensaver.v
MetricsService.v
MetricsCollector.v
MetricsCollectorLaws.v
InfoService.v
LocalBindings.v
InfoCollector.v
DeviceModel.v
DeviceModelLaws.v
LocalRow.v
DashboardConfig.v
Programs.v
Json.v
BoundedReply.v
Weather.v
WeatherService.v
WeatherCache.v
WeatherSample.v
WeatherReplies.v
WeatherLaws.v
WeatherSystem.v
WeatherBindings.v
WeatherView.v
WeatherIcons.v
CacheLaws.v
Projects.v
ProjectsSample.v
ProjectsHealth.v
ProjectsService.v
ProjectsLaws.v
ProjectsRequests.v
ProjectsView.v
ProjectsBindings.v
DevicesPage.v
DevicesPageLaws.v
DeviceSilence.v
DaemonShown.v
DashboardRun.v
DashboardRunLaws.v
