(* ===== verification/Prelude.v ===== *)
(** * rpi-dashboard: a verification library

    The repository holds two programs.  The daemon (src/daemon) runs on any Linux machine:
    it reads a configuration, keeps a device identity in a file, collects facts about its
    machine and sends them as CBOR messages over UDP.  The dashboard (src/src) runs on a
    Raspberry Pi with a small screen: it receives such messages, collects the same facts
    about its own machine, fetches the weather and the state of GitHub projects, and shows
    all of it through QML.  This library models the C++ of both and proves what makes each
    part correct, and the parts correct together.

<<
   daemon:    main -> parse_config, identity, Collector -> hello / snapshot -> CBOR -> UDP
                                                                                  |
   dashboard: UdpTelemetryReceiver -> decodeMessage -> RemoteDeviceRegistry <-----+
              Linux collectors -> SysInfoService, SysMetricsService -> history -> chart
              registry + services -> DeviceModel -> QML views
              providers -> WeatherService -> QML       network -> ProjectsService -> QML
              main: command line, configuration, credentials; screensaver
>>

    ** How the code is modelled

    An object is a record of its fields; a member function is a function from the record
    (and what it reads: the clock, the outcome of a write, an answer of the network) to the
    record and what it does outside, in order: signals emitted, datagrams, requests, timers.
    An event loop is a run over such steps, a list of events or a step relation, and the
    theorems about a service quantify over its runs.  Integers are Z with their width
    written out ([u64], [i32], [i64]); [double] is IEEE binary64 on the standard library's
    SpecFloat; a [std::string] or [QByteArray] is a [string] of bytes, a [QString] its UTF-8
    form.  Errors are values of sums and options; an exception ends the function.

    What is not in the repository is a parameter: Qt's CBOR codec ([QtCodec], with the law
    that it reads and writes RFC 8949 items), its text, number and date functions and its
    unspecified orders ([QtText], [ConfigLibrary], [WeatherLibrary], [ProjectsLibrary],
    [DeviceLibrary], [SeriesLibrary], [RepliesLibrary], [JsonLibrary], [NumberLibrary]),
    network replies ([NetworkDevice]), [std::exp], [std::hypot] ([MathLibrary]), sines ([CircleLibrary]), and the
    image reader ([ImageLibrary]).  Each class states documented behaviour only, and a
    concrete instance satisfies it where a theorem's witness needs one ([reference_codec],
    [ascii_text], WeatherSample.v, ProjectsSample.v, [tree_library], [decimal_numbers]).

    ** Files

    Foundations.
    - Prelude.v: notation, tactics, the hint database [dash], fixed-width integers, bytes,
      big-endian numbers, insertion sort.
    - Std.v: the C++ library as the daemon uses it: searches and slices of strings,
      [std::from_chars], [std::getline], stream extraction, [std::map] as a sorted list.
    - Float64.v, FloatBounds.v: doubles; bounds of rounded quotients (a quotient of integers
      whose numerator is the smaller one is in [0, 1], one minus it too; rates are finite).
    - Numbers.v, NumbersLaws.v: [strtod] and the extraction of doubles; what they give is
      a representable double.
    - QtText.v: [QByteArray] functions and Qt's text functions.
    - QtModel.v: [QVariant]; the contract between an item model and its views.
    - Bindings.v: what a QML binding shows after emissions of its property's NOTIFY signal.
    - Json.v: [QJsonValue].

    The daemon (daemon/src/daemon.cpp, daemon/src/main.cpp).
    - Cbor.v: [Value], [head], [encode] and the reference decoder [decode_item].
    - DaemonText.v: [trim], [utf8], [clean], numbers, CPU lists, /proc and /sys texts.
    - DaemonConfig.v: [parse_config], [discover_config].
    - DaemonIdentity.v: [random_uuid], [load_or_create_identity] on a file store whose
      system calls may fail.
    - DaemonCollector.v: [Collector::system_info] and [Collector::metrics].
    - DaemonRun.v: [hello], [snapshot], an iteration of [run].

    Telemetry (src/protocol, src/telemetry).
    - Protocol.v: [SystemInfo], [SystemMetrics] and their completeness predicates.
    - QtCbor.v: [QCborValue], [QCborMap] and the interface [QtCodec].
    - DeviceSnapshot.v: [encodeMessage], [decodeMessage] and every reader and writer below.
    - SnapshotCodec.v, SnapshotWire.v: what the codec promises, on values and on bytes.
    - Registry.v, RegistryLaws.v: [RemoteDeviceRegistry] and its promises.
      RegistrySpec.v: its specification, apart from the code: known devices, sessions and
      contacts; and the refinement.
    - Receiver.v: [UdpTelemetryReceiver::processPendingDatagrams].
    - Interop.v: the daemon's messages against the dashboard's reader and registry.
    - DaemonReports.v, DaemonMetricsReport.v, DaemonUnderstood.v: the daemon's collector
      against the dashboard's readers: the schemas its reports keep, and that every field
      collected is the field read.

    The local machine (src/sysinfo, src/sysmetrics).
    - InfoCollector.v, MetricsCollector.v, MetricsCollectorLaws.v: the Linux collectors over
      the access interfaces they are given, and the native implementations of these.
    - InfoService.v, MetricsService.v: the services that collect off the GUI thread, and
      what their properties show.
    - LocalBindings.v: the services' Q_PROPERTYs and their bindings.
    - MetricHistory.v: the samples of the last minute as a list model.

    The dashboard (src/dashboard, src/network, src/weather, src/projects).
    - DashboardConfig.v: [parseDashboardConfig], [parseWeatherConfig], loading, credentials.
    - Programs.v: both [main]s, [loadGitHubCredential].
    - Screensaver.v: [ScreensaverController] with its timer.
    - DeviceModel.v, DeviceModelLaws.v: the list model over this machine and the registry.
      LocalRow.v: from the local collectors through the services to the model's first row.
    - HistoryGeometry.v, HistoryGeometryLaws.v: the curves of the usage chart.
    - HistorySeries.v, HistorySeriesLaws.v: the chart's window and the samples it keeps.
    - HistoryScene.v, HistorySceneLaws.v: the chart's scene graph.
    - BoundedReply.v: the collecting of a reply's body under a limit.
    - Weather.v, WeatherReplies.v: weather data, list models, the providers' requests and
      replies.  WeatherService.v, WeatherCache.v: the service, its cache and its start.
      WeatherLaws.v, WeatherView.v, CacheLaws.v: what they promise.  WeatherSystem.v: the
      service together with its providers' outstanding replies.  WeatherBindings.v: its
      Q_PROPERTYs.  WeatherIcons.v: icons.
    - Projects.v, ProjectsService.v: health, rows and replies; the service with its request
      queue.  ProjectsHealth.v, ProjectsLaws.v, ProjectsView.v: what they promise.
      ProjectsRequests.v: what is sent, and the answers that are kept.
      ProjectsBindings.v: its Q_PROPERTYs and its three list models.

    The whole (src/dashboard/main.cpp).
    - DevicesPage.v, DevicesPageLaws.v: the local services, the receiver, the registry and
      the device model under one event loop.
    - DaemonShown.v: from a daemon's machine to a row of the dashboard's list.
    - DeviceSilence.v: what the list shows of a device that is not heard of any more.
    - DashboardRun.v, DashboardRunLaws.v: all the objects [main] makes, under one event loop.

    ** What is proved

    - The wire.  Encoding is canonical and decodes to what was encoded; a message read back
      is the message written; whatever is accepted is valid; the daemon's messages are
      understood by the dashboard, field by field what its collectors found, and a daemon
      that says hello and reports comes online.
    - The registry implements a specification of known devices, keeps its invariant in every run,
      never accepts a replayed snapshot within an instance, ages devices by the clock, and
      restores what it stored.  The receiver serves its queue in batches without loss.
    - A start of the daemon ends exactly as a relation over its command line, files and
      system calls says; it keeps its identity, numbers its snapshots without gap, and its parsers accept exactly the kernel's formats; the two
      implementations of the CPU list agree.
    - Collections: every local report is well formed and depends on the past only in ratios
      and rates, which are those between two collections; the services never overlap collections and serve every request.
    - Views: the device model and the history let any view follow them by their row signals;
      the local row is that of the local collectors' reports; QML's bindings to the
      services' properties are current after every event, with two exceptions that are
      stated (the counts of runners while they are asked for, the local time of a solar
      event when the clocks change);
      the chart shows the history without a gap, one curve per run of
      known samples with a step to show, and its kept scene graph is never stale.
    - Weather: the service with its providers has exactly the requests outstanding that it
      waits for, for its own location, and settles whatever they answer; failures are paced
      within bounds, a reply gives one truthful signal, the cache is read back faithfully
      and checked.
    - Projects: at most four requests run and none waits while there is room, every refresh
      ends, the selection is kept, the worst health is shown, the rate limits are respected;
      the token goes to GitHub only, and an answer that nothing was modified has its stored
      document; every view of the three lists is current.
    - Programs: the dashboard fails, helps or starts exactly by its command line and its
      configuration, and starts only with usable settings; the screensaver's timer and
      state agree at every moment.
    - Whole runs: what a daemon's collectors find becomes a row of every view of the
      dashboard's list, and a daemon that falls silent is shown stale and then offline; in
      every run of the devices page the views and the bindings are current; in every run of the dashboard from [main] the promises of all its parts hold
      together, and the chart paints the history of what the local collector found.

    ** Bounds and fuel

    - [decode_item] (Cbor.v) has as fuel the nesting allowed; [decode_all] gives it one more
      than the bytes, and an item nests at most as deep as it has bytes ([cbor_roundtrip]
      shows that the depth of the value is enough).
    - [consume_loop] (BoundedReply.v) has as fuel the bytes available, and every read takes
      at least one; the theorem is about the loop's own result.
    - [bisect] (HistoryGeometry.v) makes the 32 iterations of the source.
    - [decimal_digits] (DaemonCollector.v) has 20 digits, enough for 64 bits;
      [stream_uint64s] (Numbers.v) and [sanitize] (WeatherService.v) have the length of the
      text, of which every step takes a character.
    - Loops of the source over lists and lines are structural; [run_loop] of the daemon is
      over a list of answers of any length, since the loop itself does not end.
    - The refresh of the projects is proved to end by a measure on the work outstanding, not
      by fuel.

    ** Not modelled

    - QML, the systemd units, the build, and the tests.
    - What Qt and the kernel do behind the parameters above: rendering, TLS, DNS, threads.
      A collection on another thread is the pair of its start and its queued result.

    ** Plan

    The plan is done: modelled and proved are the components above, and how they work
    together: the wire from a daemon's collectors to the dashboard's list, the local machine
    from its collectors to its row, the weather from its providers to QML, the history from
    its samples to the painted chart, and the run of the dashboard over all of them from
    [main].  What is left of the sources are declarations, trivial accessors, and the calls
    into Qt that are named under "Not modelled". *)

From Stdlib Require Export ZArith Lia.
From Stdlib Require Export String Ascii.
From Stdlib Require Strings.Byte.
From stdpp Require Export base option list sorting gmap strings.

Declare Scope dash_scope.
Delimit Scope dash_scope with dash.
#[global] Open Scope Z_scope.

#[global] Arguments String.append !_ _ / : simpl nomatch.

Abbreviation byte := Init.Byte.byte.

(** ** Hint databases and tactics of the development *)

Create HintDb dash.

(** Case analysis on the outermost boolean test of the goal or a hypothesis. *)
Ltac case_if :=
  match goal with
  | |- context [if ?b then _ else _] => destruct b eqn:?
  | H : context [if ?b then _ else _] |- _ => destruct b eqn:?
  end.

(** Turn boolean comparisons of the hypotheses into propositions. *)
Ltac bool_facts :=
  repeat match goal with
  | H : negb _ = true |- _ => apply negb_true_iff in H
  | H : negb _ = false |- _ => apply negb_false_iff in H
  | H : (_ && _)%bool = true |- _ => apply andb_true_iff in H; destruct H
  | H : (_ || _)%bool = false |- _ => apply orb_false_iff in H; destruct H
  | H : (_ <? _) = true |- _ => apply Z.ltb_lt in H
  | H : (_ <? _) = false |- _ => apply Z.ltb_ge in H
  | H : (_ <=? _) = true |- _ => apply Z.leb_le in H
  | H : (_ <=? _) = false |- _ => apply Z.leb_gt in H
  | H : (_ =? _) = true |- _ => apply Z.eqb_eq in H
  | H : (_ =? _) = false |- _ => apply Z.eqb_neq in H
  | H : bool_decide _ = true |- _ => apply bool_decide_eq_true in H
  | H : bool_decide _ = false |- _ => apply bool_decide_eq_false in H
  end.

(** A decidable proposition about concrete data, by evaluation. *)
Ltac by_decision := refine (bool_decide_unpack _ _); vm_compute; exact I.

(** Destruct the scrutinees of the matches a hypothesis goes through. *)
Ltac inv_match H :=
  repeat match type of H with
  | context [match ?x with _ => _ end] => destruct x eqn:?; try discriminate H
  end.

(** ** Fixed-width integers *)

Definition int32_max : Z := 2147483647.
Definition int64_max : Z := 9223372036854775807.
Definition uint32_max : Z := 4294967295.
Definition uint64_max : Z := 18446744073709551615.

(** Unsigned 64-bit arithmetic wraps modulo 2^64. *)
Definition u64 (z : Z) : Z := z mod 18446744073709551616.
(** The value of a signed 32-bit integer after two's-complement conversion. *)
Definition i32 (z : Z) : Z := (z + 2147483648) mod 4294967296 - 2147483648.
(** [static_cast<qint64>] of a 64-bit value. *)
Definition i64 (z : Z) : Z := (z + 9223372036854775808) mod 18446744073709551616 - 9223372036854775808.

Lemma u64_range z : 0 <= u64 z <= uint64_max.
Proof. unfold u64, uint64_max. pose proof (Z.mod_pos_bound z 18446744073709551616). lia. Qed.

Lemma u64_id z : 0 <= z <= uint64_max -> u64 z = z.
Proof. unfold u64, uint64_max. intros. apply Z.mod_small. lia. Qed.

Lemma i64_id z : - int64_max <= z <= int64_max -> i64 z = z.
Proof. unfold i64, int64_max. intros. rewrite Z.mod_small; lia. Qed.

Lemma i32_id z : - int32_max <= z <= int32_max -> i32 z = z.
Proof. unfold i32, int32_max. intros. rewrite Z.mod_small; lia. Qed.

Lemma i32_range z : - int32_max - 1 <= i32 z <= int32_max.
Proof. unfold i32, int32_max. pose proof (Z.mod_pos_bound (z + 2147483648) 4294967296). lia. Qed.

#[export] Hint Resolve u64_range i32_range : dash.

(** ** Bytes *)

Definition byte_val (b : byte) : Z := Z.of_N (Byte.to_N b).

(** Conversion of an integer to [std::uint8_t]. *)
Definition u8 (z : Z) : byte := default Byte.x00 (Byte.of_N (Z.to_N (z mod 256))).

#[export] Instance byte_eq_dec : EqDecision byte := Byte.byte_eq_dec.

#[export] Program Instance byte_countable : Countable byte := inj_countable Byte.to_N Byte.of_N _.
Next Obligation. apply Byte.of_to_N. Qed.

Lemma byte_val_range b : 0 <= byte_val b < 256.
Proof. unfold byte_val. pose proof (Byte.to_N_bounded b). lia. Qed.

Lemma byte_val_u8 z : byte_val (u8 z) = z mod 256.
Proof.
  unfold byte_val, u8. pose proof (Z.mod_pos_bound z 256 ltac:(lia)) as Hb.
  destruct (Byte.of_N (Z.to_N (z mod 256))) as [b|] eqn:E; simpl.
  - apply Byte.to_of_N in E. rewrite E. lia.
  - apply Byte.of_N_None_iff in E. lia.
Qed.

Lemma byte_val_inj a b : byte_val a = byte_val b -> a = b.
Proof.
  unfold byte_val. intros H%N2Z.inj.
  pose proof (Byte.of_to_N a) as Ha. pose proof (Byte.of_to_N b) as Hb. congruence.
Qed.

Lemma u8_byte_val b : u8 (byte_val b) = b.
Proof.
  apply byte_val_inj. rewrite byte_val_u8. apply Z.mod_small, byte_val_range.
Qed.

Lemma byte_val_u8_small z : 0 <= z < 256 -> byte_val (u8 z) = z.
Proof. intros. rewrite byte_val_u8. apply Z.mod_small. lia. Qed.

#[export] Hint Resolve byte_val_range : dash.

(** Big-endian serialisation: [for (int i = k - 1; i >= 0; --i) o.push_back(n >> (i * 8))]. *)
Fixpoint be_bytes (k : nat) (n : Z) : list byte :=
  match k with
  | O => []
  | S k' => u8 (Z.shiftr n (Z.of_nat k' * 8)) :: be_bytes k' n
  end.

Definition be_value (bs : list byte) : Z :=
  fold_left (fun acc b => acc * 256 + byte_val b) bs 0.

Lemma length_be_bytes k n : length (be_bytes k n) = k.
Proof. induction k; simpl; congruence. Qed.

Lemma be_value_acc bs acc :
  fold_left (fun a b => a * 256 + byte_val b) bs acc
  = acc * 256 ^ Z.of_nat (length bs) + be_value bs.
Proof.
  revert acc. induction bs as [|b bs IH]; intros acc; [simpl; unfold be_value; simpl; lia|].
  unfold be_value. simpl fold_left. rewrite (IH (acc * 256 + byte_val b)), (IH (0 * 256 + byte_val b)).
  change (length (b :: bs)) with (S (length bs)).
  rewrite Nat2Z.inj_succ, Z.pow_succ_r by lia. ring.
Qed.

Lemma be_value_be_bytes k n : be_value (be_bytes k n) = n mod 256 ^ Z.of_nat k.
Proof.
  induction k as [|k IH]; [simpl; rewrite Z.mod_1_r; reflexivity|].
  simpl be_bytes. unfold be_value. simpl fold_left.
  rewrite be_value_acc, length_be_bytes, IH, byte_val_u8, Z.shiftr_div_pow2 by lia.
  replace (2 ^ (Z.of_nat k * 8)) with (256 ^ Z.of_nat k)
    by (change 256 with (2 ^ 8); rewrite <- Z.pow_mul_r by lia; f_equal; lia).
  rewrite Nat2Z.inj_succ, Z.pow_succ_r, (Z.mul_comm 256) by lia.
  rewrite (Z.rem_mul_r n) by lia. ring.
Qed.

(** ** Text *)

(** The bytes of a text; [std::string] and the UTF-8 form of a [QString]. *)
Definition text_bytes (s : string) : list byte := list_byte_of_string s.
Definition bytes_text (bs : list byte) : string := string_of_list_byte bs.

Lemma bytes_text_bytes s : bytes_text (text_bytes s) = s.
Proof. apply string_of_list_byte_of_string. Qed.

Lemma length_text_bytes s : length (text_bytes s) = String.length s.
Proof.
  unfold text_bytes, list_byte_of_string. rewrite length_map.
  induction s; simpl; congruence.
Qed.

(** [s.size()] *)
Definition size (s : string) : Z := Z.of_nat (String.length s).

Lemma size_nonneg s : 0 <= size s.
Proof. unfold size. lia. Qed.

(** ** Sorting *)

(** Lexicographic comparison of byte sequences, [std::vector::operator<]. *)
Fixpoint bytes_compare (a b : list byte) : comparison :=
  match a, b with
  | [], [] => Eq
  | [], _ :: _ => Lt
  | _ :: _, [] => Gt
  | x :: a', y :: b' =>
      match byte_val x ?= byte_val y with Eq => bytes_compare a' b' | c => c end
  end.

Definition bytes_ltb (a b : list byte) : bool :=
  match bytes_compare a b with Lt => true | _ => false end.

Lemma bytes_compare_eq a b : bytes_compare a b = Eq <-> a = b.
Proof.
  revert b. induction a as [|x a IH]; intros [|y b]; simpl; try (split; congruence).
  destruct (Z.compare_spec (byte_val x) (byte_val y)) as [H|H|H].
  - apply byte_val_inj in H. subst. rewrite IH. split; congruence.
  - split; [congruence|]. intros [= -> ->]. lia.
  - split; [congruence|]. intros [= -> ->]. lia.
Qed.

Lemma bytes_compare_antisym a b : bytes_compare b a = CompOpp (bytes_compare a b).
Proof.
  revert b. induction a as [|x a IH]; intros [|y b]; simpl; try done.
  rewrite (Z.compare_antisym (byte_val x)). destruct (byte_val x ?= byte_val y); simpl; auto.
Qed.

Lemma bytes_compare_le_trans a b c :
  bytes_compare a b <> Gt -> bytes_compare b c <> Gt -> bytes_compare a c <> Gt.
Proof.
  revert b c. induction a as [|x a IH]; intros [|y b] [|z c]; simpl; try done.
  destruct (Z.compare_spec (byte_val x) (byte_val y)),
    (Z.compare_spec (byte_val y) (byte_val z)),
    (Z.compare_spec (byte_val x) (byte_val z)); try done; try lia; eauto.
Qed.

Lemma bytes_ltb_asym a b : bytes_ltb a b = true -> bytes_ltb b a = false.
Proof. unfold bytes_ltb. rewrite (bytes_compare_antisym a b). by destruct (bytes_compare a b). Qed.

Lemma bytes_ltb_ge a b : bytes_ltb b a = false <-> bytes_compare a b <> Gt.
Proof. unfold bytes_ltb. rewrite (bytes_compare_antisym a b). by destruct (bytes_compare a b). Qed.

Section isort.
Context {A : Type} (lt : A -> A -> bool).

Fixpoint insert_sorted (x : A) (l : list A) : list A :=
  match l with
  | [] => [x]
  | y :: ys => if lt y x then y :: insert_sorted x ys else x :: y :: ys
  end.

(** [std::sort] with the comparator [lt]; on keys that are pairwise
    comparable the result does not depend on the algorithm. *)
Definition isort (l : list A) : list A := foldr insert_sorted [] l.

Lemma insert_sorted_perm x l : insert_sorted x l ≡ₚ x :: l.
Proof.
  induction l as [|y ys IH]; simpl; [done|]. case_if; [|done].
  rewrite IH. apply Permutation_swap.
Qed.

Lemma isort_perm l : isort l ≡ₚ l.
Proof. induction l as [|x l IH]; simpl; [done|]. by rewrite insert_sorted_perm, IH. Qed.

Lemma length_isort l : length (isort l) = length l.
Proof. apply Permutation_length, isort_perm. Qed.
End isort.

(** Sortedness, for a comparator whose negation is transitive on the list type. *)
Section isort_sorted.
Context {A : Type} (lt : A -> A -> bool).
Context (lt_asym : forall x y, lt x y = true -> lt y x = false).
Context (le_trans : forall x y z, lt y x = false -> lt z y = false -> lt z x = false).

Abbreviation not_after := (fun x y => lt y x = false).

Lemma insert_sorted_sorted x l :
  StronglySorted not_after l -> StronglySorted not_after (insert_sorted lt x l).
Proof.
  induction 1 as [|y ys Hys IH Hy]; simpl; [repeat constructor|].
  case_if.
  - constructor; [done|]. rewrite (insert_sorted_perm lt x ys). constructor; auto.
  - constructor; [by constructor|]. constructor; [done|].
    eapply Forall_impl; [exact Hy|]. simpl. eauto.
Qed.

Lemma isort_sorted l : StronglySorted not_after (isort lt l).
Proof. induction l; simpl; [constructor|]. by apply insert_sorted_sorted. Qed.

(** Two orders of the same elements sort to the same list. *)
Lemma isort_unique l1 l2 :
  (forall x y, x ∈ l1 -> y ∈ l1 -> lt x y = false -> lt y x = false -> x = y) ->
  l1 ≡ₚ l2 -> isort lt l1 = isort lt l2.
Proof.
  intros Hanti Hp. eapply StronglySorted_unique_strong; [|apply isort_sorted..|].
  - intros x y Hx Hy H1 H2. rewrite isort_perm in Hx, Hy. rewrite <- Hp in Hy. by apply Hanti.
  - by rewrite !isort_perm.
Qed.
End isort_sorted.

Lemma isort_map {A B} (f : A -> B) (ltA : A -> A -> bool) (ltB : B -> B -> bool) l :
  (forall x y, ltB (f x) (f y) = ltA x y) ->
  isort ltB (map f l) = map f (isort ltA l).
Proof.
  intros Hf.
  assert (Hins : forall x l, insert_sorted ltB (f x) (map f l) = map f (insert_sorted ltA x l)).
  { intros x l'. induction l' as [|y ys IH]; simpl; [done|]. rewrite Hf.
    destruct (ltA y x); simpl; congruence. }
  induction l as [|x l IH]; simpl; [done|]. by rewrite IH, Hins.
Qed.

(** ** Lists *)

Lemma Forall_filter {A} (P Q : A -> Prop) `{forall x, Decision (P x)} l : Forall Q l -> Forall Q (filter P l).
Proof. rewrite !Forall_forall. intros HQ x [_ Hx]%list_elem_of_filter. by apply HQ. Qed.
