(* ===== verification/Std.v ===== *)
(** * The C++ standard library, as far as the daemon uses it

    [std::string] searches and slices, [std::from_chars], [std::map] with string
    keys, [std::getline] and whitespace-separated extraction.  Texts are Rocq
    [string]s (sequences of [char]); positions are [nat], with [npos] as [None]. *)

From Stdlib Require DecimalString.
From S2P Require Import Prelude.

(** An integer in decimal, as [QString::number] and [std::to_string] write it. *)
Definition number_text (z : Z) : string := DecimalString.NilZero.string_of_int (Z.to_int z).

(** ** Characters (the "C" locale) *)

Definition char_val (c : ascii) : Z := Z.of_N (N_of_ascii c).
Definition char_of (z : Z) : ascii := ascii_of_N (Z.to_N (z mod 256)).

Definition newline : ascii := "010"%char.
Definition quote : ascii := "034"%char.

Definition isdigit (c : ascii) : bool := (48 <=? char_val c) && (char_val c <=? 57).
Definition isspace (c : ascii) : bool := (char_val c =? 32) || ((9 <=? char_val c) && (char_val c <=? 13)).
Definition tolower (c : ascii) : ascii :=
  if (65 <=? char_val c) && (char_val c <=? 90) then char_of (char_val c + 32) else c.
Definition toupper (c : ascii) : ascii :=
  if (97 <=? char_val c) && (char_val c <=? 122) then char_of (char_val c - 32) else c.

(** ** [std::string] *)

Fixpoint str_forall (p : ascii -> bool) (s : string) : bool :=
  match s with EmptyString => true | String c r => p c && str_forall p r end.

Fixpoint str_map (f : ascii -> ascii) (s : string) : string :=
  match s with EmptyString => EmptyString | String c r => String (f c) (str_map f r) end.

(** [std::erase(s, c)] and the like: keep the characters satisfying [p]. *)
Fixpoint str_filter (p : ascii -> bool) (s : string) : string :=
  match s with
  | EmptyString => EmptyString
  | String c r => if p c then String c (str_filter p r) else str_filter p r
  end.

(** [s.find_if]: the first position satisfying [p]; [None] is [npos]. *)
Fixpoint find_if (p : ascii -> bool) (s : string) : option nat :=
  match s with
  | EmptyString => None
  | String c r => if p c then Some O else option_map S (find_if p r)
  end.

(** The last position satisfying [p]. *)
Fixpoint find_last_if (p : ascii -> bool) (s : string) : option nat :=
  match s with
  | EmptyString => None
  | String c r =>
      match find_last_if p r with
      | Some n => Some (S n)
      | None => if p c then Some O else None
      end
  end.

Definition is_char (c d : ascii) : bool := Ascii.eqb c d.
Definition find_char (c : ascii) (s : string) : option nat := find_if (is_char c) s.

Fixpoint str_take (n : nat) (s : string) : string :=
  match n, s with
  | S n', String c r => String c (str_take n' r)
  | _, _ => EmptyString
  end.

Fixpoint str_drop (n : nat) (s : string) : string :=
  match n, s with
  | O, _ => s
  | S n', String _ r => str_drop n' r
  | S _, EmptyString => EmptyString
  end.

(** [s.substr(pos, n)] *)
Definition substr (pos n : nat) (s : string) : string := str_take n (str_drop pos s).

Definition front (s : string) : option ascii := String.get 0 s.
Definition back (s : string) : option ascii := String.get (String.length s - 1) s.

(** [s.starts_with(p)], [s.ends_with(p)] *)
Definition starts_with (p s : string) : bool := String.prefix p s.
Definition ends_with (p s : string) : bool :=
  (String.length p <=? String.length s)%nat
  && String.eqb (str_drop (String.length s - String.length p) s) p.

(** [s.find(p) != npos] *)
Fixpoint contains (p s : string) : bool :=
  String.prefix p s
  || match s with EmptyString => false | String _ r => contains p r end.

(** The pieces of a text between separators: [n] separators give [n + 1] pieces. *)
Fixpoint split_on (c : ascii) (s : string) : list string :=
  match s with
  | EmptyString => [EmptyString]
  | String d r =>
      if is_char c d then EmptyString :: split_on c r
      else match split_on c r with
           | [] => [String d EmptyString]
           | w :: ws => String d w :: ws
           end
  end.

(** The inverse of [split_on]. *)
Fixpoint join_on (c : ascii) (l : list string) : string :=
  match l with
  | [] => EmptyString
  | [w] => w
  | w :: ws => (w ++ String c (join_on c ws))%string
  end.

(** [while (std::getline(in, line))]: no last empty line after a final newline. *)
Definition getlines (s : string) : list string :=
  match List.rev (split_on newline s) with
  | EmptyString :: ws => List.rev ws
  | ws => List.rev ws
  end.

(** [while (in >> token)] for [std::string] tokens. *)
Fixpoint tokens_go (cur : string) (s : string) : list string :=
  match s with
  | EmptyString => match cur with EmptyString => [] | _ => [cur] end
  | String c r =>
      if isspace c then
        match cur with EmptyString => tokens_go EmptyString r | _ => cur :: tokens_go EmptyString r end
      else tokens_go (cur ++ String c EmptyString)%string r
  end.
Definition tokens (s : string) : list string := tokens_go EmptyString s.

(** ** [std::from_chars] *)

Inductive from_chars_result :=
| FcInvalid                           (* std::errc::invalid_argument *)
| FcRange (rest : string)             (* std::errc::result_out_of_range *)
| FcOk (value : Z) (rest : string).   (* the value and the unparsed text *)

Definition digit_val (c : ascii) : Z :=
  let z := char_val c in
  if (48 <=? z) && (z <=? 57) then z - 48
  else if (97 <=? z) && (z <=? 122) then z - 87
  else if (65 <=? z) && (z <=? 90) then z - 55
  else 99.

(** The longest run of digits of the base: how many there were, their value, the rest. *)
Fixpoint digits_prefix (base : Z) (acc : Z) (s : string) : nat * Z * string :=
  match s with
  | String c r =>
      if digit_val c <? base then
        let '(n, v, rest) := digits_prefix base (acc * base + digit_val c) r in (S n, v, rest)
      else (O, acc, s)
  | EmptyString => (O, acc, s)
  end.

(** [std::from_chars(first, last, value, base)] for an unsigned type with maximum [hi]. *)
Definition from_chars_unsigned (base hi : Z) (s : string) : from_chars_result :=
  let '(n, v, rest) := digits_prefix base 0 s in
  if (n =? 0)%nat then FcInvalid else if v <=? hi then FcOk v rest else FcRange rest.

(** The same for [int]: a leading minus sign is accepted, a plus sign is not. *)
Definition from_chars_int (s : string) : from_chars_result :=
  match s with
  | String "-"%char r =>
      let '(n, v, rest) := digits_prefix 10 0 r in
      if (n =? 0)%nat then FcInvalid
      else if v <=? int32_max + 1 then FcOk (- v) rest else FcRange rest
  | _ => from_chars_unsigned 10 int32_max s
  end.

(** ** Lemmas on texts *)

Lemma char_val_range c : 0 <= char_val c < 256.
Proof. unfold char_val. pose proof (N_ascii_bounded c). lia. Qed.

Lemma char_of_val c : char_of (char_val c) = c.
Proof.
  unfold char_of. pose proof (char_val_range c). rewrite Z.mod_small by lia.
  unfold char_val. rewrite N2Z.id. apply ascii_N_embedding.
Qed.

Lemma is_char_true c d : is_char c d = true -> c = d.
Proof. apply Ascii.eqb_eq. Qed.

Lemma str_take_drop n s : (str_take n s ++ str_drop n s)%string = s.
Proof. revert s. induction n as [|n IH]; intros [|c s]; simpl; try done. by rewrite IH. Qed.

Lemma starts_with_app p s : starts_with p s = true <-> exists rest, s = (p ++ rest)%string.
Proof.
  unfold starts_with. revert s. induction p as [|c p IH]; intros s; cbn; [split; [by exists s|by destruct s]|].
  destruct s as [|d s]; [split; [done|by intros [??]]|].
  change (String.prefix (String c p) (String d s)) with (if Ascii.ascii_dec c d then String.prefix p s else false).
  destruct (Ascii.ascii_dec c d) as [->|Hne].
  - etransitivity; [apply IH|]. split; intros [rest Hr]; exists rest; [by rewrite Hr|by injection Hr].
  - split; [done|]. by intros [? [= ?]].
Qed.

Lemma str_forall_app p a b : str_forall p (a ++ b) = str_forall p a && str_forall p b.
Proof. induction a as [|c a IH]; simpl; [done|]. by rewrite IH, andb_assoc. Qed.

Lemma length_str_take n s : String.length (str_take n s) = Nat.min n (String.length s).
Proof. revert s. induction n as [|n IH]; intros [|c s]; simpl; try done. by rewrite IH. Qed.

Lemma find_if_None p s : find_if p s = None <-> str_forall (fun c => negb (p c)) s = true.
Proof.
  induction s as [|c s IH]; simpl; [done|]. destruct (p c); simpl; [done|].
  rewrite <- IH. destruct (find_if p s); simpl; done.
Qed.

(** The text before the first hit has no hit; the hit starts the rest. *)
Lemma find_if_Some p s n :
  find_if p s = Some n ->
  str_forall (fun c => negb (p c)) (str_take n s) = true /\
  exists c r, str_drop n s = String c r /\ p c = true.
Proof.
  revert n. induction s as [|c s IH]; simpl; [done|]. intros n.
  destruct (p c) eqn:E; [intros [= <-]; simpl; eauto|].
  destruct (find_if p s) as [k|]; simpl; [|done]. intros [= <-].
  destruct (IH k eq_refl) as [Ha Hb]. simpl. rewrite E. auto.
Qed.

(** The last hit: the text after it has none. *)
Lemma find_last_if_Some p s n :
  find_last_if p s = Some n ->
  exists a c b, s = (a ++ String c b)%string /\ String.length a = n /\ p c = true /\
                str_forall (fun d => negb (p d)) b = true.
Proof.
  revert n. induction s as [|c s IH]; simpl; [done|]. intros n.
  destruct (find_last_if p s) as [k|] eqn:E.
  - intros [= <-]. destruct (IH k eq_refl) as (a & d & b & -> & <- & ? & ?).
    exists (String c a), d, b. auto.
  - destruct (p c) eqn:Ec; [|done]. intros [= <-]. exists EmptyString, c, s.
    repeat split; auto. clear -E. induction s as [|d s IH]; simpl in *; [done|].
    destruct (find_last_if p s); [done|]. destruct (p d); [done|]. simpl. auto.
Qed.

Lemma find_last_if_None p s : find_last_if p s = None -> find_if p s = None.
Proof.
  induction s as [|c s IH]; simpl; [done|]. destruct (find_last_if p s); [done|].
  destruct (p c); [done|]. by rewrite IH.
Qed.

Lemma length_str_map f s : String.length (str_map f s) = String.length s.
Proof. induction s as [|c s IH]; simpl; [done|]. by rewrite IH. Qed.

Lemma str_take_app a b : str_take (String.length a) (a ++ b) = a.
Proof. induction a as [|c a IH]; simpl; [by destruct b|]. by rewrite IH. Qed.

Lemma str_drop_app a b : str_drop (String.length a) (a ++ b) = b.
Proof. induction a as [|c a IH]; simpl; [done|]. by rewrite IH. Qed.

Lemma str_drop_S n s c r : str_drop n s = String c r -> str_drop (S n) s = r.
Proof.
  revert s. induction n as [|n IH]; intros [|d s]; simpl; try done.
  - intros [= -> ->]. by destruct r.
  - apply IH.
Qed.

Lemma string_app_assoc (a b c : string) : ((a ++ b) ++ c)%string = (a ++ (b ++ c))%string.
Proof. induction a; simpl; congruence. Qed.

Lemma string_app_nil (a : string) : (a ++ "")%string = a.
Proof. induction a; simpl; congruence. Qed.

Lemma length_string_app (a b : string) : String.length (a ++ b) = (String.length a + String.length b)%nat.
Proof. induction a; simpl; congruence. Qed.

Lemma str_forall_impl (p q : ascii -> bool) s :
  (forall c, p c = true -> q c = true) -> str_forall p s = true -> str_forall q s = true.
Proof.
  intros Hpq. induction s as [|c s IH]; simpl; [done|]. intros H. bool_facts.
  rewrite Hpq, IH; done.
Qed.

Lemma str_forall_take p n s : str_forall p s = true -> str_forall p (str_take n s) = true.
Proof. revert s. induction n as [|n IH]; intros [|c s]; simpl; try done. intros H. bool_facts. by rewrite H, IH. Qed.

Lemma str_forall_drop p n s : str_forall p s = true -> str_forall p (str_drop n s) = true.
Proof. revert s. induction n as [|n IH]; intros [|c s]; simpl; try done. intros H. bool_facts. auto. Qed.

Lemma split_on_forall p c s : str_forall p s = true -> Forall (fun e => str_forall p e = true) (split_on c s).
Proof.
  induction s as [|d s IH]; simpl; [by repeat constructor|]. intros H. bool_facts.
  destruct (is_char c d); [by constructor; auto|].
  destruct (split_on c s) as [|w ws]; [constructor; [simpl; by rewrite H|constructor]|].
  specialize (IH H0). inversion IH; subst. constructor; [simpl; by rewrite H|done].
Qed.

Lemma find_if_app p a c b :
  str_forall (fun d => negb (p d)) a = true -> p c = true ->
  find_if p (a ++ String c b) = Some (String.length a).
Proof.
  intros Ha Hc. induction a as [|d a IH]; simpl in *; [by rewrite Hc|]. bool_facts.
  rewrite H. by rewrite IH.
Qed.

(** A text whose last character is [c]. *)
Lemma string_last s c :
  s <> ""%string -> String.get (String.length s - 1) s = Some c -> exists w, s = (w ++ String c "")%string.
Proof.
  induction s as [|d s IH]; [done|]. intros _. cbn [String.length].
  replace (S (String.length s) - 1)%nat with (String.length s) by lia.
  destruct s as [|e s]; [intros [= ->]; by exists ""%string|]. intros H.
  destruct IH as [w ->]; [done| |by exists (String d w)].
  cbn [String.length]. replace (S (String.length s) - 1)%nat with (String.length s) by lia. exact H.
Qed.

(** ** Lemmas on decimal numbers *)

(** The value of a text of decimal digits. *)
Fixpoint decimal_acc (acc : Z) (s : string) : Z :=
  match s with EmptyString => acc | String c r => decimal_acc (acc * 10 + (char_val c - 48)) r end.
Definition decimal (s : string) : Z := decimal_acc 0 s.

Lemma isdigit_digit_val c : isdigit c = true -> digit_val c = char_val c - 48 /\ 48 <= char_val c <= 57.
Proof.
  unfold isdigit, digit_val. intros H. rewrite H. bool_facts. lia.
Qed.

Lemma digits_prefix_digits acc s :
  str_forall isdigit s = true ->
  digits_prefix 10 acc s = (String.length s, decimal_acc acc s, EmptyString).
Proof.
  revert acc. induction s as [|c s IH]; intros acc H; simpl in *; [done|]. bool_facts.
  destruct (isdigit_digit_val c) as [-> ?]; [done|].
  rewrite (proj2 (Z.ltb_lt _ _)) by lia. by rewrite IH.
Qed.

Lemma decimal_acc_nonneg acc s : str_forall isdigit s = true -> 0 <= acc -> 0 <= decimal_acc acc s.
Proof.
  revert acc. induction s as [|c s IH]; simpl; intros acc H Ha; [done|]. bool_facts.
  apply IH; [done|]. destruct (isdigit_digit_val c); [done|]. lia.
Qed.

Lemma from_chars_unsigned_digits hi s :
  str_forall isdigit s = true -> s <> ""%string ->
  from_chars_unsigned 10 hi s = if decimal s <=? hi then FcOk (decimal s) "" else FcRange "".
Proof.
  intros Hd Hs. unfold from_chars_unsigned. rewrite digits_prefix_digits by done.
  destruct s as [|c s]; [done|]. reflexivity.
Qed.

Lemma digit_val_nonneg c : 0 <= digit_val c.
Proof. unfold digit_val. repeat case_if; bool_facts; lia. Qed.

Lemma digits_prefix_nonneg base acc s : 0 <= base -> 0 <= acc -> 0 <= (digits_prefix base acc s).1.2.
Proof.
  intros Hb. revert acc. induction s as [|c s IH]; intros acc Ha; simpl; [done|].
  pose proof (digit_val_nonneg c). case_if; [|done].
  specialize (IH (acc * base + digit_val c) ltac:(nia)).
  by destruct (digits_prefix base (acc * base + digit_val c) s) as [[? ?] ?].
Qed.

Lemma from_chars_int_plain c s :
  c <> "-"%char -> from_chars_int (String c s) = from_chars_unsigned 10 int32_max (String c s).
Proof. intros H. by destruct c as [[] [] [] [] [] [] [] []]. Qed.

Lemma from_chars_int_minus s :
  match from_chars_int (String "-" s) with FcOk v _ => v <= 0 | _ => True end.
Proof.
  cbn [from_chars_int]. pose proof (digits_prefix_nonneg 10 0 s ltac:(lia) ltac:(lia)) as H.
  destruct (digits_prefix 10 0 s) as [[n v] rest]. cbn in H.
  destruct (n =? 0)%nat; [done|]. case_if; [lia|done].
Qed.

(** ** [std::map<std::string, V>] *)

Lemma string_lt_trans a b c :
  String.compare a b = Lt -> String.compare b c = Lt -> String.compare a c = Lt.
Proof.
  revert b c. induction a as [|x a IH]; intros [|y b] [|z c]; simpl; try done.
  unfold Ascii.compare.
  destruct (N.compare_spec (N_of_ascii x) (N_of_ascii y)),
    (N.compare_spec (N_of_ascii y) (N_of_ascii z)),
    (N.compare_spec (N_of_ascii x) (N_of_ascii z)); try done; try lia; eauto.
Qed.

Lemma string_compare_refl a : String.compare a a = Eq.
Proof. induction a; simpl; [done|]. unfold Ascii.compare. by rewrite N.compare_refl. Qed.

Lemma string_gt_lt a b : String.compare a b = Gt -> String.compare b a = Lt.
Proof. intros H. rewrite String.compare_antisym, H. done. Qed.

Lemma string_ltb_compare a b : String.ltb a b = true <-> String.compare a b = Lt.
Proof. unfold String.ltb. by destruct (String.compare a b). Qed.

Lemma string_ltb_asym a b : String.ltb a b = true -> String.ltb b a = false.
Proof.
  rewrite string_ltb_compare. intros Hab. destruct (String.ltb b a) eqn:E; [|done]. rewrite string_ltb_compare in E.
  pose proof (string_lt_trans a b a Hab E) as Ht. by rewrite string_compare_refl in Ht.
Qed.

Lemma string_ltb_ge_trans a b c : String.ltb b a = false -> String.ltb c b = false -> String.ltb c a = false.
Proof.
  intros Hba Hcb. destruct (String.ltb c a) eqn:E; [|done]. rewrite string_ltb_compare in E.
  destruct (String.compare a b) eqn:Eab.
  - apply String.compare_eq_iff in Eab as ->. rewrite <- string_ltb_compare in E. congruence.
  - pose proof (string_lt_trans c a b E Eab) as Ht. rewrite <- string_ltb_compare in Ht. congruence.
  - apply string_gt_lt in Eab. rewrite <- string_ltb_compare in Eab. congruence.
Qed.

Section std_map.
Context {V : Type}.

(** The entries in key order. *)
Definition std_map := list (string * V).

Fixpoint map_find (k : string) (m : std_map) : option V :=
  match m with
  | [] => None
  | (k', v) :: r => if String.eqb k k' then Some v else map_find k r
  end.

(** [m[k] = v] *)
Fixpoint map_set (k : string) (v : V) (m : std_map) : std_map :=
  match m with
  | [] => [(k, v)]
  | (k', v') :: r =>
      match String.compare k k' with
      | Lt => (k, v) :: (k', v') :: r
      | Eq => (k, v) :: r
      | Gt => (k', v') :: map_set k v r
      end
  end.

(** [m.erase(k)] *)
Fixpoint map_erase (k : string) (m : std_map) : std_map :=
  match m with
  | [] => []
  | (k', v') :: r => if String.eqb k k' then r else (k', v') :: map_erase k r
  end.

(** Braced initialisation: the first of equal keys wins. *)
Definition map_of (l : list (string * V)) : std_map :=
  fold_left (fun m kv => match map_find kv.1 m with Some _ => m | None => map_set kv.1 kv.2 m end) l [].

Lemma map_find_set_eq k v m : map_find k (map_set k v m) = Some v.
Proof.
  induction m as [|[k' v'] r IH]; simpl; [by rewrite String.eqb_refl|].
  destruct (String.compare k k') eqn:E; simpl; try by rewrite String.eqb_refl.
  destruct (String.eqb_spec k k') as [->|]; [|done].
  rewrite (string_compare_refl k') in E. discriminate.
Qed.

Lemma map_find_set_ne k j v m : j <> k -> map_find j (map_set k v m) = map_find j m.
Proof.
  intros Hne. induction m as [|[k' v'] r IH]; simpl.
  - by destruct (String.eqb_spec j k).
  - destruct (String.compare k k') eqn:E; simpl; try (by rewrite IH).
    + apply String.compare_eq_iff in E as ->. by destruct (String.eqb_spec j k').
    + by destruct (String.eqb_spec j k).
Qed.

Lemma map_find_erase_ne k j m : j <> k -> map_find j (map_erase k m) = map_find j m.
Proof.
  intros Hne. induction m as [|[k' v'] r IH]; simpl; [done|].
  destruct (String.eqb_spec k k') as [->|]; simpl; [by destruct (String.eqb_spec j k')|].
  by rewrite IH.
Qed.

Definition keys (m : std_map) : list string := map fst m.

(** The container's invariant: keys strictly increase. *)
Definition map_sorted (m : std_map) : Prop :=
  StronglySorted (fun a b => String.compare a b = Lt) (keys m).

Lemma map_find_None k m : map_find k m = None <-> k ∉ keys m.
Proof.
  induction m as [|[k' v'] r IH]; simpl; [split; [intros _ H; inversion H|done]|].
  rewrite not_elem_of_cons. destruct (String.eqb_spec k k') as [->|]; [split; [done|tauto]|].
  rewrite IH. tauto.
Qed.

Lemma Forall_keys_set (P : string -> Prop) k v m :
  P k -> Forall P (keys m) -> Forall P (keys (map_set k v m)).
Proof.
  intros Hk. induction m as [|[k' v'] r IH]; simpl; [by constructor|].
  inversion 1; subst. destruct (String.compare k k'); simpl; auto.
Qed.

Lemma map_set_sorted k v m : map_sorted m -> map_sorted (map_set k v m).
Proof.
  unfold map_sorted. induction m as [|[k' v'] r IH]; simpl; [repeat constructor|].
  inversion 1 as [|? ? Hr Hk']; subst.
  destruct (String.compare k k') eqn:E; simpl.
  - apply String.compare_eq_iff in E as ->. by constructor.
  - constructor; [by constructor|]. constructor; [done|].
    eapply Forall_impl; [exact Hk'|]. simpl. intros. by eapply string_lt_trans.
  - constructor; [auto|]. apply Forall_keys_set; [|done].
    by apply string_gt_lt.
Qed.

Lemma map_sorted_nodup m : map_sorted m -> NoDup (keys m).
Proof.
  unfold map_sorted. induction 1 as [|k ks Hks IH Hk]; constructor; [|done].
  intros Hin. rewrite Forall_forall in Hk. apply Hk in Hin.
  by rewrite (string_compare_refl k) in Hin.
Qed.

Lemma map_of_sorted l : map_sorted (map_of l).
Proof.
  unfold map_of. assert (H : map_sorted []) by constructor. revert H.
  generalize (@nil (string * V)). induction l as [|kv l IH]; simpl; intros m Hm; [done|].
  apply IH. destruct (map_find kv.1 m); auto using map_set_sorted.
Qed.
End std_map.
Arguments std_map : clear implicits.

#[export] Hint Resolve map_set_sorted map_sorted_nodup map_of_sorted : dash.
#[export] Hint Rewrite @map_find_set_eq : dash.

(** Simplify lookups of concrete keys after [m[k] = v]. *)
Ltac map_simpl :=
  repeat first
    [ rewrite map_find_set_eq
    | rewrite map_find_set_ne by congruence
    | rewrite map_find_erase_ne by congruence ].
