(* ===== verification/Float64.v ===== *)
(** * IEEE-754 binary64

    The C++ [double] (and [qreal]) of the sources, as the standard library's
    specification floats at precision 53 and exponent bound 1024: the arithmetic
    rounds to nearest even and computes inside the kernel, without axioms.
    A NaN carries no payload.  The file has the comparisons, [std::clamp],
    [std::min]/[std::max], the conversion from integers and [std::bit_cast]
    to and from the 64-bit pattern, with the lemmas the components use. *)

From Stdlib Require Export Floats.SpecFloat.
From S2P Require Import Prelude.

Abbreviation double := spec_float.

Definition prec64 : Z := 53.
Definition emax64 : Z := 1024.

(** Representable values: normalised mantissa, exponent in range. *)
Definition valid64 (x : double) : bool := valid_binary prec64 emax64 x.

Definition dadd : double -> double -> double := SFadd prec64 emax64.
Definition dsub : double -> double -> double := SFsub prec64 emax64.
Definition dmul : double -> double -> double := SFmul prec64 emax64.
Definition ddiv : double -> double -> double := SFdiv prec64 emax64.
Definition dltb : double -> double -> bool := SFltb.
Definition dleb : double -> double -> bool := SFleb.
Definition deqb : double -> double -> bool := SFeqb.

(** [static_cast<double>] of an integer, rounding to nearest even. *)
Definition double_of_Z (z : Z) : double := binary_normalize prec64 emax64 z 0 false.

Definition d0 : double := S754_zero false.
Definition d1 : double := S754_finite false 4503599627370496 (-52).

Definition is_nan (x : double) : bool := match x with S754_nan => true | _ => false end.

(** [std::isfinite] *)
Definition isfinite (x : double) : bool :=
  match x with S754_zero _ | S754_finite _ _ _ => true | _ => false end.

(** [std::clamp(v, lo, hi)], [std::max(a, b)], [std::min(a, b)] *)
Definition clamp (v lo hi : double) : double :=
  if dltb v lo then lo else if dltb hi v then hi else v.
Definition dmax (a b : double) : double := if dltb a b then b else a.
Definition dmin (a b : double) : double := if dltb b a then b else a.

(** Whether the double is a ratio, [0.0 <= x && x <= 1.0]. *)
Definition in_unit (x : double) : bool := dleb d0 x && dleb x d1.

#[export] Instance double_eq_dec : EqDecision double.
Proof. solve_decision. Defined.

(** ** Comparisons *)

Lemma SFcompare_swap x y : SFcompare y x = option_map CompOpp (SFcompare x y).
Proof.
  destruct x as [sx|sx| |sx mx ex], y as [sy|sy| |sy my ey]; simpl;
    try (destruct sx); try (destruct sy); simpl; try reflexivity.
  - rewrite (Z.compare_antisym ey ex). destruct (ey ?= ex); simpl; try reflexivity.
    f_equal. change (CompOpp (my ?= mx)%positive = CompOpp (CompOpp (mx ?= my)%positive)).
    rewrite (Pos.compare_antisym mx my). destruct (mx ?= my)%positive; reflexivity.
  - rewrite (Z.compare_antisym ey ex). destruct (ey ?= ex); simpl; try reflexivity.
    f_equal. change ((my ?= mx)%positive = CompOpp (mx ?= my)%positive).
    apply Pos.compare_antisym.
Qed.

Lemma dltb_dleb x y : dltb x y = true -> dleb x y = true.
Proof. unfold dltb, dleb, SFltb, SFleb. destruct (SFcompare x y) as [[]|]; congruence. Qed.

Lemma not_dltb_dleb x y :
  is_nan x = false -> is_nan y = false -> dltb x y = false -> dleb y x = true.
Proof.
  unfold dltb, dleb, SFltb, SFleb. intros Hx Hy H.
  rewrite (SFcompare_swap x y).
  destruct (SFcompare x y) as [[]|] eqn:E; simpl; try congruence.
  exfalso. destruct x, y; simpl in *; congruence.
Qed.

Lemma dltb_trans x y z : dltb x y = true -> dltb y z = true -> dltb x z = true.
Proof.
  unfold dltb, SFltb. destruct x as [sx|[]| |[] m1 e1], y as [sy|[]| |[] m2 e2], z as [sz|[]| |[] m3 e3]; cbn; try done.
  all: repeat match goal with |- context [PosDef.Pos.compare_cont Eq ?a ?b] =>
      change (PosDef.Pos.compare_cont Eq a b) with (Pos.compare a b) end;
    destruct (Z.compare_spec e1 e2), (Z.compare_spec e2 e3), (Z.compare_spec e1 e3); try lia; try done;
    destruct (Pos.compare_spec m1 m2), (Pos.compare_spec m2 m3), (Pos.compare_spec m1 m3); (lia || done).
Qed.

Lemma dleb_dltb_trans x y z : dleb x y = true -> dltb y z = true -> dltb x z = true.
Proof.
  intros Hle Hlt. destruct (dltb x y) eqn:E; [by apply dltb_trans with y|].
  unfold dleb, dltb, SFleb, SFltb in *. destruct (SFcompare x y) as [[]|] eqn:Exy; try done. clear Hle E.
  destruct x as [sx|[]| |[] m1 e1], y as [sy|[]| |[] m2 e2], z as [sz|[]| |[] m3 e3]; cbn in *; try done.
  all: destruct (Z.compare_spec e1 e2) as [-> | |]; try done; injection Exy as Exy.
  all: change (Pos.compare m1 m2 = Eq) in Exy || (apply (f_equal CompOpp) in Exy; rewrite CompOpp_involutive in Exy; change (Pos.compare m1 m2 = Eq) in Exy).
  all: apply Pos.compare_eq in Exy; by subst.
Qed.

Lemma dltb_irrefl x : dltb x x = false.
Proof.
  pose proof (SFcompare_swap x x) as Hs. unfold dltb, SFltb. destruct (SFcompare x x) as [[]|]; by cbn in Hs.
Qed.

Lemma dleb_refl x : is_nan x = false -> dleb x x = true.
Proof.
  intros H. apply not_dltb_dleb; auto. unfold dltb, SFltb.
  destruct x as [[]|[]| |[] m e]; simpl; try reflexivity;
    rewrite Z.compare_refl; change (Pos.compare_cont Eq m m) with (m ?= m)%positive;
    rewrite Pos.compare_refl; reflexivity.
Qed.

(** A clamped value lies between the bounds, unless it is NaN. *)
Lemma clamp_bounds v lo hi :
  is_nan v = false -> is_nan lo = false -> is_nan hi = false -> dleb lo hi = true ->
  dleb lo (clamp v lo hi) = true /\ dleb (clamp v lo hi) hi = true.
Proof.
  intros Hv Hl Hh Hle. unfold clamp.
  destruct (dltb v lo) eqn:E1; [auto using dleb_refl|].
  destruct (dltb hi v) eqn:E2; [auto using dleb_refl|].
  auto using not_dltb_dleb.
Qed.

Lemma clamp_unit v : is_nan v = false -> in_unit (clamp v d0 d1) = true.
Proof.
  intros H. unfold in_unit. destruct (clamp_bounds v d0 d1) as [-> ->]; auto.
Qed.

Lemma in_unit_finite x : in_unit x = true -> isfinite x = true.
Proof. destruct x as [[]|[]| |[] ? ?]; try reflexivity; intros H; vm_compute in H; discriminate. Qed.

(** Ratios are neither negative nor above one, in the form the code tests. *)
Lemma in_unit_tests x : in_unit x = negb (dltb x d0) && negb (dltb d1 x) && negb (is_nan x).
Proof.
  unfold in_unit, dleb, dltb, SFleb, SFltb.
  rewrite (SFcompare_swap x d0), (SFcompare_swap x d1).
  destruct (is_nan x) eqn:Hn; [destruct x; try discriminate; reflexivity|].
  assert (Hd : forall y, is_nan y = false -> SFcompare x y <> None)
    by (intros y Hy; destruct x, y; try discriminate; simpl; congruence).
  pose proof (Hd d0 eq_refl) as H0. pose proof (Hd d1 eq_refl) as H1.
  destruct (SFcompare x d0) as [[]|], (SFcompare x d1) as [[]|]; try reflexivity; contradiction.
Qed.

Lemma isfinite_not_nan x : isfinite x = true -> is_nan x = false.
Proof. by destruct x. Qed.

(** ** Quotients are never NaN for a positive divisor *)

Definition nonneg (x : double) : bool :=
  match x with S754_zero _ | S754_finite false _ _ => true | _ => false end.

Lemma iter_pos_nonneg p r :
  0 <= shr_m r -> 0 <= shr_m (SpecFloat.iter_pos shr_1 p r).
Proof.
  assert (Hs : forall r, 0 <= shr_m r -> 0 <= shr_m (shr_1 r)).
  { intros [m a b]. simpl. destruct m as [|[]|]; simpl; lia. }
  revert r. induction p as [p IH|p IH|]; intros r Hr; simpl; auto.
Qed.

Lemma shr_nonneg r e n : 0 <= shr_m r -> 0 <= shr_m (fst (shr r e n)).
Proof. intros. destruct n; simpl; auto using iter_pos_nonneg. Qed.

Lemma shr_record_of_loc_m m l : shr_m (shr_record_of_loc m l) = m.
Proof. destruct l as [|[]]; reflexivity. Qed.

Lemma round_nearest_even_nonneg m l : 0 <= m -> 0 <= round_nearest_even m l.
Proof. intros. unfold round_nearest_even. destruct l as [|[]]; try lia. destruct (Z.even m); lia. Qed.

Lemma binary_round_aux_not_nan s m e l :
  0 <= m -> is_nan (binary_round_aux prec64 emax64 s m e l) = false.
Proof.
  intros Hm. unfold binary_round_aux, shr_fexp.
  destruct (shr (shr_record_of_loc m l) _ _) as [r1 e1] eqn:E1.
  destruct (shr (shr_record_of_loc (round_nearest_even _ _) _) _ _) as [r2 e2] eqn:E2.
  assert (H1 : 0 <= shr_m r1).
  { change r1 with (fst (r1, e1)). rewrite <- E1. apply shr_nonneg. by rewrite shr_record_of_loc_m. }
  assert (H2 : 0 <= shr_m r2).
  { change r2 with (fst (r2, e2)). rewrite <- E2. apply shr_nonneg.
    rewrite shr_record_of_loc_m. by apply round_nearest_even_nonneg. }
  destruct (shr_m r2); [done| |lia]. by case_if.
Qed.

Lemma ddiv_core_nonneg mx ex my ey :
  0 <= fst (fst (SFdiv_core_binary prec64 emax64 (Zpos mx) ex (Zpos my) ey)).
Proof.
  unfold SFdiv_core_binary.
  set (e' := Z.min _ _). set (m' := match ex - ey - e' with Z0 => _ | Zpos _ => _ | Zneg _ => _ end).
  assert (Hm : 0 <= m') by (unfold m'; destruct (ex - ey - e'); [|apply Z.shiftl_nonneg|]; lia).
  clearbody m' e'. pose proof (Z_div_mod m' (Zpos my) ltac:(lia)) as H.
  destruct (Z.div_eucl m' (Zpos my)) as [q r] eqn:E. destruct H as [H1 H2]. simpl. nia.
Qed.

(** [a / b] with finite [a] and positive finite [b] is a number. *)
Lemma ddiv_not_nan a sb mb eb :
  isfinite a = true -> is_nan (ddiv a (S754_finite sb mb eb)) = false.
Proof.
  intros Ha. destruct a as [s|s| |s m e]; try discriminate; [reflexivity|].
  unfold ddiv, SFdiv.
  pose proof (ddiv_core_nonneg m e mb eb) as Hm.
  destruct (SFdiv_core_binary prec64 emax64 (Zpos m) e (Zpos mb) eb) as [[q e'] l].
  by apply binary_round_aux_not_nan.
Qed.

(** ** [std::bit_cast<std::uint64_t>] *)

(** The interchange encoding: sign, biased exponent, fraction.  A NaN is written
    as the quiet NaN with an empty payload. *)
Definition bits_of_double (x : double) : Z :=
  match x with
  | S754_zero s => if s then 2 ^ 63 else 0
  | S754_infinity s => (if s then 2 ^ 63 else 0) + 2047 * 2 ^ 52
  | S754_nan => 2047 * 2 ^ 52 + 2 ^ 51
  | S754_finite s m e =>
      (if s then 2 ^ 63 else 0)
      + (if 2 ^ 52 <=? Zpos m then (e + 1075) * 2 ^ 52 + (Zpos m - 2 ^ 52) else Zpos m)
  end.

(** The inverse: what the 64-bit pattern denotes. *)
Definition double_of_bits (b : Z) : double :=
  let s := 2 ^ 63 <=? b in
  let r := if s then b - 2 ^ 63 else b in
  let e := r / 2 ^ 52 in
  let f := r mod 2 ^ 52 in
  if e =? 0 then
    match f with Zpos m => S754_finite s m (-1074) | _ => S754_zero s end
  else if e =? 2047 then (if f =? 0 then S754_infinity s else S754_nan)
  else match f + 2 ^ 52 with Zpos m => S754_finite s m (e - 1075) | _ => S754_nan end.

Lemma digits2_pos_size m : digits2_pos m = Pos.size m.
Proof. induction m; simpl; congruence. Qed.

Lemma digits2_bounds m :
  2 ^ (Zpos (digits2_pos m) - 1) <= Zpos m < 2 ^ Zpos (digits2_pos m).
Proof.
  rewrite digits2_pos_size. split.
  - pose proof (Pos.size_le m) as H.
    assert (H' : 2 ^ Zpos (Pos.size m) <= 2 * Zpos m).
    { change (2 * Zpos m) with (Zpos m~0). rewrite <- Pos2Z.inj_pow. exact H. }
    replace (Zpos (Pos.size m)) with (Z.succ (Zpos (Pos.size m) - 1)) in H' by lia.
    rewrite Z.pow_succ_r in H' by lia. lia.
  - pose proof (Pos.size_gt m) as H. rewrite <- Pos2Z.inj_pow. exact H.
Qed.

(** The mantissa and exponent ranges of a representable finite value. *)
Lemma valid64_finite s m e :
  valid64 (S754_finite s m e) = true ->
  (2 ^ 52 <= Zpos m < 2 ^ 53 /\ -1074 <= e <= 971) \/ (Zpos m < 2 ^ 52 /\ e = -1074).
Proof.
  unfold valid64, valid_binary, bounded, canonical_mantissa, fexp, emin, prec64, emax64.
  intros [H1 H2]%andb_true_iff. apply Z.eqb_eq in H1. apply Z.leb_le in H2.
  pose proof (digits2_bounds m) as [Hl Hu]. set (d := Zpos (digits2_pos m)) in *.
  assert (Hd : 0 < d) by (unfold d; lia).
  destruct (Z.le_gt_cases 53 d) as [Hge|Hlt].
  - assert (d = 53) by lia. rewrite H in Hl, Hu. left. change (53 - 1) with 52 in Hl. lia.
  - assert (He : e = -1074) by lia.
    assert (Zpos m < 2 ^ 52) by (eapply Z.lt_le_trans; [exact Hu|apply Z.pow_le_mono_r; lia]).
    right. lia.
Qed.

Lemma bits_of_double_range x :
  valid64 x = true -> 0 <= bits_of_double x <= uint64_max.
Proof.
  unfold uint64_max. destruct x as [[]|[]| |s m e]; intros Hv; unfold bits_of_double; try lia.
  apply valid64_finite in Hv. destruct (2 ^ 52 <=? Zpos m) eqn:E; bool_facts; destruct s; lia.
Qed.

Lemma double_of_bits_of_double x :
  valid64 x = true -> double_of_bits (bits_of_double x) = x.
Proof.
  destruct x as [[]|[]| |s m e]; intros Hv; try reflexivity.
  apply valid64_finite in Hv. unfold bits_of_double.
  set (r := if 2 ^ 52 <=? Zpos m then _ else _).
  assert (Hr : 0 <= r < 2 ^ 63) by (unfold r; destruct (2 ^ 52 <=? Zpos m) eqn:E; bool_facts; lia).
  unfold double_of_bits.
  assert (Hs : (2 ^ 63 <=? (if s then 2 ^ 63 else 0) + r) = s) by (destruct s; lia).
  rewrite Hs.
  replace (if s then (if s then 2 ^ 63 else 0) + r - 2 ^ 63 else (if s then 2 ^ 63 else 0) + r)
    with r by (destruct s; lia).
  clear Hs. unfold r; clear r Hr. destruct (2 ^ 52 <=? Zpos m) eqn:E; bool_facts.
  - assert (Hq : ((e + 1075) * 2 ^ 52 + (Zpos m - 2 ^ 52)) / 2 ^ 52 = e + 1075)
      by (rewrite Z.div_add_l, Z.div_small; lia).
    assert (Hf : ((e + 1075) * 2 ^ 52 + (Zpos m - 2 ^ 52)) mod 2 ^ 52 = Zpos m - 2 ^ 52)
      by (rewrite Z.add_comm, Z.mod_add, Z.mod_small; lia).
    rewrite Hq, Hf.
    destruct (e + 1075 =? 0) eqn:E0; bool_facts; [lia|].
    destruct (e + 1075 =? 2047) eqn:E1; bool_facts; [lia|].
    replace (Zpos m - 2 ^ 52 + 2 ^ 52) with (Zpos m) by lia. f_equal. lia.
  - rewrite Z.div_small, Z.mod_small by lia. destruct Hv as [?|[? ->]]; [lia|reflexivity].
Qed.

#[export] Hint Resolve double_of_bits_of_double bits_of_double_range : dash.
