(* ===== verification/FloatBounds.v ===== *)
(** * Bounds on rounded results

    What the sources rely on about [double] arithmetic: rounding respects powers of two,
    integer conversion is monotone, a quotient whose numerator is the smaller one is a
    ratio, and so is one minus a ratio.  A finite double is read as the integer multiple
    of 2^-1074 that it is. *)

From S2P Require Import Prelude.
From S2P Require Import Float64.

Lemma pow2_pos k : 0 <= k -> 0 < 2 ^ k.
Proof. intros. by apply Z.pow_pos_nonneg. Qed.

Lemma pow2_split a b c : 0 <= b -> 0 <= c -> a = b + c -> 2 ^ a = 2 ^ b * 2 ^ c.
Proof. intros ? ? ->. by apply Z.pow_add_r. Qed.

#[export] Hint Resolve pow2_pos : dash.

(** ** Digits *)

Lemma digits_bounds m : 0 < m -> 2 ^ (Zdigits2 m - 1) <= m < 2 ^ Zdigits2 m.
Proof. destruct m as [|p|p]; [lia| |lia]. intros _. apply digits2_bounds. Qed.

Lemma digits_nonneg m : 0 <= Zdigits2 m.
Proof. destruct m; cbn; lia. Qed.

Lemma digits_pos m : 0 < m -> 0 < Zdigits2 m.
Proof. destruct m; cbn; lia. Qed.

Lemma digits_le m k : 0 <= m -> 0 <= k -> m < 2 ^ k -> Zdigits2 m <= k.
Proof.
  intros Hm Hk H. destruct (Z.eq_dec m 0) as [->|]; [done|]. pose proof (digits_bounds m ltac:(lia)) as [Hl _].
  destruct (Z.le_gt_cases (Zdigits2 m) k); [done|].
  assert (2 ^ k <= 2 ^ (Zdigits2 m - 1)) by (apply Z.pow_le_mono_r; lia). lia.
Qed.

Lemma digits_ge m k : 0 <= k -> 2 ^ k <= m -> k + 1 <= Zdigits2 m.
Proof.
  intros Hk H. pose proof (pow2_pos k Hk). pose proof (digits_bounds m ltac:(lia)) as [_ Hu].
  destruct (Z.le_gt_cases (k + 1) (Zdigits2 m)); [done|].
  assert (2 ^ Zdigits2 m <= 2 ^ k) by (apply Z.pow_le_mono_r; [lia|pose proof (digits_nonneg m); lia]). lia.
Qed.

Lemma digits_eq m k : 0 <= k -> 2 ^ k <= m < 2 ^ (k + 1) -> Zdigits2 m = k + 1.
Proof.
  intros Hk [H1 H2]. pose proof (pow2_pos k Hk). apply Z.le_antisymm; [apply digits_le; lia|by apply digits_ge].
Qed.

Lemma digits_shift m k : 0 < m -> 0 <= k -> Zdigits2 (m * 2 ^ k) = Zdigits2 m + k.
Proof.
  intros Hm Hk. pose proof (digits_bounds m Hm) as [Hl Hu]. pose proof (digits_pos m Hm) as Hd.
  pose proof (pow2_pos k Hk). replace (Zdigits2 m + k) with ((Zdigits2 m - 1 + k) + 1) by lia.
  apply digits_eq; [lia|]. rewrite (Z.pow_add_r 2 (Zdigits2 m - 1)) by lia.
  rewrite (pow2_split (Zdigits2 m - 1 + k + 1) (Zdigits2 m) k) by lia. nia.
Qed.

(** ** Shifting with a round and a sticky bit *)

Lemma iter_pos_nat {A} (f : A -> A) n x : SpecFloat.iter_pos f n x = Nat.iter (Pos.to_nat n) f x.
Proof.
  revert x. induction n as [n IH|n IH|]; intros x; cbn [SpecFloat.iter_pos]; [| |done].
  - rewrite !IH, <- Nat.iter_add. replace (Pos.to_nat n~1) with (S (Pos.to_nat n + Pos.to_nat n))%nat by lia.
    by rewrite Nat.iter_succ_r.
  - rewrite !IH, <- Nat.iter_add. f_equal. lia.
Qed.

(** The record after a shift by [k] describes [m * 2^k + rest], [0 <= rest < 2^k], and
    something in between when the sticky bit came from outside. *)
Definition shifted (m0 : Z) (exact : bool) (k : nat) (r : shr_record) : Prop :=
  exists rest, m0 = shr_m r * 2 ^ Z.of_nat k + rest /\ 0 <= rest < 2 ^ Z.of_nat k /\
    (shr_r r = false /\ shr_s r = false -> rest = 0 /\ exact = true) /\
    (exact = true -> (shr_r r = true <-> 2 ^ Z.of_nat k <= 2 * rest /\ (0 < k)%nat) /\
                     (shr_s r = true <-> rest <> 0 /\ 2 * rest <> 2 ^ Z.of_nat k)).

Lemma shr_1_eq r : 0 <= shr_m r ->
  shr_m (shr_1 r) = shr_m r / 2 /\ shr_r (shr_1 r) = Z.odd (shr_m r) /\ shr_s (shr_1 r) = (shr_r r || shr_s r)%bool.
Proof.
  destruct r as [m b s]. cbn [shr_m shr_r shr_s]. intros Hm. rewrite <- Z.div2_div.
  by destruct m as [|[p|p|]|p]; try lia.
Qed.

Lemma shifted_step m0 exact k r : 0 <= shr_m r -> shifted m0 exact k r -> shifted m0 exact (S k) (shr_1 r).
Proof.
  intros Hm (rest & E & Hrest & Hex & Hbits). destruct (shr_1_eq r Hm) as (E1 & E2 & E3).
  pose proof (Z.div_mod (shr_m r) 2 ltac:(lia)) as Hdm. rewrite Zmod_odd in Hdm.
  set (P := 2 ^ Z.of_nat k) in *. assert (HP : 0 < P) by (apply pow2_pos; lia).
  assert (HS : 2 ^ Z.of_nat (S k) = 2 * P) by (rewrite Nat2Z.inj_succ, Z.pow_succ_r by lia; done).
  exists ((if Z.odd (shr_m r) then P else 0) + rest). rewrite HS, E1, E2, E3.
  destruct (Z.odd (shr_m r)).
  - split; [nia|]. split; [lia|]. split; [by intros [? _]|]. intros He. destruct (Hbits He) as [Hr Hs]. split.
    + split; [intros _; split; lia|done].
    + rewrite orb_true_iff, Hr, Hs. destruct (Z.eq_dec rest 0) as [->|Hn].
      * split; [intros [[? ?]|[? ?]]; lia|lia].
      * split; [intros _; lia|intros _].
        destruct k; [unfold P in *; cbn in *; lia|]. destruct (Z.eq_dec (2 * rest) P); [left; lia|right; lia].
  - split; [nia|]. split; [lia|]. split.
    + intros [_ [Hr Hs]%orb_false_iff]. destruct (Hex (conj Hr Hs)). split; [lia|done].
    + intros He. destruct (Hbits He) as [Hr Hs]. split.
      * split; [done|]. intros [? _]. lia.
      * rewrite orb_true_iff, Hr, Hs. split; [intros [[? ?]|[? ?]]; lia|]. intros [H1 H2].
        destruct k; [unfold P in *; cbn in *; lia|]. destruct (Z.eq_dec (2 * rest) P); [left; lia|right; lia].
Qed.

Lemma shifted_iter m0 exact k r : 0 <= m0 ->
  shifted m0 exact 0 r -> shifted m0 exact k (Nat.iter k shr_1 r) /\ 0 <= shr_m (Nat.iter k shr_1 r).
Proof.
  intros H0 H. assert (Hm : 0 <= shr_m r) by (destruct H as (rest & -> & Hr & _); cbn in *; lia).
  induction k as [|k [IH1 IH2]]; [done|]. change (Nat.iter (S k) shr_1 r) with (shr_1 (Nat.iter k shr_1 r)). split.
  - by apply shifted_step.
  - rewrite (proj1 (shr_1_eq _ IH2)). by apply Z.div_pos.
Qed.

(** ** One rounding *)

Abbreviation fexp64 := (fexp prec64 emax64).

Lemma fexp64_eq e : fexp64 e = Z.max (e - 53) (-1074).
Proof. done. Qed.

Definition is_exact (l : location) : bool := match l with loc_Exact => true | _ => false end.

Lemma shifted_start m l : shifted m (is_exact l) 0 (shr_record_of_loc m l).
Proof.
  exists 0. rewrite shr_record_of_loc_m. cbn. split; [lia|]. split; [lia|]. split.
  - by destruct l as [|[]]; cbn; intros [? ?].
  - destruct l as [|]; cbn; [|done]. intros _. split; split; try done; lia.
Qed.

Lemma shr_fexp_first m e l : 0 <= m -> e <= fexp64 (Zdigits2 m + e) ->
  exists r, shr_fexp prec64 emax64 m e l = (r, fexp64 (Zdigits2 m + e)) /\
    shifted m (is_exact l) (Z.to_nat (fexp64 (Zdigits2 m + e) - e)) r /\ 0 <= shr_m r.
Proof.
  intros Hm He. unfold shr_fexp. set (E := fexp64 _) in *. clearbody E.
  unfold shr. destruct (E - e) as [|p|p] eqn:Ep; [| |lia].
  - exists (shr_record_of_loc m l). replace e with E by lia. split; [done|]. split; [apply shifted_start|].
    by rewrite shr_record_of_loc_m.
  - exists (SpecFloat.iter_pos shr_1 p (shr_record_of_loc m l)). split; [f_equal; lia|].
    rewrite iter_pos_nat. apply shifted_iter; [done|apply shifted_start].
Qed.

(** What [round_nearest_even] makes of a shifted record. *)
Lemma round_record m exact k r : 0 <= shr_m r -> shifted m exact k r ->
  let N := round_nearest_even (shr_m r) (loc_of_shr_record r) in
  shr_m r = m / 2 ^ Z.of_nat k /\ shr_m r <= N <= shr_m r + 1 /\
  (exact = true -> m = shr_m r * 2 ^ Z.of_nat k -> N = shr_m r) /\
  (exact = true -> - 2 ^ Z.of_nat k <= 2 * (N * 2 ^ Z.of_nat k - m) <= 2 ^ Z.of_nat k).
Proof.
  intros Hr (rest & E & Hrest & Hex & Hbits) N. set (P := 2 ^ Z.of_nat k) in *.
  assert (HP : 0 < P) by (apply pow2_pos; lia).
  split; [rewrite E, Z.div_add_l, Z.div_small; lia|].
  assert (HN : shr_m r <= N <= shr_m r + 1).
  { unfold N, round_nearest_even. destruct (loc_of_shr_record r) as [|[]]; try lia. destruct (Z.even _); lia. }
  split; [done|]. split.
  - intros He Hm. assert (rest = 0) by lia. subst rest. destruct (Hbits He) as [Hb Hs]. unfold N, loc_of_shr_record.
    destruct r as [mr [] []]; cbn [shr_m shr_r shr_s] in *; try done;
      first [destruct (proj1 Hb eq_refl); lia|destruct (proj1 Hs eq_refl); lia].
  - intros He. destruct (Hbits He) as [Hb Hs].
    assert (HN2 : 2 * rest < P -> N = shr_m r).
    { intros Hlt. unfold N, loc_of_shr_record. destruct r as [mr [] []]; cbn [shr_m shr_r shr_s] in *; try done;
        first [destruct (proj1 Hb eq_refl); lia|destruct (proj1 Hs eq_refl); lia]. }
    assert (HN3 : P < 2 * rest -> N = shr_m r + 1).
    { intros Hlt. unfold N, loc_of_shr_record.
      assert (Hk : (0 < k)%nat) by (destruct k; [unfold P in *; cbn in *; lia|lia]).
      assert (shr_r r = true) by (apply Hb; lia). assert (shr_s r = true) by (apply Hs; lia).
      destruct r as [mr [] []]; cbn [shr_m shr_r shr_s] in *; done. }
    rewrite E. destruct (Z.lt_trichotomy (2 * rest) P) as [H|[H|H]].
    + rewrite HN2 by done. nia.
    + nia.
    + rewrite HN3 by done. nia.
Qed.

(** The outcome of a rounding: the rounded mantissa at the final exponent. *)
Definition finish (s : bool) (N E : Z) : double :=
  let pack m e := if e <=? 971 then S754_finite s m e else S754_infinity s in
  if N =? 2 ^ 53 then pack (Z.to_pos (2 ^ 52)) (E + 1)
  else match N with Zpos m => pack m E | _ => S754_zero s end.

Lemma binary_round_aux_eq s m e l : 0 <= m -> e <= fexp64 (Zdigits2 m + e) ->
  let E := fexp64 (Zdigits2 m + e) in let P := 2 ^ (E - e) in
  exists N, binary_round_aux prec64 emax64 s m e l = finish s N E /\
    0 <= m / P < 2 ^ 53 /\ m / P <= N <= m / P + 1 /\
    (is_exact l = true -> m = m / P * P -> N = m / P) /\
    (is_exact l = true -> - P <= 2 * (N * P - m) <= P).
Proof.
  intros Hm He E P. destruct (shr_fexp_first m e l Hm He) as (r & Er & Hsh & Hr0). fold E in Er, Hsh.
  destruct (round_record m _ _ r Hr0 Hsh) as (E1 & HN & Hex & Hhalf). cbv zeta in Hex, Hhalf.
  rewrite Z2Nat.id in * by lia. fold P in E1, Hex, Hhalf.
  set (N := round_nearest_even (shr_m r) (loc_of_shr_record r)) in *. exists N. rewrite E1 in HN, Hex.
  assert (HE : -1074 <= E) by (unfold E; rewrite fexp64_eq; lia).
  assert (HP : 0 < P) by (apply pow2_pos; lia).
  assert (H53 : m / P < 2 ^ 53).
  { apply Z.div_lt_upper_bound; [done|]. destruct (Z.eq_dec m 0) as [->|]; [lia|].
    pose proof (digits_bounds m ltac:(lia)) as [_ Hu]. pose proof (digits_nonneg m).
    unfold P. rewrite <- Z.pow_add_r by lia. eapply Z.lt_le_trans; [exact Hu|]. apply Z.pow_le_mono_r; [lia|].
    unfold E. rewrite fexp64_eq. lia. }
  assert (H0 : 0 <= m / P) by (apply Z.div_pos; lia).
  split; [|auto].
  unfold binary_round_aux. rewrite Er. cbv beta iota. fold N.
  unfold shr_fexp, finish. destruct (N =? 2 ^ 53) eqn:EN.
  - apply Z.eqb_eq in EN. rewrite EN. change (Zdigits2 (2 ^ 53)) with 54.
    replace (fexp64 (54 + E) - E) with 1 by (rewrite fexp64_eq; lia). done.
  - apply Z.eqb_neq in EN. assert (Zdigits2 N <= 53) by (apply digits_le; lia).
    unfold shr. destruct (fexp64 (Zdigits2 N + E) - E) as [|q|q] eqn:Eq; [| |].
    + cbn [shr_record_of_loc shr_m]. destruct N; [done|done|lia].
    + rewrite fexp64_eq in Eq. lia.
    + cbn [shr_record_of_loc shr_m]. destruct N; [done|done|lia].
Qed.

(** ** The value of a finite double *)

(** A finite non-negative double is this multiple of 2^-1074. *)
Definition scaled (x : double) : Z :=
  match x with S754_finite _ m e => Zpos m * 2 ^ (e + 1074) | _ => 0 end.

(** [x] is a representable non-negative number with that value. *)
Definition value_is (x : double) (v : Z) : Prop :=
  valid64 x = true /\ nonneg x = true /\ scaled x = v.

Lemma nonneg_finite x : nonneg x = true -> isfinite x = true.
Proof. by destruct x as [| | |[]]. Qed.

Lemma finish_value N E :
  0 <= N <= 2 ^ 53 -> -1074 <= E <= 970 -> (2 ^ 52 <= N \/ E = -1074) ->
  value_is (finish false N E) (N * 2 ^ (E + 1074)).
Proof.
  intros HN HE Hnorm. unfold finish. destruct (N =? 2 ^ 53) eqn:E1.
  - apply Z.eqb_eq in E1. subst N. rewrite (proj2 (Z.leb_le _ _)) by lia. split; [|split; [done|]].
    + cbn [valid64 valid_binary]. unfold bounded, canonical_mantissa. apply andb_true_iff. split.
      * apply Z.eqb_eq. change (Zpos (digits2_pos (Z.to_pos (2 ^ 52)))) with 53. rewrite fexp64_eq. lia.
      * apply Z.leb_le. unfold prec64, emax64. lia.
    + cbn [scaled]. rewrite (Z.add_comm E 1), <- Z.add_assoc, (Z.pow_add_r 2 1) by lia.
      change (Zpos (Z.to_pos (2 ^ 52))) with (2 ^ 52). change (2 ^ 53) with (2 ^ 52 * 2 ^ 1). lia.
  - apply Z.eqb_neq in E1. destruct N as [|m|m]; [done| |lia]. rewrite (proj2 (Z.leb_le _ _)) by lia.
    split; [|split; [done|done]]. cbn [valid64 valid_binary]. unfold bounded, canonical_mantissa.
    apply andb_true_iff. split; [|apply Z.leb_le; unfold prec64, emax64; lia]. apply Z.eqb_eq.
    change (Zpos (digits2_pos m)) with (Zdigits2 (Zpos m)). rewrite fexp64_eq.
    assert (Hd : Zdigits2 (Zpos m) <= 53) by (apply digits_le; lia).
    destruct Hnorm as [H|H]; [|subst; pose proof (digits_pos (Zpos m)); lia].
    rewrite (digits_eq (Zpos m) 52) by lia. lia.
Qed.

(** A rounding that does not overflow. *)
Lemma round_value m e l : 0 <= m -> e <= fexp64 (Zdigits2 m + e) -> fexp64 (Zdigits2 m + e) <= 970 ->
  let E := fexp64 (Zdigits2 m + e) in let P := 2 ^ (E - e) in
  exists N, value_is (binary_round_aux prec64 emax64 false m e l) (N * 2 ^ (E + 1074)) /\
    m / P <= N <= m / P + 1 /\
    (is_exact l = true -> m = m / P * P -> N = m / P) /\
    (is_exact l = true -> - P <= 2 * (N * P - m) <= P).
Proof.
  intros Hm He HE E P. destruct (binary_round_aux_eq false m e l Hm He) as (N & -> & H1 & H2 & H3 & H4).
  fold E in H1, H2, H3, H4 |- *. fold P in H1, H2, H3, H4. exists N. split; [|auto]. assert (H1074 : -1074 <= E) by (unfold E; rewrite fexp64_eq; lia).
  apply finish_value; [lia|lia|]. destruct (Z.eq_dec E (-1074)) as [|Hne]; [by right|left].
  destruct (Z.eq_dec m 0) as [->|]; [unfold E in *; rewrite fexp64_eq in *; cbn in *; lia|].
  pose proof (digits_bounds m ltac:(lia)) as [Hl _]. transitivity (m / P); [|lia].
  assert (HP : 0 < P) by (apply pow2_pos; lia). apply Z.div_le_lower_bound; [done|].
  unfold P. rewrite <- Z.pow_add_r by lia.
  replace (E - e + 52) with (Zdigits2 m - 1) by (unfold E in *; rewrite fexp64_eq in *; lia). lia.
Qed.

(** Rounding does not cross a power of two upwards ... *)
Lemma round_le_pow2 m e l k :
  0 <= m -> e <= fexp64 (Zdigits2 m + e) -> e <= k -> -1074 <= k <= 1022 ->
  m < 2 ^ (k - e) \/ (m = 2 ^ (k - e) /\ is_exact l = true) ->
  exists v, value_is (binary_round_aux prec64 emax64 false m e l) v /\ 0 <= v <= 2 ^ (k + 1074).
Proof.
  intros Hm He Hek Hk Hb. set (E := fexp64 (Zdigits2 m + e)) in *.
  assert (Hpk : 0 < 2 ^ (k - e)) by (apply pow2_pos; lia).
  assert (HEk : E <= k /\ E <= 970).
  { unfold E. rewrite fexp64_eq. destruct Hb as [Hb|[-> _]].
    - pose proof (digits_le m (k - e) Hm ltac:(lia) Hb). lia.
    - rewrite (digits_eq _ (k - e)); [lia|lia|]. rewrite (Z.pow_add_r 2 (k - e)) by lia. lia. }
  destruct (round_value m e l Hm He ltac:(fold E; lia)) as (N & HN & H2 & H3 & _). fold E in HN, H2, H3.
  exists (N * 2 ^ (E + 1074)). split; [done|].
  assert (HE : -1074 <= E) by (unfold E; rewrite fexp64_eq; lia).
  set (P := 2 ^ (E - e)) in *. assert (HP : 0 < P) by (apply pow2_pos; lia).
  assert (Hsplit : 2 ^ (k - e) = P * 2 ^ (k - E)) by (unfold P; apply pow2_split; lia).
  assert (H0 : 0 <= m / P) by (apply Z.div_pos; lia).
  assert (HNk : N <= 2 ^ (k - E)).
  { destruct Hb as [Hb|[Hb Hex]].
    - assert (m / P < 2 ^ (k - E)) by (apply Z.div_lt_upper_bound; lia). lia.
    - assert (Hd : m / P = 2 ^ (k - E)) by (rewrite Hb, Hsplit, Z.mul_comm, Z.div_mul; lia).
      rewrite H3; [lia|done|lia]. }
  assert (0 < 2 ^ (E + 1074)) by (apply pow2_pos; lia). split; [nia|].
  rewrite (pow2_split (k + 1074) (k - E) (E + 1074)) by lia. nia.
Qed.

(** ... nor downwards. *)
Lemma round_ge_pow2 m e l k v :
  0 <= m -> e <= fexp64 (Zdigits2 m + e) -> fexp64 (Zdigits2 m + e) <= 970 -> e <= k -> -1074 <= k ->
  2 ^ (k - e) <= m -> value_is (binary_round_aux prec64 emax64 false m e l) v -> 2 ^ (k + 1074) <= v.
Proof.
  intros Hm He HE970 Hek Hk Hb (_ & _ & Hv). destruct (round_value m e l Hm He HE970) as (N & (_ & _ & HN) & H2 & _).
  rewrite HN in Hv. subst v. set (E := fexp64 (Zdigits2 m + e)) in *.
  assert (HE : -1074 <= E) by (unfold E; rewrite fexp64_eq; lia).
  set (P := 2 ^ (E - e)) in *. assert (HP : 0 < P) by (apply pow2_pos; lia).
  assert (Hpk : 0 < 2 ^ (k - e)) by (apply pow2_pos; lia).
  assert (H1 : 0 < 2 ^ (E + 1074)) by (apply pow2_pos; lia).
  destruct (Z.le_gt_cases E k) as [Hle|Hgt].
  - assert (2 ^ (k - E) <= m / P).
    { apply Z.div_le_lower_bound; [done|]. unfold P. rewrite <- Z.pow_add_r by lia. by replace (E - e + (k - E)) with (k - e) by lia. }
    rewrite (pow2_split (k + 1074) (k - E) (E + 1074)) by lia. nia.
  - assert (1 <= m / P).
    { apply Z.div_le_lower_bound; [done|]. pose proof (digits_bounds m ltac:(lia)) as [Hl _].
      rewrite Z.mul_1_r. unfold P. etransitivity; [|exact Hl]. apply Z.pow_le_mono_r; [lia|].
      unfold E in *. rewrite fexp64_eq in *. lia. }
    assert (2 ^ (k + 1074) <= 2 ^ (E + 1074)) by (apply Z.pow_le_mono_r; lia). nia.
Qed.

(** ** Conversion of integers *)

Lemma pos_iter_xO m d : Zpos (Pos.iter xO m d) = Zpos m * 2 ^ Zpos d.
Proof.
  induction d as [|d IH] using Pos.peano_ind; [cbn; lia|].
  rewrite Pos.iter_succ, Pos2Z.inj_xO, IH, Pos2Z.inj_succ, Z.pow_succ_r by lia. lia.
Qed.

Lemma shl_align_eq m e e' :
  snd (shl_align m e e') = Z.min e e' /\ Zpos (fst (shl_align m e e')) = Zpos m * 2 ^ (e - Z.min e e').
Proof.
  unfold shl_align. destruct (e' - e) as [|p|p] eqn:E; cbn [fst snd].
  - replace (Z.min e e') with e by lia. rewrite Z.sub_diag. lia.
  - replace (Z.min e e') with e by lia. rewrite Z.sub_diag. lia.
  - replace (Z.min e e') with e' by lia. split; [done|]. rewrite pos_iter_xO. repeat f_equal. lia.
Qed.

(** [binary_round] aligns first, exactly. *)
Lemma binary_round_eq s m e :
  let E := fexp64 (Zdigits2 (Zpos m) + e) in let ez := Z.min e E in let mz := Zpos m * 2 ^ (e - ez) in
  binary_round prec64 emax64 s m e = binary_round_aux prec64 emax64 s mz ez loc_Exact /\
  Zdigits2 mz + ez = Zdigits2 (Zpos m) + e.
Proof.
  intros E ez mz. unfold binary_round. change (Zpos (digits2_pos m)) with (Zdigits2 (Zpos m)).
  destruct (shl_align_eq m e E) as [H1 H2]. fold E. fold ez in H1, H2. fold mz in H2.
  destruct (shl_align m e E) as [mz' ez']. cbn [fst snd] in *. subst ez'. rewrite H2. split; [done|].
  unfold mz. rewrite digits_shift by lia. lia.
Qed.

Section integers.
Context (n : Z) (Hn : 0 < n <= 2 ^ 64).
Abbreviation E := (fexp64 (Zdigits2 n)).
Abbreviation ez := (Z.min 0 E).

Lemma double_of_Z_round :
  double_of_Z n = binary_round_aux prec64 emax64 false (n * 2 ^ (- ez)) ez loc_Exact /\
  Zdigits2 (n * 2 ^ (- ez)) + ez = Zdigits2 n /\ 0 < n * 2 ^ (- ez).
Proof.
  destruct n as [|p|]; [lia| |lia]. unfold double_of_Z, binary_normalize.
  destruct (binary_round_eq false p 0) as [-> H]. rewrite Z.add_0_r in *. rewrite Z.sub_0_l in *. split; [done|].
  split; [done|]. assert (0 < 2 ^ (- Z.min 0 (fexp64 (Zdigits2 (Zpos p))))) by (apply pow2_pos; lia). lia.
Qed.

Lemma integer_digits : 1 <= Zdigits2 n <= 65.
Proof. pose proof (digits_pos n). pose proof (digits_le n 65). lia. Qed.

Lemma integer_bounds : exists v, value_is (double_of_Z n) v /\ 2 ^ (Zdigits2 n - 1 + 1074) <= v <= 2 ^ (Zdigits2 n + 1074).
Proof.
  destruct double_of_Z_round as (-> & Hd & Hp). pose proof integer_digits as Hg.
  pose proof (digits_bounds n ltac:(lia)) as [Hl Hu].
  assert (HE : ez <= fexp64 (Zdigits2 n)) by lia.
  assert (H2 : 0 < 2 ^ (- ez)) by (apply pow2_pos; lia).
  destruct (round_le_pow2 (n * 2 ^ (- ez)) ez loc_Exact (Zdigits2 n)) as (v & Hv & Hle); rewrite ?Hd; try lia.
  - left. rewrite (pow2_split (Zdigits2 n - ez) (Zdigits2 n) (- ez)) by lia. nia.
  - exists v. split; [done|]. split; [|lia].
    eapply (round_ge_pow2 (n * 2 ^ (- ez)) ez loc_Exact); rewrite ?Hd; try lia; try done.
    + rewrite fexp64_eq. lia.
    + rewrite (pow2_split (Zdigits2 n - 1 - ez) (Zdigits2 n - 1) (- ez)) by (rewrite ?fexp64_eq; lia). nia.
Qed.
End integers.

Lemma double_of_Z_0 : value_is (double_of_Z 0) 0.
Proof. done. Qed.

(** The conversion is monotone. *)
Lemma double_of_Z_mono a b : 0 <= a -> a <= b -> b <= 2 ^ 64 ->
  exists va vb, value_is (double_of_Z a) va /\ value_is (double_of_Z b) vb /\ 0 <= va <= vb.
Proof.
  intros H0 Hab Hb. destruct (Z.eq_dec a 0) as [->|Ha].
  { destruct (Z.eq_dec b 0) as [->|]; [exists 0, 0; split; [apply double_of_Z_0|]; split; [apply double_of_Z_0|lia]|].
    destruct (integer_bounds b ltac:(lia)) as (vb & Hvb & Hl & _). exists 0, vb. split; [apply double_of_Z_0|]. split; [done|].
    pose proof (integer_digits b ltac:(lia)). assert (0 < 2 ^ (Zdigits2 b - 1 + 1074)) by (apply pow2_pos; lia). lia. }
  destruct (integer_bounds a ltac:(lia)) as (va & Hva & Hal & Hau).
  destruct (integer_bounds b ltac:(lia)) as (vb & Hvb & Hbl & Hbu).
  pose proof (integer_digits a ltac:(lia)) as Hda. pose proof (integer_digits b ltac:(lia)) as Hdb.
  assert (Hd : Zdigits2 a <= Zdigits2 b).
  { pose proof (digits_bounds b ltac:(lia)) as [_ Hu]. apply digits_le; lia. }
  exists va, vb. split; [done|]. split; [done|].
  assert (H0a : 0 < 2 ^ (Zdigits2 a - 1 + 1074)) by (apply pow2_pos; lia). split; [lia|].
  destruct (Z.eq_dec (Zdigits2 a) (Zdigits2 b)) as [Heq|Hne].
  2: { assert (2 ^ (Zdigits2 a + 1074) <= 2 ^ (Zdigits2 b - 1 + 1074)) by (apply Z.pow_le_mono_r; lia). lia. }
  destruct (Z.eq_dec a b) as [->|Hab'].
  { destruct Hva as (_ & _ & <-), Hvb as (_ & _ & <-). lia. }
  destruct (double_of_Z_round a ltac:(lia)) as (Ea & Hdga & Hpa).
  destruct (double_of_Z_round b ltac:(lia)) as (Eb & Hdgb & Hpb). rewrite Heq in *.
  set (E := fexp64 (Zdigits2 b)) in *. set (ez := Z.min 0 E) in *.
  assert (HE : -1074 <= E <= 12) by (unfold E; rewrite fexp64_eq; lia).
  destruct (round_value (a * 2 ^ (- ez)) ez loc_Exact) as (Na & HNa & _ & _ & Hha); rewrite ?Hdga; fold E; try lia.
  destruct (round_value (b * 2 ^ (- ez)) ez loc_Exact) as (Nb & HNb & _ & _ & Hhb); rewrite ?Hdgb; fold E; try lia.
  rewrite Hdga in HNa, Hha. rewrite Hdgb in HNb, Hhb. fold E in HNa, Hha, HNb, Hhb.
  specialize (Hha eq_refl). specialize (Hhb eq_refl).
  rewrite Ea in Hva. rewrite Eb in Hvb.
  destruct Hva as (_ & _ & <-), Hvb as (_ & _ & <-), HNa as (_ & _ & ->), HNb as (_ & _ & ->).
  set (P := 2 ^ (E - ez)) in *. assert (HP : 0 < P) by (apply pow2_pos; lia).
  assert (H2 : 0 < 2 ^ (- ez)) by (apply pow2_pos; lia).
  assert (Na <= Nb).
  { destruct (Z.le_gt_cases Na Nb) as [|Hgt]; [done|]. exfalso.
    assert (a * 2 ^ (- ez) < b * 2 ^ (- ez)) by nia. nia. }
  assert (0 < 2 ^ (E + 1074)) by (apply pow2_pos; lia). nia.
Qed.

(** A positive integer of 64 bits as a double. *)
Lemma double_of_Z_range n : 1 <= n <= 2 ^ 64 ->
  exists v, value_is (double_of_Z n) v /\ 2 ^ 1074 <= v <= 2 ^ (65 + 1074).
Proof.
  intros Hn. destruct (integer_bounds n ltac:(lia)) as (v & Hv & Hl & Hu). pose proof (integer_digits n ltac:(lia)) as Hd.
  exists v. split; [done|]. split.
  - etransitivity; [|exact Hl]. apply Z.pow_le_mono_r; lia.
  - etransitivity; [exact Hu|]. apply Z.pow_le_mono_r; lia.
Qed.

Lemma double_of_Z_nonneg n : 0 <= n <= 2 ^ 64 ->
  exists v, value_is (double_of_Z n) v /\ 0 <= v <= 2 ^ (65 + 1074).
Proof.
  intros Hn. destruct (Z.eq_dec n 0) as [->|].
  - exists 0. split; [apply double_of_Z_0|]. assert (0 < 2 ^ (65 + 1074)) by (apply pow2_pos; lia). lia.
  - destruct (double_of_Z_range n ltac:(lia)) as (v & Hv & Hr). exists v. split; [done|].
    assert (0 < 2 ^ 1074) by (apply pow2_pos; lia). lia.
Qed.

(** Every finite double is below 2^1024. *)
Lemma finite_value x : valid64 x = true -> isfinite x = true -> dleb d0 x = true ->
  exists v, value_is x v /\ 0 <= v <= 2 ^ (1024 + 1074).
Proof.
  intros Hv Hf Hn. assert (Hnn : nonneg x = true) by (destruct x as [[]|[]| |[] m e]; try done).
  exists (scaled x). split; [done|]. destruct x as [s|s| |s m e]; try done; cbn [scaled].
  unfold valid64, valid_binary, bounded, canonical_mantissa in Hv.
  apply andb_true_iff in Hv as [H1 H2]. apply Z.eqb_eq in H1. apply Z.leb_le in H2.
  change (Zpos (digits2_pos m)) with (Zdigits2 (Zpos m)) in H1. rewrite fexp64_eq in H1. unfold prec64, emax64 in H2.
  pose proof (digits_bounds (Zpos m) ltac:(lia)) as [_ Hu]. pose proof (digits_pos (Zpos m) ltac:(lia)).
  assert (Hm : Zpos m <= 2 ^ 53). { etransitivity; [apply Z.lt_le_incl, Hu|]. apply Z.pow_le_mono_r; lia. }
  assert (He : 2 ^ (e + 1074) <= 2 ^ (971 + 1074)) by (apply Z.pow_le_mono_r; lia).
  assert (0 < 2 ^ (e + 1074)) by (apply pow2_pos; lia).
  rewrite (pow2_split (1024 + 1074) 53 (971 + 1074)) by lia. nia.
Qed.

Lemma value_positive x v : value_is x v -> 0 < v -> dltb d0 x = true.
Proof. intros (_ & Hn & <-) Hp. by destruct x as [s|s| |[] m e]. Qed.

Lemma value_nonneg x v : value_is x v -> isfinite x = true /\ dleb d0 x = true.
Proof. intros (_ & Hn & _). by destruct x as [[]|s| |[] m e]. Qed.

(** ** Quotients *)

(** The parts of a positive value. *)
Lemma value_pos x v : value_is x v -> 0 < v ->
  exists m e, x = S754_finite false m e /\ -1074 <= e <= 971 /\ v = Zpos m * 2 ^ (e + 1074) /\
    Zdigits2 (Zpos m) <= 53 /\ (Zdigits2 (Zpos m) = 53 \/ e = -1074).
Proof.
  intros (Hv & Hn & Hs) Hp. destruct x as [s|s| |[] m e]; cbn in Hn, Hs; try done; try lia.
  exists m, e. split; [done|]. unfold valid64, valid_binary, bounded, canonical_mantissa in Hv.
  apply andb_true_iff in Hv as [H1 H2]. apply Z.eqb_eq in H1. apply Z.leb_le in H2.
  change (Zpos (digits2_pos m)) with (Zdigits2 (Zpos m)) in H1. rewrite fexp64_eq in H1. unfold prec64, emax64 in H2.
  repeat split; (done || lia).
Qed.

(** The exact quotient before rounding. *)
Lemma SFdiv_core_eq m1 e1 m2 e2 :
  let '(q, e', l) := SFdiv_core_binary prec64 emax64 (Zpos m1) e1 (Zpos m2) e2 in
  let D := Zdigits2 (Zpos m1) + e1 - (Zdigits2 (Zpos m2) + e2) in
  e' = Z.min (fexp64 D) (e1 - e2) /\
  exists r, Zpos m1 * 2 ^ (e1 - e2 - e') = q * Zpos m2 + r /\ 0 <= r < Zpos m2 /\ (r = 0 -> is_exact l = true).
Proof.
  unfold SFdiv_core_binary. set (D := Zdigits2 (Zpos m1) + e1 - (Zdigits2 (Zpos m2) + e2)).
  set (e' := Z.min (fexp64 D) (e1 - e2)).
  replace (match e1 - e2 - e' with Z0 => Zpos m1 | Zpos _ => Z.shiftl (Zpos m1) (e1 - e2 - e') | Zneg _ => 0 end)
    with (Zpos m1 * 2 ^ (e1 - e2 - e')).
  2: { destruct (e1 - e2 - e') as [|p|p] eqn:Ep; [lia| |lia]. by rewrite Z.shiftl_mul_pow2 by lia. }
  pose proof (Z_div_mod (Zpos m1 * 2 ^ (e1 - e2 - e')) (Zpos m2) ltac:(lia)) as H.
  destruct (Z.div_eucl _ _) as [q r]. destruct H as [H1 H2]. split; [done|]. exists r. split; [lia|]. split; [done|].
  intros ->. unfold new_location, new_location_even, new_location_odd. by destruct (Z.even _).
Qed.

Section quotient_parts.
Context (m1 m2 : positive) (e1 e2 : Z).
Abbreviation D := (Zdigits2 (Zpos m1) + e1 - (Zdigits2 (Zpos m2) + e2)).
Abbreviation numerator e' := (Zpos m1 * 2 ^ (e1 - e2 - e')).

(** A numerator of the estimated size exceeds the denominator. *)
Lemma numerator_digits e' j : 0 <= j -> e' <= e1 - e2 -> e' + 1 + j <= D -> 2 ^ (j + Zdigits2 (Zpos m2)) <= numerator e'.
Proof.
  intros Hj H1 HD. pose proof (digits_bounds (Zpos m1) ltac:(lia)) as [Hl _].
  pose proof (digits_pos (Zpos m1) ltac:(lia)). pose proof (digits_nonneg (Zpos m2)).
  transitivity (2 ^ (Zdigits2 (Zpos m1) - 1 + (e1 - e2 - e'))); [apply Z.pow_le_mono_r; lia|].
  rewrite Z.pow_add_r by lia. assert (0 < 2 ^ (e1 - e2 - e')) by (apply pow2_pos; lia). nia.
Qed.

(** The quotient handed to the rounding: it is aligned, and its parts are right. *)
Lemma SFdiv_parts s1 s2 :
  exists q r e' l,
    ddiv (S754_finite s1 m1 e1) (S754_finite s2 m2 e2) = binary_round_aux prec64 emax64 (xorb s1 s2) q e' l /\
    e' = Z.min (fexp64 D) (e1 - e2) /\ 0 <= q /\ e' <= fexp64 (Zdigits2 q + e') /\
    numerator e' = q * Zpos m2 + r /\ 0 <= r < Zpos m2 /\ (r = 0 -> is_exact l = true).
Proof.
  unfold ddiv, SFdiv. pose proof (SFdiv_core_eq m1 e1 m2 e2) as Hcore.
  destruct (SFdiv_core_binary prec64 emax64 (Zpos m1) e1 (Zpos m2) e2) as [[q e'] l].
  destruct Hcore as (He' & r & Hq & Hr & Hex). exists q, r, e', l. split; [done|]. split; [done|].
  assert (Hq0 : 0 <= q) by (assert (0 < 2 ^ (e1 - e2 - e')) by (apply pow2_pos; lia); nia).
  split; [done|]. split; [|auto].
  destruct (Z.le_gt_cases D (Zdigits2 q + e')) as [HD|HD]; [rewrite fexp64_eq in *; lia|].
  destruct (Z.le_gt_cases e' (-1074)) as [|Hlow]; [rewrite fexp64_eq; lia|exfalso].
  assert (Hj : 2 ^ (Zdigits2 q + Zdigits2 (Zpos m2)) <= numerator e').
  { pose proof (digits_nonneg q). apply numerator_digits; lia. }
  pose proof (digits_bounds (Zpos m2) ltac:(lia)) as [_ Hu2]. pose proof (digits_nonneg q). pose proof (digits_nonneg (Zpos m2)).
  rewrite Z.pow_add_r in Hj by lia.
  assert (q < 2 ^ Zdigits2 q) by (destruct (Z.eq_dec q 0) as [->|]; [done|apply digits_bounds; lia]). nia.
Qed.
End quotient_parts.

Section quotient.
Context (m1 m2 : positive) (e1 e2 : Z) (He1 : -1074 <= e1 <= 971) (He2 : -1074 <= e2 <= 971).
Context (Hm1 : Zdigits2 (Zpos m1) <= 53) (Hm2 : Zdigits2 (Zpos m2) <= 53).
Abbreviation D := (Zdigits2 (Zpos m1) + e1 - (Zdigits2 (Zpos m2) + e2)).
Abbreviation v1 := (Zpos m1 * 2 ^ (e1 + 1074)).
Abbreviation v2 := (Zpos m2 * 2 ^ (e2 + 1074)).

(** The numerator of the division, when [e'] is the exponent of the quotient. *)
Abbreviation numerator e' := (Zpos m1 * 2 ^ (e1 - e2 - e')).

Lemma numerator_scale e' C : 0 <= e' + C -> 0 <= C -> e' <= e1 - e2 ->
  numerator e' * (2 ^ (e2 + 1074) * 2 ^ (e' + C)) = v1 * 2 ^ C.
Proof.
  intros. rewrite <- !Z.mul_assoc, <- !Z.pow_add_r by lia. do 2 f_equal. lia.
Qed.

Lemma numerator_le e' k : e' <= e1 - e2 -> e' <= k -> 0 <= k -> v1 <= 2 ^ k * v2 -> numerator e' <= 2 ^ (k - e') * Zpos m2.
Proof.
  intros H1 H2 Hk Hle. set (C := Z.max 0 (- e')).
  pose proof (numerator_scale e' C ltac:(lia) ltac:(lia) H1) as Hs.
  assert (HA : 0 < 2 ^ (e2 + 1074) * 2 ^ (e' + C)) by (apply Z.mul_pos_pos; apply pow2_pos; lia).
  apply (Z.mul_le_mono_pos_r _ _ _ HA). rewrite Hs.
  assert (HC : 0 < 2 ^ C) by (apply pow2_pos; lia).
  transitivity (2 ^ k * v2 * 2 ^ C); [nia|]. apply Z.eq_le_incl.
  replace (2 ^ k * v2 * 2 ^ C) with (Zpos m2 * 2 ^ (e2 + 1074) * (2 ^ k * 2 ^ C)) by ring.
  replace (2 ^ k * 2 ^ C) with (2 ^ (k - e') * 2 ^ (e' + C)) by (rewrite <- !Z.pow_add_r by lia; f_equal; lia). ring.
Qed.

Lemma numerator_ge e' k : e' <= e1 - e2 -> e' <= - k -> 0 <= k -> v2 <= 2 ^ k * v1 -> 2 ^ (- k - e') * Zpos m2 <= numerator e'.
Proof.
  intros H1 H2 Hk Hle. set (C := - e').
  pose proof (numerator_scale e' C ltac:(lia) ltac:(lia) H1) as Hs.
  assert (HA : 0 < 2 ^ (e2 + 1074) * 2 ^ (e' + C)) by (apply Z.mul_pos_pos; apply pow2_pos; lia).
  apply (Z.mul_le_mono_pos_r _ _ _ HA). rewrite Hs.
  replace (2 ^ (e' + C)) with 1 by (replace (e' + C) with 0 by lia; done).
  assert (HC : 0 < 2 ^ (- k - e')) by (apply pow2_pos; lia).
  transitivity (2 ^ (- k - e') * (2 ^ k * v1)); [nia|]. apply Z.eq_le_incl.
  replace (2 ^ (- k - e') * (2 ^ k * v1)) with (v1 * (2 ^ (- k - e') * 2 ^ k)) by ring.
  replace (2 ^ (- k - e') * 2 ^ k) with (2 ^ C) by (rewrite <- Z.pow_add_r by lia; f_equal; lia). ring.
Qed.

Lemma exponents_le k : 0 <= k -> v1 <= 2 ^ k * v2 -> D <= k.
Proof.
  intros Hk H. destruct (Z.le_gt_cases D k) as [|Hgt]; [done|exfalso].
  set (e' := Z.min (e1 - e2) k).
  assert (H1 : 2 ^ (k - e' + Zdigits2 (Zpos m2)) <= numerator e') by (apply (numerator_digits m1 m2 e1 e2); lia).
  pose proof (numerator_le e' k ltac:(lia) ltac:(lia) Hk H) as H2.
  pose proof (digits_bounds (Zpos m2) ltac:(lia)) as [_ Hu2]. pose proof (digits_nonneg (Zpos m2)).
  rewrite Z.pow_add_r in H1 by lia. assert (0 < 2 ^ (k - e')) by (apply pow2_pos; lia). nia.
Qed.

Lemma quotient_le k : 0 <= k <= 1022 -> v1 <= 2 ^ k * v2 ->
  exists v, value_is (ddiv (S754_finite false m1 e1) (S754_finite false m2 e2)) v /\ 0 <= v <= 2 ^ (k + 1074).
Proof.
  intros Hk Hle. destruct (SFdiv_parts m1 m2 e1 e2 false false) as (q & r & e' & l & -> & He' & Hq & Hal & Hnum & Hr & Hex).
  pose proof (exponents_le k ltac:(lia) Hle) as HD. assert (He'k : e' <= k) by (rewrite fexp64_eq in He'; lia).
  pose proof (numerator_le e' k ltac:(lia) He'k ltac:(lia) Hle) as Hn.
  apply round_le_pow2; [done|done|done|lia|].
  destruct (Z.lt_trichotomy q (2 ^ (k - e'))) as [?|[?|?]]; [by left| |nia]. right. split; [done|]. apply Hex. nia.
Qed.

Lemma quotient_ge K k v : 0 <= K <= 1022 -> v1 <= 2 ^ K * v2 -> 0 <= k <= 1074 -> v2 <= 2 ^ k * v1 ->
  value_is (ddiv (S754_finite false m1 e1) (S754_finite false m2 e2)) v -> 2 ^ (- k + 1074) <= v.
Proof.
  intros HK HleK Hk Hle. destruct (SFdiv_parts m1 m2 e1 e2 false false) as (q & r & e' & l & -> & He' & Hq & Hal & Hnum & Hr & Hex). intros Hv.
  pose proof (exponents_le K ltac:(lia) HleK) as HD. assert (He'K : e' <= K) by (rewrite fexp64_eq in He'; lia).
  pose proof (numerator_le e' K ltac:(lia) He'K ltac:(lia) HleK) as HnK.
  assert (Hdq : fexp64 (Zdigits2 q + e') <= 970).
  { assert (Hq2 : q <= 2 ^ (K - e')) by nia. rewrite fexp64_eq.
    assert (Zdigits2 q <= K - e' + 1); [|lia]. apply digits_le; [done|lia|].
    rewrite Z.pow_add_r by lia. assert (0 < 2 ^ (K - e')) by (apply pow2_pos; lia). lia. }
  destruct (Z.le_gt_cases e' (- k)) as [Hlow|Hhigh].
  - pose proof (numerator_ge e' k ltac:(lia) Hlow ltac:(lia) Hle) as Hn.
    eapply round_ge_pow2; [exact Hq|exact Hal|exact Hdq|exact Hlow|lia| |exact Hv]. nia.
  - assert (H2 : 2 ^ (0 + Zdigits2 (Zpos m2)) <= numerator e') by (rewrite fexp64_eq in He'; apply (numerator_digits m1 m2 e1 e2); lia).
    pose proof (digits_bounds (Zpos m2) ltac:(lia)) as [_ Hu2]. rewrite Z.add_0_l in H2.
    transitivity (2 ^ (e' + 1074)); [apply Z.pow_le_mono_r; lia|].
    eapply round_ge_pow2; [exact Hq|exact Hal|exact Hdq|lia|lia| |exact Hv]. rewrite Z.sub_diag. nia.
Qed.
End quotient.

(** A quotient of at most [2^k] is a number of at most [2^k]. *)
Lemma ddiv_le_pow2 x y vx vy k : value_is x vx -> value_is y vy -> 0 < vy -> 0 <= k <= 1022 -> vx <= 2 ^ k * vy ->
  exists v, value_is (ddiv x y) v /\ 0 <= v <= 2 ^ (k + 1074).
Proof.
  intros Hx Hy Hvy Hk Hle. destruct (value_pos y vy Hy Hvy) as (m2 & e2 & -> & He2 & -> & Hd2 & _).
  destruct (Z.lt_ge_cases 0 vx) as [Hvx|Hvx].
  - destruct (value_pos x vx Hx Hvx) as (m1 & e1 & -> & He1 & -> & Hd1 & _). by apply quotient_le.
  - destruct Hx as (Hv & Hn & Hs). destruct x as [s|s| |[] m e]; cbn in Hn, Hs; try done.
    + exists 0. split; [done|]. assert (0 < 2 ^ (k + 1074)) by (apply pow2_pos; lia). lia.
    + apply valid64_finite in Hv. assert (0 < 2 ^ (e + 1074)) by (apply pow2_pos; lia). lia.
Qed.

Lemma d1000_value : exists v, value_is (double_of_Z 1000) v /\ 2 ^ (9 + 1074) <= v <= 2 ^ (10 + 1074).
Proof. exists (1000 * 2 ^ 1074). split; [by vm_compute|]. change (9 + 1074) with (1074 + 9). change (10 + 1074) with (1074 + 10).
  rewrite !Z.pow_add_r by lia. assert (0 < 2 ^ 1074) by (apply pow2_pos; lia). lia. Qed.

(** The thousandth of a number is a number. *)
Lemma thousandth_value x v : value_is x v -> v <= 2 ^ (1024 + 1074) -> exists u, value_is (ddiv x (double_of_Z 1000)) u.
Proof.
  intros Hv Hr. destruct d1000_value as (w & Hw & Hl).
  assert (0 < 2 ^ (9 + 1074)) by (apply pow2_pos; lia).
  destruct (ddiv_le_pow2 x (double_of_Z 1000) v w 1015) as (u & Hu & _); [done|done|lia|lia| |by exists u].
  rewrite (pow2_split (1024 + 1074) 1015 (9 + 1074)) in Hr by lia. assert (0 < 2 ^ 1015) by (apply pow2_pos; lia). nia.
Qed.

(** ... and one of at least [2^-k] is at least [2^-k]. *)
Lemma ddiv_ge_pow2 x y vx vy K k v : value_is x vx -> value_is y vy -> 0 < vx -> 0 < vy ->
  0 <= K <= 1022 -> vx <= 2 ^ K * vy -> 0 <= k <= 1074 -> vy <= 2 ^ k * vx ->
  value_is (ddiv x y) v -> 2 ^ (- k + 1074) <= v.
Proof.
  intros Hx Hy Hvx Hvy HK HleK Hk Hle. destruct (value_pos y vy Hy Hvy) as (m2 & e2 & -> & He2 & -> & Hd2 & _).
  destruct (value_pos x vx Hx Hvx) as (m1 & e1 & -> & He1 & -> & Hd1 & _). by apply quotient_ge with (K := K).
Qed.

(** ** Ratios *)

Lemma mantissa_le m p : Zpos m <= Zpos p ->
  match PosDef.Pos.compare_cont Eq m p with Gt => false | _ => true end = true.
Proof. intros H. change (PosDef.Pos.compare_cont Eq m p) with (m ?= p)%positive. destruct (Pos.compare_spec m p); (done || lia). Qed.

Lemma finite_parts s m e : valid64 (S754_finite s m e) = true ->
  -1074 <= e <= 971 /\ Zdigits2 (Zpos m) <= 53 /\ (Zdigits2 (Zpos m) = 53 \/ e = -1074).
Proof.
  unfold valid64, valid_binary, bounded, canonical_mantissa. intros [H1 H2]%andb_true_iff.
  apply Z.eqb_eq in H1. apply Z.leb_le in H2.
  change (Zpos (digits2_pos m)) with (Zdigits2 (Zpos m)) in H1. rewrite fexp64_eq in H1. unfold prec64, emax64 in H2. lia.
Qed.

(** Comparison is that of the values. *)
Lemma value_le x y vx vy : value_is x vx -> value_is y vy -> vx <= vy -> dleb x y = true.
Proof.
  intros (Hx & Hnx & <-) (Hy & Hny & <-) Hle.
  destruct x as [s1|s1| |[] m1 e1], y as [s2|s2| |[] m2 e2]; cbn in Hnx, Hny; try done; cbn [scaled] in Hle.
  { apply finite_parts in Hx as [He _]. assert (0 < 2 ^ (e1 + 1074)) by (apply pow2_pos; lia). exfalso. nia. }
  apply finite_parts in Hx as (He1 & Hd1 & Hc1), Hy as (He2 & Hd2 & _).
  assert (Hp : 0 < 2 ^ (e2 + 1074)) by (apply pow2_pos; lia).
  unfold dleb, SFleb. cbn [SFcompare]. destruct (e1 ?= e2) eqn:E; [|done|].
  - apply Z.compare_eq in E. subst e2. apply mantissa_le. nia.
  - rewrite Z.compare_gt_iff in E. exfalso. destruct Hc1 as [Hc1|]; [|lia].
    pose proof (digits_bounds (Zpos m1) ltac:(lia)) as [Hl _]. rewrite Hc1 in Hl.
    assert (Hu : Zpos m2 < 2 ^ 53).
    { pose proof (digits_bounds (Zpos m2) ltac:(lia)) as [_ Hu]. eapply Z.lt_le_trans; [exact Hu|]. apply Z.pow_le_mono_r; lia. }
    assert (H2p : 2 * 2 ^ (e2 + 1074) <= 2 ^ (e1 + 1074)).
    { rewrite <- Z.pow_succ_r by lia. apply Z.pow_le_mono_r; lia. }
    change (53 - 1) with 52 in Hl. change (2 ^ 53) with (2 * 2 ^ 52) in Hu. nia.
Qed.

(** A number of at most one is a ratio. *)
Lemma value_in_unit x v : value_is x v -> v <= 2 ^ 1074 -> in_unit x = true.
Proof.
  intros (Hv & Hn & Hs) Hle. destruct x as [s|s| |[] m e]; cbn in Hn, Hs; try done; try by destruct s.
  unfold in_unit. apply andb_true_iff. split; [done|]. unfold dleb, SFleb, d1. cbn [SFcompare].
  apply valid64_finite in Hv. destruct (e ?= -52) eqn:E.
  - apply Z.compare_eq in E. subst e. change (-52 + 1074) with 1022 in Hs. change 1074 with (52 + 1022) in Hle.
    rewrite Z.pow_add_r in Hle by lia. assert (Hm : Zpos m <= 4503599627370496).
    { change 4503599627370496 with (2 ^ 52). assert (0 < 2 ^ 1022) by (apply pow2_pos; lia). nia. }
    by apply mantissa_le.
  - done.
  - rewrite Z.compare_gt_iff in E. exfalso. destruct Hv as [Hv|Hv]; [|lia].
    assert (2 ^ (52 + (e + 1074)) <= v). { rewrite Z.pow_add_r by lia. assert (0 < 2 ^ (e + 1074)) by (apply pow2_pos; lia). nia. }
    assert (2 ^ 1074 < 2 ^ (52 + (e + 1074))) by (apply Z.pow_lt_mono_r; lia). lia.
Qed.

(** One minus a ratio is a ratio. *)
Lemma one_minus_ratio x v : value_is x v -> v <= 2 ^ 1074 ->
  exists w, value_is (dsub d1 x) w /\ 0 <= w <= 2 ^ 1074.
Proof.
  intros Hx Hle. destruct (Z.lt_ge_cases 0 v) as [Hp|Hz].
  2: { assert (Hd1 : value_is d1 (2 ^ 1074)) by (vm_compute; done). exists (2 ^ 1074).
       destruct Hx as (Hv & Hn & Hs). destruct x as [s|s| |[] m e]; cbn in Hn, Hs; try done; try (split; [exact Hd1|lia]).
       apply valid64_finite in Hv. assert (0 < 2 ^ (e + 1074)) by (apply pow2_pos; lia). lia. }
  destruct (value_pos x v Hx Hp) as (m & e & -> & He & -> & Hd & Hnorm).
  assert (Hm : Zpos m <= 2 ^ (- e)).
  { assert (He0 : e <= 0).
    { destruct (Z.le_gt_cases e 0) as [|Hgt]; [done|]. assert (2 ^ 1074 < 2 ^ (e + 1074)) by (apply Z.pow_lt_mono_r; lia). nia. }
    rewrite (pow2_split 1074 (- e) (e + 1074)) in Hle by lia.
    assert (0 < 2 ^ (e + 1074)) by (apply pow2_pos; lia). nia. }
  assert (He52 : e <= -52).
  { destruct Hnorm as [Hn|]; [|lia]. pose proof (digits_bounds (Zpos m) ltac:(lia)) as [Hl _]. rewrite Hn in Hl.
    destruct (Z.le_gt_cases e (-52)) as [|Hgt]; [done|]. assert (2 ^ (- e) < 2 ^ (53 - 1)) by (apply Z.pow_lt_mono_r; lia). lia. }
  unfold dsub, SFsub, d1. cbn [cond_Zopp].
  destruct (shl_align_eq 4503599627370496 (-52) (Z.min (-52) e)) as [_ ->].
  destruct (shl_align_eq m e (Z.min (-52) e)) as [_ ->].
  replace (Z.min (-52) (Z.min (-52) e)) with e by lia. replace (Z.min e (Z.min (-52) e)) with e by lia.
  rewrite Z.sub_diag, Z.pow_0_r, Z.mul_1_r. change 4503599627370496 with (2 ^ 52). rewrite <- Z.pow_add_r by lia.
  replace (52 + (-52 - e)) with (- e) by lia. replace (Z.min (-52) e) with e by lia.
  destruct (2 ^ (- e) - Zpos m) as [|p|p] eqn:Ep; [|unfold binary_normalize|lia].
  - exists 0. split; [done|]. assert (0 < 2 ^ 1074) by (apply pow2_pos; lia). lia.
  - destruct (binary_round_eq false p e) as [-> Hdig]. set (ez := Z.min e _) in *. rewrite Z.sub_0_l in * || idtac.
    assert (Hpe : 0 < 2 ^ (e - ez)) by (apply pow2_pos; lia).
    apply (round_le_pow2 _ _ _ 0); [lia|rewrite Hdig; lia|lia|lia|].
    rewrite Z.sub_0_l. left. replace (- ez) with (- e + (e - ez)) by lia. rewrite Z.pow_add_r by lia. nia.
Qed.

(** What is left of a total: the ratio of two integers with the smaller one on top. *)
Lemma integer_ratio a b : 0 <= a <= b -> 0 < b <= 2 ^ 64 ->
  exists v, value_is (ddiv (double_of_Z a) (double_of_Z b)) v /\ 0 <= v <= 2 ^ 1074.
Proof.
  intros Ha Hb. destruct (double_of_Z_mono a b ltac:(lia) ltac:(lia) ltac:(lia)) as (va & vb & Hva & Hvb & Hle).
  destruct (double_of_Z_range b ltac:(lia)) as (vb' & Hvb' & Hr).
  assert (vb' = vb) by (destruct Hvb as (_ & _ & <-), Hvb' as (_ & _ & <-); done). subst vb'.
  assert (0 < 2 ^ 1074) by (apply pow2_pos; lia).
  apply (ddiv_le_pow2 _ _ va vb 0); (done || lia).
Qed.

Lemma integer_ratio_unit a b : 0 <= a <= b -> 0 < b <= 2 ^ 64 -> in_unit (ddiv (double_of_Z a) (double_of_Z b)) = true.
Proof. intros Ha Hb. destruct (integer_ratio a b Ha Hb) as (v & Hv & Hle). eapply value_in_unit; [eassumption|lia]. Qed.

Lemma one_minus_ratio_unit a b : 0 <= a <= b -> 0 < b <= 2 ^ 64 ->
  in_unit (dsub d1 (ddiv (double_of_Z a) (double_of_Z b))) = true.
Proof.
  intros Ha Hb. destruct (integer_ratio a b Ha Hb) as (v & Hv & Hle).
  destruct (one_minus_ratio _ v Hv ltac:(lia)) as (w & Hw & Hwle). eapply value_in_unit; [eassumption|lia].
Qed.
