(* ===== verification/Cbor.v ===== *)
(** * The daemon's CBOR encoder (daemon/src/daemon.cpp: Value, head, encode, cbor)

    [Value] is the tagged union of daemon.h, [head] and [encode] the byte-level
    encoder.  [decode_item] is a reference decoder for the data items of
    RFC 8949 the protocol uses; it is the specification the encoder is proved
    against: decoding returns the value, with each map in canonical key order. *)

From S2P Require Import Prelude.
From S2P Require Import Std.
From S2P Require Import Float64.

(** ** Values *)

Inductive Value :=
| VUnsigned (unsigned_value : Z)
| VNumber (number : double)
| VText (text : string)
| VBytes (bytes : list byte)
| VBoolean (boolean : bool)
| VArray (array : list Value)
| VMap (map : list (string * Value)).

Section Value_ind.
Context (P : Value -> Prop)
  (HU : forall n, P (VUnsigned n)) (HN : forall d, P (VNumber d))
  (HT : forall s, P (VText s)) (HB : forall b, P (VBytes b)) (HF : forall b, P (VBoolean b))
  (HA : forall l, Forall P l -> P (VArray l))
  (HM : forall m, Forall (fun kx => P kx.2) m -> P (VMap m)).

(** Induction through the nested arrays and maps. *)
Fixpoint Value_nested_ind (v : Value) : P v :=
  match v with
  | VUnsigned n => HU n
  | VNumber d => HN d
  | VText s => HT s
  | VBytes b => HB b
  | VBoolean b => HF b
  | VArray l =>
      HA l ((fix go l := match l return Forall P l with
                         | [] => Forall_nil_2 _
                         | x :: r => Forall_cons_2 _ _ _ (Value_nested_ind x) (go r)
                         end) l)
  | VMap m =>
      HM m ((fix go m := match m return Forall (fun kx => P kx.2) m with
                         | [] => Forall_nil_2 _
                         | kx :: r => Forall_cons_2 _ _ _ (Value_nested_ind kx.2) (go r)
                         end) m)
  end.
End Value_ind.

Definition VObject (m : std_map Value) : Value := VMap m.

(** ** The encoder *)

Definition head (m n : Z) : list byte :=
  if n <? 24 then [u8 (Z.lor (Z.shiftl m 5) n)]
  else if n <? 256 then [u8 (Z.lor (Z.shiftl m 5) 24); u8 n]
  else if n <? 65536 then [u8 (Z.lor (Z.shiftl m 5) 25); u8 (Z.shiftr n 8); u8 n]
  else if n <? 4294967296 then u8 (Z.lor (Z.shiftl m 5) 26) :: be_bytes 4 n
  else u8 (Z.lor (Z.shiftl m 5) 27) :: be_bytes 8 n.

Definition len {A} (l : list A) : Z := Z.of_nat (length l).

(** [cbor(Value::s(k))] *)
Definition cbor_key (k : string) : list byte := head 3 (size k) ++ text_bytes k.

(** The comparator of the map branch: shorter encodings first, then bytewise. *)
Definition key_before (a b : list byte) : bool :=
  if negb (length a =? length b)%nat then (length a <? length b)%nat else bytes_ltb a b.

Fixpoint encode (v : Value) : list byte :=
  match v with
  | VUnsigned n => head 0 n
  | VNumber d => u8 251 :: be_bytes 8 (bits_of_double d)
  | VText s => head 3 (size s) ++ text_bytes s
  | VBytes b => head 2 (len b) ++ b
  | VBoolean b => [u8 (if b then 245 else 244)]
  | VArray l => head 4 (len l) ++ concat (map encode l)
  | VMap m =>
      let p := map (fun kx => (cbor_key kx.1, encode kx.2)) m in
      head 5 (len p)
      ++ concat (map (fun kx => kx.1 ++ kx.2) (isort (fun a b => key_before a.1 b.1) p))
  end.

Definition cbor (v : Value) : list byte := encode v.

(** ** A reference decoder (RFC 8949, definite lengths) *)

(** The argument in the [k] bytes after the initial byte. *)
Definition head_arg (maj ai : Z) (k : nat) (r : list byte) : option (Z * Z * Z * list byte) :=
  if (length r <? k)%nat then None else Some (maj, ai, be_value (take k r), drop k r).

(** Initial byte and argument: major type, additional information, argument, rest. *)
Definition parse_head (bs : list byte) : option (Z * Z * Z * list byte) :=
  match bs with
  | [] => None
  | b :: r =>
      let maj := byte_val b / 32 in
      let ai := byte_val b mod 32 in
      if ai <? 24 then Some (maj, ai, ai, r)
      else if ai =? 24 then head_arg maj ai 1 r
      else if ai =? 25 then head_arg maj ai 2 r
      else if ai =? 26 then head_arg maj ai 4 r
      else if ai =? 27 then head_arg maj ai 8 r
      else None
  end.

Definition take_exact (n : Z) (bs : list byte) : option (list byte * list byte) :=
  if len bs <? n then None else Some (take (Z.to_nat n) bs, drop (Z.to_nat n) bs).

Section decode_many.
Context (item : list byte -> option (Value * list byte)).

Fixpoint decode_items (n : nat) (bs : list byte) : option (list Value * list byte) :=
  match n with
  | O => Some ([], bs)
  | S n' =>
      '(v, r) ← item bs;
      '(vs, r') ← decode_items n' r;
      Some (v :: vs, r')
  end.

Fixpoint decode_pairs (n : nat) (bs : list byte) : option (list (string * Value) * list byte) :=
  match n with
  | O => Some ([], bs)
  | S n' =>
      '(k, r) ← item bs;
      match k with
      | VText key =>
          '(v, r') ← item r;
          '(m, r'') ← decode_pairs n' r';
          Some ((key, v) :: m, r'')
      | _ => None
      end
  end.
End decode_many.

Fixpoint decode_item (fuel : nat) (bs : list byte) : option (Value * list byte) :=
  match fuel with
  | O => None
  | S f =>
      '(maj, ai, n, r) ← parse_head bs;
      if maj =? 0 then Some (VUnsigned n, r)
      else if maj =? 2 then '(b, r') ← take_exact n r; Some (VBytes b, r')
      else if maj =? 3 then '(b, r') ← take_exact n r; Some (VText (bytes_text b), r')
      else if maj =? 4 then
        if len r <? n then None
        else '(l, r') ← decode_items (decode_item f) (Z.to_nat n) r; Some (VArray l, r')
      else if maj =? 5 then
        if len r <? n then None
        else '(m, r') ← decode_pairs (decode_item f) (Z.to_nat n) r; Some (VMap m, r')
      else if maj =? 7 then
        if ai =? 20 then Some (VBoolean false, r)
        else if ai =? 21 then Some (VBoolean true, r)
        else if ai =? 27 then Some (VNumber (double_of_bits n), r)
        else None
      else None
  end.

(** A whole buffer: one item and nothing after it.  Nesting is at most the length. *)
Definition decode_all (bs : list byte) : option Value :=
  match decode_item (S (length bs)) bs with
  | Some (v, []) => Some v
  | _ => None
  end.

(** ** Well-formed values and canonical order *)

(** Numbers representable in the C++ fields, lengths that fit a [std::uint64_t]. *)
Fixpoint wf_value (v : Value) : bool :=
  match v with
  | VUnsigned n => (0 <=? n) && (n <=? uint64_max)
  | VNumber d => valid64 d
  | VText s => size s <=? uint64_max
  | VBytes b => len b <=? uint64_max
  | VBoolean _ => true
  | VArray l => (len l <=? uint64_max) && forallb wf_value l
  | VMap m =>
      (len m <=? uint64_max) && forallb (fun kx => (size kx.1 <=? uint64_max) && wf_value kx.2) m
  end.

Definition entry_before {A} (a b : string * A) : bool :=
  key_before (cbor_key a.1) (cbor_key b.1).

(** The value with every map in the order of the wire. *)
Fixpoint canon (v : Value) : Value :=
  match v with
  | VArray l => VArray (map canon l)
  | VMap m => VMap (isort entry_before (map (fun kx => (kx.1, canon kx.2)) m))
  | _ => v
  end.

Fixpoint depth (v : Value) : nat :=
  match v with
  | VArray l => S (foldr (fun x d => Nat.max (depth x) d) 0%nat l)
  | VMap m => S (foldr (fun kx d => Nat.max (depth kx.2) d) 0%nat m)
  | _ => 1%nat
  end.

(** ** Heads *)

Lemma initial_byte m k :
  0 <= m < 8 -> 0 <= k < 32 -> byte_val (u8 (Z.lor (Z.shiftl m 5) k)) = m * 32 + k.
Proof.
  intros Hm Hk.
  assert (Hl : Z.lor (Z.shiftl m 5) k = m * 32 + k).
  { rewrite <- Z.add_nocarry_lor; [rewrite Z.shiftl_mul_pow2 by lia; lia|].
    apply Z.bits_inj_0. intros i. rewrite Z.land_spec.
    destruct (Z.ltb_spec i 5).
    - destruct (Z.ltb_spec i 0); [by rewrite Z.testbit_neg_r|].
      rewrite Z.shiftl_spec_low by lia. done.
    - rewrite <- (Z.mod_small k (2 ^ 5)) by lia.
      rewrite Z.mod_pow2_bits_high by lia. apply andb_false_r. }
  rewrite Hl. apply byte_val_u8_small. lia.
Qed.

Lemma initial_byte_div m k : 0 <= m < 8 -> 0 <= k < 32 ->
  byte_val (u8 (Z.lor (Z.shiftl m 5) k)) / 32 = m.
Proof. intros. rewrite initial_byte by lia. rewrite Z.div_add_l, Z.div_small; lia. Qed.

Lemma initial_byte_mod m k : 0 <= m < 8 -> 0 <= k < 32 ->
  byte_val (u8 (Z.lor (Z.shiftl m 5) k)) mod 32 = k.
Proof. intros. rewrite initial_byte by lia. rewrite Z.add_comm, Z.mod_add, Z.mod_small; lia. Qed.

Lemma head_arg_be_bytes m ai k n r :
  0 <= n < 256 ^ Z.of_nat k -> head_arg m ai k (be_bytes k n ++ r) = Some (m, ai, n, r).
Proof.
  intros Hn. unfold head_arg.
  rewrite (proj2 (Nat.ltb_ge _ k)) by (rewrite length_app, length_be_bytes; lia).
  rewrite take_app_length', drop_app_length' by (symmetry; apply length_be_bytes).
  by rewrite be_value_be_bytes, Z.mod_small.
Qed.

(** The argument bytes that follow an initial byte. *)
Lemma parse_head_arg m ai (k : nat) n r :
  0 <= m < 8 ->
  (ai, k) ∈ [(24, 1%nat); (25, 2%nat); (26, 4%nat); (27, 8%nat)] ->
  0 <= n < 256 ^ Z.of_nat k ->
  parse_head ((u8 (Z.lor (Z.shiftl m 5) ai) :: be_bytes k n) ++ r) = Some (m, ai, n, r).
Proof.
  intros Hm Hai Hn. rewrite !elem_of_cons in Hai.
  destruct Hai as [H|[H|[H|[H|H]]]]; [..|by inversion H]; injection H as -> ->;
    unfold parse_head; rewrite <- app_comm_cons, initial_byte_div, initial_byte_mod by lia;
    by apply head_arg_be_bytes.
Qed.

Lemma parse_head_head m n r :
  0 <= m < 8 -> 0 <= n <= uint64_max ->
  exists ai, parse_head (head m n ++ r) = Some (m, ai, n, r).
Proof.
  unfold uint64_max, head. intros Hm Hn.
  destruct (n <? 24) eqn:H1; bool_facts.
  { exists n. simpl. rewrite initial_byte_div, initial_byte_mod by lia.
    by rewrite (proj2 (Z.ltb_lt n 24)) by lia. }
  destruct (n <? 256) eqn:H2; bool_facts.
  { exists 24. replace [_; u8 n] with (u8 (Z.lor (Z.shiftl m 5) 24) :: be_bytes 1 n)
      by (simpl; by rewrite Z.shiftr_0_r).
    apply parse_head_arg; [lia|set_solver|lia]. }
  destruct (n <? 65536) eqn:H3; bool_facts.
  { exists 25. replace [_; _; u8 n] with (u8 (Z.lor (Z.shiftl m 5) 25) :: be_bytes 2 n)
      by (simpl; by rewrite Z.shiftr_0_r).
    apply parse_head_arg; [lia|set_solver|lia]. }
  destruct (n <? 4294967296) eqn:H4; bool_facts.
  - exists 26. apply parse_head_arg; [lia|set_solver|lia].
  - exists 27. apply parse_head_arg; [lia|set_solver|lia].
Qed.

Lemma head_nonempty m n : (1 <= length (head m n))%nat.
Proof. unfold head. repeat case_if; simpl; lia. Qed.

Lemma take_exact_app (a b : list byte) : take_exact (len a) (a ++ b) = Some (a, b).
Proof.
  unfold take_exact, len. rewrite length_app, Nat2Z.id.
  destruct (_ <? _) eqn:E; bool_facts; [lia|].
  by rewrite take_app_length, drop_app_length.
Qed.

(** ** Decoding an encoding *)

Lemma encode_nonempty v : (1 <= length (encode v))%nat.
Proof.
  destruct v; simpl; rewrite ?length_app; try lia;
    match goal with |- context [head ?m ?n] => pose proof (head_nonempty m n); lia end.
Qed.

Lemma length_concat_ge {A} (f : A -> list byte) l :
  (forall x, (1 <= length (f x))%nat) -> (length l <= length (concat (map f l)))%nat.
Proof.
  intros Hf. induction l as [|x l IH]; simpl; [lia|]. rewrite length_app. specialize (Hf x). lia.
Qed.

Lemma decode_items_concat item l (rest : list byte) :
  Forall (fun v => forall r, item (encode v ++ r) = Some (canon v, r)) l ->
  decode_items item (length l) (concat (map encode l) ++ rest) = Some (map canon l, rest).
Proof.
  induction 1 as [|v l Hv Hl IH]; simpl; [done|].
  rewrite <- app_assoc, Hv. simpl. by rewrite IH.
Qed.

Lemma decode_pairs_concat item (l : list (string * Value)) (rest : list byte) :
  Forall (fun kx => (forall r, item (cbor_key kx.1 ++ r) = Some (VText kx.1, r)) /\
                    (forall r, item (encode kx.2 ++ r) = Some (canon kx.2, r))) l ->
  decode_pairs item (length l) (concat (map (fun kx => cbor_key kx.1 ++ encode kx.2) l) ++ rest)
  = Some (map (fun kx => (kx.1, canon kx.2)) l, rest).
Proof.
  induction 1 as [|[k v] l [Hk Hv] Hl IH]; simpl; [done|]. simpl in Hk, Hv.
  rewrite <- !app_assoc, Hk. simpl. rewrite Hv. simpl. by rewrite IH.
Qed.

Lemma decode_text fuel s r :
  size s <= uint64_max ->
  decode_item (S fuel) (cbor_key s ++ r) = Some (VText s, r).
Proof.
  intros Hs. unfold cbor_key. rewrite <- app_assoc. cbn [decode_item].
  destruct (parse_head_head 3 (size s) (text_bytes s ++ r)) as [ai ->];
    [lia|unfold size in *; lia|]. simpl.
  replace (size s) with (len (text_bytes s)) by (unfold len, size; by rewrite length_text_bytes).
  rewrite take_exact_app. simpl. by rewrite bytes_text_bytes.
Qed.

(** The wire order of a map is the sort of its entries by key. *)
Lemma encode_map m :
  encode (VMap m) =
  head 5 (len m) ++
  concat (map (fun kx => cbor_key kx.1 ++ encode kx.2) (isort entry_before m)).
Proof.
  simpl. f_equal; [unfold len; by rewrite length_map|].
  erewrite (isort_map _ entry_before); [|intros x y; reflexivity].
  by rewrite map_map.
Qed.

Lemma canon_map m :
  canon (VMap m) = VMap (map (fun kx => (kx.1, canon kx.2)) (isort entry_before m)).
Proof. simpl. f_equal. apply isort_map. done. Qed.

Lemma depth_array l v : v ∈ l -> (depth v < depth (VArray l))%nat.
Proof.
  intros Hv. cut (depth v <= foldr (fun x d => Nat.max (depth x) d) 0%nat l)%nat; [simpl; lia|].
  induction Hv; simpl; lia.
Qed.

Lemma depth_map m kx : kx ∈ m -> (depth kx.2 < depth (VMap m))%nat.
Proof.
  intros Hv. cut (depth kx.2 <= foldr (fun kx d => Nat.max (depth kx.2) d) 0%nat m)%nat; [simpl; lia|].
  induction Hv; simpl; lia.
Qed.

Lemma decode_item_encode v : forall fuel rest,
  wf_value v = true -> (depth v <= fuel)%nat ->
  decode_item fuel (encode v ++ rest) = Some (canon v, rest).
Proof.
  induction v as [n|d|s|b|b|l IH|m IH] using Value_nested_ind; intros fuel rest Hwf Hd;
    (destruct fuel as [|fuel]; [simpl in Hd; lia|]).
  - simpl in Hwf. bool_facts. cbn [decode_item encode].
    by destruct (parse_head_head 0 n rest) as [ai ->]; [lia|lia|].
  - simpl in Hwf. cbn [decode_item encode].
    pose proof (bits_of_double_range d Hwf) as Hb. unfold uint64_max in Hb.
    change (u8 251) with (u8 (Z.lor (Z.shiftl 7 5) 27)).
    rewrite parse_head_arg by (try lia; set_solver). simpl.
    by rewrite double_of_bits_of_double.
  - simpl in Hwf. bool_facts. by apply decode_text.
  - simpl in Hwf. bool_facts. cbn [decode_item encode]. rewrite <- app_assoc.
    destruct (parse_head_head 2 (len b) (b ++ rest)) as [ai ->]; [lia|unfold len in *; lia|].
    simpl. by rewrite take_exact_app.
  - destruct b; reflexivity.
  - simpl in Hwf. bool_facts. cbn [decode_item encode]. rewrite <- app_assoc.
    destruct (parse_head_head 4 (len l) (concat (map encode l) ++ rest)) as [ai ->];
      [lia|unfold len in *; lia|]. simpl.
    pose proof (length_concat_ge encode l encode_nonempty) as Hlen.
    rewrite (proj2 (Z.ltb_ge _ _)) by (unfold len; rewrite length_app; lia).
    unfold len. rewrite Nat2Z.id, decode_items_concat; [done|].
    rewrite Forall_forall in IH |- *. intros v Hv r. apply IH; [done| |].
    + rewrite forallb_forall in H0. apply H0. by apply list_elem_of_In.
    + pose proof (depth_array l v Hv). lia.
  - rewrite encode_map, canon_map. simpl in Hwf. bool_facts. cbn [decode_item]. rewrite <- app_assoc.
    set (es := isort entry_before m). assert (Hp : es ≡ₚ m) by apply isort_perm.
    destruct (parse_head_head 5 (len m) (concat (map (fun kx => cbor_key kx.1 ++ encode kx.2) es) ++ rest))
      as [ai ->]; [lia|unfold len in *; lia|]. simpl.
    assert (Hlen : (length es <= length (concat (map (fun kx => cbor_key kx.1 ++ encode kx.2) es)))%nat).
    { apply length_concat_ge. intros x. rewrite length_app. pose proof (encode_nonempty x.2). lia. }
    rewrite (proj2 (Z.ltb_ge _ _)) by (unfold len; rewrite length_app, <- (Permutation_length Hp); lia).
    unfold len. rewrite Nat2Z.id, <- (Permutation_length Hp), decode_pairs_concat; [done|].
    rewrite Forall_forall in IH |- *. intros kx Hkx. rewrite Hp in Hkx.
    pose proof (depth_map m kx Hkx) as Hdk.
    rewrite forallb_forall in H0. specialize (H0 kx (proj1 (list_elem_of_In _ _) Hkx)). bool_facts.
    split; intros r; [|apply IH; [done|done|lia]].
    destruct fuel as [|fuel]; [|by apply decode_text].
    assert (1 <= depth kx.2)%nat by (destruct kx.2; simpl; lia). lia.
Qed.

Lemma length_concat_elem {A} (f : A -> list byte) l x :
  x ∈ l -> (length (f x) <= length (concat (map f l)))%nat.
Proof. induction 1; simpl; rewrite length_app; lia. Qed.

Lemma depth_le_length v : (depth v <= length (encode v))%nat.
Proof.
  assert (Hmax : forall {A} (f : A -> nat) (l : list A) b,
    (forall x, x ∈ l -> (f x <= b)%nat) -> (foldr (fun x d => Nat.max (f x) d) 0%nat l <= b)%nat).
  { intros A f l b. induction l as [|x l IH]; simpl; intros Hx; [lia|].
    pose proof (Hx x ltac:(left)). specialize (IH ltac:(intros; apply Hx; by right)). lia. }
  induction v as [n|d|s|b|b|l IH|m IH] using Value_nested_ind;
    try (match goal with |- (depth ?x <= _)%nat => pose proof (encode_nonempty x); simpl in *; lia end).
  - cbn [depth encode]. rewrite length_app. pose proof (head_nonempty 4 (len l)).
    rewrite Forall_forall in IH.
    pose proof (Hmax _ depth l (length (concat (map encode l)))). 
    specialize (H0 ltac:(intros x Hx; pose proof (IH x Hx); pose proof (length_concat_elem encode l x Hx); lia)). lia.
  - rewrite encode_map, length_app. cbn [depth]. pose proof (head_nonempty 5 (len m)).
    rewrite Forall_forall in IH. set (g := fun kx : string * Value => cbor_key kx.1 ++ encode kx.2).
    enough (foldr (fun kx d => Nat.max (depth kx.2) d) 0%nat m
            <= length (concat (map g (isort entry_before m))))%nat by lia.
    apply (Hmax _ (fun kx : string * Value => depth kx.2)). intros x Hx.
    etrans; [apply (IH x Hx)|]. rewrite <- (isort_perm entry_before) in Hx.
    pose proof (length_concat_elem g _ _ Hx) as Hg. unfold g in Hg at 1. rewrite length_app in Hg. lia.
Qed.

Lemma decode_all_cbor v : wf_value v = true -> decode_all (cbor v) = Some (canon v).
Proof.
  intros Hwf. unfold decode_all, cbor.
  rewrite <- (app_nil_r (encode v)) at 2. rewrite decode_item_encode; [done|done|].
  pose proof (depth_le_length v). lia.
Qed.

(** ** Canonical form *)

Lemma key_before_asym a b : key_before a b = true -> key_before b a = false.
Proof.
  unfold key_before. destruct (Nat.eqb_spec (length a) (length b)) as [E|E]; simpl.
  - rewrite E, Nat.eqb_refl. simpl. apply bytes_ltb_asym.
  - intros H%Nat.ltb_lt. rewrite (proj2 (Nat.eqb_neq _ _)) by lia. simpl. apply Nat.ltb_ge. lia.
Qed.

Lemma key_before_ge a b :
  key_before b a = false <->
  (length a < length b)%nat \/ (length a = length b /\ bytes_compare a b <> Gt).
Proof.
  unfold key_before. destruct (Nat.eqb_spec (length b) (length a)) as [E|E]; simpl.
  - rewrite bytes_ltb_ge. intuition lia.
  - rewrite Nat.ltb_ge. intuition lia.
Qed.

Lemma key_before_le_trans a b c :
  key_before b a = false -> key_before c b = false -> key_before c a = false.
Proof.
  rewrite !key_before_ge. intros [?|[? ?]] [?|[? ?]]; try (left; lia).
  right. split; [lia|]. eauto using bytes_compare_le_trans.
Qed.

Lemma key_before_total a b : key_before a b = false -> key_before b a = false -> a = b.
Proof.
  rewrite !key_before_ge. intros [?|[? H1]] [?|[? H2]]; [lia..|].
  apply bytes_compare_eq. rewrite bytes_compare_antisym in H1.
  by destruct (bytes_compare a b).
Qed.

Lemma cbor_key_inj a b : size a <= uint64_max -> size b <= uint64_max -> cbor_key a = cbor_key b -> a = b.
Proof.
  intros Ha Hb H. pose proof (decode_text 0 a [] Ha) as E1. pose proof (decode_text 0 b [] Hb) as E2.
  rewrite H in E1. congruence.
Qed.

(** The encoder without the sort, for values already in wire order. *)
Fixpoint emit (v : Value) : list byte :=
  match v with
  | VArray l => head 4 (len l) ++ concat (map emit l)
  | VMap m => head 5 (len m) ++ concat (map (fun kx => cbor_key kx.1 ++ emit kx.2) m)
  | _ => encode v
  end.

Lemma encode_emit_canon v : encode v = emit (canon v).
Proof.
  induction v as [n|d|s|b|b|l IH|m IH] using Value_nested_ind; try reflexivity.
  - cbn [encode canon emit]. unfold len. rewrite length_map, map_map. do 2 f_equal.
    apply map_ext_in. intros x Hx. rewrite Forall_forall in IH. apply IH. by apply list_elem_of_In.
  - rewrite encode_map, canon_map. cbn [emit]. unfold len. rewrite length_map, length_isort, map_map.
    do 2 f_equal. apply map_ext_in. intros kx Hx%list_elem_of_In. rewrite isort_perm in Hx.
    rewrite Forall_forall in IH. simpl. by rewrite (IH _ Hx).
Qed.

Lemma canon_map_perm (m1 m2 : list (string * Value)) :
  NoDup (map fst m1) -> Forall (fun kx => size kx.1 <= uint64_max) m1 -> m1 ≡ₚ m2 ->
  canon (VMap m1) = canon (VMap m2).
Proof.
  intros Hnd Hsz Hp. rewrite !canon_map. do 2 f_equal.
  apply (isort_unique entry_before); [intros ? ?; apply key_before_asym
                                     |intros ? ? ?; apply key_before_le_trans| |done].
  intros [k x] [j y] Hx Hy H1 H2. rewrite Forall_forall in Hsz.
  assert (k = j) as <-.
  { apply cbor_key_inj; [by apply (Hsz (k, x))|by apply (Hsz (j, y))|by apply key_before_total]. }
  f_equal. clear -Hnd Hx Hy. induction m1 as [|[k' z] m IH]; [inversion Hx|].
  simpl in Hnd. apply NoDup_cons in Hnd as [Hni Hnd].
  assert (Hin : forall w, (k, w) ∈ m -> k ∈ map fst m)
    by (intros w Hw; apply list_elem_of_In, in_map_iff; exists (k, w); split; [done|by apply list_elem_of_In]).
  apply elem_of_cons in Hx as [Hx|Hx], Hy as [Hy|Hy]; simplify_eq; eauto.
  - by apply Hin in Hy.
  - by apply Hin in Hx.
Qed.

(** C13. Encoding and decoding: the reference decoder reads back exactly the value
    [cbor] was given, maps in wire order, and the encoding delimits itself, so
    whatever follows is left unread. *)
Theorem cbor_roundtrip v :
  wf_value v = true ->
  decode_all (cbor v) = Some (canon v) /\
  (forall rest, decode_item (depth v) (cbor v ++ rest) = Some (canon v, rest)).
Proof.
  intros Hwf. split; [by apply decode_all_cbor|]. intros rest. by apply decode_item_encode.
Qed.

Lemma cbor_roundtrip_witness :
  let v := VMap [("sequence"%string, VUnsigned 70000); ("ok"%string, VBoolean true);
                 ("list"%string, VArray [VNumber d1; VText "x"; VBytes [u8 245]])] in
  wf_value v = true /\ decode_all (cbor v) = Some (canon v) /\
  (forall rest, decode_item (depth v) (cbor v ++ rest) = Some (canon v, rest)).
Proof. intros v. split; [reflexivity|apply (cbor_roundtrip v); reflexivity]. Defined.

(** The encoding is canonical: it depends only on the canonical form of the
    value (not on the order a map was built in) and determines it. *)
Theorem cbor_canonical v1 v2 :
  wf_value v1 = true -> wf_value v2 = true -> (cbor v1 = cbor v2 <-> canon v1 = canon v2).
Proof.
  intros H1 H2. unfold cbor. split.
  - intros E. pose proof (decode_all_cbor v1 H1) as D1. pose proof (decode_all_cbor v2 H2) as D2.
    unfold cbor in *. congruence.
  - intros E. by rewrite !encode_emit_canon, E.
Qed.

Lemma cbor_canonical_witness :
  let v1 := VMap [("type"%string, VText "hello"); ("id"%string, VUnsigned 3)] in
  let v2 := VMap [("id"%string, VUnsigned 3); ("type"%string, VText "hello")] in
  (wf_value v1 = true /\ wf_value v2 = true) /\ (cbor v1 = cbor v2 <-> canon v1 = canon v2).
Proof. intros v1 v2. split; [split; reflexivity|apply (cbor_canonical v1 v2); reflexivity]. Defined.

(** Deterministic map order: on the wire the keys of a map strictly increase
    in canonical order, whatever order the entries had. *)
Theorem cbor_keys_increase m :
  NoDup (map fst m) -> Forall (fun kx => size kx.1 <= uint64_max) m ->
  exists es, canon (VMap m) = VMap es /\
    StronglySorted (fun a b => key_before (cbor_key a.1) (cbor_key b.1) = true) es.
Proof.
  intros Hnd Hsz. eexists. split; [apply canon_map|].
  set (es := isort entry_before m).
  assert (Hs : StronglySorted (fun x y => entry_before y x = false) es)
    by (apply isort_sorted; [intros ? ?; apply key_before_asym|intros ? ? ?; apply key_before_le_trans]).
  assert (Hp : es ≡ₚ m) by apply isort_perm. clearbody es.
  rewrite <- Hp in Hnd, Hsz. clear Hp m.
  induction Hs as [|x es Hs IH Hx]; simpl; [constructor|].
  simpl in Hnd. apply NoDup_cons in Hnd as [Hni Hnd]. inversion Hsz as [|? ? Hx0 Hsz']; subst.
  constructor; [auto|]. rewrite Forall_fmap. rewrite Forall_forall in Hx, Hsz' |- *.
  intros y Hy. simpl. destruct (key_before (cbor_key x.1) (cbor_key y.1)) eqn:E; [done|].
  exfalso. apply Hni. assert (Exy : x.1 = y.1).
  { apply cbor_key_inj; [exact Hx0|by apply Hsz'|apply key_before_total; [done|by apply Hx]]. }
  rewrite Exy. by apply list_elem_of_In, in_map, list_elem_of_In.
Qed.

Lemma cbor_keys_increase_witness :
  let m := [("type"%string, VText "hello"); ("id"%string, VUnsigned 3)] in
  exists es, canon (VMap m) = VMap es /\
    StronglySorted (fun a b => key_before (cbor_key a.1) (cbor_key b.1) = true) es.
Proof.
  intros m. apply (cbor_keys_increase m).
  - by_decision.
  - repeat constructor; vm_compute; discriminate.
Defined.
