(* ===== verification/DaemonText.v ===== *)
(** * The daemon's text parsers (daemon/src/daemon.cpp, anonymous namespace)

    [trim], [utf8], [clean], [unsigned_value], the classifiers of sysfs names,
    [gpu_stats], [mount_path], [online_cpu_ids], [memory_bytes] and
    [cpu_info_value], one definition each, with what each promises. *)

From S2P Require Import Prelude.
From S2P Require Import Std.

Definition kSmallFileLimit : Z := 64 * 1024.
Definition kCpuInfoLimit : Z := 1024 * 1024.
Definition kProcLimit : Z := 1024 * 1024.
Definition kSysfsLimit : Z := 4096.
Definition kMaximumCpuCount : Z := 256.
Definition kMaximumCpuId : Z := 4095.
Definition kMaximumStorageVolumes : nat := 64.
Definition kMaximumNetworkInterfaces : nat := 64.
Definition kWireMaximum : Z := int64_max.

(** ** trim, utf8, clean *)

(** The set [" \t\r\n"]. *)
Definition is_blank (c : ascii) : bool :=
  is_char c " " || is_char c "009" || is_char c "013" || is_char c "010".
Definition not_blank (c : ascii) : bool := negb (is_blank c).

Definition trim (s : string) : string :=
  match find_if not_blank s, find_last_if not_blank s with
  | Some a, Some b => substr a (b - a + 1) s
  | _, _ => EmptyString
  end.

Fixpoint utf8_go (left : Z) (s : string) : bool :=
  match s with
  | EmptyString => left =? 0
  | String ch r =>
      let c := char_val ch in
      if left =? 0 then
        if c <? 128 then utf8_go 0 r
        else if Z.land c 224 =? 192 then utf8_go 1 r
        else if Z.land c 240 =? 224 then utf8_go 2 r
        else if Z.land c 248 =? 240 then utf8_go 3 r
        else false
      else if negb (Z.land c 192 =? 128) then false
      else utf8_go (left - 1) r
  end.

Definition utf8 (s : string) : bool := utf8_go 0 s.

Definition clean (value : string) : option string :=
  let value := trim value in
  let lower := str_map tolower value in
  if String.eqb value "" || String.eqb lower "unknown" || negb (utf8 value) then None
  else Some value.

(** ** Decimal numbers *)

(** [unsigned_value(input, maximum)], through a [std::uint32_t]. *)
Definition unsigned_value32 (input : string) (maximum : Z) : option Z :=
  if String.eqb input "" || negb (str_forall isdigit input) then None
  else match from_chars_unsigned 10 uint32_max input with
       | FcOk value rest =>
           if negb (String.eqb rest "") || (maximum <? value) then None else Some value
       | _ => None
       end.

(** [unsigned_value(input)], through a [std::uint64_t]. *)
Definition unsigned_value (input : string) : option Z :=
  if String.eqb input "" || negb (str_forall isdigit input) then None
  else match from_chars_unsigned 10 uint64_max input with
       | FcOk value rest => if String.eqb rest "" then Some value else None
       | _ => None
       end.

(** ** Names of devices and thermal zones *)

Definition v3d_entry (entry : string) : bool :=
  let entry := str_map tolower entry in
  String.eqb entry "v3d" || ends_with ".v3d" entry.

Definition gpu_thermal_zone (type : string) : bool :=
  let type := str_map tolower (trim type) in
  String.eqb type "gpu" || String.eqb type "gpu-thermal" || String.eqb type "gpu_thermal"
  || String.eqb type "v3d".

Definition cpu_thermal_zone (type : string) : bool :=
  let type := str_map tolower (trim type) in
  String.eqb type "cpu-thermal" || String.eqb type "cpu_thermal" || String.eqb type "soc_thermal"
  || String.eqb type "x86_pkg_temp" || String.eqb type "tcpu" || String.eqb type "tcpu_pci".

Definition gpu_vendor (value : string) : option string :=
  let value := trim value in
  if String.eqb value "0x8086" then Some "Intel"
  else if String.eqb value "0x10de" then Some "NVIDIA"
  else if String.eqb value "0x1002" then Some "AMD"
  else None.

(** ** gpu_stats *)

Record gpu_stats_state := { gs_timestamp : Z; gs_runtime : Z; gs_found : bool }.

(** One line of the loop; the guard's subtraction and the sum are 64-bit unsigned. *)
Definition gpu_stats_line (st : gpu_stats_state) (line : string) : gpu_stats_state :=
  match tokens line with
  | [_; timestamp_text; jobs_text; runtime_text] =>
      match unsigned_value timestamp_text, unsigned_value jobs_text, unsigned_value runtime_text with
      | Some ts, Some _, Some rt =>
          if (gs_found st && negb (ts =? gs_timestamp st)) || (u64 (kWireMaximum - rt) <? gs_runtime st)
          then st
          else {| gs_timestamp := ts; gs_runtime := u64 (gs_runtime st + rt); gs_found := true |}
      | _, _, _ => st
      end
  | _ => st
  end.

Definition gpu_stats (contents : string) : option (Z * Z) :=
  let st := fold_left gpu_stats_line (getlines contents)
              {| gs_timestamp := 0; gs_runtime := 0; gs_found := false |} in
  if gs_found st && (0 <? gs_timestamp st) then Some (gs_timestamp st, gs_runtime st) else None.

(** ** mount_path *)

Definition is_octal (c : ascii) : bool := (48 <=? char_val c) && (char_val c <=? 55).

Fixpoint mount_path (encoded : string) : string :=
  match encoded with
  | EmptyString => EmptyString
  | String h t =>
      match t with
      | String a (String b (String c r)) =>
          if is_char h "\" && is_octal a && is_octal b && is_octal c
          then String (char_of ((char_val a - 48) * 64 + (char_val b - 48) * 8 + (char_val c - 48)))
                 (mount_path r)
          else String h (mount_path t)
      | _ => String h (mount_path t)
      end
  end.

(** ** online_cpu_ids *)

(** The loop [for (auto id = first;; ++id)], [steps] iterations long. *)
Fixpoint add_cpu_range (steps : nat) (id : Z) (unique : gset Z) (result : list Z)
  : option (gset Z * list Z) :=
  match steps with
  | O => Some (unique, result)
  | S n =>
      if bool_decide (id ∈ unique) || (kMaximumCpuCount <=? Z.of_nat (length result)) then None
      else add_cpu_range n (id + 1) ({[id]} ∪ unique) (result ++ [id])
  end.

Definition cpu_entry (entry : string) (st : gset Z * list Z) : option (gset Z * list Z) :=
  let dash := find_char "-" entry in
  let second := match dash with
                | Some d => match find_char "-" (str_drop (S d) entry) with Some _ => true | None => false end
                | None => false
                end in
  if String.eqb entry "" || second then None
  else
    first ← unsigned_value32 (match dash with Some d => str_take d entry | None => entry end) kMaximumCpuId;
    last ← match dash with
           | None => Some first
           | Some d => unsigned_value32 (str_drop (S d) entry) kMaximumCpuId
           end;
    if (last <? first) || (kMaximumCpuCount <? last - first + 1) then None
    else add_cpu_range (Z.to_nat (last - first + 1)) first st.1 st.2.

Fixpoint cpu_entries (entries : list string) (st : gset Z * list Z) : option (gset Z * list Z) :=
  match entries with
  | [] => Some st
  | e :: es => st' ← cpu_entry e st; cpu_entries es st'
  end.

Definition online_cpu_ids (contents : string) : option (list Z) :=
  let contents := trim contents in
  if String.eqb contents "" then None
  else
    '(_, result) ← cpu_entries (split_on "," contents) (∅, []);
    match result with [] => None | _ => Some result end.

(** ** memory_bytes, cpu_info_value *)

(** The body of the loop on the line that starts with [MemTotal:]. *)
Definition memory_line (line : string) : option Z :=
  let value := trim (str_drop 9 line) in
  match find_if (fun c => is_char c " " || is_char c "009") value with
  | None => None
  | Some separator =>
      if negb (String.eqb (trim (str_drop separator value)) "kB") then None
      else
        let digits := str_take separator value in
        if String.eqb digits "" then None
        else match from_chars_unsigned 10 uint64_max digits with
             | FcOk kibibytes rest =>
                 if negb (String.eqb rest "") || (kibibytes =? 0) || (uint64_max / 1024 <? kibibytes)
                 then None else Some (u64 (kibibytes * 1024))
             | _ => None
             end
  end.

Fixpoint memory_lines (lines : list string) : option Z :=
  match lines with
  | [] => None
  | line :: ls => if starts_with "MemTotal:" line then memory_line line else memory_lines ls
  end.

Definition memory_bytes (contents : string) : option Z := memory_lines (split_on newline contents).

Fixpoint cpu_info_lines (lines : list string) (expected_key : string) : option string :=
  match lines with
  | [] => None
  | line :: ls =>
      match find_char ":" line with
      | Some separator =>
          if String.eqb (trim (str_take separator line)) expected_key
          then clean (str_drop (S separator) line)
          else cpu_info_lines ls expected_key
      | None => cpu_info_lines ls expected_key
      end
  end.

Definition cpu_info_value (contents expected_key : string) : option string :=
  cpu_info_lines (split_on newline contents) expected_key.

(** ** Examples *)

Example trim_example : trim " a b	" = "a b"%string. Proof. reflexivity. Qed.
Example online_example : online_cpu_ids "0-2,5" = Some [0; 1; 2; 5]. Proof. reflexivity. Qed.
Example memory_example : memory_bytes "MemTotal:  16 kB" = Some 16384. Proof. reflexivity. Qed.
Example mount_example : mount_path "/mnt/a\040b" = "/mnt/a b"%string. Proof. reflexivity. Qed.

(** ** What the parsers promise *)

(** [unsigned_value] accepts exactly the decimal numerals that fit. *)
Lemma unsigned_value_iff s n :
  unsigned_value s = Some n <->
  s <> ""%string /\ str_forall isdigit s = true /\ decimal s = n /\ n <= uint64_max.
Proof.
  unfold unsigned_value. destruct (String.eqb_spec s "") as [->|Hs]; simpl.
  { split; [done|]. intros (? & _). done. }
  destruct (str_forall isdigit s) eqn:Hd; simpl; [|split; [done|]; intros (_ & ? & _); done].
  rewrite from_chars_unsigned_digits by done. case_if; simpl; bool_facts.
  - split; [intros [= <-]; done|]. intros (_ & _ & <- & _). done.
  - split; [done|]. intros (_ & _ & <- & ?). lia.
Qed.

Lemma unsigned_value32_iff s m n :
  unsigned_value32 s m = Some n <->
  s <> ""%string /\ str_forall isdigit s = true /\ decimal s = n /\ n <= uint32_max /\ n <= m.
Proof.
  unfold unsigned_value32. destruct (String.eqb_spec s "") as [->|Hs]; simpl.
  { split; [done|]. intros (? & _). done. }
  destruct (str_forall isdigit s) eqn:Hd; simpl; [|split; [done|]; intros (_ & ? & _); done].
  rewrite from_chars_unsigned_digits by done. case_if; simpl; bool_facts.
  - case_if; bool_facts; [split; [done|]; intros (_ & _ & <- & _ & ?); lia|].
    split; [intros [= <-]; auto|]. intros (_ & _ & <- & _). done.
  - split; [done|]. intros (_ & _ & <- & ? & _). lia.
Qed.

Lemma unsigned_value_nonneg s n : unsigned_value s = Some n -> 0 <= n <= uint64_max.
Proof.
  intros (_ & Hd & <- & ?)%unsigned_value_iff. split; [|done]. by apply decimal_acc_nonneg.
Qed.

Lemma unsigned_value32_bounds s m n : unsigned_value32 s m = Some n -> 0 <= n <= m.
Proof.
  intros (_ & Hd & <- & ? & ?)%unsigned_value32_iff. split; [|done]. by apply decimal_acc_nonneg.
Qed.
#[export] Hint Resolve unsigned_value_nonneg unsigned_value32_bounds : dash.

(** *** online_cpu_ids *)

(** A decimal numeral of a CPU id. *)
Definition cpu_numeral (s : string) (n : Z) : Prop :=
  s <> ""%string /\ str_forall isdigit s = true /\ decimal s = n /\ n <= kMaximumCpuId.

(** An entry of the kernel's list format: an id, or an ascending range. *)
Definition cpu_entry_range (e : string) (r : Z * Z) : Prop :=
  (cpu_numeral e r.1 /\ r.2 = r.1) \/
  (exists x y, e = (x ++ String "-" y)%string /\ cpu_numeral x r.1 /\ cpu_numeral y r.2 /\ r.1 <= r.2).

Definition range_ids (r : Z * Z) : list Z := seqZ r.1 (r.2 - r.1 + 1).

Lemma cpu_numeral_iff s n : unsigned_value32 s kMaximumCpuId = Some n <-> cpu_numeral s n.
Proof.
  rewrite unsigned_value32_iff. unfold cpu_numeral, kMaximumCpuId, uint32_max.
  split; [intros (? & ? & ? & ? & ?); auto|]. intros (? & ? & ? & ?). repeat split; auto; lia.
Qed.

Lemma isdigit_not_dash c : isdigit c = true -> negb (is_char "-" c) = true.
Proof.
  intros H. destruct (isdigit_digit_val c H) as [_ Hr]. unfold is_char.
  destruct (Ascii.eqb_spec "-" c) as [<-|]; [destruct Hr as [Hr _]; by destruct Hr|done].
Qed.

Lemma digits_no_dash s : str_forall isdigit s = true -> find_char "-" s = None.
Proof. intros H. apply find_if_None. eapply str_forall_impl; [|exact H]. apply isdigit_not_dash. Qed.

Lemma digits_dash_pos x y :
  str_forall isdigit x = true -> find_char "-" (x ++ String "-" y) = Some (String.length x).
Proof.
  intros H. apply find_if_app; [|done]. eapply str_forall_impl; [|exact H]. apply isdigit_not_dash.
Qed.

Lemma list_to_set_snoc (R : list Z) i : ({[i]} ∪ list_to_set R : gset Z) = list_to_set (R ++ [i]).
Proof. set_solver. Qed.

Lemma add_cpu_range_iff n id R st :
  NoDup R -> (length R <= 256)%nat ->
  add_cpu_range n id (list_to_set R) R = Some st <->
  exists R', R' = R ++ seqZ id (Z.of_nat n) /\ st = (list_to_set R', R') /\ NoDup R' /\ (length R' <= 256)%nat.
Proof.
  revert id R. induction n as [|n IH]; intros id R Hnd Hl; cbn [add_cpu_range].
  { change (seqZ id (Z.of_nat 0)) with (@nil Z). split.
    - intros [= <-]. exists R. by rewrite app_nil_r.
    - intros (R' & -> & -> & _). by rewrite app_nil_r. }
  rewrite (seqZ_cons id) by lia. replace (Z.pred (Z.of_nat (S n))) with (Z.of_nat n) by lia.
  destruct (bool_decide _ || _) eqn:E.
  - split; [done|]. intros (R' & -> & -> & Hnd' & Hl').
    apply orb_true_iff in E as [E|E]; bool_facts.
    + rewrite elem_of_list_to_set in E. apply NoDup_app in Hnd' as (_ & Hd & _).
      exfalso. apply (Hd id E). by left.
    + unfold kMaximumCpuCount in E. rewrite length_app in Hl'. simpl in Hl'. lia.
  - apply orb_false_iff in E as [E1 E2]. bool_facts. unfold kMaximumCpuCount in E2.
    rewrite list_to_set_snoc, IH.
    + replace (id + 1) with (Z.succ id) by lia. setoid_rewrite <- app_assoc. done.
    + apply NoDup_app. split; [done|]. rewrite elem_of_list_to_set in E1.
      split; [set_solver|apply NoDup_singleton].
    + rewrite length_app. simpl. lia.
Qed.

(** The end of [cpu_entry], from the two bounds of the range. *)
Lemma add_bounded_range_iff a b R st :
  NoDup R -> (length R <= 256)%nat -> 0 <= a ->
  (if (b <? a) || (kMaximumCpuCount <? b - a + 1) then None
   else add_cpu_range (Z.to_nat (b - a + 1)) a (list_to_set R) R) = Some st <->
  a <= b /\ exists R', R' = R ++ range_ids (a, b) /\ st = (list_to_set R', R') /\
             NoDup R' /\ (length R' <= 256)%nat.
Proof.
  intros Hnd Hl Ha. unfold kMaximumCpuCount. destruct (_ || _) eqn:E.
  - split; [done|]. intros (Hab & R' & -> & _ & _ & Hl'). unfold range_ids in Hl'. simpl in Hl'.
    rewrite length_app, length_seqZ in Hl'. apply orb_true_iff in E as [?|?]; bool_facts; lia.
  - apply orb_false_iff in E as [E1 E2]. bool_facts. rewrite add_cpu_range_iff by done.
    unfold range_ids. simpl. rewrite Z2Nat.id by lia. split; [intros; split; [lia|done]|tauto].
Qed.

Section cpu_entry.
Context (R : list Z) (Hnd : NoDup R) (Hl : (length R <= 256)%nat).

Lemma cpu_entry_sound e st :
  cpu_entry e (list_to_set R, R) = Some st ->
  exists r R', cpu_entry_range e r /\ R' = R ++ range_ids r /\ st = (list_to_set R', R') /\
               NoDup R' /\ (length R' <= 256)%nat.
Proof.
  unfold cpu_entry. cbn [fst snd]. intros H.
  destruct (String.eqb e "" || _) eqn:E0; [done|]. apply orb_false_iff in E0 as [_ E2].
  destruct (find_char "-" e) as [d|] eqn:Ed.
  - destruct (unsigned_value32 (str_take d e) kMaximumCpuId) as [a|] eqn:Ea; [|done].
    destruct (unsigned_value32 (str_drop (S d) e) kMaximumCpuId) as [b|] eqn:Eb; [|done].
    cbn [mbind option_bind] in H.
    apply add_bounded_range_iff in H as (Hab & R' & HR & ?);
      [|done..|apply unsigned_value32_bounds in Ea; lia].
    exists (a, b), R'. split; [|auto]. right. exists (str_take d e), (str_drop (S d) e).
    destruct (find_if_Some _ _ _ Ed) as [_ (c & r & Hdr & ->%is_char_true)].
    rewrite <- !cpu_numeral_iff. rewrite (str_drop_S _ _ _ _ Hdr) in *.
    rewrite <- Hdr, str_take_drop. auto.
  - destruct (unsigned_value32 e kMaximumCpuId) as [a|] eqn:Ea; [|done].
    cbn [mbind option_bind] in H.
    apply add_bounded_range_iff in H as (Hab & R' & HR & ?);
      [|done..|apply unsigned_value32_bounds in Ea; lia].
    exists (a, a), R'. split; [|auto]. left. by rewrite <- cpu_numeral_iff.
Qed.

Lemma cpu_entry_complete e r :
  cpu_entry_range e r -> NoDup (R ++ range_ids r) -> (length (R ++ range_ids r) <= 256)%nat ->
  cpu_entry e (list_to_set R, R) = Some (list_to_set (R ++ range_ids r), R ++ range_ids r).
Proof.
  destruct r as [a b]. unfold cpu_entry. cbn [fst snd].
  intros [[Hn Hb]|(x & y & -> & Hx & Hy & Hab)] Hnd' Hl'; cbn [fst snd] in *.
  - subst b. destruct (Hn) as (Hne & Hd & _). rewrite (digits_no_dash e Hd).
    destruct (String.eqb_spec e ""); [done|]. apply cpu_numeral_iff in Hn.
    cbn [orb]. rewrite Hn. cbn [mbind option_bind].
    apply add_bounded_range_iff; [done..|apply unsigned_value32_bounds in Hn; lia|].
    split; [lia|]. by exists (R ++ range_ids (a, a)).
  - destruct (Hx) as (Hxne & Hxd & _). destruct (Hy) as (Hyne & Hyd & Hy').
    rewrite (digits_dash_pos x y Hxd).
    rewrite (str_drop_S _ _ _ _ (str_drop_app x (String "-" y))), (digits_no_dash y Hyd), str_take_app.
    destruct (String.eqb_spec (x ++ String "-" y) "") as [E|]; [by destruct x|]. cbn [orb].
    apply cpu_numeral_iff in Hx. rewrite Hx. cbn [mbind option_bind].
    rewrite (proj2 (cpu_numeral_iff y b)) by done.
    apply add_bounded_range_iff; [done..|apply unsigned_value32_bounds in Hx; lia|].
    split; [done|]. by exists (R ++ range_ids (a, b)).
Qed.
End cpu_entry.

Lemma cpu_entry_iff e R st :
  NoDup R -> (length R <= 256)%nat ->
  cpu_entry e (list_to_set R, R) = Some st <->
  exists r R', cpu_entry_range e r /\ R' = R ++ range_ids r /\ st = (list_to_set R', R') /\
               NoDup R' /\ (length R' <= 256)%nat.
Proof.
  intros Hnd Hl. split; [by apply cpu_entry_sound|].
  intros (r & R' & Hr & -> & -> & ? & ?). by apply cpu_entry_complete.
Qed.

Lemma cpu_entries_iff es R st :
  NoDup R -> (length R <= 256)%nat ->
  cpu_entries es (list_to_set R, R) = Some st <->
  exists rs R', Forall2 cpu_entry_range es rs /\ R' = R ++ concat (map range_ids rs) /\
                st = (list_to_set R', R') /\ NoDup R' /\ (length R' <= 256)%nat.
Proof.
  revert R. induction es as [|e es IH]; intros R Hnd Hl; cbn [cpu_entries].
  { split.
    - intros [= <-]. exists [], R. simpl. by rewrite app_nil_r.
    - intros (rs & R' & Hf & -> & -> & _). inversion Hf; subst. simpl. by rewrite app_nil_r. }
  split.
  - intros H. destruct (cpu_entry e _) as [st1|] eqn:E1; [|done]. simpl in H.
    apply cpu_entry_iff in E1 as (r & R1 & Hr & -> & -> & Hnd1 & Hl1); [|done..].
    apply IH in H as (rs & R' & Hf & -> & ?); [|done..].
    exists (r :: rs). eexists. split; [by constructor|]. simpl. by rewrite app_assoc.
  - intros (rs & R' & Hf & -> & -> & Hnd' & Hl'). inversion Hf as [|? r ? rs' Hr Hf']; subst.
    simpl in Hnd', Hl'. rewrite app_assoc in Hnd', Hl'.
    assert (E1 : cpu_entry e (list_to_set R, R) = Some (list_to_set (R ++ range_ids r), R ++ range_ids r)).
    { apply cpu_entry_iff; [done..|]. exists r, (R ++ range_ids r).
      apply NoDup_app in Hnd' as (? & _). rewrite length_app in Hl'. repeat split; auto; lia. }
    rewrite E1. simpl. apply IH.
    + by apply NoDup_app in Hnd' as (? & _).
    + rewrite length_app in Hl'. lia.
    + exists rs', ((R ++ range_ids r) ++ concat (map range_ids rs')).
      cbn [map concat]. rewrite app_assoc. auto.
Qed.

(** [online_cpu_ids] accepts exactly the kernel's CPU list format (comma-separated
    ids and ascending ranges of ids up to 4095, no id twice, at most 256 in all) and
    returns the ids the text denotes, in order. *)
Theorem online_cpu_ids_spec contents ids :
  online_cpu_ids contents = Some ids <->
  trim contents <> ""%string /\
  exists ranges, Forall2 cpu_entry_range (split_on "," (trim contents)) ranges /\
                 ids = concat (map range_ids ranges) /\ NoDup ids /\ (length ids <= 256)%nat.
Proof.
  unfold online_cpu_ids. destruct (String.eqb_spec (trim contents) "") as [E|Hne].
  { split; [done|]. intros [? _]. done. }
  assert (Hnil : NoDup (@nil Z)) by constructor.
  split.
  - intros H. split; [done|]. destruct (cpu_entries _ _) as [[U R]|] eqn:E; [|done]. simpl in H.
    apply (cpu_entries_iff _ [] (U, R)) in E as (rs & R' & Hf & HR & [= _ ->] & ?); [|done|simpl; lia].
    exists rs. destruct R'; [done|]. injection H as <-. auto.
  - intros (_ & rs & Hf & -> & Hnd & Hl).
    assert (E : cpu_entries (split_on "," (trim contents)) (∅, []) =
                Some (list_to_set (concat (map range_ids rs)), concat (map range_ids rs))).
    { apply (cpu_entries_iff _ []); [done|simpl; lia|]. exists rs. eexists. eauto. }
    rewrite E. simpl. destruct (concat _) eqn:Ec; [|done]. exfalso.
    destruct (split_on "," (trim contents)) eqn:Es.
    { clear -Es. destruct (trim contents); simpl in Es; [done|]. case_if; [done|].
      by destruct (split_on _ _). }
    inversion Hf as [|? r ? ? Hr]; subst. simpl in Ec. apply app_eq_nil in Ec as [Ec _].
    assert (r.1 <= r.2) by (destruct Hr as [[_ ->]|(? & ? & _ & _ & _ & ?)]; lia).
    unfold range_ids in Ec. apply (f_equal length) in Ec. rewrite length_seqZ in Ec. simpl in Ec. lia.
Qed.

(** *** mount_path *)

(** How the kernel writes a mount point in /proc/self/mounts: space, tab, newline and
    backslash become a backslash and three octal digits ([seq_escape]). *)
Definition mangled (c : ascii) : bool :=
  is_char c " " || is_char c "009" || is_char c newline || is_char c "\".

Definition octal_digit (z : Z) : ascii := char_of (48 + z).

Fixpoint mangle (path : string) : string :=
  match path with
  | EmptyString => EmptyString
  | String c r =>
      if mangled c then
        String "\" (String (octal_digit (char_val c / 64)) (String (octal_digit (char_val c / 8 mod 8))
          (String (octal_digit (char_val c mod 8)) (mangle r))))
      else String c (mangle r)
  end.

Lemma mount_path_plain c s : c <> "\"%char -> mount_path (String c s) = String c (mount_path s).
Proof.
  intros H. assert (Hc : is_char c "\" = false) by by apply Ascii.eqb_neq.
  destruct s as [|a [|b [|d r]]]; cbn [mount_path]; rewrite ?Hc; done.
Qed.

Lemma mangled_cases c :
  mangled c = true -> c = " "%char \/ c = "009"%char \/ c = newline \/ c = "\"%char.
Proof.
  unfold mangled. rewrite !orb_true_iff. intros [[[H|H]|H]|H]; apply is_char_true in H; auto.
Qed.

(** [mount_path] undoes the kernel's escaping: every path, whatever its bytes,
    is read back from its form in /proc/self/mounts. *)
Theorem mount_path_mangle path : mount_path (mangle path) = path.
Proof.
  induction path as [|c r IH]; [done|]. cbn [mangle]. destruct (mangled c) eqn:E.
  - rewrite <- IH at 2. by destruct (mangled_cases c E) as [-> | [-> | [-> | ->]]].
  - rewrite mount_path_plain, IH; [done|]. by intros ->.
Qed.

(** *** memory_bytes *)

(** A [MemTotal:] line that gives [n] bytes: blanks, digits, a blank, [kB]. *)
Definition meminfo_line (line : string) (n : Z) : Prop :=
  exists digits sep unit, trim (str_drop 9 line) = (digits ++ String sep unit)%string /\
    digits <> ""%string /\ str_forall isdigit digits = true /\
    (sep = " " \/ sep = "009")%char /\ trim (String sep unit) = "kB"%string /\
    0 < decimal digits <= uint64_max / 1024 /\ n = decimal digits * 1024.

Abbreviation meminfo_blank := (fun c => is_char c " " || is_char c "009").

Lemma meminfo_blank_iff c : meminfo_blank c = true <-> (c = " " \/ c = "009")%char.
Proof. rewrite orb_true_iff. unfold is_char. by rewrite !Ascii.eqb_eq. Qed.

Lemma isdigit_not_blank c : isdigit c = true -> negb (meminfo_blank c) = true.
Proof.
  intros H. apply negb_true_iff, not_true_iff_false. rewrite meminfo_blank_iff. by intros [-> | ->].
Qed.

(** [from_chars] that consumes everything has read a decimal numeral. *)
Lemma from_chars_unsigned_all hi s n :
  from_chars_unsigned 10 hi s = FcOk n "" ->
  s <> ""%string /\ str_forall isdigit s = true /\ n = decimal s /\ n <= hi.
Proof.
  intros H. assert (Hs : s <> ""%string) by by intros ->.
  assert (Hd : str_forall isdigit s = true).
  { revert H. unfold from_chars_unsigned. destruct (digits_prefix 10 0 s) as [[k v] rest] eqn:E.
    destruct (k =? 0)%nat; [done|]. case_if; [|done]. intros [= _ ->]. clear Heqb Hs hi.
    revert k v E. generalize 0 as acc. induction s as [|c s IH]; simpl; intros acc k v; [done|].
    destruct (digit_val c <? 10) eqn:Ec; [|done].
    destruct (digits_prefix 10 (acc * 10 + digit_val c) s) as [[k' v'] r'] eqn:E'.
    intros [= _ _ ->]. rewrite (IH _ _ _ E'), andb_true_r. clear -Ec. bool_facts.
    unfold digit_val in Ec. pose proof (char_val_range c). unfold isdigit.
    repeat case_if; bool_facts; try done; lia. }
  rewrite from_chars_unsigned_digits in H by done. case_if; [|done]. bool_facts.
  injection H as <-. auto.
Qed.

Lemma memory_line_iff line n : memory_line line = Some n <-> meminfo_line line n.
Proof.
  unfold memory_line, meminfo_line. split.
  - destruct (find_if _ _) as [k|] eqn:Ek; [|done].
    apply find_if_Some in Ek as [_ (sep & unit & Hdrop & Hsep%meminfo_blank_iff)].
    rewrite Hdrop. destruct (String.eqb_spec (trim (String sep unit)) "kB") as [Hu|]; [|done].
    cbn [negb]. case_if; [done|].
    destruct (from_chars_unsigned _ _ _) as [|rest|k' rest] eqn:Ec; try done.
    destruct (String.eqb_spec rest "") as [->|]; [|done]. cbn [negb orb].
    case_if; [done|]. intros [= <-]. bool_facts.
    apply from_chars_unsigned_all in Ec as (Hne & Hd & -> & Hmax).
    exists (str_take k (trim (str_drop 9 line))), sep, unit.
    rewrite <- Hdrop, str_take_drop. rewrite Hdrop in *.
    pose proof (decimal_acc_nonneg 0 _ Hd). fold (decimal (str_take k (trim (str_drop 9 line)))) in *.
    repeat split; auto; try lia.
    apply u64_id. unfold uint64_max in *. change (18446744073709551615 / 1024) with 18014398509481983 in *. lia.
  - intros (digits & sep & unit & -> & Hne & Hd & Hsep & Hunit & Hr & ->).
    rewrite (find_if_app _ digits sep unit);
      [|eapply str_forall_impl; [apply isdigit_not_blank|done]|by apply meminfo_blank_iff].
    rewrite str_drop_app, str_take_app, Hunit, String.eqb_refl. cbn [negb].
    destruct (String.eqb_spec digits ""); [done|]. rewrite from_chars_unsigned_digits by done.
    unfold uint64_max in *. change (18446744073709551615 / 1024) with 18014398509481983 in *.
    rewrite (proj2 (Z.leb_le _ _)) by lia. rewrite String.eqb_refl. cbn [negb orb].
    rewrite (proj2 (Z.eqb_neq _ _)), (proj2 (Z.ltb_ge _ _)) by lia. cbn [orb].
    f_equal. apply u64_id. unfold uint64_max. lia.
Qed.

(** [memory_bytes] answers exactly when the first [MemTotal:] line is well formed,
    non-zero and its byte count fits 64 bits; the product by 1024 never wraps. *)
Theorem memory_bytes_spec contents n :
  memory_bytes contents = Some n <->
  exists before line after, split_on newline contents = before ++ line :: after /\
    Forall (fun l => starts_with "MemTotal:" l = false) before /\
    starts_with "MemTotal:" line = true /\ meminfo_line line n.
Proof.
  unfold memory_bytes. induction (split_on newline contents) as [|l ls IH]; cbn [memory_lines].
  { split; [done|]. by intros ([|? ?] & ? & ? & ? & _). }
  destruct (starts_with _ l) eqn:E.
  - rewrite memory_line_iff. split.
    + intros H. by exists [], l, ls.
    + intros ([|b before] & line & after & [= -> ->] & Hb & _ & H); [done|].
      inversion Hb; congruence.
  - rewrite IH. split.
    + intros (before & line & after & -> & Hb & ? & ?). exists (l :: before), line, after. auto.
    + intros ([|b before] & line & after & [= -> ->] & Hb & ? & ?); [congruence|].
      inversion Hb; subst. by exists before, line, after.
Qed.

(** *** utf8 *)

(** RFC 3629: the scalar values and their encoding. *)
Definition scalar_value (cp : Z) : Prop := 0 <= cp <= 1114111 /\ ~ (55296 <= cp <= 57343).

Definition utf8_encode (cp : Z) : string :=
  if cp <? 128 then String (char_of cp) ""
  else if cp <? 2048 then String (char_of (192 + cp / 64)) (String (char_of (128 + cp mod 64)) "")
  else if cp <? 65536 then
    String (char_of (224 + cp / 4096)) (String (char_of (128 + cp / 64 mod 64))
      (String (char_of (128 + cp mod 64)) ""))
  else
    String (char_of (240 + cp / 262144)) (String (char_of (128 + cp / 4096 mod 64))
      (String (char_of (128 + cp / 64 mod 64)) (String (char_of (128 + cp mod 64)) ""))).

Definition utf8_text (cps : list Z) : string := foldr (fun cp s => utf8_encode cp ++ s)%string ""%string cps.

Lemma char_val_of z : 0 <= z < 256 -> char_val (char_of z) = z.
Proof.
  intros H. unfold char_val, char_of. rewrite Z.mod_small, N_ascii_embedding by lia. lia.
Qed.

Lemma byte_range_forall (p : Z -> bool) :
  forallb p (seqZ 0 256) = true -> forall c, 0 <= c < 256 -> p c = true.
Proof. rewrite forallb_forall. intros H c Hc. apply H, list_elem_of_In, elem_of_seqZ. lia. Qed.

(** The masks of [utf8] test for ranges of bytes. *)
Lemma utf8_masks c :
  0 <= c < 256 ->
  (Z.land c 224 =? 192) = ((192 <=? c) && (c <=? 223)) /\
  (Z.land c 240 =? 224) = ((224 <=? c) && (c <=? 239)) /\
  (Z.land c 248 =? 240) = ((240 <=? c) && (c <=? 247)) /\
  (Z.land c 192 =? 128) = ((128 <=? c) && (c <=? 191)).
Proof.
  intros Hc.
  pose proof (byte_range_forall (fun c =>
    Bool.eqb (Z.land c 224 =? 192) ((192 <=? c) && (c <=? 223)) &&
    Bool.eqb (Z.land c 240 =? 224) ((224 <=? c) && (c <=? 239)) &&
    Bool.eqb (Z.land c 248 =? 240) ((240 <=? c) && (c <=? 247)) &&
    Bool.eqb (Z.land c 192 =? 128) ((128 <=? c) && (c <=? 191))) ltac:(vm_compute; reflexivity) c Hc) as H.
  cbn beta in H. rewrite !andb_true_iff in H. destruct H as [[[?%eqb_prop ?%eqb_prop] ?%eqb_prop] ?%eqb_prop].
  auto.
Qed.

Section utf8_steps.
Context (s : string).

Lemma utf8_ascii z : 0 <= z < 128 -> utf8_go 0 (String (char_of z) s) = utf8_go 0 s.
Proof. intros. simpl. rewrite char_val_of, (proj2 (Z.ltb_lt _ _)) by lia. done. Qed.

Lemma utf8_lead left z :
  (192 <= z <= 223 /\ left = 1) \/ (224 <= z <= 239 /\ left = 2) \/ (240 <= z <= 247 /\ left = 3) ->
  utf8_go 0 (String (char_of z) s) = utf8_go left s.
Proof.
  intros H. simpl. rewrite char_val_of by lia.
  destruct (utf8_masks z ltac:(lia)) as (-> & -> & -> & _).
  destruct H as [[? ->]|[[? ->]|[? ->]]]; repeat case_if; bool_facts; try done;
    repeat match goal with H : (_ && _)%bool = false |- _ => apply andb_false_iff in H as [?|?] end;
    bool_facts; lia.
Qed.

Lemma utf8_continuation left z :
  0 < left -> 128 <= z <= 191 -> utf8_go left (String (char_of z) s) = utf8_go (left - 1) s.
Proof.
  intros Hl Hz. simpl. rewrite char_val_of by lia.
  destruct (utf8_masks z ltac:(lia)) as (_ & _ & _ & ->).
  rewrite (proj2 (Z.eqb_neq _ _)), !(proj2 (Z.leb_le _ _)) by lia. done.
Qed.
End utf8_steps.

Lemma utf8_go_encode cp s : scalar_value cp -> utf8_go 0 (utf8_encode cp ++ s) = utf8_go 0 s.
Proof.
  intros [H _]. unfold utf8_encode.
  pose proof (Z.mod_pos_bound cp 64). pose proof (Z.mod_pos_bound (cp / 64) 64).
  pose proof (Z.mod_pos_bound (cp / 4096) 64).
  repeat case_if; bool_facts; cbn [String.append].
  - apply utf8_ascii. lia.
  - assert (0 <= cp / 64 < 32) by (split; [apply Z.div_pos|apply Z.div_lt_upper_bound]; lia).
    rewrite (utf8_lead _ 1) by lia. by rewrite utf8_continuation by lia.
  - assert (0 <= cp / 4096 < 16) by (split; [apply Z.div_pos|apply Z.div_lt_upper_bound]; lia).
    rewrite (utf8_lead _ 2) by lia. by rewrite !utf8_continuation by lia.
  - assert (0 <= cp / 262144 < 5) by (split; [apply Z.div_pos|apply Z.div_lt_upper_bound]; lia).
    rewrite (utf8_lead _ 3) by lia. by rewrite !utf8_continuation by lia.
Qed.

(** What [utf8] accepts, structurally: a lead byte and the number of continuation
    bytes it announces.  Neither shortest form nor the scalar range is required. *)
Inductive utf8_shape : string -> Prop :=
| shape_nil : utf8_shape ""
| shape_char lead tail rest :
    (char_val lead < 128 /\ tail = "" \/
     192 <= char_val lead <= 223 /\ String.length tail = 1%nat \/
     224 <= char_val lead <= 239 /\ String.length tail = 2%nat \/
     240 <= char_val lead <= 247 /\ String.length tail = 3%nat)%string ->
    str_forall (fun c => (128 <=? char_val c) && (char_val c <=? 191)) tail = true ->
    utf8_shape rest -> utf8_shape (String lead (tail ++ rest)).

Lemma utf8_go_tail n s :
  utf8_go (Z.of_nat n) s = true ->
  exists tail rest, s = (tail ++ rest)%string /\ String.length tail = n /\
    str_forall (fun c => (128 <=? char_val c) && (char_val c <=? 191)) tail = true /\
    utf8_go 0 rest = true.
Proof.
  revert s. induction n as [|n IH]; intros s H; [by exists ""%string, s|].
  destruct s as [|c s]; [done|]. cbn [utf8_go] in H.
  destruct (utf8_masks (char_val c) (char_val_range c)) as (_ & _ & _ & E). rewrite E in H.
  rewrite (proj2 (Z.eqb_neq _ _)) in H by lia.
  destruct (_ && _) eqn:Ec; [|done]. cbn [negb] in H.
  replace (Z.of_nat (S n) - 1) with (Z.of_nat n) in H by lia.
  destruct (IH s H) as (tail & rest & -> & <- & Ht & Hr).
  exists (String c tail), rest. cbn [str_forall String.append String.length]. by rewrite Ec, Ht.
Qed.

Lemma utf8_shape_of_go n s :
  (String.length s <= n)%nat -> utf8_go 0 s = true -> utf8_shape s.
Proof.
  revert s. induction n as [|n IH]; intros [|c s] Hn H; try constructor; [simpl in Hn; lia|].
  simpl in Hn. cbn [utf8_go] in H. change (0 =? 0) with true in H. cbn match in H.
  destruct (utf8_masks (char_val c) (char_val_range c)) as (E1 & E2 & E3 & _).
  rewrite E1, E2, E3 in H.
  assert (Hk : forall k, utf8_go (Z.of_nat k) s = true ->
    (char_val c < 128 /\ k = 0%nat \/ 192 <= char_val c <= 223 /\ k = 1%nat \/
     224 <= char_val c <= 239 /\ k = 2%nat \/ 240 <= char_val c <= 247 /\ k = 3%nat) ->
    utf8_shape (String c s)).
  { intros k (tail & rest & -> & <- & Ht & Hr)%utf8_go_tail Hc. constructor; [|done|].
    - destruct Hc as [[? Hl]|[?|[?|?]]]; auto. left. split; [done|]. by destruct tail.
    - apply IH; [|done]. rewrite length_string_app in Hn. lia. }
  repeat case_if; bool_facts; [apply (Hk 0%nat)|apply (Hk 1%nat)|apply (Hk 2%nat)|apply (Hk 3%nat)|];
    auto; lia.
Qed.

Lemma utf8_go_of_tail tail s :
  str_forall (fun c => (128 <=? char_val c) && (char_val c <=? 191)) tail = true ->
  utf8_go (Z.of_nat (String.length tail)) (tail ++ s) = utf8_go 0 s.
Proof.
  induction tail as [|c t IH]; [done|]. cbn [str_forall]. intros H. bool_facts.
  rewrite <- IH by done. rewrite <- (char_of_val c). cbn [String.append String.length].
  rewrite utf8_continuation by lia. f_equal. lia.
Qed.

Lemma utf8_go_of_shape s : utf8_shape s -> utf8_go 0 s = true.
Proof.
  induction 1 as [|lead tail rest Hl Ht _ IH]; [done|]. rewrite <- (char_of_val lead).
  pose proof (char_val_range lead).
  pose proof (utf8_go_of_tail tail rest Ht) as Hg.
  destruct Hl as [[? ->]|[[? E]|[[? E]|[? E]]]].
  - rewrite utf8_ascii by lia. done.
  - rewrite (utf8_lead _ 1) by lia. rewrite E in Hg. by rewrite <- IH, <- Hg.
  - rewrite (utf8_lead _ 2) by lia. rewrite E in Hg. by rewrite <- IH, <- Hg.
  - rewrite (utf8_lead _ 3) by lia. rewrite E in Hg. by rewrite <- IH, <- Hg.
Qed.

Definition overlong_nul : string := String (char_of 192) (String (char_of 128) "").

Lemma utf8_text_not_overlong cps : Forall scalar_value cps -> utf8_text cps <> overlong_nul.
Proof.
  intros H. destruct H as [|cp cps [Hcp _] _]; [done|]. unfold utf8_text. cbn [foldr].
  unfold utf8_encode, overlong_nul.
  assert (Hne : forall z t, 0 <= z < 256 -> z <> 192 -> String (char_of z) t <> overlong_nul).
  { intros z t Hz Hn [= Hv _]. apply (f_equal char_val) in Hv. rewrite !char_val_of in Hv by lia. done. }
  repeat case_if; bool_facts; cbn [String.append]; apply Hne.
  all: try (assert (2 <= cp / 64 < 32) by (split; [apply Z.div_le_lower_bound|apply Z.div_lt_upper_bound]; lia); lia).
  all: try (assert (0 <= cp / 4096 < 16) by (split; [apply Z.div_pos|apply Z.div_lt_upper_bound]; lia); lia).
  all: try (assert (0 <= cp / 262144 < 5) by (split; [apply Z.div_pos|apply Z.div_lt_upper_bound]; lia); lia).
  all: lia.
Qed.

(** [utf8] accepts exactly the byte strings made of lead bytes followed by as many
    continuation bytes as they announce.  Hence every RFC 3629 text is accepted, but
    also byte strings that no RFC 3629 text encodes to, the overlong NUL for one. *)
Theorem utf8_spec :
  (forall s, utf8 s = true <-> utf8_shape s) /\
  (forall cps, Forall scalar_value cps -> utf8 (utf8_text cps) = true) /\
  utf8 overlong_nul = true /\
  (forall cps, Forall scalar_value cps -> utf8_text cps <> overlong_nul).
Proof.
  repeat split.
  - by apply (utf8_shape_of_go (String.length s)).
  - apply utf8_go_of_shape.
  - intros cps. unfold utf8. induction 1 as [|cp cps Hcp _ IH]; [done|].
    unfold utf8_text. cbn [foldr]. by rewrite utf8_go_encode.
  - apply utf8_text_not_overlong.
Qed.

(** *** gpu_stats *)

(** The timestamp and runtime of a well-formed line. *)
Definition gpu_queue (line : string) : option (Z * Z) :=
  match tokens line with
  | [_; timestamp_text; jobs_text; runtime_text] =>
      match unsigned_value timestamp_text, unsigned_value jobs_text, unsigned_value runtime_text with
      | Some ts, Some _, Some rt => Some (ts, rt)
      | _, _, _ => None
      end
  | _ => None
  end.

Definition queue_sum (queues : list (Z * Z)) : Z := foldr (fun q s => q.2 + s) 0 queues.

Lemma gpu_stats_line_entry st line :
  gpu_stats_line st line =
  match gpu_queue line with
  | Some (ts, rt) =>
      if (gs_found st && negb (ts =? gs_timestamp st)) || (u64 (kWireMaximum - rt) <? gs_runtime st)
      then st
      else {| gs_timestamp := ts; gs_runtime := u64 (gs_runtime st + rt); gs_found := true |}
  | None => st
  end.
Proof.
  unfold gpu_stats_line, gpu_queue. destruct (tokens line) as [|? [|a [|b [|c [|]]]]]; try done.
  by destruct (unsigned_value a), (unsigned_value b), (unsigned_value c).
Qed.

Lemma gpu_queue_nonneg line ts rt : gpu_queue line = Some (ts, rt) -> 0 <= ts /\ 0 <= rt <= uint64_max.
Proof.
  unfold gpu_queue. destruct (tokens line) as [|? [|a [|b [|c [|]]]]]; try done.
  destruct (unsigned_value a) eqn:E1; [|done]. destruct (unsigned_value b) eqn:E2; [|done].
  destruct (unsigned_value c) eqn:E3; [|done]. intros [= <- <-].
  apply unsigned_value_nonneg in E1, E3. lia.
Qed.

(** The queues that were added: some of the well-formed lines, all at the timestamp
    of the first, their runtimes summed without wrapping. *)
Definition gpu_sum_inv (lines : list string) (st : gpu_stats_state) : Prop :=
  exists queues, sublist queues (omap gpu_queue lines) /\
    Forall (fun q => q.1 = gs_timestamp st) queues /\
    gs_runtime st = queue_sum queues /\ 0 <= gs_runtime st <= kWireMaximum /\
    gs_found st = negb (bool_decide (queues = [])).

Lemma queue_sum_app a b : queue_sum (a ++ b) = queue_sum a + queue_sum b.
Proof. induction a as [|q a IH]; simpl; [done|]. rewrite IH. lia. Qed.

Lemma gpu_sum_step lines line st :
  (forall ts rt, gpu_queue line = Some (ts, rt) -> rt <= kWireMaximum) ->
  gpu_sum_inv lines st -> gpu_sum_inv (lines ++ [line]) (gpu_stats_line st line).
Proof.
  intros Hrt (qs & Hs & Hts & Hsum & Hr & Hf).
  rewrite gpu_stats_line_entry. unfold gpu_sum_inv. rewrite omap_app. cbn [omap list_omap].
  assert (Hskip : forall l, gpu_sum_inv lines st -> sublist qs (omap gpu_queue lines ++ l)).
  { intros l _. rewrite <- (app_nil_r qs). by apply sublist_app; [|apply sublist_nil_l]. }
  destruct (gpu_queue line) as [[ts rt]|] eqn:Eq; cbn [option_list].
  2: { exists qs. split; [apply Hskip; by exists qs|auto]. }
  destruct (gpu_queue_nonneg _ _ _ Eq) as [_ Hrt0]. specialize (Hrt _ _ eq_refl).
  unfold kWireMaximum, int64_max in *.
  rewrite (u64_id (9223372036854775807 - rt)) by (unfold uint64_max; lia).
  destruct (_ || _) eqn:Eg.
  { exists qs. split; [apply Hskip; by exists qs|auto]. }
  apply orb_false_iff in Eg as [Eg1 Eg2]. bool_facts. cbn [gs_timestamp gs_runtime gs_found].
  rewrite u64_id by (unfold uint64_max; lia).
  exists (qs ++ [(ts, rt)]). split; [by apply sublist_app|]. rewrite queue_sum_app.
  split; [|simpl; repeat split; try lia; rewrite bool_decide_eq_false_2; [done|by destruct qs]].
  apply Forall_app. split; [|by repeat constructor].
  destruct (gs_found st) eqn:Ef; simpl in Eg1.
  - apply negb_false_iff, Z.eqb_eq in Eg1. by rewrite Eg1.
  - destruct qs as [|q qs']; [constructor|]. done.
Qed.

Lemma gpu_sum_fold lines : forall done_lines st,
  Forall (fun line => forall ts rt, gpu_queue line = Some (ts, rt) -> rt <= kWireMaximum) lines ->
  gpu_sum_inv done_lines st -> gpu_sum_inv (done_lines ++ lines) (fold_left gpu_stats_line lines st).
Proof.
  induction lines as [|l ls IH]; intros dl st HF Hi; [by rewrite app_nil_r|].
  inversion HF; subst. cbn [fold_left]. replace (dl ++ l :: ls) with ((dl ++ [l]) ++ ls) by by rewrite <- app_assoc.
  apply IH; [done|]. by apply gpu_sum_step.
Qed.

(** When no queue's runtime exceeds the wire maximum, [gpu_stats] answers with one
    timestamp and the exact sum of the runtimes of some of the queues that carry it,
    which fits the wire. *)
Theorem gpu_stats_sum contents ts rt
  (Hsmall : Forall (fun line => forall ts rt, gpu_queue line = Some (ts, rt) -> rt <= kWireMaximum)
              (getlines contents))
  (H : gpu_stats contents = Some (ts, rt)) :
  0 < ts /\ 0 <= rt <= kWireMaximum /\
  exists queues, queues <> [] /\ sublist queues (omap gpu_queue (getlines contents)) /\
    Forall (fun q => q.1 = ts) queues /\ rt = queue_sum queues.
Proof.
  unfold gpu_stats in H.
  assert (Hi : gpu_sum_inv [] {| gs_timestamp := 0; gs_runtime := 0; gs_found := false |}).
  { exists []. repeat split; try done; constructor. }
  apply (gpu_sum_fold _ _ _ Hsmall) in Hi as (qs & Hs & Hts & Hsum & Hr & Hf).
  case_if; [|done]. injection H as <- <-. bool_facts. rewrite Hf in H.
  split; [done|]. split; [done|]. exists qs. split; [|auto]. bool_facts. done.
Qed.

Definition gpu_stats_sample : string :=
  ("queue timestamp jobs runtime" ++ String newline "bin 5 1 40" ++ String newline "render 5 2 2")%string.

Lemma gpu_stats_sum_witness : gpu_stats gpu_stats_sample = Some (5, 42) /\ 0 < 5.
Proof.
  split; [reflexivity|]. apply (gpu_stats_sum gpu_stats_sample 5 42); [|reflexivity].
  assert (H : map gpu_queue (getlines gpu_stats_sample) = [None; Some (5, 40); Some (5, 2)]) by reflexivity.
  apply Forall_forall. intros l Hl ts rt E.
  assert (Hq : gpu_queue l ∈ map gpu_queue (getlines gpu_stats_sample)) by (apply list_elem_of_fmap; eauto).
  rewrite H, E in Hq. rewrite !elem_of_cons in Hq. unfold kWireMaximum, int64_max.
  destruct Hq as [?|[[= -> ->]|[[= -> ->]|Hq]]]; [done|lia..|by apply not_elem_of_nil in Hq].
Defined.

(** Beyond that bound the guard itself wraps: the second runtime is larger than the
    wire maximum, passes [runtime > kWireMaximum - rt], and the sum shrinks. *)
Example gpu_stats_guard_wraps :
  gpu_stats ("a 1 1 9223372036854775807" ++ String newline "b 1 1 18446744073709551615")
  = Some (1, 9223372036854775806).
Proof. reflexivity. Qed.
