(* ===== verification/Numbers.v ===== *)
(** * Reading numbers from text, as the C and C++ libraries do

    [strtod] and the stream extractions [in >> double] and [in >> std::uint64_t] (C
    locale).  A decimal is rounded once, to nearest even, from its exact value. *)

From S2P Require Import Prelude.
From S2P Require Import Std.
From S2P Require Import Float64.

(** The text a C function sees: up to the first NUL. *)
Fixpoint c_str (s : string) : string :=
  match s with
  | EmptyString => EmptyString
  | String c r => if char_val c =? 0 then EmptyString else String c (c_str r)
  end.

Fixpoint skip_spaces (s : string) : string :=
  match s with
  | String c r => if isspace c then skip_spaces r else s
  | EmptyString => s
  end.

(** [m * 10^e], correctly rounded. *)
Definition decimal_to_double (negative : bool) (m e : Z) : double :=
  match m with
  | Zpos p =>
      let exact :=
        if 0 <=? e then binary_normalize prec64 emax64 (Zpos p * 10 ^ e) 0 false
        else match 10 ^ (- e) with
             | Zpos q => SFdiv prec64 emax64 (S754_finite false p 0) (S754_finite false q 0)
             | _ => S754_nan
             end in
      if negative then SFopp exact else exact
  | _ => S754_zero negative
  end.

(** [m * 2^e], correctly rounded. *)
Definition binary_to_double (negative : bool) (m e : Z) : double :=
  match m with
  | Zpos p => binary_normalize prec64 emax64 (if negative then Zneg p else Zpos p) e negative
  | _ => S754_zero negative
  end.

(** An optional exponent: the marker, an optional sign, digits; else nothing is consumed. *)
Definition read_exponent (marker : Z) (s : string) : Z * string :=
  match s with
  | String c r =>
      if char_val (tolower c) =? marker then
        let '(sign, digits) := match r with
                               | String d r' => if is_char "-" d then (-1, r') else if is_char "+" d then (1, r') else (1, r)
                               | EmptyString => (1, r)
                               end in
        let '(n, v, rest) := digits_prefix 10 0 digits in
        if (n =? 0)%nat then (0, s) else (sign * v, rest)
      else (0, s)
  | EmptyString => (0, s)
  end.

(** Digits with an optional point: how many digits, their value, how many of them
    after the point, and the rest. *)
Definition read_mantissa (base : Z) (s : string) : nat * Z * nat * string :=
  let '(n, v, rest) := digits_prefix base 0 s in
  match rest with
  | String c r =>
      if is_char "." c then
        let '(k, v', rest') := digits_prefix base v r in ((n + k)%nat, v', k, rest')
      else (n, v, O, rest)
  | EmptyString => (n, v, O, rest)
  end.

Definition read_sign (s : string) : bool * string :=
  match s with
  | String c r => if is_char "-" c then (true, r) else if is_char "+" c then (false, r) else (false, s)
  | EmptyString => (false, s)
  end.

Definition read_decimal (negative : bool) (s : string) : option (double * string) :=
  let '(n, v, k, rest) := read_mantissa 10 s in
  if (n =? 0)%nat then None
  else let '(e, rest') := read_exponent 101 rest in
       Some (decimal_to_double negative v (e - Z.of_nat k), rest').

Definition read_hex (negative : bool) (s : string) : option (double * string) :=
  let '(n, v, k, rest) := read_mantissa 16 s in
  if (n =? 0)%nat then None
  else let '(e, rest') := read_exponent 112 rest in
       Some (binary_to_double negative v (e - 4 * Z.of_nat k), rest').

(** [strtod(s, &end)]: the value and the text at [end]; [None] when nothing is converted. *)
Definition strtod (s : string) : option (double * string) :=
  let '(negative, t) := read_sign (skip_spaces s) in
  let lower := str_map tolower t in
  if starts_with "infinity" lower then Some (S754_infinity negative, str_drop 8 t)
  else if starts_with "inf" lower then Some (S754_infinity negative, str_drop 3 t)
  else if starts_with "nan" lower then Some (S754_nan, str_drop 3 t)
  else if starts_with "0x" lower then
    match read_hex negative (str_drop 2 t) with
    | Some r => Some r
    | None => Some (S754_zero negative, str_drop 1 t)
    end
  else read_decimal negative t.

(** [in >> d]: decimal only; an incomplete exponent fails. *)
Definition stream_double (s : string) : option (double * string) :=
  let '(negative, t) := read_sign (skip_spaces s) in
  match read_decimal negative t with
  | Some (d, rest) =>
      match rest with
      | String c _ => if char_val (tolower c) =? 101 then None else Some (d, rest)
      | EmptyString => Some (d, rest)
      end
  | None => None
  end.

(** [in >> x] for a [std::uint64_t]: a minus sign negates modulo 2^64, overflow fails. *)
Definition stream_uint64 (s : string) : option (Z * string) :=
  let '(negative, t) := read_sign (skip_spaces s) in
  let '(n, v, rest) := digits_prefix 10 0 t in
  if (n =? 0)%nat || (uint64_max <? v) then None
  else Some (if negative then u64 (- v) else v, rest).

(** [while (in >> x)]: the numbers at the front of a text; [fuel] its length. *)
Fixpoint stream_uint64s (fuel : nat) (s : string) : list Z :=
  match fuel with
  | O => []
  | S f => match stream_uint64 s with
           | Some (x, rest) => x :: stream_uint64s f rest
           | None => []
           end
  end.

Example strtod_half : strtod " 0.5x" = Some (S754_finite false 4503599627370496 (-53), "x"%string).
Proof. reflexivity. Qed.
Example strtod_exp : strtod "15e-1" = Some (S754_finite false 6755399441055744 (-52), ""%string).
Proof. reflexivity. Qed.
Example strtod_tenth : strtod "0.1" = Some (S754_finite false 7205759403792794 (-56), ""%string).
Proof. reflexivity. Qed.
Example strtod_none : strtod "abc" = None. Proof. reflexivity. Qed.
Example strtod_hex : strtod "0x1.8p1" = Some (S754_finite false 6755399441055744 (-51), ""%string).
Proof. reflexivity. Qed.
Example stream_numbers : stream_uint64s 20 " 10 20 30 cpu0" = [10; 20; 30]. Proof. reflexivity. Qed.
