(* ===== verification/NumbersLaws.v ===== *)
(** * What the readers of numbers give

    [strtod] and the extraction of a double give representable doubles only: a rounding
    ends in a canonical mantissa, in zero, or in an infinity. *)

From Stdlib Require Import Floats.SpecFloat.
From S2P Require Import Prelude.
From S2P Require Import Std.
From S2P Require Import Float64.
From S2P Require Import FloatBounds.
From S2P Require Import Numbers.

(** The outcome of a rounding is a double, also when it overflows. *)
Lemma finish_valid s N E :
  0 <= N <= 2 ^ 53 -> -1074 <= E -> (2 ^ 52 <= N \/ E = -1074) -> valid64 (finish s N E) = true.
Proof.
  intros HN HE Hnorm. unfold finish. destruct (N =? 2 ^ 53) eqn:E1.
  - destruct (E + 1 <=? 971) eqn:E2; [|done]. apply Z.leb_le in E2. cbn [valid64 valid_binary].
    unfold bounded, canonical_mantissa. apply andb_true_iff. split.
    + apply Z.eqb_eq. change (Zpos (digits2_pos (Z.to_pos (2 ^ 52)))) with 53. rewrite fexp64_eq. lia.
    + apply Z.leb_le. unfold prec64, emax64. lia.
  - apply Z.eqb_neq in E1. destruct N as [|m|m]; [done| |lia].
    destruct (E <=? 971) eqn:E2; [|done]. apply Z.leb_le in E2. cbn [valid64 valid_binary].
    unfold bounded, canonical_mantissa. apply andb_true_iff. split; [|apply Z.leb_le; unfold prec64, emax64; lia].
    apply Z.eqb_eq. change (Zpos (digits2_pos m)) with (Zdigits2 (Zpos m)). rewrite fexp64_eq.
    assert (Hd : Zdigits2 (Zpos m) <= 53) by (apply digits_le; lia).
    destruct Hnorm as [H|H]; [rewrite (digits_eq (Zpos m) 52) by lia; lia|subst; pose proof (digits_pos (Zpos m)); lia].
Qed.

Lemma round_valid s m e l :
  0 <= m -> e <= fexp64 (Zdigits2 m + e) -> valid64 (binary_round_aux prec64 emax64 s m e l) = true.
Proof.
  intros Hm He. destruct (binary_round_aux_eq s m e l Hm He) as (N & -> & H1 & H2 & _).
  set (E := fexp64 (Zdigits2 m + e)) in *. assert (HE : -1074 <= E) by (unfold E; rewrite fexp64_eq; lia).
  apply finish_valid; [lia|done|]. destruct (Z.eq_dec E (-1074)) as [|Hne]; [by right|left].
  destruct (Z.eq_dec m 0) as [->|]; [unfold E in *; rewrite fexp64_eq in *; cbn in *; lia|].
  pose proof (digits_bounds m ltac:(lia)) as [Hl _]. transitivity (m / 2 ^ (E - e)); [|lia].
  assert (HP : 0 < 2 ^ (E - e)) by (apply pow2_pos; lia). apply Z.div_le_lower_bound; [done|].
  rewrite <- Z.pow_add_r by lia.
  replace (E - e + 52) with (Zdigits2 m - 1) by (unfold E in *; rewrite fexp64_eq in *; lia). lia.
Qed.

Lemma binary_round_valid s m e : valid64 (binary_round prec64 emax64 s m e) = true.
Proof.
  destruct (binary_round_eq s m e) as [-> Hd]. cbv zeta in Hd. apply round_valid.
  - assert (0 < 2 ^ (e - Z.min e (fexp64 (Zdigits2 (Zpos m) + e)))) by (apply pow2_pos; lia). lia.
  - rewrite Hd. lia.
Qed.

Lemma binary_normalize_valid z e s : valid64 (binary_normalize prec64 emax64 z e s) = true.
Proof. destruct z; [by destruct s| |]; apply binary_round_valid. Qed.

Lemma ddiv_valid x y : valid64 (ddiv x y) = true.
Proof.
  destruct x as [s1|s1| |s1 p e1], y as [s2|s2| |s2 q e2]; try done.
  destruct (SFdiv_parts p q e1 e2 s1 s2) as (n & r & e' & l & -> & _ & Hn & He & _). by apply round_valid.
Qed.

Lemma dsub_valid x y : valid64 x = true -> valid64 y = true -> valid64 (dsub x y) = true.
Proof.
  destruct x as [[]|[]| |s1 p e1], y as [[]|[]| |s2 q e2]; try done; intros Hx Hy; apply binary_normalize_valid.
Qed.

Lemma finish_not_nan s N E : is_nan (finish s N E) = false.
Proof. unfold finish. case_if; [by case_if|]. destruct N; [done|by case_if|done]. Qed.

Lemma binary_round_not_nan s m e : is_nan (binary_round prec64 emax64 s m e) = false.
Proof.
  destruct (binary_round_eq s m e) as [-> Hd]. cbv zeta in Hd. apply binary_round_aux_not_nan.
  assert (0 < 2 ^ (e - Z.min e (fexp64 (Zdigits2 (Zpos m) + e)))) by (apply pow2_pos; lia). lia.
Qed.

(** The difference of two numbers is a number, or overflows. *)
Lemma dsub_not_nan x y : isfinite x = true -> isfinite y = true -> is_nan (dsub x y) = false.
Proof.
  destruct x as [[]|[]| |s1 p e1], y as [[]|[]| |s2 q e2]; try done; intros _ _; unfold dsub, SFsub, binary_normalize;
    match goal with |- is_nan (match ?z with _ => _ end) = false => destruct z end;
    try done; apply binary_round_not_nan.
Qed.

Lemma double_of_Z_valid z : valid64 (double_of_Z z) = true.
Proof. apply binary_normalize_valid. Qed.

Lemma clamp_valid v : valid64 v = true -> valid64 (clamp v d0 d1) = true.
Proof. intros Hv. unfold clamp. by repeat case_if. Qed.

Lemma SFopp_valid x : valid64 (SFopp x) = valid64 x.
Proof. by destruct x. Qed.

Lemma decimal_to_double_valid negative m e : valid64 (decimal_to_double negative m e) = true.
Proof.
  unfold decimal_to_double. destruct m as [|p|p]; [done| |done].
  match goal with |- valid64 (if negative then SFopp ?x else ?x) = true => assert (Hx : valid64 x = true) end.
  - destruct (0 <=? e); [apply binary_normalize_valid|]. destruct (10 ^ (- e)); [done|apply ddiv_valid|done].
  - destruct negative; [by rewrite SFopp_valid|done].
Qed.

Lemma binary_to_double_valid negative m e : valid64 (binary_to_double negative m e) = true.
Proof. unfold binary_to_double. destruct m; [done|apply binary_normalize_valid|done]. Qed.

Lemma read_decimal_valid negative s d rest : read_decimal negative s = Some (d, rest) -> valid64 d = true.
Proof.
  unfold read_decimal. destruct (read_mantissa 10 s) as [[[n v] k] r]. case_if; [done|].
  destruct (read_exponent 101 r) as [e r']. intros [= <- _]. apply decimal_to_double_valid.
Qed.

Lemma read_hex_valid negative s d rest : read_hex negative s = Some (d, rest) -> valid64 d = true.
Proof.
  unfold read_hex. destruct (read_mantissa 16 s) as [[[n v] k] r]. case_if; [done|].
  destruct (read_exponent 112 r) as [e r']. intros [= <- _]. apply binary_to_double_valid.
Qed.

(** [strtod] gives a double. *)
Lemma strtod_valid s d rest : strtod s = Some (d, rest) -> valid64 d = true.
Proof.
  unfold strtod. destruct (read_sign _) as [negative t]. do 3 (case_if; [by intros [= <- _]|]).
  case_if; [|by intros ?%read_decimal_valid]. destruct (read_hex _ _) as [[d' r']|] eqn:E; [|by intros [= <- _]].
  apply read_hex_valid in E. by intros [= <- _].
Qed.

(** So does [in >> d]. *)
Lemma stream_double_valid s d rest : stream_double s = Some (d, rest) -> valid64 d = true.
Proof.
  unfold stream_double. destruct (read_sign _) as [negative t].
  destruct (read_decimal negative t) as [[d' r']|] eqn:E; [|done]. apply read_decimal_valid in E.
  destruct r' as [|c r']; [by intros [= <- _]|]. case_if; [done|by intros [= <- _]].
Qed.
