(* ===== verification/DaemonConfig.v ===== *)
(** * The daemon's configuration (daemon/src/daemon.cpp, [parse_config], [discover_config])

    [parse_config] is modelled statement by statement over its loop state, with the
    exception messages as values of an error type; its specification reads the file
    as a list of entries, independent of the loop. *)

From S2P Require Import Prelude.
From S2P Require Import Std.
From S2P Require Import DaemonText.

Record Config := {
  host : string;
  port : Z;               (* std::uint16_t *)
  interval_seconds : Z;   (* int *)
  display_name : string }.

#[export] Instance Config_eq_dec : EqDecision Config.
Proof. solve_decision. Defined.

Definition default_config : Config :=
  {| host := ""; port := 51337; interval_seconds := 1; display_name := "" |}.

(** The [std::runtime_error]s of [parse_config]. *)
Inductive config_error :=
| NotUtf8 | UnknownSection | Malformed | DuplicateKey (key : string) | ExpectedQuoted
| UnsupportedEscape | ExpectedInteger | PortRange | IntervalRange | UnknownKey (key : string)
| HostRequired | DisplayNameTooLong.

#[export] Instance config_error_eq_dec : EqDecision config_error.
Proof. solve_decision. Defined.

(** The loop's variables. *)
Record parse_state := { ps_section : string; ps_seen : gset string; ps_config : Config }.

Definition set_host (c : Config) (v : string) : Config :=
  {| host := v; port := port c; interval_seconds := interval_seconds c; display_name := display_name c |}.
Definition set_display_name (c : Config) (v : string) : Config :=
  {| host := host c; port := port c; interval_seconds := interval_seconds c; display_name := v |}.
Definition set_port (c : Config) (v : Z) : Config :=
  {| host := host c; port := v; interval_seconds := interval_seconds c; display_name := display_name c |}.
Definition set_interval (c : Config) (v : Z) : Config :=
  {| host := host c; port := port c; interval_seconds := v; display_name := display_name c |}.

Definition is_escape (c : ascii) : bool := is_char c "\" || is_char c newline || is_char c "013".

(** The quoted text of [raw], or the error. *)
Definition quoted_value (raw : string) : config_error + string :=
  if (String.length raw <? 2)%nat
     || negb (bool_decide (front raw = Some quote)) || negb (bool_decide (back raw = Some quote))
  then inl ExpectedQuoted
  else
    let v := substr 1 (String.length raw - 2) raw in
    if str_forall (fun c => negb (is_escape c)) v then inr v else inl UnsupportedEscape.

Definition integer_value (raw : string) : config_error + Z :=
  match from_chars_int raw with
  | FcOk v EmptyString => inr v
  | _ => inl ExpectedInteger
  end.

(** The assignment of one entry to the configuration. *)
Definition assign_entry (key raw : string) (c : Config) : config_error + Config :=
  if String.eqb key "dashboard.host" || String.eqb key "telemetry.display_name" then
    match quoted_value raw with
    | inl e => inl e
    | inr v => inr (if String.eqb key "dashboard.host" then set_host c v else set_display_name c v)
    end
  else if String.eqb key "dashboard.port" || String.eqb key "telemetry.interval_seconds" then
    match integer_value raw with
    | inl e => inl e
    | inr v =>
        if String.eqb key "dashboard.port" then
          if (v <? 1) || (65535 <? v) then inl PortRange else inr (set_port c v)
        else if (v <? 1) || (5 <? v) then inl IntervalRange else inr (set_interval c v)
    end
  else inl (UnknownKey key).

(** One iteration of the loop, on a trimmed line. *)
Definition parse_line (line : string) (st : parse_state) : config_error + parse_state :=
  if String.eqb line "" || bool_decide (front line = Some "#"%char) then inr st
  else if bool_decide (front line = Some "["%char) && bool_decide (back line = Some "]"%char) then
    let section := substr 1 (String.length line - 2) line in
    if negb (String.eqb section "dashboard") && negb (String.eqb section "telemetry")
    then inl UnknownSection
    else inr {| ps_section := section; ps_seen := ps_seen st; ps_config := ps_config st |}
  else
    match find_char "=" line with
    | None => inl Malformed
    | Some eq =>
        if String.eqb (ps_section st) "" then inl Malformed
        else
          let key := (ps_section st ++ "." ++ trim (str_take eq line))%string in
          let raw := trim (str_drop (S eq) line) in
          if bool_decide (key ∈ ps_seen st) then inl (DuplicateKey key)
          else match assign_entry key raw (ps_config st) with
               | inl e => inl e
               | inr c => inr {| ps_section := ps_section st; ps_seen := {[key]} ∪ ps_seen st; ps_config := c |}
               end
    end.

Fixpoint parse_lines (lines : list string) (st : parse_state) : config_error + parse_state :=
  match lines with
  | [] => inr st
  | l :: ls => match parse_line (trim l) st with
               | inl e => inl e
               | inr st' => parse_lines ls st'
               end
  end.

Definition parse_config (input : string) : config_error + Config :=
  if negb (utf8 input) then inl NotUtf8
  else
    match parse_lines (split_on newline input)
            {| ps_section := ""; ps_seen := ∅; ps_config := default_config |} with
    | inl e => inl e
    | inr st =>
        let c := ps_config st in
        if String.eqb (host c) "" then inl HostRequired
        else if 128 <? size (display_name c) then inl DisplayNameTooLong
        else inr c
    end.

(** ** discover_config: the environment and the regular files are the system's *)

(** [std::filesystem::path(a) / b] *)
Definition path_join (a b : string) : string :=
  if starts_with "/" b then b
  else if String.eqb a "" then b
  else if bool_decide (back a = Some "/"%char) then (a ++ b)%string else (a ++ "/" ++ b)%string.

Definition config_candidates (getenv : string -> option string) : list string :=
  match getenv "XDG_CONFIG_HOME" with
  | Some x => [path_join x "dashboard-daemon/config.toml"]
  | None => match getenv "HOME" with
            | Some h => [path_join h ".config/dashboard-daemon/config.toml"]
            | None => []
            end
  end ++
  match getenv "XDG_CONFIG_DIRS" with
  | Some dirs => map (fun d => path_join d "dashboard-daemon/config.toml") (split_on ":" dirs)
  | None => ["/etc/xdg/dashboard-daemon/config.toml"%string]
  end.

Definition discover_config (getenv : string -> option string) (is_regular_file : string -> bool)
    (explicit_path : option string) : option string :=
  match explicit_path with
  | Some p => Some p
  | None => List.find is_regular_file (config_candidates getenv)
  end.

(** ** Examples *)

Definition quoted (v : string) : string := String quote (v ++ String quote "").

Definition sample_text : string :=
  join_on newline ["[dashboard]"; "host = " ++ quoted "pi.local"; "port=4000"; "# c"; "[telemetry]";
                   " interval_seconds = 2 "]%string.

Example parse_sample : parse_config sample_text =
  inr {| host := "pi.local"; port := 4000; interval_seconds := 2; display_name := "" |}.
Proof. vm_compute. reflexivity. Qed.
Example parse_dup : parse_config (join_on newline ["[dashboard]"; "port=1"; "port=1"]%string)
  = inl (DuplicateKey "dashboard.port").
Proof. vm_compute. reflexivity. Qed.
Example parse_empty : parse_config "" = inl HostRequired. Proof. reflexivity. Qed.
Example discover_example :
  discover_config (fun v => if String.eqb v "XDG_CONFIG_DIRS" then Some "/a:/b/"%string else None)
    (String.eqb "/b/dashboard-daemon/config.toml") None = Some "/b/dashboard-daemon/config.toml"%string.
Proof. reflexivity. Qed.

(** ** The file as entries *)

Inductive config_line := LBlank | LHeader (section : string) | LEntry (key raw : string) | LJunk.

(** What a trimmed line says. *)
Definition read_line (line : string) : config_line :=
  if String.eqb line "" || bool_decide (front line = Some "#"%char) then LBlank
  else if bool_decide (front line = Some "["%char) && bool_decide (back line = Some "]"%char)
  then LHeader (substr 1 (String.length line - 2) line)
  else match find_char "=" line with
       | None => LJunk
       | Some eq => LEntry (trim (str_take eq line)) (trim (str_drop (S eq) line))
       end.

(** The entries of a file with their full keys; [None] for a bad section or line. *)
Fixpoint entries_of (section : string) (lines : list config_line) : option (list (string * string)) :=
  match lines with
  | [] => Some []
  | LBlank :: ls => entries_of section ls
  | LHeader s :: ls => if String.eqb s "dashboard" || String.eqb s "telemetry" then entries_of s ls else None
  | LEntry key raw :: ls =>
      if String.eqb section "" then None
      else cons (section ++ "." ++ key, raw)%string <$> entries_of section ls
  | LJunk :: _ => None
  end.

Definition no_escape (v : string) : Prop := str_forall (fun c => negb (is_escape c)) v = true.
Definition numeral (raw : string) (v : Z) : Prop :=
  raw <> ""%string /\ str_forall isdigit raw = true /\ decimal raw = v.

(** The entries the daemon accepts. *)
Inductive entry_valid : string * string -> Prop :=
| valid_host v : no_escape v -> entry_valid ("dashboard.host"%string, quoted v)
| valid_name v : no_escape v -> entry_valid ("telemetry.display_name"%string, quoted v)
| valid_port raw v : numeral raw v -> 1 <= v <= 65535 -> entry_valid ("dashboard.port"%string, raw)
| valid_interval raw v : numeral raw v -> 1 <= v <= 5 -> entry_valid ("telemetry.interval_seconds"%string, raw).

(** A field has the value of its entry, or else its default. *)
Definition field_of {A} (denotes : string -> A -> Prop) (es : list (string * string)) (key : string)
    (dflt v : A) : Prop :=
  (exists raw, (key, raw) ∈ es /\ denotes raw v) \/ (key ∉ es.*1 /\ v = dflt).

Definition denotes_text (raw v : string) : Prop := raw = quoted v.

Definition config_fields (es : list (string * string)) (c0 c : Config) : Prop :=
  field_of denotes_text es "dashboard.host" (host c0) (host c) /\
  field_of numeral es "dashboard.port" (port c0) (port c) /\
  field_of numeral es "telemetry.interval_seconds" (interval_seconds c0) (interval_seconds c) /\
  field_of denotes_text es "telemetry.display_name" (display_name c0) (display_name c).

(** *** Texts and numbers *)

Lemma quoted_value_iff raw v : quoted_value raw = inr v <-> raw = quoted v /\ no_escape v.
Proof.
  unfold quoted_value, quoted, no_escape. split.
  - destruct (_ || _) eqn:E; [done|]. case_if; [|done]. intros [= <-]. split; [|done].
    apply orb_false_iff in E as [[H H1]%orb_false_iff H0].
    apply Nat.ltb_ge in H. apply negb_false_iff, bool_decide_eq_true in H0, H1.
    destruct raw as [|a r]; [done|]. injection H1 as ->. unfold back in H0.
    destruct (string_last r quote) as [w ->].
    { intros ->. simpl in H. lia. }
    { destruct r; [simpl in H; lia|]. simpl in H0. simpl. by rewrite Nat.sub_0_r. }
    unfold substr. cbn [str_drop String.length]. rewrite length_string_app. cbn [String.length].
    replace (S (String.length w + 1) - 2)%nat with (String.length w) by lia. by rewrite str_take_app.
  - intros [-> Hv]. assert (Hb : back (String quote (v ++ String quote "")) = Some quote).
    { unfold back. cbn [String.length]. rewrite length_string_app. cbn [String.length].
      replace (S (String.length v + 1) - 1)%nat with (S (String.length v)) by lia.
      simpl. clear. induction v; done. }
    rewrite Hb. cbn [String.length]. rewrite length_string_app. cbn [String.length].
    rewrite (proj2 (Nat.ltb_ge _ _)) by lia. rewrite !bool_decide_eq_true_2 by done. cbn [negb orb].
    unfold substr. cbn [str_drop].
    replace (S (String.length v + 1) - 2)%nat with (String.length v) by lia.
    by rewrite str_take_app, Hv.
Qed.

Lemma quoted_inj v w : quoted v = quoted w -> v = w.
Proof.
  unfold quoted. intros [= H]. revert w H.
  induction v as [|c v IH]; intros [|d w]; simpl; try done.
  - intros [= _ H]. by destruct w.
  - intros [= _ H]. by destruct v.
  - intros [= -> H]. f_equal. auto.
Qed.

Lemma integer_value_iff raw v lo hi :
  1 <= lo -> hi <= int32_max ->
  (integer_value raw = inr v /\ lo <= v <= hi) <-> (numeral raw v /\ lo <= v <= hi).
Proof.
  intros Hlo Hhi. unfold integer_value, numeral. split.
  - intros [H Hr]. split; [|done]. destruct raw as [|c raw]; [done|].
    destruct (ascii_dec c "-") as [->|Hc].
    + pose proof (from_chars_int_minus raw) as Hm. destruct (from_chars_int _) as [| |z [|? ?]]; try done.
      injection H as ->. lia.
    + rewrite from_chars_int_plain in H by done.
      destruct (from_chars_unsigned _ _ _) as [| |z [|? ?]] eqn:E; try done. injection H as ->.
      apply from_chars_unsigned_all in E as (? & ? & -> & _). auto.
  - intros [(Hne & Hd & Hv) Hr]. split; [|done]. destruct raw as [|c raw]; [done|].
    rewrite from_chars_int_plain by (intros ->; simpl in Hd; done).
    rewrite from_chars_unsigned_digits by done. by rewrite Hv, (proj2 (Z.leb_le _ _)) by lia.
Qed.

Lemma numeral_fun raw v w : numeral raw v -> numeral raw w -> v = w.
Proof. intros (_ & _ & <-) (_ & _ & <-). done. Qed.

Lemma denotes_text_fun raw v w : denotes_text raw v -> denotes_text raw w -> v = w.
Proof. intros -> H. by apply quoted_inj in H. Qed.

(** *** One assignment *)

Lemma assign_entry_valid key raw c :
  (exists c', assign_entry key raw c = inr c') <-> entry_valid (key, raw).
Proof.
  unfold assign_entry. split.
  - intros [c' H].
    destruct (String.eqb_spec key "dashboard.host") as [->|].
    { cbn in H. destruct (quoted_value raw) as [|v] eqn:E; [done|].
      apply quoted_value_iff in E as [-> ?]. by constructor. }
    destruct (String.eqb_spec key "telemetry.display_name") as [->|].
    { cbn in H. destruct (quoted_value raw) as [|v] eqn:E; [done|].
      apply quoted_value_iff in E as [-> ?]. by constructor. }
    destruct (String.eqb_spec key "dashboard.port") as [->|].
    { cbn in H. destruct (integer_value raw) as [|v] eqn:E; [done|].
      destruct (_ || _) eqn:Er; [done|]. bool_facts.
      destruct (proj1 (integer_value_iff raw v 1 65535 ltac:(lia) ltac:(unfold int32_max; lia))) as [??];
        [done|]. by econstructor. }
    destruct (String.eqb_spec key "telemetry.interval_seconds") as [->|]; [|done].
    cbn in H. destruct (integer_value raw) as [|v] eqn:E; [done|].
    destruct (_ || _) eqn:Er; [done|]. bool_facts.
    destruct (proj1 (integer_value_iff raw v 1 5 ltac:(lia) ltac:(unfold int32_max; lia))) as [??];
      [done|]. by econstructor.
  - inversion 1 as [v Hv|v Hv|r v Hv Hr|r v Hv Hr]; subst; cbn.
    1, 2: rewrite (proj2 (quoted_value_iff (quoted v) v)) by done; eauto.
    + destruct (proj2 (integer_value_iff raw v 1 65535 ltac:(lia) ltac:(unfold int32_max; lia))) as [-> ?];
        [done|]. rewrite !(proj2 (Z.ltb_ge _ _)) by lia. eauto.
    + destruct (proj2 (integer_value_iff raw v 1 5 ltac:(lia) ltac:(unfold int32_max; lia))) as [-> ?];
        [done|]. rewrite !(proj2 (Z.ltb_ge _ _)) by lia. eauto.
Qed.

Section field_of.
Context {A : Type} (denotes : string -> A -> Prop).
Context (denotes_fun : forall raw v w, denotes raw v -> denotes raw w -> v = w).

(** An entry for another key changes nothing. *)
Lemma field_of_skip es key k raw dflt v :
  key <> k -> field_of denotes ((k, raw) :: es) key dflt v <-> field_of denotes es key dflt v.
Proof.
  intros Hne. unfold field_of. rewrite fmap_cons, not_elem_of_cons. setoid_rewrite elem_of_cons.
  cbn [fst]. split; (intros [(r & H & Hd)|H]; [left; exists r|right]); naive_solver.
Qed.

(** The first entry for the key sets the field. *)
Lemma field_of_set es key raw x dflt v :
  key ∉ es.*1 -> denotes raw x ->
  field_of denotes ((key, raw) :: es) key dflt v <-> field_of denotes es key x v.
Proof.
  intros Hk Hx. assert (Hes : forall r, (key, r) ∉ es).
  { intros r Hr. apply Hk, list_elem_of_fmap. by exists (key, r). }
  unfold field_of. rewrite fmap_cons, not_elem_of_cons. setoid_rewrite elem_of_cons. cbn [fst]. split.
  - intros [(r & [[= ->]|H] & Hd)|[[H _] _]]; [|by apply Hes in H|done]. right. split; [done|]. eauto.
  - intros [(r & H & _)|[_ ->]]; [by apply Hes in H|]. left. eauto.
Qed.

Lemma field_of_fun es key dflt v w :
  NoDup es.*1 -> field_of denotes es key dflt v -> field_of denotes es key dflt w -> v = w.
Proof.
  intros Hnd [(r & Hr & Hv)|[Hn ->]] [(r' & Hr' & Hw)|[Hn' ->]]; try done.
  - apply (elem_of_list_to_map_1 (M := gmap string)) in Hr, Hr'; [|done..].
    rewrite Hr in Hr'. injection Hr' as ->. eauto.
  - destruct Hn'. apply list_elem_of_fmap. by exists (key, r).
  - destruct Hn. apply list_elem_of_fmap. by exists (key, r').
Qed.
End field_of.

Lemma assign_entry_fields key raw c0 c1 es c :
  assign_entry key raw c0 = inr c1 -> key ∉ es.*1 ->
  config_fields es c1 c <-> config_fields ((key, raw) :: es) c0 c.
Proof.
  intros H Hk.
  assert (Hv : entry_valid (key, raw)) by (apply (assign_entry_valid _ _ c0); eauto).
  unfold config_fields. revert H. unfold assign_entry.
  inversion Hv as [v Hq|v Hq|r v Hn Hr|r v Hn Hr]; subst; cbn.
  1, 2: rewrite (proj2 (quoted_value_iff (quoted v) v)) by done.
  3: destruct (proj2 (integer_value_iff raw v 1 65535 ltac:(lia) ltac:(unfold int32_max; lia))) as [-> ?];
       [done|]; rewrite !(proj2 (Z.ltb_ge _ _)) by lia.
  4: destruct (proj2 (integer_value_iff raw v 1 5 ltac:(lia) ltac:(unfold int32_max; lia))) as [-> ?];
       [done|]; rewrite !(proj2 (Z.ltb_ge _ _)) by lia.
  all: intros [= <-]; cbn [set_host set_display_name set_port set_interval host port interval_seconds
    display_name].
  1: rewrite (field_of_set denotes_text denotes_text_fun es _ (quoted v) v (host c0)) by done.
  2: rewrite (field_of_set denotes_text denotes_text_fun es _ (quoted v) v (display_name c0)) by done.
  3: rewrite (field_of_set numeral numeral_fun es _ raw v (port c0)) by done.
  4: rewrite (field_of_set numeral numeral_fun es _ raw v (interval_seconds c0)) by done.
  all: rewrite ?(field_of_skip denotes_text), ?(field_of_skip numeral) by done.
  all: done.
Qed.

Lemma config_fields_fun es c0 c c' :
  NoDup es.*1 -> config_fields es c0 c -> config_fields es c0 c' -> c = c'.
Proof.
  intros Hnd (H1 & H2 & H3 & H4) (H1' & H2' & H3' & H4'). destruct c, c'; cbn in *.
  f_equal; [eapply (field_of_fun denotes_text)|eapply (field_of_fun numeral)..|eapply (field_of_fun denotes_text)];
    eauto using denotes_text_fun, numeral_fun.
Qed.

(** *** The loop and the theorem *)

Abbreviation section_known := (fun s => String.eqb s "dashboard" || String.eqb s "telemetry").

Lemma parse_line_read line st :
  parse_line line st =
  match read_line line with
  | LBlank => inr st
  | LHeader s =>
      if section_known s
      then inr {| ps_section := s; ps_seen := ps_seen st; ps_config := ps_config st |}
      else inl UnknownSection
  | LEntry k raw =>
      if String.eqb (ps_section st) "" then inl Malformed
      else
        let key := (ps_section st ++ "." ++ k)%string in
        if bool_decide (key ∈ ps_seen st) then inl (DuplicateKey key)
        else match assign_entry key raw (ps_config st) with
             | inl e => inl e
             | inr c => inr {| ps_section := ps_section st; ps_seen := {[key]} ∪ ps_seen st; ps_config := c |}
             end
  | LJunk => inl Malformed
  end.
Proof.
  unfold parse_line, read_line. case_if; [done|]. case_if.
  - cbv zeta. rewrite <- negb_orb. match goal with |- context [negb ?b] => by destruct b end.
  - by destruct (find_char "=" line).
Qed.

Definition file_entries (lines : list string) (section : string) : option (list (string * string)) :=
  entries_of section (map (fun l => read_line (trim l)) lines).

Lemma parse_lines_iff lines st c :
  (exists st', parse_lines lines st = inr st' /\ ps_config st' = c) <->
  exists es, file_entries lines (ps_section st) = Some es /\ NoDup es.*1 /\
    (forall k, k ∈ es.*1 -> k ∉ ps_seen st) /\ Forall entry_valid es /\ config_fields es (ps_config st) c.
Proof.
  assert (Hbase : forall c0, config_fields [] c0 c <-> c0 = c).
  { intros c0. unfold config_fields, field_of. split.
    - intros (H1 & H2 & H3 & H4). destruct c0, c; cbn in *.
      repeat match goal with H : _ \/ _ |- _ =>
        destruct H as [(? & []%not_elem_of_nil & _)|[_ ?]] end. congruence.
    - intros ->. repeat split; right; (split; [apply not_elem_of_nil|done]). }
  unfold file_entries. revert st. induction lines as [|l ls IH]; intros st; cbn [parse_lines map entries_of].
  { split.
    - intros (st' & [= <-] & <-). exists []. split; [done|]. split; [constructor|].
      split; [by intros k []%not_elem_of_nil|]. split; [constructor|by apply Hbase].
    - intros (es & [= <-] & _ & _ & _ & H). exists st. split; [done|]. by apply Hbase. }
  rewrite parse_line_read. destruct (read_line (trim l)) as [|s|k raw|]; cbn [entries_of].
  - apply IH.
  - cbv beta. case_if; [|split; [by intros (? & ? & _)|by intros (? & ? & _)]].
    apply (IH {| ps_section := s; ps_seen := ps_seen st; ps_config := ps_config st |}).
  - destruct (String.eqb (ps_section st) ""); [split; [by intros (? & ? & _)|by intros (? & ? & _)]|].
    cbv zeta. set (key := (ps_section st ++ "." ++ k)%string).
    split.
    + intros H. case_bool_decide as Hseen; [by destruct H as (? & ? & _)|].
      destruct (assign_entry _ _ _) as [e|c1] eqn:Ea; [by destruct H as (? & ? & _)|].
      apply IH in H as (es & Hes & Hnd & Hs & Hv & Hf). cbn [ps_section ps_seen ps_config] in *.
      exists ((key, raw) :: es). rewrite Hes.
      assert (Hk : key ∉ es.*1) by (intros Hin; apply (Hs key Hin); set_solver).
      split; [done|]. split; [by constructor|]. split.
      { intros k'. rewrite fmap_cons, elem_of_cons. intros [->|Hin]; [done|].
        specialize (Hs k' Hin). set_solver. }
      split; [constructor; [apply (assign_entry_valid _ _ (ps_config st)); eauto|done]|].
      by apply (assign_entry_fields _ _ _ _ _ _ Ea Hk).
    + intros (es0 & Hes & Hnd & Hs & Hv & Hf).
      destruct (entries_of (ps_section st) _) as [es|] eqn:Ees; [|done]. injection Hes as <-.
      apply NoDup_cons in Hnd as [Hk Hnd]. inversion Hv as [|? ? Hv1 Hv2]; subst.
      rewrite bool_decide_eq_false_2 by (apply Hs; rewrite fmap_cons; by left).
      destruct (proj2 (assign_entry_valid key raw (ps_config st)) Hv1) as [c1 Ea]. rewrite Ea.
      apply IH. cbn [ps_section ps_seen ps_config]. exists es. split; [done|]. split; [done|].
      split; [|split; [done|by apply (assign_entry_fields _ _ _ _ _ _ Ea Hk)]].
      intros k' Hin. assert (Hne : k' <> key) by (intros ->; done).
      specialize (Hs k'). rewrite fmap_cons, elem_of_cons in Hs. specialize (Hs (or_intror Hin)). set_solver.
  - split; [by intros (? & ? & _)|by intros (? & ? & _)].
Qed.

(** C14. [parse_config] accepts exactly the UTF-8 files whose sections are known, whose
    entries have known keys, each at most once, with well-formed values in range, and
    that name a host; every field of the result is its entry's value or its default,
    wherever in the file the entry stands. *)
Theorem parse_config_spec input c :
  parse_config input = inr c <->
  utf8 input = true /\ exists es,
    file_entries (split_on newline input) "" = Some es /\ NoDup es.*1 /\ Forall entry_valid es /\
    config_fields es default_config c /\
    host c <> ""%string /\ size (display_name c) <= 128.
Proof.
  unfold parse_config. destruct (utf8 input); cbn [negb]; [|split; [done|by intros [? _]]].
  set (st0 := {| ps_section := ""; ps_seen := ∅; ps_config := default_config |}).
  pose proof (parse_lines_iff (split_on newline input) st0) as Hiff. split.
  - intros H. split; [done|]. destruct (parse_lines _ st0) as [|st'] eqn:E; [done|].
    destruct (String.eqb_spec (host (ps_config st')) ""); [done|]. case_if; [done|].
    injection H as <-. bool_facts.
    destruct (proj1 (Hiff (ps_config st'))) as (es & Hes & Hnd & _ & Hv & Hf); [eauto|].
    exists es. split; [exact Hes|auto].
  - intros (_ & es & Hes & Hnd & Hv & Hf & Hh & Hs).
    destruct (proj2 (Hiff c)) as (st' & E & Hc); 
      [exists es; split; [exact Hes|]; split; [done|]; split; [intros k _; apply not_elem_of_empty|auto]|].
    rewrite E, Hc. destruct (String.eqb_spec (host c) ""); [done|].
    by rewrite (proj2 (Z.ltb_ge _ _)) by done.
Qed.

(** Whatever [parse_config] accepts can be used: a non-empty host, a port that
    fits the [std::uint16_t], a publishing interval of one to five seconds. *)
Theorem parse_config_valid input c (H : parse_config input = inr c) :
  host c <> ""%string /\ 1 <= port c <= 65535 /\ 1 <= interval_seconds c <= 5 /\
  size (display_name c) <= 128.
Proof.
  revert H. unfold parse_config. destruct (utf8 input); [|done].
  set (st0 := {| ps_section := ""; ps_seen := ∅; ps_config := default_config |}).
  intros H. destruct (parse_lines _ st0) as [|st'] eqn:E; [done|]. cbn [negb] in H.
  destruct (String.eqb_spec (host (ps_config st')) ""); [done|]. case_if; [done|].
  injection H as <-. bool_facts.
  destruct (proj1 (parse_lines_iff (split_on newline input) st0 (ps_config st'))) as (es & _ & _ & _ & Hv & Hf); [eauto|].
  rewrite Forall_forall in Hv. destruct Hf as (_ & Hp & Hi & _). split; [done|]. split; [|split; [|done]].
  - destruct Hp as [(r & Hr%Hv & Hn)|[_ ->]]; [|cbn; lia]. inversion Hr; subst.
    by erewrite (numeral_fun r (port _)) by eassumption.
  - destruct Hi as [(r & Hr%Hv & Hn)|[_ ->]]; [|cbn; lia]. inversion Hr; subst.
    by erewrite (numeral_fun r (interval_seconds _)) by eassumption.
Qed.

Lemma parse_config_valid_witness : 1 <= 4000 <= 65535.
Proof.
  apply (parse_config_valid sample_text
    {| host := "pi.local"; port := 4000; interval_seconds := 2; display_name := "" |}).
  vm_compute. reflexivity.
Defined.
