(* ===== verification/DaemonIdentity.v ===== *)
(** * The daemon's device identity (daemon/src/daemon.cpp)

    [random_uuid], [uuid_string] and [load_or_create_identity].  The file system is
    a map from paths to contents; what the kernel answers to each call of one run
    ([open], [write], [fsync], [close], [rename], the random device) is an argument. *)

From S2P Require Import Prelude.
From S2P Require Import Std.
From S2P Require Import DaemonText.

Abbreviation Uuid := (list byte).   (* std::array<std::uint8_t, 16> *)

(** Bits 6 and 8 get the version and variant of RFC 4122. *)
Definition set_byte (i : nat) (f : Z -> Z) (id : Uuid) : Uuid :=
  alter (fun b => u8 (f (byte_val b))) i id.

(** [random_uuid()]: [entropy] is what [read] of the random device delivers. *)
Definition random_uuid (entropy : option (list byte)) : option Uuid :=
  match entropy with
  | Some bytes =>
      if negb (length bytes =? 16)%nat then None
      else Some (set_byte 8 (fun b => Z.lor (Z.land b 63) 128)
                  (set_byte 6 (fun b => Z.lor (Z.land b 15) 64) bytes))
  | None => None
  end.

Definition hex_digit (n : Z) : ascii := char_of (if n <? 10 then 48 + n else 87 + n).

(** The loop of [uuid_string] from index [i]. *)
Fixpoint uuid_string_from (i : nat) (id : Uuid) : string :=
  match id with
  | [] => EmptyString
  | b :: r =>
      let rest := String (hex_digit (Z.shiftr (byte_val b) 4))
                    (String (hex_digit (Z.land (byte_val b) 15)) (uuid_string_from (S i) r)) in
      if (i =? 4)%nat || (i =? 6)%nat || (i =? 8)%nat || (i =? 10)%nat then String "-" rest else rest
  end.

Definition uuid_string (id : Uuid) : string := uuid_string_from 0 id.

(** The loop of [load_or_create_identity] over the hexadecimal pairs. *)
Fixpoint uuid_bytes (n : nat) (hex : string) : option Uuid :=
  match n with
  | O => Some []
  | S n' => match from_chars_unsigned 16 uint32_max (substr 0 2 hex) with
            | FcOk v _ => cons (u8 v) <$> uuid_bytes n' (str_drop 2 hex)
            | _ => None
            end
  end.

Definition parse_identity (s : string) : option Uuid :=
  let hex := str_filter (fun c => negb (is_char "-" c)) s in
  if negb (String.length hex =? 32)%nat then None else uuid_bytes 16 hex.

(** ** The file system and the answers of the kernel *)

Abbreviation files := (gmap string string).

Record kernel := {
  k_entropy : option (list byte);   (* the random device *)
  k_directories : bool;             (* create_directories does not throw *)
  k_open : bool;                    (* open would succeed on a new name *)
  k_written : nat;                  (* how many bytes write takes *)
  k_fsync : bool; k_close : bool; k_rename : bool }.

Inductive identity_error := InvalidIdentity | DirectoriesFailed | NoEntropy | CannotPersist.

(** [read(p)]: a missing or unreadable file reads as empty. *)
Definition read_file (fs : files) (p : string) : string := default ""%string (fs !! p).

(** [tmp] is [p + ".tmp." + pid]. *)
Definition load_or_create_identity (k : kernel) (pid : string) (p : string) (fs : files)
  : (identity_error + Uuid) * files :=
  let s := trim (read_file fs p) in
  if negb (String.eqb s "") then
    match parse_identity s with
    | Some id => (inr id, fs)
    | None => (inl InvalidIdentity, fs)
    end
  else if negb (k_directories k) then (inl DirectoriesFailed, fs)
  else
    match random_uuid (k_entropy k) with
    | None => (inl NoEntropy, fs)
    | Some id =>
        let tmp := (p ++ ".tmp." ++ pid)%string in
        let out := (uuid_string id ++ String newline "")%string in
        if negb (k_open k) || bool_decide (is_Some (fs !! tmp))
        then (inl CannotPersist, delete tmp fs)                (* fd < 0: unlink(tmp) *)
        else
          let fs1 := <[tmp := str_take (k_written k) out]> fs in
          if (k_written k <? String.length out)%nat || negb (k_fsync k) || negb (k_close k)
             || negb (k_rename k)
          then (inl CannotPersist, delete tmp fs1)
          else (inr id, <[p := out]> (delete tmp fs1))
    end.

Example uuid_example :
  uuid_string (be_bytes 16 1) = "00000000-0000-0000-0000-000000000001"%string.
Proof. reflexivity. Qed.

(** ** Lemmas *)

Lemma hex_pair b :
  from_chars_unsigned 16 uint32_max
    (String (hex_digit (Z.shiftr (byte_val b) 4)) (String (hex_digit (Z.land (byte_val b) 15)) ""))
  = FcOk (byte_val b) "".
Proof. by destruct b. Qed.

Definition hex_char (c : ascii) : bool := not_blank c && negb (is_char "-" c).

Lemma hex_chars b :
  hex_char (hex_digit (Z.shiftr (byte_val b) 4)) = true /\ hex_char (hex_digit (Z.land (byte_val b) 15)) = true.
Proof. by destruct b. Qed.

Fixpoint hex_string (id : Uuid) : string :=
  match id with
  | [] => EmptyString
  | b :: r => String (hex_digit (Z.shiftr (byte_val b) 4)) (String (hex_digit (Z.land (byte_val b) 15)) (hex_string r))
  end.

Lemma uuid_string_hex i id :
  str_filter (fun c => negb (is_char "-" c)) (uuid_string_from i id) = hex_string id.
Proof.
  revert i. induction id as [|b r IH]; intros i; [done|]. cbn [uuid_string_from hex_string].
  destruct (hex_chars b) as [[_ H1]%andb_true_iff [_ H2]%andb_true_iff].
  destruct (_ || _); cbn [str_filter is_char negb]; rewrite ?H1, ?H2, IH; done.
Qed.

Lemma uuid_string_not_blank i id : str_forall not_blank (uuid_string_from i id) = true.
Proof.
  revert i. induction id as [|b r IH]; intros i; [done|]. cbn [uuid_string_from].
  destruct (hex_chars b) as [[H1 _]%andb_true_iff [H2 _]%andb_true_iff].
  destruct (_ || _); cbn [str_forall]; rewrite ?H1, ?H2, IH; done.
Qed.

Lemma length_hex_string id : String.length (hex_string id) = (2 * length id)%nat.
Proof. induction id; simpl; lia. Qed.

Lemma uuid_bytes_hex id : uuid_bytes (length id) (hex_string id) = Some id.
Proof.
  induction id as [|b r IH]; [done|]. cbn [length uuid_bytes hex_string]. unfold substr.
  cbn [str_drop str_take]. replace (str_take 0 (hex_string r)) with ""%string by by destruct (hex_string r).
  rewrite hex_pair. rewrite IH. cbn. by rewrite u8_byte_val.
Qed.

(** [trim] of a text without blanks, followed by a line end. *)
Lemma trim_line s : s <> ""%string -> str_forall not_blank s = true -> trim (s ++ String newline "") = s.
Proof.
  intros Hne Hs. unfold trim.
  assert (Hl : find_last_if not_blank (s ++ String newline "") = Some (String.length s - 1)%nat).
  { revert Hs Hne. induction s as [|c s IH]; [done|]. cbn [str_forall]. intros H _. bool_facts.
    cbn [String.append find_last_if]. destruct s as [|d s]; [by simpl; rewrite H|].
    rewrite IH by done. simpl. f_equal. lia. }
  rewrite Hl. destruct s as [|c s]; [done|]. cbn [str_forall] in Hs. bool_facts.
  cbn [String.append find_if]. rewrite H. unfold substr. cbn [str_drop String.length].
  replace (S (String.length s) - 1 - 0 + 1)%nat with (S (String.length s)) by lia.
  exact (str_take_app (String c s) (String newline "")).
Qed.

Lemma random_uuid_length e id : random_uuid e = Some id -> length id = 16%nat.
Proof.
  unfold random_uuid. destruct e as [bs|]; [|done]. case_if; [done|]. intros [= <-].
  unfold set_byte. rewrite !length_alter. by apply negb_false_iff, Nat.eqb_eq in Heqb.
Qed.

Lemma parse_identity_string id : length id = 16%nat -> parse_identity (uuid_string id) = Some id.
Proof.
  intros Hl. unfold parse_identity, uuid_string. rewrite uuid_string_hex, length_hex_string, Hl.
  change (negb (2 * 16 =? 32)%nat) with false. cbv iota. rewrite <- Hl. apply uuid_bytes_hex.
Qed.

Lemma read_file_insert fs p s : read_file (<[p := s]> fs) p = s.
Proof. unfold read_file. by rewrite lookup_insert_eq. Qed.

Lemma tmp_name_ne p pid : (p ++ ".tmp." ++ pid)%string <> p.
Proof.
  intros H. apply (f_equal String.length) in H. rewrite !length_string_app in H. simpl in H. lia.
Qed.

(** ** Properties *)

(** An identity that was created is the one every later start loads, and loading
    changes nothing: creation and loading are inverse through the file. *)
Lemma identity_roundtrip k pid p fs id fs'
  (Hnew : trim (read_file fs p) = ""%string)
  (H : load_or_create_identity k pid p fs = (inr id, fs')) :
  forall k' pid', load_or_create_identity k' pid' p fs' = (inr id, fs').
Proof.
  intros k' pid'. unfold load_or_create_identity in H. rewrite Hnew in H. cbn [negb String.eqb] in H.
  destruct (negb (k_directories k)); [done|].
  destruct (random_uuid (k_entropy k)) as [u|] eqn:Eu; [|done].
  destruct (_ || _) in H; [done|]. cbv zeta in H.
  destruct (_ || _) in H; [done|]. injection H as -> <-.
  apply random_uuid_length in Eu as Hlen.
  assert (Hne : uuid_string id <> ""%string) by (by destruct id).
  unfold load_or_create_identity. rewrite read_file_insert.
  rewrite trim_line by (done || apply uuid_string_not_blank).
  destruct (String.eqb_spec (uuid_string id) ""); [done|]. cbn [negb].
  by rewrite parse_identity_string.
Qed.

(** Whatever fails, the identity file is never touched half way: after an error it
    and every other file have the contents they had, and when creating it failed the
    temporary file is gone. *)
Lemma identity_failure_atomic k pid p fs e fs'
  (H : load_or_create_identity k pid p fs = (inl e, fs')) :
  fs' !! p = fs !! p /\ (e = CannotPersist -> fs' !! (p ++ ".tmp." ++ pid)%string = None) /\
  (forall q, q <> (p ++ ".tmp." ++ pid)%string -> fs' !! q = fs !! q).
Proof.
  pose proof (tmp_name_ne p pid) as Hne. revert H. unfold load_or_create_identity.
  set (tmp := (p ++ ".tmp." ++ pid)%string) in *.
  destruct (negb _). { destruct (parse_identity _); [done|]. by intros [= <- <-]. }
  destruct (negb (k_directories k)); [by intros [= <- <-]|].
  destruct (random_uuid (k_entropy k)) as [id|]; [|by intros [= <- <-]].
  destruct (_ || _). { intros [= <- <-]. split; [by rewrite lookup_delete_ne|].
    split; [by rewrite lookup_delete_eq|]. intros q Hq. by rewrite lookup_delete_ne. }
  cbv zeta. destruct (_ || _); [|done]. intros [= <- <-].
  split; [by rewrite lookup_delete_ne, lookup_insert_ne|].
  split; [by rewrite lookup_delete_eq|]. intros q Hq. by rewrite lookup_delete_ne, lookup_insert_ne.
Qed.

(** C15. The identity is kept.  When a start ends with an identity, every later start, whatever
    the kernel answers then, ends with the same one and changes nothing: creation and loading
    are inverse through the file.  When a start fails, the identity file and every other file
    have the contents they had, and when creating it failed the temporary file is gone. *)
Theorem identity_kept k pid p fs :
  match load_or_create_identity k pid p fs with
  | (inr id, fs') => forall k' pid', load_or_create_identity k' pid' p fs' = (inr id, fs')
  | (inl e, fs') =>
      fs' !! p = fs !! p /\ (e = CannotPersist -> fs' !! (p ++ ".tmp." ++ pid)%string = None) /\
      (forall q, q <> (p ++ ".tmp." ++ pid)%string -> fs' !! q = fs !! q)
  end.
Proof.
  destruct (load_or_create_identity k pid p fs) as [[e|id] fs'] eqn:E; [by eapply identity_failure_atomic|].
  destruct (String.eqb_spec (trim (read_file fs p)) "") as [Hb|Hb]; [by eapply identity_roundtrip|].
  intros k' pid'. revert E. unfold load_or_create_identity. rewrite (proj2 (String.eqb_neq _ _) Hb). cbn [negb].
  destruct (parse_identity _) as [u|] eqn:Ep; [|done]. intros [= <- <-]. by rewrite (proj2 (String.eqb_neq _ _) Hb), Ep.
Qed.

Definition good_kernel : kernel :=
  {| k_entropy := Some (be_bytes 16 0); k_directories := true; k_open := true; k_written := 37;
     k_fsync := true; k_close := true; k_rename := true |}.
Definition full_disk : kernel :=
  {| k_entropy := Some (be_bytes 16 0); k_directories := true; k_open := true; k_written := 5;
     k_fsync := true; k_close := true; k_rename := true |}.

Example identity_reloaded :
  let '(id, fs) := load_or_create_identity good_kernel "7" "/id" ∅ in
  load_or_create_identity full_disk "8" "/id" fs = (id, fs).
Proof. vm_compute. reflexivity. Qed.

Example identity_not_created :
  (load_or_create_identity full_disk "7" "/id" ∅).2 !! "/id"%string = (∅ : files) !! "/id"%string.
Proof. vm_compute. reflexivity. Qed.

(** The end of each pair is not tested, so a pair may hold a letter that is no digit. *)
Example identity_accepts_non_hex :
  parse_identity "4g000000-0000-4000-8000-00000000000z" =
  parse_identity "04000000-0000-4000-8000-000000000000".
Proof. reflexivity. Qed.
