(* ===== verification/QtCbor.v ===== *)
(** * Qt's CBOR values (QCborValue, QCborMap), as src/protocol uses them

    Qt is not part of the repository.  Its value type is modelled by the data it
    documents; [QCborValue::toCbor] and [fromCbor] are the operations of the class
    [QtCodec], whose laws say only that Qt writes and reads RFC 8949 data items (the
    reference decoder of Cbor.v).  A [QString] is represented by its UTF-8 bytes, a
    [qint64] by the value [i64] takes.

    Two values are equivalent ([qeq]) when no lookup by a text key tells them apart;
    Qt is free in the order of a map's entries. *)

From S2P Require Import Prelude.
From S2P Require Import Std.
From S2P Require Import Float64.
From S2P Require Import Cbor.
From S2P Require Import DaemonText.

Inductive qcbor :=
| QUndefined
| QInteger (n : Z)
| QDouble (d : double)
| QString (s : string)
| QByteArray (b : list byte)
| QBool (b : bool)
| QArray (l : list qcbor)
| QMap (m : list (qcbor * qcbor))
| QOther.                            (* null, tags, simple values *)

Abbreviation qmap := (list (qcbor * qcbor)).

#[export] Instance QString_inj : Inj eq eq QString.
Proof. by intros ? ? [=]. Qed.

(** *** The accessors of QCborValue: a default where the type differs *)

Definition isUndefined (q : qcbor) : bool := match q with QUndefined => true | _ => false end.
Definition isInteger (q : qcbor) : bool := match q with QInteger _ => true | _ => false end.
Definition isDouble (q : qcbor) : bool := match q with QDouble _ => true | _ => false end.
Definition isString (q : qcbor) : bool := match q with QString _ => true | _ => false end.
Definition isByteArray (q : qcbor) : bool := match q with QByteArray _ => true | _ => false end.
Definition isBool (q : qcbor) : bool := match q with QBool _ => true | _ => false end.
Definition isArray (q : qcbor) : bool := match q with QArray _ => true | _ => false end.
Definition isMap (q : qcbor) : bool := match q with QMap _ => true | _ => false end.

Definition toInteger (q : qcbor) : Z := match q with QInteger n => i64 n | _ => 0 end.
Definition toDouble (q : qcbor) : double :=
  match q with QDouble d => d | QInteger n => double_of_Z (i64 n) | _ => d0 end.
Definition toQString (q : qcbor) : string := match q with QString s => s | _ => ""%string end.
Definition toByteArray (q : qcbor) : list byte := match q with QByteArray b => b | _ => [] end.
Definition toBool (q : qcbor) : bool := match q with QBool b => b | _ => false end.
Definition toArray (q : qcbor) : list qcbor := match q with QArray l => l | _ => [] end.
Definition toMap (q : qcbor) : qmap := match q with QMap m => m | _ => [] end.

(** [map.value(key)] *)
Fixpoint qvalue (key : string) (m : qmap) : qcbor :=
  match m with
  | [] => QUndefined
  | (QString k, v) :: r => if String.eqb key k then v else qvalue key r
  | _ :: r => qvalue key r
  end.

(** [map.insert(key, v)]: replaces or appends. *)
Fixpoint qinsert (key : string) (v : qcbor) (m : qmap) : qmap :=
  match m with
  | [] => [(QString key, v)]
  | (QString k, w) :: r => if String.eqb key k then (QString k, v) :: r else (QString k, w) :: qinsert key v r
  | e :: r => e :: qinsert key v r
  end.

Lemma qvalue_insert_eq key v m : qvalue key (qinsert key v m) = v.
Proof.
  induction m as [|[k w] r IH]; simpl; [by rewrite String.eqb_refl|].
  destruct k; simpl; try done. by destruct (String.eqb_spec key s) as [->|]; simpl;
    [rewrite String.eqb_refl|rewrite (proj2 (String.eqb_neq _ _))].
Qed.

Lemma qvalue_insert_ne key j v m : j <> key -> qvalue j (qinsert key v m) = qvalue j m.
Proof.
  intros Hne. induction m as [|[k w] r IH]; simpl; [by rewrite (proj2 (String.eqb_neq _ _))|].
  destruct k; simpl; try done. destruct (String.eqb_spec key s) as [->|]; simpl.
  - by rewrite (proj2 (String.eqb_neq j s)).
  - by rewrite IH.
Qed.

(** *** Equivalence of values *)

Inductive qeq : qcbor -> qcbor -> Prop :=
| qeq_refl q : qeq q q
| qeq_array l1 l2 : Forall2 qeq l1 l2 -> qeq (QArray l1) (QArray l2)
| qeq_map m1 m2 : (forall key, qeq (qvalue key m1) (qvalue key m2)) -> qeq (QMap m1) (QMap m2).

Definition map_eq (m1 m2 : qmap) : Prop := forall key, qeq (qvalue key m1) (qvalue key m2).

#[export] Hint Resolve qeq_refl : dash.

Lemma Forall2_qeq_refl l : Forall2 qeq l l.
Proof. induction l; constructor; auto using qeq_refl. Qed.

#[export] Instance qvalue_proper key : Proper (map_eq ==> qeq) (qvalue key).
Proof. intros m1 m2 H. apply H. Qed.

#[export] Instance isUndefined_proper : Proper (qeq ==> eq) isUndefined.
Proof. by destruct 1. Qed.
#[export] Instance isInteger_proper : Proper (qeq ==> eq) isInteger.
Proof. by destruct 1. Qed.
#[export] Instance isDouble_proper : Proper (qeq ==> eq) isDouble.
Proof. by destruct 1. Qed.
#[export] Instance isString_proper : Proper (qeq ==> eq) isString.
Proof. by destruct 1. Qed.
#[export] Instance isByteArray_proper : Proper (qeq ==> eq) isByteArray.
Proof. by destruct 1. Qed.
#[export] Instance isBool_proper : Proper (qeq ==> eq) isBool.
Proof. by destruct 1. Qed.
#[export] Instance isArray_proper : Proper (qeq ==> eq) isArray.
Proof. by destruct 1. Qed.
#[export] Instance isMap_proper : Proper (qeq ==> eq) isMap.
Proof. by destruct 1. Qed.
#[export] Instance toInteger_proper : Proper (qeq ==> eq) toInteger.
Proof. by destruct 1. Qed.
#[export] Instance toDouble_proper : Proper (qeq ==> eq) toDouble.
Proof. by destruct 1. Qed.
#[export] Instance toQString_proper : Proper (qeq ==> eq) toQString.
Proof. by destruct 1. Qed.
#[export] Instance toByteArray_proper : Proper (qeq ==> eq) toByteArray.
Proof. by destruct 1. Qed.
#[export] Instance toBool_proper : Proper (qeq ==> eq) toBool.
Proof. by destruct 1. Qed.
#[export] Instance toArray_proper : Proper (qeq ==> Forall2 qeq) toArray.
Proof. destruct 1; simpl; auto using Forall2_qeq_refl. Qed.
#[export] Instance toMap_proper : Proper (qeq ==> map_eq) toMap.
Proof. destruct 1; intros key; simpl; auto using qeq_refl. Qed.

#[export] Instance map_eq_reflexive : Reflexive map_eq.
Proof. intros m key. apply qeq_refl. Qed.

Lemma qeq_sym q1 q2 : qeq q1 q2 -> qeq q2 q1.
Proof.
  revert q1 q2. fix IH 3. intros q1 q2 H. destruct H as [q|l1 l2 H|m1 m2 H].
  - apply qeq_refl.
  - apply qeq_array. induction H as [|x y l1 l2 Hxy Hl IHl]; constructor; [by apply IH|exact IHl].
  - apply qeq_map. intros key. apply IH, H.
Qed.

#[export] Instance qeq_symmetric : Symmetric qeq.
Proof. exact qeq_sym. Qed.

(** *** Correspondence with the wire *)

(** The value a data item denotes. *)
Fixpoint of_wire (v : Value) : qcbor :=
  match v with
  | VUnsigned n => QInteger n
  | VNumber d => QDouble d
  | VText s => QString s
  | VBytes b => QByteArray b
  | VBoolean b => QBool b
  | VArray l => QArray (map of_wire l)
  | VMap m => QMap (map (fun kx => (QString kx.1, of_wire kx.2)) m)
  end.

(** UTF-8 in the sense of RFC 3629, which Qt's reader enforces. *)
Definition rfc3629 (s : string) : Prop := exists cps, Forall scalar_value cps /\ s = utf8_text cps.

Definition text_ok (s : string) : Prop := rfc3629 s /\ size s <= uint64_max.

(** The data items both sides can hold, nested at most [n] deep: UTF-8 texts,
    integers of a [qint64], distinct keys. *)
Fixpoint wire_ok (n : nat) (v : Value) : Prop :=
  match n with
  | O => False
  | S n' =>
      match v with
      | VUnsigned z => 0 <= z <= int64_max
      | VNumber d => valid64 d = true
      | VText s => text_ok s
      | VBytes b => len b <= uint64_max
      | VBoolean _ => True
      | VArray l => len l <= uint64_max /\ Forall (wire_ok n') l
      | VMap m =>
          len m <= uint64_max /\ NoDup (map fst m) /\
          Forall (fun kx => text_ok kx.1 /\ wire_ok n' kx.2) m
      end
  end.

(** The values the program builds, in the same terms. *)
Fixpoint writable (n : nat) (q : qcbor) : Prop :=
  match n with
  | O => False
  | S n' =>
      match q with
      | QInteger z => 0 <= z <= int64_max
      | QDouble d => valid64 d = true
      | QString s => text_ok s
      | QByteArray b => len b <= uint64_max
      | QBool _ => True
      | QArray l => len l <= uint64_max /\ Forall (writable n') l
      | QMap m =>
          len m <= uint64_max /\ NoDup (map fst m) /\
          Forall (fun kv => (exists k, kv.1 = QString k /\ text_ok k) /\ writable n' kv.2) m
      | QUndefined | QOther => False
      end
  end.

(** Qt's reader stops at this nesting. *)
Definition qt_depth : nat := 1024.

(** [QCborValue::toCbor] and [QCborValue::fromCbor] ([None]: a parser error). *)
Class QtCodec := {
  toCbor : qcbor -> list byte;
  fromCbor : list byte -> option qcbor;
  (** The writer emits one data item that denotes the value. *)
  toCbor_writes n q :
    writable n q -> exists v, decode_all (toCbor q) = Some v /\ wire_ok n v /\ qeq (of_wire v) q;
  (** The reader accepts every data item of the protocol's types. *)
  fromCbor_reads b v :
    decode_all b = Some v -> wire_ok qt_depth v -> exists q, fromCbor b = Some q /\ qeq q (of_wire v) }.

Lemma qeq_trans q1 q2 q3 : qeq q1 q2 -> qeq q2 q3 -> qeq q1 q3.
Proof.
  revert q1 q2 q3. fix IH 4. intros q1 q2 q3 H. destruct H as [q|l1 l2 H|m1 m2 H]; intros H2; [done|..].
  - inversion H2 as [|? l3 H3|]; subst; [by apply qeq_array|]. apply qeq_array. clear H2. revert l3 H3.
    induction H as [|x y l1 l2 Hxy Hl IHl]; intros l3 H3; inversion H3; subst; constructor.
    + by eapply IH.
    + by apply IHl.
  - inversion H2 as [| |? m3 H3]; subst; [by apply qeq_map|]. apply qeq_map. intros key.
    eapply IH; [apply H|apply H3].
Qed.

#[export] Instance qeq_transitive : Transitive qeq.
Proof. exact qeq_trans. Qed.

Lemma wire_ok_mono n m v : (n <= m)%nat -> wire_ok n v -> wire_ok m v.
Proof.
  revert m v. induction n as [|n IH]; intros [|m] v Hle H; try done; [lia|].
  destruct v; cbn [wire_ok] in *; try done.
  - destruct H as [? H]. split; [done|]. eapply Forall_impl; [exact H|]. intros. apply IH; [lia|done].
  - destruct H as (? & ? & H). split; [done|]. split; [done|].
    eapply Forall_impl; [exact H|]. intros ? [? ?]. split; [done|]. apply IH; [lia|done].
Qed.

(** What is written can be read back, up to the order of map entries. *)
Lemma fromCbor_toCbor `{QtCodec} n q :
  (n <= qt_depth)%nat -> writable n q -> exists q', fromCbor (toCbor q) = Some q' /\ qeq q' q.
Proof.
  intros Hn Hw. destruct (toCbor_writes n q Hw) as (v & Hv & Hok & Heq).
  destruct (fromCbor_reads _ v Hv (wire_ok_mono _ _ _ Hn Hok)) as (q' & Hq & Heq').
  exists q'. split; [done|]. by rewrite Heq'.
Qed.

(** *** The laws can hold: a codec made of the reference decoder *)

Fixpoint wire_of (q : qcbor) : Value :=
  match q with
  | QInteger n => VUnsigned n
  | QDouble d => VNumber d
  | QString s => VText s
  | QByteArray b => VBytes b
  | QBool b => VBoolean b
  | QArray l => VArray (map wire_of l)
  | QMap m => VMap (map (fun kv => (toQString kv.1, wire_of kv.2)) m)
  | QUndefined | QOther => VBoolean false
  end.

Section lookups.
Context {A : Type} (f : A -> qcbor).
Abbreviation entries l := (map (fun kx => (QString kx.1, f kx.2)) l).

Lemma qvalue_entry (l : list (string * A)) k x :
  NoDup (map fst l) -> (k, x) ∈ l -> qvalue k (entries l) = f x.
Proof.
  induction l as [|[j y] l IH]; simpl; intros Hnd Hin; [by apply not_elem_of_nil in Hin|].
  apply NoDup_cons in Hnd as [Hni Hnd]. apply elem_of_cons in Hin as [[= -> ->]|Hin].
  - by rewrite String.eqb_refl.
  - destruct (String.eqb_spec k j) as [->|]; [|by apply IH]. destruct Hni.
    apply list_elem_of_fmap. by exists (j, x).
Qed.

Lemma qvalue_no_entry (l : list (string * A)) k :
  k ∉ map fst l -> qvalue k (entries l) = QUndefined.
Proof.
  induction l as [|[j y] l IH]; simpl; intros Hni; [done|]. rewrite not_elem_of_cons in Hni.
  destruct Hni. rewrite (proj2 (String.eqb_neq k j)) by done. auto.
Qed.
End lookups.

(** Corresponding data item and value: representable, in range, equivalent. *)
Definition denotes (n : nat) (q : qcbor) : Prop :=
  wf_value (wire_of q) = true /\ wire_ok n (canon (wire_of q)) /\ qeq (of_wire (canon (wire_of q))) q.

Abbreviation text_entries es := (map (fun kx => (QString kx.1, kx.2)) es).

(** The entries of a map that has only text keys. *)
Lemma writable_text_entries (P : qcbor -> Prop) (m : qmap) :
  Forall (fun kv => (exists k, kv.1 = QString k /\ text_ok k) /\ P kv.2) m ->
  exists es, m = text_entries es /\ Forall (fun kx => text_ok kx.1 /\ P kx.2) es.
Proof.
  induction 1 as [|[k v] m [(k' & Hk & Ht) Hv] _ (es & -> & Hes)]; [by exists []|].
  cbn in Hk. subst k. exists ((k', v) :: es). split; [done|]. by constructor.
Qed.

Lemma denotes_map n (es : list (string * qcbor)) :
  len es <= uint64_max -> NoDup (map fst es) ->
  Forall (fun kx => text_ok kx.1 /\ denotes n kx.2) es -> denotes (S n) (QMap (text_entries es)).
Proof.
  intros Hl Hnd H. unfold denotes. cbn [wire_of]. rewrite map_map. cbn [fst snd toQString].
  set (ws := map (fun x : string * qcbor => (x.1, wire_of x.2)) es).
  assert (Hwsl : length ws = length es) by apply length_map.
  rewrite canon_map. set (L := isort entry_before ws). assert (HL : L ≡ₚ ws) by apply isort_perm.
  assert (Hin : forall k w, (k, w) ∈ ws -> exists x, w = wire_of x /\ (k, x) ∈ es).
  { intros k w ([k' x] & [= -> ->] & Hx)%list_elem_of_fmap. eauto. }
  assert (Hkeys : map fst L ≡ₚ map fst es).
  { rewrite HL. unfold ws. by rewrite map_map. }
  rewrite Forall_forall in H. split; [|split].
  - cbn. unfold len in *. rewrite Hwsl. apply andb_true_iff. split; [by apply Z.leb_le|].
    apply forallb_forall. intros [k w] Hw%list_elem_of_In. apply Hin in Hw as (x & -> & Hx).
    destruct (H _ Hx) as [[_ ?] [? _]]. apply andb_true_iff. split; [by apply Z.leb_le|done].
  - cbn [wire_ok]. unfold len in *. rewrite length_map, (Permutation_length HL), Hwsl. split; [done|].
    rewrite map_map. split; [by rewrite Hkeys|]. apply Forall_fmap, Forall_forall. intros [k w] Hw.
    rewrite HL in Hw. apply Hin in Hw as (x & -> & Hx). by destruct (H _ Hx) as [? [_ [? _]]].
  - cbn [of_wire]. rewrite map_map. cbn [fst snd]. apply qeq_map. intros key.
    destruct (decide (key ∈ map fst es)) as [Hk|Hk].
    + apply list_elem_of_fmap in Hk as ([k x] & -> & Hx). cbn [fst].
      rewrite (qvalue_entry (fun w => of_wire (canon w)) L k (wire_of x)); [|by rewrite Hkeys|].
      2: { rewrite HL. apply list_elem_of_fmap. by exists (k, x). }
      rewrite (qvalue_entry (fun w => w) es k x) by done. by destruct (H _ Hx) as [_ [_ [_ ?]]].
    + rewrite (qvalue_no_entry (fun w => of_wire (canon w)) L) by by rewrite Hkeys.
      rewrite (qvalue_no_entry (fun w => w) es) by done. apply qeq_refl.
Qed.

Lemma denotes_array n l :
  len l <= uint64_max -> Forall (denotes n) l -> denotes (S n) (QArray l).
Proof.
  intros Hl H. unfold denotes. cbn [wire_of canon]. unfold len in *. split; [|split].
  - cbn. unfold len. rewrite length_map. apply andb_true_iff. split; [by apply Z.leb_le|].
    apply forallb_forall. intros v (q & <- & Hq%list_elem_of_In)%in_map_iff.
    rewrite Forall_forall in H. by apply H.
  - cbn [wire_ok]. unfold len. rewrite !length_map. split; [done|].
    rewrite map_map. apply Forall_fmap. eapply Forall_impl; [exact H|]. intros q Hq. apply Hq.
  - cbn [of_wire]. apply qeq_array. rewrite !map_map. clear Hl.
    induction H as [|q l Hq _ IH]; constructor; [apply Hq|exact IH].
Qed.

(** The reference codec's image of a value denotes the value. *)
Lemma writable_denotes n q : writable n q -> denotes n q.
Proof.
  assert (Hint : int64_max <= uint64_max) by (unfold int64_max, uint64_max; lia).
  revert q. induction n as [|n IH]; intros q H; [done|].
  destruct q as [|z|d|s|b|b|l|m|]; try done; cbn [writable] in H.
  1-5: split; [cbn [wire_of wf_value]; rewrite ?(proj2 (Z.leb_le _ _)) by (apply H || lia); done
              |split; [exact H|apply qeq_refl]].
  - destruct H as [Hl H]. apply denotes_array; [done|]. eapply Forall_impl; [exact H|]. apply IH.
  - destruct H as (Hl & Hnd & H). apply writable_text_entries in H as (es & -> & H).
    unfold len in Hl. rewrite length_map in Hl. rewrite map_map in Hnd. cbn [fst] in Hnd.
    apply denotes_map; [done| |].
    + rewrite <- (map_map fst QString) in Hnd. exact (NoDup_fmap_1 QString _ Hnd).
    + eapply Forall_impl; [exact H|]. intros kx [? ?]. split; [done|]. by apply IH.
Qed.

Definition reference_codec : QtCodec.
Proof.
  refine {| toCbor := fun q => cbor (wire_of q);
            fromCbor := fun b => of_wire <$> decode_all b |}.
  - intros n q (Hwf & Hok & Heq)%writable_denotes. exists (canon (wire_of q)).
    split; [by apply decode_all_cbor|done].
  - intros b v Hv _. exists (of_wire v). rewrite Hv. split; [done|apply qeq_refl].
Defined.
