(* ===== verification/Protocol.v ===== *)
(** * What the devices report (src/protocol/system_info, src/protocol/system_metrics)

    The structs of the telemetry protocol as nested records, and the predicates
    the services and the device model ask of them. *)

From S2P Require Import Prelude.
From S2P Require Import Std.
From S2P Require Import Float64.

(** ** SystemInfo *)

Record Host := { host_name : option string }.
Record OperatingSystem := {
  os_family : option string; os_id : option string; os_version : option string;
  os_pretty_name : option string }.
Record Kernel := { kernel_type : option string; kernel_version : option string }.
Record Hardware := {
  manufacturer : option string; hw_model : option string; board_revision : option string;
  compatible_ids : option (list string) }.
Record InfoCpu := {
  architecture : option string; vendor : option string; cpu_model : option string;
  logical_cpu_count : option Z; physical_core_count : option Z }.
Record InfoMemory := { info_total_bytes : option Z }.

Record SystemInfo := {
  info_host : Host; info_os : OperatingSystem; info_kernel : Kernel; info_hardware : Hardware;
  info_cpu : InfoCpu; info_memory : InfoMemory }.

#[export] Instance Host_eq_dec : EqDecision Host. Proof. solve_decision. Defined.
#[export] Instance OperatingSystem_eq_dec : EqDecision OperatingSystem. Proof. solve_decision. Defined.
#[export] Instance Kernel_eq_dec : EqDecision Kernel. Proof. solve_decision. Defined.
#[export] Instance Hardware_eq_dec : EqDecision Hardware. Proof. solve_decision. Defined.
#[export] Instance InfoCpu_eq_dec : EqDecision InfoCpu. Proof. solve_decision. Defined.
#[export] Instance InfoMemory_eq_dec : EqDecision InfoMemory. Proof. solve_decision. Defined.
#[export] Instance SystemInfo_eq_dec : EqDecision SystemInfo. Proof. solve_decision. Defined.

Definition has_value {A} (o : option A) : bool := match o with Some _ => true | None => false end.

(** [SystemInfo::hasAnyValue] *)
Definition info_hasAnyValue (i : SystemInfo) : bool :=
  has_value (host_name (info_host i)) || has_value (os_family (info_os i)) || has_value (os_id (info_os i))
  || has_value (os_version (info_os i)) || has_value (os_pretty_name (info_os i))
  || has_value (kernel_type (info_kernel i)) || has_value (kernel_version (info_kernel i))
  || has_value (manufacturer (info_hardware i)) || has_value (hw_model (info_hardware i))
  || has_value (board_revision (info_hardware i)) || has_value (compatible_ids (info_hardware i))
  || has_value (architecture (info_cpu i)) || has_value (vendor (info_cpu i))
  || has_value (cpu_model (info_cpu i)) || has_value (logical_cpu_count (info_cpu i))
  || has_value (physical_core_count (info_cpu i)) || has_value (info_total_bytes (info_memory i)).

(** [SystemInfo::hasAllBaselineFields] *)
Definition info_hasAllBaselineFields (i : SystemInfo) : bool :=
  has_value (host_name (info_host i)) && has_value (os_family (info_os i))
  && has_value (kernel_type (info_kernel i)) && has_value (kernel_version (info_kernel i))
  && has_value (architecture (info_cpu i)) && has_value (logical_cpu_count (info_cpu i))
  && has_value (info_total_bytes (info_memory i)).

(** ** SystemMetrics *)

Record LogicalCpu := { lc_name : string; lc_usage_ratio : option double; lc_frequency_hz : option Z }.
Record MetricsCpu := {
  usage_ratio : option double; logical_cpus : list LogicalCpu; temperature_celsius : option double }.
Record MetricsMemory := {
  total_bytes : option Z; available_bytes : option Z;
  swap_total_bytes : option Z; swap_available_bytes : option Z }.
Record MetricsSystem := {
  uptime_seconds : option double; load_average_1m : option double;
  load_average_5m : option double; load_average_15m : option double }.
Record StorageVolume := {
  mount_point : string; device_name : string; primary : bool; read_only : bool;
  sv_total_bytes : option Z; sv_available_bytes : option Z }.
Record NetworkInterface := {
  ni_name : string; rx_bytes : option Z; tx_bytes : option Z;
  rx_bytes_per_second : option double; tx_bytes_per_second : option double }.
Record Gpu := {
  gpu_name : string; gpu_usage_ratio : option double; memory_total_bytes : option Z;
  memory_used_bytes : option Z; core_clock_hz : option Z; memory_clock_hz : option Z;
  gpu_temperature_celsius : option double }.

Record SystemMetrics := {
  m_cpu : MetricsCpu; m_memory : MetricsMemory; m_system : MetricsSystem;
  storage_volumes : list StorageVolume; network_interfaces : list NetworkInterface; gpus : list Gpu }.

#[export] Instance LogicalCpu_eq_dec : EqDecision LogicalCpu. Proof. solve_decision. Defined.
#[export] Instance MetricsCpu_eq_dec : EqDecision MetricsCpu. Proof. solve_decision. Defined.
#[export] Instance MetricsMemory_eq_dec : EqDecision MetricsMemory. Proof. solve_decision. Defined.
#[export] Instance MetricsSystem_eq_dec : EqDecision MetricsSystem. Proof. solve_decision. Defined.
#[export] Instance StorageVolume_eq_dec : EqDecision StorageVolume. Proof. solve_decision. Defined.
#[export] Instance NetworkInterface_eq_dec : EqDecision NetworkInterface. Proof. solve_decision. Defined.
#[export] Instance Gpu_eq_dec : EqDecision Gpu. Proof. solve_decision. Defined.
#[export] Instance SystemMetrics_eq_dec : EqDecision SystemMetrics. Proof. solve_decision. Defined.

(** [ratio], [finiteNonnegative], [validBytes] of system_metrics.cpp *)
Definition ratio (value : option double) : bool :=
  match value with Some d => isfinite d && dleb d0 d && dleb d d1 | None => false end.
Definition finiteNonnegative (value : option double) : bool :=
  match value with Some d => isfinite d && dleb d0 d | None => false end.
Definition validBytes (total available : option Z) : bool :=
  match total, available with
  | Some t, Some a => (0 <? t) && (a <=? t)
  | _, _ => false
  end.

Definition nonempty {A} (l : list A) : bool := match l with [] => false | _ => true end.

(** [SystemMetrics::hasAnyValue] *)
Definition metrics_hasAnyValue (m : SystemMetrics) : bool :=
  ratio (usage_ratio (m_cpu m)) || finiteNonnegative (temperature_celsius (m_cpu m))
  || nonempty (logical_cpus (m_cpu m)) || has_value (total_bytes (m_memory m))
  || has_value (available_bytes (m_memory m)) || has_value (swap_total_bytes (m_memory m))
  || has_value (swap_available_bytes (m_memory m)) || finiteNonnegative (uptime_seconds (m_system m))
  || finiteNonnegative (load_average_1m (m_system m)) || finiteNonnegative (load_average_5m (m_system m))
  || finiteNonnegative (load_average_15m (m_system m)) || nonempty (storage_volumes m)
  || nonempty (network_interfaces m) || nonempty (gpus m).

(** [SystemMetrics::hasAllBaselineFields] *)
Definition metrics_hasAllBaselineFields (m : SystemMetrics) : bool :=
  ratio (usage_ratio (m_cpu m)) && finiteNonnegative (uptime_seconds (m_system m))
  && validBytes (total_bytes (m_memory m)) (available_bytes (m_memory m))
  && existsb (fun v => primary v && validBytes (sv_total_bytes v) (sv_available_bytes v)) (storage_volumes m).

(** ** Lemmas *)

Definition no_info : SystemInfo :=
  {| info_host := {| host_name := None |};
     info_os := {| os_family := None; os_id := None; os_version := None; os_pretty_name := None |};
     info_kernel := {| kernel_type := None; kernel_version := None |};
     info_hardware := {| manufacturer := None; hw_model := None; board_revision := None; compatible_ids := None |};
     info_cpu := {| architecture := None; vendor := None; cpu_model := None; logical_cpu_count := None;
                    physical_core_count := None |};
     info_memory := {| info_total_bytes := None |} |}.

Lemma has_value_false {A} (o : option A) : has_value o = false -> o = None.
Proof. by destruct o. Qed.

(** [hasAnyValue] is false for the empty report only. *)
Lemma info_hasAnyValue_false i : info_hasAnyValue i = false <-> i = no_info.
Proof.
  split; [|by intros ->]. unfold info_hasAnyValue. intros H.
  repeat match goal with H : (_ || _)%bool = false |- _ => apply orb_false_iff in H; destruct H end.
  repeat match goal with H : has_value _ = false |- _ => apply has_value_false in H end.
  destruct i as [[] [] [] [] [] []]. cbn in *. by subst.
Qed.

Lemma info_baseline_any i : info_hasAllBaselineFields i = true -> info_hasAnyValue i = true.
Proof.
  intros H. apply not_false_iff_true. intros ->%info_hasAnyValue_false. done.
Qed.

Lemma ratio_in_unit d : ratio (Some d) = in_unit d.
Proof.
  unfold ratio. destruct (in_unit d) eqn:E.
  - rewrite (in_unit_finite d E). by unfold in_unit in E.
  - destruct (isfinite d); [exact E|done].
Qed.

#[export] Hint Resolve info_baseline_any : dash.
