(* ===== verification/DeviceSnapshot.v ===== *)
(** * The telemetry codec (src/protocol/device_snapshot.cpp)

    The typed messages of the protocol, their conversion to and from CBOR values,
    and [encodeMessage] / [decodeMessage].  A function with an output parameter
    returns the new value of the output in an option, [None] being its [false].
    A [QUuid] is its RFC 4122 byte sequence; Qt's byte-level codec is the class
    [QtCodec] of QtCbor.v. *)

From S2P Require Import Prelude.
From S2P Require Import Std.
From S2P Require Import Float64.
From S2P Require Import Cbor.
From S2P Require Import DaemonText.
From S2P Require Import QtCbor.
From S2P Require Import Protocol.

Definition telemetry_protocol_version : Z := 1.
Definition maximum_datagram_size : Z := 16 * 1024.
Definition maxInteger : Z := int64_max.

Abbreviation QUuid := (list byte).
Definition null_uuid : QUuid := replicate 16 Byte.x00.

Record Hello := {
  h_device_id : QUuid; h_instance_id : QUuid; h_display_name : string; h_interval_seconds : Z;
  h_system_info : SystemInfo }.
Record RegistrationResult := {
  r_device_id : QUuid; r_instance_id : QUuid; r_accepted : bool; r_reason : string }.
Record DeviceSnapshot := {
  s_device_id : QUuid; s_instance_id : QUuid; s_interval_seconds : Z; s_sequence : Z;
  s_system_info : SystemInfo; s_metrics : option SystemMetrics }.

#[export] Instance Hello_eq_dec : EqDecision Hello. Proof. solve_decision. Defined.
#[export] Instance RegistrationResult_eq_dec : EqDecision RegistrationResult. Proof. solve_decision. Defined.
#[export] Instance DeviceSnapshot_eq_dec : EqDecision DeviceSnapshot. Proof. solve_decision. Defined.

Inductive TelemetryMessage :=
| MHello (h : Hello) | MRegistrationResult (r : RegistrationResult) | MDeviceSnapshot (s : DeviceSnapshot).

(** [DecodeResult]: a message or an error. *)
Inductive decode_error :=
| invalid_size | malformed_cbor | unsupported_version | invalid_identity | invalid_registration
| invalid_registration_result | invalid_snapshot | invalid_metrics | unsupported_type.

#[export] Instance TelemetryMessage_eq_dec : EqDecision TelemetryMessage. Proof. solve_decision. Defined.
#[export] Instance decode_error_eq_dec : EqDecision decode_error. Proof. solve_decision. Defined.

(** ** Field writers and readers *)

Definition validText (text : string) (limit : Z) : bool :=
  negb (String.eqb text "") && (size text <=? limit).

Definition add_text (key : string) (value : option string) (m : qmap) : qmap :=
  match value with Some v => qinsert key (QString v) m | None => m end.
Definition add_u32 (key : string) (value : option Z) (m : qmap) : qmap :=
  match value with Some v => qinsert key (QInteger v) m | None => m end.
Definition add_u64 (key : string) (value : option Z) (m : qmap) : qmap :=
  match value with
  | Some v => if v <=? maxInteger then qinsert key (QInteger v) m else m
  | None => m
  end.
Definition add_double (key : string) (value : option double) (m : qmap) : qmap :=
  match value with Some v => qinsert key (QDouble v) m | None => m end.

Definition text (m : qmap) (key : string) : option (option string) :=
  let value := qvalue key m in
  if isUndefined value then Some None
  else if negb (isString value) || negb (validText (toQString value) 256) then None
  else Some (Some (toQString value)).

Definition integer (m : qmap) (key : string) : option (option Z) :=
  let value := qvalue key m in
  if isUndefined value then Some None
  else if negb (isInteger value) || (toInteger value <? 0) then None
  else Some (Some (toInteger value)).

Definition count (m : qmap) (key : string) : option (option Z) :=
  value ← integer m key;
  match value with
  | Some v => if uint32_max <? v then None else Some (Some v)
  | None => Some None
  end.

Definition number (m : qmap) (key : string) (ratio : bool) : option (option double) :=
  let value := qvalue key m in
  if isUndefined value then Some None
  else if negb (isDouble value) && negb (isInteger value) then None
  else
    let result := toDouble value in
    if negb (isfinite result) || (ratio && (dltb result d0 || dltb d1 result)) then None
    else Some (Some result).

(** ** SystemInfo *)

(** [if (!group.isEmpty()) result.insert(key, group)] *)
Definition add_group (key : string) (group : qmap) (m : qmap) : qmap :=
  match group with [] => m | _ => qinsert key (QMap group) m end.

Definition host_map (h : Host) : qmap := add_text "host_name" (host_name h) [].

Definition os_map (o : OperatingSystem) : qmap :=
  add_text "os_pretty_name" (os_pretty_name o)
    (add_text "os_version" (os_version o)
      (add_text "os_id" (os_id o)
        (add_text "os_family" (os_family o) []))).

Definition kernel_map (k : Kernel) : qmap :=
  add_text "kernel_version" (kernel_version k) (add_text "kernel_type" (kernel_type k) []).

Definition add_ids (ids : option (list string)) (m : qmap) : qmap :=
  match ids with
  | Some l => qinsert "compatible_ids" (QArray (map QString l)) m
  | None => m
  end.

Definition hardware_map (h : Hardware) : qmap :=
  add_ids (compatible_ids h)
    (add_text "board_revision" (board_revision h)
      (add_text "model" (hw_model h)
        (add_text "manufacturer" (manufacturer h) []))).

Definition cpu_map (c : InfoCpu) : qmap :=
  add_u32 "physical_core_count" (physical_core_count c)
    (add_u32 "logical_cpu_count" (logical_cpu_count c)
      (add_text "model" (cpu_model c)
        (add_text "vendor" (vendor c)
          (add_text "architecture" (architecture c) [])))).

Definition memory_map (m : InfoMemory) : qmap := add_u64 "total_bytes" (info_total_bytes m) [].

Definition infoToMap (info : SystemInfo) : qmap :=
  add_group "memory" (memory_map (info_memory info))
    (add_group "cpu" (cpu_map (info_cpu info))
      (add_group "hardware" (hardware_map (info_hardware info))
        (add_group "kernel" (kernel_map (info_kernel info))
          (add_group "os" (os_map (info_os info))
            (add_group "host" (host_map (info_host info)) []))))).

(** The lambda [section]: absent is an empty map, another type is an error. *)
Definition section (root : qmap) (key : string) : option qmap :=
  let found := qvalue key root in
  if isUndefined found then Some []
  else if negb (isMap found) then None else Some (toMap found).

(** The loop over [compatible_ids]. *)
Fixpoint read_ids (raws : list qcbor) (seen : gset string) : option (list string) :=
  match raws with
  | [] => Some []
  | raw :: rs =>
      if negb (isString raw) || negb (validText (toQString raw) 256)
         || bool_decide (toQString raw ∈ seen) then None
      else cons (toQString raw) <$> read_ids rs ({[toQString raw]} ∪ seen)
  end.

Definition ids_field (hardware : qmap) : option (option (list string)) :=
  let raw := qvalue "compatible_ids" hardware in
  if isUndefined raw then Some None
  else if negb (isArray raw) || (32 <? len (toArray raw)) then None
  else Some <$> read_ids (toArray raw) ∅.

Definition infoFromMap (value : qcbor) : option SystemInfo :=
  if negb (isMap value) then None
  else
    let root := toMap value in
    host ← section root "host";
    os ← section root "os";
    kernel ← section root "kernel";
    hardware ← section root "hardware";
    cpu ← section root "cpu";
    memory ← section root "memory";
    host_name ← text host "host_name";
    os_family ← text os "os_family";
    os_id ← text os "os_id";
    os_version ← text os "os_version";
    os_pretty_name ← text os "os_pretty_name";
    kernel_type ← text kernel "kernel_type";
    kernel_version ← text kernel "kernel_version";
    manufacturer ← text hardware "manufacturer";
    model ← text hardware "model";
    board_revision ← text hardware "board_revision";
    architecture ← text cpu "architecture";
    vendor ← text cpu "vendor";
    cpu_model ← text cpu "model";
    logical_cpu_count ← count cpu "logical_cpu_count";
    physical_core_count ← count cpu "physical_core_count";
    total_bytes ← integer memory "total_bytes";
    ids ← ids_field hardware;
    let info :=
      {| info_host := {| host_name := host_name |};
         info_os := {| os_family := os_family; os_id := os_id; os_version := os_version;
                       os_pretty_name := os_pretty_name |};
         info_kernel := {| kernel_type := kernel_type; kernel_version := kernel_version |};
         info_hardware := {| manufacturer := manufacturer; hw_model := model;
                             board_revision := board_revision; compatible_ids := ids |};
         info_cpu := {| architecture := architecture; vendor := vendor; cpu_model := cpu_model;
                        logical_cpu_count := logical_cpu_count; physical_core_count := physical_core_count |};
         info_memory := {| info_total_bytes := total_bytes |} |} in
    if match logical_cpu_count with Some n => 256 <? n | None => false end then None
    else if info_hasAnyValue info then Some info else None.

(** ** SystemMetrics *)

Definition logical_cpu_map (c : LogicalCpu) : qmap :=
  add_u64 "frequency_hz" (lc_frequency_hz c)
    (add_double "usage_ratio" (lc_usage_ratio c) (qinsert "name" (QString (lc_name c)) [])).

Definition add_list (key : string) (items : list qmap) (m : qmap) : qmap :=
  match items with [] => m | _ => qinsert key (QArray (map QMap items)) m end.

Definition metrics_cpu_map (c : MetricsCpu) : qmap :=
  add_list "logical_cpus" (map logical_cpu_map (logical_cpus c))
    (add_double "temperature_celsius" (temperature_celsius c)
      (add_double "usage_ratio" (usage_ratio c) [])).

Definition metrics_memory_map (m : MetricsMemory) : qmap :=
  add_u64 "swap_available_bytes" (swap_available_bytes m)
    (add_u64 "swap_total_bytes" (swap_total_bytes m)
      (add_u64 "available_bytes" (available_bytes m)
        (add_u64 "total_bytes" (total_bytes m) []))).

Definition metrics_system_map (s : MetricsSystem) : qmap :=
  add_double "load_average_15m" (load_average_15m s)
    (add_double "load_average_5m" (load_average_5m s)
      (add_double "load_average_1m" (load_average_1m s)
        (add_double "uptime_seconds" (uptime_seconds s) []))).

Definition storage_map (v : StorageVolume) : qmap :=
  add_u64 "available_bytes" (sv_available_bytes v)
    (add_u64 "total_bytes" (sv_total_bytes v)
      (qinsert "read_only" (QBool (read_only v))
        (qinsert "primary" (QBool (primary v))
          (qinsert "device_name" (QString (device_name v))
            (qinsert "mount_point" (QString (mount_point v)) []))))).

Definition network_map (n : NetworkInterface) : qmap :=
  add_double "tx_bytes_per_second" (tx_bytes_per_second n)
    (add_double "rx_bytes_per_second" (rx_bytes_per_second n)
      (add_u64 "tx_bytes" (tx_bytes n)
        (add_u64 "rx_bytes" (rx_bytes n)
          (qinsert "name" (QString (ni_name n)) [])))).

Definition gpu_map (g : Gpu) : qmap :=
  add_double "temperature_celsius" (gpu_temperature_celsius g)
    (add_u64 "memory_clock_hz" (memory_clock_hz g)
      (add_u64 "core_clock_hz" (core_clock_hz g)
        (add_u64 "memory_used_bytes" (memory_used_bytes g)
          (add_u64 "memory_total_bytes" (memory_total_bytes g)
            (add_double "usage_ratio" (gpu_usage_ratio g)
              (qinsert "name" (QString (gpu_name g)) [])))))).

Definition metricsToMap (value : SystemMetrics) : qmap :=
  add_list "gpus" (map gpu_map (gpus value))
    (add_list "network_interfaces" (map network_map (network_interfaces value))
      (add_list "storage_volumes" (map storage_map (storage_volumes value))
        (add_group "system" (metrics_system_map (m_system value))
          (add_group "memory" (metrics_memory_map (m_memory value))
            (add_group "cpu" (metrics_cpu_map (m_cpu value)) []))))).

(** The loop of the lambda [named]; [parse] gives the entry and the name it adds to [seen]. *)
Fixpoint read_named {E} (parse : qmap -> gset string -> option (E * string)) (raws : list qcbor)
    (seen : gset string) : option (list E) :=
  match raws with
  | [] => Some []
  | raw :: rs =>
      if negb (isMap raw) then None
      else
        '(entry, name) ← parse (toMap raw) seen;
        cons entry <$> read_named parse rs ({[name]} ∪ seen)
  end.

Definition named {E} (raw : qcbor) (limit : Z) (parse : qmap -> gset string -> option (E * string))
  : option (list E) :=
  if isUndefined raw then Some []
  else if negb (isArray raw) || (limit <? len (toArray raw)) then None
  else read_named parse (toArray raw) ∅.

(** The test of a name shared by the four kinds of entry. *)
Definition bad_name (name : qcbor) (seen : gset string) : bool :=
  negb (isString name) || negb (validText (toQString name) 256) || bool_decide (toQString name ∈ seen).

Definition read_logical_cpu (item : qmap) (seen : gset string) : option (LogicalCpu * string) :=
  let name := qvalue "name" item in
  if bad_name name seen then None
  else
    usage ← number item "usage_ratio" true;
    frequency ← integer item "frequency_hz";
    Some ({| lc_name := toQString name; lc_usage_ratio := usage; lc_frequency_hz := frequency |}, toQString name).

Definition read_storage (item : qmap) (seen : gset string) : option (StorageVolume * string) :=
  let name := qvalue "mount_point" item in
  let device := qvalue "device_name" item in
  let prim := qvalue "primary" item in
  let ro := qvalue "read_only" item in
  if negb (isString name) || negb (isString device) || negb (isBool prim) || negb (isBool ro)
     || negb (validText (toQString name) 256) || negb (validText (toQString device) 256)
     || bool_decide (toQString name ∈ seen) then None
  else
    total ← integer item "total_bytes";
    available ← integer item "available_bytes";
    Some ({| mount_point := toQString name; device_name := toQString device; primary := toBool prim;
             read_only := toBool ro; sv_total_bytes := total; sv_available_bytes := available |}, toQString name).

Definition read_network (item : qmap) (seen : gset string) : option (NetworkInterface * string) :=
  let name := qvalue "name" item in
  if bad_name name seen then None
  else
    rx ← integer item "rx_bytes";
    tx ← integer item "tx_bytes";
    rxs ← number item "rx_bytes_per_second" false;
    txs ← number item "tx_bytes_per_second" false;
    Some ({| ni_name := toQString name; rx_bytes := rx; tx_bytes := tx; rx_bytes_per_second := rxs;
             tx_bytes_per_second := txs |}, toQString name).

Definition read_gpu (item : qmap) (seen : gset string) : option (Gpu * string) :=
  let name := qvalue "name" item in
  if bad_name name seen then None
  else
    usage ← number item "usage_ratio" true;
    mtotal ← integer item "memory_total_bytes";
    mused ← integer item "memory_used_bytes";
    core ← integer item "core_clock_hz";
    mem ← integer item "memory_clock_hz";
    temp ← number item "temperature_celsius" false;
    Some ({| gpu_name := toQString name; gpu_usage_ratio := usage; memory_total_bytes := mtotal;
             memory_used_bytes := mused; core_clock_hz := core; memory_clock_hz := mem;
             gpu_temperature_celsius := temp |}, toQString name).

(** [total && available && *available > *total] *)
Definition exceeds (total available : option Z) : bool :=
  match total, available with Some t, Some a => t <? a | _, _ => false end.

Definition metricsFromMap (value : qcbor) : option SystemMetrics :=
  if negb (isMap value) then None
  else
    let root := toMap value in
    cpu ← section root "cpu";
    memory ← section root "memory";
    system ← section root "system";
    usage ← number cpu "usage_ratio" true;
    temperature ← number cpu "temperature_celsius" false;
    total ← integer memory "total_bytes";
    available ← integer memory "available_bytes";
    swap_total ← integer memory "swap_total_bytes";
    swap_available ← integer memory "swap_available_bytes";
    uptime ← number system "uptime_seconds" false;
    load1 ← number system "load_average_1m" false;
    load5 ← number system "load_average_5m" false;
    load15 ← number system "load_average_15m" false;
    cpus ← named (qvalue "logical_cpus" cpu) 256 read_logical_cpu;
    storage ← named (qvalue "storage_volumes" root) 64 read_storage;
    network ← named (qvalue "network_interfaces" root) 64 read_network;
    gpu_list ← named (qvalue "gpus" root) 16 read_gpu;
    if exceeds total available || exceeds swap_total swap_available then None
    else if existsb (fun v => exceeds (sv_total_bytes v) (sv_available_bytes v)) storage then None
    else if existsb (fun g => exceeds (memory_total_bytes g) (memory_used_bytes g)) gpu_list then None
    else Some
      {| m_cpu := {| usage_ratio := usage; logical_cpus := cpus; temperature_celsius := temperature |};
         m_memory := {| total_bytes := total; available_bytes := available;
                        swap_total_bytes := swap_total; swap_available_bytes := swap_available |};
         m_system := {| uptime_seconds := uptime; load_average_1m := load1; load_average_5m := load5;
                        load_average_15m := load15 |};
         storage_volumes := storage; network_interfaces := network; gpus := gpu_list |}.

(** ** Messages *)

Definition envelope (type : string) (device instance : QUuid) : qmap :=
  qinsert "version" (QInteger telemetry_protocol_version)
    (qinsert "type" (QString type)
      (qinsert "instance_id" (QByteArray instance)
        (qinsert "device_id" (QByteArray device) []))).

Definition id (m : qmap) (key : string) : option QUuid :=
  let value := qvalue key m in
  if negb (isByteArray value) || negb (len (toByteArray value) =? 16) then None
  else let result := toByteArray value in
       if bool_decide (result = null_uuid) then None else Some result.

Definition hello_map (value : Hello) : qmap :=
  qinsert "system_info" (QMap (infoToMap (h_system_info value)))
    (qinsert "interval_s" (QInteger (h_interval_seconds value))
      (qinsert "display_name" (QString (h_display_name value))
        (envelope "hello" (h_device_id value) (h_instance_id value)))).

Definition registration_map (value : RegistrationResult) : qmap :=
  let m := qinsert "accepted" (QBool (r_accepted value))
             (envelope "registration_result" (r_device_id value) (r_instance_id value)) in
  if String.eqb (r_reason value) "" then m else qinsert "reason" (QString (r_reason value)) m.

(** [static_cast<qint64>(value.sequence)] *)
Definition snapshot_map (value : DeviceSnapshot) : qmap :=
  let m := qinsert "system_info" (QMap (infoToMap (s_system_info value)))
             (qinsert "sequence" (QInteger (i64 (s_sequence value)))
               (qinsert "interval_s" (QInteger (s_interval_seconds value))
                 (envelope "snapshot" (s_device_id value) (s_instance_id value)))) in
  match s_metrics value with
  | Some metrics => qinsert "metrics" (QMap (metricsToMap metrics)) m
  | None => m
  end.

Definition message_map (message : TelemetryMessage) : qmap :=
  match message with
  | MHello h => hello_map h
  | MRegistrationResult r => registration_map r
  | MDeviceSnapshot s => snapshot_map s
  end.

(** [!x.isInteger() || x.toInteger() < 1 || x.toInteger() > 5] *)
Definition bad_interval (interval : qcbor) : bool :=
  negb (isInteger interval) || (toInteger interval <? 1) || (5 <? toInteger interval).

(** The part of [decodeMessage] after parsing. *)
Definition decode_root (root : qmap) : decode_error + TelemetryMessage :=
  let version := qvalue "version" root in
  let type := qvalue "type" root in
  if negb (isInteger version) || negb (toInteger version =? telemetry_protocol_version)
  then inl unsupported_version
  else
    match isString type, id root "device_id", id root "instance_id" with
    | true, Some device, Some instance =>
        if String.eqb (toQString type) "hello" then
          let name := qvalue "display_name" root in
          let interval := qvalue "interval_s" root in
          if negb (isString name) || negb (validText (toQString name) 128) || bad_interval interval
          then inl invalid_registration
          else match infoFromMap (qvalue "system_info" root) with
               | None => inl invalid_registration
               | Some info =>
                   inr (MHello {| h_device_id := device; h_instance_id := instance;
                                  h_display_name := toQString name; h_interval_seconds := toInteger interval;
                                  h_system_info := info |})
               end
        else if String.eqb (toQString type) "registration_result" then
          let accepted := qvalue "accepted" root in
          let reason := qvalue "reason" root in
          if negb (isBool accepted)
             || (negb (isUndefined reason) && (negb (isString reason) || (64 <? size (toQString reason))))
          then inl invalid_registration_result
          else inr (MRegistrationResult {| r_device_id := device; r_instance_id := instance;
                                           r_accepted := toBool accepted; r_reason := toQString reason |})
        else if String.eqb (toQString type) "snapshot" then
          let interval := qvalue "interval_s" root in
          let sequence := qvalue "sequence" root in
          if bad_interval interval || negb (isInteger sequence) || (toInteger sequence <? 0)
          then inl invalid_snapshot
          else match infoFromMap (qvalue "system_info" root) with
               | None => inl invalid_snapshot
               | Some info =>
                   let raw := qvalue "metrics" root in
                   let ok metrics :=
                     inr (MDeviceSnapshot {| s_device_id := device; s_instance_id := instance;
                            s_interval_seconds := toInteger interval; s_sequence := toInteger sequence;
                            s_system_info := info; s_metrics := metrics |}) in
                   if isUndefined raw then ok None
                   else match metricsFromMap raw with
                        | None => inl invalid_metrics
                        | Some metrics => ok (Some metrics)
                        end
               end
        else inl unsupported_type
    | _, _, _ => inl invalid_identity
    end.

Section codec.
Context `{QtCodec}.

Definition encodeMessage (message : TelemetryMessage) : list byte := toCbor (QMap (message_map message)).

Definition decodeMessage (bytes : list byte) : decode_error + TelemetryMessage :=
  if (len bytes =? 0) || (maximum_datagram_size <? len bytes) then inl invalid_size
  else match fromCbor bytes with
       | Some (QMap root) => decode_root root
       | _ => inl malformed_cbor
       end.

Definition encodeSystemInfo (info : SystemInfo) : list byte := toCbor (QMap (infoToMap info)).

Definition decodeSystemInfo (bytes : list byte) : option SystemInfo :=
  value ← fromCbor bytes; infoFromMap value.
End codec.
