(* ===== verification/SnapshotCodec.v ===== *)
(** * What the telemetry codec promises

    [valid_info], [valid_metrics] and [valid_message] say what a well-formed report
    is; the theorems relate them to the readers and writers of DeviceSnapshot.v.
    [T] and [D] are the representation invariants of texts and doubles: trivial for
    what is read, UTF-8 and binary64 for what is to be written. *)

From S2P Require Import Prelude.
From S2P Require Import Std.
From S2P Require Import Float64.
From S2P Require Import Cbor.
From S2P Require Import DaemonText.
From S2P Require Import QtCbor.
From S2P Require Import Protocol.
From S2P Require Import DeviceSnapshot.

Definition opt {A} (P : A -> Prop) (o : option A) : Prop := match o with Some a => P a | None => True end.

Definition wire_int (z : Z) : Prop := 0 <= z <= int64_max.

(** ** Validity *)

Section valid.
Context (T : string -> Prop) (D : double -> Prop).

Definition valid_text (s : string) : Prop := validText s 256 = true /\ T s.
Definition valid_number (d : double) : Prop := isfinite d = true /\ D d.
Definition valid_ratio (d : double) : Prop := isfinite d = true /\ dltb d d0 = false /\ dltb d1 d = false /\ D d.

Record valid_info (i : SystemInfo) : Prop := {
  vi_host_name : opt valid_text (host_name (info_host i));
  vi_os : opt valid_text (os_family (info_os i)) /\ opt valid_text (os_id (info_os i)) /\
          opt valid_text (os_version (info_os i)) /\ opt valid_text (os_pretty_name (info_os i));
  vi_kernel : opt valid_text (kernel_type (info_kernel i)) /\ opt valid_text (kernel_version (info_kernel i));
  vi_hardware : opt valid_text (manufacturer (info_hardware i)) /\ opt valid_text (hw_model (info_hardware i)) /\
                opt valid_text (board_revision (info_hardware i));
  vi_ids : opt (fun ids => Forall valid_text ids /\ NoDup ids /\ len ids <= 32)
             (compatible_ids (info_hardware i));
  vi_cpu : opt valid_text (architecture (info_cpu i)) /\ opt valid_text (vendor (info_cpu i)) /\
           opt valid_text (cpu_model (info_cpu i));
  vi_logical : opt (fun n => 0 <= n <= 256) (logical_cpu_count (info_cpu i));
  vi_physical : opt (fun n => 0 <= n <= uint32_max) (physical_core_count (info_cpu i));
  vi_total : opt wire_int (info_total_bytes (info_memory i));
  vi_any : info_hasAnyValue i = true }.

Definition valid_logical_cpu (c : LogicalCpu) : Prop :=
  valid_text (lc_name c) /\ opt valid_ratio (lc_usage_ratio c) /\ opt wire_int (lc_frequency_hz c).
Definition valid_storage (v : StorageVolume) : Prop :=
  valid_text (mount_point v) /\ valid_text (device_name v) /\ opt wire_int (sv_total_bytes v) /\
  opt wire_int (sv_available_bytes v).
Definition valid_network (n : NetworkInterface) : Prop :=
  valid_text (ni_name n) /\ opt wire_int (rx_bytes n) /\ opt wire_int (tx_bytes n) /\
  opt valid_number (rx_bytes_per_second n) /\ opt valid_number (tx_bytes_per_second n).
Definition valid_gpu (g : Gpu) : Prop :=
  valid_text (gpu_name g) /\ opt valid_ratio (gpu_usage_ratio g) /\ opt wire_int (memory_total_bytes g) /\
  opt wire_int (memory_used_bytes g) /\ opt wire_int (core_clock_hz g) /\ opt wire_int (memory_clock_hz g) /\
  opt valid_number (gpu_temperature_celsius g).

(** A list of named entries: bounded, each valid, no name twice. *)
Definition valid_list {E} (P : E -> Prop) (name : E -> string) (limit : Z) (l : list E) : Prop :=
  Forall P l /\ NoDup (map name l) /\ len l <= limit.

Record valid_metrics (m : SystemMetrics) : Prop := {
  vm_usage : opt valid_ratio (usage_ratio (m_cpu m));
  vm_temperature : opt valid_number (temperature_celsius (m_cpu m));
  vm_cpus : valid_list valid_logical_cpu lc_name 256 (logical_cpus (m_cpu m));
  vm_memory : opt wire_int (total_bytes (m_memory m)) /\ opt wire_int (available_bytes (m_memory m)) /\
              opt wire_int (swap_total_bytes (m_memory m)) /\ opt wire_int (swap_available_bytes (m_memory m));
  vm_system : opt valid_number (uptime_seconds (m_system m)) /\ opt valid_number (load_average_1m (m_system m)) /\
              opt valid_number (load_average_5m (m_system m)) /\ opt valid_number (load_average_15m (m_system m));
  vm_storage : valid_list valid_storage mount_point 64 (storage_volumes m);
  vm_network : valid_list valid_network ni_name 64 (network_interfaces m);
  vm_gpus : valid_list valid_gpu gpu_name 16 (gpus m);
  vm_consistent :
    exceeds (total_bytes (m_memory m)) (available_bytes (m_memory m)) = false /\
    exceeds (swap_total_bytes (m_memory m)) (swap_available_bytes (m_memory m)) = false /\
    existsb (fun v => exceeds (sv_total_bytes v) (sv_available_bytes v)) (storage_volumes m) = false /\
    existsb (fun g => exceeds (memory_total_bytes g) (memory_used_bytes g)) (gpus m) = false }.

Definition valid_uuid (u : QUuid) : Prop := len u = 16 /\ u <> null_uuid.

Definition valid_message (message : TelemetryMessage) : Prop :=
  match message with
  | MHello h =>
      valid_uuid (h_device_id h) /\ valid_uuid (h_instance_id h) /\
      (validText (h_display_name h) 128 = true /\ T (h_display_name h)) /\
      1 <= h_interval_seconds h <= 5 /\ valid_info (h_system_info h)
  | MRegistrationResult r =>
      valid_uuid (r_device_id r) /\ valid_uuid (r_instance_id r) /\
      size (r_reason r) <= 64 /\ T (r_reason r)
  | MDeviceSnapshot s =>
      valid_uuid (s_device_id s) /\ valid_uuid (s_instance_id s) /\ 1 <= s_interval_seconds s <= 5 /\
      wire_int (s_sequence s) /\ valid_info (s_system_info s) /\ opt valid_metrics (s_metrics s)
  end.
End valid.

(** What a reader can rely on. *)
Abbreviation any_text := (fun _ : string => True).
Abbreviation any_double := (fun _ : double => True).

(** ** Readers answer with valid data *)

(** Take a chain of binds apart, naming each step's equation. *)
Ltac inv_binds H :=
  repeat match type of H with
  | (?e ≫= _) = Some _ =>
      let x := fresh "x" in let E := fresh "E" in
      destruct e as [x|] eqn:E; [cbn [mbind option_bind] in H|discriminate H]
  end.

Section sound.
Context (m : qmap) (key : string).

Lemma text_sound o : text m key = Some o -> opt (valid_text any_text) o.
Proof.
  unfold text, valid_text. case_if; [by intros [= <-]|].
  destruct (_ || _) eqn:E; [done|]. intros [= <-]. apply orb_false_iff in E as [_ E%negb_false_iff]. done.
Qed.

Lemma integer_sound o : integer m key = Some o -> opt wire_int o.
Proof.
  unfold integer, wire_int. case_if; [by intros [= <-]|].
  destruct (_ || _) eqn:E; [done|]. intros [= <-]. cbn. bool_facts. split; [done|].
  destruct (qvalue key m); try (unfold int64_max; simpl; lia). simpl. unfold i64, int64_max.
  pose proof (Z.mod_pos_bound (n + 9223372036854775808) 18446744073709551616). lia.
Qed.

Lemma count_sound o : count m key = Some o -> opt (fun n => 0 <= n <= uint32_max) o.
Proof.
  unfold count. destruct (integer m key) as [o'|] eqn:E; [|done]. apply integer_sound in E.
  destruct o' as [z|]; cbn; [|by intros [= <-]]. case_if; [done|]. intros [= <-]. bool_facts.
  cbn in *. unfold wire_int in E. lia.
Qed.

Lemma number_sound r o : number m key r = Some o -> opt (valid_number any_double) o.
Proof.
  unfold number, valid_number. case_if; [by intros [= <-]|]. case_if; [done|]. cbv zeta.
  destruct (_ || _) eqn:E; [done|]. intros [= <-]. apply orb_false_iff in E as [E%negb_false_iff _]. done.
Qed.

Lemma ratio_sound o : number m key true = Some o -> opt (valid_ratio any_double) o.
Proof.
  unfold number, valid_ratio. case_if; [by intros [= <-]|]. case_if; [done|]. cbv zeta.
  destruct (_ || _) eqn:E; [done|]. intros [= <-]. cbn [andb] in E.
  apply orb_false_iff in E as [E%negb_false_iff [? ?]%orb_false_iff]. done.
Qed.
End sound.

Lemma read_ids_sound raws seen ids :
  read_ids raws seen = Some ids ->
  Forall (valid_text any_text) ids /\ NoDup ids /\ length ids = length raws /\ (forall i, i ∈ ids -> i ∉ seen).
Proof.
  revert seen ids. induction raws as [|raw rs IH]; intros seen ids; cbn [read_ids].
  { intros [= <-]. repeat split; try constructor. by intros i ?%not_elem_of_nil. }
  destruct (_ || _) eqn:E; [done|]. apply orb_false_iff in E as [[_ Ev%negb_false_iff]%orb_false_iff Es].
  destruct (read_ids rs _) as [ids'|] eqn:Er; [|done]. intros [= <-].
  apply IH in Er as (Hf & Hnd & Hl & Hs). bool_facts.
  split; [by constructor|]. split; [constructor; [|done]|].
  - intros Hin. apply (Hs _ Hin). set_solver.
  - split; [simpl; congruence|]. intros i [->|Hi]%elem_of_cons; [done|]. specialize (Hs i Hi). set_solver.
Qed.

Lemma ids_field_sound m o :
  ids_field m = Some o -> opt (fun ids => Forall (valid_text any_text) ids /\ NoDup ids /\ len ids <= 32) o.
Proof.
  unfold ids_field. case_if; [by intros [= <-]|]. destruct (_ || _) eqn:E; [done|].
  apply orb_false_iff in E as [_ E]. bool_facts.
  destruct (read_ids _ _) as [ids|] eqn:Er; [|done]. intros [= <-]. cbn.
  apply read_ids_sound in Er as (? & ? & Hl & _). unfold len in *. rewrite Hl. auto.
Qed.

Lemma infoFromMap_sound q i : infoFromMap q = Some i -> valid_info any_text i.
Proof.
  unfold infoFromMap. case_if; [done|]. cbv zeta. intros H. inv_binds H.
  destruct (match x18 with Some n => 256 <? n | None => false end) eqn:El; [done|].
  destruct (info_hasAnyValue _) eqn:Ea; [|done]. injection H as <-.
  constructor; cbn in *; try (repeat split; eauto using text_sound; fail); eauto using text_sound, ids_field_sound,
    count_sound, integer_sound.
  match goal with H : count _ "logical_cpu_count" = Some _ |- _ => apply count_sound in H end.
  destruct x18; [|done]. cbn in *. bool_facts. lia.
Qed.

(** Entries of named lists. *)
Section named_sound.
Context {E : Type} (parse : qmap -> gset string -> option (E * string)).
Context (P : E -> Prop) (name : E -> string).
Context (parse_sound : forall item seen e n,
  parse item seen = Some (e, n) -> P e /\ n = name e /\ n ∉ seen).

Lemma read_named_sound raws seen l :
  read_named parse raws seen = Some l ->
  Forall P l /\ NoDup (map name l) /\ length l = length raws /\ (forall e, e ∈ l -> name e ∉ seen).
Proof.
  revert seen l. induction raws as [|raw rs IH]; intros seen l; cbn [read_named].
  { intros [= <-]. repeat split; try constructor. by intros e ?%not_elem_of_nil. }
  case_if; [done|]. destruct (parse (toMap raw) seen) as [[e n]|] eqn:Ep; [|done]. cbn [mbind option_bind].
  destruct (read_named _ rs _) as [l'|] eqn:Er; [|done]. intros [= <-].
  apply parse_sound in Ep as (He & -> & Hn). apply IH in Er as (Hf & Hnd & Hl & Hs).
  split; [by constructor|]. split; [constructor; [|done]|].
  - intros (e' & Heq & Hin)%list_elem_of_fmap. apply (Hs _ Hin). rewrite <- Heq. set_solver.
  - split; [simpl; congruence|]. intros e' [->|Hi]%elem_of_cons; [done|]. specialize (Hs e' Hi). set_solver.
Qed.

Lemma named_sound raw limit l :
  0 <= limit -> named raw limit parse = Some l -> valid_list P name limit l.
Proof.
  intros Hlim. unfold named, valid_list. case_if.
  { intros [= <-]. repeat split; try constructor; try done. }
  destruct (_ || _) eqn:Eo; [done|]. apply orb_false_iff in Eo as [_ Eo]. bool_facts.
  intros (? & ? & Hl & _)%read_named_sound. unfold len in *. rewrite Hl. auto.
Qed.
End named_sound.

Lemma bad_name_false q seen :
  bad_name q seen = false -> validText (toQString q) 256 = true /\ toQString q ∉ seen.
Proof.
  unfold bad_name. intros [[_ H%negb_false_iff]%orb_false_iff H']%orb_false_iff. bool_facts. done.
Qed.

Lemma read_logical_cpu_sound item seen e n :
  read_logical_cpu item seen = Some (e, n) -> valid_logical_cpu any_text any_double e /\ n = lc_name e /\ n ∉ seen.
Proof.
  unfold read_logical_cpu. cbv zeta. destruct (bad_name _ _) eqn:Eb; [done|]. intros H. inv_binds H.
  injection H as <- <-. apply bad_name_false in Eb as [? ?].
  repeat split; cbn; eauto using ratio_sound, integer_sound.
Qed.

Lemma read_storage_sound item seen e n :
  read_storage item seen = Some (e, n) -> valid_storage any_text e /\ n = mount_point e /\ n ∉ seen.
Proof.
  unfold read_storage. cbv zeta. destruct (_ || _) eqn:Eb; [done|]. intros H. inv_binds H.
  injection H as <- <-. apply orb_false_iff in Eb as [[[_ E1%negb_false_iff]%orb_false_iff E2%negb_false_iff]%orb_false_iff E3].
  bool_facts. repeat split; cbn; eauto using integer_sound.
Qed.

Lemma read_network_sound item seen e n :
  read_network item seen = Some (e, n) -> valid_network any_text any_double e /\ n = ni_name e /\ n ∉ seen.
Proof.
  unfold read_network. cbv zeta. destruct (bad_name _ _) eqn:Eb; [done|]. intros H. inv_binds H.
  injection H as <- <-. apply bad_name_false in Eb as [? ?].
  repeat split; cbn; eauto using number_sound, integer_sound.
Qed.

Lemma read_gpu_sound item seen e n :
  read_gpu item seen = Some (e, n) -> valid_gpu any_text any_double e /\ n = gpu_name e /\ n ∉ seen.
Proof.
  unfold read_gpu. cbv zeta. destruct (bad_name _ _) eqn:Eb; [done|]. intros H. inv_binds H.
  injection H as <- <-. apply bad_name_false in Eb as [? ?].
  repeat split; cbn; eauto using number_sound, ratio_sound, integer_sound.
Qed.

Lemma metricsFromMap_sound q m : metricsFromMap q = Some m -> valid_metrics any_text any_double m.
Proof.
  unfold metricsFromMap. case_if; [done|]. cbv zeta. intros H. inv_binds H.
  destruct (_ || _) eqn:Hm in H; [done|]. apply orb_false_iff in Hm as [? ?].
  destruct (existsb _ _) eqn:Hs in H; [done|]. destruct (existsb _ _) eqn:Hg in H; [done|]. injection H as <-.
  constructor; cbn; try (repeat split; eauto using number_sound, integer_sound; fail);
    eauto using number_sound, ratio_sound.
  - eapply named_sound; [apply read_logical_cpu_sound|lia|done].
  - eapply named_sound; [apply read_storage_sound|lia|done].
  - eapply named_sound; [apply read_network_sound|lia|done].
  - eapply named_sound; [apply read_gpu_sound|lia|done].
Qed.

Lemma id_sound m key u : id m key = Some u -> valid_uuid u.
Proof.
  unfold id. cbv zeta. destruct (_ || _) eqn:E; [done|]. case_if; [done|]. intros [= <-].
  apply orb_false_iff in E as [_ E]. bool_facts. done.
Qed.

Lemma bad_interval_false q : bad_interval q = false -> 1 <= toInteger q <= 5.
Proof. unfold bad_interval. intros H. bool_facts. lia. Qed.

Lemma decode_root_sound root message :
  decode_root root = inr message -> valid_message any_text any_double message.
Proof.
  unfold decode_root. cbv zeta. destruct (_ || _); [done|].
  destruct (isString _); [|done]. destruct (id root "device_id") as [d|] eqn:Ed; [|done].
  destruct (id root "instance_id") as [i|] eqn:Ei; [|done]. apply id_sound in Ed, Ei.
  case_if; [|case_if; [|case_if; [|done]]].
  - destruct (_ || _) eqn:E; [done|]. destruct (infoFromMap _) as [info|] eqn:Einfo; [|done]. intros [= <-].
    apply orb_false_iff in E as [[_ E1%negb_false_iff]%orb_false_iff E2%bad_interval_false].
    apply infoFromMap_sound in Einfo. cbn. auto.
  - destruct (_ || _) eqn:E; [done|]. intros [= <-]. apply orb_false_iff in E as [_ E]. cbn.
    split; [done|]. split; [done|]. split; [|done]. destruct (qvalue "reason" root); cbn in E |- *; try discriminate E;
      bool_facts; unfold size in *; simpl; lia.
  - destruct (_ || _) eqn:E; [done|]. destruct (infoFromMap _) as [info|] eqn:Einfo; [|done].
    apply orb_false_iff in E as [[E1%bad_interval_false _]%orb_false_iff E2]. bool_facts.
    apply infoFromMap_sound in Einfo.
    assert (Hseq : wire_int (toInteger (qvalue "sequence" root))).
    { unfold wire_int. split; [done|]. destruct (qvalue "sequence" root); try (unfold int64_max; simpl; lia).
      simpl. unfold i64, int64_max.
      pose proof (Z.mod_pos_bound (n + 9223372036854775808) 18446744073709551616). lia. }
    case_if; [intros [= <-]; cbn; auto 10|].
    destruct (metricsFromMap _) as [m|] eqn:Em; [|done]. intros [= <-].
    apply metricsFromMap_sound in Em. cbn. auto 10.
Qed.

(** ** Readers read back what writers write *)

Section add_lookups.
Context (key j : string) (m : qmap).

Lemma qvalue_add_text_eq o :
  qvalue key (add_text key o m) = match o with Some v => QString v | None => qvalue key m end.
Proof. destruct o; [apply qvalue_insert_eq|done]. Qed.
Lemma qvalue_add_u32_eq o :
  qvalue key (add_u32 key o m) = match o with Some v => QInteger v | None => qvalue key m end.
Proof. destruct o; [apply qvalue_insert_eq|done]. Qed.
Lemma qvalue_add_u64_eq o :
  opt wire_int o ->
  qvalue key (add_u64 key o m) = match o with Some v => QInteger v | None => qvalue key m end.
Proof.
  destruct o as [v|]; [|done]. intros [_ Hv]. simpl. unfold maxInteger.
  rewrite (proj2 (Z.leb_le _ _)) by done. apply qvalue_insert_eq.
Qed.
Lemma qvalue_add_double_eq o :
  qvalue key (add_double key o m) = match o with Some v => QDouble v | None => qvalue key m end.
Proof. destruct o; [apply qvalue_insert_eq|done]. Qed.
Lemma qvalue_add_group_eq g :
  qvalue key (add_group key g m) = match g with [] => qvalue key m | _ => QMap g end.
Proof. destruct g; [done|apply qvalue_insert_eq]. Qed.
Lemma qvalue_add_list_eq l :
  qvalue key (add_list key l m) = match l with [] => qvalue key m | _ => QArray (map QMap l) end.
Proof. destruct l; [done|apply qvalue_insert_eq]. Qed.

Context (Hne : j <> key).
Lemma qvalue_add_text_ne o : qvalue j (add_text key o m) = qvalue j m.
Proof. destruct o; [by apply qvalue_insert_ne|done]. Qed.
Lemma qvalue_add_u32_ne o : qvalue j (add_u32 key o m) = qvalue j m.
Proof. destruct o; [by apply qvalue_insert_ne|done]. Qed.
Lemma qvalue_add_u64_ne o : qvalue j (add_u64 key o m) = qvalue j m.
Proof. destruct o; [simpl; case_if; [by apply qvalue_insert_ne|done]|done]. Qed.
Lemma qvalue_add_double_ne o : qvalue j (add_double key o m) = qvalue j m.
Proof. destruct o; [by apply qvalue_insert_ne|done]. Qed.
Lemma qvalue_add_group_ne g : qvalue j (add_group key g m) = qvalue j m.
Proof. destruct g; [done|by apply qvalue_insert_ne]. Qed.
Lemma qvalue_add_list_ne l : qvalue j (add_list key l m) = qvalue j m.
Proof. destruct l; [done|by apply qvalue_insert_ne]. Qed.
End add_lookups.

Lemma qvalue_add_ids_eq ids m :
  qvalue "compatible_ids" (add_ids ids m) =
  match ids with Some l => QArray (map QString l) | None => qvalue "compatible_ids" m end.
Proof. destruct ids; [apply qvalue_insert_eq|done]. Qed.
Lemma qvalue_add_ids_ne j ids m : j <> "compatible_ids"%string -> qvalue j (add_ids ids m) = qvalue j m.
Proof. intros. destruct ids; [by apply qvalue_insert_ne|done]. Qed.

(** Evaluate a lookup in a map built by insertions. *)
Ltac qlook :=
  repeat first
    [ rewrite qvalue_insert_eq | rewrite qvalue_add_text_eq | rewrite qvalue_add_u32_eq
    | rewrite qvalue_add_u64_eq by assumption | rewrite qvalue_add_double_eq | rewrite qvalue_add_group_eq
    | rewrite qvalue_add_list_eq | rewrite qvalue_add_ids_eq
    | rewrite qvalue_insert_ne by done | rewrite qvalue_add_text_ne by done
    | rewrite qvalue_add_u32_ne by done | rewrite qvalue_add_u64_ne by done
    | rewrite qvalue_add_double_ne by done | rewrite qvalue_add_group_ne by done
    | rewrite qvalue_add_list_ne by done | rewrite qvalue_add_ids_ne by done ];
  reflexivity.

(** The same, in the map of a named part of a report. *)
Ltac qlook_part := match goal with |- qvalue _ (?f _) = _ => unfold f end; qlook.

Lemma i64_wire z : wire_int z -> i64 z = z.
Proof. intros [? ?]. apply i64_id. unfold int64_max in *. lia. Qed.

Section reads.
Context (T : string -> Prop) (D : double -> Prop) (m : qmap) (key : string).

Lemma text_reads o :
  opt (valid_text T) o -> qvalue key m = match o with Some v => QString v | None => QUndefined end ->
  text m key = Some o.
Proof. unfold text. intros Ho ->. destruct o as [s|]; [|done]. cbn. by destruct Ho as [-> _]. Qed.

Lemma integer_reads o :
  opt wire_int o -> qvalue key m = match o with Some v => QInteger v | None => QUndefined end ->
  integer m key = Some o.
Proof.
  unfold integer. intros Ho ->. destruct o as [z|]; [|done]. cbn in *. rewrite i64_wire by done.
  by rewrite (proj2 (Z.ltb_ge _ _)) by apply Ho.
Qed.

Lemma count_reads o :
  opt (fun n => 0 <= n <= uint32_max) o ->
  qvalue key m = match o with Some v => QInteger v | None => QUndefined end -> count m key = Some o.
Proof.
  intros Ho E. unfold count. rewrite (integer_reads o); [|destruct o; [|done]|done].
  - destruct o as [z|]; [|done]. cbn in *. by rewrite (proj2 (Z.ltb_ge _ _)) by apply Ho.
  - cbn in *. unfold wire_int, int64_max, uint32_max in *. lia.
Qed.

Lemma number_reads o :
  opt (valid_number D) o -> qvalue key m = match o with Some v => QDouble v | None => QUndefined end ->
  number m key false = Some o.
Proof. unfold number. intros Ho ->. destruct o as [d|]; [|done]. cbn in *. by destruct Ho as [-> _]. Qed.

Lemma ratio_reads o :
  opt (valid_ratio D) o -> qvalue key m = match o with Some v => QDouble v | None => QUndefined end ->
  number m key true = Some o.
Proof.
  unfold number. intros Ho ->. destruct o as [d|]; [|done]. cbn [opt] in Ho.
  destruct Ho as (H1 & H2 & H3 & _). cbn [isUndefined isDouble isInteger toDouble negb andb]. by rewrite H1, H2, H3.
Qed.

Lemma section_reads g :
  qvalue key m = match g with [] => QUndefined | _ => QMap g end -> section m key = Some g.
Proof. unfold section. intros ->. by destruct g. Qed.
End reads.

Lemma read_ids_reads T ids seen :
  Forall (valid_text T) ids -> NoDup ids -> (forall i, i ∈ ids -> i ∉ seen) ->
  read_ids (map QString ids) seen = Some ids.
Proof.
  intros Hv. revert seen. induction Hv as [|i ids [Hi _] _ IH]; intros seen Hnd Hs; [done|].
  apply NoDup_cons in Hnd as [Hni Hnd]. cbn [map read_ids isString toQString negb orb]. rewrite Hi.
  rewrite bool_decide_eq_false_2 by (apply Hs; by left). cbn [negb orb].
  rewrite IH; [done|done|]. intros j Hj. specialize (Hs j). rewrite elem_of_cons in Hs.
  specialize (Hs (or_intror Hj)). assert (j <> i) by (by intros ->). set_solver.
Qed.

Lemma ids_field_reads T m o :
  opt (fun ids => Forall (valid_text T) ids /\ NoDup ids /\ len ids <= 32) o ->
  qvalue "compatible_ids" m = match o with Some l => QArray (map QString l) | None => QUndefined end ->
  ids_field m = Some o.
Proof.
  unfold ids_field. intros Ho ->. destruct o as [ids|]; [|done]. destruct Ho as (Hv & Hnd & Hl).
  cbn [isUndefined isArray toArray negb orb]. unfold len in *. rewrite length_map.
  rewrite (proj2 (Z.ltb_ge _ _)) by done. rewrite (read_ids_reads T); [done..|].
  intros. apply not_elem_of_empty.
Qed.

(** One step of a reader: the equation of the field, by lookup. *)
Tactic Notation "read_step" uconstr(lemma) :=
  rewrite lemma; [cbn [mbind option_bind]|first [assumption | qlook | qlook_part]..].

Lemma infoFromMap_infoToMap T i : valid_info T i -> infoFromMap (QMap (infoToMap i)) = Some i.
Proof.
  intros [Hh (Ho1 & Ho2 & Ho3 & Ho4) (Hk1 & Hk2) (Hw1 & Hw2 & Hw3) Hids (Hc1 & Hc2 & Hc3) Hl Hp Ht Ha].
  unfold infoFromMap. cbn [isMap negb toMap]. unfold infoToMap.
  read_step (section_reads _ "host" (host_map (info_host i))).
  read_step (section_reads _ "os" (os_map (info_os i))).
  read_step (section_reads _ "kernel" (kernel_map (info_kernel i))).
  read_step (section_reads _ "hardware" (hardware_map (info_hardware i))).
  read_step (section_reads _ "cpu" (cpu_map (info_cpu i))).
  read_step (section_reads _ "memory" (memory_map (info_memory i))).
  read_step (text_reads T _ "host_name" (host_name (info_host i))).
  read_step (text_reads T _ "os_family" (os_family (info_os i))).
  read_step (text_reads T _ "os_id" (os_id (info_os i))).
  read_step (text_reads T _ "os_version" (os_version (info_os i))).
  read_step (text_reads T _ "os_pretty_name" (os_pretty_name (info_os i))).
  read_step (text_reads T _ "kernel_type" (kernel_type (info_kernel i))).
  read_step (text_reads T _ "kernel_version" (kernel_version (info_kernel i))).
  read_step (text_reads T _ "manufacturer" (manufacturer (info_hardware i))).
  read_step (text_reads T (hardware_map (info_hardware i)) "model" (hw_model (info_hardware i))).
  read_step (text_reads T _ "board_revision" (board_revision (info_hardware i))).
  read_step (text_reads T _ "architecture" (architecture (info_cpu i))).
  read_step (text_reads T _ "vendor" (vendor (info_cpu i))).
  read_step (text_reads T (cpu_map (info_cpu i)) "model" (cpu_model (info_cpu i))).
  assert (Hl32 : opt (fun n => 0 <= n <= uint32_max) (logical_cpu_count (info_cpu i))).
  { destruct (logical_cpu_count (info_cpu i)); [|done]. cbn in *. unfold uint32_max. lia. }
  read_step (count_reads _ "logical_cpu_count" (logical_cpu_count (info_cpu i))).
  read_step (count_reads _ "physical_core_count" (physical_core_count (info_cpu i))).
  read_step (integer_reads _ "total_bytes" (info_total_bytes (info_memory i))).
  read_step (ids_field_reads T _ (compatible_ids (info_hardware i))).
  assert (E : match logical_cpu_count (info_cpu i) with Some n => 256 <? n | None => false end = false).
  { destruct (logical_cpu_count (info_cpu i)); [|done]. cbn in Hl. apply Z.ltb_ge. lia. }
  rewrite E. transitivity (if info_hasAnyValue i then Some i else None); [|by rewrite Ha].
  by destruct i as [[] [] [] [] [] []].
Qed.

(** *** Named lists *)

Section named_items.
Context {A E : Type} (parse : qmap -> gset string -> option (E * string)).
Context (P : A -> Prop) (name : A -> string) (to_map : A -> qmap) (entry : A -> E).
Context (parse_reads : forall a seen, P a -> name a ∉ seen -> parse (to_map a) seen = Some (entry a, name a)).

Lemma read_named_reads l seen :
  Forall P l -> NoDup (map name l) -> (forall e, e ∈ l -> name e ∉ seen) ->
  read_named parse (map QMap (map to_map l)) seen = Some (map entry l).
Proof.
  intros Hv. revert seen. induction Hv as [|e l He _ IH]; intros seen Hnd Hs; [done|].
  cbn [map] in Hnd. apply NoDup_cons in Hnd as [Hni Hnd].
  cbn [map read_named isMap negb toMap]. rewrite parse_reads; [|done|apply Hs; by left].
  cbn [mbind option_bind]. rewrite IH; [done|done|]. intros e' He'.
  assert (name e' <> name e).
  { intros Heq. apply Hni. rewrite <- Heq. apply list_elem_of_fmap. by exists e'. }
  specialize (Hs e'). rewrite elem_of_cons in Hs. specialize (Hs (or_intror He')). set_solver.
Qed.

Lemma named_items_read raw limit l :
  valid_list P name limit l ->
  raw = match map to_map l with [] => QUndefined | _ => QArray (map QMap (map to_map l)) end ->
  named raw limit parse = Some (map entry l).
Proof.
  intros (Hv & Hnd & Hl) ->. unfold named. destruct l as [|e l]; [done|].
  cbn [map isUndefined]. change (QMap (to_map e) :: map QMap (map to_map l)) with (map QMap (map to_map (e :: l))).
  cbn [isArray toArray negb orb]. unfold len in *. rewrite !length_map.
  rewrite (proj2 (Z.ltb_ge _ _)) by done. apply read_named_reads; [done..|].
  intros. apply not_elem_of_empty.
Qed.
End named_items.

Lemma named_reads {E} parse (P : E -> Prop) name to_map :
  (forall e seen, P e -> name e ∉ seen -> parse (to_map e) seen = Some (e, name e)) ->
  forall raw limit l, valid_list P name limit l ->
  raw = match map to_map l with [] => QUndefined | _ => QArray (map QMap (map to_map l)) end ->
  named raw limit parse = Some l.
Proof. intros Hp raw limit l Hl Hr. by rewrite (named_items_read parse P name to_map (fun e => e) Hp raw limit l), map_id. Qed.

Lemma bad_name_reads T s seen : valid_text T s -> s ∉ seen -> bad_name (QString s) seen = false.
Proof.
  intros [Hs _] Hn. unfold bad_name. cbn. rewrite Hs. by rewrite bool_decide_eq_false_2.
Qed.

Section entries.
Context (T : string -> Prop) (D : double -> Prop).

Lemma read_logical_cpu_reads c seen :
  valid_logical_cpu T D c -> lc_name c ∉ seen ->
  read_logical_cpu (logical_cpu_map c) seen = Some (c, lc_name c).
Proof.
  intros (Hn & Hu & Hf) Hs. unfold read_logical_cpu. cbv zeta.
  assert (En : qvalue "name" (logical_cpu_map c) = QString (lc_name c)) by (unfold logical_cpu_map; qlook).
  rewrite En, (bad_name_reads T) by done. unfold logical_cpu_map.
  read_step (ratio_reads D _ "usage_ratio" (lc_usage_ratio c)).
  read_step (integer_reads _ "frequency_hz" (lc_frequency_hz c)).
  by destruct c.
Qed.

Lemma read_storage_reads v seen :
  valid_storage T v -> mount_point v ∉ seen -> read_storage (storage_map v) seen = Some (v, mount_point v).
Proof.
  intros ([Hm _] & [Hd _] & Ht & Ha) Hs. unfold read_storage. cbv zeta.
  assert (Em : qvalue "mount_point" (storage_map v) = QString (mount_point v)) by (unfold storage_map; qlook).
  assert (Ed : qvalue "device_name" (storage_map v) = QString (device_name v)) by (unfold storage_map; qlook).
  assert (Ep : qvalue "primary" (storage_map v) = QBool (primary v)) by (unfold storage_map; qlook).
  assert (Er : qvalue "read_only" (storage_map v) = QBool (read_only v)) by (unfold storage_map; qlook).
  rewrite Em, Ed, Ep, Er. cbn [isString isBool toQString negb orb]. rewrite Hm, Hd.
  rewrite bool_decide_eq_false_2 by done. cbn [negb orb]. unfold storage_map.
  read_step (integer_reads _ "total_bytes" (sv_total_bytes v)).
  read_step (integer_reads _ "available_bytes" (sv_available_bytes v)).
  by destruct v.
Qed.

Lemma read_network_reads n seen :
  valid_network T D n -> ni_name n ∉ seen -> read_network (network_map n) seen = Some (n, ni_name n).
Proof.
  intros (Hn & Hr & Ht & Hrs & Hts) Hs. unfold read_network. cbv zeta.
  assert (En : qvalue "name" (network_map n) = QString (ni_name n)) by (unfold network_map; qlook).
  rewrite En, (bad_name_reads T) by done. unfold network_map.
  read_step (integer_reads _ "rx_bytes" (rx_bytes n)).
  read_step (integer_reads _ "tx_bytes" (tx_bytes n)).
  read_step (number_reads D _ "rx_bytes_per_second" (rx_bytes_per_second n)).
  read_step (number_reads D _ "tx_bytes_per_second" (tx_bytes_per_second n)).
  by destruct n.
Qed.

Lemma read_gpu_reads g seen :
  valid_gpu T D g -> gpu_name g ∉ seen -> read_gpu (gpu_map g) seen = Some (g, gpu_name g).
Proof.
  intros (Hn & Hu & Hmt & Hmu & Hc & Hm & Ht) Hs. unfold read_gpu. cbv zeta.
  assert (En : qvalue "name" (gpu_map g) = QString (gpu_name g)) by (unfold gpu_map; qlook).
  rewrite En, (bad_name_reads T) by done. unfold gpu_map.
  read_step (ratio_reads D _ "usage_ratio" (gpu_usage_ratio g)).
  read_step (integer_reads _ "memory_total_bytes" (memory_total_bytes g)).
  read_step (integer_reads _ "memory_used_bytes" (memory_used_bytes g)).
  read_step (integer_reads _ "core_clock_hz" (core_clock_hz g)).
  read_step (integer_reads _ "memory_clock_hz" (memory_clock_hz g)).
  read_step (number_reads D _ "temperature_celsius" (gpu_temperature_celsius g)).
  by destruct g.
Qed.

Lemma metricsFromMap_metricsToMap m : valid_metrics T D m -> metricsFromMap (QMap (metricsToMap m)) = Some m.
Proof.
  intros [Hu Ht Hc (Hm1 & Hm2 & Hm3 & Hm4) (Hs1 & Hs2 & Hs3 & Hs4) Hst Hn Hg (Hx1 & Hx2 & Hx3 & Hx4)].
  unfold metricsFromMap. cbn [isMap negb toMap]. unfold metricsToMap.
  read_step (section_reads _ "cpu" (metrics_cpu_map (m_cpu m))).
  read_step (section_reads _ "memory" (metrics_memory_map (m_memory m))).
  read_step (section_reads _ "system" (metrics_system_map (m_system m))).
  read_step (ratio_reads D _ "usage_ratio" (usage_ratio (m_cpu m))).
  read_step (number_reads D _ "temperature_celsius" (temperature_celsius (m_cpu m))).
  read_step (integer_reads _ "total_bytes" (total_bytes (m_memory m))).
  read_step (integer_reads _ "available_bytes" (available_bytes (m_memory m))).
  read_step (integer_reads _ "swap_total_bytes" (swap_total_bytes (m_memory m))).
  read_step (integer_reads _ "swap_available_bytes" (swap_available_bytes (m_memory m))).
  read_step (number_reads D _ "uptime_seconds" (uptime_seconds (m_system m))).
  read_step (number_reads D _ "load_average_1m" (load_average_1m (m_system m))).
  read_step (number_reads D _ "load_average_5m" (load_average_5m (m_system m))).
  read_step (number_reads D _ "load_average_15m" (load_average_15m (m_system m))).
  read_step (named_reads _ _ _ _ read_logical_cpu_reads _ 256 (logical_cpus (m_cpu m))).
  read_step (named_reads _ _ _ _ read_storage_reads _ 64 (storage_volumes m)).
  read_step (named_reads _ _ _ _ read_network_reads _ 64 (network_interfaces m)).
  read_step (named_reads _ _ _ _ read_gpu_reads _ 16 (gpus m)).
  rewrite Hx1, Hx2, Hx3, Hx4. by destruct m as [[] [] [] ? ? ?].
Qed.
End entries.

(** ** Readers see a map only through its lookups *)

(** Replace a value by an equivalent one under the accessors. *)
Ltac accessors H :=
  rewrite ?(isUndefined_proper _ _ H), ?(isInteger_proper _ _ H), ?(isDouble_proper _ _ H),
    ?(isString_proper _ _ H), ?(isByteArray_proper _ _ H), ?(isBool_proper _ _ H), ?(isArray_proper _ _ H),
    ?(isMap_proper _ _ H), ?(toInteger_proper _ _ H), ?(toDouble_proper _ _ H), ?(toQString_proper _ _ H),
    ?(toByteArray_proper _ _ H), ?(toBool_proper _ _ H).

#[export] Instance text_proper : Proper (map_eq ==> eq ==> eq) text.
Proof. intros m1 m2 Hm k ? <-. unfold text. cbv zeta. by accessors (Hm k). Qed.
#[export] Instance integer_proper : Proper (map_eq ==> eq ==> eq) integer.
Proof. intros m1 m2 Hm k ? <-. unfold integer. cbv zeta. by accessors (Hm k). Qed.
#[export] Instance count_proper : Proper (map_eq ==> eq ==> eq) count.
Proof. intros m1 m2 Hm k ? <-. unfold count. by rewrite (integer_proper _ _ Hm k _ eq_refl). Qed.
#[export] Instance number_proper : Proper (map_eq ==> eq ==> eq ==> eq) number.
Proof. intros m1 m2 Hm k ? <- r ? <-. unfold number. cbv zeta. by accessors (Hm k). Qed.
#[export] Instance id_proper : Proper (map_eq ==> eq ==> eq) id.
Proof. intros m1 m2 Hm k ? <-. unfold id. cbv zeta. by accessors (Hm k). Qed.

Lemma read_ids_proper l1 l2 seen : Forall2 qeq l1 l2 -> read_ids l1 seen = read_ids l2 seen.
Proof.
  intros H. revert seen. induction H as [|q1 q2 l1 l2 Hq _ IH]; intros seen; [done|].
  cbn [read_ids]. accessors Hq. case_if; [done|]. by rewrite IH.
Qed.

#[export] Instance ids_field_proper : Proper (map_eq ==> eq) ids_field.
Proof.
  intros m1 m2 Hm. unfold ids_field. specialize (Hm "compatible_ids"%string).
  rewrite (isUndefined_proper _ _ Hm), (isArray_proper _ _ Hm).
  pose proof (toArray_proper _ _ Hm) as Hl. unfold len. rewrite (Forall2_length _ _ _ Hl).
  by rewrite (read_ids_proper _ _ _ Hl).
Qed.

(** Equal readers followed by equal continuations. *)
Lemma bind_ext {A B} (e1 e2 : option A) (k1 k2 : A -> option B) :
  e1 = e2 -> (forall x, k1 x = k2 x) -> e1 ≫= k1 = e2 ≫= k2.
Proof. intros -> H. destruct e2; simpl; auto. Qed.

Lemma section_bind {B} m1 m2 key (k1 k2 : qmap -> option B) :
  map_eq m1 m2 -> (forall g1 g2, map_eq g1 g2 -> k1 g1 = k2 g2) ->
  section m1 key ≫= k1 = section m2 key ≫= k2.
Proof.
  intros Hm Hk. unfold section. specialize (Hm key).
  rewrite (isUndefined_proper _ _ Hm), (isMap_proper _ _ Hm).
  case_if; [by apply Hk|]. case_if; [done|]. apply Hk. by apply toMap_proper.
Qed.

Ltac bind_steps :=
  repeat first
    [ apply section_bind; [assumption|intros ? ? ?]
    | apply bind_ext; [first [by apply text_proper | by apply integer_proper | by apply count_proper
                             | by apply number_proper | by apply ids_field_proper]|intros ?] ].

#[export] Instance infoFromMap_proper : Proper (qeq ==> eq) infoFromMap.
Proof.
  intros q1 q2 Hq. unfold infoFromMap. rewrite (isMap_proper _ _ Hq).
  case_if; [done|]. cbv zeta. pose proof (toMap_proper _ _ Hq). bind_steps. done.
Qed.

Section named_proper.
Context {E : Type} (parse : qmap -> gset string -> option (E * string)).
Context (parse_proper : forall m1 m2 seen, map_eq m1 m2 -> parse m1 seen = parse m2 seen).

Lemma read_named_proper l1 l2 seen : Forall2 qeq l1 l2 -> read_named parse l1 seen = read_named parse l2 seen.
Proof.
  intros H. revert seen. induction H as [|q1 q2 l1 l2 Hq _ IH]; intros seen; [done|].
  cbn [read_named]. rewrite (isMap_proper _ _ Hq). case_if; [done|].
  rewrite (parse_proper _ _ seen (toMap_proper _ _ Hq)). apply bind_ext; [done|]. intros [e n]. by rewrite IH.
Qed.

Lemma named_proper q1 q2 limit : qeq q1 q2 -> named q1 limit parse = named q2 limit parse.
Proof.
  intros Hq. unfold named. rewrite (isUndefined_proper _ _ Hq), (isArray_proper _ _ Hq).
  pose proof (toArray_proper _ _ Hq) as Hl. unfold len. rewrite (Forall2_length _ _ _ Hl).
  by rewrite (read_named_proper _ _ _ Hl).
Qed.
End named_proper.

#[export] Instance bad_name_proper : Proper (qeq ==> eq ==> eq) bad_name.
Proof. intros q1 q2 Hq s ? <-. unfold bad_name. by rewrite (isString_proper _ _ Hq), (toQString_proper _ _ Hq). Qed.

Lemma read_logical_cpu_proper m1 m2 seen : map_eq m1 m2 -> read_logical_cpu m1 seen = read_logical_cpu m2 seen.
Proof.
  intros Hm. unfold read_logical_cpu. cbv zeta. rewrite (bad_name_proper _ _ (Hm "name"%string) _ _ eq_refl).
  case_if; [done|]. bind_steps. by rewrite (toQString_proper _ _ (Hm "name"%string)).
Qed.

Lemma read_storage_proper m1 m2 seen : map_eq m1 m2 -> read_storage m1 seen = read_storage m2 seen.
Proof.
  intros Hm. unfold read_storage. cbv zeta.
  accessors (Hm "mount_point"%string). accessors (Hm "device_name"%string).
  accessors (Hm "primary"%string). accessors (Hm "read_only"%string).
  case_if; [done|]. bind_steps. done.
Qed.

Lemma read_network_proper m1 m2 seen : map_eq m1 m2 -> read_network m1 seen = read_network m2 seen.
Proof.
  intros Hm. unfold read_network. cbv zeta. rewrite (bad_name_proper _ _ (Hm "name"%string) _ _ eq_refl).
  case_if; [done|]. bind_steps. by rewrite (toQString_proper _ _ (Hm "name"%string)).
Qed.

Lemma read_gpu_proper m1 m2 seen : map_eq m1 m2 -> read_gpu m1 seen = read_gpu m2 seen.
Proof.
  intros Hm. unfold read_gpu. cbv zeta. rewrite (bad_name_proper _ _ (Hm "name"%string) _ _ eq_refl).
  case_if; [done|]. bind_steps. by rewrite (toQString_proper _ _ (Hm "name"%string)).
Qed.

#[export] Instance metricsFromMap_proper : Proper (qeq ==> eq) metricsFromMap.
Proof.
  intros q1 q2 Hq. unfold metricsFromMap. rewrite (isMap_proper _ _ Hq).
  case_if; [done|]. cbv zeta. pose proof (toMap_proper _ _ Hq) as Hr.
  apply section_bind; [done|]. intros c1 c2 Hc. bind_steps.
  apply bind_ext; [apply named_proper; [apply read_logical_cpu_proper|apply Hc]|intros ?].
  apply bind_ext; [apply named_proper; [apply read_storage_proper|apply Hr]|intros ?].
  apply bind_ext; [apply named_proper; [apply read_network_proper|apply Hr]|intros ?].
  apply bind_ext; [apply named_proper; [apply read_gpu_proper|apply Hr]|done].
Qed.

#[export] Instance bad_interval_proper : Proper (qeq ==> eq) bad_interval.
Proof. intros q1 q2 Hq. unfold bad_interval. by rewrite (isInteger_proper _ _ Hq), (toInteger_proper _ _ Hq). Qed.

#[export] Instance decode_root_proper : Proper (map_eq ==> eq) decode_root.
Proof.
  intros m1 m2 Hm. unfold decode_root. cbv zeta.
  pose proof (id_proper _ _ Hm "device_id"%string _ eq_refl) as ->.
  pose proof (id_proper _ _ Hm "instance_id"%string _ eq_refl) as ->.
  rewrite (bad_interval_proper _ _ (Hm "interval_s"%string)), (infoFromMap_proper _ _ (Hm "system_info"%string)),
    (metricsFromMap_proper _ _ (Hm "metrics"%string)).
  accessors (Hm "version"%string). accessors (Hm "type"%string). accessors (Hm "display_name"%string).
  accessors (Hm "interval_s"%string). accessors (Hm "accepted"%string). accessors (Hm "reason"%string).
  accessors (Hm "sequence"%string). accessors (Hm "metrics"%string). done.
Qed.

(** ** Messages *)

Lemma id_reads m key u : valid_uuid u -> qvalue key m = QByteArray u -> id m key = Some u.
Proof.
  intros [Hl Hn] E. unfold id. rewrite E. cbn [isByteArray toByteArray negb orb]. rewrite Hl. cbn.
  by rewrite bool_decide_eq_false_2.
Qed.

Lemma bad_interval_reads z : 1 <= z <= 5 -> bad_interval (QInteger z) = false /\ toInteger (QInteger z) = z.
Proof.
  intros Hz. unfold bad_interval. cbn [isInteger toInteger]. rewrite i64_wire by (unfold wire_int, int64_max; lia).
  by rewrite !(proj2 (Z.ltb_ge _ _)) by lia.
Qed.

Lemma validText_le s limit : validText s limit = true -> s <> ""%string /\ size s <= limit.
Proof. unfold validText. intros [H1%negb_true_iff%String.eqb_neq H2%Z.leb_le]%andb_true_iff. done. Qed.

Ltac root_field key value := 
  match goal with |- context [qvalue key ?m] =>
    let E := fresh in assert (E : qvalue key m = value) by qlook; rewrite E; clear E end.

Section decode_root.
Context (T : string -> Prop) (D : double -> Prop).

Lemma decode_root_hello h :
valid_message T D (MHello h) -> decode_root (hello_map h) = inr (MHello h).
Proof.
unfold decode_root. cbv zeta. cbn [valid_message].
intros (Hd & Hi & [Hn _] & Hs & Hinfo). unfold hello_map, envelope.
root_field "version"%string (QInteger telemetry_protocol_version).
root_field "type"%string (QString "hello").
rewrite (id_reads _ "device_id" (h_device_id h)), (id_reads _ "instance_id" (h_instance_id h)) by (done || qlook).
root_field "display_name"%string (QString (h_display_name h)).
root_field "interval_s"%string (QInteger (h_interval_seconds h)).
root_field "system_info"%string (QMap (infoToMap (h_system_info h))).
rewrite (infoFromMap_infoToMap T) by done.
destruct (bad_interval_reads _ Hs) as [-> ->]. cbn [toQString isString]. rewrite Hn. by destruct h.
Qed.

Lemma decode_root_registration r :
valid_message T D (MRegistrationResult r) -> decode_root (registration_map r) = inr (MRegistrationResult r).
Proof.
unfold decode_root. cbv zeta. cbn [valid_message].
intros (Hd & Hi & Hr & _). unfold registration_map, envelope.
assert (Hre : size (r_reason r) <= 64) by done.
destruct (String.eqb_spec (r_reason r) "") as [E|E].
+ root_field "version"%string (QInteger telemetry_protocol_version).
  root_field "type"%string (QString "registration_result").
  rewrite (id_reads _ "device_id" (r_device_id r)), (id_reads _ "instance_id" (r_instance_id r)) by (done || qlook).
  root_field "accepted"%string (QBool (r_accepted r)). root_field "reason"%string QUndefined.
  destruct r; cbn in *; by subst.
+ root_field "version"%string (QInteger telemetry_protocol_version).
  root_field "type"%string (QString "registration_result").
  rewrite (id_reads _ "device_id" (r_device_id r)), (id_reads _ "instance_id" (r_instance_id r)) by (done || qlook).
  root_field "accepted"%string (QBool (r_accepted r)). root_field "reason"%string (QString (r_reason r)).
  cbn [isUndefined isString toQString isBool negb orb andb].
  rewrite (proj2 (Z.ltb_ge _ _)) by done. by destruct r.
Qed.

Lemma decode_root_snapshot s :
valid_message T D (MDeviceSnapshot s) -> decode_root (snapshot_map s) = inr (MDeviceSnapshot s).
Proof.
unfold decode_root. cbv zeta. cbn [valid_message].
intros (Hd & Hi & Hs & Hq & Hinfo & Hm). unfold snapshot_map, envelope.
rewrite (i64_wire _ Hq).
destruct (bad_interval_reads _ Hs) as [Hb1 Hb2].
destruct (s_metrics s) as [metrics|] eqn:Em; cbn [opt] in Hm.
+ root_field "version"%string (QInteger telemetry_protocol_version).
  root_field "type"%string (QString "snapshot").
  rewrite (id_reads _ "device_id" (s_device_id s)), (id_reads _ "instance_id" (s_instance_id s)) by (done || qlook).
  root_field "interval_s"%string (QInteger (s_interval_seconds s)).
  root_field "sequence"%string (QInteger (s_sequence s)).
  root_field "system_info"%string (QMap (infoToMap (s_system_info s))).
  root_field "metrics"%string (QMap (metricsToMap metrics)).
  rewrite (infoFromMap_infoToMap T), (metricsFromMap_metricsToMap T D) by done.
  rewrite Hb1, Hb2. cbn [toQString isString toInteger isInteger]. rewrite (i64_wire _ Hq).
  rewrite (proj2 (Z.ltb_ge (s_sequence s) 0)) by apply Hq. destruct s; cbn in *. by subst.
+ root_field "version"%string (QInteger telemetry_protocol_version).
  root_field "type"%string (QString "snapshot").
  rewrite (id_reads _ "device_id" (s_device_id s)), (id_reads _ "instance_id" (s_instance_id s)) by (done || qlook).
  root_field "interval_s"%string (QInteger (s_interval_seconds s)).
  root_field "sequence"%string (QInteger (s_sequence s)).
  root_field "system_info"%string (QMap (infoToMap (s_system_info s))).
  root_field "metrics"%string QUndefined.
  rewrite (infoFromMap_infoToMap T) by done.
  rewrite Hb1, Hb2. cbn [toQString isString toInteger isInteger]. rewrite (i64_wire _ Hq).
  rewrite (proj2 (Z.ltb_ge (s_sequence s) 0)) by apply Hq. destruct s; cbn in *. by subst.
Qed.

Lemma decode_root_message message :
valid_message T D message -> decode_root (message_map message) = inr message.
Proof.
destruct message; [apply decode_root_hello|apply decode_root_registration|apply decode_root_snapshot].
Qed.
End decode_root.
