(* ===== verification/SnapshotWire.v ===== *)
(** * Telemetry messages as datagrams

    The byte-level theorems of the codec: what [encodeMessage] writes,
    [decodeMessage] reads back; what [decodeMessage] accepts is valid.  They hold for
    every [QtCodec]. *)

From S2P Require Import Prelude.
From S2P Require Import Std.
From S2P Require Import Float64.
From S2P Require Import Cbor.
From S2P Require Import DaemonText.
From S2P Require Import QtCbor.
From S2P Require Import Protocol.
From S2P Require Import DeviceSnapshot.
From S2P Require Import SnapshotCodec.

Definition binary64 (d : double) : Prop := valid64 d = true.

(** A message the program can hold: valid, its texts UTF-8 and its numbers doubles. *)
Abbreviation sendable := (valid_message rfc3629 binary64).

(** ** Texts *)

Lemma rfc3629_ascii s : str_forall (fun c => char_val c <? 128) s = true -> rfc3629 s.
Proof.
  induction s as [|c s IH]; cbn [str_forall]; [by exists []|]. intros H. bool_facts.
  destruct (IH H0) as (cps & Hcps & ->). exists (char_val c :: cps).
  pose proof (char_val_range c). split; [constructor; [|done]|].
  - split; lia.
  - unfold utf8_text. cbn [foldr]. unfold utf8_encode. rewrite (proj2 (Z.ltb_lt _ 128)) by done.
    by rewrite char_of_val.
Qed.

Lemma text_ok_ascii s :
  str_forall (fun c => char_val c <? 128) s = true -> size s <= uint64_max -> text_ok s.
Proof. split; [by apply rfc3629_ascii|done]. Qed.

Lemma text_ok_valid s limit : limit <= 256 -> validText s limit = true -> rfc3629 s -> text_ok s.
Proof. intros ? [_ ?]%validText_le ?. split; [done|]. unfold uint64_max. lia. Qed.

(** ** What is written is writable *)

(** A map of at most [c] entries with writable values of depth [n]. *)
Definition map_ok (n c : nat) (m : qmap) : Prop :=
  NoDup (map fst m) /\
  Forall (fun kv => (exists k, kv.1 = QString k /\ text_ok k) /\ writable n kv.2) m /\
  (length m <= c)%nat.

Lemma map_ok_nil n : map_ok n 0 [].
Proof. repeat split; constructor. Qed.

Lemma qinsert_keys key v (m : qmap) k :
  k ∈ map fst (qinsert key v m) -> k = QString key \/ k ∈ map fst m.
Proof.
  induction m as [|[j w] m IH]; cbn [qinsert map fst].
  - intros [->|[]%not_elem_of_nil]%elem_of_cons. by left.
  - destruct j; cbn [map fst]; rewrite ?elem_of_cons; try (intros [?|?]; [auto|destruct IH; auto]; fail).
    case_if; cbn [map fst]; rewrite ?elem_of_cons; [tauto|]. intros [?|?]; [auto|destruct IH; auto].
Qed.

Lemma map_ok_insert n c key v m :
  text_ok key -> writable n v -> map_ok n c m -> map_ok n (S c) (qinsert key v m).
Proof.
  intros Hk Hv (Hnd & Hf & Hl). revert c Hl.
  induction Hf as [|[j w] m [(k & Hj & Hkt) Hw] Hf IH]; intros c Hl; cbn [qinsert].
  { split; [|split]; cbn; [repeat constructor; apply not_elem_of_nil| |lia].
    constructor; [|constructor]. split; [by exists key|done]. }
  cbn in Hj. subst j. cbn [map fst] in Hnd. apply NoDup_cons in Hnd as [Hni Hnd].
  cbn [length] in Hl. destruct c as [|c]; [lia|].
  destruct (String.eqb_spec key k) as [->|Hne].
  - split; [cbn; by constructor|]. split; [|cbn; lia].
    constructor; [|done]. split; [by exists k|done].
  - destruct (IH Hnd c ltac:(lia)) as (Hnd' & Hf' & Hl'). split; [|split; [|cbn; lia]].
    + cbn [map fst]. constructor; [|done]. intros [[= ->]|?]%qinsert_keys; done.
    + constructor; [|done]. split; [by exists k|done].
Qed.

Lemma writable_map n c m : map_ok n c m -> Z.of_nat c <= uint64_max -> writable (S n) (QMap m).
Proof. intros (Hnd & Hf & Hl) Hc. split; [unfold len; lia|done]. Qed.

Section add_ok.
Context (n c : nat) (key : string) (m : qmap) (Hkey : text_ok key) (Hm : map_ok (S n) c m).

Lemma map_ok_weaken c' : (c <= c')%nat -> map_ok (S n) c' m.
Proof. destruct Hm as (? & ? & ?). repeat split; auto; lia. Qed.

Lemma map_ok_text o : opt (valid_text rfc3629) o -> map_ok (S n) (S c) (add_text key o m).
Proof.
  destruct o as [s|]; cbn; [|intros; apply map_ok_weaken; lia]. intros [Hs Hr].
  apply map_ok_insert; [done| |done]. by eapply text_ok_valid.
Qed.

Lemma map_ok_u64 o : opt wire_int o -> map_ok (S n) (S c) (add_u64 key o m).
Proof.
  destruct o as [z|]; cbn; [|intros; apply map_ok_weaken; lia]. intros Hz.
  unfold maxInteger. rewrite (proj2 (Z.leb_le _ _)) by apply Hz. by apply map_ok_insert.
Qed.

Lemma map_ok_u32 o : opt (fun z => 0 <= z <= uint32_max) o -> map_ok (S n) (S c) (add_u32 key o m).
Proof.
  destruct o as [z|]; cbn; [|intros; apply map_ok_weaken; lia]. intros Hz.
  apply map_ok_insert; [done| |done]. cbn. unfold uint32_max, int64_max in *. lia.
Qed.

Lemma map_ok_number o : opt (valid_number binary64) o -> map_ok (S n) (S c) (add_double key o m).
Proof.
  destruct o as [d|]; cbn; [|intros; apply map_ok_weaken; lia]. intros [_ Hd]. by apply map_ok_insert.
Qed.

Lemma map_ok_ratio o : opt (valid_ratio binary64) o -> map_ok (S n) (S c) (add_double key o m).
Proof.
  destruct o as [d|]; cbn; [|intros; apply map_ok_weaken; lia]. intros (_ & _ & _ & Hd).
  by apply map_ok_insert.
Qed.

Lemma map_ok_group c' g :
  map_ok n c' g -> Z.of_nat c' <= uint64_max -> map_ok (S n) (S c) (add_group key g m).
Proof.
  intros Hg Hc'. destruct g as [|e g]; [apply map_ok_weaken; lia|]. apply map_ok_insert; [done| |done].
  by eapply writable_map.
Qed.
End add_ok.

Lemma map_ok_list {E} (P : E -> Prop) (name : E -> string) (to_map : E -> qmap) n c c' key limit (l : list E) m :
  (forall e, P e -> map_ok n c' (to_map e)) -> Z.of_nat c' <= uint64_max -> limit <= uint64_max ->
  text_ok key -> valid_list P name limit l -> map_ok (S (S n)) c m ->
  map_ok (S (S n)) (S c) (add_list key (map to_map l) m).
Proof.
  intros Hto Hc' Hlim Hkey (Hv & _ & Hl) Hm.
  destruct l as [|e l]; [by apply map_ok_weaken with c; [|lia]|].
  cbn [map add_list]. apply map_ok_insert; [done| |done].
  change (QMap (to_map e) :: map QMap (map to_map l)) with (map QMap (map to_map (e :: l))).
  cbn [writable]. unfold len in *. rewrite !length_map. split; [lia|].
  rewrite map_map. apply Forall_fmap. eapply Forall_impl; [exact Hv|].
  intros x Hx. eapply writable_map; [by apply Hto|done].
Qed.

(** The text of a key of the protocol. *)
Ltac key_ok := apply text_ok_ascii; [reflexivity|vm_compute; discriminate].

(** Go through a chain of insertions. *)
Ltac chain :=
  repeat first
    [ apply map_ok_nil
    | apply map_ok_text; [key_ok| |assumption] | apply map_ok_u64; [key_ok| |assumption]
    | apply map_ok_u32; [key_ok| |assumption] | apply map_ok_ratio; [key_ok| |assumption]
    | apply map_ok_number; [key_ok| |assumption]
    | apply map_ok_insert; [key_ok|assumption|] ].

Lemma host_map_ok n h : opt (valid_text rfc3629) (host_name h) -> map_ok (S n) 1 (host_map h).
Proof. intros. unfold host_map. chain. Qed.

Lemma os_map_ok n o :
  opt (valid_text rfc3629) (os_family o) -> opt (valid_text rfc3629) (os_id o) ->
  opt (valid_text rfc3629) (os_version o) -> opt (valid_text rfc3629) (os_pretty_name o) ->
  map_ok (S n) 4 (os_map o).
Proof. intros. unfold os_map. chain. Qed.

Lemma kernel_map_ok n k :
  opt (valid_text rfc3629) (kernel_type k) -> opt (valid_text rfc3629) (kernel_version k) ->
  map_ok (S n) 2 (kernel_map k).
Proof. intros. unfold kernel_map. chain. Qed.

Lemma hardware_map_ok n h :
  opt (valid_text rfc3629) (manufacturer h) -> opt (valid_text rfc3629) (hw_model h) ->
  opt (valid_text rfc3629) (board_revision h) ->
  opt (fun ids => Forall (valid_text rfc3629) ids /\ NoDup ids /\ len ids <= 32) (compatible_ids h) ->
  map_ok (S (S n)) 4 (hardware_map h).
Proof.
  intros H1 H2 H3 H4. unfold hardware_map.
  assert (Hb : map_ok (S (S n)) 3 (add_text "board_revision" (board_revision h)
    (add_text "model" (hw_model h) (add_text "manufacturer" (manufacturer h) [])))) by chain.
  destruct (compatible_ids h) as [ids|]; cbn [add_ids]; [|apply (map_ok_weaken _ 3); [exact Hb|lia]].
  apply map_ok_insert; [key_ok| |exact Hb]. destruct H4 as (Hv & _ & Hl).
  cbn [writable]. unfold len in *. rewrite length_map. split; [unfold uint64_max; lia|].
  apply Forall_fmap. eapply Forall_impl; [exact Hv|]. intros s [Hs Hr]. by eapply text_ok_valid.
Qed.

Lemma cpu_map_ok n c :
  opt (valid_text rfc3629) (architecture c) -> opt (valid_text rfc3629) (vendor c) ->
  opt (valid_text rfc3629) (cpu_model c) ->
  opt (fun z => 0 <= z <= uint32_max) (logical_cpu_count c) ->
  opt (fun z => 0 <= z <= uint32_max) (physical_core_count c) -> map_ok (S n) 5 (cpu_map c).
Proof. intros. unfold cpu_map. chain. Qed.

Lemma infoToMap_ok n i : valid_info rfc3629 i -> map_ok (S (S (S n))) 6 (infoToMap i).
Proof.
  intros [Hh (Ho1 & Ho2 & Ho3 & Ho4) (Hk1 & Hk2) (Hw1 & Hw2 & Hw3) Hids (Hc1 & Hc2 & Hc3) Hl Hp Ht _].
  assert (Hl32 : opt (fun n => 0 <= n <= uint32_max) (logical_cpu_count (info_cpu i))).
  { destruct (logical_cpu_count (info_cpu i)); [|done]. cbn in *. unfold uint32_max. lia. }
  unfold infoToMap.
  apply map_ok_group with 1%nat; [key_ok| |unfold memory_map; chain|unfold uint64_max; lia].
  apply map_ok_group with 5%nat; [key_ok| |by apply cpu_map_ok|unfold uint64_max; lia].
  apply map_ok_group with 4%nat; [key_ok| |by apply hardware_map_ok|unfold uint64_max; lia].
  apply map_ok_group with 2%nat; [key_ok| |by apply kernel_map_ok|unfold uint64_max; lia].
  apply map_ok_group with 4%nat; [key_ok| |by apply os_map_ok|unfold uint64_max; lia].
  apply map_ok_group with 1%nat; [key_ok| |by apply host_map_ok|unfold uint64_max; lia].
  apply map_ok_nil.
Qed.

(** *** Metrics *)

Ltac named_text H := eapply text_ok_valid; [|exact (proj1 H)|exact (proj2 H)]; lia.

Lemma logical_cpu_map_ok n c : valid_logical_cpu rfc3629 binary64 c -> map_ok (S n) 3 (logical_cpu_map c).
Proof.
  intros (Hn & Hu & Hf). unfold logical_cpu_map. chain.
  apply map_ok_insert; [key_ok|named_text Hn|apply map_ok_nil].
Qed.

Lemma storage_map_ok n v : valid_storage rfc3629 v -> map_ok (S n) 6 (storage_map v).
Proof.
  intros (Hm & Hd & Ht & Ha). unfold storage_map. chain.
  apply map_ok_insert; [key_ok|done|]. apply map_ok_insert; [key_ok|done|].
  apply map_ok_insert; [key_ok|named_text Hd|].
  apply map_ok_insert; [key_ok|named_text Hm|apply map_ok_nil].
Qed.

Lemma network_map_ok n v : valid_network rfc3629 binary64 v -> map_ok (S n) 5 (network_map v).
Proof.
  intros (Hn & Hr & Ht & Hrs & Hts). unfold network_map. chain.
  apply map_ok_insert; [key_ok|named_text Hn|apply map_ok_nil].
Qed.

Lemma gpu_map_ok n g : valid_gpu rfc3629 binary64 g -> map_ok (S n) 7 (gpu_map g).
Proof.
  intros (Hn & Hu & Hmt & Hmu & Hc & Hm & Ht). unfold gpu_map. chain.
  apply map_ok_insert; [key_ok|named_text Hn|apply map_ok_nil].
Qed.

Ltac small := unfold uint64_max; lia.

Lemma metricsToMap_ok n m :
  valid_metrics rfc3629 binary64 m -> map_ok (S (S (S (S n)))) 6 (metricsToMap m).
Proof.
  intros [Hu Ht Hc (Hm1 & Hm2 & Hm3 & Hm4) (Hs1 & Hs2 & Hs3 & Hs4) Hst Hn Hg _].
  unfold metricsToMap.
  eapply (map_ok_list _ gpu_name gpu_map _ _ 7 _ 16); [apply gpu_map_ok|small|small|key_ok|exact Hg|].
  eapply (map_ok_list _ ni_name network_map _ _ 5 _ 64); [apply network_map_ok|small|small|key_ok|exact Hn|].
  eapply (map_ok_list _ mount_point storage_map _ _ 6 _ 64); [apply storage_map_ok|small|small|key_ok|exact Hst|].
  apply map_ok_group with 4%nat; [key_ok| |unfold metrics_system_map; chain|small].
  apply map_ok_group with 4%nat; [key_ok| |unfold metrics_memory_map; chain|small].
  apply map_ok_group with 3%nat; [key_ok|apply map_ok_nil| |small].
  unfold metrics_cpu_map.
  eapply (map_ok_list _ lc_name logical_cpu_map _ _ 3 _ 256); [apply logical_cpu_map_ok|small|small|key_ok|exact Hc|].
  chain.
Qed.

(** *** Messages *)

Lemma envelope_ok n type device instance :
  text_ok type -> valid_uuid device -> valid_uuid instance ->
  map_ok (S n) 4 (envelope type device instance).
Proof.
  intros Ht [Hd _] [Hi _]. unfold envelope.
  apply map_ok_insert; [key_ok|cbn; unfold telemetry_protocol_version, int64_max; lia|].
  apply map_ok_insert; [key_ok|exact Ht|].
  apply map_ok_insert; [key_ok|cbn; rewrite Hi; small|].
  apply map_ok_insert; [key_ok|cbn; rewrite Hd; small|apply map_ok_nil].
Qed.

Lemma interval_writable n z : 1 <= z <= 5 -> writable (S n) (QInteger z).
Proof. intros. cbn. unfold int64_max. lia. Qed.

(** Message maps are nested at most six deep. *)
Lemma message_map_ok message : sendable message -> map_ok 5 8 (message_map message).
Proof.
  destruct message as [h|r|s]; cbn [valid_message message_map].
  - intros (Hd & Hi & [Hn Hr] & Hs & Hinfo). apply map_ok_weaken with 7%nat; [|lia]. unfold hello_map.
    apply map_ok_insert; [key_ok|eapply writable_map; [by apply infoToMap_ok|small]|].
    apply map_ok_insert; [key_ok|by apply interval_writable|].
    apply map_ok_insert; [key_ok|eapply text_ok_valid; [|exact Hn|exact Hr]; lia|].
    apply envelope_ok; [key_ok|done|done].
  - intros (Hd & Hi & Hl & Hr). unfold registration_map.
    assert (Hm : map_ok 5 5 (qinsert "accepted" (QBool (r_accepted r))
                   (envelope "registration_result" (r_device_id r) (r_instance_id r)))).
    { apply map_ok_insert; [key_ok|done|]. apply envelope_ok; [key_ok|done|done]. }
    case_if; [apply map_ok_weaken with 5%nat; [exact Hm|lia]|].
    apply map_ok_weaken with 6%nat; [|lia]. apply map_ok_insert; [key_ok| |exact Hm].
    cbn. split; [exact Hr|small].
  - intros (Hd & Hi & Hs & Hq & Hinfo & Hm). unfold snapshot_map. rewrite (i64_wire _ Hq).
    set (m := qinsert "system_info" _ _).
    assert (Hok : map_ok 5 7 m).
    { unfold m. apply map_ok_insert; [key_ok|eapply writable_map; [by apply infoToMap_ok|small]|].
      apply map_ok_insert; [key_ok|exact Hq|].
      apply map_ok_insert; [key_ok|by apply interval_writable|].
      apply envelope_ok; [key_ok|done|done]. }
    destruct (s_metrics s) as [metrics|]; [|apply map_ok_weaken with 7%nat; [exact Hok|lia]].
    apply map_ok_insert; [key_ok| |exact Hok]. eapply writable_map; [by apply metricsToMap_ok|small].
Qed.

(** ** The theorems *)

Section wire.
Context `{QtCodec}.

(** A map comes back as a map with the same lookups. *)
Lemma fromCbor_toCbor_map n m :
  (n <= qt_depth)%nat -> writable n (QMap m) ->
  exists m', fromCbor (toCbor (QMap m)) = Some (QMap m') /\ map_eq m' m.
Proof.
  intros Hn Hw. destruct (fromCbor_toCbor n _ Hn Hw) as (q & E & Hq).
  inversion Hq; subst; [exists m; split; [done|reflexivity]|]. eauto.
Qed.

Lemma toCbor_nonempty n q : writable n q -> len (toCbor q) <> 0.
Proof.
  intros Hw. destruct (toCbor_writes n q Hw) as (v & Hv & _).
  destruct (toCbor q); [done|]. unfold len. simpl. lia.
Qed.

Lemma decodeSystemInfo_encode info : valid_info rfc3629 info -> decodeSystemInfo (encodeSystemInfo info) = Some info.
Proof.
  intros Hvalid. unfold decodeSystemInfo, encodeSystemInfo.
  destruct (fromCbor_toCbor_map 4 (infoToMap info)) as (m' & -> & Hm); [unfold qt_depth; lia| |].
  { eapply writable_map; [by apply infoToMap_ok|small]. }
  cbn [mbind option_bind]. rewrite (infoFromMap_proper (QMap m') (QMap (infoToMap info))) by by apply qeq_map.
  by eapply infoFromMap_infoToMap.
Qed.

(** C4. Everything a valid message says survives the wire: when its encoding fits a
    datagram, [decodeMessage] reads back exactly the message [encodeMessage] wrote. *)
Theorem message_roundtrip message
  (Hvalid : sendable message) (Hsize : len (encodeMessage message) <= maximum_datagram_size) :
  decodeMessage (encodeMessage message) = inr message.
Proof.
  assert (Hw : writable 6 (QMap (message_map message))).
  { eapply writable_map; [by apply message_map_ok|small]. }
  unfold decodeMessage, encodeMessage in *.
  rewrite (proj2 (Z.eqb_neq _ _)) by by eapply toCbor_nonempty.
  rewrite (proj2 (Z.ltb_ge _ _)) by done. cbn [orb].
  destruct (fromCbor_toCbor_map 6 (message_map message)) as (m' & -> & Hm); [unfold qt_depth; lia|done|].
  rewrite (decode_root_proper _ _ Hm). by eapply decode_root_message.
Qed.

(** C7. Whatever datagram arrives, a message [decodeMessage] returns is valid: ids not
    null, texts non-empty and bounded, interval and counts in range, ratios within
    [0, 1], list lengths bounded, no name twice, nothing available beyond its total. *)
Theorem decodeMessage_sound bytes message
  (Hdecode : decodeMessage bytes = inr message) :
  0 < len bytes <= maximum_datagram_size /\ valid_message any_text any_double message.
Proof.
  unfold decodeMessage in Hdecode. destruct (_ || _) eqn:E; [done|].
  apply orb_false_iff in E as [E1 E2]. bool_facts. split; [unfold len in *; lia|].
  destruct (fromCbor bytes) as [[| | | | | | |root|]|]; try done. by eapply decode_root_sound.
Qed.

(** A cached report reads back: [decodeSystemInfo] inverts [encodeSystemInfo]. *)
Theorem systemInfo_roundtrip info (Hvalid : valid_info rfc3629 info) :
  decodeSystemInfo (encodeSystemInfo info) = Some info.
Proof. by apply decodeSystemInfo_encode. Qed.
End wire.

(** ** Witnesses *)

Definition sample_info : SystemInfo :=
  {| info_host := {| host_name := Some "pi-five"%string |};
     info_os := {| os_family := None; os_id := None; os_version := None;
                   os_pretty_name := Some "Raspberry Pi OS"%string |};
     info_kernel := {| kernel_type := None; kernel_version := None |};
     info_hardware := {| manufacturer := None; hw_model := None; board_revision := None;
                         compatible_ids := Some ["raspberrypi,5-model-b"%string] |};
     info_cpu := {| architecture := None; vendor := None; cpu_model := None;
                    logical_cpu_count := Some 4; physical_core_count := None |};
     info_memory := {| info_total_bytes := Some 8000000000 |} |}.

Definition half : double := S754_finite false 4503599627370496 (-53).

Definition sample_metrics : SystemMetrics :=
  {| m_cpu := {| usage_ratio := Some half;
                 logical_cpus := [{| lc_name := "cpu0"; lc_usage_ratio := Some half; lc_frequency_hz := Some 2400000000 |}];
                 temperature_celsius := None |};
     m_memory := {| total_bytes := Some 1000; available_bytes := Some 400; swap_total_bytes := None;
                    swap_available_bytes := None |};
     m_system := {| uptime_seconds := Some d1; load_average_1m := None; load_average_5m := None;
                    load_average_15m := None |};
     storage_volumes := [{| mount_point := "/"; device_name := "/dev/root"; primary := true; read_only := false;
                            sv_total_bytes := Some 100; sv_available_bytes := Some 20 |}];
     network_interfaces := [{| ni_name := "eth0"; rx_bytes := Some 10; tx_bytes := Some 20;
                               rx_bytes_per_second := Some d1; tx_bytes_per_second := None |}];
     gpus := [{| gpu_name := "v3d"; gpu_usage_ratio := Some half; memory_total_bytes := Some 100;
                 memory_used_bytes := Some 30; core_clock_hz := Some 1000; memory_clock_hz := None;
                 gpu_temperature_celsius := None |}] |}.

Definition sample_snapshot : TelemetryMessage :=
  MDeviceSnapshot {| s_device_id := be_bytes 16 7; s_instance_id := be_bytes 16 9; s_interval_seconds := 1;
    s_sequence := 9; s_system_info := sample_info; s_metrics := Some sample_metrics |}.

Ltac concrete :=
  repeat first
    [ exact I | split | apply rfc3629_ascii; reflexivity | reflexivity | discriminate
    | constructor | by_decision ].

Lemma sample_info_valid : valid_info rfc3629 sample_info.
Proof. concrete. Qed.

Lemma sample_snapshot_valid : sendable sample_snapshot.
Proof. split; [by_decision|]. concrete. Qed.

Lemma message_roundtrip_witness :
  len (@encodeMessage reference_codec sample_snapshot) <= maximum_datagram_size /\
  @decodeMessage reference_codec (@encodeMessage reference_codec sample_snapshot) = inr sample_snapshot.
Proof.
  split; [by_decision|]. apply (@message_roundtrip reference_codec sample_snapshot).
  - exact sample_snapshot_valid.
  - by_decision.
Defined.

Lemma decodeMessage_sound_witness :
  valid_message any_text any_double sample_snapshot.
Proof.
  apply (@decodeMessage_sound reference_codec (@encodeMessage reference_codec sample_snapshot) sample_snapshot).
  vm_compute. reflexivity.
Defined.

Lemma systemInfo_roundtrip_witness :
  @decodeSystemInfo reference_codec (@encodeSystemInfo reference_codec sample_info) = Some sample_info.
Proof. apply (@systemInfo_roundtrip reference_codec sample_info). exact sample_info_valid. Defined.
