(* ===== verification/Registry.v ===== *)
(** * The registry of remote devices (src/telemetry/remote_device_registry.cpp)

    The object's fields are the record [Registry]; each member function is a function
    of it that also returns the signals it emits, in order.  The clock, the wall clock
    and the outcome of writing the storage file are arguments. *)

From S2P Require Import Prelude.
From S2P Require Import Std.
From S2P Require Import Float64.
From S2P Require Import Cbor.
From S2P Require Import DaemonText.
From S2P Require Import QtCbor.
From S2P Require Import Protocol.
From S2P Require Import DeviceSnapshot.

Inductive State := Registered | Online | Stale | Offline.
#[export] Instance State_eq_dec : EqDecision State. Proof. solve_decision. Defined.

(** [QHostAddress]; [None] is the null address. *)
Abbreviation QHostAddress := (option string).

Record Device := {
  device_id : QUuid;
  display_name : string;
  interval_seconds : Z;
  system_info : SystemInfo;
  metrics : option SystemMetrics;
  state : State;
  instance_id : QUuid;
  address : QHostAddress;
  port : Z;
  last_sequence : option Z;
  last_snapshot_ms : Z;
  last_snapshot_utc : option Z }.

#[export] Instance Device_eq_dec : EqDecision Device. Proof. solve_decision. Defined.

Inductive signal :=
| deviceChanged (id : QUuid) | deviceAboutToBeAdded (index : nat) | deviceAdded
| deviceAboutToBeRemoved (index : nat) | deviceRemoved | devicesChanged | diagnosticChanged.

#[export] Instance signal_eq_dec : EqDecision signal. Proof. solve_decision. Defined.

Record Registry := {
  devices : list Device;
  diagnostic : string;
  storage : option (list byte) }.   (* the file at storage_path_ *)

Definition maximumDevices : Z := 64.

(** [now(supplied)], with [elapsed] the value of [clock_.elapsed()]. *)
Definition now (elapsed supplied : Z) : Z := if 0 <=? supplied then supplied else elapsed.

Definition with_devices (ds : list Device) (r : Registry) : Registry :=
  {| devices := ds; diagnostic := diagnostic r; storage := storage r |}.

Definition find_device (id : QUuid) (ds : list Device) : option (nat * Device) :=
  list_find (fun d => device_id d = id) ds.

Definition device (id : QUuid) (r : Registry) : option Device := snd <$> find_device id (devices r).

(** ** updateFreshness *)

Definition next_state (current : Z) (item : Device) : State :=
  let age := current - last_snapshot_ms item in
  if interval_seconds item * 10000 <=? age then Offline
  else if interval_seconds item * 3000 <=? age then Stale
  else Online.

Definition with_state (s : State) (d : Device) : Device :=
  {| device_id := device_id d; display_name := display_name d; interval_seconds := interval_seconds d;
     system_info := system_info d; metrics := metrics d; state := s; instance_id := instance_id d;
     address := address d; port := port d; last_sequence := last_sequence d;
     last_snapshot_ms := last_snapshot_ms d; last_snapshot_utc := last_snapshot_utc d |}.

Definition freshen (current : Z) (item : Device) : Device :=
  if last_snapshot_ms item <? 0 then item else with_state (next_state current item) item.

Definition freshness_signals (current : Z) (ds : list Device) : list signal :=
  map (fun d => deviceChanged (device_id d))
    (filter (fun d => state (freshen current d) <> state d) ds).

Definition updateFreshness (elapsed now_ms : Z) (r : Registry) : Registry * list signal :=
  let current := now elapsed now_ms in
  (with_devices (map (freshen current) (devices r)) r, freshness_signals current (devices r)).

Section storage.
Context `{QtCodec}.

(** ** persist and load *)

Definition entry_map (item : Device) : qmap :=
  qinsert "system_info" (QByteArray (encodeSystemInfo (system_info item)))
    (qinsert "interval_s" (QInteger (interval_seconds item))
      (qinsert "display_name" (QString (display_name item))
        (qinsert "device_id" (QByteArray (device_id item)) []))).

Definition registry_bytes (ds : list Device) : list byte :=
  toCbor (QMap (qinsert "version" (QInteger 1)
    (qinsert "devices" (QArray (map (fun d => QMap (entry_map d)) ds)) []))).

(** [saved]: the [QSaveFile] opened, took all bytes and committed. *)
Definition persist (saved : bool) (r : Registry) : Registry * list signal :=
  if saved
  then ({| devices := devices r; diagnostic := diagnostic r; storage := Some (registry_bytes (devices r)) |}, [])
  else ({| devices := devices r; diagnostic := "Unable to persist remote device registry";
           storage := storage r |}, [diagnosticChanged]).

(** A device as [load] creates it. *)
Definition loaded_device (id : QUuid) (name : string) (interval : Z) (info : SystemInfo) : Device :=
  {| device_id := id; display_name := name; interval_seconds := interval; system_info := info;
     metrics := None; state := Offline; instance_id := null_uuid; address := None; port := 0;
     last_sequence := None; last_snapshot_ms := -1; last_snapshot_utc := None |}.

Fixpoint load_entries (raws : list qcbor) (seen : gset QUuid) : option (list Device) :=
  match raws with
  | [] => Some []
  | value :: rs =>
      if negb (isMap value) then None
      else
        let entry := toMap value in
        let idBytes := qvalue "device_id" entry in
        let name := qvalue "display_name" entry in
        let interval := qvalue "interval_s" entry in
        let infoBytes := qvalue "system_info" entry in
        if negb (isByteArray idBytes) || negb (len (toByteArray idBytes) =? 16) || negb (isString name)
           || String.eqb (toQString name) "" || (128 <? size (toQString name)) || bad_interval interval
           || negb (isByteArray infoBytes)
        then None
        else
          let id := toByteArray idBytes in
          match decodeSystemInfo (toByteArray infoBytes) with
          | None => None
          | Some info =>
              if bool_decide (id = null_uuid) || bool_decide (id ∈ seen) then None
              else cons (loaded_device id (toQString name) (toInteger interval) info)
                   <$> load_entries rs ({[id]} ∪ seen)
          end
  end.

(** What the bytes of the file denote; [None] is [fail()]. *)
Definition load_bytes (bytes : list byte) : option (list Device) :=
  match fromCbor bytes with
  | Some (QMap map) =>
      let version := qvalue "version" map in
      let raw := qvalue "devices" map in
      if negb (isInteger version) || negb (toInteger version =? 1) || negb (isArray raw)
         || (maximumDevices <? len (toArray raw)) then None
      else load_entries (toArray raw) ∅
  | _ => None
  end.

(** The constructor's [load()], on an empty registry. *)
Definition load (can_open : bool) (file : option (list byte)) : Registry * list signal :=
  match file with
  | None => ({| devices := []; diagnostic := ""; storage := file |}, [])
  | Some bytes =>
      if negb can_open
      then ({| devices := []; diagnostic := "Unable to read remote device registry"; storage := file |},
            [diagnosticChanged])
      else match load_bytes bytes with
           | None => ({| devices := []; diagnostic := "Remote device registry is corrupt"; storage := file |},
                      [diagnosticChanged])
           | Some ds => ({| devices := ds; diagnostic := ""; storage := file |}, [])
           end
  end.

(** ** registerHello *)

Definition new_device (hello : Hello) (addr : QHostAddress) (p : Z) : Device :=
  {| device_id := h_device_id hello; display_name := h_display_name hello;
     interval_seconds := h_interval_seconds hello; system_info := h_system_info hello; metrics := None;
     state := Registered; instance_id := h_instance_id hello; address := addr; port := p;
     last_sequence := None; last_snapshot_ms := -1; last_snapshot_utc := None |}.

(** The assignments to a known device. *)
Definition update_device (hello : Hello) (addr : QHostAddress) (p : Z) (item : Device) : Device :=
  if bool_decide (instance_id item = h_instance_id hello) then
    {| device_id := device_id item; display_name := h_display_name hello;
       interval_seconds := h_interval_seconds hello; system_info := h_system_info hello;
       metrics := metrics item; state := state item; instance_id := instance_id item; address := addr;
       port := p; last_sequence := last_sequence item; last_snapshot_ms := last_snapshot_ms item;
       last_snapshot_utc := last_snapshot_utc item |}
  else
    {| device_id := device_id item; display_name := h_display_name hello;
       interval_seconds := h_interval_seconds hello; system_info := h_system_info hello;
       metrics := None; state := Registered; instance_id := h_instance_id hello; address := addr;
       port := p; last_sequence := None; last_snapshot_ms := -1;
       last_snapshot_utc := last_snapshot_utc item |}.

Definition is_duplicate (hello : Hello) (addr : QHostAddress) (item : Device) : bool :=
  negb (bool_decide (state item = Offline)) && negb (bool_decide (instance_id item = h_instance_id hello))
  && bool_decide (is_Some (address item)) && negb (bool_decide (address item = addr)).

(** Returns the reason of a rejection, empty when registered. *)
Definition registerHello (hello : Hello) (addr : QHostAddress) (p : Z) (elapsed now_ms : Z) (saved : bool)
    (r : Registry) : string * Registry * list signal :=
  let '(r0, s0) := updateFreshness elapsed now_ms r in
  match find_device (h_device_id hello) (devices r0) with
  | Some (index, item) =>
      if is_duplicate hello addr item then ("duplicate_device_id"%string, r0, s0)
      else
        let r1 := with_devices (<[index := update_device hello addr p item]> (devices r0)) r0 in
        let '(r2, s2) := persist saved r1 in
        (""%string, r2, s0 ++ s2 ++ [deviceChanged (device_id item)])
  | None =>
      if maximumDevices <=? len (devices r0) then ("registry_full"%string, r0, s0)
      else
        let r1 := with_devices (devices r0 ++ [new_device hello addr p]) r0 in
        let '(r2, s2) := persist saved r1 in
        (""%string, r2, s0 ++ [deviceAboutToBeAdded (length (devices r0))] ++ s2 ++ [deviceAdded; devicesChanged])
  end.

(** ** acceptSnapshot *)

Definition snapshot_matches (snapshot : DeviceSnapshot) (addr : QHostAddress) (p : Z) (item : Device) : bool :=
  bool_decide (instance_id item = s_instance_id snapshot) && bool_decide (address item = addr)
  && (port item =? p) && (interval_seconds item =? s_interval_seconds snapshot)
  && match last_sequence item with Some last => last <? s_sequence snapshot | None => true end.

Definition apply_snapshot (snapshot : DeviceSnapshot) (current utc : Z) (item : Device) : Device :=
  {| device_id := device_id item; display_name := display_name item; interval_seconds := interval_seconds item;
     system_info := s_system_info snapshot; metrics := s_metrics snapshot; state := Online;
     instance_id := instance_id item; address := address item; port := port item;
     last_sequence := Some (s_sequence snapshot); last_snapshot_ms := current; last_snapshot_utc := Some utc |}.

Definition acceptSnapshot (snapshot : DeviceSnapshot) (addr : QHostAddress) (p : Z) (elapsed now_ms utc : Z)
    (saved : bool) (r : Registry) : bool * Registry * list signal :=
  match find_device (s_device_id snapshot) (devices r) with
  | Some (index, item) =>
      if negb (snapshot_matches snapshot addr p item) then (false, r, [])
      else
        let r1 := with_devices (<[index := apply_snapshot snapshot (now elapsed now_ms) utc item]> (devices r)) r in
        let '(r2, s2) := persist saved r1 in
        (true, r2, s2 ++ [deviceChanged (device_id item)])
  | None => (false, r, [])
  end.

(** ** forgetDevice *)

Definition forgetDevice (id : QUuid) (saved : bool) (r : Registry) : bool * Registry * list signal :=
  match find_device id (devices r) with
  | Some (index, _) =>
      let '(r2, s2) := persist saved (with_devices (delete index (devices r)) r) in
      (true, r2, [deviceAboutToBeRemoved index] ++ s2 ++ [deviceRemoved; devicesChanged])
  | None => (false, r, [])
  end.
End storage.
