(* ===== verification/RegistryLaws.v ===== *)
(** * What the registry of remote devices promises

    The invariant of the registry and its preservation by every operation (a step
    relation with reachability), the functional behaviour of the operations on each
    branch, freshness, replay protection, and storage. *)

From S2P Require Import Prelude.
From S2P Require Import Std.
From S2P Require Import Float64.
From S2P Require Import Cbor.
From S2P Require Import DaemonText.
From S2P Require Import QtCbor.
From S2P Require Import Protocol.
From S2P Require Import DeviceSnapshot.
From S2P Require Import SnapshotCodec.
From S2P Require Import SnapshotWire.
From S2P Require Import Registry.

(** ** The invariant *)

Section inv.
Context (T : string -> Prop) (D : double -> Prop).

Record device_ok (d : Device) : Prop := {
  ok_id : valid_uuid (device_id d);
  ok_name : validText (display_name d) 128 = true /\ T (display_name d);
  ok_interval : 1 <= interval_seconds d <= 5;
  ok_info : valid_info T (system_info d);
  ok_metrics : opt (valid_metrics T D) (metrics d);
  ok_sequence : opt wire_int (last_sequence d);
  ok_time : last_snapshot_ms d = -1 \/ 0 <= last_snapshot_ms d;
  ok_online : state d = Online \/ state d = Stale -> 0 <= last_snapshot_ms d;
  ok_registered : state d = Registered -> last_snapshot_ms d = -1;
  ok_snapshot : 0 <= last_snapshot_ms d <-> is_Some (last_sequence d);
  ok_has_metrics : is_Some (metrics d) -> is_Some (last_sequence d) }.

Record registry_ok (r : Registry) : Prop := {
  ro_devices : Forall device_ok (devices r);
  ro_unique : NoDup (map device_id (devices r));
  ro_bounded : len (devices r) <= maximumDevices }.
End inv.

(** ** Lookups *)

Lemma find_device_Some id ds i d :
  find_device id ds = Some (i, d) -> ds !! i = Some d /\ device_id d = id.
Proof. intros (? & ? & _)%list_find_Some. done. Qed.

Lemma find_device_None id ds : find_device id ds = None <-> id ∉ map device_id ds.
Proof.
  unfold find_device. rewrite list_find_None, Forall_forall. split.
  - intros H (d & -> & Hd)%list_elem_of_fmap. by apply (H d).
  - intros H d Hd <-. apply H, list_elem_of_fmap. by exists d.
Qed.

Lemma find_device_unique id ds i d :
  NoDup (map device_id ds) -> ds !! i = Some d -> device_id d = id -> find_device id ds = Some (i, d).
Proof.
  intros Hnd Hi Hid. apply list_find_Some. split; [done|]. split; [done|]. intros j y Hj Hlt Hy.
  assert (i = j); [|lia]. eapply (NoDup_lookup _ _ _ _ Hnd).
  - by rewrite list_lookup_fmap, Hi.
  - rewrite list_lookup_fmap, Hj. cbn. congruence.
Qed.

(** Replacing a device by one with the same id keeps the ids. *)
Lemma map_id_insert ds i d d' :
  ds !! i = Some d -> device_id d' = device_id d -> map device_id (<[i := d']> ds) = map device_id ds.
Proof.
  intros Hi Hd. rewrite <- (list_insert_id _ _ _ Hi) at 2.
  change (map device_id) with (fmap (M := list) device_id). rewrite !list_fmap_insert. by rewrite Hd.
Qed.

(** The device of an id after its entry was replaced. *)
Lemma device_insert_eq ds i d d' id :
  NoDup (map device_id ds) -> find_device id ds = Some (i, d) -> device_id d' = id ->
  find_device id (<[i := d']> ds) = Some (i, d').
Proof.
  intros Hnd [Hi Hd]%find_device_Some Hd'. apply find_device_unique; [|apply list_lookup_insert_eq|done].
  - by erewrite map_id_insert by (done || congruence).
  - by eapply lookup_lt_Some.
Qed.

Lemma find_device_cons id d ds :
  find_device id (d :: ds) = if decide (device_id d = id) then Some (0%nat, d) else prod_map S (fun x => x) <$> find_device id ds.
Proof. done. Qed.

(** Other devices are not affected. *)
Lemma device_insert_ne ds i d d' id id' :
  ds !! i = Some d -> device_id d = id -> device_id d' = id -> id' <> id ->
  snd <$> find_device id' (<[i := d']> ds) = snd <$> find_device id' ds.
Proof.
  revert i. induction ds as [|x ds IH]; intros [|i] Hi Hd Hd' Hne; try done; cbn [insert list_insert lookup] in *.
  - injection Hi as ->. rewrite !find_device_cons, !decide_False by congruence. done.
  - rewrite !find_device_cons. destruct (decide (device_id x = id')); [done|].
    specialize (IH i Hi Hd Hd' Hne). change (list_insert i d' ds) with (<[i := d']> ds) in *.
    destruct (find_device id' (<[i := d']> ds)) as [[? ?]|], (find_device id' ds) as [[? ?]|]; cbn in *; congruence.
Qed.

(** ** Freshness *)

Lemma freshen_id c d : device_id (freshen c d) = device_id d.
Proof. unfold freshen. by case_if. Qed.

Lemma map_freshen_ids c ds : map device_id (map (freshen c) ds) = map device_id ds.
Proof. rewrite map_map. apply map_ext. apply freshen_id. Qed.

Section preserve.
Context (T : string -> Prop) (D : double -> Prop).
Abbreviation dev_ok := (device_ok T D).
Abbreviation reg_ok := (registry_ok T D).

Lemma freshen_ok c d : dev_ok d -> dev_ok (freshen c d).
Proof.
  intros Hd. pose proof Hd as Hd'. unfold freshen. case_if; [done|]. bool_facts. destruct Hd.
  constructor; cbn; try done.
  unfold next_state. repeat case_if; intros ?; discriminate.
Qed.

Lemma updateFreshness_ok elapsed now_ms r : reg_ok r -> reg_ok (updateFreshness elapsed now_ms r).1.
Proof.
  intros [Hd Hu Hb]. constructor; cbn.
  - apply Forall_fmap. eapply Forall_impl; [exact Hd|]. intros. by apply freshen_ok.
  - by rewrite map_freshen_ids.
  - unfold len in *. by rewrite length_map.
Qed.

Lemma persist_devices `{QtCodec} saved r : devices (persist saved r).1 = devices r.
Proof. unfold persist. by case_if. Qed.

Lemma registry_ok_devices r r' : devices r' = devices r -> reg_ok r -> reg_ok r'.
Proof. intros E []. constructor; by rewrite E. Qed.

(** Replacing one device by a valid one with the same id. *)
Lemma replace_ok r i d d' :
  reg_ok r -> devices r !! i = Some d -> dev_ok d' -> device_id d' = device_id d ->
  reg_ok (with_devices (<[i := d']> (devices r)) r).
Proof.
  intros [Hf Hu Hb] Hi Hd Hid. constructor; cbn.
  - by apply Forall_insert.
  - by erewrite map_id_insert.
  - unfold len in *. by rewrite length_insert.
Qed.

Lemma new_device_ok h addr p : valid_message T D (MHello h) -> dev_ok (new_device h addr p).
Proof.
  intros (Hd & Hi & Hn & Hs & Hinfo). constructor; cbn; auto; try (intros; lia); try by intros [].
  all: try (split; [lia|by intros []]). all: try (intros [? ?]; discriminate).
Qed.

Lemma update_device_ok h addr p d :
  valid_message T D (MHello h) -> dev_ok d -> dev_ok (update_device h addr p d).
Proof.
  intros (Hd & Hi & Hn & Hs & Hinfo) []. unfold update_device. case_bool_decide.
  - constructor; cbn; auto.
  - constructor; cbn; auto; try by intros [].
    all: try (split; [lia|by intros []]). all: try (intros [? ?]; discriminate).
Qed.

Lemma update_device_id h addr p d : device_id (update_device h addr p d) = device_id d.
Proof. unfold update_device. by case_bool_decide. Qed.

Lemma apply_snapshot_ok s current utc d :
  valid_message T D (MDeviceSnapshot s) -> 0 <= current -> dev_ok d -> dev_ok (apply_snapshot s current utc d).
Proof.
  intros (_ & _ & _ & Hq & Hinfo & Hm) Hc []. by constructor; cbn; auto.
Qed.

Lemma now_nonneg elapsed now_ms : 0 <= elapsed -> 0 <= now elapsed now_ms.
Proof. intros. unfold now. case_if; bool_facts; lia. Qed.

Context `{QtCodec}.

Lemma registerHello_ok h addr p elapsed now_ms saved r :
  valid_message T D (MHello h) -> reg_ok r -> reg_ok (registerHello h addr p elapsed now_ms saved r).1.2.
Proof.
  intros Hh Hr. apply (updateFreshness_ok elapsed now_ms) in Hr. unfold registerHello.
  destruct (updateFreshness elapsed now_ms r) as [r0 s0]. cbn [fst] in Hr.
  destruct (find_device _ _) as [[i d]|] eqn:E.
  - case_if; [done|]. apply find_device_Some in E as [Hi Hid]. cbv zeta.
    assert (Hd : dev_ok d) by (destruct Hr as [Hf _ _]; by eapply Forall_lookup_1 in Hi).
    pose proof (replace_ok r0 i d (update_device h addr p d) Hr Hi (update_device_ok _ _ _ _ Hh Hd)
                  (update_device_id _ _ _ _)) as Hok.
    pose proof (persist_devices saved (with_devices (<[i:=update_device h addr p d]> (devices r0)) r0)) as Hp.
    destruct (persist saved _) as [r2 s2]. cbn. by eapply registry_ok_devices.
  - case_if; [done|]. cbv zeta. bool_facts.
    pose proof (persist_devices saved (with_devices (devices r0 ++ [new_device h addr p]) r0)) as Hp.
    destruct (persist saved _) as [r2 s2]. cbn in *.
    destruct Hr as [Hf Hu Hb]. constructor; rewrite Hp.
    + apply Forall_app. split; [done|]. constructor; [by apply new_device_ok|constructor].
    + rewrite map_app. apply NoDup_app. split; [done|]. split; [|apply NoDup_singleton].
      intros id Hin [->|[]%not_elem_of_nil]%elem_of_cons. by apply find_device_None in E.
    + unfold len, maximumDevices in *. rewrite length_app. cbn. lia.
Qed.

Lemma acceptSnapshot_ok s addr p elapsed now_ms utc saved r :
  valid_message T D (MDeviceSnapshot s) -> 0 <= elapsed -> reg_ok r ->
  reg_ok (acceptSnapshot s addr p elapsed now_ms utc saved r).1.2.
Proof.
  intros Hs He Hr. unfold acceptSnapshot. destruct (find_device _ _) as [[i d]|] eqn:E; [|done].
  case_if; [done|]. apply find_device_Some in E as [Hi Hid]. cbv zeta.
  assert (Hd : dev_ok d) by (destruct Hr as [Hf _ _]; by eapply Forall_lookup_1 in Hi).
  pose proof (replace_ok r i d (apply_snapshot s (now elapsed now_ms) utc d) Hr Hi
                (apply_snapshot_ok _ _ _ _ Hs (now_nonneg _ _ He) Hd) eq_refl) as Hok.
  pose proof (persist_devices saved (with_devices (<[i:=apply_snapshot s (now elapsed now_ms) utc d]> (devices r)) r)) as Hp.
  destruct (persist saved _) as [r2 s2]. cbn. by eapply registry_ok_devices.
Qed.

Lemma forgetDevice_ok id saved r : reg_ok r -> reg_ok (forgetDevice id saved r).1.2.
Proof.
  intros Hr. unfold forgetDevice. destruct (find_device _ _) as [[i d]|] eqn:E; [|done].
  pose proof (persist_devices saved (with_devices (delete i (devices r)) r)) as Hp.
  destruct (persist saved _) as [r2 s2]. cbn in *.
  assert (Hsub : sublist (delete i (devices r)) (devices r)) by apply sublist_delete.
  destruct Hr as [Hf Hu Hb]. constructor; rewrite Hp.
  - by eapply Forall_delete.
  - eapply sublist_NoDup; [exact Hu|]. by apply (fmap_sublist device_id).
  - unfold len in *. apply sublist_length in Hsub. lia.
Qed.
End preserve.

(** ** Steps *)

Section steps.
Context `{QtCodec} (T : string -> Prop) (D : double -> Prop).

(** One call from outside: a decoded message, the timer, the user. *)
Inductive event :=
| EHello (h : Hello) (addr : QHostAddress) (p : Z)
| ESnapshot (s : DeviceSnapshot) (addr : QHostAddress) (p : Z)
| ETick
| EForget (id : QUuid).

(** The clocks and the disk at the time of the call. *)
Record env := { e_elapsed : Z; e_utc : Z; e_saved : bool }.

Definition event_ok (e : event) : Prop :=
  match e with
  | EHello h _ _ => valid_message T D (MHello h)
  | ESnapshot s _ _ => valid_message T D (MDeviceSnapshot s)
  | _ => True
  end.

Definition perform (e : event) (v : env) (r : Registry) : Registry :=
  match e with
  | EHello h addr p => (registerHello h addr p (e_elapsed v) (-1) (e_saved v) r).1.2
  | ESnapshot s addr p => (acceptSnapshot s addr p (e_elapsed v) (-1) (e_utc v) (e_saved v) r).1.2
  | ETick => (updateFreshness (e_elapsed v) (-1) r).1
  | EForget id => (forgetDevice id (e_saved v) r).1.2
  end.

Inductive step (P : event -> Prop) : Registry -> Registry -> Prop :=
| step_event e v r :
    event_ok e -> P e -> 0 <= e_elapsed v -> step P r (perform e v r).

Lemma registry_step_ok P r r' : step P r r' -> registry_ok T D r -> registry_ok T D r'.
Proof.
  intros [[h addr p|s addr p| |id] v r0 He _ Hv] Hr; cbn [perform].
  - by apply registerHello_ok.
  - by apply acceptSnapshot_ok.
  - by apply updateFreshness_ok.
  - by apply forgetDevice_ok.
Qed.

Lemma registry_steps_ok P r r' : rtc (step P) r r' -> registry_ok T D r -> registry_ok T D r'.
Proof. induction 1; eauto using registry_step_ok. Qed.
End steps.

Definition all_events (_ : event) : Prop := True.

(** ** Reading the storage file *)

Section load.
Context `{QtCodec}.

Lemma load_entries_sound raws seen ds :
  load_entries raws seen = Some ds ->
  Forall (device_ok any_text any_double) ds /\ NoDup (map device_id ds) /\ length ds = length raws /\
  (forall d, d ∈ ds -> device_id d ∉ seen).
Proof.
  revert seen ds. induction raws as [|raw rs IH]; intros seen ds; cbn [load_entries].
  { intros [= <-]. repeat split; try constructor. by intros d ?%not_elem_of_nil. }
  case_if; [done|]. cbv zeta. destruct (_ || _) eqn:E; [done|].
  destruct (decodeSystemInfo _) as [info|] eqn:Ei; [|done].
  destruct (_ || _) eqn:Es in |- *; [done|].
  destruct (load_entries rs _) as [ds'|] eqn:El; [|done]. intros [= <-].
  apply IH in El as (Hf & Hnd & Hl & Hs).
  apply orb_false_iff in E as [E _]. apply orb_false_iff in E as [E Hiv%bad_interval_false].
  apply orb_false_iff in E as [E Hn2]. apply orb_false_iff in E as [E Hn1]. apply orb_false_iff in E as [E _].
  apply orb_false_iff in E as [_ Hid]. apply orb_false_iff in Es as [Hnull Hseen]. bool_facts.
  assert (Hinfo : valid_info any_text info).
  { unfold decodeSystemInfo in Ei. destruct (fromCbor _) as [q|]; [|done]. by eapply infoFromMap_sound. }
  split; [constructor; [|done]|split; [cbn [map]; constructor; [|done]|split; [cbn; congruence|]]].
  - constructor; cbn; try done; try (intros; lia); try (by intros []); try (by left).
    all: try by intros [|]. all: try (split; [lia|by intros []]).
    split; [|done]. unfold validText. rewrite Hn1. cbn. by apply Z.leb_le.
  - intros (d & Heq & Hd)%list_elem_of_fmap. apply (Hs d Hd). cbn in Heq. rewrite <- Heq. set_solver.
  - intros d [->|Hd]%elem_of_cons; [done|]. specialize (Hs d Hd). set_solver.
Qed.

Lemma load_ok can_open file : registry_ok any_text any_double (load can_open file).1.
Proof.
  assert (Hnil : forall msg st, registry_ok any_text any_double {| devices := []; diagnostic := msg; storage := st |}).
  { intros. constructor; cbn; try constructor. unfold len, maximumDevices. simpl. lia. }
  unfold load. destruct file as [bytes|]; [|apply Hnil]. case_if; [apply Hnil|].
  unfold load_bytes. destruct (fromCbor bytes) as [[| | | | | | |m|]|]; try apply Hnil.
  destruct (_ || _) eqn:E; [apply Hnil|]. apply orb_false_iff in E as [_ E]. bool_facts.
  destruct (load_entries _ _) as [ds|] eqn:El; [|apply Hnil].
  apply load_entries_sound in El as (Hf & Hnd & Hl & _). constructor; cbn; [done|done|].
  unfold len in *. by rewrite Hl.
Qed.

(** Whatever the storage file held and whatever arrives, the registry keeps its
    invariant: at most 64 devices, no device id twice, every device valid, and the
    state, clock and sequence of each consistent with one another. *)
Theorem registry_invariant can_open file r
  (Hsteps : rtc (step any_text any_double all_events) (load can_open file).1 r) :
  registry_ok any_text any_double r.
Proof. eapply registry_steps_ok; [exact Hsteps|apply load_ok]. Qed.
End load.

(** ** The registry as a map from ids to devices

    The same operations on a finite map, without list positions, storage or signals: what
    the loops over the list come to.  RegistrySpec.v states what they mean. *)

Abbreviation amap := (gmap QUuid Device).

Definition abs (ds : list Device) : amap := list_to_map (map (fun d => (device_id d, d)) ds).

Definition abs_tick (current : Z) (m : amap) : amap := freshen current <$> m.

Definition abs_hello (h : Hello) (addr : QHostAddress) (p current : Z) (m : amap) : string * amap :=
  let m0 := abs_tick current m in
  match m0 !! h_device_id h with
  | Some d => if is_duplicate h addr d then ("duplicate_device_id"%string, m0)
              else (""%string, <[h_device_id h := update_device h addr p d]> m0)
  | None => if decide (64 <= base.size m0)%nat then ("registry_full"%string, m0)
            else (""%string, <[h_device_id h := new_device h addr p]> m0)
  end.

Definition abs_snapshot (s : DeviceSnapshot) (addr : QHostAddress) (p current utc : Z) (m : amap) : bool * amap :=
  match m !! s_device_id s with
  | Some d => if snapshot_matches s addr p d then (true, <[s_device_id s := apply_snapshot s current utc d]> m)
              else (false, m)
  | None => (false, m)
  end.

Definition abs_forget (id : QUuid) (m : amap) : bool * amap :=
  (bool_decide (is_Some (m !! id)), delete id m).

Lemma abs_cons d ds : abs (d :: ds) = <[device_id d := d]> (abs ds).
Proof. done. Qed.

Lemma abs_lookup ds id : abs ds !! id = snd <$> find_device id ds.
Proof.
  induction ds as [|d ds IH]; [done|]. rewrite abs_cons, find_device_cons. case_decide as Hd.
  - rewrite Hd. apply lookup_insert_eq.
  - rewrite lookup_insert_ne by done. rewrite IH. by destruct (find_device id ds) as [[? ?]|].
Qed.

Lemma abs_lookup_None ds id : id ∉ map device_id ds -> abs ds !! id = None.
Proof. intros H%find_device_None. by rewrite abs_lookup, H. Qed.

Lemma abs_map f ds : (forall d, device_id (f d) = device_id d) -> abs (map f ds) = f <$> abs ds.
Proof.
  intros Hf. induction ds as [|d ds IH]; [symmetry; apply fmap_empty|].
  cbn [map]. rewrite !abs_cons, fmap_insert, Hf, IH. done.
Qed.

Lemma abs_insert ds i d d' id :
  NoDup (map device_id ds) -> find_device id ds = Some (i, d) -> device_id d' = id ->
  abs (<[i := d']> ds) = <[id := d']> (abs ds).
Proof.
  intros Hnd Hf Hd'. apply (fin_maps.map_eq (M := gmap QUuid)). intros j. rewrite abs_lookup.
  pose proof (find_device_Some _ _ _ _ Hf) as [Hi Hd].
  destruct (decide (j = id)) as [->|Hne].
  - rewrite lookup_insert_eq. by erewrite device_insert_eq.
  - rewrite lookup_insert_ne by done. erewrite device_insert_ne by done. by rewrite abs_lookup.
Qed.

Lemma abs_snoc ds d : find_device (device_id d) ds = None -> abs (ds ++ [d]) = <[device_id d := d]> (abs ds).
Proof.
  induction ds as [|x ds IH]; [done|]. rewrite find_device_cons.
  case_decide as Hx; [done|]. intros Hn. destruct (find_device _ ds) eqn:E; [done|].
  cbn [app]. rewrite !abs_cons, (IH eq_refl). by apply insert_insert_ne.
Qed.

Lemma abs_size ds : NoDup (map device_id ds) -> base.size (abs ds) = length ds.
Proof.
  induction ds as [|d ds IH]; intros Hnd; [done|]. cbn [map] in Hnd.
  apply NoDup_cons in Hnd as [Hni Hnd]. rewrite abs_cons, map_size_insert_None by by apply abs_lookup_None.
  cbn [length]. by rewrite IH.
Qed.

Lemma abs_delete ds i d id :
  NoDup (map device_id ds) -> find_device id ds = Some (i, d) -> abs (delete i ds) = delete id (abs ds).
Proof.
  revert i. induction ds as [|x ds IH]; intros i Hnd; [done|]. rewrite find_device_cons.
  cbn [map] in Hnd. apply NoDup_cons in Hnd as [Hni Hnd]. case_decide as Hx.
  - intros [= <- ->]. change (delete 0%nat (d :: ds)) with ds. rewrite abs_cons, Hx.
    rewrite delete_insert_id; [done|]. rewrite <- Hx. by apply abs_lookup_None.
  - destruct (find_device id ds) as [[j y]|] eqn:E; [|done]. intros [= <- ->].
    change (delete (S j) (x :: ds)) with (x :: delete j ds).
    rewrite !abs_cons, delete_insert_ne by done. f_equal. by apply IH.
Qed.

Lemma abs_updateFreshness elapsed now_ms r :
  abs (devices (updateFreshness elapsed now_ms r).1) = abs_tick (now elapsed now_ms) (abs (devices r)).
Proof. cbn. apply abs_map. apply freshen_id. Qed.

Section refinement.
Context `{QtCodec} (T : string -> Prop) (D : double -> Prop).
Context (r : Registry) (Hr : registry_ok T D r).

Lemma hello_refines h addr p elapsed now_ms saved :
  let '(reason, r', _) := registerHello h addr p elapsed now_ms saved r in
  (reason, abs (devices r')) = abs_hello h addr p (now elapsed now_ms) (abs (devices r)).
Proof.
  unfold registerHello, abs_hello. cbv zeta.
  rewrite <- (abs_updateFreshness elapsed now_ms r).
  pose proof (updateFreshness_ok T D elapsed now_ms r Hr) as [_ Hu Hb].
  destruct (updateFreshness elapsed now_ms r) as [r0 s0]. cbn [fst] in *.
  rewrite abs_lookup, abs_size by done.
  destruct (find_device _ _) as [[i d]|] eqn:E; cbn [fmap option_fmap option_map snd].
  - case_if; [done|]. pose proof (persist_devices saved
      (with_devices (<[i:=update_device h addr p d]> (devices r0)) r0)) as Hp.
    destruct (persist saved _) as [r2 s2]. cbn in Hp |- *. rewrite Hp.
    f_equal. eapply abs_insert; [done|exact E|]. rewrite update_device_id. exact (proj2 (find_device_Some _ _ _ _ E)).
  - unfold len, maximumDevices. case_if; bool_facts.
    + by rewrite decide_True by lia.
    + rewrite decide_False by lia.
      pose proof (persist_devices saved (with_devices (devices r0 ++ [new_device h addr p]) r0)) as Hp.
      destruct (persist saved _) as [r2 s2]. cbn in Hp |- *. rewrite Hp. f_equal. by apply abs_snoc.
Qed.

Lemma snapshot_refines s addr p elapsed now_ms utc saved :
  let '(accepted, r', _) := acceptSnapshot s addr p elapsed now_ms utc saved r in
  (accepted, abs (devices r')) = abs_snapshot s addr p (now elapsed now_ms) utc (abs (devices r)).
Proof.
  unfold acceptSnapshot, abs_snapshot. rewrite abs_lookup. destruct Hr as [_ Hu _].
  destruct (find_device _ _) as [[i d]|] eqn:E; cbn [fmap option_fmap option_map snd]; [|done].
  destruct (snapshot_matches s addr p d); cbn [negb]; [|done]. cbv zeta.
  pose proof (persist_devices saved
    (with_devices (<[i:=apply_snapshot s (now elapsed now_ms) utc d]> (devices r)) r)) as Hp.
  destruct (persist saved _) as [r2 s2]. cbn in Hp |- *. rewrite Hp.
  f_equal. eapply abs_insert; [done|exact E|]. exact (proj2 (find_device_Some _ _ _ _ E)).
Qed.

Lemma forget_refines id saved :
  let '(found, r', _) := forgetDevice id saved r in
  (found, abs (devices r')) = abs_forget id (abs (devices r)).
Proof.
  unfold forgetDevice, abs_forget. rewrite abs_lookup. destruct Hr as [_ Hu _].
  destruct (find_device _ _) as [[i d]|] eqn:E; cbn [fmap option_fmap option_map snd].
  - pose proof (persist_devices saved (with_devices (delete i (devices r)) r)) as Hp.
    destruct (persist saved _) as [r2 s2]. cbn in Hp |- *. rewrite Hp.
    rewrite (abs_delete _ _ _ _ Hu E). done.
  - cbn. rewrite delete_id; [done|]. by rewrite abs_lookup, E.
Qed.
End refinement.

(** ** Sequence numbers *)

Section replay.
Context `{QtCodec} (T : string -> Prop) (D : double -> Prop) (id inst : QUuid).

(** The device stays registered with the same instance. *)
Definition same_instance (e : event) : Prop :=
  match e with
  | EHello h _ _ => h_device_id h = id -> h_instance_id h = inst
  | EForget i => i <> id
  | _ => True
  end.

(** The device's last sequence number is at least [q]. *)
Definition seen_upto (q : Z) (m : amap) : Prop :=
  exists d last, m !! id = Some d /\ instance_id d = inst /\ last_sequence d = Some last /\ q <= last.

Lemma freshen_session c d : instance_id (freshen c d) = instance_id d /\ last_sequence (freshen c d) = last_sequence d.
Proof. unfold freshen. by case_if. Qed.

Lemma seen_upto_tick q c m : seen_upto q m -> seen_upto q (abs_tick c m).
Proof.
  intros (d & last & Hd & Hi & Hl & Hq). exists (freshen c d), last. unfold abs_tick.
  rewrite lookup_fmap, Hd. destruct (freshen_session c d) as [-> ->]. auto.
Qed.

Lemma seen_upto_hello q h addr p c m :
  (h_device_id h = id -> h_instance_id h = inst) -> seen_upto q m -> seen_upto q (abs_hello h addr p c m).2.
Proof.
  intros Hs Hq. apply (seen_upto_tick q c) in Hq. unfold abs_hello. cbv zeta.
  destruct Hq as (d & last & Hd & Hi & Hl & Hq).
  destruct (decide (h_device_id h = id)) as [E|E].
  - rewrite E, Hd. case_if; [by exists d, last|]. cbn [snd].
    exists (update_device h addr p d), last. rewrite lookup_insert_eq. split; [done|].
    unfold update_device. rewrite Hi, (Hs E), bool_decide_eq_true_2 by done. by cbn.
  - destruct (abs_tick c m !! h_device_id h); [case_if|case_decide]; cbn [snd];
      exists d, last; rewrite ?lookup_insert_ne by done; auto.
Qed.

Lemma seen_upto_snapshot q s addr p c u m : seen_upto q m -> seen_upto q (abs_snapshot s addr p c u m).2.
Proof.
  intros (d & last & Hd & Hi & Hl & Hq). unfold abs_snapshot.
  destruct (m !! s_device_id s) as [x|] eqn:E; [|by exists d, last]. case_if; [|by exists d, last]. cbn [snd].
  destruct (decide (s_device_id s = id)) as [Eid|Eid].
  - rewrite Eid in E |- *. rewrite Hd in E. injection E as <-.
    exists (apply_snapshot s c u d), (s_sequence s). rewrite lookup_insert_eq. split; [done|].
    split; [exact Hi|]. split; [done|]. unfold snapshot_matches in Heqb. rewrite Hl in Heqb. bool_facts. lia.
  - exists d, last. by rewrite lookup_insert_ne.
Qed.

Lemma seen_upto_step q r r' :
  registry_ok T D r -> step T D same_instance r r' ->
  seen_upto q (abs (devices r)) -> seen_upto q (abs (devices r')).
Proof.
  intros Hr Hstep Hq. destruct Hstep as [[h addr p|s addr p| |i] v r He Hp Hv]; cbn [perform same_instance] in *.
  - pose proof (hello_refines T D r Hr h addr p (e_elapsed v) (-1) (e_saved v)) as Href.
    destruct (registerHello _ _ _ _ _ _ _) as [[reason r'] sig]. cbn.
    change (abs (devices r')) with (reason, abs (devices r')).2. rewrite Href. by apply seen_upto_hello.
  - pose proof (snapshot_refines T D r Hr s addr p (e_elapsed v) (-1) (e_utc v) (e_saved v)) as Href.
    destruct (acceptSnapshot _ _ _ _ _ _ _ _) as [[ok r'] sig]. cbn.
    change (abs (devices r')) with (ok, abs (devices r')).2. rewrite Href. by apply seen_upto_snapshot.
  - rewrite abs_updateFreshness. by apply seen_upto_tick.
  - pose proof (forget_refines T D r Hr i (e_saved v)) as Href.
    destruct (forgetDevice _ _ _) as [[ok r'] sig]. cbn.
    change (abs (devices r')) with (ok, abs (devices r')).2. rewrite Href.
    destruct Hq as (d & last & Hd & ?). exists d, last. cbn. by rewrite lookup_delete_ne.
Qed.

Lemma seen_upto_steps q r r' :
  rtc (step T D same_instance) r r' -> registry_ok T D r ->
  seen_upto q (abs (devices r)) -> seen_upto q (abs (devices r')).
Proof. induction 1; eauto using seen_upto_step, registry_step_ok. Qed.

Lemma seen_upto_rejects q r s addr p elapsed now_ms utc saved :
  seen_upto q (abs (devices r)) -> s_device_id s = id -> s_sequence s <= q ->
  (acceptSnapshot s addr p elapsed now_ms utc saved r) = (false, r, []).
Proof.
  intros (d & last & Hd & Hi & Hl & Hq) Hs Hle. unfold acceptSnapshot. rewrite abs_lookup, <- Hs in Hd.
  destruct (find_device _ _) as [[i x]|]; [|done]. injection Hd as ->.
  assert (E : snapshot_matches s addr p d = false); [|by rewrite E].
  unfold snapshot_matches. rewrite Hl, (proj2 (Z.ltb_ge _ _)) by lia. apply andb_false_r.
Qed.
End replay.

(** C6. No replay: once a snapshot is accepted, no snapshot of that device with the same
    or a smaller sequence number is accepted again, and none changes the registry, as
    long as the device is not forgotten and does not register another instance. *)
Theorem no_replay `{QtCodec} T D r s addr p elapsed now_ms utc saved r1 sig r2
  (Hr : registry_ok T D r) (Hs : valid_message T D (MDeviceSnapshot s)) (He : 0 <= elapsed)
  (Haccept : acceptSnapshot s addr p elapsed now_ms utc saved r = (true, r1, sig))
  (Hsteps : rtc (step T D (same_instance (s_device_id s) (s_instance_id s))) r1 r2) :
  forall s' addr' p' elapsed' now_ms' utc' saved',
    s_device_id s' = s_device_id s -> s_sequence s' <= s_sequence s ->
    acceptSnapshot s' addr' p' elapsed' now_ms' utc' saved' r2 = (false, r2, []).
Proof.
  intros s' addr' p' elapsed' now_ms' utc' saved' Hid Hle.
  assert (Hr1 : registry_ok T D r1).
  { pose proof (acceptSnapshot_ok T D s addr p elapsed now_ms utc saved r Hs He Hr) as Hok.
    by rewrite Haccept in Hok. }
  assert (Hseen : seen_upto (s_device_id s) (s_instance_id s) (s_sequence s) (abs (devices r1))).
  { pose proof (snapshot_refines T D r Hr s addr p elapsed now_ms utc saved) as Href.
    rewrite Haccept in Href. unfold abs_snapshot in Href.
    destruct (abs (devices r) !! s_device_id s) as [d|]; [|done].
    destruct (snapshot_matches s addr p d) eqn:Em; [|done]. injection Href as ->.
    exists (apply_snapshot s (now elapsed now_ms) utc d), (s_sequence s). rewrite lookup_insert_eq.
    split; [done|]. cbn. unfold snapshot_matches in Em. bool_facts. split; [done|]. split; [done|lia]. }
  eapply seen_upto_rejects; [|exact Hid|exact Hle]. by eapply (seen_upto_steps T D).
Qed.

(** ** Ageing *)

Definition severity (s : State) : Z :=
  match s with Registered => 0 | Online => 0 | Stale => 1 | Offline => 2 end.

Lemma freshen_state c d :
  0 <= last_snapshot_ms d -> state (freshen c d) = next_state c d.
Proof. intros Hl. unfold freshen. by rewrite (proj2 (Z.ltb_ge _ _)). Qed.

Lemma next_state_ages c d :
  1 <= interval_seconds d ->
  let age := c - last_snapshot_ms d in
  (next_state c d = Online <-> age < interval_seconds d * 3000) /\
  (next_state c d = Stale <-> interval_seconds d * 3000 <= age < interval_seconds d * 10000) /\
  (next_state c d = Offline <-> interval_seconds d * 10000 <= age).
Proof.
  intros Hi age. unfold next_state. cbv zeta. fold age.
  repeat case_if; bool_facts; repeat split; intros; try done; try lia.
Qed.

Lemma next_state_mono c c' d :
  1 <= interval_seconds d -> c <= c' -> severity (next_state c d) <= severity (next_state c' d).
Proof. intros Hi Hc. unfold next_state. repeat case_if; bool_facts; cbn; lia. Qed.

(** C9. Ageing: a device that has reported is Online before three of its intervals have
    passed, Stale before ten, Offline from then on; one that has not reported keeps its
    state; nothing else of the device changes; a change and only a change is signalled;
    and without new snapshots a device only gets worse. *)
Theorem freshness_spec T D r current id d
  (Hr : registry_ok T D r) (Hc : 0 <= current) (Hd : device id r = Some d) :
  let '(r', signals) := updateFreshness 0 current r in
  exists d', device id r' = Some d' /\ d' = with_state (state d') d /\
    (last_snapshot_ms d < 0 -> state d' = state d) /\
    (0 <= last_snapshot_ms d ->
       let age := current - last_snapshot_ms d in
       (state d' = Online <-> age < interval_seconds d * 3000) /\
       (state d' = Stale <-> interval_seconds d * 3000 <= age < interval_seconds d * 10000) /\
       (state d' = Offline <-> interval_seconds d * 10000 <= age) /\
       forall later, current <= later -> severity (state d') <= severity (state (freshen later d'))) /\
    (deviceChanged id ∈ signals <-> state d' <> state d).
Proof.
  unfold device in *. rewrite <- abs_lookup in Hd.
  assert (Hok : device_ok T D d /\ device_id d = id).
  { rewrite abs_lookup in Hd. destruct (find_device id (devices r)) as [[i x]|] eqn:E; [|done]. injection Hd as ->.
    apply find_device_Some in E as [Hi ?]. destruct Hr as [Hf _ _]. split; [by eapply Forall_lookup_1 in Hi|done]. }
  destruct Hok as [[_ _ Hiv _ _ _ _ _ _ _ _] Hid].
  unfold updateFreshness. cbn [devices with_devices]. unfold now. rewrite (proj2 (Z.leb_le _ _)) by done.
  exists (freshen current d). rewrite <- abs_lookup, (abs_map (freshen current)) by apply freshen_id.
  rewrite lookup_fmap, Hd. split; [done|]. split; [|split; [|split]].
  - unfold freshen. case_if; [|done]. by destruct d.
  - intros Hl. unfold freshen. by rewrite (proj2 (Z.ltb_lt _ _)).
  - intros Hl. cbv zeta. rewrite freshen_state by done.
    destruct (next_state_ages current d) as (H1 & H2 & H3); [lia|]. split; [done|]. split; [done|]. split; [done|].
    intros later Hle. rewrite (freshen_state later) by (unfold freshen; by rewrite (proj2 (Z.ltb_ge _ _))).
    replace (next_state later (freshen current d)) with (next_state later d); [by apply next_state_mono; [lia|]|].
    unfold freshen. by rewrite (proj2 (Z.ltb_ge _ _)).
  - unfold freshness_signals. rewrite list_elem_of_fmap. split.
    + intros (x & [= Hx] & [Hs Hin]%list_elem_of_filter).
      enough (x = d) by congruence. destruct Hr as [_ Hu _].
      apply list_elem_of_lookup in Hin as [i Hi].
      pose proof (find_device_unique id (devices r) i x Hu Hi (eq_sym Hx)) as E.
      rewrite abs_lookup, E in Hd. by injection Hd.
    + intros Hs. exists d. split; [by rewrite Hid|]. apply list_elem_of_filter. split; [done|].
      rewrite abs_lookup in Hd. destruct (find_device id (devices r)) as [[i x]|] eqn:E; [|done]. injection Hd as ->.
      apply find_device_Some in E as [Hi _]. by eapply list_elem_of_lookup_2.
Qed.

(** ** Storage *)

(** What a restart keeps of a device. *)
Definition remembered (d : Device) : Device :=
  loaded_device (device_id d) (display_name d) (interval_seconds d) (system_info d).

Section stored.
Context `{QtCodec}.
Abbreviation dev_ok := (device_ok rfc3629 binary64).

(** The cached report fits a byte array. *)
Definition report_fits (d : Device) : Prop := len (encodeSystemInfo (system_info d)) <= uint64_max.

Lemma entry_map_ok d : dev_ok d -> report_fits d -> map_ok 2 4 (entry_map d).
Proof.
  intros [[Hid _] [Hn Hr] Hi _ _ _ _ _ _ _ _] Hfit. unfold entry_map.
  apply map_ok_insert; [key_ok|exact Hfit|].
  apply map_ok_insert; [key_ok|by apply interval_writable|].
  apply map_ok_insert; [key_ok|eapply text_ok_valid; [|exact Hn|exact Hr]; lia|].
  apply map_ok_insert; [key_ok|cbn; rewrite Hid; small|apply map_ok_nil].
Qed.

Lemma load_entries_entries ds raws seen :
  Forall dev_ok ds -> NoDup (map device_id ds) -> (forall d, d ∈ ds -> device_id d ∉ seen) ->
  Forall2 qeq raws (map (fun d => QMap (entry_map d)) ds) ->
  load_entries raws seen = Some (map remembered ds).
Proof.
  intros Hf. revert raws seen. induction Hf as [|d ds Hd _ IH]; intros raws seen Hnd Hs Hq;
    cbn [map] in Hq; inversion Hq as [|q ? raws' ? Hqd Hqs]; subst; [done|].
  cbn [map] in Hnd. apply NoDup_cons in Hnd as [Hni Hnd].
  destruct Hd as [[Hid Hnull] [Hn _] Hi Hinfo _ _ _ _ _ _ _].
  cbn [load_entries]. rewrite (isMap_proper _ _ Hqd). cbn [isMap negb]. cbv zeta.
  pose proof (toMap_proper _ _ Hqd) as Hm. cbn [toMap] in Hm.
  rewrite (bad_interval_proper _ _ (Hm "interval_s"%string)).
  accessors (Hm "device_id"%string). accessors (Hm "display_name"%string). accessors (Hm "interval_s"%string).
  accessors (Hm "system_info"%string). clear Hm.
  assert (Eid : qvalue "device_id" (entry_map d) = QByteArray (device_id d)) by (unfold entry_map; qlook).
  assert (En : qvalue "display_name" (entry_map d) = QString (display_name d)) by (unfold entry_map; qlook).
  assert (Ei : qvalue "interval_s" (entry_map d) = QInteger (interval_seconds d)) by (unfold entry_map; qlook).
  assert (Es : qvalue "system_info" (entry_map d) = QByteArray (encodeSystemInfo (system_info d)))
    by (unfold entry_map; qlook).
  rewrite Eid, En, Ei, Es. destruct (bad_interval_reads _ Hi) as [-> ->].
  apply validText_le in Hn as [Hn1 Hn2]. cbn [isByteArray toByteArray isString toQString negb orb].
  rewrite Hid, (proj2 (String.eqb_neq _ _)), (proj2 (Z.ltb_ge _ _)) by done. cbn [negb orb Z.eqb].
  rewrite (decodeSystemInfo_encode _ Hinfo).
  rewrite !bool_decide_eq_false_2 by (done || (apply Hs; by left)). cbn [orb].
  rewrite (IH raws' _ Hnd); [done| |done]. intros d' Hd'. specialize (Hs d' ltac:(by right)).
  assert (device_id d' <> device_id d).
  { intros E. apply Hni. rewrite <- E. apply list_elem_of_fmap. by exists d'. }
  set_solver.
Qed.

Lemma load_bytes_registry ds :
  Forall dev_ok ds -> NoDup (map device_id ds) -> len ds <= maximumDevices -> Forall report_fits ds ->
  load_bytes (registry_bytes ds) = Some (map remembered ds).
Proof.
  intros Hf Hnd Hl Hfit. unfold load_bytes, registry_bytes, maximumDevices in *.
  set (m := qinsert "version" _ _).
  assert (Hw : writable 5 (QMap m)).
  { apply writable_map with 2%nat; [|small].
    apply map_ok_insert; [key_ok|cbn; unfold int64_max; lia|].
    apply map_ok_insert; [key_ok| |apply map_ok_nil].
    cbn [writable]. unfold len in *. rewrite length_map. split; [unfold uint64_max; lia|].
    apply Forall_fmap. rewrite Forall_forall in Hf, Hfit |- *. intros d Hd.
    apply (writable_map 2 4); [by apply entry_map_ok; auto|small]. }
  destruct (fromCbor_toCbor_map 5 m) as (m' & -> & Hm); [unfold qt_depth; lia|done|].
  cbv zeta. pose proof (toArray_proper _ _ (Hm "devices"%string)) as Hq.
  accessors (Hm "version"%string). accessors (Hm "devices"%string).
  assert (Ev : qvalue "version" m = QInteger 1) by (unfold m; qlook).
  assert (Ed : qvalue "devices" m = QArray (map (fun d => QMap (entry_map d)) ds)) by (unfold m; qlook).
  rewrite Ev. rewrite Ed in Hq |- *. cbn [toArray isArray] in *.
  unfold len in *. pose proof (Forall2_length _ _ _ Hq) as Hlen. rewrite length_map in Hlen.
  rewrite Hlen, (proj2 (Z.ltb_ge _ _)) by done. cbn [isInteger negb orb]. change (i64 1 =? 1) with true.
  apply load_entries_entries; [done|done| |done]. intros. apply not_elem_of_empty.
Qed.
End stored.

(** C10. Restart: what [persist] wrote, [load] reads back: the same devices in the same
    order with their ids, names, intervals and reports, all offline and without a session. *)
Theorem storage_roundtrip `{QtCodec} r
  (Hr : registry_ok rfc3629 binary64 r) (Hfit : Forall report_fits (devices r)) :
  load true (storage (persist true r).1) =
  ({| devices := map remembered (devices r); diagnostic := ""; storage := Some (registry_bytes (devices r)) |}, []).
Proof.
  destruct Hr as [Hf Hu Hb]. cbn [persist fst storage]. unfold load. cbn [negb].
  by rewrite load_bytes_registry.
Qed.

(** ** Witnesses *)

Definition sample_hello : Hello :=
  {| h_device_id := be_bytes 16 7; h_instance_id := be_bytes 16 9; h_display_name := "Workshop Pi";
     h_interval_seconds := 1; h_system_info := sample_info |}.
Definition sample_report : DeviceSnapshot :=
  {| s_device_id := be_bytes 16 7; s_instance_id := be_bytes 16 9; s_interval_seconds := 1;
     s_sequence := 9; s_system_info := sample_info; s_metrics := Some sample_metrics |}.
Definition sample_address : QHostAddress := Some "10.0.0.7"%string.

Definition empty_registry : Registry := {| devices := []; diagnostic := ""; storage := None |}.

Lemma empty_registry_ok T D : registry_ok T D empty_registry.
Proof. constructor; cbn; try constructor. unfold len, maximumDevices. simpl. lia. Qed.

(** One device that registered at time 0, and the same after its first snapshot at 1000. *)
Definition sample_registry : Registry :=
  (@registerHello reference_codec sample_hello sample_address 4000 0 0 true empty_registry).1.2.
Definition sample_online : Registry :=
  (@acceptSnapshot reference_codec sample_report sample_address 4000 0 1000 5 true sample_registry).1.2.

Lemma sample_hello_valid : sendable (MHello sample_hello).
Proof. split; [by_decision|]. concrete. Qed.

Lemma sample_registry_ok : registry_ok rfc3629 binary64 sample_registry.
Proof. apply registerHello_ok; [exact sample_hello_valid|apply empty_registry_ok]. Qed.

Lemma sample_online_ok : registry_ok rfc3629 binary64 sample_online.
Proof. apply acceptSnapshot_ok; [exact sample_snapshot_valid|lia|exact sample_registry_ok]. Qed.

Lemma any_message_valid message : sendable message -> valid_message any_text any_double message.
Proof.
  intros H. apply (decode_root_sound (message_map message)). by eapply decode_root_message.
Qed.

Lemma registry_invariant_witness :
  registry_ok any_text any_double
    (@perform reference_codec (EHello sample_hello sample_address 4000)
       {| e_elapsed := 0; e_utc := 0; e_saved := true |} (@load reference_codec true None).1).
Proof.
  apply (@registry_invariant reference_codec true None). apply rtc_once. constructor; [|done|done].
  apply any_message_valid. exact sample_hello_valid.
Defined.

Lemma no_replay_witness :
  @acceptSnapshot reference_codec sample_report sample_address 4000 0 2000 6 true sample_online = (false, sample_online, []).
Proof.
  apply (@no_replay reference_codec rfc3629 binary64 sample_registry sample_report sample_address 4000 0 1000 5 true
           sample_online [deviceChanged (be_bytes 16 7)] sample_online).
  - exact sample_registry_ok.
  - exact sample_snapshot_valid.
  - lia.
  - vm_compute. reflexivity.
  - apply rtc_refl.
  - reflexivity.
  - reflexivity || lia.
Defined.

Definition sample_online_device : Device :=
  apply_snapshot sample_report 1000 5 (new_device sample_hello sample_address 4000).

Lemma freshness_spec_witness :
  exists d', device (be_bytes 16 7) (updateFreshness 0 4000 sample_online).1 = Some d' /\ state d' = Stale.
Proof.
  destruct (freshness_spec rfc3629 binary64 sample_online 4000 (be_bytes 16 7) sample_online_device) as (d' & H1 & H2 & _ & H3 & _).
  - exact sample_online_ok.
  - lia.
  - vm_compute. reflexivity.
  - exists d'. split; [exact H1|]. apply H3; by_decision.
Defined.

Lemma storage_roundtrip_witness :
  devices (@load reference_codec true (storage (@persist reference_codec true sample_online).1)).1
  = map remembered (devices sample_online).
Proof.
  rewrite (@storage_roundtrip reference_codec sample_online).
  - reflexivity.
  - exact sample_online_ok.
  - unfold report_fits. by_decision.
Defined.
