(* ===== verification/RegistrySpec.v ===== *)
(** * What the registry promises

    The abstract specification of [RemoteDeviceRegistry], in its own terms: of each device
    what it is called and made of, the session it talks in, and whether and how recently it
    has reported.  Sentinels of the code ([last_snapshot_ms = -1], an empty sequence), its
    states and its list are not part of it; the conditions on messages are stated anew.
    Every operation of the code implements its counterpart, and what is abstracted
    determines the code's devices. *)

From S2P Require Import Prelude.
From S2P Require Import Std.
From S2P Require Import Float64.
From S2P Require Import QtCbor.
From S2P Require Import Protocol.
From S2P Require Import DeviceSnapshot.
From S2P Require Import SnapshotCodec.
From S2P Require Import SnapshotWire.
From S2P Require Import Registry.
From S2P Require Import RegistryLaws.

(** ** The abstract state *)

(** Who talks: an instance of the daemon, from an address and port. *)
Record Session := { who : QUuid; peer : QHostAddress; peer_port : Z }.

#[export] Instance Session_eq_dec : EqDecision Session. Proof. solve_decision. Defined.

Inductive Freshness := Fresh | Late | Lost.

(** A device restored from storage is absent; one that said hello has joined; a report has a
    sequence number and the moment it came. *)
Inductive Contact :=
| Absent
| Joined
| Reporting (sequence moment : Z) (report : option SystemMetrics) (freshness : Freshness).

Record Known := {
  called : string; period : Z; facts : SystemInfo; session : Session; contact : Contact; last_seen : option Z }.

Abbreviation known_devices := (gmap QUuid Known).

(** ** The operations *)

(** The age of the last report, in periods. *)
Definition freshness_of (period_s age_ms : Z) : Freshness :=
  if age_ms <? 3 * (1000 * period_s) then Fresh
  else if age_ms <? 10 * (1000 * period_s) then Late
  else Lost.

Definition with_contact (c : Contact) (k : Known) : Known :=
  {| called := called k; period := period k; facts := facts k; session := session k; contact := c; last_seen := last_seen k |}.

Definition aged (current : Z) (k : Known) : Known :=
  match contact k with
  | Reporting q t m _ => with_contact (Reporting q t m (freshness_of (period k) (current - t))) k
  | _ => k
  end.

Definition spec_tick (current : Z) (m : known_devices) : known_devices := aged current <$> m.

(** Somebody may be there under the id. *)
Definition present (c : Contact) : bool :=
  match c with Absent | Reporting _ _ _ Lost => false | Joined | Reporting _ _ _ _ => true end.

(** Another instance, from another address than the one that is there. *)
Definition usurps (new : Session) (k : Known) : Prop :=
  present (contact k) = true /\ who new <> who (session k) /\
  peer (session k) <> None /\ peer new <> peer (session k).

#[export] Instance usurps_dec new k : Decision (usurps new k) := _.

(** A hello renews what is said of the device; another instance begins anew. *)
Definition joined (h : Hello) (new : Session) (known : option Known) : Known :=
  {| called := h_display_name h; period := h_interval_seconds h; facts := h_system_info h; session := new;
     contact := match known with
                | Some k => if decide (who new = who (session k)) then contact k else Joined
                | None => Joined
                end;
     last_seen := match known with Some k => last_seen k | None => None end |}.

Definition spec_hello (h : Hello) (addr : QHostAddress) (p current : Z) (m : known_devices) : string * known_devices :=
  let m := spec_tick current m in
  let new := {| who := h_instance_id h; peer := addr; peer_port := p |} in
  match m !! h_device_id h with
  | Some k => if decide (usurps new k) then ("duplicate_device_id"%string, m)
              else (""%string, <[h_device_id h := joined h new (Some k)]> m)
  | None => if decide (base.size m < 64)%nat then (""%string, <[h_device_id h := joined h new None]> m)
            else ("registry_full"%string, m)
  end.

(** A snapshot counts in the session it belongs to, with the period announced, and after the
    last one. *)
Definition counts (s : DeviceSnapshot) (from : Session) (k : Known) : Prop :=
  session k = from /\ period k = s_interval_seconds s /\
  match contact k with Reporting q _ _ _ => q < s_sequence s | _ => True end.

#[export] Instance counts_dec s from k : Decision (counts s from k).
Proof. unfold counts. destruct (contact k); apply _. Defined.

Definition reported (s : DeviceSnapshot) (current utc : Z) (k : Known) : Known :=
  {| called := called k; period := period k; facts := s_system_info s; session := session k;
     contact := Reporting (s_sequence s) current (s_metrics s) Fresh; last_seen := Some utc |}.

Definition spec_snapshot (s : DeviceSnapshot) (addr : QHostAddress) (p current utc : Z) (m : known_devices)
  : bool * known_devices :=
  let from := {| who := s_instance_id s; peer := addr; peer_port := p |} in
  match m !! s_device_id s with
  | Some k => if decide (counts s from k) then (true, <[s_device_id s := reported s current utc k]> m) else (false, m)
  | None => (false, m)
  end.

Definition spec_forget (id : QUuid) (m : known_devices) : bool * known_devices :=
  (bool_decide (is_Some (m !! id)), delete id m).

(** ** The abstraction *)

Definition known_of (d : Device) : Known :=
  {| called := display_name d; period := interval_seconds d; facts := system_info d;
     session := {| who := instance_id d; peer := address d; peer_port := port d |};
     contact := match last_sequence d with
                | Some q => Reporting q (last_snapshot_ms d) (metrics d)
                              (match state d with Stale => Late | Offline => Lost | _ => Fresh end)
                | None => match state d with Registered => Joined | _ => Absent end
                end;
     last_seen := last_snapshot_utc d |}.

Definition known (r : Registry) : known_devices := known_of <$> abs (devices r).

Section refinement.
Context (T : string -> Prop) (D : double -> Prop).

Lemma freshness_of_state c d : 1 <= interval_seconds d ->
  freshness_of (interval_seconds d) (c - last_snapshot_ms d) =
  match next_state c d with Stale => Late | Offline => Lost | _ => Fresh end.
Proof. intros Hi. unfold next_state, freshness_of. cbv zeta. repeat case_if; bool_facts; try done; lia. Qed.

Lemma known_aged c d : device_ok T D d -> known_of (freshen c d) = aged c (known_of d).
Proof.
  intros [_ _ Hi _ _ _ Ht _ _ Hs _]. unfold freshen, aged. cbn [known_of contact].
  destruct (last_sequence d) as [q|] eqn:Eq.
  - assert (0 <= last_snapshot_ms d) by (apply Hs; by eexists). rewrite (proj2 (Z.ltb_ge _ _)) by lia.
    change (period (known_of d)) with (interval_seconds d). rewrite freshness_of_state by lia.
    unfold known_of, with_contact. cbn -[next_state]. by rewrite Eq.
  - destruct (Z.ltb_spec (last_snapshot_ms d) 0) as [|Hge]; [by destruct (state d)|]. by apply Hs in Hge as [? ?].
Qed.

(** The abstraction forgets nothing of a valid device. *)
Lemma known_of_inj d d' : device_ok T D d -> device_ok T D d' -> device_id d = device_id d' -> known_of d = known_of d' -> d = d'.
Proof.
  intros [_ _ _ _ _ _ Ht Ho Hr Hs Hm] [_ _ _ _ _ _ Ht' Ho' Hr' Hs' Hm']. destruct d as [id n i si me st ins ad po q ms utc], d' as [id' n' i' si' me' st' ins' ad' po' q' ms' utc'].
  cbn in *. intros ->. unfold known_of. cbn. intros [= -> -> -> -> -> -> Hc ->].
  destruct q as [q|], q' as [q'|]; cbn in *; try (by destruct st'); try (by destruct st).
  - injection Hc as -> -> -> Hf. f_equal. pose proof (proj2 Hs (ex_intro _ _ eq_refl)).
    destruct st, st'; try done; exfalso; first [specialize (Hr eq_refl)|specialize (Hr' eq_refl)]; lia.
  - assert (forall m : option SystemMetrics, (is_Some m -> is_Some (@None Z)) -> m = None) as Hno
      by (intros [m|] Hx; [|done]; by destruct (Hx (ex_intro _ _ eq_refl)) as [? ?]).
    rewrite (Hno me), (Hno me') by done. assert (forall x, (0 <= x <-> is_Some (@None Z)) -> x = -1 \/ 0 <= x -> x = -1) as Hneg
      by (intros x Hx [?|Hx']; [done|]; by apply Hx in Hx' as [? ?]).
    rewrite (Hneg ms), (Hneg ms') by done. f_equal.
    assert (forall s x, x = -1 -> (s = Online \/ s = Stale -> 0 <= x) -> s = Registered \/ s = Offline) as Hst
      by (intros [] x -> Hx; auto; exfalso; lia || (assert (0 <= -1) by auto; lia)).
    destruct (Hst st ms) as [-> | ->], (Hst st' ms') as [-> | ->]; auto; done.
Qed.

(** ** The operations of the code *)

Lemma abs_ok r k d : registry_ok T D r -> abs (devices r) !! k = Some d -> device_ok T D d /\ device_id d = k.
Proof.
  intros Hr. rewrite abs_lookup. destruct (find_device k (devices r)) as [[i x]|] eqn:E; [|done]. intros [= ->].
  apply find_device_Some in E as [Hi ?]. split; [|done]. destruct Hr as [Hf _ _]. by eapply Forall_lookup_1 in Hi.
Qed.

Lemma known_tick c r : registry_ok T D r -> known_of <$> abs_tick c (abs (devices r)) = spec_tick c (known r).
Proof.
  intros Hr. apply (fin_maps.map_eq (M := gmap QUuid)). intros k. unfold abs_tick, spec_tick, known. rewrite !lookup_fmap.
  destruct (abs (devices r) !! k) as [d|] eqn:E; [|done]. cbn. f_equal. by apply known_aged, (abs_ok r k).
Qed.

Lemma present_known d : device_ok T D d -> present (contact (known_of d)) = negb (bool_decide (state d = Offline)).
Proof.
  intros [_ _ _ _ _ _ Ht Ho Hr Hs _]. cbn. destruct (last_sequence d) as [q|] eqn:Eq; [by destruct (state d)|].
  assert (state d = Registered \/ state d = Offline) as [-> | ->]; [|done..].
  destruct (state d) eqn:Es; auto; exfalso; assert (0 <= last_snapshot_ms d) as Hge by auto; by apply Hs in Hge as [? ?].
Qed.

Lemma duplicate_usurps h addr p d : device_ok T D d ->
  is_duplicate h addr d = true <-> usurps {| who := h_instance_id h; peer := addr; peer_port := p |} (known_of d).
Proof.
  intros Hd. unfold is_duplicate, usurps. rewrite <- present_known by done. cbn [who peer session known_of].
  rewrite !andb_true_iff, !negb_true_iff, !bool_decide_eq_false, bool_decide_eq_true.
  destruct (address d); split; intros; destruct_and?; split_and?; try done; try congruence; by eexists.
Qed.

Lemma known_update h addr p d : known_of (update_device h addr p d) =
  joined h {| who := h_instance_id h; peer := addr; peer_port := p |} (Some (known_of d)).
Proof.
  unfold update_device, joined. cbn [who session known_of]. case_bool_decide as E.
  - rewrite decide_True by done. unfold known_of. cbn. by rewrite E.
  - rewrite decide_False by congruence. done.
Qed.

Lemma matches_counts s addr p d : snapshot_matches s addr p d = true <->
  counts s {| who := s_instance_id s; peer := addr; peer_port := p |} (known_of d).
Proof.
  unfold snapshot_matches, counts. cbn. rewrite !andb_true_iff, !bool_decide_eq_true, !Z.eqb_eq.
  destruct (last_sequence d) as [q|]; cbn; rewrite ?Z.ltb_lt; [|destruct (state d)];
    (split; [intros ((((-> & ->) & ->) & ->) & ?); done|intros ([= -> -> ->] & -> & ?); done]).
Qed.
End refinement.

Section operations.
Context `{QtCodec} (T : string -> Prop) (D : double -> Prop) (r : Registry) (Hr : registry_ok T D r).

Lemma hello_specified h addr p elapsed now_ms saved :
  let '(reason, r', _) := registerHello h addr p elapsed now_ms saved r in
  (reason, known r') = spec_hello h addr p (now elapsed now_ms) (known r).
Proof.
  pose proof (hello_refines T D r Hr h addr p elapsed now_ms saved) as Href.
  destruct (registerHello _ _ _ _ _ _ _) as [[reason r'] sig]. unfold known at 1.
  unfold spec_hello. cbv zeta. rewrite <- (known_tick T D) by done. rewrite lookup_fmap, map_size_fmap.
  unfold abs_hello in Href. cbv zeta in Href. rewrite <- (abs_updateFreshness elapsed now_ms r) in *.
  pose proof (updateFreshness_ok T D elapsed now_ms r Hr) as Hr0. set (r0 := (updateFreshness elapsed now_ms r).1) in *.
  destruct (abs (devices r0) !! h_device_id h) as [d|] eqn:E; cbn [fmap option_fmap option_map].
  - destruct (abs_ok T D r0 _ d Hr0 E) as [Hd _]. destruct (duplicate_usurps T D h addr p d Hd) as [Hu Hu'].
    case_decide as Hc; [rewrite Hu' in Href by done|rewrite (not_true_is_false (is_duplicate _ _ _)) in Href by auto];
      injection Href as -> ->; [done|]. by rewrite fmap_insert, known_update.
  - destruct (decide (64 <= _)%nat); (destruct (decide (_ < 64)%nat); [|]); try lia; injection Href as -> ->; [done|]. by rewrite fmap_insert.
Qed.

Lemma snapshot_specified s addr p elapsed now_ms utc saved :
  let '(accepted, r', _) := acceptSnapshot s addr p elapsed now_ms utc saved r in
  (accepted, known r') = spec_snapshot s addr p (now elapsed now_ms) utc (known r).
Proof.
  pose proof (snapshot_refines T D r Hr s addr p elapsed now_ms utc saved) as Href.
  destruct (acceptSnapshot _ _ _ _ _ _ _ _) as [[accepted r'] sig]. unfold known at 1.
  unfold spec_snapshot, abs_snapshot, known in *. rewrite lookup_fmap.
  destruct (abs (devices r) !! s_device_id s) as [d|] eqn:E; cbn [fmap option_fmap option_map] in *; [|by injection Href as -> ->].
  destruct (matches_counts s addr p d) as [Hu Hu'].
  case_decide as Hc; [rewrite Hu' in Href by done|rewrite (not_true_is_false (snapshot_matches _ _ _ _)) in Href by auto];
    injection Href as -> ->; [|done]. by rewrite fmap_insert.
Qed.

Lemma forget_specified id saved :
  let '(found, r', _) := forgetDevice id saved r in (found, known r') = spec_forget id (known r).
Proof.
  pose proof (forget_refines T D r Hr id saved) as Href. destruct (forgetDevice _ _ _) as [[found r'] sig].
  injection Href as -> Hd. unfold known, spec_forget. rewrite Hd, lookup_fmap, fmap_delete. f_equal.
  apply bool_decide_ext. by rewrite fmap_is_Some.
Qed.
End operations.

(** C5. The registry implements its abstract specification, which is stated apart from the
    code: registering, accepting a snapshot, ageing and forgetting do to the devices as
    the specification knows them what it says, and give its answers, on every branch.  And
    what the specification knows of a valid device determines the device. *)
Theorem registry_refines `{QtCodec} T D r (Hr : registry_ok T D r) :
  (forall h addr p elapsed now_ms saved,
     let '(reason, r', _) := registerHello h addr p elapsed now_ms saved r in
     (reason, known r') = spec_hello h addr p (now elapsed now_ms) (known r)) /\
  (forall s addr p elapsed now_ms utc saved,
     let '(accepted, r', _) := acceptSnapshot s addr p elapsed now_ms utc saved r in
     (accepted, known r') = spec_snapshot s addr p (now elapsed now_ms) utc (known r)) /\
  (forall elapsed now_ms, known (updateFreshness elapsed now_ms r).1 = spec_tick (now elapsed now_ms) (known r)) /\
  (forall id saved,
     let '(found, r', _) := forgetDevice id saved r in (found, known r') = spec_forget id (known r)) /\
  (forall d d', device_ok T D d -> device_ok T D d' -> device_id d = device_id d' -> known_of d = known_of d' -> d = d').
Proof.
  split; [|split; [|split; [|split]]].
  - intros. by apply (hello_specified T D).
  - intros. by apply (snapshot_specified T D).
  - intros. unfold known at 1. rewrite abs_updateFreshness. by apply (known_tick T D).
  - intros. by apply (forget_specified T D).
  - apply known_of_inj.
Qed.

Lemma registry_refines_witness :
  known (updateFreshness 0 5000 sample_online).1 = spec_tick 5000 (known sample_online).
Proof.
  destruct (@registry_refines reference_codec rfc3629 binary64 sample_online sample_online_ok) as (_ & _ & H & _).
  apply H.
Defined.
