(* ===== verification/Receiver.v ===== *)
(** * The UDP receiver (src/telemetry/udp_telemetry_receiver.cpp)

    [processPendingDatagrams] over the socket's queue.  Each datagram meets the clocks
    and the disk of its moment ([env]); the replies it writes are collected in order. *)

From S2P Require Import Prelude.
From S2P Require Import Std.
From S2P Require Import Float64.
From S2P Require Import Cbor.
From S2P Require Import DaemonText.
From S2P Require Import QtCbor.
From S2P Require Import Protocol.
From S2P Require Import DeviceSnapshot.
From S2P Require Import SnapshotCodec.
From S2P Require Import SnapshotWire.
From S2P Require Import Registry.
From S2P Require Import RegistryLaws.

Record datagram := {
  dg_valid : bool;               (* QNetworkDatagram::isValid *)
  dg_payload : list byte;
  dg_address : QHostAddress;
  dg_port : Z }.

(** [receiveDatagram(maxSize)] truncates. *)
Definition received (d : datagram) : list byte := take (Z.to_nat (maximum_datagram_size + 1)) (dg_payload d).

Record Receiver := {
  registry : option Registry;    (* the QPointer *)
  pending : list datagram;
  accepted : Z;                  (* quint64 *)
  dropped : Z;
  sent : list (list byte * QHostAddress * Z) }.

Definition batchSize : nat := 32.

Section receiver.
Context `{QtCodec}.

Definition count_accepted (r : Registry) (out : list (list byte * QHostAddress * Z)) (st : Receiver) : Receiver :=
  {| registry := Some r; pending := pending st; accepted := u64 (accepted st + 1); dropped := dropped st;
     sent := sent st ++ out |}.
Definition count_dropped (r : Registry) (st : Receiver) : Receiver :=
  {| registry := Some r; pending := pending st; accepted := accepted st; dropped := u64 (dropped st + 1);
     sent := sent st |}.

(** The reply to a hello. *)
Definition registration_reply (h : Hello) (reason : string) : TelemetryMessage :=
  MRegistrationResult {| r_device_id := h_device_id h; r_instance_id := h_instance_id h;
    r_accepted := String.eqb reason ""; r_reason := reason |}.

(** The body of the loop, for one datagram. *)
Definition process_datagram (v : env) (d : datagram) (r : Registry) (st : Receiver) : Receiver :=
  if negb (dg_valid d) || (maximum_datagram_size <? len (received d)) then count_dropped r st
  else match decodeMessage (received d) with
       | inl _ => count_dropped r st
       | inr (MHello h) =>
           let '(reason, r', _) := registerHello h (dg_address d) (dg_port d) (e_elapsed v) (-1) (e_saved v) r in
           count_accepted r' [(encodeMessage (registration_reply h reason), dg_address d, dg_port d)] st
       | inr (MDeviceSnapshot s) =>
           let '(ok, r', _) :=
             acceptSnapshot s (dg_address d) (dg_port d) (e_elapsed v) (-1) (e_utc v) (e_saved v) r in
           if ok then count_accepted r' [] st else count_dropped r' st
       | inr (MRegistrationResult _) => count_dropped r st
       end.

(** [while (socket_.hasPendingDatagrams() && processed++ < batchSize)] *)
Fixpoint process_batch (n : nat) (envs : list env) (r : Registry) (st : Receiver) : Receiver :=
  match n, pending st, envs with
  | S n', d :: rest, v :: envs' =>
      let st' := process_datagram v d r
        {| registry := registry st; pending := rest; accepted := accepted st; dropped := dropped st;
           sent := sent st |} in
      match registry st' with
      | Some r' => process_batch n' envs' r' st'
      | None => st'
      end
  | _, _, _ => st
  end.

(** The slot: the new state, and whether it schedules itself again. *)
Definition processPendingDatagrams (envs : list env) (st : Receiver) : Receiver * bool :=
  match registry st with
  | None => (st, false)
  | Some r =>
      let st' := process_batch batchSize envs r st in
      (st', match pending st' with [] => false | _ => true end)
  end.

(** ** The socket *)

(** The object: the receiver, the port the socket is bound to (0: none) and the diagnostic. *)
Record UdpTelemetryReceiver := { core : Receiver; local_port : Z; diagnostic_ : string }.

(** Constructed on a registry. *)
Definition new_receiver (r : Registry) : UdpTelemetryReceiver :=
  {| core := {| registry := Some r; pending := []; accepted := 0; dropped := 0; sent := [] |};
     local_port := 0; diagnostic_ := "" |}.

(** [bind]; the socket was bound to a port, or failed with a text.  The last component: [diagnosticChanged]. *)
Definition bind (outcome : string + Z) (u : UdpTelemetryReceiver) : UdpTelemetryReceiver * bool * bool :=
  match outcome with
  | inr port => ({| core := core u; local_port := port; diagnostic_ := diagnostic_ u |}, true, false)
  | inl error =>
      ({| core := core u; local_port := local_port u; diagnostic_ := "Telemetry receiver bind failed: " ++ error |}, false, true)
  end.

(** [readyRead] or the single shot: the slot runs. *)
Definition activate (envs : list env) (u : UdpTelemetryReceiver) : UdpTelemetryReceiver * bool :=
  let '(c, again) := processPendingDatagrams envs (core u) in
  ({| core := c; local_port := local_port u; diagnostic_ := diagnostic_ u |}, again).

(** The registry is destroyed: the pointer is cleared, the socket closed, which drops its queue. *)
Definition registry_destroyed (u : UdpTelemetryReceiver) : UdpTelemetryReceiver :=
  {| core := {| registry := None; pending := []; accepted := accepted (core u); dropped := dropped (core u);
                sent := sent (core u) |};
     local_port := 0; diagnostic_ := "Telemetry receiver registry is unavailable" |}.

Definition acceptedPackets (u : UdpTelemetryReceiver) : Z := accepted (core u).
Definition droppedPackets (u : UdpTelemetryReceiver) : Z := dropped (core u).

(** Without its registry the receiver does nothing more, whatever is activated late. *)
Lemma destroyed_inert envs u : activate envs (registry_destroyed u) = (registry_destroyed u, false).
Proof. done. Qed.

(** ** Accounting *)

Lemma process_datagram_accounts v d r st :
  accepted st + dropped st + 1 <= uint64_max -> 0 <= accepted st -> 0 <= dropped st ->
  let st' := process_datagram v d r st in
  is_Some (registry st') /\ pending st' = pending st /\
  accepted st' + dropped st' = accepted st + dropped st + 1 /\ 0 <= accepted st' /\ 0 <= dropped st'.
Proof.
  intros Hb Ha Hd. unfold process_datagram.
  assert (Hacc : forall r' out, let st' := count_accepted r' out st in
    is_Some (registry st') /\ pending st' = pending st /\
    accepted st' + dropped st' = accepted st + dropped st + 1 /\ 0 <= accepted st' /\ 0 <= dropped st').
  { intros r' out. cbn. rewrite u64_id by lia. split; [by eexists|]. split; [done|]. lia. }
  assert (Hdrop : forall r', let st' := count_dropped r' st in
    is_Some (registry st') /\ pending st' = pending st /\
    accepted st' + dropped st' = accepted st + dropped st + 1 /\ 0 <= accepted st' /\ 0 <= dropped st').
  { intros r'. cbn. rewrite u64_id by lia. split; [by eexists|]. split; [done|]. lia. }
  case_if; [apply Hdrop|]. destruct (decodeMessage _) as [e|[h|m|s]]; try apply Hdrop.
  - destruct (registerHello _ _ _ _ _ _ _) as [[reason r'] sig]. apply Hacc.
  - destruct (acceptSnapshot _ _ _ _ _ _ _ _) as [[[] r'] sig]; [apply Hacc|apply Hdrop].
Qed.

(** The registry keeps its invariant through a datagram. *)
Lemma process_datagram_ok v d r st r' :
  0 <= e_elapsed v -> registry_ok any_text any_double r ->
  registry (process_datagram v d r st) = Some r' -> registry_ok any_text any_double r'.
Proof.
  intros Hv Hr. unfold process_datagram. case_if; [by intros [= <-]|].
  destruct (decodeMessage _) as [e|[h|m|s]] eqn:E; try (by intros [= <-]).
  - assert (Hm : valid_message any_text any_double (MHello h)).
    { unfold decodeMessage in E. case_if; [done|]. destruct (fromCbor _) as [[| | | | | | |root|]|]; try done.
      by eapply decode_root_sound. }
    pose proof (registerHello_ok _ _ h (dg_address d) (dg_port d) (e_elapsed v) (-1) (e_saved v) r Hm Hr) as Hok.
    destruct (registerHello _ _ _ _ _ _ _) as [[reason r''] sig]. by intros [= <-].
  - assert (Hm : valid_message any_text any_double (MDeviceSnapshot s)).
    { unfold decodeMessage in E. case_if; [done|]. destruct (fromCbor _) as [[| | | | | | |root|]|]; try done.
      by eapply decode_root_sound. }
    pose proof (acceptSnapshot_ok _ _ s (dg_address d) (dg_port d) (e_elapsed v) (-1) (e_utc v) (e_saved v) r
                  Hm Hv Hr) as Hok.
    destruct (acceptSnapshot _ _ _ _ _ _ _ _) as [[[] r''] sig]; by intros [= <-].
Qed.

Definition receiver_ok (st : Receiver) : Prop :=
  0 <= accepted st /\ 0 <= dropped st /\ forall r, registry st = Some r -> registry_ok any_text any_double r.

Lemma process_batch_accounts n envs r st :
  receiver_ok st -> registry st = Some r -> Forall (fun v => 0 <= e_elapsed v) envs ->
  (Nat.min n (length (pending st)) <= length envs)%nat ->
  accepted st + dropped st + Z.of_nat n <= uint64_max ->
  let st' := process_batch n envs r st in
  let k := Nat.min n (length (pending st)) in
  receiver_ok st' /\ is_Some (registry st') /\ pending st' = drop k (pending st) /\
  accepted st' + dropped st' = accepted st + dropped st + Z.of_nat k.
Proof.
  revert envs r st. induction n as [|n IH]; intros envs r st Hok Hr Henv Hlen Hb.
  { cbn. split; [done|]. split; [by eexists|]. rewrite drop_0. split; [done|lia]. }
  destruct st as [reg [|d rest] acc drp out]; cbn [registry pending accepted dropped] in *; subst reg.
  { cbn. split; [done|]. split; [by eexists|]. split; [done|lia]. }
  destruct envs as [|v envs]; [simpl in Hlen; lia|]. inversion Henv as [|? ? Hv Henv']; subst.
  cbn [process_batch pending registry accepted dropped sent]. cbv zeta.
  set (st0 := {| registry := Some r; pending := rest; accepted := acc; dropped := drp; sent := out |}).
  destruct Hok as (Ha & Hd & Hreg). cbn in Ha, Hd, Hreg.
  destruct (process_datagram_accounts v d r st0) as ([r' Er'] & Hp & Hsum & Ha' & Hd'); cbn; [lia..|].
  rewrite Er'.
  assert (Hr' : registry_ok any_text any_double r').
  { eapply process_datagram_ok; [exact Hv| |exact Er']. by apply Hreg. }
  cbn in Hp, Hsum. simpl in Hlen.
  destruct (IH envs r' (process_datagram v d r st0)) as (Hok' & Hs' & Hp' & Hsum'); try done.
  - split; [done|]. split; [done|]. intros r2 Hr2. rewrite Er' in Hr2. by injection Hr2 as <-.
  - rewrite Hp. simpl in Hlen. lia.
  - lia.
  - split; [done|]. split; [done|]. rewrite Hp', Hp. split; [done|]. rewrite Hsum', Hsum, Hp. simpl. lia.
Qed.
End receiver.

(** C12. One activation of the receiver: it takes at most 32 datagrams off the queue, in
    order, counts each exactly once as accepted or dropped, keeps the registry's
    invariant, and schedules itself again exactly when datagrams are left. *)
Theorem receiver_batch `{QtCodec} envs st r
  (Hok : receiver_ok st) (Hr : registry st = Some r) (Henv : Forall (fun v => 0 <= e_elapsed v) envs)
  (Hlen : (batchSize <= length envs)%nat) (Hb : accepted st + dropped st + 32 <= uint64_max) :
  let '(st', again) := processPendingDatagrams envs st in
  let k := Nat.min batchSize (length (pending st)) in
  receiver_ok st' /\ pending st' = drop k (pending st) /\
  accepted st' + dropped st' = accepted st + dropped st + Z.of_nat k /\
  (again = true <-> (batchSize < length (pending st))%nat).
Proof.
  unfold processPendingDatagrams. rewrite Hr.
  destruct (process_batch_accounts batchSize envs r st) as (H1 & _ & H2 & H3); try done.
  { lia. }
  split; [exact H1|]. split; [exact H2|]. split; [exact H3|]. rewrite H2.
  pose proof (length_drop (pending st) (Nat.min batchSize (length (pending st)))) as Hld.
  unfold batchSize in *. destruct (drop _ (pending st)); cbn [length] in Hld; split; intros; (done || lia).
Qed.

(** Every hello is answered, and only hellos are: the reply goes to its sender,
    names its device and instance, and says accepted exactly when no reason is given;
    all other datagrams cause no reply, and undecodable ones leave the registry alone. *)
Theorem hello_answered `{QtCodec} v d r st (Hvalid : dg_valid d = true) :
  let st' := process_datagram v d r st in
  match decodeMessage (received d) with
  | inr (MHello h) =>
      let '(reason, r', _) := registerHello h (dg_address d) (dg_port d) (e_elapsed v) (-1) (e_saved v) r in
      registry st' = Some r' /\
      sent st' = sent st ++ [(encodeMessage (registration_reply h reason), dg_address d, dg_port d)]
  | inr _ => sent st' = sent st
  | inl _ => sent st' = sent st /\ registry st' = Some r
  end.
Proof.
  cbv zeta. unfold process_datagram. rewrite Hvalid.
  destruct (decodeMessage (received d)) as [e|[h|m|s]] eqn:E.
  - by case_if.
  - assert (Hlen : (maximum_datagram_size <? len (received d)) = false).
    { unfold decodeMessage in E. by destruct (_ || _) eqn:Eb in E; [|apply orb_false_iff in Eb as [_ ?]]. }
    rewrite Hlen. cbn [negb orb]. by destruct (registerHello _ _ _ _ _ _ _) as [[reason r'] sig].
  - by case_if; cbn.
  - case_if; [done|]. by destruct (acceptSnapshot _ _ _ _ _ _ _ _) as [[[] r'] sig]; cbn; rewrite ?app_nil_r.
Qed.

Definition sample_receiver : Receiver :=
  {| registry := Some empty_registry;
     pending := [{| dg_valid := true; dg_payload := @encodeMessage reference_codec (MHello sample_hello);
                    dg_address := sample_address; dg_port := 4000 |}];
     accepted := 0; dropped := 0; sent := [] |}.

Lemma receiver_batch_witness :
  accepted (@processPendingDatagrams reference_codec (replicate 32 {| e_elapsed := 0; e_utc := 0; e_saved := true |})
              sample_receiver).1 + dropped (@processPendingDatagrams reference_codec
              (replicate 32 {| e_elapsed := 0; e_utc := 0; e_saved := true |}) sample_receiver).1 = 1.
Proof.
  pose proof (@receiver_batch reference_codec (replicate 32 {| e_elapsed := 0; e_utc := 0; e_saved := true |})
    sample_receiver empty_registry) as Hb.
  destruct (@processPendingDatagrams reference_codec _ sample_receiver) as [st' again].
  destruct Hb as (_ & _ & Hsum & _).
  - split; [done|]. split; [done|]. intros r [= <-]. apply empty_registry_ok.
  - reflexivity.
  - apply Forall_replicate. done.
  - reflexivity.
  - by_decision.
  - exact Hsum.
Defined.

Lemma hello_answered_witness :
  length (sent (@process_datagram reference_codec {| e_elapsed := 0; e_utc := 0; e_saved := true |}
    {| dg_valid := true; dg_payload := @encodeMessage reference_codec (MHello sample_hello);
       dg_address := sample_address; dg_port := 4000 |} empty_registry sample_receiver)) = 1%nat.
Proof.
  pose proof (@hello_answered reference_codec {| e_elapsed := 0; e_utc := 0; e_saved := true |}
    {| dg_valid := true; dg_payload := @encodeMessage reference_codec (MHello sample_hello);
       dg_address := sample_address; dg_port := 4000 |} empty_registry sample_receiver eq_refl) as Ha.
  cbv zeta in Ha. set (m := decodeMessage _) in Ha.
  assert (Hm : m = inr (MHello sample_hello)) by (vm_compute; reflexivity).
  clearbody m. subst m. destruct (registerHello _ _ _ _ _ _ _) as [[reason r'] sig]. destruct Ha as [_ ->]. reflexivity.
Defined.
