(* ===== verification/DaemonCollector.v ===== *)
(** * The daemon's collector (daemon/src/daemon.cpp, class Collector)

    [system_info] and [metrics] over what the machine shows: the contents of readable
    files, the entries of directories, and the answers of [gethostname], [uname],
    [sysconf] and [statvfs].  Paths are the ones the code builds with [rooted]. *)

From S2P Require Import Prelude.
From S2P Require Import Std.
From S2P Require Import Float64.
From S2P Require Import Numbers.
From S2P Require Import Cbor.
From S2P Require Import DaemonText.
From S2P Require Import DaemonConfig.

(** What the kernel answers. *)
Record machine := {
  fs_read : string -> option string;             (* the whole file, if it opens *)
  fs_dir : string -> list string;                (* entry names, in any order *)
  fs_statvfs : string -> option (Z * Z * Z);     (* f_frsize, f_blocks, f_bavail *)
  k_hostname : option string;
  k_uname : option (string * string * string);   (* sysname, release, machine *)
  k_processors : Z }.

(** [rooted(r, p)] *)
Definition rooted (r p : string) : string :=
  path_join r (match p with
               | String c rest => if is_char "/" c then rest else p
               | EmptyString => p
               end).

Definition string_ltb (a b : string) : bool :=
  match String.compare a b with Lt => true | _ => false end.

Definition nul : ascii := "000".

(** The pieces of a text that end at [c] or at the end; no empty last piece. *)
Definition terminated (c : ascii) (s : string) : list string :=
  match List.rev (split_on c s) with
  | EmptyString :: ws => List.rev ws
  | ws => List.rev ws
  end.

Definition lower (s : string) : string := str_map tolower s.

(** [if (value) map[key] = Value::s( *value)] *)
Definition set_text (key : string) (value : option string) (m : std_map Value) : std_map Value :=
  match value with Some v => map_set key (VText v) m | None => m end.

(** [if (!group.empty()) root[key] = Value::object(group)] *)
Definition set_group (key : string) (group : std_map Value) (m : std_map Value) : std_map Value :=
  match group with [] => m | _ => map_set key (VObject group) m end.

(** [std::to_string] of an unsigned number. *)
Fixpoint decimal_digits (fuel : nat) (n : Z) (acc : string) : string :=
  match fuel with
  | O => acc
  | S f => let acc' := String (char_of (48 + n mod 10)) acc in
           if n <? 10 then acc' else decimal_digits f (n / 10) acc'
  end.
Definition to_string (n : Z) : string := decimal_digits 20 n "".

Section collector.
Context (root : string) (k : machine).

Definition bounded_read (p : string) (maximum_bytes : Z) : option string :=
  match fs_read k (rooted root p) with
  | Some contents => if maximum_bytes <? size contents then None else Some contents
  | None => None
  end.

Definition directory_entries (p : string) : list string := isort string_ltb (fs_dir k (rooted root p)).

(** ** system_info *)

Definition info_hostname : option string :=
  let hostname :=
    if String.eqb root "/" && match k_hostname k with Some _ => true | None => false end
    then name ← k_hostname k; clean name
    else contents ← bounded_read "/etc/hostname" kSmallFileLimit; clean contents in
  h ← hostname;
  let short := match find_char "." h with Some n => str_take n h | None => h end in
  if String.eqb short "" then None else Some short.

(** kernel, os and cpu after [uname]. *)
Definition uname_groups : std_map Value * std_map Value * std_map Value :=
  match k_uname k with
  | None => ([], [], [])
  | Some (sysname, release, mach) =>
      let type := option_map lower (clean sysname) in
      let arch := option_map (fun a =>
        let a := lower a in
        let a := if String.eqb a "amd64" then "x86_64"%string else a in
        if String.eqb a "arm64" then "aarch64"%string else a) (clean mach) in
      (set_text "kernel_version" (clean release) (set_text "kernel_type" type []),
       set_text "os_family" type [],
       set_text "architecture" arch [])
  end.

(** One line of /etc/os-release. *)
Definition os_release_line (os : std_map Value) (line : string) : std_map Value :=
  match find_char "=" line with
  | None => os
  | Some separator =>
      let value := str_drop (S separator) line in
      let value :=
        if (1 <? size value) && bool_decide (front value = Some quote) && bool_decide (back value = Some quote)
        then substr 1 (String.length value - 2) value else value in
      match clean value with
      | None => os
      | Some normalized =>
          let key := str_take separator line in
          let os := if String.eqb key "ID" then map_set "os_id" (VText normalized) os else os in
          let os := if String.eqb key "VERSION_ID" then map_set "os_version" (VText normalized) os else os in
          if String.eqb key "PRETTY_NAME" then map_set "os_pretty_name" (VText normalized) os else os
      end
  end.

(** The package and core of each online CPU; [None] when one is missing. *)
Fixpoint core_ids (ids : list Z) : option (list (Z * Z)) :=
  match ids with
  | [] => Some []
  | i :: rest =>
      let topology := ("/sys/devices/system/cpu/cpu" ++ to_string i ++ "/topology/")%string in
      let package := s ← bounded_read (topology ++ "physical_package_id") kSmallFileLimit;
                     unsigned_value32 (trim s) uint32_max in
      let core := s ← bounded_read (topology ++ "core_id") kSmallFileLimit;
                  unsigned_value32 (trim s) uint32_max in
      p ← package; c ← core; cons (p, c) <$> core_ids rest
  end.

Definition cpu_counts (cpu : std_map Value) : std_map Value :=
  match s ← bounded_read "/sys/devices/system/cpu/online" kSmallFileLimit; online_cpu_ids s with
  | Some online =>
      let cpu := map_set "logical_cpu_count" (VUnsigned (len online)) cpu in
      match core_ids online with
      | Some pairs =>
          let cores := Z.of_nat (base.size (list_to_set pairs : gset (Z * Z))) in
          if (0 <? cores) && (cores <=? kMaximumCpuCount)
          then map_set "physical_core_count" (VUnsigned cores) cpu else cpu
      | None => cpu
      end
  | None =>
      if String.eqb root "/" && (0 <? k_processors k) && (k_processors k <=? kMaximumCpuCount)
      then map_set "logical_cpu_count" (VUnsigned (k_processors k)) cpu else cpu
  end.

Definition compatible_list : list string :=
  match bounded_read "/sys/firmware/devicetree/base/compatible" kSmallFileLimit with
  | Some c => omap clean (terminated nul c)
  | None => []
  end.

Definition system_info : Value :=
  let host := set_text "host_name" info_hostname [] in
  let '(kernel, os, cpu) := uname_groups in
  let os := match bounded_read "/etc/os-release" kSmallFileLimit with
            | Some release => fold_left os_release_line (terminated newline release) os
            | None => os
            end in
  let memory := match s ← bounded_read "/proc/meminfo" kSmallFileLimit; memory_bytes s with
                | Some bytes => map_set "total_bytes" (VUnsigned bytes) []
                | None => []
                end in
  let hardware := set_text "manufacturer" (s ← bounded_read "/sys/class/dmi/id/sys_vendor" kSmallFileLimit; clean s) [] in
  let hardware := set_text "model" (s ← bounded_read "/sys/class/dmi/id/product_name" kSmallFileLimit; clean s) hardware in
  let cpuinfo := bounded_read "/proc/cpuinfo" kCpuInfoLimit in
  let cpu := set_text "vendor" (s ← cpuinfo; cpu_info_value s "vendor_id") cpu in
  let cpu := set_text "model" (s ← cpuinfo; cpu_info_value s "model name") cpu in
  let cpu := cpu_counts cpu in
  let ids := compatible_list in
  let is_pi := existsb (starts_with "raspberrypi,") ids in
  let hardware :=
    if is_pi then
      let hw := map_set "manufacturer" (VText "Raspberry Pi") hardware in
      let hw := map_set "compatible_ids" (VArray (map VText ids)) hw in
      let hw := set_text "model"
        (m ← bounded_read "/sys/firmware/devicetree/base/model" kSmallFileLimit;
         clean (str_filter (fun c => negb (is_char nul c)) m)) hw in
      set_text "board_revision" (s ← cpuinfo; cpu_info_value s "Revision") hw
    else hardware in
  let cpu :=
    if is_pi then
      match List.find (starts_with "brcm,bcm") ids with
      | Some i => map_set "model" (VText (str_map toupper (str_drop 5 i))) (map_set "vendor" (VText "Broadcom") cpu)
      | None => cpu
      end
    else cpu in
  VObject (set_group "memory" memory (set_group "cpu" cpu (set_group "hardware" hardware
    (set_group "kernel" kernel (set_group "os" os (set_group "host" host [])))))).
End collector.

(** ** metrics *)

(** The collector's fields. *)
Record Collector := {
  previous_cpu : option (Z * Z);
  previous_network : std_map (Z * Z);
  previous_time : option Z;                  (* steady_clock, nanoseconds *)
  previous_gpu : option (Z * Z) }.

Definition new_collector : Collector :=
  {| previous_cpu := None; previous_network := []; previous_time := None; previous_gpu := None |}.

Definition d1e9 : double := double_of_Z 1000000000.
Definition d1000 : double := double_of_Z 1000.
Definition d100 : double := double_of_Z 100.

(** The sums of the loop over the fields of the cpu line. *)
Fixpoint stat_sums (i : nat) (xs : list Z) (total idle : Z) : Z * Z :=
  match xs with
  | [] => (total, idle)
  | x :: r => stat_sums (S i) r (u64 (total + x))
                (if (i =? 3)%nat || (i =? 4)%nat then u64 (idle + x) else idle)
  end.

(** [std::clamp(1.0 - double(di) / double(dt), 0.0, 1.0)] *)
Definition cpu_usage (prev cur : Z * Z) : option double :=
  if prev.1 <? cur.1 then
    let dt := cur.1 - prev.1 in
    let di := u64 (cur.2 - prev.2) in
    Some (clamp (dsub d1 (ddiv (double_of_Z di) (double_of_Z dt))) d0 d1)
  else None.

Definition meminfo_values (mem : string) : std_map Z :=
  fold_left (fun values line =>
    match find_char ":" line with
    | None => values
    | Some colon =>
        match tokens (str_drop (S colon) line) with
        | [digits; unit] =>
            if negb (String.eqb unit "kB") then values
            else match unsigned_value digits with
                 | Some kibibytes =>
                     if kibibytes <=? kWireMaximum / 1024
                     then map_set (str_take colon line) (kibibytes * 1024) values else values
                 | None => values
                 end
        | _ => values
        end
    end) (getlines mem) [].

Definition add_memory (values : std_map Z) (source target : string) (positive : bool) (memory : std_map Value)
  : std_map Value :=
  match map_find source values with
  | Some v => if negb positive || (0 <? v) then map_set target (VUnsigned v) memory else memory
  | None => memory
  end.

(** [if (both present && available > total) memory.erase(available)] *)
Definition drop_excess (total available : string) (memory : std_map Value) : std_map Value :=
  match map_find total memory, map_find available memory with
  | Some (VUnsigned t), Some (VUnsigned a) => if t <? a then map_erase available memory else memory
  | _, _ => memory
  end.

Definition memory_group (mem : string) : std_map Value :=
  let values := meminfo_values mem in
  let m := add_memory values "MemTotal" "total_bytes" true [] in
  let m := add_memory values "MemAvailable" "available_bytes" false m in
  let m := add_memory values "SwapTotal" "swap_total_bytes" false m in
  let m := add_memory values "SwapFree" "swap_available_bytes" false m in
  drop_excess "swap_total_bytes" "swap_available_bytes" (drop_excess "total_bytes" "available_bytes" m).

Definition nonneg_finite (v : double) : bool := isfinite v && dleb d0 v.

Definition system_group (uptime load : string) : std_map Value :=
  let up := trim uptime in
  let m :=
    match strtod (c_str up) with
    | Some (v, _) => if negb (String.eqb up "") && nonneg_finite v then map_set "uptime_seconds" (VNumber v) [] else []
    | None => []
    end in
  match '(a, r1) ← stream_double load; '(b, r2) ← stream_double r1; '(c, _) ← stream_double r2; Some (a, b, c) with
  | Some (a, b, c) =>
      if nonneg_finite a && nonneg_finite b && nonneg_finite c
      then map_set "load_average_15m" (VNumber c) (map_set "load_average_5m" (VNumber b)
             (map_set "load_average_1m" (VNumber a) m))
      else m
  | None => m
  end.

(** [name.empty() || name.size() > 256 || !utf8(name)] *)
Definition bad_text (s : string) : bool := String.eqb s "" || (256 <? size s) || negb (utf8 s).

Section metrics.
Context (root : string) (k : machine).
Abbreviation read p limit := (bounded_read root k p limit).
Abbreviation entries p := (directory_entries root k p).

(** The temperature of a zone of one of the two kinds, in degrees. *)
Definition zone_milli (zone : string) : option (string * double) :=
  let base := ("/sys/class/thermal/" ++ zone ++ "/")%string in
  type ← read (base ++ "type") kSysfsLimit;
  if negb (cpu_thermal_zone type) && negb (gpu_thermal_zone type) then None
  else
    raw ← read (base ++ "temp") kSysfsLimit;
    '(milli, rest) ← strtod (c_str (trim raw));
    if negb (String.eqb rest "") || negb (isfinite milli) || dltb milli d0 then None else Some (type, milli).

Definition thermal_zone (st : std_map Value * option double) (zone : string) : std_map Value * option double :=
  match zone_milli zone with
  | None => st
  | Some (type, milli) =>
      let '(cpu, gpu_temperature) := st in
      ((if cpu_thermal_zone type && negb (match map_find "temperature_celsius" cpu with Some _ => true | None => false end)
        then map_set "temperature_celsius" (VNumber (ddiv milli d1000)) cpu else cpu),
       (match gpu_temperature with
        | None => if gpu_thermal_zone type then Some (ddiv milli d1000) else None
        | Some t => Some t
        end))
  end.

Definition read_counter (p : string) : option Z := raw ← read p kSysfsLimit; unsigned_value (trim raw).

(** One interface: its entry and what is remembered of it. *)
Definition network_entry (elapsed : double) (prev : std_map (Z * Z)) (name : string)
  : option (std_map Value * option (Z * Z)) :=
  if String.eqb name "lo" || bad_text name then None
  else
    let base := ("/sys/class/net/" ++ name ++ "/statistics/")%string in
    match read_counter (base ++ "rx_bytes"), read_counter (base ++ "tx_bytes") with
    | None, None => None
    | received, transmitted =>
        let n := map_set "name" (VText name) [] in
        let n := match received with
                 | Some v => if v <=? kWireMaximum then map_set "rx_bytes" (VUnsigned v) n else n
                 | None => n end in
        let n := match transmitted with
                 | Some v => if v <=? kWireMaximum then map_set "tx_bytes" (VUnsigned v) n else n
                 | None => n end in
        match received, transmitted with
        | Some rx, Some tx =>
            let n :=
              match map_find name prev with
              | Some (prx, ptx) =>
                  if dltb d0 elapsed && (prx <=? rx) && (ptx <=? tx)
                  then map_set "tx_bytes_per_second" (VNumber (ddiv (double_of_Z (tx - ptx)) elapsed))
                         (map_set "rx_bytes_per_second" (VNumber (ddiv (double_of_Z (rx - prx)) elapsed)) n)
                  else n
              | None => n
              end in
            Some (n, Some (rx, tx))
        | _, _ => Some (n, None)
        end
    end.

(** The loop over the interfaces. *)
Fixpoint network_loop (elapsed : double) (prev : std_map (Z * Z)) (names : list string)
    (networks : list Value) (next : std_map (Z * Z)) : list Value * std_map (Z * Z) :=
  match names with
  | [] => (networks, next)
  | name :: rest =>
      match network_entry elapsed prev name with
      | None => network_loop elapsed prev rest networks next
      | Some (n, remembered) =>
          let next := match remembered with Some p => map_set name p next | None => next end in
          let networks := if (1 <? length n)%nat then networks ++ [VObject n] else networks in
          if (length networks =? kMaximumNetworkInterfaces)%nat then (networks, next)
          else network_loop elapsed prev rest networks next
      end
  end.

Record Mount := { mount_point : string; device : string; read_only : bool }.

Definition parse_mount (line : string) : option Mount :=
  let toks := tokens line in
  match list_find (fun t => t = "-"%string) toks with
  | None => None
  | Some (separator, _) =>
      if (length toks <? 7)%nat || (length toks <=? separator + 2)%nat then None
      else
        let point := mount_path (nth 4 toks "") in
        let dev := mount_path (nth (separator + 2) toks "") in
        if bad_text point || bad_text dev || (negb (String.eqb point "/") && negb (starts_with "/dev/" dev))
        then None
        else Some {| mount_point := point; device := dev;
                     read_only := contains ",ro," ("," ++ nth 5 toks "" ++ ",")%string |}
  end.

Definition mount_before (l r : Mount) : bool :=
  let lp := String.eqb (mount_point l) "/" in
  let rp := String.eqb (mount_point r) "/" in
  if negb (Bool.eqb lp rp) then lp else string_ltb (mount_point l) (mount_point r).

Definition storage_entry (m : Mount) : option Value :=
  '(frsize, blocks, bavail) ← fs_statvfs k (rooted root (mount_point m));
  if (frsize =? 0) || (uint64_max / frsize <? blocks) || (uint64_max / frsize <? bavail) then None
  else
    let total := blocks * frsize in
    let available := bavail * frsize in
    if (total =? 0) || (kWireMaximum <? total) || (total <? available) then None
    else Some (VObject (map_of
      [("mount_point"%string, VText (mount_point m)); ("device_name"%string, VText (device m));
       ("primary"%string, VBoolean (String.eqb (mount_point m) "/"));
       ("read_only"%string, VBoolean (read_only m));
       ("total_bytes"%string, VUnsigned total); ("available_bytes"%string, VUnsigned available)])).

Fixpoint storage_loop (mounts : list Mount) (seen : gset string) (storage : list Value) : list Value :=
  match mounts with
  | [] => storage
  | m :: rest =>
      if bool_decide (mount_point m ∈ seen) then storage_loop rest seen storage
      else
        let seen := {[mount_point m]} ∪ seen in
        match storage_entry m with
        | None => storage_loop rest seen storage
        | Some v =>
            let storage := storage ++ [v] in
            if (length storage =? kMaximumStorageVolumes)%nat then storage else storage_loop rest seen storage
        end
  end.

(** The clock of the first V3D of /sys/class/devfreq. *)
Definition v3d_clock (gpu : std_map Value) : std_map Value :=
  match List.find v3d_entry (entries "/sys/class/devfreq") with
  | Some entry =>
      match read_counter ("/sys/class/devfreq/" ++ entry ++ "/cur_freq") with
      | Some f => if (0 <? f) && (f <=? kWireMaximum) then map_set "core_clock_hz" (VUnsigned f) gpu else gpu
      | None => gpu
      end
  | None => gpu
  end.

(** The busy part of the time between two readings of gpu_stats. *)
Definition v3d_usage (prev current : option (Z * Z)) (gpu : std_map Value) : std_map Value :=
  match current, prev with
  | Some (ts, rt), Some (pts, prt) =>
      if (pts <? ts) && (prt <=? rt) then
        let usage := ddiv (double_of_Z (rt - prt)) (double_of_Z (ts - pts)) in
        if isfinite usage then map_set "usage_ratio" (VNumber (clamp usage d0 d1)) gpu else gpu
      else gpu
  | _, _ => gpu
  end.

(** The V3D branch: the GPU's entry and the new [previous_gpu_]. *)
Definition v3d_gpu (prev : option (Z * Z)) (temperature : option double) : std_map Value * option (Z * Z) :=
  let gpu := v3d_clock [("name"%string, VText "V3D")] in
  let '(gpu, prev') :=
    match List.find v3d_entry (entries "/sys/bus/platform/devices") with
    | Some entry =>
        let current := raw ← read ("/sys/bus/platform/devices/" ++ entry ++ "/gpu_stats") kSysfsLimit; gpu_stats raw in
        (v3d_usage prev current gpu, current)
    | None => (gpu, prev)
    end in
  (match temperature with Some t => map_set "temperature_celsius" (VNumber t) gpu | None => gpu end, prev').

Definition drm_card (entry : string) : option (bool * Value) :=
  if negb (starts_with "card" entry) || (size entry <=? 4) || negb (str_forall isdigit (str_drop 4 entry)) then None
  else
    let base := ("/sys/class/drm/" ++ entry ++ "/")%string in
    name ← (raw ← read (base ++ "device/vendor") kSysfsLimit; gpu_vendor raw);
    let item := map_set "name" (VText name) [] in
    let item :=
      match read_counter (base ++ "gt_cur_freq_mhz") with
      | Some f => if (0 <? f) && (f <=? kWireMaximum / 1000000)
                  then map_set "core_clock_hz" (VUnsigned (f * 1000000)) item else item
      | None => item
      end in
    let item :=
      match read_counter (base ++ "device/gpu_busy_percent") with
      | Some p => if p <=? 100 then map_set "usage_ratio" (VNumber (ddiv (double_of_Z p) d100)) item else item
      | None => item
      end in
    Some ((1 <? length item)%nat, VObject item).

(** [std::ranges::stable_sort(discovered, std::greater{}, first)], at most 16. *)
Definition drm_gpus : list Value :=
  let discovered := omap drm_card (entries "/sys/class/drm") in
  take 16 (map snd (List.filter fst discovered ++ List.filter (fun d => negb (fst d)) discovered)).

Definition set_list (key : string) (l : list Value) (m : std_map Value) : std_map Value :=
  match l with [] => m | _ => map_set key (VArray l) m end.

Definition metrics (now : Z) (st : Collector) : option Value * Collector :=
  let stat := default ""%string (read "/proc/stat" kProcLimit) in
  let '(cpu, cpu_state) :=
    if starts_with "cpu " stat then
      let xs := stream_uint64s (String.length stat) (str_drop 4 stat) in
      let cur := stat_sums 0 xs 0 0 in
      let cpu := match previous_cpu st with
                 | Some prev => match cpu_usage prev cur with
                                | Some u => map_set "usage_ratio" (VNumber u) []
                                | None => []
                                end
                 | None => []
                 end in
      (cpu, Some cur)
    else ([], previous_cpu st) in
  let memory := match read "/proc/meminfo" kProcLimit with Some mem => memory_group mem | None => [] end in
  let system := system_group (default ""%string (read "/proc/uptime" kSysfsLimit))
                  (default ""%string (read "/proc/loadavg" kSysfsLimit)) in
  let '(cpu, gpu_temperature) := fold_left thermal_zone (entries "/sys/class/thermal") (cpu, None) in
  let elapsed := match previous_time st with
                 | Some t => ddiv (double_of_Z (now - t)) d1e9
                 | None => d0
                 end in
  let '(networks, next_network) := network_loop elapsed (previous_network st) (entries "/sys/class/net") [] [] in
  let rt := set_list "network_interfaces" networks [] in
  let mounts := match read "/proc/self/mountinfo" kProcLimit with
                | Some info => omap parse_mount (getlines info)
                | None => []
                end in
  let rt := set_list "storage_volumes" (storage_loop (isort mount_before mounts) ∅ []) rt in
  let v3d_found := existsb v3d_entry (entries "/sys/bus/platform/devices")
                   || existsb v3d_entry (entries "/sys/class/devfreq") in
  let '(rt, gpu_state) :=
    if v3d_found then
      let '(gpu, prev') := v3d_gpu (previous_gpu st) gpu_temperature in
      (map_set "gpus" (VArray [VObject gpu]) rt, prev')
    else (set_list "gpus" drm_gpus rt, previous_gpu st) in
  let rt := set_group "system" system (set_group "memory" memory (set_group "cpu" cpu rt)) in
  (match rt with [] => None | _ => Some (VObject rt) end,
   {| previous_cpu := cpu_state; previous_network := next_network; previous_time := Some now;
      previous_gpu := gpu_state |}).
End metrics.
