(* ===== verification/DaemonRun.v ===== *)
(** * The daemon's messages and its main loop (daemon/src/daemon.cpp: envelope, hello, snapshot, run)

    One iteration of [run]'s loop is a function of what the network answered; the
    theorems connect it to the dashboard's codec. *)

From S2P Require Import Prelude.
From S2P Require Import Std.
From S2P Require Import Float64.
From S2P Require Import Cbor.
From S2P Require Import DaemonText.
From S2P Require Import DaemonConfig.
From S2P Require Import DaemonIdentity.
From S2P Require Import QtCbor.
From S2P Require Import Protocol.
From S2P Require Import DeviceSnapshot.
From S2P Require Import SnapshotCodec.
From S2P Require Import SnapshotWire.

Definition envelope (type : string) (d i : Uuid) : std_map Value :=
  map_of [("device_id"%string, VBytes d); ("instance_id"%string, VBytes i); ("type"%string, VText type);
          ("version"%string, VUnsigned 1)].

Definition hello_value (c : Config) (d i : Uuid) (info : Value) : Value :=
  VObject (map_set "system_info" info
    (map_set "interval_s" (VUnsigned (u64 (interval_seconds c)))
      (map_set "display_name" (VText (display_name c)) (envelope "hello" d i)))).

Definition hello (c : Config) (d i : Uuid) (info : Value) : list byte := cbor (hello_value c d i info).

Definition snapshot_value (c : Config) (d i : Uuid) (seq : Z) (info : Value) (m : option Value) : Value :=
  let v := map_set "system_info" info
    (map_set "sequence" (VUnsigned seq)
      (map_set "interval_s" (VUnsigned (u64 (interval_seconds c))) (envelope "snapshot" d i))) in
  VObject (match m with Some metrics => map_set "metrics" metrics v | None => v end).

Definition snapshot (c : Config) (d i : Uuid) (seq : Z) (info : Value) (m : option Value) : list byte :=
  cbor (snapshot_value c d i seq info m).

(** ** run *)

(** The name announced when none is configured; [None]: [gethostname] failed. *)
Definition effective_config (config : Config) (hostname : option string) : Config :=
  if String.eqb (display_name config) ""
  then set_display_name config (default "remote-device"%string hostname)
  else config.

Record run_state := { seq : Z; registered : bool }.

(** What the system answers in one iteration. *)
Record network := {
  n_resolved : bool;                    (* getaddrinfo succeeded *)
  n_socket : bool;                      (* socket() gave a descriptor *)
  n_reply : option (list byte);         (* recv within two seconds; None: n <= 0 *)
  n_metrics : option Value }.           (* collector.metrics() *)

(** How the iteration ends. *)
Inductive next := Exit (code : Z) | Sleep (seconds : Z) | Continue.

(** [n > 0 && std::find(response, response + n, 0xf5) != response + n], 2048 bytes at most. *)
Definition is_acceptance (reply : option (list byte)) : bool :=
  match reply with
  | Some b => existsb (fun x => byte_val x =? 245) (take 2048 b)
  | None => false
  end.

Definition run_iteration (c : Config) (device instance : Uuid) (info : Value) (once : bool) (w : network)
    (st : run_state) : list (list byte) * run_state * next :=
  if negb (n_resolved w) then
    ([], st, if once then Exit 1 else Sleep (interval_seconds c))
  else if negb (n_socket w) then ([], st, Continue)
  else
    let ok := is_acceptance (n_reply w) in
    let out := hello c device instance info
      :: (if ok then [snapshot c device instance (seq st) info (n_metrics w)] else []) in
    let st' := {| seq := if ok then u64 (seq st + 1) else seq st; registered := ok |} in
    (out, st', if once then Exit (if ok then 0 else 1) else Sleep (if ok then interval_seconds c else 10)).

(** The loop over a sequence of answers. *)
Fixpoint run_loop (c : Config) (device instance : Uuid) (info : Value) (once : bool) (ws : list network)
    (st : run_state) : list (list byte) * run_state * option Z :=
  match ws with
  | [] => ([], st, None)
  | w :: ws' =>
      let '(out, st', n) := run_iteration c device instance info once w st in
      match n with
      | Exit code => (out, st', Some code)
      | _ => let '(out', st'', code) := run_loop c device instance info once ws' st' in (out ++ out', st'', code)
      end
  end.

(** ** The byte that means acceptance *)

(** Does the data item contain the value true? *)
Fixpoint has_true (v : Value) : bool :=
  match v with
  | VBoolean b => b
  | VArray l => existsb has_true l
  | VMap m => existsb (fun kx => has_true kx.2) m
  | _ => false
  end.

Definition true_byte : byte := u8 245.

Lemma head_arg_inv maj ai k r p : head_arg maj ai k r = Some p -> p.1.1.1 = maj /\ p.1.1.2 = ai /\ p.2 ⊆ r.
Proof.
  unfold head_arg. case_if; [done|]. intros [= <-]. cbn. split; [done|]. split; [done|].
  intros x Hx. rewrite <- (take_drop k r). apply elem_of_app. by right.
Qed.

Lemma parse_head_inv bs maj ai n r :
  parse_head bs = Some (maj, ai, n, r) ->
  exists b r0, bs = b :: r0 /\ maj = byte_val b / 32 /\ ai = byte_val b mod 32 /\ r ⊆ bs.
Proof.
  destruct bs as [|b r0]; [done|]. cbn [parse_head]. intros H. exists b, r0. split; [done|].
  assert (Hsub : r0 ⊆ b :: r0) by (intros x Hx; by right).
  repeat case_if; try discriminate; try (apply head_arg_inv in H as (<- & <- & Hr); cbn in *;
    split; [done|]; split; [done|]; set_solver).
  injection H as <- <- _ <-. done.
Qed.

Lemma parse_head_true bs n r : parse_head bs = Some (7, 21, n, r) -> true_byte ∈ bs.
Proof.
  intros (b & r0 & -> & H1 & H2 & _)%parse_head_inv. apply elem_of_cons. left. apply byte_val_inj. unfold true_byte.
  rewrite byte_val_u8_small by lia. pose proof (Z.div_mod (byte_val b) 32). lia.
Qed.

Lemma take_exact_sub n bs b r : take_exact n bs = Some (b, r) -> r ⊆ bs.
Proof.
  unfold take_exact. case_if; [done|]. intros [= _ <-] x Hx.
  rewrite <- (take_drop (Z.to_nat n) bs). apply elem_of_app. by right.
Qed.

Section decode_true.
Context (item : list byte -> option (Value * list byte)).
Context (Hitem : forall bs v r, item bs = Some (v, r) -> r ⊆ bs /\ (has_true v = true -> true_byte ∈ bs)).

Lemma decode_items_true n bs l r :
  decode_items item n bs = Some (l, r) -> r ⊆ bs /\ (existsb has_true l = true -> true_byte ∈ bs).
Proof.
  revert bs l. induction n as [|n IH]; intros bs l; cbn [decode_items]; [by intros [= <- <-]|].
  destruct (item bs) as [[v r0]|] eqn:E; [|done]. cbn [mbind option_bind].
  destruct (decode_items item n r0) as [[vs r1]|] eqn:E'; [|done]. intros [= <- <-].
  apply Hitem in E as [H1 H2]. apply IH in E' as [H3 H4]. split; [set_solver|].
  cbn [existsb]. intros [?|?]%orb_true_iff; [auto|]. apply H1. auto.
Qed.

Lemma decode_pairs_true n bs m r :
  decode_pairs item n bs = Some (m, r) ->
  r ⊆ bs /\ (existsb (fun kx => has_true kx.2) m = true -> true_byte ∈ bs).
Proof.
  revert bs m. induction n as [|n IH]; intros bs m; cbn [decode_pairs]; [by intros [= <- <-]|].
  destruct (item bs) as [[k r0]|] eqn:Ek; [|done]. cbn [mbind option_bind]. destruct k; try done.
  destruct (item r0) as [[v r1]|] eqn:E; [|done]. cbn [mbind option_bind].
  destruct (decode_pairs item n r1) as [[vs r2]|] eqn:E'; [|done]. intros [= <- <-].
  apply Hitem in Ek as [H0 _]. apply Hitem in E as [H1 H2]. apply IH in E' as [H3 H4].
  split; [set_solver|]. cbn [existsb snd]. intros [?|?]%orb_true_iff; [apply H0; auto|]. apply H0, H1. auto.
Qed.
End decode_true.

Lemma decode_item_true fuel bs v r :
  decode_item fuel bs = Some (v, r) -> r ⊆ bs /\ (has_true v = true -> true_byte ∈ bs).
Proof.
  revert bs v r. induction fuel as [|f IH]; intros bs v r; [done|]. cbn [decode_item].
  destruct (parse_head bs) as [[[[maj ai] n] r0]|] eqn:Eh; [|done]. cbn [mbind option_bind].
  pose proof (parse_head_inv _ _ _ _ _ Eh) as (b & r1 & Ebs & _ & _ & Hr0).
  case_if; [by intros [= <- <-]|].
  case_if. { destruct (take_exact n r0) as [[x r2]|] eqn:Et; [|done]. cbn. intros [= <- <-].
    apply take_exact_sub in Et. split; [set_solver|done]. }
  case_if. { destruct (take_exact n r0) as [[x r2]|] eqn:Et; [|done]. cbn. intros [= <- <-].
    apply take_exact_sub in Et. split; [set_solver|done]. }
  case_if. { case_if; [done|]. destruct (decode_items _ _ r0) as [[l r2]|] eqn:El; [|done]. cbn. intros [= <- <-].
    apply (decode_items_true _ IH) in El as [H1 H2]. split; [set_solver|]. intros Ht. apply Hr0. auto. }
  case_if. { case_if; [done|]. destruct (decode_pairs _ _ r0) as [[l r2]|] eqn:El; [|done]. cbn. intros [= <- <-].
    apply (decode_pairs_true _ IH) in El as [H1 H2]. split; [set_solver|]. intros Ht. apply Hr0. auto. }
  case_if; [|done]. case_if; [by intros [= <- <-]|]. case_if.
  - intros [= <- <-]. split; [done|]. intros _. bool_facts. subst. by eapply parse_head_true.
  - case_if; [by intros [= <- <-]|done].
Qed.

Lemma decode_all_true bs v : decode_all bs = Some v -> has_true v = true -> true_byte ∈ bs.
Proof.
  unfold decode_all. destruct (decode_item _ bs) as [[w [|? ?]]|] eqn:E; try done. intros [= <-].
  by apply decode_item_true in E as [_ H].
Qed.
