(* ===== verification/Interop.v ===== *)
(** * Daemon and dashboard together

    The daemon's encoder (Cbor.v, DaemonRun.v) against the dashboard's reader
    (DeviceSnapshot.v, Registry.v, Receiver.v): its messages are understood, and a
    daemon that says hello and then reports appears online. *)

From S2P Require Import Prelude.
From S2P Require Import Std.
From S2P Require Import Float64.
From S2P Require Import Cbor.
From S2P Require Import DaemonText.
From S2P Require Import QtCbor.
From S2P Require Import Protocol.
From S2P Require Import DeviceSnapshot.
From S2P Require Import SnapshotCodec.
From S2P Require Import SnapshotWire.
From S2P Require Import Registry.
From S2P Require Import RegistryLaws.
From S2P Require Import Receiver.
From S2P Require Import DaemonConfig.
From S2P Require Import DaemonIdentity.
From S2P Require Import DaemonRun.

(** ** The daemon's values in Qt's terms *)

Lemma wire_of_of_wire v : wire_of (of_wire v) = v.
Proof.
  induction v as [n|d|s|b|b|l IH|m IH] using Value_nested_ind; try done; cbn [of_wire wire_of].
  - f_equal. rewrite map_map. induction IH as [|v l Hv _ IH]; cbn; [done|]. by rewrite Hv, IH.
  - f_equal. rewrite map_map. cbn [fst snd toQString].
    induction IH as [|[k v] m Hv _ IH]; cbn in *; [done|]. by rewrite Hv, IH.
Qed.

Lemma wire_ok_writable n v : wire_ok n v -> writable n (of_wire v).
Proof.
  revert v. induction n as [|n IH]; intros v; [done|]. destruct v as [z|d|s|b|b|l|m]; cbn [wire_ok of_wire writable];
    try done.
  - unfold len. rewrite length_map. intros [Hl H]. split; [done|]. apply Forall_fmap.
    eapply Forall_impl; [exact H|]. apply IH.
  - unfold len. rewrite length_map, map_map. cbn [fst]. intros (Hl & Hnd & H). split; [done|]. split.
    + rewrite <- (map_map fst QString). by apply (NoDup_fmap_2 QString).
    + apply Forall_fmap. eapply Forall_impl; [exact H|]. intros [k x] [Hk Hx]. split; [by exists k|by apply IH].
Qed.

Section understood.
Context `{QtCodec}.

(** Qt reads what the daemon encodes. *)
Lemma fromCbor_cbor n v :
  (n <= qt_depth)%nat -> wire_ok n v -> exists q, fromCbor (cbor v) = Some q /\ qeq q (of_wire v).
Proof.
  intros Hn Hv. pose proof (writable_denotes n _ (wire_ok_writable n v Hv)) as (Hwf & Hok & Heq).
  rewrite wire_of_of_wire in *.
  destruct (fromCbor_reads (cbor v) (canon v)) as (q & Hq & Hqv).
  - by apply decode_all_cbor.
  - by eapply wire_ok_mono.
  - exists q. split; [done|]. by rewrite Hqv.
Qed.

Lemma fromCbor_cbor_map n m :
  (n <= qt_depth)%nat -> wire_ok n (VMap m) ->
  exists root, fromCbor (cbor (VMap m)) = Some (QMap root) /\
    map_eq root (map (fun kx => (QString kx.1, of_wire kx.2)) m).
Proof.
  intros Hn Hv. destruct (fromCbor_cbor n _ Hn Hv) as (q & Hq & Heq).
  cbn [of_wire] in Heq. inversion Heq; subst; [eexists; split; [exact Hq|reflexivity]|]. eauto.
Qed.
End understood.

Lemma hello_entries c d i info :
  hello_value c d i info =
  VMap [("device_id", VBytes d); ("display_name", VText (display_name c)); ("instance_id", VBytes i);
        ("interval_s", VUnsigned (u64 (interval_seconds c))); ("system_info", info); ("type", VText "hello");
        ("version", VUnsigned 1)]%string.
Proof. reflexivity. Qed.

Definition snapshot_head (c : Config) (d i : Uuid) : list (string * Value) :=
  [("device_id", VBytes d); ("instance_id", VBytes i);
   ("interval_s", VUnsigned (u64 (interval_seconds c)))]%string.
Definition snapshot_tail (s : Z) (info : Value) : list (string * Value) :=
  [("sequence", VUnsigned s); ("system_info", info); ("type", VText "snapshot"); ("version", VUnsigned 1)]%string.

Lemma snapshot_entries c d i s info m :
  snapshot_value c d i s info m =
  VMap (snapshot_head c d i ++ match m with Some x => [("metrics"%string, x)] | None => [] end
        ++ snapshot_tail s info).
Proof. by destruct m. Qed.

(** What the daemon may announce: the configuration [parse_config] accepts with a name,
    ids, and reports the dashboard's readers take. *)
Record announcement (c : Config) (d i : Uuid) (info : Value) (si : SystemInfo) : Prop := {
  an_device : valid_uuid d;
  an_instance : valid_uuid i;
  an_name : validText (display_name c) 128 = true /\ rfc3629 (display_name c);
  an_interval : 1 <= interval_seconds c <= 5;
  an_wire : wire_ok 100 info;
  an_info : infoFromMap (of_wire info) = Some si }.

Ltac concrete_keys := repeat (apply NoDup_cons; split; [by_decision|]); apply NoDup_nil_2.

Lemma uuid_wire_ok n d : valid_uuid d -> wire_ok (S n) (VBytes d).
Proof. intros [Hd _]. cbn. rewrite Hd. small. Qed.

Lemma u64_interval z : 1 <= z <= 5 -> u64 z = z.
Proof. intros. apply u64_id. small. Qed.

Ltac wire_entry := constructor; [split; [key_ok|cbn [snd]]|].

Lemma hello_wire_ok k c d i info si :
  announcement c d i info si -> wire_ok (S k) info -> wire_ok (S (S k)) (hello_value c d i info).
Proof.
  intros [Hd Hi [Hn Hr] Hs _ _] Hw. rewrite hello_entries, u64_interval by done.
  split; [unfold len; cbn; small|]. split; [concrete_keys|].
  wire_entry; [by apply uuid_wire_ok|]. wire_entry; [eapply text_ok_valid; [|exact Hn|exact Hr]; lia|].
  wire_entry; [by apply uuid_wire_ok|]. wire_entry; [cbn; unfold int64_max; lia|]. wire_entry; [exact Hw|].
  wire_entry; [key_ok|]. wire_entry; [cbn; unfold int64_max; lia|]. constructor.
Qed.

Lemma snapshot_wire_ok k c d i s info si m :
  announcement c d i info si -> wire_ok (S k) info -> wire_int s -> opt (wire_ok (S k)) m ->
  wire_ok (S (S k)) (snapshot_value c d i s info m).
Proof.
  intros [Hd Hi [Hn Hr] Hs _ _] Hw Hq Hm. rewrite snapshot_entries.
  unfold snapshot_head, snapshot_tail. rewrite u64_interval by done.
  destruct m as [x|]; cbn [app opt] in *; (split; [unfold len; cbn; small|]); (split; [concrete_keys|]).
  all: wire_entry; [by apply uuid_wire_ok|]; wire_entry; [by apply uuid_wire_ok|].
  all: wire_entry; [cbn; unfold int64_max; lia|].
  1: wire_entry; [exact Hm|].
  all: wire_entry; [exact Hq|]; wire_entry; [exact Hw|]; wire_entry; [key_ok|].
  all: wire_entry; [cbn; unfold int64_max; lia|]; constructor.
Qed.

Ltac entry key value :=
  match goal with |- context [qvalue key ?m] => change (qvalue key m) with value end.

Section messages.
Context `{QtCodec} (c : Config) (d i : Uuid) (info : Value) (si : SystemInfo).
Context (Han : announcement c d i info si).

Lemma decodeMessage_hello :
  len (hello c d i info) <= maximum_datagram_size ->
  decodeMessage (hello c d i info) =
  inr (MHello {| h_device_id := d; h_instance_id := i; h_display_name := display_name c;
                 h_interval_seconds := interval_seconds c; h_system_info := si |}).
Proof.
  intros Hlen. pose proof (hello_wire_ok 99 _ _ _ _ _ Han (an_wire _ _ _ _ _ Han)) as Hok. destruct Han as [Hd Hi [Hn Hr] Hs _ Hinfo].
  unfold decodeMessage, hello in *.
  rewrite (proj2 (Z.ltb_ge _ _)) by done.
  rewrite (proj2 (Z.eqb_neq _ _)) by (pose proof (encode_nonempty (hello_value c d i info)); unfold len, cbor; lia).
  cbn [orb]. rewrite hello_entries, u64_interval in * by done.
  destruct (fromCbor_cbor_map 101 _ ltac:(unfold qt_depth; lia) Hok) as (root & -> & Hroot).
  rewrite (decode_root_proper _ _ Hroot). cbn [map fst snd of_wire]. unfold decode_root. cbv zeta.
  entry "version"%string (QInteger 1). entry "type"%string (QString "hello").
  rewrite (id_reads _ "device_id" d), (id_reads _ "instance_id" i) by done.
  entry "display_name"%string (QString (display_name c)).
  entry "interval_s"%string (QInteger (interval_seconds c)). entry "system_info"%string (of_wire info).
  destruct (bad_interval_reads _ Hs) as [-> ->]. cbn [isString toQString]. rewrite Hn, Hinfo. done.
Qed.

Lemma decodeMessage_snapshot s m sm :
  wire_int s -> opt (wire_ok 100) m -> (forall x, m = Some x -> metricsFromMap (of_wire x) = Some sm) ->
  len (snapshot c d i s info m) <= maximum_datagram_size ->
  decodeMessage (snapshot c d i s info m) =
  inr (MDeviceSnapshot {| s_device_id := d; s_instance_id := i; s_interval_seconds := interval_seconds c;
         s_sequence := s; s_system_info := si; s_metrics := const sm <$> m |}).
Proof.
  intros Hq Hm Hmm Hlen. pose proof (snapshot_wire_ok 99 _ _ _ _ _ _ _ Han (an_wire _ _ _ _ _ Han) Hq Hm) as Hok.
  destruct Han as [Hd Hi _ Hs _ Hinfo].
  unfold decodeMessage, snapshot in *.
  rewrite (proj2 (Z.ltb_ge _ _)) by done.
  rewrite (proj2 (Z.eqb_neq _ _)) by (pose proof (encode_nonempty (snapshot_value c d i s info m)); unfold len, cbor; lia).
  cbn [orb]. rewrite snapshot_entries in *. unfold snapshot_head, snapshot_tail in *.
  rewrite u64_interval in * by done.
  destruct (fromCbor_cbor_map 101 _ ltac:(unfold qt_depth; lia) Hok) as (root & -> & Hroot).
  rewrite (decode_root_proper _ _ Hroot). unfold decode_root. cbv zeta. clear Hok Hroot Hlen.
  destruct m as [x|]; cbn [map fst snd of_wire app].
  all: entry "version"%string (QInteger 1); entry "type"%string (QString "snapshot").
  all: rewrite (id_reads _ "device_id" d), (id_reads _ "instance_id" i) by done.
  all: entry "interval_s"%string (QInteger (interval_seconds c)); entry "system_info"%string (of_wire info).
  all: entry "sequence"%string (QInteger s).
  1: entry "metrics"%string (of_wire x). 2: entry "metrics"%string QUndefined.
  all: destruct (bad_interval_reads _ Hs) as [-> ->]; cbn [isString toQString isInteger toInteger].
  all: rewrite Hinfo, (i64_wire _ Hq), (proj2 (Z.ltb_ge s 0)) by apply Hq; cbn [String.eqb negb orb].
  - rewrite (Hmm x eq_refl). by destruct x.
  - done.
Qed.
End messages.

(** The two sides speak the same protocol: a hello or snapshot the daemon encodes,
    with a configuration in range and reports the dashboard's readers take, is decoded by
    the dashboard to exactly the ids, name, interval, sequence number and reports sent. *)
Theorem daemon_messages_understood `{QtCodec} c d i info si (Han : announcement c d i info si) :
  (len (hello c d i info) <= maximum_datagram_size ->
   decodeMessage (hello c d i info) =
   inr (MHello {| h_device_id := d; h_instance_id := i; h_display_name := display_name c;
                  h_interval_seconds := interval_seconds c; h_system_info := si |})) /\
  (forall s m sm, wire_int s -> opt (wire_ok 100) m ->
   (forall x, m = Some x -> metricsFromMap (of_wire x) = Some sm) ->
   len (snapshot c d i s info m) <= maximum_datagram_size ->
   decodeMessage (snapshot c d i s info m) =
   inr (MDeviceSnapshot {| s_device_id := d; s_instance_id := i; s_interval_seconds := interval_seconds c;
          s_sequence := s; s_system_info := si; s_metrics := const sm <$> m |})).
Proof. split; [by apply decodeMessage_hello|]. intros. by apply decodeMessage_snapshot. Qed.

(** ** Registration and the first snapshot *)

Lemma qvalue_In key m v :
  qvalue key (map (fun kx : string * Value => (QString kx.1, of_wire kx.2)) m) = v -> v <> QUndefined ->
  exists x, (key, x) ∈ m /\ of_wire x = v.
Proof.
  induction m as [|[k x] m IH]; cbn [map qvalue fst snd]; [by intros <-|].
  destruct (String.eqb_spec key k) as [->|].
  - intros <- _. exists x. split; [by left|done].
  - intros Hv Hu. destruct (IH Hv Hu) as (y & Hy & Ey). exists y. split; [by right|done].
Qed.

Section online.
Context `{QtCodec}.

Lemma acceptance_has_byte h :
  valid_uuid (h_device_id h) -> valid_uuid (h_instance_id h) ->
  true_byte ∈ encodeMessage (registration_reply h "").
Proof.
  intros Hd Hi. unfold encodeMessage. set (m := message_map _).
  assert (Hw : writable 6 (QMap m)).
  { eapply writable_map; [apply message_map_ok|small]. split; [exact Hd|]. split; [exact Hi|].
    split; [unfold size; simpl; lia|by apply rfc3629_ascii]. }
  destruct (toCbor_writes 6 _ Hw) as (v & Hv & _ & Heq).
  eapply decode_all_true; [exact Hv|].
  assert (Ea : qvalue "accepted" m = QBool true) by done. clearbody m.
  assert (Hmap : exists es, v = VMap es).
  { inversion Heq as [q E1 E2| |m1 m2 Hm E1 E2]; destruct v; try discriminate; eauto. }
  destruct Hmap as [es ->]. apply toMap_proper in Heq. cbn [of_wire toMap] in Heq.
  specialize (Heq "accepted"%string). rewrite Ea in Heq.
  assert (Eq : qvalue "accepted" (map (fun kx : string * Value => (QString kx.1, of_wire kx.2)) es) = QBool true).
  { destruct (qvalue "accepted" _) eqn:E; inversion Heq; done. }
  apply qvalue_In in Eq as (x & Hx & Ex); [|done]. cbn [has_true]. apply existsb_exists.
  exists ("accepted"%string, x). split; [by apply list_elem_of_In|]. cbn. destruct x; try done. by injection Ex.
Qed.

Lemma is_acceptance_byte b : true_byte ∈ b -> len b <= 2048 -> is_acceptance (Some b) = true.
Proof.
  intros Hin Hl. unfold is_acceptance. rewrite take_ge by (unfold len in Hl; lia).
  apply existsb_exists. exists true_byte. split; [by apply list_elem_of_In|reflexivity].
Qed.

Lemma received_small b v a p :
  len b <= maximum_datagram_size ->
  received {| dg_valid := v; dg_payload := b; dg_address := a; dg_port := p |} = b.
Proof.
  intros Hl. unfold received. cbn. apply take_ge. unfold len, maximum_datagram_size in *. lia.
Qed.

Lemma comes_online c d i info si r st v1 v2 addr p s m sm
  (Han : announcement c d i info si) (Hr : registry_ok any_text any_double r)
  (Hunknown : device d r = None) (Hroom : len (devices r) < maximumDevices)
  (Hv1 : 0 <= e_elapsed v1) (Hv2 : 0 <= e_elapsed v2)
  (Hq : wire_int s) (Hm : opt (wire_ok 100) m)
  (Hmm : forall x, m = Some x -> metricsFromMap (of_wire x) = Some sm)
  (Hsize1 : len (hello c d i info) <= maximum_datagram_size)
  (Hsize2 : len (snapshot c d i s info m) <= maximum_datagram_size) :
  let h := {| h_device_id := d; h_instance_id := i; h_display_name := display_name c;
              h_interval_seconds := interval_seconds c; h_system_info := si |} in
  let reply := encodeMessage (registration_reply h "") in
  let dg b := {| dg_valid := true; dg_payload := b; dg_address := addr; dg_port := p |} in
  let st1 := process_datagram v1 (dg (hello c d i info)) r st in
  sent st1 = sent st ++ [(reply, addr, p)] /\
  (len reply <= 2048 -> is_acceptance (Some reply) = true) /\
  exists r1, registry st1 = Some r1 /\
    let st2 := process_datagram v2 (dg (snapshot c d i s info m)) r1 st1 in
    exists r2 dev, registry st2 = Some r2 /\ device d r2 = Some dev /\
      state dev = Online /\ system_info dev = si /\ metrics dev = const sm <$> m /\
      Registry.display_name dev = display_name c /\ last_sequence dev = Some s.
Proof.
  intros h reply dg st1.
  pose proof (decodeMessage_hello c d i info si Han Hsize1) as Eh. fold h in Eh.
  pose proof (decodeMessage_snapshot c d i info si Han s m sm Hq Hm Hmm Hsize2) as Es.
  assert (Hh : valid_message any_text any_double (MHello h)).
  { unfold decodeMessage in Eh. case_if; [done|]. destruct (fromCbor _) as [[| | | | | | |root|]|]; try done.
    by eapply decode_root_sound. }
  assert (Habs : abs (devices r) !! d = None) by by rewrite abs_lookup.
  pose proof (hello_refines _ _ r Hr h addr p (e_elapsed v1) (-1) (e_saved v1)) as Hreg.
  pose proof (registerHello_ok _ _ h addr p (e_elapsed v1) (-1) (e_saved v1) r Hh Hr) as Hr1.
  unfold st1, process_datagram. cbn [dg_valid negb orb]. unfold dg. rewrite !received_small by done.
  rewrite (proj2 (Z.ltb_ge _ _)), Eh by done. cbn [dg_address dg_port].
  destruct (registerHello h addr p _ _ _ r) as [[reason r1] sig]. cbn [fst snd] in *.
  unfold abs_hello in Hreg. cbv zeta in Hreg. unfold abs_tick in Hreg. cbn [h_device_id h] in Hreg.
  rewrite lookup_fmap, Habs in Hreg. cbn [fmap option_fmap option_map] in Hreg.
  rewrite decide_False in Hreg.
  2: { rewrite map_size_fmap, abs_size by apply Hr. unfold len, maximumDevices in Hroom. lia. }
  injection Hreg as -> Habs1.
  split; [done|]. split.
  { apply is_acceptance_byte, acceptance_has_byte; apply Han. }
  exists r1. split; [done|]. rewrite (proj2 (Z.ltb_ge _ _)), Es by done.
  set (sn := {| s_device_id := d; s_instance_id := i; s_interval_seconds := _; s_sequence := s;
                s_system_info := si; s_metrics := _ |}).
  pose proof (snapshot_refines _ _ r1 Hr1 sn addr p (e_elapsed v2) (-1) (e_utc v2) (e_saved v2)) as Hsnap.
  destruct (acceptSnapshot sn addr p _ _ _ _ r1) as [[ok r2] sig2].
  unfold abs_snapshot in Hsnap. cbn [s_device_id sn] in Hsnap. rewrite Habs1, lookup_insert_eq in Hsnap.
  assert (Hmatch : snapshot_matches sn addr p (new_device h addr p) = true).
  { unfold snapshot_matches. cbn. rewrite !bool_decide_eq_true_2, !Z.eqb_refl by done. done. }
  rewrite Hmatch in Hsnap. injection Hsnap as -> Habs2.
  exists r2, (apply_snapshot sn (now (e_elapsed v2) (-1)) (e_utc v2) (new_device h addr p)).
  split; [done|]. split; [|done]. unfold device. rewrite <- abs_lookup, Habs2. apply lookup_insert_eq.
Qed.

(** A daemon gets online: when the dashboard does not know the device yet and has
    room, it answers the daemon's hello with a reply the daemon takes as acceptance, and
    the snapshot the daemon sends next from the same socket makes the device Online
    with the name, reports and sequence number the daemon sent. *)
Theorem daemon_comes_online c d i info si r st v1 v2 addr p s m sm
  (Han : announcement c d i info si) (Hr : registry_ok any_text any_double r)
  (Hunknown : device d r = None) (Hroom : len (devices r) < maximumDevices)
  (Hv1 : 0 <= e_elapsed v1) (Hv2 : 0 <= e_elapsed v2)
  (Hq : wire_int s) (Hm : opt (wire_ok 100) m)
  (Hmm : forall x, m = Some x -> metricsFromMap (of_wire x) = Some sm)
  (Hsize1 : len (hello c d i info) <= maximum_datagram_size)
  (Hsize2 : len (snapshot c d i s info m) <= maximum_datagram_size) :
  let h := {| h_device_id := d; h_instance_id := i; h_display_name := display_name c;
              h_interval_seconds := interval_seconds c; h_system_info := si |} in
  let reply := encodeMessage (registration_reply h "") in
  let dg b := {| dg_valid := true; dg_payload := b; dg_address := addr; dg_port := p |} in
  let st1 := process_datagram v1 (dg (hello c d i info)) r st in
  sent st1 = sent st ++ [(reply, addr, p)] /\
  (len reply <= 2048 -> is_acceptance (Some reply) = true) /\
  exists r1, registry st1 = Some r1 /\
    let st2 := process_datagram v2 (dg (snapshot c d i s info m)) r1 st1 in
    exists r2 dev, registry st2 = Some r2 /\ device d r2 = Some dev /\
      state dev = Online /\ system_info dev = si /\ metrics dev = const sm <$> m /\
      Registry.display_name dev = display_name c /\ last_sequence dev = Some s.
Proof. by apply comes_online. Qed.
End online.

(** ** The daemon's loop *)

Lemma omap_cons {A B} (f : A -> option B) x l :
  omap f (x :: l) = match f x with Some y => y :: omap f l | None => omap f l end.
Proof. done. Qed.

(** The sequence number a datagram carries, if it is a snapshot. *)
Definition sequence_of (b : list byte) : option Z :=
  match decode_all b with
  | Some (VMap m) => match map_find "sequence" m with Some (VUnsigned z) => Some z | _ => None end
  | _ => None
  end.

(** The iterations whose hello was accepted. *)
Definition accepted_iteration (w : network) : bool := n_resolved w && n_socket w && is_acceptance (n_reply w).

Section loop.
Context (c : Config) (d i : Uuid) (info : Value).
Context (Hname : size (display_name c) <= 128) (Hd : valid_uuid d) (Hi : valid_uuid i).
Context (Hinfo : wf_value info = true).

Lemma interval_wf z : wf_value (VUnsigned (u64 z)) = true.
Proof. cbn. pose proof (u64_range z). rewrite !(proj2 (Z.leb_le _ _)) by lia. done. Qed.

Lemma uuid_wf u : valid_uuid u -> wf_value (VBytes u) = true.
Proof. intros [Hl _]. cbn [wf_value]. rewrite Hl. done. Qed.

Lemma wf_entries m :
  (length m <= 100)%nat -> Forall (fun kx => size kx.1 <= 100 /\ wf_value kx.2 = true) m -> wf_value (VMap m) = true.
Proof.
  intros Hl Hf. cbn [wf_value]. apply andb_true_iff. split; [apply Z.leb_le; unfold len; small|].
  apply forallb_forall. intros kx Hkx%list_elem_of_In. rewrite Forall_forall in Hf. destruct (Hf kx Hkx) as [? ->].
  rewrite (proj2 (Z.leb_le _ _)) by small. done.
Qed.

Lemma sequence_of_hello : sequence_of (hello c d i info) = None.
Proof.
  unfold sequence_of, hello. rewrite hello_entries, decode_all_cbor; [reflexivity|].
  assert (Hs : wf_value (VText (display_name c)) = true) by (cbn; apply Z.leb_le; small).
  apply wf_entries; [simpl; lia|].
  repeat (constructor; [split; [by_decision|cbn [snd]]|]); auto using uuid_wf, interval_wf, Forall_nil_2.
Qed.

Lemma sequence_of_snapshot s m :
  0 <= s <= uint64_max -> opt (fun x => wf_value x = true) m -> sequence_of (snapshot c d i s info m) = Some s.
Proof.
  intros Hs Hm. unfold sequence_of, snapshot.
  assert (Hsq : wf_value (VUnsigned s) = true) by (cbn; rewrite !(proj2 (Z.leb_le _ _)) by lia; done).
  rewrite snapshot_entries.
  destruct m as [x|]; cbn [opt app] in *; (rewrite decode_all_cbor; [reflexivity|]).
  all: apply wf_entries; [simpl; lia|]; unfold snapshot_head, snapshot_tail; cbn [app].
  all: repeat (constructor; [split; [by_decision|cbn [snd]]|]); auto using uuid_wf, interval_wf, Forall_nil_2.
Qed.

Lemma run_loop_sequences ws st :
  0 <= seq st -> seq st + Z.of_nat (length (List.filter accepted_iteration ws)) <= uint64_max ->
  Forall (fun w => opt (fun x => wf_value x = true) (n_metrics w)) ws ->
  let '(out, st', code) := run_loop c d i info false ws st in
  let n := length (List.filter accepted_iteration ws) in
  code = None /\ seq st' = seq st + Z.of_nat n /\ omap sequence_of out = seqZ (seq st) (Z.of_nat n).
Proof.
  revert st. induction ws as [|w ws IH]; intros st H0 Hb Hm; [cbn; split; [done|]; split; [lia|done]|].
  inversion Hm as [|? ? Hw Hws]; subst. cbn [run_loop]. unfold run_iteration.
  cbn [List.filter] in *.
  assert (Ef : accepted_iteration w = n_resolved w && n_socket w && is_acceptance (n_reply w)) by done.
  rewrite Ef in *. clear Ef.
  destruct (n_resolved w); cbn [negb andb] in *.
  2: { specialize (IH st H0 Hb Hws). by destruct (run_loop _ _ _ _ _ ws st) as [[out st'] code]. }
  destruct (n_socket w); cbn [negb andb] in *.
  2: { specialize (IH st H0 Hb Hws). by destruct (run_loop _ _ _ _ _ ws st) as [[out st'] code]. }
  destruct (is_acceptance (n_reply w)) eqn:Ea; cbn [length] in *.
  - rewrite u64_id by lia.
    specialize (IH {| seq := seq st + 1; registered := true |}). cbn [seq] in IH.
    specialize (IH ltac:(lia) ltac:(lia) Hws).
    destruct (run_loop _ _ _ _ _ ws _) as [[out st'] code]. destruct IH as (-> & -> & IH).
    split; [done|]. split; [lia|]. cbn [app]. rewrite omap_cons, sequence_of_hello, omap_cons.
    rewrite sequence_of_snapshot by (done || lia). rewrite IH.
    rewrite (seqZ_cons (seq st)) by lia. f_equal. f_equal; lia.
  - specialize (IH {| seq := seq st; registered := false |}). cbn [seq] in IH.
    specialize (IH ltac:(lia) ltac:(lia) Hws).
    destruct (run_loop _ _ _ _ _ ws _) as [[out st'] code]. destruct IH as (-> & -> & IH).
    split; [done|]. split; [done|]. cbn [app]. by rewrite omap_cons, sequence_of_hello.
Qed.
End loop.

(** The daemon's loop never ends by itself, numbers the snapshots it sends
    consecutively without gap or repetition, one per accepted hello, and sends none
    otherwise. *)
Theorem run_loop_numbers c d i info ws st
  (Hname : size (display_name c) <= 128) (Hd : valid_uuid d) (Hi : valid_uuid i) (Hinfo : wf_value info = true)
  (H0 : 0 <= seq st)
  (Hb : seq st + Z.of_nat (length (List.filter accepted_iteration ws)) <= uint64_max)
  (Hm : Forall (fun w => opt (fun x => wf_value x = true) (n_metrics w)) ws) :
  let '(out, st', code) := run_loop c d i info false ws st in
  let n := length (List.filter accepted_iteration ws) in
  code = None /\ seq st' = seq st + Z.of_nat n /\ omap sequence_of out = seqZ (seq st) (Z.of_nat n).
Proof. by apply run_loop_sequences. Qed.

(** ** Witnesses *)

Definition sample_config : Config :=
  {| host := "pi.local"; port := 51337; interval_seconds := 1; display_name := "Workshop Pi" |}.
Definition sample_report_value : Value := VMap [("host"%string, VMap [("host_name"%string, VText "pi-five")])].
Definition sample_report_info : SystemInfo :=
  {| info_host := {| host_name := Some "pi-five"%string |}; info_os := info_os no_info;
     info_kernel := info_kernel no_info; info_hardware := info_hardware no_info;
     info_cpu := info_cpu no_info; info_memory := info_memory no_info |}.
Definition sample_metrics_value : Value := VMap [("cpu"%string, VMap [("usage_ratio"%string, VNumber half)])].
Definition sample_metrics_read : option SystemMetrics := metricsFromMap (of_wire sample_metrics_value).

Lemma sample_wire_ok k : wire_ok (S (S (S k))) sample_report_value.
Proof.
  split; [by_decision|]. split; [concrete_keys|]. wire_entry; [|constructor].
  split; [by_decision|]. split; [concrete_keys|]. wire_entry; [key_ok|constructor].
Qed.

Lemma sample_metrics_wire_ok k : wire_ok (S (S (S k))) sample_metrics_value.
Proof.
  split; [by_decision|]. split; [concrete_keys|]. wire_entry; [|constructor].
  split; [by_decision|]. split; [concrete_keys|]. wire_entry; [reflexivity|constructor].
Qed.

Lemma sample_announcement :
  announcement sample_config (be_bytes 16 7) (be_bytes 16 9) sample_report_value sample_report_info.
Proof.
  constructor.
  - split; [reflexivity|by_decision].
  - split; [reflexivity|by_decision].
  - split; [reflexivity|by apply rfc3629_ascii].
  - cbn. lia.
  - apply (sample_wire_ok 97).
  - vm_compute. reflexivity.
Qed.

Lemma daemon_messages_understood_witness :
  @decodeMessage reference_codec (hello sample_config (be_bytes 16 7) (be_bytes 16 9) sample_report_value) =
  inr (MHello {| h_device_id := be_bytes 16 7; h_instance_id := be_bytes 16 9; h_display_name := "Workshop Pi";
                 h_interval_seconds := 1; h_system_info := sample_report_info |}).
Proof.
  apply (proj1 (@daemon_messages_understood reference_codec sample_config (be_bytes 16 7) (be_bytes 16 9)
                  sample_report_value sample_report_info sample_announcement)). by_decision.
Defined.

Definition sample_network : network :=
  {| n_resolved := true; n_socket := true; n_reply := Some [u8 245]; n_metrics := Some sample_metrics_value |}.
Definition silent_network : network :=
  {| n_resolved := true; n_socket := true; n_reply := None; n_metrics := None |}.

Definition sample_clock : env := {| e_elapsed := 10; e_utc := 20; e_saved := true |}.

Lemma daemon_comes_online_witness :
  exists r1, registry (@process_datagram reference_codec sample_clock
    {| dg_valid := true; dg_payload := hello sample_config (be_bytes 16 7) (be_bytes 16 9) sample_report_value;
       dg_address := sample_address; dg_port := 4000 |} empty_registry sample_receiver) = Some r1.
Proof.
  destruct sample_metrics_read as [sm|] eqn:Esm; [|by vm_compute in Esm].
  destruct (@daemon_comes_online reference_codec sample_config (be_bytes 16 7) (be_bytes 16 9) sample_report_value
    sample_report_info empty_registry sample_receiver sample_clock sample_clock sample_address 4000 0
    (Some sample_metrics_value) sm) as (_ & _ & r1 & Hr1 & _).
  - exact sample_announcement.
  - apply empty_registry_ok.
  - reflexivity.
  - reflexivity.
  - done.
  - done.
  - done.
  - apply (sample_metrics_wire_ok 97).
  - intros x [= <-]. exact Esm.
  - by_decision.
  - by_decision.
  - exists r1. exact Hr1.
Defined.

Lemma run_loop_numbers_witness :
  let '(out, st', code) := run_loop sample_config (be_bytes 16 7) (be_bytes 16 9) sample_report_value false
    [sample_network; silent_network; sample_network] {| seq := 0; registered := false |} in
  code = None /\ seq st' = 2 /\ omap sequence_of out = [0; 1].
Proof.
  apply (run_loop_numbers sample_config (be_bytes 16 7) (be_bytes 16 9) sample_report_value
    [sample_network; silent_network; sample_network] {| seq := 0; registered := false |}).
  - by_decision.
  - split; [reflexivity|by_decision].
  - split; [reflexivity|by_decision].
  - reflexivity.
  - done.
  - by_decision.
  - repeat constructor.
Defined.

(** The scan for the byte 0xf5 does not look at the reply's structure: a rejection that
    echoes a device id with that byte reads as an acceptance. *)
Example rejection_taken_for_acceptance :
  is_acceptance (Some (@encodeMessage reference_codec
    (MRegistrationResult {| r_device_id := be_bytes 16 245; r_instance_id := be_bytes 16 9; r_accepted := false;
                            r_reason := "registry_full" |}))) = true.
Proof. vm_compute. reflexivity. Qed.
