(* ===== verification/DaemonReports.v ===== *)
(** * The daemon's reports as the dashboard reads them

    The collector's groups have a schema: which keys, with values of which kind.  A map
    that keeps its schema is read by the dashboard's readers without error and can be
    sent; [system_info] and [metrics] keep theirs on every machine whose texts are plain. *)

From S2P Require Import Prelude.
From S2P Require Import Std.
From S2P Require Import Float64.
From S2P Require Import FloatBounds.
From S2P Require Import Cbor.
From S2P Require Import DaemonText.
From S2P Require Import QtCbor.
From S2P Require Import Protocol.
From S2P Require Import DeviceSnapshot.
From S2P Require Import SnapshotCodec.
From S2P Require Import SnapshotWire.
From S2P Require Import Interop.
From S2P Require Import DaemonCollector.

(** ** Maps with a schema *)

Abbreviation good_text := (valid_text rfc3629).

Inductive kind := KText | KCount | KInteger | KRatio | KNumber | KBool | KIds.

Definition has_kind (k : kind) (v : Value) : Prop :=
  match k with
  | KText => exists t, v = VText t /\ good_text t
  | KCount => exists n, v = VUnsigned n /\ 0 <= n <= 256
  | KInteger => exists n, v = VUnsigned n /\ wire_int n
  | KRatio => exists d, v = VNumber d /\ valid_ratio binary64 d
  | KNumber => exists d, v = VNumber d /\ valid_number binary64 d
  | KBool => exists b, v = VBoolean b
  | KIds => exists ids, v = VArray (map VText ids) /\ Forall good_text ids /\ NoDup ids /\ len ids <= 32
  end.

Definition schema := list (string * kind).

(** The schemas of the protocol have few, plain and different keys. *)
Definition schema_ok (s : schema) : Prop :=
  NoDup (map fst s) /\ Forall (fun kx => text_ok kx.1) s /\ (length s <= 32)%nat.

Definition typed (s : schema) (m : std_map Value) : Prop :=
  map_sorted m /\ Forall (fun kv => exists k, (kv.1, k) ∈ s /\ has_kind k kv.2) m.

Definition of_map (m : std_map Value) : qmap := map (fun kx => (QString kx.1, of_wire kx.2)) m.

Lemma typed_nil s : typed s [].
Proof. split; constructor. Qed.

Lemma Forall_map_set {V} (P : string * V -> Prop) k v m : P (k, v) -> Forall P m -> Forall P (map_set k v m).
Proof.
  intros Hkv. induction 1 as [|[j w] m Hj Hm IH]; cbn [map_set]; [by repeat constructor|].
  destruct (String.compare k j); by repeat constructor.
Qed.

Lemma typed_set s m key k v : typed s m -> (key, k) ∈ s -> has_kind k v -> typed s (map_set key v m).
Proof.
  intros [Hs Hm] Hk Hv. split; [by apply map_set_sorted|]. apply Forall_map_set; [by exists k|done].
Qed.

Lemma typed_set_text s m key o : typed s m -> (key, KText) ∈ s -> opt good_text o -> typed s (set_text key o m).
Proof. intros Hm Hk Ho. destruct o as [t|]; [|done]. eapply typed_set; [done..|]. by exists t. Qed.

Lemma map_find_In {V} key (m : std_map V) v : map_find key m = Some v -> (key, v) ∈ m.
Proof.
  induction m as [|[j w] m IH]; cbn [map_find]; [done|]. destruct (String.eqb_spec key j) as [->|]; [intros [= ->]; by left|].
  intros H%IH. by right.
Qed.

Lemma schema_kind s key k k' : schema_ok s -> (key, k) ∈ s -> (key, k') ∈ s -> k = k'.
Proof.
  intros [Hs _]. induction s as [|[j x] s IH]; [by intros ?%elem_of_nil|]. cbn in Hs. apply NoDup_cons in Hs as [Hj Hs].
  assert (Hin : forall y, (j, y) ∈ s -> False) by (intros y Hy; apply Hj; by apply (list_elem_of_fmap_2' fst _ (j, y))).
  intros [[= -> ->]|H1]%elem_of_cons [[= E]|H2]%elem_of_cons; try done; subst; naive_solver.
Qed.

Lemma typed_find s m key k : schema_ok s -> typed s m -> (key, k) ∈ s ->
  match map_find key m with Some v => has_kind k v | None => True end.
Proof.
  intros Hs [_ Hm] Hk. destruct (map_find key m) as [v|] eqn:E; [|done]. apply map_find_In in E.
  rewrite Forall_forall in Hm. destruct (Hm _ E) as (k' & Hk' & Hv). by rewrite (schema_kind s key k k').
Qed.

Lemma qvalue_of_map key m : qvalue key (of_map m) = match map_find key m with Some v => of_wire v | None => QUndefined end.
Proof.
  induction m as [|[j w] m IH]; cbn [of_map map qvalue map_find fst snd]; [done|]. destruct (String.eqb key j); [done|exact IH].
Qed.

(** ** What the readers find in such a map *)

Definition text_at (m : std_map Value) (key : string) : option string :=
  match map_find key m with Some (VText t) => Some t | _ => None end.
Definition unsigned_at (m : std_map Value) (key : string) : option Z :=
  match map_find key m with Some (VUnsigned n) => Some n | _ => None end.
Definition number_at (m : std_map Value) (key : string) : option double :=
  match map_find key m with Some (VNumber d) => Some d | _ => None end.
Definition ids_at (m : std_map Value) (key : string) : option (list string) :=
  match map_find key m with
  | Some (VArray l) => Some (omap (fun v => match v with VText t => Some t | _ => None end) l)
  | _ => None
  end.

Lemma omap_texts ids : omap (fun v => match v with VText t => Some t | _ => None end) (map VText ids) = ids.
Proof. induction ids as [|i ids IH]; cbn; [done|]. by rewrite IH. Qed.

(** Whether a value of the kind is at the key. *)
Definition present (m : std_map Value) (key : string) (k : kind) : bool :=
  match k with
  | KText => has_value (text_at m key)
  | KCount | KInteger => has_value (unsigned_at m key)
  | KRatio | KNumber => has_value (number_at m key)
  | KIds => has_value (ids_at m key)
  | KBool => match map_find key m with Some (VBoolean _) => true | _ => false end
  end.

Lemma typed_present s m : typed s m -> m <> [] -> existsb (fun kx => present m kx.1 kx.2) s = true.
Proof.
  intros [_ Hm] Hne. destruct m as [|[key v] m]; [done|]. apply Forall_cons in Hm as [(k & Hk & Hv) _]. cbn [fst snd] in *.
  apply existsb_exists. exists (key, k). split; [by apply list_elem_of_In|]. cbn [fst snd].
  assert (E : map_find key ((key, v) :: m) = Some v) by (cbn [map_find]; by rewrite String.eqb_refl).
  unfold present, text_at, unsigned_at, number_at, ids_at. rewrite E.
  destruct k; cbn [has_kind] in Hv; destruct Hv as (? & -> & _) || destruct Hv as (? & ->); done.
Qed.

Section readers.
Context (s : schema) (Hs : schema_ok s) (m : std_map Value) (Hm : typed s m).

(** The value at a key of the schema, by its kind. *)
Ltac at_kind key k Hk :=
  pose proof (typed_find s m key k Hs Hm Hk) as Hv; destruct (map_find key m) as [v|]; [|done];
  cbn [has_kind] in Hv; destruct Hv as (? & -> & ?).

Lemma text_at_ok key : (key, KText) ∈ s -> opt good_text (text_at m key).
Proof. intros Hk. unfold text_at. by at_kind key KText Hk. Qed.

Lemma count_at_ok key : (key, KCount) ∈ s -> opt (fun n => 0 <= n <= 256) (unsigned_at m key).
Proof. intros Hk. unfold unsigned_at. by at_kind key KCount Hk. Qed.

Lemma integer_at_ok key : (key, KInteger) ∈ s -> opt wire_int (unsigned_at m key).
Proof. intros Hk. unfold unsigned_at. by at_kind key KInteger Hk. Qed.

Lemma number_at_ok key : (key, KNumber) ∈ s -> opt (valid_number binary64) (number_at m key).
Proof. intros Hk. unfold number_at. by at_kind key KNumber Hk. Qed.

Lemma ratio_at_ok key : (key, KRatio) ∈ s -> opt (valid_ratio binary64) (number_at m key).
Proof. intros Hk. unfold number_at. by at_kind key KRatio Hk. Qed.

Lemma text_of_map key : (key, KText) ∈ s -> text (of_map m) key = Some (text_at m key).
Proof.
  intros Hk. apply (text_reads rfc3629); [by apply text_at_ok|]. rewrite qvalue_of_map. unfold text_at. by at_kind key KText Hk.
Qed.

Lemma integer_of_map key : (key, KInteger) ∈ s -> integer (of_map m) key = Some (unsigned_at m key).
Proof.
  intros Hk. apply integer_reads; [by apply integer_at_ok|]. rewrite qvalue_of_map. unfold unsigned_at. by at_kind key KInteger Hk.
Qed.

Lemma count_of_map key : (key, KCount) ∈ s -> count (of_map m) key = Some (unsigned_at m key).
Proof.
  intros Hk. apply count_reads.
  - pose proof (count_at_ok key Hk) as Ho. destruct (unsigned_at m key); [|done]. cbn in *. unfold uint32_max. lia.
  - rewrite qvalue_of_map. unfold unsigned_at. by at_kind key KCount Hk.
Qed.

Lemma number_of_map key : (key, KNumber) ∈ s -> number (of_map m) key false = Some (number_at m key).
Proof.
  intros Hk. apply (number_reads binary64); [by apply number_at_ok|]. rewrite qvalue_of_map. unfold number_at. by at_kind key KNumber Hk.
Qed.

Lemma ratio_of_map key : (key, KRatio) ∈ s -> number (of_map m) key true = Some (number_at m key).
Proof.
  intros Hk. apply (ratio_reads binary64); [by apply ratio_at_ok|]. rewrite qvalue_of_map. unfold number_at. by at_kind key KRatio Hk.
Qed.

Lemma ids_of_map : ("compatible_ids"%string, KIds) ∈ s -> ids_field (of_map m) = Some (ids_at m "compatible_ids").
Proof.
  intros Hk. apply (ids_field_reads rfc3629).
  - unfold ids_at. at_kind "compatible_ids"%string KIds Hk. cbn. by rewrite omap_texts.
  - rewrite qvalue_of_map. unfold ids_at. at_kind "compatible_ids"%string KIds Hk. cbn [of_wire]. by rewrite omap_texts, !map_map.
Qed.
End readers.

(** ** Such a map can be sent *)

Lemma good_text_ok t : good_text t -> text_ok t.
Proof. intros [Hv Hr]. by eapply text_ok_valid; [|exact Hv|exact Hr]. Qed.

Lemma has_kind_wire n k v : has_kind k v -> wire_ok (S (S n)) v.
Proof.
  destruct k; cbn [has_kind]; intros (x & -> & Hx) || intros (x & ->); cbn [wire_ok]; try done.
  - by apply good_text_ok.
  - unfold int64_max. lia.
  - by destruct Hx as (_ & _ & _ & ?).
  - by destruct Hx as (_ & ?).
  - destruct Hx as (Hx & _ & Hl). unfold len in *. rewrite length_map. split; [unfold uint64_max; lia|].
    apply Forall_map. eapply Forall_impl; [exact Hx|]. intros t Ht. by apply good_text_ok.
Qed.

Lemma typed_length s m : schema_ok s -> typed s m -> (length m <= 32)%nat.
Proof.
  intros (_ & _ & Hl) [Hs Hm]. rewrite <- (length_map fst m), <- (length_map fst s) in *. etransitivity; [|exact Hl].
  apply submseteq_length, NoDup_submseteq; [by apply map_sorted_nodup|].
  intros key ([j v] & -> & Hin)%list_elem_of_fmap. rewrite Forall_forall in Hm. destruct (Hm _ Hin) as (k & Hk & _).
  by apply (list_elem_of_fmap_2 fst s (j, k)).
Qed.

Lemma typed_wire n s m : schema_ok s -> typed s m -> wire_ok (S (S (S n))) (VMap m).
Proof.
  intros Hs Hm. pose proof (typed_length s m Hs Hm). destruct Hs as (_ & Hk & _), Hm as [Hsort Hm].
  split; [unfold len, uint64_max; lia|]. split; [by apply map_sorted_nodup|].
  eapply Forall_impl; [exact Hm|]. intros [key v] (k & Hin & Hv). split; [|by eapply has_kind_wire].
  rewrite Forall_forall in Hk. by apply (Hk _ Hin).
Qed.

(** ** Plain texts: ASCII of at most 256 bytes *)

Definition ascii7 (c : ascii) : bool := char_val c <? 128.
Definition plain (s : string) : Prop := str_forall ascii7 s = true /\ size s <= 256.

Lemma plain_good s : plain s -> s <> ""%string -> good_text s.
Proof.
  intros [Ha Hs] Hne. split; [|by apply rfc3629_ascii]. unfold validText.
  by rewrite (proj2 (String.eqb_neq _ _) Hne), (proj2 (Z.leb_le _ _) Hs).
Qed.

Lemma size_take n s : size (str_take n s) <= size s.
Proof. unfold size. rewrite length_str_take. lia. Qed.

Lemma size_drop n s : size (str_drop n s) <= size s.
Proof. unfold size. pose proof (str_take_drop n s) as E. apply (f_equal String.length) in E. rewrite length_string_app in E. lia. Qed.

Lemma plain_take n s : plain s -> plain (str_take n s).
Proof. intros [Ha Hs]. split; [by apply str_forall_take|]. pose proof (size_take n s). lia. Qed.

Lemma plain_drop n s : plain s -> plain (str_drop n s).
Proof. intros [Ha Hs]. split; [by apply str_forall_drop|]. pose proof (size_drop n s). lia. Qed.

Lemma plain_substr a n s : plain s -> plain (substr a n s).
Proof. intros H. by apply plain_take, plain_drop. Qed.

Lemma plain_map f s : (forall c, ascii7 c = true -> ascii7 (f c) = true) -> plain s -> plain (str_map f s).
Proof.
  intros Hf [Ha Hs]. split; [|unfold size in *; by rewrite length_str_map].
  clear Hs. induction s as [|c s IH]; cbn in *; [done|]. bool_facts. by rewrite Hf, IH.
Qed.

Lemma plain_filter p s : plain s -> plain (str_filter p s).
Proof.
  intros [Ha Hs]. assert (H : str_forall ascii7 (str_filter p s) = true /\ size (str_filter p s) <= size s).
  { clear Hs. unfold size. induction s as [|c s IH]; cbn in *; [done|]. bool_facts. destruct (IH H0) as [IH1 IH2].
    destruct (p c); cbn; [rewrite H, IH1|]; (split; [done|lia]). }
  destruct H. split; [done|lia].
Qed.

Lemma ascii7_tolower c : ascii7 c = true -> ascii7 (tolower c) = true.
Proof. by destruct c as [[] [] [] [] [] [] [] []]. Qed.
Lemma ascii7_toupper c : ascii7 c = true -> ascii7 (toupper c) = true.
Proof. by destruct c as [[] [] [] [] [] [] [] []]. Qed.

Lemma plain_lower s : plain s -> plain (lower s).
Proof. apply plain_map, ascii7_tolower. Qed.

Lemma plain_trim s : plain s -> plain (trim s).
Proof.
  intros H. assert (plain "") by done. unfold trim. destruct (find_if not_blank s), (find_last_if not_blank s); try done.
  by apply plain_substr.
Qed.

Lemma clean_plain s t : plain s -> clean s = Some t -> plain t /\ t <> ""%string.
Proof.
  intros Hs. unfold clean. case_if; [done|]. intros [= <-]. bool_facts. split; [by apply plain_trim|].
  by apply String.eqb_neq.
Qed.

Lemma clean_good s : plain s -> opt good_text (clean s).
Proof. intros Hs. destruct (clean s) as [t|] eqn:E; [|done]. apply clean_plain in E as [??]; [|done]. by apply plain_good. Qed.

Lemma str_map_nonempty f s : s <> ""%string -> str_map f s <> ""%string.
Proof. by destruct s. Qed.

Lemma lower_good s : plain s -> opt good_text (option_map lower (clean s)).
Proof.
  intros Hs. destruct (clean s) as [t|] eqn:E; [|done]. apply clean_plain in E as [Hp Hne]; [|done]. cbn.
  apply plain_good; [by apply plain_lower|by apply str_map_nonempty].
Qed.

(** ** SystemInfo *)

Definition host_schema : schema := [("host_name"%string, KText)].
Definition os_schema : schema :=
  [("os_family", KText); ("os_id", KText); ("os_version", KText); ("os_pretty_name", KText)]%string.
Definition kernel_schema : schema := [("kernel_type", KText); ("kernel_version", KText)]%string.
Definition hardware_schema : schema :=
  [("manufacturer", KText); ("model", KText); ("board_revision", KText); ("compatible_ids", KIds)]%string.
Definition cpu_schema : schema :=
  [("architecture", KText); ("vendor", KText); ("model", KText); ("logical_cpu_count", KCount);
   ("physical_core_count", KCount)]%string.
Definition memory_schema : schema := [("total_bytes"%string, KInteger)].

Ltac schema_ok_tac :=
  split; [cbn [map fst]; concrete_keys|split; [repeat (apply Forall_cons; split; [key_ok|]); apply Forall_nil_2|cbn; lia]].

Lemma host_schema_ok : schema_ok host_schema. Proof. schema_ok_tac. Qed.
Lemma os_schema_ok : schema_ok os_schema. Proof. schema_ok_tac. Qed.
Lemma kernel_schema_ok : schema_ok kernel_schema. Proof. schema_ok_tac. Qed.
Lemma hardware_schema_ok : schema_ok hardware_schema. Proof. schema_ok_tac. Qed.
Lemma cpu_schema_ok : schema_ok cpu_schema. Proof. schema_ok_tac. Qed.
Lemma memory_schema_ok : schema_ok memory_schema. Proof. schema_ok_tac. Qed.

#[export] Hint Resolve typed_nil host_schema_ok os_schema_ok kernel_schema_ok hardware_schema_ok cpu_schema_ok
  memory_schema_ok : dash.

(** A key of a concrete schema. *)
Ltac in_schema := apply list_elem_of_In; cbn; tauto.

Section info.
Context (root : string) (k : machine).
Abbreviation read p limit := (bounded_read root k p limit).

(** The lines of /proc/cpuinfo that are used are plain; those of the flags are long. *)
Definition plain_cpu_line (line : string) : Prop :=
  match find_char ":" line with
  | Some separator => trim (str_take separator line) ∈ ["vendor_id"; "model name"; "Revision"]%string -> plain line
  | None => True
  end.

(** A machine whose texts are plain and whose memory fits the wire. *)
Record plain_info : Prop := {
  pl_hostname_file : forall s, read "/etc/hostname" kSmallFileLimit = Some s -> plain s;
  pl_hostname : forall s, k_hostname k = Some s -> plain s;
  pl_uname : forall a b c, k_uname k = Some (a, b, c) -> plain a /\ plain b /\ plain c;
  pl_release : forall s, read "/etc/os-release" kSmallFileLimit = Some s -> Forall plain (terminated newline s);
  pl_memory : forall s n, read "/proc/meminfo" kSmallFileLimit = Some s -> memory_bytes s = Some n -> n <= int64_max;
  pl_vendor : forall s, read "/sys/class/dmi/id/sys_vendor" kSmallFileLimit = Some s -> plain s;
  pl_product : forall s, read "/sys/class/dmi/id/product_name" kSmallFileLimit = Some s -> plain s;
  pl_model : forall s, read "/sys/firmware/devicetree/base/model" kSmallFileLimit = Some s -> plain s;
  pl_cpuinfo : forall s, read "/proc/cpuinfo" kCpuInfoLimit = Some s -> Forall plain_cpu_line (split_on newline s);
  pl_compatible : Forall plain (compatible_list root k) /\ NoDup (compatible_list root k) /\
                  len (compatible_list root k) <= 32 }.

Context (Hpl : plain_info).

Lemma hostname_good : opt good_text (info_hostname root k).
Proof.
  unfold info_hostname. cbn zeta.
  assert (Hh : forall h, (if String.eqb root "/" && match k_hostname k with Some _ => true | None => false end
    then name ← k_hostname k; clean name
    else contents ← read "/etc/hostname" kSmallFileLimit; clean contents) = Some h -> plain h).
  { intros h. case_if; intros (s & Es & Ec)%bind_Some; apply clean_plain in Ec; try tauto;
      [by apply (pl_hostname Hpl)|by apply (pl_hostname_file Hpl)]. }
  match type of Hh with forall h, ?e = _ -> _ => destruct e as [h|] end; [|done]. cbn [mbind option_bind].
  specialize (Hh h eq_refl).
  destruct (find_char "." h) as [n|]; case_if; try done; apply plain_good; try (by apply String.eqb_neq); [by apply plain_take|done].
Qed.

Lemma host_typed : typed host_schema (set_text "host_name" (info_hostname root k) []).
Proof. apply typed_set_text; [apply typed_nil|in_schema|apply hostname_good]. Qed.

Definition architecture_of (a : string) : string :=
  let a := lower a in
  let a := if String.eqb a "amd64" then "x86_64"%string else a in
  if String.eqb a "arm64" then "aarch64"%string else a.

Lemma architecture_good s : plain s -> opt good_text (option_map architecture_of (clean s)).
Proof.
  intros Hs. pose proof (lower_good s Hs) as Hg. destruct (clean s) as [t|]; [|done]. cbn in *. unfold architecture_of.
  assert (Hc : forall c, validText c 256 = true -> str_forall ascii7 c = true -> good_text c) by (intros; by split; [|apply rfc3629_ascii]).
  destruct (String.eqb (lower t) "amd64"); [by apply Hc|]. case_if; [by apply Hc|done].
Qed.

Lemma uname_typed : let '(kernel, os, cpu) := uname_groups k in
  typed kernel_schema kernel /\ typed os_schema os /\ typed cpu_schema cpu.
Proof.
  unfold uname_groups. destruct (k_uname k) as [[[sysname release] mach]|] eqn:E; [|auto with dash].
  destruct (pl_uname Hpl _ _ _ E) as (H1 & H2 & H3). cbn zeta. split; [|split].
  - apply typed_set_text; [apply typed_set_text; [apply typed_nil|in_schema|by apply lower_good]|in_schema|by apply clean_good].
  - apply typed_set_text; [apply typed_nil|in_schema|by apply lower_good].
  - apply typed_set_text; [apply typed_nil|in_schema|by apply architecture_good].
Qed.

Lemma release_line_typed os line : plain line -> typed os_schema os -> typed os_schema (os_release_line os line).
Proof.
  intros Hl Hos. unfold os_release_line. destruct (find_char "=" line) as [n|]; [|done]. cbn zeta.
  match goal with |- context [clean ?v] => set (value := v) end. assert (Hv : plain value).
  { unfold value. case_if; [apply plain_substr|]; by apply plain_drop. }
  pose proof (clean_good value Hv) as Hc. destruct (clean value) as [t|]; [|done]. cbn in Hc.
  assert (Ht : has_kind KText (VText t)) by by exists t.
  assert (Hset : forall key m (b : bool), (key, KText) ∈ os_schema -> typed os_schema m ->
    typed os_schema (if b then map_set key (VText t) m else m)) by (intros key m [] ? ?; [by eapply typed_set|done]).
  repeat (apply Hset; [in_schema|]). done.
Qed.

Lemma release_typed os : typed os_schema os ->
  typed os_schema (match read "/etc/os-release" kSmallFileLimit with
                   | Some release => fold_left os_release_line (terminated newline release) os
                   | None => os
                   end).
Proof.
  intros Hos. destruct (read "/etc/os-release" _) as [s|] eqn:E; [|done]. pose proof (pl_release Hpl s E) as Hp. clear E.
  revert os Hos. induction Hp as [|l ls Hl _ IH]; intros os Hos; cbn [fold_left]; [done|]. by apply IH, release_line_typed.
Qed.

Lemma cpu_info_good s key : key ∈ ["vendor_id"; "model name"; "Revision"]%string ->
  Forall plain_cpu_line (split_on newline s) -> opt good_text (cpu_info_value s key).
Proof.
  intros Hk. unfold cpu_info_value. induction 1 as [|l ls Hl _ IH]; cbn [cpu_info_lines]; [done|].
  unfold plain_cpu_line in Hl. destruct (find_char ":" l) as [sep|]; [|done].
  destruct (String.eqb_spec (trim (str_take sep l)) key) as [E|]; [by apply clean_good, plain_drop, Hl; rewrite E|done].
Qed.

Lemma cpuinfo_good key : key ∈ ["vendor_id"; "model name"; "Revision"]%string ->
  opt good_text (s ← read "/proc/cpuinfo" kCpuInfoLimit; cpu_info_value s key).
Proof. intros Hk. destruct (read _ _) as [s|] eqn:E; [|done]. cbn. by apply cpu_info_good, (pl_cpuinfo Hpl). Qed.

Lemma cpu_counts_typed cpu : typed cpu_schema cpu -> typed cpu_schema (cpu_counts root k cpu).
Proof.
  intros Hc. unfold cpu_counts. destruct (mbind _ _) as [online|] eqn:E.
  - apply bind_Some in E as (s & _ & Eo). apply online_cpu_ids_spec in Eo as (_ & _ & _ & _ & _ & Hl).
    assert (Hset : typed cpu_schema (map_set "logical_cpu_count" (VUnsigned (len online)) cpu)).
    { eapply typed_set; [done|in_schema|]. exists (len online). unfold len. split; [done|lia]. }
    cbn zeta. destruct (core_ids root k online) as [pairs|]; [|done]. case_if; [|done].
    eapply typed_set; [done|in_schema|]. bool_facts. unfold kMaximumCpuCount in *. eexists. split; [done|]. lia.
  - case_if; [|done]. eapply typed_set; [done|in_schema|]. bool_facts. unfold kMaximumCpuCount in *. eexists. split; [done|]. lia.
Qed.
Lemma memory_typed :
  typed memory_schema (match s ← read "/proc/meminfo" kSmallFileLimit; memory_bytes s with
                       | Some bytes => map_set "total_bytes" (VUnsigned bytes) []
                       | None => []
                       end).
Proof.
  destruct (mbind _ _) as [n|] eqn:E; [|apply typed_nil]. apply bind_Some in E as (s & Es & En).
  eapply typed_set; [apply typed_nil|in_schema|]. exists n. split; [done|]. split; [|by eapply (pl_memory Hpl)].
  apply memory_bytes_spec in En as (_ & _ & _ & _ & _ & _ & (digits & _ & _ & _ & _ & _ & _ & _ & Hd & ->)). lia.
Qed.

Lemma file_good p : (forall s, read p kSmallFileLimit = Some s -> plain s) ->
  opt good_text (s ← read p kSmallFileLimit; clean s).
Proof. intros Hp. destruct (read p _) as [s|] eqn:E; [|done]. cbn. by apply clean_good, Hp. Qed.

Lemma compatible_nonempty i : i ∈ compatible_list root k -> i <> ""%string.
Proof.
  unfold compatible_list. destruct (read _ _); [|by intros ?%elem_of_nil].
  intros (x & _ & Hc)%list_elem_of_omap. unfold clean in Hc. revert Hc. case_if; [done|].
  intros [= <-]. bool_facts. by apply String.eqb_neq.
Qed.

Lemma compatible_good : Forall good_text (compatible_list root k).
Proof.
  apply Forall_forall. intros i Hi. apply plain_good; [|by apply compatible_nonempty].
  destruct (pl_compatible Hpl) as [Hp _]. rewrite Forall_forall in Hp. by apply Hp.
Qed.

Lemma hardware_typed hardware (is_pi : bool) : typed hardware_schema hardware ->
  typed hardware_schema (if is_pi then
      let hw := map_set "manufacturer" (VText "Raspberry Pi") hardware in
      let hw := map_set "compatible_ids" (VArray (map VText (compatible_list root k))) hw in
      let hw := set_text "model"
        (m ← read "/sys/firmware/devicetree/base/model" kSmallFileLimit;
         clean (str_filter (fun c => negb (is_char nul c)) m)) hw in
      set_text "board_revision" (s ← read "/proc/cpuinfo" kCpuInfoLimit; cpu_info_value s "Revision") hw
    else hardware).
Proof.
  intros Hh. destruct is_pi; [|done]. cbn zeta.
  apply typed_set_text; [|in_schema|apply cpuinfo_good; in_schema]. apply typed_set_text; [|in_schema|].
  - eapply typed_set; [eapply typed_set; [done|in_schema|]|in_schema|].
    + exists "Raspberry Pi"%string. split; [done|]. split; [done|by apply rfc3629_ascii].
    + exists (compatible_list root k). split; [done|]. split; [apply compatible_good|apply (pl_compatible Hpl)].
  - destruct (read _ _) as [s|] eqn:E; [|done]. cbn. apply clean_good, plain_filter, (pl_model Hpl), E.
Qed.

Lemma soc_typed cpu (is_pi : bool) : typed cpu_schema cpu ->
  typed cpu_schema (if is_pi then
      match List.find (starts_with "brcm,bcm") (compatible_list root k) with
      | Some i => map_set "model" (VText (str_map toupper (str_drop 5 i))) (map_set "vendor" (VText "Broadcom") cpu)
      | None => cpu
      end
    else cpu).
Proof.
  intros Hc. destruct is_pi; [|done]. destruct (List.find _ _) as [i|] eqn:E; [|done].
  apply find_some in E as [Hi%list_elem_of_In Hs]. destruct (pl_compatible Hpl) as [Hg _]. rewrite Forall_forall in Hg.
  eapply typed_set; [eapply typed_set; [done|in_schema|]|in_schema|].
  - exists "Broadcom"%string. split; [done|]. split; [done|by apply rfc3629_ascii].
  - eexists. split; [done|]. apply plain_good; [by apply plain_map, plain_drop, Hg; [apply ascii7_toupper|]|].
    apply str_map_nonempty. apply starts_with_app in Hs as [r ->]. done.
Qed.

(** The report is made of six groups that keep their schemas. *)
Lemma system_info_groups : exists host os kernel hardware cpu memory,
  system_info root k = VObject (set_group "memory" memory (set_group "cpu" cpu (set_group "hardware" hardware
    (set_group "kernel" kernel (set_group "os" os (set_group "host" host [])))))) /\
  typed host_schema host /\ typed os_schema os /\ typed kernel_schema kernel /\ typed hardware_schema hardware /\
  typed cpu_schema cpu /\ typed memory_schema memory.
Proof.
  pose proof uname_typed as Hu. unfold system_info. destruct (uname_groups k) as [[kernel os] cpu].
  destruct Hu as (Hk & Ho & Hc). do 6 eexists. split; [reflexivity|].
  split; [apply host_typed|]. split; [by apply release_typed|]. split; [done|].
  split; [|split; [|apply memory_typed]].
  - apply hardware_typed. apply typed_set_text; [apply typed_set_text; [auto with dash|in_schema|]|in_schema|];
      by apply file_good, Hpl.
  - apply soc_typed, cpu_counts_typed.
    apply typed_set_text; [apply typed_set_text; [done|in_schema|]|in_schema|]; apply cpuinfo_good; in_schema.
Qed.
End info.

(** ** Groups *)

(** The value a group has in its report: empty groups are left out. *)
Definition group_value (g : std_map Value) : option Value := match g with [] => None | _ => Some (VObject g) end.

Lemma map_find_group_ne key j g m : key <> j -> map_find key (set_group j g m) = map_find key m.
Proof. intros Hk. destruct g; [done|]. by apply map_find_set_ne. Qed.

Lemma map_find_group_eq key g m : map_find key m = None -> map_find key (set_group key g m) = group_value g.
Proof. intros Hm. destruct g; [done|]. apply map_find_set_eq. Qed.

Lemma section_group key m g : map_find key m = group_value g -> section (of_map m) key = Some (of_map g).
Proof. intros E. unfold section. rewrite qvalue_of_map, E. by destruct g. Qed.

(** ** Maps built key by key can be sent *)

Definition wire_entries (n count : nat) (m : std_map Value) : Prop :=
  map_sorted m /\ (length m <= count)%nat /\ Forall (fun kx => text_ok kx.1 /\ wire_ok n kx.2) m.

Lemma entries_nil n : wire_entries n 0 [].
Proof. split; [constructor|]. by split; [|constructor]. Qed.

Lemma length_map_set {V} key (v : V) m : (length (map_set key v m) <= S (length m))%nat.
Proof.
  induction m as [|[j w] m IH]; cbn [map_set length]; [done|]. destruct (String.compare key j); cbn [length]; lia.
Qed.

Lemma entries_set n count key v m :
  text_ok key -> wire_ok n v -> wire_entries n count m -> wire_entries n (S count) (map_set key v m).
Proof.
  intros Hk Hv (Hs & Hl & Hm). split; [by apply map_set_sorted|]. split; [|by apply Forall_map_set].
  pose proof (length_map_set key v m). lia.
Qed.

Lemma entries_weaken n count m : wire_entries n count m -> wire_entries n (S count) m.
Proof. intros (Hs & Hl & Hm). split; [done|]. split; [lia|done]. Qed.

Lemma entries_group n count key g m :
  text_ok key -> (g <> [] -> wire_ok n (VObject g)) -> wire_entries n count m ->
  wire_entries n (S count) (set_group key g m).
Proof.
  intros Hk Hg Hm. destruct g as [|e g]; [by apply entries_weaken|]. by apply entries_set; [|apply Hg|].
Qed.

Lemma entries_wire n count m : Z.of_nat count <= uint64_max -> wire_entries n count m -> wire_ok (S n) (VMap m).
Proof.
  intros Hc (Hs & Hl & Hm). split; [unfold len; lia|]. by split; [apply map_sorted_nodup|].
Qed.

(** The report of a machine in the dashboard's terms. *)
Definition info_of (host os kernel hardware cpu memory : std_map Value) : SystemInfo :=
  {| info_host := {| host_name := text_at host "host_name" |};
     info_os := {| os_family := text_at os "os_family"; os_id := text_at os "os_id";
                   os_version := text_at os "os_version"; os_pretty_name := text_at os "os_pretty_name" |};
     info_kernel := {| kernel_type := text_at kernel "kernel_type"; kernel_version := text_at kernel "kernel_version" |};
     info_hardware := {| manufacturer := text_at hardware "manufacturer"; hw_model := text_at hardware "model";
                         board_revision := text_at hardware "board_revision";
                         compatible_ids := ids_at hardware "compatible_ids" |};
     info_cpu := {| architecture := text_at cpu "architecture"; vendor := text_at cpu "vendor";
                    cpu_model := text_at cpu "model"; logical_cpu_count := unsigned_at cpu "logical_cpu_count";
                    physical_core_count := unsigned_at cpu "physical_core_count" |};
     info_memory := {| info_total_bytes := unsigned_at memory "total_bytes" |} |}.

Section groups.
Context (host os kernel hardware cpu memory : std_map Value).
Context (Hhost : typed host_schema host) (Hos : typed os_schema os) (Hkernel : typed kernel_schema kernel)
  (Hhardware : typed hardware_schema hardware) (Hcpu : typed cpu_schema cpu) (Hmemory : typed memory_schema memory).
Abbreviation root := (set_group "memory" memory (set_group "cpu" cpu (set_group "hardware" hardware
  (set_group "kernel" kernel (set_group "os" os (set_group "host" host [])))))).

Lemma groups_sorted : map_sorted root.
Proof.
  assert (Hset : forall key g m, map_sorted m -> map_sorted (set_group key g m)).
  { intros key [|e g] m Hm; cbn [set_group]; [done|by apply map_set_sorted]. }
  repeat apply Hset. constructor.
Qed.

Ltac find_group :=
  repeat (rewrite map_find_group_ne by by_decision); try reflexivity;
  apply map_find_group_eq; repeat (rewrite map_find_group_ne by by_decision); reflexivity.

Lemma infoFromMap_groups :
  infoFromMap (of_wire (VObject root)) =
  if info_hasAnyValue (info_of host os kernel hardware cpu memory)
  then Some (info_of host os kernel hardware cpu memory) else None.
Proof.
  unfold infoFromMap. cbn [VObject of_wire isMap negb toMap]. change (map _ root) with (of_map root).
  rewrite (section_group "host" root host) by find_group. cbn [mbind option_bind].
  rewrite (section_group "os" root os) by find_group. cbn [mbind option_bind].
  rewrite (section_group "kernel" root kernel) by find_group. cbn [mbind option_bind].
  rewrite (section_group "hardware" root hardware) by find_group. cbn [mbind option_bind].
  rewrite (section_group "cpu" root cpu) by find_group. cbn [mbind option_bind].
  rewrite (section_group "memory" root memory) by find_group. cbn [mbind option_bind].
  rewrite (text_of_map _ host_schema_ok _ Hhost "host_name") by in_schema. cbn [mbind option_bind].
  rewrite !(text_of_map _ os_schema_ok _ Hos) by in_schema. cbn [mbind option_bind].
  rewrite !(text_of_map _ kernel_schema_ok _ Hkernel) by in_schema. cbn [mbind option_bind].
  rewrite !(text_of_map _ hardware_schema_ok _ Hhardware) by in_schema. cbn [mbind option_bind].
  rewrite !(text_of_map _ cpu_schema_ok _ Hcpu) by in_schema. cbn [mbind option_bind].
  rewrite !(count_of_map _ cpu_schema_ok _ Hcpu) by in_schema. cbn [mbind option_bind].
  rewrite (integer_of_map _ memory_schema_ok _ Hmemory) by in_schema. cbn [mbind option_bind].
  rewrite (ids_of_map _ hardware_schema_ok _ Hhardware) by in_schema. cbn [mbind option_bind].
  pose proof (count_at_ok _ cpu_schema_ok _ Hcpu "logical_cpu_count" ltac:(in_schema)) as Hl.
  destruct (unsigned_at cpu "logical_cpu_count") as [n|] eqn:E; [|unfold info_of; by rewrite E].
  rewrite (proj2 (Z.ltb_ge _ _)) by apply Hl. unfold info_of. by rewrite E.
Qed.

(** A report that is not empty says something. *)
Lemma groups_say : root <> [] -> info_hasAnyValue (info_of host os kernel hardware cpu memory) = true.
Proof.
  intros Hne. apply not_false_is_true. intros Hno. apply Hne. clear Hne.
  unfold info_hasAnyValue, info_of in Hno. cbn [info_host info_os info_kernel info_hardware info_cpu info_memory
    host_name os_family os_id os_version os_pretty_name kernel_type kernel_version manufacturer hw_model board_revision
    compatible_ids architecture vendor cpu_model logical_cpu_count physical_core_count info_total_bytes] in Hno.
  repeat match goal with H : (_ || _) = false |- _ => apply orb_false_iff in H as [? ?] end.
  assert (Hnil : forall s m, typed s m -> existsb (fun kx => present m kx.1 kx.2) s = false -> m = []).
  { intros s m Hm Hf. destruct (decide (m = [])) as [->|Hn]; [done|]. by rewrite typed_present in Hf. }
  pose proof (Hnil _ _ Hhost) as ->; [|cbn; by repeat (apply orb_false_iff; split)].
  pose proof (Hnil _ _ Hos) as ->; [|cbn; by repeat (apply orb_false_iff; split)].
  pose proof (Hnil _ _ Hkernel) as ->; [|cbn; by repeat (apply orb_false_iff; split)].
  pose proof (Hnil _ _ Hhardware) as ->; [|cbn; by repeat (apply orb_false_iff; split)].
  pose proof (Hnil _ _ Hcpu) as ->; [|cbn; by repeat (apply orb_false_iff; split)].
  pose proof (Hnil _ _ Hmemory) as ->; [|cbn; by repeat (apply orb_false_iff; split)].
  done.
Qed.

(** The report can be sent. *)
Lemma groups_wire n : wire_ok (S (S (S (S n)))) (VObject root).
Proof.
  assert (Hg : forall s g, typed s g -> schema_ok s -> g <> [] -> wire_ok (S (S (S n))) (VObject g)).
  { intros. by eapply typed_wire. }
  apply (entries_wire _ 6); [unfold uint64_max; lia|].
  repeat (apply entries_group; [key_ok|eapply Hg; [eassumption|auto with dash]|]). apply entries_nil.
Qed.
End groups.
