(* ===== verification/DaemonMetricsReport.v ===== *)
(** * The daemon's metrics as the dashboard reads them

    The groups and entries [metrics] collects keep their schemas, its lists are short and
    name nothing twice; so the dashboard's reader takes them, field by field. *)

From S2P Require Import Prelude.
From S2P Require Import Std.
From S2P Require Import Float64.
From S2P Require Import FloatBounds.
From S2P Require Import Numbers.
From S2P Require Import NumbersLaws.
From S2P Require Import Cbor.
From S2P Require Import DaemonText.
From S2P Require Import QtCbor.
From S2P Require Import Protocol.
From S2P Require Import DeviceSnapshot.
From S2P Require Import SnapshotCodec.
From S2P Require Import SnapshotWire.
From S2P Require Import DaemonConfig.
From S2P Require Import DaemonCollector.
From S2P Require Import DaemonReports.

(** ** Schemas *)

Definition usage_schema : schema := [("usage_ratio", KRatio); ("temperature_celsius", KNumber)]%string.
Definition memory_use_schema : schema :=
  [("total_bytes", KInteger); ("available_bytes", KInteger); ("swap_total_bytes", KInteger);
   ("swap_available_bytes", KInteger)]%string.
Definition system_schema : schema :=
  [("uptime_seconds", KNumber); ("load_average_1m", KNumber); ("load_average_5m", KNumber);
   ("load_average_15m", KNumber)]%string.
Definition network_schema : schema :=
  [("name", KText); ("rx_bytes", KInteger); ("tx_bytes", KInteger); ("rx_bytes_per_second", KNumber);
   ("tx_bytes_per_second", KNumber)]%string.
Definition storage_schema : schema :=
  [("mount_point", KText); ("device_name", KText); ("primary", KBool); ("read_only", KBool);
   ("total_bytes", KInteger); ("available_bytes", KInteger)]%string.
Definition gpu_schema : schema :=
  [("name", KText); ("core_clock_hz", KInteger); ("usage_ratio", KRatio); ("temperature_celsius", KNumber)]%string.

Lemma usage_schema_ok : schema_ok usage_schema. Proof. schema_ok_tac. Qed.
Lemma memory_use_schema_ok : schema_ok memory_use_schema. Proof. schema_ok_tac. Qed.
Lemma system_schema_ok : schema_ok system_schema. Proof. schema_ok_tac. Qed.
Lemma network_schema_ok : schema_ok network_schema. Proof. schema_ok_tac. Qed.
Lemma storage_schema_ok : schema_ok storage_schema. Proof. schema_ok_tac. Qed.
Lemma gpu_schema_ok : schema_ok gpu_schema. Proof. schema_ok_tac. Qed.
#[export] Hint Resolve usage_schema_ok memory_use_schema_ok system_schema_ok network_schema_ok storage_schema_ok
  gpu_schema_ok : dash.

(** ** Entries of the lists *)

Definition name_of (key : string) (m : std_map Value) : string := default "" (text_at m key).
Definition bool_at (m : std_map Value) (key : string) : bool :=
  match map_find key m with Some (VBoolean b) => b | _ => false end.

Definition network_of (m : std_map Value) : NetworkInterface :=
  {| ni_name := name_of "name" m; rx_bytes := unsigned_at m "rx_bytes"; tx_bytes := unsigned_at m "tx_bytes";
     rx_bytes_per_second := number_at m "rx_bytes_per_second";
     tx_bytes_per_second := number_at m "tx_bytes_per_second" |}.

Definition storage_of (m : std_map Value) : StorageVolume :=
  {| Protocol.mount_point := name_of "mount_point" m; device_name := name_of "device_name" m;
     primary := bool_at m "primary"; Protocol.read_only := bool_at m "read_only";
     sv_total_bytes := unsigned_at m "total_bytes"; sv_available_bytes := unsigned_at m "available_bytes" |}.

Definition gpu_of (m : std_map Value) : Gpu :=
  {| gpu_name := name_of "name" m; gpu_usage_ratio := number_at m "usage_ratio"; memory_total_bytes := None;
     memory_used_bytes := None; core_clock_hz := unsigned_at m "core_clock_hz"; memory_clock_hz := None;
     gpu_temperature_celsius := number_at m "temperature_celsius" |}.

(** An entry of a list: it keeps the schema and has its texts. *)
Definition entry_ok (s : schema) (required : list string) (m : std_map Value) : Prop :=
  typed s m /\ Forall (fun key => map_find key m <> None) required.

Definition network_ok := entry_ok network_schema ["name"%string].
Definition gpu_ok := entry_ok gpu_schema ["name"%string].
Definition storage_ok (m : std_map Value) : Prop :=
  entry_ok storage_schema ["mount_point"; "device_name"; "primary"; "read_only"]%string m /\
  exceeds (unsigned_at m "total_bytes") (unsigned_at m "available_bytes") = false.

Lemma entry_set s required m key k v : entry_ok s required m -> (key, k) ∈ s -> has_kind k v ->
  entry_ok s required (map_set key v m).
Proof.
  intros [Hm Hr] Hk Hv. split; [by eapply typed_set|]. eapply Forall_impl; [exact Hr|]. intros j Hj.
  destruct (decide (j = key)) as [->|]; [by rewrite map_find_set_eq|by rewrite map_find_set_ne].
Qed.

Section entries.
Context (s : schema) (Hs : schema_ok s) (m : std_map Value) (Hm : typed s m).

Lemma text_entry key : (key, KText) ∈ s -> map_find key m <> None ->
  qvalue key (of_map m) = QString (name_of key m) /\ good_text (name_of key m).
Proof.
  intros Hk Hf. pose proof (typed_find s m key KText Hs Hm Hk) as Hv. unfold name_of, text_at. rewrite qvalue_of_map.
  destruct (map_find key m); [|done]. by destruct Hv as (t & -> & Ht).
Qed.

Lemma bool_entry key : (key, KBool) ∈ s -> map_find key m <> None -> qvalue key (of_map m) = QBool (bool_at m key).
Proof.
  intros Hk Hf. pose proof (typed_find s m key KBool Hs Hm Hk) as Hv. unfold bool_at. rewrite qvalue_of_map.
  destruct (map_find key m); [|done]. by destruct Hv as (t & ->).
Qed.

Lemma absent key : key ∉ map fst s -> qvalue key (of_map m) = QUndefined.
Proof.
  intros Hk. rewrite qvalue_of_map. destruct (map_find key m) as [v|] eqn:E; [|done]. apply map_find_In in E.
  destruct Hm as [_ Hf]. rewrite Forall_forall in Hf. destruct (Hf _ E) as (k & Hin & _). destruct Hk.
  by apply (list_elem_of_fmap_2 fst s (key, k)).
Qed.
End entries.

Lemma read_network_entry m seen : network_ok m -> name_of "name" m ∉ seen ->
  read_network (of_map m) seen = Some (network_of m, name_of "name" m).
Proof.
  intros [Hm Hr] Hn. apply Forall_cons in Hr as [Hr _]. unfold read_network. cbv zeta.
  destruct (text_entry _ network_schema_ok m Hm "name" ltac:(in_schema) Hr) as [-> Ht].
  rewrite (bad_name_reads rfc3629) by done.
  rewrite !(integer_of_map _ network_schema_ok _ Hm) by in_schema. cbn [mbind option_bind].
  by rewrite !(number_of_map _ network_schema_ok _ Hm) by in_schema.
Qed.

Lemma read_gpu_entry m seen : gpu_ok m -> name_of "name" m ∉ seen ->
  read_gpu (of_map m) seen = Some (gpu_of m, name_of "name" m).
Proof.
  intros [Hm Hr] Hn. apply Forall_cons in Hr as [Hr _]. unfold read_gpu. cbv zeta.
  destruct (text_entry _ gpu_schema_ok m Hm "name" ltac:(in_schema) Hr) as [-> Ht].
  rewrite (bad_name_reads rfc3629) by done.
  rewrite (ratio_of_map _ gpu_schema_ok _ Hm) by in_schema. cbn [mbind option_bind].
  assert (Hno : forall key, key ∉ map fst gpu_schema -> integer (of_map m) key = Some None).
  { intros key Hk. unfold integer. by rewrite (absent gpu_schema). }
  rewrite (Hno "memory_total_bytes"%string), (Hno "memory_used_bytes"%string), (Hno "memory_clock_hz"%string) by by_decision.
  cbn [mbind option_bind]. rewrite (integer_of_map _ gpu_schema_ok _ Hm) by in_schema. cbn [mbind option_bind].
  by rewrite (number_of_map _ gpu_schema_ok _ Hm) by in_schema.
Qed.

Lemma read_storage_entry m seen : storage_ok m -> name_of "mount_point" m ∉ seen ->
  read_storage (of_map m) seen = Some (storage_of m, name_of "mount_point" m).
Proof.
  intros [[Hm Hr] _] Hn. repeat (apply Forall_cons in Hr as [? Hr]). unfold read_storage. cbv zeta.
  destruct (text_entry _ storage_schema_ok m Hm "mount_point" ltac:(in_schema)) as [-> [Ht _]]; [done|].
  destruct (text_entry _ storage_schema_ok m Hm "device_name" ltac:(in_schema)) as [-> [Hd _]]; [done|].
  rewrite !(bool_entry _ storage_schema_ok m Hm) by (done || in_schema).
  cbn [isString isBool toQString toBool negb orb]. rewrite Ht, Hd, bool_decide_eq_false_2 by done. cbn [negb orb].
  by rewrite !(integer_of_map _ storage_schema_ok _ Hm) by in_schema.
Qed.

(** ** The report *)

Record parts := {
  p_cpu : std_map Value; p_memory : std_map Value; p_system : std_map Value;
  p_networks : list (std_map Value); p_storage : list (std_map Value); p_gpus : list (std_map Value) }.

(** The map of a report with these parts. *)
Definition report_map (p : parts) : std_map Value :=
  set_group "system" (p_system p) (set_group "memory" (p_memory p) (set_group "cpu" (p_cpu p)
    (set_list "gpus" (map VObject (p_gpus p)) (set_list "storage_volumes" (map VObject (p_storage p))
      (set_list "network_interfaces" (map VObject (p_networks p)) []))))).

(** The same report in the dashboard's terms. *)
Definition metrics_of (p : parts) : SystemMetrics :=
  {| m_cpu := {| usage_ratio := number_at (p_cpu p) "usage_ratio"; logical_cpus := [];
                 temperature_celsius := number_at (p_cpu p) "temperature_celsius" |};
     m_memory := {| total_bytes := unsigned_at (p_memory p) "total_bytes";
                    available_bytes := unsigned_at (p_memory p) "available_bytes";
                    swap_total_bytes := unsigned_at (p_memory p) "swap_total_bytes";
                    swap_available_bytes := unsigned_at (p_memory p) "swap_available_bytes" |};
     m_system := {| uptime_seconds := number_at (p_system p) "uptime_seconds";
                    load_average_1m := number_at (p_system p) "load_average_1m";
                    load_average_5m := number_at (p_system p) "load_average_5m";
                    load_average_15m := number_at (p_system p) "load_average_15m" |};
     storage_volumes := map storage_of (p_storage p); network_interfaces := map network_of (p_networks p);
     gpus := map gpu_of (p_gpus p) |}.

Record parts_ok (p : parts) : Prop := {
  po_cpu : typed usage_schema (p_cpu p);
  po_memory : typed memory_use_schema (p_memory p);
  po_consistent :
    exceeds (unsigned_at (p_memory p) "total_bytes") (unsigned_at (p_memory p) "available_bytes") = false /\
    exceeds (unsigned_at (p_memory p) "swap_total_bytes") (unsigned_at (p_memory p) "swap_available_bytes") = false;
  po_system : typed system_schema (p_system p);
  po_networks : valid_list network_ok (name_of "name") 64 (p_networks p);
  po_storage : valid_list storage_ok (name_of "mount_point") 64 (p_storage p);
  po_gpus : valid_list gpu_ok (name_of "name") 16 (p_gpus p) }.

(** *** Lists in a report *)

Definition list_value (l : list Value) : option Value := match l with [] => None | _ => Some (VArray l) end.

Lemma map_find_list_ne key j l m : key <> j -> map_find key (set_list j l m) = map_find key m.
Proof. intros Hk. destruct l; [done|]. by apply map_find_set_ne. Qed.

Lemma map_find_list_eq key l m : map_find key m = None -> map_find key (set_list key l m) = list_value l.
Proof. intros Hm. destruct l; [done|]. apply map_find_set_eq. Qed.

(** What is at a key of a report. *)
Ltac find_part :=
  repeat first [rewrite map_find_group_ne by by_decision | rewrite map_find_list_ne by by_decision];
  first [reflexivity | apply map_find_group_eq | apply map_find_list_eq];
  repeat first [rewrite map_find_group_ne by by_decision | rewrite map_find_list_ne by by_decision]; reflexivity.

Lemma qvalue_list key m items : map_find key m = list_value (map VObject items) ->
  qvalue key (of_map m) =
  match map of_map items with [] => QUndefined | _ => QArray (map QMap (map of_map items)) end.
Proof.
  intros E. rewrite qvalue_of_map, E. destruct items as [|i items]; [done|]. cbn [map list_value of_wire].
  unfold VObject. cbn [map of_wire]. do 2 f_equal. rewrite !map_map. by apply map_ext.
Qed.

Section report.
Context (p : parts) (Hp : parts_ok p).

Lemma storage_consistent :
  existsb (fun v => exceeds (sv_total_bytes v) (sv_available_bytes v)) (map storage_of (p_storage p)) = false.
Proof.
  destruct (po_storage p Hp) as [Hs _]. induction Hs as [|m l [_ Hm] _ IH]; [done|]. cbn [map existsb]. by rewrite IH, orb_false_r.
Qed.

Lemma gpus_consistent :
  existsb (fun g => exceeds (memory_total_bytes g) (memory_used_bytes g)) (map gpu_of (p_gpus p)) = false.
Proof. by induction (p_gpus p). Qed.

(** The dashboard reads every field of the report. *)
Lemma metricsFromMap_parts : metricsFromMap (of_wire (VObject (report_map p))) = Some (metrics_of p).
Proof.
  destruct Hp as [Hc Hm [Hx1 Hx2] Hs Hn Hst Hg].
  unfold metricsFromMap. cbn [VObject of_wire isMap negb toMap]. change (map _ (report_map p)) with (of_map (report_map p)).
  unfold report_map.
  rewrite (section_group "cpu" _ (p_cpu p)) by find_part. cbn [mbind option_bind].
  rewrite (section_group "memory" _ (p_memory p)) by find_part. cbn [mbind option_bind].
  rewrite (section_group "system" _ (p_system p)) by find_part. cbn [mbind option_bind].
  rewrite (ratio_of_map _ usage_schema_ok _ Hc) by in_schema. cbn [mbind option_bind].
  rewrite (number_of_map _ usage_schema_ok _ Hc) by in_schema. cbn [mbind option_bind].
  rewrite !(integer_of_map _ memory_use_schema_ok _ Hm) by in_schema. cbn [mbind option_bind].
  rewrite !(number_of_map _ system_schema_ok _ Hs) by in_schema. cbn [mbind option_bind].
  rewrite (absent usage_schema (p_cpu p) Hc "logical_cpus") by by_decision.
  change (named QUndefined 256 read_logical_cpu) with (Some (@nil LogicalCpu)). cbn [mbind option_bind].
  rewrite (named_items_read _ _ _ _ _ read_storage_entry _ 64 _ Hst) by (apply qvalue_list; find_part). cbn [mbind option_bind].
  rewrite (named_items_read _ _ _ _ _ read_network_entry _ 64 _ Hn) by (apply qvalue_list; find_part). cbn [mbind option_bind].
  rewrite (named_items_read _ _ _ _ _ read_gpu_entry _ 16 _ Hg) by (apply qvalue_list; find_part). cbn [mbind option_bind].
  rewrite Hx1, Hx2. cbn [orb]. by rewrite storage_consistent, gpus_consistent.
Qed.

(** The report can be sent. *)
Lemma entries_list n count key s required items m :
  text_ok key -> schema_ok s -> len items <= 64 -> Forall (entry_ok s required) items ->
  wire_entries (S (S (S (S n)))) count m ->
  wire_entries (S (S (S (S n)))) (S count) (set_list key (map VObject items) m).
Proof.
  intros Hk Hs Hl Hi Hm. destruct items as [|i items]; [by apply entries_weaken|]. cbn [map set_list].
  change (VObject i :: map VObject items) with (map VObject (i :: items)).
  apply entries_set; [done| |done]. cbn [wire_ok]. unfold len in *. rewrite length_map. split; [unfold uint64_max; lia|].
  apply Forall_map. eapply Forall_impl; [exact Hi|]. intros x [Hx _]. by eapply typed_wire.
Qed.

Lemma report_wire n : wire_ok (S (S (S (S (S n))))) (VObject (report_map p)).
Proof.
  destruct Hp as [Hc Hm _ Hs (Hn & _ & Hnl) (Hst & _ & Hsl) (Hg & _ & Hgl)].
  apply (entries_wire _ 6); [unfold uint64_max; lia|]. unfold report_map.
  do 3 (apply entries_group; [key_ok|intros _; eapply typed_wire; [|eassumption]; auto with dash|]).
  eapply entries_list; [key_ok|apply gpu_schema_ok|lia|exact Hg|].
  eapply entries_list; [key_ok|apply storage_schema_ok|done|eapply Forall_impl; [exact Hst|]; by intros x [? _]|].
  eapply entries_list; [key_ok|apply network_schema_ok|done|exact Hn|]. apply entries_nil.
Qed.
End report.
