(* ===== verification/DaemonUnderstood.v ===== *)
(** * What the daemon collects, the dashboard understands

    The collector's reports, on a machine whose names are UTF-8 and that has no two graphics
    cards of one vendor, keep the schemas of DaemonReports.v and DaemonMetricsReport.v. *)

From S2P Require Import Prelude.
From S2P Require Import Std.
From S2P Require Import Float64.
From S2P Require Import FloatBounds.
From S2P Require Import Numbers.
From S2P Require Import NumbersLaws.
From S2P Require Import Cbor.
From S2P Require Import DaemonText.
From S2P Require Import QtCbor.
From S2P Require Import Protocol.
From S2P Require Import DeviceSnapshot.
From S2P Require Import SnapshotCodec.
From S2P Require Import SnapshotWire.
From S2P Require Import Interop.
From S2P Require Import DaemonConfig.
From S2P Require Import DaemonCollector.
From S2P Require Import DaemonRun.
From S2P Require Import DaemonReports.
From S2P Require Import DaemonMetricsReport.

(** ** Values of the kinds *)

Lemma ratio_kind d : in_unit d = true -> valid64 d = true -> has_kind KRatio (VNumber d).
Proof.
  intros Hu Hv. exists d. split; [done|]. pose proof (in_unit_finite d Hu). rewrite in_unit_tests in Hu. bool_facts.
  by repeat split.
Qed.

Lemma number_kind d : isfinite d = true -> valid64 d = true -> has_kind KNumber (VNumber d).
Proof. intros Hf Hv. by exists d. Qed.

Lemma value_kind d v : value_is d v -> has_kind KNumber (VNumber d).
Proof. intros Hv. apply number_kind; [by eapply value_nonneg|apply Hv]. Qed.

Lemma integer_kind n : 0 <= n <= kWireMaximum -> has_kind KInteger (VUnsigned n).
Proof. intros H. exists n. split; [done|]. exact H. Qed.

Lemma text_kind t : good_text t -> has_kind KText (VText t).
Proof. intros H. by exists t. Qed.

(** A text that passes the collector's test and is UTF-8. *)
Lemma bad_text_good t : bad_text t = false -> rfc3629 t -> good_text t.
Proof.
  unfold bad_text. intros H Hr. apply orb_false_iff in H as [H _]. apply orb_false_iff in H as [H1 H2].
  split; [|done]. unfold validText. rewrite H1. apply Z.ltb_ge in H2. by rewrite (proj2 (Z.leb_le _ _) H2).
Qed.

Lemma typed_erase s m key : typed s m -> typed s (map_erase key m).
Proof.
  assert (Hsub : forall (P : string * Value -> Prop) l, Forall P l -> Forall P (map_erase key l)).
  { intros P l. induction 1 as [|[j v] l Hj Hl IH]; cbn [map_erase]; [constructor|].
    destruct (String.eqb key j); [done|by constructor]. }
  intros [Hs Hm]. split; [|by apply Hsub]. clear Hm. unfold map_sorted in *.
  induction m as [|[j v] m IH]; cbn [map_erase]; [done|]. cbn in Hs. apply StronglySorted_inv in Hs as [Hs Hj].
  destruct (String.eqb key j); [done|]. cbn. constructor; [by apply IH|].
  unfold keys in *. rewrite Forall_map in *. by apply Hsub.
Qed.

(** ** Processor, memory, system *)

Definition is_u64 (n : Z) : Prop := 0 <= n <= uint64_max.

(** Sums of processor ticks and counters of bytes, as the collector remembers them. *)
Record remembered_ok (st : Collector) : Prop := {
  co_cpu : opt (fun p => is_u64 p.1 /\ is_u64 p.2) (previous_cpu st);
  co_network : Forall (fun kv => is_u64 kv.2.1 /\ is_u64 kv.2.2) (previous_network st) }.

Lemma new_collector_remembers : remembered_ok new_collector.
Proof. by split. Qed.

Lemma stat_sums_range i xs total idle : is_u64 total -> is_u64 idle ->
  is_u64 (stat_sums i xs total idle).1 /\ is_u64 (stat_sums i xs total idle).2.
Proof.
  revert i total idle. induction xs as [|x xs IH]; intros i total idle Ht Hi; [done|]. cbn [stat_sums].
  apply IH; [apply u64_range|]. case_if; [apply u64_range|done].
Qed.

Lemma cpu_usage_kind prev cur u : is_u64 prev.1 -> is_u64 cur.1 -> cpu_usage prev cur = Some u ->
  has_kind KRatio (VNumber u).
Proof.
  intros Hp Hc. unfold cpu_usage. destruct (prev.1 <? cur.1) eqn:E; [|done]. intros [= <-]. apply Z.ltb_lt in E.
  pose proof (u64_range (cur.2 - prev.2)) as Hdi. unfold is_u64, uint64_max in *.
  destruct (double_of_Z_nonneg (u64 (cur.2 - prev.2)) ltac:(lia)) as (v & Hv & Hvr).
  destruct (double_of_Z_range (cur.1 - prev.1) ltac:(lia)) as (w & Hw & Hwr).
  assert (H0 : 0 < 2 ^ 1074) by (apply pow2_pos; lia).
  destruct (ddiv_le_pow2 _ _ v w 65 Hv Hw) as (q & Hq & _); [lia|lia| |].
  { rewrite (pow2_split (65 + 1074) 65 1074) in Hvr by lia. assert (0 < 2 ^ 65) by (apply pow2_pos; lia). nia. }
  set (x := ddiv _ _) in *. apply ratio_kind.
  - apply (clamp_unit (dsub d1 x)), dsub_not_nan; [done|]. by eapply value_nonneg.
  - apply (clamp_valid (dsub d1 x)), dsub_valid; [done|apply Hq].
Qed.

Lemma meminfo_values_wire mem : Forall (fun kv => 0 <= kv.2 <= kWireMaximum) (meminfo_values mem).
Proof.
  unfold meminfo_values. assert (H : Forall (fun kv : string * Z => 0 <= kv.2 <= kWireMaximum) []) by constructor.
  revert H. generalize (@nil (string * Z)). induction (getlines mem) as [|l ls IH]; intros m Hm; cbn [fold_left]; [done|].
  apply IH. clear IH. destruct (find_char ":" l) as [colon|]; [|done].
  destruct (tokens _) as [|digits [|unit [|]]]; try done. case_if; [done|].
  destruct (unsigned_value digits) as [kib|] eqn:E; [|done]. apply unsigned_value_nonneg in E.
  destruct (kib <=? kWireMaximum / 1024) eqn:Ek; [|done]. apply Z.leb_le in Ek.
  assert (Hv : 0 <= kib * 1024 <= kWireMaximum) by (change (kWireMaximum / 1024) with 9007199254740991 in Ek; unfold kWireMaximum, int64_max; lia).
  by apply Forall_map_set.
Qed.

Lemma add_memory_typed mem source target positive m : (target, KInteger) ∈ memory_use_schema ->
  typed memory_use_schema m -> typed memory_use_schema (add_memory (meminfo_values mem) source target positive m).
Proof.
  intros Ht Hm. unfold add_memory. destruct (map_find source _) as [v|] eqn:E; [|done]. case_if; [|done].
  assert (Hin : (source, v) ∈ meminfo_values mem).
  { clear - E. induction (meminfo_values mem) as [|[j w] l IH]; cbn [map_find] in E; [done|].
    destruct (String.eqb_spec source j) as [->|]; [injection E as ->; by left|right; by apply IH]. }
  pose proof (meminfo_values_wire mem) as Hw. rewrite Forall_forall in Hw. specialize (Hw _ Hin).
  eapply typed_set; [done|exact Ht|by apply integer_kind].
Qed.

Lemma drop_excess_typed t a m : typed memory_use_schema m -> typed memory_use_schema (drop_excess t a m).
Proof.
  intros Hm. unfold drop_excess. destruct (map_find t m) as [[]|]; try done. destruct (map_find a m) as [[]|]; try done.
  case_if; [by apply typed_erase|done].
Qed.

Lemma map_find_erase_eq (m : std_map Value) key : map_sorted m -> map_find key (map_erase key m) = None.
Proof.
  intros Hs%map_sorted_nodup. induction m as [|[j v] m IH]; cbn [map_erase]; [done|]. cbn in Hs. apply NoDup_cons in Hs as [Hj Hs].
  destruct (String.eqb_spec key j) as [->|Hne]; [by apply map_find_None|]. cbn [map_find].
  rewrite (proj2 (String.eqb_neq _ _) Hne). by apply IH.
Qed.

Lemma drop_excess_consistent t a m : map_sorted m -> t <> a ->
  exceeds (unsigned_at (drop_excess t a m) t) (unsigned_at (drop_excess t a m) a) = false.
Proof.
  intros Hs Hne. unfold drop_excess.
  destruct (map_find t m) as [[x|d|s|b|b|l|q]|] eqn:Et; try (unfold unsigned_at; by rewrite Et).
  destruct (map_find a m) as [[y|d|s|b|b|l|q]|] eqn:Ea; try (unfold unsigned_at; by rewrite Et, Ea).
  destruct (x <? y) eqn:E; unfold unsigned_at.
  - rewrite map_find_erase_ne, map_find_erase_eq by done. by rewrite Et.
  - by rewrite Et, Ea.
Qed.

Lemma drop_excess_other t a m key : key <> a -> unsigned_at (drop_excess t a m) key = unsigned_at m key.
Proof.
  intros Hk. unfold unsigned_at. f_equal. unfold drop_excess. destruct (map_find t m) as [[]|]; try done.
  destruct (map_find a m) as [[]|]; try done. case_if; [by rewrite map_find_erase_ne|done].
Qed.

Lemma memory_group_ok mem : let m := memory_group mem in
  typed memory_use_schema m /\
  exceeds (unsigned_at m "total_bytes") (unsigned_at m "available_bytes") = false /\
  exceeds (unsigned_at m "swap_total_bytes") (unsigned_at m "swap_available_bytes") = false.
Proof.
  intros m. unfold m, memory_group. cbv zeta.
  match goal with |- context [drop_excess "total_bytes" "available_bytes" ?x] => set (m0 := x) end.
  assert (H0 : typed memory_use_schema m0) by (unfold m0; repeat (apply add_memory_typed; [in_schema|]); apply typed_nil).
  assert (H1 : typed memory_use_schema (drop_excess "total_bytes" "available_bytes" m0)) by by apply drop_excess_typed.
  split; [by apply drop_excess_typed|]. split.
  - rewrite !(drop_excess_other "swap_total_bytes" "swap_available_bytes") by done. by apply drop_excess_consistent; [apply H0|].
  - by apply drop_excess_consistent; [apply H1|].
Qed.

Lemma nonneg_finite_number d rest s : stream_double s = Some (d, rest) -> nonneg_finite d = true -> has_kind KNumber (VNumber d).
Proof. intros Hs Hn. unfold nonneg_finite in Hn. bool_facts. apply number_kind; [done|]. by eapply stream_double_valid. Qed.

Lemma system_group_typed uptime load : typed system_schema (system_group uptime load).
Proof.
  unfold system_group. cbv zeta.
  match goal with |- context [map_set "load_average_1m" _ ?x] => set (m0 := x) end.
  assert (H0 : typed system_schema m0).
  { unfold m0. destruct (strtod _) as [[v r]|] eqn:E; [|apply typed_nil]. case_if; [|apply typed_nil].
    eapply typed_set; [apply typed_nil|in_schema|]. bool_facts. unfold nonneg_finite in *. bool_facts.
    apply number_kind; [done|]. by eapply strtod_valid. }
  clearbody m0. destruct (stream_double load) as [[a r1]|] eqn:Ea; [|done]. cbn [mbind option_bind].
  destruct (stream_double r1) as [[b r2]|] eqn:Eb; [|done]. cbn [mbind option_bind].
  destruct (stream_double r2) as [[c r3]|] eqn:Ec; [|done]. cbn [mbind option_bind]. case_if; [|done]. bool_facts.
  repeat (eapply typed_set; [|in_schema|by eapply nonneg_finite_number]). done.
Qed.

(** ** Rates *)

Lemma d1e9_value : exists v, value_is d1e9 v /\ 2 ^ (29 + 1074) <= v <= 2 ^ (30 + 1074).
Proof.
  exists (1000000000 * 2 ^ 1074). split; [by vm_compute|].
  rewrite !(Z.add_comm _ 1074), !Z.pow_add_r by lia. assert (0 < 2 ^ 1074) by (apply pow2_pos; lia). lia.
Qed.

(** A time that has passed, in seconds. *)
Definition passed (elapsed : double) : Prop :=
  dltb d0 elapsed = true -> exists v, value_is elapsed v /\ 2 ^ (-30 + 1074) <= v.

Lemma elapsed_passed dt : 0 <= dt <= 2 ^ 63 -> passed (ddiv (double_of_Z dt) d1e9).
Proof.
  intros Hdt Hpos. destruct (Z.eq_dec dt 0) as [->|Hne]; [by vm_compute in Hpos|].
  destruct (double_of_Z_range dt) as (v & Hv & Hvr); [lia|]. destruct d1e9_value as (w & Hw & Hwr).
  assert (H0 : 0 < 2 ^ 1074) by (apply pow2_pos; lia).
  assert (Hw0 : 2 ^ 1074 <= 2 ^ (29 + 1074)) by (apply Z.pow_le_mono_r; lia).
  assert (Hle : v <= 2 ^ 65 * w).
  { rewrite (pow2_split (65 + 1074) 65 1074) in Hvr by lia. assert (0 < 2 ^ 65) by (apply pow2_pos; lia). nia. }
  destruct (ddiv_le_pow2 _ _ v w 65 Hv Hw) as (u & Hu & _); [lia|lia|done|]. exists u. split; [done|].
  apply (ddiv_ge_pow2 _ _ v w 65 30 u Hv Hw); try (done || lia).
Qed.

Lemma rate_kind elapsed n : passed elapsed -> dltb d0 elapsed = true -> is_u64 n ->
  has_kind KNumber (VNumber (ddiv (double_of_Z n) elapsed)).
Proof.
  intros Hp He Hn. destruct (Hp He) as (w & Hw & Hwl). unfold is_u64, uint64_max in Hn.
  destruct (double_of_Z_nonneg n ltac:(lia)) as (v & Hv & Hvr).
  assert (0 < 2 ^ (-30 + 1074)) by (apply pow2_pos; lia).
  destruct (ddiv_le_pow2 _ _ v w 95 Hv Hw) as (q & Hq & _); [lia|lia| |by eapply value_kind].
  rewrite (pow2_split (65 + 1074) 95 (-30 + 1074)) in Hvr by lia. assert (0 < 2 ^ 95) by (apply pow2_pos; lia). nia.
Qed.

Lemma name_of_set_ne key j v m : key <> j -> name_of key (map_set j v m) = name_of key m.
Proof. intros Hk. unfold name_of, text_at. by rewrite map_find_set_ne. Qed.

Lemma name_of_set_eq key t m : name_of key (map_set key (VText t) m) = t.
Proof. unfold name_of, text_at. by rewrite map_find_set_eq. Qed.

(** What is built on an entry of a list keeps it an entry of the same name. *)
Definition named_entry (s : schema) (required : list string) (key name : string) (m : std_map Value) : Prop :=
  entry_ok s required m /\ name_of key m = name.

Lemma named_set s required key name m j k v : named_entry s required key name m -> (j, k) ∈ s -> has_kind k v ->
  key <> j -> named_entry s required key name (map_set j v m).
Proof. intros [Hm Hn] Hj Hv Hk. split; [by eapply entry_set|]. by rewrite name_of_set_ne. Qed.

Lemma named_start s name : ("name"%string, KText) ∈ s -> good_text name ->
  named_entry s ["name"%string] "name" name (map_set "name" (VText name) []).
Proof.
  intros Hs Hn. split; [|apply name_of_set_eq]. split; [|by constructor].
  eapply typed_set; [apply typed_nil|exact Hs|by apply text_kind].
Qed.

Section collected.
Context (root : string) (k : machine).
Abbreviation read p limit := (bounded_read root k p limit).
Abbreviation entries p := (directory_entries root k p).

Lemma entries_perm p : entries p ≡ₚ fs_dir k (rooted root p).
Proof. apply isort_perm. Qed.

Lemma read_counter_u64 p n : read_counter root k p = Some n -> is_u64 n.
Proof. unfold read_counter. intros (raw & _ & H)%bind_Some. by apply unsigned_value_nonneg in H. Qed.

(** *** Temperatures *)

Definition thermal_ok (st : std_map Value * option double) : Prop :=
  typed usage_schema st.1 /\ opt (fun t => has_kind KNumber (VNumber t)) st.2.

Lemma zone_kind zone type milli : zone_milli root k zone = Some (type, milli) -> has_kind KNumber (VNumber (ddiv milli d1000)).
Proof.
  unfold zone_milli. cbv zeta. intros (ty & _ & H)%bind_Some. destruct (negb _ && negb _); [done|].
  apply bind_Some in H as (raw & _ & H). apply bind_Some in H as ([m rest] & E & H).
  destruct (_ || dltb m d0) eqn:Eg; [done|]. injection H as <- <-. apply strtod_valid in E.
  apply orb_false_iff in Eg as [Eg Hneg]. apply orb_false_iff in Eg as [_ Hfin%negb_false_iff].
  destruct (finite_value m E Hfin) as (v & Hv & Hr).
  { apply not_dltb_dleb; [by apply isfinite_not_nan|done|done]. }
  destruct (thousandth_value m v Hv) as [u Hu]; [lia|]. by eapply value_kind.
Qed.

Lemma thermal_zone_ok st zone : thermal_ok st -> thermal_ok (thermal_zone root k st zone).
Proof.
  intros [Hc Hg]. unfold thermal_zone. destruct (zone_milli root k zone) as [[type milli]|] eqn:E; [|done].
  apply zone_kind in E. destruct st as [cpu gpu]. cbn [fst snd] in *. split; cbn [fst snd].
  - case_if; [|done]. eapply typed_set; [done|in_schema|done].
  - destruct gpu; [done|]. by case_if.
Qed.

Lemma thermal_ok_fold zones st : thermal_ok st -> thermal_ok (fold_left (thermal_zone root k) zones st).
Proof. revert st. induction zones as [|z zs IH]; intros st Hst; [done|]. by apply IH, thermal_zone_ok. Qed.

(** *** Interfaces *)

Section network.
Context (elapsed : double) (prev : std_map (Z * Z)) (Helapsed : passed elapsed).
Context (Hprev : Forall (fun kv => is_u64 kv.2.1 /\ is_u64 kv.2.2) prev).

Lemma network_entry_ok name n remembered : rfc3629 name -> network_entry root k elapsed prev name = Some (n, remembered) ->
  named_entry network_schema ["name"%string] "name" name n /\ opt (fun p => is_u64 p.1 /\ is_u64 p.2) remembered.
Proof.
  intros Hr. unfold network_entry. destruct (String.eqb name "lo" || bad_text name) eqn:Eb; [done|].
  apply orb_false_iff in Eb as [_ Hb]. pose proof (bad_text_good name Hb Hr) as Hg. cbv zeta.
  set (received := read_counter root k _). set (transmitted := read_counter root k _).
  assert (Hrx : opt is_u64 received) by (destruct received eqn:E; [by apply read_counter_u64 in E|done]).
  assert (Htx : opt is_u64 transmitted) by (destruct transmitted eqn:E; [by apply read_counter_u64 in E|done]).
  clearbody received transmitted.
  assert (Hset : forall o key n0, opt is_u64 o -> (key, KInteger) ∈ network_schema -> "name"%string <> key ->
    named_entry network_schema ["name"%string] "name" name n0 ->
    named_entry network_schema ["name"%string] "name" name
      (match o with Some v => if v <=? kWireMaximum then map_set key (VUnsigned v) n0 else n0 | None => n0 end)).
  { intros [v|] key n0 Hv Hk Hne H0; [|done]. destruct (v <=? kWireMaximum) eqn:E; [|done]. apply Z.leb_le in E.
    eapply named_set; [exact H0|exact Hk|apply integer_kind; cbn in Hv; unfold is_u64 in Hv; lia|done]. }
  pose proof (Hset transmitted "tx_bytes"%string _ Htx ltac:(in_schema) ltac:(done)
    (Hset received "rx_bytes"%string _ Hrx ltac:(in_schema) ltac:(done)
      (named_start network_schema name ltac:(in_schema) Hg))) as Hn. clear Hset.
  destruct received as [rx|], transmitted as [tx|]; try done; try (by intros [= <- <-]).
  intros [= <- <-]. split; [|by split]. destruct (map_find name prev) as [[prx ptx]|] eqn:Ep; [|done].
  destruct (_ && _) eqn:Ec; [|done]. bool_facts. apply map_find_In in Ep. rewrite Forall_forall in Hprev.
  destruct (Hprev _ Ep) as [Hp1 Hp2]. unfold is_u64 in *. cbn [opt fst snd] in *.
  eapply named_set; [eapply named_set; [exact Hn|in_schema| |done]|in_schema| |done];
    (apply rate_kind; [done|done|]); unfold is_u64; lia.
Qed.

Definition networks_ok (items : list (std_map Value)) (names : list string) : Prop :=
  Forall network_ok items /\ NoDup (map (name_of "name") items) /\
  (forall i, i ∈ items -> name_of "name" i ∉ names) /\ len items < 64.

Lemma network_loop_ok names items (next : std_map (Z * Z)) :
  Forall rfc3629 names -> NoDup names -> networks_ok items names ->
  Forall (fun kv => is_u64 kv.2.1 /\ is_u64 kv.2.2) next ->
  exists items', (network_loop root k elapsed prev names (map VObject items) next).1 = map VObject items' /\
    valid_list network_ok (name_of "name") 64 items' /\
    Forall (fun kv => is_u64 kv.2.1 /\ is_u64 kv.2.2) (network_loop root k elapsed prev names (map VObject items) next).2.
Proof.
  intros Hr. revert items next. induction Hr as [|name names Hn Hr IH]; intros items next Hnd (Hi & Hu & Hne & Hl) Hnext;
    cbn [network_loop]; [exists items; split; [done|split; [|done]]; repeat split; (done || lia)|].
  apply NoDup_cons in Hnd as [Hni Hnd].
  assert (Hold : forall i, i ∈ items -> name_of "name" i ∉ names) by (intros i Hin Hnm; apply (Hne i Hin); by apply elem_of_cons; right).
  destruct (network_entry root k elapsed prev name) as [[n remembered]|] eqn:E; [|by apply IH].
  apply network_entry_ok in E as [[Hok Hname] Hrem]; [|done].
  assert (Hnext' : Forall (fun kv : string * (Z * Z) => is_u64 kv.2.1 /\ is_u64 kv.2.2)
    (match remembered with Some p => map_set name p next | None => next end)).
  { destruct remembered as [p|]; [|done]. by apply Forall_map_set. }
  cbv zeta. destruct (1 <? length n)%nat.
  - change (map VObject items ++ [VObject n]) with (map VObject items ++ map VObject [n]). rewrite <- map_app, length_map.
    assert (Hall : Forall network_ok (items ++ [n])) by (apply Forall_app; split; [done|by constructor]).
    assert (Hdis : NoDup (map (name_of "name") (items ++ [n]))).
    { rewrite map_app. apply NoDup_app. split; [done|]. split; [|by apply NoDup_singleton]. intros x Hx.
      apply list_elem_of_fmap in Hx as (i & -> & Hin). cbn [map]. rewrite list_elem_of_singleton, Hname. intros Heq.
      apply (Hne i Hin). rewrite Heq. by left. }
    rewrite length_app. cbn [length].
    destruct ((length items + 1) =? kMaximumNetworkInterfaces)%nat eqn:El; cbn [fst snd].
    + exists (items ++ [n]). split; [done|]. split; [|exact Hnext']. split; [done|]. split; [done|]. unfold len in *.
      rewrite length_app. cbn [length]. lia.
    + apply IH; [done| |exact Hnext']. split; [done|]. split; [done|]. split.
      * intros i [Hin| ->%list_elem_of_singleton]%elem_of_app; [by apply Hold|by rewrite Hname].
      * apply Nat.eqb_neq in El. unfold kMaximumNetworkInterfaces, len in *. rewrite length_app. cbn [length]. lia.
  - rewrite length_map. destruct (length items =? kMaximumNetworkInterfaces)%nat eqn:El; cbn [fst snd].
    + apply Nat.eqb_eq in El. unfold kMaximumNetworkInterfaces, len in *. lia.
    + apply IH; [done|by repeat split|exact Hnext'].
Qed.
End network.

(** *** Volumes *)

Definition mount_good (m : Mount) : Prop := good_text (mount_point m) /\ good_text (device m).

Definition statvfs_ok : Prop :=
  forall p f b a, fs_statvfs k p = Some (f, b, a) -> 0 <= f /\ 0 <= b /\ 0 <= a.

Lemma storage_entry_ok m v : statvfs_ok -> mount_good m -> storage_entry root k m = Some v ->
  exists i, v = VObject i /\ storage_ok i /\ name_of "mount_point" i = mount_point m.
Proof.
  intros Hk [Hp Hd]. unfold storage_entry. intros ([[f b] a] & Es & H)%bind_Some. apply Hk in Es as (Hf & Hb & Ha).
  destruct (_ || (uint64_max / f <? a)); [done|]. cbv zeta in H. destruct (_ || (b * f <? a * f)) eqn:E; [done|].
  apply orb_false_iff in E as [E E3]. apply orb_false_iff in E as [E1 E2]. injection H as <-.
  apply Z.eqb_neq in E1. apply Z.ltb_ge in E2, E3. eexists. split; [reflexivity|]. split; [split|reflexivity].
  - split; [|repeat (constructor; [done|]); constructor]. unfold map_of. cbn [fold_left fst snd map_find].
    cbn -[typed storage_schema]. split; [repeat constructor|].
    repeat (apply Forall_cons; split); try apply Forall_nil_2; cbn [fst snd].
    + exists KInteger. split; [in_schema|]. apply integer_kind. nia.
    + exists KText. split; [in_schema|by apply text_kind].
    + exists KText. split; [in_schema|by apply text_kind].
    + exists KBool. split; [in_schema|by eexists].
    + exists KBool. split; [in_schema|by eexists].
    + exists KInteger. split; [in_schema|]. apply integer_kind. nia.
  - cbn. by apply Z.ltb_ge.
Qed.

Lemma storage_loop_ok mounts (seen : gset string) items : statvfs_ok -> Forall mount_good mounts ->
  Forall storage_ok items -> NoDup (map (name_of "mount_point") items) ->
  (forall i, i ∈ items -> name_of "mount_point" i ∈ seen) -> len items < 64 ->
  exists items', storage_loop root k mounts seen (map VObject items) = map VObject items' /\
    valid_list storage_ok (name_of "mount_point") 64 items'.
Proof.
  intros Hk Hm. revert seen items. induction Hm as [|m ms Hm _ IH]; intros seen items Hi Hu Hs Hl; cbn [storage_loop].
  { exists items. split; [done|]. split; [done|]. split; [done|lia]. }
  case_bool_decide as Hseen; [by apply IH|]. cbv zeta. destruct (storage_entry root k m) as [v|] eqn:E.
  2: { apply IH; [done|done| |done]. intros i Hin. apply elem_of_union. right. by apply Hs. }
  destruct (storage_entry_ok m v Hk Hm E) as (i & -> & Hok & Hname).
  change (map VObject items ++ [VObject i]) with (map VObject items ++ map VObject [i]). rewrite <- map_app, length_map.
  assert (Hall : Forall storage_ok (items ++ [i])) by (apply Forall_app; split; [done|by constructor]).
  assert (Hdis : NoDup (map (name_of "mount_point") (items ++ [i]))).
  { rewrite map_app. apply NoDup_app. split; [done|]. split; [|by apply NoDup_singleton]. intros x Hx.
    apply list_elem_of_fmap in Hx as (j & -> & Hin). cbn [map]. rewrite list_elem_of_singleton, Hname. intros Heq.
    apply Hseen. rewrite <- Heq. by apply Hs. }
  rewrite length_app. cbn [length].
  destruct ((length items + 1) =? kMaximumStorageVolumes)%nat eqn:El.
  - exists (items ++ [i]). split; [done|]. split; [done|]. split; [done|]. unfold len in *. rewrite length_app. cbn [length]. lia.
  - apply IH; [done|done| |].
    + intros j [Hin| ->%list_elem_of_singleton]%elem_of_app; [apply elem_of_union; right; by apply Hs|].
      rewrite Hname. set_solver.
    + apply Nat.eqb_neq in El. unfold kMaximumStorageVolumes, len in *. rewrite length_app. cbn [length]. lia.
Qed.

(** *** GPUs *)

Abbreviation gpu_entry := (named_entry gpu_schema ["name"%string] "name").

(** A clock or a counter that is stored when it is in range. *)
Lemma gpu_set name g key n : gpu_entry name g -> key <> "name"%string -> (key, KInteger) ∈ gpu_schema ->
  0 <= n <= kWireMaximum -> gpu_entry name (map_set key (VUnsigned n) g).
Proof. intros Hg Hk Hs Hn. eapply named_set; [exact Hg|exact Hs|by apply integer_kind|congruence]. Qed.

(** The vendor of a graphics card. *)
Definition card_vendor (entry : string) : option string :=
  raw ← read (("/sys/class/drm/" ++ entry ++ "/") ++ "device/vendor")%string kSysfsLimit; gpu_vendor raw.

Lemma vendor_good raw name : gpu_vendor raw = Some name -> good_text name.
Proof.
  unfold gpu_vendor. cbv zeta. repeat (case_if; [intros [= <-]; split; [done|by apply rfc3629_ascii]|]). done.
Qed.

Lemma drm_card_ok entry b v : drm_card root k entry = Some (b, v) ->
  exists g name, v = VObject g /\ gpu_entry name g /\ card_vendor entry = Some name.
Proof.
  unfold drm_card. destruct (_ || negb _); [done|]. cbv zeta. intros (name & En & H)%bind_Some. apply (inj Some), pair_eq in H as [_ <-].
  eexists _, name. split; [reflexivity|]. split; [|exact En].
  apply bind_Some in En as (raw & _ & Hg%vendor_good).
  pose proof (named_start gpu_schema name ltac:(in_schema) Hg) as H0.
  set (base := ("/sys/class/drm/" ++ entry ++ "/")%string).
  set (f := read_counter root k (base ++ "gt_cur_freq_mhz")). assert (Hf : opt is_u64 f).
  { destruct f eqn:E; [by apply read_counter_u64 in E|done]. }
  set (q := read_counter root k (base ++ "device/gpu_busy_percent")). assert (Hq : opt is_u64 q).
  { destruct q eqn:E; [by apply read_counter_u64 in E|done]. }
  clearbody f q. match goal with |- gpu_entry _ (match q with Some _ => _ | None => ?x end) => assert (H1 : gpu_entry name x) end.
  { destruct f as [n|]; [|done]. destruct (_ && _) eqn:E; [|done]. bool_facts. apply gpu_set; [done|done|in_schema|].
    change (kWireMaximum / 1000000) with 9223372036854 in *. unfold kWireMaximum, int64_max. lia. }
  destruct q as [n|]; [|done]. destruct (n <=? 100) eqn:E; [|done]. apply Z.leb_le in E.
  eapply named_set; [exact H1|in_schema| |done]. cbn in Hq. unfold is_u64 in Hq.
  apply ratio_kind; [apply integer_ratio_unit; lia|apply ddiv_valid].
Qed.

Lemma drm_cards_ok es : exists ds : list (bool * std_map Value),
  omap (drm_card root k) es = map (fun d => (d.1, VObject d.2)) ds /\ Forall (fun d => gpu_ok d.2) ds /\
  map (fun d => name_of "name" d.2) ds `sublist_of` omap card_vendor es.
Proof.
  induction es as [|e es (ds & E & Hok & Hs)]; [by exists []|]. rewrite !omap_cons.
  destruct (drm_card root k e) as [[b v]|] eqn:Ec.
  - apply drm_card_ok in Ec as (g & name & -> & [Hg Hn] & ->). exists ((b, g) :: ds). split; [cbn; by rewrite E|].
    split; [by constructor|]. cbn. rewrite Hn. by apply sublist_skip.
  - exists ds. split; [done|]. split; [done|]. destruct (card_vendor e); [by apply sublist_cons|done].
Qed.

Lemma partition_perm {A} (f : A -> bool) l : List.filter f l ++ List.filter (fun x => negb (f x)) l ≡ₚ l.
Proof.
  induction l as [|x l IH]; cbn; [done|]. destruct (f x); cbn; [by rewrite IH|].
  rewrite <- Permutation_middle. by rewrite IH.
Qed.

(** No two cards of one vendor, so no two entries of one name. *)
Lemma drm_gpus_ok : NoDup (omap card_vendor (entries "/sys/class/drm")) ->
  exists items, drm_gpus root k = map VObject items /\ valid_list gpu_ok (name_of "name") 16 items.
Proof.
  intros Hnd. destruct (drm_cards_ok (entries "/sys/class/drm")) as (ds & E & Hok & Hs).
  unfold drm_gpus. cbv zeta. rewrite E.
  destruct (Permutation_map_inv _ _ (partition_perm fst (map (fun d => (d.1, VObject d.2)) ds))) as (ds' & Ed & Hp).
  rewrite Ed. exists (map snd (take 16 ds')). split; [by rewrite !map_map, firstn_map|]. split.
  - apply Forall_map, Forall_take. by rewrite <- Hp.
  - split; [|unfold len; rewrite length_map, length_take; lia]. rewrite map_map.
    eapply sublist_NoDup; [|apply (fmap_sublist (fun d => name_of "name" d.2)), sublist_take].
    eapply NoDup_Permutation_proper; [by rewrite <- Hp|]. by eapply sublist_NoDup.
Qed.

(** The V3D of a Raspberry Pi. *)
Lemma v3d_clock_ok g : gpu_entry "V3D" g -> gpu_entry "V3D" (v3d_clock root k g).
Proof.
  intros Hg. unfold v3d_clock. destruct (List.find _ _) as [e|]; [|done]. destruct (read_counter root k _) as [f|]; [|done].
  destruct (_ && _) eqn:Ef; [|done]. bool_facts. apply gpu_set; [done|done|in_schema|lia].
Qed.

Lemma v3d_usage_ok prev current g : gpu_entry "V3D" g -> gpu_entry "V3D" (v3d_usage prev current g).
Proof.
  intros Hg. unfold v3d_usage. destruct current as [[ts rt]|]; [|done]. destruct prev as [[pts prt]|]; [|done].
  case_if; [|done]. cbv zeta. set (u := ddiv _ _). destruct (isfinite u) eqn:Ef; [|done].
  eapply named_set; [exact Hg|in_schema| |done].
  apply ratio_kind; [by apply clamp_unit, isfinite_not_nan|apply clamp_valid, ddiv_valid].
Qed.

Lemma v3d_gpu_ok prev t : opt (fun t => has_kind KNumber (VNumber t)) t ->
  valid_list gpu_ok (name_of "name") 16 [(v3d_gpu root k prev t).1].
Proof.
  intros Ht. cut (gpu_entry "V3D" (v3d_gpu root k prev t).1).
  { intros [Hok _]. split; [by constructor|]. split; [by apply NoDup_singleton|done]. }
  assert (H0 : gpu_entry "V3D" (v3d_clock root k [("name"%string, VText "V3D")])).
  { apply v3d_clock_ok, (named_start gpu_schema "V3D"); [in_schema|]. split; [done|by apply rfc3629_ascii]. }
  assert (Hset : forall g, gpu_entry "V3D" g ->
    gpu_entry "V3D" (match t with Some t => map_set "temperature_celsius" (VNumber t) g | None => g end)).
  { intros g Hg. destruct t; [|done]. by eapply named_set; [exact Hg|in_schema| |]. }
  unfold v3d_gpu. cbv zeta. destruct (List.find v3d_entry (entries "/sys/bus/platform/devices")); cbn [fst]; apply Hset;
    [by apply v3d_usage_ok|done].
Qed.
(** *** The whole report *)

(** A machine whose names are UTF-8 and different. *)
Record plain_metrics : Prop := {
  pm_interfaces : Forall rfc3629 (fs_dir k (rooted root "/sys/class/net"));
  pm_different : NoDup (fs_dir k (rooted root "/sys/class/net"));
  pm_mounts : forall info, read "/proc/self/mountinfo" kProcLimit = Some info ->
    Forall (fun m => rfc3629 (mount_point m) /\ rfc3629 (device m)) (omap parse_mount (getlines info));
  pm_statvfs : statvfs_ok;
  pm_cards : NoDup (omap card_vendor (entries "/sys/class/drm")) }.

Context (Hpm : plain_metrics).

Lemma parse_mount_good line m : parse_mount line = Some m ->
  bad_text (mount_point m) = false /\ bad_text (device m) = false.
Proof.
  unfold parse_mount. cbv zeta. destruct (list_find _ _) as [[sep x]|]; [|done]. case_if; [done|].
  destruct (_ || (_ && negb (starts_with _ _))) eqn:E; [done|]. intros [= <-].
  apply orb_false_iff in E as [E _]. by apply orb_false_iff in E.
Qed.

Lemma mounts_good : Forall mount_good (isort mount_before
  (match read "/proc/self/mountinfo" kProcLimit with Some info => omap parse_mount (getlines info) | None => [] end)).
Proof.
  rewrite isort_perm. destruct (read _ _) as [info|] eqn:E; [|constructor]. pose proof (pm_mounts Hpm info E) as Hm.
  apply Forall_forall. intros m Hin. rewrite Forall_forall in Hm. destruct (Hm m Hin) as [Hp Hd].
  apply list_elem_of_omap in Hin as (line & _ & [Hbp Hbd]%parse_mount_good). split; by apply bad_text_good.
Qed.

Lemma networks_collected elapsed prev : passed elapsed ->
  Forall (fun kv => is_u64 kv.2.1 /\ is_u64 kv.2.2) prev ->
  let '(networks, next) := network_loop root k elapsed prev (entries "/sys/class/net") [] [] in
  exists items, networks = map VObject items /\ valid_list network_ok (name_of "name") 64 items /\
    Forall (fun kv => is_u64 kv.2.1 /\ is_u64 kv.2.2) next.
Proof.
  intros He Hp. destruct (network_loop_ok elapsed prev He Hp (entries "/sys/class/net") [] []) as (items & E & Hok & Hnext).
  - rewrite entries_perm. apply Hpm.
  - rewrite entries_perm. apply Hpm.
  - split; [constructor|]. split; [constructor|]. split; [by intros i ?%elem_of_nil|done].
  - constructor.
  - cbn [map] in *. destruct (network_loop _ _ _ _ _ _ _) as [networks next]. cbn [fst snd] in *. by exists items.
Qed.

Lemma storage_collected : exists items,
  storage_loop root k (isort mount_before
    (match read "/proc/self/mountinfo" kProcLimit with Some info => omap parse_mount (getlines info) | None => [] end))
    ∅ [] = map VObject items /\ valid_list storage_ok (name_of "mount_point") 64 items.
Proof.
  apply (storage_loop_ok _ ∅ []); [apply Hpm|apply mounts_good|constructor|constructor| |done]. by intros i ?%elem_of_nil.
Qed.

(** The tick counters of /proc/stat. *)
Lemma cpu_collected st cpu cpu_state : remembered_ok st ->
  (let stat := default ""%string (read "/proc/stat" kProcLimit) in
   if starts_with "cpu " stat then
     let xs := stream_uint64s (String.length stat) (str_drop 4 stat) in
     let cur := stat_sums 0 xs 0 0 in
     let cpu := match previous_cpu st with
                | Some prev => match cpu_usage prev cur with
                               | Some u => map_set "usage_ratio" (VNumber u) []
                               | None => []
                               end
                | None => []
                end in
     (cpu, Some cur)
   else ([], previous_cpu st)) = (cpu, cpu_state) ->
  typed usage_schema cpu /\ opt (fun p => is_u64 p.1 /\ is_u64 p.2) cpu_state.
Proof.
  intros [Hc _]. cbv zeta. case_if; [|intros [= <- <-]; split; [apply typed_nil|done]].
  pose proof (stat_sums_range 0 (stream_uint64s (String.length (default ""%string (read "/proc/stat" kProcLimit)))
    (str_drop 4 (default ""%string (read "/proc/stat" kProcLimit)))) 0 0 ltac:(done) ltac:(done)) as Hs.
  set (cur := stat_sums _ _ _ _) in *. clearbody cur. intros E%pair_eq. destruct E as [<- <-]. split; [|done].
  destruct (previous_cpu st) as [prev|]; [|apply typed_nil]. destruct (cpu_usage prev cur) as [u|] eqn:E; [|apply typed_nil].
  eapply typed_set; [apply typed_nil|in_schema|]. by eapply cpu_usage_kind; [apply Hc|apply Hs|].
Qed.

(** The entries of the GPUs: the V3D's, or the cards'. *)
Lemma gpus_collected (v3d_found : bool) st t m : opt (fun t => has_kind KNumber (VNumber t)) t ->
  let '(rt, gpu_state) :=
    if v3d_found then
      let '(gpu, prev') := v3d_gpu root k (previous_gpu st) t in
      (map_set "gpus" (VArray [VObject gpu]) m, prev')
    else (set_list "gpus" (drm_gpus root k) m, previous_gpu st) in
  exists items, rt = set_list "gpus" (map VObject items) m /\ valid_list gpu_ok (name_of "name") 16 items.
Proof.
  intros Ht. destruct v3d_found.
  - pose proof (v3d_gpu_ok (previous_gpu st) t Ht) as Hv. destruct (v3d_gpu root k (previous_gpu st) t) as [g prev'].
    by exists [g].
  - destruct (drm_gpus_ok (pm_cards Hpm)) as (items & -> & Hok). by exists items.
Qed.

(** What [metrics] reports is made of good parts, and what it remembers is in range. *)
Lemma metrics_collected now st : remembered_ok st -> (forall t, previous_time st = Some t -> 0 <= now - t <= 2 ^ 63) ->
  let '(report, st') := metrics root k now st in
  remembered_ok st' /\ previous_time st' = Some now /\
  exists p, parts_ok p /\ report = match report_map p with [] => None | _ => Some (VObject (report_map p)) end.
Proof.
  intros Hst Hnow. unfold metrics. cbv zeta.
  match goal with |- context [if starts_with "cpu " ?s then ?a else ?b] =>
    destruct (if starts_with "cpu " s then a else b) as [cpu0 cpu_state] eqn:Ec end.
  apply (cpu_collected _ _ _ Hst) in Ec as [Hc0 Hcs].
  pose proof (thermal_ok_fold (entries "/sys/class/thermal") (cpu0, None) (conj Hc0 I)) as [Hc Ht].
  destruct (fold_left (thermal_zone root k) _ _) as [cpu t]. cbn [fst snd] in *.
  set (elapsed := match previous_time st with Some t0 => ddiv (double_of_Z (now - t0)) d1e9 | None => d0 end).
  assert (He : passed elapsed).
  { unfold elapsed. destruct (previous_time st) as [t0|]; [by apply elapsed_passed, Hnow|done]. }
  pose proof (networks_collected elapsed (previous_network st) He (co_network st Hst)) as Hn.
  destruct (network_loop root k elapsed _ _ _ _) as [networks next]. destruct Hn as (nets & -> & Hnets & Hnext).
  destruct storage_collected as (vols & -> & Hvols).
  pose proof (gpus_collected (existsb v3d_entry (entries "/sys/bus/platform/devices") || existsb v3d_entry (entries "/sys/class/devfreq"))
    st t (set_list "storage_volumes" (map VObject vols) (set_list "network_interfaces" (map VObject nets) [])) Ht) as Hg.
  match type of Hg with context [if ?c then ?a else ?b] => destruct (if c then a else b) as [rt gpu_state] end.
  destruct Hg as (gpus & -> & Hgpus).
  split; [by split|]. split; [done|].
  set (memory := match read "/proc/meminfo" kProcLimit with Some mem => memory_group mem | None => [] end).
  assert (Hm : typed memory_use_schema memory /\
    exceeds (unsigned_at memory "total_bytes") (unsigned_at memory "available_bytes") = false /\
    exceeds (unsigned_at memory "swap_total_bytes") (unsigned_at memory "swap_available_bytes") = false).
  { unfold memory. destruct (read _ _); [apply memory_group_ok|]. split; [apply typed_nil|done]. }
  exists {| p_cpu := cpu; p_memory := memory;
    p_system := system_group (default ""%string (read "/proc/uptime" kSysfsLimit)) (default ""%string (read "/proc/loadavg" kSysfsLimit));
    p_networks := nets; p_storage := vols; p_gpus := gpus |}.
  split; [|reflexivity]. split; cbn; try done; [apply Hm|apply Hm|apply system_group_typed].
Qed.
End collected.

(** ** The two sides together *)

(** The group and the list at a key of a report. *)
Definition group_at (key : string) (m : std_map Value) : std_map Value :=
  match map_find key m with Some (VMap g) => g | _ => [] end.
Definition list_at (key : string) (m : std_map Value) : list (std_map Value) :=
  match map_find key m with
  | Some (VArray l) => omap (fun v => match v with VMap g => Some g | _ => None end) l
  | _ => []
  end.

(** What a report of the daemon says, field by field. *)
Definition info_said (v : Value) : SystemInfo :=
  match v with
  | VMap m => info_of (group_at "host" m) (group_at "os" m) (group_at "kernel" m) (group_at "hardware" m)
                (group_at "cpu" m) (group_at "memory" m)
  | _ => info_of [] [] [] [] [] []
  end.
Definition metrics_said (v : Value) : SystemMetrics :=
  let m := match v with VMap m => m | _ => [] end in
  metrics_of {| p_cpu := group_at "cpu" m; p_memory := group_at "memory" m; p_system := group_at "system" m;
                p_networks := list_at "network_interfaces" m; p_storage := list_at "storage_volumes" m;
                p_gpus := list_at "gpus" m |}.

Lemma group_at_value key m g : map_find key m = group_value g -> group_at key m = g.
Proof. unfold group_at. intros ->. by destruct g. Qed.

Lemma list_at_value key m items : map_find key m = list_value (map VObject items) -> list_at key m = items.
Proof.
  unfold list_at. intros ->. destruct items as [|i items]; [done|]. cbn [map list_value]. unfold VObject.
  rewrite omap_cons. f_equal. induction items as [|j items IH]; [done|]. cbn [map]. rewrite omap_cons. by f_equal.
Qed.

Lemma metrics_said_report p : metrics_said (VObject (report_map p)) = metrics_of p.
Proof.
  unfold metrics_said, VObject, report_map. cbv zeta.
  rewrite (group_at_value "cpu" _ (p_cpu p)) by find_part. rewrite (group_at_value "memory" _ (p_memory p)) by find_part.
  rewrite (group_at_value "system" _ (p_system p)) by find_part.
  rewrite (list_at_value "network_interfaces" _ (p_networks p)) by find_part.
  rewrite (list_at_value "storage_volumes" _ (p_storage p)) by find_part.
  rewrite (list_at_value "gpus" _ (p_gpus p)) by find_part. by destruct p.
Qed.

(** The collected information, sent and read. *)
Lemma info_understood root k : plain_info root k -> system_info root k <> VObject [] ->
  wire_ok 100 (system_info root k) /\ infoFromMap (of_wire (system_info root k)) = Some (info_said (system_info root k)).
Proof.
  intros Hpl Hne. destruct (system_info_groups root k Hpl) as (host & os & kernel & hardware & cpu & memory & E & H1 & H2 & H3 & H4 & H5 & H6).
  rewrite E in *. split; [by apply (groups_wire _ _ _ _ _ _ H1 H2 H3 H4 H5 H6 96)|].
  rewrite infoFromMap_groups by done. rewrite groups_say; [|done..|].
  2: { intros E'. apply Hne. by rewrite E'. }
  f_equal. unfold info_said, VObject.
  rewrite (group_at_value "host" _ host) by find_part. rewrite (group_at_value "os" _ os) by find_part.
  rewrite (group_at_value "kernel" _ kernel) by find_part. rewrite (group_at_value "hardware" _ hardware) by find_part.
  rewrite (group_at_value "cpu" _ cpu) by find_part. by rewrite (group_at_value "memory" _ memory) by find_part.
Qed.

(** The collected metrics, sent and read. *)
Lemma metrics_understood root k now st : plain_metrics root k -> remembered_ok st ->
  (forall t, previous_time st = Some t -> 0 <= now - t <= 2 ^ 63) ->
  let '(report, st') := metrics root k now st in
  remembered_ok st' /\ previous_time st' = Some now /\ opt (wire_ok 100) report /\
  forall x, report = Some x -> metricsFromMap (of_wire x) = Some (metrics_said x).
Proof.
  intros Hpm Hst Hnow. pose proof (metrics_collected root k Hpm now st Hst Hnow) as H.
  destruct (metrics root k now st) as [report st']. destruct H as (Hr & Ht & p & Hp & ->).
  split; [done|]. split; [done|].
  assert (Hw : wire_ok 100 (VObject (report_map p))) by by apply (report_wire p Hp 95).
  split; [by destruct (report_map p)|]. intros x Hx. assert (x = VObject (report_map p)) as -> by (destruct (report_map p); [done|congruence]). rewrite metrics_said_report. by apply metricsFromMap_parts.
Qed.

(** C2. What the daemon's collectors report is what the dashboard reads: on a machine whose
    texts are plain and whose interfaces, mounts and graphics cards are named apart, a
    hello and a snapshot made of [system_info] and [metrics], of a size that can be sent,
    decode to exactly the fields collected; and the collector stays fit for the next
    collection. *)
Theorem daemon_reports_understood `{QtCodec} c d i s root k now st
  (Hd : valid_uuid d) (Hi : valid_uuid i) (Hname : validText (display_name c) 128 = true /\ rfc3629 (display_name c))
  (Hinterval : 1 <= interval_seconds c <= 5) (Hs : wire_int s)
  (Hinfo : plain_info root k) (Hsome : system_info root k <> VObject []) (Hmetrics : plain_metrics root k)
  (Hst : remembered_ok st) (Hclock : forall t, previous_time st = Some t -> 0 <= now - t <= 2 ^ 63) :
  let info := system_info root k in
  let '(report, st') := metrics root k now st in
  (remembered_ok st' /\ previous_time st' = Some now) /\
  (len (hello c d i info) <= maximum_datagram_size ->
   decodeMessage (hello c d i info) =
   inr (MHello {| h_device_id := d; h_instance_id := i; h_display_name := display_name c;
                  h_interval_seconds := interval_seconds c; h_system_info := info_said info |})) /\
  (len (snapshot c d i s info report) <= maximum_datagram_size ->
   decodeMessage (snapshot c d i s info report) =
   inr (MDeviceSnapshot {| s_device_id := d; s_instance_id := i; s_interval_seconds := interval_seconds c;
          s_sequence := s; s_system_info := info_said info; s_metrics := metrics_said <$> report |})).
Proof.
  cbv zeta. destruct (info_understood root k Hinfo Hsome) as [Hw Hread].
  pose proof (metrics_understood root k now st Hmetrics Hst Hclock) as Hm.
  destruct (metrics root k now st) as [report st']. destruct Hm as (Hst' & Hnow' & Hrw & Hrr).
  assert (Han : announcement c d i (system_info root k) (info_said (system_info root k))) by by constructor.
  split; [done|]. split; [by apply decodeMessage_hello|]. intros Hlen.
  rewrite (decodeMessage_snapshot c d i _ _ Han s report (metrics_said (default (VMap []) report))); try done.
  - by destruct report.
  - intros x ->. by apply Hrr.
Qed.

(** *** A Raspberry Pi *)

Definition nul_text : string := String nul "".
Definition lines (l : list string) : string := foldr (fun a b => a ++ String newline b)%string ""%string l.

Definition pi_files : list (string * string) :=
  [("/etc/os-release", lines ["ID=debian"; "VERSION_ID=12"]);
   ("/proc/meminfo", lines ["MemTotal:        8000 kB"; "MemAvailable:    6000 kB"]);
   ("/proc/cpuinfo", lines ["processor : 0"; "Revision : c04170"]);
   ("/sys/devices/system/cpu/online", "0-3");
   ("/sys/firmware/devicetree/base/compatible", "raspberrypi,5-model-b" ++ nul_text ++ "brcm,bcm2712" ++ nul_text);
   ("/sys/firmware/devicetree/base/model", "Raspberry Pi 5" ++ nul_text);
   ("/proc/stat", lines ["cpu 30 0 20 50 0"]); ("/proc/uptime", "12.5 40.0"); ("/proc/loadavg", "0.5 0.25 0.125 1/100 7");
   ("/sys/class/thermal/thermal_zone0/type", "cpu-thermal"); ("/sys/class/thermal/thermal_zone0/temp", "50000");
   ("/sys/class/net/eth0/statistics/rx_bytes", "3000"); ("/sys/class/net/eth0/statistics/tx_bytes", "2000");
   ("/proc/self/mountinfo", lines ["1 0 8:2 / / rw - ext4 /dev/sda2 rw"])]%string.

Definition pi : machine :=
  {| fs_read := fun p => map_find p pi_files;
     fs_dir := fun p => if String.eqb p "/sys/class/net" then ["lo"; "eth0"]%string
                        else if String.eqb p "/sys/class/thermal" then ["thermal_zone0"%string]
                        else if String.eqb p "/sys/class/devfreq" then ["1000.v3d"%string] else [];
     fs_statvfs := fun _ => Some (4096, 1000, 400);
     k_hostname := Some "pi-five"%string; k_uname := Some ("Linux", "6.6", "aarch64")%string; k_processors := 4 |}.

Definition pi_remembers : Collector :=
  {| previous_cpu := Some (50, 30); previous_network := [("eth0"%string, (1000, 2000))]; previous_time := Some 0;
     previous_gpu := None |}.

Lemma plain_true s : str_forall ascii7 s && (size s <=? 256) = true -> plain s.
Proof. intros [H1 H2%Z.leb_le]%andb_true_iff. by split. Qed.

Lemma Forall_plain l : forallb (fun s => str_forall ascii7 s && (size s <=? 256)) l = true -> Forall plain l.
Proof. rewrite forallb_forall. intros H. apply Forall_forall. intros s Hs. by apply plain_true, H, list_elem_of_In. Qed.

Lemma pi_info : plain_info "/" pi.
Proof.
  constructor; try (intros s E; vm_compute in E; injection E as <-; by apply plain_true);
    try (intros s E; vm_compute in E; discriminate E).
  - intros a b c [= <- <- <-]. by split; [|split]; apply plain_true.
  - intros s E. vm_compute in E. injection E as <-. by apply Forall_plain.
  - intros s n E. vm_compute in E. injection E as <-. intros E. vm_compute in E. injection E as <-. by vm_compute.
  - intros s E. vm_compute in E. injection E as <-.
    eapply Forall_impl; [by apply Forall_plain; vm_compute|]. intros line Hl. unfold plain_cpu_line. by destruct (find_char _ _).
  - split; [by apply Forall_plain|]. split; [|by vm_compute]. by_decision.
Qed.

Lemma pi_metrics : plain_metrics "/" pi.
Proof.
  constructor.
  - repeat constructor; by apply rfc3629_ascii.
  - by_decision.
  - intros info E. vm_compute in E. injection E as <-.
    match goal with |- Forall _ ?l => let v := eval vm_compute in l in change l with v end.
    repeat constructor; by apply rfc3629_ascii.
  - intros p f b a [= <- <- <-]. lia.
  - by_decision.
Qed.

Lemma daemon_reports_understood_witness :
  let info := system_info "/" pi in
  let report := (metrics "/" pi 2000000000 pi_remembers).1 in
  host_name (info_host (info_said info)) = Some "pi-five"%string /\
  hw_model (info_hardware (info_said info)) = Some "Raspberry Pi 5"%string /\
  map ni_name (network_interfaces (metrics_said (default (VMap []) report))) = ["eth0"%string] /\
  map gpu_name (gpus (metrics_said (default (VMap []) report))) = ["V3D"%string] /\
  @decodeMessage reference_codec (snapshot sample_config (be_bytes 16 7) (be_bytes 16 9) 5 info report) =
  inr (MDeviceSnapshot {| s_device_id := be_bytes 16 7; s_instance_id := be_bytes 16 9; s_interval_seconds := 1;
         s_sequence := 5; s_system_info := info_said info; s_metrics := metrics_said <$> report |}).
Proof.
  pose proof (@daemon_reports_understood reference_codec sample_config (be_bytes 16 7) (be_bytes 16 9) 5 "/" pi
    2000000000 pi_remembers) as H.
  split; [by vm_compute|]. split; [by vm_compute|]. split; [by vm_compute|]. split; [by vm_compute|].
  cbv zeta in H |- *. destruct (metrics "/" pi 2000000000 pi_remembers) as [report st'] eqn:E. cbn [fst].
  apply H; clear H.
  - split; [reflexivity|by_decision].
  - split; [reflexivity|by_decision].
  - split; [reflexivity|by apply rfc3629_ascii].
  - cbn. lia.
  - clear E. split; vm_compute; discriminate.
  - apply pi_info.
  - vm_compute. discriminate.
  - apply pi_metrics.
  - clear E. split; [by vm_compute|]. repeat constructor; by vm_compute.
  - intros t [= <-]. lia.
  - vm_compute in E. injection E as <- _. by_decision.
Defined.
