(* ===== verification/QtText.v ===== *)
(** * Qt's texts and byte arrays, as the local collectors use them

    A [QByteArray] is a text of bytes, a [QString] its UTF-8 form.  The functions on byte
    arrays follow Qt's documentation (white space is C's, letters are ASCII's); those that
    need Unicode, number syntax or an unspecified order are parameters ([QtText]). *)

From S2P Require Import Prelude.
From S2P Require Import Std.
From S2P Require Import Float64.
From S2P Require Import FloatBounds.

(** ** Byte arrays *)

(** [QByteArray::trimmed] *)
Definition not_space (c : ascii) : bool := negb (isspace c).
Definition ba_trimmed (s : string) : string :=
  match find_if not_space s, find_last_if not_space s with
  | Some a, Some b => substr a (b - a + 1) s
  | _, _ => EmptyString
  end.

(** [QByteArray::simplified]: words with one space between them. *)
Definition simplified (s : string) : string := join_on " " (tokens s).

(** [QByteArray::count(char)] *)
Fixpoint count_char (c : ascii) (s : string) : nat :=
  match s with EmptyString => O | String d r => if is_char c d then S (count_char c r) else count_char c r end.

(** [QString::fromLatin1]: a code point per byte. *)
Fixpoint fromLatin1 (s : string) : string :=
  match s with
  | EmptyString => EmptyString
  | String c r =>
      let v := char_val c in
      if v <? 128 then String c (fromLatin1 r)
      else String (char_of (192 + v / 64)) (String (char_of (128 + v mod 64)) (fromLatin1 r))
  end.

(** [list.value(i)], [list.at(i)] within bounds. *)
Definition at_ (i : nat) (l : list string) : string := nth i l ""%string.

(** ** What is Qt's *)

Definition strict_order {A} (lt : A -> A -> bool) : Prop :=
  (forall x y, lt x y = true -> lt y x = false) /\
  (forall x y z, lt y x = false -> lt z y = false -> lt z x = false).

Class QtText := {
  q_trimmed : string -> string;                 (* QString::trimmed *)
  q_toLower : string -> string;
  q_toUpper : string -> string;
  q_fromUtf8 : string -> string;
  q_equal_ci : string -> string -> bool;        (* compare(..., Qt::CaseInsensitive) == 0 *)
  q_lessThan : string -> string -> bool;        (* operator< *)
  toULongLong : string -> option Z;             (* QByteArray::toULongLong, base 10 *)
  toDouble : string -> option double;           (* QByteArray::toDouble *)
  hash_entries : forall {A}, gmap string A -> list (string * A);      (* QHash iteration *)
  ranges_sort : forall {A}, (A -> A -> bool) -> list A -> list A;     (* std::ranges::sort *)
  q_lessThan_order : strict_order q_lessThan;
  q_lessThan_total x y : q_lessThan x y = false -> q_lessThan y x = false -> x = y;
  toULongLong_digits s : s <> ""%string -> str_forall isdigit s = true ->
    toULongLong s = if decimal s <=? uint64_max then Some (decimal s) else None;
  toULongLong_range s n : toULongLong s = Some n -> 0 <= n <= uint64_max;
  toDouble_valid s d : toDouble s = Some d -> valid64 d = true;
  hash_entries_perm {A} (m : gmap string A) : hash_entries m ≡ₚ map_to_list m;
  ranges_sort_perm {A} (lt : A -> A -> bool) l : ranges_sort lt l ≡ₚ l;
  ranges_sort_sorted {A} (lt : A -> A -> bool) l : strict_order lt ->
    StronglySorted (fun x y => lt y x = false) (ranges_sort lt l) }.

#[export] Hint Resolve toULongLong_range : dash.

(** [cleanString] *)
Definition cleanString `{QtText} (value : string) : option string :=
  let value := q_trimmed value in
  if String.eqb value "" || q_equal_ci value "unknown" then None else Some value.

Lemma cleanString_nonempty `{QtText} s v : cleanString s = Some v -> v <> ""%string.
Proof. unfold cleanString. case_if; [done|]. intros [= <-] E. rewrite E in *. done. Qed.

(** ** Lemmas *)

Lemma isdigit_not_space c : isdigit c = true -> not_space c = true.
Proof. unfold isdigit, not_space, isspace. intros H. bool_facts. apply negb_true_iff, orb_false_iff. split; [lia|]. apply andb_false_iff. lia. Qed.

(** Trimming leaves a text alone whose first and last characters are no space. *)
Lemma find_if_all p s : s <> ""%string -> str_forall p s = true -> find_if p s = Some O.
Proof. destruct s; simpl; [done|]. intros _ H. bool_facts. by rewrite H. Qed.

Lemma find_last_if_all p s : s <> ""%string -> str_forall p s = true -> find_last_if p s = Some (String.length s - 1)%nat.
Proof.
  induction s as [|c s IH]; [done|]. intros _ H. simpl in H. bool_facts. simpl.
  destruct s as [|d s]; [by rewrite H|]. rewrite IH by done. simpl. f_equal. lia.
Qed.

(** What trimming does to a text of other characters, alone or before one to trim. *)
Lemma trimmed_plain p s : str_forall p s = true ->
  match find_if p s, find_last_if p s with Some a, Some b => substr a (b - a + 1) s | _, _ => ""%string end = s.
Proof.
  intros H. destruct (String.eqb_spec s "") as [->|Hne]; [done|].
  rewrite find_if_all, find_last_if_all by done. unfold substr. change (str_drop 0 s) with s.
  replace (String.length s - 1 - 0 + 1)%nat with (String.length s).
  - rewrite <- (string_app_nil s) at 2. apply str_take_app.
  - destruct s; [done|]. simpl. lia.
Qed.

Lemma find_last_if_snoc p s c : p c = false -> find_last_if p (s ++ String c "") = find_last_if p s.
Proof. intros Hc. induction s as [|d s IH]; simpl; [by rewrite Hc|]. by rewrite IH. Qed.

Lemma trimmed_line p s c : str_forall p s = true -> p c = false ->
  match find_if p (s ++ String c ""), find_last_if p (s ++ String c "") with
  | Some a, Some b => substr a (b - a + 1) (s ++ String c "")
  | _, _ => ""%string
  end = s.
Proof.
  intros H Hc. rewrite find_last_if_snoc by done. destruct (String.eqb_spec s "") as [->|Hne].
  { simpl. by rewrite Hc. }
  rewrite (find_last_if_all p s) by done.
  assert (E : find_if p (s ++ String c "") = Some O) by (destruct s; [done|]; simpl in *; bool_facts; by rewrite H).
  rewrite E. unfold substr. change (str_drop 0 ?x) with x.
  replace (String.length s - 1 - 0 + 1)%nat with (String.length s) by (destruct s; [done|]; simpl; lia).
  apply str_take_app.
Qed.

Lemma ba_trimmed_all s : str_forall not_space s = true -> ba_trimmed s = s.
Proof. apply trimmed_plain. Qed.

Lemma string_ltb_order : strict_order String.ltb.
Proof. split; [apply string_ltb_asym|apply string_ltb_ge_trans]. Qed.

(** ** Qt's functions on ASCII texts *)

Definition whole_number (s : string) : option Z :=
  if negb (String.eqb s "") && str_forall isdigit s && (decimal s <=? uint64_max) then Some (decimal s) else None.

Lemma whole_number_range s n : whole_number s = Some n -> 0 <= n <= uint64_max.
Proof.
  unfold whole_number. case_if; [|done]. intros [= <-]. bool_facts. split; [|done].
  by apply decimal_acc_nonneg.
Qed.

#[export, refine] Instance ascii_text : QtText := {|
  q_trimmed := ba_trimmed; q_toLower := str_map tolower; q_toUpper := str_map toupper; q_fromUtf8 s := s;
  q_equal_ci a b := String.eqb (str_map tolower a) (str_map tolower b);
  q_lessThan := String.ltb; toULongLong := whole_number;
  toDouble s := double_of_Z <$> whole_number s;
  hash_entries A m := map_to_list m; ranges_sort A lt l := isort lt l |}.
Proof.
  - apply string_ltb_order.
  - intros x y. unfold String.ltb. pose proof (String.compare_antisym x y) as Ha.
    destruct (String.compare x y) eqn:E; try done; [by apply String.compare_eq_iff in E|]. by destruct (String.compare y x).
  - intros s Hne Hd. unfold whole_number. rewrite Hd, (proj2 (String.eqb_neq s "")) by done. done.
  - apply whole_number_range.
  - intros s d. destruct (whole_number s) as [n|] eqn:E; [|done]. intros [= <-]. apply whole_number_range in E.
    by destruct (double_of_Z_nonneg n) as (v & (Hv & _) & _); [unfold uint64_max in *; lia|].
  - done.
  - intros A lt l. apply isort_perm.
  - intros A lt l [Ha Ht]. by apply isort_sorted.
Defined.
