(* ===== verification/QtModel.v ===== *)
(** * Qt's values and item models

    [QVariant] as far as the dashboard's properties use it, and the contract between a
    [QAbstractItemModel] and its views: the row signals a model emits, each with the rows
    the model has at that moment, let a view follow the model. *)

From S2P Require Import Prelude.
From S2P Require Import Float64.

(** [QVariant{}] and the types stored in one. *)
Inductive QVariant :=
| Invalid
| OfInteger (z : Z)
| OfDouble (d : double)
| OfText (s : string)
| OfBool (b : bool)
| OfDateTime (ms : Z).      (* a valid QDateTime, milliseconds since the epoch *)

#[export] Instance QVariant_eq_dec : EqDecision QVariant. Proof. solve_decision. Defined.

(** [optionalVariant] for the types of the reports. *)
Definition optionalInteger (v : option Z) : QVariant := match v with Some z => OfInteger z | None => Invalid end.
Definition optionalDouble (v : option double) : QVariant := match v with Some d => OfDouble d | None => Invalid end.
Definition optionalText (v : option string) : QVariant := match v with Some s => OfText s | None => Invalid end.

(** ** Dates *)

(** A [QDateTime] is its number of milliseconds since the epoch in UTC, [None] when invalid. *)
Definition QDateTime : Type := option Z.

Definition addSecs (t : QDateTime) (seconds : Z) : QDateTime := option_map (fun ms => ms + seconds * 1000) t.

(** The date (days since the epoch) and the hour of the day. *)
Definition date_of (ms : Z) : Z := ms / 86400000.
Definition hour_of (ms : Z) : Z := (ms mod 86400000) / 3600000.

(** [from.secsTo(to)]: whole seconds, towards zero. *)
Definition secs_to (from to : Z) : Z := Z.quot (to - from) 1000.

(** ** Row signals *)

(** A change of the rows [first..last], emitted between [begin...] and [end...]. *)
Inductive row_signal :=
| rowsRemoved (first last : nat)
| rowsInserted (first last : nat)
| dataChanged (first last : nat)
| modelReset.

Section view.
Context {A : Type}.

(** What a view does that shows [rows] when a signal arrives and the model's rows are [model]. *)
Definition follow (rows : list A) (s : row_signal * list A) : list A :=
  let '(signal, model) := s in
  match signal with
  | rowsRemoved first last => take first rows ++ drop (S last) rows
  | rowsInserted first last => take first rows ++ take (S last - first) (drop first model) ++ drop first rows
  | dataChanged first last =>
      take first rows ++ take (S last - first) (drop first model) ++ drop (S last) rows
  | modelReset => model
  end.

(** The contract: a view that showed the rows before shows the rows after. *)
Definition mirrors (before : list A) (signals : list (row_signal * list A)) (after : list A) : Prop :=
  fold_left follow signals before = after.

Lemma mirrors_nil rows : mirrors rows [] rows.
Proof. done. Qed.

Lemma mirrors_app a s b s' c : mirrors a s b -> mirrors b s' c -> mirrors a (s ++ s') c.
Proof. unfold mirrors. rewrite fold_left_app. by intros -> ->. Qed.

Lemma mirrors_append rows x : mirrors rows [(rowsInserted (length rows) (length rows), rows ++ [x])] (rows ++ [x]).
Proof.
  unfold mirrors. cbn [fold_left follow]. rewrite drop_app_length, firstn_all, drop_all.
  by replace (S (length rows) - length rows)%nat with 1%nat by lia.
Qed.

Lemma mirrors_remove_front n rows :
  (0 < n)%nat -> mirrors rows [(rowsRemoved 0 (n - 1), drop n rows)] (drop n rows).
Proof. intros Hn. unfold mirrors. cbn [fold_left follow take app]. by replace (S (n - 1)) with n by lia. Qed.

Lemma mirrors_remove_at i rows :
  mirrors rows [(rowsRemoved i i, take i rows ++ drop (S i) rows)] (take i rows ++ drop (S i) rows).
Proof. done. Qed.

Lemma mirrors_update i rows x :
  (i < length rows)%nat -> mirrors rows [(dataChanged i i, <[i:=x]> rows)] (<[i:=x]> rows).
Proof.
  intros Hi. unfold mirrors. cbn [fold_left follow]. replace (S i - i)%nat with 1%nat by lia.
  rewrite (drop_S _ x) by by apply list_lookup_insert_eq. cbn [take]. rewrite drop_insert_lt by lia.
  rewrite (insert_take_drop rows i x Hi). done.
Qed.
End view.
