(* ===== verification/Bindings.v ===== *)
(** * Bindings to properties

    QML reads a property when a binding is made, and again whenever the NOTIFY signal of
    its Q_PROPERTY is emitted.  An emission is a signal with what the object is at that
    moment.  A handler keeps a binding current if, when the binding shows what the property
    is before the handler, it shows what the property is after it. *)

From S2P Require Import Prelude.

Section bindings.
Context {X M : Type} `{EqDecision X}.

(** What a binding shows after emissions that showed [initial] before them. *)
Definition bound {A} (read : M -> A) (notify : X) (es : list (X * M)) (initial : A) : A :=
  fold_left (fun shown e => if bool_decide (e.1 = notify) then read e.2 else shown) es initial.

(** From [m] through [es] to [m'] the binding stays current. *)
Definition keeps_current {A} (read : M -> A) (notify : X) (m : M) (es : list (X * M)) (m' : M) : Prop :=
  bound read notify es (read m) = read m'.

Lemma bound_app {A} (read : M -> A) notify a b initial :
  bound read notify (a ++ b) initial = bound read notify b (bound read notify a initial).
Proof. unfold bound. by rewrite fold_left_app. Qed.

(** It was read at one moment, whatever is read. *)
Lemma bound_moment notify es m0 : exists m, forall A (read : M -> A), bound read notify es (read m0) = read m.
Proof.
  unfold bound. revert m0. induction es as [|e es IH]; intros m0; [by exists m0|]. cbn. case_bool_decide; apply IH.
Qed.

(** A binding to something that another binding determines. *)
Lemma keeps_determined {A B} (read : M -> A) (read' : M -> B) notify m es m' :
  (forall x y, read x = read y -> read' x = read' y) ->
  keeps_current read notify m es m' -> keeps_current read' notify m es m'.
Proof.
  unfold keeps_current. intros Hdet. destruct (bound_moment notify es m) as (x & Hread). rewrite !Hread. apply Hdet.
Qed.

Lemma keeps_app {A} (read : M -> A) notify m a m1 b m2 :
  keeps_current read notify m a m1 -> keeps_current read notify m1 b m2 -> keeps_current read notify m (a ++ b) m2.
Proof. unfold keeps_current. intros Ha Hb. by rewrite bound_app, Ha. Qed.

(** An emission makes its bindings current. *)
Lemma keeps_emitted {A} (read : M -> A) notify m es m' : keeps_current read notify m (es ++ [(notify, m')]) m'.
Proof. unfold keeps_current. rewrite bound_app. cbn. by rewrite bool_decide_eq_true_2. Qed.

Lemma keeps_emit {A} (read : M -> A) notify m es x m' :
  keeps_current read notify m es m' -> keeps_current read notify m (es ++ [(x, m')]) m'.
Proof. unfold keeps_current. intros Hm. rewrite bound_app. cbn. by case_bool_decide. Qed.

(** What the property does not read may change. *)
Lemma keeps_quiet {A} (read : M -> A) notify m es m1 m2 :
  read m2 = read m1 -> keeps_current read notify m es m1 -> keeps_current read notify m es m2.
Proof. unfold keeps_current. by intros ->. Qed.
End bindings.
