(* ===== verification/MetricHistory.v ===== *)
(** * The usage history (src/sysmetrics/system_metric_history_model.cpp)

    [SystemMetricHistoryModel]: the samples of the last minute, in order. *)

From S2P Require Import Prelude.
From S2P Require Import Float64.
From S2P Require Import QtModel.

Definition kHistoryWindowMilliseconds : Z := 60000.

Record Sample := {
  elapsed_milliseconds : Z;
  cpu_usage_ratio : option double;
  memory_usage_ratio : option double }.

Inductive Role := ElapsedMilliseconds | CpuUsageRatio | MemoryUsageRatio | OtherRole.

Definition rowCount (samples : list Sample) : Z := Z.of_nat (length samples).

(** [data(index, role)] at a row of the top level; an index that is not valid gives [QVariant{}]. *)
Definition data (samples : list Sample) (row : nat) (role : Role) : QVariant :=
  match samples !! row with
  | None => Invalid
  | Some sample =>
      match role with
      | ElapsedMilliseconds => OfInteger (elapsed_milliseconds sample)
      | CpuUsageRatio => optionalDouble (cpu_usage_ratio sample)
      | MemoryUsageRatio => optionalDouble (memory_usage_ratio sample)
      | OtherRole => Invalid
      end
  end.

(** The [while] of [appendSample]. *)
Fixpoint remove_count (cutoff : Z) (samples : list Sample) : nat :=
  match samples with
  | [] => O
  | s :: rest => if elapsed_milliseconds s <? cutoff then S (remove_count cutoff rest) else O
  end.

(** [appendSample]: the rows and the signals on the way. *)
Definition appendSample (new : Sample) (samples : list Sample) : list Sample * list (row_signal * list Sample) :=
  let cutoff := elapsed_milliseconds new - kHistoryWindowMilliseconds in
  let n := remove_count cutoff samples in
  let samples1 := drop n samples in
  let signals1 := if (0 <? n)%nat then [(rowsRemoved 0 (n - 1), samples1)] else [] in
  let row := length samples1 in
  let samples2 := samples1 ++ [new] in
  (samples2, signals1 ++ [(rowsInserted row row, samples2)]).

(** ** Lemmas *)

(** Samples in the order of time. *)
Definition chronological : list Sample -> Prop :=
  StronglySorted (fun a b => elapsed_milliseconds a <= elapsed_milliseconds b).

Definition recent (now : Z) (s : Sample) : Prop := now - kHistoryWindowMilliseconds <= elapsed_milliseconds s.

#[export] Instance recent_dec now s : Decision (recent now s).
Proof. unfold recent. apply _. Defined.

Lemma chronological_snoc samples s :
  chronological (samples ++ [s]) <->
  chronological samples /\ Forall (fun a => elapsed_milliseconds a <= elapsed_milliseconds s) samples.
Proof.
  induction samples as [|a samples IH]; cbn [app].
  - split; [intros _; split; constructor|intros _; repeat constructor].
  - split.
    + intros H. inversion H as [|? ? Hs Ha]; subst. apply IH in Hs as [Hs Hle]. apply Forall_app in Ha as [Ha Has].
      inversion Has; subst. split; [by constructor|by constructor].
    + intros [H Hle]. inversion H; subst. inversion Hle; subst. constructor; [by apply IH|].
      apply Forall_app. split; [done|by constructor].
Qed.

(** In the order of time, dropping the front until a recent sample keeps the recent ones. *)
Lemma drop_old now samples :
  chronological samples ->
  drop (remove_count (now - kHistoryWindowMilliseconds) samples) samples = filter (recent now) samples.
Proof.
  induction samples as [|s rest IH]; intros H; [done|]. inversion H as [|? ? Hrest Hle]; subst.
  cbn [remove_count]. rewrite filter_cons. destruct (_ <? _) eqn:E in |- *; bool_facts.
  - rewrite decide_False by (unfold recent; lia). by apply IH.
  - rewrite decide_True by (unfold recent; lia). cbn [drop]. f_equal. clear IH H. symmetry.
    induction Hle as [|a rest Ha _ IHl]; [done|]. inversion Hrest; subst. rewrite filter_cons, decide_True by (unfold recent; lia).
    by rewrite IHl.
Qed.

Lemma appendSample_mirrors new samples :
  mirrors samples (appendSample new samples).2 (appendSample new samples).1.
Proof.
  unfold appendSample. cbn [fst snd].
  set (n := remove_count _ _). eapply mirrors_app; [|apply mirrors_append].
  destruct (0 <? n)%nat eqn:E.
  - apply mirrors_remove_front. by apply Nat.ltb_lt.
  - apply Nat.ltb_ge in E. by replace n with O by lia.
Qed.

Lemma filter_filter_recent now now' (samples : list Sample) :
  now <= now' -> filter (recent now') (filter (recent now) samples) = filter (recent now') samples.
Proof.
  intros H. rewrite list_filter_filter. apply list_filter_iff. intros s. unfold recent. lia.
Qed.

(** All the samples appended one after the other, to an empty model. *)
Definition history (samples : list Sample) : list Sample :=
  fold_left (fun rows s => (appendSample s rows).1) samples [].

Lemma chronological_filter now samples : chronological samples -> chronological (filter (recent now) samples).
Proof.
  induction 1 as [|a samples Hs IH Ha]; [constructor|]. rewrite filter_cons. case_decide; [|done].
  constructor; [done|]. by apply Forall_filter.
Qed.

Lemma history_snoc samples s :
  chronological (samples ++ [s]) ->
  history (samples ++ [s]) = filter (recent (elapsed_milliseconds s)) samples ++ [s].
Proof.
  revert s. induction samples as [|a samples IH] using rev_ind; intros s Hs; [done|].
  unfold history. rewrite fold_left_app. cbn [fold_left]. fold (history (samples ++ [a])).
  apply chronological_snoc in Hs as [Hs Hle]. rewrite IH by done.
  unfold appendSample. cbn [fst]. f_equal.
  pose proof Hs as [Hc Hl]%chronological_snoc. apply Forall_app in Hle as [_ Hle]. inversion Hle; subst.
  rewrite drop_old.
  - rewrite !filter_app, filter_filter_recent by lia. done.
  - apply chronological_snoc. split; [by apply chronological_filter|by apply Forall_filter].
Qed.

(** ** Properties *)

(** C20. The history shows the last minute: after samples taken in the order of time the
    model holds exactly those at most 60 seconds older than the newest, each once and in
    order, and the row signals of every append let a view follow it. *)
Theorem history_window samples s (Hs : chronological (samples ++ [s])) :
  history (samples ++ [s]) = filter (recent (elapsed_milliseconds s)) (samples ++ [s]) /\
  forall rows new, mirrors rows (appendSample new rows).2 (appendSample new rows).1.
Proof.
  split; [|intros; apply appendSample_mirrors]. rewrite history_snoc by done. rewrite filter_app. f_equal.
  rewrite filter_cons, decide_True; [done|]. unfold recent, kHistoryWindowMilliseconds. lia.
Qed.

Definition sample_at (t : Z) : Sample := {| elapsed_milliseconds := t; cpu_usage_ratio := Some d0; memory_usage_ratio := None |}.

Lemma history_window_witness :
  history ([sample_at 0; sample_at 20000] ++ [sample_at 70000]) = [sample_at 20000; sample_at 70000].
Proof.
  destruct (history_window [sample_at 0; sample_at 20000] (sample_at 70000)) as [H _].
  - repeat constructor; cbn; lia.
  - rewrite H. reflexivity.
Defined.
