(* ===== verification/HistoryGeometry.v ===== *)
(** * The geometry of the usage chart (src/dashboard/resource_history_geometry.cpp)

    The samples of a metric become runs of cubic curves: [qreal] is [double], a point is
    a pair of them.  [std::exp] and [std::hypot] are parameters. *)

From S2P Require Import Prelude.
From S2P Require Import Float64.
From S2P Require Import MetricHistory.

Class MathLibrary := { std_exp : double -> double; std_hypot : double -> double -> double }.

(** The double nearest to [n / d]. *)
Definition decimal (n d : Z) : double := ddiv (double_of_Z n) (double_of_Z d).
Definition d2 : double := double_of_Z 2.
Definition d3 : double := double_of_Z 3.
Definition dabs (x : double) : double := SFabs x.
Definition dopp (x : double) : double := SFopp x.

Definition kWindowMilliseconds : double := double_of_Z 60000.
Definition kHeadroom : double := double_of_Z 6.
Definition kPixelsPerPoint : double := d1.
Definition kMaximumSubdivisions : Z := 64.
Definition kCpuSlowTimeConstantSeconds : double := decimal 18 10.
Definition kCpuFastTimeConstantSeconds : double := decimal 35 100.
Definition kCpuSlowChange : double := decimal 3 100.
Definition kCpuFastChange : double := decimal 25 100.
Definition kMemoryTimeConstantSeconds : double := d3.

(** ** Points *)

Record QPointF := { px : double; py : double }.
Record QSizeF := { width : double; height : double }.

Definition padd (a b : QPointF) : QPointF := {| px := dadd (px a) (px b); py := dadd (py a) (py b) |}.
Definition psub (a b : QPointF) : QPointF := {| px := dsub (px a) (px b); py := dsub (py a) (py b) |}.
Definition pmul (a : QPointF) (c : double) : QPointF := {| px := dmul (px a) c; py := dmul (py a) c |}.
Definition pdiv (a : QPointF) (c : double) : QPointF := {| px := ddiv (px a) c; py := ddiv (py a) c |}.
Definition setX (x : double) (a : QPointF) : QPointF := {| px := x; py := py a |}.
Definition setY (y : double) (a : QPointF) : QPointF := {| px := px a; py := y |}.

Inductive Metric := Cpu | Memory.
#[export] Instance Metric_eq_dec : EqDecision Metric. Proof. solve_decision. Defined.

Record TimedPoint := { time : double; point : QPointF }.
Record FilterState := { raw_ratio : double; filtered_ratio : double; fs_elapsed_milliseconds : Z }.
Record CubicSegment := { start_ : QPointF; control_1 : QPointF; control_2 : QPointF; end_ : QPointF }.
Record CurveRun := { run_samples : list QPointF; cubics : list CubicSegment; tessellated : list QPointF }.
Record MetricGeometry := { runs : list CurveRun; current_endpoint : option QPointF }.
Record FeatherVertex := { position : QPointF; alpha : double }.

Definition valueFor (sample : Sample) (metric : Metric) : option double :=
  match metric with Cpu => cpu_usage_ratio sample | Memory => memory_usage_ratio sample end.

Definition cubicPoint (segment : CubicSegment) (progress : double) : QPointF :=
  let inverse := dsub d1 progress in
  padd (padd (padd (pmul (start_ segment) (dmul (dmul inverse inverse) inverse))
                   (pmul (control_1 segment) (dmul (dmul (dmul d3 inverse) inverse) progress)))
             (pmul (control_2 segment) (dmul (dmul (dmul d3 inverse) progress) progress)))
       (pmul (end_ segment) (dmul (dmul progress progress) progress)).

Section geometry.
Context `{MathLibrary}.

(** ** The filter *)

Definition timeConstant (metric : Metric) (raw_change : double) : double :=
  match metric with
  | Memory => kMemoryTimeConstantSeconds
  | Cpu =>
      let progress := clamp (ddiv (dsub raw_change kCpuSlowChange) (dsub kCpuFastChange kCpuSlowChange)) d0 d1 in
      dadd kCpuSlowTimeConstantSeconds (dmul progress (dsub kCpuFastTimeConstantSeconds kCpuSlowTimeConstantSeconds))
  end.

Definition filterRatio (raw : double) (elapsed : Z) (metric : Metric) (state : option FilterState)
  : double * option FilterState :=
  match state with
  | None => (raw, Some {| raw_ratio := raw; filtered_ratio := raw; fs_elapsed_milliseconds := elapsed |})
  | Some s =>
      let delta_milliseconds := i64 (elapsed - fs_elapsed_milliseconds s) in
      let filtered :=
        if 0 <? delta_milliseconds then
          let delta_seconds := ddiv (double_of_Z delta_milliseconds) (double_of_Z 1000) in
          let constant := timeConstant metric (dabs (dsub raw (raw_ratio s))) in
          let alpha := dsub d1 (std_exp (ddiv (dopp delta_seconds) constant)) in
          dadd (filtered_ratio s) (dmul (dsub raw (filtered_ratio s)) alpha)
        else raw in
      (filtered, Some {| raw_ratio := raw; filtered_ratio := filtered; fs_elapsed_milliseconds := elapsed |})
  end.

(** ** Tangents *)

Definition endpointTangent (first_slope second_slope first_width second_width : double) : double :=
  let tangent := ddiv (dsub (dmul (dadd (dmul d2 first_width) second_width) first_slope) (dmul first_width second_slope))
                   (dadd first_width second_width) in
  if dleb (dmul tangent first_slope) d0 then d0
  else if dltb (dmul first_slope second_slope) d0 && dltb (dabs (dmul d3 first_slope)) (dabs tangent)
  then dmul d3 first_slope
  else tangent.

(** The width and the slope between neighbours. *)
Definition step_of (a b : TimedPoint) : double * double :=
  let w := dsub (time b) (time a) in (w, if dltb d0 w then ddiv (dsub (py (point b)) (py (point a))) w else d0).

Definition interiorTangent (before after : double * double) : double :=
  let '(before_width, before_slope) := before in
  let '(after_width, after_slope) := after in
  if dleb before_width d0 || dleb after_width d0 || dleb (dmul before_slope after_slope) d0 then d0
  else
    let before_weight := dadd (dmul d2 after_width) before_width in
    let after_weight := dadd after_width (dmul d2 before_width) in
    ddiv (dadd before_weight after_weight) (dadd (ddiv before_weight before_slope) (ddiv after_weight after_slope)).

(** The tangent at the end of a run: its own step, then the next one inwards. *)
Definition outerTangent (own inner : double * double) : double :=
  if dltb d0 (own.1) && dltb d0 (inner.1) then endpointTangent (own.2) (inner.2) (own.1) (inner.1) else d0.

(** [f] of neighbours. *)
Definition pairwise {A B} (f : A -> A -> B) (l : list A) : list B := zip_with f l (tail l).

Definition monotoneTangents (points : list TimedPoint) : list double :=
  let steps := pairwise step_of points in
  match steps, rev steps with
  | own :: inner :: _, last_own :: last_inner :: _ =>
      outerTangent own inner :: pairwise interiorTangent steps ++ [outerTangent last_own last_inner]
  | [only], _ => [only.2; only.2]
  | _, _ => map (fun _ => d0) points
  end.

(** ** Curves *)

Definition splitRight (cubic : CubicSegment) (progress : double) : CubicSegment :=
  let first := padd (start_ cubic) (pmul (psub (control_1 cubic) (start_ cubic)) progress) in
  let second := padd (control_1 cubic) (pmul (psub (control_2 cubic) (control_1 cubic)) progress) in
  let third := padd (control_2 cubic) (pmul (psub (end_ cubic) (control_2 cubic)) progress) in
  let fourth := padd first (pmul (psub second first) progress) in
  let fifth := padd second (pmul (psub third second) progress) in
  {| start_ := padd fourth (pmul (psub fifth fourth) progress); control_1 := fifth; control_2 := third;
     end_ := end_ cubic |}.

(** The cubic between two points with tangents [t0] and [t1]; straight when no time passes. *)
Definition cubic_between (a b : TimedPoint) (t0 t1 : double) : CubicSegment :=
  let s := point a in
  let e := point b in
  let w := dsub (time b) (time a) in
  let minimum_y := dmin (py s) (py e) in
  let maximum_y := dmax (py s) (py e) in
  let c1 := padd s (pdiv (psub e s) d3) in
  let c2 := padd s (pmul (psub e s) (ddiv d2 d3)) in
  if dleb w d0 then {| start_ := s; control_1 := c1; control_2 := c2; end_ := e |}
  else {| start_ := s;
          control_1 := setY (clamp (dadd (py s) (ddiv (dmul t0 w) d3)) minimum_y maximum_y) c1;
          control_2 := setY (clamp (dsub (py e) (ddiv (dmul t1 w) d3)) minimum_y maximum_y) c2;
          end_ := e |}.

Definition from_left_edge (p : QPointF) : QPointF := setX (dmax (px p) d0) p.

Definition inside (c : CubicSegment) : CubicSegment :=
  {| start_ := from_left_edge (start_ c); control_1 := from_left_edge (control_1 c);
     control_2 := from_left_edge (control_2 c); end_ := from_left_edge (end_ c) |}.

(** What is left of the cubic from [a] to [b] at the cutoff. *)
Definition visible_cubic (cutoff : double) (a b : TimedPoint) (t0 t1 : double) : option CubicSegment :=
  let w := dsub (time b) (time a) in
  let cubic := cubic_between a b t0 t1 in
  if dltb (time b) cutoff then None
  else
    let cubic :=
      if dltb (time a) cutoff && dltb d0 w then
        let right := splitRight cubic (clamp (ddiv (dsub cutoff (time a)) w) d0 d1) in
        {| start_ := setX d0 (start_ right); control_1 := control_1 right; control_2 := control_2 right; end_ := end_ right |}
      else cubic in
    Some (inside cubic).

(** [static_cast<int>(std::ceil(x))] *)
Definition ceil_int (x : double) : Z :=
  match x with
  | S754_finite s m e =>
      if 0 <=? e then (if s then - (Zpos m * 2 ^ e) else Zpos m * 2 ^ e)
      else if s then - (Zpos m / 2 ^ (- e)) else - ((- Zpos m) / 2 ^ (- e))
  | _ => 0
  end.

Definition subdivisions (c : CubicSegment) : Z :=
  Z.max 1 (Z.min kMaximumSubdivisions (ceil_int (ddiv (dabs (dsub (px (end_ c)) (px (start_ c)))) kPixelsPerPoint))).

Definition tessellate (c : CubicSegment) : list QPointF :=
  map (fun step => cubicPoint c (ddiv (double_of_Z (Z.of_nat step)) (double_of_Z (subdivisions c))))
    (seq 1 (Z.to_nat (subdivisions c))).

(** The loop of [completeRun] over the pairs of neighbours, with their tangents. *)
Fixpoint run_cubics (cutoff : double) (points : list TimedPoint) (tangents : list double) : list CubicSegment :=
  match points, tangents with
  | a :: (b :: _) as rest, t0 :: (t1 :: _) as ts =>
      option_list (visible_cubic cutoff a b t0 t1) ++ run_cubics cutoff rest ts
  | _, _ => []
  end.

Definition completeRun (points : list TimedPoint) (cutoff : double) : list CurveRun :=
  if (length points <? 2)%nat then []
  else
    let cs := run_cubics cutoff points (monotoneTangents points) in
    match cs with
    | [] => []
    | first :: _ =>
        [{| run_samples := map point (List.filter (fun p => dleb cutoff (time p)) points); cubics := cs;
            tessellated := start_ first :: concat (map tessellate cs) |}]
    end.

(** ** buildMetricGeometry *)

Section build.
Context (metric : Metric) (plot : QSizeF) (cutoff : double).

Definition usable_height : double := dmax d0 (dsub (height plot) kHeadroom).

Definition x_of (milliseconds : Z) : double :=
  dmul (width plot) (ddiv (dsub (double_of_Z milliseconds) cutoff) kWindowMilliseconds).
Definition y_of (ratio : double) : double := dadd kHeadroom (dmul usable_height (dsub d1 ratio)).

(** The point of a known sample, and the filter after it. *)
Definition place (sample : Sample) (value : double) (state : option FilterState) : TimedPoint * double * option FilterState :=
  let '(ratio, state) := filterRatio (clamp value d0 d1) (elapsed_milliseconds sample) metric state in
  ({| time := double_of_Z (elapsed_milliseconds sample);
      point := {| px := x_of (elapsed_milliseconds sample); py := y_of ratio |} |}, ratio, state).

(** The loop: the runs so far, the points of the current one, and the ratio of the newest sample. *)
Fixpoint build_loop (samples : list Sample) (run : list TimedPoint) (state : option FilterState) (found : list CurveRun)
  : list CurveRun * option double :=
  match samples with
  | [] => (found ++ completeRun run cutoff, None)
  | sample :: rest =>
      match valueFor sample metric with
      | None => build_loop rest [] None (found ++ completeRun run cutoff)
      | Some value =>
          let '(p, ratio, state) := place sample value state in
          let '(result, newest) := build_loop rest (run ++ [p]) state found in
          (result, match rest with [] => Some ratio | _ => newest end)
      end
  end.
End build.

Definition buildMetricGeometry (samples : list Sample) (metric : Metric) (plot : QSizeF) (window_end : double)
    (retained_prefix : list Sample) : MetricGeometry :=
  match last samples with
  | None => {| runs := []; current_endpoint := None |}
  | Some newest_sample =>
      if dleb (width plot) d0 || dleb (height plot) d0 then {| runs := []; current_endpoint := None |}
      else
        let cutoff := dsub window_end kWindowMilliseconds in
        let '(result, newest) := build_loop metric plot cutoff (retained_prefix ++ samples) [] None [] in
        {| runs := result;
           current_endpoint :=
             option_map (fun ratio => {| px := x_of plot cutoff (elapsed_milliseconds newest_sample); py := y_of plot ratio |})
               newest |}
  end.

(** ** curveIntersection *)

Definition kEpsilon : double := decimal 1 1000000.

(** 32 steps of bisection. *)
Fixpoint bisect (n : nat) (cubic : CubicSegment) (x : double) (lower upper : double) : double * double :=
  match n with
  | O => (lower, upper)
  | S n =>
      let middle := ddiv (dadd lower upper) d2 in
      if dltb (px (cubicPoint cubic middle)) x then bisect n cubic x middle upper else bisect n cubic x lower middle
  end.

(** The point of a cubic at [x], if it has one. *)
Definition cubic_intersection (x : double) (cubic : CubicSegment) : option QPointF :=
  let minimum_x := dmin (px (start_ cubic)) (px (end_ cubic)) in
  let maximum_x := dmax (px (start_ cubic)) (px (end_ cubic)) in
  if dltb x (dsub minimum_x kEpsilon) || dltb (dadd maximum_x kEpsilon) x then None
  else if dleb (dabs (dsub (px (end_ cubic)) (px (start_ cubic)))) kEpsilon then
    if dleb (dabs (dsub x (px (start_ cubic)))) kEpsilon then Some (end_ cubic) else None
  else
    let '(lower, upper) := bisect 32 cubic x d0 d1 in
    Some (setX x (cubicPoint cubic (ddiv (dadd lower upper) d2))).

Fixpoint first_some {A B} (f : A -> option B) (l : list A) : option B :=
  match l with [] => None | a :: rest => match f a with Some b => Some b | None => first_some f rest end end.

Definition curveIntersection (g : MetricGeometry) (x : double) : option QPointF :=
  match first_some (cubic_intersection x) (concat (map cubics (runs g))) with
  | Some p => Some p
  | None => match current_endpoint g with
            | Some p => if dleb (dabs (dsub (px p) x)) kEpsilon then Some p else None
            | None => None
            end
  end.

(** ** buildFeatheredRibbon *)

Definition unitNormal (s e : QPointF) : QPointF :=
  let delta := psub e s in
  let length := std_hypot (px delta) (py delta) in
  if dltb d0 length then {| px := ddiv (dopp (py delta)) length; py := ddiv (px delta) length |} else {| px := d0; py := d1 |}.

(** The normal at a point with a neighbour before and after it. *)
Definition joint_normal (before here after : QPointF) : QPointF :=
  let normal := unitNormal before here in
  let sum := padd normal (unitNormal here after) in
  let length := std_hypot (px sum) (py sum) in
  if dltb (decimal 1 1000) length then pdiv sum length else normal.

Fixpoint later_normals (before : QPointF) (points : list QPointF) : list QPointF :=
  match points with
  | [] => []
  | [here] => [unitNormal before here]
  | here :: (after :: _) as rest => joint_normal before here after :: later_normals here rest
  end.

Definition normals_of (points : list QPointF) : list QPointF :=
  match points with
  | first :: (second :: _) as rest => unitNormal first second :: later_normals first rest
  | _ => []
  end.

Definition appendSide (outer inner opacity direction : double) (a b : QPointF * QPointF) : list FeatherVertex :=
  let at_ (p : QPointF * QPointF) (half : double) := padd p.1 (pmul (pmul p.2 half) direction) in
  [{| position := at_ a outer; alpha := d0 |}; {| position := at_ a inner; alpha := opacity |};
   {| position := at_ b inner; alpha := opacity |}; {| position := at_ a outer; alpha := d0 |};
   {| position := at_ b inner; alpha := opacity |}; {| position := at_ b outer; alpha := d0 |}].

Definition buildFeatheredRibbon (points : list QPointF) (w layer_opacity : double) : list FeatherVertex :=
  if (length points <? 2)%nat || dleb w d0 || dleb layer_opacity d0 then []
  else
    let outer := ddiv w d2 in
    let inner := dmax d0 (dsub outer d1) in
    concat (pairwise (fun a b => appendSide outer inner layer_opacity d1 a b
                                 ++ appendSide outer inner layer_opacity (dopp d1) a b)
              (zip points (normals_of points))).
End geometry.
