(* ===== verification/HistoryGeometryLaws.v ===== *)
(** * What the usage chart shows

    The loop of [buildMetricGeometry] against a reference: a curve per maximal run of
    known samples.  The pieces of a curve join, and the primitives have the sizes that
    are reserved for them. *)

From S2P Require Import Prelude.
From S2P Require Import Float64.
From S2P Require Import FloatBounds.
From S2P Require Import MetricHistory.
From S2P Require Import HistoryGeometry.

Section laws.
Context `{MathLibrary}.

(** ** Runs of known samples *)

(** The maximal runs of samples with a value, in order; some may be empty. *)
Fixpoint groups (metric : Metric) (samples : list Sample) : list (list (Sample * double)) :=
  match samples with
  | [] => [[]]
  | s :: rest =>
      match valueFor s metric, groups metric rest with
      | Some v, g :: gs => ((s, v) :: g) :: gs
      | Some v, [] => [[(s, v)]]
      | None, gs => [] :: gs
      end
  end.

(** The points of a run, the filter starting afresh with it. *)
Fixpoint placed (metric : Metric) (plot : QSizeF) (cutoff : double) (state : option FilterState) (g : list (Sample * double))
  : list TimedPoint :=
  match g with
  | [] => []
  | (s, v) :: rest => let '(p, _, state) := place metric plot cutoff s v state in p :: placed metric plot cutoff state rest
  end.

(** What each run of known samples becomes. *)
Definition curves (metric : Metric) (plot : QSizeF) (cutoff : double) (samples : list Sample) : list CurveRun :=
  concat (map (fun g => completeRun (placed metric plot cutoff None g) cutoff) (groups metric samples)).

Section build.
Context (metric : Metric) (plot : QSizeF) (cutoff : double).

Lemma groups_cons samples : exists g gs, groups metric samples = g :: gs.
Proof.
  destruct samples as [|s rest]; cbn; [by eexists _, _|].
  destruct (valueFor s metric), (groups metric rest); by eexists _, _.
Qed.

Lemma build_loop_groups samples run state found g gs : groups metric samples = g :: gs ->
  (build_loop metric plot cutoff samples run state found).1 =
  found ++ completeRun (run ++ placed metric plot cutoff state g) cutoff
        ++ concat (map (fun g => completeRun (placed metric plot cutoff None g) cutoff) gs).
Proof.
  revert run state found g gs. induction samples as [|s rest IH]; intros run state found g gs Hg; cbn [groups build_loop] in *.
  - injection Hg as <- <-. cbn. by rewrite !app_nil_r.
  - destruct (groups_cons rest) as (g' & gs' & Hg'). rewrite Hg' in Hg. destruct (valueFor s metric) as [v|].
    + injection Hg as <- <-. cbn [placed]. destruct (place metric plot cutoff s v state) as [[p ratio] state'].
      specialize (IH (run ++ [p]) state' found g' gs' Hg'). destruct (build_loop _ _ _ rest _ _ _) as [result newest].
      cbn [fst] in *. by rewrite IH, <- (assoc_L (++)).
    + injection Hg as <- <-. rewrite (IH _ _ _ _ _ Hg'). cbn. by rewrite app_nil_r, <- (assoc_L (++)).
Qed.

Lemma build_loop_curves samples : (build_loop metric plot cutoff samples [] None []).1 = curves metric plot cutoff samples.
Proof.
  destruct (groups_cons samples) as (g & gs & Hg). rewrite (build_loop_groups _ _ _ _ _ _ Hg). unfold curves. by rewrite Hg.
Qed.

(** The newest ratio is there when the last sample is known. *)
Lemma build_loop_newest samples s run state found :
  is_Some (build_loop metric plot cutoff (samples ++ [s]) run state found).2 <-> is_Some (valueFor s metric).
Proof.
  revert run state found. induction samples as [|x rest IH]; intros run state found; cbn [app build_loop].
  - destruct (valueFor s metric) as [v|]; [|by cbn]. destruct (place metric plot cutoff s v state) as [[p ratio] state']. cbn. by split; eexists.
  - destruct (valueFor x metric) as [v|]; [|apply IH]. destruct (place metric plot cutoff x v state) as [[p ratio] state'].
    specialize (IH (run ++ [p]) state' found). destruct (build_loop _ _ _ (rest ++ [s]) _ _ _) as [result newest].
    by destruct rest.
Qed.
End build.

(** ** The pieces of a curve *)

(** Each cubic starts where the one before it ends. *)
Fixpoint joined (cs : list CubicSegment) : Prop :=
  match cs with
  | a :: (b :: _) as rest => end_ a = start_ b /\ joined rest
  | _ => True
  end.

(** Samples leave the window in their order. *)
Definition leave_in_order (cutoff : double) : list TimedPoint -> Prop :=
  Sorted (fun a b => dltb (time b) cutoff = true -> dltb (time a) cutoff = true).

Lemma visible_end cutoff a b t0 t1 c : visible_cubic cutoff a b t0 t1 = Some c -> end_ c = from_left_edge (point b).
Proof.
  unfold visible_cubic. destruct (dltb (time b) cutoff); [done|]. intros [= <-]. unfold cubic_between.
  destruct (dltb (time a) cutoff && _), (dleb _ d0); done.
Qed.

Lemma visible_start cutoff a b t0 t1 c : visible_cubic cutoff a b t0 t1 = Some c -> dltb (time a) cutoff = false ->
  start_ c = from_left_edge (point a).
Proof.
  unfold visible_cubic. destruct (dltb (time b) cutoff); [done|]. intros [= <-] ->. unfold cubic_between. cbn [andb].
  by destruct (dleb _ d0).
Qed.

Lemma run_cubics_joined cutoff points tangents : leave_in_order cutoff points ->
  joined (run_cubics cutoff points tangents) /\
  match points, run_cubics cutoff points tangents with
  | a :: _, c :: _ => dltb (time a) cutoff = false -> start_ c = from_left_edge (point a)
  | _, _ => True
  end.
Proof.
  intros Hs. revert tangents. induction Hs as [|a points Hs IH Ha]; intros tangents; [by destruct tangents|].
  destruct points as [|b rest]; [by destruct tangents|]. destruct tangents as [|t0 [|t1 ts]]; [done|done|].
  apply HdRel_inv in Ha. specialize (IH (t1 :: ts)). cbn [run_cubics] in IH |- *. fold run_cubics in *.
  destruct IH as [IHj IHs]. destruct (visible_cubic cutoff a b t0 t1) as [c|] eqn:Hc; cbn [option_list app].
  - split; [|intros Hin; by eapply visible_start]. set (cs := match rest with [] => [] | _ => _ end) in *.
    destruct cs as [|c' cs]; [done|]. split; [|done]. rewrite (visible_end _ _ _ _ _ _ Hc). symmetry. apply IHs.
    unfold visible_cubic in Hc. by destruct (dltb (time b) cutoff).
  - split; [done|]. set (cs := match rest with [] => [] | _ => _ end) in *. destruct cs as [|c' cs]; [done|]. intros Hin.
    unfold visible_cubic in Hc. destruct (dltb (time b) cutoff); [|done]. by rewrite Ha in Hin.
Qed.

Lemma tessellate_length c : length (tessellate c) = Z.to_nat (subdivisions c).
Proof. unfold tessellate. by rewrite length_map, length_seq. Qed.

Lemma subdivisions_range c : 1 <= subdivisions c <= kMaximumSubdivisions.
Proof. unfold subdivisions, kMaximumSubdivisions. lia. Qed.

(** *** What every curve is made of *)

(** A step from one sample of a run to the next is seen unless it ends before the window. *)
Definition steps_seen (cutoff : double) (points : list TimedPoint) : list (TimedPoint * TimedPoint) :=
  List.filter (fun step => negb (dltb (time step.2) cutoff)) (zip points (tail points)).
Definition is_seen (cutoff : double) (points : list TimedPoint) : bool :=
  match steps_seen cutoff points with [] => false | _ => true end.

(** At the point, or on the left edge at its height when the point is beyond it. *)
Definition shown_at (p q : QPointF) : Prop := px q = dmax (px p) d0 /\ py q = py p.

(** The cubic of a step: to its later sample, from its earlier one, or from the left edge
    when that one left the window. *)
Definition piece (cutoff : double) (step : TimedPoint * TimedPoint) (c : CubicSegment) : Prop :=
  shown_at (point step.2) (end_ c) /\
  (dltb (time step.1) cutoff = false -> shown_at (point step.1) (start_ c)) /\
  (dltb (time step.1) cutoff = true -> dltb d0 (dsub (time step.2) (time step.1)) = true -> px (start_ c) = d0).

(** The curve of a run: a cubic for each step seen, the samples within the window, and at
    most 64 points for a cubic after the first point. *)
Record drawn (cutoff : double) (points : list TimedPoint) (run : CurveRun) : Prop := {
  dr_pieces : Forall2 (piece cutoff) (steps_seen cutoff points) (cubics run);
  dr_samples : run_samples run = map point (List.filter (fun p => dleb cutoff (time p)) points);
  dr_points : exists first, head (cubics run) = Some first /\ tessellated run = start_ first :: concat (map tessellate (cubics run));
  dr_size : (1 + length (cubics run) <= length (tessellated run) <= 1 + 64 * length (cubics run))%nat;
  dr_joined : leave_in_order cutoff points -> joined (cubics run) }.

Lemma tessellated_size cs : (length cs <= length (concat (map tessellate cs)) <= 64 * length cs)%nat.
Proof.
  induction cs as [|c cs IH]; cbn [map concat length]; [lia|]. rewrite length_app, tessellate_length.
  pose proof (subdivisions_range c) as Hr. unfold kMaximumSubdivisions in Hr. lia.
Qed.

Lemma visible_cubic_piece cutoff a b t0 t1 :
  match visible_cubic cutoff a b t0 t1 with
  | Some c => dltb (time b) cutoff = false /\ piece cutoff (a, b) c
  | None => dltb (time b) cutoff = true
  end.
Proof.
  destruct (visible_cubic cutoff a b t0 t1) as [c|] eqn:E.
  2: { unfold visible_cubic in E. by destruct (dltb (time b) cutoff). }
  split; [unfold visible_cubic in E; by destruct (dltb (time b) cutoff)|]. unfold piece. cbn [fst snd]. split; [|split].
  - rewrite (visible_end _ _ _ _ _ _ E). done.
  - intros Hin. by rewrite (visible_start _ _ _ _ _ _ E Hin).
  - intros Hout Hw. unfold visible_cubic in E. destruct (dltb (time b) cutoff); [done|]. rewrite Hout, Hw in E. by injection E as <-.
Qed.

Lemma run_cubics_pieces cutoff points tangents : length tangents = length points ->
  Forall2 (piece cutoff) (steps_seen cutoff points) (run_cubics cutoff points tangents).
Proof.
  revert tangents. induction points as [|a [|b rest] IH]; intros tangents Hl; [by constructor..|].
  destruct tangents as [|t0 [|t1 ts]]; [done|done|]. specialize (IH (t1 :: ts) ltac:(cbn in *; lia)).
  cbn [run_cubics] in IH |- *. fold run_cubics in *. unfold steps_seen in *. cbn [tail zip zip_with List.filter snd] in IH |- *.
  pose proof (visible_cubic_piece cutoff a b t0 t1) as Hc.
  destruct (visible_cubic cutoff a b t0 t1) as [c|]; [destruct Hc as [-> Hc]|rewrite Hc]; cbn [negb option_list app]; [|exact IH].
  by constructor.
Qed.

Lemma monotoneTangents_length points : (2 <= length points)%nat -> length (monotoneTangents points) = length points.
Proof.
  intros Hl. unfold monotoneTangents. set (steps := pairwise step_of points).
  assert (Hs : S (length steps) = length points).
  { unfold steps, pairwise. rewrite length_zip_with. destruct points; cbn [tail length] in *; lia. }
  destruct steps as [|own [|inner rest]]; cbn [length] in Hs; [lia|cbn; lia|].
  assert (Hr : (2 <= length (rev (own :: inner :: rest)))%nat) by (rewrite length_reverse || rewrite List.length_rev; cbn; lia).
  destruct (rev _) as [|x [|y l]]; cbn [length] in Hr; [lia|lia|]. cbn [length]. rewrite length_app. unfold pairwise.
  rewrite length_zip_with. cbn [tail length]. lia.
Qed.

(** A run of two or more samples is drawn when a step of it is seen, and nothing else is. *)
Lemma completeRun_drawn points cutoff :
  Forall2 (drawn cutoff) (if is_seen cutoff points then [points] else []) (completeRun points cutoff).
Proof.
  unfold completeRun, is_seen. destruct (Nat.ltb_spec (length points) 2) as [Hs|Hl].
  { destruct points as [|a [|b rest]]; cbn in *; [constructor..|lia]. }
  pose proof (run_cubics_pieces cutoff points _ (monotoneTangents_length points Hl)) as Hp.
  pose proof (fun H => proj1 (run_cubics_joined cutoff points (monotoneTangents points) H)) as Hj.
  destruct (run_cubics cutoff points (monotoneTangents points)) as [|c cs].
  { apply Forall2_nil_inv_r in Hp as ->. constructor. }
  destruct (steps_seen cutoff points) as [|step steps] eqn:Es; [by apply Forall2_nil_inv_l in Hp|]. rewrite <- Es in Hp.
  apply Forall2_cons. split; [|constructor]. split; cbn [cubics run_samples tessellated]; [done|done|by exists c| |done].
  pose proof (tessellated_size (c :: cs)). cbn [length] in *. lia.
Qed.

(** *** Samples in the order of their times leave the window in order *)

Definition in_time_order (samples : list Sample) : Prop :=
  Forall (fun s => 0 <= elapsed_milliseconds s <= 2 ^ 63) samples /\
  Sorted (fun a b => elapsed_milliseconds a <= elapsed_milliseconds b) samples.

Lemma later_leaves_later a b cutoff : 0 <= a -> a <= b -> b <= 2 ^ 63 ->
  dltb (double_of_Z b) cutoff = true -> dltb (double_of_Z a) cutoff = true.
Proof.
  intros Ha Hab Hb. destruct (double_of_Z_mono a b Ha Hab ltac:(lia)) as (va & vb & Hva & Hvb & Hle).
  apply dleb_dltb_trans. eapply value_le; [exact Hva|exact Hvb|lia].
Qed.

(** A first run starts with the first sample when that one is known. *)
Lemma groups_head metric samples :
  match samples with
  | [] => groups metric samples = [[]]
  | s :: rest =>
      exists g gs, groups metric samples = g :: gs /\
        match valueFor s metric with
        | Some v => exists g', g = (s, v) :: g' /\ groups metric rest = g' :: gs
        | None => g = [] /\ groups metric rest = gs
        end
  end.
Proof.
  destruct samples as [|s rest]; [done|]. cbn [groups]. destruct (groups_cons metric rest) as (g' & gs & ->).
  destruct (valueFor s metric) as [v|]; eexists _, _; (split; [done|]); [by exists g'|done].
Qed.

Lemma groups_in_order metric samples : in_time_order samples ->
  Forall (fun g => in_time_order (map fst g)) (groups metric samples).
Proof.
  induction samples as [|s rest IH]; intros [Hb Hs]; [by repeat constructor|].
  inversion Hb as [|? ? Hbs Hbr]; subst. apply Sorted_inv in Hs as [Hs Hd]. specialize (IH (conj Hbr Hs)).
  destruct (groups_head metric (s :: rest)) as (g & gs & -> & Hg). destruct (valueFor s metric) as [v|].
  2: { destruct Hg as [-> <-]. constructor; [by repeat constructor|done]. }
  destruct Hg as (g' & -> & Hr). rewrite Hr in IH. inversion IH as [|? ? [Hb' Hs'] IH']; subst.
  constructor; [|done]. split; [by constructor|]. constructor; [done|]. cbn [map fst].
  destruct rest as [|s' rest]; [cbn in Hr; by injection Hr as <- <-|].
  destruct (groups_head metric (s' :: rest)) as (h & hs & Hh & Hv). rewrite Hh in Hr. injection Hr as -> ->.
  apply HdRel_inv in Hd. destruct (valueFor s' metric) as [v'|]; [destruct Hv as (h' & -> & _)|destruct Hv as [-> _]];
    cbn [map fst]; by constructor.
Qed.

(** Where a point stands: across by its time, up by a ratio. *)
Definition stands (plot : QSizeF) (cutoff : double) (sv : Sample * double) (p : TimedPoint) : Prop :=
  time p = double_of_Z (elapsed_milliseconds sv.1) /\
  px (point p) = dmul (width plot) (ddiv (dsub (time p) cutoff) kWindowMilliseconds) /\
  exists ratio, py (point p) = dadd kHeadroom (dmul (dmax d0 (dsub (height plot) kHeadroom)) (dsub d1 ratio)).

Lemma placed_stands metric plot cutoff state g : Forall2 (stands plot cutoff) g (placed metric plot cutoff state g).
Proof.
  revert state. induction g as [|[s v] g IH]; intros state; cbn [placed]; [constructor|]. unfold place.
  destruct (filterRatio _ _ _ _) as [ratio state']. constructor; [|apply IH]. split; [done|]. split; [done|]. by exists ratio.
Qed.

Lemma placed_in_order metric plot cutoff state g : in_time_order (map fst g) ->
  leave_in_order cutoff (placed metric plot cutoff state g).
Proof.
  intros [Hb Hs]. pose proof (placed_stands metric plot cutoff state g) as Hp. revert Hp.
  generalize (placed metric plot cutoff state g). clear state. unfold leave_in_order.
  induction g as [|sv g IH]; intros ps Hp; inversion Hp as [|? p ? qs [Ht _] Hq]; subst; [constructor|].
  cbn [map] in Hb, Hs. inversion Hb as [|? ? Hbs Hbr]; subst. apply Sorted_inv in Hs as [Hs Hd]. constructor; [by apply IH|].
  inversion Hq as [|sv' q g' qs' [Ht' _] _]; subst; [by constructor|]. constructor. rewrite Ht, Ht'.
  cbn [map] in Hd, Hbr. apply HdRel_inv in Hd. inversion Hbr; subst. apply later_leaves_later; lia.
Qed.

(** ** Between the points *)

Lemma dmin_dmax a b : is_nan a = false -> is_nan b = false -> dleb (dmin a b) (dmax a b) = true /\ is_nan (dmin a b) = false /\ is_nan (dmax a b) = false.
Proof.
  intros Ha Hb. unfold dmin, dmax. destruct (dltb b a) eqn:E1, (dltb a b) eqn:E2; split_and!; auto using dltb_dleb, dleb_refl.
Qed.

Lemma clamp_number v lo hi : is_nan (clamp v lo hi) = false -> is_nan lo = false -> is_nan hi = false -> dleb lo hi = true ->
  dleb lo (clamp v lo hi) = true /\ dleb (clamp v lo hi) hi = true.
Proof.
  intros Hc Hlo Hhi Hle. destruct (is_nan v) eqn:Hv; [|by apply clamp_bounds]. destruct v; try done.
  unfold clamp, dltb, SFltb in Hc. cbn in Hc. by destruct hi.
Qed.

(** A cubic does not leave the heights of its ends: its control points stay between them. *)
Lemma cubic_between_heights a b t0 t1 :
  let c := cubic_between a b t0 t1 in
  let lo := dmin (py (point a)) (py (point b)) in
  let hi := dmax (py (point a)) (py (point b)) in
  dleb (dsub (time b) (time a)) d0 = false -> is_nan (py (point a)) = false -> is_nan (py (point b)) = false ->
  forall p, p = control_1 c \/ p = control_2 c -> is_nan (py p) = false -> dleb lo (py p) = true /\ dleb (py p) hi = true.
Proof.
  intros c lo hi Hw Ha Hb p Hp Hn. destruct (dmin_dmax _ _ Ha Hb) as (Hle & Hlo & Hhi). unfold c, cubic_between in Hp. rewrite Hw in Hp.
  destruct Hp as [-> | ->]; cbn [py setY control_1 control_2] in *; by apply clamp_number.
Qed.

(** The runs of known samples that have a step to show. *)
Definition runs_seen (metric : Metric) (plot : QSizeF) (cutoff : double) (samples : list Sample) : list (list TimedPoint) :=
  List.filter (is_seen cutoff) (map (placed metric plot cutoff None) (groups metric samples)).

Lemma curves_drawn metric plot cutoff samples :
  Forall2 (drawn cutoff) (runs_seen metric plot cutoff samples) (curves metric plot cutoff samples).
Proof.
  unfold runs_seen, curves. induction (groups metric samples) as [|g gs IH]; cbn [map List.filter concat]; [constructor|].
  pose proof (completeRun_drawn (placed metric plot cutoff None g) cutoff) as H1.
  destruct (is_seen cutoff _); [change (?x :: ?l) with ([x] ++ l)|]; [by apply Forall2_app|].
  apply Forall2_nil_inv_l in H1 as ->. exact IH.
Qed.

Lemma geometry_curves metric plot window_end prefix samples newest :
  last samples = Some newest -> dleb (width plot) d0 = false -> dleb (height plot) d0 = false ->
  let g := buildMetricGeometry samples metric plot window_end prefix in
  runs g = curves metric plot (dsub window_end kWindowMilliseconds) (prefix ++ samples) /\
  (is_Some (current_endpoint g) <-> is_Some (valueFor newest metric)).
Proof.
  intros Hlast Hw Hh. cbn. unfold buildMetricGeometry. rewrite Hlast, Hw, Hh. cbn [orb]. apply last_Some in Hlast as [l' ->].
  pose proof (build_loop_curves metric plot (dsub window_end kWindowMilliseconds) (prefix ++ l' ++ [newest])) as Hc.
  pose proof (build_loop_newest metric plot (dsub window_end kWindowMilliseconds) (prefix ++ l') newest [] None []) as Hn.
  rewrite <- (assoc_L (++)) in Hn. destruct (build_loop _ _ _ _ _ _ _) as [result new]. cbn in *. split; [done|].
  rewrite <- Hn. destruct new; cbn; split; intros [? ?]; (done || by eexists).
Qed.

Lemma runs_in_order metric plot cutoff samples : in_time_order samples ->
  Forall (leave_in_order cutoff) (runs_seen metric plot cutoff samples).
Proof.
  intros Ho. apply Forall_forall. intros points [Hin _]%list_elem_of_In%filter_In.
  apply in_map_iff in Hin as (g & <- & Hg). apply placed_in_order.
  pose proof (groups_in_order metric samples Ho) as Hf. rewrite List.Forall_forall in Hf. by apply Hf.
Qed.

(** C38. The curves of a metric are, in order, one for each maximal run of samples with a
    value, the samples kept from before the window included, of which at least one step from
    a sample to the next ends within the window; a run of one sample has no step and no
    curve, and a run of two is drawn like any other.  A curve has one cubic for each such
    step, which ends at the later sample and starts at the earlier one, or on the left edge
    when that one left the window; the points of a run stand where their times say.  A curve
    has, after its first point, one to 64 points per cubic, and its cubics join end to start
    when the samples are in the order of their times.  With room to draw there is an end
    point exactly when the newest sample has a value.  Nothing is drawn without samples or
    room. *)
Theorem chart_runs metric plot window_end prefix samples :
  let g := buildMetricGeometry samples metric plot window_end prefix in
  let cutoff := dsub window_end kWindowMilliseconds in
  let known := groups metric (prefix ++ samples) in
  (samples = [] \/ dleb (width plot) d0 = true \/ dleb (height plot) d0 = true -> runs g = [] /\ current_endpoint g = None) /\
  (forall newest, last samples = Some newest -> dleb (width plot) d0 = false -> dleb (height plot) d0 = false ->
     Forall2 (drawn cutoff) (List.filter (is_seen cutoff) (map (placed metric plot cutoff None) known)) (runs g) /\
     Forall (fun group => Forall2 (stands plot cutoff) group (placed metric plot cutoff None group)) known /\
     (is_Some (current_endpoint g) <-> is_Some (valueFor newest metric))) /\
  (in_time_order (prefix ++ samples) -> Forall (fun run => joined (cubics run)) (runs g)).
Proof.
  cbv zeta. split; [|split].
  - intros Hnone. unfold buildMetricGeometry.
    destruct Hnone as [->|[Hw|Hh]]; [done|rewrite Hw|rewrite Hh, orb_true_r]; by destruct (last samples).
  - intros newest Hl Hw Hh. destruct (geometry_curves metric plot window_end prefix samples newest Hl Hw Hh) as [-> He].
    split; [apply curves_drawn|]. split; [|exact He]. apply Forall_true. intros group. apply placed_stands.
  - intros Ho. destruct (last samples) as [newest|] eqn:Hl; [|unfold buildMetricGeometry; by rewrite Hl].
    destruct (dleb (width plot) d0 || dleb (height plot) d0) eqn:E; [unfold buildMetricGeometry; by rewrite Hl, E|].
    apply orb_false_iff in E as [Hw Hh]. destruct (geometry_curves metric plot window_end prefix samples newest Hl Hw Hh) as [-> _].
    pose proof (curves_drawn metric plot (dsub window_end kWindowMilliseconds) (prefix ++ samples)) as Hd.
    pose proof (runs_in_order metric plot (dsub window_end kWindowMilliseconds) _ Ho) as Hr.
    clear - Hd Hr. induction Hd as [|points run l k Hdr Hd IH]; constructor; inversion Hr; subst; [by apply Hdr|by apply IH].
Qed.

(** ** Primitives *)

Lemma later_normals_length before points : length (later_normals before points) = length points.
Proof.
  revert before. induction points as [|here rest IH]; intros before; [done|]. destruct rest as [|after rest]; [done|].
  change (later_normals before (here :: after :: rest)) with (joint_normal before here after :: later_normals here (after :: rest)).
  cbn [length]. f_equal. apply IH.
Qed.

Lemma normals_of_length points : (2 <= length points)%nat -> length (normals_of points) = length points.
Proof. destruct points as [|a [|b rest]]; cbn [length]; [lia|lia|]. intros _.
  change (normals_of (a :: b :: rest)) with (unitNormal a b :: later_normals a (b :: rest)). cbn [length]. by rewrite later_normals_length.
Qed.

Lemma pairwise_length {A B} (f : A -> A -> B) l : length (pairwise f l) = (length l - 1)%nat.
Proof. unfold pairwise. rewrite length_zip_with. destruct l; cbn [tail length]; lia. Qed.

(** A ribbon has the twelve vertices per piece that are reserved for it, each as opaque as
    the layer or not at all. *)
Lemma ribbon_vertices points w opacity : (2 <= length points)%nat -> dleb w d0 = false -> dleb opacity d0 = false ->
  length (buildFeatheredRibbon points w opacity) = (12 * (length points - 1))%nat /\
  Forall (fun v => alpha v = d0 \/ alpha v = opacity) (buildFeatheredRibbon points w opacity).
Proof.
  intros Hl Hw Ho. unfold buildFeatheredRibbon. rewrite Hw, Ho, (proj2 (Nat.ltb_ge _ _)) by done. cbn [orb].
  set (f := fun a b => _ ++ _). set (l := zip points _).
  assert (length l = length points) as Hlen.
  { unfold l. rewrite length_zip_with, (normals_of_length points Hl). apply Nat.min_id. }
  rewrite <- Hlen. clearbody l. unfold pairwise. clear Hlen Hl. induction l as [|a l IH]; [by split; [|constructor]|].
  destruct l as [|b l]; [by split; [|constructor]|]. cbn [tail zip_with concat length] in *. destruct IH as [IH1 IH2].
  split; [rewrite length_app, IH1; cbn; lia|]. apply Forall_app. split; [|done].
  unfold f, appendSide. cbn [app]. repeat (apply Forall_cons; split; [cbn; auto|]). by apply Forall_nil.
Qed.

(** A point found on a curve is at the place asked for, up to the width of a vertical piece. *)
Lemma cubic_intersection_at x cubic p : cubic_intersection x cubic = Some p ->
  px p = x \/ (p = end_ cubic /\ dleb (dabs (dsub x (px (start_ cubic)))) kEpsilon = true).
Proof.
  unfold cubic_intersection. destruct (_ || _); [done|]. destruct (dleb _ kEpsilon).
  - destruct (dleb (dabs (dsub x _)) kEpsilon) eqn:E; [intros [= <-]; by right|done].
  - destruct (bisect 32 cubic x d0 d1). intros [= <-]. by left.
Qed.
End laws.
