(* ===== verification/HistorySeries.v ===== *)
(** * The state of the usage chart (src/dashboard/resource_history_series.cpp)

    [ResourceHistorySeries] without its scene graph (HistoryScene.v): what it reads of its model, the
    samples it keeps after the model dropped them, and the window that slides to the
    newest sample.  The model is any [QAbstractItemModel]; [QVariant]'s conversions are
    parameters.  The animation is Qt's: it delivers values while it runs, and its end. *)

From S2P Require Import Prelude.
From S2P Require Import Float64.
From S2P Require Import QtModel.
From S2P Require Import MetricHistory.
From S2P Require Import HistoryGeometry.

Class SeriesLibrary := {
  variant_to_double : QVariant -> double;       (* QVariant::toDouble *)
  variant_to_longlong : QVariant -> Z;          (* QVariant::toLongLong *)
  variant_of_double d : variant_to_double (OfDouble d) = d;
  variant_of_integer z : variant_to_longlong (OfInteger z) = z }.

(** A model: its number of rows, its roles by name and its cells. *)
Record QAbstractItemModel := {
  row_count : nat;
  role_key : string -> option nat;
  cell : nat -> nat -> QVariant }.

(** The model of the usage history: the names of its roles in their order. *)
Definition history_role (name : string) : option nat :=
  if String.eqb name "elapsedMilliseconds" then Some 0%nat
  else if String.eqb name "cpuUsageRatio" then Some 1%nat
  else if String.eqb name "memoryUsageRatio" then Some 2%nat
  else None.

Definition role_number (n : nat) : MetricHistory.Role :=
  match n with
  | 0%nat => ElapsedMilliseconds | 1%nat => CpuUsageRatio | 2%nat => MemoryUsageRatio | _ => MetricHistory.OtherRole
  end.

Definition history_model (rows : list Sample) : QAbstractItemModel :=
  {| row_count := length rows; role_key := history_role; cell row role := MetricHistory.data rows row (role_number role) |}.

Record Snapshot := { samples : list Sample; retained_prefix : list Sample }.

Record Series := {
  model_ : option QAbstractItemModel;
  snapshot_ : Snapshot;
  transition_duration_ : Z;
  window_start_milliseconds_ : double;
  window_current_milliseconds_ : double;
  window_target_milliseconds_ : double;
  geometry_origin_milliseconds_ : double;
  has_window_end_ : bool;
  geometry_revision_ : Z;
  animating : bool }.               (* transition_animation_ runs *)

Definition new_series : Series :=
  {| model_ := None; snapshot_ := {| samples := []; retained_prefix := [] |}; transition_duration_ := 350;
     window_start_milliseconds_ := d0; window_current_milliseconds_ := d0; window_target_milliseconds_ := d0;
     geometry_origin_milliseconds_ := d0; has_window_end_ := false; geometry_revision_ := 0; animating := false |}.

Definition with_model (m : option QAbstractItemModel) (s : Series) : Series :=
  {| model_ := m; snapshot_ := snapshot_ s; transition_duration_ := transition_duration_ s;
     window_start_milliseconds_ := window_start_milliseconds_ s; window_current_milliseconds_ := window_current_milliseconds_ s;
     window_target_milliseconds_ := window_target_milliseconds_ s; geometry_origin_milliseconds_ := geometry_origin_milliseconds_ s;
     has_window_end_ := has_window_end_ s; geometry_revision_ := geometry_revision_ s; animating := animating s |}.

Definition with_snapshot (x : Snapshot) (s : Series) : Series :=
  {| model_ := model_ s; snapshot_ := x; transition_duration_ := transition_duration_ s;
     window_start_milliseconds_ := window_start_milliseconds_ s; window_current_milliseconds_ := window_current_milliseconds_ s;
     window_target_milliseconds_ := window_target_milliseconds_ s; geometry_origin_milliseconds_ := geometry_origin_milliseconds_ s;
     has_window_end_ := has_window_end_ s; geometry_revision_ := geometry_revision_ s; animating := animating s |}.

Definition with_window (start current target : double) (has running : bool) (s : Series) : Series :=
  {| model_ := model_ s; snapshot_ := snapshot_ s; transition_duration_ := transition_duration_ s;
     window_start_milliseconds_ := start; window_current_milliseconds_ := current;
     window_target_milliseconds_ := target; geometry_origin_milliseconds_ := geometry_origin_milliseconds_ s;
     has_window_end_ := has; geometry_revision_ := geometry_revision_ s; animating := running |}.

Definition setTransitionDuration (duration : Z) (s : Series) : Series :=
  {| model_ := model_ s; snapshot_ := snapshot_ s; transition_duration_ := Z.max 0 duration;
     window_start_milliseconds_ := window_start_milliseconds_ s; window_current_milliseconds_ := window_current_milliseconds_ s;
     window_target_milliseconds_ := window_target_milliseconds_ s; geometry_origin_milliseconds_ := geometry_origin_milliseconds_ s;
     has_window_end_ := has_window_end_ s; geometry_revision_ := geometry_revision_ s; animating := animating s |}.

Definition currentWindowEnd (s : Series) : double := window_current_milliseconds_ s.

(** The geometry is built anew at the next paint. *)
Definition rebuildAt (window_end : double) (s : Series) : Series :=
  {| model_ := model_ s; snapshot_ := snapshot_ s; transition_duration_ := transition_duration_ s;
     window_start_milliseconds_ := window_start_milliseconds_ s; window_current_milliseconds_ := window_current_milliseconds_ s;
     window_target_milliseconds_ := window_target_milliseconds_ s; geometry_origin_milliseconds_ := window_end;
     has_window_end_ := has_window_end_ s; geometry_revision_ := u64 (geometry_revision_ s + 1); animating := animating s |}.

Definition interpolateWindowEnd (start target progress : double) : double :=
  let bounded := clamp progress d0 d1 in
  let smoothstep := dmul (dmul bounded bounded) (dsub d3 (dmul d2 bounded)) in
  dadd start (dmul (dsub target start) smoothstep).

Section series.
Context `{SeriesLibrary}.

(** ** Reading the model *)

Definition optionalRatio (value : QVariant) : option double :=
  match value with Invalid => None | _ => Some (variant_to_double value) end.

Definition readSamples (model : option QAbstractItemModel) : list Sample :=
  match model with
  | None => []
  | Some m =>
      match role_key m "elapsedMilliseconds" with
      | None => []
      | Some elapsed_role =>
          let read (role : option nat) (row : nat) := match role with Some r => cell m row r | None => Invalid end in
          map (fun row => {| elapsed_milliseconds := variant_to_longlong (cell m row elapsed_role);
                             cpu_usage_ratio := optionalRatio (read (role_key m "cpuUsageRatio") row);
                             memory_usage_ratio := optionalRatio (read (role_key m "memoryUsageRatio") row) |})
            (seq 0 (row_count m))
      end
  end.

Definition readSampleRange (model : option QAbstractItemModel) (first last : nat) : list Sample :=
  let samples := readSamples model in
  if (last <? first)%nat || (length samples <=? last)%nat then [] else take (last - first + 1) (drop first samples).

(** ** Slots *)

Definition captureRemovedPrefix (first last : nat) (s : Series) : Series :=
  if (first =? 0)%nat
  then with_snapshot {| samples := samples (snapshot_ s);
                        retained_prefix := retained_prefix (snapshot_ s) ++ readSampleRange (model_ s) first last |} s
  else s.

(** The window after the newest sample of the model is known. *)
Definition move_window (animate : bool) (newest : option double) (s : Series) : Series :=
  let at_once (n : double) (running : bool) := with_window n n n true running s in
  if negb animate then
    match newest with
    | Some n => at_once n false
    | None => with_window (window_start_milliseconds_ s) (window_current_milliseconds_ s) (window_target_milliseconds_ s) false false s
    end
  else
    match newest with
    | None => s
    | Some n =>
        if negb (has_window_end_ s) then at_once n (animating s)
        else if dltb (window_target_milliseconds_ s) n then
          let displayed := currentWindowEnd s in
          if 0 <? transition_duration_ s then with_window displayed displayed n true true s
          else with_window n n n true false s
        else if dltb n (window_target_milliseconds_ s) then at_once n false
        else s
    end.

Fixpoint count_before (cutoff : double) (l : list Sample) : nat :=
  match l with
  | [] => O
  | x :: rest => if dltb (double_of_Z (elapsed_milliseconds x)) cutoff then S (count_before cutoff rest) else O
  end.

(** The kept samples: those in the window and one before it. *)
Definition trim_prefix (cutoff : double) (prefix : list Sample) : list Sample := drop (count_before cutoff prefix - 1) prefix.

Definition cacheModel (animate : bool) (s : Series) : Series :=
  let fresh := readSamples (model_ s) in
  let newest := option_map (fun x => double_of_Z (elapsed_milliseconds x)) (last fresh) in
  let s1 := move_window animate newest s in
  let cutoff := dsub (currentWindowEnd s1) kWindowMilliseconds in
  rebuildAt (currentWindowEnd s1)
    (with_snapshot {| samples := fresh; retained_prefix := trim_prefix cutoff (retained_prefix (snapshot_ s)) |} s1).

Definition setModel (m : option QAbstractItemModel) (s : Series) : Series :=
  cacheModel false (with_snapshot {| samples := []; retained_prefix := [] |} (with_model m s)).

(** ** What the model, the animation and the item tell the series *)

Inductive series_event :=
| AboutToRemove (before : QAbstractItemModel) (first last : nat)   (* rowsAboutToBeRemoved *)
| Changed (after : QAbstractItemModel)                             (* rowsInserted, rowsRemoved, dataChanged, modelReset *)
| Destroyed
| Progress (value : double)                                        (* valueChanged *)
| Finished                                                         (* finished *)
| Resized.                                                         (* widthChanged, heightChanged *)

Definition on_series (e : series_event) (s : Series) : Series :=
  match e with
  | AboutToRemove before first last => captureRemovedPrefix first last (with_model (Some before) s)
  | Changed after => cacheModel true (with_model (Some after) s)
  | Destroyed => cacheModel false (with_model None s)
  | Progress value =>
      if animating s
      then with_window (window_start_milliseconds_ s)
             (interpolateWindowEnd (window_start_milliseconds_ s) (window_target_milliseconds_ s) value)
             (window_target_milliseconds_ s) (has_window_end_ s) true s
      else s
  | Finished =>
      if animating s
      then with_window (window_target_milliseconds_ s) (window_target_milliseconds_ s) (window_target_milliseconds_ s)
             (has_window_end_ s) false s
      else s
  | Resized => rebuildAt (currentWindowEnd s) s
  end.
End series.
