(* ===== verification/HistorySeriesLaws.v ===== *)
(** * The usage chart follows the usage history

    [appendSample] of the history model and the slots of the chart, run against each
    other: what the chart keeps, and where its window is. *)

From S2P Require Import Prelude.
From S2P Require Import Float64.
From S2P Require Import QtModel.
From S2P Require Import MetricHistory.
From S2P Require Import HistoryGeometry.
From S2P Require Import HistorySeries.

Section laws.
Context `{SeriesLibrary}.

(** ** The history as a model *)

Lemma read_history rows : readSamples (Some (history_model rows)) = rows.
Proof.
  cbn. change (map _ (seq 0 (length rows))) with (map (fun row => {|
    elapsed_milliseconds := variant_to_longlong (MetricHistory.data rows row ElapsedMilliseconds);
    cpu_usage_ratio := optionalRatio (MetricHistory.data rows row CpuUsageRatio);
    memory_usage_ratio := optionalRatio (MetricHistory.data rows row MemoryUsageRatio) |}) (seq 0 (length rows))).
  apply list_eq. intros k. rewrite list_lookup_fmap. destruct (decide (k < length rows)%nat) as [Hk|Hk].
  - rewrite lookup_seq_lt by done. destruct (lookup_lt_is_Some_2 rows k Hk) as [x Hx]. rewrite Hx. cbn. f_equal.
    unfold MetricHistory.data. rewrite Hx, variant_of_integer. destruct x as [t c m]. cbn.
    destruct c, m; cbn; by rewrite ?variant_of_double.
  - rewrite lookup_seq_ge by lia. rewrite lookup_ge_None_2 by lia. done.
Qed.

Lemma read_history_range rows n : (0 < n <= length rows)%nat -> readSampleRange (Some (history_model rows)) 0 (n - 1) = take n rows.
Proof.
  intros Hn. unfold readSampleRange. rewrite read_history. rewrite (proj2 (Nat.ltb_ge _ _)), (proj2 (Nat.leb_gt _ _)) by lia.
  cbn [orb]. rewrite drop_0. f_equal. lia.
Qed.

(** ** The history and the chart together *)

(** A sample is appended to the history, or the animation tells something. *)
Inductive input := Appended (new : Sample) | Ticked (value : double) | Ended | Widened.

Definition row_events (before : list Sample) (x : row_signal * list Sample) : list series_event :=
  match x.1 with
  | rowsRemoved first last => [AboutToRemove (history_model before) first last; Changed (history_model x.2)]
  | _ => [Changed (history_model x.2)]
  end.

Fixpoint signal_events (before : list Sample) (signals : list (row_signal * list Sample)) : list series_event :=
  match signals with
  | [] => []
  | x :: rest => row_events before x ++ signal_events x.2 rest
  end.

(** The events of an input, and the rows of the history after it. *)
Definition events_of (i : input) (rows : list Sample) : list series_event * list Sample :=
  match i with
  | Appended new => (signal_events rows (appendSample new rows).2, (appendSample new rows).1)
  | Ticked value => ([Progress value], rows)
  | Ended => ([Finished], rows)
  | Widened => ([Resized], rows)
  end.

Fixpoint script (inputs : list input) (rows : list Sample) : list series_event :=
  match inputs with
  | [] => []
  | i :: rest => let '(es, rows') := events_of i rows in es ++ script rest rows'
  end.

Definition appended (inputs : list input) : list Sample := omap (fun i => match i with Appended x => Some x | _ => None end) inputs.

Definition play (es : list series_event) (s : Series) : Series := fold_left (fun s e => on_series e s) es s.

(** The window ends on the way. *)
Fixpoint window_ends (es : list series_event) (s : Series) : list double :=
  currentWindowEnd s :: match es with [] => [] | e :: rest => window_ends rest (on_series e s) end.

(** ** What is kept *)

(** [kept] of [all], everything before having left a window that ended at one of [ends]
    together with the first sample that is kept. *)
Definition keeps (ends : list double) (all kept : list Sample) : Prop :=
  exists k, kept = drop k all /\
    (k = 0%nat \/ exists x w, head kept = Some x /\ w ∈ ends /\
       dltb (double_of_Z (elapsed_milliseconds x)) (dsub w kWindowMilliseconds) = true).

Lemma keeps_more ends ends' all kept : (forall w, w ∈ ends -> w ∈ ends') -> keeps ends all kept -> keeps ends' all kept.
Proof. intros Hw (k & Hk & Hc). exists k. split; [done|]. destruct Hc as [?|(x & w & ? & ? & ?)]; [by left|right]. exists x, w. auto. Qed.

Lemma keeps_snoc ends all kept x : keeps ends all kept -> keeps ends (all ++ [x]) (kept ++ [x]).
Proof.
  intros (k & -> & Hc). destruct (decide (k <= length all)%nat) as [Hk|Hk].
  - exists k. rewrite drop_app_le by done. split; [done|]. destruct Hc as [?|(y & w & Hy & Hw)]; [by left|right]. exists y, w.
    destruct (drop k all); [done|]. by split.
  - rewrite drop_ge in Hc |- * by lia. destruct Hc as [?|(y & w & Hy & _)]; [lia|done].
Qed.

Lemma count_before_outside cutoff l k : (k < count_before cutoff l)%nat ->
  exists x, l !! k = Some x /\ dltb (double_of_Z (elapsed_milliseconds x)) cutoff = true.
Proof.
  revert k. induction l as [|x l IH]; intros k Hk; cbn in Hk; [lia|]. destruct (dltb _ cutoff) eqn:E; [|lia].
  destruct k as [|k]; [by exists x|]. apply IH. lia.
Qed.

Lemma keeps_trim ends all prefix rows w : w ∈ ends -> keeps ends all (prefix ++ rows) ->
  keeps ends all (trim_prefix (dsub w kWindowMilliseconds) prefix ++ rows).
Proof.
  intros Hw (k & Hk & Hc). unfold trim_prefix. set (n := count_before _ prefix). destruct (Nat.eq_dec (n - 1)%nat 0%nat) as [->|Hn].
  - rewrite drop_0. by exists k.
  - destruct (count_before_outside (dsub w kWindowMilliseconds) prefix (n - 1)%nat) as (x & Hx & Hout); [fold n; lia|].
    exists (k + (n - 1))%nat. assert (drop (n - 1) prefix ++ rows = drop (n - 1) (prefix ++ rows)) as ->.
    { rewrite drop_app_le; [done|]. apply lookup_lt_Some in Hx. lia. }
    split; [by rewrite Hk, drop_drop|]. right. exists x, w. split; [|done].
    rewrite head_lookup, lookup_drop, Nat.add_0_r. by apply lookup_app_l_Some.
Qed.

(** ** The window *)

(** The window ends at the target when nothing moves. *)
Record window_ok (newest : option Sample) (s : Series) : Prop := {
  wo_rest : animating s = false -> window_current_milliseconds_ s = window_target_milliseconds_ s /\
                                   window_start_milliseconds_ s = window_target_milliseconds_ s;
  wo_has : is_Some newest -> has_window_end_ s = true;
  wo_target : forall x, newest = Some x -> dltb (window_target_milliseconds_ s) (double_of_Z (elapsed_milliseconds x)) = false /\
                        dltb (double_of_Z (elapsed_milliseconds x)) (window_target_milliseconds_ s) = false }.

Lemma move_window_ok newest newest' s : window_ok newest s ->
  window_ok newest' (move_window true (option_map (fun x => double_of_Z (elapsed_milliseconds x)) newest') s).
Proof.
  intros [Hr Hh Ht]. unfold move_window. cbn [negb]. destruct newest' as [x|]; cbn [option_map].
  2: { split; [done|by intros [? ?]|done]. }
  destruct (has_window_end_ s) eqn:E; cbn [negb].
  - destruct (dltb (window_target_milliseconds_ s) _) eqn:E1; [destruct (0 <? transition_duration_ s)|destruct (dltb _ (window_target_milliseconds_ s)) eqn:E2];
      split; cbn; try done; intros ? [= <-]; by rewrite ?dltb_irrefl.
  - split; cbn; try done. intros ? [= <-]. by rewrite !dltb_irrefl.
Qed.

(** The chart of a history with the rows [rows], after the samples [all]. *)
Record follows (ends : list double) (all rows : list Sample) (s : Series) : Prop := {
  f_model : model_ s = Some (history_model rows);
  f_samples : samples (snapshot_ s) = rows;
  f_keeps : keeps ends all (retained_prefix (snapshot_ s) ++ rows);
  f_window : window_ok (last rows) s }.

Lemma move_window_keeps animate newest s : snapshot_ (move_window animate newest s) = snapshot_ s /\ model_ (move_window animate newest s) = model_ s.
Proof. unfold move_window. by repeat case_match. Qed.

Lemma changed_follows ends all rows newest s :
  keeps ends all (retained_prefix (snapshot_ s) ++ rows) -> window_ok newest s ->
  currentWindowEnd (on_series (Changed (history_model rows)) s) ∈ ends ->
  follows ends all rows (on_series (Changed (history_model rows)) s).
Proof.
  intros Hk Hw Hin. cbn [on_series] in *. unfold cacheModel in *. cbn [model_ with_model] in *. rewrite read_history in *.
  set (s1 := with_model (Some (history_model rows)) s) in *.
  set (s2 := move_window true (option_map _ (last rows)) s1) in *.
  assert (window_ok (last rows) s2) as Hw2 by (apply (move_window_ok newest); split; apply Hw).
  destruct (move_window_keeps true (option_map (fun x => double_of_Z (elapsed_milliseconds x)) (last rows)) s1) as [Hs Hm].
  split; [exact Hm|done| |by destruct Hw2]. cbn. by apply keeps_trim.
Qed.

Lemma window_ends_cons e es s w : w ∈ window_ends es (on_series e s) -> w ∈ window_ends (e :: es) s.
Proof. cbn [window_ends]. rewrite elem_of_cons. tauto. Qed.

Lemma window_ends_app es1 es2 s w : w ∈ window_ends es1 s \/ w ∈ window_ends es2 (play es1 s) -> w ∈ window_ends (es1 ++ es2) s.
Proof.
  revert s. induction es1 as [|e es1 IH]; intros s Hw; cbn [app play fold_left].
  - destruct Hw as [Hw|Hw]; [|done]. cbn [window_ends] in Hw. apply list_elem_of_singleton in Hw as ->. destruct es2; left.
  - cbn [window_ends] in *. rewrite elem_of_cons in Hw |- *. destruct Hw as [[->|Hw]|Hw]; [by left|right; apply IH; by left|right; apply IH; by right].
Qed.

Lemma current_in_ends es s : currentWindowEnd s ∈ window_ends es s.
Proof. destruct es; left. Qed.

Lemma remove_count_le cutoff rows : (remove_count cutoff rows <= length rows)%nat.
Proof. induction rows as [|x rows IH]; cbn; [lia|]. destruct (_ <? cutoff); lia. Qed.

Lemma appended_follows ends all rows new s :
  (forall w, w ∈ window_ends (events_of (Appended new) rows).1 s -> w ∈ ends) -> follows ends all rows s ->
  follows ends (all ++ [new]) (events_of (Appended new) rows).2 (play (events_of (Appended new) rows).1 s).
Proof.
  intros Hends [Hm Hs Hk Hw]. cbn [events_of] in *. unfold appendSample in *. cbn [fst snd] in *.
  set (n := remove_count _ rows) in *. pose proof (remove_count_le (elapsed_milliseconds new - MetricHistory.kHistoryWindowMilliseconds) rows) as Hn. fold n in Hn.
  destruct (Nat.ltb_spec 0 n) as [Hpos|Hz].
  - cbn [app signal_events row_events fst snd play fold_left] in *.
    set (s1 := on_series (AboutToRemove (history_model rows) 0 (n - 1)) s) in *.
    assert (follows ends all (drop n rows) (on_series (Changed (history_model (drop n rows))) s1)) as Hf.
    { eapply changed_follows; [|by split; apply Hw|apply Hends; apply window_ends_cons, window_ends_cons, current_in_ends].
      unfold s1. cbn [on_series captureRemovedPrefix Nat.eqb with_snapshot snapshot_ retained_prefix model_ with_model].
      rewrite read_history_range by lia. rewrite <- (assoc_L (++)), take_drop. exact Hk. }
    destruct Hf as [_ _ Hk2 Hw2]. eapply changed_follows; [|exact Hw2|].
    + rewrite (assoc_L (++)). apply keeps_snoc. exact Hk2.
    + apply Hends. do 3 apply window_ends_cons. apply current_in_ends.
  - replace n with 0%nat in * by lia. rewrite drop_0 in *. cbn [app signal_events row_events fst snd play fold_left] in *.
    eapply changed_follows; [|exact Hw|apply Hends, window_ends_cons, current_in_ends].
    rewrite (assoc_L (++)). apply keeps_snoc. exact Hk.
Qed.

Lemma input_follows ends all rows i s :
  (forall w, w ∈ window_ends (events_of i rows).1 s -> w ∈ ends) -> follows ends all rows s ->
  follows ends (all ++ appended [i]) (events_of i rows).2 (play (events_of i rows).1 s).
Proof.
  intros Hends Hf. destruct i as [new|value| |]; [by apply appended_follows|..]; cbn [appended omap events_of fst snd play fold_left];
    rewrite app_nil_r; cbn [on_series].
  - destruct (animating s); [|done]. destruct Hf as [Hm Hs Hk [Hr Hh Ht]]. by split; [..|split].
  - destruct (animating s); [|done]. destruct Hf as [Hm Hs Hk [Hr Hh Ht]]. by split; [..|split].
  - destruct Hf as [Hm Hs Hk [Hr Hh Ht]]. by split; [..|split].
Qed.

Definition rows_after (inputs : list input) (rows : list Sample) : list Sample :=
  fold_left (fun rows i => (events_of i rows).2) inputs rows.

Lemma script_follows ends inputs all rows s :
  (forall w, w ∈ window_ends (script inputs rows) s -> w ∈ ends) -> follows ends all rows s ->
  follows ends (all ++ appended inputs) (rows_after inputs rows) (play (script inputs rows) s).
Proof.
  revert all rows s. induction inputs as [|i inputs IH]; intros all rows s Hends Hf; [cbn; by rewrite app_nil_r|].
  cbn [script] in *. pose proof (input_follows ends all rows i s) as Hi. destruct (events_of i rows) as [es rows'] eqn:E. cbn [fst snd] in Hi.
  assert (follows ends (all ++ appended [i]) rows' (play es s)) as Hf'.
  { apply Hi; [|done]. intros w Hw. apply Hends, window_ends_app. by left. }
  specialize (IH (all ++ appended [i]) rows' (play es s)).
  unfold play at 1. rewrite fold_left_app. fold (play es s). fold (play (script inputs rows') (play es s)).
  cbn [rows_after fold_left]. rewrite E. cbn [snd]. fold (rows_after inputs rows').
  assert (all ++ appended (i :: inputs) = (all ++ appended [i]) ++ appended inputs) as ->.
  { rewrite <- (assoc_L (++)). f_equal. by destruct i. }
  apply IH; [|done]. intros w Hw. apply Hends, window_ends_app. by right.
Qed.

Lemma setModel_follows ends rows s :
  window_current_milliseconds_ s = window_target_milliseconds_ s -> window_start_milliseconds_ s = window_target_milliseconds_ s ->
  follows ends rows rows (setModel (Some (history_model rows)) s).
Proof.
  intros Hcur Hst. unfold setModel, cacheModel. cbn [model_ with_model with_snapshot]. rewrite read_history.
  set (s1 := with_snapshot _ _). destruct (move_window_keeps false (option_map (fun x => double_of_Z (elapsed_milliseconds x)) (last rows)) s1) as [Hs Hm].
  split; [exact Hm|done| |].
  - cbn. exists 0%nat. split; [done|by left].
  - unfold move_window. cbn [negb]. destruct (last rows) as [x|]; cbn [option_map]; split; cbn; try done.
    all: try (intros ? [= <-]; by rewrite !dltb_irrefl).
Qed.

(** C37. The chart and the history.  A chart is given a history and then told, in any
    order, of appended samples, the progress and the end of its animation and of changes
    of its size.  It then shows the rows of the history; together with the samples it
    keeps they are the end of all samples there were, without a gap, and a sample is
    missing only if the first kept one, and so all before it, had left a window the chart
    had reached.  When no animation runs the window ends at its target, which is the time
    of the newest sample. *)
Theorem chart_follows_history rows duration inputs :
  let s0 := setModel (Some (history_model rows)) (setTransitionDuration duration new_series) in
  let es := script inputs rows in
  let s := play es s0 in
  let all := rows ++ appended inputs in
  samples (snapshot_ s) = rows_after inputs rows /\
  (exists k, retained_prefix (snapshot_ s) ++ samples (snapshot_ s) = drop k all /\
     (k = 0%nat \/ exists x w, head (drop k all) = Some x /\ w ∈ window_ends es s0 /\
        dltb (double_of_Z (elapsed_milliseconds x)) (dsub w kWindowMilliseconds) = true)) /\
  (animating s = false -> currentWindowEnd s = window_target_milliseconds_ s) /\
  (forall x, last (samples (snapshot_ s)) = Some x ->
     dltb (window_target_milliseconds_ s) (double_of_Z (elapsed_milliseconds x)) = false /\
     dltb (double_of_Z (elapsed_milliseconds x)) (window_target_milliseconds_ s) = false).
Proof.
  cbn. set (s0 := setModel _ _). destruct (script_follows (window_ends (script inputs rows) s0) inputs rows rows s0) as [_ Hs (k & Hk & Hc) Hw].
  - done.
  - by apply setModel_follows.
  - split; [done|]. rewrite Hs. split; [|split; [intros Ha; by apply Hw|by apply Hw]].
    exists k. split; [done|]. rewrite <- Hk. exact Hc.
Qed.
End laws.
