(* ===== verification/HistoryScene.v ===== *)
(** * The scene graph of the usage chart (src/dashboard/resource_history_series.cpp)

    [updatePaintNode] with everything it builds: the curves as ribbons and areas of coloured
    vertices, the end markers, the clip and the matrices; and the chart as a whole, with its
    colours and its size.  A node's vertex memory is a list of cells that are not yet
    written.  [float] is IEEE binary32; the trigonometry of [float] is a parameter. *)

From Stdlib Require Import Floats.SpecFloat.
From S2P Require Import Prelude.
From S2P Require Import Float64.
From S2P Require Import QtModel.
From S2P Require Import MetricHistory.
From S2P Require Import HistoryGeometry.
From S2P Require Import HistorySeries.

(** ** binary32 *)

Definition float : Type := spec_float.
Definition prec32 : Z := 24.
Definition emax32 : Z := 128.

(** [static_cast<float>] of a double, and the promotion of a float. *)
Definition to_float (x : double) : float :=
  match x with S754_finite s m e => binary_round prec32 emax32 s m e | _ => x end.
Definition to_double (x : float) : double :=
  match x with S754_finite s m e => binary_round prec64 emax64 s m e | _ => x end.

Definition fadd : float -> float -> float := SFadd prec32 emax32.
Definition fmul : float -> float -> float := SFmul prec32 emax32.
Definition fdiv : float -> float -> float := SFdiv prec32 emax32.
Definition float_of_Z (z : Z) : float := binary_normalize prec32 emax32 z 0 false.

(** [n / d] as a literal of [float]. *)
Definition float_literal (n d : positive) : float := fdiv (S754_finite false n 0) (S754_finite false d 0).

(** [std::cos] and [std::sin] of [float]. *)
Class CircleLibrary := { cosf : float -> float; sinf : float -> float }.

(** ** Colours *)

(** An RGB [QColor]: 16 bits a channel. *)
Record QColor := { c_alpha : Z; c_red : Z; c_green : Z; c_blue : Z }.

#[export] Instance QColor_eq_dec : EqDecision QColor.
Proof. solve_decision. Defined.

(** [QColor::red] and the others: the upper 8 bits. *)
Definition channel (c : Z) : Z := Z.shiftr c 8.
Definition setAlpha (a : Z) (c : QColor) : QColor :=
  {| c_alpha := a * 257; c_red := c_red c; c_green := c_green c; c_blue := c_blue c |}.
Definition rgb (r g b : Z) : QColor := {| c_alpha := 65535; c_red := r * 257; c_green := g * 257; c_blue := b * 257 |}.

Definition u8 (z : Z) : Z := z mod 256.

(** [static_cast<std::uint8_t>] of a double that is not negative. *)
Definition trunc_int (x : double) : Z :=
  match x with
  | S754_finite s m e =>
      let n := if 0 <=? e then Zpos m * 2 ^ e else Zpos m / 2 ^ (- e) in if s then - n else n
  | _ => 0
  end.

Definition premultiply (alpha c : Z) : Z := u8 (c * alpha / 255).

(** ** Nodes *)

Record Point := { x : float; y : float }.

(** A [QSGGeometry::ColoredPoint2D]. *)
Record Vertex := { v_x : float; v_y : float; v_r : Z; v_g : Z; v_b : Z; v_a : Z }.

Definition vertex (vx vy : float) (color : QColor) (alpha : Z) : Vertex :=
  {| v_x := vx; v_y := vy; v_r := premultiply alpha (channel (c_red color)); v_g := premultiply alpha (channel (c_green color));
     v_b := premultiply alpha (channel (c_blue color)); v_a := alpha |}.

Inductive DrawingMode := DrawTriangles | DrawTriangleStrip.

(** A [QSGGeometryNode]: its vertex memory, [None] where nothing was written. *)
Record GeometryNode := { mode : DrawingMode; vertices : list (option Vertex) }.

Definition write (m : list (option Vertex)) (w : nat * Vertex) : list (option Vertex) := <[w.1 := Some w.2]> m.

(** The memory after some writes to an allocation of [n] vertices. *)
Definition written (n : nat) (ws : list (nat * Vertex)) : list (option Vertex) := fold_left write ws (replicate n None).

Definition renderPoints (run : CurveRun) : list Point :=
  map (fun p => {| x := to_float (px p); y := to_float (py p) |}) (tessellated run).

Section nodes.
Context `{MathLibrary} `{CircleLibrary}.

Definition ribbon_of (points : list Point) (width opacity : double) : list FeatherVertex :=
  buildFeatheredRibbon (map (fun p => {| px := to_double (x p); py := to_double (y p) |}) points) width opacity.

Definition line_vertex (color : QColor) (v : FeatherVertex) : Vertex :=
  vertex (to_float (px (position v))) (to_float (py (position v))) color
    (u8 (trunc_int (dmul (clamp (alpha v) d0 d1) (double_of_Z 255)))).

Definition line_writes (ribbon : list FeatherVertex) (color : QColor) : list (nat * Vertex) :=
  imap (fun index v => (index, line_vertex color v)) ribbon.

Definition lineNode (points : list Point) (color : QColor) (width opacity : double) : GeometryNode :=
  let ribbon := ribbon_of points width opacity in
  {| mode := DrawTriangles; vertices := written (length ribbon) (line_writes ribbon color) |}.

Definition kCurveAlpha : Z := 26.

Definition area_writes (points : list Point) (color : QColor) (baseline : float) : list (nat * Vertex) :=
  concat (imap (fun index point =>
    [((index * 2)%nat, vertex (x point) (y point) color kCurveAlpha);
     ((index * 2 + 1)%nat, {| v_x := x point; v_y := baseline; v_r := 0; v_g := 0; v_b := 0; v_a := 0 |})]) points).

Definition areaNode (points : list Point) (color : QColor) (baseline : float) : GeometryNode :=
  {| mode := DrawTriangleStrip; vertices := written (length points * 2) (area_writes points color baseline) |}.

Definition joinNode (color : QColor) : GeometryNode :=
  lineNode [{| x := float_of_Z (-1); y := float_of_Z 0 |}; {| x := float_of_Z 6; y := float_of_Z 0 |}] color d2 d1.

(** *** The ring of a marker *)

Definition kSections : nat := 48.
Definition kOuterFeatherRadius : float := float_literal 9 2.
Definition kOuterSolidRadius : float := float_literal 7 2.
Definition kInnerSolidRadius : float := float_literal 5 2.
Definition kInnerFeatherRadius : float := float_literal 3 2.
Definition kVerticesPerSection : nat := 21.
Definition kTau : float := float_literal 62831853071795864769 10000000000000000000.
Definition kCenterX : float := float_of_Z 6.

Definition angle_at (section : nat) : float :=
  fdiv (fmul kTau (float_of_Z (Z.of_nat section))) (float_of_Z (Z.of_nat kSections)).

Definition radialPoint (angle radius : float) : QPointF :=
  {| px := to_double (fadd kCenterX (fmul (cosf angle) radius)); py := to_double (fmul (sinf angle) radius) |}.

Definition ring_vertex (at_ : QPointF) (color : QColor) : Vertex :=
  vertex (to_float (px at_)) (to_float (py at_)) color (u8 (channel (c_alpha color))).

Definition band (angle_1 angle_2 outer_radius : float) (outer_color : QColor) (inner_radius : float) (inner_color : QColor)
  : list Vertex :=
  let outer_1 := radialPoint angle_1 outer_radius in let outer_2 := radialPoint angle_2 outer_radius in
  let inner_1 := radialPoint angle_1 inner_radius in let inner_2 := radialPoint angle_2 inner_radius in
  [ring_vertex outer_1 outer_color; ring_vertex inner_1 inner_color; ring_vertex inner_2 inner_color;
   ring_vertex outer_1 outer_color; ring_vertex inner_2 inner_color; ring_vertex outer_2 outer_color].

Definition ring_section (color background : QColor) (section : nat) : list Vertex :=
  let transparent_color := setAlpha 0 color in
  let angle_1 := angle_at section in let angle_2 := angle_at (section + 1) in
  band angle_1 angle_2 kOuterFeatherRadius transparent_color kOuterSolidRadius color
  ++ band angle_1 angle_2 kOuterSolidRadius color kInnerSolidRadius color
  ++ band angle_1 angle_2 kInnerSolidRadius color kInnerFeatherRadius background
  ++ [vertex kCenterX (float_of_Z 0) background (u8 (channel (c_alpha background)));
      ring_vertex (radialPoint angle_1 kInnerFeatherRadius) background;
      ring_vertex (radialPoint angle_2 kInnerFeatherRadius) background].

(** Each section writes from its own first index on. *)
Definition ring_writes (color background : QColor) : list (nat * Vertex) :=
  concat (map (fun section => let vs := ring_section color background section in
                              zip (seq (section * kVerticesPerSection) (length vs)) vs) (seq 0 kSections)).

Definition ringNode (color background : QColor) : GeometryNode :=
  {| mode := DrawTriangles; vertices := written (kSections * kVerticesPerSection) (ring_writes color background) |}.
End nodes.

(** ** The scene *)

(** [QMatrix4x4]: only translations are used. *)
Definition matrix : Type := float * float.
Definition identity : matrix := (float_of_Z 0, float_of_Z 0).

(** A marker: a transform node, its opacity node, and the nodes below. *)
Record Marker := { m_matrix : matrix; m_opacity : double; m_nodes : list GeometryNode }.

Record SceneRoot := {
  clip_rect : QSizeF;                    (* from the origin *)
  curves_matrix : matrix;
  curves : list GeometryNode;
  cpu_marker : Marker;
  memory_marker : Marker;
  cpu_geometry : MetricGeometry;
  memory_geometry : MetricGeometry;
  root_revision : Z }.

Definition new_marker : Marker := {| m_matrix := identity; m_opacity := d1; m_nodes := [] |}.
Definition no_geometry : MetricGeometry := {| runs := []; current_endpoint := None |}.

Definition new_root : SceneRoot :=
  {| clip_rect := {| width := d0; height := d0 |}; curves_matrix := identity; curves := []; cpu_marker := new_marker;
     memory_marker := new_marker; cpu_geometry := no_geometry; memory_geometry := no_geometry; root_revision := 0 |}.

Definition with_nodes (nodes : list GeometryNode) (m : Marker) : Marker :=
  {| m_matrix := m_matrix m; m_opacity := m_opacity m; m_nodes := nodes |}.

(** The children are removed and the revision is the chart's. *)
Definition cleared (revision : Z) (root : SceneRoot) : SceneRoot :=
  {| clip_rect := clip_rect root; curves_matrix := curves_matrix root; curves := [];
     cpu_marker := with_nodes [] (cpu_marker root); memory_marker := with_nodes [] (memory_marker root);
     cpu_geometry := cpu_geometry root; memory_geometry := memory_geometry root; root_revision := revision |}.

(** ** The chart with its colours and its size *)

Record Chart := {
  series : Series;
  cpu_color_ : QColor;
  memory_color_ : QColor;
  plot_background_color_ : QColor;
  item_size : QSizeF }.

Definition new_chart : Chart :=
  {| series := new_series; cpu_color_ := rgb 54 185 255; memory_color_ := rgb 166 108 255;
     plot_background_color_ := rgb 4 19 33; item_size := {| width := d0; height := d0 |} |}.

Definition with_series (s : Series) (c : Chart) : Chart :=
  {| series := s; cpu_color_ := cpu_color_ c; memory_color_ := memory_color_ c;
     plot_background_color_ := plot_background_color_ c; item_size := item_size c |}.

Definition with_colors (cpu memory background : QColor) (c : Chart) : Chart :=
  {| series := series c; cpu_color_ := cpu; memory_color_ := memory; plot_background_color_ := background;
     item_size := item_size c |}.

Definition with_size (size : QSizeF) (c : Chart) : Chart :=
  {| series := series c; cpu_color_ := cpu_color_ c; memory_color_ := memory_color_ c;
     plot_background_color_ := plot_background_color_ c; item_size := size |}.

Definition rebuilt (c : Chart) : Chart := with_series (rebuildAt (currentWindowEnd (series c)) (series c)) c.

(** The signals of the setters. *)
Inductive Changed := CpuColorChanged | MemoryColorChanged | PlotBackgroundColorChanged.

Definition setCpuColor (color : QColor) (c : Chart) : Chart * list Changed :=
  let c' := with_colors color (memory_color_ c) (plot_background_color_ c) c in
  if bool_decide (cpu_color_ c = color) then (c', []) else (rebuilt c', [CpuColorChanged]).

Definition setMemoryColor (color : QColor) (c : Chart) : Chart * list Changed :=
  let c' := with_colors (cpu_color_ c) color (plot_background_color_ c) c in
  if bool_decide (memory_color_ c = color) then (c', []) else (rebuilt c', [MemoryColorChanged]).

Definition setPlotBackgroundColor (color : QColor) (c : Chart) : Chart * list Changed :=
  let c' := with_colors (cpu_color_ c) (memory_color_ c) color c in
  if bool_decide (plot_background_color_ c = color) then (c', []) else (rebuilt c', [PlotBackgroundColorChanged]).

(** A width or a height that is another one; Qt tells of nothing else. *)
Definition set_width (w : double) (c : Chart) : Chart :=
  if deqb w (width (item_size c)) then c else rebuilt (with_size {| width := w; height := height (item_size c) |} c).
Definition set_height (h : double) (c : Chart) : Chart :=
  if deqb h (height (item_size c)) then c else rebuilt (with_size {| width := width (item_size c); height := h |} c).

Section paint.
Context `{MathLibrary} `{CircleLibrary}.

Definition run_nodes (make : list Point -> GeometryNode) (g : MetricGeometry) : list GeometryNode :=
  map (fun run => make (renderPoints run)) (runs g).

(** The layers of the curves, from the back to the front. *)
Definition curve_nodes (cpu memory : MetricGeometry) (size : QSizeF) (cpu_color memory_color : QColor) : list GeometryNode :=
  let area color points := areaNode points color (to_float (height size)) in
  let line w opacity color points := lineNode points color w opacity in
  run_nodes (area cpu_color) cpu ++ run_nodes (area memory_color) memory
  ++ run_nodes (line (double_of_Z 5) (decimal 4 100) cpu_color) cpu
  ++ run_nodes (line (double_of_Z 5) (decimal 4 100) memory_color) memory
  ++ run_nodes (line d3 (decimal 12 100) cpu_color) cpu
  ++ run_nodes (line d3 (decimal 12 100) memory_color) memory
  ++ run_nodes (line d2 d1 cpu_color) cpu
  ++ run_nodes (line d2 d1 memory_color) memory.

Definition rebuildSnapshot (samples retained_prefix : list Sample) (size : QSizeF) (cpu_color memory_color background : QColor)
    (window_end : double) (root : SceneRoot) : SceneRoot :=
  let cpu := buildMetricGeometry samples Cpu size window_end retained_prefix in
  let memory := buildMetricGeometry samples Memory size window_end retained_prefix in
  {| clip_rect := clip_rect root; curves_matrix := curves_matrix root;
     curves := curve_nodes cpu memory size cpu_color memory_color;
     cpu_marker := with_nodes [joinNode cpu_color; ringNode cpu_color background] (cpu_marker root);
     memory_marker := with_nodes [joinNode memory_color; ringNode memory_color background] (memory_marker root);
     cpu_geometry := cpu; memory_geometry := memory; root_revision := root_revision root |}.

(** A marker without a place keeps its matrix and is not seen. *)
Definition positionMarker (metric : MetricGeometry) (local_boundary_x visible_x : double) (m : Marker) : Marker :=
  match curveIntersection metric local_boundary_x with
  | None => {| m_matrix := m_matrix m; m_opacity := d0; m_nodes := m_nodes m |}
  | Some intersection =>
      {| m_matrix := (to_float visible_x, to_float (py intersection)); m_opacity := d1; m_nodes := m_nodes m |}
  end.

Definition kEndpointZoneWidth : double := double_of_Z 10.

Definition drawable_width (c : Chart) : double := dmax d0 (dsub (width (item_size c)) kEndpointZoneWidth).

Definition hidden (c : Chart) : bool :=
  (length (samples (snapshot_ (series c))) =? 0)%nat || dleb (width (item_size c)) d0 || dleb (height (item_size c)) d0.

(** The clip and the snapshot of the present geometry. *)
Definition rebuild (c : Chart) (root : SceneRoot) : SceneRoot :=
  let s := series c in
  let drawable_size := {| width := drawable_width c; height := height (item_size c) |} in
  let root := rebuildSnapshot (samples (snapshot_ s)) (retained_prefix (snapshot_ s)) drawable_size (cpu_color_ c)
                (memory_color_ c) (plot_background_color_ c) (geometry_origin_milliseconds_ s)
                {| clip_rect := drawable_size; curves_matrix := curves_matrix root; curves := curves root;
                   cpu_marker := cpu_marker root; memory_marker := memory_marker root; cpu_geometry := cpu_geometry root;
                   memory_geometry := memory_geometry root; root_revision := root_revision root |} in
  {| clip_rect := clip_rect root; curves_matrix := curves_matrix root; curves := curves root;
     cpu_marker := cpu_marker root; memory_marker := memory_marker root; cpu_geometry := cpu_geometry root;
     memory_geometry := memory_geometry root; root_revision := geometry_revision_ s |}.

(** The curves are shifted by what the window moved since, the markers put on them. *)
Definition place_scene (c : Chart) (root : SceneRoot) : SceneRoot :=
  let s := series c in
  let translation := dmul (dopp (drawable_width c))
                       (ddiv (dsub (currentWindowEnd s) (geometry_origin_milliseconds_ s)) (double_of_Z 60000)) in
  let local_boundary_x := dsub (drawable_width c) translation in
  {| clip_rect := clip_rect root; curves_matrix := (to_float translation, float_of_Z 0); curves := curves root;
     cpu_marker := positionMarker (cpu_geometry root) local_boundary_x (drawable_width c) (cpu_marker root);
     memory_marker := positionMarker (memory_geometry root) local_boundary_x (drawable_width c) (memory_marker root);
     cpu_geometry := cpu_geometry root; memory_geometry := memory_geometry root; root_revision := root_revision root |}.

Definition updatePaintNode (c : Chart) (old_node : option SceneRoot) : SceneRoot :=
  let root := default new_root old_node in
  if hidden c then cleared (geometry_revision_ (series c)) root
  else place_scene c (if root_revision root =? geometry_revision_ (series c) then root else rebuild c root).
End paint.

(** ** What happens to a chart *)

Inductive chart_event :=
| RowsRemoved (before : QAbstractItemModel) (first last : nat) (after : QAbstractItemModel)  (* both signals of a removal *)
| ModelChanged (after : QAbstractItemModel)
| ModelDestroyed
| ModelSet (m : option QAbstractItemModel)      (* another one *)
| AnimationValue (value : double)
| AnimationFinished
| WidthSet (w : double)
| HeightSet (h : double)
| CpuColorSet (color : QColor)
| MemoryColorSet (color : QColor)
| PlotBackgroundColorSet (color : QColor)
| TransitionDurationSet (duration : Z)
| Painted.

Section run.
Context `{SeriesLibrary} `{MathLibrary} `{CircleLibrary}.

Definition on_chart (e : chart_event) (c : Chart) : Chart :=
  match e with
  | RowsRemoved before first last after =>
      with_series (on_series (HistorySeries.Changed after) (on_series (AboutToRemove before first last) (series c))) c
  | ModelChanged after => with_series (on_series (HistorySeries.Changed after) (series c)) c
  | ModelDestroyed => with_series (on_series Destroyed (series c)) c
  | ModelSet m => with_series (setModel m (series c)) c
  | AnimationValue value => with_series (on_series (Progress value) (series c)) c
  | AnimationFinished => with_series (on_series Finished (series c)) c
  | WidthSet w => set_width w c
  | HeightSet h => set_height h c
  | CpuColorSet color => (setCpuColor color c).1
  | MemoryColorSet color => (setMemoryColor color c).1
  | PlotBackgroundColorSet color => (setPlotBackgroundColor color c).1
  | TransitionDurationSet duration => with_series (setTransitionDuration duration (series c)) c
  | Painted => c
  end.

(** The chart and the scene of its last paint. *)
Definition chart_step (st : Chart * option SceneRoot) (e : chart_event) : Chart * option SceneRoot :=
  match e with
  | Painted => (st.1, Some (updatePaintNode st.1 st.2))
  | _ => (on_chart e st.1, st.2)
  end.

Definition chart_run (es : list chart_event) : Chart * option SceneRoot := fold_left chart_step es (new_chart, None).
End run.
