(* ===== verification/HistorySceneLaws.v ===== *)
(** * What the chart paints

    Painting again is painting from scratch: the nodes kept from the last paint are those
    that the present samples, colours and size would give.  And the vertex memory of every
    node is written completely, with colours that are valid for blending. *)

From Stdlib Require Import Floats.SpecFloat.
From S2P Require Import Prelude.
From S2P Require Import Float64.
From S2P Require Import QtModel.
From S2P Require Import MetricHistory.
From S2P Require Import HistoryGeometry.
From S2P Require Import HistorySeries.
From S2P Require Import HistoryScene.

(** ** What is seen of a scene *)

(** Of the curves their clip and their shift; a marker only if it is not transparent. *)
Definition seen_marker (m : Marker) : option (matrix * list GeometryNode) :=
  match m_nodes m with
  | [] => None
  | nodes => if bool_decide (m_opacity m = d0) then None else Some (m_matrix m, nodes)
  end.

Definition seen (root : SceneRoot) :=
  (match curves root with [] => None | nodes => Some (clip_rect root, curves_matrix root, nodes) end,
   seen_marker (cpu_marker root), seen_marker (memory_marker root)).

Section paint.
Context `{SeriesLibrary} `{MathLibrary} `{CircleLibrary}.

(** The reference: everything is built for this paint. *)
Definition from_scratch (c : Chart) :=
  if hidden c then (None, None, None) else seen (place_scene c (rebuild c new_root)).

(** ** What the geometry is built from *)

Record same_drawing (c c' : Chart) : Prop := {
  sd_snapshot : snapshot_ (series c) = snapshot_ (series c');
  sd_origin : geometry_origin_milliseconds_ (series c) = geometry_origin_milliseconds_ (series c');
  sd_cpu : cpu_color_ c = cpu_color_ c';
  sd_memory : memory_color_ c = memory_color_ c';
  sd_background : plot_background_color_ c = plot_background_color_ c';
  sd_size : item_size c = item_size c' }.

Lemma same_drawing_refl c : same_drawing c c.
Proof. by split. Qed.

Abbreviation revision c := (geometry_revision_ (series c)).

(** A change of what is drawn changes the revision. *)
Lemma move_window_scene animate newest s :
  snapshot_ (move_window animate newest s) = snapshot_ s /\
  geometry_origin_milliseconds_ (move_window animate newest s) = geometry_origin_milliseconds_ s /\
  geometry_revision_ (move_window animate newest s) = geometry_revision_ s.
Proof. unfold move_window. destruct animate, newest; cbn [negb]; repeat case_if; done. Qed.

Lemma cacheModel_revision animate s : geometry_revision_ (cacheModel animate s) = u64 (geometry_revision_ s + 1).
Proof.
  unfold cacheModel. cbv zeta. cbn [geometry_revision_ rebuildAt with_snapshot]. f_equal. f_equal. apply move_window_scene.
Qed.

Lemma on_series_revision e s :
  geometry_revision_ (on_series e s) = u64 (geometry_revision_ s + 1) \/
  (geometry_revision_ (on_series e s) = geometry_revision_ s /\
   geometry_origin_milliseconds_ (on_series e s) = geometry_origin_milliseconds_ s /\
   ((exists before first last, e = AboutToRemove before first last) \/ snapshot_ (on_series e s) = snapshot_ s)).
Proof.
  destruct e as [before first last|after| |v| |]; cbn [on_series]; try (left; by rewrite cacheModel_revision).
  - right. unfold captureRemovedPrefix. case_if; (split; [done|split; [done|left; by eauto]]).
  - right. case_if; by auto.
  - right. case_if; by auto.
  - by left.
Qed.

Lemma on_chart_revision e c : revision (on_chart e c) = u64 (revision c + 1) \/
  (revision (on_chart e c) = revision c /\ same_drawing c (on_chart e c)).
Proof.
  assert (Hs : forall ev, (forall b f l, ev <> AboutToRemove b f l) ->
    let c' := with_series (on_series ev (series c)) c in
    revision c' = u64 (revision c + 1) \/ (revision c' = revision c /\ same_drawing c c')).
  { intros ev Hev. cbv zeta. cbn [series with_series]. destruct (on_series_revision ev (series c)) as [E|(E & Eo & [(b & f & l & ->)|Es])].
    - by left.
    - by destruct (Hev b f l).
    - right. split; [done|]. by split. }
  destruct e as [before first last after|after| |m|v| |w|h|color|color|color|d|]; cbn [on_chart]; try (by apply Hs).
  - left. cbn [series with_series on_series]. rewrite cacheModel_revision. unfold captureRemovedPrefix. by case_if.
  - left. cbn [series with_series]. unfold setModel. by rewrite cacheModel_revision.
  - unfold set_width. case_if; [right; split; [done|apply same_drawing_refl]|by left].
  - unfold set_height. case_if; [right; split; [done|apply same_drawing_refl]|by left].
  - unfold setCpuColor. case_bool_decide as Ec; [right|by left]. by split.
  - unfold setMemoryColor. case_bool_decide as Ec; [right|by left]. by split.
  - unfold setPlotBackgroundColor. case_bool_decide as Ec; [right|by left]. by split.
  - right. by split.
  - right. split; [done|apply same_drawing_refl].
Qed.

(** ** The nodes of the last paint *)

(** The root holds what a paint of the chart builds. *)
Record current (c : Chart) (root : SceneRoot) : Prop := {
  cu_hidden : hidden c = true -> curves root = [] /\ m_nodes (cpu_marker root) = [] /\ m_nodes (memory_marker root) = [];
  cu_shown : hidden c = false ->
    let fresh := rebuild c new_root in
    clip_rect root = clip_rect fresh /\ curves root = curves fresh /\
    m_nodes (cpu_marker root) = m_nodes (cpu_marker fresh) /\ m_nodes (memory_marker root) = m_nodes (memory_marker fresh) /\
    cpu_geometry root = cpu_geometry fresh /\ memory_geometry root = memory_geometry fresh }.

Lemma hidden_same c c' : same_drawing c c' -> hidden c = hidden c'.
Proof. intros [E1 _ _ _ _ E6]. unfold hidden. by rewrite E1, E6. Qed.

Lemma current_same c c' root : same_drawing c c' -> current c root -> current c' root.
Proof.
  intros Hs [Hn Hv]. pose proof (hidden_same c c' Hs) as Eh. split; rewrite <- Eh; [done|]. intros Hf. specialize (Hv Hf).
  destruct Hs as [E1 E2 E3 E4 E5 E6]. unfold rebuild, rebuildSnapshot, drawable_width in *.
  cbn [clip_rect curves cpu_marker memory_marker cpu_geometry memory_geometry with_nodes m_nodes new_root new_marker] in *.
  by rewrite <- E1, <- E2, <- E3, <- E4, <- E5, <- E6.
Qed.

Lemma seen_current c root : current c root -> hidden c = false ->
  seen (place_scene c root) = seen (place_scene c (rebuild c new_root)).
Proof.
  intros [_ Hc] Hf. destruct (Hc Hf) as (E1 & E2 & E3 & E4 & E5 & E6). set (fresh := rebuild c new_root) in *.
  unfold seen, place_scene. cbn [curves clip_rect curves_matrix cpu_marker memory_marker].
  rewrite E1, E2, E5, E6.
  assert (Hm : forall g lx w m m', m_nodes m = m_nodes m' ->
    seen_marker (positionMarker g lx w m) = seen_marker (positionMarker g lx w m')).
  { intros g lx w m m' Em. unfold positionMarker, seen_marker. by destruct (curveIntersection g lx); cbn [m_nodes m_opacity m_matrix];
      rewrite Em; destruct (m_nodes m'). }
  by rewrite (Hm _ _ _ _ _ E3), (Hm _ _ _ _ _ E4).
Qed.

Lemma marker_nodes g lx w m : m_nodes (positionMarker g lx w m) = m_nodes m.
Proof. unfold positionMarker. by destruct (curveIntersection _ _). Qed.

Lemma place_current c root : hidden c = false -> current c root -> current c (place_scene c root).
Proof.
  intros Eh [_ Hc]. destruct (Hc Eh) as (E1 & E2 & E3 & E4 & E5 & E6).
  split; [by rewrite Eh|]. intros _. unfold place_scene. cbn [curves clip_rect cpu_marker memory_marker cpu_geometry memory_geometry].
  rewrite !marker_nodes. exact (conj E1 (conj E2 (conj E3 (conj E4 (conj E5 E6))))).
Qed.

Lemma rebuild_current c root : hidden c = false -> current c (rebuild c root).
Proof. intros Eh. split; [by rewrite Eh|]. intros _. repeat split. Qed.

Lemma paint_current c old :
  (root_revision (default new_root old) = revision c -> current c (default new_root old)) ->
  current c (updatePaintNode c old).
Proof.
  intros Hc. unfold updatePaintNode. cbv zeta. destruct (hidden c) eqn:Eh; [split; [done|by rewrite Eh]|].
  apply place_current; [done|]. destruct (root_revision (default new_root old) =? revision c) eqn:E.
  - apply Hc. by apply Z.eqb_eq.
  - by apply rebuild_current.
Qed.

Lemma paint_root_revision c old : root_revision (updatePaintNode c old) = revision c.
Proof.
  unfold updatePaintNode. cbv zeta. destruct (hidden c); [done|]. cbn [place_scene root_revision].
  destruct (root_revision (default new_root old) =? revision c) eqn:E; [by apply Z.eqb_eq in E|done].
Qed.

(** *** In every run *)

(** The revisions count up, and a root of the present revision is current. *)
Record chart_ok (n : Z) (st : Chart * option SceneRoot) : Prop := {
  ck_revision : 0 <= root_revision (default new_root st.2) <= revision st.1 /\ revision st.1 <= n;
  ck_current : root_revision (default new_root st.2) = revision st.1 -> current st.1 (default new_root st.2) }.

Lemma chart_step_ok n st e : n < uint64_max -> chart_ok n st -> chart_ok (n + 1) (chart_step st e).
Proof.
  intros Hn [Hr Hc]. assert (e = Painted \/ chart_step st e = (on_chart e st.1, st.2)) as [->|Es] by (destruct e; auto).
  - split; cbn [chart_step fst snd]; change (default new_root (Some (updatePaintNode st.1 st.2))) with (updatePaintNode st.1 st.2);
      rewrite paint_root_revision; [lia|]. intros _.
    by apply paint_current.
  - rewrite Es. cbn [fst snd].
    destruct (on_chart_revision e st.1) as [E|[E Hs]].
    + rewrite u64_id in E by lia. split; cbn [fst snd]; rewrite E; [lia|]. intros Hx. lia.
    + split; cbn [fst snd]; rewrite E; [lia|]. intros Hx. eapply current_same; [exact Hs|]. by apply Hc.
Qed.

Lemma chart_run_ok es : Z.of_nat (length es) <= uint64_max -> chart_ok (Z.of_nat (length es)) (chart_run es).
Proof.
  unfold chart_run. induction es as [|e es IH] using rev_ind; intros Hl.
  - split; [done|]. intros _. by split.
  - rewrite length_app in *. cbn [length] in *. rewrite fold_left_app. cbn [fold_left].
    replace (Z.of_nat (length es + 1)) with (Z.of_nat (length es) + 1) by lia. apply chart_step_ok; [lia|]. apply IH. lia.
Qed.
End paint.

(** ** Vertex memory *)

(** Writes to the indices from [0] on, one each, fill the memory. *)
Lemma written_fills ws : map fst ws = seq 0 (length ws) -> written (length ws) ws = map (fun w => Some w.2) ws.
Proof.
  unfold written. intros Hi. cut (forall pre, map fst ws = seq (length pre) (length ws) ->
    fold_left write ws (pre ++ replicate (length ws) None) = pre ++ map (fun w => Some w.2) ws).
  { intros Hcut. by apply (Hcut []). }
  clear Hi. induction ws as [|[i v] ws IH]; intros pre Hi; cbn [fold_left length replicate map]; [by rewrite app_nil_r|].
  cbn [map length seq fst] in Hi. injection Hi as Hi Hr. subst i. unfold write at 2. cbn [fst snd].
  rewrite <- (Nat.add_0_r (length pre)) at 1. rewrite insert_app_r. cbn [insert list_insert].
  change (Some v :: replicate (length ws) None) with ([Some v] ++ replicate (length ws) None).
  rewrite app_assoc, IH; [by rewrite <- app_assoc|]. rewrite length_app. cbn [length]. by rewrite Nat.add_1_r.
Qed.

(** Colours multiplied by their alpha, in bytes. *)
Definition vertex_ok (v : Vertex) : Prop :=
  0 <= v_r v <= v_a v /\ 0 <= v_g v <= v_a v /\ 0 <= v_b v <= v_a v /\ v_a v <= 255.

Definition color_ok (c : QColor) : Prop :=
  0 <= c_alpha c <= 65535 /\ 0 <= c_red c <= 65535 /\ 0 <= c_green c <= 65535 /\ 0 <= c_blue c <= 65535.

(** A node a renderer can draw: every vertex is written, whole triangles only. *)
Definition node_ok (n : GeometryNode) : Prop :=
  exists vs, vertices n = map Some vs /\ Forall vertex_ok vs /\
    match mode n with DrawTriangles => (length vs mod 3 = 0)%nat | DrawTriangleStrip => (length vs mod 2 = 0)%nat end.

Lemma channel_range c : 0 <= c <= 65535 -> 0 <= channel c <= 255.
Proof. intros Hc. unfold channel. rewrite Z.shiftr_div_pow2 by lia. change (2 ^ 8) with 256.
  pose proof (Z.div_pos c 256). pose proof (Z.div_lt_upper_bound c 256 256). lia. Qed.

Lemma premultiply_range a c : 0 <= a <= 255 -> 0 <= c <= 255 -> 0 <= premultiply a c <= a.
Proof.
  intros Ha Hc. unfold premultiply, u8. assert (c * a / 255 <= a) by (apply Z.div_le_upper_bound; nia).
  assert (0 <= c * a / 255) by (apply Z.div_pos; nia). rewrite Z.mod_small by lia. lia.
Qed.

Lemma u8_range z : 0 <= u8 z <= 255.
Proof. unfold u8. pose proof (Z.mod_pos_bound z 256). lia. Qed.

Lemma vertex_is_ok vx vy color a : color_ok color -> 0 <= a <= 255 -> vertex_ok (vertex vx vy color a).
Proof.
  intros (_ & Hr & Hg & Hb) Ha. unfold vertex_ok, vertex. cbn [v_r v_g v_b v_a].
  pose proof (premultiply_range a _ Ha (channel_range _ Hr)). pose proof (premultiply_range a _ Ha (channel_range _ Hg)).
  pose proof (premultiply_range a _ Ha (channel_range _ Hb)). lia.
Qed.

Lemma node_filled m ws vs : map fst ws = seq 0 (length ws) -> map snd ws = vs -> Forall vertex_ok vs ->
  match m with DrawTriangles => (length vs mod 3 = 0)%nat | DrawTriangleStrip => (length vs mod 2 = 0)%nat end ->
  node_ok {| mode := m; vertices := written (length ws) ws |}.
Proof.
  intros Hi <- Hv Hm. exists (map snd ws). split; [|done]. cbn [vertices]. rewrite written_fills by done. by rewrite map_map.
Qed.

Section vertices.
Context `{MathLibrary} `{CircleLibrary}.

Lemma concat_length {A} n (ls : list (list A)) : Forall (fun l => length l = n) ls -> length (concat ls) = (length ls * n)%nat.
Proof. induction 1 as [|l ls Hl _ IH]; [done|]. cbn [concat length]. rewrite length_app. lia. Qed.

Lemma ribbon_length points w opacity : (length (buildFeatheredRibbon points w opacity) mod 3 = 0)%nat.
Proof.
  unfold buildFeatheredRibbon. case_if; [done|]. cbv zeta. unfold pairwise. rewrite (concat_length 12).
  - replace 12%nat with (4 * 3)%nat by done. rewrite Nat.mul_assoc. apply Nat.Div0.mod_mul.
  - apply Forall_forall. intros l Hl. apply elem_of_lookup_zip_with in Hl as (i & a & b & -> & _). done.
Qed.

Lemma imap_index {A B} (f : A -> B) l : let ws := imap (fun i a => (i, f a)) l in
  length ws = length l /\ map fst ws = seq 0 (length l) /\ map snd ws = map f l.
Proof.
  cbv zeta. split; [apply length_imap|]. change (map (A := nat * B)) with (@fmap list _ (nat * B)). rewrite !fmap_imap. split.
  - transitivity (imap (fun j (_ : A) => j) l); [by apply imap_ext|]. rewrite imap_seq_0. apply list_fmap_id.
  - rewrite <- imap_const. by apply imap_ext.
Qed.

Lemma line_ok points color w opacity : color_ok color -> node_ok (lineNode points color w opacity).
Proof.
  intros Hc. unfold lineNode. cbv zeta. set (ribbon := ribbon_of points w opacity).
  destruct (imap_index (line_vertex color) ribbon) as (El & Ei & Ev). fold (line_writes ribbon color) in El, Ei, Ev.
  rewrite <- El. apply (node_filled _ _ (map (line_vertex color) ribbon)); [by rewrite El|done| |].
  - apply Forall_map, Forall_forall. intros v _. unfold line_vertex. apply vertex_is_ok; [done|]. apply u8_range.
  - rewrite length_map. apply ribbon_length.
Qed.

(** The area below a curve: two vertices a point. *)
Definition area_pair (color : QColor) (baseline : float) (p : Point) : list Vertex :=
  [vertex (x p) (y p) color kCurveAlpha; {| v_x := x p; v_y := baseline; v_r := 0; v_g := 0; v_b := 0; v_a := 0 |}].

Lemma area_writes_from k points color baseline :
  let ws := concat (imap (fun index point =>
    [(((k + index) * 2)%nat, vertex (x point) (y point) color kCurveAlpha);
     (((k + index) * 2 + 1)%nat, {| v_x := x point; v_y := baseline; v_r := 0; v_g := 0; v_b := 0; v_a := 0 |})]) points) in
  map fst ws = seq (k * 2) (length points * 2) /\ map snd ws = concat (map (area_pair color baseline) points).
Proof.
  cbv zeta. revert k. induction points as [|p points IH]; intros k; [done|].
  destruct (IH (S k)) as [E1 E2]. cbn [imap concat map length app fst snd]. rewrite Nat.add_0_r.
  rewrite (imap_ext _ (fun index point =>
    [(((S k + index) * 2)%nat, vertex (x point) (y point) color kCurveAlpha);
     (((S k + index) * 2 + 1)%nat, {| v_x := x point; v_y := baseline; v_r := 0; v_g := 0; v_b := 0; v_a := 0 |})])).
  - split; [|by rewrite E2]. rewrite E1. cbn [Nat.mul seq]. rewrite Nat.add_1_r. reflexivity.
  - intros i v _. cbn. repeat f_equal; lia.
Qed.

Lemma area_ok points color baseline : color_ok color -> node_ok (areaNode points color baseline).
Proof.
  intros Hc. unfold areaNode. pose proof (area_writes_from 0 points color baseline) as [Ei Ev].
  change (map fst (area_writes points color baseline) = seq 0 (length points * 2)) in Ei.
  assert (El : length (area_writes points color baseline) = (length points * 2)%nat).
  { by rewrite <- (length_map fst), Ei, length_seq. }
  rewrite <- El. eapply node_filled; [by rewrite El|exact Ev| |].
  - apply Forall_concat, Forall_map, Forall_forall. intros p _. constructor; [by apply vertex_is_ok|]. by repeat constructor.
  - rewrite (concat_length 2) by (apply Forall_map, Forall_forall; done). rewrite length_map. apply Nat.Div0.mod_mul.
Qed.

Lemma ring_section_length color background section : length (ring_section color background section) = 21%nat.
Proof. done. Qed.

Lemma ring_writes_from color background k n :
  let ws := concat (map (fun section => let vs := ring_section color background section in
                           zip (seq (section * kVerticesPerSection) (length vs)) vs) (seq k n)) in
  map fst ws = seq (k * 21) (n * 21) /\ map snd ws = concat (map (ring_section color background) (seq k n)).
Proof.
  cbv zeta. revert k. induction n as [|n IH]; intros k; [done|]. destruct (IH (S k)) as [E1 E2].
  cbn [seq map concat]. rewrite !map_app, E1, E2. split.
  - change (map fst (zip ?a ?b)) with (fst <$> zip a b). rewrite fst_zip by (rewrite length_seq; done).
    rewrite ring_section_length. unfold kVerticesPerSection. cbn [Nat.mul]. by rewrite (seq_app 21 (n * 21)), (Nat.add_comm 21).
  - by f_equal.
Qed.

Lemma setAlpha_ok color : color_ok color -> color_ok (setAlpha 0 color).
Proof. intros (_ & Hr & Hg & Hb). split; [cbn; lia|done]. Qed.

Lemma ring_ok color background : color_ok color -> color_ok background -> node_ok (ringNode color background).
Proof.
  intros Hc Hb. unfold ringNode. pose proof (ring_writes_from color background 0 kSections) as [Ei Ev].
  change (map fst (ring_writes color background) = seq 0 (kSections * kVerticesPerSection)) in Ei.
  assert (El : length (ring_writes color background) = (kSections * kVerticesPerSection)%nat).
  { by rewrite <- (length_map fst), Ei, length_seq. }
  rewrite <- El. eapply node_filled; [by rewrite El|exact Ev| |].
  - apply Forall_concat, Forall_map, Forall_forall. intros section _. pose proof (setAlpha_ok color Hc).
    unfold ring_section, band, ring_vertex. cbv zeta. cbn [app].
    repeat (apply Forall_cons; split; [apply vertex_is_ok; [assumption|apply u8_range]|]). apply Forall_nil_2.
  - by rewrite (concat_length 21) by (apply Forall_map, Forall_forall; done).
Qed.
End vertices.

(** ** In every run *)

Section runs.
Context `{SeriesLibrary} `{MathLibrary} `{CircleLibrary}.

Definition nodes_of (root : SceneRoot) : list GeometryNode :=
  curves root ++ m_nodes (cpu_marker root) ++ m_nodes (memory_marker root).

Definition event_ok (e : chart_event) : Prop :=
  match e with
  | CpuColorSet color | MemoryColorSet color | PlotBackgroundColorSet color => color_ok color
  | _ => True
  end.

Definition colors_ok (c : Chart) : Prop :=
  color_ok (cpu_color_ c) /\ color_ok (memory_color_ c) /\ color_ok (plot_background_color_ c).

Lemma on_chart_colors e c : event_ok e -> colors_ok c -> colors_ok (on_chart e c).
Proof.
  intros He Hc. destruct e; cbn [on_chart]; try done; unfold set_width, set_height, setCpuColor, setMemoryColor, setPlotBackgroundColor;
    try (case_bool_decide); try case_if; try done; cbn; destruct Hc as (H1' & H2' & H3'); by split; [|split].
Qed.

Lemma run_nodes_ok make g : (forall points, node_ok (make points)) -> Forall node_ok (run_nodes make g).
Proof. intros Hm. unfold run_nodes. apply Forall_map, Forall_forall. intros run _. apply Hm. Qed.

Lemma rebuild_nodes c root : colors_ok c -> Forall node_ok (nodes_of (rebuild c root)).
Proof.
  intros (Hcpu & Hmem & Hbg). unfold rebuild, rebuildSnapshot, nodes_of.
  cbn [curves cpu_marker memory_marker m_nodes with_nodes]. apply Forall_app. split.
  - unfold curve_nodes. repeat apply Forall_app_2; apply run_nodes_ok; intros points; by (apply area_ok || apply line_ok).
  - unfold joinNode. apply Forall_app. split; (constructor; [by apply line_ok|]); (constructor; [by apply ring_ok|]); constructor.
Qed.

Lemma place_nodes c root : nodes_of (place_scene c root) = nodes_of root.
Proof. unfold nodes_of, place_scene. cbn [curves cpu_marker memory_marker]. by rewrite !marker_nodes. Qed.

Lemma paint_nodes c old : colors_ok c -> Forall node_ok (nodes_of (default new_root old)) ->
  Forall node_ok (nodes_of (updatePaintNode c old)).
Proof.
  intros Hc Ho. unfold updatePaintNode. cbv zeta. destruct (hidden c); [constructor|]. rewrite place_nodes.
  destruct (root_revision (default new_root old) =? _); [done|by apply rebuild_nodes].
Qed.

Lemma chart_run_nodes es : Forall event_ok es ->
  colors_ok (chart_run es).1 /\ Forall node_ok (nodes_of (default new_root (chart_run es).2)).
Proof.
  unfold chart_run. induction es as [|e es IH] using rev_ind; intros He; [by repeat split; try constructor|].
  apply Forall_app in He as [He Hl]. apply Forall_cons in Hl as [Hl _]. destruct (IH He) as [IH1 IH2]. clear IH.
  rewrite fold_left_app. cbn [fold_left]. destruct (fold_left chart_step es _) as [c scene]. cbn [fst snd] in *.
  assert (e = Painted \/ chart_step (c, scene) e = (on_chart e c, scene)) as [->|Es] by (destruct e; auto).
  - split; [done|]. by apply paint_nodes.
  - rewrite Es. split; [by apply on_chart_colors|done].
Qed.

(** C36. Painting keeps nothing stale.  Whatever a chart was told, in any order, of its
    model, its animation, its size and its colours, and however often it was painted in
    between, a paint shows what building everything anew would show: nothing when there is
    no sample or no area, and otherwise the curves of the present samples in the present
    colours, clipped and shifted to the window, with each marker where its curve meets the
    right edge.  And every node can be drawn: its vertex memory is written completely and
    once, in whole triangles, with colours multiplied by their alpha in bytes. *)
Theorem chart_paints_current es (Hes : Z.of_nat (length es) <= uint64_max) (Hcolors : Forall event_ok es) :
  let '(c, scene) := chart_run es in
  seen (updatePaintNode c scene) = from_scratch c /\ Forall node_ok (nodes_of (updatePaintNode c scene)).
Proof.
  pose proof (chart_run_ok es Hes) as [[Hr _] Hc]. pose proof (chart_run_nodes es Hcolors) as [Hk Hn].
  destruct (chart_run es) as [c scene]. cbn [fst snd] in *. split; [|by apply paint_nodes].
  unfold from_scratch, updatePaintNode. cbv zeta. destruct (hidden c) eqn:Eh; [done|].
  destruct (root_revision (default new_root scene) =? geometry_revision_ (series c)) eqn:E.
  - apply Z.eqb_eq in E. apply seen_current; [by apply Hc|done].
  - apply seen_current; [by apply rebuild_current|done].
Qed.
End runs.

(** *** A chart painted, told of a sample and of a colour, and painted again *)

Definition one_half : double := S754_finite false 4503599627370496 (-53).

#[local] Instance sample_series : SeriesLibrary.
Proof.
  refine {| variant_to_double := fun v => match v with OfDouble d => d | _ => d0 end;
            variant_to_longlong := fun v => match v with OfInteger z => z | _ => 0 end |}; done.
Defined.
#[local] Instance sample_math : MathLibrary := {| std_exp := fun _ => one_half; std_hypot := fun a b => dadd (dabs a) (dabs b) |}.
#[local] Instance sample_circle : CircleLibrary := {| cosf := fun _ => float_of_Z 1; sinf := fun _ => float_of_Z 0 |}.

Definition sample_at (ms : Z) (cpu : double) : Sample :=
  {| elapsed_milliseconds := ms; cpu_usage_ratio := Some cpu; memory_usage_ratio := Some one_half |}.

Definition painted_events : list chart_event :=
  [WidthSet (double_of_Z 90); HeightSet (double_of_Z 40); ModelSet (Some (history_model [sample_at 1000 one_half; sample_at 2000 d1]));
   Painted; ModelChanged (history_model [sample_at 1000 one_half; sample_at 2000 d1; sample_at 3000 one_half]); AnimationValue one_half;
   Painted; CpuColorSet (rgb 255 0 0); AnimationFinished; Painted; WidthSet (double_of_Z 120)].

Lemma chart_paints_current_witness :
  let '(c, scene) := chart_run painted_events in
  (seen (updatePaintNode c scene) = from_scratch c /\ Forall node_ok (nodes_of (updatePaintNode c scene))) /\
  length (curves (updatePaintNode c scene)) = 8%nat /\ root_revision (default new_root scene) <> geometry_revision_ (series c).
Proof.
  pose proof (chart_paints_current painted_events ltac:(by_decision)) as H.
  assert (Hn : let '(c, scene) := chart_run painted_events in length (curves (updatePaintNode c scene)) = 8%nat /\
    root_revision (default new_root scene) <> geometry_revision_ (series c)) by (vm_compute; split; [reflexivity|discriminate]).
  destruct (chart_run painted_events) as [c scene]. split; [|exact Hn]. apply H.
  repeat (apply Forall_cons; split; [first [exact I|vm_compute; repeat split; discriminate]|]). apply Forall_nil_2.
Defined.
