(* ===== verification/Screensaver.v ===== *)
(** * The screensaver (src/dashboard/screensaver_controller.cpp)

    [ScreensaverController] as a state with its single-shot timer: the time at which it
    will fire, when it runs.  Times are milliseconds of one monotonic clock. *)

From S2P Require Import Prelude.

(** The [QEvent::Type] values the filter tells apart. *)
Inductive event_type :=
| KeyPress | KeyRelease | MouseButtonPress | MouseButtonRelease | MouseButtonDblClick | MouseMove | Wheel
| TouchBegin | TouchUpdate | TouchEnd | TouchCancel | OtherEvent.

#[export] Instance event_type_eq_dec : EqDecision event_type. Proof. solve_decision. Defined.

Record ScreensaverController := {
  timer : option Z;               (* when timer_ fires, if it runs *)
  active : bool;
  enabled : bool;
  consumingTouchSequence : bool }.

Definition isActivityEvent (type : event_type) : bool :=
  match type with
  | KeyPress | KeyRelease | MouseButtonPress | MouseButtonRelease | MouseButtonDblClick | MouseMove | Wheel
  | TouchBegin | TouchUpdate | TouchEnd | TouchCancel => true
  | OtherEvent => false
  end.

Definition isTouchEvent (type : event_type) : bool :=
  bool_decide (type = TouchBegin) || bool_decide (type = TouchUpdate) || bool_decide (type = TouchEnd)
  || bool_decide (type = TouchCancel).

Section controller.
(** The configured [timeout], in milliseconds. *)
Context (timeout : Z).

(** The constructor at time [now]. *)
Definition initialize (now : Z) : ScreensaverController :=
  if negb (0 <? timeout)
  then {| timer := None; active := false; enabled := false; consumingTouchSequence := false |}
  else {| timer := Some (now + timeout); active := false; enabled := true; consumingTouchSequence := false |}.

Definition start_timer (now : Z) (s : ScreensaverController) : ScreensaverController :=
  {| timer := Some (now + timeout); active := active s; enabled := enabled s;
     consumingTouchSequence := consumingTouchSequence s |}.

Definition set_consuming (b : bool) (s : ScreensaverController) : ScreensaverController :=
  {| timer := timer s; active := active s; enabled := enabled s; consumingTouchSequence := b |}.

(** [setActive]; the second component: [activeChanged] was emitted. *)
Definition setActive (value : bool) (s : ScreensaverController) : ScreensaverController * bool :=
  if Bool.eqb (active s) value then (s, false)
  else ({| timer := if value then None else timer s; active := value; enabled := enabled s;
           consumingTouchSequence := consumingTouchSequence s |}, true).

(** [eventFilter] at time [now]: is the event swallowed, the new state, was [activeChanged] emitted. *)
Definition eventFilter (now : Z) (type : event_type) (s : ScreensaverController)
  : bool * ScreensaverController * bool :=
  if negb (enabled s) || negb (isActivityEvent type) then (false, s, false)
  else if consumingTouchSequence s && isTouchEvent type then
    (true,
     (if bool_decide (type = TouchEnd) || bool_decide (type = TouchCancel) then set_consuming false s else s),
     false)
  else if active s then
    let '(s', changed) := setActive false (set_consuming (bool_decide (type = TouchBegin)) s) in
    (true, start_timer now s', changed)
  else (false, start_timer now s, false).

(** The slot connected to [timeout]: a single-shot timer has stopped when it fires. *)
Definition timer_fires (s : ScreensaverController) : ScreensaverController * bool :=
  setActive true {| timer := None; active := active s; enabled := enabled s;
                    consumingTouchSequence := consumingTouchSequence s |}.

(** ** Runs: events and expiries in the order of time *)

(** What happens at a time: an event reaches the application, or the timer fires. *)
Inductive input := Event (type : event_type) | Expiry.

(** One step from time [t] to time [t']; the answer of the filter, for an event. *)
Inductive step : Z * ScreensaverController -> input * option bool -> Z * ScreensaverController -> Prop :=
| step_event t t' s type swallowed s' changed :
    t <= t' -> (forall d, timer s = Some d -> t' < d) ->
    eventFilter t' type s = (swallowed, s', changed) ->
    step (t, s) (Event type, Some swallowed) (t', s')
| step_expiry t d s s' changed :
    timer s = Some d -> timer_fires s = (s', changed) -> step (t, s) (Expiry, None) (d, s').

Inductive run : Z * ScreensaverController -> list (input * option bool) -> Z * ScreensaverController -> Prop :=
| run_nil c : run c [] c
| run_snoc c es c' e c'' : run c es c' -> step c' e c'' -> run c (es ++ [e]) c''.

(** ** The invariant *)

(** Active means the timer rests; inactive means it will fire within the timeout. *)
Definition controller_ok (c : Z * ScreensaverController) : Prop :=
  let '(t, s) := c in
  if enabled s
  then 0 < timeout /\
       (if active s then timer s = None else exists d, timer s = Some d /\ t <= d <= t + timeout)
  else timeout <= 0 /\ s = {| timer := None; active := false; enabled := false; consumingTouchSequence := false |}.

Lemma screensaver_initialize_ok now : controller_ok (now, initialize now).
Proof.
  unfold initialize. destruct (0 <? timeout) eqn:E; bool_facts; cbn.
  - split; [done|]. exists (now + timeout). split; [done|lia].
  - split; [lia|done].
Qed.

Lemma screensaver_step_ok c e c' : controller_ok c -> step c e c' -> controller_ok c'.
Proof.
  intros Hok Hs. destruct Hs as [t t' s type swallowed s' changed Ht Hd Hf|t d s s' changed Hd Hf].
  - unfold eventFilter in Hf. unfold controller_ok in *. destruct s as [tm a en co]; cbn in *.
    destruct en; cbn in *; [|by injection Hf as <- <- <-].
    destruct (isActivityEvent type); cbn in Hf.
    2: { injection Hf as <- <- <-. cbn. destruct a; [done|].
         destruct Hok as (H0 & d & -> & H). specialize (Hd d eq_refl). split; [done|]. exists d. split; [done|lia]. }
    destruct (co && isTouchEvent type); cbn in Hf.
    { injection Hf as <- <- <-. destruct (_ || _) in |- *; cbn;
        (destruct a; [done|]; destruct Hok as (H0 & d & -> & H); specialize (Hd d eq_refl); split; [done|];
         exists d; split; [done|lia]). }
    destruct a; cbn in Hf; injection Hf as <- <- <-; cbn; (split; [apply Hok|]);
      exists (t' + timeout); (split; [done|lia]).
  - unfold controller_ok in *. destruct s as [tm a en co]; cbn in *. subst tm. destruct en.
    + destruct a; [by destruct Hok|]. cbn in Hf. injection Hf as <- <-. cbn. split; [apply Hok|done].
    + by destruct Hok.
Qed.

Lemma screensaver_run_ok c es c' : controller_ok c -> run c es c' -> controller_ok c'.
Proof. intros Hok. induction 1 as [|c es c' e c'' _ IH Hs]; [done|]. eapply screensaver_step_ok; [by apply IH|done]. Qed.

(** ** The touch that wakes *)

Definition ends_touch (type : event_type) : bool :=
  bool_decide (type = TouchEnd) || bool_decide (type = TouchCancel).

(** No expiry, and no event that ends a touch sequence. *)
Definition touch_goes_on (e : input * option bool) : Prop :=
  match e.1 with Event type => ends_touch type = false | Expiry => False end.

(** The touch events among the inputs are swallowed and the others reach the application. *)
Definition touch_swallowed (e : input * option bool) : Prop :=
  match e.1 with Event type => e.2 = Some (isTouchEvent type) | Expiry => True end.

Definition consuming (s : ScreensaverController) : Prop :=
  enabled s = true /\ active s = false /\ consumingTouchSequence s = true.

Lemma touch_is_activity type : isTouchEvent type = true -> isActivityEvent type = true.
Proof. by destruct type. Qed.

Lemma step_consuming c e c' : consuming c.2 -> touch_goes_on e -> step c e c' -> consuming c'.2 /\ touch_swallowed e.
Proof.
  intros (He & Ha & Hc) Hgo Hs. destruct Hs as [t t' s type sw s' changed Ht Hd Hf|]; [|done].
  unfold touch_goes_on, ends_touch, touch_swallowed in *. cbn [fst snd] in *. unfold eventFilter in Hf.
  rewrite He, Ha, Hc in Hf. cbn [negb orb andb] in Hf.
  destruct (isActivityEvent type) eqn:Eact; cbn [negb] in Hf.
  - destruct (isTouchEvent type) eqn:Et.
    + rewrite Hgo in Hf. injection Hf as <- <- <-. done.
    + injection Hf as <- <- <-. done.
  - destruct (isTouchEvent type) eqn:Et; [by apply touch_is_activity in Et; congruence|].
    injection Hf as <- <- <-. done.
Qed.

Lemma run_consuming c es c' :
  consuming c.2 -> run c es c' -> Forall touch_goes_on es -> consuming c'.2 /\ Forall touch_swallowed es.
Proof.
  intros Hc. induction 1 as [|c es c' e c'' _ IH Hs]; [done|]. intros [H1 H2]%Forall_app.
  apply Forall_cons in H2 as [H2 _]. destruct (IH Hc H1) as [Hc' Hes]. destruct (step_consuming _ _ _ Hc' H2 Hs).
  split; [done|]. apply Forall_app. split; [done|]. by constructor.
Qed.
End controller.

(** ** Properties *)

(** C24. The timer and the screen agree at every moment of every run.  With a positive
    timeout the screensaver is active exactly when the timer rests; while it is not
    active the timer is due within the timeout and its expiry activates it; outside a
    touch sequence that is being swallowed every activity leaves it inactive, restarts
    the full timeout, and is swallowed (with a notification) exactly when it woke the
    screen.  With a timeout of zero or less it is never active and swallows nothing. *)
Theorem screensaver_timing timeout start es t s
  (Hrun : run timeout (start, initialize timeout start) es (t, s)) :
  (0 < timeout ->
    (active s = true <-> timer s = None) /\
    (active s = false -> exists d s', t <= d <= t + timeout /\ timer s = Some d /\
       step timeout (t, s) (Expiry, None) (d, s') /\ active s' = true) /\
    (forall now type, isActivityEvent type = true -> consumingTouchSequence s && isTouchEvent type = false ->
       exists s', eventFilter timeout now type s = (active s, s', active s) /\
                  active s' = false /\ timer s' = Some (now + timeout))) /\
  (timeout <= 0 -> active s = false /\ forall now type, eventFilter timeout now type s = (false, s, false)).
Proof.
  pose proof (screensaver_run_ok _ _ _ _ (screensaver_initialize_ok timeout start) Hrun) as Hok. unfold controller_ok in Hok.
  destruct s as [tm a en co]. cbn in Hok. destruct en.
  - destruct Hok as [H0 Hok]. split; [intros _|lia]. cbn. split; [|split].
    + destruct a; [done|]. destruct Hok as (d & -> & _). done.
    + intros ->. destruct Hok as (d & -> & Hd). eexists d, _. split; [done|]. split; [done|].
      split; [by eapply step_expiry|done].
    + intros now type Ht Hc. unfold eventFilter. cbn. rewrite Ht, Hc. cbn. by destruct a; eexists.
  - destruct Hok as [H0 [= -> -> ->]]. split; [lia|]. intros _. split; done.
Qed.

(** A touch that wakes the screen is swallowed as a whole: from its [TouchBegin] to
    the event that ends it no touch event reaches the application, events of other
    kinds do, and after the end touches are delivered again. *)
Theorem touch_wake_swallowed timeout c sw c1 es c2 t3 type
  (Hen : enabled c.2 = true) (Hact : active c.2 = true) (Hnone : consumingTouchSequence c.2 = false)
  (Hbegin : step timeout c (Event TouchBegin, Some sw) c1)
  (Hrun : run timeout c1 es c2) (Hgo : Forall touch_goes_on es) (Hend : ends_touch type = true) :
  sw = true /\ Forall touch_swallowed es /\
  exists s3, eventFilter timeout t3 type c2.2 = (true, s3, false) /\ active s3 = false /\
    forall t4 type', exists s4, eventFilter timeout t4 type' s3 = (false, s4, false).
Proof.
  inversion Hbegin as [t t' s ? ? s' changed Ht Hd Hf|]; subst. cbn in *.
  unfold eventFilter, setActive in Hf. cbn in Hf. rewrite Hen, Hact, Hnone in Hf. cbn in Hf.
  injection Hf as <- <- <-.
  edestruct run_consuming as ((He & Ha & Hc) & Hes); [|exact Hrun|exact Hgo|]; [done|].
  split; [done|]. split; [done|]. unfold eventFilter. rewrite He, Hc.
  unfold ends_touch in Hend. assert (Ht3 : isTouchEvent type = true /\ isActivityEvent type = true).
  { destruct type; done. }
  rewrite (proj1 Ht3), (proj2 Ht3), Hend. cbn. eexists. split; [done|]. split; [done|].
  intros t4 type'. unfold eventFilter. cbn. rewrite He, Ha. cbn. destruct (isActivityEvent type'); cbn; by eexists.
Qed.

(** A night with a ten-second timeout: expiry, then a touch that wakes. *)
Definition sample_active : ScreensaverController :=
  {| timer := None; active := true; enabled := true; consumingTouchSequence := false |}.

Lemma screensaver_timing_witness :
  exists t s, run 10000 (0, initialize 10000 0) [(Expiry, None); (Event KeyPress, Some true)] (t, s) /\
  (active s = true <-> timer s = None).
Proof.
  eexists _, _. split.
  - eapply (run_snoc _ _ [(Expiry, None)]).
    + eapply (run_snoc _ _ []); [constructor|]. by eapply step_expiry.
    + eapply (step_event _ 10000 12000); [lia|done|reflexivity].
  - refine (proj1 (proj1 (screensaver_timing 10000 0 [(Expiry, None); (Event KeyPress, Some true)] 12000 _ _) _)); [|lia].
    eapply (run_snoc _ _ [(Expiry, None)]).
    + eapply (run_snoc _ _ []); [constructor|]. by eapply step_expiry.
    + eapply (step_event _ 10000 12000); [lia|done|reflexivity].
Defined.

Lemma touch_wake_swallowed_witness :
  exists s3, eventFilter 10000 30 TouchEnd
    {| timer := Some 10010; active := false; enabled := true; consumingTouchSequence := true |} = (true, s3, false).
Proof.
  destruct (touch_wake_swallowed 10000 (0, sample_active) true
    (10, {| timer := Some 10010; active := false; enabled := true; consumingTouchSequence := true |})
    ([] ++ [(Event TouchUpdate, Some true)])
    (20, {| timer := Some 10010; active := false; enabled := true; consumingTouchSequence := true |}) 30 TouchEnd)
    as (_ & _ & s3 & H & _).
  - reflexivity.
  - reflexivity.
  - reflexivity.
  - eapply step_event; [lia|done|reflexivity].
  - eapply run_snoc; [constructor|]. eapply step_event; [lia| |reflexivity]. intros d [= <-]. lia.
  - repeat constructor.
  - reflexivity.
  - exists s3. exact H.
Defined.
