(* ===== verification/MetricsService.v ===== *)
(** * The local metrics service (src/sysmetrics/sys_metrics_service.cpp)

    [SysMetricsService]: a collection runs off the GUI thread, at most one at a time;
    requests made meanwhile are coalesced into one.  The event loop is explicit: the
    queued invocations of [refresh] are counted, and the outcome of a collection is the
    argument of [collectionFinished]. *)

From S2P Require Import Prelude.
From S2P Require Import Float64.
From S2P Require Import FloatBounds.
From S2P Require Import Protocol.
From S2P Require Import QtModel.
From S2P Require Import MetricHistory.

Inductive State := Idle | Collecting | Ready | Partial | Error.

#[export] Instance State_eq_dec : EqDecision State. Proof. solve_decision. Defined.

Record SysMetricsCollectionResult := { cr_metrics : SystemMetrics; cr_diagnostics : list string }.

(** How the future ended: an exception with or without a message, or a result. *)
Inductive outcome := Threw (what : option string) | Collected (result : SysMetricsCollectionResult).

Record SysMetricsService := {
  running : bool;                 (* watcher_ has an unfinished future *)
  queued : nat;                   (* queued invocations of refresh *)
  refresh_pending : bool;
  state : State;
  current_metrics : SystemMetrics;
  last_success_utc : option Z;    (* an invalid QDateTime is None *)
  diagnostics : list string;
  usage_history : list Sample }.

Inductive signal := stateChanged | currentMetricsChanged | lastSuccessUtcChanged | diagnosticsChanged.

#[export] Instance signal_eq_dec : EqDecision signal. Proof. solve_decision. Defined.

Definition no_metrics : SystemMetrics :=
  {| m_cpu := {| usage_ratio := None; logical_cpus := []; temperature_celsius := None |};
     m_memory := {| total_bytes := None; available_bytes := None; swap_total_bytes := None;
                    swap_available_bytes := None |};
     m_system := {| uptime_seconds := None; load_average_1m := None; load_average_5m := None;
                    load_average_15m := None |};
     storage_volumes := []; network_interfaces := []; gpus := [] |}.

(** The constructor with a collector: it queues the first refresh. *)
Definition new_service : SysMetricsService :=
  {| running := false; queued := 1; refresh_pending := false; state := Idle; current_metrics := no_metrics;
     last_success_utc := None; diagnostics := []; usage_history := [] |}.

(** The interval of the timer. *)
Definition timer_interval (sampling_interval_ms : Z) : Z := Z.max 1 sampling_interval_ms.

(** An emission: a signal and the service at that moment. *)
Definition emission : Type := signal * SysMetricsService.

(** [setState] *)
Definition setState (new : State) (s : SysMetricsService) : SysMetricsService * list emission :=
  if bool_decide (state s = new) then (s, [])
  else
    let s' := {| running := running s; queued := queued s; refresh_pending := refresh_pending s; state := new;
                 current_metrics := current_metrics s; last_success_utc := last_success_utc s;
                 diagnostics := diagnostics s; usage_history := usage_history s |} in
    (s', [(stateChanged, s')]).

Definition with_flags (r : bool) (q : nat) (p : bool) (s : SysMetricsService) : SysMetricsService :=
  {| running := r; queued := q; refresh_pending := p; state := state s; current_metrics := current_metrics s;
     last_success_utc := last_success_utc s; diagnostics := diagnostics s; usage_history := usage_history s |}.

Definition with_diagnostics (d : list string) (s : SysMetricsService) : SysMetricsService :=
  {| running := running s; queued := queued s; refresh_pending := refresh_pending s; state := state s;
     current_metrics := current_metrics s; last_success_utc := last_success_utc s; diagnostics := d;
     usage_history := usage_history s |}.

Definition with_metrics (m : SystemMetrics) (utc : Z) (s : SysMetricsService) : SysMetricsService :=
  {| running := running s; queued := queued s; refresh_pending := refresh_pending s; state := state s;
     current_metrics := m; last_success_utc := Some utc; diagnostics := diagnostics s;
     usage_history := usage_history s |}.

Definition with_history (h : list Sample) (s : SysMetricsService) : SysMetricsService :=
  {| running := running s; queued := queued s; refresh_pending := refresh_pending s; state := state s;
     current_metrics := current_metrics s; last_success_utc := last_success_utc s;
     diagnostics := diagnostics s; usage_history := h |}.

(** The slot [refresh]; the last component: a collection was started. *)
Definition refresh (s : SysMetricsService) : SysMetricsService * list emission * bool :=
  if bool_decide (state s = Collecting) then (with_flags (running s) (queued s) true s, [], false)
  else
    let '(s1, sig) := setState Collecting s in
    (with_flags true (queued s1) (refresh_pending s1) s1, sig, true).

(** [if (std::exchange(refresh_pending_, false)) invokeMethod(this, "refresh", Qt::QueuedConnection)] *)
Definition release_pending (s : SysMetricsService) : SysMetricsService :=
  if refresh_pending s then with_flags (running s) (S (queued s)) false s else s.

(** The ratio recorded in the history. *)
Definition memory_ratio (m : MetricsMemory) : option double :=
  match total_bytes m, available_bytes m with
  | Some total, Some available =>
      if (0 <? total) && (available <=? total)
      then Some (dsub d1 (ddiv (double_of_Z available) (double_of_Z total))) else None
  | _, _ => None
  end.

Definition failure_text (what : option string) : string :=
  match what with
  | Some w => "System metrics collection failed: " ++ w
  | None => "System metrics collection failed with an unknown error"
  end.

Definition no_values_text : string := "System metrics collection produced no usable values".

(** [collectionFinished], at [elapsed] on the elapsed timer and time [utc]. *)
Definition collectionFinished (o : outcome) (elapsed utc : Z) (s0 : SysMetricsService)
  : SysMetricsService * list emission :=
  let s := with_flags false (queued s0) (refresh_pending s0) s0 in
  match o with
  | Threw what =>
      let s1 := with_diagnostics [failure_text what] s in
      let '(s2, sig) := setState Error s1 in
      (release_pending s2, (diagnosticsChanged, s1) :: sig)
  | Collected result =>
      let sample := {| elapsed_milliseconds := elapsed; cpu_usage_ratio := usage_ratio (m_cpu (cr_metrics result));
                       memory_usage_ratio := memory_ratio (m_memory (cr_metrics result)) |} in
      let s1 := with_history (appendSample sample (usage_history s)).1 s in
      let '(s2, sig2) :=
        if bool_decide (diagnostics s1 = cr_diagnostics result) then (s1, [])
        else let s2 := with_diagnostics (cr_diagnostics result) s1 in (s2, [(diagnosticsChanged, s2)]) in
      let '(s3, sig3) :=
        if negb (metrics_hasAnyValue (cr_metrics result)) then
          let '(s3, sig3) :=
            if bool_decide (diagnostics s2 = [])
            then let s3 := with_diagnostics [no_values_text] s2 in (s3, [(diagnosticsChanged, s3)])
            else (s2, []) in
          let '(s4, sig4) := setState Error s3 in (s4, sig3 ++ sig4)
        else
          let s3 := with_metrics (cr_metrics result) utc s2 in
          let '(s4, sig4) :=
            setState (if metrics_hasAllBaselineFields (cr_metrics result) then Ready else Partial) s3 in
          (s4, [(currentMetricsChanged, s3); (lastSuccessUtcChanged, s3)] ++ sig4) in
      (release_pending s3, sig2 ++ sig3)
  end.

(** ** Properties for QML *)

Definition cpuUsageRatio (s : SysMetricsService) : QVariant := optionalDouble (usage_ratio (m_cpu (current_metrics s))).
Definition cpuTemperatureCelsius (s : SysMetricsService) : QVariant :=
  optionalDouble (temperature_celsius (m_cpu (current_metrics s))).
Definition uptimeSeconds (s : SysMetricsService) : QVariant :=
  optionalDouble (uptime_seconds (m_system (current_metrics s))).

(** The loop of [averageCpuFrequencyHz]: the sum and the count. *)
Fixpoint frequency_sum (cpus : list LogicalCpu) (sum count : Z) : Z * Z :=
  match cpus with
  | [] => (sum, count)
  | cpu :: rest =>
      match lc_frequency_hz cpu with
      | Some f => if uint64_max - sum <? f then frequency_sum rest sum count
                  else frequency_sum rest (u64 (sum + f)) (u64 (count + 1))
      | None => frequency_sum rest sum count
      end
  end.

Definition averageCpuFrequencyHz (s : SysMetricsService) : QVariant :=
  let '(sum, count) := frequency_sum (logical_cpus (m_cpu (current_metrics s))) 0 0 in
  if 0 <? count then OfDouble (ddiv (double_of_Z sum) (double_of_Z count)) else Invalid.

Definition memoryTotalBytes (s : SysMetricsService) : QVariant := optionalInteger (total_bytes (m_memory (current_metrics s))).
Definition memoryAvailableBytes (s : SysMetricsService) : QVariant :=
  optionalInteger (available_bytes (m_memory (current_metrics s))).

(** What is used of a total, if both are known and consistent. *)
Definition used_bytes (total available : option Z) : QVariant :=
  match total, available with
  | Some t, Some a => if t <? a then Invalid else OfInteger (u64 (t - a))
  | _, _ => Invalid
  end.

Definition memoryUsedBytes (s : SysMetricsService) : QVariant :=
  used_bytes (total_bytes (m_memory (current_metrics s))) (available_bytes (m_memory (current_metrics s))).
Definition swapTotalBytes (s : SysMetricsService) : QVariant :=
  optionalInteger (swap_total_bytes (m_memory (current_metrics s))).
Definition swapAvailableBytes (s : SysMetricsService) : QVariant :=
  optionalInteger (swap_available_bytes (m_memory (current_metrics s))).
Definition swapUsedBytes (s : SysMetricsService) : QVariant :=
  used_bytes (swap_total_bytes (m_memory (current_metrics s))) (swap_available_bytes (m_memory (current_metrics s))).

Definition primary_volume (s : SysMetricsService) : option StorageVolume :=
  List.find primary (storage_volumes (current_metrics s)).

Definition primaryStorageTotalBytes (s : SysMetricsService) : QVariant :=
  match primary_volume s with Some v => optionalInteger (sv_total_bytes v) | None => Invalid end.
Definition primaryStorageUsedBytes (s : SysMetricsService) : QVariant :=
  match primary_volume s with Some v => used_bytes (sv_total_bytes v) (sv_available_bytes v) | None => Invalid end.
Definition primaryStorageUsageRatio (s : SysMetricsService) : QVariant :=
  match primary_volume s with
  | Some v =>
      match sv_total_bytes v, sv_available_bytes v with
      | Some t, Some a =>
          if (t =? 0) || (t <? a) then Invalid
          else OfDouble (ddiv (double_of_Z (u64 (t - a))) (double_of_Z t))
      | _, _ => Invalid
      end
  | None => Invalid
  end.

Definition first_gpu {A} (field : Gpu -> option A) (s : SysMetricsService) : option A :=
  gpu ← head (gpus (current_metrics s)); field gpu.

Definition gpuName (s : SysMetricsService) : QVariant :=
  match head (gpus (current_metrics s)) with
  | Some g => if String.eqb (gpu_name g) "" then Invalid else OfText (gpu_name g)
  | None => Invalid
  end.
Definition gpuUsageRatio (s : SysMetricsService) : QVariant := optionalDouble (first_gpu gpu_usage_ratio s).
Definition gpuMemoryTotalBytes (s : SysMetricsService) : QVariant := optionalInteger (first_gpu memory_total_bytes s).
Definition gpuMemoryUsedBytes (s : SysMetricsService) : QVariant := optionalInteger (first_gpu memory_used_bytes s).
Definition gpuCoreClockHz (s : SysMetricsService) : QVariant := optionalInteger (first_gpu core_clock_hz s).
Definition gpuMemoryClockHz (s : SysMetricsService) : QVariant := optionalInteger (first_gpu memory_clock_hz s).
Definition gpuTemperatureCelsius (s : SysMetricsService) : QVariant :=
  optionalDouble (first_gpu gpu_temperature_celsius s).

(** The loops of [networkReceiveBytesPerSecond] and [networkTransmitBytesPerSecond]. *)
Definition rate_total (rate : NetworkInterface -> option double) (interfaces : list NetworkInterface) : option double :=
  fold_left (fun total i =>
    if String.eqb (ni_name i) "lo" then total
    else match rate i with Some r => Some (dadd (default d0 total) r) | None => total end) interfaces None.

Definition networkReceiveBytesPerSecond (s : SysMetricsService) : QVariant :=
  optionalDouble (rate_total rx_bytes_per_second (network_interfaces (current_metrics s))).
Definition networkTransmitBytesPerSecond (s : SysMetricsService) : QVariant :=
  optionalDouble (rate_total tx_bytes_per_second (network_interfaces (current_metrics s))).

(** The loop of [networkInterfaceName]; [None] is the early return. *)
Fixpoint only_name (interfaces : list NetworkInterface) (name : string) : option string :=
  match interfaces with
  | [] => Some name
  | i :: rest =>
      if String.eqb (ni_name i) "lo" then only_name rest name
      else if negb (String.eqb name "") then None
      else only_name rest (ni_name i)
  end.

Definition networkInterfaceName (s : SysMetricsService) : QVariant :=
  match only_name (network_interfaces (current_metrics s)) "" with
  | Some name => if String.eqb name "" then Invalid else OfText name
  | None => Invalid
  end.

(** [qRound64] is Qt's. *)
Definition bootTimeUtc (qRound64 : double -> Z) (s : SysMetricsService) : QVariant :=
  match uptime_seconds (m_system (current_metrics s)), last_success_utc s with
  | Some uptime, Some utc => OfDateTime (utc - qRound64 (dmul uptime (double_of_Z 1000)))
  | _, _ => Invalid
  end.

(** [total == 0 || available > total] gives none. *)
Definition memoryUsageRatio (s : SysMetricsService) : QVariant :=
  let m := m_memory (current_metrics s) in
  match total_bytes m, available_bytes m with
  | Some total, Some available =>
      if (total =? 0) || (total <? available) then Invalid
      else OfDouble (dsub d1 (ddiv (double_of_Z available) (double_of_Z total)))
  | _, _ => Invalid
  end.

(** ** The service under its event loop *)

(** What the event loop delivers: a tick of the timer, a queued invocation of [refresh],
    the end of the running collection. *)
Inductive event := Tick | Dispatch | Finish (o : outcome) (elapsed utc : Z).

(** One event; the boolean: a collection was started. *)
Inductive step : SysMetricsService -> event -> bool -> SysMetricsService -> Prop :=
| step_tick s s' sig started : refresh s = (s', sig, started) -> step s Tick started s'
| step_dispatch s q s' sig started :
    queued s = S q -> refresh (with_flags (running s) q (refresh_pending s) s) = (s', sig, started) ->
    step s Dispatch started s'
| step_finish s o elapsed utc s' sig :
    running s = true -> collectionFinished o elapsed utc s = (s', sig) -> step s (Finish o elapsed utc) false s'.

Inductive run : SysMetricsService -> list (event * bool) -> SysMetricsService -> Prop :=
| run_nil s : run s [] s
| run_snoc s es s' e started s'' : run s es s' -> step s' e started s'' -> run s (es ++ [(e, started)]) s''.

(** The flags and the state agree, and the state tells what the last collection gave. *)
Record service_ok (s : SysMetricsService) : Prop := {
  ok_running : running s = true <-> state s = Collecting;
  ok_pending : refresh_pending s = true -> running s = true;
  ok_idle : state s = Idle -> (0 < queued s)%nat;
  ok_current : match last_success_utc s with
               | None => current_metrics s = no_metrics
               | Some _ => metrics_hasAnyValue (current_metrics s) = true
               end;
  ok_state : match state s with
             | Ready => is_Some (last_success_utc s) /\ metrics_hasAllBaselineFields (current_metrics s) = true
             | Partial => is_Some (last_success_utc s) /\ metrics_hasAllBaselineFields (current_metrics s) = false
             | Error => diagnostics s <> []
             | Idle => last_success_utc s = None
             | Collecting => True
             end }.

Lemma metrics_new_service_ok : service_ok new_service.
Proof. by split; cbn; try lia. Qed.

Lemma metrics_setState_eq new s :
  (setState new s).1 =
  {| running := running s; queued := queued s; refresh_pending := refresh_pending s; state := new;
     current_metrics := current_metrics s; last_success_utc := last_success_utc s;
     diagnostics := diagnostics s; usage_history := usage_history s |}.
Proof. unfold setState. case_bool_decide as E; [|done]. subst. by destruct s. Qed.

Lemma release_pending_eq s :
  release_pending s =
  {| running := running s; queued := if refresh_pending s then S (queued s) else queued s; refresh_pending := false;
     state := state s; current_metrics := current_metrics s; last_success_utc := last_success_utc s;
     diagnostics := diagnostics s; usage_history := usage_history s |}.
Proof. unfold release_pending, with_flags. destruct s as [? ? [] ? ? ? ? ?]; done. Qed.

(** The effect of [refresh] without its signals. *)
Lemma metrics_refresh_eq s :
  (refresh s).1.1 =
    (if bool_decide (state s = Collecting) then with_flags (running s) (queued s) true s
     else with_flags true (queued s) (refresh_pending s) (setState Collecting s).1) /\
  (refresh s).2 = negb (bool_decide (state s = Collecting)).
Proof.
  unfold refresh. case_bool_decide; [done|]. pose proof (metrics_setState_eq Collecting s) as E.
  destruct (setState Collecting s) as [s1 sig]. cbn in *. by subst.
Qed.

(** What a collection that ends leaves: the new report if it has a value, and the
    diagnostics, the state and the history. *)
Definition accepted (o : outcome) : option SystemMetrics :=
  match o with
  | Collected r => if metrics_hasAnyValue (cr_metrics r) then Some (cr_metrics r) else None
  | Threw _ => None
  end.

Definition diagnostics_after (o : outcome) : list string :=
  match o with
  | Threw what => [failure_text what]
  | Collected r =>
      match cr_diagnostics r with
      | [] => if metrics_hasAnyValue (cr_metrics r) then [] else [no_values_text]
      | ds => ds
      end
  end.

Definition sample_of (o : outcome) (elapsed : Z) : option Sample :=
  match o with
  | Threw _ => None
  | Collected r =>
      Some {| elapsed_milliseconds := elapsed; cpu_usage_ratio := usage_ratio (m_cpu (cr_metrics r));
              memory_usage_ratio := memory_ratio (m_memory (cr_metrics r)) |}
  end.

Lemma metrics_collectionFinished_eq o elapsed utc s :
  (collectionFinished o elapsed utc s).1 =
  {| running := false; queued := if refresh_pending s then S (queued s) else queued s; refresh_pending := false;
     state := match accepted o with
              | Some m => if metrics_hasAllBaselineFields m then Ready else Partial
              | None => Error
              end;
     current_metrics := default (current_metrics s) (accepted o);
     last_success_utc := match accepted o with Some _ => Some utc | None => last_success_utc s end;
     diagnostics := diagnostics_after o;
     usage_history := match sample_of o elapsed with
                      | Some new => (appendSample new (usage_history s)).1
                      | None => usage_history s
                      end |}.
Proof.
  destruct o as [what|[m d]]; unfold collectionFinished, diagnostics_after, accepted.
  - pose proof (metrics_setState_eq Error (with_diagnostics [failure_text what] (with_flags false (queued s) (refresh_pending s) s))) as E.
    destruct (setState _ _) as [s1 sig]. cbn [fst snd] in *. by rewrite release_pending_eq, E.
  - cbn [cr_metrics cr_diagnostics diagnostics with_history with_flags sample_of].
    set (h := appendSample _ (usage_history s)).
    replace (if bool_decide (diagnostics s = d) then _ else _)
      with (with_diagnostics d (with_history h.1 (with_flags false (queued s) (refresh_pending s) s)),
            if bool_decide (diagnostics s = d) then @nil emission
            else [(diagnosticsChanged, with_diagnostics d (with_history h.1 (with_flags false (queued s) (refresh_pending s) s)))])
      by (case_bool_decide; [subst d; by destruct s|done]).
    cbn [diagnostics with_diagnostics].
    destruct (metrics_hasAnyValue m) eqn:Em; cbn [negb].
    + pose proof (metrics_setState_eq (if metrics_hasAllBaselineFields m then Ready else Partial)
        (with_metrics m utc (with_diagnostics d (with_history h.1 (with_flags false (queued s) (refresh_pending s) s))))) as E.
      destruct (setState _ _) as [s4 sig4]. cbn [fst snd] in *. rewrite release_pending_eq, E. cbn.
      f_equal. by destruct d.
    + case_bool_decide as Ed; [subst d|].
      * pose proof (metrics_setState_eq Error (with_diagnostics [no_values_text] (with_diagnostics []
          (with_history h.1 (with_flags false (queued s) (refresh_pending s) s))))) as E.
        destruct (setState _ _) as [s4 sig4]. cbn [fst snd] in *. by rewrite release_pending_eq, E.
      * pose proof (metrics_setState_eq Error (with_diagnostics d
          (with_history h.1 (with_flags false (queued s) (refresh_pending s) s)))) as E.
        destruct (setState _ _) as [s4 sig4]. cbn [fst snd] in *. rewrite release_pending_eq, E. cbn.
        f_equal. by destruct d.
Qed.

Lemma metrics_refresh_ok s : service_ok s -> service_ok (refresh s).1.1.
Proof.
  intros [Hr Hp Hi Hc Hs]. rewrite (proj1 (metrics_refresh_eq s)). case_bool_decide as E.
  - rewrite E in Hs. split; cbn; rewrite ?E; naive_solver.
  - rewrite metrics_setState_eq. by split.
Qed.

Lemma metrics_refresh_tick_ok s q :
  service_ok s -> service_ok (refresh (with_flags (running s) q (refresh_pending s) s)).1.1.
Proof.
  intros [Hr Hp Hi Hc Hs]. rewrite (proj1 (metrics_refresh_eq _)). cbn [state with_flags]. case_bool_decide as E.
  - split; cbn; rewrite ?E; naive_solver.
  - rewrite metrics_setState_eq. by split.
Qed.

Lemma metrics_collectionFinished_ok o elapsed utc s : service_ok s -> service_ok (collectionFinished o elapsed utc s).1.
Proof.
  intros [Hr Hp Hi Hc Hs]. rewrite metrics_collectionFinished_eq. destruct (accepted o) as [m|] eqn:Ea.
  - assert (Hm : metrics_hasAnyValue m = true).
    { destruct o as [|r]; cbn in Ea; [done|]. destruct (metrics_hasAnyValue (cr_metrics r)) eqn:E; [by injection Ea as <-|done]. }
    destruct (metrics_hasAllBaselineFields m) eqn:Eb; split; cbn; (done || (split; [by eexists|done])).
  - split; cbn; try done. destruct o as [|[m' [|d ds]]]; cbn in *; try done. destruct (metrics_hasAnyValue m'); done.
Qed.

Lemma metrics_step_ok s e started s' : service_ok s -> step s e started s' -> service_ok s'.
Proof.
  intros Hok Hs. destruct Hs as [s s' sig started Hf|s q s' sig started Hq Hf|s o elapsed utc s' sig Hr Hf].
  - pose proof (metrics_refresh_ok s Hok) as H. by rewrite Hf in H.
  - pose proof (metrics_refresh_tick_ok s q Hok) as H. by rewrite Hf in H.
  - pose proof (metrics_collectionFinished_ok o elapsed utc s Hok) as H. by rewrite Hf in H.
Qed.

Lemma metrics_run_ok s es s' : service_ok s -> run s es s' -> service_ok s'.
Proof. intros Hok. induction 1 as [|s es s1 e started s2 _ IH Hs]; [done|]. eapply metrics_step_ok; [by apply IH|done]. Qed.

(** ** Requests *)

(** A request waits: for the running collection to end, or in the event queue. *)
Definition request_waits (s : SysMetricsService) : Prop := refresh_pending s = true \/ (0 < queued s)%nat.

Lemma step_request_waits s e started s' :
  service_ok s -> request_waits s -> step s e started s' -> started = true \/ request_waits s'.
Proof.
  intros Hok Hw Hs. destruct Hs as [s s' sig started Hf|s q s' sig started Hq Hf|s o elapsed utc s' sig Hr Hf].
  - pose proof (metrics_refresh_eq s) as [E1 E2]. rewrite Hf in E1, E2. cbn in E1, E2. subst.
    case_bool_decide; [right; by left|by left].
  - pose proof (metrics_refresh_eq (with_flags (running s) q (refresh_pending s) s)) as [E1 E2]. rewrite Hf in E1, E2.
    cbn in E1, E2. subst. case_bool_decide; [right; by left|by left].
  - right. pose proof (metrics_collectionFinished_eq o elapsed utc s) as E. rewrite Hf in E. cbn [fst] in E. subst s'.
    destruct Hw as [Hw|Hw]; right; cbn; [rewrite Hw; lia|destruct (refresh_pending s); lia].
Qed.

Lemma run_request_waits s es s' :
  service_ok s -> request_waits s -> run s es s' -> Forall (fun e => e.2 = false) es -> request_waits s'.
Proof.
  intros Hok Hw. induction 1 as [|s es s1 e started s2 Hrun IH Hs]; [done|]. intros [H1 H2]%Forall_app.
  apply Forall_cons in H2 as [H2 _]. cbn in H2. subst started.
  destruct (step_request_waits s1 e false s2) as [?|?]; [by eapply metrics_run_ok|by apply IH|done|done|done].
Qed.

(** ** Properties *)

(** C17. Collections never overlap and no request for one is lost: a request either starts
    a collection at once, which it does exactly when none runs, or it waits, through any
    further events, until a collection started after it; and whenever it waits while
    nothing runs, the queued invocation that serves it starts that collection. *)
Theorem metrics_requests_served es s s' sig started
  (Hrun : run new_service es s) (Hreq : refresh s = (s', sig, started)) :
  (started = true <-> running s = false) /\
  (started = false -> forall es' s'', run s' es' s'' -> Forall (fun e => e.2 = false) es' ->
     request_waits s'' /\ (running s'' = false -> exists s3, step s'' Dispatch true s3)).
Proof.
  pose proof (metrics_run_ok _ _ _ metrics_new_service_ok Hrun) as Hok.
  pose proof (metrics_refresh_eq s) as [E1 E2]. pose proof (metrics_refresh_ok s Hok) as Hok'. rewrite Hreq in E1, E2, Hok'.
  cbn [fst snd] in *. split.
  - rewrite E2. pose proof (ok_running s Hok). case_bool_decide as E; destruct (running s); naive_solver.
  - intros Hst es' s'' Hrun' Hnone. assert (Hw : request_waits s'').
    { eapply (run_request_waits s'); [done| |done..]. left. subst. case_bool_decide; [done|done]. }
    split; [done|]. intros Hr. pose proof (metrics_run_ok _ _ _ Hok' Hrun') as Hok''.
    destruct Hw as [Hw|Hw]; [by apply (ok_pending s'' Hok'') in Hw; congruence|].
    destruct (queued s'') as [|q] eqn:Eq; [lia|].
    pose proof (metrics_refresh_eq (with_flags (running s'') q (refresh_pending s'') s'')) as [E3 E4].
    destruct (refresh (with_flags (running s'') q (refresh_pending s'') s'')) as [[s3 sig3] st3] eqn:Ef.
    cbn [fst snd state with_flags] in *. exists s3. eapply step_dispatch; [done|]. rewrite Ef. f_equal.
    rewrite E4. case_bool_decide as E; [|done]. apply (ok_running s'' Hok'') in E. congruence.
Qed.

(** The state tells what is shown: in every reachable state Ready and Partial mean a
    current report with or without all baseline fields, Error comes with a diagnostic,
    and a collection that fails or yields no value changes neither the report nor the
    time of the last success. *)
Theorem metrics_service_reports es s (Hrun : run new_service es s) :
  service_ok s /\
  (forall o elapsed utc, accepted o = None ->
     let s' := (collectionFinished o elapsed utc s).1 in
     state s' = Error /\ diagnostics s' <> [] /\ current_metrics s' = current_metrics s /\
     last_success_utc s' = last_success_utc s) /\
  (forall o elapsed utc m, accepted o = Some m ->
     let s' := (collectionFinished o elapsed utc s).1 in
     state s' = (if metrics_hasAllBaselineFields m then Ready else Partial) /\ current_metrics s' = m /\
     last_success_utc s' = Some utc /\
     exists new, last (usage_history s') = Some new /\ elapsed_milliseconds new = elapsed /\
       optionalDouble (cpu_usage_ratio new) = cpuUsageRatio s' /\
       (match total_bytes (m_memory m) with Some t => 0 <= t | None => True end ->
        optionalDouble (memory_usage_ratio new) = memoryUsageRatio s')).
Proof.
  pose proof (metrics_run_ok _ _ _ metrics_new_service_ok Hrun) as Hok. split; [done|]. split.
  - intros o elapsed utc Ha s'. pose proof (metrics_collectionFinished_ok o elapsed utc s Hok) as Hok'.
    pose proof (ok_state _ Hok') as Hd. subst s'. rewrite metrics_collectionFinished_eq in *. rewrite Ha in *. cbn in *.
    done.
  - intros o elapsed utc m Ha s'. subst s'. rewrite metrics_collectionFinished_eq, Ha.
    destruct o as [|[m' d]]; cbn in Ha; [done|]. destruct (metrics_hasAnyValue m'); [|done]. injection Ha as ->.
    cbn [state current_metrics last_success_utc usage_history sample_of default from_option cr_metrics cpuUsageRatio memoryUsageRatio].
    split; [done|]. split; [done|]. split; [done|]. eexists. split; [apply last_snoc|]. split; [done|].
    split; [done|]. intros Hpos. unfold memoryUsageRatio, memory_ratio. cbn in *. 
    destruct (total_bytes (m_memory m)) as [t|]; [|done]. destruct (available_bytes (m_memory m)) as [a|]; [|done].
    destruct (0 <? t) eqn:E1, (t =? 0) eqn:E2, (a <=? t) eqn:E3, (t <? a) eqn:E4; bool_facts; (done || lia).
Qed.

(** ** The values shown *)

(** An optional [quint64]. *)
Definition is_u64 (v : option Z) : Prop := match v with Some n => 0 <= n <= uint64_max | None => True end.

Definition u64_memory (m : MetricsMemory) : Prop :=
  is_u64 (total_bytes m) /\ is_u64 (available_bytes m) /\ is_u64 (swap_total_bytes m) /\ is_u64 (swap_available_bytes m).
Definition u64_volume (v : StorageVolume) : Prop := is_u64 (sv_total_bytes v) /\ is_u64 (sv_available_bytes v).
Definition u64_cpus (cpus : list LogicalCpu) : Prop := Forall (fun c => is_u64 (lc_frequency_hz c)) cpus.

(** A ratio, or nothing. *)
Definition is_ratio (v : QVariant) : Prop := match v with OfDouble d => in_unit d = true | Invalid => True | _ => False end.

Lemma used_bytes_exact t a : is_u64 t -> is_u64 a ->
  match used_bytes t a with
  | OfInteger u => exists x y, t = Some x /\ a = Some y /\ u + y = x /\ 0 <= u
  | Invalid => forall x y, t = Some x -> a = Some y -> x < y
  | _ => False
  end.
Proof.
  unfold used_bytes, is_u64. destruct t as [x|], a as [y|]; try done. intros Hx Hy. destruct (x <? y) eqn:E; bool_facts.
  - by intros ? ? [= <-] [= <-].
  - exists x, y. rewrite u64_id by (unfold uint64_max in *; lia). repeat split; lia.
Qed.

Lemma memoryUsageRatio_ratio s : u64_memory (m_memory (current_metrics s)) -> is_ratio (memoryUsageRatio s).
Proof.
  intros (Ht & Ha & _). unfold memoryUsageRatio. destruct (total_bytes _) as [t|]; [|done].
  destruct (available_bytes _) as [a|]; [|done]. cbn in Ht, Ha. unfold uint64_max in *.
  destruct (_ || _) eqn:E in |- *; [done|]. bool_facts. cbn. apply one_minus_ratio_unit; lia.
Qed.

Lemma primaryStorageUsageRatio_ratio s :
  Forall u64_volume (storage_volumes (current_metrics s)) -> is_ratio (primaryStorageUsageRatio s).
Proof.
  intros Hv. unfold primaryStorageUsageRatio, primary_volume. destruct (List.find _ _) as [v|] eqn:Ef; [|done].
  apply List.find_some in Ef as [Hin _]. rewrite Forall_forall in Hv. apply list_elem_of_In in Hin.
  destruct (Hv v Hin) as [Ht Ha]. destruct (sv_total_bytes v) as [t|]; [|done].
  destruct (sv_available_bytes v) as [a|]; [|done]. cbn in Ht, Ha. unfold uint64_max in *.
  destruct (_ || _) eqn:E in |- *; [done|]. bool_facts. cbn. rewrite u64_id by (unfold uint64_max; lia).
  apply integer_ratio_unit; lia.
Qed.

Definition total_of (l : list Z) : Z := fold_right Z.add 0 l.

(** The loop adds up known frequencies, skipping those that would overflow. *)
Lemma frequency_sum_spec cpus sum count : u64_cpus cpus -> 0 <= sum <= uint64_max -> 0 <= count ->
  count + Z.of_nat (length cpus) <= uint64_max ->
  exists l, sublist l (omap lc_frequency_hz cpus) /\
    frequency_sum cpus sum count = (sum + total_of l, count + Z.of_nat (length l)) /\ sum + total_of l <= uint64_max /\
    (sum + total_of (omap lc_frequency_hz cpus) <= uint64_max -> l = omap lc_frequency_hz cpus).
Proof.
  revert sum count. induction cpus as [|c cpus IH]; intros sum count Hu Hs Hc Hlen.
  { exists []. cbn. rewrite !Z.add_0_r. split; [constructor|]. split; [done|]. split; [lia|done]. }
  inversion Hu as [|? ? Hf Hu']; subst. cbn [frequency_sum omap list_omap length] in *.
  destruct (lc_frequency_hz c) as [f|]; [|destruct (IH sum count) as (l & ?); try done; [lia|by exists l]].
  cbn in Hf. assert (Hnn : forall l, Forall (fun x => 0 <= x) l -> 0 <= total_of l).
  { induction 1; cbn; [done|]. unfold total_of in *. lia. }
  assert (Hrest : 0 <= total_of (omap lc_frequency_hz cpus)).
  { apply Hnn. clear -Hu'. induction Hu' as [|c cpus H _ IH]; cbn; [constructor|].
    destruct (lc_frequency_hz c); cbn in H; [constructor; [lia|done]|done]. }
  destruct (uint64_max - sum <? f) eqn:E; bool_facts.
  - destruct (IH sum count) as (l & Hl & Heq & Hb & Hall); try done; [lia|]. exists l.
    split; [by apply sublist_cons|]. split; [done|]. split; [done|]. cbn. intros H.
    unfold total_of in *. cbn in *. lia.
  - rewrite !u64_id by lia. destruct (IH (sum + f) (count + 1)) as (l & Hl & Heq & Hb & Hall); try done; try lia.
    exists (f :: l). split; [by apply sublist_skip|]. rewrite Heq. unfold total_of in *. cbn [fold_right length].
    rewrite Nat2Z.inj_succ. split; [f_equal; lia|]. split; [lia|]. intros H. f_equal. apply Hall. lia.
Qed.

(** The interfaces other than the loopback. *)
Definition named_interfaces (s : SysMetricsService) : list string :=
  filter (fun n => n <> "lo"%string) (map ni_name (network_interfaces (current_metrics s))).

Lemma only_name_spec interfaces name :
  Forall (fun i => ni_name i <> ""%string) interfaces ->
  only_name interfaces name =
  match filter (fun n => n <> "lo"%string) (map ni_name interfaces) with
  | [] => Some name
  | [n] => if String.eqb name "" then Some n else None
  | _ => None
  end.
Proof.
  revert name. induction interfaces as [|i rest IH]; intros name H; [done|]. inversion H as [|? ? Hi Hr]; subst.
  cbn [only_name map]. rewrite filter_cons. destruct (String.eqb_spec (ni_name i) "lo") as [E|E].
  - rewrite decide_False by (intros F; by apply F). by apply IH.
  - rewrite decide_True by done. destruct (String.eqb_spec name "") as [->|]; cbn [negb].
    + rewrite IH by done. rewrite (proj2 (String.eqb_neq (ni_name i) "")) by done.
      by destruct (filter _ (map ni_name rest)) as [|? [|]].
    + by destruct (filter _ (map ni_name rest)).
Qed.

(** C18. What the bindings show is right for every report of 64-bit counts: used and
    available bytes add up to the total; the memory and storage ratios lie in [0, 1];
    the average frequency is the exact sum of the known frequencies over their number
    whenever the sum fits 64 bits; an interface is named exactly when it is the only one
    besides the loopback. *)
Theorem metrics_values s (Hmem : u64_memory (m_memory (current_metrics s)))
  (Hvol : Forall u64_volume (storage_volumes (current_metrics s)))
  (Hcpu : u64_cpus (logical_cpus (m_cpu (current_metrics s))))
  (Hlen : Z.of_nat (length (logical_cpus (m_cpu (current_metrics s)))) <= uint64_max)
  (Hnames : Forall (fun i => ni_name i <> ""%string) (network_interfaces (current_metrics s))) :
  let m := m_memory (current_metrics s) in
  let known := omap lc_frequency_hz (logical_cpus (m_cpu (current_metrics s))) in
  (forall u, memoryUsedBytes s = OfInteger u -> exists t a, total_bytes m = Some t /\ available_bytes m = Some a /\ u + a = t) /\
  (forall u, swapUsedBytes s = OfInteger u -> exists t a, swap_total_bytes m = Some t /\ swap_available_bytes m = Some a /\ u + a = t) /\
  is_ratio (memoryUsageRatio s) /\ is_ratio (primaryStorageUsageRatio s) /\
  (known <> [] -> total_of known <= uint64_max ->
   averageCpuFrequencyHz s = OfDouble (ddiv (double_of_Z (total_of known)) (double_of_Z (Z.of_nat (length known))))) /\
  (forall n, networkInterfaceName s = OfText n <-> named_interfaces s = [n]).
Proof.
  intros m known. destruct Hmem as (H1 & H2 & H3 & H4). split; [|split; [|split; [|split; [|split]]]].
  - intros u Hu. pose proof (used_bytes_exact _ _ H1 H2) as H. unfold memoryUsedBytes in Hu. rewrite Hu in H. naive_solver.
  - intros u Hu. pose proof (used_bytes_exact _ _ H3 H4) as H. unfold swapUsedBytes in Hu. rewrite Hu in H. naive_solver.
  - by apply memoryUsageRatio_ratio.
  - by apply primaryStorageUsageRatio_ratio.
  - intros Hne Hfit. destruct (frequency_sum_spec _ 0 0 Hcpu) as (l & _ & Heq & _ & Hall); [done|done|done|].
    unfold averageCpuFrequencyHz. rewrite Heq, Hall by done. fold known. cbn [Z.add].
    rewrite (proj2 (Z.ltb_lt _ _)); [done|]. destruct known; [done|cbn; lia].
  - intros n. unfold networkInterfaceName, named_interfaces. rewrite only_name_spec by done.
    destruct (filter _ _) as [|n' [|]] eqn:E; cbn; [done| |done].
    assert (Hn' : n' <> ""%string).
    { assert (Hin : n' ∈ map ni_name (network_interfaces (current_metrics s))).
      { apply (list_elem_of_filter (fun n => n <> "lo"%string)). rewrite E. by left. }
      apply list_elem_of_fmap in Hin as (i & -> & Hin). rewrite Forall_forall in Hnames. by apply Hnames. }
    rewrite (proj2 (String.eqb_neq n' "")) by done. naive_solver.
Qed.

(** A machine with half of its memory in use and two processors. *)
Definition sample_metrics : SystemMetrics :=
  {| m_cpu := {| usage_ratio := Some d0;
                 logical_cpus := [ {| lc_name := "cpu0"; lc_usage_ratio := None; lc_frequency_hz := Some 1000 |};
                                   {| lc_name := "cpu1"; lc_usage_ratio := None; lc_frequency_hz := Some 3000 |} ];
                 temperature_celsius := None |};
     m_memory := {| total_bytes := Some 2048; available_bytes := Some 1024; swap_total_bytes := Some 64;
                    swap_available_bytes := Some 64 |};
     m_system := {| uptime_seconds := Some d1; load_average_1m := None; load_average_5m := None; load_average_15m := None |};
     storage_volumes := []; network_interfaces := []; gpus := [] |}.

Definition sample_outcome : outcome := Collected {| cr_metrics := sample_metrics; cr_diagnostics := [] |}.

Definition sample_collecting : SysMetricsService := (refresh (with_flags false 0 false new_service)).1.1.
Definition sample_service : SysMetricsService := (collectionFinished sample_outcome 1000 5000 sample_collecting).1.

Lemma run_collecting : run new_service [(Dispatch, true)] sample_collecting.
Proof. eapply (run_snoc _ []); [constructor|]. by eapply (step_dispatch _ 0). Qed.

Lemma run_sample : run new_service [(Dispatch, true); (Finish sample_outcome 1000 5000, false)] sample_service.
Proof.
  eapply (run_snoc _ [(Dispatch, true)]); [apply run_collecting|]. eapply step_finish; [done|]. apply surjective_pairing.
Qed.

Lemma metrics_requests_served_witness :
  request_waits (with_flags true 0 true sample_collecting).
Proof.
  destruct (metrics_requests_served [(Dispatch, true)] sample_collecting (with_flags true 0 true sample_collecting) [] false) as [_ H].
  - exact run_collecting.
  - reflexivity.
  - apply (H eq_refl [] (with_flags true 0 true sample_collecting)); constructor.
Defined.

Lemma metrics_service_reports_witness : state sample_service = Partial /\ service_ok sample_service.
Proof.
  split; [reflexivity|].
  apply (metrics_service_reports [(Dispatch, true); (Finish sample_outcome 1000 5000, false)] sample_service run_sample).
Defined.

Lemma metrics_values_witness :
  memoryUsedBytes sample_service = OfInteger 1024 /\ is_ratio (memoryUsageRatio sample_service).
Proof.
  split; [reflexivity|]. apply (metrics_values sample_service).
  - repeat split; vm_compute; discriminate.
  - constructor.
  - repeat constructor; vm_compute; discriminate.
  - vm_compute. discriminate.
  - constructor.
Defined.
