(* ===== verification/MetricsCollector.v ===== *)
(** * The local metrics collector (src/sysmetrics/linux_sys_metrics_collector.cpp)

    [LinuxSysMetricsCollector::collect] over [LinuxSysMetricsAccess], the interface the code
    reads the machine through; [native_access] is its implementation.  The counters kept
    between two collections are the record [Collector]. *)

From S2P Require Import Prelude.
From S2P Require Import Std.
From S2P Require Import Float64.
From S2P Require Import Protocol.
From S2P Require Import QtText.

Definition kProcLimit : Z := 1024 * 1024.
Definition kSysfsLimit : Z := 4096.
Definition kKib : Z := 1024.
Definition kMaximumStorageVolumes : nat := 64.

Definition d1000 : double := double_of_Z 1000.

(** ** The machine *)

Record LinuxStorageVolume := {
  s_mount_point : string; s_device_name : string; s_ready : bool; s_read_only : bool;
  s_total_bytes : Z; s_available_bytes : Z }.

(** One answer of each kind per collection; the clock is monotonic and starts at 0. *)
Record LinuxSysMetricsAccess := {
  readFile : string -> Z -> option string;
  directoryEntries : string -> list string;
  storageVolumes : list LinuxStorageVolume;
  monotonicMilliseconds : Z }.

(** What [NativeAccess] calls: files as in the information collector, [QDir::entryList],
    [QStorageInfo] and [QElapsedTimer]. *)
Record QStorageInfo := {
  rootPath : string; device : string; isReady : bool; isReadOnly : bool; bytesTotal : Z; bytesAvailable : Z }.

Record native_machine := {
  file_read : string -> Z -> option string;
  entryList : string -> list string;
  mountedVolumes : list QStorageInfo;
  timer_elapsed : Z }.

Definition native_readFile (k : native_machine) (path : string) (maximum_bytes : Z) : option string :=
  match file_read k path (maximum_bytes + 1) with
  | None => None
  | Some value => if size value <=? maximum_bytes then Some value else None
  end.

Definition native_volume `{QtText} (storage : QStorageInfo) : LinuxStorageVolume :=
  {| s_mount_point := rootPath storage; s_device_name := q_fromUtf8 (device storage);
     s_ready := isReady storage; s_read_only := isReadOnly storage;
     s_total_bytes := if 0 <? bytesTotal storage then bytesTotal storage else 0;
     s_available_bytes := if 0 <=? bytesAvailable storage then bytesAvailable storage else 0 |}.

Definition native_access `{QtText} (k : native_machine) : LinuxSysMetricsAccess :=
  {| readFile := native_readFile k; directoryEntries := entryList k;
     storageVolumes := map native_volume (mountedVolumes k); monotonicMilliseconds := timer_elapsed k |}.

(** ** Numbers and names *)

Section parsers.
Context `{QtText}.

Definition unsignedValue (bytes : string) : option Z := toULongLong (ba_trimmed bytes).

Definition nonnegativeDouble (bytes : string) : option double :=
  match toDouble (ba_trimmed bytes) with
  | Some value => if isfinite value && dleb d0 value then Some value else None
  | None => None
  end.

Definition isV3dEntry (entry : string) : bool :=
  let normalized := q_toLower entry in
  String.eqb normalized "v3d" || ends_with ".v3d" normalized.

Definition isGpuThermalZone (type : string) : bool :=
  let normalized := str_map tolower (ba_trimmed type) in
  String.eqb normalized "gpu" || String.eqb normalized "gpu-thermal" || String.eqb normalized "gpu_thermal"
  || String.eqb normalized "v3d".

(** ** Processors *)

Record Counters := { active : Z; total : Z }.

(** The sums over the fields after the name: [None] when one is no number or the sum does
    not fit 64 bits. *)
Fixpoint sumFields (index : nat) (fields : list string) (total idle : Z) : option (Z * Z) :=
  match fields with
  | [] => Some (total, idle)
  | f :: rest =>
      match unsignedValue f with
      | None => None
      | Some value =>
          if uint64_max - value <? total then None
          else sumFields (S index) rest (total + value)
                 (if (index =? 4)%nat || (index =? 5)%nat then u64 (idle + value) else idle)
      end
  end.

(** One line of /proc/stat. *)
Definition cpuLine (st : gmap string Counters * list string) (line : string) : gmap string Counters * list string :=
  let '(result, diagnostics) := st in
  let fields := split_on " " (simplified line) in
  match fields with
  | [] => st
  | name :: values =>
      if negb (starts_with "cpu" name) then st
      else if (length fields <? 5)%nat then (result, diagnostics ++ ["Malformed /proc/stat CPU counters"%string])
      else match sumFields 1 values 0 0 with
           | Some (total, idle) =>
               if total <? idle then (result, diagnostics ++ ["Invalid /proc/stat CPU counters"%string])
               else (<[fromLatin1 name := {| active := total - idle; total := total |}]> result, diagnostics)
           | None => (result, diagnostics ++ ["Invalid /proc/stat CPU counters"%string])
           end
  end.

Definition parseCpu (bytes : string) (diagnostics : list string) : gmap string Counters * list string :=
  fold_left cpuLine (split_on newline bytes) (∅, diagnostics).

Definition usage (now before : Counters) (diagnostics : list string) : option double * list string :=
  if (total now <=? total before) || (active now <? active before)
  then (None, diagnostics ++ ["CPU counters reset"%string])
  else
    let total := total now - total before in
    let active := active now - active before in
    if total <? active then (None, diagnostics)
    else (Some (ddiv (double_of_Z active) (double_of_Z total)), diagnostics).

(** ** Memory *)

Definition memoryLine (values : gmap string Z) (line : string) : gmap string Z :=
  match find_char ":" line with
  | None => values
  | Some colon =>
      let fields := split_on " " (simplified (str_drop (S colon) line)) in
      if negb (length fields =? 2)%nat || negb (String.eqb (at_ 1 fields) "kB") then values
      else match unsignedValue (at_ 0 fields) with
           | Some kib => if kib <=? uint64_max / kKib then <[str_take colon line := kib * kKib]> values else values
           | None => values
           end
  end.

Definition exceeds (available total : option Z) : bool :=
  match available, total with Some a, Some t => t <? a | _, _ => false end.

Definition parseMemory (bytes : string) (diagnostics : list string) : MetricsMemory * list string :=
  let values := fold_left memoryLine (split_on newline bytes) ∅ in
  let total := v ← values !! "MemTotal"%string; if 0 <? v then Some v else None in
  let available := values !! "MemAvailable"%string in
  let swap_total := values !! "SwapTotal"%string in
  let swap_available := values !! "SwapFree"%string in
  let memory_excess := exceeds available total in
  let swap_excess := exceeds swap_available swap_total in
  ({| total_bytes := total; available_bytes := if memory_excess then None else available;
      swap_total_bytes := swap_total; swap_available_bytes := if swap_excess then None else swap_available |},
   diagnostics ++ (if memory_excess then ["Physical memory byte relationship is invalid"%string] else [])
               ++ (if swap_excess then ["Swap byte relationship is invalid"%string] else [])).
End parsers.

(** ** One collection *)

(** The collector's fields; [previous_time_ms] is -1 before the first collection. *)
Record Collector := {
  cpu_counters : gmap string Counters;
  network_counters : gmap string (Z * Z);
  previous_time_ms : Z }.

Definition new_collector : Collector :=
  {| cpu_counters := ∅; network_counters := ∅; previous_time_ms := -1 |}.

Section collect.
Context `{QtText} (access : LinuxSysMetricsAccess).

(** *** /proc/stat *)

Definition frequency_file (index : string) : string :=
  ("/sys/devices/system/cpu/cpu" ++ index ++ "/cpufreq/scaling_cur_freq")%string.

Definition cpu_frequency (index : string) : option Z :=
  khz ← readFile access (frequency_file index) kSysfsLimit;
  value ← unsignedValue khz;
  if value <=? uint64_max / 1000 then Some (value * 1000) else None.

Record cpu_report := { cr_usage : option double; cr_logical : list LogicalCpu; cr_diagnostics : list string }.

(** The loop's body for one entry of the hash. *)
Definition cpuEntry (before : gmap string Counters) (r : cpu_report) (entry : string * Counters) : cpu_report :=
  let '(key, value) := entry in
  let '(ratio, diagnostics) :=
    match before !! key with
    | Some previous => usage value previous (cr_diagnostics r)
    | None => (None, cr_diagnostics r)
    end in
  if String.eqb key "cpu" then
    {| cr_usage := ratio; cr_logical := cr_logical r; cr_diagnostics := diagnostics |}
  else
    {| cr_usage := cr_usage r;
       cr_logical := cr_logical r ++ [{| lc_name := key; lc_usage_ratio := ratio;
                                         lc_frequency_hz := cpu_frequency (str_drop 3 key) |}];
       cr_diagnostics := diagnostics |}.

(** The report and the new [cpu_counters_]. *)
Definition collectCpu (before : gmap string Counters) (diagnostics : list string) : cpu_report * gmap string Counters :=
  match readFile access "/proc/stat" kProcLimit with
  | Some stat =>
      let '(counters, diagnostics) := parseCpu stat diagnostics in
      (fold_left (cpuEntry before) (hash_entries counters)
         {| cr_usage := None; cr_logical := []; cr_diagnostics := diagnostics |}, counters)
  | None =>
      ({| cr_usage := None; cr_logical := []; cr_diagnostics := diagnostics ++ ["/proc/stat is unavailable"%string] |},
       before)
  end.

(** *** /proc/meminfo, /proc/uptime, /proc/loadavg *)

Definition no_memory : MetricsMemory :=
  {| total_bytes := None; available_bytes := None; swap_total_bytes := None; swap_available_bytes := None |}.

Definition collectMemory (diagnostics : list string) : MetricsMemory * list string :=
  match readFile access "/proc/meminfo" kProcLimit with
  | Some meminfo => parseMemory meminfo diagnostics
  | None => (no_memory, diagnostics ++ ["/proc/meminfo is unavailable"%string])
  end.

Definition collectSystem : MetricsSystem :=
  let load := match readFile access "/proc/loadavg" kSysfsLimit with
              | Some load =>
                  let fields := split_on " " (simplified load) in
                  if (3 <=? length fields)%nat
                  then (nonnegativeDouble (at_ 0 fields), nonnegativeDouble (at_ 1 fields), nonnegativeDouble (at_ 2 fields))
                  else (None, None, None)
              | None => (None, None, None)
              end in
  {| uptime_seconds := uptime ← readFile access "/proc/uptime" kSysfsLimit;
                       nonnegativeDouble (at_ 0 (split_on " " uptime));
     load_average_1m := load.1.1; load_average_5m := load.1.2; load_average_15m := load.2 |}.

(** *** Storage *)

Definition volume_before (left right : LinuxStorageVolume) : bool :=
  let left_primary := String.eqb (s_mount_point left) "/" in
  let right_primary := String.eqb (s_mount_point right) "/" in
  if negb (Bool.eqb left_primary right_primary) then left_primary
  else q_lessThan (s_mount_point left) (s_mount_point right).

(** The two guards of the loop, without the mounts seen. *)
Definition volume_usable (source : LinuxStorageVolume) : bool :=
  negb (negb (s_ready source) || (s_total_bytes source =? 0) || (s_total_bytes source <? s_available_bytes source))
  && negb ((negb (String.eqb (s_mount_point source) "/") && negb (starts_with "/dev/" (s_device_name source)))
           || String.eqb (s_mount_point source) "" || String.eqb (s_device_name source) ""
           || (256 <? size (s_mount_point source)) || (256 <? size (s_device_name source))).

Definition volume_entry (source : LinuxStorageVolume) : StorageVolume :=
  {| mount_point := s_mount_point source; device_name := s_device_name source;
     primary := String.eqb (s_mount_point source) "/"; read_only := s_read_only source;
     sv_total_bytes := Some (s_total_bytes source); sv_available_bytes := Some (s_available_bytes source) |}.

Fixpoint storageLoop (volumes : list LinuxStorageVolume) (seen_mounts : gset string) (found : list StorageVolume)
  : list StorageVolume :=
  match volumes with
  | [] => found
  | source :: rest =>
      if negb (volume_usable source) || bool_decide (s_mount_point source ∈ seen_mounts)
      then storageLoop rest seen_mounts found
      else
        let found := found ++ [volume_entry source] in
        if (length found =? kMaximumStorageVolumes)%nat then found
        else storageLoop rest ({[s_mount_point source]} ∪ seen_mounts) found
  end.

Definition collectStorage : list StorageVolume :=
  storageLoop (ranges_sort volume_before (storageVolumes access)) ∅ [].

(** *** Temperatures: the processor's and the GPU's *)

Definition thermalZone (st : option double * option double) (zone : string) : option double * option double :=
  if negb (starts_with "thermal_zone" zone) then st
  else
    let base := ("/sys/class/thermal/" ++ zone ++ "/")%string in
    match readFile access (base ++ "type") kSysfsLimit with
    | None => st
    | Some type =>
        let normalized := str_map tolower (ba_trimmed type) in
        let cpu_zone := String.eqb normalized "cpu-thermal" || String.eqb normalized "cpu_thermal"
                        || String.eqb normalized "soc_thermal" in
        let gpu_zone := isGpuThermalZone normalized in
        if negb cpu_zone && negb gpu_zone then st
        else match raw ← readFile access (base ++ "temp") kSysfsLimit; nonnegativeDouble raw with
             | None => st
             | Some milli =>
                 (if cpu_zone && negb (has_value st.1) then Some (ddiv milli d1000) else st.1,
                  if gpu_zone && negb (has_value st.2) then Some (ddiv milli d1000) else st.2)
             end
    end.

(** *** Network *)

Definition elapsed_seconds (previous now_ms : Z) : double :=
  if (0 <=? previous) && (previous <? now_ms) then ddiv (double_of_Z (now_ms - previous)) d1000 else d0.

Record network_report := {
  nr_interfaces : list NetworkInterface; nr_next : gmap string (Z * Z); nr_diagnostics : list string }.

Definition statistics_file (name counter : string) : string :=
  ("/sys/class/net/" ++ name ++ "/statistics/" ++ counter)%string.

Definition counter_of (name counter : string) : option Z :=
  file ← readFile access (statistics_file name counter) kSysfsLimit; unsignedValue file.

(** A rate, or the diagnostic that the counter went back. *)
Definition counter_rate (elapsed : double) (now before : Z) (text : string) : option double * list string :=
  if before <=? now then (Some (ddiv (double_of_Z (now - before)) elapsed), []) else (None, [text]).

Definition networkEntry (elapsed : double) (before : gmap string (Z * Z)) (r : network_report) (name : string)
  : network_report :=
  if String.eqb name "lo" then r
  else
    match counter_of name "rx_bytes", counter_of name "tx_bytes" with
    | None, None => r
    | received, transmitted =>
        let '(rx_rate, tx_rate, diagnostics, next) :=
          match received, transmitted with
          | Some rx, Some tx =>
              let next := <[name := (rx, tx)]> (nr_next r) in
              match before !! name with
              | Some previous =>
                  if dltb d0 elapsed then
                    let '(rx_rate, rx_text) :=
                      counter_rate elapsed rx previous.1 ("Network RX counter reset for " ++ name)%string in
                    let '(tx_rate, tx_text) :=
                      counter_rate elapsed tx previous.2 ("Network TX counter reset for " ++ name)%string in
                    (rx_rate, tx_rate, nr_diagnostics r ++ rx_text ++ tx_text, next)
                  else (None, None, nr_diagnostics r, next)
              | None => (None, None, nr_diagnostics r, next)
              end
          | _, _ => (None, None, nr_diagnostics r, nr_next r)
          end in
        {| nr_interfaces := nr_interfaces r ++
             [{| ni_name := name; rx_bytes := received; tx_bytes := transmitted;
                 rx_bytes_per_second := rx_rate; tx_bytes_per_second := tx_rate |}];
           nr_next := next; nr_diagnostics := diagnostics |}
    end.

(** *** GPU *)

(** The GPU, if the machine has one, and the diagnostics. *)
Definition collectGpu (gpu_temperature : option double) (diagnostics : list string) : list Gpu * list string :=
  let entry := List.find isV3dEntry (directoryEntries access "/sys/class/devfreq") in
  let v3d_found := existsb isV3dEntry (directoryEntries access "/sys/bus/platform/devices") || has_value entry in
  let raw := e ← entry; readFile access ("/sys/class/devfreq/" ++ e ++ "/cur_freq")%string kSysfsLimit in
  let '(clock, diagnostics) :=
    match raw with
    | Some raw =>
        match unsignedValue raw with
        | Some frequency =>
            if (0 <? frequency) && (frequency <=? int64_max) then (Some frequency, diagnostics)
            else (None, diagnostics ++ ["V3D core frequency is invalid"%string])
        | None => (None, diagnostics ++ ["V3D core frequency is invalid"%string])
        end
    | None => (None, diagnostics)
    end in
  if v3d_found then
    ([{| gpu_name := "V3D"; gpu_usage_ratio := None; memory_total_bytes := None; memory_used_bytes := None;
         core_clock_hz := clock; memory_clock_hz := None; gpu_temperature_celsius := gpu_temperature |}], diagnostics)
  else ([], diagnostics ++ ["V3D metrics are unavailable"%string]).

(** *** collect *)

Definition collect (c : Collector) : SystemMetrics * list string * Collector :=
  let now_ms := monotonicMilliseconds access in
  let '(cpu, counters) := collectCpu (cpu_counters c) [] in
  let '(memory, diagnostics) := collectMemory (cr_diagnostics cpu) in
  let '(cpu_temperature, gpu_temperature) :=
    fold_left thermalZone (directoryEntries access "/sys/class/thermal") (None, None) in
  let elapsed := elapsed_seconds (previous_time_ms c) now_ms in
  let network := fold_left (networkEntry elapsed (network_counters c)) (directoryEntries access "/sys/class/net")
                   {| nr_interfaces := []; nr_next := ∅; nr_diagnostics := diagnostics |} in
  let '(gpus, diagnostics) := collectGpu gpu_temperature (nr_diagnostics network) in
  let metrics :=
    {| m_cpu := {| usage_ratio := cr_usage cpu; logical_cpus := cr_logical cpu; temperature_celsius := cpu_temperature |};
       m_memory := memory; m_system := collectSystem; storage_volumes := collectStorage;
       network_interfaces := nr_interfaces network; gpus := gpus |} in
  (metrics,
   diagnostics ++ (if metrics_hasAllBaselineFields metrics then []
                   else ["One or more baseline system metrics are unavailable"%string]),
   {| cpu_counters := counters; network_counters := nr_next network; previous_time_ms := now_ms |}).
End collect.
