(* ===== verification/MetricsCollectorLaws.v ===== *)
(** * What the local metrics collector promises

    Every report is well formed.  Of the past only processor ratios and network rates
    depend on anything, on the last readable /proc/stat and the last machine; the rest is
    this machine's. *)

From S2P Require Import Prelude.
From S2P Require Import Std.
From S2P Require Import Float64.
From S2P Require Import FloatBounds.
From S2P Require Import Protocol.
From S2P Require Import QtText.
From S2P Require MetricsService.
From S2P Require Import MetricsCollector.

(** A value that is right when it is known. *)
Definition known {A} (P : A -> Prop) (value : option A) : Prop := forall x, value = Some x -> P x.

Definition is_u64 (n : Z) : Prop := 0 <= n <= uint64_max.
Definition finite_nonneg (d : double) : Prop := finiteNonnegative (Some d) = true.

Lemma known_None {A} (P : A -> Prop) : known P None.
Proof. by intros x. Qed.
Lemma known_Some {A} (P : A -> Prop) x : P x -> known P (Some x).
Proof. by intros ? ? [= <-]. Qed.
#[export] Hint Resolve known_None known_Some : dash.

(** What the machine answers: limits respected, 64-bit numbers, entries with a name. *)
Definition access_ok (a : LinuxSysMetricsAccess) : Prop :=
  (forall p m s, readFile a p m = Some s -> size s <= m) /\
  (forall p, Forall (fun name => name <> ""%string) (directoryEntries a p)) /\
  Forall (fun v => is_u64 (s_total_bytes v) /\ is_u64 (s_available_bytes v)) (storageVolumes a) /\
  0 <= monotonicMilliseconds a <= int64_max.

Definition counters_ok (c : Counters) : Prop := 0 <= active c <= total c /\ total c <= uint64_max.

Definition collector_ok (c : Collector) : Prop :=
  map_Forall (fun _ x => counters_ok x) (cpu_counters c) /\
  map_Forall (fun _ p => is_u64 p.1 /\ is_u64 p.2) (network_counters c) /\
  -1 <= previous_time_ms c <= int64_max.

Lemma new_collector_ok : collector_ok new_collector.
Proof. split; [apply map_Forall_empty|split; [apply map_Forall_empty|done]]. Qed.

(** [NativeAccess] is such a machine. *)
Lemma native_access_ok `{QtText} k :
  (forall p, Forall (fun name => name <> ""%string) (entryList k p)) ->
  Forall (fun v => bytesTotal v <= int64_max /\ bytesAvailable v <= int64_max) (mountedVolumes k) ->
  0 <= timer_elapsed k <= int64_max -> access_ok (native_access k).
Proof.
  intros Hn Hv Ht. split; [|split; [done|split; [|done]]].
  - intros p m s. cbn. unfold native_readFile. destruct (file_read _ _ _); [|done]. case_if; [|done].
    intros [= <-]. by bool_facts.
  - cbn. apply Forall_map. eapply Forall_impl; [exact Hv|]. intros v [H1 H2].
    unfold is_u64, native_volume, int64_max, uint64_max in *. cbn. repeat case_if; bool_facts; lia.
Qed.

(** ** Numbers *)

Section numbers.
Context `{QtText}.

Lemma unsignedValue_u64 s n : unsignedValue s = Some n -> is_u64 n.
Proof. apply toULongLong_range. Qed.

Lemma nonnegativeDouble_value s d : nonnegativeDouble s = Some d -> exists v, value_is d v /\ 0 <= v <= 2 ^ (1024 + 1074).
Proof.
  unfold nonnegativeDouble. destruct (toDouble _) as [x|] eqn:E; [|done]. case_if; [|done]. intros [= <-].
  bool_facts. apply toDouble_valid in E. by apply finite_value.
Qed.

Lemma value_finite_nonneg d v : value_is d v -> finite_nonneg d.
Proof. intros Hv. unfold finite_nonneg, finiteNonnegative. by destruct (value_nonneg d v Hv) as [-> ->]. Qed.

Lemma nonnegativeDouble_ok s : known finite_nonneg (nonnegativeDouble s).
Proof. intros d (v & Hv & _)%nonnegativeDouble_value. by eapply value_finite_nonneg. Qed.

(** Thousandths of a reading are a number. *)
Lemma degrees_ok s milli : nonnegativeDouble s = Some milli -> finite_nonneg (ddiv milli d1000).
Proof.
  intros (v & Hv & Hr)%nonnegativeDouble_value. destruct (thousandth_value milli v Hv) as [u Hu]; [lia|].
  by eapply value_finite_nonneg.
Qed.

(** The time between two readings of the clock. *)
Lemma elapsed_value previous now : 0 <= previous < now -> now <= int64_max ->
  exists v, value_is (elapsed_seconds previous now) v /\ 2 ^ (-10 + 1074) <= v.
Proof.
  intros Hp Hn. unfold elapsed_seconds. rewrite (proj2 (Z.leb_le _ _)), (proj2 (Z.ltb_lt _ _)) by lia. cbn [andb].
  unfold int64_max in Hn. destruct (double_of_Z_range (now - previous)) as (v & Hv & Hr); [lia|].
  destruct d1000_value as (w & Hw & Hl). assert (Hw0 : 0 < w) by (assert (0 < 2 ^ (9 + 1074)) by (apply pow2_pos; lia); lia).
  assert (Hv0 : 0 < v) by (assert (0 < 2 ^ 1074) by (apply pow2_pos; lia); lia).
  assert (Hle : v <= 2 ^ 65 * w).
  { rewrite (pow2_split (65 + 1074) 65 1074) in Hr by lia. assert (2 ^ 1074 <= 2 ^ (9 + 1074)) by (apply Z.pow_le_mono_r; lia).
    assert (0 < 2 ^ 65) by (apply pow2_pos; lia). nia. }
  destruct (ddiv_le_pow2 _ _ v w 65 Hv Hw Hw0) as (u & Hu & _); [lia|done|]. exists u. split; [done|].
  apply (ddiv_ge_pow2 _ _ v w 65 10 u Hv Hw); try (done || lia).
Qed.

Lemma elapsed_positive previous now : -1 <= previous -> now <= int64_max ->
  dltb d0 (elapsed_seconds previous now) = (0 <=? previous) && (previous <? now).
Proof.
  intros Hp Hn. destruct ((0 <=? previous) && (previous <? now)) eqn:E.
  - bool_facts. destruct (elapsed_value previous now) as (v & Hv & Hl); [lia|done|].
    apply (value_positive _ v Hv). assert (0 < 2 ^ (-10 + 1074)) by (apply pow2_pos; lia). lia.
  - unfold elapsed_seconds. by rewrite E.
Qed.

Lemma rate_ok previous now n : -1 <= previous -> now <= int64_max -> is_u64 n ->
  dltb d0 (elapsed_seconds previous now) = true -> finite_nonneg (ddiv (double_of_Z n) (elapsed_seconds previous now)).
Proof.
  intros Hp Hn Hb He. rewrite elapsed_positive in He by done. bool_facts. unfold is_u64, uint64_max in Hb.
  destruct (elapsed_value previous now) as (w & Hw & Hl); [lia|done|].
  destruct (double_of_Z_nonneg n) as (v & Hv & Hr); [lia|]. assert (0 < 2 ^ (-10 + 1074)) by (apply pow2_pos; lia).
  destruct (ddiv_le_pow2 _ _ v w 75 Hv Hw) as (u & Hu & _); [lia|lia| |by eapply value_finite_nonneg].
  rewrite (pow2_split (65 + 1074) 75 (-10 + 1074)) in Hr by lia. assert (0 < 2 ^ 75) by (apply pow2_pos; lia). nia.
Qed.
End numbers.

(** ** Processors and memory *)

Section parsing.
Context `{QtText}.

Lemma sumFields_bounds i fs t d t' d' : sumFields i fs t d = Some (t', d') ->
  0 <= d <= t -> t <= uint64_max -> 0 <= d' <= t' /\ t' <= uint64_max.
Proof.
  revert i t d. induction fs as [|f fs IH]; intros i t d; cbn [sumFields]; [intros [= <- <-]; auto|].
  destruct (unsignedValue f) as [v|] eqn:Ev; [|done]. apply unsignedValue_u64 in Ev as [Hv0 Hv1].
  destruct (uint64_max - v <? t) eqn:Eo; [done|]. bool_facts. intros E Hd Ht.
  apply IH in E; [done| |lia]. case_if; [rewrite u64_id|]; lia.
Qed.

Definition cpu_parse_ok (n : nat) (st : gmap string Counters * list string) : Prop :=
  map_Forall (fun _ x => counters_ok x) st.1 /\ (base.size st.1 <= n)%nat.

Lemma cpuLine_ok n st line : cpu_parse_ok n st -> cpu_parse_ok (S n) (cpuLine st line).
Proof.
  destruct st as [m ds]. intros [Hm Hs]. unfold cpuLine, cpu_parse_ok in *. cbn [fst] in *.
  destruct (split_on _ _) as [|name values]; [cbn; auto with lia|]. case_if; [cbn; auto with lia|].
  case_if; [cbn; auto with lia|]. destruct (sumFields 1 values 0 0) as [[t d]|] eqn:E; [|cbn; auto with lia].
  case_if; [cbn; auto with lia|]. cbn [fst]. bool_facts. unfold uint64_max in *.
  apply sumFields_bounds in E as [E1 E2]; [|lia|unfold uint64_max; lia]. split.
  - apply map_Forall_insert_2; [|done]. split; cbn; lia.
  - destruct (decide (m !! fromLatin1 name = None)) as [Hn|Hn]; [rewrite map_size_insert_None by done; lia|].
    destruct (m !! fromLatin1 name) as [x|] eqn:Ex; [|done]. rewrite map_size_insert_Some by done. lia.
Qed.

Lemma cpuLines_ok ls n st : cpu_parse_ok n st -> cpu_parse_ok (length ls + n) (fold_left cpuLine ls st).
Proof.
  revert n st. induction ls as [|l ls IH]; intros n st Hst; cbn [fold_left length]; [done|].
  replace (S (length ls) + n)%nat with (length ls + S n)%nat by lia. by apply IH, cpuLine_ok.
Qed.

Lemma length_split_on c s : (1 <= length (split_on c s) <= S (String.length s))%nat.
Proof.
  induction s as [|d s IH]; cbn [split_on String.length]; [cbn; lia|]. destruct (is_char c d); cbn [length]; [lia|].
  destruct (split_on c s); cbn [length] in *; lia.
Qed.

Lemma parseCpu_ok s ds : cpu_parse_ok (S (String.length s)) (parseCpu s ds).
Proof.
  unfold parseCpu. destruct (cpuLines_ok (split_on newline s) 0 (∅, ds)) as [Hm Hs].
  { split; [apply map_Forall_empty|]. cbn. by rewrite map_size_empty. }
  split; [done|]. pose proof (length_split_on newline s). lia.
Qed.

(** The counters do not depend on the diagnostics before. *)
Lemma cpuLine_counters m ds ds' l : (cpuLine (m, ds) l).1 = (cpuLine (m, ds') l).1.
Proof. unfold cpuLine. destruct (split_on _ _); [done|]. repeat case_if; try done. destruct (sumFields _ _ _ _) as [[]|]; [|done]. by case_if. Qed.

Lemma cpuLines_counters ls m ds ds' : (fold_left cpuLine ls (m, ds)).1 = (fold_left cpuLine ls (m, ds')).1.
Proof.
  revert m ds ds'. induction ls as [|l ls IH]; intros m ds ds'; cbn [fold_left]; [done|].
  pose proof (cpuLine_counters m ds ds' l) as E.
  destruct (cpuLine (m, ds) l) as [m1 d1], (cpuLine (m, ds') l) as [m2 d2]. cbn in E. subst. apply IH.
Qed.

Lemma parseCpu_counters s ds ds' : (parseCpu s ds).1 = (parseCpu s ds').1.
Proof. apply cpuLines_counters. Qed.

(** The ratio between two samples. *)
Definition usage_between (before now : Counters) : option double :=
  if (total before <? total now) && (active before <=? active now)
     && (active now - active before <=? total now - total before)
  then Some (ddiv (double_of_Z (active now - active before)) (double_of_Z (total now - total before))) else None.

Lemma usage_spec now before ds : (usage now before ds).1 = usage_between before now.
Proof.
  unfold usage, usage_between. rewrite !Z.leb_antisym.
  destruct (total before <? total now), (active now <? active before); cbn; try done. by case_if.
Qed.

Lemma usage_between_unit before now : counters_ok before -> counters_ok now ->
  known (fun d => in_unit d = true) (usage_between before now).
Proof.
  intros [Hb1 Hb2] [Hn1 Hn2] d. unfold usage_between. case_if; [|done]. intros [= <-]. bool_facts.
  unfold uint64_max in *. apply integer_ratio_unit; lia.
Qed.

(** *** Memory *)

Definition memory_ok (m : MetricsMemory) : Prop :=
  known (fun t => 0 < t <= uint64_max) (total_bytes m) /\ known is_u64 (available_bytes m) /\
  known is_u64 (swap_total_bytes m) /\ known is_u64 (swap_available_bytes m) /\
  (forall t a, total_bytes m = Some t -> available_bytes m = Some a -> a <= t) /\
  (forall t a, swap_total_bytes m = Some t -> swap_available_bytes m = Some a -> a <= t).

Lemma memoryLine_ok values line : map_Forall (fun _ v => is_u64 v) values ->
  map_Forall (fun _ v => is_u64 v) (memoryLine values line).
Proof.
  intros Hv. unfold memoryLine. destruct (find_char ":" line); [|done]. case_if; [done|].
  destruct (unsignedValue _) as [k|] eqn:E; [|done]. case_if; [|done]. apply map_Forall_insert_2; [|done].
  apply unsignedValue_u64 in E. bool_facts. unfold is_u64, uint64_max, kKib in *.
  change (18446744073709551615 / 1024) with 18014398509481983 in *. lia.
Qed.

Lemma memoryLines_ok ls values : map_Forall (fun _ v => is_u64 v) values ->
  map_Forall (fun _ v => is_u64 v) (fold_left memoryLine ls values).
Proof. revert values. induction ls as [|l ls IH]; intros values Hv; cbn [fold_left]; auto using memoryLine_ok. Qed.

Lemma not_exceeding a t : forall t' a', t = Some t' -> (if exceeds a t then None else a) = Some a' -> a' <= t'.
Proof. intros t' a' ->. destruct a as [a|]; cbn; [|done]. case_if; [done|]. intros [= <-]. by bool_facts. Qed.

Lemma parseMemory_ok s ds : memory_ok (parseMemory s ds).1.
Proof.
  unfold parseMemory. set (values := fold_left memoryLine _ _).
  assert (Hv : map_Forall (fun _ v => is_u64 v) values) by apply memoryLines_ok, map_Forall_empty.
  assert (Hk : forall key, known is_u64 (values !! key)) by (intros key v; apply Hv).
  assert (Hif : forall (b : bool) o, known is_u64 o -> known is_u64 (if b then None else o)) by (intros []; auto with dash).
  unfold memory_ok. cbn [fst total_bytes available_bytes swap_total_bytes swap_available_bytes].
  split; [|split; [apply Hif, Hk|split; [apply Hk|split; [apply Hif, Hk|]]]].
  2: { split; intros t a; apply not_exceeding. }
  intros t (v & Ev & E)%bind_Some. case_if; [|done]. injection E as <-.
  apply Hv in Ev. bool_facts. unfold is_u64 in Ev. lia.
Qed.
End parsing.

(** ** The parts of a report *)

Section parts.
Context `{QtText} (a : LinuxSysMetricsAccess).

(** *** Processors *)

Definition ratio_since (before : gmap string Counters) (key : string) (now : Counters) : option double :=
  previous ← before !! key; usage_between previous now.

Definition logical_entry (before : gmap string Counters) (entry : string * Counters) : LogicalCpu :=
  {| lc_name := entry.1; lc_usage_ratio := ratio_since before entry.1 entry.2;
     lc_frequency_hz := cpu_frequency a (str_drop 3 entry.1) |}.

Lemma cpuEntry_spec before r e :
  cr_usage (cpuEntry a before r e) = (if String.eqb e.1 "cpu" then ratio_since before e.1 e.2 else cr_usage r) /\
  cr_logical (cpuEntry a before r e) =
    (if String.eqb e.1 "cpu" then cr_logical r else cr_logical r ++ [logical_entry before e]).
Proof.
  destruct e as [key now]. unfold cpuEntry, logical_entry, ratio_since. cbn [fst snd].
  destruct (before !! key) as [p|]; cbn [mbind option_bind].
  - rewrite <- (usage_spec now p (cr_diagnostics r)). destruct (usage now p _) as [x ds]. by destruct (String.eqb key "cpu").
  - by destruct (String.eqb key "cpu").
Qed.

Definition is_logical (entry : string * Counters) : bool := negb (String.eqb entry.1 "cpu").

Lemma cpuFold_logical before es r :
  cr_logical (fold_left (cpuEntry a before) es r) = cr_logical r ++ map (logical_entry before) (List.filter is_logical es).
Proof.
  revert r. induction es as [|e es IH]; intros r; cbn [fold_left List.filter]; [by rewrite app_nil_r|].
  rewrite IH. destruct (cpuEntry_spec before r e) as [_ ->]. unfold is_logical. destruct (String.eqb e.1 "cpu"); cbn; [done|].
  by rewrite <- app_assoc.
Qed.

Lemma cpuFold_usage before es r : NoDup es.*1 ->
  (forall now, ("cpu"%string, now) ∈ es -> cr_usage (fold_left (cpuEntry a before) es r) = ratio_since before "cpu" now) /\
  ("cpu"%string ∉ es.*1 -> cr_usage (fold_left (cpuEntry a before) es r) = cr_usage r).
Proof.
  revert r. induction es as [|[k x] es IH]; intros r Hnd; cbn [fold_left]; [split; [by intros ? ?%elem_of_nil|done]|].
  rewrite fmap_cons in *. cbn [fst] in *. apply NoDup_cons in Hnd as [Hk Hnd].
  destruct (IH (cpuEntry a before r (k, x)) Hnd) as [IH1 IH2].
  destruct (cpuEntry_spec before r (k, x)) as [Hu _]. cbn [fst snd] in Hu. split.
  - intros now [[= <- <-]|Hin]%elem_of_cons; [by rewrite IH2, Hu|]. by apply IH1.
  - intros [Hne Hn]%not_elem_of_cons. rewrite IH2, Hu by done. by rewrite (proj2 (String.eqb_neq k "cpu")) by done.
Qed.

(** The counters that a collection reads, from this machine alone. *)
Definition stat_counters (s : string) : gmap string Counters := (parseCpu s []).1.
Definition stat_of : option string := readFile a "/proc/stat" kProcLimit.

Lemma collectCpu_spec before ds : let '(r, counters) := collectCpu a before ds in
  match stat_of with
  | None => cr_usage r = None /\ cr_logical r = [] /\ counters = before
  | Some s =>
      counters = stat_counters s /\
      cr_usage r = (now ← stat_counters s !! "cpu"%string; ratio_since before "cpu" now) /\
      cr_logical r ≡ₚ map (logical_entry before) (List.filter is_logical (map_to_list (stat_counters s)))
  end.
Proof.
  unfold collectCpu, stat_of, stat_counters. destruct (readFile _ _ _) as [s|]; [|done].
  rewrite <- (parseCpu_counters s ds []). destruct (parseCpu s ds) as [m ds']. cbn [fst]. split; [done|]. split.
  - assert (Hnd : NoDup (hash_entries m).*1) by (rewrite hash_entries_perm; apply NoDup_fst_map_to_list).
    destruct (cpuFold_usage before (hash_entries m) {| cr_usage := None; cr_logical := []; cr_diagnostics := ds' |} Hnd) as [H1 H2].
    destruct (m !! "cpu"%string) as [now|] eqn:E; cbn.
    + apply H1. rewrite hash_entries_perm. by apply elem_of_map_to_list.
    + apply H2. rewrite hash_entries_perm. intros ([k x] & Ek & Hin)%list_elem_of_fmap. apply elem_of_map_to_list in Hin. cbn in Ek. subst k. congruence.
  - rewrite cpuFold_logical. cbn [app cr_logical]. apply Permutation_map.
    induction (hash_entries_perm m); cbn; repeat case_if; econstructor; eauto.
Qed.
(** *** Network *)

(** The two counters of an interface that is remembered. *)
Definition interface_counters (name : string) : option (Z * Z) :=
  if String.eqb name "lo" then None
  else rx ← counter_of a name "rx_bytes"; tx ← counter_of a name "tx_bytes"; Some (rx, tx).

Definition rate_between (elapsed : double) (before now : Z) : option double :=
  if before <=? now then Some (ddiv (double_of_Z (now - before)) elapsed) else None.

(** The rate of one of the two counters, from those remembered of an interface. *)
Definition rate_since (elapsed : double) (before now : option (Z * Z)) (counter : Z * Z -> Z) : option double :=
  b ← before; n ← now; if dltb d0 elapsed then rate_between elapsed (counter b) (counter n) else None.

Definition interface_of (elapsed : double) (before : gmap string (Z * Z)) (name : string) : option NetworkInterface :=
  if String.eqb name "lo" || negb (has_value (counter_of a name "rx_bytes") || has_value (counter_of a name "tx_bytes"))
  then None
  else Some {| ni_name := name; rx_bytes := counter_of a name "rx_bytes"; tx_bytes := counter_of a name "tx_bytes";
               rx_bytes_per_second := rate_since elapsed (before !! name) (interface_counters name) fst;
               tx_bytes_per_second := rate_since elapsed (before !! name) (interface_counters name) snd |}.

Lemma counter_rate_fst elapsed now before text : (counter_rate elapsed now before text).1 = rate_between elapsed before now.
Proof. unfold counter_rate, rate_between. by case_if. Qed.

Lemma networkEntry_spec elapsed before r name :
  nr_interfaces (networkEntry a elapsed before r name) =
    nr_interfaces r ++ match interface_of elapsed before name with Some i => [i] | None => [] end /\
  nr_next (networkEntry a elapsed before r name) =
    match interface_counters name with Some p => <[name := p]> (nr_next r) | None => nr_next r end.
Proof.
  unfold networkEntry, interface_of, interface_counters. destruct (String.eqb name "lo"); cbn [orb]; [by rewrite app_nil_r|].
  destruct (counter_of a name "rx_bytes") as [rx|] eqn:Er, (counter_of a name "tx_bytes") as [tx|] eqn:Et; cbn.
  - destruct (before !! name) as [[prx ptx]|]; cbn; [|done]. destruct (dltb d0 elapsed); cbn; [|done].
    rewrite <- (counter_rate_fst elapsed rx prx ("Network RX counter reset for " ++ name)%string).
    rewrite <- (counter_rate_fst elapsed tx ptx ("Network TX counter reset for " ++ name)%string).
    by destruct (counter_rate _ rx _ _), (counter_rate _ tx _ _).
  - by destruct (before !! name).
  - by destruct (before !! name).
  - by rewrite app_nil_r.
Qed.

Lemma networkFold_interfaces elapsed before names r :
  nr_interfaces (fold_left (networkEntry a elapsed before) names r) = nr_interfaces r ++ omap (interface_of elapsed before) names.
Proof.
  revert r. induction names as [|n names IH]; intros r; cbn [fold_left omap list_omap]; [by rewrite app_nil_r|].
  rewrite IH. destruct (networkEntry_spec elapsed before r n) as [-> _]. rewrite <- app_assoc. f_equal.
  by destruct (interface_of elapsed before n).
Qed.

Lemma networkFold_next elapsed before names r n :
  nr_next (fold_left (networkEntry a elapsed before) names r) !! n =
  if bool_decide (n ∈ names) then match interface_counters n with Some p => Some p | None => nr_next r !! n end
  else nr_next r !! n.
Proof.
  revert r. induction names as [|m names IH]; intros r; cbn [fold_left]; [done|].
  rewrite IH. destruct (networkEntry_spec elapsed before r m) as [_ ->].
  destruct (decide (n = m)) as [->|Hne].
  - rewrite (bool_decide_eq_true_2 (m ∈ m :: names)) by left.
    destruct (interface_counters m) as [p|]; case_if; try done. by rewrite lookup_insert_eq.
  - assert (E : match interface_counters m with Some p => <[m:=p]> (nr_next r) | None => nr_next r end !! n = nr_next r !! n)
      by (destruct (interface_counters m); [by rewrite lookup_insert_ne|done]).
    rewrite E. replace (bool_decide (n ∈ m :: names)) with (bool_decide (n ∈ names)); [done|].
    apply bool_decide_ext. rewrite elem_of_cons. naive_solver.
Qed.
(** *** Storage *)

Definition mount_points (l : list StorageVolume) : list string := map mount_point l.

(** What the loop adds: usable volumes in order, no mount point twice, until there are 64. *)
Lemma storageLoop_spec vols seen found :
  (length found < kMaximumStorageVolumes)%nat -> seen = list_to_set (mount_points found) -> NoDup (mount_points found) ->
  exists sources, let result := found ++ map volume_entry sources in
    storageLoop vols seen found = result /\ sources `sublist_of` List.filter volume_usable vols /\
    (length result <= kMaximumStorageVolumes)%nat /\ NoDup (mount_points result) /\
    ((length result < kMaximumStorageVolumes)%nat ->
     forall v, v ∈ vols -> volume_usable v = true -> s_mount_point v ∈ mount_points result).
Proof.
  revert seen found. induction vols as [|v vols IH]; intros seen found Hl -> Hnd; cbn [storageLoop List.filter].
  { exists []. cbn. rewrite app_nil_r. repeat split; [constructor|lia|done|]. intros _ v Hv. by inversion Hv. }
  assert (Hsnoc : mount_points (found ++ [volume_entry v]) = mount_points found ++ [s_mount_point v])
    by (unfold mount_points; by rewrite map_app).
  destruct (volume_usable v) eqn:Ev; cbn [negb orb].
  2: { destruct (IH _ found Hl eq_refl Hnd) as (ex & E & Hs & Hlen & Hn & Hc). exists ex. repeat split; try done.
       intros H64 w [->|Hw]%elem_of_cons Hw'; [congruence|]. by apply Hc. }
  destruct (bool_decide _) eqn:Eb; bool_facts; rewrite elem_of_list_to_set in Eb.
  { destruct (IH _ found Hl eq_refl Hnd) as (ex & E & Hs & Hlen & Hn & Hc). exists ex. repeat split; try done.
    - by apply sublist_cons.
    - intros H64 w [->|Hw]%elem_of_cons Hw'; [|by apply Hc].
      unfold mount_points in *. rewrite map_app. by apply elem_of_app; left. }
  assert (Hnd' : NoDup (mount_points (found ++ [volume_entry v]))).
  { rewrite Hsnoc. apply NoDup_app. split; [done|]. split; [set_solver|apply NoDup_singleton]. }
  destruct (_ =? _)%nat eqn:E64.
  - apply Nat.eqb_eq in E64. exists [v]. cbn [map]. rewrite E64. repeat split; try done; [|lia].
    apply sublist_skip, sublist_nil_l.
  - apply Nat.eqb_neq in E64. rewrite length_app in E64. cbn in E64.
    destruct (IH ({[s_mount_point v]} ∪ list_to_set (mount_points found)) (found ++ [volume_entry v])) as (ex & E & Hs & Hlen & Hn & Hc);
      [rewrite length_app; cbn; lia|rewrite Hsnoc; set_solver|done|].
    exists (v :: ex). rewrite <- app_assoc in *. cbn [app map] in *. repeat split; try done; [by apply sublist_skip|].
    intros H64 w [->|Hw]%elem_of_cons Hw'; [|by apply Hc].
    unfold mount_points. rewrite map_app. apply elem_of_app. right. by left.
Qed.

Lemma volume_before_order : strict_order volume_before.
Proof.
  destruct q_lessThan_order as [Ha Ht]. unfold volume_before. split.
  - intros x y. destruct (String.eqb (s_mount_point x) "/"), (String.eqb (s_mount_point y) "/"); cbn; auto.
  - intros x y z. destruct (String.eqb (s_mount_point x) "/"), (String.eqb (s_mount_point y) "/"),
      (String.eqb (s_mount_point z) "/"); cbn; eauto; done.
Qed.

(** The order of the report: the root first, the others by mount point. *)
Definition mount_order (x y : StorageVolume) : Prop :=
  mount_point x = "/"%string \/ (mount_point y <> "/"%string /\ q_lessThan (mount_point x) (mount_point y) = true).

Lemma sublist_sorted {A} (R : A -> A -> Prop) l l' : l `sublist_of` l' -> StronglySorted R l' -> StronglySorted R l.
Proof.
  induction 1 as [|x l l' Hs IH|x l l' Hs IH]; intros Hl; [done| |]; inversion Hl as [|? ? Hl' Hx]; subst; [|auto].
  constructor; [auto|]. rewrite Forall_forall in *. intros y Hy. apply Hx. by eapply elem_of_sublist.
Qed.

Lemma filter_sublist {A} (f : A -> bool) l : List.filter f l `sublist_of` l.
Proof. induction l as [|x l IH]; cbn; [constructor|]. destruct (f x); by constructor. Qed.

Lemma not_after_mount_order l : StronglySorted (fun x y => volume_before y x = false) l -> NoDup (map s_mount_point l) ->
  StronglySorted mount_order (map volume_entry l).
Proof.
  induction 1 as [|x l Hl IH Hx]; cbn; intros Hnd; [constructor|]. apply NoDup_cons in Hnd as [Hn Hnd].
  constructor; [auto|]. apply Forall_map. rewrite Forall_forall in *. intros y Hy. specialize (Hx y Hy).
  assert (Hne : s_mount_point x <> s_mount_point y) by (intros E; apply Hn; rewrite E; by apply list_elem_of_fmap_2).
  unfold mount_order, volume_before in *. cbn.
  destruct (String.eqb_spec (s_mount_point x) "/"), (String.eqb_spec (s_mount_point y) "/"); cbn in Hx; try congruence; [by left|].
  right. split; [done|]. destruct (q_lessThan (s_mount_point x) (s_mount_point y)) eqn:E; [done|].
  by destruct Hne; apply q_lessThan_total.
Qed.
(** A reported volume. *)
Definition volume_ok (v : StorageVolume) : Prop :=
  (exists t x, sv_total_bytes v = Some t /\ sv_available_bytes v = Some x /\ 0 < t <= uint64_max /\ 0 <= x <= t) /\
  primary v = String.eqb (mount_point v) "/" /\
  1 <= size (mount_point v) <= 256 /\ 1 <= size (device_name v) <= 256.

Lemma nonempty_size s : String.eqb s "" = false -> 1 <= size s.
Proof. unfold size. destruct s; [done|]. cbn. lia. Qed.

Lemma volume_entry_ok v : is_u64 (s_total_bytes v) -> is_u64 (s_available_bytes v) -> volume_usable v = true ->
  volume_ok (volume_entry v).
Proof.
  intros Ht Hx Hu. unfold volume_usable in Hu. bool_facts. unfold is_u64 in *. split.
  - exists (s_total_bytes v), (s_available_bytes v). cbn. repeat split; lia.
  - cbn. repeat split; auto using nonempty_size.
Qed.

Lemma collectStorage_spec : Forall (fun v => is_u64 (s_total_bytes v) /\ is_u64 (s_available_bytes v)) (storageVolumes a) ->
  let l := collectStorage a in
  (length l <= kMaximumStorageVolumes)%nat /\ NoDup (mount_points l) /\ StronglySorted mount_order l /\ Forall volume_ok l /\
  ((length l < kMaximumStorageVolumes)%nat ->
   forall v, v ∈ storageVolumes a -> volume_usable v = true -> s_mount_point v ∈ mount_points l).
Proof.
  intros Hv l. unfold l, collectStorage. set (vols := ranges_sort _ _).
  assert (Hp : vols ≡ₚ storageVolumes a) by apply ranges_sort_perm.
  destruct (storageLoop_spec vols ∅ []) as (sources & E & Hs & Hl & Hnd & Hc); [cbn; unfold kMaximumStorageVolumes; lia|done|constructor|].
  cbn [app] in *. rewrite E. split; [done|]. split; [done|]. split; [|split].
  - apply not_after_mount_order; [|by unfold mount_points in Hnd; rewrite map_map in Hnd].
    eapply sublist_sorted; [etrans; [exact Hs|apply filter_sublist]|]. apply ranges_sort_sorted, volume_before_order.
  - apply Forall_map. rewrite Forall_forall in *. intros v Hin. eapply elem_of_sublist in Hin; [|exact Hs].
    apply list_elem_of_In, filter_In in Hin as [Hin%list_elem_of_In Hu]. rewrite Hp in Hin.
    destruct (Hv v Hin). by apply volume_entry_ok.
  - intros H64 v Hin. apply Hc; [done|]. by rewrite Hp.
Qed.

(** *** Temperatures and GPU *)

Lemma thermal_ok zones st : known finite_nonneg st.1 -> known finite_nonneg st.2 ->
  known finite_nonneg (fold_left (thermalZone a) zones st).1 /\ known finite_nonneg (fold_left (thermalZone a) zones st).2.
Proof.
  revert st. induction zones as [|z zones IH]; intros st H1 H2; cbn [fold_left]; [done|].
  assert (Hk : known finite_nonneg (thermalZone a st z).1 /\ known finite_nonneg (thermalZone a st z).2).
  { unfold thermalZone. case_if; [done|]. destruct (readFile _ _ _) as [type|]; [|done]. case_if; [done|].
    destruct (mbind _ _) as [milli|] eqn:E; [|done]. apply bind_Some in E as (raw & _ & E%degrees_ok).
    cbn. split; case_if; auto with dash. }
  destruct Hk. by apply IH.
Qed.

Definition gpu_ok (g : Gpu) : Prop :=
  gpu_name g = "V3D"%string /\ known (fun f => 0 < f <= int64_max) (core_clock_hz g) /\
  known finite_nonneg (gpu_temperature_celsius g).

Lemma collectGpu_ok temperature ds : known finite_nonneg temperature ->
  (length (collectGpu a temperature ds).1 <= 1)%nat /\ Forall gpu_ok (collectGpu a temperature ds).1.
Proof.
  intros Ht. unfold collectGpu. cbn zeta. set (raw := mbind _ _).
  assert (Hc : forall o : option Z, known (fun f => 0 < f <= int64_max) o -> forall (b : bool) d1 d2,
    let r := if b then ([{| gpu_name := "V3D"; gpu_usage_ratio := None; memory_total_bytes := None; memory_used_bytes := None;
         core_clock_hz := o; memory_clock_hz := None; gpu_temperature_celsius := temperature |}], d1 : list string) else ([], d2) in
    (length r.1 <= 1)%nat /\ Forall gpu_ok r.1).
  { intros o Ho [] d1 d2; cbn; (split; [lia|]); [|constructor]. apply Forall_singleton. split; [done|split; done]. }
  destruct raw as [raw|]; [|apply Hc; auto with dash].
  destruct (unsignedValue raw) as [f|]; [|apply Hc; auto with dash]. case_if; [|apply Hc; auto with dash].
  apply Hc, known_Some. bool_facts. lia.
Qed.
End parts.

(** ** Reports *)

Definition logical_ok (c : LogicalCpu) : Prop :=
  known (fun d => in_unit d = true) (lc_usage_ratio c) /\ known is_u64 (lc_frequency_hz c).

Definition interface_ok (i : NetworkInterface) : Prop :=
  ni_name i <> ""%string /\ known is_u64 (rx_bytes i) /\ known is_u64 (tx_bytes i) /\
  known finite_nonneg (rx_bytes_per_second i) /\ known finite_nonneg (tx_bytes_per_second i).

(** A report as the protocol and the bindings want it. *)
Record metrics_ok `{QtText} (m : SystemMetrics) : Prop := {
  ok_usage : known (fun d => in_unit d = true) (usage_ratio (m_cpu m));
  ok_logical : Forall logical_ok (logical_cpus (m_cpu m));
  ok_logical_count : Z.of_nat (length (logical_cpus (m_cpu m))) <= kProcLimit + 1;
  ok_temperature : known finite_nonneg (temperature_celsius (m_cpu m));
  ok_memory : memory_ok (m_memory m);
  ok_uptime : known finite_nonneg (uptime_seconds (m_system m));
  ok_load : known finite_nonneg (load_average_1m (m_system m)) /\ known finite_nonneg (load_average_5m (m_system m)) /\
            known finite_nonneg (load_average_15m (m_system m));
  ok_volumes : (length (storage_volumes m) <= kMaximumStorageVolumes)%nat /\ NoDup (mount_points (storage_volumes m)) /\
               StronglySorted mount_order (storage_volumes m) /\ Forall volume_ok (storage_volumes m);
  ok_interfaces : Forall interface_ok (network_interfaces m);
  ok_gpus : (length (gpus m) <= 1)%nat /\ Forall gpu_ok (gpus m) }.

Section reports.
Context `{QtText}.

Lemma ratio_since_unit before key now : map_Forall (fun _ x => counters_ok x) before -> counters_ok now ->
  known (fun d => in_unit d = true) (ratio_since before key now).
Proof.
  intros Hb Hn d. unfold ratio_since. destruct (before !! key) as [p|] eqn:E; [|done]. cbn.
  apply usage_between_unit; [by eapply Hb|done].
Qed.

Lemma cpu_frequency_u64 a index : known is_u64 (cpu_frequency a index).
Proof.
  intros f. unfold cpu_frequency. intros (s & _ & (v & Ev%unsignedValue_u64 & E)%bind_Some)%bind_Some. case_if; [|done].
  injection E as <-. bool_facts. unfold is_u64, uint64_max in *. change (18446744073709551615 / 1000) with 18446744073709551 in *. lia.
Qed.

Lemma stat_counters_ok s : map_Forall (fun _ x => counters_ok x) (stat_counters s) /\
  (base.size (stat_counters s) <= S (String.length s))%nat.
Proof. apply parseCpu_ok. Qed.

Lemma length_filter_le {A} (f : A -> bool) l : (length (List.filter f l) <= length l)%nat.
Proof. apply sublist_length, filter_sublist. Qed.

Lemma cpu_ok a before ds : access_ok a -> map_Forall (fun _ x => counters_ok x) before ->
  let '(r, counters) := collectCpu a before ds in
  known (fun d => in_unit d = true) (cr_usage r) /\ Forall logical_ok (cr_logical r) /\
  Z.of_nat (length (cr_logical r)) <= kProcLimit + 1 /\ map_Forall (fun _ x => counters_ok x) counters.
Proof.
  intros (Hlim & _) Hb. pose proof (collectCpu_spec a before ds) as Hs. destruct (collectCpu a before ds) as [r counters].
  destruct (stat_of a) as [s|] eqn:Es.
  - destruct Hs as (-> & Hu & Hl). destruct (stat_counters_ok s) as [Hok Hsize]. split; [|split; [|split; [|done]]].
    + rewrite Hu. intros d (now & Hn%Hok & E)%bind_Some. by eapply ratio_since_unit in E.
    + rewrite Hl. apply Forall_map. rewrite Forall_forall. intros [k now] [Hin _]%list_elem_of_In%filter_In.
      apply list_elem_of_In, elem_of_map_to_list, Hok in Hin. split; cbn; [by apply ratio_since_unit|apply cpu_frequency_u64].
    + rewrite Hl, length_map. pose proof (length_filter_le is_logical (map_to_list (stat_counters s))) as Hf.
      rewrite length_map_to_list in Hf. apply Hlim in Es. unfold size in Es. lia.
  - destruct Hs as (-> & -> & ->). split; [apply known_None|]. split; [constructor|done].
Qed.

Lemma memory_collected a ds : memory_ok (collectMemory a ds).1.
Proof.
  unfold collectMemory. destruct (readFile _ _ _) as [s|]; [apply parseMemory_ok|].
  unfold memory_ok, no_memory. cbn. repeat split; auto with dash; done.
Qed.

Lemma counter_of_u64 a name counter : known is_u64 (counter_of a name counter).
Proof. intros n (s & _ & E%unsignedValue_u64)%bind_Some. done. Qed.

Lemma interface_counters_u64 a name b : interface_counters a name = Some b -> is_u64 b.1 /\ is_u64 b.2.
Proof.
  unfold interface_counters. case_if; [done|]. intros (x & Hx%counter_of_u64 & (y & Hy%counter_of_u64 & [= <-])%bind_Some)%bind_Some. done.
Qed.

Lemma rate_since_ok previous now before after counter : -1 <= previous -> now <= int64_max ->
  known (fun b => is_u64 (counter b)) before -> known (fun b => is_u64 (counter b)) after ->
  known finite_nonneg (rate_since (elapsed_seconds previous now) before after counter).
Proof.
  intros Hp Hn Hb Ha d. unfold rate_since. intros (b & Eb%Hb & (n & En%Ha & E)%bind_Some)%bind_Some.
  destruct (dltb d0 _) eqn:Ee; [|done]. unfold rate_between in E. case_if; [|done]. injection E as <-. bool_facts.
  apply rate_ok; try done. unfold is_u64 in *. lia.
Qed.

Lemma interfaces_ok a previous before : access_ok a -> -1 <= previous ->
  map_Forall (fun _ p => is_u64 p.1 /\ is_u64 p.2) before ->
  Forall interface_ok (omap (interface_of a (elapsed_seconds previous (monotonicMilliseconds a)) before)
                            (directoryEntries a "/sys/class/net")).
Proof.
  intros (_ & Hnames & _ & Hclock) Hp Hb. rewrite Forall_forall. intros i (name & Hin & Hi)%list_elem_of_omap.
  specialize (Hnames "/sys/class/net"%string). rewrite Forall_forall in Hnames. apply Hnames in Hin.
  unfold interface_of in Hi. case_if; [done|]. injection Hi as <-.
  split; [done|]. split; [apply counter_of_u64|]. split; [apply counter_of_u64|]. cbn.
  split; apply rate_since_ok; try lia.
  all: intros b E; first [apply Hb in E | apply interface_counters_u64 in E]; tauto.
Qed.
End reports.

(** ** Runs *)

Section runs.
Context `{QtText}.

Definition report (a : LinuxSysMetricsAccess) (c : Collector) : SystemMetrics := (collect a c).1.1.

(** The collector after collections on these machines, in order. *)
Definition after (history : list LinuxSysMetricsAccess) : Collector :=
  fold_left (fun c a => (collect a c).2) history new_collector.

(** The parts of [collect], one by one. *)
Lemma collect_parts a c : let m := report a c in let elapsed := elapsed_seconds (previous_time_ms c) (monotonicMilliseconds a) in
  usage_ratio (m_cpu m) = cr_usage (collectCpu a (cpu_counters c) []).1 /\
  logical_cpus (m_cpu m) = cr_logical (collectCpu a (cpu_counters c) []).1 /\
  temperature_celsius (m_cpu m) = (fold_left (thermalZone a) (directoryEntries a "/sys/class/thermal") (None, None)).1 /\
  (exists ds, m_memory m = (collectMemory a ds).1) /\
  m_system m = collectSystem a /\ storage_volumes m = collectStorage a /\
  network_interfaces m = omap (interface_of a elapsed (network_counters c)) (directoryEntries a "/sys/class/net") /\
  (exists ds, gpus m =
     (collectGpu a (fold_left (thermalZone a) (directoryEntries a "/sys/class/thermal") (None, None)).2 ds).1) /\
  cpu_counters (collect a c).2 = (collectCpu a (cpu_counters c) []).2 /\
  (forall n, network_counters (collect a c).2 !! n =
     if bool_decide (n ∈ directoryEntries a "/sys/class/net") then interface_counters a n else None) /\
  previous_time_ms (collect a c).2 = monotonicMilliseconds a.
Proof.
  unfold report, collect. cbn zeta. destruct (collectCpu a (cpu_counters c) []) as [cpu counters].
  destruct (collectMemory a (cr_diagnostics cpu)) as [memory ds] eqn:Em.
  destruct (fold_left (thermalZone a) _ _) as [t g]. set (net := fold_left (networkEntry a _ _) _ _).
  destruct (collectGpu a g (nr_diagnostics net)) as [gs ds'] eqn:Eg. cbn.
  split; [done|]. split; [done|]. split; [done|]. split; [exists (cr_diagnostics cpu); by rewrite Em|].
  split; [done|]. split; [done|]. split; [unfold net; by rewrite networkFold_interfaces|].
  split; [exists (nr_diagnostics net); by rewrite Eg|]. split; [done|]. split; [|done].
  intros n. unfold net. rewrite networkFold_next. cbn. case_if; [by destruct (interface_counters a n)|done].
Qed.

Lemma collect_ok a c : access_ok a -> collector_ok c -> collector_ok (collect a c).2.
Proof.
  intros Ha (Hcpu & _ & _). destruct (collect_parts a c) as (_ & _ & _ & _ & _ & _ & _ & _ & E1 & E2 & E3).
  pose proof (cpu_ok a (cpu_counters c) [] Ha Hcpu) as Hok. destruct (collectCpu a (cpu_counters c) []) as [r counters].
  destruct Hok as (_ & _ & _ & Hok). split; [by rewrite E1|]. split.
  - intros n p. rewrite E2. case_if; [|done]. apply interface_counters_u64.
  - rewrite E3. destruct Ha as (_ & _ & _ & ?). lia.
Qed.

Lemma after_snoc history a : after (history ++ [a]) = (collect a (after history)).2.
Proof. unfold after. by rewrite fold_left_app. Qed.

Lemma after_ok history : Forall access_ok history -> collector_ok (after history).
Proof.
  induction history as [|a history IH] using rev_ind; intros Hh; [apply new_collector_ok|].
  apply Forall_app in Hh as [Hh Ha]. rewrite Forall_singleton in Ha. rewrite after_snoc. apply collect_ok; [done|by apply IH].
Qed.

(** What is remembered of a run: the last readable /proc/stat, and of the last machine the
    clock and the interfaces. *)
Lemma after_cpu history : cpu_counters (after history) = default ∅ (stat_counters <$> last (omap stat_of history)).
Proof.
  induction history as [|a history IH] using rev_ind; [done|]. rewrite after_snoc.
  destruct (collect_parts a (after history)) as (_ & _ & _ & _ & _ & _ & _ & _ & -> & _).
  pose proof (collectCpu_spec a (cpu_counters (after history)) []) as Hs.
  destruct (collectCpu a _ []) as [r counters]. cbn [snd]. rewrite omap_app. cbn [omap list_omap].
  destruct (stat_of a) as [s|]; [|by rewrite app_nil_r; destruct Hs as (_ & _ & ->)].
  destruct Hs as (-> & _). by rewrite last_snoc.
Qed.

Lemma after_last history : match last history with
  | Some p => previous_time_ms (after history) = monotonicMilliseconds p /\
      forall n, network_counters (after history) !! n =
        if bool_decide (n ∈ directoryEntries p "/sys/class/net") then interface_counters p n else None
  | None => after history = new_collector
  end.
Proof.
  destruct history as [|a history _] using rev_ind; [done|]. rewrite last_snoc, after_snoc.
  by destruct (collect_parts a (after history)) as (_ & _ & _ & _ & _ & _ & _ & _ & _ & ? & ?).
Qed.

Lemma known_service o : known is_u64 o -> MetricsService.is_u64 o.
Proof. intros Ho. destruct o as [n|]; [by apply Ho|done]. Qed.

(** C21. Every report of every run is well formed, whatever the files say: ratios lie in
    [0, 1]; temperatures, load, uptime and rates are finite and not negative; available
    memory and space never exceed the total, which is positive; the volumes have different
    mount points, the root first and the others in order, at most 64, and none that is
    usable is left out below 64; there is at most one GPU.  It meets the conditions under
    which the bindings of the metrics service are right ([metrics_values]). *)
Theorem local_metrics_valid history a (Hhistory : Forall access_ok history) (Ha : access_ok a) :
  let m := report a (after history) in
  metrics_ok m /\
  ((length (storage_volumes m) < kMaximumStorageVolumes)%nat ->
   forall v, v ∈ storageVolumes a -> volume_usable v = true -> s_mount_point v ∈ mount_points (storage_volumes m)) /\
  MetricsService.u64_memory (m_memory m) /\ Forall MetricsService.u64_volume (storage_volumes m) /\
  MetricsService.u64_cpus (logical_cpus (m_cpu m)) /\ Z.of_nat (length (logical_cpus (m_cpu m))) <= uint64_max /\
  Forall (fun i => ni_name i <> ""%string) (network_interfaces m).
Proof.
  intros m. destruct (after_ok history Hhistory) as (Hcpu & Hnet & Hprev).
  assert (Hok : metrics_ok m /\ ((length (storage_volumes m) < kMaximumStorageVolumes)%nat ->
    forall v, v ∈ storageVolumes a -> volume_usable v = true -> s_mount_point v ∈ mount_points (storage_volumes m))).
  { destruct (collect_parts a (after history)) as (E1 & E2 & E3 & [ds E4] & E5 & E6 & E7 & [ds' E8] & _). fold m in E1, E2, E3, E4, E5, E6, E7, E8.
    pose proof (cpu_ok a (cpu_counters (after history)) [] Ha Hcpu) as Hc.
    destruct (collectCpu a _ []) as [r counters]. destruct Hc as (Hc1 & Hc2 & Hc3 & _).
    destruct (collectStorage_spec a (proj1 (proj2 (proj2 Ha)))) as (Hs1 & Hs2 & Hs3 & Hs4 & Hs5).
    destruct (thermal_ok a (directoryEntries a "/sys/class/thermal") (None, None)) as [Ht1 Ht2]; [apply known_None..|].
    split; [|by rewrite E6]. split; rewrite ?E1, ?E2, ?E3, ?E4, ?E5, ?E6, ?E7, ?E8; try done.
    - apply memory_collected.
    - intros d (s & _ & E)%bind_Some. by apply nonnegativeDouble_ok in E.
    - cbn. destruct (readFile _ _ _); [|split; [|split]; apply known_None]. case_if; [|split; [|split]; apply known_None].
      split; [|split]; apply nonnegativeDouble_ok.
    - apply interfaces_ok; [done|lia|done].
    - by apply collectGpu_ok. }
  destruct Hok as [Hok Hcomplete]. split; [done|]. split; [done|]. destruct Hok as [_ Hl Hlen _ (M1 & M2 & M3 & M4 & _) _ _ (_ & _ & _ & Hv) Hi _].
  split; [|split; [|split; [|split]]].
  - split; [apply known_service; intros t Ht; apply M1 in Ht; unfold is_u64; lia|].
    split; [by apply known_service|]. split; by apply known_service.
  - eapply Forall_impl; [exact Hv|]. intros v [(t & x & Et & Ex & ? & ?) _].
    unfold MetricsService.u64_volume, MetricsService.is_u64. rewrite Et, Ex. lia.
  - eapply Forall_impl; [exact Hl|]. intros c [_ Hf]. by apply known_service.
  - unfold kProcLimit, uint64_max in *. lia.
  - eapply Forall_impl; [exact Hi|]. by intros i [? _].
Qed.
(** ** Between two collections *)

(** The rate of a counter of an interface between the last machine of the run and [a]. *)
Definition rate_seen (history : list LinuxSysMetricsAccess) (a : LinuxSysMetricsAccess) (name : string)
    (counter : Z * Z -> Z) (r : double) : Prop :=
  exists p b n, last history = Some p /\ name ∈ directoryEntries p "/sys/class/net" /\
    interface_counters p name = Some b /\ interface_counters a name = Some n /\
    monotonicMilliseconds p < monotonicMilliseconds a /\ counter b <= counter n /\
    r = ddiv (double_of_Z (counter n - counter b))
             (ddiv (double_of_Z (monotonicMilliseconds a - monotonicMilliseconds p)) d1000).

Lemma rate_since_seen history a name counter r : Forall access_ok history -> access_ok a ->
  rate_since (elapsed_seconds (previous_time_ms (after history)) (monotonicMilliseconds a))
    (network_counters (after history) !! name) (interface_counters a name) counter = Some r <->
  rate_seen history a name counter r.
Proof.
  intros Hh (_ & _ & _ & Ha). pose proof (after_last history) as Hl. unfold rate_seen, rate_since.
  destruct (last history) as [p|] eqn:El.
  2: { rewrite Hl. cbn. rewrite lookup_empty. split; [done|]. by intros (p & b & n & ? & _). }
  assert (Hp : 0 <= monotonicMilliseconds p).
  { rewrite Forall_forall in Hh. destruct (Hh p) as (_ & _ & _ & ?); [|lia]. apply last_Some in El as [l ->]. set_solver. }
  destruct Hl as [Et ->]. rewrite Et, elapsed_positive by lia. rewrite (proj2 (Z.leb_le 0 _) Hp). cbn [andb].
  unfold elapsed_seconds, rate_between. rewrite (proj2 (Z.leb_le 0 _) Hp). cbn [andb]. split.
  - intros (b & Eb & (n & En & E)%bind_Some)%bind_Some. case_bool_decide; [|done].
    destruct (Z.ltb_spec (monotonicMilliseconds p) (monotonicMilliseconds a)); [|done].
    destruct (Z.leb_spec (counter b) (counter n)); [|done]. injection E as <-. by exists p, b, n.
  - intros (p' & b & n & [= <-] & Hin & Eb & En & Hlt & Hle & ->). rewrite bool_decide_eq_true_2, Eb, En by done. cbn.
    by rewrite (proj2 (Z.ltb_lt _ _)), (proj2 (Z.leb_le _ _)).
Qed.

(** The ratio of a processor between the last /proc/stat that was readable and its counters now. *)
Definition ratio_seen (before : gmap string Counters) (key : string) (now : Counters) (r : double) : Prop :=
  exists p, before !! key = Some p /\ total p < total now /\ active p <= active now /\
    active now - active p <= total now - total p /\
    r = ddiv (double_of_Z (active now - active p)) (double_of_Z (total now - total p)).

Lemma ratio_since_seen before key now r : ratio_since before key now = Some r <-> ratio_seen before key now r.
Proof.
  unfold ratio_since, ratio_seen, usage_between. destruct (before !! key) as [p|]; cbn.
  2: { split; [done|by intros (? & ? & _)]. }
  destruct (Z.ltb_spec (total p) (total now)), (Z.leb_spec (active p) (active now)),
    (Z.leb_spec (active now - active p) (total now - total p)); cbn; split;
    try (by intros [= <-]; exists p); try done; intros (? & [= <-] & ? & ? & ? & ->); (done || lia).
Qed.

(** What a report says of the machine alone: everything but processor ratios and network rates. *)
Definition same_machine (m m' : SystemMetrics) : Prop :=
  m_memory m = m_memory m' /\ m_system m = m_system m' /\ storage_volumes m = storage_volumes m' /\
  gpus m = gpus m' /\ temperature_celsius (m_cpu m) = temperature_celsius (m_cpu m') /\
  map (fun c => (lc_name c, lc_frequency_hz c)) (logical_cpus (m_cpu m)) ≡ₚ
    map (fun c => (lc_name c, lc_frequency_hz c)) (logical_cpus (m_cpu m')).

Lemma collectMemory_text a ds ds' : (collectMemory a ds).1 = (collectMemory a ds').1.
Proof. unfold collectMemory. by destruct (readFile _ _ _). Qed.

Lemma collectGpu_text a g ds ds' : (collectGpu a g ds).1 = (collectGpu a g ds').1.
Proof. unfold collectGpu. cbv zeta. repeat (case_match; simplify_eq; try done). Qed.

Lemma logical_names a c s : stat_of a = Some s ->
  map (fun e => (lc_name e, lc_frequency_hz e)) (logical_cpus (m_cpu (report a c))) ≡ₚ
  map (fun e => (e.1, cpu_frequency a (str_drop 3 e.1))) (List.filter is_logical (map_to_list (stat_counters s))).
Proof.
  intros Es. destruct (collect_parts a c) as (_ & -> & _). pose proof (collectCpu_spec a (cpu_counters c) []) as Hs.
  destruct (collectCpu a _ []) as [r counters]. rewrite Es in Hs. destruct Hs as (_ & _ & Hl). cbn [fst]. rewrite Hl, map_map. done.
Qed.

Lemma report_same_machine a c c' : same_machine (report a c) (report a c').
Proof.
  destruct (collect_parts a c) as (_ & El & Et & [ds Em] & Es & Ev & _ & [dg Eg] & _).
  destruct (collect_parts a c') as (_ & El' & Et' & [ds' Em'] & Es' & Ev' & _ & [dg' Eg'] & _).
  unfold same_machine. rewrite Em, Em', Es, Es', Ev, Ev', Eg, Eg', Et, Et'.
  split; [apply collectMemory_text|]. split; [done|]. split; [done|]. split; [apply collectGpu_text|]. split; [done|].
  destruct (stat_of a) as [s|] eqn:E; [by rewrite !(logical_names a _ s E)|].
  rewrite El, El'. unfold collectCpu. fold (stat_of a). by rewrite E.
Qed.

(** All that is remembered of a run. *)
Lemma after_eq history history' : last (omap stat_of history) = last (omap stat_of history') ->
  last history = last history' -> after history = after history'.
Proof.
  intros Hs Hl. pose proof (after_cpu history) as Hc. rewrite Hs, <- after_cpu in Hc.
  pose proof (after_last history) as H1. pose proof (after_last history') as H2. rewrite <- Hl in H2.
  destruct (last history) as [p|]; [|congruence]. destruct H1 as [Ht1 Hn1], H2 as [Ht2 Hn2].
  assert (network_counters (after history) = network_counters (after history')) as Hn
    by (apply map_eq; intros n; by rewrite Hn1, Hn2).
  destruct (after history), (after history'). cbn in *. by subst.
Qed.

(** C22. Of the past a report depends on two readings alone, the last readable /proc/stat and
    the machine of the last collection: runs that agree on both give the same report.  On the
    past depend only the processor ratios and the network rates; memory, system, storage,
    GPUs, temperatures, and the processors' names and frequencies are those of this machine.
    The ratio of a processor is given exactly when the last readable /proc/stat has it, the
    total has grown, and the busy part has neither gone back nor grown by more; there is one
    entry per processor that /proc/stat lists.  An interface is listed when it is not the
    loopback and a counter of it is readable; a rate is given exactly when both collections
    read both counters, the clock has advanced and the counter has not gone back, and it is
    the difference by the time. *)
Theorem local_rates history a (Hhistory : Forall access_ok history) (Ha : access_ok a) :
  let m := report a (after history) in
  let before := default ∅ (stat_counters <$> last (omap stat_of history)) in
  (forall history', last (omap stat_of history) = last (omap stat_of history') -> last history = last history' ->
     report a (after history') = m) /\
  (forall c, same_machine m (report a c)) /\
  match stat_of a with
  | None => usage_ratio (m_cpu m) = None /\ logical_cpus (m_cpu m) = []
  | Some s =>
      (forall r, usage_ratio (m_cpu m) = Some r <->
         exists now, stat_counters s !! "cpu"%string = Some now /\ ratio_seen before "cpu" now r) /\
      map lc_name (logical_cpus (m_cpu m)) ≡ₚ map fst (List.filter is_logical (map_to_list (stat_counters s))) /\
      Forall (fun c => exists now, stat_counters s !! lc_name c = Some now /\
        lc_frequency_hz c = cpu_frequency a (str_drop 3 (lc_name c)) /\
        forall r, lc_usage_ratio c = Some r <-> ratio_seen before (lc_name c) now r) (logical_cpus (m_cpu m))
  end /\
  map ni_name (network_interfaces m) =
    List.filter (fun name => negb (String.eqb name "lo") &&
                   (has_value (counter_of a name "rx_bytes") || has_value (counter_of a name "tx_bytes")))
                (directoryEntries a "/sys/class/net") /\
  Forall (fun i =>
    rx_bytes i = counter_of a (ni_name i) "rx_bytes" /\ tx_bytes i = counter_of a (ni_name i) "tx_bytes" /\
    (forall r, rx_bytes_per_second i = Some r <-> rate_seen history a (ni_name i) fst r) /\
    (forall r, tx_bytes_per_second i = Some r <-> rate_seen history a (ni_name i) snd r)) (network_interfaces m).
Proof.
  intros m before. destruct (collect_parts a (after history)) as (E1 & E2 & _ & _ & _ & _ & E7 & _). fold m in E1, E2, E7.
  split; [intros history' Hs Hl; unfold m; by rewrite (after_eq history history' Hs Hl)|].
  split; [intros c; apply report_same_machine|]. split; [|rewrite E7; split].
  - rewrite E1, E2. unfold before. rewrite <- after_cpu. pose proof (collectCpu_spec a (cpu_counters (after history)) []) as Hs.
    destruct (collectCpu a _ []) as [r counters]. destruct (stat_of a) as [s|]; [|tauto]. destruct Hs as (_ & Hu & Hl). cbn [fst].
    split; [|split].
    + intros x. rewrite Hu, bind_Some. by setoid_rewrite ratio_since_seen.
    + by rewrite Hl, map_map.
    + rewrite Hl. apply Forall_map, Forall_forall. intros [key now] [Hin _]%list_elem_of_In%filter_In.
      apply list_elem_of_In, elem_of_map_to_list in Hin. exists now. split; [done|]. split; [done|].
      intros x. apply ratio_since_seen.
  - clear E7. induction (directoryEntries a "/sys/class/net") as [|n names IH]; cbn [omap list_omap List.filter]; [done|].
    unfold interface_of at 1. destruct (String.eqb n "lo"); cbn [negb andb orb]; [done|].
    destruct (has_value _ || has_value _)%bool; cbn [negb map ni_name]; [by f_equal|done].
  - rewrite Forall_forall. intros i (name & _ & Hi)%list_elem_of_omap. unfold interface_of in Hi. case_if; [done|].
    injection Hi as <-. cbn. split; [done|]. split; [done|]. split; intros r; by apply rate_since_seen.
Qed.
End runs.

(** ** A machine at two moments *)

(** A megabyte received and a quarter of the processor used within a second. *)
Definition sample_files (t : Z) (path : string) : option string :=
  if String.eqb path "/proc/stat"
  then Some (if t =? 0 then "cpu 100 0 0 300"%string else "cpu 200 0 0 600"%string)
  else if String.eqb path "/proc/meminfo"
  then Some ("MemTotal: 4 kB" ++ String newline "MemAvailable: 3 kB")%string
  else if String.eqb path "/sys/class/net/eth0/statistics/rx_bytes" then Some (if t =? 0 then "0"%string else "1000000"%string)
  else if String.eqb path "/sys/class/net/eth0/statistics/tx_bytes" then Some "7"%string
  else None.

Definition sample_machine (t : Z) : native_machine :=
  {| file_read path n := option_map (str_take (Z.to_nat n)) (sample_files t path);
     entryList path := if String.eqb path "/sys/class/net" then ["eth0"%string; "lo"%string] else [];
     mountedVolumes := [{| rootPath := "/"; device := "/dev/root"; isReady := true; isReadOnly := false;
                           bytesTotal := 100; bytesAvailable := 40 |}];
     timer_elapsed := t |}.

Definition sample_access (t : Z) : LinuxSysMetricsAccess := native_access (sample_machine t).

Lemma sample_access_ok t : 0 <= t <= int64_max -> access_ok (sample_access t).
Proof.
  intros Ht. apply native_access_ok; [|constructor; [done|constructor]|done].
  intros p. cbn. case_if; by repeat constructor.
Qed.

Lemma sample_history_ok : Forall access_ok [sample_access 0].
Proof. constructor; [|constructor]. by apply sample_access_ok. Qed.

Lemma sample_now_ok : access_ok (sample_access 1000).
Proof. by apply sample_access_ok. Qed.

Example sample_second_report :
  let m := report (sample_access 1000) (after [sample_access 0]) in
  usage_ratio (m_cpu m) = Some (ddiv (double_of_Z 100) (double_of_Z 400)) /\
  map rx_bytes_per_second (network_interfaces m) = [Some (double_of_Z 1000000)] /\
  available_bytes (m_memory m) = Some 3072 /\ length (storage_volumes m) = 1%nat.
Proof. vm_compute. repeat split. Qed.

Lemma local_metrics_valid_witness : Forall access_ok [sample_access 0] /\ access_ok (sample_access 1000) /\
  metrics_ok (report (sample_access 1000) (after [sample_access 0])).
Proof.
  split; [exact sample_history_ok|]. split; [exact sample_now_ok|]. exact (proj1 (local_metrics_valid [sample_access 0] (sample_access 1000) sample_history_ok sample_now_ok)).
Defined.

Lemma local_rates_witness : Forall access_ok [sample_access 0] /\ access_ok (sample_access 1000) /\
  map ni_name (network_interfaces (report (sample_access 1000) (after [sample_access 0]))) = ["eth0"%string].
Proof.
  split; [exact sample_history_ok|]. split; [exact sample_now_ok|].
  destruct (local_rates [sample_access 0] (sample_access 1000) sample_history_ok sample_now_ok) as (_ & _ & _ & E & _). rewrite E. vm_compute. reflexivity.
Defined.
