(* ===== verification/InfoService.v ===== *)
(** * The local information service (src/sysinfo/sys_info_service.cpp)

    [SysInfoService]: one collection at start and one per later request; unlike the
    metrics service, a request made while a collection runs is dropped. *)

From S2P Require Import Prelude.
From S2P Require Import Protocol.
From S2P Require Import QtModel.

Inductive State := Idle | Collecting | Ready | Partial | Error.

#[export] Instance State_eq_dec : EqDecision State. Proof. solve_decision. Defined.

Record SysInfoCollectionResult := { cr_info : SystemInfo; cr_diagnostics : list string }.

(** How the future ended: an exception with or without a message, or a result. *)
Inductive outcome := Threw (what : option string) | Collected (result : SysInfoCollectionResult).

Record SysInfoService := {
  running : bool;                 (* watcher_ has an unfinished future *)
  state : State;
  current_info : SystemInfo;
  last_success_utc : option Z;    (* an invalid QDateTime is None *)
  diagnostics : list string }.

Inductive signal := stateChanged | currentInfoChanged | lastSuccessUtcChanged | diagnosticsChanged.

#[export] Instance signal_eq_dec : EqDecision signal. Proof. solve_decision. Defined.

Definition new_service : SysInfoService :=
  {| running := false; state := Idle; current_info := no_info; last_success_utc := None; diagnostics := [] |}.

(** An emission: a signal and the service at that moment. *)
Definition emission : Type := signal * SysInfoService.

Definition setState (new : State) (s : SysInfoService) : SysInfoService * list emission :=
  if bool_decide (state s = new) then (s, [])
  else
    let s' := {| running := running s; state := new; current_info := current_info s;
                 last_success_utc := last_success_utc s; diagnostics := diagnostics s |} in
    (s', [(stateChanged, s')]).

Definition with_running (r : bool) (s : SysInfoService) : SysInfoService :=
  {| running := r; state := state s; current_info := current_info s; last_success_utc := last_success_utc s;
     diagnostics := diagnostics s |}.

Definition with_diagnostics (d : list string) (s : SysInfoService) : SysInfoService :=
  {| running := running s; state := state s; current_info := current_info s;
     last_success_utc := last_success_utc s; diagnostics := d |}.

Definition with_info (i : SystemInfo) (s : SysInfoService) : SysInfoService :=
  {| running := running s; state := state s; current_info := i; last_success_utc := last_success_utc s;
     diagnostics := diagnostics s |}.

Definition with_success (utc : Z) (s : SysInfoService) : SysInfoService :=
  {| running := running s; state := state s; current_info := current_info s; last_success_utc := Some utc;
     diagnostics := diagnostics s |}.

(** The slot [refresh]; the last component: a collection was started. *)
Definition refresh (s : SysInfoService) : SysInfoService * list emission * bool :=
  if bool_decide (state s = Collecting) then (s, [], false)
  else let '(s1, sig) := setState Collecting s in (with_running true s1, sig, true).

Definition failure_text (what : option string) : string :=
  match what with
  | Some w => "System information collection failed: " ++ w
  | None => "System information collection failed with an unknown error"
  end.

Definition no_values_text : string := "System information collection produced no usable values".

(** [collectionFinished] at time [utc]. *)
Definition collectionFinished (o : outcome) (utc : Z) (s0 : SysInfoService) : SysInfoService * list emission :=
  let s := with_running false s0 in
  match o with
  | Threw what =>
      let s1 := with_diagnostics [failure_text what] s in
      let '(s2, sig) := setState Error s1 in (s2, (diagnosticsChanged, s1) :: sig)
  | Collected result =>
      let '(s1, sig1) :=
        if bool_decide (diagnostics s = cr_diagnostics result) then (s, [])
        else let s1 := with_diagnostics (cr_diagnostics result) s in (s1, [(diagnosticsChanged, s1)]) in
      if negb (info_hasAnyValue (cr_info result)) then
        let '(s2, sig2) :=
          if bool_decide (diagnostics s1 = [])
          then let s2 := with_diagnostics [no_values_text] s1 in (s2, [(diagnosticsChanged, s2)])
          else (s1, []) in
        let '(s3, sig3) := setState Error s2 in (s3, sig1 ++ sig2 ++ sig3)
      else
        let s2 := with_info (cr_info result) s1 in
        let s3 := with_success utc s2 in
        let '(s4, sig4) := setState (if info_hasAllBaselineFields (cr_info result) then Ready else Partial) s3 in
        (s4, sig1 ++ [(currentInfoChanged, s2); (lastSuccessUtcChanged, s3)] ++ sig4)
  end.

(** ** Properties for QML *)

Definition hostname (s : SysInfoService) : QVariant := optionalText (host_name (info_host (current_info s))).
Definition osFamily (s : SysInfoService) : QVariant := optionalText (os_family (info_os (current_info s))).
Definition osId (s : SysInfoService) : QVariant := optionalText (os_id (info_os (current_info s))).
Definition osVersion (s : SysInfoService) : QVariant := optionalText (os_version (info_os (current_info s))).
Definition osPrettyName (s : SysInfoService) : QVariant := optionalText (os_pretty_name (info_os (current_info s))).
Definition kernelType (s : SysInfoService) : QVariant := optionalText (kernel_type (info_kernel (current_info s))).
Definition kernelVersion (s : SysInfoService) : QVariant := optionalText (kernel_version (info_kernel (current_info s))).
Definition cpuArchitecture (s : SysInfoService) : QVariant := optionalText (architecture (info_cpu (current_info s))).
Definition hardwareManufacturer (s : SysInfoService) : QVariant :=
  optionalText (manufacturer (info_hardware (current_info s))).
Definition hardwareModel (s : SysInfoService) : QVariant := optionalText (hw_model (info_hardware (current_info s))).
Definition cpuVendor (s : SysInfoService) : QVariant := optionalText (vendor (info_cpu (current_info s))).
Definition cpuModel (s : SysInfoService) : QVariant := optionalText (cpu_model (info_cpu (current_info s))).
Definition physicalCoreCount (s : SysInfoService) : QVariant :=
  optionalInteger (physical_core_count (info_cpu (current_info s))).
Definition logicalCpuCount (s : SysInfoService) : QVariant :=
  optionalInteger (logical_cpu_count (info_cpu (current_info s))).
Definition totalMemoryBytes (s : SysInfoService) : QVariant :=
  optionalInteger (info_total_bytes (info_memory (current_info s))).

(** ** The service under its event loop *)

Inductive event := Request | Finish (o : outcome) (utc : Z).

(** One event; the signals it emits and whether a collection was started. *)
Inductive step : SysInfoService -> event * list emission * bool -> SysInfoService -> Prop :=
| step_request s s' sig started : refresh s = (s', sig, started) -> step s (Request, sig, started) s'
| step_finish s o utc s' sig :
    running s = true -> collectionFinished o utc s = (s', sig) -> step s (Finish o utc, sig, false) s'.

Inductive run : SysInfoService -> list (event * list emission * bool) -> SysInfoService -> Prop :=
| run_nil s : run s [] s
| run_snoc s es s' e s'' : run s es s' -> step s' e s'' -> run s (es ++ [e]) s''.

Record service_ok (s : SysInfoService) : Prop := {
  ok_running : running s = true <-> state s = Collecting;
  ok_current : match last_success_utc s with
               | None => current_info s = no_info
               | Some _ => info_hasAnyValue (current_info s) = true
               end;
  ok_state : match state s with
             | Ready => is_Some (last_success_utc s) /\ info_hasAllBaselineFields (current_info s) = true
             | Partial => is_Some (last_success_utc s) /\ info_hasAllBaselineFields (current_info s) = false
             | Error => diagnostics s <> []
             | Idle => last_success_utc s = None
             | Collecting => True
             end }.

(** What a collection that ends delivers, if anything. *)
Definition accepted (o : outcome) : option SystemInfo :=
  match o with
  | Collected r => if info_hasAnyValue (cr_info r) then Some (cr_info r) else None
  | Threw _ => None
  end.

Definition diagnostics_after (o : outcome) : list string :=
  match o with
  | Threw what => [failure_text what]
  | Collected r =>
      match cr_diagnostics r with
      | [] => if info_hasAnyValue (cr_info r) then [] else [no_values_text]
      | ds => ds
      end
  end.

Definition state_after (o : outcome) : State :=
  match accepted o with
  | Some i => if info_hasAllBaselineFields i then Ready else Partial
  | None => Error
  end.

Lemma info_setState_eq new s :
  (setState new s).1 =
  {| running := running s; state := new; current_info := current_info s; last_success_utc := last_success_utc s;
     diagnostics := diagnostics s |} /\
  (map fst (setState new s).2 = if bool_decide (state s = new) then [] else [stateChanged]).
Proof.
  unfold setState. case_bool_decide as E; cbn [fst snd]; [subst; by destruct s|done].
Qed.

Lemma info_refresh_eq s :
  (refresh s).1.1 = (if bool_decide (state s = Collecting) then s else with_running true (setState Collecting s).1) /\
  (refresh s).2 = negb (bool_decide (state s = Collecting)).
Proof.
  unfold refresh. case_bool_decide; [done|]. by destruct (setState Collecting s) as [s1 sig].
Qed.

Lemma info_collectionFinished_eq o utc s :
  (collectionFinished o utc s).1 =
  {| running := false; state := state_after o; current_info := default (current_info s) (accepted o);
     last_success_utc := match accepted o with Some _ => Some utc | None => last_success_utc s end;
     diagnostics := diagnostics_after o |}.
Proof.
  destruct o as [what|[i d]]; unfold collectionFinished, diagnostics_after, state_after, accepted.
  - pose proof (proj1 (info_setState_eq Error (with_diagnostics [failure_text what] (with_running false s)))) as E.
    destruct (setState _ _) as [s1 sig]. cbn [fst] in *. by rewrite E.
  - cbn [cr_info cr_diagnostics diagnostics with_running].
    replace (if bool_decide (diagnostics s = d) then _ else _)
      with (with_diagnostics d (with_running false s),
            if bool_decide (diagnostics s = d) then @nil emission
            else [(diagnosticsChanged, with_diagnostics d (with_running false s))])
      by (case_bool_decide; [subst d; by destruct s|done]).
    destruct (info_hasAnyValue i) eqn:Ei; cbn [negb diagnostics with_diagnostics].
    + pose proof (proj1 (info_setState_eq (if info_hasAllBaselineFields i then Ready else Partial)
        (with_success utc (with_info i (with_diagnostics d (with_running false s)))))) as E.
      destruct (setState _ _) as [s2 sig2]. cbn [fst] in *. rewrite E. cbn. f_equal. by destruct d.
    + case_bool_decide as Ed; [subst d|].
      * pose proof (proj1 (info_setState_eq Error (with_diagnostics [no_values_text] (with_diagnostics [] (with_running false s))))) as E.
        destruct (setState _ _) as [s2 sig2]. cbn [fst] in *. by rewrite E.
      * pose proof (proj1 (info_setState_eq Error (with_diagnostics d (with_running false s)))) as E.
        destruct (setState _ _) as [s2 sig2]. cbn [fst] in *. rewrite E. cbn. f_equal. by destruct d.
Qed.

Lemma info_new_service_ok : service_ok new_service.
Proof. by split. Qed.

Lemma accepted_any o i : accepted o = Some i -> info_hasAnyValue i = true.
Proof. destruct o as [|r]; cbn; [done|]. destruct (info_hasAnyValue (cr_info r)) eqn:E; [by intros [= <-]|done]. Qed.

Lemma info_step_ok s e s' : service_ok s -> step s e s' -> service_ok s'.
Proof.
  intros [Hr Hc Hs] Hstep. destruct Hstep as [s s' sig started Hf|s o utc s' sig Hrun Hf].
  - pose proof (proj1 (info_refresh_eq s)) as E. rewrite Hf in E. cbn in E. subst s'.
    case_bool_decide as Ec; [by split|]. rewrite (proj1 (info_setState_eq _ _)). by split.
  - pose proof (info_collectionFinished_eq o utc s) as E. rewrite Hf in E. cbn [fst] in E. subst s'. unfold state_after.
    destruct (accepted o) as [i|] eqn:Ea.
    + apply accepted_any in Ea. destruct (info_hasAllBaselineFields i) eqn:Eb; split; cbn; (done || (split; [by eexists|done])).
    + split; cbn; try done. destruct o as [|[i [|d ds]]]; cbn in *; try done. by destruct (info_hasAnyValue i).
Qed.

Lemma info_run_ok s es s' : service_ok s -> run s es s' -> service_ok s'.
Proof. intros Hok. induction 1 as [|s es s1 e s2 _ IH Hs]; [done|]. eapply info_step_ok; [by apply IH|done]. Qed.

(** ** Properties *)

(** In every reachable state of the information service the state tells what is
    shown, collections never overlap, a request starts one exactly when none runs, and
    its end replaces the report exactly when it brought a value, announcing every change
    of the report. *)
Theorem info_service_reports es s (Hrun : run new_service es s) :
  service_ok s /\
  ((refresh s).2 = true <-> running s = false) /\
  (forall o utc, let '(s', sig) := collectionFinished o utc s in
     state s' = state_after o /\ running s' = false /\ diagnostics s' = diagnostics_after o /\
     match accepted o with
     | Some i => current_info s' = i /\ last_success_utc s' = Some utc /\ currentInfoChanged ∈ map fst sig
     | None => current_info s' = current_info s /\ last_success_utc s' = last_success_utc s /\ diagnostics s' <> []
     end).
Proof.
  pose proof (info_run_ok _ _ _ info_new_service_ok Hrun) as Hok. split; [done|]. split.
  - rewrite (proj2 (info_refresh_eq s)). pose proof (ok_running s Hok).
    case_bool_decide; destruct (running s); naive_solver.
  - intros o utc. pose proof (info_collectionFinished_eq o utc s) as E.
    destruct (collectionFinished o utc s) as [s' sig] eqn:Ef. cbn [fst] in E. subst s'. cbn.
    split; [done|]. split; [done|]. split; [done|]. destruct (accepted o) as [i|] eqn:Ea.
    + split; [done|]. split; [done|]. destruct o as [|r]; [done|]. apply accepted_any in Ea as Hi. cbn in Ea.
      unfold collectionFinished in Ef. destruct (info_hasAnyValue (cr_info r)); [|done]. cbn [negb] in Ef.
      destruct (if bool_decide _ then _ else _) as [s1 sig1] in Ef. destruct (setState _ _) as [s2 sig2] in Ef.
      injection Ef as _ <-. rewrite !map_app, !elem_of_app. right. by left.
    + split; [done|]. split; [done|]. destruct o as [|[i [|d ds]]]; cbn in *; try done. by destruct (info_hasAnyValue i).
Qed.

Definition sample_outcome : outcome :=
  Collected {| cr_info := {| info_host := {| host_name := Some "pi"%string |}; info_os := info_os no_info;
    info_kernel := info_kernel no_info; info_hardware := info_hardware no_info; info_cpu := info_cpu no_info;
    info_memory := info_memory no_info |}; cr_diagnostics := [] |}.

Definition sample_collecting : SysInfoService := (refresh new_service).1.1.

Lemma info_service_reports_witness :
  service_ok sample_collecting /\ state (collectionFinished sample_outcome 7 sample_collecting).1 = Partial.
Proof.
  split; [|reflexivity]. apply (info_service_reports [(Request, (refresh new_service).1.2, true)] sample_collecting).
  eapply (run_snoc _ []); [constructor|]. by apply step_request.
Defined.
