(* ===== verification/LocalBindings.v ===== *)
(** * Bindings to the local services (src/sysinfo/sys_info_service.h, src/sysmetrics/sys_metrics_service.h)

    The Q_PROPERTYs of [SysInfoService] and [SysMetricsService]: a binding to a property
    that shows what it is before an event shows what it is after it, since every change is
    followed by the emission of the property's NOTIFY signal. *)

From S2P Require Import Prelude.
From S2P Require Import Float64.
From S2P Require Import Protocol.
From S2P Require Import QtModel.
From S2P Require Import Bindings.
From S2P Require InfoService MetricsService.

Definition date_value (t : QDateTime) : QVariant := match t with Some ms => OfDateTime ms | None => Invalid end.

(** ** SysInfoService *)

Module Info.
Import InfoService.

(** A state as QML sees it, the number of the enumerator. *)
Definition state_value (s : State) : QVariant :=
  OfInteger match s with Idle => 0 | Collecting => 1 | Ready => 2 | Partial => 3 | Error => 4 end.

(** The properties of values: name, READ function and NOTIFY signal. *)
Definition info_properties : list (string * (SysInfoService -> QVariant) * signal) :=
  [("state", fun s => state_value (state s), stateChanged);
   ("lastSuccessUtc", fun s => date_value (last_success_utc s), lastSuccessUtcChanged);
   ("hostname", hostname, currentInfoChanged);
   ("osFamily", osFamily, currentInfoChanged);
   ("osId", osId, currentInfoChanged);
   ("osVersion", osVersion, currentInfoChanged);
   ("osPrettyName", osPrettyName, currentInfoChanged);
   ("kernelType", kernelType, currentInfoChanged);
   ("kernelVersion", kernelVersion, currentInfoChanged);
   ("architecture", cpuArchitecture, currentInfoChanged);
   ("hardwareManufacturer", hardwareManufacturer, currentInfoChanged);
   ("hardwareModel", hardwareModel, currentInfoChanged);
   ("cpuVendor", cpuVendor, currentInfoChanged);
   ("cpuModel", cpuModel, currentInfoChanged);
   ("physicalCoreCount", physicalCoreCount, currentInfoChanged);
   ("logicalCpuCount", logicalCpuCount, currentInfoChanged);
   ("totalMemoryBytes", totalMemoryBytes, currentInfoChanged)]%string.

(** From [s] through [es] to [s'] the bindings of all properties stay current. *)
Definition all_current (s : SysInfoService) (es : list emission) (s' : SysInfoService) : Prop :=
  keeps_current state stateChanged s es s' /\ keeps_current diagnostics diagnosticsChanged s es s' /\
  keeps_current current_info currentInfoChanged s es s' /\ keeps_current last_success_utc lastSuccessUtcChanged s es s'.

Lemma info_setState_current new s : all_current s (setState new s).2 (setState new s).1.
Proof. unfold setState. by case_bool_decide. Qed.

Lemma info_current_app s a s1 b s2 : all_current s a s1 -> all_current s1 b s2 -> all_current s (a ++ b) s2.
Proof. intros (? & ? & ? & ?) (? & ? & ? & ?). split_and!; by eapply keeps_app. Qed.

(** A handler that ends with [setState]. *)
Lemma info_ending_current s es s1 new : all_current s es s1 ->
  let '(s2, sig) := setState new s1 in all_current s (es ++ sig) s2.
Proof. intros Hs. pose proof (info_setState_current new s1) as Hn. destruct (setState new s1). by eapply info_current_app. Qed.

Lemma info_diagnostics_current d s : all_current s [(diagnosticsChanged, with_diagnostics d s)] (with_diagnostics d s).
Proof. done. Qed.

Lemma info_report_current i utc s :
  all_current s [(currentInfoChanged, with_info i s); (lastSuccessUtcChanged, with_success utc (with_info i s))]
    (with_success utc (with_info i s)).
Proof. done. Qed.

(** The slots of the service. *)
Inductive handles (s : SysInfoService) : list emission -> SysInfoService -> Prop :=
| handles_refresh : handles s (refresh s).1.2 (refresh s).1.1
| handles_finished o utc : handles s (collectionFinished o utc s).2 (collectionFinished o utc s).1.

Lemma info_handlers_current s es s' : handles s es s' -> all_current s es s'.
Proof.
  intros [|o utc].
  - unfold refresh. case_bool_decide; [done|]. pose proof (info_setState_current Collecting s) as Hn. by destruct (setState Collecting s).
  - change (all_current s ?es ?s') with (all_current (with_running false s) es s').
    unfold collectionFinished. set (s0 := with_running false s). destruct o as [what|[i d]]; cbn [cr_info cr_diagnostics].
    + pose proof (info_ending_current s0 _ _ Error (info_diagnostics_current [failure_text what] s0)) as He. cbv zeta. by destruct (setState _ _).
    + assert (exists s1 sig1, (if bool_decide (diagnostics s0 = d) then (s0, []) else (with_diagnostics d s0, [(diagnosticsChanged, with_diagnostics d s0)])) = (s1, sig1) /\
        all_current s0 sig1 s1) as (s1 & sig1 & E & Hs1) by (case_bool_decide; do 2 eexists; (split; [reflexivity|]); [done|apply info_diagnostics_current]).
      cbv zeta. rewrite E. destruct (info_hasAnyValue i); cbn [negb].
      * pose proof (info_ending_current s0 _ _ (if info_hasAllBaselineFields i then Ready else Partial)
          (info_current_app _ _ _ _ _ Hs1 (info_report_current i utc s1))) as He. destruct (setState _ _). by rewrite <- app_assoc in He.
      * destruct (bool_decide (diagnostics s1 = [])); cbv beta iota zeta.
        -- pose proof (info_ending_current s0 _ _ Error (info_current_app _ _ _ _ _ Hs1 (info_diagnostics_current [no_values_text] s1))) as He.
           destruct (setState _ _). by rewrite <- app_assoc in He.
        -- pose proof (info_ending_current s0 _ _ Error Hs1) as He. by destruct (setState _ _).
Qed.

(** What the properties read. *)
Lemma info_properties_current s es s' property read notify : all_current s es s' ->
  (property, read, notify) ∈ info_properties -> keeps_current read notify s es s'.
Proof.
  intros (Hst & _ & Hi & Hu) Hin. unfold info_properties in Hin. apply list_elem_of_In in Hin; cbn [In] in Hin.
  repeat (destruct Hin as [[= <- <- <-]|Hin]); try done;
    first [ refine (keeps_determined _ _ _ _ _ _ _ Hst); congruence | refine (keeps_determined _ _ _ _ _ _ _ Hu); congruence
          | refine (keeps_determined _ _ _ _ _ _ _ Hi); intros x y E; cbv delta [hostname osFamily osId osVersion osPrettyName
              kernelType kernelVersion cpuArchitecture hardwareManufacturer hardwareModel cpuVendor cpuModel
              physicalCoreCount logicalCpuCount totalMemoryBytes]; cbv beta; rewrite E; reflexivity ].
Qed.
End Info.

(** ** SysMetricsService *)

Module Metrics.
Import MetricsService.

Definition state_value (s : State) : QVariant :=
  OfInteger match s with Idle => 0 | Collecting => 1 | Ready => 2 | Partial => 3 | Error => 4 end.

Section metrics.
Context (qRound64 : double -> Z).

(** The properties of values: name, READ function and NOTIFY signal. *)
Definition metrics_properties : list (string * (SysMetricsService -> QVariant) * signal) :=
  [("state", fun s => state_value (state s), stateChanged);
   ("lastSuccessUtc", fun s => date_value (last_success_utc s), lastSuccessUtcChanged);
   ("cpuUsageRatio", cpuUsageRatio, currentMetricsChanged);
   ("memoryUsageRatio", memoryUsageRatio, currentMetricsChanged);
   ("cpuTemperatureCelsius", cpuTemperatureCelsius, currentMetricsChanged);
   ("uptimeSeconds", uptimeSeconds, currentMetricsChanged);
   ("averageCpuFrequencyHz", averageCpuFrequencyHz, currentMetricsChanged);
   ("memoryTotalBytes", memoryTotalBytes, currentMetricsChanged);
   ("memoryAvailableBytes", memoryAvailableBytes, currentMetricsChanged);
   ("memoryUsedBytes", memoryUsedBytes, currentMetricsChanged);
   ("swapTotalBytes", swapTotalBytes, currentMetricsChanged);
   ("swapAvailableBytes", swapAvailableBytes, currentMetricsChanged);
   ("swapUsedBytes", swapUsedBytes, currentMetricsChanged);
   ("primaryStorageTotalBytes", primaryStorageTotalBytes, currentMetricsChanged);
   ("primaryStorageUsedBytes", primaryStorageUsedBytes, currentMetricsChanged);
   ("primaryStorageUsageRatio", primaryStorageUsageRatio, currentMetricsChanged);
   ("gpuName", gpuName, currentMetricsChanged);
   ("gpuUsageRatio", gpuUsageRatio, currentMetricsChanged);
   ("gpuMemoryTotalBytes", gpuMemoryTotalBytes, currentMetricsChanged);
   ("gpuMemoryUsedBytes", gpuMemoryUsedBytes, currentMetricsChanged);
   ("gpuCoreClockHz", gpuCoreClockHz, currentMetricsChanged);
   ("gpuMemoryClockHz", gpuMemoryClockHz, currentMetricsChanged);
   ("gpuTemperatureCelsius", gpuTemperatureCelsius, currentMetricsChanged);
   ("networkReceiveBytesPerSecond", networkReceiveBytesPerSecond, currentMetricsChanged);
   ("networkTransmitBytesPerSecond", networkTransmitBytesPerSecond, currentMetricsChanged);
   ("networkInterfaceName", networkInterfaceName, currentMetricsChanged);
   ("bootTimeUtc", bootTimeUtc qRound64, currentMetricsChanged)]%string.
End metrics.

(** The time of the boot is read from the report and the time of its collection. *)
Definition all_current (s : SysMetricsService) (es : list emission) (s' : SysMetricsService) : Prop :=
  keeps_current state stateChanged s es s' /\ keeps_current diagnostics diagnosticsChanged s es s' /\
  keeps_current (fun x => (current_metrics x, last_success_utc x)) currentMetricsChanged s es s' /\
  keeps_current last_success_utc lastSuccessUtcChanged s es s'.

Lemma metrics_setState_current new s : all_current s (setState new s).2 (setState new s).1.
Proof. unfold setState. by case_bool_decide. Qed.

Lemma metrics_current_app s a s1 b s2 : all_current s a s1 -> all_current s1 b s2 -> all_current s (a ++ b) s2.
Proof. intros (? & ? & ? & ?) (? & ? & ? & ?). split_and!; by eapply keeps_app. Qed.

(** A handler that ends with [setState]; the queued refresh is not shown. *)
Lemma metrics_ending_current s es s1 new : all_current s es s1 ->
  let '(s2, sig) := setState new s1 in all_current s (es ++ sig) (release_pending s2).
Proof.
  intros Hs. pose proof (metrics_setState_current new s1) as Hn. destruct (setState new s1) as [s2 sig].
  assert (all_current s (es ++ sig) s2) as (? & ? & ? & ?) by (by eapply metrics_current_app).
  rewrite release_pending_eq. by split_and!; (eapply keeps_quiet; [|eassumption]).
Qed.

Lemma metrics_diagnostics_current d s : all_current s [(diagnosticsChanged, with_diagnostics d s)] (with_diagnostics d s).
Proof. done. Qed.

Lemma metrics_report_current m utc s :
  all_current s [(currentMetricsChanged, with_metrics m utc s); (lastSuccessUtcChanged, with_metrics m utc s)] (with_metrics m utc s).
Proof. done. Qed.

(** The slots of the service. *)
Inductive handles (s : SysMetricsService) : list emission -> SysMetricsService -> Prop :=
| handles_refresh : handles s (refresh s).1.2 (refresh s).1.1
| handles_finished o elapsed utc : handles s (collectionFinished o elapsed utc s).2 (collectionFinished o elapsed utc s).1.

Lemma metrics_handlers_current s es s' : handles s es s' -> all_current s es s'.
Proof.
  intros [|o elapsed utc].
  - unfold refresh. case_bool_decide; [done|]. pose proof (metrics_setState_current Collecting s) as Hn. by destruct (setState Collecting s).
  - change (all_current s ?es ?s') with (all_current (with_flags false (queued s) (refresh_pending s) s) es s').
    unfold collectionFinished. set (s0 := with_flags false _ _ s). destruct o as [what|[m d]]; cbn [cr_metrics cr_diagnostics]; cbv zeta.
    + pose proof (metrics_ending_current s0 _ _ Error (metrics_diagnostics_current [failure_text what] s0)) as He. by destruct (setState _ _).
    + set (sh := with_history _ s0).
      assert (exists s1 sig1, (if bool_decide (diagnostics sh = d) then (sh, []) else (with_diagnostics d sh, [(diagnosticsChanged, with_diagnostics d sh)])) = (s1, sig1) /\
        all_current s0 sig1 s1) as (s1 & sig1 & E & Hs1) by (case_bool_decide; do 2 eexists; (split; [reflexivity|]); done).
      rewrite E. destruct (metrics_hasAnyValue m); cbn [negb].
      * pose proof (metrics_ending_current s0 _ _ (if metrics_hasAllBaselineFields m then Ready else Partial)
          (metrics_current_app _ _ _ _ _ Hs1 (metrics_report_current m utc s1))) as He. destruct (setState _ _). by rewrite <- app_assoc in He.
      * destruct (bool_decide (diagnostics s1 = [])); cbv beta iota zeta.
        -- pose proof (metrics_ending_current s0 _ _ Error (metrics_current_app _ _ _ _ _ Hs1 (metrics_diagnostics_current [no_values_text] s1))) as He.
           destruct (setState _ _). by rewrite <- app_assoc in He.
        -- pose proof (metrics_ending_current s0 _ _ Error Hs1) as He. by destruct (setState _ _).
Qed.

Lemma metrics_properties_current qRound64 s es s' property read notify : all_current s es s' ->
  (property, read, notify) ∈ metrics_properties qRound64 -> keeps_current read notify s es s'.
Proof.
  intros (Hst & _ & Hm & Hu) Hin. unfold metrics_properties in Hin. apply list_elem_of_In in Hin; cbn [In] in Hin.
  repeat (destruct Hin as [[= <- <- <-]|Hin]); try done;
    first [ refine (keeps_determined _ _ _ _ _ _ _ Hst); congruence | refine (keeps_determined _ _ _ _ _ _ _ Hu); congruence
          | refine (keeps_determined _ _ _ _ _ _ _ Hm); intros x y [= E E']; cbv delta [cpuUsageRatio memoryUsageRatio
              cpuTemperatureCelsius uptimeSeconds averageCpuFrequencyHz memoryTotalBytes memoryAvailableBytes memoryUsedBytes
              swapTotalBytes swapAvailableBytes swapUsedBytes primaryStorageTotalBytes primaryStorageUsedBytes
              primaryStorageUsageRatio primary_volume gpuName gpuUsageRatio gpuMemoryTotalBytes gpuMemoryUsedBytes gpuCoreClockHz
              gpuMemoryClockHz gpuTemperatureCelsius first_gpu networkReceiveBytesPerSecond networkTransmitBytesPerSecond
              networkInterfaceName bootTimeUtc]; cbv beta; rewrite E, ?E'; reflexivity ].
Qed.
End Metrics.

#[local] Existing Instances InfoService.signal_eq_dec MetricsService.signal_eq_dec.

(** What QML shows of the local machine is never old.  Through every slot of the
    information service and of the metrics service, each binding to a property stays
    current: read again at the emissions of the property's NOTIFY signal, it shows after
    the slot what the property is then, the diagnostics and whole reports included. *)
Theorem local_bindings_current qRound64 :
  (forall s es s', Info.handles s es s' ->
     (forall property read notify, (property, read, notify) ∈ Info.info_properties -> keeps_current read notify s es s') /\
     keeps_current InfoService.diagnostics InfoService.diagnosticsChanged s es s' /\
     keeps_current InfoService.current_info InfoService.currentInfoChanged s es s') /\
  (forall s es s', Metrics.handles s es s' ->
     (forall property read notify, (property, read, notify) ∈ Metrics.metrics_properties qRound64 -> keeps_current read notify s es s') /\
     keeps_current MetricsService.diagnostics MetricsService.diagnosticsChanged s es s' /\
     keeps_current MetricsService.current_metrics MetricsService.currentMetricsChanged s es s').
Proof.
  split; intros s es s' Hs.
  - pose proof (Info.info_handlers_current s es s' Hs) as Hall. split; [|split; [apply Hall|apply Hall]].
    intros property read notify. by apply Info.info_properties_current.
  - pose proof (Metrics.metrics_handlers_current s es s' Hs) as Hall. split; [|split; [apply Hall|]].
    + intros property read notify. by apply Metrics.metrics_properties_current.
    + destruct Hall as (_ & _ & Hm & _). refine (keeps_determined _ _ _ _ _ _ _ Hm). congruence.
Qed.

(** The first report arrives: the binding to the host name shows it. *)
Lemma local_bindings_current_witness :
  let s := InfoService.sample_collecting in
  let r := InfoService.collectionFinished InfoService.sample_outcome 7 s in
  bound InfoService.hostname InfoService.currentInfoChanged r.2 Invalid = OfText "pi".
Proof.
  cbv zeta.
  destruct (local_bindings_current (fun _ => 0)) as [Hinfo _].
  destruct (Hinfo InfoService.sample_collecting _ _ (Info.handles_finished _ InfoService.sample_outcome 7)) as [Hp _].
  exact (Hp "hostname"%string InfoService.hostname InfoService.currentInfoChanged ltac:(apply list_elem_of_In; do 2 right; by left)).
Defined.
