(* ===== verification/InfoCollector.v ===== *)
(** * The local information collector (src/sysinfo/linux_sys_info_collector.cpp)

    [LinuxSysInfoCollector::collect] over [LinuxPlatformAccess], the interface the code
    reads the machine through; [native_access] is its implementation. *)

From S2P Require Import Prelude.
From S2P Require Import Std.
From S2P Require Import Float64.
From S2P Require DaemonText.
From S2P Require Import Protocol.
From S2P Require Import QtText.

Definition kSmallFileLimit : Z := 64 * 1024.
Definition kCpuInfoLimit : Z := 1024 * 1024.
Definition kMaximumCpuCount : Z := 256.
Definition kMaximumCpuId : Z := 4095.

Definition nul : ascii := "000".

(** ** The machine *)

Record LinuxPlatformValues := {
  v_host_name : string; v_os_id : string; v_os_version : string; v_os_pretty_name : string;
  v_kernel_type : string; v_kernel_version : string; v_architecture : string;
  v_logical_cpu_count : option Z }.

Class LinuxPlatformAccess := { values : LinuxPlatformValues; readFile : string -> Z -> option string }.

(** What [NativeLinuxPlatformAccess] calls: [QSysInfo], [sysconf], and [open] followed by
    [read(n)], at most [n] bytes of the file. *)
Record native_machine := {
  machineHostName : string; productType : string; productVersion : string; prettyProductName : string;
  kernelType : string; kernelVersion : string; currentCpuArchitecture : string;
  processors : Z;
  file_read : string -> Z -> option string }.

Definition native_values (k : native_machine) : LinuxPlatformValues :=
  {| v_host_name := machineHostName k; v_os_id := productType k; v_os_version := productVersion k;
     v_os_pretty_name := prettyProductName k; v_kernel_type := kernelType k; v_kernel_version := kernelVersion k;
     v_architecture := currentCpuArchitecture k;
     v_logical_cpu_count :=
       if (0 <? processors k) && (processors k <=? uint32_max) then Some (processors k) else None |}.

Definition native_readFile (k : native_machine) (path : string) (maximum_bytes : Z) : option string :=
  match file_read k path (maximum_bytes + 1) with
  | None => None
  | Some contents => if maximum_bytes <? size contents then None else Some contents
  end.

Definition native_access (k : native_machine) : LinuxPlatformAccess :=
  {| values := native_values k; readFile := native_readFile k |}.

(** ** Texts *)

Section parsers.
Context `{QtText}.

Definition normalizedArchitecture (value : string) : option string :=
  let value := q_toLower (q_trimmed value) in
  let value := if String.eqb value "amd64" then "x86_64"%string
               else if String.eqb value "arm64" then "aarch64"%string else value in
  cleanString value.

Definition compatibleIds (contents : string) : list string :=
  omap (fun entry => cleanString (q_fromUtf8 entry)) (split_on nul contents).

(** The line that starts with [MemTotal:]. *)
Definition memoryLine (line : string) : option Z :=
  let parts := split_on " " (simplified line) in
  if negb (length parts =? 3)%nat || negb (String.eqb (at_ 2 parts) "kB") then None
  else match toULongLong (at_ 1 parts) with
       | None => None
       | Some kibibytes =>
           if (kibibytes =? 0) || (uint64_max / 1024 <? kibibytes) then None else Some (kibibytes * 1024)
       end.

Fixpoint memoryLines (lines : list string) : option Z :=
  match lines with
  | [] => None
  | line :: rest => if starts_with "MemTotal:" line then memoryLine line else memoryLines rest
  end.
Definition memoryBytes (contents : string) : option Z := memoryLines (split_on newline contents).

(** The text after the colon of the first line with that key. *)
Fixpoint valueOfKey (key : string) (lines : list string) : option string :=
  match lines with
  | [] => None
  | line :: rest =>
      match find_char ":" line with
      | Some separator =>
          if String.eqb (ba_trimmed (str_take separator line)) key then Some (str_drop (S separator) line)
          else valueOfKey key rest
      | None => valueOfKey key rest
      end
  end.

Definition boardRevision (contents : string) : option string :=
  value ← valueOfKey "Revision" (split_on newline contents); cleanString (fromLatin1 value).

Definition cpuInfoValue (contents key : string) : option string :=
  value ← valueOfKey key (split_on newline contents); cleanString (q_fromUtf8 value).

Definition unsignedValue (contents : string) (maximum : Z) : option Z :=
  let value := ba_trimmed contents in
  if String.eqb value "" || negb (str_forall isdigit value) then None
  else match toULongLong value with
       | Some parsed => if maximum <? parsed then None else Some parsed
       | None => None
       end.

(** ** Processors *)

(** [for (quint32 id = first;; ++id)], [steps] iterations long. *)
Fixpoint addIds (steps : nat) (id : Z) (unique : gset Z) (result : list Z) : option (gset Z * list Z) :=
  match steps with
  | O => Some (unique, result)
  | S n =>
      if bool_decide (id ∈ unique) || (kMaximumCpuCount <=? Z.of_nat (length result)) then None
      else addIds n (id + 1) ({[id]} ∪ unique) (result ++ [id])
  end.

Definition cpuEntry (entry : string) (st : gset Z * list Z) : option (gset Z * list Z) :=
  if String.eqb entry "" || negb (String.eqb entry (ba_trimmed entry)) || (1 <? count_char "-" entry)%nat then None
  else
    let separator := find_char "-" entry in
    first ← unsignedValue (match separator with Some n => str_take n entry | None => entry end) kMaximumCpuId;
    last ← unsignedValue (match separator with Some n => str_drop (S n) entry | None => entry end) kMaximumCpuId;
    if (last <? first) || (kMaximumCpuCount <? last - first + 1) then None
    else addIds (Z.to_nat (last - first + 1)) first st.1 st.2.

Fixpoint cpuEntries (entries : list string) (st : gset Z * list Z) : option (gset Z * list Z) :=
  match entries with
  | [] => Some st
  | e :: es => st' ← cpuEntry e st; cpuEntries es st'
  end.

Definition onlineCpuIds (contents : string) : option (list Z) :=
  '(_, result) ← cpuEntries (split_on "," (ba_trimmed contents)) (∅, []);
  match result with [] => None | _ => Some result end.
End parsers.

Section collector.
Context `{QtText} `{LinuxPlatformAccess}.

Definition topology_file (id : Z) (name : string) : string :=
  ("/sys/devices/system/cpu/cpu" ++ number_text id ++ "/topology/" ++ name)%string.

Fixpoint coreIds (ids : list Z) : option (list (Z * Z)) :=
  match ids with
  | [] => Some []
  | id :: rest =>
      let package := s ← readFile (topology_file id "physical_package_id") kSmallFileLimit; unsignedValue s uint32_max in
      let core := s ← readFile (topology_file id "core_id") kSmallFileLimit; unsignedValue s uint32_max in
      p ← package; c ← core; cons (p, c) <$> coreIds rest
  end.

Definition physicalCoreCount : option Z :=
  ids ← (online ← readFile "/sys/devices/system/cpu/online" kSmallFileLimit; onlineCpuIds online);
  pairs ← coreIds ids;
  let cores := Z.of_nat (base.size (list_to_set pairs : gset (Z * Z))) in
  if (cores =? 0) || (kMaximumCpuCount <? cores) then None else Some cores.

(** ** The report *)

Definition missing {A} (value : option A) (text : string) : list string :=
  match value with Some _ => [] | None => [text] end.

(** [addMissingBaselineDiagnostics] *)
Definition missingBaselineDiagnostics (info : SystemInfo) : list string :=
  (missing (host_name (info_host info)) "Hostname is unavailable" ++
   missing (os_family (info_os info)) "OS family is unavailable" ++
   missing (kernel_type (info_kernel info)) "Kernel type is unavailable" ++
   missing (kernel_version (info_kernel info)) "Kernel version is unavailable" ++
   missing (architecture (info_cpu info)) "CPU architecture is unavailable" ++
   missing (logical_cpu_count (info_cpu info)) "Logical CPU count is unavailable" ++
   missing (info_total_bytes (info_memory info)) "Total memory is unavailable")%list.

(** [section('.', 0, 0)] *)
Definition first_section (s : string) : string :=
  match find_char "." s with Some n => str_take n s | None => s end.

Definition compatible : list string :=
  match readFile "/sys/firmware/devicetree/base/compatible" kSmallFileLimit with
  | Some contents => compatibleIds contents
  | None => []
  end.

Definition is_pi : bool := existsb (starts_with "raspberrypi,") compatible.

Definition cpuinfo : option string := readFile "/proc/cpuinfo" kCpuInfoLimit.

Definition dmi (name : string) : option string :=
  s ← readFile ("/sys/class/dmi/id/" ++ name)%string kSmallFileLimit; cleanString (q_fromUtf8 s).

Definition collected_hardware : Hardware :=
  if is_pi then
    {| manufacturer := Some "Raspberry Pi"%string;
       hw_model := match readFile "/sys/firmware/devicetree/base/model" kSmallFileLimit with
                   | Some m => cleanString (str_filter (fun c => negb (is_char nul c)) (q_fromUtf8 m))
                   | None => dmi "product_name"
                   end;
       board_revision := s ← cpuinfo; boardRevision s;
       compatible_ids := Some compatible |}
  else
    {| manufacturer := dmi "sys_vendor"; hw_model := dmi "product_name"; board_revision := None;
       compatible_ids := None |}.

Definition collected_cpu : InfoCpu :=
  let soc := if is_pi then List.find (starts_with "brcm,bcm") compatible else None in
  {| architecture := normalizedArchitecture (v_architecture values);
     vendor := match soc with Some _ => Some "Broadcom"%string | None => s ← cpuinfo; cpuInfoValue s "vendor_id" end;
     cpu_model := match soc with
                  | Some identifier => Some (q_toUpper (str_drop 5 identifier))
                  | None => s ← cpuinfo; cpuInfoValue s "model name"
                  end;
     logical_cpu_count := match v_logical_cpu_count values with
                          | Some n => if (0 <? n) && (n <=? kMaximumCpuCount) then Some n else None
                          | None => None
                          end;
     physical_core_count := physicalCoreCount |}.

Definition collected_info : SystemInfo :=
  {| info_host := {| host_name := option_map first_section (cleanString (v_host_name values)) |};
     info_os := {| os_family := Some "linux"%string; os_id := cleanString (v_os_id values);
                   os_version := cleanString (v_os_version values);
                   os_pretty_name := cleanString (v_os_pretty_name values) |};
     info_kernel := {| kernel_type := cleanString (v_kernel_type values);
                       kernel_version := cleanString (v_kernel_version values) |};
     info_hardware := collected_hardware;
     info_cpu := collected_cpu;
     info_memory := {| info_total_bytes := s ← readFile "/proc/meminfo" kSmallFileLimit; memoryBytes s |} |}.

Definition pi_diagnostics : list string :=
  if is_pi then
    (missing (hw_model collected_hardware) "Raspberry Pi model is unavailable" ++
     missing (board_revision collected_hardware) "Raspberry Pi board revision is unavailable")%list
  else ["Raspberry Pi Device Tree enrichment is unavailable"%string].

(** [LinuxSysInfoCollector::collect]: the report and the diagnostics. *)
Definition collect : SystemInfo * list string :=
  (collected_info, (pi_diagnostics ++ missingBaselineDiagnostics collected_info)%list).
End collector.

(** ** The two readers of CPU lists *)

Lemma count_char_zero c s : count_char c s = O <-> find_char c s = None.
Proof.
  unfold find_char. induction s as [|d s IH]; simpl; [done|]. destruct (is_char c d); [done|].
  rewrite IH. by destruct (find_if (is_char c) s).
Qed.

Lemma count_char_found c s n : find_char c s = Some n -> count_char c s = S (count_char c (str_drop (S n) s)).
Proof.
  unfold find_char. revert n. induction s as [|d s IH]; simpl; [done|]. intros n. destruct (is_char c d) eqn:E.
  - intros [= <-]. by destruct s.
  - destruct (find_if (is_char c) s) as [k|]; [|done]. intros [= <-]. by rewrite (IH k eq_refl).
Qed.

Section cpu_lists.
Context `{QtText}.

Lemma unsignedValue_daemon s m : m <= uint32_max -> unsignedValue s m = DaemonText.unsigned_value32 (ba_trimmed s) m.
Proof.
  intros Hm. unfold unsignedValue, DaemonText.unsigned_value32. destruct (String.eqb_spec (ba_trimmed s) "") as [|Hne]; [done|].
  destruct (str_forall isdigit (ba_trimmed s)) eqn:Hd; [|done]. cbn [orb negb].
  rewrite toULongLong_digits, from_chars_unsigned_digits by done. cbn [String.eqb negb orb].
  unfold uint32_max, uint64_max in *. destruct (decimal _ <=? _) eqn:E1, (decimal (ba_trimmed s) <=? 4294967295) eqn:E2; bool_facts; try lia.
  - done.
  - rewrite (proj2 (Z.ltb_lt _ _)) by lia. done.
  - done.
Qed.

Lemma cpuEntry_daemon e st : str_forall not_space e = true -> cpuEntry e st = DaemonText.cpu_entry e st.
Proof.
  intros He. unfold cpuEntry, DaemonText.cpu_entry. rewrite ba_trimmed_all, String.eqb_refl, orb_false_r by done.
  destruct (String.eqb e ""); [done|]. cbn [orb].
  destruct (find_char "-" e) as [n|] eqn:En.
  - rewrite (count_char_found _ _ _ En). pose proof (count_char_zero "-" (str_drop (S n) e)) as Hz.
    rewrite !unsignedValue_daemon, !ba_trimmed_all by (by auto using str_forall_take, str_forall_drop || done).
    remember (count_char "-" (str_drop (S n) e)) as k eqn:Ek. destruct (find_char "-" (str_drop (S n) e)).
    + destruct k; [by destruct Hz as [Hz _]; specialize (Hz eq_refl)|done].
    + by rewrite (proj2 Hz).
  - rewrite (proj2 (count_char_zero "-" e)) by done. cbn.
    rewrite unsignedValue_daemon, ba_trimmed_all by done. by destruct (DaemonText.unsigned_value32 _ _).
Qed.

Lemma cpuEntries_daemon es st : Forall (fun e => str_forall not_space e = true) es ->
  cpuEntries es st = DaemonText.cpu_entries es st.
Proof.
  intros Hes. revert st. induction Hes as [|e es He Hes IH]; intros st; cbn [cpuEntries DaemonText.cpu_entries]; [done|].
  rewrite cpuEntry_daemon by done. destruct (DaemonText.cpu_entry e st); cbn; auto.
Qed.

(** C23. The dashboard's [onlineCpuIds] and the daemon's [online_cpu_ids] agree on every list
    as the kernel writes it, a line without white space: both accept exactly comma-separated
    ids and ascending ranges of ids up to 4095, no id twice and at most 256 in all, and give
    the ids in order. *)
Theorem cpu_lists_agree list ids (Hlist : str_forall not_space list = true) :
  onlineCpuIds (list ++ String newline "") = DaemonText.online_cpu_ids (list ++ String newline "") /\
  (onlineCpuIds (list ++ String newline "") = Some ids <->
   list <> ""%string /\
   exists ranges, Forall2 DaemonText.cpu_entry_range (split_on "," list) ranges /\
     ids = concat (map DaemonText.range_ids ranges) /\ NoDup ids /\ (length ids <= 256)%nat).
Proof.
  assert (E1 : ba_trimmed (list ++ String newline "") = list) by by apply trimmed_line.
  assert (E2 : DaemonText.trim (list ++ String newline "") = list).
  { apply trimmed_line; [|done]. eapply str_forall_impl; [|exact Hlist]. intros c.
    unfold not_space, isspace, DaemonText.not_blank, DaemonText.is_blank, is_char. rewrite !negb_true_iff, !orb_false_iff.
    intros [H1 H2]. repeat split; apply Ascii.eqb_neq; intros ->; discriminate. }
  assert (E : onlineCpuIds (list ++ String newline "") = DaemonText.online_cpu_ids (list ++ String newline "")).
  { unfold onlineCpuIds, DaemonText.online_cpu_ids. rewrite E1, E2. rewrite cpuEntries_daemon by by apply split_on_forall.
    destruct (String.eqb_spec list "") as [->|]; done. }
  split; [done|]. rewrite E, DaemonText.online_cpu_ids_spec, E2. done.
Qed.
End cpu_lists.

(** ** What is reported *)

Definition pi_texts : list string :=
  ["Raspberry Pi Device Tree enrichment is unavailable"; "Raspberry Pi model is unavailable";
   "Raspberry Pi board revision is unavailable"]%string.

Lemma size_list_to_set_le (l : list (Z * Z)) : (base.size (list_to_set l : gset (Z * Z)) <= length l)%nat.
Proof.
  induction l as [|x l IH]; cbn [list_to_set length]; [done|].
  rewrite size_union_alt, size_singleton. pose proof (subseteq_size (list_to_set l ∖ {[x]} : gset (Z * Z)) (list_to_set l)).
  assert ((base.size (list_to_set l ∖ {[x]} : gset (Z * Z)) <= base.size (list_to_set l : gset (Z * Z)))%nat)
    by (apply subseteq_size; set_solver). lia.
Qed.

Lemma missing_nil {A} (v : option A) t : missing v t = [] <-> has_value v = true.
Proof. by destruct v. Qed.

Lemma missing_in {A} (v : option A) t (l : list string) : t ∉ l -> (Forall (.∈ l) (missing v t) <-> has_value v = true).
Proof. intros Ht. destruct v; cbn; [split; [done|by constructor]|]. split; [|done]. by inversion 1. Qed.

Lemma missing_out {A} (v : option A) t (l : list string) : t ∈ l -> Forall (.∈ l) (missing v t).
Proof. intros Ht. destruct v; cbn; by repeat constructor. Qed.

Section report.
Context `{QtText}.

Lemma addIds_bounded n id U R U' R' : addIds n id U R = Some (U', R') ->
  (length R <= 256)%nat -> (length R' <= 256)%nat /\ (length R + n <= length R')%nat.
Proof.
  revert id U R. induction n as [|n IH]; intros id U R; cbn [addIds]; [intros [= <- <-]; lia|].
  case_if; [done|]. intros E Hl. apply IH in E; rewrite length_app in *; cbn in *;
    apply orb_false_iff in Heqb as [_ Hb]; unfold kMaximumCpuCount in Hb; bool_facts; lia.
Qed.

Lemma cpuEntry_bounded e U R U' R' : cpuEntry e (U, R) = Some (U', R') ->
  (length R <= 256)%nat -> (length R' <= 256)%nat /\ (length R < length R')%nat.
Proof.
  unfold cpuEntry. case_if; [done|]. cbn zeta. intros (a & _ & (b & _ & E)%bind_Some)%bind_Some Hl.
  case_if; [done|]. bool_facts. cbn [fst snd] in E. apply addIds_bounded in E; [|done]. lia.
Qed.

Lemma cpuEntries_bounded es U R U' R' : cpuEntries es (U, R) = Some (U', R') ->
  (length R <= 256)%nat -> (length R' <= 256)%nat.
Proof.
  revert U R. induction es as [|e es IH]; intros U R; cbn [cpuEntries]; [by intros [= <- <-]|].
  destruct (cpuEntry e (U, R)) as [[U1 R1]|] eqn:E; [|done]. cbn. intros Hes Hl.
  apply cpuEntry_bounded in E as [E _]; [|done]. by apply IH in Hes.
Qed.

Lemma onlineCpuIds_bounded s ids : onlineCpuIds s = Some ids -> (1 <= length ids <= 256)%nat.
Proof.
  unfold onlineCpuIds. destruct (cpuEntries _ _) as [[U R]|] eqn:E; [|done]. cbn. intros H1.
  apply cpuEntries_bounded in E; [|cbn; lia]. destruct R; [done|]. injection H1 as <-. cbn in *. lia.
Qed.

Lemma memoryLines_range ls n : memoryLines ls = Some n -> 0 < n <= uint64_max /\ n mod 1024 = 0.
Proof.
  induction ls as [|l ls IH]; cbn [memoryLines]; [done|]. case_if; [|done]. unfold memoryLine. case_if; [done|].
  destruct (toULongLong _) as [k|] eqn:E; [|done]. apply toULongLong_range in E. case_if; [done|]. intros [= <-].
  bool_facts. unfold uint64_max in *. change (18446744073709551615 / 1024) with 18014398509481983 in *.
  rewrite Z.mod_mul by lia. lia.
Qed.

Context `{LinuxPlatformAccess}.

(** The package and the core that the topology files of a processor give. *)
Definition core_of (id : Z) (pc : Z * Z) : Prop :=
  (s ← readFile (topology_file id "physical_package_id") kSmallFileLimit; unsignedValue s uint32_max) = Some pc.1 /\
  (s ← readFile (topology_file id "core_id") kSmallFileLimit; unsignedValue s uint32_max) = Some pc.2.

Lemma coreIds_spec ids pairs : coreIds ids = Some pairs <-> Forall2 core_of ids pairs.
Proof.
  revert pairs. induction ids as [|id ids IH]; intros pairs; cbn [coreIds].
  - split; [intros [= <-]; constructor|by inversion 1].
  - split.
    + destruct (s ← readFile (topology_file id "physical_package_id") _; _) as [p|] eqn:Ep; [|done].
      destruct (s ← readFile (topology_file id "core_id") _; _) as [c|] eqn:Ec; [|done]. cbn.
      destruct (coreIds ids) as [ps|]; [|done]. intros [= <-]. constructor; [done|]. by apply IH.
    + inversion 1 as [|? [p c] ? ps [Hp Hc] Hps]; subst. cbn [fst snd] in *. rewrite Hp, Hc. cbn.
      by rewrite (proj2 (IH ps) Hps).
Qed.

Lemma physicalCoreCount_spec n : physicalCoreCount = Some n <->
  exists online ids pairs, readFile "/sys/devices/system/cpu/online" kSmallFileLimit = Some online /\
    onlineCpuIds online = Some ids /\ Forall2 core_of ids pairs /\
    n = Z.of_nat (base.size (list_to_set pairs : gset (Z * Z))).
Proof.
  unfold physicalCoreCount. destruct (readFile _ _) as [online|]; cbn; [|split; [done|naive_solver]].
  destruct (onlineCpuIds online) as [ids|] eqn:Ei; cbn; [|split; [done|naive_solver]].
  apply onlineCpuIds_bounded in Ei as Hids. setoid_rewrite <- coreIds_spec.
  destruct (coreIds ids) as [pairs|] eqn:Ec; cbn; [|split; [done|naive_solver]].
  apply coreIds_spec in Ec as Hl. apply Forall2_length in Hl. pose proof (size_list_to_set_le pairs).
  assert (Hpos : base.size (list_to_set pairs : gset (Z * Z)) <> 0%nat).
  { intros E%size_empty_inv. destruct pairs as [|x pairs]; [cbn in *; lia|]. set_solver. }
  unfold kMaximumCpuCount. case_if; [apply orb_true_iff in Heqb as [|]; bool_facts; lia|].
  split; [intros [= <-]; by exists online, ids, pairs|]. intros (? & ? & ? & [= <-] & E & ? & ->). naive_solver.
Qed.
End report.

(** The local report.  Nothing but the Raspberry Pi's own diagnostics is given exactly
    when every baseline field is there, and no diagnostic at all exactly when the board is a
    Raspberry Pi of known model and revision besides.  The logical count is what the system
    says when that is 1 to 256; the physical one is the number of different (package, core)
    pairs of the processors online, 1 to 256, and is absent when any of these files is not
    readable; the memory is a positive whole number of KiB in 64 bits; compatible ids are
    reported for a Raspberry Pi only. *)
Theorem local_info_complete `{QtText} `{LinuxPlatformAccess} :
  let info := collect.1 in let diagnostics := collect.2 in
  (info_hasAllBaselineFields info = true <-> Forall (.∈ pi_texts) diagnostics) /\
  (diagnostics = [] <-> info_hasAllBaselineFields info = true /\ has_value (compatible_ids (info_hardware info)) = true /\
    has_value (hw_model (info_hardware info)) = true /\ has_value (board_revision (info_hardware info)) = true) /\
  (forall n, logical_cpu_count (info_cpu info) = Some n <-> v_logical_cpu_count values = Some n /\ 1 <= n <= 256) /\
  (forall n, physical_core_count (info_cpu info) = Some n <->
    exists online ids pairs, readFile "/sys/devices/system/cpu/online" kSmallFileLimit = Some online /\
      onlineCpuIds online = Some ids /\ Forall2 core_of ids pairs /\
      n = Z.of_nat (base.size (list_to_set pairs : gset (Z * Z)))) /\
  (forall n, physical_core_count (info_cpu info) = Some n -> 1 <= n <= 256) /\
  (forall n, info_total_bytes (info_memory info) = Some n -> 0 < n <= uint64_max /\ n mod 1024 = 0) /\
  (forall ids, compatible_ids (info_hardware info) = Some ids -> exists id, id ∈ ids /\ starts_with "raspberrypi," id = true).
Proof.
  cbn zeta. cbn [collect fst snd]. repeat match goal with |- _ /\ _ => split end.
  - unfold info_hasAllBaselineFields, missingBaselineDiagnostics. rewrite !Forall_app.
    rewrite !missing_in by (apply (bool_decide_unpack _); vm_compute; exact I). rewrite !andb_true_iff.
    assert (Forall (.∈ pi_texts) pi_diagnostics).
    { unfold pi_diagnostics. destruct is_pi; [apply Forall_app; split; apply missing_out; apply (bool_decide_unpack _); vm_compute; exact I|].
      apply Forall_singleton, (bool_decide_unpack _). vm_compute. exact I. }
    tauto.
  - unfold info_hasAllBaselineFields, missingBaselineDiagnostics, pi_diagnostics, collected_info. cbn [info_hardware].
    unfold collected_hardware. destruct is_pi; cbn [hw_model board_revision compatible_ids has_value].
    + rewrite !app_nil, !missing_nil, !andb_true_iff. tauto.
    + split; [done|]. intros (_ & ? & _). done.
  - intros n. cbn. destruct (v_logical_cpu_count values) as [k|]; cbn; [|split; [done|intros [? _]; done]].
    unfold kMaximumCpuCount. case_if; bool_facts; [split; [intros [= <-]; split; [done|lia]|by intros [[= <-] _]]|].
    split; [done|]. intros [[= <-] ?]. rewrite !(proj2 (Z.ltb_lt _ _)), !(proj2 (Z.leb_le _ _)) in Heqb by lia. done.
  - intros n. apply physicalCoreCount_spec.
  - intros n. cbn [info_cpu collected_info collected_cpu physical_core_count]. unfold physicalCoreCount.
    intros (ids & _ & (pairs & _ & E)%bind_Some)%bind_Some. cbn zeta in E. case_if; [done|]. injection E as <-.
    unfold kMaximumCpuCount in *. bool_facts. lia.
  - intros n (s & _ & E)%bind_Some. by apply memoryLines_range in E.
  - cbn [info_hardware collected_info]. unfold collected_hardware. destruct is_pi eqn:Ep; [|done]. intros ids [= <-].
    apply existsb_exists in Ep as (id & Hin & Hid). exists id. by rewrite list_elem_of_In.
Qed.

(** ** Concrete machines *)

(** A list with blanks inside: the dashboard reads it, the daemon does not. *)
Example blanks_in_cpu_list :
  onlineCpuIds "0 -3" = Some [0; 1; 2; 3] /\ DaemonText.online_cpu_ids "0 -3" = None.
Proof. vm_compute. split; reflexivity. Qed.

Definition sample_machine (name : string) (files : string -> option string) : native_machine :=
  {| machineHostName := name; productType := "debian"; productVersion := "12"; prettyProductName := "Debian";
     kernelType := "linux"; kernelVersion := "6.1"; currentCpuArchitecture := "arm64"; processors := 2;
     file_read path n := option_map (str_take (Z.to_nat n)) (files path) |}.

Definition sample_files (path : string) : option string :=
  if String.eqb path "/proc/meminfo" then Some ("MemTotal:  2048 kB" ++ String newline "")%string
  else if String.eqb path "/proc/cpuinfo" then Some "Revision : a02082"%string
  else if String.eqb path "/sys/devices/system/cpu/online" then Some ("0-1" ++ String newline "")%string
  else if String.eqb path "/sys/firmware/devicetree/base/compatible"
  then Some ("raspberrypi,3" ++ String nul "brcm,bcm2837")%string
  else if String.eqb path "/sys/firmware/devicetree/base/model" then Some "Raspberry Pi 3"%string
  else if ends_with "_id" path then Some "0"%string else None.

Definition sample_access : LinuxPlatformAccess := native_access (sample_machine "pi.local" sample_files).

Example sample_report : let '(info, diagnostics) := collect (H0 := sample_access) in
  diagnostics = [] /\ host_name (info_host info) = Some "pi"%string /\
  architecture (info_cpu info) = Some "aarch64"%string /\ cpu_model (info_cpu info) = Some "BCM2837"%string /\
  physical_core_count (info_cpu info) = Some 1 /\ info_total_bytes (info_memory info) = Some 2097152.
Proof. vm_compute. repeat split. Qed.

(** A host name that starts with a dot is cut to nothing and still counts as known. *)
Example empty_host_name :
  let '(info, _) := collect (H0 := native_access (sample_machine ".local" sample_files)) in
  host_name (info_host info) = Some ""%string /\ info_hasAllBaselineFields info = true.
Proof. vm_compute. split; reflexivity. Qed.

Lemma cpu_lists_agree_witness :
  str_forall not_space "0-2,5" = true /\
  onlineCpuIds ("0-2,5" ++ String newline "") = DaemonText.online_cpu_ids ("0-2,5" ++ String newline "").
Proof. split; [reflexivity|]. destruct (cpu_lists_agree "0-2,5" [0; 1; 2; 5] eq_refl) as [E _]. exact E. Defined.

Lemma local_info_complete_witness :
  info_hasAllBaselineFields (collect (H0 := sample_access)).1 = true /\ (collect (H0 := sample_access)).2 = [].
Proof.
  pose proof (local_info_complete (H0 := sample_access)) as (_ & Hd & _).
  assert (E : (collect (H0 := sample_access)).2 = []) by (vm_compute; reflexivity).
  split; [apply Hd, E|exact E].
Defined.
