(* ===== verification/DeviceModel.v ===== *)
(** * The device model (src/dashboard/device_model.cpp)

    [DeviceModel] is the list model over this machine (row 0) and the registry's devices
    (the rows after it).  The services and the registry it points to are fields, absent
    once destroyed; what a handler does to the views is a list of [model_call]s.  Qt's
    rounding and texts are parameters ([DeviceLibrary]). *)

From S2P Require Import Prelude.
From S2P Require Import Std.
From S2P Require Import Float64.
From S2P Require Import DaemonText.
From S2P Require Import QtCbor.
From S2P Require Import Protocol.
From S2P Require Import DeviceSnapshot.
From S2P Require Import Registry.
From S2P Require Import QtModel.
From S2P Require MetricsService.
From S2P Require InfoService.

Abbreviation SysInfoService := InfoService.SysInfoService.
Abbreviation SysMetricsService := MetricsService.SysMetricsService.

Class DeviceLibrary := {
  qRound : double -> Z;
  qRound64 : double -> Z;
  fixed1 : double -> string;            (* QString::arg(value, 0, 'f', 1) *)
  uuid_text : QUuid -> string           (* QUuid::toString(QUuid::WithoutBraces) *) }.

Inductive Role :=
| DeviceNumberRole | DeviceIdRole | HostnameRole | StatusKeyRole | LocalRole | HistoryAvailableRole
| CpuMetricRole | MemoryMetricRole | CpuUsageRatioRole | MemoryUsageRatioRole | TemperatureMetricRole
| UptimeMetricRole | UptimeSecondsRole | CpuFrequencyHzRole | MemoryUsedBytesRole | SwapUsedBytesRole
| DiskUsedBytesRole | DiskTotalBytesRole | DiskUsageRatioRole | BoardTemperatureCelsiusRole | GpuNameRole
| GpuUsageRatioRole | GpuCoreClockHzRole | GpuTemperatureCelsiusRole | NetworkReceiveRateRole
| NetworkTransmitRateRole | NetworkInterfaceNameRole | BootTimeMsRole | OsDescriptionRole
| KernelDescriptionRole | ArchitectureRole | HardwareDescriptionRole | CpuDescriptionRole
| CoreDescriptionRole | TotalMemoryRole | OtherRole.

#[export] Instance Role_eq_dec : EqDecision Role. Proof. solve_decision. Defined.

Definition roleNames : list (Role * string) :=
  [(DeviceNumberRole, "deviceNumber"); (DeviceIdRole, "deviceId"); (HostnameRole, "hostname");
   (StatusKeyRole, "statusKey"); (LocalRole, "local"); (HistoryAvailableRole, "historyAvailable");
   (CpuMetricRole, "cpuMetric"); (MemoryMetricRole, "memoryMetric"); (CpuUsageRatioRole, "cpuUsageRatio");
   (MemoryUsageRatioRole, "memoryUsageRatio"); (TemperatureMetricRole, "temperatureMetric");
   (UptimeMetricRole, "uptimeMetric"); (UptimeSecondsRole, "uptimeSeconds"); (CpuFrequencyHzRole, "cpuFrequencyHz");
   (MemoryUsedBytesRole, "memoryUsedBytes"); (SwapUsedBytesRole, "swapUsedBytes");
   (DiskUsedBytesRole, "diskUsedBytes"); (DiskTotalBytesRole, "diskTotalBytes");
   (DiskUsageRatioRole, "diskUsageRatio"); (BoardTemperatureCelsiusRole, "boardTemperatureCelsius");
   (GpuNameRole, "gpuName"); (GpuUsageRatioRole, "gpuUsageRatio"); (GpuCoreClockHzRole, "gpuCoreClockHz");
   (GpuTemperatureCelsiusRole, "gpuTemperatureCelsius"); (NetworkReceiveRateRole, "networkReceiveRate");
   (NetworkTransmitRateRole, "networkTransmitRate"); (NetworkInterfaceNameRole, "networkInterfaceName");
   (BootTimeMsRole, "bootTimeMs"); (OsDescriptionRole, "osDescription");
   (KernelDescriptionRole, "kernelDescription"); (ArchitectureRole, "architecture");
   (HardwareDescriptionRole, "hardwareDescription"); (CpuDescriptionRole, "cpuDescription");
   (CoreDescriptionRole, "coreDescription"); (TotalMemoryRole, "totalMemory")]%string.

Record DeviceModel := {
  info_ : option SysInfoService;
  metrics_ : option SysMetricsService;
  registry_ : option Registry;
  structured_registry_change_ : bool }.

(** What a row is about. *)
Inductive source := Local (info : SysInfoService) (metrics : SysMetricsService) | Remote (d : Device).

Definition model_rows (m : DeviceModel) : list source :=
  match info_ m, metrics_ m, registry_ m with
  | Some i, Some s, Some r => Local i s :: map Remote (devices r)
  | _, _, _ => []
  end.

Definition rowCount (m : DeviceModel) : nat :=
  match info_ m, metrics_ m, registry_ m with
  | Some _, Some _, Some r => 1 + length (devices r)
  | _, _, _ => 0
  end.

Section model.
Context `{DeviceLibrary}.

(** ** Values *)

Definition dash : string := "—".

Definition joined (first second : option string) : string :=
  match first, second with
  | Some a, Some b => a ++ " · " ++ b
  | Some a, None => a
  | None, Some b => b
  | None, None => dash
  end.

Definition cores (info : SystemInfo) : string :=
  match physical_core_count (info_cpu info), logical_cpu_count (info_cpu info) with
  | Some p, Some l => number_text p ++ " physical · " ++ number_text l ++ " logical"
  | None, Some l => number_text l ++ " logical"
  | Some p, None => number_text p ++ " physical"
  | None, None => dash
  end.

Definition used (total available : option Z) : QVariant :=
  match total, available with Some t, Some a => OfInteger (u64 (t - a)) | _, _ => Invalid end.

Definition ratio (total available : option Z) : QVariant :=
  match total, available with
  | Some t, Some a => if 0 <? t then OfDouble (ddiv (double_of_Z (u64 (t - a))) (double_of_Z t)) else Invalid
  | _, _ => Invalid
  end.

(** [input.toDouble()] of the values these functions are given. *)
Definition to_double (input : QVariant) : double := match input with OfDouble d => d | _ => d0 end.

Definition percent (input : QVariant) : string :=
  match input with
  | Invalid => dash
  | _ => number_text (qRound (dmul (to_double input) (double_of_Z 100))) ++ "%"
  end.

Definition temperature (input : QVariant) : string :=
  match input with Invalid => dash | _ => number_text (qRound (to_double input)) ++ "°C" end.

(** [static_cast<qint64>(d)] *)
Definition truncate (d : double) : Z :=
  match d with
  | S754_finite s m e =>
      let n := if 0 <=? e then Zpos m * 2 ^ e else Zpos m / 2 ^ (- e) in
      if s then - n else n
  | _ => 0
  end.

Definition uptime (input : QVariant) : string :=
  match input with
  | Invalid => dash
  | _ =>
      let minutes := truncate (ddiv (to_double input) (double_of_Z 60)) in
      if minutes <? 1 then "<1m"
      else if 1440 <=? minutes
      then number_text (Z.quot minutes 1440) ++ "d " ++ number_text (Z.rem (Z.quot minutes 60) 24) ++ "h"
      else if 60 <=? minutes then number_text (Z.quot minutes 60) ++ "h " ++ number_text (Z.rem minutes 60) ++ "m"
      else number_text minutes ++ "m"
  end.

(** The loop of [averageFrequency]: sum and count. *)
Fixpoint frequency_sum (cpus : list LogicalCpu) (sum count : Z) : Z * Z :=
  match cpus with
  | [] => (sum, count)
  | cpu :: rest =>
      match lc_frequency_hz cpu with
      | Some f => frequency_sum rest (u64 (sum + f)) (u64 (count + 1))
      | None => frequency_sum rest sum count
      end
  end.

Definition averageFrequency (metrics : SystemMetrics) : QVariant :=
  let '(sum, count) := frequency_sum (logical_cpus (m_cpu metrics)) 0 0 in
  if count =? 0 then Invalid else OfInteger (sum / count).

Definition status_key (s : State) : string :=
  match s with
  | Registered => "registered" | Online => "online" | Stale => "stale" | Offline => "offline"
  end.

(** The number of a row: two digits at least. *)
Definition device_number (row : nat) : string :=
  let n := number_text (Z.of_nat row + 1) in if (row <? 9)%nat then "0" ++ n else n.

(** ** data *)

Definition source_info (src : source) : SystemInfo :=
  match src with Local i _ => InfoService.current_info i | Remote d => system_info d end.
Definition source_metrics (src : source) : SystemMetrics :=
  match src with
  | Local _ s => MetricsService.current_metrics s
  | Remote d => default MetricsService.no_metrics (metrics d)
  end.

Definition first_gpu (metrics : SystemMetrics) : option Gpu := head (gpus metrics).
Definition first_network (metrics : SystemMetrics) : option NetworkInterface := head (network_interfaces metrics).
Definition primary_storage (metrics : SystemMetrics) : option StorageVolume := List.find primary (storage_volumes metrics).

(** [pointer ? value : QVariant{}] *)
Definition when {A} (o : option A) (f : A -> QVariant) : QVariant := match o with Some a => f a | None => Invalid end.

Definition hostname (src : source) : QVariant :=
  match src with
  | Local i _ => optionalText (host_name (info_host (InfoService.current_info i)))
  | Remote d => OfText (if String.eqb (display_name d) "" then default ""%string (host_name (info_host (system_info d)))
                        else display_name d)
  end.

Definition boot_time (src : source) : QVariant :=
  match src with
  | Local _ s => MetricsService.bootTimeUtc qRound64 s
  | Remote d =>
      match last_snapshot_utc d, uptime_seconds (m_system (source_metrics src)) with
      | Some utc, Some up => OfInteger (utc - qRound64 (dmul up (double_of_Z 1000)))
      | _, _ => Invalid
      end
  end.

Definition row_data (row : nat) (src : source) (role : Role) : QVariant :=
  let info := source_info src in
  let metrics := source_metrics src in
  let local := match src with Local _ _ => true | Remote _ => false end in
  let cpuRatio := optionalDouble (usage_ratio (m_cpu metrics)) in
  let memoryRatio := ratio (total_bytes (m_memory metrics)) (available_bytes (m_memory metrics)) in
  let temp := optionalDouble (temperature_celsius (m_cpu metrics)) in
  let up := optionalDouble (uptime_seconds (m_system metrics)) in
  match role with
  | DeviceNumberRole => OfText (device_number row)
  | DeviceIdRole => OfText (match src with Local _ _ => "local" | Remote d => uuid_text (device_id d) end)
  | HostnameRole => hostname src
  | StatusKeyRole => OfText (match src with Local _ _ => "online" | Remote d => status_key (state d) end)
  | LocalRole | HistoryAvailableRole => OfBool local
  | CpuMetricRole => OfText (percent cpuRatio)
  | MemoryMetricRole => OfText (percent memoryRatio)
  | CpuUsageRatioRole => cpuRatio
  | MemoryUsageRatioRole => memoryRatio
  | TemperatureMetricRole => OfText (temperature temp)
  | UptimeMetricRole => OfText (uptime up)
  | UptimeSecondsRole => up
  | CpuFrequencyHzRole => averageFrequency metrics
  | MemoryUsedBytesRole => used (total_bytes (m_memory metrics)) (available_bytes (m_memory metrics))
  | SwapUsedBytesRole => used (swap_total_bytes (m_memory metrics)) (swap_available_bytes (m_memory metrics))
  | DiskUsedBytesRole => when (primary_storage metrics) (fun v => used (sv_total_bytes v) (sv_available_bytes v))
  | DiskTotalBytesRole => when (primary_storage metrics) (fun v => optionalInteger (sv_total_bytes v))
  | DiskUsageRatioRole => when (primary_storage metrics) (fun v => ratio (sv_total_bytes v) (sv_available_bytes v))
  | BoardTemperatureCelsiusRole => temp
  | GpuNameRole => when (first_gpu metrics) (fun g => if String.eqb (gpu_name g) "" then Invalid else OfText (gpu_name g))
  | GpuUsageRatioRole => when (first_gpu metrics) (fun g => optionalDouble (gpu_usage_ratio g))
  | GpuCoreClockHzRole => when (first_gpu metrics) (fun g => optionalInteger (core_clock_hz g))
  | GpuTemperatureCelsiusRole => when (first_gpu metrics) (fun g => optionalDouble (gpu_temperature_celsius g))
  | NetworkReceiveRateRole => when (first_network metrics) (fun n => optionalDouble (rx_bytes_per_second n))
  | NetworkTransmitRateRole => when (first_network metrics) (fun n => optionalDouble (tx_bytes_per_second n))
  | NetworkInterfaceNameRole => OfText (match first_network metrics with Some n => ni_name n | None => "" end)
  | BootTimeMsRole => boot_time src
  | OsDescriptionRole => OfText (joined (os_pretty_name (info_os info)) (os_version (info_os info)))
  | KernelDescriptionRole => OfText (joined (kernel_type (info_kernel info)) (kernel_version (info_kernel info)))
  | ArchitectureRole => optionalText (architecture (info_cpu info))
  | HardwareDescriptionRole => OfText (joined (manufacturer (info_hardware info)) (hw_model (info_hardware info)))
  | CpuDescriptionRole => OfText (joined (vendor (info_cpu info)) (cpu_model (info_cpu info)))
  | CoreDescriptionRole => OfText (cores info)
  | TotalMemoryRole =>
      OfText (match info_total_bytes (info_memory info) with
              | Some bytes => fixed1 (ddiv (double_of_Z bytes) (double_of_Z 1073741824)) ++ " GiB"
              | None => dash
              end)
  | OtherRole => Invalid
  end.

Definition data (m : DeviceModel) (row : nat) (role : Role) : QVariant :=
  match model_rows m !! row with Some src => row_data row src role | None => Invalid end.

(** [get]: a map from the names of the roles. *)
Definition get (m : DeviceModel) (index : Z) : list (string * QVariant) :=
  if (index <? 0) || (Z.of_nat (rowCount m) <=? index) then []
  else map (fun x => (x.2, data m (Z.to_nat index) x.1)) roleNames.

(** ** Signals *)

(** What the handlers call of [QAbstractItemModel], and the signal [countChanged]. *)
Inductive model_call :=
| BeginInsertRows (first last : nat) | EndInsertRows
| BeginRemoveRows (first last : nat) | EndRemoveRows
| BeginResetModel | EndResetModel
| EmitDataChanged (first last : nat) (roles : list Role)
| EmitCountChanged.

Definition with_structured (b : bool) (m : DeviceModel) : DeviceModel :=
  {| info_ := info_ m; metrics_ := metrics_ m; registry_ := registry_ m; structured_registry_change_ := b |}.
Definition with_registry (r : Registry) (m : DeviceModel) : DeviceModel :=
  {| info_ := info_ m; metrics_ := metrics_ m; registry_ := Some r;
     structured_registry_change_ := structured_registry_change_ m |}.

Definition remoteChanged (id : QUuid) (m : DeviceModel) : list model_call :=
  match registry_ m with
  | Some r =>
      match find_device id (devices r) with
      | Some (i, _) => [EmitDataChanged (i + 1) (i + 1) (map fst roleNames)]
      | None => []
      end
  | None => []
  end.

(** The slots connected to the registry. *)
Definition on_registry (x : Registry.signal) (m : DeviceModel) : DeviceModel * list model_call :=
  match x with
  | deviceChanged id => (m, remoteChanged id m)
  | deviceAboutToBeAdded i => (with_structured true m, [BeginInsertRows (i + 1) (i + 1)])
  | deviceAdded => (m, [EndInsertRows; EmitCountChanged])
  | deviceAboutToBeRemoved i => (with_structured true m, [BeginRemoveRows (i + 1) (i + 1)])
  | deviceRemoved => (m, [EndRemoveRows; EmitCountChanged])
  | devicesChanged =>
      if structured_registry_change_ m then (with_structured false m, [])
      else (m, [BeginResetModel; EndResetModel; EmitCountChanged])
  | diagnosticChanged => (m, [])
  end.

Definition info_roles : list Role :=
  [HostnameRole; OsDescriptionRole; KernelDescriptionRole; ArchitectureRole; HardwareDescriptionRole;
   CpuDescriptionRole; CoreDescriptionRole; TotalMemoryRole].

Definition metrics_roles : list Role :=
  [CpuMetricRole; MemoryMetricRole; CpuUsageRatioRole; MemoryUsageRatioRole; TemperatureMetricRole;
   UptimeMetricRole; UptimeSecondsRole; CpuFrequencyHzRole; MemoryUsedBytesRole; SwapUsedBytesRole;
   DiskUsedBytesRole; DiskTotalBytesRole; DiskUsageRatioRole; BoardTemperatureCelsiusRole; GpuNameRole;
   GpuUsageRatioRole; GpuCoreClockHzRole; GpuTemperatureCelsiusRole; NetworkReceiveRateRole;
   NetworkTransmitRateRole; NetworkInterfaceNameRole; BootTimeMsRole].

Definition localInfoChanged (m : DeviceModel) : list model_call :=
  if (rowCount m =? 0)%nat then [] else [EmitDataChanged 0 0 info_roles].

Definition localMetricsChanged (m : DeviceModel) : list model_call :=
  if (rowCount m =? 0)%nat then [] else [EmitDataChanged 0 0 metrics_roles].

(** The slot connected to [destroyed], when the pointer has been cleared. *)
Definition invalidateDependencies : list model_call := [BeginResetModel; EndResetModel; EmitCountChanged].
End model.
