(* ===== verification/DeviceModelLaws.v ===== *)
(** * Views of the device model

    The registry emits its signals while it changes; here each signal is paired with the
    registry at that moment ([moments]), the model's slots are run on them, and a view
    that listens to the model ends up showing what the model has. *)

From S2P Require Import Prelude.
From S2P Require Import Std.
From S2P Require Import Float64.
From S2P Require Import Cbor.
From S2P Require Import DaemonText.
From S2P Require Import QtCbor.
From S2P Require Import Protocol.
From S2P Require Import DeviceSnapshot.
From S2P Require Import SnapshotCodec.
From S2P Require Import SnapshotWire.
From S2P Require Import Registry.
From S2P Require Import RegistryLaws.
From S2P Require Import QtModel.
From S2P Require MetricsService.
From S2P Require InfoService.
From S2P Require Import DeviceModel.

(** ** Signals and the registry they find *)

Abbreviation moment := (Registry.signal * Registry)%type.

(** The loop of [updateFreshness]: the devices before have been updated. *)
Fixpoint freshness_moments (current : Z) (r : Registry) (done todo : list Device) : list moment :=
  match todo with
  | [] => []
  | item :: rest =>
      let item' := freshen current item in
      (if bool_decide (state item' = state item) then []
       else [(deviceChanged (device_id item), with_devices (done ++ item' :: rest) r)])
      ++ freshness_moments current r (done ++ [item']) rest
  end.

Section moments.
Context `{QtCodec}.

(** The signals of an event. *)
Definition emissions (e : event) (v : env) (r : Registry) : list Registry.signal :=
  match e with
  | EHello h addr p => (registerHello h addr p (e_elapsed v) (-1) (e_saved v) r).2
  | ESnapshot s addr p => (acceptSnapshot s addr p (e_elapsed v) (-1) (e_utc v) (e_saved v) r).2
  | ETick => (updateFreshness (e_elapsed v) (-1) r).2
  | EForget id => (forgetDevice id (e_saved v) r).2
  end.

Definition at_once (r : Registry) (s : list Registry.signal) : list moment := map (fun x => (x, r)) s.

Definition moments (e : event) (v : env) (r : Registry) : list moment :=
  let elapsed := e_elapsed v in
  let now_ms := -1 in
  let saved := e_saved v in
  match e with
  | ETick => freshness_moments (now elapsed now_ms) r [] (devices r)
  | EHello hello addr p =>
      let ms0 := freshness_moments (now elapsed now_ms) r [] (devices r) in
      let r0 := (updateFreshness elapsed now_ms r).1 in
      match find_device (h_device_id hello) (devices r0) with
      | Some (index, item) =>
          if is_duplicate hello addr item then ms0
          else
            let '(r2, s2) := persist saved (with_devices (<[index := update_device hello addr p item]> (devices r0)) r0) in
            ms0 ++ at_once r2 (s2 ++ [deviceChanged (device_id item)])
      | None =>
          if maximumDevices <=? len (devices r0) then ms0
          else
            let '(r2, s2) := persist saved (with_devices (devices r0 ++ [new_device hello addr p]) r0) in
            ms0 ++ (deviceAboutToBeAdded (length (devices r0)), r0) :: at_once r2 (s2 ++ [deviceAdded; devicesChanged])
      end
  | ESnapshot snapshot addr p =>
      let '(_, r2, s) := acceptSnapshot snapshot addr p elapsed now_ms (e_utc v) saved r in at_once r2 s
  | EForget id =>
      match find_device id (devices r) with
      | Some (index, _) =>
          let '(r2, s2) := persist saved (with_devices (delete index (devices r)) r) in
          (deviceAboutToBeRemoved index, r) :: at_once r2 (s2 ++ [deviceRemoved; devicesChanged])
      | None => []
      end
  end.

Lemma freshness_moments_signals current r done todo :
  map fst (freshness_moments current r done todo) = freshness_signals current todo.
Proof.
  revert done. induction todo as [|d todo IH]; intros done; [reflexivity|]. cbn [freshness_moments]. rewrite map_app, IH.
  unfold freshness_signals. rewrite filter_cons. case_bool_decide as E.
  - rewrite decide_False by (intros Hn; by apply Hn). done.
  - rewrite decide_True by done. done.
Qed.

Lemma at_once_signals r s : map fst (at_once r s) = s.
Proof. unfold at_once. rewrite map_map. apply map_id. Qed.

(** The moments are those of the signals of the operation. *)
Lemma moments_signals e v r : map fst (moments e v r) = emissions e v r.
Proof.
  destruct v as [elapsed utc saved], e as [hello addr p|snapshot addr p| |id]; cbn [moments emissions e_elapsed e_utc e_saved].
  - unfold registerHello, updateFreshness. cbn [fst devices with_devices].
    set (r0 := with_devices _ r). destruct (find_device _ _) as [[index item]|].
    + destruct (is_duplicate hello addr item); [apply freshness_moments_signals|].
      destruct (persist saved _) as [r2 s2]. cbn. by rewrite map_app, at_once_signals, freshness_moments_signals.
    + destruct (maximumDevices <=? _); [apply freshness_moments_signals|].
      destruct (persist saved _) as [r2 s2]. rewrite map_app. cbn [map fst].
      by rewrite at_once_signals, freshness_moments_signals.
  - destruct (acceptSnapshot _ _ _ _ _ _ _ _) as [[b r2] s]. apply at_once_signals.
  - apply freshness_moments_signals.
  - unfold forgetDevice. destruct (find_device id (devices r)) as [[index item]|]; [|done].
    destruct (persist saved _) as [r2 s2]. cbn [map fst]. by rewrite at_once_signals.
Qed.
End moments.

Section laws.
Context `{QtCodec} `{DeviceLibrary}.

(** ** The model's slots and its views *)

Definition shown (role : Role) (m : DeviceModel) : list QVariant := imap (fun i src => row_data i src role) (model_rows m).

(** The slots run on the moments; each call is paired with the model it finds. *)
Fixpoint deliver (ms : list moment) (m : DeviceModel) : DeviceModel * list (model_call * DeviceModel) :=
  match ms with
  | [] => (m, [])
  | (x, r) :: rest =>
      let m1 := with_registry r m in
      let '(m2, calls) := on_registry x m1 in
      let '(m3, more) := deliver rest m2 in
      (m3, map (fun c => (c, m1)) calls ++ more)
  end.

(** What Qt tells a view of [role]: a change of rows when it ends, a change of data when
    the role is among the changed ones. *)
Fixpoint row_signals (role : Role) (pending : list row_signal) (calls : list (model_call * DeviceModel))
  : list (row_signal * list QVariant) :=
  match calls with
  | [] => []
  | (c, m) :: rest =>
      match c with
      | BeginInsertRows first last => row_signals role (rowsInserted first last :: pending) rest
      | BeginRemoveRows first last => row_signals role (rowsRemoved first last :: pending) rest
      | BeginResetModel => row_signals role (modelReset :: pending) rest
      | EndInsertRows | EndRemoveRows | EndResetModel =>
          match pending with
          | s :: pending => (s, shown role m) :: row_signals role pending rest
          | [] => row_signals role [] rest
          end
      | EmitDataChanged first last roles =>
          (if bool_decide (role ∈ roles) then [(dataChanged first last, shown role m)] else [])
          ++ row_signals role pending rest
      | EmitCountChanged => row_signals role pending rest
      end
  end.

(** An event of the registry, with the slots it runs. *)
Definition update_registry (e : event) (v : env) (r : Registry) (m : DeviceModel)
  : DeviceModel * list (model_call * DeviceModel) :=
  let '(m1, calls) := deliver (moments e v r) m in (with_registry (perform e v r) m1, calls).

(** The model of services that live. *)
Definition living (i : SysInfoService) (s : SysMetricsService) (flag : bool) (r : Registry) : DeviceModel :=
  {| info_ := Some i; metrics_ := Some s; registry_ := Some r; structured_registry_change_ := flag |}.

Lemma row_data_row n n' src role : role <> DeviceNumberRole -> row_data n src role = row_data n' src role.
Proof. by destruct role. Qed.

Lemma shown_length role m : length (shown role m) = rowCount m.
Proof.
  unfold shown, model_rows, rowCount. rewrite length_imap. destruct (info_ m), (metrics_ m), (registry_ m); try done.
  cbn. by rewrite length_map.
Qed.

Lemma shown_living role i s flag r : role <> DeviceNumberRole ->
  shown role (living i s flag r) = row_data 0 (Local i s) role :: map (fun d => row_data 0 (Remote d) role) (devices r).
Proof.
  intros Hr. unfold shown. rewrite (imap_ext _ (fun _ src => row_data 0 src role)) by (intros; by apply row_data_row).
  etransitivity; [apply (imap_const (fun src => row_data 0 src role))|]. cbn. f_equal. by apply map_map.
Qed.

(** ** The registry's changes *)

Section role.
Context (role : Role) (not_number : role <> DeviceNumberRole) (named : role ∈ map fst roleNames).
Context (i : SysInfoService) (s : SysMetricsService).

Abbreviation model := (living i s).
Abbreviation cell := (fun d => row_data 0 (Remote d) role).

Definition rows_of (ds : list Device) : list QVariant := row_data 0 (Local i s) role :: map cell ds.

Lemma shown_rows flag r : shown role (model flag r) = rows_of (devices r).
Proof. by apply shown_living. Qed.

(** The slots run on [ms] bring a view from [ds] to [ds'], leave no change of rows open,
    and say that the count changed exactly when [counted]. *)
Definition delivers (ms : list moment) (ds : list Device) (flag : bool) (ds' : list Device) (flag' counted : bool) : Prop :=
  forall r0, exists r1 calls, deliver ms (model flag r0) = (model flag' r1, calls) /\
    mirrors (rows_of ds) (row_signals role [] calls) (rows_of ds') /\
    (forall more, row_signals role [] (calls ++ more) = row_signals role [] calls ++ row_signals role [] more) /\
    (EmitCountChanged ∈ map fst calls <-> counted = true).

Lemma delivers_nil ds flag : delivers [] ds flag ds flag false.
Proof. intros r0. exists r0, []. split_and!; try done. split; [by intros ?%elem_of_nil|done]. Qed.

Lemma delivers_app ms1 ms2 ds1 ds2 ds3 f1 f2 f3 c1 c2 :
  delivers ms1 ds1 f1 ds2 f2 c1 -> delivers ms2 ds2 f2 ds3 f3 c2 -> delivers (ms1 ++ ms2) ds1 f1 ds3 f3 (c1 || c2).
Proof.
  intros H1 H2 r0. destruct (H1 r0) as (r1 & calls1 & Hd1 & Hm1 & Hb1 & Hc1). destruct (H2 r1) as (r2 & calls2 & Hd2 & Hm2 & Hb2 & Hc2).
  exists r2, (calls1 ++ calls2). split_and!.
  - clear -Hd1 Hd2. revert r0 r1 f1 calls1 Hd1 Hd2. induction ms1 as [|[x r] ms1 IH]; intros r0 r1 f1 calls1 Hd1 Hd2; cbn [app deliver] in *.
    + injection Hd1 as -> -> <-. done.
    + change (with_registry r (model f1 r0)) with (model f1 r) in *. destruct (on_registry x (model f1 r)) as [m2 calls] eqn:Ex. destruct (deliver ms1 m2) as [m3 more] eqn:Em.
      injection Hd1 as -> <-.
      assert (exists f' r', m2 = model f' r') as (f' & r' & ->).
      { destruct x; cbn in Ex; try (injection Ex as <- _; by eexists _, _). destruct f1; injection Ex as <- _; by eexists _, _. }
      rewrite (IH r' r1 f' more Em Hd2). by rewrite (assoc_L (++)).
  - rewrite Hb1. by eapply mirrors_app.
  - intros more. by rewrite <- (assoc_L (++)), !Hb1, Hb2, (assoc_L (++)).
  - rewrite map_app, elem_of_app, Hc1, Hc2. by rewrite orb_true_iff.
Qed.

Lemma rows_insert k d ds : rows_of (<[k := d]> ds) = <[S k := cell d]> (rows_of ds).
Proof. unfold rows_of. change (map cell) with (fmap (M := list) cell). by rewrite list_fmap_insert. Qed.

Lemma delivers_changed k d r ds flag :
  NoDup (map device_id (devices r)) -> (k < length ds)%nat -> devices r = <[k := d]> ds ->
  delivers [(deviceChanged (device_id d), r)] ds flag (devices r) flag false.
Proof.
  intros Hnd Hk Hr r0. exists r, [(EmitDataChanged (k + 1) (k + 1) (map fst roleNames), model flag r)].
  assert (find_device (device_id d) (devices r) = Some (k, d)) as Hf.
  { apply find_device_unique; [done| |done]. rewrite Hr. by apply list_lookup_insert_eq. }
  split_and!.
  - cbn. unfold remoteChanged. cbn. by rewrite Hf.
  - cbn [row_signals]. rewrite bool_decide_true by done. cbn [app]. rewrite (shown_rows flag r), Hr, rows_insert, Nat.add_1_r.
    apply mirrors_update. unfold rows_of. cbn. rewrite length_map. lia.
  - intros more. cbn. by destruct (bool_decide _).
  - cbn. split; [|done]. intros Hin. apply list_elem_of_singleton in Hin. done.
Qed.

Lemma delivers_diagnostic r ds flag : delivers [(diagnosticChanged, r)] ds flag ds flag false.
Proof. intros r0. exists r, []. split_and!; try done. split; [by intros ?%elem_of_nil|done]. Qed.

Lemma delivers_persist saved r r' sig ds flag : persist saved r = (r', sig) -> delivers (at_once r' sig) ds flag ds flag false.
Proof.
  unfold persist. intros Hp. destruct saved; injection Hp as <- <-; [apply delivers_nil|apply delivers_diagnostic].
Qed.

Lemma delivers_added saved r0 r r' sig x :
  persist saved r = (r', sig) -> devices r = devices r0 ++ [x] ->
  delivers ((deviceAboutToBeAdded (length (devices r0)), r0) :: at_once r' (sig ++ [deviceAdded; devicesChanged]))
    (devices r0) false (devices r) false true.
Proof.
  intros Hp Hr q. assert (devices r' = devices r) as Hr' by (by rewrite <- (persist_devices saved r), Hp).
  assert (mirrors (rows_of (devices r0)) [(rowsInserted (length (devices r0) + 1) (length (devices r0) + 1), rows_of (devices r))]
            (rows_of (devices r))) as Hm.
  { rewrite Hr. unfold rows_of. rewrite map_app, app_comm_cons. cbn [map].
    replace (length (devices r0) + 1)%nat with (length (row_data 0 (Local i s) role :: map cell (devices r0)))
      by (cbn; rewrite length_map; lia). apply mirrors_append. }
  exists r', [(BeginInsertRows (length (devices r0) + 1) (length (devices r0) + 1), model false r0);
     (EndInsertRows, model true r'); (EmitCountChanged, model true r')].
  split; [unfold persist in Hp; destruct saved; by injection Hp as <- <-|].
  split; [cbn [row_signals]; by rewrite (shown_rows true), Hr'|]. split; [done|]. cbn. rewrite !elem_of_cons. tauto.
Qed.

Lemma delivers_removed saved r0 r r' sig k :
  persist saved r = (r', sig) -> devices r = delete k (devices r0) ->
  delivers ((deviceAboutToBeRemoved k, r0) :: at_once r' (sig ++ [deviceRemoved; devicesChanged]))
    (devices r0) false (devices r) false true.
Proof.
  intros Hp Hr q. assert (devices r' = devices r) as Hr' by (by rewrite <- (persist_devices saved r), Hp).
  assert (mirrors (rows_of (devices r0)) [(rowsRemoved (k + 1) (k + 1), rows_of (devices r))] (rows_of (devices r))) as Hm.
  { rewrite Hr. unfold mirrors, rows_of. cbn [fold_left follow]. rewrite Nat.add_1_r. cbn [take drop app]. f_equal.
    rewrite delete_take_drop, map_app. by rewrite firstn_map, skipn_map. }
  exists r', [(BeginRemoveRows (k + 1) (k + 1), model false r0); (EndRemoveRows, model true r'); (EmitCountChanged, model true r')].
  split; [unfold persist in Hp; destruct saved; by injection Hp as <- <-|].
  split; [cbn [row_signals]; by rewrite (shown_rows true), Hr'|]. split; [done|]. cbn. rewrite !elem_of_cons. tauto.
Qed.

Lemma freshen_same c d : state (freshen c d) = state d -> freshen c d = d.
Proof. unfold freshen. destruct (_ <? 0); [done|]. cbn. intros Hs. unfold with_state. rewrite Hs. by destruct d. Qed.

Lemma delivers_freshness c r done_ todo flag : NoDup (map device_id (done_ ++ todo)) ->
  delivers (freshness_moments c r done_ todo) (done_ ++ todo) flag (done_ ++ map (freshen c) todo) flag false.
Proof.
  revert done_. induction todo as [|d todo IH]; intros done_ Hnd; cbn [freshness_moments map]; [apply delivers_nil|].
  assert (map device_id ((done_ ++ [freshen c d]) ++ todo) = map device_id (done_ ++ d :: todo)) as Hids.
  { rewrite <- (assoc_L (++)), !map_app. cbn. by rewrite freshen_id. }
  specialize (IH (done_ ++ [freshen c d])). rewrite Hids in IH. specialize (IH Hnd).
  rewrite <- !(assoc_L (++)) in IH. cbn [app] in IH. rewrite <- (orb_diag false). eapply delivers_app; [|exact IH].
  case_bool_decide as Hs; [rewrite (freshen_same _ _ Hs); apply delivers_nil|].
  set (r' := with_devices (done_ ++ freshen c d :: todo) r). rewrite <- (freshen_id c d).
  apply (delivers_changed (length done_) (freshen c d) r').
  - cbn. rewrite <- (assoc_L (++)) in Hids. cbn [app] in Hids. by rewrite Hids.
  - rewrite length_app. cbn. lia.
  - cbn. rewrite insert_app_r_alt by lia. by rewrite Nat.sub_diag.
Qed.

(** A device is replaced by one of the same id, stored and announced. *)
Lemma delivers_replaced saved r index item d r2 s2 : NoDup (map device_id (devices r)) ->
  devices r !! index = Some item -> device_id d = device_id item ->
  persist saved (with_devices (<[index:=d]> (devices r)) r) = (r2, s2) ->
  delivers (at_once r2 (s2 ++ [deviceChanged (device_id item)])) (devices r) false (devices r2) false false.
Proof.
  intros Hnd Hf Hid Hp. set (r1 := with_devices _ r) in Hp.
  pose proof (persist_devices saved r1) as Hp1. rewrite Hp in Hp1. cbn [fst] in Hp1. unfold at_once. rewrite map_app.
  eapply (delivers_app _ _ _ _ _ _ _ _ false false); [by eapply delivers_persist|]. cbn [map]. rewrite <- Hid.
  eapply delivers_changed; [|by eapply lookup_lt_Some|by rewrite Hp1]. rewrite Hp1. cbn [devices r1 with_devices].
  by erewrite map_id_insert.
Qed.

(** Every event of the registry. *)
Lemma delivers_event e v r : NoDup (map device_id (devices r)) ->
  delivers (moments e v r) (devices r) false (devices (perform e v r)) false
    (negb (length (devices (perform e v r)) =? length (devices r))%nat).
Proof.
  intros Hnd. assert (forall current, delivers (freshness_moments current r [] (devices r)) (devices r) false
    (map (freshen current) (devices r)) false false) as Hfresh by (intros; by apply delivers_freshness).
  destruct v as [elapsed utc saved], e as [hello addr p|snapshot addr p| |id].
  - set (now_ms := -1). specialize (Hfresh (now elapsed now_ms)). cbn [moments perform e_elapsed e_utc e_saved]. fold now_ms. unfold registerHello, updateFreshness. cbn [fst snd].
    set (r0 := with_devices (map (freshen (now elapsed now_ms)) (devices r)) r) in *.
    assert (length (devices r0) = length (devices r)) as Hlen by (cbn; apply length_map).
    assert (NoDup (map device_id (devices r0))) as Hnd0 by (cbn; by rewrite map_freshen_ids).
    change (map (freshen (now elapsed now_ms)) (devices r)) with (devices r0) in Hfresh.
    destruct (find_device _ _) as [[index item]|] eqn:Hf.
    + destruct (is_duplicate hello addr item); [cbn [fst snd]; by rewrite Hlen, Nat.eqb_refl|].
      apply find_device_Some in Hf as [Hf _].
      set (r1 := with_devices (<[index:=update_device hello addr p item]> (devices r0)) r0).
      assert (device_id (update_device hello addr p item) = device_id item) as Hid by (unfold update_device; by case_bool_decide).
      pose proof (persist_devices saved r1) as Hp1. destruct (persist saved r1) as [r2 s2] eqn:Hp. cbn [fst snd] in *.
      rewrite Hp1 at 2. cbn [devices r1 with_devices]. rewrite length_insert, Hlen, Nat.eqb_refl.
      eapply (delivers_app _ _ _ _ _ _ _ _ false false); [exact Hfresh|]. by eapply (delivers_replaced saved r0).
    + destruct (maximumDevices <=? _); [cbn [fst snd]; by rewrite Hlen, Nat.eqb_refl|].
      set (r1 := with_devices (devices r0 ++ [new_device hello addr p]) r0).
      pose proof (persist_devices saved r1) as Hp1. destruct (persist saved r1) as [r2 s2] eqn:Hp. cbn [fst snd] in *.
      rewrite Hp1. cbn [devices r1 with_devices]. rewrite length_app, Hlen. cbn [length].
      rewrite (proj2 (Nat.eqb_neq _ _)) by lia. eapply (delivers_app _ _ _ _ _ _ _ _ false true); [exact Hfresh|].
      rewrite <- Hlen. apply (delivers_added saved r0 r1 r2 s2 (new_device hello addr p)); [exact Hp|done].
  - set (now_ms := -1). cbn [moments perform e_elapsed e_utc e_saved]. fold now_ms. unfold acceptSnapshot. destruct (find_device _ _) as [[index item]|] eqn:Hf.
    2: { cbn. rewrite Nat.eqb_refl. apply delivers_nil. }
    destruct (negb _); [cbn; rewrite Nat.eqb_refl; apply delivers_nil|]. apply find_device_Some in Hf as [Hf _].
    set (r1 := with_devices (<[index:=apply_snapshot snapshot (now elapsed now_ms) utc item]> (devices r)) r).
    pose proof (persist_devices saved r1) as Hp1. destruct (persist saved r1) as [r2 s2] eqn:Hp. cbn [fst snd] in *.
    rewrite Hp1 at 2. cbn [devices r1 with_devices]. rewrite length_insert, Nat.eqb_refl. eapply (delivers_replaced saved r); [done|exact Hf| |exact Hp]; done.
  - cbn. rewrite length_map, Nat.eqb_refl. apply Hfresh.
  - cbn [moments perform e_elapsed e_utc e_saved]. unfold forgetDevice. destruct (find_device id (devices r)) as [[index item]|] eqn:Hf.
    2: { cbn. rewrite Nat.eqb_refl. apply delivers_nil. }
    apply find_device_Some, proj1 in Hf. set (r1 := with_devices (delete index (devices r)) r).
    pose proof (persist_devices saved r1) as Hp1. destruct (persist saved r1) as [r2 s2] eqn:Hp. cbn [fst snd] in *.
    rewrite Hp1. cbn [devices r1 with_devices]. rewrite length_delete by (by exists item).
    pose proof (lookup_lt_Some _ _ _ Hf). rewrite (proj2 (Nat.eqb_neq _ _)) by lia. by apply (delivers_removed saved r r1).
Qed.
End role.

(** Views follow the registry.  While the services live and the ids of the devices
    are distinct, whatever message, tick or
    request changes the registry: the slots its signals run on the
    way let a view of any named role but the device number go from the rows the model
    had to the rows it has, row signals and changed roles included; the model is then
    ready for the next call, and it says that its count changed exactly when it did. *)
Theorem device_model_follows e v r i s role
    (Hids : NoDup (map device_id (devices r))) (Hnumber : role <> DeviceNumberRole) (Hnamed : role ∈ map fst roleNames) :
  let m := living i s false r in
  let after := update_registry e v r m in
  after.1 = living i s false (perform e v r) /\
  mirrors (shown role m) (row_signals role [] after.2) (shown role after.1) /\
  (EmitCountChanged ∈ map fst after.2 <-> rowCount after.1 <> rowCount m).
Proof.
  intros m after. unfold after, update_registry, m. destruct (delivers_event role Hnumber Hnamed i s e v r Hids r) as (r1 & calls & -> & Hm & _ & Hc).
  cbn [fst snd]. change (with_registry _ _) with (living i s false (perform e v r)). split; [done|].
  split; [by rewrite !shown_rows|]. rewrite Hc. cbn. rewrite negb_true_iff, Nat.eqb_neq. lia.
Qed.

(** Changes of the local machine.  Whatever the services report, the roles named in
    [dataChanged] are all that changed: a view of any role, the number included, that
    showed the rows before shows the rows after. *)
Theorem device_model_local_changes m role i' s' r
    (Hregistry : registry_ m = Some r) (Hinfo : is_Some (info_ m)) (Hmetrics : is_Some (metrics_ m)) :
  let with_info := {| info_ := Some i'; metrics_ := metrics_ m; registry_ := registry_ m;
                      structured_registry_change_ := structured_registry_change_ m |} in
  let with_metrics := {| info_ := info_ m; metrics_ := Some s'; registry_ := registry_ m;
                         structured_registry_change_ := structured_registry_change_ m |} in
  mirrors (shown role m) (row_signals role [] (map (fun c => (c, with_info)) (localInfoChanged with_info))) (shown role with_info) /\
  mirrors (shown role m) (row_signals role [] (map (fun c => (c, with_metrics)) (localMetricsChanged with_metrics)))
    (shown role with_metrics).
Proof.
  destruct Hinfo as [i Hi], Hmetrics as [s Hs], m as [info metrics registry flag]. cbn in Hi, Hs, Hregistry. subst.
  split; cbn -[row_data]; unfold shown, mirrors; cbn -[row_data]; rewrite ?take_0, ?drop_0; by destruct role.
Qed.
End laws.

(** ** Concrete models *)

Definition sample_library : DeviceLibrary :=
  {| qRound d := truncate (dadd d (ddiv d1 (double_of_Z 2))); qRound64 d := truncate (dadd d (ddiv d1 (double_of_Z 2)));
     fixed1 d := number_text (truncate d); uuid_text _ := "uuid"%string |}.

Definition sample_model : DeviceModel := living InfoService.new_service MetricsService.new_service false sample_online.

Definition sample_env : env := {| e_elapsed := 8000; e_utc := 9; e_saved := true |}.

Lemma device_model_follows_witness :
  mirrors (@shown sample_library StatusKeyRole sample_model)
    (@row_signals sample_library StatusKeyRole [] (@update_registry reference_codec ETick sample_env sample_online sample_model).2)
    [OfText "online"; OfText "stale"].
Proof.
  destruct (@device_model_follows reference_codec sample_library ETick sample_env sample_online
              InfoService.new_service MetricsService.new_service StatusKeyRole) as (_ & H & _).
  - vm_compute. repeat constructor; intros Hin; inversion Hin.
  - discriminate.
  - vm_compute. right; right; right; left.
  - exact H.
Defined.

Lemma device_model_local_changes_witness :
  @row_signals sample_library MemoryMetricRole []
    (map (fun c => (c, sample_model)) (localMetricsChanged sample_model))
  = [(dataChanged 0 0, @shown sample_library MemoryMetricRole sample_model)] /\
  mirrors (@shown sample_library MemoryMetricRole sample_model)
    (@row_signals sample_library MemoryMetricRole [] (map (fun c => (c, sample_model)) (localMetricsChanged sample_model)))
    (@shown sample_library MemoryMetricRole sample_model).
Proof.
  split; [reflexivity|].
  apply (@device_model_local_changes sample_library sample_model MemoryMetricRole InfoService.new_service
           MetricsService.new_service sample_online); [reflexivity|by eexists..].
Defined.

(** When a device is forgotten the rows after it get new numbers, and no view is told. *)
Definition two_devices : Registry :=
  with_devices [new_device sample_hello sample_address 4000; loaded_device (be_bytes 16 9) "b" 1 no_info] sample_registry.

Example device_numbers_stale :
  let m := living InfoService.new_service MetricsService.new_service false two_devices in
  let after := @update_registry reference_codec (EForget (h_device_id sample_hello)) sample_env two_devices m in
  let view := fold_left follow (@row_signals sample_library DeviceNumberRole [] after.2) (@shown sample_library DeviceNumberRole m) in
  view = [OfText "01"; OfText "03"] /\ @shown sample_library DeviceNumberRole after.1 = [OfText "01"; OfText "02"].
Proof. vm_compute. done. Qed.
