(* ===== verification/LocalRow.v ===== *)
(** * From the machine to its row (src/dashboard/device_model.cpp)

    The slots that [DeviceModel] connects to the local services, run at the emissions of
    the services' slots: the views of the local row follow what the collectors find. *)

From S2P Require Import Prelude.
From S2P Require Import Float64.
From S2P Require Import QtText.
From S2P Require Import Protocol.
From S2P Require Import QtModel.
From S2P Require Import Bindings.
From S2P Require Import Registry.
From S2P Require Import RegistryLaws.
From S2P Require InfoService MetricsService InfoCollector MetricsCollector MetricsCollectorLaws.
From S2P Require Import LocalBindings.
From S2P Require Import DeviceModel.
From S2P Require Import DeviceModelLaws.

#[local] Existing Instances InfoService.signal_eq_dec MetricsService.signal_eq_dec.

Section row.
Context `{DeviceLibrary}.

(** [currentInfoChanged] is connected to [localInfoChanged]. *)
Definition info_calls (s : MetricsService.SysMetricsService) (flag : bool) (r : Registry) (e : InfoService.emission)
  : list (model_call * DeviceModel) :=
  let m := living e.2 s flag r in
  match e.1 with InfoService.currentInfoChanged => map (fun c => (c, m)) (localInfoChanged m) | _ => [] end.

(** [currentMetricsChanged] is connected to [localMetricsChanged]. *)
Definition metrics_calls (i : InfoService.SysInfoService) (flag : bool) (r : Registry) (e : MetricsService.emission)
  : list (model_call * DeviceModel) :=
  let m := living i e.2 flag r in
  match e.1 with MetricsService.currentMetricsChanged => map (fun c => (c, m)) (localMetricsChanged m) | _ => [] end.

(** What a view of [role] holds of the local row when it reads it at the changes. *)
Lemma info_calls_view role s flag r es : role <> DeviceNumberRole -> role ∈ info_roles -> forall cell,
  let rest := map (fun d => row_data 0 (Remote d) role) (devices r) in
  mirrors (cell :: rest) (row_signals role [] (concat (map (info_calls s flag r) es)))
    (bound (fun x => row_data 0 (Local x s) role) InfoService.currentInfoChanged es cell :: rest).
Proof.
  intros Hn Hin. induction es as [|[x i] es IH]; intros cell; [done|]. cbn [map concat info_calls fst snd].
  destruct x; try exact (IH cell). cbn -[row_data info_roles shown bound bool_decide].
  rewrite bool_decide_eq_true_2 by done. eapply mirrors_app; [|exact (IH (row_data 0 (Local i s) role))].
  rewrite shown_living by done. unfold mirrors. cbn. by rewrite drop_0.
Qed.

Lemma metrics_calls_view role i flag r es : role <> DeviceNumberRole -> role ∈ metrics_roles -> forall cell,
  let rest := map (fun d => row_data 0 (Remote d) role) (devices r) in
  mirrors (cell :: rest) (row_signals role [] (concat (map (metrics_calls i flag r) es)))
    (bound (fun x => row_data 0 (Local i x) role) MetricsService.currentMetricsChanged es cell :: rest).
Proof.
  intros Hn Hin. induction es as [|[x s] es IH]; intros cell; [done|]. cbn [map concat metrics_calls fst snd].
  destruct x; try exact (IH cell). cbn -[row_data metrics_roles shown bound bool_decide].
  rewrite bool_decide_eq_true_2 by done. eapply mirrors_app; [|exact (IH (row_data 0 (Local i s) role))].
  rewrite shown_living by done. unfold mirrors. cbn. by rewrite drop_0.
Qed.

(** Views of other roles are told nothing. *)
Lemma info_calls_silent role s flag r es : role ∉ info_roles -> row_signals role [] (concat (map (info_calls s flag r) es)) = [].
Proof.
  intros Hno. induction es as [|[x i] es IH]; [done|]. cbn [map concat info_calls fst snd]. destruct x; try exact IH.
  cbn -[row_data info_roles shown bool_decide]. by rewrite bool_decide_eq_false_2.
Qed.

Lemma metrics_calls_silent role i flag r es : role ∉ metrics_roles -> row_signals role [] (concat (map (metrics_calls i flag r) es)) = [].
Proof.
  intros Hno. induction es as [|[x s] es IH]; [done|]. cbn [map concat metrics_calls fst snd]. destruct x; try exact IH.
  cbn -[row_data metrics_roles shown bool_decide]. by rewrite bool_decide_eq_false_2.
Qed.

(** Roles that are not announced do not read the service. *)
Ltac silent_role Hno := first [exfalso; apply Hno, (bool_decide_unpack _); vm_compute; exact I | reflexivity].

Lemma silent_info_role role i i' s : role ∉ info_roles -> row_data 0 (Local i s) role = row_data 0 (Local i' s) role.
Proof. intros Hno. destruct role; silent_role Hno. Qed.

Lemma silent_metrics_role role i s s' : role ∉ metrics_roles -> row_data 0 (Local i s) role = row_data 0 (Local i s') role.
Proof. intros Hno. destruct role; silent_role Hno. Qed.

(** The local row of any role, before and after a slot of a service. *)
Lemma info_row_follows i es i' s flag r role : Info.handles i es i' ->
  mirrors (shown role (living i s flag r)) (row_signals role [] (concat (map (info_calls s flag r) es)))
    (shown role (living i' s flag r)).
Proof.
  intros Hh. destruct (Info.info_handlers_current i es i' Hh) as (_ & _ & Hi & _).
  destruct (decide (role ∈ info_roles)) as [Hin|Hno].
  - assert (role <> DeviceNumberRole) as Hn by (intros ->; by apply (bool_decide_pack _) in Hin).
    rewrite !shown_living by done.
    assert (keeps_current (fun x => row_data 0 (Local x s) role) InfoService.currentInfoChanged i es i') as Hc
      by (refine (keeps_determined _ _ _ _ _ _ _ Hi); intros x y E; destruct role; cbn; rewrite ?E; reflexivity).
    pose proof (info_calls_view role s flag r es Hn Hin (row_data 0 (Local i s) role)) as Hm. cbv zeta in Hm. by rewrite Hc in Hm.
  - rewrite info_calls_silent by done. unfold mirrors, shown, model_rows. cbn -[row_data]. f_equal.
    by apply silent_info_role.
Qed.

Lemma metrics_row_follows s es s' i flag r role : Metrics.handles s es s' ->
  mirrors (shown role (living i s flag r)) (row_signals role [] (concat (map (metrics_calls i flag r) es)))
    (shown role (living i s' flag r)).
Proof.
  intros Hh. destruct (Metrics.metrics_handlers_current s es s' Hh) as (_ & _ & Hs & _).
  destruct (decide (role ∈ metrics_roles)) as [Hin|Hno].
  - assert (role <> DeviceNumberRole) as Hn by (intros ->; by apply (bool_decide_pack _) in Hin).
    rewrite !shown_living by done.
    assert (keeps_current (fun x => row_data 0 (Local i x) role) MetricsService.currentMetricsChanged s es s') as Hc
      by (refine (keeps_determined _ _ _ _ _ _ _ Hs); intros x y [= E E'];
          destruct role; cbn; unfold MetricsService.bootTimeUtc; rewrite ?E, ?E'; reflexivity).
    pose proof (metrics_calls_view role i flag r es Hn Hin (row_data 0 (Local i s) role)) as Hm. cbv zeta in Hm. by rewrite Hc in Hm.
  - rewrite metrics_calls_silent by done. unfold mirrors, shown, model_rows. cbn -[row_data]. f_equal.
    by apply silent_metrics_role.
Qed.

Lemma first_row role i s flag r : head (shown role (living i s flag r)) = Some (row_data 0 (Local i s) role).
Proof. done. Qed.

(** What the row takes from the services: the reports, and the time of the metrics. *)
Lemma row_of_info role i i' s : InfoService.current_info i = InfoService.current_info i' ->
  row_data 0 (Local i s) role = row_data 0 (Local i' s) role.
Proof. intros E. destruct role; cbn; rewrite ?E; reflexivity. Qed.

Lemma row_of_metrics role i s s' : MetricsService.current_metrics s = MetricsService.current_metrics s' ->
  MetricsService.last_success_utc s = MetricsService.last_success_utc s' ->
  row_data 0 (Local i s) role = row_data 0 (Local i s') role.
Proof. intros E E'. destruct role; cbn; unfold MetricsService.bootTimeUtc; rewrite ?E, ?E'; reflexivity. Qed.

(** The outcome of a collection of this machine. *)
Definition info_outcome `{QtText} `{InfoCollector.LinuxPlatformAccess} : InfoService.outcome :=
  InfoService.Collected {| InfoService.cr_info := InfoCollector.collect.1; InfoService.cr_diagnostics := InfoCollector.collect.2 |}.

Definition metrics_outcome `{QtText} (access : MetricsCollector.LinuxSysMetricsAccess) (c : MetricsCollector.Collector)
  : MetricsService.outcome :=
  MetricsService.Collected {| MetricsService.cr_metrics := (MetricsCollector.collect access c).1.1;
                              MetricsService.cr_diagnostics := (MetricsCollector.collect access c).1.2 |}.

(** C19. The local machine is shown as it is found.  Through every slot of the information and
    the metrics service, whose signals run the device model's slots, each binding to a
    property of the service stays current and each view of the device list, whatever role
    it shows, follows the rows.  When a collection of this machine brings a value, the
    first row is the one of the collector's report. *)
Theorem local_machine_shown `{QtText} `{InfoCollector.LinuxPlatformAccess} access c s i flag r role :
  (forall es i', Info.handles i es i' ->
     (forall property read notify, (property, read, notify) ∈ Info.info_properties -> keeps_current read notify i es i') /\
     mirrors (shown role (living i s flag r)) (row_signals role [] (concat (map (info_calls s flag r) es)))
       (shown role (living i' s flag r))) /\
  (forall es s', Metrics.handles s es s' ->
     (forall property read notify, (property, read, notify) ∈ Metrics.metrics_properties qRound64 -> keeps_current read notify s es s') /\
     mirrors (shown role (living i s flag r)) (row_signals role [] (concat (map (metrics_calls i flag r) es)))
       (shown role (living i s' flag r))) /\
  (forall utc, let report := InfoCollector.collect.1 in info_hasAnyValue report = true ->
     let i' := (InfoService.collectionFinished info_outcome utc i).1 in
     head (shown role (living i' s flag r)) =
       Some (row_data 0 (Local (InfoService.with_info report InfoService.new_service) s) role)) /\
  (forall elapsed utc, let report := (MetricsCollector.collect access c).1.1 in metrics_hasAnyValue report = true ->
     let s' := (MetricsService.collectionFinished (metrics_outcome access c) elapsed utc s).1 in
     head (shown role (living i s' flag r)) =
       Some (row_data 0 (Local i (MetricsService.with_metrics report utc MetricsService.new_service)) role)).
Proof.
  split; [|split; [|split]].
  - intros es i' Hh. split; [|by apply info_row_follows]. intros property read notify.
    by apply Info.info_properties_current, Info.info_handlers_current.
  - intros es s' Hh. split; [|by apply metrics_row_follows]. intros property read notify.
    by apply Metrics.metrics_properties_current, Metrics.metrics_handlers_current.
  - intros utc report Hany i'. rewrite first_row. f_equal. apply row_of_info. unfold i'. rewrite InfoService.info_collectionFinished_eq.
    unfold report in Hany. cbn [info_outcome InfoService.accepted InfoService.cr_info]. by rewrite Hany.
  - intros elapsed utc report Hany s'. rewrite first_row. f_equal. unfold s'. rewrite MetricsService.metrics_collectionFinished_eq.
    unfold report in Hany. apply row_of_metrics; cbn [metrics_outcome MetricsService.accepted MetricsService.cr_metrics]; by rewrite Hany.
Qed.
End row.

#[local] Existing Instances sample_library InfoCollector.sample_access.

(** The sample machine is collected: its row shows its host name. *)
Lemma local_machine_shown_witness :
  let i' := (InfoService.collectionFinished info_outcome 7 InfoService.sample_collecting).1 in
  head (shown HostnameRole (living i' MetricsService.new_service false sample_online)) = Some (OfText "pi").
Proof.
  cbv zeta.
  destruct (local_machine_shown (MetricsCollectorLaws.sample_access 0) MetricsCollector.new_collector
    MetricsService.new_service InfoService.sample_collecting false sample_online HostnameRole) as (_ & _ & Hi & _).
  rewrite (Hi 7) by (vm_compute; reflexivity). vm_compute. reflexivity.
Defined.
