(* ===== verification/DashboardConfig.v ===== *)
(** * The dashboard's configuration (src/dashboard/dashboard_config.cpp, src/weather/weather_config.cpp)

    Validation of a parsed TOML document.  The TOML parser and Qt's text functions are
    parameters. *)

From S2P Require Import Prelude.
From S2P Require Import Float64.

(** What the sources use of toml++ and of Qt's text functions. *)
Class ConfigLibrary := {
  node : Type;
  toml_parse : list byte -> string + node;      (* the error's description, or the root table *)
  get : node -> string -> option node;          (* [node["key"]]; none below a node that is not a table *)
  is_table : node -> bool;
  value_int64 : node -> option Z;
  value_double : node -> option double;
  value_string : node -> option string;
  value_bool : node -> option bool;
  trimmed : string -> string;                   (* QString::trimmed *)
  bytes_trimmed : list byte -> list byte;       (* QByteArray::trimmed *)
  is_ipv4 : string -> bool;                     (* QHostAddress(text).protocol() == IPv4Protocol *)
  file_path : string -> string -> string        (* QDir(directory).filePath(name) *) }.

(** The file system: [None] does not exist, [Some None] cannot be opened. *)
Definition file_system : Type := string -> option (option (list byte)).

Section config.
Context `{ConfigLibrary}.

(** ** weather_config.cpp *)

Inductive LocationMode := Automatic | City | Coordinates.

Record WeatherConfig := {
  provider : string;
  refreshIntervalSeconds : Z;
  locationMode : LocationMode;
  automaticProvider : string;
  city : string;
  latitude : double;
  longitude : double }.

Definition kMinimumRefreshSeconds : Z := 60.

Definition validationError (text : string) : string := "Invalid weather configuration: " ++ text.

(** [parent["key"]] of a node that may be absent. *)
Definition child (n : option node) (key : string) : option node := m ← n; get m key.

Definition value_or_string (n : option node) (fallback : string) : string := default fallback (m ← n; value_string m).

Definition parse_location (location : node) (result : WeatherConfig) : string + WeatherConfig :=
  let lat := m ← get location "latitude"; value_double m in
  let lon := m ← get location "longitude"; value_double m in
  let cityText := trimmed (value_or_string (get location "city") "") in
  match lat, lon with
  | Some _, None | None, Some _ => inl (validationError "latitude and longitude must be specified together")
  | Some la, Some lo =>
      if negb (String.eqb cityText "") then inl (validationError "city conflicts with coordinates")
      else if dltb la (double_of_Z (-90)) || dltb (double_of_Z 90) la || dltb lo (double_of_Z (-180))
              || dltb (double_of_Z 180) lo
      then inl (validationError "coordinates are out of range")
      else inr {| provider := provider result; refreshIntervalSeconds := refreshIntervalSeconds result;
                  locationMode := Coordinates; automaticProvider := automaticProvider result; city := city result;
                  latitude := la; longitude := lo |}
  | None, None =>
      if negb (String.eqb cityText "")
      then inr {| provider := provider result; refreshIntervalSeconds := refreshIntervalSeconds result;
                  locationMode := City; automaticProvider := automaticProvider result; city := cityText;
                  latitude := latitude result; longitude := longitude result |}
      else
        let automatic := trimmed (value_or_string (get location "automatic_provider") "ipgeolocation") in
        if negb (String.eqb automatic "ipgeolocation")
        then inl (validationError "unknown automatic location provider")
        else inr {| provider := provider result; refreshIntervalSeconds := refreshIntervalSeconds result;
                    locationMode := Automatic; automaticProvider := automatic; city := city result;
                    latitude := latitude result; longitude := longitude result |}
  end.

Definition parseWeatherConfig (contents : list byte) : string + WeatherConfig :=
  match toml_parse contents with
  | inl description => inl (validationError description)
  | inr document =>
      match get document "weather" with
      | None => inl (validationError "missing [weather] table")
      | Some weather =>
          if negb (is_table weather) then inl (validationError "missing [weather] table")
          else
            let providerText := trimmed (value_or_string (get weather "provider") "") in
            if negb (String.eqb providerText "openweather") then inl (validationError "unknown weather provider")
            else
              match m ← get weather "refresh_interval_seconds"; value_int64 m with
              | None => inl (validationError "refresh interval must be between 60 and 86400 seconds")
              | Some interval =>
                  if (interval <? kMinimumRefreshSeconds) || (86400 <? interval)
                  then inl (validationError "refresh interval must be between 60 and 86400 seconds")
                  else
                    match get weather "location" with
                    | None => inl (validationError "missing [weather.location] table")
                    | Some location =>
                        if negb (is_table location) then inl (validationError "missing [weather.location] table")
                        else parse_location location
                          {| provider := providerText; refreshIntervalSeconds := i32 interval;
                             locationMode := Automatic; automaticProvider := "ipgeolocation"; city := "";
                             latitude := d0; longitude := d0 |}
                    end
              end
      end
  end.

(** ** dashboard_config.cpp *)

Record DashboardConfig := {
  windowed : bool;
  window_width : Z;
  window_height : Z;
  screensaver_timeout_seconds : Z;
  github_owner : string;
  telemetry_bind_address : string;
  telemetry_port : Z;
  github_token_file : list byte;
  open_weather_api_key_file : list byte;
  ip_geolocation_api_key_file : list byte;
  weather : option WeatherConfig }.

Definition default_config : DashboardConfig :=
  {| windowed := false; window_width := 1480; window_height := 320; screensaver_timeout_seconds := 600;
     github_owner := "lebedenko"; telemetry_bind_address := "0.0.0.0"; telemetry_port := 51337;
     github_token_file := []; open_weather_api_key_file := []; ip_geolocation_api_key_file := []; weather := None |}.

Definition textValue (n : option node) (fallback : string) : string := trimmed (value_or_string n fallback).

Definition pathValue (n : option node) : list byte := bytes_trimmed (text_bytes (value_or_string n "")).

Definition invalid {A} (message : string) : string + A := inl ("Invalid dashboard configuration: " ++ message)%string.

(** A section of the file: [document["key"].as_table()]. *)
Definition table (document : node) (key : string) : option node :=
  match get document key with Some t => if is_table t then Some t else None | None => None end.

Definition parse_display (document : node) (result : DashboardConfig) : string + DashboardConfig :=
  match table document "display" with
  | None => inr result
  | Some display =>
      let width := i32 (default 1480 (m ← get display "width"; value_int64 m)) in
      let height := i32 (default 320 (m ← get display "height"; value_int64 m)) in
      let timeout := default 600 (m ← get display "screensaver_timeout_seconds"; value_int64 m) in
      if (width <=? 0) || (height <=? 0) then invalid "display dimensions must be positive"
      else if (timeout <? 0) || (int32_max <? timeout) then invalid "screensaver timeout must be non-negative"
      else inr {| windowed := default false (m ← get display "windowed"; value_bool m); window_width := width;
                  window_height := height; screensaver_timeout_seconds := i32 timeout;
                  github_owner := github_owner result; telemetry_bind_address := telemetry_bind_address result;
                  telemetry_port := telemetry_port result; github_token_file := github_token_file result;
                  open_weather_api_key_file := open_weather_api_key_file result;
                  ip_geolocation_api_key_file := ip_geolocation_api_key_file result; weather := weather result |}
  end.

Definition parse_projects (document : node) (result : DashboardConfig) : string + DashboardConfig :=
  match table document "projects" with
  | None => inr result
  | Some projects =>
      let owner := textValue (get projects "github_owner") (github_owner result) in
      if String.eqb owner "" then invalid "GitHub owner must not be empty"
      else inr {| windowed := windowed result; window_width := window_width result;
                  window_height := window_height result;
                  screensaver_timeout_seconds := screensaver_timeout_seconds result; github_owner := owner;
                  telemetry_bind_address := telemetry_bind_address result;
                  telemetry_port := telemetry_port result; github_token_file := github_token_file result;
                  open_weather_api_key_file := open_weather_api_key_file result;
                  ip_geolocation_api_key_file := ip_geolocation_api_key_file result; weather := weather result |}
  end.

Definition parse_telemetry (document : node) (result : DashboardConfig) : string + DashboardConfig :=
  match table document "telemetry" with
  | None => inr result
  | Some telemetry =>
      let address := textValue (get telemetry "bind_address") (telemetry_bind_address result) in
      let port := default 51337 (m ← get telemetry "port"; value_int64 m) in
      if (port <? 1) || (65535 <? port) || negb (is_ipv4 address)
      then invalid "telemetry listener must use a valid IPv4 address and port"
      else inr {| windowed := windowed result; window_width := window_width result;
                  window_height := window_height result;
                  screensaver_timeout_seconds := screensaver_timeout_seconds result;
                  github_owner := github_owner result; telemetry_bind_address := address; telemetry_port := i32 port;
                  github_token_file := github_token_file result;
                  open_weather_api_key_file := open_weather_api_key_file result;
                  ip_geolocation_api_key_file := ip_geolocation_api_key_file result; weather := weather result |}
  end.

Definition with_credentials (document : node) (result : DashboardConfig) : DashboardConfig :=
  match table document "credentials" with
  | None => result
  | Some credentials =>
      {| windowed := windowed result; window_width := window_width result; window_height := window_height result;
         screensaver_timeout_seconds := screensaver_timeout_seconds result; github_owner := github_owner result;
         telemetry_bind_address := telemetry_bind_address result; telemetry_port := telemetry_port result;
         github_token_file := pathValue (get credentials "github_token_file");
         open_weather_api_key_file := pathValue (get credentials "openweather_api_key_file");
         ip_geolocation_api_key_file := pathValue (get credentials "ipgeolocation_api_key_file");
         weather := weather result |}
  end.

Definition with_weather (w : WeatherConfig) (result : DashboardConfig) : DashboardConfig :=
  {| windowed := windowed result; window_width := window_width result; window_height := window_height result;
     screensaver_timeout_seconds := screensaver_timeout_seconds result; github_owner := github_owner result;
     telemetry_bind_address := telemetry_bind_address result; telemetry_port := telemetry_port result;
     github_token_file := github_token_file result; open_weather_api_key_file := open_weather_api_key_file result;
     ip_geolocation_api_key_file := ip_geolocation_api_key_file result; weather := Some w |}.

Definition parseDashboardConfig (contents : list byte) : string + DashboardConfig :=
  match toml_parse contents with
  | inl description => invalid description
  | inr document =>
      match parse_display document default_config with
      | inl e => inl e
      | inr c1 =>
          match parse_projects document c1 with
          | inl e => inl e
          | inr c2 =>
              match parse_telemetry document c2 with
              | inl e => inl e
              | inr c3 =>
                  let c4 := with_credentials document c3 in
                  match get document "weather" with
                  | None => inr c4
                  | Some _ =>
                      match parseWeatherConfig contents with
                      | inl e => inl e
                      | inr w => inr (with_weather w c4)
                      end
                  end
              end
          end
      end
  end.

(** ** Loading *)

(** The result of [loadWeatherConfig] and of [loadDashboardConfig]. *)
Record load_result (A : Type) := { l_config : A; l_path : string; l_diagnostic : string; l_fatal : bool }.
Arguments l_config {A}. Arguments l_path {A}. Arguments l_diagnostic {A}. Arguments l_fatal {A}.

(** The file: the explicit one, or the first candidate that exists; empty when there is none. *)
Definition config_path (fs : file_system) (directories : list string) (explicitPath : string) : string :=
  if negb (String.eqb explicitPath "") then explicitPath
  else match List.find (fun p => bool_decide (is_Some (fs p)))
                 (map (fun d => file_path d "rpi-dashboard/config.toml") directories) with
       | Some p => p
       | None => ""
       end.

Definition readable (fs : file_system) (path : string) : option (list byte) := f ← fs path; f.

Definition loadWeatherConfig (fs : file_system) (directories : list string) (explicitPath : string)
  : load_result (option WeatherConfig) :=
  let path := config_path fs directories explicitPath in
  if String.eqb path ""
  then {| l_config := None; l_path := ""; l_diagnostic := "Weather is not configured"; l_fatal := false |}
  else
    match readable fs path with
    | None => {| l_config := None; l_path := path; l_diagnostic := "Weather configuration could not be read";
                 l_fatal := negb (String.eqb explicitPath "") |}
    | Some contents =>
        match parseWeatherConfig contents with
        | inr c => {| l_config := Some c; l_path := path; l_diagnostic := ""; l_fatal := false |}
        | inl e => {| l_config := None; l_path := path; l_diagnostic := e;
                      l_fatal := negb (String.eqb explicitPath "") |}
        end
    end.

Definition loadDashboardConfig (fs : file_system) (directories : list string) (explicitPath : string)
  : load_result DashboardConfig :=
  let path := config_path fs directories explicitPath in
  if String.eqb path "" then {| l_config := default_config; l_path := ""; l_diagnostic := ""; l_fatal := false |}
  else
    match readable fs path with
    | None => {| l_config := default_config; l_path := path;
                 l_diagnostic := "Dashboard configuration could not be read";
                 l_fatal := negb (String.eqb explicitPath "") |}
    | Some contents =>
        match parseDashboardConfig contents with
        | inr c => {| l_config := c; l_path := path; l_diagnostic := ""; l_fatal := false |}
        | inl e => {| l_config := default_config; l_path := path; l_diagnostic := e;
                      l_fatal := negb (String.eqb explicitPath "") |}
        end
    end.

(** [loadCredential]: the value, or a diagnostic. *)
Definition loadCredential (fs : file_system) (decodeName : list byte -> string) (filePath fallback : list byte)
    (label : string) : list byte * string :=
  match filePath with
  | [] => (bytes_trimmed fallback, ""%string)
  | _ =>
      match readable fs (decodeName filePath) with
      | None => ([], (label ++ " credential file could not be read")%string)
      | Some contents =>
          match bytes_trimmed contents with
          | [] => ([], (label ++ " credential file is empty")%string)
          | value => (value, ""%string)
          end
      end
  end.

(** ** What an accepted configuration guarantees *)

(** Not outside the bounds; a NaN is not. *)
Definition not_outside (lo hi : Z) (d : double) : Prop :=
  dltb d (double_of_Z lo) = false /\ dltb (double_of_Z hi) d = false.

Record weather_usable (w : WeatherConfig) : Prop := {
  usable_provider : provider w = "openweather"%string;
  usable_interval : kMinimumRefreshSeconds <= refreshIntervalSeconds w <= 86400;
  usable_location : match locationMode w with
                    | Coordinates => not_outside (-90) 90 (latitude w) /\ not_outside (-180) 180 (longitude w)
                    | City => city w <> ""%string
                    | Automatic => automaticProvider w = "ipgeolocation"%string
                    end }.

Record usable (c : DashboardConfig) : Prop := {
  usable_window : 0 < window_width c <= int32_max /\ 0 < window_height c <= int32_max;
  usable_timeout : 0 <= screensaver_timeout_seconds c <= int32_max;
  usable_owner : github_owner c <> ""%string;
  usable_address : is_ipv4 (telemetry_bind_address c) = true \/ telemetry_bind_address c = "0.0.0.0"%string;
  usable_port : 1 <= telemetry_port c <= 65535;
  usable_weather : match weather c with Some w => weather_usable w | None => True end }.

Lemma default_usable : usable default_config.
Proof. split; cbn; unfold int32_max; (lia || auto). Qed.

Lemma parse_location_usable location w0 w :
  provider w0 = "openweather"%string -> kMinimumRefreshSeconds <= refreshIntervalSeconds w0 <= 86400 ->
  parse_location location w0 = inr w -> weather_usable w.
Proof.
  intros Hp Hi. unfold parse_location.
  destruct (get location "latitude" ≫= _) as [la|], (get location "longitude" ≫= _) as [lo|]; try done.
  - case_if; [done|]. destruct (_ || _) eqn:E in |- *; [done|]. bool_facts. intros [= <-]. by split.
  - destruct (String.eqb_spec (trimmed (value_or_string (get location "city") "")) "") as [|Hc]; cbn [negb].
    + destruct (String.eqb_spec (trimmed (value_or_string (get location "automatic_provider") "ipgeolocation")) "ipgeolocation")
        as [Ha|]; cbn [negb]; [|done]. intros [= <-]. by split.
    + intros [= <-]. by split.
Qed.

Lemma parseWeatherConfig_usable contents w : parseWeatherConfig contents = inr w -> weather_usable w.
Proof.
  unfold parseWeatherConfig. destruct (toml_parse contents) as [|document]; [done|].
  destruct (get document "weather") as [wn|]; [|done]. case_if; [done|].
  destruct (String.eqb_spec (trimmed (value_or_string (get wn "provider") "")) "openweather") as [Hp|]; cbn [negb]; [|done].
  destruct (get wn "refresh_interval_seconds" ≫= _) as [interval|]; [|done].
  destruct (_ || _) eqn:E in |- *; [done|]. bool_facts. destruct (get wn "location") as [location|]; [|done].
  case_if; [done|]. apply parse_location_usable; [done|]. cbn. unfold kMinimumRefreshSeconds in *.
  rewrite i32_id by (unfold int32_max; lia). lia.
Qed.

Lemma parse_display_usable document c0 c : usable c0 -> parse_display document c0 = inr c -> usable c.
Proof.
  intros [Hw Ht Ho Ha Hp Hwe]. unfold parse_display. destruct (table document "display") as [n|]; [|by intros [= <-]].
  set (w := default 1480 _). set (h := default 320 _). set (tm := default 600 _). clearbody w h tm.
  destruct (_ || _) eqn:E1 in |- *; [done|]. destruct (_ || _) eqn:E2 in |- *; [done|]. bool_facts. intros [= <-].
  split; cbn; try done.
  - pose proof (i32_range w). pose proof (i32_range h). lia.
  - rewrite i32_id by lia. lia.
Qed.

Lemma parse_projects_usable document c0 c : usable c0 -> parse_projects document c0 = inr c -> usable c.
Proof.
  intros [Hw Ht Ho Ha Hp Hwe]. unfold parse_projects. destruct (table document "projects"); [|by intros [= <-]].
  destruct (String.eqb_spec (textValue (get n "github_owner") (github_owner c0)) ""); [done|]. intros [= <-]. by split.
Qed.

Lemma parse_telemetry_usable document c0 c : usable c0 -> parse_telemetry document c0 = inr c -> usable c.
Proof.
  intros [Hw Ht Ho Ha Hp Hwe]. unfold parse_telemetry. destruct (table document "telemetry"); [|by intros [= <-]].
  destruct (_ || _) eqn:E in |- *; [done|]. bool_facts. intros [= <-]. split; cbn; try done; [by left|].
  rewrite i32_id by (unfold int32_max; lia). lia.
Qed.

Lemma with_credentials_usable document c : usable c -> usable (with_credentials document c).
Proof. intros [Hw Ht Ho Ha Hp Hwe]. unfold with_credentials. destruct (table document "credentials"); by split. Qed.

Lemma parseDashboardConfig_usable contents c : parseDashboardConfig contents = inr c -> usable c.
Proof.
  unfold parseDashboardConfig. destruct (toml_parse contents) as [|document]; [done|].
  destruct (parse_display document default_config) as [|c1] eqn:E1; [done|].
  apply (parse_display_usable _ _ _ default_usable) in E1.
  destruct (parse_projects document c1) as [|c2] eqn:E2; [done|]. apply (parse_projects_usable _ _ _ E1) in E2.
  destruct (parse_telemetry document c2) as [|c3] eqn:E3; [done|]. apply (parse_telemetry_usable _ _ _ E2) in E3.
  apply (with_credentials_usable document) in E3. destruct (get document "weather"); [|by intros [= <-]].
  destruct (parseWeatherConfig contents) as [|w] eqn:E4; [done|]. apply parseWeatherConfig_usable in E4.
  intros [= <-]. by destruct E3; split.
Qed.

(** ** Properties *)

(** Whatever file is loaded, or none, the configuration the dashboard runs with can
    be used: window and timeout fit an [int], the port and the listening address are
    valid, the weather section, if present, has a known provider, an interval of one
    minute to one day and a usable location.  An error is fatal exactly when the file
    was named explicitly, and then the defaults are returned. *)
Lemma dashboard_config_usable fs directories explicitPath :
  let r := loadDashboardConfig fs directories explicitPath in
  usable (l_config r) /\
  (l_fatal r = true -> explicitPath <> ""%string /\ l_path r = explicitPath /\ l_config r = default_config) /\
  (l_diagnostic r <> ""%string -> l_config r = default_config /\ (explicitPath <> ""%string -> l_fatal r = true)) /\
  (forall contents, readable fs (l_path r) = Some contents -> l_path r <> ""%string ->
     match parseDashboardConfig contents with
     | inr c => l_config r = c /\ l_diagnostic r = ""%string
     | inl e => l_diagnostic r = e
     end).
Proof.
  cbn zeta. unfold loadDashboardConfig. assert (Hx : explicitPath <> ""%string ->
    config_path fs directories explicitPath = explicitPath).
  { intros Hne. unfold config_path. by rewrite (proj2 (String.eqb_neq _ _)). }
  destruct (String.eqb_spec explicitPath "") as [Hempty|Hne]; cbn [negb].
  - destruct (String.eqb_spec (config_path fs directories explicitPath) "");
      [cbn; split; [apply default_usable|]; done|].
    destruct (readable fs (config_path fs directories explicitPath)) as [contents|] eqn:Er;
      [|cbn; split; [apply default_usable|]; rewrite Er; done].
    destruct (parseDashboardConfig contents) as [e|c] eqn:E; cbn.
    + split; [apply default_usable|]. rewrite Er. split; [done|]. split; [done|]. by intros ? [= <-] _; rewrite E.
    + split; [by eapply parseDashboardConfig_usable|]. rewrite Er. split; [done|]. split; [done|].
      by intros ? [= <-] _; rewrite E.
  - rewrite Hx by done. rewrite (proj2 (String.eqb_neq _ _)) by done.
    destruct (readable fs explicitPath) as [contents|] eqn:Er;
      [|cbn; split; [apply default_usable|]; rewrite Er; done].
    destruct (parseDashboardConfig contents) as [e|c] eqn:E; cbn.
    + split; [apply default_usable|]. rewrite Er. split; [done|]. split; [done|]. by intros ? [= <-] _; rewrite E.
    + split; [by eapply parseDashboardConfig_usable|]. rewrite Er. split; [done|]. split; [done|].
      by intros ? [= <-] _; rewrite E.
Qed.
End config.

Arguments l_config {A}. Arguments l_path {A}. Arguments l_diagnostic {A}. Arguments l_fatal {A}.

(** ** A concrete document *)

Inductive toml := TString (s : string) | TInteger (z : Z) | TFloat (d : double) | TBoolean (b : bool)
| TTable (entries : list (string * toml)).

(** The library on a document already parsed. *)
Definition tree_library (document : toml) : ConfigLibrary :=
  {| node := toml;
     toml_parse := fun _ => inr document;
     get := fun n key => match n with TTable es => snd <$> List.find (fun e => String.eqb e.1 key) es | _ => None end;
     is_table := fun n => match n with TTable _ => true | _ => false end;
     value_int64 := fun n => match n with TInteger z => Some z | _ => None end;
     value_double := fun n => match n with TFloat d => Some d | TInteger z => Some (double_of_Z z) | _ => None end;
     value_string := fun n => match n with TString s => Some s | _ => None end;
     value_bool := fun n => match n with TBoolean b => Some b | _ => None end;
     trimmed := fun s => s; bytes_trimmed := fun b => b; is_ipv4 := fun s => String.eqb s "10.0.0.1";
     file_path := fun d n => (d ++ "/" ++ n)%string |}.

Definition sample_document : toml :=
  TTable [("telemetry", TTable [("bind_address", TString "10.0.0.1"); ("port", TInteger 6000)]);
          ("weather", TTable [("provider", TString "openweather"); ("refresh_interval_seconds", TInteger 600);
                              ("location", TTable [("city", TString "Lviv,UA")])])]%string.

Example sample_parses :
  match @parseDashboardConfig (tree_library sample_document) [] with
  | inr c => telemetry_port c = 6000 /\ option_map city (weather c) = Some "Lviv,UA"%string
  | inl _ => False
  end.
Proof. vm_compute. done. Qed.

(** A width beyond 32 bits is truncated before it is checked. *)
Example width_truncated :
  match @parseDashboardConfig (tree_library (TTable [("display", TTable [("width", TInteger 4294968776)])]%string)) [] with
  | inr c => window_width c = 1480
  | inl _ => False
  end.
Proof. vm_compute. done. Qed.

(** Coordinates that are not numbers pass the range check. *)
Example nan_coordinates_accepted :
  match @parseWeatherConfig (tree_library (TTable [("weather", TTable [("provider", TString "openweather");
          ("refresh_interval_seconds", TInteger 600);
          ("location", TTable [("latitude", TFloat S754_nan); ("longitude", TFloat d0)])])]%string)) [] with
  | inr w => locationMode w = Coordinates /\ latitude w = S754_nan
  | inl _ => False
  end.
Proof. vm_compute. done. Qed.
