(* ===== verification/Programs.v ===== *)
(** * The two programs (daemon/src/main.cpp, dashboard/main.cpp, projects/github_credentials.cpp)

    What [main] of the daemon and of the dashboard decide before their loops run: the
    command line, the configuration, the credentials and what is started with them.  The
    environment, the file system and Qt's command line parser are arguments. *)

From S2P Require Import Prelude.
From S2P Require Import Std.
From S2P Require Import Float64.
From S2P Require Import Cbor.
From S2P Require Import DaemonText.
From S2P Require Import DaemonConfig.
From S2P Require Import DaemonIdentity.
From S2P Require Import DaemonCollector.
From S2P Require Import QtCbor.
From S2P Require Import Protocol.
From S2P Require Import DeviceSnapshot.
From S2P Require Import SnapshotCodec.
From S2P Require Import DaemonRun.
From S2P Require Import Interop.
From S2P Require DashboardConfig.

(** ** dashboard-daemon *)

Module Daemon.

(** How the loop over [argv] ends. *)
Inductive arguments :=
| Help | Version
| BadOption (option : string)
| Options (requested : option string) (check : bool).

Fixpoint read_arguments (args : list string) (requested : option string) (check : bool) : arguments :=
  match args with
  | [] => Options requested check
  | arg :: rest =>
      if String.eqb arg "--help" then Help
      else if String.eqb arg "--version" then Version
      else if String.eqb arg "--check-config" then read_arguments rest requested true
      else if String.eqb arg "--config" then
        match rest with
        | path :: rest' => read_arguments rest' (Some path) check
        | [] => BadOption arg
        end
      else BadOption arg
  end.

(** What the system answers before the loop. *)
Record system := {
  getenv : string -> option string;
  is_regular_file : string -> bool;
  open_config : string -> option string;       (* the file, if it opens *)
  identity_kernel : kernel; pid : string;
  instance_entropy : option (list byte);
  hostname : option string }.

(** The exceptions that reach [main]. *)
Inductive failure :=
| UnknownOption (option : string) | NoConfiguration | CannotRead (path : string)
| InvalidConfiguration (error : config_error) | Identity (error : identity_error) | NoRandom.

(** [Exits code failure], or the loop of [run] with this configuration and these ids. *)
Inductive daemon_outcome :=
| Exits (code : Z) (error : option failure)
| Runs (config : Config) (device instance : Uuid).

Definition identity_path (s : system) : string :=
  path_join (default "/var/lib/dashboard-daemon"%string (getenv s "STATE_DIRECTORY")) "device-id".

(** The beginning of [run]. *)
Definition run_start (s : system) (config : Config) (fs : files) : daemon_outcome * files :=
  match load_or_create_identity (identity_kernel s) (pid s) (identity_path s) fs with
  | (inl e, fs') => (Exits 1 (Some (Identity e)), fs')
  | (inr device, fs') =>
      match random_uuid (instance_entropy s) with
      | None => (Exits 1 (Some NoRandom), fs')
      | Some instance => (Runs (effective_config config (hostname s)) device instance, fs')
      end
  end.

Definition daemon_main (s : system) (args : list string) (fs : files) : daemon_outcome * files :=
  match read_arguments args None false with
  | Help | Version => (Exits 0 None, fs)
  | BadOption o => (Exits 1 (Some (UnknownOption o)), fs)
  | Options requested check =>
      match discover_config (getenv s) (is_regular_file s) requested with
      | None => (Exits 1 (Some NoConfiguration), fs)
      | Some path =>
          match open_config s path with
          | None => (Exits 1 (Some (CannotRead path)), fs)
          | Some text =>
              match parse_config text with
              | inl e => (Exits 1 (Some (InvalidConfiguration e)), fs)
              | inr config => if check then (Exits 0 None, fs) else run_start s config fs
              end
          end
      end
  end.

(** ** What the daemon starts with *)

Lemma random_uuid_not_null e u : random_uuid e = Some u -> valid_uuid u.
Proof.
  intros H. apply random_uuid_length in H as Hl. split; [unfold len; lia|]. intros ->.
  unfold random_uuid in H. destruct e as [bytes|]; [|done]. case_if; [done|]. injection H as H.
  apply (f_equal (fun l => l !! 8%nat)) in H. unfold set_byte in H. rewrite list_lookup_alter_eq in H.
  destruct (alter _ 6%nat bytes !! 8%nat) as [b|]; [|done]. injection H as H.
  apply (f_equal byte_val) in H. rewrite byte_val_u8 in H. by destruct b.
Qed.

Lemma uuid_bytes_length n hex u : uuid_bytes n hex = Some u -> length u = n.
Proof.
  revert hex u. induction n as [|n IH]; intros hex u; cbn [uuid_bytes]; [by intros [= <-]|].
  destruct (from_chars_unsigned _ _ _); [done|done|]. destruct (uuid_bytes n _) as [r|] eqn:E; [|done].
  intros [= <-]. cbn. f_equal. by eapply IH.
Qed.

Lemma identity_length k p path fs u fs' : load_or_create_identity k p path fs = (inr u, fs') -> length u = 16%nat.
Proof.
  unfold load_or_create_identity. case_if.
  - unfold parse_identity. case_if; [done|]. destruct (uuid_bytes 16 _) as [id|] eqn:E; [|done]. intros [= <- _].
    by eapply uuid_bytes_length.
  - case_if; [done|]. destruct (random_uuid _) as [id|] eqn:E; [|done]. case_if; [done|]. cbn zeta. case_if; [done|].
    intros [= <- _]. by eapply random_uuid_length.
Qed.

(** A configuration on which the loop of [run] can start. *)
Definition startable (c : Config) : Prop :=
  host c <> ""%string /\ 1 <= port c <= 65535 /\ 1 <= interval_seconds c <= 5.

(** *** The command line and the start, read as a specification *)

(** The options the daemon takes, and the words that spell them. *)
Inductive setting := ConfigFile (path : string) | CheckConfig.
#[export] Instance setting_eq_dec : EqDecision setting.
Proof. solve_decision. Defined.

Definition words (option : setting) : list string :=
  match option with ConfigFile path => ["--config"%string; path] | CheckConfig => ["--check-config"%string] end.
Definition command (settings : list setting) : list string := settings ≫= words.

(** The last --config counts; one --check-config is enough. *)
Fixpoint last_file (settings : list setting) : option string :=
  match settings with
  | [] => None
  | ConfigFile path :: rest => match last_file rest with Some later => Some later | None => Some path end
  | CheckConfig :: rest => last_file rest
  end.
Definition only_checks (settings : list setting) : Prop := CheckConfig ∈ settings.
#[export] Instance only_checks_dec settings : Decision (only_checks settings).
Proof. unfold only_checks. apply _. Defined.

(** A word that is no option, or --config as the last word. *)
Definition refused (word : string) (rest : list string) : Prop :=
  word ∉ ["--help"; "--version"; "--check-config"; "--config"]%string \/ word = "--config"%string /\ rest = [].

(** The place of the user, which XDG_CONFIG_HOME names or HOME holds. *)
Definition user_places (s : system) (places : list string) : Prop :=
  match getenv s "XDG_CONFIG_HOME", getenv s "HOME" with
  | Some directory, _ => places = [path_join directory "dashboard-daemon/config.toml"]
  | None, Some home => places = [path_join home ".config/dashboard-daemon/config.toml"]
  | None, None => places = []
  end.

(** The places of the machine: the directories between the colons of XDG_CONFIG_DIRS. *)
Definition machine_places (s : system) (places : list string) : Prop :=
  match getenv s "XDG_CONFIG_DIRS" with
  | Some text => exists directories, directories <> [] /\ text = join_on ":" directories /\
      Forall (fun d => str_forall (fun c => negb (is_char ":" c)) d = true) directories /\
      places = map (fun d => path_join d "dashboard-daemon/config.toml") directories
  | None => places = ["/etc/xdg/dashboard-daemon/config.toml"%string]
  end.

Definition standard_places (s : system) (places : list string) : Prop :=
  exists user machine, user_places s user /\ machine_places s machine /\ places = user ++ machine.

(** The file the configuration is read from: the one asked for, or the first standard
    place with a regular file. *)
Definition chosen_file (s : system) (requested : option string) (path : string) : Prop :=
  match requested with
  | Some file => path = file
  | None => exists before after, standard_places s (before ++ path :: after) /\
      is_regular_file s path = true /\ Forall (fun p => is_regular_file s p = false) before
  end.
Definition no_file (s : system) (requested : option string) : Prop :=
  requested = None /\ exists places, standard_places s places /\ Forall (fun p => is_regular_file s p = false) places.

(** The settings lead to a file with this text. *)
Definition reads (s : system) (settings : list setting) (text : string) : Prop :=
  exists path, chosen_file s (last_file settings) path /\ open_config s path = Some text.

(** The file of the identity, under STATE_DIRECTORY. *)
Definition device_id_file (s : system) : string :=
  path_join match getenv s "STATE_DIRECTORY" with Some directory => directory | None => "/var/lib/dashboard-daemon" end "device-id".

(** The configuration of the loop: the file's, with the name of the host if it gives none. *)
Definition named_config (s : system) (config c : Config) : Prop :=
  host c = host config /\ port c = port config /\ interval_seconds c = interval_seconds config /\
  display_name c =
    if String.eqb (display_name config) "" then match hostname s with Some name => name | None => "remote-device"%string end
    else display_name config.

(** How a start ends: one case for each exit of [main] and of the beginning of [run]. *)
Inductive ends (s : system) (fs : files) : list string -> daemon_outcome -> files -> Prop :=
| ends_information settings word rest : word = "--help"%string \/ word = "--version"%string ->
    ends s fs (command settings ++ word :: rest) (Exits 0 None) fs
| ends_option settings word rest : refused word rest ->
    ends s fs (command settings ++ word :: rest) (Exits 1 (Some (UnknownOption word))) fs
| ends_no_file settings : no_file s (last_file settings) ->
    ends s fs (command settings) (Exits 1 (Some NoConfiguration)) fs
| ends_unreadable settings path : chosen_file s (last_file settings) path -> open_config s path = None ->
    ends s fs (command settings) (Exits 1 (Some (CannotRead path))) fs
| ends_invalid settings text e : reads s settings text -> parse_config text = inl e ->
    ends s fs (command settings) (Exits 1 (Some (InvalidConfiguration e))) fs
| ends_checked settings text config : reads s settings text -> parse_config text = inr config ->
    only_checks settings -> ends s fs (command settings) (Exits 0 None) fs
| ends_identity settings text config e fs' : reads s settings text -> parse_config text = inr config ->
    ~ only_checks settings ->
    load_or_create_identity (identity_kernel s) (pid s) (device_id_file s) fs = (inl e, fs') ->
    ends s fs (command settings) (Exits 1 (Some (Identity e))) fs'
| ends_no_random settings text config device fs' : reads s settings text -> parse_config text = inr config ->
    ~ only_checks settings ->
    load_or_create_identity (identity_kernel s) (pid s) (device_id_file s) fs = (inr device, fs') ->
    random_uuid (instance_entropy s) = None -> ends s fs (command settings) (Exits 1 (Some NoRandom)) fs'
| ends_running settings text config c device instance fs' : reads s settings text -> parse_config text = inr config ->
    ~ only_checks settings ->
    load_or_create_identity (identity_kernel s) (pid s) (device_id_file s) fs = (inr device, fs') ->
    random_uuid (instance_entropy s) = Some instance -> named_config s config c ->
    ends s fs (command settings) (Runs c device instance) fs'.

Definition later_file (settings : list setting) (requested : option string) : option string :=
  match last_file settings with Some later => Some later | None => requested end.

(** Reading on from any point of the command line. *)
Lemma read_command settings rest requested check :
  read_arguments (command settings ++ rest) requested check =
  read_arguments rest (later_file settings requested) (check || bool_decide (only_checks settings)).
Proof.
  revert requested check. induction settings as [|[path|] settings IH]; intros requested check.
  - unfold later_file. cbn. by rewrite orb_false_r.
  - unfold command. cbn [mbind list_bind]. rewrite <- app_assoc. cbn. fold (command settings). rewrite IH. f_equal.
    + unfold later_file. cbn. by destruct (last_file settings).
    + f_equal. apply bool_decide_ext. unfold only_checks. set_solver.
  - unfold command. cbn [mbind list_bind]. rewrite <- app_assoc. cbn. fold (command settings). rewrite IH. f_equal.
    rewrite (bool_decide_true (only_checks (CheckConfig :: settings))) by (unfold only_checks; set_solver).
    by rewrite orb_true_r.
Qed.

Lemma read_all settings :
  read_arguments (command settings) None false = Options (last_file settings) (bool_decide (only_checks settings)).
Proof.
  rewrite <- (app_nil_r (command settings)), read_command. cbn. unfold later_file. by destruct (last_file settings).
Qed.

(** Every command line is options up to its end, or up to a word that ends the reading. *)
Lemma read_split args : exists settings,
  args = command settings \/
  exists word rest, args = command settings ++ word :: rest /\
    (word = "--help"%string \/ word = "--version"%string \/ refused word rest).
Proof.
  induction args as [args IH] using (induction_ltof1 _ (@length string)). unfold ltof in IH.
  destruct args as [|word rest]; [by exists []; left|].
  destruct (decide (word = "--check-config"%string)) as [->|H1].
  { destruct (IH rest ltac:(cbn; lia)) as [settings [->|(w & r & -> & H)]]; exists (CheckConfig :: settings);
      [by left|right; by exists w, r]. }
  destruct (decide (word = "--config"%string)) as [->|H2].
  { destruct rest as [|path rest]; [exists []; right; exists "--config"%string, []; split; [done|]; right; right; by right|].
    destruct (IH rest ltac:(cbn; lia)) as [settings [->|(w & r & -> & H)]]; exists (ConfigFile path :: settings);
      [by left|right; by exists w, r]. }
  exists []. right. exists word, rest. split; [done|].
  destruct (decide (word = "--help"%string)); [by left|]. destruct (decide (word = "--version"%string)); [by right; left|].
  right; right; left. set_solver.
Qed.

Lemma refused_reading word rest requested check : refused word rest ->
  read_arguments (word :: rest) requested check = BadOption word.
Proof.
  intros [Hno|[-> ->]]; [|done]. cbn [read_arguments].
  rewrite !not_elem_of_cons in Hno. destruct Hno as (H1 & H2 & H3 & H4 & _).
  by rewrite <- String.eqb_neq in H1, H2, H3, H4; rewrite H1, H2, H3, H4.
Qed.

Lemma split_on_join c l : l <> [] -> Forall (fun d => str_forall (fun x => negb (is_char c x)) d = true) l ->
  split_on c (join_on c l) = l.
Proof.
  intros Hne. induction l as [|w [|w2 ws] IH]; [done|..]; intros [Hw Hl]%Forall_cons.
  - clear IH Hl. cbn [join_on]. induction w as [|x w IHw]; [done|]. cbn [str_forall split_on] in *. apply andb_true_iff in Hw as [Hx Hw].
    apply negb_true_iff in Hx. by rewrite Hx, IHw.
  - specialize (IH ltac:(done) Hl). change (join_on c (w :: w2 :: ws)) with (w ++ String c (join_on c (w2 :: ws)))%string.
    induction w as [|x w IHw]; cbn [String.append split_on].
    + unfold is_char at 1. by rewrite Ascii.eqb_refl, IH.
    + cbn [str_forall] in Hw. apply andb_true_iff in Hw as [Hx Hw]. apply negb_true_iff in Hx. by rewrite Hx, IHw.
Qed.

Lemma join_split_on c s : split_on c s <> [] /\ join_on c (split_on c s) = s /\
  Forall (fun d => str_forall (fun x => negb (is_char c x)) d = true) (split_on c s).
Proof.
  induction s as [|x s (Hne & Hj & Hf)]; cbn [split_on]; [by repeat constructor|].
  destruct (is_char c x) eqn:Ex; destruct (split_on c s) as [|w ws]; try done.
  - split; [done|]. split; [|by constructor]. apply Ascii.eqb_eq in Ex as <-. cbn [join_on String.append]. by rewrite <- Hj.
  - split; [done|]. apply Forall_cons in Hf as [Hw Hf]. split; [destruct ws; cbn in *; by rewrite <- Hj|].
    constructor; [cbn; by rewrite Ex|done].
Qed.

Lemma standard_places_spec s places : standard_places s places <-> places = config_candidates (getenv s).
Proof.
  unfold standard_places, config_candidates.
  assert (Hu : forall user, user_places s user <-> user =
    match getenv s "XDG_CONFIG_HOME" with
    | Some x => [path_join x "dashboard-daemon/config.toml"]
    | None => match getenv s "HOME" with Some h => [path_join h ".config/dashboard-daemon/config.toml"] | None => [] end
    end) by (intros user; unfold user_places; by destruct (getenv s "XDG_CONFIG_HOME"), (getenv s "HOME")).
  assert (Hm : forall machine, machine_places s machine <-> machine =
    match getenv s "XDG_CONFIG_DIRS" with
    | Some dirs => map (fun d => path_join d "dashboard-daemon/config.toml") (split_on ":" dirs)
    | None => ["/etc/xdg/dashboard-daemon/config.toml"%string]
    end).
  { intros machine. unfold machine_places. destruct (getenv s "XDG_CONFIG_DIRS") as [dirs|]; [|done]. split.
    - intros (l & Hne & -> & Hl & ->). by rewrite split_on_join.
    - intros ->. destruct (join_split_on ":" dirs) as (Hne & Hj & Hf). by exists (split_on ":" dirs). }
  split; [intros (u & m & ->%Hu & ->%Hm & ->); done|]. intros ->. eexists _, _. by rewrite Hu, Hm.
Qed.

Lemma chosen_file_spec s requested path :
  chosen_file s requested path <-> discover_config (getenv s) (is_regular_file s) requested = Some path.
Proof.
  destruct requested as [file|]; cbn [chosen_file discover_config]; [split; [by intros ->|by intros [= ->]]|].
  setoid_rewrite standard_places_spec. induction (config_candidates (getenv s)) as [|p l IH]; cbn [List.find].
  { split; [by intros ([|??] & after & H & _)|done]. }
  destruct (is_regular_file s p) eqn:Ep.
  - split; [|intros [= <-]; by exists [], l].
    intros ([|q before] & after & H & Hp & Hb); injection H as -> H; [done|].
    apply Forall_inv in Hb. congruence.
  - rewrite <- IH. split; intros (before & after & H & Hp & Hb).
    + destruct before as [|q before]; injection H as -> H; [congruence|].
      exists before, after. split; [done|]. split; [done|]. by apply Forall_inv_tail in Hb.
    + exists (p :: before), after. cbn [app]. rewrite H. split; [done|]. split; [done|]. by constructor.
Qed.

Lemma no_file_spec s requested :
  no_file s requested <-> discover_config (getenv s) (is_regular_file s) requested = None.
Proof.
  unfold no_file. setoid_rewrite standard_places_spec. destruct requested as [file|]; cbn [discover_config]; [split; [by intros []|done]|].
  assert (Hf : forall l, Forall (fun p => is_regular_file s p = false) l <-> List.find (is_regular_file s) l = None).
  { induction l as [|p l IH]; cbn [List.find]; [by split|]. rewrite Forall_cons, IH. destruct (is_regular_file s p); intuition done. }
  rewrite <- Hf. split; [by intros (_ & places & -> & ?)|]. eauto.
Qed.

Lemma named_config_spec s config c : named_config s config c <-> c = effective_config config (hostname s).
Proof.
  unfold named_config, effective_config, set_display_name. destruct c as [h p i n], config as [h' p' i' n']. cbn.
  destruct (String.eqb n' "") eqn:E; cbn; (split; [by intros (-> & -> & -> & ->)|by intros [= -> -> -> ->]]).
Qed.

Lemma ends_sound s fs args o fs' : ends s fs args o fs' -> daemon_main s args fs = (o, fs').
Proof.
  unfold daemon_main.
  destruct 1 as [settings word rest Hw|settings word rest Hr|settings Hn|settings path Hp Ho
    |settings text e (path & Hp & Ho) He|settings text config (path & Hp & Ho) Hc Hk
    |settings text config e fs' (path & Hp & Ho) Hc Hk Hi|settings text config d fs' (path & Hp & Ho) Hc Hk Hi Hr
    |settings text config c d i fs' (path & Hp & Ho) Hc Hk Hi Hr Hn].
  - rewrite read_command. by destruct Hw as [-> | ->].
  - by rewrite read_command, refused_reading.
  - apply no_file_spec in Hn. by rewrite read_all, Hn.
  - apply chosen_file_spec in Hp. by rewrite read_all, Hp, Ho.
  - apply chosen_file_spec in Hp. by rewrite read_all, Hp, Ho, He.
  - apply chosen_file_spec in Hp. by rewrite read_all, Hp, Ho, Hc, bool_decide_true.
  - apply chosen_file_spec in Hp. rewrite read_all, Hp, Ho, Hc, bool_decide_false by done. unfold run_start. change (identity_path s) with (device_id_file s). by rewrite Hi.
  - apply chosen_file_spec in Hp. rewrite read_all, Hp, Ho, Hc, bool_decide_false by done. unfold run_start. change (identity_path s) with (device_id_file s). by rewrite Hi, Hr.
  - apply chosen_file_spec in Hp. rewrite read_all, Hp, Ho, Hc, bool_decide_false by done. unfold run_start.
    apply named_config_spec in Hn as ->. change (identity_path s) with (device_id_file s). by rewrite Hi, Hr.
Qed.

Lemma ends_total s fs args : exists o fs', ends s fs args o fs'.
Proof.
  destruct (read_split args) as [settings [->|(word & rest & -> & [Hw|[Hw|Hw]])]];
    [|by eexists _, _; apply ends_information; auto..|by eexists _, _; apply ends_option].
  destruct (discover_config (getenv s) (is_regular_file s) (last_file settings)) as [path|] eqn:Ed.
  2: { apply no_file_spec in Ed. by eexists _, _; apply ends_no_file. }
  apply chosen_file_spec in Ed. destruct (open_config s path) as [text|] eqn:Eo;
    [|by eexists _, _; eapply ends_unreadable].
  assert (Hr : reads s settings text) by by exists path.
  destruct (parse_config text) as [e|config] eqn:Ec; [by eexists _, _; eapply ends_invalid|].
  destruct (decide (only_checks settings)); [by eexists _, _; eapply ends_checked|].
  destruct (load_or_create_identity (identity_kernel s) (pid s) (device_id_file s) fs) as [[e|d] fs'] eqn:Ei;
    [by eexists _, _; eapply ends_identity|].
  destruct (random_uuid (instance_entropy s)) as [i|] eqn:Er;
    [by eexists _, _; eapply ends_running; try done; by apply named_config_spec|by eexists _, _; eapply ends_no_random].
Qed.


(** The null id in the identity file is taken; the dashboard refuses every message with it. *)
Example null_identity_taken : parse_identity "00000000-0000-0000-0000-000000000000" = Some null_uuid.
Proof. vm_compute. reflexivity. Qed.

Definition sample_system : system :=
  {| getenv := fun name => if String.eqb name "HOME" then Some "/home/pi"%string else None;
     is_regular_file := String.eqb "/home/pi/.config/dashboard-daemon/config.toml";
     open_config := fun _ => Some sample_text; identity_kernel := good_kernel; pid := "7";
     instance_entropy := Some (be_bytes 16 1); hostname := Some "pi"%string |}.

Example sample_start :
  match daemon_main sample_system [] ∅ with
  | (Runs c d i, _) => display_name c = "pi"%string /\ port c = 4000 /\ len d = 16
  | _ => False
  end /\
  daemon_main sample_system ["--check-config"]%string ∅ = (Exits 0 None, ∅) /\
  daemon_main sample_system ["--config"]%string ∅ = (Exits 1 (Some (UnknownOption "--config")), ∅).
Proof. vm_compute. repeat split. Qed.

End Daemon.

(** ** rpi-dashboard *)

Module Dashboard.
Import DashboardConfig.

(** What Qt's command line parser found: the text of each option that is set. *)
Record command_line := {
  o_windowed : bool;
  o_width : option string; o_height : option string; o_owner : option string;
  o_address : option string; o_port : option string; o_config : option string }.

(** [QString::toInt] *)
Class NumberLibrary := {
  toInt : string -> option Z;
  toInt_range s n : toInt s = Some n -> - int32_max - 1 <= n <= int32_max }.

Section dashboard.
Context `{ConfigLibrary} `{NumberLibrary}.

(** *** Credentials *)

Fixpoint chop_newlines (reversed : list byte) : list byte :=
  match reversed with
  | b :: rest => if (byte_val b =? 10) || (byte_val b =? 13) then chop_newlines rest else reversed
  | [] => []
  end.

(** [loadGitHubCredential]: the token and a diagnostic. *)
Definition loadGitHubCredential (fs : file_system) (decodeName : list byte -> string)
    (token_file_path environment_token : list byte) : list byte * string :=
  match token_file_path with
  | [] => (environment_token, ""%string)
  | _ =>
      match readable fs (decodeName token_file_path) with
      | None => ([], "GitHub credential file could not be read; using anonymous access"%string)
      | Some contents =>
          match List.rev (chop_newlines (List.rev contents)) with
          | [] => ([], "GitHub credential file is empty; using anonymous access"%string)
          | token => (token, ""%string)
          end
      end
  end.

(** *** dashboard_main *)

(** A number from the option when it is set, else from the configuration; whether it is valid. *)
Definition number_option (option_text : option string) (configured : Z) : Z * bool :=
  match option_text with
  | Some text => match toInt text with Some n => (n, true) | None => (0, false) end
  | None => (configured, true)
  end.

(** What the objects of the dashboard are made with. *)
Record startup := {
  s_windowed : bool; s_width : Z; s_height : Z;
  s_address : string; s_port : Z;
  s_owner : string; s_token : list byte;
  s_weather : option WeatherConfig; s_openweather_key : list byte; s_ipgeolocation_key : list byte;
  s_timeout : Z;
  s_warnings : list string }.

Inductive dashboard_outcome := ConfigurationFailure | ShowHelp | Started (s : startup).

(** [qEnvironmentVariableIsSet(name) ? qgetenv(name) : configured] *)
Definition file_setting (env : string -> option (list byte)) (name : string) (configured : list byte) : list byte :=
  default configured (env name).

Definition warning (text : string) : list string := if String.eqb text "" then [] else [text].

(** [logWeatherCredentialDiagnostics] *)
Definition weather_warnings (config : DashboardConfig) (openWeather automaticLocation : string) : list string :=
  match weather config with
  | None => []
  | Some w =>
      warning openWeather ++
      match locationMode w with Automatic => warning automaticLocation | _ => [] end
  end.

Definition dashboard_main (fs : file_system) (directories : list string) (decodeName : list byte -> string)
    (env : string -> option (list byte)) (options : command_line) : dashboard_outcome :=
  let configResult := loadDashboardConfig fs directories (default "" (o_config options)) in
  if l_fatal configResult then ConfigurationFailure
  else
    let config := l_config configResult in
    let '(windowWidth, widthIsValid) := number_option (o_width options) (window_width config) in
    let '(windowHeight, heightIsValid) := number_option (o_height options) (window_height config) in
    if negb widthIsValid || (windowWidth <=? 0) then ShowHelp
    else if negb heightIsValid || (windowHeight <=? 0) then ShowHelp
    else
      let '(telemetryPort, portIsValid) := number_option (o_port options) (telemetry_port config) in
      let telemetryAddress := default (telemetry_bind_address config) (o_address options) in
      if negb portIsValid || (telemetryPort <? 1) || (65535 <? telemetryPort) || negb (is_ipv4 telemetryAddress)
      then ShowHelp
      else
        let '(token, github_diagnostic) :=
          loadGitHubCredential fs decodeName (file_setting env "GITHUB_TOKEN_FILE" (github_token_file config))
            (default [] (env "GITHUB_TOKEN"%string)) in
        let '(openweather_key, openweather_diagnostic) :=
          loadCredential fs decodeName (file_setting env "OPENWEATHER_API_KEY_FILE" (open_weather_api_key_file config))
            (default [] (env "OPENWEATHER_API_KEY"%string)) "OpenWeather" in
        let '(ipgeolocation_key, ipgeolocation_diagnostic) :=
          loadCredential fs decodeName (file_setting env "IPGEOLOCATION_API_KEY_FILE" (ip_geolocation_api_key_file config))
            (default [] (env "IPGEOLOCATION_API_KEY"%string)) "IP geolocation" in
        Started {| s_windowed := o_windowed options || windowed config; s_width := windowWidth; s_height := windowHeight;
                   s_address := telemetryAddress; s_port := telemetryPort;
                   s_owner := default (github_owner config) (o_owner options); s_token := token;
                   s_weather := weather config; s_openweather_key := openweather_key;
                   s_ipgeolocation_key := ipgeolocation_key; s_timeout := screensaver_timeout_seconds config;
                   s_warnings := warning (l_diagnostic configResult) ++ warning github_diagnostic ++
                                 weather_warnings config openweather_diagnostic ipgeolocation_diagnostic |}.
(** ** What the dashboard starts with *)

Lemma number_option_spec o configured n :
  number_option o configured = (n, true) <->
  match o with Some text => toInt text = Some n | None => n = configured end.
Proof.
  unfold number_option. destruct o as [text|]; [|split; [by intros [= ->]|by intros ->]].
  destruct (toInt text); split; congruence.
Qed.

(** An option that is set holds no number in the range. *)
Definition bad_number (o : option string) (lo hi : Z) : Prop :=
  exists text, o = Some text /\ forall n, toInt text = Some n -> ~ lo <= n <= hi.

(** [--width] and its like are refused for what their text holds, never for the configuration. *)
Lemma number_option_bad o configured n valid lo hi : number_option o configured = (n, valid) ->
  lo <= configured <= hi -> (valid = true /\ lo <= n <= hi -> False) <-> bad_number o lo hi.
Proof.
  unfold number_option, bad_number. destruct o as [text|].
  2: { intros [= <- <-] ?. split; [tauto|by intros (? & ? & _)]. }
  intros E _. destruct (toInt text) as [k|] eqn:Ek; injection E as <- <-; split.
  - intros Hno. exists text. split; [done|]. intros m Em Hm. apply Hno. split; [done|]. congruence.
  - intros (? & [= <-] & Hno) [_ Hm]. by apply (Hno k).
  - intros _. exists text. split; [done|]. congruence.
  - by intros _ [? _].
Qed.

Lemma window_option_bad o configured n valid : number_option o configured = (n, valid) ->
  0 < configured <= int32_max -> negb valid || (n <=? 0) = true <-> bad_number o 1 int32_max.
Proof.
  intros E Hc. rewrite <- (number_option_bad o configured n valid) by (done || lia).
  assert (Hmax : valid = true -> n <= int32_max).
  { intros ->. apply number_option_spec in E. destruct o as [text|]; [apply toInt_range in E; lia|lia]. }
  destruct valid; cbn [negb orb]; [|by split; [intros _ []|]]. specialize (Hmax eq_refl). rewrite Z.leb_le.
  split; [intros Hn [_ ?]; lia|]. intros Hno. destruct (Z.le_gt_cases n 0); [done|]. destruct Hno. split; [done|lia].
Qed.

(** *** Credentials, read as a specification *)

Definition line_break (b : byte) : Prop := byte_val b = 10 \/ byte_val b = 13.

(** The token: of the environment when no file is named; of the file up to its last line
    breaks, and empty when the file cannot be read. *)
Definition token_given (fs : file_system) (decodeName : list byte -> string) (file environment token : list byte) : Prop :=
  match file with
  | [] => token = environment
  | _ =>
      match readable fs (decodeName file) with
      | None => token = []
      | Some contents => exists breaks, contents = token ++ breaks /\ Forall line_break breaks /\
          forall pre b, token = pre ++ [b] -> ~ line_break b
      end
  end.

(** A key of the weather: trimmed, of the environment or of the file. *)
Definition key_given (fs : file_system) (decodeName : list byte -> string) (file environment key : list byte) : Prop :=
  match file with
  | [] => key = bytes_trimmed environment
  | _ =>
      match readable fs (decodeName file) with
      | None => key = []
      | Some contents => key = bytes_trimmed contents
      end
  end.

(** The file a variable of the environment names, or else the configuration. *)
Definition credential_file (env : string -> option (list byte)) (name : string) (configured : list byte) : list byte :=
  match env name with Some file => file | None => configured end.
Definition variable (env : string -> option (list byte)) (name : string) : list byte :=
  match env name with Some text => text | None => [] end.

Lemma chop_newlines_split l : exists breaks, l = breaks ++ chop_newlines l /\ Forall line_break breaks /\
  forall b r, chop_newlines l = b :: r -> ~ line_break b.
Proof.
  unfold line_break. induction l as [|c l (breaks & E & Hf & Hh)]; cbn [chop_newlines]; [by exists []|].
  destruct ((byte_val c =? 10) || (byte_val c =? 13)) eqn:Ec.
  - apply orb_true_iff in Ec. rewrite !Z.eqb_eq in Ec. exists (c :: breaks). split; [cbn; by rewrite <- E|]. by split; [constructor|].
  - apply orb_false_iff in Ec. rewrite !Z.eqb_neq in Ec. exists []. split; [done|]. split; [done|]. intros b r [= <- _]. tauto.
Qed.

Lemma github_token_given fs decodeName file environment :
  token_given fs decodeName file environment (loadGitHubCredential fs decodeName file environment).1.
Proof.
  unfold token_given, loadGitHubCredential. destruct file as [|x file]; [done|].
  destruct (readable fs _) as [contents|]; [|done].
  destruct (chop_newlines_split (List.rev contents)) as (breaks & E & Hf & Hh).
  apply (f_equal (@List.rev byte)) in E. rewrite List.rev_involutive, List.rev_app_distr in E.
  set (token := List.rev (chop_newlines (List.rev contents))) in *.
  replace (match token with [] => _ | _ => _ end).1 with token by by destruct token.
  exists (List.rev breaks). split; [exact E|]. split; [by apply List.Forall_rev|].
  intros pre b Hb. apply (f_equal (@List.rev byte)) in Hb. unfold token in Hb.
  rewrite List.rev_involutive, List.rev_app_distr in Hb. exact (Hh b (List.rev pre) Hb).
Qed.

Lemma weather_key_given fs decodeName file environment label :
  key_given fs decodeName file environment (loadCredential fs decodeName file environment label).1.
Proof.
  unfold key_given, loadCredential. destruct file as [|x file]; [done|]. destruct (readable fs _) as [contents|]; [|done].
  by destruct (bytes_trimmed contents).
Qed.

(** The value an option or the configuration gives. *)
Definition chosen (o : option string) (configured n : Z) : Prop :=
  match o with Some text => toInt text = Some n | None => n = configured end.

Lemma chosen_int o configured n : chosen o configured n -> 0 < configured <= int32_max -> 0 < n -> 0 < n <= int32_max.
Proof. unfold chosen. destruct o as [text|]; [|by intros ->]. intros E%toInt_range. lia. Qed.

(** *** The start, read as a specification *)

(** The file at the path is there, can be read and holds the configuration. *)
Definition holds (fs : file_system) (path : string) (c : DashboardConfig) : Prop :=
  path <> ""%string /\ exists contents, readable fs path = Some contents /\ parseDashboardConfig contents = inr c.

Definition standard_file (directory : string) : string := file_path directory "rpi-dashboard/config.toml".

(** The configuration that counts: of the file named by --config; else of the first
    standard file there is, and the defaults when that is unusable or there is none. *)
Inductive configured (fs : file_system) (directories : list string) : string -> DashboardConfig -> Prop :=
| configured_by_name path c : holds fs path c -> configured fs directories path c
| configured_by_search before d after c : directories = before ++ d :: after ->
    Forall (fun d => fs (standard_file d) = None) before -> is_Some (fs (standard_file d)) ->
    holds fs (standard_file d) c \/ c = default_config /\ ~ (exists c', holds fs (standard_file d) c') ->
    configured fs directories "" c
| configured_by_default : Forall (fun d => fs (standard_file d) = None) directories ->
    configured fs directories "" default_config.

(** --config names a file that does not hold a configuration. *)
Definition unusable_file (fs : file_system) (options : command_line) : Prop :=
  exists path, o_config options = Some path /\ path <> ""%string /\ ~ (exists c, holds fs path c).

(** An option that is set has a value out of its range. *)
Definition bad_option (options : command_line) : Prop :=
  bad_number (o_width options) 1 int32_max \/ bad_number (o_height options) 1 int32_max \/
  bad_number (o_port options) 1 65535 \/ (exists text, o_address options = Some text /\ is_ipv4 text = false).

Lemma holds_load fs path : path <> ""%string ->
  match readable fs path with
  | Some contents => match parseDashboardConfig contents with
                     | inr c => holds fs path c
                     | inl _ => ~ exists c, holds fs path c
                     end
  | None => ~ exists c, holds fs path c
  end.
Proof.
  intros Hne. unfold holds. destruct (readable fs path) as [contents|]; [|by intros (c & _ & ? & ? & _)].
  destruct (parseDashboardConfig contents) as [e|c] eqn:E; [|by eauto].
  intros (c & _ & ? & [= <-] & ?). congruence.
Qed.

Lemma load_fatal fs directories options :
  l_fatal (loadDashboardConfig fs directories (default ""%string (o_config options))) = true <-> unusable_file fs options.
Proof.
  unfold unusable_file, loadDashboardConfig, config_path. destruct (o_config options) as [path|]; cbn [from_option Datatypes.id].
  2: { cbn. split; [|by intros (? & ? & _)]. by repeat (case_match; cbn). }
  destruct (String.eqb_spec path "") as [->|Hne]; cbn [negb].
  { split; [by repeat (case_match; cbn)|by intros (? & [= <-] & ? & _)]. }
  pose proof (holds_load fs path Hne) as Hh.
  rewrite ?(proj2 (String.eqb_neq _ _) Hne).
  destruct (readable fs path) as [contents|]; [destruct (parseDashboardConfig contents) as [e|c]|]; cbn;
    [split; [by exists path|done]|split; [done|]|split; [by exists path|done]].
  intros (? & [= <-] & _ & Hno). destruct Hno. by exists c.
Qed.

Lemma search_standard (fs : file_system) directories :
  match List.find (fun p => bool_decide (is_Some (fs p))) (map standard_file directories) with
  | Some p => exists before d after, directories = before ++ d :: after /\ p = standard_file d /\
      Forall (fun d => fs (standard_file d) = None) before /\ is_Some (fs p)
  | None => Forall (fun d => fs (standard_file d) = None) directories
  end.
Proof.
  induction directories as [|d l IH]; cbn [map List.find]; [done|]. case_bool_decide as Hd.
  - by exists [], d, l.
  - apply eq_None_not_Some in Hd. destruct (List.find _ _) as [p|]; [|by constructor].
    destruct IH as (before & d' & after & -> & -> & Hb & Hs). exists (d :: before), d', after. by repeat (split; [by try constructor|]).
Qed.

Lemma load_configured fs directories explicit : l_fatal (loadDashboardConfig fs directories explicit) = false ->
  configured fs directories explicit (l_config (loadDashboardConfig fs directories explicit)).
Proof.
  unfold loadDashboardConfig, config_path. fold standard_file. destruct (String.eqb_spec explicit "") as [->|Hne]; cbn [negb].
  - pose proof (search_standard fs directories) as Hs. destruct (List.find _ _) as [p|]; [|by constructor].
    destruct Hs as (before & d & after & -> & -> & Hb & Hs).
    destruct (String.eqb_spec (standard_file d) "") as [He|Hne].
    { intros _. eapply configured_by_search; [done..|]. right. split; [done|]. by intros (c & ? & _). }
    pose proof (holds_load fs _ Hne) as Hh. destruct (readable fs _) as [contents|];
      [destruct (parseDashboardConfig contents)|]; intros _; (eapply configured_by_search; [done..|]); by (left + right).
  - rewrite (proj2 (String.eqb_neq _ _) Hne). pose proof (holds_load fs _ Hne) as Hh.
    destruct (readable fs _) as [contents|]; [destruct (parseDashboardConfig contents)|]; try done.
    intros _. by apply configured_by_name.
Qed.

(** The three refusals of the options are those of [bad_option]. *)
Lemma options_refused options c width widthOk height heightOk port portOk : is_ipv4 "0.0.0.0" = true -> usable c ->
  number_option (o_width options) (window_width c) = (width, widthOk) ->
  number_option (o_height options) (window_height c) = (height, heightOk) ->
  number_option (o_port options) (telemetry_port c) = (port, portOk) ->
  (negb widthOk || (width <=? 0)) || (negb heightOk || (height <=? 0)) ||
    (negb portOk || (port <? 1) || (65535 <? port) ||
     negb (is_ipv4 (default (telemetry_bind_address c) (o_address options)))) = true <-> bad_option options.
Proof.
  intros Hany [[Hw Hh] _ _ Ha Hp _] Ew Eh Ep. unfold bad_option. rewrite !orb_true_iff, <- !orb_true_iff.
  rewrite <- (window_option_bad _ _ _ _ Ew Hw), <- (window_option_bad _ _ _ _ Eh Hh).
  rewrite <- (number_option_bad _ _ _ _ 1 65535 Ep Hp).
  assert (Hip : negb (is_ipv4 (default (telemetry_bind_address c) (o_address options))) = true <->
                exists text, o_address options = Some text /\ is_ipv4 text = false).
  { rewrite negb_true_iff. destruct (o_address options) as [text|]; cbn; [by split; [eauto|intros (? & [= <-] & ?)]|].
    split; [|by intros (? & ? & _)]. destruct Ha as [Ha|Ha]; rewrite Ha in *; congruence. }
  rewrite <- Hip. rewrite !orb_true_iff, !negb_true_iff, !Z.leb_le, !Z.ltb_lt.
  destruct portOk; intuition (done || lia || auto).
Qed.

(** C25. The dashboard stops with a failure exactly when --config names a file that does not
    hold a valid configuration; else it stops with the help text exactly when an option that
    is set is out of its range, the width and the height positive, the port between 1 and
    65535, the address one of IPv4; else it starts.  It starts with the configuration that
    counts (the file named, else the first standard file, the defaults when there is none or
    it is unusable), which an option that is set overrides: a window of positive size, a port
    and an address it can listen on, a timeout that fits, a weather section it can use.  The
    token and the keys are those of the files the environment names, or else the
    configuration, and without a file those of the environment: a token without the line
    breaks at its end, keys trimmed, both empty when the file cannot be read. *)
Theorem dashboard_starts fs directories decodeName env options (Hany : is_ipv4 "0.0.0.0" = true) :
  match dashboard_main fs directories decodeName env options with
  | ConfigurationFailure => unusable_file fs options
  | ShowHelp => ~ unusable_file fs options /\ bad_option options
  | Started s =>
      let file name configured := credential_file env name configured in
      ~ unusable_file fs options /\ ~ bad_option options /\
      exists config, configured fs directories (default ""%string (o_config options)) config /\
      (0 < s_width s <= int32_max /\ chosen (o_width options) (window_width config) (s_width s)) /\
      (0 < s_height s <= int32_max /\ chosen (o_height options) (window_height config) (s_height s)) /\
      (1 <= s_port s <= 65535 /\ chosen (o_port options) (telemetry_port config) (s_port s)) /\
      (is_ipv4 (s_address s) = true /\ s_address s = default (telemetry_bind_address config) (o_address options)) /\
      s_owner s = default (github_owner config) (o_owner options) /\
      s_windowed s = o_windowed options || windowed config /\
      (0 <= s_timeout s <= int32_max /\ s_timeout s = screensaver_timeout_seconds config) /\
      (s_weather s = weather config /\ match s_weather s with Some w => weather_usable w | None => True end) /\
      token_given fs decodeName (file "GITHUB_TOKEN_FILE"%string (github_token_file config))
        (variable env "GITHUB_TOKEN") (s_token s) /\
      key_given fs decodeName (file "OPENWEATHER_API_KEY_FILE"%string (open_weather_api_key_file config))
        (variable env "OPENWEATHER_API_KEY") (s_openweather_key s) /\
      key_given fs decodeName (file "IPGEOLOCATION_API_KEY_FILE"%string (ip_geolocation_api_key_file config))
        (variable env "IPGEOLOCATION_API_KEY") (s_ipgeolocation_key s)
  end.
Proof.
  unfold dashboard_main. set (explicit := default ""%string (o_config options)).
  destruct (dashboard_config_usable fs directories explicit) as (Hu & _).
  pose proof (load_fatal fs directories options) as Hf. pose proof (load_configured fs directories explicit) as Hc.
  fold explicit in Hf. set (r := loadDashboardConfig fs directories explicit) in *.
  destruct (l_fatal r); [by apply Hf|]. assert (Hno : ~ unusable_file fs options) by (intros H1%Hf; done).
  specialize (Hc eq_refl). set (config := l_config r) in *.
  destruct (number_option (o_width options) _) as [width widthOk] eqn:Ew.
  destruct (number_option (o_height options) _) as [height heightOk] eqn:Eh.
  destruct (number_option (o_port options) _) as [port portOk] eqn:Ep.
  pose proof (options_refused _ _ _ _ _ _ _ _ Hany Hu Ew Eh Ep) as Hb.
  destruct (negb widthOk || _) eqn:E1; [by split; [|apply Hb]|]. destruct (negb heightOk || _) eqn:E2; [by split; [|apply Hb]|].
  destruct (negb portOk || _ || _ || _) eqn:E3; [by split; [|apply Hb]|].
  assert (Hok : ~ bad_option options) by (intros H1%Hb; done). clear Hb Hf.
  match goal with |- context [loadGitHubCredential fs decodeName ?f ?e] => pose proof (github_token_given fs decodeName f e) as Ht end.
  match goal with |- context [loadCredential fs decodeName ?f ?e "OpenWeather"] => pose proof (weather_key_given fs decodeName f e "OpenWeather") as Ho end.
  match goal with |- context [loadCredential fs decodeName ?f ?e "IP geolocation"] => pose proof (weather_key_given fs decodeName f e "IP geolocation") as Hi end.
  destruct (loadGitHubCredential _ _ _ _) as [token gd]. destruct (loadCredential _ _ _ _ "OpenWeather") as [ok od].
  destruct (loadCredential _ _ _ _ "IP geolocation") as [ik idg]. bool_facts. subst. cbn zeta.
  split; [done|]. split; [done|]. exists config. destruct Hu as [[Hw Hh] Htime _ _ Hp Hwe].
  cbn [s_windowed s_width s_height s_port s_address s_owner s_timeout s_weather s_token s_openweather_key s_ipgeolocation_key].
  apply number_option_spec in Ew, Eh, Ep.
  split; [done|]. split; [split; [|exact Ew]; by eapply chosen_int|]. split; [split; [|exact Eh]; by eapply chosen_int|].
  split; [split; [lia|exact Ep]|]. repeat (split; [done|]). exact Hi.
Qed.
End dashboard.

(** ** Concrete starts *)

#[export, refine] Instance decimal_numbers : NumberLibrary :=
  {| toInt s := if negb (String.eqb s "") && str_forall isdigit s && (decimal s <=? int32_max) then Some (decimal s) else None |}.
Proof.
  intros s n. case_if; [|done]. intros [= <-]. bool_facts. pose proof (decimal_acc_nonneg 0 s H1 ltac:(lia)).
  unfold decimal, int32_max in *. lia.
Defined.

Definition any_address (document : toml) : ConfigLibrary :=
  let lib := tree_library document in
  {| node := toml; toml_parse := @toml_parse lib; get := @get lib; is_table := @is_table lib;
     value_int64 := @value_int64 lib; value_double := @value_double lib; value_string := @value_string lib;
     value_bool := @value_bool lib; trimmed := fun s => s; bytes_trimmed := fun b => b;
     is_ipv4 := fun s => String.eqb s "0.0.0.0" || String.eqb s "10.0.0.1"; file_path := @file_path lib |}.

Definition no_files : file_system := fun _ => None.

Definition narrow (width : option string) : command_line :=
  {| o_windowed := true; o_width := width; o_height := None; o_owner := None; o_address := None; o_port := None;
     o_config := None |}.

Definition start (options : command_line) : dashboard_outcome :=
  @dashboard_main (any_address (TTable [])) _ no_files [] (fun _ => ""%string) (fun _ => None) options.

Example starts_with_defaults :
  match start (narrow (Some "800"%string)) with Started s => s_width s = 800 /\ s_height s = 320 /\ s_port s = 51337 | _ => False end.
Proof. vm_compute. done. Qed.

(** An empty owner is refused in the configuration and accepted on the command line. *)
Example empty_owner_accepted :
  match start {| o_windowed := false; o_width := None; o_height := None; o_owner := Some ""%string; o_address := None;
                 o_port := None; o_config := None |} with
  | Started s => s_owner s = ""%string
  | _ => False
  end.
Proof. vm_compute. done. Qed.

Lemma dashboard_starts_witness :
  @is_ipv4 (any_address (TTable [])) "0.0.0.0" = true /\
  match start (narrow (Some "800"%string)) with Started s => 0 < s_width s <= int32_max | _ => False end.
Proof.
  split; [reflexivity|].
  pose proof (@dashboard_starts (any_address (TTable [])) decimal_numbers no_files [] (fun _ => ""%string) (fun _ => None)
    (narrow (Some "800"%string)) eq_refl) as H.
  destruct (start (narrow (Some "800"%string))) as [| |s] eqn:E; [vm_compute in E; discriminate E..|].
  unfold start in E. rewrite E in H. cbv zeta in H. destruct H as (_ & _ & config & _ & [H _] & _). exact H.
Defined.
End Dashboard.
