(* ===== verification/Json.v ===== *)
(** * JSON values

    [QJsonValue] as the weather sources use it, after Qt's documentation: reading a
    value as another type gives that type's default. *)

From S2P Require Import Prelude.
From S2P Require Import Std.
From S2P Require Import Float64.
From S2P Require Import FloatBounds.

Inductive json :=
| JUndefined
| JNull
| JBool (b : bool)
| JNumber (d : double)
| JText (s : string)
| JArray (l : list json)
| JObject (entries : list (string * json)).

(** [object.value(key)] *)
Fixpoint jfind (key : string) (entries : list (string * json)) : json :=
  match entries with
  | [] => JUndefined
  | (k, v) :: rest => if String.eqb key k then v else jfind key rest
  end.

(** [toObject], [toArray], [toString]: empty when the type is another. *)
Definition jobject (v : json) : list (string * json) := match v with JObject es => es | _ => [] end.
Definition jarray (v : json) : list json := match v with JArray l => l | _ => [] end.
Definition jtext (v : json) : string := match v with JText s => s | _ => ""%string end.

Definition jvalue (key : string) (v : json) : json := jfind key (jobject v).

(** [array.at(i)] *)
Definition jat (i : nat) (l : list json) : json := default JUndefined (l !! i).

(** [toDouble()] *)
Definition jdouble (v : json) : double := match v with JNumber d => d | _ => d0 end.

Definition is_jnumber (v : json) : bool := match v with JNumber _ => true | _ => false end.
Definition is_jtext (v : json) : bool := match v with JText _ => true | _ => false end.
Definition is_jbool (v : json) : bool := match v with JBool _ => true | _ => false end.
Definition is_jobject (v : json) : bool := match v with JObject _ => true | _ => false end.
Definition is_jarray (v : json) : bool := match v with JArray _ => true | _ => false end.

(** The integer a finite double is, if it is one. *)
Definition whole (d : double) : option Z :=
  match d with
  | S754_zero _ => Some 0
  | S754_finite s m e =>
      let z := if 0 <=? e then Some (Zpos m * 2 ^ e)
               else if Zpos m mod 2 ^ (- e) =? 0 then Some (Zpos m / 2 ^ (- e)) else None in
      option_map (fun n => if s then - n else n) z
  | _ => None
  end.

(** [toInt(fallback)]: the fallback unless the number is whole and fits an [int]. *)
Definition jint (fallback : Z) (v : json) : Z :=
  match v with
  | JNumber d => match whole d with
                 | Some z => if (- int32_max - 1 <=? z) && (z <=? int32_max) then z else fallback
                 | None => fallback
                 end
  | _ => fallback
  end.

(** [toBool()] *)
Definition jbool (v : json) : bool := match v with JBool b => b | _ => false end.

(** [toInteger()] and [toVariant().toLongLong()] of a number; numbers are doubles here, so
    these are exact below 2^53, as far as JSON guarantees it. *)
Definition jinteger (v : json) : Z :=
  match v with
  | JNumber d => match whole d with
                 | Some z => if (- int64_max - 1 <=? z) && (z <=? int64_max) then z else 0
                 | None => 0
                 end
  | _ => 0
  end.

(** [QJsonValue(int)] *)
Definition of_int (z : Z) : json := JNumber (double_of_Z z).

(** Small integers are represented exactly. *)
Lemma binary_round_exact s p : Zpos p < 2 ^ 53 ->
  whole (binary_round prec64 emax64 s p 0) = Some (if s then - Zpos p else Zpos p).
Proof.
  intros Hp. set (d := Zdigits2 (Zpos p)).
  assert (Hd : 1 <= d <= 53) by (pose proof (digits_pos (Zpos p)); pose proof (digits_le (Zpos p) 53); unfold d; lia).
  destruct (binary_round_eq s p 0) as [-> Hdig]. rewrite Z.add_0_r in *. fold d in Hdig |- *.
  rewrite (fexp64_eq d) in *. replace (Z.min 0 (Z.max (d - 53) (-1074))) with (d - 53) in * by lia.
  set (mz := Zpos p * 2 ^ (0 - (d - 53))) in *.
  assert (H2 : 0 < 2 ^ (0 - (d - 53))) by (apply pow2_pos; lia).
  destruct (binary_round_aux_eq s mz (d - 53) loc_Exact) as (N & -> & Hr & _ & HN & _);
    rewrite ?Hdig, ?(fexp64_eq d) in *; [lia|lia|].
  replace (Z.max (d - 53) (-1074)) with (d - 53) in * by lia. rewrite Z.sub_diag, Z.pow_0_r, Z.div_1_r, Z.mul_1_r in *.
  rewrite (HN eq_refl eq_refl). unfold finish. rewrite (proj2 (Z.eqb_neq _ _)) by lia.
  destruct mz as [|q|q] eqn:Eq; [lia| |lia]. rewrite (proj2 (Z.leb_le _ _)) by lia. cbn [whole].
  rewrite <- Eq. unfold mz in Eq. destruct (Z.eq_dec d 53) as [->|Hne].
  - cbn [Z.leb Z.compare]. subst mz. change (0 - (53 - 53)) with 0. cbn [Z.pow Z.sub Z.opp Z.add].
    rewrite ?Z.pow_0_r, ?Z.mul_1_r. by destruct s.
  - rewrite (proj2 (Z.leb_gt _ _)) by lia. subst mz. replace (- (d - 53)) with (0 - (d - 53)) by lia.
    rewrite Z.mod_mul, Z.div_mul by lia. by destruct s.
Qed.

Lemma whole_double_of_Z z : Z.abs z < 2 ^ 53 -> whole (double_of_Z z) = Some z.
Proof.
  intros Hz. destruct z as [|p|p]; [done| |]; unfold double_of_Z, binary_normalize; rewrite binary_round_exact by lia; done.
Qed.

Lemma jint_of_int fallback z : - int32_max - 1 <= z <= int32_max -> jint fallback (of_int z) = z.
Proof.
  unfold int32_max. intros Hz. unfold jint, of_int. rewrite whole_double_of_Z by lia. unfold int32_max.
  by rewrite (proj2 (Z.leb_le _ _)), (proj2 (Z.leb_le _ _)) by lia.
Qed.

#[export] Hint Rewrite jint_of_int using (unfold int32_max in *; lia) : dash.

(** ** Documents *)

(** A value that survives being written: numbers are finite (minus zero loses its
    sign), the keys of an object are sorted, as [QJsonObject] keeps them. *)
Definition json_number_ok (d : double) : bool :=
  valid64 d && isfinite d && negb (bool_decide (d = S754_zero true)).

Lemma binary_round_aux_sign m e l :
  binary_round_aux prec64 emax64 true m e l = SFopp (binary_round_aux prec64 emax64 false m e l).
Proof.
  unfold binary_round_aux. destruct (shr_fexp _ _ m e l) as [r e1]. destruct (shr_fexp _ _ _ e1 loc_Exact) as [r2 e2].
  destruct (shr_m r2); [done| |done]. by destruct (e2 <=? emax64 - prec64).
Qed.

Lemma double_of_Z_sign p : double_of_Z (Zneg p) = SFopp (double_of_Z (Zpos p)).
Proof.
  unfold double_of_Z, binary_normalize, binary_round. destruct (shl_align _ _ _) as [m e]. apply binary_round_aux_sign.
Qed.

Lemma integer_json z : Z.abs z < 2 ^ 53 -> json_number_ok (double_of_Z z) = true.
Proof.
  assert (forall p, Zpos p < 2 ^ 53 -> valid64 (double_of_Z (Zpos p)) = true) as Hpos.
  { intros p Hp. by destruct (double_of_Z_range (Zpos p)) as (v & (Hv & _) & _); [lia|]. }
  intros Hz. pose proof (whole_double_of_Z z Hz) as Hw.
  assert (valid64 (double_of_Z z) = true) as Hv.
  { destruct z as [|p|p]; [done|apply Hpos; lia|]. rewrite double_of_Z_sign.
    pose proof (Hpos p ltac:(lia)) as Hv. by destruct (double_of_Z (Zpos p)). }
  unfold json_number_ok. rewrite Hv. destruct z as [|p|p]; [done| |];
    destruct (double_of_Z _); try done; cbn; by rewrite bool_decide_eq_false_2 by congruence.
Qed.

Fixpoint keys_sorted (keys : list string) : bool :=
  match keys with
  | [] | [_] => true
  | a :: (b :: _) as rest => match String.compare a b with Lt => keys_sorted rest | _ => false end
  end.

Fixpoint json_ok (v : json) : bool :=
  match v with
  | JUndefined => false
  | JNull | JBool _ | JText _ => true
  | JNumber d => json_number_ok d
  | JArray l => forallb json_ok l
  | JObject es => keys_sorted (map fst es) && forallb (fun e => json_ok e.2) es
  end.

(** [QJsonDocument]: writing a document and reading it back. *)
Class JsonLibrary := {
  json_file : Type;                             (* the contents of a file *)
  to_json : json -> json_file;
  from_json : json_file -> option json;         (* none after a parse error *)
  from_to_json : forall v, is_jobject v = true -> json_ok v = true -> from_json (to_json v) = Some v }.

(** A braced list of entries: each is inserted, a later one replaces an earlier one. *)
Definition jobject_of (entries : list (string * json)) : json :=
  JObject (fold_left (fun m kv => map_set kv.1 kv.2 m) entries []).

(** The last entry with a key. *)
Definition jassoc (key : string) (entries : list (string * json)) : json :=
  fold_left (fun found kv => if String.eqb key kv.1 then kv.2 else found) entries JUndefined.

Lemma jfind_map_find key entries : jfind key entries = default JUndefined (map_find key entries).
Proof. induction entries as [|[k v] es IH]; [done|]. cbn. by destruct (String.eqb key k). Qed.

Lemma jvalue_of key entries : jvalue key (jobject_of entries) = jassoc key entries.
Proof.
  unfold jvalue, jobject_of, jassoc. cbn [jobject]. change JUndefined with (jfind key []).
  generalize (@nil (string * json)). induction entries as [|[k v] es IH]; intros m; [done|]. cbn [fold_left fst snd].
  rewrite IH. f_equal. rewrite !jfind_map_find. destruct (String.eqb_spec key k) as [->|Hne].
  - by rewrite map_find_set_eq.
  - by rewrite map_find_set_ne.
Qed.

Lemma jobject_of_nonempty e entries : jobject (jobject_of (e :: entries)) <> [].
Proof.
  assert (forall k v (m : list (string * json)), map_set k v m <> []) as Hset
    by (intros k v [|[k' v'] m]; cbn; [done|by destruct (String.compare k k')]).
  unfold jobject_of. cbn [jobject fold_left]. assert (map_set e.1 e.2 [] <> ([] : list (string * json))) as Hm by apply Hset.
  revert Hm. generalize (map_set e.1 e.2 ([] : list (string * json))). induction entries as [|x es IH]; cbn; auto.
Qed.

Lemma keys_sorted_of (keys : list string) :
  StronglySorted (fun a b => String.compare a b = Lt) keys -> keys_sorted keys = true.
Proof.
  induction 1 as [|a [|b l] Hs IH Ha]; [done|done|]. cbn [keys_sorted] in *. inversion Ha as [|? ? Hab]; subst. by rewrite Hab.
Qed.

Lemma forallb_map_set (P : json -> bool) k v m :
  P v = true -> forallb (fun e : string * json => P e.2) m = true -> forallb (fun e : string * json => P e.2) (map_set k v m) = true.
Proof.
  intros Hv. induction m as [|[k' v'] m IH]; cbn; [by rewrite Hv|]. intros [Hv' Hm]%andb_prop.
  destruct (String.compare k k'); cbn; rewrite ?Hv, ?Hv', ?Hm; auto.
Qed.

(** An object of values that survive survives. *)
Lemma json_ok_object entries : forallb (fun e : string * json => json_ok e.2) entries = true -> json_ok (jobject_of entries) = true.
Proof.
  intros Hok. unfold jobject_of. cbn [json_ok].
  assert (forall m, map_sorted m -> forallb (fun e : string * json => json_ok e.2) m = true ->
    keys_sorted (map fst (fold_left (fun m kv => map_set kv.1 kv.2 m) entries m))
    && forallb (fun e : string * json => json_ok e.2) (fold_left (fun m kv => map_set kv.1 kv.2 m) entries m) = true) as Hm; [|by apply Hm; [constructor|]].
  induction entries as [|[k v] es IH]; intros m Hs Hf; cbn in *.
  - rewrite Hf. by rewrite keys_sorted_of.
  - apply andb_prop in Hok as [Hv Hok]. apply IH; [done|by apply map_set_sorted|by apply forallb_map_set].
Qed.

Lemma is_jobject_of entries : is_jobject (jobject_of entries) = true.
Proof. done. Qed.
