(* ===== verification/BoundedReply.v ===== *)
(** * Bounded replies (src/network/bounded_reply.h)

    [BoundedReply] collects the body of a network reply up to a limit.  The reply is
    Qt's: the bytes it holds are [available], and how many of them a [read] hands over is
    a parameter with the documented bounds. *)

From S2P Require Import Prelude.

(** [read(n)] of a device with [a] bytes available hands over [chunk n a] of them. *)
Class NetworkDevice := {
  chunk : nat -> nat -> nat;
  chunk_spec n a : (0 < n)%nat -> (0 < a)%nat -> (1 <= chunk n a)%nat /\ (chunk n a <= Nat.min n a)%nat }.

Record BoundedReply := {
  available : list byte;          (* reply_: the bytes not read yet *)
  aborted : bool;                 (* reply_->abort() was called *)
  maximum_bytes_ : nat;
  body_ : list byte;
  exceeded_limit_ : bool }.

Definition new_reply (maximum_bytes : nat) : BoundedReply :=
  {| available := []; aborted := false; maximum_bytes_ := maximum_bytes; body_ := []; exceeded_limit_ := false |}.

Definition reject (b : BoundedReply) : BoundedReply :=
  {| available := available b; aborted := true; maximum_bytes_ := maximum_bytes_ b; body_ := []; exceeded_limit_ := true |}.

Section collect.
Context `{NetworkDevice}.

(** One turn of the loop of [consume]. *)
Definition consume_step (b : BoundedReply) : BoundedReply :=
  let remaining := (maximum_bytes_ b - length (body_ b))%nat in
  let n := chunk (Nat.min (length (available b)) (remaining + 1)) (length (available b)) in
  let b' := {| available := drop n (available b); aborted := aborted b; maximum_bytes_ := maximum_bytes_ b;
               body_ := body_ b ++ take n (available b); exceeded_limit_ := exceeded_limit_ b |} in
  if (maximum_bytes_ b <? length (body_ b'))%nat then reject b' else b'.

(** Each turn reads a byte: as many turns as bytes are enough. *)
Fixpoint consume_loop (fuel : nat) (b : BoundedReply) : BoundedReply :=
  match fuel with
  | O => b
  | S fuel => if negb (exceeded_limit_ b) && (0 <? length (available b))%nat then consume_loop fuel (consume_step b) else b
  end.

Definition consume (b : BoundedReply) : BoundedReply := consume_loop (length (available b)) b.

Definition finish : BoundedReply -> BoundedReply := consume.

(** What the network does to a reply: bytes arrive ([readyRead]) or the headers do
    ([metaDataChanged], with the Content-Length, 0 without one). *)
Inductive network_event := Arrived (bytes : list byte) | Headers (content_length : Z).

Definition arrive (bytes : list byte) (b : BoundedReply) : BoundedReply :=
  {| available := available b ++ bytes; aborted := aborted b; maximum_bytes_ := maximum_bytes_ b;
     body_ := body_ b; exceeded_limit_ := exceeded_limit_ b |}.

(** The slots connected by [collect]. *)
Definition on_network (e : network_event) (b : BoundedReply) : BoundedReply :=
  match e with
  | Arrived bytes => consume (arrive bytes b)
  | Headers content_length => if Z.of_nat (maximum_bytes_ b) <? content_length then reject b else b
  end.

(** A reply from its start until it has finished. *)
Definition collect (maximum_bytes : nat) (es : list network_event) : BoundedReply :=
  finish (fold_left (fun b e => on_network e b) es (new_reply maximum_bytes)).

(** ** The limit *)

Definition received (es : list network_event) : list byte :=
  concat (map (fun e => match e with Arrived bytes => bytes | Headers _ => [] end) es).

Definition announced_too_long (maximum_bytes : nat) (es : list network_event) : Prop :=
  exists n, Headers n ∈ es /\ Z.of_nat maximum_bytes < n.

(** Under the limit nothing is waiting; above it nothing is kept. *)
Record collected (m : nat) (total : list byte) (over : Prop) (b : BoundedReply) : Prop := {
  c_maximum : maximum_bytes_ b = m;
  c_flag : exceeded_limit_ b = true <-> over \/ (m < length total)%nat;
  c_body : if exceeded_limit_ b then body_ b = [] /\ aborted b = true else body_ b = total /\ available b = [] /\ aborted b = false }.

Lemma consume_exceeded b : exceeded_limit_ b = true -> consume b = b.
Proof. intros Hb. unfold consume. destruct (length (available b)); [done|]. cbn. by rewrite Hb. Qed.

Lemma consume_spec m b : maximum_bytes_ b = m -> exceeded_limit_ b = false -> aborted b = false -> (length (body_ b) <= m)%nat ->
  collected m (body_ b ++ available b) False (consume b).
Proof.
  intros Hm Hx Ha Hle. unfold consume. remember (length (available b)) as k eqn:Hk.
  assert (length (available b) <= k)%nat as Hfuel by lia. clear Hk.
  revert b Hm Hx Ha Hle Hfuel. induction k as [|k IH]; intros b Hm Hx Ha Hle Hfuel; cbn [consume_loop].
  - destruct (available b) as [|x l] eqn:E; [|cbn in Hfuel; lia]. rewrite app_nil_r.
    split; [done|rewrite Hx; split; [done|intros [[]|?]; lia]|by rewrite Hx, E].
  - rewrite Hx. cbn [negb andb]. destruct (Nat.ltb_spec 0 (length (available b))) as [Hpos|Hz].
    2: { destruct (available b) as [|x l] eqn:E; [|cbn in Hz; lia]. rewrite app_nil_r.
         split; [done|rewrite Hx; split; [done|intros [[]|?]; lia]|by rewrite Hx, E]. }
    unfold consume_step. set (n := chunk _ _).
    assert (1 <= n /\ n <= Nat.min (Nat.min (length (available b)) (maximum_bytes_ b - length (body_ b) + 1)) (length (available b)))%nat
      as [Hn1 Hn2] by (apply chunk_spec; lia).
    set (b' := {| available := drop n (available b) |}).
    assert (body_ b' ++ available b' = body_ b ++ available b) as Hall
      by (cbn; by rewrite <- (assoc_L (++)), take_drop).
    destruct (Nat.ltb_spec (maximum_bytes_ b) (length (body_ b'))) as [Hover|Hok].
    + assert (consume_loop k (reject b') = reject b') as -> by (by destruct k).
      split; [done| |done]. split; [intros _; right|done]. rewrite <- Hall, length_app. lia.
    + rewrite <- Hall. apply IH; try done; cbn in *; [lia|]. rewrite length_drop. lia.
Qed.

Lemma collected_step m total over b e : collected m total over b ->
  collected m (total ++ received [e]) (over \/ announced_too_long m [e]) (on_network e b).
Proof.
  intros [Hm Hf Hb]. destruct (exceeded_limit_ b) eqn:Hx.
  - assert (maximum_bytes_ (on_network e b) = m /\ exceeded_limit_ (on_network e b) = true /\
            body_ (on_network e b) = [] /\ aborted (on_network e b) = true) as (H1 & H2 & H3 & H4).
    { destruct e as [bytes|n]; cbn [on_network]; [by rewrite consume_exceeded|]. by destruct (_ <? n). }
    split; [done| |by rewrite H2]. rewrite H2. split; [intros _|done].
    destruct (proj1 Hf eq_refl) as [Ho|Hl]; [by left; left|right]. rewrite length_app. lia.
  - destruct Hb as (Hb1 & Hb2 & Hb3).
    assert (~ over /\ (length total <= m)%nat) as [Hno Hle].
    { split; [intros Ho|apply Nat.nlt_ge; intros Hl]; by assert (false = true) by (apply Hf; auto). }
    destruct e as [bytes|n]; cbn [on_network].
    + destruct (consume_spec m (arrive bytes b)) as [C1 C2 C3]; [done|done|done|cbn; by rewrite Hb1|].
      cbn [arrive body_ available] in C2, C3. rewrite Hb1, Hb2 in C2, C3. unfold received. cbn [map concat app] in *. rewrite app_nil_r.
      split; [done| |done]. rewrite C2. split; [intros [[]|?]; by right|].
      intros [[Ho|(n & Hn & _)]|?]; [done| |by right]. by apply list_elem_of_singleton in Hn.
    + unfold received. cbn. rewrite app_nil_r, Hm. destruct (Z.ltb_spec (Z.of_nat m) n) as [Hn|Hn].
      * split; [done| |done]. split; [|done]. intros _. left. right. exists n. split; [left|done].
      * split; [done| |by rewrite Hx]. rewrite Hx. split; [done|].
        intros [[Ho|(n' & Hn' & Hlt)]|?]; [done| |lia]. apply list_elem_of_singleton in Hn' as [= ->]. lia.
Qed.

Lemma received_snoc es e : received (es ++ [e]) = received es ++ received [e].
Proof. unfold received. by rewrite map_app, concat_app. Qed.

Lemma announced_snoc m es e : announced_too_long m (es ++ [e]) <-> announced_too_long m es \/ announced_too_long m [e].
Proof.
  unfold announced_too_long. split.
  - intros (n & Hin & Hn). apply elem_of_app in Hin as [?|?]; [left|right]; eauto.
  - intros [(n & Hin & Hn)|(n & Hin & Hn)]; exists n; rewrite elem_of_app; auto.
Qed.

Lemma collected_events m es :
  collected m (received es) (announced_too_long m es) (fold_left (fun b e => on_network e b) es (new_reply m)).
Proof.
  induction es as [|e es IH] using rev_ind.
  - split; [done| |done]. split; [done|]. intros [(n & Hn & _)|Hl]; [by apply elem_of_nil in Hn|cbn in Hl; lia].
  - rewrite fold_left_app. cbn [fold_left]. destruct (collected_step m _ _ _ e IH) as [C1 C2 C3]. rewrite received_snoc.
    split; [done| |done]. rewrite C2, announced_snoc. done.
Qed.

Lemma collect_spec m es : collected m (received es) (announced_too_long m es) (collect m es).
Proof.
  unfold collect, finish. set (b := fold_left _ es _). pose proof (collected_events m es) as Hc. fold b in Hc.
  assert (consume b = b) as -> by (destruct Hc as [_ _ C3]; destruct (exceeded_limit_ b) eqn:Hx;
    [by apply consume_exceeded|destruct C3 as (_ & C3 & _); unfold consume; by rewrite C3]).
  exact Hc.
Qed.

(** C39. The limit of a reply.  However the network cuts a reply into pieces and however
    much each read hands over: a reply that announces or has more bytes than the limit is
    reported as exceeding it, is aborted and leaves no body; every other reply ends with
    exactly the bytes that were received.  The loop that reads ends by itself, and at no
    time are more bytes kept than the limit. *)
Theorem bounded_reply_body m es :
  let b := collect m es in
  (exceeded_limit_ b = true <-> announced_too_long m es \/ (m < length (received es))%nat) /\
  (exceeded_limit_ b = true -> body_ b = [] /\ aborted b = true) /\
  (exceeded_limit_ b = false -> body_ b = received es /\ available b = [] /\ aborted b = false) /\
  (exceeded_limit_ b = true \/ available b = []) /\
  (forall es1 es2, es = es1 ++ es2 -> (length (body_ (fold_left (fun b e => on_network e b) es1 (new_reply m))) <= m)%nat).
Proof.
  cbn. set (b := collect m es). destruct (collect_spec m es) as [C1 C2 C3]. fold b in C1, C2, C3.
  split; [done|]. split; [intros Hx; by rewrite Hx in C3|]. split; [intros Hx; by rewrite Hx in C3|].
  split; [destruct (exceeded_limit_ b); [by left|by right; destruct C3 as (_ & ? & _)]|].
  intros es1 es2 _. clear b C1 C2 C3. pose proof (collected_events m es1) as Hc. set (b := fold_left _ es1 _) in *.
  destruct Hc as [D1 D2 D3]. destruct (exceeded_limit_ b) eqn:Hx.
  - destruct D3 as [-> _]. cbn. lia.
  - destruct D3 as [-> _]. apply Nat.nlt_ge. intros Hl. by assert (false = true) by (apply D2; auto).
Qed.
End collect.

(** A device that hands over all it may, and one that hands over single bytes. *)
Lemma eager_spec n a : (0 < n)%nat -> (0 < a)%nat -> (1 <= Nat.min n a)%nat /\ (Nat.min n a <= Nat.min n a)%nat.
Proof. lia. Qed.

Definition eager_device : NetworkDevice := {| chunk := Nat.min; chunk_spec := eager_spec |}.

Lemma slow_spec (n a : nat) : (0 < n)%nat -> (0 < a)%nat -> (1 <= 1)%nat /\ (1 <= Nat.min n a)%nat.
Proof. lia. Qed.

Definition slow_device : NetworkDevice := {| chunk _ _ := 1%nat; chunk_spec := slow_spec |}.

Example slow_reply : body_ (@collect slow_device 3 [Arrived [Byte.x01; Byte.x02]; Headers 3; Arrived [Byte.x03]]) = [Byte.x01; Byte.x02; Byte.x03].
Proof. vm_compute. done. Qed.

Lemma bounded_reply_body_witness :
  exceeded_limit_ (@collect eager_device 1 [Arrived [Byte.x01; Byte.x02]]) = true /\
  body_ (@collect slow_device 2 [Arrived [Byte.x01; Byte.x02]]) = [Byte.x01; Byte.x02].
Proof.
  split.
  - destruct (@bounded_reply_body eager_device 1 [Arrived [Byte.x01; Byte.x02]]) as (Hx & _). apply Hx. right. cbn. lia.
  - destruct (@bounded_reply_body slow_device 2 [Arrived [Byte.x01; Byte.x02]]) as (_ & _ & Hb & _). apply Hb. vm_compute. reflexivity.
Defined.
