(* ===== verification/Weather.v ===== *)
(** * Weather data, its list models and the provider's replies
    (src/weather/weather_types.h, weather_models.cpp, weather_provider.cpp)

    Qt's number and date formatting are parameters ([WeatherLibrary]). *)

From S2P Require Import Prelude.
From S2P Require Import Std.
From S2P Require Import Float64.
From S2P Require Import QtModel.
From S2P Require Import Json.

(** What the sources use of Qt's formatting and parsing. *)
Class WeatherLibrary := {
  format4 : double -> string;                   (* QString::arg(number, 0, 'f', 4) *)
  iso_date : Z -> string;                       (* QDateTime::toString(Qt::ISODate), in UTC *)
  from_iso_date : string -> option Z;           (* QDateTime::fromString(text, Qt::ISODate) *)
  short_time : Z -> string;                     (* QLocale().toString(time, ShortFormat) *)
  short_day : Z -> string;                      (* QLocale().dayName(1..7, ShortFormat) *)
  same_text : string -> string -> bool;         (* QString::compare(..., Qt::CaseInsensitive) == 0 *)
  without_query : string -> string;             (* QUrl(text) without query and fragment, as text *)
  text_to_double : string -> option double;     (* QString::toDouble(&ok) *)
  (* dates of the years 1970 to 9999 read back to the second *)
  iso_date_reads : forall t, 0 <= t < 253402300800000 -> from_iso_date (iso_date t) = Some (t / 1000 * 1000);
  iso_date_empty : from_iso_date ""%string = None }.

(** [toString(Qt::ISODate)]: empty for an invalid date. *)
Definition date_text `{WeatherLibrary} (t : QDateTime) : string := match t with Some ms => iso_date ms | None => "" end.

(** ** weather_types.h *)

Record Location := { city : string; country : string; latitude : double; longitude : double }.

Record CurrentConditions := {
  observedUtc : QDateTime; condition : string; cc_iconCode : string; temperatureCelsius : double;
  feelsLikeCelsius : double; highCelsius : double; lowCelsius : double; humidityPercent : double;
  pressureHpa : double; windSpeedKmh : double; windDegrees : double; cc_rainMillimetres : option double }.

Record HourlyForecast := {
  h_timestampUtc : QDateTime; h_iconCode : string; h_temperatureCelsius : double;
  h_precipitationProbabilityPercent : double; h_rainMillimetres : option double }.

Record DailyForecast := {
  d_timestampUtc : QDateTime; sunriseUtc : QDateTime; sunsetUtc : QDateTime; d_iconCode : string;
  minimumCelsius : double; maximumCelsius : double; averageCelsius : option double;
  d_precipitationProbabilityPercent : double; rainMillimetres : option double; snowMillimetres : option double }.

Record AirQuality := { aq_index : Z; category : string; pm25 : option double }.

Record Snapshot := {
  sn_provider : string; location : Location; timezone : string; timezoneOffsetSeconds : Z; fetchedUtc : QDateTime;
  current : CurrentConditions; hourly : list HourlyForecast; daily : list DailyForecast;
  airQuality : option AirQuality; sn_sunsetUtc : QDateTime; todayRainProbabilityPercent : double;
  todayPrecipitationKind : string; todayPrecipitationProbabilityPercent : double }.

#[export] Instance Location_eq_dec : EqDecision Location. Proof. solve_decision. Defined.
#[export] Instance CurrentConditions_eq_dec : EqDecision CurrentConditions. Proof. solve_decision. Defined.
#[export] Instance HourlyForecast_eq_dec : EqDecision HourlyForecast. Proof. solve_decision. Defined.
#[export] Instance DailyForecast_eq_dec : EqDecision DailyForecast. Proof. solve_decision. Defined.
#[export] Instance AirQuality_eq_dec : EqDecision AirQuality. Proof. solve_decision. Defined.
#[export] Instance Snapshot_eq_dec : EqDecision Snapshot. Proof. solve_decision. Defined.

Definition no_location : Location := {| city := ""; country := ""; latitude := d0; longitude := d0 |}.

Definition no_conditions : CurrentConditions :=
  {| observedUtc := None; condition := ""; cc_iconCode := ""; temperatureCelsius := d0; feelsLikeCelsius := d0;
     highCelsius := d0; lowCelsius := d0; humidityPercent := d0; pressureHpa := d0; windSpeedKmh := d0;
     windDegrees := d0; cc_rainMillimetres := None |}.

(** [Snapshot{}] *)
Definition no_snapshot : Snapshot :=
  {| sn_provider := ""; location := no_location; timezone := ""; timezoneOffsetSeconds := 0; fetchedUtc := None;
     current := no_conditions; hourly := []; daily := []; airQuality := None; sn_sunsetUtc := None;
     todayRainProbabilityPercent := d0; todayPrecipitationKind := "none"; todayPrecipitationProbabilityPercent := d0 |}.

(** [Location::cacheKey] *)
Definition cacheKey `{WeatherLibrary} (l : Location) : string := format4 (latitude l) ++ "," ++ format4 (longitude l).

(** ** weather_models.cpp *)

Inductive hourly_role :=
| H_Timestamp | H_LocalHour | H_IconCode | H_Temperature | H_Precipitation | H_TrendPosition
| H_PreviousTrendPosition | H_Other.

Record HourlyForecastModel := {
  hm_rows : list HourlyForecast; hm_timezoneOffsetSeconds : Z; minimumTemperature : double; maximumTemperature : double }.

(** [std::ranges::minmax_element]: the first smallest and the last largest. *)
Definition minmax (x : double) (xs : list double) : double * double :=
  fold_left (fun '(lo, hi) y => ((if dltb y lo then y else lo), (if negb (dltb y hi) then y else hi))) xs (x, x).

(** [replace]: the model is reset. *)
Definition hourly_replace (rows : list HourlyForecast) (offset : Z) (m : HourlyForecastModel) : HourlyForecastModel :=
  let rows8 := take 8 rows in
  let '(lo, hi) := match rows8 with
                   | [] => (minimumTemperature m, maximumTemperature m)
                   | r :: rest => minmax (h_temperatureCelsius r) (map h_temperatureCelsius rest)
                   end in
  {| hm_rows := rows8; hm_timezoneOffsetSeconds := offset; minimumTemperature := lo; maximumTemperature := hi |}.

Definition trend_position (m : HourlyForecastModel) (t : double) : double :=
  if deqb (maximumTemperature m) (minimumTemperature m) then S754_finite false 4503599627370496 (-53)
  else ddiv (dsub t (minimumTemperature m)) (dsub (maximumTemperature m) (minimumTemperature m)).

Definition of_date (t : QDateTime) : QVariant := match t with Some ms => OfDateTime ms | None => Invalid end.

(** A number below 100 in at least two digits. *)
Definition two_digits (n : Z) : string :=
  String (char_of (48 + n / 10)) (String (char_of (48 + n mod 10)) EmptyString).

Definition hourly_data (m : HourlyForecastModel) (index : nat) (role : hourly_role) : QVariant :=
  match hm_rows m !! index with
  | None => Invalid
  | Some row =>
      match role with
      | H_Timestamp => of_date (h_timestampUtc row)
      | H_LocalHour => match addSecs (h_timestampUtc row) (hm_timezoneOffsetSeconds m) with
                       | Some ms => OfText (two_digits (hour_of ms))
                       | None => OfText "-1"
                       end
      | H_IconCode => OfText (h_iconCode row)
      | H_Temperature => OfDouble (h_temperatureCelsius row)
      | H_Precipitation => OfDouble (h_precipitationProbabilityPercent row)
      | H_TrendPosition => OfDouble (trend_position m (h_temperatureCelsius row))
      | H_PreviousTrendPosition =>
          match index with
          | O => OfDouble (S754_finite false 4503599627370496 (-53))
          | S i => match hm_rows m !! i with
                   | Some previous => OfDouble (trend_position m (h_temperatureCelsius previous))
                   | None => Invalid
                   end
          end
      | H_Other => Invalid
      end
  end.

Inductive daily_role :=
| D_Timestamp | D_Weekday | D_IconCode | D_Minimum | D_Maximum | D_Average | D_Precipitation | D_Other.

Record DailyForecastModel := { dm_rows : list DailyForecast; dm_timezoneOffsetSeconds : Z }.

Definition daily_replace (rows : list DailyForecast) (offset : Z) : DailyForecastModel :=
  {| dm_rows := take 5 rows; dm_timezoneOffsetSeconds := offset |}.

(** The day of the week, Monday being 1. *)
Definition day_of_week (ms : Z) : Z := (date_of ms + 3) mod 7 + 1.

Definition daily_data `{WeatherLibrary} (m : DailyForecastModel) (index : nat) (role : daily_role) : QVariant :=
  match dm_rows m !! index with
  | None => Invalid
  | Some row =>
      match role with
      | D_Timestamp => of_date (d_timestampUtc row)
      | D_Weekday => match addSecs (d_timestampUtc row) (dm_timezoneOffsetSeconds m) with
                     | Some ms => OfText (short_day (day_of_week ms))
                     | None => OfText ""
                     end
      | D_IconCode => OfText (d_iconCode row)
      | D_Minimum => OfDouble (minimumCelsius row)
      | D_Maximum => OfDouble (maximumCelsius row)
      | D_Average => optionalDouble (averageCelsius row)
      | D_Precipitation => OfDouble (d_precipitationProbabilityPercent row)
      | D_Other => Invalid
      end
  end.

(** ** weather_provider.cpp *)

(** [None]: the exception a reply with a missing field raises. *)
Definition requiredNumber (object : json) (name : string) : option double :=
  match jvalue name object with JNumber d => Some d | _ => None end.

(** [static_cast<qint64>(seconds)] rounds towards zero; outside of [qint64] there is no date. *)
Definition truncated (d : double) : option Z :=
  match d with
  | S754_zero _ => Some 0
  | S754_finite s m e =>
      let n := if 0 <=? e then Zpos m * 2 ^ e else Zpos m / 2 ^ (- e) in
      if n <=? int64_max then Some (if s then - n else n) else None
  | _ => None
  end.

(** [QDateTime::fromSecsSinceEpoch] is invalid when the milliseconds do not fit 64 bits. *)
Definition timestamp (seconds : double) : QDateTime :=
  match truncated seconds with
  | Some s => if i64 (s * 1000) =? s * 1000 then Some (s * 1000) else None
  | None => None
  end.

Definition aqiCategory (index : Z) : string :=
  match index with
  | 1 => "Good" | 2 => "Fair" | 3 => "Moderate" | 4 => "Poor" | 5 => "Very poor" | _ => "Unavailable"
  end.

Definition optionalNumber (object : json) (name : string) : option double := requiredNumber object name.

Definition daypartAverage (temperatures : json) : option double :=
  let values := omap (optionalNumber temperatures) ["morn"; "day"; "eve"; "night"]%string in
  match values with
  | [] => None
  | _ => Some (ddiv (fold_left dadd values d0) (double_of_Z (Z.of_nat (length values))))
  end.

Definition positive (v : option double) : bool := dltb d0 (default d0 v).

Definition precipitationKind (day : json) (dailyProbability : double) : string :=
  let rain := positive (optionalNumber day "rain") in
  let snow := positive (optionalNumber day "snow") in
  if rain && snow then "mixed"
  else if rain then "rain"
  else if snow then "snow"
  else if dltb d0 dailyProbability then "other" else "none".

Definition d3_6 : double := S754_finite false 8106479329266893 (-51).
Definition d100 : double := double_of_Z 100.

(** [parseGeocoding] *)
Definition parseGeocoding (document : json) : option Location :=
  match jarray document with
  | [] => None
  | object :: _ =>
      lat ← requiredNumber object "lat";
      lon ← requiredNumber object "lon";
      Some {| city := jtext (jvalue "name" object); country := jtext (jvalue "country" object);
              latitude := lat; longitude := lon |}
  end.

Definition first_weather (object : json) : json := jat 0 (jarray (jvalue "weather" object)).

(** [x.value("pop").toDouble() * 100.0] *)
Definition pop_percent (object : json) : double := dmul (jdouble (jvalue "pop" object)) d100.

Definition parse_hourly (object : json) : option HourlyForecast :=
  dt ← requiredNumber object "dt";
  temp ← requiredNumber object "temp";
  Some {| h_timestampUtc := timestamp dt; h_iconCode := jtext (jvalue "icon" (first_weather object));
          h_temperatureCelsius := temp; h_precipitationProbabilityPercent := pop_percent object;
          h_rainMillimetres := None |}.

Definition parse_daily (object : json) : option DailyForecast :=
  let temperatures := jvalue "temp" object in
  dt ← requiredNumber object "dt";
  sunrise ← requiredNumber object "sunrise";
  sunset ← requiredNumber object "sunset";
  lo ← requiredNumber temperatures "min";
  hi ← requiredNumber temperatures "max";
  Some {| d_timestampUtc := timestamp dt; sunriseUtc := timestamp sunrise; sunsetUtc := timestamp sunset;
          d_iconCode := jtext (jvalue "icon" (first_weather object)); minimumCelsius := lo; maximumCelsius := hi;
          averageCelsius := daypartAverage temperatures; d_precipitationProbabilityPercent := pop_percent object;
          rainMillimetres := optionalNumber object "rain"; snowMillimetres := optionalNumber object "snow" |}.

(** [parseOneCall] at time [now]. *)
Definition parseOneCall (document : json) (loc : Location) (now : Z) : option Snapshot :=
  let cur := jvalue "current" document in
  let today := jat 0 (jarray (jvalue "daily" document)) in
  let todayTemp := jvalue "temp" today in
  dt ← requiredNumber cur "dt";
  temp ← requiredNumber cur "temp";
  feels ← requiredNumber cur "feels_like";
  humidity ← requiredNumber cur "humidity";
  pressure ← requiredNumber cur "pressure";
  speed ← requiredNumber cur "wind_speed";
  deg ← requiredNumber cur "wind_deg";
  hs ← mapM parse_hourly (jarray (jvalue "hourly" document));
  ds ← mapM parse_daily (jarray (jvalue "daily" document));
  let rain := pop_percent today in
  Some {| sn_provider := "openweather"; location := loc; timezone := jtext (jvalue "timezone" document);
          timezoneOffsetSeconds := jint 0 (jvalue "timezone_offset" document); fetchedUtc := Some now;
          current := {| observedUtc := timestamp dt;
                        condition := jtext (jvalue "description" (first_weather cur));
                        cc_iconCode := jtext (jvalue "icon" (first_weather cur)); temperatureCelsius := temp;
                        feelsLikeCelsius := feels; highCelsius := jdouble (jvalue "max" todayTemp);
                        lowCelsius := jdouble (jvalue "min" todayTemp); humidityPercent := humidity;
                        pressureHpa := pressure; windSpeedKmh := dmul speed d3_6; windDegrees := deg;
                        cc_rainMillimetres := None |};
          hourly := hs; daily := ds; airQuality := None;
          sn_sunsetUtc := timestamp (jdouble (jvalue "sunset" today)); todayRainProbabilityPercent := rain;
          todayPrecipitationKind := precipitationKind today rain; todayPrecipitationProbabilityPercent := d0 |}.

(** [parseAirQuality] *)
Definition parseAirQuality (document : json) : option AirQuality :=
  let entry := jat 0 (jarray (jvalue "list" document)) in
  let index := jint 0 (jvalue "aqi" (jvalue "main" entry)) in
  if (index <? 1) || (5 <? index) then None
  else Some {| aq_index := index; category := aqiCategory index;
               pm25 := Some (jdouble (jvalue "pm2_5" (jvalue "components" entry))) |}.

(** [toVariant().toDouble(&ok)]: a number, or a text that is one. *)
Definition variant_double `{WeatherLibrary} (v : json) : option double :=
  match v with
  | JNumber d => Some d
  | JText s => text_to_double s
  | JBool b => Some (if b then d1 else d0)
  | _ => None
  end.

(** [parseLocation] *)
Definition parseLocation `{WeatherLibrary} (document : json) : option Location :=
  lat ← variant_double (jvalue "latitude" document);
  lon ← variant_double (jvalue "longitude" document);
  if dltb lat (double_of_Z (-90)) || dltb (double_of_Z 90) lat || dltb lon (double_of_Z (-180))
     || dltb (double_of_Z 180) lon then None
  else Some {| city := jtext (jvalue "city" document); country := jtext (jvalue "country_code2" document);
               latitude := lat; longitude := lon |}.
