(* ===== verification/WeatherService.v ===== *)
(** * The weather service (src/weather/weather_service.cpp)

    [WeatherService] as handlers of what its providers and timers deliver.  Each handler
    gives the new state and what it does outside: the requests it makes of the providers,
    the signals it emits and the saving of the cache.  The clock is read where the code
    calls [currentUtc_]. *)

From S2P Require Import Prelude.
From S2P Require Import Std.
From S2P Require Import Float64.
From S2P Require DashboardConfig.
From S2P Require Import QtModel.
From S2P Require Import Json.
From S2P Require Import Weather.

Abbreviation WeatherConfig := DashboardConfig.WeatherConfig.
Abbreviation refreshIntervalSeconds := DashboardConfig.refreshIntervalSeconds.
Abbreviation locationMode := DashboardConfig.locationMode.

Definition kCacheStaleSeconds : Z := 1200.

Inductive Operation := NoOperation | ResolveLocation | RequestForecast.

#[export] Instance Operation_eq_dec : EqDecision Operation. Proof. solve_decision. Defined.

(** The fields that govern requests. *)
Record Flow := {
  refreshTimer : option Z;          (* the interval of the running refresh timer, milliseconds *)
  inFlight : bool;
  locationResolved : bool;
  authenticationStopped : bool;
  operation : Operation;
  failureCount : Z }.

(** The fields that are shown. *)
Record View := {
  snapshot : Snapshot;
  hourlyModel : HourlyForecastModel;
  dailyModel : DailyForecastModel;
  solarEventTimer : option Z;       (* the delay of the running timer, milliseconds *)
  localHourTimer : option Z;
  nextSolarEventUtc : QDateTime;
  nextSolarEventKind : string }.

Record WeatherService := {
  service_location : Location;
  flow : Flow;
  view : View;
  state : string;
  diagnostics : string;
  stale : bool }.

(** What a handler does outside of the service. *)
Inductive output :=
| changed
| solarEventChanged
| hourlyReset (m : HourlyForecastModel)   (* [modelReset] of a list model, with the model views then read *)
| dailyReset (m : DailyForecastModel)
| warning (text : string)
| requestForecast (l : Location)          (* weather_->request(location_) *)
| resolveCity (name : string)             (* geocoding_->resolve(config_->city) *)
| resolveAutomatic                        (* automatic_->resolve() *)
| saveCache (s : Snapshot).               (* the snapshot written to the cache file *)

(** The successive readings of the clock in a handler. *)
Record clock := { at_precipitation : Z; at_hour : Z; at_solar : Z }.

(** ** Diagnostics *)

Definition starts_at_url (s : string) : option nat :=
  if starts_with "http://" s then Some 7%nat else if starts_with "https://" s then Some 8%nat else None.

(** [https?://[^\s]+] from the front: the length of the match. *)
Definition url_length (s : string) : option nat :=
  n ← starts_at_url s;
  let rest := str_drop n s in
  let k := match find_if isspace rest with Some k => k | None => String.length rest end in
  if (0 <? k)%nat then Some (n + k)%nat else None.

(** The loop of [sanitizedDiagnostic]: each step passes a character or a match. *)
Fixpoint sanitize (strip : string -> string) (fuel : nat) (s : string) : string :=
  match fuel, s with
  | O, _ | _, EmptyString => s
  | S f, String c rest =>
      match url_length s with
      | Some n => (strip (str_take n s) ++ sanitize strip f (str_drop n s))%string
      | None => String c (sanitize strip f rest)
      end
  end.

Section service.
Context `{WeatherLibrary}.

Definition sanitizedDiagnostic (diagnostic : string) : string :=
  sanitize without_query (S (String.length diagnostic)) diagnostic.

(** [^(01|02|03|04|09|10|11|13|50)[dn]$]: the dollar also matches before a final line feed. *)
Definition isSupportedIconCode (code : string) : bool :=
  let c := match String.length code with
           | 4%nat => if ends_with (String newline EmptyString) code then str_take 3 code else code
           | _ => code
           end in
  existsb (String.eqb c)
    (concat (map (fun n => [n ++ "d"; n ++ "n"]) ["01"; "02"; "03"; "04"; "09"; "10"; "11"; "13"; "50"]))%string.

(** ** The view *)

Definition with_snapshot (s : Snapshot) (v : View) : View :=
  {| snapshot := s; hourlyModel := hourlyModel v; dailyModel := dailyModel v; solarEventTimer := solarEventTimer v;
     localHourTimer := localHourTimer v; nextSolarEventUtc := nextSolarEventUtc v;
     nextSolarEventKind := nextSolarEventKind v |}.

Definition with_today (p : double) (s : Snapshot) : Snapshot :=
  {| sn_provider := sn_provider s; location := location s; timezone := timezone s;
     timezoneOffsetSeconds := timezoneOffsetSeconds s; fetchedUtc := fetchedUtc s; current := current s;
     hourly := hourly s; daily := daily s; airQuality := airQuality s; sn_sunsetUtc := sn_sunsetUtc s;
     todayRainProbabilityPercent := p; todayPrecipitationKind := todayPrecipitationKind s;
     todayPrecipitationProbabilityPercent := p |}.

(** The hourly rows of the rest of the local day. *)
Definition rest_of_day (offset now : Z) (row : HourlyForecast) : bool :=
  let localNow := now + offset * 1000 in
  match h_timestampUtc row with
  | None => false
  | Some t =>
      let localTimestamp := t + offset * 1000 in
      (date_of localTimestamp =? date_of localNow) && (hour_of localNow <=? hour_of localTimestamp)
  end.

(** The loop of [updateTodayPrecipitationProbability]. *)
Definition today_maximum (s : Snapshot) (now : Z) : double :=
  fold_left (fun maximum row =>
    if rest_of_day (timezoneOffsetSeconds s) now row then dmax maximum (h_precipitationProbabilityPercent row)
    else maximum) (hourly s) d0.

Definition updateTodayPrecipitationProbability (now : Z) (v : View) : View :=
  with_snapshot (with_today (today_maximum (snapshot v) now) (snapshot v)) v.

Definition clamp_int (z : Z) : Z := Z.min (Z.max 1 z) int32_max.

(** [scheduleLocalHourBoundary] *)
Definition hour_delay (offset now : Z) : Z :=
  let localNow := now + offset * 1000 in
  let nextLocalHour := date_of localNow * 86400000 + hour_of localNow * 3600000 in
  clamp_int (nextLocalHour + 3600 * 1000 - localNow + 1).

Definition scheduleLocalHourBoundary (now : Z) (v : View) : View :=
  {| snapshot := snapshot v; hourlyModel := hourlyModel v; dailyModel := dailyModel v;
     solarEventTimer := solarEventTimer v;
     localHourTimer := match fetchedUtc (snapshot v) with
                       | None => None
                       | Some _ => Some (hour_delay (timezoneOffsetSeconds (snapshot v)) now)
                       end;
     nextSolarEventUtc := nextSolarEventUtc v; nextSolarEventKind := nextSolarEventKind v |}.

Definition solar_events (s : Snapshot) : list (QDateTime * string) :=
  concat (map (fun day => [(sunriseUtc day, "sunrise"%string); (sunsetUtc day, "sunset"%string)]) (daily s)).

(** The loops of [updateNextSolarEvent]: the first of the earliest events after [now]. *)
Definition select_event (now : Z) (events : list (QDateTime * string)) : option (Z * string) :=
  fold_left (fun selected e =>
    match e with
    | (Some t, kind) =>
        if (now <? t) && match selected with Some (best, _) => t <? best | None => true end
        then Some (t, kind) else selected
    | (None, _) => selected
    end) events None.

Definition event_of_icon (icon : string) : string :=
  let iconCode := if isSupportedIconCode icon then icon else "03d"%string in
  if ends_with "n" iconCode then "sunrise" else "sunset".

Definition updateNextSolarEvent (now : Z) (v : View) : View * list output :=
  let s := snapshot v in
  let '(utc, kind, timer) :=
    match select_event now (solar_events s) with
    | Some (t, kind) => (Some t, kind, Some (clamp_int (t - now + 1)))
    | None => (None, event_of_icon (cc_iconCode (current s)), None)
    end in
  ({| snapshot := s; hourlyModel := hourlyModel v; dailyModel := dailyModel v; solarEventTimer := timer;
      localHourTimer := localHourTimer v; nextSolarEventUtc := utc; nextSolarEventKind := kind |},
   if negb (bool_decide (utc = nextSolarEventUtc v)) || negb (String.eqb kind (nextSolarEventKind v))
   then [solarEventChanged] else []).

(** [hourlyModel_.replace(rows, offset)] and [dailyModel_.replace(rows, offset)]. *)
Definition replace_models (hs : list HourlyForecast) (ds : list DailyForecast) (offset : Z) (v : View) : View :=
  {| snapshot := snapshot v; hourlyModel := hourly_replace hs offset (hourlyModel v);
     dailyModel := daily_replace ds offset; solarEventTimer := solarEventTimer v;
     localHourTimer := localHourTimer v; nextSolarEventUtc := nextSolarEventUtc v;
     nextSolarEventKind := nextSolarEventKind v |}.

(** Both are reset, and the next event is found again. *)
Definition renew_models (now : Z) (hs : list HourlyForecast) (ds : list DailyForecast) (offset : Z) (v : View)
  : View * list output :=
  let v := replace_models hs ds offset v in
  let r := updateNextSolarEvent now v in
  (r.1, hourlyReset (hourlyModel v) :: dailyReset (dailyModel v) :: r.2).

(** A new snapshot, as [publish] and [loadCache] show it. *)
Definition show (c : clock) (s : Snapshot) (v : View) : View * list output :=
  let v := updateTodayPrecipitationProbability (at_precipitation c) (with_snapshot s v) in
  let v := scheduleLocalHourBoundary (at_hour c) v in
  renew_models (at_solar c) (hourly s) (daily s) (timezoneOffsetSeconds s) v.

(** ** Requests *)

Section configured.
Context (config : WeatherConfig).

(** [startOperation(manual)] *)
Definition startOperation (manual : bool) (s : WeatherService) : WeatherService * list output :=
  let f := flow s in
  if inFlight f then (s, [])
  else if negb manual && authenticationStopped f then (s, [])
  else
    let op := if locationResolved f then RequestForecast else ResolveLocation in
    let f' := {| refreshTimer := if manual then None else refreshTimer f; inFlight := true;
                 locationResolved := locationResolved f;
                 authenticationStopped := if manual then false else authenticationStopped f;
                 operation := op; failureCount := failureCount f |} in
    ({| service_location := service_location s; flow := f'; view := view s;
        state := if locationResolved f then "loading" else "locating"; diagnostics := "";
        stale := if bool_decide (is_Some (fetchedUtc (snapshot (view s)))) then true else stale s |},
     [changed;
      match op with
      | RequestForecast => requestForecast (service_location s)
      | _ => match locationMode config with
             | DashboardConfig.City => resolveCity (DashboardConfig.city config)
             | _ => resolveAutomatic
             end
      end]).

Definition refresh (s : WeatherService) : WeatherService * list output := startOperation true s.

(** The refresh timer, a single-shot one, fires. *)
Definition refresh_timer_fires (s : WeatherService) : WeatherService * list output :=
  let f := flow s in
  startOperation false
    {| service_location := service_location s;
       flow := {| refreshTimer := None; inFlight := inFlight f; locationResolved := locationResolved f;
                  authenticationStopped := authenticationStopped f; operation := operation f;
                  failureCount := failureCount f |};
       view := view s; state := state s; diagnostics := diagnostics s; stale := stale s |}.

(** [setLocation] *)
Definition setLocation (now : Z) (loc : Location) (s : WeatherService) : WeatherService * list output :=
  let f := flow s in
  let f' := {| refreshTimer := refreshTimer f; inFlight := false; locationResolved := true;
               authenticationStopped := authenticationStopped f; operation := NoOperation;
               failureCount := failureCount f |} in
  let v := view s in
  let moved := bool_decide (is_Some (fetchedUtc (snapshot v)))
               && negb (String.eqb (cacheKey (location (snapshot v))) (cacheKey loc)) in
  let '(v', out) :=
    if moved then renew_models now [] [] 0 (with_snapshot no_snapshot v) else (v, []) in
  let '(s', out') :=
    startOperation false
      {| service_location := loc; flow := f'; view := v'; state := state s; diagnostics := diagnostics s;
         stale := if moved then false else stale s |} in
  (s', out ++ out').

(** [publish] *)
Definition with_air_and_kind (a : option AirQuality) (kind : string) (s : Snapshot) : Snapshot :=
  {| sn_provider := sn_provider s; location := location s; timezone := timezone s;
     timezoneOffsetSeconds := timezoneOffsetSeconds s; fetchedUtc := fetchedUtc s; current := current s;
     hourly := hourly s; daily := daily s; airQuality := a; sn_sunsetUtc := sn_sunsetUtc s;
     todayRainProbabilityPercent := todayRainProbabilityPercent s; todayPrecipitationKind := kind;
     todayPrecipitationProbabilityPercent := todayPrecipitationProbabilityPercent s |}.

Definition cache_output (s : Snapshot) : list output :=
  match fetchedUtc s with Some _ => [saveCache s] | None => [] end.

Definition publish (c : clock) (new : Snapshot) (s : WeatherService) : WeatherService * list output :=
  let old := snapshot (view s) in
  let kind := if String.eqb (todayPrecipitationKind new) "" then "none"%string else todayPrecipitationKind new in
  let air := match airQuality new with
             | None => if String.eqb (cacheKey (location old)) (cacheKey (location new)) then airQuality old else None
             | Some a => Some a
             end in
  let '(v, out) := show c (with_air_and_kind air kind new) (view s) in
  let f := flow s in
  ({| service_location := service_location s;
      flow := {| refreshTimer := Some (i32 (refreshIntervalSeconds config * 1000)); inFlight := false;
                 locationResolved := locationResolved f; authenticationStopped := authenticationStopped f;
                 operation := NoOperation; failureCount := 0 |};
      view := v; state := "ready"; diagnostics := ""; stale := false |},
   out ++ cache_output (snapshot v) ++ [changed]).

(** The delay before the next try, in milliseconds; [count] is [failureCount_] after the increment. *)
Definition retry_backoff (count : Z) : Z :=
  Z.min (refreshIntervalSeconds config) (30 * Z.shiftl 1 (Z.min (count - 1) 5)).

Definition retry_delay (count retryAfterSeconds : Z) : Z :=
  i32 (Z.max (retry_backoff count) retryAfterSeconds * 1000).

(** [fail] *)
Definition fail (diagnostic : string) (authenticationFailure : bool) (retryAfterSeconds : Z) (s : WeatherService)
  : WeatherService * list output :=
  let f := flow s in
  let text := sanitizedDiagnostic diagnostic in
  let count := i32 (failureCount f + 1) in
  ({| service_location := service_location s;
      flow := {| refreshTimer := if authenticationFailure then refreshTimer f
                                 else Some (retry_delay count retryAfterSeconds);
                 inFlight := false; locationResolved := locationResolved f;
                 authenticationStopped := authenticationFailure; operation := NoOperation;
                 failureCount := if authenticationFailure then failureCount f else count |};
      view := view s; state := "error"; diagnostics := text;
      stale := bool_decide (is_Some (fetchedUtc (snapshot (view s)))) |},
   [warning text; changed]).

(** The slots of [airQualityReady] and [airQualityFailed]. *)
Definition air_quality_ready (a : AirQuality) (s : WeatherService) : WeatherService * list output :=
  let old := snapshot (view s) in
  let new := with_air_and_kind (Some a) (todayPrecipitationKind old) old in
  ({| service_location := service_location s; flow := flow s; view := with_snapshot new (view s); state := state s;
      diagnostics := diagnostics s; stale := stale s |}, changed :: cache_output new).

Definition air_quality_failed (diagnostic : string) (s : WeatherService) : WeatherService * list output :=
  let text := sanitizedDiagnostic diagnostic in
  ({| service_location := service_location s; flow := flow s; view := view s; state := state s;
      diagnostics := text; stale := stale s |}, [warning text; changed]).

Definition with_view (v : View) (s : WeatherService) : WeatherService :=
  {| service_location := service_location s; flow := flow s; view := v; state := state s;
     diagnostics := diagnostics s; stale := stale s |}.

(** The two other timers. *)
Definition solar_timer_fires (now : Z) (s : WeatherService) : WeatherService * list output :=
  let '(v, out) := updateNextSolarEvent now (view s) in (with_view v s, out).

Definition hour_timer_fires (c : clock) (s : WeatherService) : WeatherService * list output :=
  let previous := todayPrecipitationProbabilityPercent (snapshot (view s)) in
  let v := scheduleLocalHourBoundary (at_hour c) (updateTodayPrecipitationProbability (at_precipitation c) (view s)) in
  (with_view v s,
   if negb (deqb (todayPrecipitationProbabilityPercent (snapshot v)) previous) then [changed] else []).
End configured.

(** ** What QML reads *)

(** [std::lround]: half-way cases away from zero. *)
Definition lround (d : double) : option Z :=
  match d with
  | S754_zero _ => Some 0
  | S754_finite s m e =>
      let n := if 0 <=? e then Zpos m * 2 ^ e else (Zpos m + 2 ^ (- e - 1)) / 2 ^ (- e) in
      Some (if s then - n else n)
  | _ => None
  end.

Definition wind_points : list string := ["N"; "NE"; "E"; "SE"; "S"; "SW"; "W"; "NW"]%string.

Definition d45 : double := double_of_Z 45.

(** [None]: [points.at] is called out of range. *)
Definition windDirection (s : WeatherService) : option string :=
  n ← lround (ddiv (windDegrees (current (snapshot (view s)))) d45);
  let index := Z.rem (i32 n) 8 in
  if index <? 0 then None else wind_points !! Z.to_nat index.

Definition localSunset (s : WeatherService) : string :=
  match addSecs (sn_sunsetUtc (snapshot (view s))) (timezoneOffsetSeconds (snapshot (view s))) with
  | Some ms => short_time ms
  | None => ""
  end.

Definition localNextSolarEventTime (s : WeatherService) : string :=
  match addSecs (nextSolarEventUtc (view s)) (timezoneOffsetSeconds (snapshot (view s))) with
  | Some ms => short_time ms
  | None => ""
  end.
End service.
