(* ===== verification/WeatherCache.v ===== *)
(** * The weather cache and the start of the service (src/weather/weather_service.cpp)

    [saveCache], [loadCache] and [initialize]. *)

From S2P Require Import Prelude.
From S2P Require Import Std.
From S2P Require Import Float64.
From S2P Require DashboardConfig.
From S2P Require Import QtModel.
From S2P Require Import Json.
From S2P Require Import Weather.
From S2P Require Import WeatherService.

Section cache.
Context `{WeatherLibrary} `{JsonLibrary}.

(** ** saveCache *)

Definition locationJson (l : Location) : json :=
  jobject_of [("city", JText (city l)); ("country", JText (country l)); ("latitude", JNumber (latitude l));
              ("longitude", JNumber (longitude l))]%string.

Definition currentJson (c : CurrentConditions) : json :=
  jobject_of [("condition", JText (condition c)); ("icon", JText (cc_iconCode c));
              ("temperature", JNumber (temperatureCelsius c)); ("feelsLike", JNumber (feelsLikeCelsius c));
              ("high", JNumber (highCelsius c)); ("low", JNumber (lowCelsius c));
              ("humidity", JNumber (humidityPercent c)); ("windSpeed", JNumber (windSpeedKmh c));
              ("windDegrees", JNumber (windDegrees c))]%string.

Definition hourlyJson (row : HourlyForecast) : json :=
  jobject_of [("timestamp", JText (date_text (h_timestampUtc row))); ("icon", JText (h_iconCode row));
              ("temperature", JNumber (h_temperatureCelsius row));
              ("precipitation", JNumber (h_precipitationProbabilityPercent row))]%string.

Definition optionalJson (v : option double) : json := match v with Some d => JNumber d | None => JNull end.

Definition dailyJson (row : DailyForecast) : json :=
  jobject_of [("timestamp", JText (date_text (d_timestampUtc row))); ("sunrise", JText (date_text (sunriseUtc row)));
              ("sunset", JText (date_text (sunsetUtc row))); ("icon", JText (d_iconCode row));
              ("minimum", JNumber (minimumCelsius row)); ("maximum", JNumber (maximumCelsius row));
              ("precipitation", JNumber (d_precipitationProbabilityPercent row));
              ("average", optionalJson (averageCelsius row)); ("rain", optionalJson (rainMillimetres row));
              ("snow", optionalJson (snowMillimetres row))]%string.

Definition airJson (a : AirQuality) : json :=
  jobject_of [("index", of_int (aq_index a)); ("category", JText (category a))]%string.

Definition cacheJson (s : Snapshot) : json :=
  jobject_of
    ([("schemaVersion", of_int 1); ("provider", JText (sn_provider s)); ("location", locationJson (location s));
      ("timezoneOffset", of_int (timezoneOffsetSeconds s)); ("fetched", JText (date_text (fetchedUtc s)));
      ("sunset", JText (date_text (sn_sunsetUtc s))); ("precipitationKind", JText (todayPrecipitationKind s));
      ("current", currentJson (current s)); ("hourly", JArray (map hourlyJson (hourly s)));
      ("daily", JArray (map dailyJson (take 5 (daily s))))]%string
     ++ match airQuality s with Some a => [("airQuality"%string, airJson a)] | None => [] end).

(** The contents of the file after [saveCache]; [saved]: the [QSaveFile] opened and committed. *)
Definition saveCache (saved : bool) (s : Snapshot) (file : option json_file) : option json_file :=
  match fetchedUtc s with
  | None => file
  | Some _ => if saved then Some (to_json (cacheJson s)) else file
  end.

(** ** loadCache *)

Definition jsonLocation (object : json) : Location :=
  {| city := jtext (jvalue "city" object); country := jtext (jvalue "country" object);
     latitude := jdouble (jvalue "latitude" object); longitude := jdouble (jvalue "longitude" object) |}.

Definition validNumber (object : json) (key : string) : bool :=
  match jvalue key object with JNumber d => isfinite d | _ => false end.

(** [d < lo || d > hi] *)
Definition outside (lo hi : Z) (d : double) : bool := dltb d (double_of_Z lo) || dltb (double_of_Z hi) d.

Definition read_date (v : json) : QDateTime := from_iso_date (jtext v).

Definition optionalDoubleOf (v : json) : option double := match v with JNumber d => Some d | _ => None end.

Definition read_current (c : json) : option CurrentConditions :=
  if negb (forallb (validNumber c)
             ["temperature"; "feelsLike"; "high"; "low"; "humidity"; "windSpeed"; "windDegrees"]%string) then None
  else if outside 0 100 (jdouble (jvalue "humidity" c)) || dltb (jdouble (jvalue "windSpeed" c)) d0 then None
  else Some {| observedUtc := None; condition := jtext (jvalue "condition" c); cc_iconCode := jtext (jvalue "icon" c);
               temperatureCelsius := jdouble (jvalue "temperature" c); feelsLikeCelsius := jdouble (jvalue "feelsLike" c);
               highCelsius := jdouble (jvalue "high" c); lowCelsius := jdouble (jvalue "low" c);
               humidityPercent := jdouble (jvalue "humidity" c); pressureHpa := d0;
               windSpeedKmh := jdouble (jvalue "windSpeed" c); windDegrees := jdouble (jvalue "windDegrees" c);
               cc_rainMillimetres := None |}.

Definition read_hourly (row : json) : option HourlyForecast :=
  if negb (is_jobject row) then None
  else
    t ← read_date (jvalue "timestamp" row);
    if negb (validNumber row "temperature") || negb (validNumber row "precipitation")
       || outside 0 100 (jdouble (jvalue "precipitation" row)) then None
    else Some {| h_timestampUtc := Some t; h_iconCode := jtext (jvalue "icon" row);
                 h_temperatureCelsius := jdouble (jvalue "temperature" row);
                 h_precipitationProbabilityPercent := jdouble (jvalue "precipitation" row);
                 h_rainMillimetres := None |}.

Definition read_daily (row : json) : option DailyForecast :=
  if negb (is_jobject row) then None
  else
    t ← read_date (jvalue "timestamp" row);
    if negb (validNumber row "minimum") || negb (validNumber row "maximum") || negb (validNumber row "precipitation")
       || outside 0 100 (jdouble (jvalue "precipitation" row)) then None
    else Some {| d_timestampUtc := Some t; sunriseUtc := read_date (jvalue "sunrise" row);
                 sunsetUtc := read_date (jvalue "sunset" row); d_iconCode := jtext (jvalue "icon" row);
                 minimumCelsius := jdouble (jvalue "minimum" row); maximumCelsius := jdouble (jvalue "maximum" row);
                 averageCelsius := optionalDoubleOf (jvalue "average" row);
                 d_precipitationProbabilityPercent := jdouble (jvalue "precipitation" row);
                 rainMillimetres := optionalDoubleOf (jvalue "rain" row);
                 snowMillimetres := optionalDoubleOf (jvalue "snow" row) |}.

Definition read_air (air : json) : option AirQuality :=
  match jobject air with
  | [] => None
  | _ => Some {| aq_index := jint 0 (jvalue "index" air); category := jtext (jvalue "category" air); pm25 := None |}
  end.

(** [config_->city.section(',', 0, 0)] *)
Definition first_section (s : string) : string := match find_char "," s with Some n => str_take n s | None => s end.

(** Is the cached location the configured one? *)
Definition location_matches (config : WeatherConfig) (cached : Location) : bool :=
  match locationMode config with
  | DashboardConfig.Coordinates =>
      String.eqb (cacheKey cached)
        (cacheKey {| city := ""; country := ""; latitude := DashboardConfig.latitude config;
                     longitude := DashboardConfig.longitude config |})
  | DashboardConfig.City => same_text (city cached) (first_section (DashboardConfig.city config))
  | DashboardConfig.Automatic => true
  end.

(** The snapshot a document holds for a configuration; [None]: it is ignored. *)
Definition read_cache (config : WeatherConfig) (root : json) : option Snapshot :=
  if negb (is_jobject root) then None
  else if negb (jint (-1) (jvalue "schemaVersion" root) =? 1) || negb (is_jobject (jvalue "location" root))
          || negb (is_jobject (jvalue "current" root)) || negb (is_jarray (jvalue "hourly" root))
          || negb (is_jarray (jvalue "daily" root)) || (64 <? length (jarray (jvalue "hourly" root)))%nat
          || (16 <? length (jarray (jvalue "daily" root)))%nat then None
  else if negb (String.eqb (jtext (jvalue "provider" root)) (DashboardConfig.provider config)) then None
  else
    let loc := jsonLocation (jvalue "location" root) in
    fetched ← read_date (jvalue "fetched" root);
    if negb (isfinite (latitude loc)) || outside (-90) 90 (latitude loc) || negb (isfinite (longitude loc))
       || outside (-180) 180 (longitude loc) then None
    else if negb (location_matches config loc) then None
    else
      cur ← read_current (jvalue "current" root);
      hs ← mapM read_hourly (jarray (jvalue "hourly" root));
      ds ← mapM read_daily (jarray (jvalue "daily" root));
      let kind := jtext (jvalue "precipitationKind" root) in
      Some {| sn_provider := DashboardConfig.provider config; location := loc; timezone := "";
              timezoneOffsetSeconds := jint 0 (jvalue "timezoneOffset" root); fetchedUtc := Some fetched;
              current := cur; hourly := hs; daily := ds; airQuality := read_air (jvalue "airQuality" root);
              sn_sunsetUtc := read_date (jvalue "sunset" root); todayRainProbabilityPercent := d0;
              todayPrecipitationKind := if String.eqb kind "" then "none" else kind;
              todayPrecipitationProbabilityPercent := d0 |}.

(** [loadCache]; [at_age] is the clock when the age is computed, [secsTo] rounds towards zero. *)
Definition loadCache (config : WeatherConfig) (c : clock) (at_age : Z) (file : option json_file) (s : WeatherService)
  : WeatherService * list output :=
  match f ← file; root ← from_json f; read_cache config root with
  | None => (s, [])
  | Some cached =>
      let '(v, out) := show c cached (view s) in
      ({| service_location := service_location s; flow := flow s; view := v; state := "ready";
          diagnostics := diagnostics s;
          stale := match fetchedUtc cached with
                   | Some t => kCacheStaleSeconds <? Z.quot (at_age - t) 1000
                   | None => false
                   end |}, out)
  end.

(** ** initialize *)

Definition new_view : View :=
  {| snapshot := no_snapshot;
     hourlyModel := {| hm_rows := []; hm_timezoneOffsetSeconds := 0; minimumTemperature := d0; maximumTemperature := d0 |};
     dailyModel := {| dm_rows := []; dm_timezoneOffsetSeconds := 0 |}; solarEventTimer := None; localHourTimer := None;
     nextSolarEventUtc := None; nextSolarEventKind := "" |}.

Definition new_service (diagnostic : string) : WeatherService :=
  {| service_location := no_location;
     flow := {| refreshTimer := None; inFlight := false; locationResolved := false; authenticationStopped := false;
                operation := NoOperation; failureCount := 0 |};
     view := new_view; state := "unconfigured"; diagnostics := diagnostic; stale := false |}.

(** The diagnostic of the constructor that takes the credentials. *)
Definition credential_diagnostic (config : WeatherConfig) (openWeatherKey ipGeolocationKey : list byte) : string :=
  match locationMode config, ipGeolocationKey, openWeatherKey with
  | DashboardConfig.Automatic, [], _ => "Automatic location credential is unavailable"
  | _, _, [] => "OpenWeather credential is unavailable"
  | _, _, _ => ""
  end.

(** [initialize] with the diagnostic the constructor set. *)
Definition initialize (config : option WeatherConfig) (diagnostic : string) (c : clock) (at_age : Z)
    (file : option json_file) : WeatherService * list output :=
  match config with
  | None => (new_service diagnostic, [])
  | Some cfg =>
      let '(s1, out1) := loadCache cfg c at_age file (new_service diagnostic) in
      if negb (String.eqb (diagnostics s1) "")
      then ({| service_location := service_location s1; flow := flow s1; view := view s1; state := "error";
               diagnostics := diagnostics s1; stale := stale s1 |}, out1 ++ [changed])
      else
        let '(s2, out2) :=
          match locationMode cfg with
          | DashboardConfig.Coordinates =>
              setLocation cfg (at_solar c)
                {| city := ""; country := ""; latitude := DashboardConfig.latitude cfg;
                   longitude := DashboardConfig.longitude cfg |} s1
          | _ => startOperation cfg false s1
          end in
        (s2, out1 ++ out2 ++ [changed])
  end.
End cache.
