(* ===== verification/WeatherSample.v ===== *)
(** * A weather service on concrete inputs

    Instances of the library interfaces that satisfy their laws, a configuration and a
    snapshot, on which the theorems about the service are applied. *)

From Stdlib Require Import DecimalString DecimalZ.
From S2P Require Import Prelude.
From S2P Require Import Std.
From S2P Require Import Float64.
From S2P Require DashboardConfig.
From S2P Require Import QtModel.
From S2P Require Import Json.
From S2P Require Import Weather.
From S2P Require Import WeatherService.
From S2P Require Import WeatherCache.

(** Numbers as decimal text. *)
Definition decimal (z : Z) : string := NilEmpty.string_of_int (Z.to_int z).
Definition of_decimal (s : string) : option Z := option_map Z.of_int (NilEmpty.int_of_string s).

(** Dates as the seconds since the epoch after a mark. *)
Definition sample_date (ms : Z) : string := String "@" (decimal (ms / 1000)).
Definition of_sample_date (s : string) : option Z :=
  match s with String _ rest => option_map (fun seconds => seconds * 1000) (of_decimal rest) | EmptyString => None end.

Lemma sample_date_reads ms : of_sample_date (sample_date ms) = Some (ms / 1000 * 1000).
Proof. cbn. unfold of_decimal, decimal. rewrite NilEmpty.isi. cbn. by rewrite DecimalZ.of_to. Qed.

#[export] Instance sample_weather : WeatherLibrary := {|
  format4 d := decimal (bits_of_double d);
  iso_date := sample_date;
  from_iso_date := of_sample_date;
  short_time ms := decimal (hour_of ms);
  short_day := decimal;
  same_text := String.eqb;
  without_query s := match find_char "?" s with Some n => str_take n s | None => s end;
  text_to_double s := option_map double_of_Z (of_decimal s);
  iso_date_reads ms _ := sample_date_reads ms;
  iso_date_empty := eq_refl |}.

#[export] Instance sample_json : JsonLibrary := {|
  json_file := json; to_json v := v; from_json v := Some v; from_to_json v _ _ := eq_refl |}.

Definition sample_config : WeatherConfig :=
  {| DashboardConfig.provider := "openweather"; DashboardConfig.refreshIntervalSeconds := 600;
     DashboardConfig.locationMode := DashboardConfig.Coordinates; DashboardConfig.automaticProvider := "ipgeolocation";
     DashboardConfig.city := ""; DashboardConfig.latitude := double_of_Z 52; DashboardConfig.longitude := double_of_Z 13 |}.

Definition sample_clock (now : Z) : clock := {| at_precipitation := now; at_hour := now; at_solar := now |}.

Definition sample_hour (t : Z) (probability : Z) : HourlyForecast :=
  {| h_timestampUtc := Some t; h_iconCode := "10d"; h_temperatureCelsius := double_of_Z 20;
     h_precipitationProbabilityPercent := double_of_Z probability; h_rainMillimetres := None |}.

Definition sample_day : DailyForecast :=
  {| d_timestampUtc := Some 1700000000500; sunriseUtc := Some 1700010000000; sunsetUtc := Some 1700050000000;
     d_iconCode := "03d"; minimumCelsius := double_of_Z (-3); maximumCelsius := double_of_Z 8;
     averageCelsius := Some (double_of_Z 4); d_precipitationProbabilityPercent := double_of_Z 40;
     rainMillimetres := None; snowMillimetres := Some (double_of_Z 2) |}.

Definition sample_snapshot : Snapshot :=
  {| sn_provider := "openweather";
     location := {| city := "Berlin"; country := "DE"; latitude := double_of_Z 52; longitude := double_of_Z 13 |};
     timezone := "Europe/Berlin"; timezoneOffsetSeconds := 3600; fetchedUtc := Some 1700000000123;
     current := {| observedUtc := Some 1700000000000; condition := "light rain"; cc_iconCode := "10d";
                   temperatureCelsius := double_of_Z 5; feelsLikeCelsius := double_of_Z 2; highCelsius := double_of_Z 8;
                   lowCelsius := double_of_Z (-3); humidityPercent := double_of_Z 81; pressureHpa := double_of_Z 1013;
                   windSpeedKmh := double_of_Z 18; windDegrees := double_of_Z 230; cc_rainMillimetres := None |};
     hourly := [sample_hour 1699999200000 55; sample_hour 1700002800000 70]; daily := [sample_day];
     airQuality := Some {| aq_index := 2; category := "Fair"; pm25 := Some (double_of_Z 9) |};
     sn_sunsetUtc := Some 1700050000000; todayRainProbabilityPercent := double_of_Z 40;
     todayPrecipitationKind := "snow"; todayPrecipitationProbabilityPercent := d0 |}.

(** The service after its start, without a cache file. *)
Definition sample_start : WeatherService * list output := initialize (Some sample_config) "" (sample_clock 1700000000000) 0 None.
