(* ===== verification/WeatherReplies.v ===== *)
(** * The weather providers' requests and replies (src/weather/weather_provider.cpp)

    The requests of the three providers and the slots that run when a reply has finished:
    each turns a reply into one signal.  The key is a text; Qt's number formats and JSON
    parser are parameters. *)

From S2P Require Import Prelude.
From S2P Require Import Std.
From S2P Require Import Float64.
From S2P Require Import QtModel.
From S2P Require Import Json.
From S2P Require Import BoundedReply.
From S2P Require Import Weather.
From S2P Require Import WeatherSample.

Class RepliesLibrary := {
  six_decimals : double -> string;          (* QString::number(value, 'f', 6) *)
  parse_json : list byte -> json;           (* QJsonDocument::fromJson *)
  text_to_int : list byte -> option Z       (* QString::fromLatin1(text).toInt(&ok) *) }.

Definition kMaximumResponseBytes : nat := Z.to_nat (1024 * 1024).

(** ** Requests *)

(** An address: its path and the items of its query. *)
Record Url := { path : string; query : list (string * string) }.

Section replies.
Context `{WeatherLibrary} `{RepliesLibrary}.

Definition resolve_geocoding (apiKey city : string) : Url :=
  {| path := "https://api.openweathermap.org/geo/1.0/direct"; query := [("q", city); ("limit", "1"); ("appid", apiKey)] |}%string.

Definition makeUrl (apiKey : string) (location : Location) (p : string) : Url :=
  {| path := p;
     query := [("lat", six_decimals (latitude location)); ("lon", six_decimals (longitude location)); ("appid", apiKey)]
              ++ (if contains "onecall" p then [("units", "metric"); ("exclude", "minutely,alerts")] else []) |}%string.

(** The requests for the forecast and the air quality. *)
Definition request (apiKey : string) (location : Location) : Url * Url :=
  (makeUrl apiKey location "https://api.openweathermap.org/data/3.0/onecall",
   makeUrl apiKey location "https://api.openweathermap.org/data/2.5/air_pollution").

Definition resolve_automatic (apiKey : string) : Url :=
  {| path := "https://api.ipgeolocation.io/ipgeo";
     query := [("apiKey", apiKey); ("fields", "city,country_code2,latitude,longitude")] |}%string.

(** ** Finished replies *)

(** What a finished reply shows besides its body. *)
Record Finished := { no_error : bool; http_status : Z; retry_after : list byte; collected_reply : BoundedReply }.

Inductive provider_signal :=
| resolved (location : Location)
| forecastReady (snapshot : Snapshot)
| airQualityReady (air : AirQuality)
| airQualityFailed (diagnostic : string)
| failed (diagnostic : string) (authenticationFailure : bool) (retryAfterSeconds : Z).

Definition authentication (reply : Finished) : bool := (http_status reply =? 401) || (http_status reply =? 403).

Definition replyDiagnostic (reply : Finished) (operation : string) : string :=
  if authentication reply then operation ++ " authentication failed"
  else if http_status reply =? 429 then operation ++ " rate limit reached"
  else operation ++ " request failed".

Definition document (reply : Finished) : json := parse_json (body_ (collected_reply reply)).

Definition geocoding_finished (reply : Finished) : provider_signal :=
  if exceeded_limit_ (collected_reply reply) then failed "Geocoding response exceeded 1 MiB" false 0
  else if negb (no_error reply) then failed (replyDiagnostic reply "Geocoding") (authentication reply) 0
  else match parseGeocoding (document reply) with
       | Some location => resolved location
       | None => failed "Geocoding response was invalid" false 0
       end.

Definition handleNetworkFailure (reply : Finished) (operation : string) (airQuality : bool) : provider_signal :=
  if airQuality then airQualityFailed (replyDiagnostic reply operation)
  else failed (replyDiagnostic reply operation) (authentication reply) (default 0 (text_to_int (retry_after reply))).

Definition forecast_finished (location : Location) (now : Z) (reply : Finished) : provider_signal :=
  if exceeded_limit_ (collected_reply reply) then failed "Weather response exceeded 1 MiB" false 0
  else if negb (no_error reply) then handleNetworkFailure reply "Weather" false
  else match parseOneCall (document reply) location now with
       | Some snapshot => forecastReady snapshot
       | None => failed "Weather response was invalid" false 0
       end.

Definition air_finished (reply : Finished) : provider_signal :=
  if exceeded_limit_ (collected_reply reply) then airQualityFailed "Air quality response exceeded 1 MiB"
  else if negb (no_error reply) then handleNetworkFailure reply "Air quality" true
  else match parseAirQuality (document reply) with
       | Some air => airQualityReady air
       | None => airQualityFailed "Air quality response was invalid"
       end.

Definition automatic_finished (reply : Finished) : provider_signal :=
  if exceeded_limit_ (collected_reply reply) then failed "Automatic location response exceeded 1 MiB" false 0
  else if negb (no_error reply) then failed "Automatic location request failed" (authentication reply) 0
  else match parseLocation (document reply) with
       | Some location => resolved location
       | None => failed "Automatic location response was invalid" false 0
       end.

(** ** What the signals say *)

Lemma mapM_length {A B} (f : A -> option B) l k : mapM f l = Some k -> length k = length l.
Proof. intros Hm%mapM_Some. symmetry. by eapply Forall2_length. Qed.

Lemma parseOneCall_reads doc loc now s : parseOneCall doc loc now = Some s ->
  location s = loc /\ fetchedUtc s = Some now /\ sn_provider s = "openweather"%string /\ airQuality s = None /\
  length (hourly s) = length (jarray (jvalue "hourly" doc)) /\ length (daily s) = length (jarray (jvalue "daily" doc)).
Proof.
  unfold parseOneCall. cbv zeta. intros Hs.
  repeat match type of Hs with (_ ≫= _) = Some _ => apply bind_Some in Hs as (? & ? & Hs) end.
  injection Hs as <-. cbn. split_and!; auto; by eapply mapM_length.
Qed.

Lemma parseAirQuality_reads doc a : parseAirQuality doc = Some a ->
  1 <= aq_index a <= 5 /\ category a = aqiCategory (aq_index a) /\ category a <> "Unavailable"%string.
Proof.
  unfold parseAirQuality. cbv zeta. destruct (_ || _) eqn:E; [done|]. intros [= <-]. cbn.
  apply orb_false_iff in E as [E1%Z.ltb_ge E2%Z.ltb_ge]. split; [lia|]. split; [done|].
  set (i := jint _ _) in *. assert (i = 1 \/ i = 2 \/ i = 3 \/ i = 4 \/ i = 5) as [-> |[-> |[-> |[-> | ->]]]] by lia; done.
Qed.

Lemma parseLocation_reads doc l : parseLocation doc = Some l ->
  is_nan (latitude l) = false -> is_nan (longitude l) = false ->
  dleb (double_of_Z (-90)) (latitude l) = true /\ dleb (latitude l) (double_of_Z 90) = true /\
  dleb (double_of_Z (-180)) (longitude l) = true /\ dleb (longitude l) (double_of_Z 180) = true.
Proof.
  unfold parseLocation. intros Hl Hnla Hnlo. apply bind_Some in Hl as (la & _ & Hl). apply bind_Some in Hl as (lo & _ & Hl).
  destruct (_ || _) eqn:E; [done|]. injection Hl as <-. cbn [latitude longitude] in *.
  repeat match goal with E : (_ || _)%bool = false |- _ => apply orb_false_iff in E as [E ?] end.
  split_and!; apply not_dltb_dleb; done.
Qed.

(** A reply that was collected. *)
Section collected.
Context `{NetworkDevice} (reply : Finished) (es : list network_event).
Context (Hc : collected_reply reply = collect kMaximumResponseBytes es).

Definition fits : Prop := ~ announced_too_long kMaximumResponseBytes es /\ (length (received es) <= kMaximumResponseBytes)%nat.

Lemma fits_not_exceeded : exceeded_limit_ (collected_reply reply) = false <-> fits.
Proof.
  rewrite Hc. destruct (collect_spec kMaximumResponseBytes es) as [_ Hx _].
  rewrite <- not_true_iff_false, Hx. unfold fits. split; [intros Hn; split; [tauto|apply Nat.nlt_ge; tauto]|].
  intros [Hn Hl] [?|?]; [done|lia].
Qed.

Lemma document_received : fits -> document reply = parse_json (received es).
Proof.
  intros Hf%fits_not_exceeded. unfold document. f_equal. rewrite Hc in *.
  destruct (collect_spec kMaximumResponseBytes es) as [_ _ Hb]. rewrite Hf in Hb. apply Hb.
Qed.

(** The shape the four slots share. *)
Lemma slot_success {A} (parse : json -> option A) (over error invalid : provider_signal) (ready : A -> provider_signal) a :
  (forall x y, ready x = ready y -> x = y) -> (forall x, over <> ready x) -> (forall x, error <> ready x) -> (forall x, invalid <> ready x) ->
  (if exceeded_limit_ (collected_reply reply) then over
   else if negb (no_error reply) then error
   else match parse (document reply) with Some x => ready x | None => invalid end) = ready a <->
  fits /\ no_error reply = true /\ parse (parse_json (received es)) = Some a.
Proof.
  intros Hinj Ho He Hi. pose proof fits_not_exceeded as Hf. destruct (exceeded_limit_ _).
  - split; [intros Hr; by destruct (Ho a)|]. intros [Hr _]. by assert (true = false) by (by apply Hf).
  - assert fits as Hfit by (by apply Hf). rewrite (document_received Hfit). destruct (no_error reply); cbn [negb].
    + destruct (parse _) as [x|]; [|split; [intros Hr; by destruct (Hi a)|by intros (_ & _ & ?)]].
      split; [intros ->%Hinj; done|by intros (_ & _ & [= ->])].
    + split; [intros Hr; by destruct (He a)|by intros (_ & ? & _)].
Qed.

(** When a failure says that the key was refused. *)
Definition key_refused : Prop := fits /\ no_error reply = false /\ (http_status reply = 401 \/ http_status reply = 403).

Lemma authentication_iff : authentication reply = true <-> http_status reply = 401 \/ http_status reply = 403.
Proof. unfold authentication. by rewrite orb_true_iff, !Z.eqb_eq. Qed.

Lemma slot_failure {A} (parse : json -> option A) over invalid error (ready : A -> provider_signal) retry d a n :
  (if exceeded_limit_ (collected_reply reply) then failed over false 0
   else if negb (no_error reply) then failed error (authentication reply) retry
   else match parse (document reply) with Some x => ready x | None => failed invalid false 0 end) = failed d a n ->
  (forall x, ready x <> failed d a n) ->
  (a = true <-> key_refused) /\ (n = 0 \/ no_error reply = false /\ n = retry).
Proof.
  pose proof fits_not_exceeded as Hf. unfold key_refused. intros Hs Hready. destruct (exceeded_limit_ _).
  - injection Hs as <- <- <-. split; [|by left]. split; [done|]. intros [Hfit _]. by assert (true = false) by (by apply Hf).
  - destruct (no_error reply); cbn [negb] in Hs.
    + destruct (parse _); [by destruct (Hready a0)|]. injection Hs as <- <- <-. split; [by split; [|intros (_ & ? & _)]|by left].
    + injection Hs as <- <- <-. split; [|by right]. rewrite authentication_iff. split; [by intros; split; [apply Hf|]|by intros (_ & _ & ?)].
Qed.

(** The signals of each slot: one of success and one of failure. *)
Definition is_failed (signal : provider_signal) : Prop := exists d a n, signal = failed d a n.

(** C40. Replies of the weather and location services.  A finished reply gives one signal,
    of success or of failure, of its own slot.  In all four slots it is the one of success
    exactly when the reply stayed within 1 MiB, had no network error and its whole body is
    read by the slot's parser: then a forecast is of the location that was asked for with all
    the hours and days of the reply, an air quality index is one to five with its category, a
    location that is found automatically is on the globe if its coordinates are numbers.  A
    failure says that the key was refused exactly when the reply stayed within 1 MiB, had a
    network error and its status is 401 or 403; only the forecast passes on a Retry-After,
    and a failure of the air quality is never one of the forecast. *)
Theorem provider_replies loc now :
  (forall s, forecast_finished loc now reply = forecastReady s <->
     fits /\ no_error reply = true /\ parseOneCall (parse_json (received es)) loc now = Some s) /\
  (forall s, forecast_finished loc now reply = forecastReady s ->
     location s = loc /\ fetchedUtc s = Some now /\
     length (hourly s) = length (jarray (jvalue "hourly" (parse_json (received es)))) /\
     length (daily s) = length (jarray (jvalue "daily" (parse_json (received es))))) /\
  (forall a, air_finished reply = airQualityReady a <->
     fits /\ no_error reply = true /\ parseAirQuality (parse_json (received es)) = Some a) /\
  (forall a, air_finished reply = airQualityReady a -> 1 <= aq_index a <= 5 /\ category a = aqiCategory (aq_index a)) /\
  (forall l, geocoding_finished reply = resolved l <->
     fits /\ no_error reply = true /\ parseGeocoding (parse_json (received es)) = Some l) /\
  (forall l, automatic_finished reply = resolved l <->
     fits /\ no_error reply = true /\ parseLocation (parse_json (received es)) = Some l) /\
  (forall l, automatic_finished reply = resolved l -> is_nan (latitude l) = false -> is_nan (longitude l) = false ->
     dleb (double_of_Z (-90)) (latitude l) = true /\ dleb (latitude l) (double_of_Z 90) = true /\
     dleb (double_of_Z (-180)) (longitude l) = true /\ dleb (longitude l) (double_of_Z 180) = true) /\
  (forall d a n, forecast_finished loc now reply = failed d a n ->
     (a = true <-> key_refused) /\ (n <> 0 -> no_error reply = false /\ text_to_int (retry_after reply) = Some n)) /\
  (forall d a n, geocoding_finished reply = failed d a n \/ automatic_finished reply = failed d a n ->
     (a = true <-> key_refused) /\ n = 0) /\
  ((exists s, forecast_finished loc now reply = forecastReady s) \/ is_failed (forecast_finished loc now reply)) /\
  ((exists a, air_finished reply = airQualityReady a) \/ exists d, air_finished reply = airQualityFailed d) /\
  ((exists l, geocoding_finished reply = resolved l) \/ is_failed (geocoding_finished reply)) /\
  ((exists l, automatic_finished reply = resolved l) \/ is_failed (automatic_finished reply)).
Proof.
  assert (forall s, forecast_finished loc now reply = forecastReady s <->
    fits /\ no_error reply = true /\ parseOneCall (parse_json (received es)) loc now = Some s) as Hforecast
    by (intros s; apply (slot_success (fun v => parseOneCall v loc now)); unfold handleNetworkFailure; congruence).
  assert (forall a, air_finished reply = airQualityReady a <->
    fits /\ no_error reply = true /\ parseAirQuality (parse_json (received es)) = Some a) as Hair
    by (intros a; apply (slot_success parseAirQuality); unfold handleNetworkFailure; congruence).
  assert (forall l, automatic_finished reply = resolved l <->
    fits /\ no_error reply = true /\ parseLocation (parse_json (received es)) = Some l) as Hautomatic
    by (intros l; apply (slot_success parseLocation); congruence).
  split; [done|]. split; [|split; [done|split; [|split; [|split; [done|split; [|split; [|split]]]]]]].
  - intros s (_ & _ & Hs)%Hforecast. destruct (parseOneCall_reads _ _ _ _ Hs) as (? & ? & _ & _ & ? & ?). done.
  - intros a (_ & _ & Ha)%Hair. destruct (parseAirQuality_reads _ _ Ha) as (? & ? & _). done.
  - intros l. apply (slot_success parseGeocoding); congruence.
  - intros l (_ & _ & Hp)%Hautomatic. by eapply parseLocation_reads.
  - intros d a n Hf. destruct (slot_failure (fun v => parseOneCall v loc now) "Weather response exceeded 1 MiB" "Weather response was invalid"
      (replyDiagnostic reply "Weather") forecastReady (default 0 (text_to_int (retry_after reply))) d a n Hf) as (Ha & Hn); [done|].
    split; [done|]. intros Hnz. destruct Hn as [->|[Hne ->]]; [done|]. split; [done|]. by destruct (text_to_int (retry_after reply)).
  - intros d a n [Hf|Hf].
    + destruct (slot_failure parseGeocoding "Geocoding response exceeded 1 MiB" "Geocoding response was invalid"
        (replyDiagnostic reply "Geocoding") resolved 0 d a n Hf) as (Ha & [->|[_ ->]]); done.
    + destruct (slot_failure parseLocation "Automatic location response exceeded 1 MiB" "Automatic location response was invalid"
        "Automatic location request failed" resolved 0 d a n Hf) as (Ha & [->|[_ ->]]); done.
  - unfold is_failed, forecast_finished, air_finished, geocoding_finished, automatic_finished, handleNetworkFailure.
    split_and!; repeat case_match; eauto 6.
Qed.
End collected.
End replies.

(** ** A reply about the air *)

Definition air_document : json :=
  JObject [("list", JArray [JObject [("main", JObject [("aqi", of_int 2)]); ("components", JObject [("pm2_5", of_int 7)])]])]%string.

Definition sample_replies : RepliesLibrary :=
  {| six_decimals d := decimal (bits_of_double d);
     parse_json l := match l with [] => JUndefined | _ => air_document end;
     text_to_int _ := None |}.

Definition air_events : list network_event := [Headers 2; Arrived [Byte.x7b]; Arrived [Byte.x7d]].

Definition air_reply : Finished :=
  {| no_error := true; http_status := 200; retry_after := [];
     collected_reply := @collect slow_device kMaximumResponseBytes air_events |}.

Definition sample_air : AirQuality := {| aq_index := 2; category := "Fair"; pm25 := Some (double_of_Z 7) |}.

Lemma maximum_in_Z : Z.of_nat kMaximumResponseBytes = 1048576.
Proof. unfold kMaximumResponseBytes. rewrite Z2Nat.id by lia. lia. Qed.

#[local] Opaque collect kMaximumResponseBytes.

Lemma air_fits : fits air_events.
Proof.
  pose proof maximum_in_Z as Hm. split.
  - intros (n & Hn & Hlt). rewrite Hm in Hlt. unfold air_events in Hn. rewrite !elem_of_cons in Hn.
    destruct Hn as [[= ->]|[Hn|[Hn|Hn]]]; [lia|discriminate|discriminate|by apply elem_of_nil in Hn].
  - cbn [received air_events map concat app length]. lia.
Qed.

Lemma provider_replies_witness : @air_finished sample_replies air_reply = airQualityReady sample_air.
Proof.
  destruct (@provider_replies sample_weather sample_replies slow_device air_reply air_events eq_refl (location no_snapshot) 0)
    as (_ & _ & H & _).
  apply H. split; [exact air_fits|]. split; [reflexivity|vm_compute; reflexivity].
Defined.
