(* ===== verification/WeatherLaws.v ===== *)
(** * What the weather service promises

    Runs of the service under the answers of its providers, its timers and the user's
    [refresh]: when requests are made, how failures are paced, and what the view shows. *)

From S2P Require Import Prelude.
From S2P Require Import Std.
From S2P Require Import Float64.
From S2P Require DashboardConfig.
From S2P Require Import QtModel.
From S2P Require Import Json.
From S2P Require Import Weather.
From S2P Require Import WeatherService.
From S2P Require Import WeatherCache.
From S2P Require Import WeatherSample.

(** What happens to the service. *)
Inductive event :=
| Refresh                                                   (* QML calls [refresh] *)
| RefreshDue                                                (* [refreshTimer_] *)
| Forecast (c : clock) (s : Snapshot)                       (* [forecastReady] *)
| Failed (text : string) (authentication : bool) (retryAfter : Z)
| Located (now : Z) (l : Location)                          (* [resolved] *)
| AirReady (a : AirQuality)
| AirFailed (text : string)
| SolarDue (now : Z)                                        (* [solarEventTimer_] *)
| HourDue (c : clock)                                       (* [localHourTimer_] *).

(** The request an answer belongs to is over. *)
Definition is_answer (e : event) : bool :=
  match e with Forecast _ _ | Failed _ _ _ | Located _ _ => true | _ => false end.

Definition is_request (o : output) : bool :=
  match o with requestForecast _ | resolveCity _ | resolveAutomatic => true | _ => false end.

Definition requests (out : list output) : nat := length (List.filter is_request out).
Definition answers (es : list event) : nat := length (List.filter is_answer es).

#[local] Arguments requests : simpl never.
#[local] Arguments answers : simpl never.

Lemma requests_app a b : requests (a ++ b) = (requests a + requests b)%nat.
Proof. unfold requests. by rewrite List.filter_app, length_app. Qed.

Lemma answers_app a b : answers (a ++ b) = (answers a + answers b)%nat.
Proof. unfold answers. by rewrite List.filter_app, length_app. Qed.

Section runs.
Context `{WeatherLibrary} (config : WeatherConfig).

Definition handle (e : event) (s : WeatherService) : WeatherService * list output :=
  match e with
  | Refresh => refresh config s
  | RefreshDue => refresh_timer_fires config s
  | Forecast c new => publish config c new s
  | Failed text authentication retryAfter => fail config text authentication retryAfter s
  | Located now l => setLocation config now l s
  | AirReady a => air_quality_ready a s
  | AirFailed text => air_quality_failed text s
  | SolarDue now => solar_timer_fires now s
  | HourDue c => hour_timer_fires c s
  end.

(** A provider answers a request that was made, once; a timer fires while it runs. *)
Definition can_happen (e : event) (s : WeatherService) : Prop :=
  match e with
  | RefreshDue => is_Some (refreshTimer (flow s))
  | Forecast _ _ => operation (flow s) = RequestForecast
  | Failed _ _ _ => operation (flow s) <> NoOperation
  | Located _ _ => operation (flow s) = ResolveLocation
  | SolarDue _ => is_Some (solarEventTimer (view s))
  | HourDue _ => is_Some (localHourTimer (view s))
  | Refresh | AirReady _ | AirFailed _ => True
  end.

Inductive run : WeatherService -> list event -> list output -> WeatherService -> Prop :=
| run_nil s : run s [] [] s
| run_step s es out s' e (Hrun : run s es out s') (Hcan : can_happen e s') :
    run s (es ++ [e]) (out ++ (handle e s').2) (handle e s').1.

(** ** When requests are made *)

(** The service is requesting, or waits for its timer, or has stopped. *)
Inductive phase (f : Flow) : Prop :=
| Requesting (Hfly : inFlight f = true) (Htimer : refreshTimer f = None) (Hauth : authenticationStopped f = false)
    (Hop : operation f = if locationResolved f then RequestForecast else ResolveLocation)
| Waiting (delay : Z) (Hfly : inFlight f = false) (Htimer : refreshTimer f = Some delay)
    (Hauth : authenticationStopped f = false) (Hop : operation f = NoOperation)
| Stopped (Hfly : inFlight f = false) (Htimer : refreshTimer f = None) (Hauth : authenticationStopped f = true)
    (Hop : operation f = NoOperation).

Definition flying (s : WeatherService) : nat := if inFlight (flow s) then 1%nat else 0%nat.

Lemma solar_snapshot now v : snapshot (updateNextSolarEvent now v).1 = snapshot v.
Proof. unfold updateNextSolarEvent. by destruct (select_event _ _) as [[t k]|]. Qed.

Lemma requests_solar now v : requests (updateNextSolarEvent now v).2 = 0%nat.
Proof. unfold updateNextSolarEvent. destruct (select_event _ _) as [[t kind]|]; cbn; by case_match. Qed.

Lemma renew_snapshot now hs ds offset v : snapshot (renew_models now hs ds offset v).1 = snapshot v.
Proof. exact (solar_snapshot now (replace_models hs ds offset v)). Qed.

Lemma requests_renew now hs ds offset v : requests (renew_models now hs ds offset v).2 = 0%nat.
Proof. exact (requests_solar now (replace_models hs ds offset v)). Qed.

Lemma requests_show c s v : requests (show c s v).2 = 0%nat.
Proof. apply requests_renew. Qed.

Lemma requests_cache s : requests (cache_output s) = 0%nat.
Proof. unfold cache_output. by destruct (fetchedUtc s). Qed.

Lemma startOperation_started manual s :
  inFlight (flow s) = false -> manual = true \/ authenticationStopped (flow s) = false ->
  refreshTimer (flow s) = None \/ manual = true ->
  let r := startOperation config manual s in
  phase (flow r.1) /\ inFlight (flow r.1) = true /\ requests r.2 = 1%nat /\
  failureCount (flow r.1) = failureCount (flow s) /\ view r.1 = view s.
Proof.
  intros Hf Ha Ht. unfold startOperation. rewrite Hf.
  replace (negb manual && authenticationStopped (flow s)) with false by (destruct Ha as [Ha|Ha]; rewrite Ha; by destruct manual).
  cbn. repeat split; [|by destruct (locationResolved (flow s)); [|destruct (locationMode config)]].
  apply Requesting; cbn; [done| | |done].
  - destruct Ht as [Ht|Ht]; rewrite Ht; by destruct manual.
  - destruct Ha as [Ha|Ha]; rewrite Ha; by destruct manual.
Qed.

Lemma startOperation_flying manual s : inFlight (flow s) = true -> startOperation config manual s = (s, []).
Proof. intros Hf. unfold startOperation. by rewrite Hf. Qed.

Lemma flow_unmoved (v : View) s : flow (with_view v s) = flow s.
Proof. done. Qed.

Lemma handle_phase e s : phase (flow s) -> can_happen e s ->
  phase (flow (handle e s).1) /\
  (requests (handle e s).2 + flying s = (if is_answer e then 1 else 0) + flying (handle e s).1)%nat.
Proof.
  intros Hp Hc. destruct e as [| |c new|text auth retry|now l|a|text|now|c]; cbn [handle is_answer can_happen] in *.
  - unfold refresh. destruct (inFlight (flow s)) eqn:Hf; [rewrite startOperation_flying by done; by split|].
    destruct (startOperation_started true s) as (Hp' & Hf' & Hr & _); [done|by left|by right|].
    unfold flying. by rewrite Hf, Hf', Hr.
  - destruct Hc as [d Hd]. inversion Hp as [Hf Ht|d' Hf Ht Ha Ho|Hf Ht]; [by rewrite Hd in Ht| |by rewrite Hd in Ht].
    unfold refresh_timer_fires. set (s1 := {| service_location := _ |}).
    destruct (startOperation_started false s1) as (Hp' & Hf' & Hr & _); [done|by right|by left|].
    unfold flying. by rewrite Hf, Hf', Hr.
  - inversion Hp as [Hf Ht Ha Ho|? Hf Ht Ha Ho|Hf Ht Ha Ho]; [|by rewrite Ho in Hc..].
    unfold publish. destruct (show _ _ _) as [v out] eqn:Es. cbn. split; [by eapply Waiting|].
    pose proof (requests_show c (with_air_and_kind (match airQuality new with
      | Some a => Some a | None => if String.eqb (cacheKey (location (snapshot (view s)))) (cacheKey (location new))
      then airQuality (snapshot (view s)) else None end) (if String.eqb (todayPrecipitationKind new) "" then "none"
      else todayPrecipitationKind new)%string new) (view s)) as Hq.
    rewrite Es in Hq. cbn in Hq. rewrite !requests_app, Hq, requests_cache. unfold flying. by rewrite Hf.
  - inversion Hp as [Hf Ht Ha Ho|? Hf Ht Ha Ho|Hf Ht Ha Ho]; [|by rewrite Ho in Hc..].
    unfold flying. rewrite Hf. cbn. split; [|done]. destruct auth; [by apply Stopped|by eapply Waiting].
  - inversion Hp as [Hf Ht Ha Ho|? Hf Ht Ha Ho|Hf Ht Ha Ho]; [|by rewrite Ho in Hc..].
    unfold setLocation. match goal with |- context [let '(_, _) := ?p in _] => destruct p as [v out] eqn:Ev end. set (s1 := {| service_location := l |}).
    destruct (startOperation_started false s1) as (Hp' & Hf' & Hr & _); [done|by right|by left|].
    assert (requests out = 0%nat) as Ho'.
    { destruct (_ && _); [|by inversion Ev]. pose proof (requests_renew now [] [] 0 (with_snapshot no_snapshot (view s))) as Hq.
      by rewrite Ev in Hq. }
    destruct (startOperation config false s1) as [s2 out2]. cbn in *. rewrite requests_app, Ho', Hr.
    unfold flying. by rewrite Hf, Hf'.
  - cbn. split; [done|]. unfold requests. cbn [List.filter is_request]. fold (requests (cache_output (with_air_and_kind (Some a) (todayPrecipitationKind (snapshot (view s))) (snapshot (view s))))). by rewrite requests_cache.
  - done.
  - unfold solar_timer_fires. pose proof (requests_solar now (view s)) as Hq.
    destruct (updateNextSolarEvent now (view s)) as [v out]. cbn in *. by rewrite Hq.
  - unfold hour_timer_fires. cbn -[updateTodayPrecipitationProbability]. split; [done|]. by case_match.
Qed.

Lemma run_phase s es out s' : run s es out s' -> phase (flow s) ->
  phase (flow s') /\ (requests out + flying s = answers es + flying s')%nat.
Proof.
  induction 1 as [s|s es out s' e Hrun IH Hcan]; intros Hp; [done|]. destruct (IH Hp) as [Hp' Hn].
  destruct (handle_phase e s' Hp' Hcan) as [Hp'' Hn']. split; [done|].
  rewrite requests_app, answers_app. unfold answers at 2. cbn [List.filter]. destruct (is_answer e); cbn; lia.
Qed.

(** ** Failures *)

(** The failures since the last forecast that the service retries by itself. *)
Definition count_failure (n : Z) (e : event) : Z :=
  match e with Forecast _ _ => 0 | Failed _ false _ => n + 1 | _ => n end.

Definition consecutive (es : list event) : Z := fold_left count_failure es 0.

Lemma consecutive_snoc es e : consecutive (es ++ [e]) = count_failure (consecutive es) e.
Proof. unfold consecutive. by rewrite fold_left_app. Qed.

Lemma consecutive_bound es : 0 <= consecutive es <= Z.of_nat (length es).
Proof.
  induction es as [|e es IH] using rev_ind; [done|]. rewrite consecutive_snoc, length_app. cbn [length].
  destruct e as [| | | |? | | | |]; cbn; try lia. destruct authentication; cbn; lia.
Qed.

Lemma startOperation_count manual s :
  failureCount (flow (startOperation config manual s).1) = failureCount (flow s).
Proof. unfold startOperation. destruct (inFlight _); [done|]. by destruct (negb manual && _). Qed.

Lemma handle_count e s : failureCount (flow (handle e s).1) =
  match e with Forecast _ _ => 0 | Failed _ false _ => i32 (failureCount (flow s) + 1) | _ => failureCount (flow s) end.
Proof.
  destruct e as [| |c new|text auth retry|now l|a|text|now|c]; cbn [handle].
  - apply startOperation_count.
  - unfold refresh_timer_fires. by rewrite startOperation_count.
  - unfold publish. by destruct (show _ _ _).
  - by destruct auth.
  - unfold setLocation. match goal with |- context [let '(_, _) := ?p in _] => destruct p as [v out] end.
    set (s1 := {| service_location := l |}). pose proof (startOperation_count false s1) as Hn.
    by destruct (startOperation config false s1).
  - done.
  - done.
  - unfold solar_timer_fires. by destruct (updateNextSolarEvent _ _).
  - done.
Qed.

Lemma run_count s es out s' : run s es out s' -> failureCount (flow s) = 0 -> Z.of_nat (length es) <= int32_max ->
  failureCount (flow s') = consecutive es.
Proof.
  induction 1 as [s|s es out s' e Hrun IH Hcan]; intros H0 Hlen; [done|].
  rewrite length_app in Hlen. cbn [length] in Hlen. rewrite handle_count, consecutive_snoc, IH by (done || lia).
  pose proof (consecutive_bound es). unfold int32_max in *.
  destruct e as [| | |? [] ?| | | | |]; cbn; try done. apply i32_id; unfold int32_max; lia.
Qed.

(** A service that stopped makes no request by itself. *)
Lemma run_stopped s es out s' : run s es out s' -> phase (flow s) -> authenticationStopped (flow s) = true ->
  Refresh ∉ es -> authenticationStopped (flow s') = true /\ requests out = 0%nat.
Proof.
  induction 1 as [s|s es out s' e Hrun IH Hcan]; intros Hp Hs Hno; [done|].
  rewrite not_elem_of_app, list_elem_of_singleton in Hno. destruct Hno as [Hno He].
  destruct (IH Hp Hs Hno) as [Hs' Hr]. destruct (run_phase _ _ _ _ Hrun Hp) as [Hp' _].
  inversion Hp' as [Hf Ht Ha Ho|? Hf Ht Ha Ho|Hf Ht Ha Ho]; [by rewrite Hs' in Ha..|].
  destruct (handle_phase e s' Hp' Hcan) as [_ Hn]. unfold flying in Hn. rewrite Hf in Hn. rewrite requests_app, Hr.
  destruct e as [| |c new|text auth retry|now l|a|text|now|c]; cbn [can_happen] in Hcan; try (by rewrite Ho in Hcan);
    [by destruct He|by rewrite Ht in Hcan; destruct Hcan|..]; cbn [handle is_answer] in *.
  - cbn in Hn |- *. rewrite Hf in Hn. split; [done|lia].
  - cbn in Hn |- *. rewrite Hf in Hn. split; [done|lia].
  - unfold solar_timer_fires in *. destruct (updateNextSolarEvent now (view s')). cbn in *. rewrite Hf in Hn. split; [done|lia].
  - unfold hour_timer_fires in *. cbn -[updateTodayPrecipitationProbability] in *. rewrite Hf in Hn. split; [done|lia].
Qed.

Lemma retry_backoff_eq count : 0 < count ->
  retry_backoff config count = Z.min (refreshIntervalSeconds config) (30 * 2 ^ Z.min (count - 1) 5).
Proof. intros Hc. unfold retry_backoff. by rewrite Z.shiftl_1_l. Qed.

Lemma pow2_bounds k : 0 <= k -> 1 <= 2 ^ Z.min k 5 <= 32.
Proof.
  intros Hk. split; [pose proof (Z.pow_pos_nonneg 2 (Z.min k 5)); lia|].
  change 32 with (2 ^ 5). apply Z.pow_le_mono_r; lia.
Qed.
End runs.

Section start.
Context `{WeatherLibrary} `{JsonLibrary} (config : WeatherConfig).

Lemma loadCache_flow c at_age file s :
  flow (loadCache config c at_age file s).1 = flow s /\ diagnostics (loadCache config c at_age file s).1 = diagnostics s /\
  requests (loadCache config c at_age file s).2 = 0%nat.
Proof.
  unfold loadCache. destruct (f ← file; _) as [cached|]; [|done].
  pose proof (requests_show c cached (view s)) as Hq. by destruct (show c cached (view s)).
Qed.

(** A configured service with its credentials starts with a request. *)
Lemma initialize_requests c at_age file s out : initialize (Some config) "" c at_age file = (s, out) ->
  phase (flow s) /\ inFlight (flow s) = true /\ requests out = 1%nat /\ failureCount (flow s) = 0.
Proof.
  unfold initialize. pose proof (loadCache_flow c at_age file (new_service "")) as (Hf & Hd & Hq).
  destruct (loadCache _ _ _ _ _) as [s1 out1]. cbn [fst snd] in *. rewrite Hd. cbn [String.eqb negb diagnostics new_service].
  assert (forall l now, let r := setLocation config now l s1 in phase (flow r.1) /\ inFlight (flow r.1) = true /\
    requests r.2 = 1%nat /\ failureCount (flow r.1) = 0) as Hset.
  { intros l now. unfold setLocation. rewrite Hf.
    match goal with |- context [let '(_, _) := ?p in _] => destruct p as [v out'] eqn:Ev end. set (s2 := {| service_location := l |}).
    destruct (startOperation_started config false s2) as (Hp & Hfl & Hr & Hn & _); [done|by right|by left|].
    assert (requests out' = 0%nat) as Hz.
    { destruct (_ && _); [|by inversion Ev]. pose proof (requests_renew now [] [] 0 (with_snapshot no_snapshot (view s1))) as Hs.
      by rewrite Ev in Hs. }
    destruct (startOperation config false s2). cbn in *. by rewrite requests_app, Hz, Hr. }
  assert (forall r, phase (flow r.1) /\ inFlight (flow r.1) = true /\ requests r.2 = 1%nat /\ failureCount (flow r.1) = 0 ->
    (let '(s2, out2) := r in (s2, out1 ++ out2 ++ [changed])) = (s, out) ->
    phase (flow s) /\ inFlight (flow s) = true /\ requests out = 1%nat /\ failureCount (flow s) = 0) as Hend.
  { intros [s2 out2] (Hp & Hfl & Hr & Hn) [= <- <-]. cbn [fst snd] in *. by rewrite !requests_app, Hq, Hr. }
  assert (let r := startOperation config false s1 in phase (flow r.1) /\ inFlight (flow r.1) = true /\
    requests r.2 = 1%nat /\ failureCount (flow r.1) = 0) as Hstart.
  { destruct (startOperation_started config false s1) as (Hp & Hfl & Hr & Hn & _); rewrite ?Hf; [done|by right|by left|].
    rewrite Hf in Hn. done. }
  apply Hend. destruct (locationMode config); [apply Hstart|apply Hstart|apply Hset].
Qed.

(** Requests to the weather providers never overlap and the service never falls
    silent: in every run from a start with credentials it has made one request per answer,
    plus one while it is loading; it is always either loading, or waiting for its running
    timer, or stopped by an authentication failure; the timer and a manual refresh lead to
    one request each unless one is under way. *)
Theorem weather_requests c at_age file s0 out0 es out s
  (Hstart : initialize (Some config) "" c at_age file = (s0, out0)) (Hrun : run config s0 es out s) :
  requests (out0 ++ out) = (answers es + flying s)%nat /\ phase (flow s) /\
  requests (refresh config s).2 = (1 - flying s)%nat /\
  (is_Some (refreshTimer (flow s)) -> requests (refresh_timer_fires config s).2 = 1%nat).
Proof.
  destruct (initialize_requests _ _ _ _ _ Hstart) as (Hp & Hf & Hr & _).
  destruct (run_phase config _ _ _ _ Hrun Hp) as [Hp' Hn]. unfold flying at 1 in Hn. rewrite Hf in Hn.
  destruct (handle_phase config Refresh s Hp' I) as [Hq Hm]. cbn in Hm.
  repeat split; [rewrite requests_app; lia|done| |].
  - destruct (inFlight (flow s)) eqn:Hfl; unfold flying in *; rewrite ?Hfl in *.
    + unfold refresh. by rewrite startOperation_flying.
    + unfold refresh in *. destruct (startOperation_started config true s) as (_ & _ & -> & _); [done|by left|by right|done].
  - intros Ht. destruct (handle_phase config RefreshDue s Hp' Ht) as [Hq' Hm']. cbn [handle is_answer] in *.
    inversion Hp' as [Hfl Ht' Ha Ho|d Hfl Ht' Ha Ho|Hfl Ht' Ha Ho]; [by rewrite Ht' in Ht; destruct Ht| |by rewrite Ht' in Ht; destruct Ht].
    unfold refresh_timer_fires. set (s1 := {| service_location := _ |}).
    by destruct (startOperation_started config false s1) as (_ & _ & -> & _); [done|by right|by left|].
Qed.

(** C29. Failures are paced.  After the [n]-th failure in a row the service waits the longer
    of the provider's Retry-After and of a pause of [30 * 2^(n-1)] seconds, which is at most
    sixteen minutes and at most the refresh interval: so at least thirty seconds, and more
    than the interval only when Retry-After is.  This is for a Retry-After of at most 2147483
    seconds, whose milliseconds fit an int (see [retry_delay_overflows]), an interval of a
    minute to a day and a run of less than 2^31 - 1 events.  After an authentication failure
    the service makes no request until the user asks for one. *)
Theorem weather_retries c at_age file s0 out0 es out s text retryAfter
  (Hstart : initialize (Some config) "" c at_age file = (s0, out0)) (Hrun : run config s0 es out s)
  (Hlen : Z.of_nat (length es) < int32_max) (Hfly : operation (flow s) <> NoOperation)
  (Hint : 60 <= refreshIntervalSeconds config <= 86400) (Hretry : retryAfter <= 2147483) :
  (exists delay, refreshTimer (flow (fail config text false retryAfter s).1) = Some (delay * 1000) /\
     delay = Z.max (Z.min (refreshIntervalSeconds config) (30 * 2 ^ Z.min (consecutive es) 5)) retryAfter /\
     30 <= delay <= Z.max (refreshIntervalSeconds config) retryAfter) /\
  forall es' out' s', run config (fail config text true retryAfter s).1 es' out' s' -> Refresh ∉ es' ->
    requests out' = 0%nat /\ refreshTimer (flow s') = None.
Proof.
  destruct (initialize_requests _ _ _ _ _ Hstart) as (Hp & Hf & Hr & Hzero).
  destruct (run_phase config _ _ _ _ Hrun Hp) as [Hp' _].
  pose proof (run_count config _ _ _ _ Hrun Hzero ltac:(lia)) as Hn. pose proof (consecutive_bound es).
  pose proof (pow2_bounds (consecutive es) ltac:(lia)). unfold int32_max in *. split.
  - eexists. cbn [fail fst flow refreshTimer]. rewrite Hn, (i32_id (_ + 1)) by (unfold int32_max; lia).
    unfold retry_delay. rewrite retry_backoff_eq by lia. replace (_ + 1 - 1) with (consecutive es) by lia.
    rewrite i32_id by (unfold int32_max; lia). split; [done|]. split; [done|]. lia.
  - intros es' out' s' Hrun' Hno. destruct (handle_phase config (Failed text true retryAfter) s Hp' Hfly) as [Hp1 _].
    cbn [handle] in Hp1. destruct (run_stopped config _ _ _ _ Hrun' Hp1 eq_refl Hno) as [Ha Hq]. split; [done|].
    destruct (run_phase config _ _ _ _ Hrun' Hp1) as [Hp2 _].
    inversion Hp2 as [Hfl Ht Ha' Ho|? Hfl Ht Ha' Ho|]; [by rewrite Ha in Ha'..|done].
Qed.
End start.

(** ** Concrete runs *)

(** The start, a failure with a Retry-After of two minutes, the timer. *)
Definition sample_events : list event := [Failed "Weather rate limit reached" false 120; RefreshDue].

Lemma sample_run : exists out s, run sample_config sample_start.1 sample_events out s /\
  operation (flow s) = RequestForecast /\ requests out = 1%nat /\ failureCount (flow s) = 1.
Proof.
  do 2 eexists. split; [|split; [|split]].
  - eapply (run_step _ _ [_]); [eapply (run_step _ _ []); [constructor|]|]; [done|by eexists].
  - reflexivity.
  - reflexivity.
  - reflexivity.
Qed.

Lemma weather_requests_witness : exists out s, run sample_config sample_start.1 sample_events out s /\
  requests (sample_start.2 ++ out) = 2%nat /\ phase (flow s).
Proof.
  destruct sample_run as (out & s & Hrun & Hop & Hr & _). exists out, s. split; [done|].
  destruct (weather_requests sample_config (sample_clock 1700000000000) 0 None sample_start.1 sample_start.2
    sample_events out s eq_refl Hrun) as (_ & Hp & _).
  split; [rewrite requests_app, Hr; reflexivity|done].
Defined.

Lemma weather_retries_witness : exists s text, operation (flow s) = RequestForecast /\
  refreshTimer (flow (fail sample_config text false 0 s).1) = Some 60000.
Proof.
  destruct sample_run as (out & s & Hrun & Hop & Hr & _). exists s, "offline"%string. split; [done|].
  destruct (weather_retries sample_config (sample_clock 1700000000000) 0 None sample_start.1 sample_start.2
    sample_events out s "offline" 0 eq_refl Hrun) as [(delay & Ht & Hd & _) _];
    [vm_compute; reflexivity|rewrite Hop; discriminate|split; vm_compute; discriminate|vm_compute; discriminate|].
  rewrite Ht, Hd. reflexivity.
Defined.

(** A Retry-After of more than 24 days overflows the delay. *)
Example retry_delay_overflows : retry_delay sample_config 1 2147484 = -2147483296.
Proof. reflexivity. Qed.

(** An air quality reply that arrives before the first forecast is forgotten with it. *)
Example early_air_quality_lost :
  let a := {| aq_index := 2; category := "Fair"; pm25 := None |} in
  let s1 := (air_quality_ready a sample_start.1).1 in
  let new := with_air_and_kind None "none" sample_snapshot in
  airQuality (snapshot (view s1)) = Some a /\
  airQuality (snapshot (view (publish sample_config (sample_clock 1700000001000) new s1).1)) = None.
Proof. split; vm_compute; reflexivity. Qed.

(** Negative degrees are out of the range of the list. *)
Example wind_of_negative_degrees :
  let wind d := windDirection (with_view (with_snapshot
    {| sn_provider := ""; location := no_location; timezone := ""; timezoneOffsetSeconds := 0; fetchedUtc := None;
       current := {| observedUtc := None; condition := ""; cc_iconCode := ""; temperatureCelsius := d0; feelsLikeCelsius := d0;
                     highCelsius := d0; lowCelsius := d0; humidityPercent := d0; pressureHpa := d0; windSpeedKmh := d0;
                     windDegrees := double_of_Z d; cc_rainMillimetres := None |};
       hourly := []; daily := []; airQuality := None; sn_sunsetUtc := None; todayRainProbabilityPercent := d0;
       todayPrecipitationKind := "none"; todayPrecipitationProbabilityPercent := d0 |} new_view) (new_service "")) in
  wind 230 = Some "SW"%string /\ wind 350 = Some "N"%string /\ wind (-90) = None.
Proof. repeat split; vm_compute; reflexivity. Qed.
