(* ===== verification/WeatherSystem.v ===== *)
(** * The weather service with its providers (src/weather/weather_service.cpp and weather_provider.cpp)

    The service together with the network replies its providers wait for: what it asks of
    a provider becomes requests whose replies are outstanding, a finished reply runs its
    slot, and the signal of the slot runs the handler it is connected to.  Shown are that
    this system only does what the runs of [WeatherLaws] do, what is outstanding in every
    state, that the forecast shown is of the service's location, and that it settles. *)

From S2P Require Import Prelude.
From S2P Require Import Std.
From S2P Require Import Float64.
From S2P Require DashboardConfig.
From S2P Require Import QtModel.
From S2P Require Import Json.
From S2P Require Import BoundedReply.
From S2P Require Import Weather.
From S2P Require Import WeatherService.
From S2P Require Import WeatherCache.
From S2P Require Import WeatherSample.
From S2P Require Import WeatherLaws.
From S2P Require Import WeatherReplies.

Definition kTransferTimeoutMilliseconds : Z := 15000.

Record QNetworkRequest := { url : Url; transferTimeout : Z }.

Definition requestFor (u : Url) : QNetworkRequest := {| url := u; transferTimeout := kTransferTimeoutMilliseconds |}.

(** What is connected to [finished] of a reply; the forecast's slot captured its location. *)
Inductive Slot := GeocodingSlot | ForecastSlot (location : Location) | AirSlot | AutomaticSlot.

Record Reply := { asked_for : QNetworkRequest; slot : Slot }.

(** The service and the replies that have not finished. *)
Record System := { service : WeatherService; outstanding : list Reply }.

Inductive system_event :=
| Refreshed                                                  (* QML calls [refresh] *)
| RefreshTimer | SolarTimer (now : Z) | HourTimer (c : clock)
| ReplyFinished (i : nat) (now : Z) (c : clock) (reply : Finished).

(** The credentials, ASCII texts. *)
Record Keys := { openWeatherKey : list byte; ipGeolocationKey : list byte }.

#[local] Arguments requests : simpl never.

Section system.
Context `{WeatherLibrary} `{RepliesLibrary} `{JsonLibrary}.

(** ** The providers *)

Definition geocoding_reply (apiKey : list byte) (city : string) : Reply :=
  {| asked_for := requestFor (resolve_geocoding (string_of_list_byte apiKey) city); slot := GeocodingSlot |}.

Definition automatic_reply (apiKey : list byte) : Reply :=
  {| asked_for := requestFor (resolve_automatic (string_of_list_byte apiKey)); slot := AutomaticSlot |}.

Definition forecast_reply (apiKey : list byte) (l : Location) : Reply :=
  {| asked_for := requestFor (request (string_of_list_byte apiKey) l).1; slot := ForecastSlot l |}.

Definition air_reply_for (apiKey : list byte) (l : Location) : Reply :=
  {| asked_for := requestFor (request (string_of_list_byte apiKey) l).2; slot := AirSlot |}.

(** The requests a handler's calls of the providers make. *)
Definition calls (keys : Keys) (o : output) : list Reply :=
  match o with
  | requestForecast l => [forecast_reply (openWeatherKey keys) l; air_reply_for (openWeatherKey keys) l]
  | resolveCity name => [geocoding_reply (openWeatherKey keys) name]
  | resolveAutomatic => [automatic_reply (ipGeolocationKey keys)]
  | changed | solarEventChanged | hourlyReset _ | dailyReset _ | warning _ | WeatherService.saveCache _ => []
  end.

Definition performed (keys : Keys) (out : list output) : list Reply := concat (map (calls keys) out).

(** The signal of a slot. *)
Definition finished (sl : Slot) (now : Z) (reply : Finished) : provider_signal :=
  match sl with
  | GeocodingSlot => geocoding_finished reply
  | ForecastSlot l => forecast_finished l now reply
  | AirSlot => air_finished reply
  | AutomaticSlot => automatic_finished reply
  end.

(** [connectProviders] *)
Definition connectProviders (config : WeatherConfig) (c : clock) (signal : provider_signal) (s : WeatherService)
  : WeatherService * list output :=
  match signal with
  | forecastReady new => publish config c new s
  | airQualityReady a => air_quality_ready a s
  | airQualityFailed diagnostic => air_quality_failed diagnostic s
  | failed diagnostic authenticationFailure retryAfterSeconds =>
      fail config diagnostic authenticationFailure retryAfterSeconds s
  | resolved l => setLocation config (at_solar c) l s
  end.

(** ** Construction *)

(** The constructor that makes the providers, from the configuration and the keys. *)
Definition configured_service (config : option WeatherConfig) (keys : Keys) (c : clock) (at_age : Z)
    (file : option json_file) : WeatherService * list output :=
  initialize config
    match config with
    | Some cfg => credential_diagnostic cfg (openWeatherKey keys) (ipGeolocationKey keys)
    | None => ""
    end c at_age file.

(** The constructor that takes the providers; each of them may have a parent.  [None]: it throws. *)
Definition service_of_providers (config : WeatherConfig) (weather_parent geocoding_parent automatic_parent : bool)
    (c : clock) (at_age : Z) (file : option json_file) : option (WeatherService * list output) :=
  if weather_parent || geocoding_parent || automatic_parent then None
  else Some (initialize (Some config) "" c at_age file).

Section configured.
Context (config : WeatherConfig) (keys : Keys).

Definition system_start (c : clock) (at_age : Z) (file : option json_file) : System * list output :=
  let '(s, out) := configured_service (Some config) keys c at_age file in
  ({| service := s; outstanding := performed keys out |}, out).

(** ** Steps *)

(** A handler runs and its requests go out. *)
Definition after (remaining : list Reply) (r : WeatherService * list output) : System * list output :=
  ({| service := r.1; outstanding := remaining ++ performed keys r.2 |}, r.2).

(** A timer fires only while it runs, a reply finishes only while it is outstanding. *)
Definition system_step (e : system_event) (y : System) : option (System * list output) :=
  let s := service y in
  match e with
  | Refreshed => Some (after (outstanding y) (refresh config s))
  | RefreshTimer => _ ← refreshTimer (flow s); Some (after (outstanding y) (refresh_timer_fires config s))
  | SolarTimer now => _ ← solarEventTimer (view s); Some (after (outstanding y) (solar_timer_fires now s))
  | HourTimer c => _ ← localHourTimer (view s); Some (after (outstanding y) (hour_timer_fires c s))
  | ReplyFinished i now c reply =>
      r ← outstanding y !! i;
      Some (after (delete i (outstanding y)) (connectProviders config c (finished (slot r) now reply) s))
  end.

Fixpoint system_run (es : list system_event) (y : System) : option (System * list output) :=
  match es with
  | [] => Some (y, [])
  | e :: es =>
      '(y1, out1) ← system_step e y;
      '(y2, out2) ← system_run es y1;
      Some (y2, out1 ++ out2)
  end.

(** ** What is outstanding *)

(** The reply the service waits for: every one but the air quality's. *)
Definition is_main (r : Reply) : bool := match slot r with AirSlot => false | _ => true end.

(** What the operation under way asked for. *)
Definition location_reply : Reply :=
  match locationMode config with
  | DashboardConfig.City => geocoding_reply (openWeatherKey keys) (DashboardConfig.city config)
  | _ => automatic_reply (ipGeolocationKey keys)
  end.

Definition asked (s : WeatherService) : list Reply :=
  match operation (flow s) with
  | NoOperation => []
  | ResolveLocation => [location_reply]
  | RequestForecast => performed keys [requestForecast (service_location s)]
  end.

(** The snapshot shown is of the location of the service. *)
Definition shown_here (s : WeatherService) : Prop :=
  locationResolved (flow s) = true -> is_Some (fetchedUtc (snapshot (view s))) ->
  cacheKey (location (snapshot (view s))) = cacheKey (service_location s).

(** The text of [state()] tells the operation under way. *)
Definition state_shown (s : WeatherService) : Prop :=
  match operation (flow s) with
  | RequestForecast => state s = "loading"%string
  | ResolveLocation => state s = "locating"%string
  | NoOperation => state s = "error"%string \/ state s = "ready"%string /\ authenticationStopped (flow s) = false
  end.

Record coherent (y : System) : Prop := {
  coherent_phase : phase (flow (service y));
  coherent_main : List.filter is_main (outstanding y) = List.filter is_main (asked (service y));
  coherent_air : forall r, r ∈ outstanding y -> is_main r = false ->
    locationResolved (flow (service y)) = true /\ r = air_reply_for (openWeatherKey keys) (service_location (service y));
  coherent_shown : shown_here (service y);
  coherent_state : state_shown (service y) }.

(** The event of a run of the service that a signal is. *)
Definition event_of_signal (c : clock) (signal : provider_signal) : event :=
  match signal with
  | forecastReady new => Forecast c new
  | airQualityReady a => AirReady a
  | airQualityFailed diagnostic => AirFailed diagnostic
  | failed diagnostic authenticationFailure retryAfterSeconds => Failed diagnostic authenticationFailure retryAfterSeconds
  | resolved l => Located (at_solar c) l
  end.

Lemma connectProviders_handle c signal s : connectProviders config c signal s = handle config (event_of_signal c signal) s.
Proof. by destruct signal. Qed.

Lemma performed_app a b : performed keys (a ++ b) = performed keys a ++ performed keys b.
Proof. unfold performed. by rewrite map_app, concat_app. Qed.

Lemma performed_none out : requests out = 0%nat -> performed keys out = [].
Proof.
  unfold requests. induction out as [|o out IH]; [done|]. cbn. destruct o; cbn; try (intros; by apply IH); done.
Qed.

(** ** Handlers keep the system coherent *)

(** What a handler must do with a service it is given: the flow, the view, the requests. *)
Definition keeps (answered : bool) (s s' : WeatherService) (out : list output) : Prop :=
  shown_here s' /\ state_shown s' /\
  (if answered || bool_decide (operation (flow s) = NoOperation) then performed keys out = asked s'
   else performed keys out = [] /\ asked s' = asked s) /\
  (locationResolved (flow s) = true -> locationResolved (flow s') = true /\
     (answered = false \/ operation (flow s) = RequestForecast -> service_location s' = service_location s)).

Lemma startOperation_asks manual s :
  inFlight (flow s) = false -> manual = true \/ authenticationStopped (flow s) = false ->
  let r := startOperation config manual s in
  performed keys r.2 = asked r.1 /\ state_shown r.1 /\ view r.1 = view s /\
  locationResolved (flow r.1) = locationResolved (flow s) /\ service_location r.1 = service_location s.
Proof.
  intros Hf Ha. unfold startOperation. rewrite Hf.
  replace (negb manual && authenticationStopped (flow s)) with false by (destruct Ha as [Ha|Ha]; rewrite Ha; by destruct manual).
  cbn. unfold state_shown, asked, location_reply, performed. cbn.
  destruct (locationResolved (flow s)); [done|]. by destruct (locationMode config).
Qed.

Lemma keeps_intro answered s s' out : shown_here s' -> state_shown s' ->
  (if answered || bool_decide (operation (flow s) = NoOperation) then performed keys out = asked s'
   else performed keys out = [] /\ asked s' = asked s) ->
  (locationResolved (flow s) = true -> locationResolved (flow s') = true) ->
  (answered = false \/ operation (flow s) = RequestForecast -> service_location s' = service_location s) ->
  keeps answered s s' out.
Proof. intros. split; [done|]. split; [done|]. split; [done|]. auto. Qed.

Lemma shown_here_view s s' : shown_here s -> view s' = view s -> locationResolved (flow s') = locationResolved (flow s) ->
  service_location s' = service_location s -> shown_here s'.
Proof. unfold shown_here. intros Hs -> -> ->. done. Qed.

Lemma show_snapshot c sn v : location (snapshot (show c sn v).1) = location sn /\ fetchedUtc (snapshot (show c sn v).1) = fetchedUtc sn.
Proof. unfold show, renew_models, updateNextSolarEvent. by destruct (select_event _ _) as [[t k]|]. Qed.

(** Only the view changes, not whose it is. *)
Lemma keeps_view v out s : shown_here s -> state_shown s -> requests out = 0%nat ->
  location (snapshot v) = location (snapshot (view s)) -> fetchedUtc (snapshot v) = fetchedUtc (snapshot (view s)) ->
  keeps false s (with_view v s) out.
Proof.
  intros Hh Hs Ho Hl Hf. apply keeps_intro; [|done| |done..].
  - unfold shown_here in *. cbn. by rewrite Hl, Hf.
  - cbn [orb]. rewrite performed_none by done. case_bool_decide as Hop; [|done]. unfold asked. cbn. by rewrite Hop.
Qed.

(** A forecast is of the location it was asked for. *)
Definition of_here (e : event) (s : WeatherService) : Prop :=
  match e with Forecast _ new => location new = service_location s | _ => True end.

Lemma startOperation_keeps manual s s0 :
  shown_here s -> state_shown s -> inFlight (flow s) = bool_decide (operation (flow s) <> NoOperation) ->
  operation (flow s0) = operation (flow s) -> locationResolved (flow s0) = locationResolved (flow s) ->
  service_location s0 = service_location s -> asked s0 = asked s ->
  keeps false s0 (startOperation config manual s).1 (startOperation config manual s).2.
Proof.
  intros Hh Hs Hf Hop Hl Hloc Hask. destruct (inFlight (flow s)) eqn:Hfly.
  - symmetry in Hf. apply bool_decide_eq_true in Hf. rewrite startOperation_flying by done.
    apply keeps_intro; [done..| |by rewrite Hl|done]. cbn. by rewrite Hop, bool_decide_eq_false_2 by done.
  - assert (operation (flow s) = NoOperation) as Hno by (symmetry in Hf; by apply bool_decide_eq_false, dec_stable in Hf).
    destruct (decide (manual = false /\ authenticationStopped (flow s) = true)) as [[-> Ha]|Hgo].
    + unfold startOperation. rewrite Hfly, Ha. cbn. apply keeps_intro; [done..| |by rewrite Hl|done].
      rewrite Hop, bool_decide_eq_true_2 by done. unfold asked. by rewrite Hno.
    + assert (manual = true \/ authenticationStopped (flow s) = false) as Hm
        by (destruct manual; [by left|right]; by apply not_true_is_false; intros Ha; apply Hgo).
      destruct (startOperation_asks manual s) as (Hp & Hst & Hv & Hlr & Hlc); [done..|].
      apply keeps_intro; [by eapply shown_here_view|done| |congruence|congruence].
      cbn. by rewrite Hop, bool_decide_eq_true_2 by done.
Qed.

Lemma phase_flying f : phase f -> inFlight f = bool_decide (operation f <> NoOperation).
Proof.
  intros [Hf _ _ Ho|? Hf _ _ Ho|Hf _ _ Ho]; rewrite Hf, Ho; [by destruct (locationResolved f)|done..].
Qed.

Lemma setLocation_asks now l s : authenticationStopped (flow s) = false ->
  let r := setLocation config now l s in
  performed keys r.2 = asked r.1 /\ state_shown r.1 /\ shown_here r.1 /\ locationResolved (flow r.1) = true.
Proof.
  intros Ha.
  unfold setLocation. match goal with |- context [let '(_, _) := ?p in _] => destruct p as [v out] eqn:Ev end.
  set (s1 := {| service_location := l |}).
  destruct (startOperation_asks false s1) as (Hpf & Hst & Hv & Hl & Hloc); [done|by right|].
  destruct (startOperation config false s1) as [s2 out2]. cbn in Hst, Hv, Hl, Hloc; cbn [fst snd] in *.
  assert (performed keys out = [] /\ (is_Some (fetchedUtc (snapshot v)) -> cacheKey (location (snapshot v)) = cacheKey l)) as [Hq Hshown].
  { destruct (_ && _) eqn:Em; [|injection Ev as <- <-].
    - set (v0 := with_snapshot no_snapshot _) in Ev. pose proof (requests_renew now [] [] 0 v0) as Hq.
      pose proof (renew_snapshot now [] [] 0 v0) as Hv0. rewrite Ev in Hq, Hv0. cbn in Hq, Hv0. split; [by apply performed_none|].
      rewrite Hv0. by intros [? ?].
    - split; [done|]. intros Hsome. rewrite bool_decide_eq_true_2 in Em by done.
      by apply negb_false_iff, String.eqb_eq in Em. }
  split; [by rewrite performed_app, Hq, <- Hpf|]. split; [done|]. split; [|done].
  unfold shown_here. rewrite Hv, Hloc. intros _. apply Hshown.
Qed.

Lemma setLocation_keeps now l s : phase (flow s) -> operation (flow s) = ResolveLocation ->
  keeps true s (setLocation config now l s).1 (setLocation config now l s).2.
Proof.
  intros Hp Hop. inversion Hp as [Hf Ht Ha Ho|? _ _ _ Ho|_ _ _ Ho]; [|by rewrite Ho in Hop..].
  assert (locationResolved (flow s) = false) as Hlr by (rewrite Ho in Hop; by destruct (locationResolved (flow s))).
  destruct (setLocation_asks now l s Ha) as (Hpf & Hst & Hh & Hl).
  apply keeps_intro; [done..| |intros [|]; congruence].
  by rewrite Hl.
Qed.

Lemma handle_keeps e s : phase (flow s) -> can_happen e s -> of_here e s -> shown_here s -> state_shown s ->
  keeps (is_answer e) s (handle config e s).1 (handle config e s).2.
Proof.
  intros Hp Hcan Hhere Hh Hst. destruct e as [| |c new|text auth retry|now l|a|text|now|c]; cbn [handle is_answer can_happen of_here] in *.
  - apply startOperation_keeps; auto using phase_flying.
  - unfold refresh_timer_fires. apply startOperation_keeps; cbn; auto using phase_flying.
  - inversion Hp as [Hf Ht Ha Ho|? _ _ _ Ho|_ _ _ Ho]; [|by rewrite Ho in Hcan..].
    unfold publish. set (sn := with_air_and_kind _ _ new). pose proof (show_snapshot c sn (view s)) as [Hl Hft].
    pose proof (requests_show c sn (view s)) as Hq. destruct (show c sn (view s)) as [v out]. cbn in Hl, Hft, Hq.
    apply keeps_intro; [|by right| |done..].
    + unfold shown_here. cbn. intros _ _. by rewrite Hl, Hhere.
    + cbn [orb fst snd]. rewrite performed_none; [done|]. rewrite !requests_app, Hq, requests_cache. done.
  - apply keeps_intro; [by eapply shown_here_view|by left|done..].
  - by apply setLocation_keeps.
  - apply (keeps_view (with_snapshot _ _)); cbn; [done..| |done|done].
    pose proof (requests_cache (with_air_and_kind (Some a) (todayPrecipitationKind (snapshot (view s))) (snapshot (view s)))) as Hq.
    unfold requests in *. cbn. exact Hq.
  - apply keeps_intro; [done..| |done|done]. cbn. case_bool_decide as Hop; [|done]. unfold asked. cbn. by rewrite Hop.
  - unfold solar_timer_fires. pose proof (requests_solar now (view s)) as Hq. pose proof (solar_snapshot now (view s)) as Hv.
    destruct (updateNextSolarEvent now (view s)) as [v out]. cbn in *. apply keeps_view; [done..| |]; by rewrite Hv.
  - unfold hour_timer_fires. cbn -[updateTodayPrecipitationProbability]. apply keeps_view; [done..| |done|done]. by case_match.
Qed.

(** ** Steps of the system are steps of the service *)

Lemma asked_idle s : operation (flow s) = NoOperation -> asked s = [].
Proof. unfold asked. by intros ->. Qed.

Lemma asked_main s : List.filter is_main (asked s) =
  match operation (flow s) with
  | NoOperation => []
  | ResolveLocation => [location_reply]
  | RequestForecast => [forecast_reply (openWeatherKey keys) (service_location s)]
  end.
Proof. unfold asked, location_reply. destruct (operation (flow s)); [done| |done]. by destruct (locationMode config). Qed.

(** Of what was asked only a forecast request brings a reply that is not waited for. *)
Lemma asked_air r s : phase (flow s) -> r ∈ asked s -> is_main r = false ->
  locationResolved (flow s) = true /\ r = air_reply_for (openWeatherKey keys) (service_location s).
Proof.
  intros Hp Hr Hm. unfold asked, location_reply, performed in Hr. destruct (operation (flow s)) eqn:Ho.
  - by apply elem_of_nil in Hr.
  - apply list_elem_of_singleton in Hr as ->. by destruct (locationMode config).
  - cbn in Hr. rewrite !elem_of_cons, elem_of_nil in Hr. destruct Hr as [->|[->|[]]]; [done|]. split; [|done].
    inversion Hp as [_ _ _ Hop|? _ _ _ Hop|_ _ _ Hop]; rewrite Ho in Hop; [|done..]. by destruct (locationResolved (flow s)).
Qed.

(** An answer comes while something is under way; with the location known it is the forecast. *)
Lemma answer_of_forecast e s : phase (flow s) -> can_happen e s -> is_answer e = true ->
  operation (flow s) <> NoOperation /\ (locationResolved (flow s) = true -> operation (flow s) = RequestForecast).
Proof.
  intros Hp Hcan He. assert (operation (flow s) <> NoOperation) as Hop by (destruct e; cbn in *; congruence). split; [done|].
  intros Hl. by inversion Hp as [_ _ _ Ho|? _ _ _ Ho|_ _ _ Ho]; [rewrite Ho, Hl|rewrite Ho in Hop..].
Qed.

Lemma after_coherent e remaining y : coherent y -> can_happen e (service y) -> of_here e (service y) ->
  (forall r, r ∈ remaining -> r ∈ outstanding y) ->
  List.filter is_main remaining = (if is_answer e then [] else List.filter is_main (asked (service y))) ->
  coherent (after remaining (handle config e (service y))).1.
Proof.
  intros [Hp Hm Hair Hh Hst] Hcan Hhere Hsub Hrem. destruct (handle_keeps e (service y)) as (Hh' & Hst' & Hperf & Hloc); [done..|].
  destruct (handle_phase config e (service y) Hp Hcan) as [Hp' _]. constructor; [done| | |done|done]; cbn.
  - rewrite List.filter_app, Hrem. destruct (is_answer e); cbn [orb] in Hperf; [by rewrite Hperf|].
    case_bool_decide as Hop; [by rewrite Hperf, (asked_idle (service y))|]. destruct Hperf as [-> ->]. by rewrite app_nil_r.
  - intros r [Hr|Hr]%elem_of_app Hnm.
    + destruct (Hair r (Hsub r Hr) Hnm) as [Hl ->]. destruct (Hloc Hl) as [Hl' Hsl]. split; [done|]. f_equal. symmetry. apply Hsl.
      destruct (is_answer e) eqn:He; [right|by left]. by apply (answer_of_forecast e (service y)).
    + apply asked_air; [done| |done]. destruct (is_answer e || _) in Hperf; [by rewrite <- Hperf|].
      destruct Hperf as [Hperf _]. rewrite Hperf in Hr. by apply elem_of_nil in Hr.
Qed.

(** An outstanding reply: the one the service waits for, or an air quality. *)
Lemma reply_finishes i r y : coherent y -> outstanding y !! i = Some r ->
  (forall r', r' ∈ delete i (outstanding y) -> r' ∈ outstanding y) /\
  if is_main r then List.filter is_main (asked (service y)) = [r] /\ List.filter is_main (delete i (outstanding y)) = []
  else List.filter is_main (delete i (outstanding y)) = List.filter is_main (asked (service y)).
Proof.
  intros [_ Hm _ _ _] Hi. split; [intros r'; by apply list_elem_of_delete_inv|].
  rewrite delete_take_drop, List.filter_app. rewrite <- (take_drop_middle _ _ _ Hi), List.filter_app in Hm. cbn in Hm.
  destruct (is_main r); [|done]. rewrite asked_main in *.
  destruct (List.filter is_main (take i (outstanding y))) as [|a l]; cbn in Hm; [|by destruct l; destruct (operation _)].
  destruct (List.filter is_main (drop (S i) (outstanding y))) as [|a l]; [done|by destruct (operation _)].
Qed.

(** What a slot may signal. *)
Inductive signal_of : Slot -> provider_signal -> Prop :=
| signal_forecast new : signal_of (ForecastSlot (location new)) (forecastReady new)
| signal_resolved sl l (Hsl : sl = GeocodingSlot \/ sl = AutomaticSlot) : signal_of sl (resolved l)
| signal_failed sl d a n (Hsl : sl <> AirSlot) : signal_of sl (failed d a n)
| signal_air a : signal_of AirSlot (airQualityReady a)
| signal_no_air d : signal_of AirSlot (airQualityFailed d).

Lemma finished_signal sl now reply : signal_of sl (finished sl now reply).
Proof.
  destruct sl as [|l| |]; cbn.
  - unfold geocoding_finished. repeat case_match; constructor; auto.
  - unfold forecast_finished, handleNetworkFailure. repeat case_match; try by constructor.
    by match goal with Hp : parseOneCall _ _ _ = Some _ |- _ => destruct (parseOneCall_reads _ _ _ _ Hp) as (<- & _) end; constructor.
  - unfold air_finished, handleNetworkFailure. repeat case_match; by constructor.
  - unfold automatic_finished. repeat case_match; constructor; auto.
Qed.

Lemma location_reply_slot : slot location_reply = GeocodingSlot \/ slot location_reply = AutomaticSlot.
Proof. unfold location_reply. destruct (locationMode config); auto. Qed.

(** The slot of the reply the service waits for tells the operation. *)
Lemma waited_operation r s : List.filter is_main (asked s) = [r] ->
  match slot r with
  | ForecastSlot l => operation (flow s) = RequestForecast /\ l = service_location s
  | AirSlot => False
  | GeocodingSlot | AutomaticSlot => operation (flow s) = ResolveLocation
  end.
Proof.
  rewrite asked_main. destruct (operation (flow s)); [done| |by intros [= <-]].
  intros [= <-]. by destruct location_reply_slot as [-> | ->].
Qed.

Lemma finished_event r y now c reply i : coherent y -> outstanding y !! i = Some r ->
  let e := event_of_signal c (finished (slot r) now reply) in
  can_happen e (service y) /\ of_here e (service y) /\ is_answer e = is_main r.
Proof.
  intros Hy Hi. cbv zeta. destruct (reply_finishes i r y Hy Hi) as [_ Hr]. pose proof (finished_signal (slot r) now reply) as Hsig.
  assert (is_main r = match slot r with AirSlot => false | _ => true end) as Hmain by done. rewrite Hmain in Hr |- *.
  revert Hsig. generalize (finished (slot r) now reply). intros signal Hsig.
  destruct (slot r) eqn:Er; inversion Hsig; subst; cbn; try done; try (by destruct Hsl);
    destruct Hr as [Hr _]; apply waited_operation in Hr; rewrite Er in Hr; first [by rewrite Hr|by destruct Hr as [-> ->]].
Qed.

Lemma system_step_refines e y y' out : coherent y -> system_step e y = Some (y', out) ->
  exists e', can_happen e' (service y) /\ handle config e' (service y) = (service y', out) /\ coherent y'.
Proof.
  intros Hy Hstep.
  assert (forall remaining e', can_happen e' (service y) /\ of_here e' (service y) ->
    (forall r, r ∈ remaining -> r ∈ outstanding y) ->
    List.filter is_main remaining = (if is_answer e' then [] else List.filter is_main (asked (service y))) ->
    after remaining (handle config e' (service y)) = (y', out) ->
    exists e', can_happen e' (service y) /\ handle config e' (service y) = (service y', out) /\ coherent y') as Hafter.
  { intros remaining e' [Hcan Hhere] Hsub Hrem Heq. exists e'. split; [done|].
    pose proof (after_coherent e' remaining y Hy Hcan Hhere Hsub Hrem) as Hc. rewrite Heq in Hc. split; [|done].
    unfold after in Heq. injection Heq as <- <-. by destruct (handle config e' (service y)). }
  pose proof (coherent_main y Hy) as Hm.
  destruct e as [| |now|c|i now c reply]; cbn in Hstep.
  - apply (inj Some) in Hstep. apply (Hafter (outstanding y) Refresh); [done|auto|exact Hm|exact Hstep].
  - destruct (refreshTimer _) eqn:Et; [|done]. apply (inj Some) in Hstep. apply (Hafter (outstanding y) RefreshDue); [by split; [eexists|]|auto|exact Hm|exact Hstep].
  - destruct (solarEventTimer _) eqn:Et; [|done]. apply (inj Some) in Hstep. apply (Hafter (outstanding y) (SolarDue now)); [by split; [eexists|]|auto|exact Hm|exact Hstep].
  - destruct (localHourTimer _) eqn:Et; [|done]. apply (inj Some) in Hstep. apply (Hafter (outstanding y) (HourDue c)); [by split; [eexists|]|auto|exact Hm|exact Hstep].
  - destruct (outstanding y !! i) as [r|] eqn:Hi; [|done]. cbn in Hstep. apply (inj Some) in Hstep. rewrite connectProviders_handle in Hstep.
    destruct (finished_event r y now c reply i Hy Hi) as (Hcan & Hhere & He). destruct (reply_finishes i r y Hy Hi) as [Hsub Hr].
    eapply Hafter; [done|exact Hsub| |done]. rewrite He. destruct (is_main r); [by destruct Hr|done].
Qed.

Lemma system_run_refines es : forall s0 es0 out0 y y' out, coherent y -> run config s0 es0 out0 (service y) ->
  system_run es y = Some (y', out) ->
  coherent y' /\ exists es', length es' = length es /\ run config s0 (es0 ++ es') (out0 ++ out) (service y').
Proof.
  induction es as [|e es IH]; intros s0 es0 out0 y y' out Hy Hrun Hsys; cbn in Hsys.
  - injection Hsys as <- <-. split; [done|]. exists []. by rewrite !app_nil_r.
  - destruct (system_step e y) as [[y1 out1]|] eqn:Estep; [|done]. cbn in Hsys.
    destruct (system_run es y1) as [[y2 out2]|] eqn:Erun; [|done]. injection Hsys as <- <-.
    destruct (system_step_refines e y y1 out1 Hy Estep) as (e' & Hcan & Heq & Hy1).
    pose proof (run_step config s0 es0 out0 (service y) e' Hrun Hcan) as Hrun1. rewrite Heq in Hrun1.
    destruct (IH _ _ _ _ _ _ Hy1 Hrun1 Erun) as (Hy2 & es' & Hlen & Hr). split; [done|].
    exists (e' :: es'). split; [cbn; by rewrite Hlen|]. by rewrite <- !app_assoc in Hr.
Qed.

(** ** The start *)

Lemma loadCache_here c at_age file s : flow s = flow (new_service "") ->
  let r := loadCache config c at_age file s in
  flow r.1 = flow s /\ diagnostics r.1 = diagnostics s /\ performed keys r.2 = [].
Proof.
  intros Hf. destruct (loadCache_flow config c at_age file s) as (Hfl & Hd & Hq). repeat split; [done..|].
  by apply performed_none.
Qed.

Lemma initialize_asks c at_age file s out : initialize (Some config) "" c at_age file = (s, out) ->
  performed keys out = asked s /\ state_shown s /\ shown_here s.
Proof.
  unfold initialize. destruct (loadCache_here c at_age file (new_service "")) as (Hf & Hd & Hq); [done|].
  destruct (loadCache _ _ _ _ _) as [s1 out1]. cbn [fst snd] in *. rewrite Hd. cbn [String.eqb negb diagnostics new_service].
  assert (forall r, performed keys r.2 = asked r.1 /\ state_shown r.1 /\ shown_here r.1 ->
    (let '(s2, out2) := r in (s2, out1 ++ out2 ++ [changed])) = (s, out) ->
    performed keys out = asked s /\ state_shown s /\ shown_here s) as Hend.
  { intros [s2 out2] (Hp & Hst & Hh) [= <- <-]. cbn [fst snd] in *. rewrite !performed_app, Hq, Hp. by rewrite app_nil_r. }
  assert (let r := startOperation config false s1 in performed keys r.2 = asked r.1 /\ state_shown r.1 /\ shown_here r.1) as Hstart.
  { destruct (startOperation_asks false s1) as (Hp & Hst & _ & Hl & _); [by rewrite Hf|right; by rewrite Hf|].
    repeat split; [done..|]. unfold shown_here. by rewrite Hl, Hf. }
  apply Hend. destruct (locationMode config); [apply Hstart|apply Hstart|].
  destruct (setLocation_asks (at_solar c) {| city := ""; country := ""; latitude := DashboardConfig.latitude config;
    longitude := DashboardConfig.longitude config |} s1) as (Hp & Hst & Hh & _); [by rewrite Hf|done].
Qed.

Lemma start_coherent c at_age file y out :
  credential_diagnostic config (openWeatherKey keys) (ipGeolocationKey keys) = ""%string ->
  system_start c at_age file = (y, out) ->
  initialize (Some config) "" c at_age file = (service y, out) /\ coherent y.
Proof.
  unfold system_start, configured_service. intros ->. destruct (initialize _ _ _ _ _) as [s out'] eqn:Ei. intros [= <- <-].
  split; [done|]. destruct (initialize_asks _ _ _ _ _ Ei) as (Hp & Hst & Hh). destruct (initialize_requests _ _ _ _ _ _ Ei) as (Hph & _).
  constructor; cbn; [done|by rewrite Hp| |done|done].
  intros r Hr Hm. rewrite Hp in Hr. by apply asked_air.
Qed.

(** *** Without a key *)

(** A service whose key is missing rests in its error until the user refreshes. *)
Definition unkeyed (y : System) : Prop :=
  outstanding y = [] /\ flow (service y) = flow (new_service "") /\ state (service y) = "error"%string.

Lemma start_unkeyed c at_age file y out :
  credential_diagnostic config (openWeatherKey keys) (ipGeolocationKey keys) <> ""%string ->
  system_start c at_age file = (y, out) -> unkeyed y.
Proof.
  unfold system_start, configured_service, initialize. set (d := credential_diagnostic _ _ _). intros Hd.
  destruct (loadCache_here c at_age file (new_service d)) as (Hf & Hdiag & Hq); [done|].
  destruct (loadCache config c at_age file (new_service d)) as [s1 out1]. cbn [fst snd] in *. rewrite Hdiag.
  change (diagnostics (new_service d)) with d. rewrite (proj2 (String.eqb_neq d "") Hd). cbn [negb]. intros [= <- _].
  split; [|by split]. cbn. by rewrite performed_app, Hq.
Qed.

Lemma unkeyed_step e y y' out : unkeyed y -> system_step e y = Some (y', out) ->
  match e with Refreshed => coherent y' | _ => unkeyed y' end.
Proof.
  intros (Ho & Hf & Hst). destruct e as [| |now|c|i now c reply]; cbn [system_step]; rewrite ?Ho, ?Hf; cbn; try done.
  - intros [= <- _]. unfold refresh.
    destruct (startOperation_asks true (service y)) as (Hp & Hs & _ & Hl & _); [by rewrite Hf|by left|].
    destruct (startOperation_started config true (service y)) as (Hph & _); [by rewrite Hf|by left|by right|].
    constructor; cbn [service outstanding fst app]; [done|by rewrite Hp| |unfold shown_here; by rewrite Hl, Hf|done].
    intros r Hr Hm. rewrite Hp in Hr. by apply asked_air.
  - destruct (solarEventTimer _); [|done]. cbn. intros [= <- _]. unfold unkeyed, solar_timer_fires.
    pose proof (requests_solar now (view (service y))) as Hq.
    destruct (updateNextSolarEvent now (view (service y))) as [v o]. cbn in *. split; [by apply performed_none|by split].
  - destruct (localHourTimer _); [|done]. cbn -[updateTodayPrecipitationProbability]. intros [= <- _].
    unfold unkeyed, hour_timer_fires. cbn -[updateTodayPrecipitationProbability]. split; [by case_match|by split].
Qed.

Lemma unkeyed_run es y y' out : unkeyed y -> system_run es y = Some (y', out) ->
  (Refreshed ∈ es -> coherent y') /\ (Refreshed ∉ es -> unkeyed y').
Proof.
  revert y out. induction es as [|e es IH]; intros y out Hy; cbn [system_run].
  { intros [= <- _]. split; [by intros ?%elem_of_nil|done]. }
  destruct (system_step e y) as [[y1 out1]|] eqn:Estep; [|done]. cbn [mbind option_bind].
  destruct (system_run es y1) as [[y2 out2]|] eqn:Erun; [|done]. cbn [mbind option_bind]. intros [= <- _].
  apply unkeyed_step in Estep; [|done]. rewrite elem_of_cons.
  destruct e as [| | | |]; [|destruct (IH y1 out2 Estep Erun); naive_solver..].
  destruct (system_run_refines es (service y1) [] [] y1 y2 out2 Estep (run_nil _ _) Erun) as [Hc _].
  split; [done|]. intros Hno. destruct Hno. by left.
Qed.

(** ** Replies run out *)

(** The replies that can still finish: locating leads to two more. *)
Definition work (y : System) : nat :=
  (length (outstanding y) + if bool_decide (operation (flow (service y)) = ResolveLocation) then 2 else 0)%nat.

Definition is_reply (e : system_event) : bool := match e with ReplyFinished _ _ _ _ => true | _ => false end.

Lemma answer_operation e s : phase (flow s) -> can_happen e s -> is_answer e = true ->
  operation (flow (handle config e s).1) = NoOperation \/
  operation (flow s) = ResolveLocation /\ operation (flow (handle config e s).1) = RequestForecast.
Proof.
  intros Hp Hcan He. destruct e as [| |c new|text auth retry|now l|a|text|now|c]; cbn [handle can_happen] in *; try done.
  - left. unfold publish. by destruct (show _ _ _).
  - by left.
  - right. split; [done|]. inversion Hp as [Hf Ht Ha Ho|? _ _ _ Ho|_ _ _ Ho]; [|by rewrite Ho in Hcan..].
    destruct (setLocation_asks now l s Ha) as (_ & _ & _ & Hlr).
    unfold setLocation in *. match goal with |- context [let '(_, _) := ?p in _] => destruct p as [v out] end.
    set (s1 := {| service_location := l |}) in *.
    destruct (startOperation_started config false s1) as (Hp1 & Hf1 & _); [done|by right|by left|].
    destruct (startOperation config false s1) as [s2 out2]. cbn [fst] in *.
    inversion Hp1 as [_ _ _ Ho1|? Hf2|Hf2]; [|by rewrite Hf1 in Hf2..]. by rewrite Ho1, Hlr.
Qed.

Lemma reply_work i now c reply y y' out : coherent y -> system_step (ReplyFinished i now c reply) y = Some (y', out) ->
  (work y' < work y)%nat.
Proof.
  intros Hy Hstep. cbn in Hstep. destruct (outstanding y !! i) as [r|] eqn:Hi; [|done]. cbn in Hstep.
  apply (inj Some) in Hstep. rewrite connectProviders_handle in Hstep.
  destruct (finished_event r y now c reply i Hy Hi) as (Hcan & Hhere & He).
  set (e := event_of_signal c (finished (slot r) now reply)) in *. injection Hstep as <- _.
  pose proof (length_delete _ _ (ex_intro _ r Hi)) as Hlen. pose proof (lookup_lt_Some _ _ _ Hi) as Hlt.
  destruct Hy as [Hp _ _ Hh Hst]. destruct (handle_keeps e (service y)) as (_ & _ & Hperf & _); [done..|].
  unfold work. cbn [service outstanding]. rewrite length_app, Hlen. destruct (is_answer e) eqn:Ha; cbn [orb] in Hperf.
  - rewrite Hperf. unfold asked. destruct (answer_operation e (service y)) as [Ho|[Ho1 Ho2]]; [done..| |].
    + rewrite Ho. cbn. repeat case_bool_decide; done || lia.
    + rewrite Ho2, Ho1. cbn. repeat case_bool_decide; done || lia.
  - assert (flow (handle config e (service y)).1 = flow (service y) /\ performed keys (handle config e (service y)).2 = [])
      as [-> ->]; [|cbn [length]; case_bool_decide; lia].
    pose proof (finished_signal (slot r) now reply) as Hsig. subst e.
    destruct (finished (slot r) now reply) as [l|new|a|d|d a n]; try done. cbn. split; [done|].
    apply (performed_none (changed :: cache_output _)). unfold requests. cbn. apply requests_cache.
Qed.

Lemma replies_work es : forall y y' out, coherent y -> forallb is_reply es = true -> system_run es y = Some (y', out) ->
  (length es + work y' <= work y)%nat.
Proof.
  induction es as [|e es IH]; intros y y' out Hy Hall Hrun; cbn in *; [by injection Hrun as <- _|].
  apply andb_true_iff in Hall as [He Hall]. destruct (system_step e y) as [[y1 out1]|] eqn:Estep; [|done]. cbn in Hrun.
  destruct (system_run es y1) as [[y2 out2]|] eqn:Erun; [|done]. injection Hrun as <- _.
  destruct (system_step_refines e y y1 out1 Hy Estep) as (_ & _ & _ & Hy1).
  destruct e as [| | | |i now c reply]; try done. pose proof (reply_work _ _ _ _ _ _ _ Hy Estep). specialize (IH _ _ _ Hy1 Hall Erun). lia.
Qed.

Lemma main_count y : coherent y ->
  length (List.filter is_main (outstanding y)) = flying (service y).
Proof.
  intros [Hp Hm _ _ _]. rewrite Hm, asked_main. unfold flying.
  by inversion Hp as [Hf _ _ Ho|? Hf _ _ Ho|Hf _ _ Ho]; rewrite Hf, Ho; [destruct (locationResolved _)|..].
Qed.

(** ** What the service and its providers do together *)

(** C26. Whatever QML asks for, in whatever order timers fire and replies finish and whatever
    the replies say, the service and its providers do what one of the service's runs does.
    The providers then have exactly the replies outstanding that the service waits for:
    that of the location while it locates, of the forecast for its location while it loads,
    none while it rests, and beside them only air qualities of its location; every
    request is limited to fifteen seconds.  The forecast shown is of that location, and
    the state shown is that of the operation. *)
Theorem weather_system c at_age file y0 out0 es y out
  (Hkeys : credential_diagnostic config (openWeatherKey keys) (ipGeolocationKey keys) = ""%string)
  (Hstart : system_start c at_age file = (y0, out0)) (Hrun : system_run es y0 = Some (y, out)) :
  (exists es', length es' = length es /\ run config (service y0) es' out (service y) /\
     requests (out0 ++ out) = (answers es' + length (List.filter is_main (outstanding y)))%nat) /\
  phase (flow (service y)) /\ length (List.filter is_main (outstanding y)) = flying (service y) /\
  (forall r, r ∈ outstanding y -> transferTimeout (asked_for r) = 15000 /\
     if is_main r then
       match operation (flow (service y)) with
       | NoOperation => False
       | ResolveLocation => r = location_reply
       | RequestForecast => r = forecast_reply (openWeatherKey keys) (service_location (service y))
       end
     else locationResolved (flow (service y)) = true /\
          r = air_reply_for (openWeatherKey keys) (service_location (service y))) /\
  shown_here (service y) /\ state_shown (service y).
Proof.
  destruct (start_coherent c at_age file y0 out0 Hkeys Hstart) as [Hinit Hy0].
  destruct (system_run_refines es (service y0) [] [] y0 y out Hy0 (run_nil _ _) Hrun) as (Hy & es' & Hlen & Hr). cbn [app] in Hr.
  pose proof (main_count y Hy) as Hcount. split; [|split; [apply Hy|split; [done|split; [|split; apply Hy]]]].
  - exists es'. split; [done|]. split; [done|]. rewrite Hcount.
    by destruct (weather_requests config c at_age file (service y0) out0 es' out (service y) Hinit Hr).
  - intros r Hr'. destruct (is_main r) eqn:Hm.
    + assert (r ∈ List.filter is_main (outstanding y)) as Hin
        by (apply list_elem_of_In, filter_In; split; [by apply list_elem_of_In|done]).
      rewrite (coherent_main y Hy), asked_main in Hin. unfold location_reply in *.
      destruct (operation _); [by apply elem_of_nil in Hin| |]; apply list_elem_of_singleton in Hin as ->; [|done].
      by destruct (locationMode config).
    + destruct (coherent_air y Hy r Hr' Hm) as [Hl ->]. done.
Qed.

(** C27. The service settles, when it has the keys its configuration needs: without timers and refreshes replies finish at most three times
    more than air qualities are outstanding, any outstanding reply can be the next, and when
    none is left the service rests: it shows a forecast and its timer runs, or it shows an
    error and either its timer runs or the key was refused. *)
Theorem weather_settles c at_age file y0 out0 es y out
  (Hkeys : credential_diagnostic config (openWeatherKey keys) (ipGeolocationKey keys) = ""%string)
  (Hstart : system_start c at_age file = (y0, out0)) (Hrun : system_run es y0 = Some (y, out)) :
  (forall es' y' out', forallb is_reply es' = true -> system_run es' y = Some (y', out') ->
     (length es' <= 3 + length (List.filter (fun r => negb (is_main r)) (outstanding y)))%nat) /\
  (forall i now c' reply, (i < length (outstanding y))%nat -> is_Some (system_step (ReplyFinished i now c' reply) y)) /\
  (outstanding y = [] ->
     inFlight (flow (service y)) = false /\
     (state (service y) = "ready"%string /\ is_Some (refreshTimer (flow (service y))) \/
      state (service y) = "error"%string /\
        (is_Some (refreshTimer (flow (service y))) \/ authenticationStopped (flow (service y)) = true))).
Proof.
  destruct (start_coherent c at_age file y0 out0 Hkeys Hstart) as [_ Hy0].
  destruct (system_run_refines es (service y0) [] [] y0 y out Hy0 (run_nil _ _) Hrun) as (Hy & _). split; [|split].
  - intros es' y' out' Hall Hrun'. pose proof (replies_work es' y y' out' Hy Hall Hrun') as Hw.
    assert (length (outstanding y) = length (List.filter is_main (outstanding y)) +
      length (List.filter (fun r => negb (is_main r)) (outstanding y)))%nat as Hsplit.
    { clear. induction (outstanding y) as [|r l IH]; [done|]. cbn. destruct (is_main r); cbn; lia. }
    rewrite (main_count y Hy) in Hsplit. unfold work in Hw. unfold flying in Hsplit. repeat case_match; case_bool_decide; lia.
  - intros i now c' reply Hi. cbn. destruct (lookup_lt_is_Some_2 _ _ Hi) as [r ->]. by eexists.
  - intros Hnone. pose proof (main_count y Hy) as Hcount. rewrite Hnone in Hcount. unfold flying in Hcount.
    destruct Hy as [Hp _ _ _ Hst]. unfold state_shown in Hst. destruct (inFlight (flow (service y))) eqn:Hf; [done|]. split; [done|].
    inversion Hp as [Hf' _ _ _|d _ Ht _ Ho|_ Ht Ha Ho]; [by rewrite Hf in Hf'|rewrite Ho in Hst..].
    + rewrite Ht. destruct Hst as [->|[-> _]]; [right|left]; split; eauto.
    + destruct Hst as [->|[_ Hst]]; [by right; auto|by rewrite Ha in Hst].
Qed.
End configured.
End system.

(** ** A run of the system *)

#[local] Existing Instance sample_replies.

Definition sample_keys : Keys := {| openWeatherKey := [Byte.x6b]; ipGeolocationKey := [] |}.

(** A reply of the given status with a body of one byte. *)
Definition reply_of_status (status : Z) : Finished :=
  {| no_error := status =? 200; http_status := status; retry_after := [];
     collected_reply := {| available := []; aborted := false; maximum_bytes_ := kMaximumResponseBytes;
                           body_ := [Byte.x7b]; exceeded_limit_ := false |} |}.

(** The air quality is read, the forecast is refused for now, and the timer asks for both again. *)
Definition sample_system_events : list system_event :=
  [ReplyFinished 1 0 (sample_clock 1700000000000) (reply_of_status 200);
   ReplyFinished 0 0 (sample_clock 1700000000000) (reply_of_status 429); RefreshTimer].

Definition sample_system_start : System * list output :=
  system_start sample_config sample_keys (sample_clock 1700000000000) 0 None.

Definition sample_system (n : nat) : System * list output :=
  default sample_system_start (system_run sample_config sample_keys (firstn n sample_system_events) sample_system_start.1).

Lemma weather_system_witness : length (outstanding (sample_system 3).1) = 2%nat /\
  is_Some (airQuality (snapshot (view (service (sample_system 3).1)))) /\
  phase (flow (service (sample_system 3).1)) /\ state_shown (service (sample_system 3).1).
Proof.
  split; [vm_compute; reflexivity|]. split; [vm_compute; by eexists|].
  destruct (weather_system sample_config sample_keys (sample_clock 1700000000000) 0 None sample_system_start.1 sample_system_start.2
    sample_system_events (sample_system 3).1 (sample_system 3).2 eq_refl (surjective_pairing sample_system_start)
    ltac:(vm_compute; reflexivity)) as (_ & Hp & _ & _ & _ & Hs).
  split; [exact Hp|exact Hs].
Defined.

Lemma weather_settles_witness : outstanding (sample_system 2).1 = [] /\
  inFlight (flow (service (sample_system 2).1)) = false /\ state (service (sample_system 2).1) = "error"%string.
Proof.
  split; [vm_compute; reflexivity|].
  destruct (weather_settles sample_config sample_keys (sample_clock 1700000000000) 0 None sample_system_start.1 sample_system_start.2
    (firstn 2 sample_system_events) (sample_system 2).1 (sample_system 2).2 eq_refl (surjective_pairing sample_system_start)
    ltac:(vm_compute; reflexivity)) as (_ & _ & Hs).
  destruct Hs as [Hf _]; [vm_compute; reflexivity|]. split; [exact Hf|vm_compute; reflexivity].
Defined.

(** Providers that belong to something else are refused. *)
Example owned_providers_refused c at_age file : service_of_providers sample_config false true false c at_age file = None.
Proof. reflexivity. Qed.

(** Without its key the service shows an error and asks for nothing; a refresh then asks for
    the location although the configuration gives the coordinates. *)
Example missing_key_refresh :
  let keys := {| openWeatherKey := []; ipGeolocationKey := [] |} in
  let y := (system_start sample_config keys (sample_clock 1700000000000) 0 None).1 in
  locationMode sample_config = DashboardConfig.Coordinates /\ outstanding y = [] /\ state (service y) = "error"%string /\
  option_map (fun r => map slot (outstanding r.1)) (system_step sample_config keys Refreshed y) = Some [AutomaticSlot].
Proof. repeat split; vm_compute; reflexivity. Qed.
