(* ===== verification/WeatherBindings.v ===== *)
(** * What the weather service announces (src/weather/weather_service.h)

    The Q_PROPERTYs of [WeatherService] with their NOTIFY signals.  A handler that changes
    what a property reads emits its signal.  A handler emits [changed] after its last
    change of the state, and [solarEventChanged] after the last change of the event, so
    that a binding reads what the handler leaves.  There is one exception, a flaw: the local time
    of the next sunrise or sunset also depends on the offset from UTC, which a forecast may
    change while the event stays. *)

From S2P Require Import Prelude.
From S2P Require Import Std.
From S2P Require Import Float64.
From S2P Require DashboardConfig.
From S2P Require Import QtModel.
From S2P Require Import Json.
From S2P Require Import Weather.
From S2P Require Import WeatherService.
From S2P Require Import WeatherCache.
From S2P Require Import WeatherSample.
From S2P Require Import WeatherLaws.

(** Equal for QML: numbers by their value. *)
Definition same_value (a b : QVariant) : Prop :=
  a = b \/ match a, b with OfDouble x, OfDouble y => deqb x y = true | _, _ => False end.

Section bindings.
Context `{WeatherLibrary} `{JsonLibrary}.

Definition conditions (s : WeatherService) : CurrentConditions := current (snapshot (view s)).
Definition date_value (t : QDateTime) : QVariant := match t with Some ms => OfDateTime ms | None => Invalid end.

Definition airQualityIndex (s : WeatherService) : Z := match airQuality (snapshot (view s)) with Some a => aq_index a | None => 0 end.
Definition airQualityCategory (s : WeatherService) : string :=
  match airQuality (snapshot (view s)) with Some a => category a | None => "" end.

(** The properties that change: name, READ function and NOTIFY signal. *)
Definition properties : list (string * (WeatherService -> QVariant) * output) :=
  [("state", fun s => OfText (state s), changed);
   ("stale", fun s => OfBool (stale s), changed);
   ("lastSuccessUtc", fun s => date_value (fetchedUtc (snapshot (view s))), changed);
   ("diagnostics", fun s => OfText (diagnostics s), changed);
   ("city", fun s => OfText (city (location (snapshot (view s)))), changed);
   ("country", fun s => OfText (country (location (snapshot (view s)))), changed);
   ("condition", fun s => OfText (condition (conditions s)), changed);
   ("iconCode", fun s => OfText (cc_iconCode (conditions s)), changed);
   ("temperatureCelsius", fun s => OfDouble (temperatureCelsius (conditions s)), changed);
   ("feelsLikeCelsius", fun s => OfDouble (feelsLikeCelsius (conditions s)), changed);
   ("highCelsius", fun s => OfDouble (highCelsius (conditions s)), changed);
   ("lowCelsius", fun s => OfDouble (lowCelsius (conditions s)), changed);
   ("humidityPercent", fun s => OfDouble (humidityPercent (conditions s)), changed);
   ("windSpeedKmh", fun s => OfDouble (windSpeedKmh (conditions s)), changed);
   ("windDirection", fun s => optionalText (windDirection s), changed);
   ("airQualityIndex", fun s => OfInteger (airQualityIndex s), changed);
   ("airQualityCategory", fun s => OfText (airQualityCategory s), changed);
   ("localSunset", fun s => OfText (localSunset s), changed);
   ("nextSolarEventKind", fun s => OfText (nextSolarEventKind (view s)), solarEventChanged);
   ("localNextSolarEventTime", fun s => OfText (localNextSolarEventTime s), solarEventChanged);
   ("todayRainProbabilityPercent", fun s => OfDouble (todayPrecipitationProbabilityPercent (snapshot (view s))), changed);
   ("todayPrecipitationKind", fun s => OfText (todayPrecipitationKind (snapshot (view s))), changed);
   ("todayPrecipitationProbabilityPercent",
      fun s => OfDouble (todayPrecipitationProbabilityPercent (snapshot (view s))), changed)]%string.

Section runs.
Context (config : WeatherConfig).

(** What is shown apart from the solar event stays, but for equal probabilities of rain. *)
Definition shows_same (s s' : WeatherService) : Prop :=
  state s' = state s /\ stale s' = stale s /\ diagnostics s' = diagnostics s /\
  exists p, snapshot (view s') = snapshot (view s) \/
    snapshot (view s') = with_today p (snapshot (view s)) /\
    deqb p (todayPrecipitationProbabilityPercent (snapshot (view s))) = true.

Definition solar_same (s s' : WeatherService) : Prop :=
  nextSolarEventUtc (view s') = nextSolarEventUtc (view s) /\ nextSolarEventKind (view s') = nextSolarEventKind (view s).

Lemma shows_same_refl s : shows_same s s.
Proof. repeat split. exists d0. by left. Qed.

Lemma solar_announced now v : solarEventChanged ∈ (updateNextSolarEvent now v).2 \/
  nextSolarEventUtc (updateNextSolarEvent now v).1 = nextSolarEventUtc v /\
  nextSolarEventKind (updateNextSolarEvent now v).1 = nextSolarEventKind v.
Proof.
  unfold updateNextSolarEvent. set (r := match select_event _ _ with Some _ => _ | None => _ end). destruct r as [[utc kind] timer]. cbn.
  case_bool_decide as E; cbn; [|left; by left]. destruct (String.eqb_spec kind (nextSolarEventKind v)); cbn; [by right|left; by left].
Qed.

Lemma renew_announced now hs ds offset v : let r := renew_models now hs ds offset v in
  solarEventChanged ∈ r.2 \/ nextSolarEventUtc r.1 = nextSolarEventUtc v /\ nextSolarEventKind r.1 = nextSolarEventKind v.
Proof.
  destruct (solar_announced now (replace_models hs ds offset v)) as [Hs|Hs]; [left|by right]. cbn. by do 2 right.
Qed.

Lemma startOperation_announced manual s :
  (changed ∈ (startOperation config manual s).2 \/ startOperation config manual s = (s, [])) /\
  view (startOperation config manual s).1 = view s.
Proof.
  unfold startOperation. destruct (inFlight _); [by split; [right|]|]. destruct (negb manual && _); [by split; [right|]|].
  split; [left; by left|done].
Qed.

Lemma handle_changed e s : phase (flow s) -> can_happen e s ->
  changed ∈ (handle config e s).2 \/ shows_same s (handle config e s).1.
Proof.
  intros Hp Hcan. destruct e as [| |c new|text auth retry|now l|a|text|now|c]; cbn [handle can_happen] in *.
  - destruct (startOperation_announced true s) as [[?|Hs] _]; [by left|right]. unfold refresh. rewrite Hs. apply shows_same_refl.
  - unfold refresh_timer_fires. set (s1 := {| service_location := _ |}).
    destruct (startOperation_announced false s1) as [[?|Hs] _]; [by left|right]. rewrite Hs. exact (shows_same_refl s).
  - left. unfold publish. destruct (show _ _ _) as [v out]. cbn. rewrite !elem_of_app. right. right. by left.
  - left. right. by left.
  - left. inversion Hp as [Hf Ht Ha Ho|? _ _ _ Ho|_ _ _ Ho]; [|by rewrite Ho in Hcan..].
    unfold setLocation. match goal with |- context [let '(_, _) := ?p in _] => destruct p as [v out] end.
    unfold startOperation. cbn [flow inFlight authenticationStopped negb andb]. rewrite Ha. cbn.
    apply elem_of_app. right. by left.
  - left. by left.
  - left. right. by left.
  - right. unfold solar_timer_fires. pose proof (solar_snapshot now (view s)) as Hv. destruct (updateNextSolarEvent now (view s)) as [v out].
    repeat split. exists d0. by left.
  - unfold hour_timer_fires. cbn -[deqb today_maximum]. destruct (deqb _ _) eqn:E; [right|left; by left].
    repeat split. eexists. right. split; [done|]. exact E.
Qed.

Lemma handle_solar e s : solarEventChanged ∈ (handle config e s).2 \/ solar_same s (handle config e s).1.
Proof.
  destruct e as [| |c new|text auth retry|now l|a|text|now|c]; cbn [handle].
  - right. unfold solar_same, refresh. by rewrite (proj2 (startOperation_announced true s)).
  - right. unfold refresh_timer_fires, solar_same. by rewrite (proj2 (startOperation_announced false _)).
  - unfold publish, show. match goal with |- context [renew_models ?n ?a ?b ?c ?v] => pose proof (renew_announced n a b c v) as Hs; destruct (renew_models n a b c v) as [v' out] end.
    cbn in *. destruct Hs as [Hs|Hs]; [left; by apply elem_of_app; left|by right].
  - by right.
  - unfold setLocation. match goal with |- context [let '(_, _) := ?p in _] => destruct p as [v out] eqn:Ev end.
    set (s1 := {| service_location := l |}). pose proof (proj2 (startOperation_announced false s1)) as Hv.
    destruct (startOperation config false s1) as [s2 out2]. cbn [fst snd] in *. unfold solar_same. rewrite Hv. cbn [view s1].
    destruct (_ && _); [|injection Ev as <- <-; by right].
    match type of Ev with renew_models ?n ?a ?b ?c ?v = _ => pose proof (renew_announced n a b c v) as Hs end.
    rewrite Ev in Hs. destruct Hs as [Hs|Hs]; [left; by apply elem_of_app; left|by right].
  - by right.
  - by right.
  - unfold solar_timer_fires. pose proof (solar_announced now (view s)) as Hs. by destruct (updateNextSolarEvent now (view s)) as [v out].
  - by right.
Qed.

(** Only a forecast changes the offset while there is a next event. *)
Lemma handle_offset e s : (forall c new, e <> Forecast c new) ->
  timezoneOffsetSeconds (snapshot (view (handle config e s).1)) = timezoneOffsetSeconds (snapshot (view s)) \/
  nextSolarEventUtc (view (handle config e s).1) = None.
Proof.
  intros He. destruct e as [| |c new|text auth retry|now l|a|text|now|c]; cbn [handle].
  - left. unfold refresh. by rewrite (proj2 (startOperation_announced true s)).
  - left. unfold refresh_timer_fires. by rewrite (proj2 (startOperation_announced false _)).
  - by destruct (He c new).
  - by left.
  - unfold setLocation. match goal with |- context [let '(_, _) := ?p in _] => destruct p as [v out] eqn:Ev end.
    set (s1 := {| service_location := l |}). pose proof (proj2 (startOperation_announced false s1)) as Hv.
    destruct (startOperation config false s1) as [s2 out2]. cbn [fst snd] in *. rewrite Hv. cbn [view s1].
    destruct (_ && _); [right|left; by injection Ev as <- _]. unfold renew_models, updateNextSolarEvent in Ev. cbn in Ev. by injection Ev as <- _.
  - by left.
  - by left.
  - left. unfold solar_timer_fires. pose proof (solar_snapshot now (view s)) as Hv. destruct (updateNextSolarEvent now (view s)). cbn in *. by rewrite Hv.
  - by left.
Qed.

(** The properties announced by [changed] read what [shows_same] keeps. *)
Lemma shown_properties s s' property read : (property, read, changed) ∈ properties -> shows_same s s' ->
  same_value (read s') (read s).
Proof.
  intros Hproperty (Hst & Hsl & Hd & p & Hsn). unfold properties in Hproperty. apply list_elem_of_In in Hproperty; cbn [In] in Hproperty.
  repeat (destruct Hproperty as [[= <- <-]|Hproperty]); try done; unfold same_value, conditions, windDirection, localSunset,
    airQualityIndex, airQualityCategory; try (left; congruence);
    (destruct Hsn as [Hsn|[Hsn Hprob]]; rewrite Hsn; [by left|first [by left|right; exact Hprob]]).
Qed.

(** ** The lists of hours and days *)

(** What a view shows of a list model after outputs: what the model was when last reset. *)
Definition hours_shown (out : list output) (m : HourlyForecastModel) : HourlyForecastModel :=
  fold_left (fun m o => match o with hourlyReset m' => m' | _ => m end) out m.
Definition days_shown (out : list output) (m : DailyForecastModel) : DailyForecastModel :=
  fold_left (fun m o => match o with dailyReset m' => m' | _ => m end) out m.

(** A view that is current before the outputs is current after them. *)
Definition models_follow (v : View) (out : list output) (v' : View) : Prop :=
  hours_shown out (hourlyModel v) = hourlyModel v' /\ days_shown out (dailyModel v) = dailyModel v'.

Lemma models_follow_app v a v1 b v2 : models_follow v a v1 -> models_follow v1 b v2 -> models_follow v (a ++ b) v2.
Proof. unfold models_follow, hours_shown, days_shown. intros [Ha Hd] [Hb He]. by rewrite !fold_left_app, Ha, Hd. Qed.

Lemma solar_follows now v : models_follow v (updateNextSolarEvent now v).2 (updateNextSolarEvent now v).1.
Proof.
  unfold updateNextSolarEvent. set (r := match select_event _ _ with Some _ => _ | None => _ end). destruct r as [[utc kind] timer].
  cbn. by destruct (_ || _).
Qed.

Lemma renew_follows now hs ds offset v : models_follow v (renew_models now hs ds offset v).2 (renew_models now hs ds offset v).1.
Proof. exact (solar_follows now (replace_models hs ds offset v)). Qed.

Lemma startOperation_follows manual s : models_follow (view s) (startOperation config manual s).2 (view (startOperation config manual s).1).
Proof.
  unfold startOperation. destruct (inFlight _); [done|]. destruct (negb manual && _); [done|]. cbn.
  destruct (locationResolved _); [done|]. by destruct (locationMode config).
Qed.

Lemma cache_follows s v : models_follow v (cache_output s) v.
Proof. unfold cache_output. by destruct (fetchedUtc s). Qed.

Lemma handle_follows e s : models_follow (view s) (handle config e s).2 (view (handle config e s).1).
Proof.
  destruct e as [| |c new|text auth retry|now l|a|text|now|c]; cbn [handle].
  - apply startOperation_follows.
  - exact (startOperation_follows false _).
  - unfold publish, show. match goal with |- context [renew_models ?n ?a ?b ?c ?v] => pose proof (renew_follows n a b c v) as Hs; destruct (renew_models n a b c v) as [v' out] end.
    eapply models_follow_app; [exact Hs|]. eapply models_follow_app; [apply cache_follows|done].
  - done.
  - unfold setLocation. match goal with |- context [let '(_, _) := ?p in _] => destruct p as [v out] eqn:Ev end.
    set (s1 := {| service_location := l |}). pose proof (startOperation_follows false s1) as Hs.
    destruct (startOperation config false s1) as [s2 out2]. apply (models_follow_app _ _ v); [|exact Hs].
    destruct (_ && _); [|by injection Ev as <- <-].
    match type of Ev with renew_models ?n ?a ?b ?c ?v = _ => pose proof (renew_follows n a b c v) as Hr end. by rewrite Ev in Hr.
  - exact (cache_follows _ _).
  - done.
  - unfold solar_timer_fires. pose proof (solar_follows now (view s)) as Hs. by destruct (updateNextSolarEvent now (view s)) as [v out].
  - unfold hour_timer_fires. cbn -[deqb today_maximum]. by destruct (deqb _ _).
Qed.

Lemma run_follows s es out s' : run config s es out s' -> models_follow (view s) out (view s').
Proof. induction 1 as [|s es out s' e _ IH _]; [done|]. eapply models_follow_app; [exact IH|apply handle_follows]. Qed.

Lemma property_announced c at_age file s0 out0 es out s e property read notify
  (Hstart : initialize (Some config) "" c at_age file = (s0, out0)) (Hrun : run config s0 es out s) (Hcan : can_happen e s)
  (Hproperty : (property, read, notify) ∈ properties) :
  let s' := (handle config e s).1 in
  same_value (read s') (read s) \/ notify ∈ (handle config e s).2 \/
  property = "localNextSolarEventTime"%string /\ (exists c new, e = Forecast c new) /\
    nextSolarEventUtc (view s') = nextSolarEventUtc (view s) /\
    timezoneOffsetSeconds (snapshot (view s')) <> timezoneOffsetSeconds (snapshot (view s)).
Proof.
  cbv zeta. destruct (initialize_requests config _ _ _ _ _ Hstart) as (Hp0 & _). destruct (run_phase config _ _ _ _ Hrun Hp0) as [Hp _].
  pose proof (handle_changed e s Hp Hcan) as Hc. pose proof (handle_solar e s) as Hs.
  assert (notify = changed \/ property = "nextSolarEventKind"%string /\ read = (fun s => OfText (nextSolarEventKind (view s))) /\ notify = solarEventChanged \/
    property = "localNextSolarEventTime"%string /\ read = (fun s => OfText (localNextSolarEventTime s)) /\ notify = solarEventChanged)
    as [->|[(-> & -> & ->)|(-> & -> & ->)]].
  { unfold properties in Hproperty. apply list_elem_of_In in Hproperty; cbn [In] in Hproperty.
    repeat (destruct Hproperty as [[= <- <- <-]|Hproperty]); auto. done. }
  - destruct Hc as [Hc|Hc]; [right; by left|left]. by eapply shown_properties.
  - destruct Hs as [Hs|[_ Hs]]; [right; by left|left; left]. by rewrite Hs.
  - destruct Hs as [Hs|[Hs _]]; [right; by left|]. set (s' := (handle config e s).1) in *. unfold same_value, localNextSolarEventTime.
    rewrite Hs. destruct (nextSolarEventUtc (view s)) as [t|] eqn:Ht; [|by left; left].
    destruct (decide (timezoneOffsetSeconds (snapshot (view s')) = timezoneOffsetSeconds (snapshot (view s)))) as [->|Hne]; [by left; left|].
    right. right. split; [done|]. split; [|done].
    assert ((exists c new, e = Forecast c new) \/ forall c new, e <> Forecast c new) as [?|Hno] by (destruct e; eauto; by right).
    { done. }
    destruct (handle_offset e s Hno) as [Ho|Hnone]; [fold s' in Ho|fold s' in Hnone]; congruence.
Qed.

(** C28. QML is told what changes.  In every run of the service, a handler that changes what a
    property reads emits the NOTIFY signal of the property, with one exception: a forecast
    that changes the offset from UTC but not the instant of the next solar event changes
    the local time of that event in silence.  And a view of the hours or of the days, which
    reads the whole model when it is reset, shows the model after every run. *)
Theorem weather_changes_announced c at_age file s0 out0 es out s e
  (Hstart : initialize (Some config) "" c at_age file = (s0, out0)) (Hrun : run config s0 es out s) (Hcan : can_happen e s) :
  let s' := (handle config e s).1 in
  (forall property read notify, (property, read, notify) ∈ properties ->
     same_value (read s') (read s) \/ notify ∈ (handle config e s).2 \/
     property = "localNextSolarEventTime"%string /\ (exists c new, e = Forecast c new) /\
       nextSolarEventUtc (view s') = nextSolarEventUtc (view s) /\
       timezoneOffsetSeconds (snapshot (view s')) <> timezoneOffsetSeconds (snapshot (view s))) /\
  hours_shown out (hourlyModel (view s0)) = hourlyModel (view s) /\
  days_shown out (dailyModel (view s0)) = dailyModel (view s).
Proof.
  cbv zeta. split; [|apply (run_follows _ _ _ _ Hrun)]. intros property read notify. by eapply property_announced.
Qed.
End runs.
End bindings.

(** ** Concrete handlers *)

Definition with_offset (offset : Z) (s : Snapshot) : Snapshot :=
  {| sn_provider := sn_provider s; location := location s; timezone := timezone s; timezoneOffsetSeconds := offset;
     fetchedUtc := fetchedUtc s; current := current s; hourly := hourly s; daily := daily s; airQuality := airQuality s;
     sn_sunsetUtc := sn_sunsetUtc s; todayRainProbabilityPercent := todayRainProbabilityPercent s;
     todayPrecipitationKind := todayPrecipitationKind s;
     todayPrecipitationProbabilityPercent := todayPrecipitationProbabilityPercent s |}.

(** The first forecast arrives. *)
Definition sample_forecast : event := Forecast (sample_clock 1700000001000) sample_snapshot.

Lemma weather_changes_announced_witness :
  OfText (state (handle sample_config sample_forecast sample_start.1).1) <> OfText (state sample_start.1) /\
  changed ∈ (handle sample_config sample_forecast sample_start.1).2.
Proof.
  split; [vm_compute; discriminate|].
  destruct (weather_changes_announced sample_config (sample_clock 1700000000000) 0 None sample_start.1 sample_start.2
    [] [] sample_start.1 sample_forecast (surjective_pairing sample_start) (run_nil _ _) ltac:(vm_compute; reflexivity))
    as [Hproperties _].
  destruct (Hproperties "state"%string (fun s => OfText (state s)) changed ltac:(unfold properties; left))
    as [Hs|[Hc|[Hname _]]]; [|exact Hc|discriminate Hname].
  destruct Hs as [Hs|Hs]; [vm_compute in Hs; discriminate Hs|destruct Hs].
Defined.

(** The clocks change between two forecasts: the same sunrise, an hour later by the local
    clock, and nothing says so. *)
Example solar_time_changes_in_silence :
  let s := (handle sample_config sample_forecast sample_start.1).1 in
  let r := handle sample_config (Forecast (sample_clock 1700000002000) (with_offset 7200 sample_snapshot)) s in
  localNextSolarEventTime s <> localNextSolarEventTime r.1 /\ nextSolarEventUtc (view r.1) = nextSolarEventUtc (view s) /\
  solarEventChanged ∉ r.2.
Proof.
  assert (forall o : list output, existsb (fun x => match x with solarEventChanged => true | _ => false end) o = false ->
    solarEventChanged ∉ o) as Hno.
  { intros o Ho Hin. apply list_elem_of_In in Hin.
    apply not_true_iff_false in Ho. apply Ho, existsb_exists. by exists solarEventChanged. }
  cbv zeta. split; [vm_compute; discriminate|]. split; [vm_compute; reflexivity|].
  apply Hno. vm_compute. reflexivity.
Qed.
