(* ===== verification/WeatherView.v ===== *)
(** * What the weather view shows

    The next sunrise or sunset, and the probability of precipitation for the rest of the
    day, as functions of the snapshot and the clock, and how long they stay right. *)

From S2P Require Import Prelude.
From S2P Require Import Std.
From S2P Require Import Float64.
From S2P Require Import QtModel.
From S2P Require Import Weather.
From S2P Require Import WeatherService.

(** ** The next solar event *)

(** [e] is the first of the earliest events after [now]. *)
Definition earliest (now : Z) (events : list (QDateTime * string)) (e : option (Z * string)) : Prop :=
  match e with
  | Some (t, kind) => now < t /\ (Some t, kind) ∈ events /\ forall t' k, (Some t', k) ∈ events -> now < t' -> t <= t'
  | None => forall t k, (Some t, k) ∈ events -> t <= now
  end.

Lemma select_event_snoc now events e : select_event now (events ++ [e]) =
  match e with
  | (Some t, kind) => if (now <? t) && match select_event now events with Some (best, _) => t <? best | None => true end
                      then Some (t, kind) else select_event now events
  | (None, _) => select_event now events
  end.
Proof. unfold select_event. by rewrite fold_left_app. Qed.

Lemma select_event_earliest now events : earliest now events (select_event now events).
Proof.
  induction events as [|[[t|] kind] events IH] using rev_ind.
  - intros t k Hin. by apply elem_of_nil in Hin.
  - rewrite select_event_snoc. destruct (select_event now events) as [[best kb]|]; cbn [earliest] in *.
    + destruct IH as (Hb & Hin & Hmin).
      destruct (Z.ltb_spec now t), (Z.ltb_spec t best); cbn [andb earliest]; (split; [lia|]; split; [set_solver|]);
        intros t' k [He|He]%elem_of_app Hlt; try (specialize (Hmin t' k He Hlt)); try lia;
        apply list_elem_of_singleton in He; simplify_eq; lia.
    + destruct (Z.ltb_spec now t); cbn [andb earliest].
      * split; [done|]. split; [set_solver|]. intros t' k [He|He]%elem_of_app Hlt.
        -- specialize (IH t' k He). lia.
        -- apply list_elem_of_singleton in He. simplify_eq. lia.
      * intros t' k [He|He]%elem_of_app; [by apply (IH t' k)|]. apply list_elem_of_singleton in He. by simplify_eq.
  - rewrite select_event_snoc. destruct (select_event now events) as [[best kb]|]; cbn [earliest] in *.
    + destruct IH as (Hb & Hin & Hmin). split; [done|]. split; [set_solver|]. intros t' k Hin'. apply (Hmin t' k). set_solver.
    + intros t' k Hin'. apply (IH t' k). set_solver.
Qed.

(** ** The rest of the day *)

Lemma dmax_upper m x y : dltb m y = false -> dltb (dmax m x) y = false.
Proof.
  unfold dmax. intros Hm. destruct (dltb m x) eqn:E; [|done]. destruct (dltb x y) eqn:E'; [|done].
  by rewrite (dltb_trans m x y) in Hm.
Qed.

Lemma dmax_right m x : dltb (dmax m x) x = false.
Proof. unfold dmax. destruct (dltb m x) eqn:E; [apply dltb_irrefl|done]. Qed.

(** The hour of a moment of the local day, and the day, do not change before the timer. *)
Lemma hour_boundary offset now t :
  now <= t < now + hour_delay offset now - 1 ->
  date_of (t + offset * 1000) = date_of (now + offset * 1000) /\
  hour_of (t + offset * 1000) = hour_of (now + offset * 1000).
Proof.
  unfold hour_delay, clamp_int, date_of, hour_of, int32_max. set (n := now + offset * 1000). set (u := t + offset * 1000).
  replace t with (u - n + now) by (unfold u, n; lia). intros Hlt.
  assert (Hd : u / 86400000 = n / 86400000); [|split; [done|]]; Z.to_euclidean_division_equations; lia.
Qed.

Definition max_step (offset now : Z) (maximum : double) (row : HourlyForecast) : double :=
  if rest_of_day offset now row then dmax maximum (h_precipitationProbabilityPercent row) else maximum.

Lemma today_maximum_eq s now : today_maximum s now = fold_left (max_step (timezoneOffsetSeconds s) now) (hourly s) d0.
Proof. done. Qed.

Lemma max_fold offset now rows :
  let m := fold_left (max_step offset now) rows d0 in
  (forall row, row ∈ rows -> rest_of_day offset now row = true ->
     dltb m (h_precipitationProbabilityPercent row) = false) /\
  (m = d0 \/ exists row, row ∈ rows /\ rest_of_day offset now row = true /\ m = h_precipitationProbabilityPercent row).
Proof.
  induction rows as [|row rows [Hup Hat]] using rev_ind; [by split; [intros ? ?%elem_of_nil|left]|].
  rewrite fold_left_app. cbn [fold_left]. set (m := fold_left _ rows d0) in *.
  unfold max_step. destruct (rest_of_day offset now row) eqn:Er; split.
  - intros r [Hr|Hr%list_elem_of_singleton]%elem_of_app Hd; [apply dmax_upper; by apply Hup|]. subst. apply dmax_right.
  - unfold dmax. destruct (dltb m (h_precipitationProbabilityPercent row)); [right; exists row; split; [set_solver|done]|].
    destruct Hat as [Hz|(r & Hr & Hd & Hm)]; [by left|right; exists r; split; [set_solver|done]].
  - intros r [Hr|Hr%list_elem_of_singleton]%elem_of_app Hd; [by apply Hup|]. congruence.
  - destruct Hat as [Hz|(r & Hr & Hd & Hm)]; [by left|right; exists r; split; [set_solver|done]].
Qed.

Lemma max_fold_ext offset now now' rows :
  date_of (now' + offset * 1000) = date_of (now + offset * 1000) ->
  hour_of (now' + offset * 1000) = hour_of (now + offset * 1000) ->
  fold_left (max_step offset now') rows d0 = fold_left (max_step offset now) rows d0.
Proof.
  intros Hd Hh. generalize d0. induction rows as [|row rows IH]; intros m; [done|]. cbn [fold_left]. rewrite IH.
  f_equal. unfold max_step, rest_of_day. by rewrite Hd, Hh.
Qed.

Lemma signal_iff (utc utc' : QDateTime) (kind kind' : string) :
  let out := if negb (bool_decide (utc = utc')) || negb (String.eqb kind kind') then [solarEventChanged] else [] in
  (out = [] <-> utc = utc' /\ kind = kind') /\ (out = [] \/ out = [solarEventChanged]).
Proof. case_bool_decide; destruct (String.eqb_spec kind kind'); cbn; intuition congruence. Qed.

Section view.
Context `{WeatherLibrary}.

(** The next solar event is the earliest sunrise or sunset of the forecast after the
    moment it is computed; without one the icon tells day from night.  A timer is set to
    just after the event, so that what it then computes is a later one, and a signal
    tells every change. *)
Theorem next_solar_event now v :
  let '(v', out) := updateNextSolarEvent now v in
  let events := solar_events (snapshot v) in
  match nextSolarEventUtc v', solarEventTimer v' with
  | Some t, Some delay =>
      earliest now events (Some (t, nextSolarEventKind v')) /\ 1 < delay <= int32_max /\
      (t - now < int32_max -> forall now' t' kind, now + delay <= now' -> select_event now' events = Some (t', kind) -> t < t')
  | None, None => earliest now events None /\ nextSolarEventKind v' = event_of_icon (cc_iconCode (current (snapshot v)))
  | _, _ => False
  end /\
  snapshot v' = snapshot v /\
  (out = [] <-> nextSolarEventUtc v' = nextSolarEventUtc v /\ nextSolarEventKind v' = nextSolarEventKind v) /\
  (out = [] \/ out = [solarEventChanged]).
Proof.
  unfold updateNextSolarEvent. pose proof (select_event_earliest now (solar_events (snapshot v))) as He.
  destruct (select_event now _) as [[t kind]|] eqn:Es; cbn [nextSolarEventUtc solarEventTimer nextSolarEventKind snapshot].
  - split; [|split; [done|]].
    + split; [done|]. destruct He as (Hlt & _). unfold clamp_int, int32_max in *. split; [lia|].
      intros Hsoon now' t' k Hnow Hsel. pose proof (select_event_earliest now' (solar_events (snapshot v))) as He'.
      rewrite Hsel in He'. destruct He' as (? & _). lia.
    + apply signal_iff.
  - split; [done|]. split; [done|]. apply signal_iff.
Qed.

(** The probability shown for today is the largest of the forecast hours from the
    current local hour to the end of the local day, zero if there is none; it stays right
    until the hour timer recomputes it just after the next full local hour. *)
Theorem today_precipitation now v :
  let v' := scheduleLocalHourBoundary now (updateTodayPrecipitationProbability now v) in
  let s := snapshot v' in
  let p := todayPrecipitationProbabilityPercent s in
  let remaining row := row ∈ hourly s /\ rest_of_day (timezoneOffsetSeconds s) now row = true in
  hourly s = hourly (snapshot v) /\
  (forall row, remaining row -> dltb p (h_precipitationProbabilityPercent row) = false) /\
  (p = d0 \/ exists row, remaining row /\ p = h_precipitationProbabilityPercent row) /\
  match localHourTimer v' with
  | Some delay => 1 < delay <= 3600001 /\ (now + timezoneOffsetSeconds s * 1000 + delay) mod 3600000 = 1 /\
                  forall now', now <= now' < now + delay - 1 -> today_maximum s now' = p
  | None => fetchedUtc s = None
  end.
Proof.
  cbn. set (s := snapshot v). rewrite !today_maximum_eq.
  destruct (max_fold (timezoneOffsetSeconds s) now (hourly s)) as [Hup Hat].
  split; [done|]. split; [intros row [Hr Hd]; by apply Hup|].
  split; [destruct Hat as [Hz|(r & Hr & Hd & Hm)]; [by left|right; by exists r]|].
  destruct (fetchedUtc s); [|done]. split; [|split].
  - unfold hour_delay, clamp_int, date_of, hour_of, int32_max. Z.to_euclidean_division_equations. lia.
  - unfold hour_delay, clamp_int, date_of, hour_of, int32_max. Z.to_euclidean_division_equations. lia.
  - intros now' Hnow. destruct (hour_boundary _ _ _ Hnow) as [Hd Hh]. by apply max_fold_ext.
Qed.
End view.
