(* ===== verification/WeatherIcons.v ===== *)
(** * Weather icons (src/dashboard/weather_icon_provider.cpp)

    [WeatherIconProvider]: which file an icon is read from, and with which colours.  The
    image reader, the resource files and the replacement by a regular expression are
    Qt's and parameters. *)

From S2P Require Import Prelude.
From S2P Require Import Std.
From S2P Require Weather.
From S2P Require WeatherService.

(** The eighteen texts the expression describes. *)
Definition icon_codes : list string :=
  (fun '(n, d) => (n ++ d)%string) <$>
    (n ← ["01"; "02"; "03"; "04"; "09"; "10"; "11"; "13"; "50"]; d ← ["d"; "n"]; [(n, d)])%string.

(** A match of "^(01|...|50)[dn]$": the end of the text, or a last newline. *)
Definition valid_code (s : string) : bool :=
  existsb (fun code => String.eqb s code || String.eqb s (code ++ String newline "")%string) icon_codes.

(** [identifier.section('?', 0, 0)] *)
Definition before_query (identifier : string) : string :=
  match find_char "?" identifier with Some n => str_take n identifier | None => identifier end.

Definition safeIconCode (identifier : string) : string :=
  if valid_code (before_query identifier) then before_query identifier else "03d".

(** ** The image *)

Class ImageLibrary := {
  image : Type;
  null_image : image;
  image_size : image -> Z * Z;
  replace_style : string -> string -> string;      (* QString::replace of the style element in an SVG *)
  read_svg : string -> Z * Z -> image }.           (* QImageReader with a scaled size *)

(** [parts.value(i, fallback)] *)
Definition part (parts : list string) (i : nat) (fallback : string) : string := default fallback (parts !! i).

Definition dquote : string := String quote "".

Section icons.
Context `{ImageLibrary}.

Definition recolorStylesheet (svg textColor neutralColor highlightColor : string) : string :=
  replace_style svg
    ("<style id=" ++ dquote ++ "current-color-scheme" ++ dquote ++ ">.ColorScheme-Text { color: " ++ textColor
     ++ "; }.ColorScheme-NeutralText { color: " ++ neutralColor
     ++ "; }.ColorScheme-Highlight { color: " ++ highlightColor ++ "; }</style>").

Definition icon_file (code : string) : string := (":/rpi-dashboard/weather-icons/" ++ code ++ ".svg")%string.

(** The image, and the size it reports when the file can be read; [requestedSize] is [None]
    when it is not valid. *)
Definition requestImage (resources : string -> option string) (identifier : string) (requestedSize : option (Z * Z))
  : image * option (Z * Z) :=
  let parts := split_on "/" identifier in
  let code := safeIconCode (part parts 0 "") in
  let text := part parts 1 "8b95a5" in
  let neutral := part parts 2 "ff9e64" in
  let highlight := part parts 3 "7657ff" in
  match resources (icon_file code) with
  | None => (null_image, None)
  | Some contents =>
      let svg := recolorStylesheet contents ("#" ++ text) ("#" ++ neutral) ("#" ++ highlight) in
      let img := read_svg svg (default (64, 64) requestedSize) in
      (img, Some (image_size img))
  end.
End icons.

(** ** Which icons are shown *)

Lemma icon_codes_eq : icon_codes =
  concat (map (fun n => [n ++ "d"; n ++ "n"]) ["01"; "02"; "03"; "04"; "09"; "10"; "11"; "13"; "50"])%string.
Proof. reflexivity. Qed.

Lemma icon_code_length code : code ∈ icon_codes -> String.length code = 3%nat.
Proof. unfold icon_codes. cbn. rewrite !elem_of_cons, elem_of_nil. intuition (subst; reflexivity). Qed.

(** The provider and the service accept the same codes. *)
Lemma valid_code_supported s : valid_code s = WeatherService.isSupportedIconCode s.
Proof.
  apply eq_true_iff_eq. unfold valid_code, WeatherService.isSupportedIconCode. rewrite <- icon_codes_eq, !existsb_exists.
  setoid_rewrite <- list_elem_of_In. setoid_rewrite orb_true_iff. setoid_rewrite String.eqb_eq. split.
  - intros (code & Hin & [-> | ->]); exists code; (split; [done|]); rewrite ?length_string_app, (icon_code_length code Hin); [done|].
    cbn [String.length Nat.add]. apply icon_code_length in Hin. destruct code as [|a [|b [|c []]]]; done.
  - intros (code & Hin & E). exists code. split; [done|]. apply icon_code_length in Hin as Hl.
    destruct (String.length s) as [|[|[|[|[|]]]]] eqn:El; subst; auto.
    case_if; [|auto]. right. unfold ends_with in Heqb. bool_facts. apply String.eqb_eq in H0.
    rewrite El in H0. change (4 - String.length (String newline ""))%nat with 3%nat in H0.
    rewrite <- (str_take_drop 3 s) at 1. by rewrite H0.
Qed.

(** Whatever the identifier is, the file read is that of a supported code, and the icon of
    a supported code is the code's own. *)
Theorem icon_is_known identifier :
  valid_code (safeIconCode identifier) = true /\
  (forall code, code ∈ icon_codes -> safeIconCode code = code).
Proof.
  split; [unfold safeIconCode; by case_if|]. intros code Hin.
  assert (E : forallb (fun c => String.eqb (safeIconCode c) c) icon_codes = true) by reflexivity.
  rewrite forallb_forall in E. apply String.eqb_eq, E. by apply list_elem_of_In.
Qed.
