(* ===== verification/CacheLaws.v ===== *)
(** * The weather cache is faithful

    [loadCache] reads back what [saveCache] wrote, up to what the file does not hold, and
    shows nothing of a file that does not belong to the configuration. *)

From S2P Require Import Prelude.
From S2P Require Import Std.
From S2P Require Import Float64.
From S2P Require DashboardConfig.
From S2P Require Import QtModel.
From S2P Require Import Json.
From S2P Require Import Weather.
From S2P Require Import WeatherService.
From S2P Require Import WeatherCache.
From S2P Require Import WeatherSample.

(** ** What the file keeps *)

(** A date as text has no milliseconds. *)
Definition to_second (t : QDateTime) : QDateTime := option_map (fun ms => ms / 1000 * 1000) t.

Definition restored_hourly (row : HourlyForecast) : HourlyForecast :=
  {| h_timestampUtc := to_second (h_timestampUtc row); h_iconCode := h_iconCode row;
     h_temperatureCelsius := h_temperatureCelsius row;
     h_precipitationProbabilityPercent := h_precipitationProbabilityPercent row; h_rainMillimetres := None |}.

Definition restored_daily (row : DailyForecast) : DailyForecast :=
  {| d_timestampUtc := to_second (d_timestampUtc row); sunriseUtc := to_second (sunriseUtc row);
     sunsetUtc := to_second (sunsetUtc row); d_iconCode := d_iconCode row; minimumCelsius := minimumCelsius row;
     maximumCelsius := maximumCelsius row; averageCelsius := averageCelsius row;
     d_precipitationProbabilityPercent := d_precipitationProbabilityPercent row;
     rainMillimetres := rainMillimetres row; snowMillimetres := snowMillimetres row |}.

Definition restored_current (c : CurrentConditions) : CurrentConditions :=
  {| observedUtc := None; condition := condition c; cc_iconCode := cc_iconCode c;
     temperatureCelsius := temperatureCelsius c; feelsLikeCelsius := feelsLikeCelsius c; highCelsius := highCelsius c;
     lowCelsius := lowCelsius c; humidityPercent := humidityPercent c; pressureHpa := d0;
     windSpeedKmh := windSpeedKmh c; windDegrees := windDegrees c; cc_rainMillimetres := None |}.

Definition restored_air (a : AirQuality) : AirQuality :=
  {| aq_index := aq_index a; category := category a; pm25 := None |}.

(** The snapshot the file of [s] holds, before the probability for today is computed. *)
Definition restored (s : Snapshot) : Snapshot :=
  {| sn_provider := sn_provider s; location := location s; timezone := "";
     timezoneOffsetSeconds := timezoneOffsetSeconds s; fetchedUtc := to_second (fetchedUtc s);
     current := restored_current (current s); hourly := map restored_hourly (hourly s);
     daily := map restored_daily (take 5 (daily s)); airQuality := option_map restored_air (airQuality s);
     sn_sunsetUtc := to_second (sn_sunsetUtc s); todayRainProbabilityPercent := d0;
     todayPrecipitationKind := todayPrecipitationKind s; todayPrecipitationProbabilityPercent := d0 |}.

(** ** Snapshots that can be kept *)

Definition number_ok (d : double) : Prop := json_number_ok d = true.
Definition optional_ok (d : option double) : Prop := match d with Some x => number_ok x | None => True end.
Definition percent_ok (d : double) : Prop := number_ok d /\ outside 0 100 d = false.
Definition int_ok (z : Z) : Prop := - int32_max - 1 <= z <= int32_max.

(** The years 1970 to 9999. *)
Definition date_ok (t : QDateTime) : Prop := match t with Some ms => 0 <= ms < 253402300800000 | None => True end.

Definition hourly_ok (row : HourlyForecast) : Prop :=
  is_Some (h_timestampUtc row) /\ date_ok (h_timestampUtc row) /\ number_ok (h_temperatureCelsius row) /\
  percent_ok (h_precipitationProbabilityPercent row).

Definition daily_ok (row : DailyForecast) : Prop :=
  (is_Some (d_timestampUtc row) /\ date_ok (d_timestampUtc row)) /\ date_ok (sunriseUtc row) /\ date_ok (sunsetUtc row) /\
  (number_ok (minimumCelsius row) /\ number_ok (maximumCelsius row) /\ percent_ok (d_precipitationProbabilityPercent row)) /\
  optional_ok (averageCelsius row) /\ optional_ok (rainMillimetres row) /\ optional_ok (snowMillimetres row).

Definition current_ok (c : CurrentConditions) : Prop :=
  number_ok (temperatureCelsius c) /\ number_ok (feelsLikeCelsius c) /\ number_ok (highCelsius c) /\
  number_ok (lowCelsius c) /\ percent_ok (humidityPercent c) /\
  (number_ok (windSpeedKmh c) /\ dltb (windSpeedKmh c) d0 = false) /\ number_ok (windDegrees c).

Definition location_ok (l : Location) : Prop :=
  number_ok (latitude l) /\ outside (-90) 90 (latitude l) = false /\
  number_ok (longitude l) /\ outside (-180) 180 (longitude l) = false.

Section laws.
Context `{WeatherLibrary} `{JsonLibrary} (config : WeatherConfig).

Record cacheable (s : Snapshot) : Prop := {
  c_provider : sn_provider s = DashboardConfig.provider config;
  c_location : location_ok (location s);
  c_matches : location_matches config (location s) = true;
  c_offset : int_ok (timezoneOffsetSeconds s);
  c_fetched : is_Some (fetchedUtc s) /\ date_ok (fetchedUtc s);
  c_sunset : date_ok (sn_sunsetUtc s);
  c_kind : todayPrecipitationKind s <> ""%string;
  c_current : current_ok (current s);
  c_hourly : Forall hourly_ok (hourly s) /\ (length (hourly s) <= 64)%nat;
  c_daily : Forall daily_ok (daily s);
  c_air : match airQuality s with Some a => int_ok (aq_index a) | None => True end }.

Lemma number_finite d : number_ok d -> isfinite d = true.
Proof. unfold number_ok, json_number_ok. by intros [[_ Hf]%andb_prop _]%andb_prop. Qed.

Lemma number_json d : number_ok d -> json_ok (JNumber d) = true.
Proof. done. Qed.

Lemma optional_json d : optional_ok d -> json_ok (optionalJson d) = true.
Proof. by destruct d. Qed.

Lemma optional_reads d : optionalDoubleOf (optionalJson d) = d.
Proof. by destruct d. Qed.

Lemma int_json z : int_ok z -> json_ok (of_int z) = true.
Proof. unfold int_ok, int32_max. intros Hz. apply integer_json. lia. Qed.

Lemma date_reads t : date_ok t -> read_date (JText (date_text t)) = to_second t.
Proof. destruct t as [ms|]; intros Ht; cbn; [by apply iso_date_reads|apply iso_date_empty]. Qed.

Ltac lookups := rewrite ?jvalue_of; cbn [jassoc fold_left fst snd String.eqb Ascii.eqb Bool.eqb jtext jdouble jarray jobject].

Lemma hourly_reads row : hourly_ok row -> read_hourly (hourlyJson row) = Some (restored_hourly row).
Proof.
  intros ([t Ht] & Hd & Hn & Hp & Ho). unfold read_hourly, validNumber. unfold hourlyJson. cbn [negb is_jobject_of]. lookups.
  rewrite date_reads by done. rewrite Ht. cbn. rewrite !number_finite by done. rewrite Ho. cbn.
  unfold restored_hourly. by rewrite Ht.
Qed.

Lemma daily_reads row : daily_ok row -> read_daily (dailyJson row) = Some (restored_daily row).
Proof.
  intros ([[t Ht] Hd] & Hr & Hs & (Hlo & Hhi & Hp & Ho) & _). unfold read_daily, validNumber. unfold dailyJson. lookups.
  rewrite !date_reads by done. rewrite Ht. cbn. rewrite !number_finite by done. rewrite Ho. cbn. lookups.
  rewrite !optional_reads. unfold restored_daily. by rewrite Ht.
Qed.

Lemma current_reads c : current_ok c -> read_current (currentJson c) = Some (restored_current c).
Proof.
  intros (H1 & H2 & H3 & H4 & (H5 & Ho) & (H6 & Hw) & H7). unfold read_current, validNumber. cbn [forallb].
  unfold currentJson. lookups. rewrite !number_finite by done. cbn [andb negb]. by rewrite Ho, Hw.
Qed.

Lemma air_reads a : int_ok (aq_index a) -> read_air (airJson a) = Some (restored_air a).
Proof.
  intros Ha. unfold read_air. pose proof (jobject_of_nonempty ("index"%string, of_int (aq_index a)) [("category"%string, JText (category a))]) as Hne.
  unfold airJson. destruct (jobject (jobject_of _)) eqn:E; [done|]. lookups. by rewrite jint_of_int.
Qed.

Lemma mapM_reads {A B} (read : json -> option B) (write : A -> json) (keep : A -> B) rows :
  Forall (fun row => read (write row) = Some (keep row)) rows -> mapM read (map write rows) = Some (map keep rows).
Proof. induction 1 as [|row rows Hr _ IH]; cbn; [done|]. by rewrite Hr, IH. Qed.

Lemma cacheJson_air s : exists rest, cacheJson s = jobject_of rest /\
  jassoc "airQuality" rest = match airQuality s with Some a => airJson a | None => JUndefined end /\
  forall key, key <> "airQuality"%string -> jassoc key rest = jassoc key
    [("schemaVersion", of_int 1); ("provider", JText (sn_provider s)); ("location", locationJson (location s));
     ("timezoneOffset", of_int (timezoneOffsetSeconds s)); ("fetched", JText (date_text (fetchedUtc s)));
     ("sunset", JText (date_text (sn_sunsetUtc s))); ("precipitationKind", JText (todayPrecipitationKind s));
     ("current", currentJson (current s)); ("hourly", JArray (map hourlyJson (hourly s)));
     ("daily", JArray (map dailyJson (take 5 (daily s))))]%string.
Proof.
  eexists. split; [done|]. split; [by destruct (airQuality s)|]. intros key Hne. unfold jassoc. rewrite fold_left_app.
  destruct (airQuality s); [|done]. cbn [fold_left fst snd]. by rewrite (proj2 (String.eqb_neq _ _)) by done.
Qed.

Lemma location_reads l : jsonLocation (locationJson l) = l.
Proof. unfold jsonLocation, locationJson. lookups. by destruct l. Qed.

Lemma length_rows {A} (write : A -> json) n rows : (length rows <= n)%nat -> (n <? length (map write rows))%nat = false.
Proof. intros Hn. rewrite length_map. apply Nat.ltb_ge. lia. Qed.

(** What [read_cache] makes of the file of a snapshot. *)
Lemma read_cacheJson s : cacheable s -> read_cache config (cacheJson s) = Some (restored s).
Proof.
  intros [Hp (Hla & Hlar & Hlo & Hlor) Hm Hoff [[t Ht] Hd] Hsun Hk Hc [Hh Hhl] Hday Hair]. unfold read_cache.
  destruct (cacheJson_air s) as (rest & -> & Ha & Hrest). rewrite is_jobject_of. cbn [negb].
  rewrite !jvalue_of, Ha, !Hrest by done. cbn [jassoc fold_left fst snd String.eqb Ascii.eqb Bool.eqb jtext jarray is_jarray].
  rewrite jint_of_int by (unfold int32_max; lia). unfold locationJson at 1, currentJson at 1. rewrite !is_jobject_of.
  rewrite !length_rows by (try rewrite length_take; lia). rewrite Hp, String.eqb_refl, location_reads, !date_reads by done.
  rewrite Ht. cbn [negb orb Z.eqb Pos.eqb to_second option_map mbind option_bind].
  rewrite !number_finite, Hlar, Hlor, Hm, current_reads by done. cbn [negb orb mbind option_bind].
  rewrite (mapM_reads _ _ restored_hourly) by (eapply Forall_impl; [exact Hh|apply hourly_reads]).
  rewrite (mapM_reads _ _ restored_daily) by (apply Forall_take; eapply Forall_impl; [exact Hday|apply daily_reads]).
  cbn [mbind option_bind]. rewrite jint_of_int by done.
  rewrite (proj2 (String.eqb_neq _ _)) by done. unfold restored. rewrite Hp, Ht. cbn [to_second option_map].
  do 2 f_equal. destruct (airQuality s); [by apply air_reads|done].
Qed.

(** The whole document survives being written. *)
Lemma rows_json {A} (write : A -> json) rows :
  Forall (fun row => json_ok (write row) = true) rows -> json_ok (JArray (map write rows)) = true.
Proof. intros Hr. cbn. induction Hr as [|row rows Hj _ IH]; [done|]. cbn. by rewrite Hj, IH. Qed.

Lemma hourly_json row : hourly_ok row -> json_ok (hourlyJson row) = true.
Proof.
  intros (_ & _ & Hn & Hp & _). apply json_ok_object. cbn [forallb snd]. by rewrite !number_json by done.
Qed.

Lemma daily_json row : daily_ok row -> json_ok (dailyJson row) = true.
Proof.
  intros (_ & _ & _ & (Hlo & Hhi & Hp & _) & Ha & Hr & Hs). apply json_ok_object. cbn [forallb snd].
  by rewrite !number_json, !optional_json by done.
Qed.

Lemma current_json c : current_ok c -> json_ok (currentJson c) = true.
Proof.
  intros (H1 & H2 & H3 & H4 & (H5 & _) & (H6 & _) & H7). apply json_ok_object. cbn [forallb snd].
  by rewrite !number_json by done.
Qed.

Lemma location_json l : location_ok l -> json_ok (locationJson l) = true.
Proof. intros (H1 & _ & H2 & _). apply json_ok_object. cbn [forallb snd]. by rewrite !number_json by done. Qed.

Lemma cacheJson_json s : cacheable s -> json_ok (cacheJson s) = true.
Proof.
  intros [Hp Hl Hm Hoff Hf Hsun Hk Hc [Hh _] Hday Hair]. apply json_ok_object. rewrite forallb_app. cbn [forallb snd].
  rewrite (int_json 1), (int_json (timezoneOffsetSeconds s)), location_json, current_json
    by (done || (unfold int_ok, int32_max; lia)).
  rewrite !rows_json by (try apply Forall_take; eapply Forall_impl; [eassumption|apply hourly_json || apply daily_json]).
  destruct (airQuality s) as [a|]; [|done]. cbn [forallb snd]. unfold airJson. rewrite json_ok_object; [done|].
  cbn [forallb snd]. by rewrite int_json.
Qed.

(** C30. The cache is faithful: after a snapshot that belongs to the configuration was
    saved, loading the file shows that snapshot again, with its dates cut to seconds,
    without the fields the file does not hold, with the probability for today computed
    anew, and marked stale exactly when it is older than twenty minutes.  A save that
    fails leaves the previous file. *)
Theorem weather_cache_roundtrip s file svc c at_age (Hs : cacheable s) :
  let '(svc', out) := loadCache config c at_age (saveCache true s file) svc in
  snapshot (view svc') = with_today (today_maximum (restored s) (at_precipitation c)) (restored s) /\
  hm_rows (hourlyModel (view svc')) = take 8 (map restored_hourly (hourly s)) /\
  dm_rows (dailyModel (view svc')) = map restored_daily (take 5 (daily s)) /\
  state svc' = "ready"%string /\ flow svc' = flow svc /\
  (forall t, to_second (fetchedUtc s) = Some t -> stale svc' = (kCacheStaleSeconds <? Z.quot (at_age - t) 1000)) /\
  saveCache false s file = file.
Proof.
  pose proof (c_fetched s Hs) as [[t Ht] _]. unfold loadCache, saveCache. rewrite Ht. cbn [mbind option_bind].
  rewrite from_to_json by (apply cacheJson_json, Hs || done). cbn [mbind option_bind]. rewrite read_cacheJson by done.
  unfold show, renew_models, updateNextSolarEvent. destruct (match select_event _ _ with Some _ => _ | None => _ end) as [[utc kind] timer].
  cbn. rewrite Ht. cbn [to_second option_map]. repeat split; try done.
  - unfold hourly_replace. by destruct (match _ with [] => _ | _ :: _ => _ end) as [lo hi].
  - rewrite take_ge; [done|]. rewrite length_map, length_take. lia.
  - by intros ? [= <-].
Qed.

(** ** Files that are not the service's own *)

Definition within (lo hi : Z) (d : double) : Prop :=
  isfinite d = true /\ dltb d (double_of_Z lo) = false /\ dltb (double_of_Z hi) d = false.

Definition percent_shown (d : double) : Prop := within 0 100 d.

Lemma within_outside lo hi d : isfinite d = true -> outside lo hi d = false -> within lo hi d.
Proof. unfold outside. by intros Hf [? ?]%orb_false_iff. Qed.

(** The place the configuration asks for: the coordinates as far as four decimals show them,
    or the city as far as its first comma, in whatever case; any place if the address of
    the machine decides. *)
Definition configured_place (l : Location) : Prop :=
  match DashboardConfig.locationMode config with
  | DashboardConfig.Coordinates =>
      (format4 (latitude l) ++ "," ++ format4 (longitude l) =
       format4 (DashboardConfig.latitude config) ++ "," ++ format4 (DashboardConfig.longitude config))%string
  | DashboardConfig.City => exists name rest, DashboardConfig.city config = (name ++ rest)%string /\
      str_forall (fun c => negb (Ascii.eqb "," c)) name = true /\ (rest = ""%string \/ exists more, rest = String "," more) /\
      same_text (city l) name = true
  | DashboardConfig.Automatic => True
  end.

Lemma matches_configured l : location_matches config l = true -> configured_place l.
Proof.
  unfold location_matches, configured_place. destruct (DashboardConfig.locationMode config); [done| |by intros ?%String.eqb_eq].
  unfold first_section, find_char. intros Hs. destruct (find_if (is_char ",") (DashboardConfig.city config)) as [n|] eqn:E.
  - apply find_if_Some in E as (Hname & c & more & Hrest & Hc). apply Ascii.eqb_eq in Hc as <-.
    exists (str_take n (DashboardConfig.city config)), (String "," more). split; [by rewrite <- Hrest, str_take_drop|].
    split; [exact Hname|]. split; [right; by exists more|done].
  - apply find_if_None in E. exists (DashboardConfig.city config), ""%string. split; [by rewrite string_app_nil|].
    split; [exact E|]. split; [by left|done].
Qed.

(** What can be shown, whatever was in the file. *)
Record shown_ok (s : Snapshot) : Prop := {
  sh_provider : sn_provider s = DashboardConfig.provider config;
  sh_latitude : within (-90) 90 (latitude (location s));
  sh_longitude : within (-180) 180 (longitude (location s));
  sh_place : configured_place (location s);
  sh_fetched : is_Some (fetchedUtc s);
  sh_current : Forall (fun d => isfinite d = true)
    [temperatureCelsius (current s); feelsLikeCelsius (current s); highCelsius (current s); lowCelsius (current s);
     windDegrees (current s)];
  sh_humidity : percent_shown (humidityPercent (current s));
  sh_wind : isfinite (windSpeedKmh (current s)) = true /\ dltb (windSpeedKmh (current s)) d0 = false;
  sh_hourly : (length (hourly s) <= 64)%nat /\ Forall (fun row => is_Some (h_timestampUtc row) /\
    isfinite (h_temperatureCelsius row) = true /\ percent_shown (h_precipitationProbabilityPercent row)) (hourly s);
  sh_daily : (length (daily s) <= 16)%nat /\ Forall (fun row => is_Some (d_timestampUtc row) /\
    isfinite (minimumCelsius row) = true /\ isfinite (maximumCelsius row) = true /\
    percent_shown (d_precipitationProbabilityPercent row)) (daily s);
  sh_kind : todayPrecipitationKind s <> ""%string }.

Lemma validNumber_finite v key : validNumber v key = true -> isfinite (jdouble (jvalue key v)) = true.
Proof. unfold validNumber. by destruct (jvalue key v). Qed.

Lemma read_hourly_sound v row : read_hourly v = Some row -> is_Some (h_timestampUtc row) /\
  isfinite (h_temperatureCelsius row) = true /\ percent_shown (h_precipitationProbabilityPercent row).
Proof.
  unfold read_hourly. destruct (is_jobject v); [|done]. destruct (read_date _) as [t|]; [|done]. cbn.
  destruct (validNumber v "temperature") eqn:E1; [|done]. destruct (validNumber v "precipitation") eqn:E2; [|done].
  destruct (outside 0 100 _) eqn:E3; [done|]. intros [= <-].
  split_and!; [by eexists|by apply validNumber_finite|]. apply within_outside; [by apply validNumber_finite|done].
Qed.

Lemma read_daily_sound v row : read_daily v = Some row -> is_Some (d_timestampUtc row) /\
  isfinite (minimumCelsius row) = true /\ isfinite (maximumCelsius row) = true /\
  percent_shown (d_precipitationProbabilityPercent row).
Proof.
  unfold read_daily. destruct (is_jobject v); [|done]. destruct (read_date (jvalue "timestamp" v)) as [t|]; [|done]. cbn.
  destruct (validNumber v "minimum") eqn:E1; [|done]. destruct (validNumber v "maximum") eqn:E2; [|done].
  destruct (validNumber v "precipitation") eqn:E3; [|done].
  destruct (outside 0 100 _) eqn:E4; [done|]. intros [= <-].
  split_and!; [by eexists|by apply validNumber_finite|by apply validNumber_finite|].
  apply within_outside; [by apply validNumber_finite|done].
Qed.

Lemma read_current_sound v c : read_current v = Some c ->
  Forall (fun d => isfinite d = true) [temperatureCelsius c; feelsLikeCelsius c; highCelsius c; lowCelsius c; windDegrees c] /\
  percent_shown (humidityPercent c) /\ isfinite (windSpeedKmh c) = true /\ dltb (windSpeedKmh c) d0 = false.
Proof.
  unfold read_current. destruct (forallb _ _) eqn:Ef; [|done]. cbn [negb]. rewrite forallb_forall in Ef.
  destruct (outside 0 100 _) eqn:E1; [done|]. destruct (dltb _ d0) eqn:E2; [done|]. intros [= <-]. cbn [temperatureCelsius
    feelsLikeCelsius highCelsius lowCelsius windDegrees humidityPercent windSpeedKmh].
  assert (forall key, In key ["temperature"; "feelsLike"; "high"; "low"; "humidity"; "windSpeed"; "windDegrees"]%string ->
    isfinite (jdouble (jvalue key v)) = true) as Hfinite by (intros key Hin; by apply validNumber_finite, Ef).
  split; [repeat constructor; apply Hfinite; cbn; tauto|]. split; [apply within_outside; [apply Hfinite; cbn; tauto|done]|].
  split; [apply Hfinite; cbn; tauto|done].
Qed.

Lemma mapM_sound {A} (P : A -> Prop) (read : json -> option A) l rows :
  (forall v row, read v = Some row -> P row) -> mapM read l = Some rows -> Forall P rows /\ length rows = length l.
Proof.
  intros Hr Hm. apply mapM_Some in Hm. split; [|by symmetry; eapply Forall2_length].
  induction Hm as [|v row l rows Hv _ IH]; constructor; eauto.
Qed.

Lemma read_cache_sound root s : read_cache config root = Some s -> shown_ok s.
Proof.
  unfold read_cache. destruct (is_jobject root); [|done]. cbn [negb].
  match goal with |- (if ?b then _ else _) = _ -> _ => destruct b eqn:Eh; [done|] end.
  destruct (String.eqb_spec (jtext (jvalue "provider" root)) (DashboardConfig.provider config)); [|done]. cbn [negb].
  destruct (read_date (jvalue "fetched" root)) as [fetched|]; [|done]. cbn [mbind option_bind].
  match goal with |- (if ?b then _ else _) = _ -> _ => destruct b eqn:El; [done|] end.
  destruct (location_matches _ _) eqn:Em; [|done]. cbn [negb].
  destruct (read_current _) as [c|] eqn:Ec; [|done]. cbn [mbind option_bind].
  destruct (mapM read_hourly _) as [hs|] eqn:Ehs; [|done]. cbn [mbind option_bind].
  destruct (mapM read_daily _) as [ds|] eqn:Eds; [|done]. cbn [mbind option_bind]. intros [= <-].
  apply read_current_sound in Ec as (? & ? & ? & ?). apply matches_configured in Em. apply (mapM_sound _ _ _ _ read_hourly_sound) in Ehs as [? Hl1].
  apply (mapM_sound _ _ _ _ read_daily_sound) in Eds as [? Hl2].
  rewrite !orb_false_iff, !negb_false_iff in El. destruct El as (((? & ?) & ?) & ?). rewrite !orb_false_iff, !Nat.ltb_ge in Eh.
  constructor; cbn -[within]; try tauto; try done; try (split; [lia|done]); try (by apply within_outside).
  destruct (String.eqb_spec (jtext (jvalue "precipitationKind" root)) ""); [done|congruence].
Qed.

(** C31. Whatever the cache file holds, loading it either leaves the service as it was or
    shows a snapshot of the configured provider and of the place the configuration asks for,
    with coordinates on the globe, finite temperatures and wind degrees, humidity, wind speed
    and precipitation probabilities in their ranges, a time for each row and no more rows than
    the models take; the requests are not affected. *)
Theorem weather_cache_checked file svc c at_age :
  let '(svc', out) := loadCache config c at_age file svc in
  (svc' = svc /\ out = []) \/
  (shown_ok (snapshot (view svc')) /\ state svc' = "ready"%string /\ flow svc' = flow svc /\
   service_location svc' = service_location svc).
Proof.
  unfold loadCache. destruct (f ← file; root ← from_json f; read_cache config root) as [cached|] eqn:E; [|by left].
  destruct file as [f|]; [|done]. cbn in E. destruct (from_json f) as [root|]; [|done]. cbn in E.
  apply read_cache_sound in E as []. unfold show, renew_models, updateNextSolarEvent.
  destruct (match select_event _ _ with Some _ => _ | None => _ end) as [[utc kind] timer]. right. split; [by constructor|done].
Qed.
End laws.

(** ** A snapshot that is kept *)

Lemma number_ok_integer z : Z.abs z < 2 ^ 53 -> number_ok (double_of_Z z).
Proof. apply integer_json. Qed.

#[local] Hint Extern 1 (number_ok _) => apply number_ok_integer; lia : dash.
#[local] Hint Extern 1 (_ = false) => vm_compute; reflexivity : dash.

Lemma sample_cacheable : cacheable sample_config sample_snapshot.
Proof.
  constructor; cbn [sample_snapshot sn_provider location timezoneOffsetSeconds fetchedUtc sn_sunsetUtc
    todayPrecipitationKind current hourly daily airQuality].
  - reflexivity.
  - split_and!; cbn [latitude longitude]; auto with dash.
  - vm_compute. reflexivity.
  - unfold int_ok, int32_max. lia.
  - split; [by eexists|cbn; lia].
  - cbn. lia.
  - discriminate.
  - unfold current_ok, percent_ok. split_and!; auto with dash.
  - split; [|cbn; lia]. unfold hourly_ok, percent_ok.
    repeat (apply Forall_cons; split); [| |constructor]; split_and!; auto with dash; (by eexists) || (cbn; lia).
  - constructor; [|constructor]. unfold daily_ok, percent_ok.
    split_and!; auto with dash; try exact I; (by eexists) || (cbn; lia) || (cbn; auto with dash).
  - cbn. unfold int_ok, int32_max. lia.
Qed.

Lemma weather_cache_roundtrip_witness :
  snapshot (view (loadCache sample_config (sample_clock 1700000100000) 1700000100000
    (saveCache true sample_snapshot None) (new_service "")).1) =
  with_today (double_of_Z 55) (restored sample_snapshot).
Proof.
  pose proof (weather_cache_roundtrip sample_config sample_snapshot None (new_service "")
    (sample_clock 1700000100000) 1700000100000 sample_cacheable) as Hr.
  destruct (loadCache _ _ _ _ _) as [svc out]. destruct Hr as [Hr _]. cbn [fst]. rewrite Hr. reflexivity.
Defined.
