(* ===== verification/Projects.v ===== *)
(** * Projects: health, rows and replies (src/projects)

    [project_health.cpp] and the functions of [projects_service.cpp] that do not touch
    the service's state: polling and rate limits, the rows and their order, and what a
    reply of GitHub's REST interface is turned into.  Qt's date, text and JSON functions
    are parameters ([ProjectsLibrary]). *)

From S2P Require Import Prelude.
From S2P Require Import Std.
From S2P Require Import Float64.
From S2P Require Import QtModel.
From S2P Require Import Json.

(** The addresses the service asks for. *)
Inductive Url :=
| PublicRepositories (owner : string) (page : Z)
| PrivateRepositories (page : Z)
| WorkflowRuns (repository branch : string)
| Runners (repository : string)
| Jobs (repository : string) (run_id : Z)
| Artifacts (repository : string) (run_id : Z).

#[export] Instance Url_eq_dec : EqDecision Url. Proof. solve_decision. Defined.

(** What the sources use of Qt. *)
Class ProjectsLibrary := {
  from_iso : string -> QDateTime;               (* QDateTime::fromString(text, Qt::ISODate) *)
  to_lower : string -> string;                  (* QString::toLower *)
  same_name : string -> string -> bool;         (* QString::compare(..., Qt::CaseInsensitive) == 0 *)
  one_decimal : double -> string;               (* QString::arg(value, 0, 'f', 1) *)
  variant_longlong : json -> Z;                 (* QJsonValue::toVariant().toLongLong() *)
  to_longlong : list byte -> option Z;          (* QByteArray::toLongLong(&ok) *)
  arg : string -> string -> string;             (* QString::arg(text) *)
  url_text : Url -> string;                     (* QUrl::toString *)
  from_json_bytes : list byte -> option json    (* QJsonDocument::fromJson; none after a parse error *) }.

(** What each [QUrl] is made from: the text given to its constructor and the items of its
    [QUrlQuery]. *)
Record Address := { base : string; query : list (string * string) }.

Definition public_address `{ProjectsLibrary} (owner : string) (page : Z) : Address :=
  {| base := arg "https://api.github.com/users/%1/repos" owner;
     query := [("per_page", "100"); ("page", number_text page); ("type", "owner")] |}%string.

Definition private_address (page : Z) : Address :=
  {| base := "https://api.github.com/user/repos";
     query := [("per_page", "100"); ("page", number_text page); ("affiliation", "owner")] |}%string.

Definition runs_address `{ProjectsLibrary} (repository branch : string) : Address :=
  {| base := arg "https://api.github.com/repos/%1/actions/runs" repository;
     query := [("branch", branch); ("per_page", "20")] |}%string.

Definition runners_address `{ProjectsLibrary} (repository : string) : Address :=
  {| base := arg "https://api.github.com/repos/%1/actions/runners?per_page=100" repository; query := [] |}.

Definition jobs_address `{ProjectsLibrary} (repository : string) (run_id : Z) : Address :=
  {| base := arg (arg "https://api.github.com/repos/%1/actions/runs/%2/jobs?per_page=100" repository) (number_text run_id);
     query := [] |}.

Definition artifacts_address `{ProjectsLibrary} (repository : string) (run_id : Z) : Address :=
  {| base := arg (arg "https://api.github.com/repos/%1/actions/runs/%2/artifacts?per_page=100" repository) (number_text run_id);
     query := [] |}.

Definition address `{ProjectsLibrary} (u : Url) : Address :=
  match u with
  | PublicRepositories owner page => public_address owner page
  | PrivateRepositories page => private_address page
  | WorkflowRuns repository branch => runs_address repository branch
  | Runners repository => runners_address repository
  | Jobs repository run_id => jobs_address repository run_id
  | Artifacts repository run_id => artifacts_address repository run_id
  end.

(** ** project_health.cpp *)

Inductive Health := Failed | Attention | Running | Stale | Unknown | Healthy.

#[export] Instance Health_eq_dec : EqDecision Health. Proof. solve_decision. Defined.

(** [completed_at.daysTo(now)] *)
Definition days_to (from to : Z) : Z := date_of to - date_of from.

Definition healthForRun (status conclusion : string) (completed_at : QDateTime) (now : Z) : Health :=
  if String.eqb status "" then Unknown
  else if negb (String.eqb status "completed") then Running
  else if String.eqb conclusion "success" then
    match completed_at with
    | Some t => if 7 <=? days_to t now then Stale else Healthy
    | None => Healthy
    end
  else if existsb (String.eqb conclusion) ["failure"; "timed_out"; "startup_failure"; "action_required"]%string then Failed
  else if existsb (String.eqb conclusion) ["neutral"; "cancelled"; "skipped"]%string then Attention
  else if String.eqb conclusion "stale" then Stale
  else Unknown.

Definition healthKey (health : Health) : string :=
  match health with
  | Failed => "failed" | Attention => "attention" | Running => "running"
  | Stale => "stale" | Healthy => "healthy" | Unknown => "unknown"
  end.

Definition healthRank (health : Health) : Z :=
  match health with Failed => 0 | Attention => 1 | Running => 2 | Stale => 3 | Unknown => 4 | Healthy => 5 end.

(** [keys.indexOf(text)] of the keys in the order of their rank; -1 for another text. *)
Definition rank_of (health : string) : Z :=
  match list_find (fun k => k = health) (map healthKey [Failed; Attention; Running; Stale; Unknown; Healthy]) with
  | Some (i, _) => Z.of_nat i
  | None => -1
  end.

(** ** Polling and rate limits *)

Definition kMaximumConcurrentRequests : Z := 4.
Definition kAuthenticatedPollMs : Z := 60 * 1000.
Definition kAnonymousMinimumPollMs : Z := 15 * 60 * 1000.
Definition kAnonymousRequestBudgetPerHour : Z := 50.
Definition kMaximumResponseBytes : Z := 4 * 1024 * 1024.

Definition success_status (http_status : Z) : bool := (200 <=? http_status) && (http_status <? 300).

(** [no_error]: [error == QNetworkReply::NoError]. *)
Definition shouldReadReplyBody (no_error : bool) (http_status : Z) (has_cached_body : bool) : bool :=
  no_error && success_status http_status && negb ((http_status =? 304) && has_cached_body).

Definition pollIntervalMs (authenticated : bool) (request_count : Z) : Z :=
  if authenticated then kAuthenticatedPollMs
  else
    let measured_requests := Z.max 1 request_count in
    let milliseconds_per_hour := 60 * 60 * 1000 in
    let budgeted_interval :=
      Z.quot (measured_requests * milliseconds_per_hour + kAnonymousRequestBudgetPerHour - 1)
        kAnonymousRequestBudgetPerHour in
    Z.min (Z.max kAnonymousMinimumPollMs budgeted_interval) int32_max.

Section projects.
Context `{ProjectsLibrary}.

Definition rateLimitBackoffMs (http_status : Z) (retry_after rate_limit_remaining rate_limit_reset : list byte)
    (current_epoch_seconds : Z) : Z :=
  let delay_ms :=
    if (http_status =? 403) || (http_status =? 429) then
      match to_longlong retry_after with
      | Some retry_seconds => if 0 <? retry_seconds then Z.min retry_seconds (Z.quot int32_max 1000) * 1000 else 0
      | None => 0
      end
    else 0 in
  let delay_ms :=
    match to_longlong rate_limit_remaining, to_longlong rate_limit_reset with
    | Some remaining, Some reset =>
        if (remaining =? 0) && (current_epoch_seconds <? reset)
        then Z.max delay_ms (Z.min (i64 (reset - current_epoch_seconds)) (Z.quot int32_max 1000) * 1000)
        else delay_ms
    | _, _ => delay_ms
    end in
  Z.min delay_ms int32_max.

(** ** Rows *)

Record HistoryEntry := { he_health : string; he_successful : bool; he_number : Z }.

(** The [QVariantMap] of a row, a member per key; the last four are the fields that are
    loaded later and may be absent. *)
Record Detail := {
  runId : Z; revision : string; runLabel : string; updatedAt : QDateTime; createdAt : QDateTime;
  history : list HistoryEntry;
  duration : option string; jobsSummary : option string; artifactSize : option string; deployStatus : option string }.

(** The empty map, read with the defaults of [QVariant]. *)
Definition no_detail : Detail :=
  {| runId := 0; revision := ""; runLabel := ""; updatedAt := None; createdAt := None; history := [];
     duration := None; jobsSummary := None; artifactSize := None; deployStatus := None |}.

Record Row := { key : string; name : string; branch : string; age : string; health : string; status : string;
                detail : Detail }.

#[export] Instance HistoryEntry_eq_dec : EqDecision HistoryEntry. Proof. solve_decision. Defined.
#[export] Instance Detail_eq_dec : EqDecision Detail. Proof. solve_decision. Defined.
#[export] Instance Row_eq_dec : EqDecision Row. Proof. solve_decision. Defined.

Inductive row_role := KeyRole | NameRole | BranchRole | AgeRole | HealthRole | StatusRole | DetailRole | OtherRole.

(** [data]; the detail map is not a value of [QVariant] here. *)
Definition data (rows : list Row) (index : nat) (role : row_role) : option (QVariant + Detail) :=
  row ← rows !! index;
  match role with
  | KeyRole => Some (inl (OfText (key row)))
  | NameRole => Some (inl (OfText (name row)))
  | BranchRole => Some (inl (OfText (branch row)))
  | AgeRole => Some (inl (OfText (age row)))
  | HealthRole => Some (inl (OfText (health row)))
  | StatusRole => Some (inl (OfText (status row)))
  | DetailRole => Some (inr (detail row))
  | OtherRole => None
  end.

Definition countSuccessfulHistory (entries : list HistoryEntry) : nat := length (List.filter he_successful entries).

(** [left > right] of dates: an invalid one is before all others. *)
Definition later (left right : QDateTime) : bool :=
  match left, right with
  | Some l, Some r => r <? l
  | Some _, None => true
  | None, _ => false
  end.

(** The comparator of [sortProjectsByLatestExecution]. *)
Definition executed_before (left right : Row) : bool :=
  if bool_decide (updatedAt (detail left) = updatedAt (detail right)) then String.ltb (key left) (key right)
  else later (updatedAt (detail left)) (updatedAt (detail right)).

Definition sortProjectsByLatestExecution (rows : list Row) : list Row := isort executed_before rows.

Definition find_row (k : string) (rows : list Row) : option Row := list_find (fun r => key r = k) rows ≫= (fun x => Some x.2).

(** [insert] of the loaded fields that [previous] contains. *)
Definition retain_detail (previous row : Detail) : Detail :=
  let keep (old new : option string) := match old with Some _ => old | None => new end in
  {| runId := runId row; revision := revision row; runLabel := runLabel row; updatedAt := updatedAt row;
     createdAt := createdAt row; history := history row;
     duration := keep (duration previous) (duration row); jobsSummary := keep (jobsSummary previous) (jobsSummary row);
     artifactSize := keep (artifactSize previous) (artifactSize row);
     deployStatus := keep (deployStatus previous) (deployStatus row) |}.

Definition with_detail (d : Detail) (row : Row) : Row :=
  {| key := key row; name := name row; branch := branch row; age := age row; health := health row;
     status := status row; detail := d |}.

Definition retainLoadedProjectDetails (previous : list Row) (refreshed : list Row) : list Row :=
  map (fun row => match find_row (key row) previous with
                  | Some previous_row => with_detail (retain_detail (detail previous_row) (detail row)) row
                  | None => row
                  end) refreshed.

(** ** Texts *)

Definition ageText (timestamp : QDateTime) (now : Z) : string :=
  match timestamp with
  | None => ""
  | Some t =>
      let minutes := Z.quot (secs_to t now) 60 in
      if minutes <? 60 then number_text (Z.max 0 minutes) ++ "m ago"
      else if minutes <? 1440 then number_text (Z.quot minutes 60) ++ "h ago"
      else number_text (Z.quot minutes 1440) ++ "d ago"
  end.

Definition d1024 : double := double_of_Z 1024.

Definition bytesText (bytes : Z) : string :=
  if bytes <? 1024 then number_text bytes ++ " B"
  else if bytes <? 1024 * 1024 then one_decimal (ddiv (double_of_Z bytes) d1024) ++ " KiB"
  else one_decimal (ddiv (double_of_Z bytes) (dmul d1024 d1024)) ++ " MiB".

(** ** Replies *)

Record Repository := { r_key : string; r_name : string; r_branch : string }.

#[export] Instance Repository_eq_dec : EqDecision Repository. Proof. solve_decision. Defined.

Definition date (v : json) : QDateTime := from_iso (jtext v).

(** [hasArray(document, name)]: [jvalue] of a document that is no object is undefined. *)
Definition hasArray (document : json) (member : string) : bool :=
  is_jobject document && is_jarray (jvalue member document).

Definition nonempty_text (v : json) : bool := is_jtext v && negb (String.eqb (jtext v) "").

Definition validRepository (v : json) (require_owner : bool) : bool :=
  is_jobject v && nonempty_text (jvalue "full_name" v) && nonempty_text (jvalue "name" v)
  && nonempty_text (jvalue "default_branch" v) && is_jbool (jvalue "archived" v)
  && (negb require_owner || (is_jobject (jvalue "owner" v) && is_jtext (jvalue "login" (jvalue "owner" v)))).

Definition repository_of (v : json) : Repository :=
  {| r_key := jtext (jvalue "full_name" v); r_name := jtext (jvalue "name" v);
     r_branch := jtext (jvalue "default_branch" v) |}.

Definition archived (v : json) : bool := jbool (jvalue "archived" v).

(** A page of public repositories; [None]: invalid data. *)
Definition public_page (document : json) (repositories : list Repository) : option (list Repository) :=
  if negb (is_jarray document) || existsb (fun v => negb (validRepository v false)) (jarray document) then None
  else Some (repositories ++ map repository_of (List.filter (fun v => negb (archived v)) (jarray document))).

(** The loop of [discoverPrivateRepositories]: [keys] are the keys of [accumulated]. *)
Fixpoint add_private (owner : string) (values : list json) (accumulated : list Repository) : list Repository :=
  match values with
  | [] => accumulated
  | v :: rest =>
      if archived v || negb (same_name (jtext (jvalue "login" (jvalue "owner" v))) owner)
      then add_private owner rest accumulated
      else if existsb (String.eqb (jtext (jvalue "full_name" v))) (map r_key accumulated)
      then add_private owner rest accumulated
      else add_private owner rest (accumulated ++ [repository_of v])
  end.

Definition private_page (owner : string) (document : json) (accumulated : list Repository) : option (list Repository) :=
  if negb (is_jarray document) || existsb (fun v => negb (validRepository v true)) (jarray document) then None
  else Some (add_private owner (jarray document) accumulated).

Definition conclusionHealth (object : json) (now : Z) : string :=
  healthKey (healthForRun (jtext (jvalue "status" object)) (jtext (jvalue "conclusion" object))
               (date (jvalue "updated_at" object)) now).

Definition successful (object : json) : bool := String.eqb (jtext (jvalue "conclusion" object)) "success".

Definition history_entry (now : Z) (run : json) : HistoryEntry :=
  {| he_health := conclusionHealth run now; he_successful := successful run; he_number := jint 0 (jvalue "run_number" run) |}.

Definition valid_run (v : json) : bool :=
  is_jobject v && is_jnumber (jvalue "id" v) && is_jnumber (jvalue "run_number" v)
  && bool_decide (is_Some (date (jvalue "updated_at" v))).

(** Is a reply with workflow runs valid? *)
Definition runs_valid (document : json) : bool :=
  hasArray document "workflow_runs" && forallb valid_run (jarray (jvalue "workflow_runs" document)).

(** The row of a repository: none without a run. *)
Definition run_row (repository : Repository) (document : json) (now : Z) : option Row :=
  match jarray (jvalue "workflow_runs" document) with
  | [] => None
  | latest :: _ as runs =>
      let updated := date (jvalue "updated_at" latest) in
      Some {| key := r_key repository; name := r_name repository; branch := r_branch repository;
              age := ageText updated now; health := conclusionHealth latest now; status := jtext (jvalue "status" latest);
              detail := {| runId := variant_longlong (jvalue "id" latest);
                           revision := str_take 7 (jtext (jvalue "head_sha" latest));
                           runLabel := "#" ++ number_text (jint 0 (jvalue "run_number" latest));
                           updatedAt := updated; createdAt := date (jvalue "created_at" latest);
                           history := map (history_entry now) runs;
                           duration := None; jobsSummary := None; artifactSize := None; deployStatus := None |} |}
  end.

(** A reply with runners: is it valid, which runners there are, which are online. *)
Definition valid_runner (v : json) : bool :=
  is_jobject v && is_jnumber (jvalue "id" v) && is_jtext (jvalue "status" v).
Definition runner_values (document : json) : list json :=
  List.filter valid_runner (jarray (jvalue "runners" document)).
Definition runners_valid (document : json) : bool :=
  hasArray document "runners" && forallb valid_runner (jarray (jvalue "runners" document)).
Definition runner_id (v : json) : Z := jinteger (jvalue "id" v).
Definition is_online (v : json) : bool := String.eqb (jtext (jvalue "status" v)) "online".

Definition isDeployName (job_name : string) : bool :=
  let lower := to_lower job_name in
  contains "deploy" lower || contains "release" lower || contains "publish" lower.

Definition valid_job (v : json) : bool :=
  is_jobject v && is_jtext (jvalue "name" v) && is_jtext (jvalue "status" v).

Definition jobs_valid (document : json) : bool :=
  hasArray document "jobs" && forallb valid_job (jarray (jvalue "jobs" document)).

Definition dash : string := "—".

Definition shown_count (job_count : nat) : nat := if (job_count <=? 4)%nat then job_count else Nat.min 3 job_count.

Definition job_card (now : Z) (index : nat) (job : json) : Row :=
  {| key := number_text (Z.of_nat index); name := jtext (jvalue "name" job); branch := ""; age := "";
     health := conclusionHealth job now; status := jtext (jvalue "status" job); detail := no_detail |}.

(** The worst health of the jobs that get no card of their own, by the loop of the code. *)
Definition hidden_health (now : Z) (hidden : list json) : string :=
  fold_left (fun worst job => let candidate := conclusionHealth job now in
                              if rank_of candidate <? rank_of worst then candidate else worst) hidden (healthKey Healthy).

Definition stage_cards (jobs : list json) (now : Z) : list Row :=
  let n := length jobs in
  imap (job_card now) (take (shown_count n) jobs)
  ++ (if (4 <? n)%nat
      then [{| key := "more"; name := "+" ++ number_text (Z.of_nat n - 3) ++ " jobs"; branch := ""; age := "";
               health := hidden_health now (drop 3 jobs); status := ""; detail := no_detail |}]
      else []).

(** The health of the last shown job that deploys. *)
Definition deploy_of (jobs : list json) (now : Z) : string :=
  fold_left (fun deploy job => if isDeployName (jtext (jvalue "name" job)) then conclusionHealth job now else deploy)
    (take (shown_count (length jobs)) jobs) dash.

Definition duration_text (d : Detail) : string :=
  match createdAt d, updatedAt d with
  | Some created, Some updated => number_text (Z.quot (secs_to created updated) 60) ++ "m"
  | _, _ => ""
  end.

(** What the jobs of a run add to its row. *)
Definition with_jobs (jobs : list json) (now : Z) (d : Detail) : Detail :=
  {| runId := runId d; revision := revision d; runLabel := runLabel d; updatedAt := updatedAt d;
     createdAt := createdAt d; history := history d; duration := Some (duration_text d);
     jobsSummary := Some (number_text (Z.of_nat (length (List.filter successful jobs))) ++ "/"
                          ++ number_text (Z.of_nat (length jobs)))%string;
     artifactSize := artifactSize d; deployStatus := Some (deploy_of jobs now) |}.

Definition valid_artifact (v : json) : bool :=
  is_jobject v && is_jbool (jvalue "expired" v) && is_jnumber (jvalue "size_in_bytes" v).

(** The bytes of the artifacts that have not expired; [None]: the reply is invalid. *)
Definition artifact_bytes (document : json) : option Z :=
  let artifacts := jarray (jvalue "artifacts" document) in
  if hasArray document "artifacts" && forallb valid_artifact artifacts
  then Some (fold_left (fun bytes v => if jbool (jvalue "expired" v) then bytes
                                       else i64 (bytes + jinteger (jvalue "size_in_bytes" v))) artifacts 0)
  else None.

Definition with_artifacts (bytes : Z) (d : Detail) : Detail :=
  {| runId := runId d; revision := revision d; runLabel := runLabel d; updatedAt := updatedAt d;
     createdAt := createdAt d; history := history d; duration := duration d; jobsSummary := jobsSummary d;
     artifactSize := Some (bytesText bytes); deployStatus := deployStatus d |}.

(** The row of the stage or history model of an entry. *)
Definition history_row (e : HistoryEntry) : Row :=
  {| key := number_text (he_number e); name := ""; branch := ""; age := ""; health := he_health e; status := "";
     detail := no_detail |}.

(** [aggregateHealth]: the first of the worst rows. *)
Definition aggregateHealth (rows : list Row) : string :=
  match rows with
  | [] => "unknown"
  | row :: rest =>
      health (fold_left (fun worst r => if rank_of (health r) <? rank_of (health worst) then r else worst) rest row)
  end.

Definition count_health (h : string) (rows : list Row) : nat := length (List.filter (fun row => String.eqb (health row) h) rows).
Definition runningCount (rows : list Row) : nat := count_health "running" rows.
Definition failedCount (rows : list Row) : nat := count_health "failed" rows.
End projects.
