(* ===== verification/ProjectsSample.v ===== *)
(** * A projects service on concrete inputs

    Functions for what the sources take from Qt, on which the theorems about the projects
    service are applied: decimal numbers, dates as seconds after a mark, texts as they
    are, and replies written as one digit per value. *)

From Stdlib Require Import DecimalString DecimalZ.
From S2P Require Import Prelude.
From S2P Require Import Std.
From S2P Require Import Float64.
From S2P Require Import QtModel.
From S2P Require Import Json.
From S2P Require Import Projects.

Definition url_sample (u : Url) : string :=
  match u with
  | PublicRepositories owner page => "users/" ++ owner ++ "?page=" ++ number_text page
  | PrivateRepositories page => "user/repos?page=" ++ number_text page
  | WorkflowRuns repository branch => "repos/" ++ repository ++ "/runs?branch=" ++ branch
  | Runners repository => "repos/" ++ repository ++ "/runners"
  | Jobs repository run_id => "repos/" ++ repository ++ "/jobs/" ++ number_text run_id
  | Artifacts repository run_id => "repos/" ++ repository ++ "/artifacts/" ++ number_text run_id
  end.

Definition text_of_bytes (l : list byte) : string := string_of_list_byte l.

(** The markers of the texts used are in order: the first one is replaced. *)
Fixpoint arg_sample (template text : string) : string :=
  match template with
  | EmptyString => EmptyString
  | String "%" (String _ rest) => text ++ rest
  | String c rest => String c (arg_sample rest text)
  end.

Definition sample_projects : ProjectsLibrary :=
  {| from_iso s := match s with
                   | String _ rest => option_map (fun seconds => Z.of_int seconds * 1000) (NilEmpty.int_of_string rest)
                   | EmptyString => None
                   end;
     to_lower s := s;
     same_name := String.eqb;
     one_decimal d := number_text (match whole d with Some z => z | None => 0 end);
     variant_longlong := jinteger;
     to_longlong l := option_map Z.of_int (NilEmpty.int_of_string (text_of_bytes l));
     arg := arg_sample;
     url_text := url_sample;
     from_json_bytes l := match l with [] => None | _ => Some (JArray []) end |}.

Definition bytes_of (s : string) : list byte := list_byte_of_string s.
