(* ===== verification/ProjectsHealth.v ===== *)
(** * Health, rates and rows of the projects

    What the functions of [Projects] promise: the worst health is the one shown, the
    polling interval keeps an anonymous client within its budget, and the limits GitHub
    announces are respected. *)

From S2P Require Import Prelude.
From S2P Require Import Std.
From S2P Require Import Float64.
From S2P Require Import QtModel.
From S2P Require Import Json.
From S2P Require Import Projects.
From S2P Require Import ProjectsSample.

(** ** The worst of some *)

Section worst.
Context {A B : Type} (candidate : B -> A) (rank : A -> Z).

(** The loop that keeps the first of the smallest rank. *)
Definition keep_worst (worst : A) (x : B) : A := if rank (candidate x) <? rank worst then candidate x else worst.

Lemma keep_worst_spec l a : let w := fold_left keep_worst l a in
  (w = a \/ exists x, x ∈ l /\ w = candidate x) /\ rank w <= rank a /\ (forall x, x ∈ l -> rank w <= rank (candidate x)).
Proof.
  revert a. induction l as [|x l IH]; intros a; cbn [fold_left].
  - split; [by left|]. split; [lia|]. intros x Hx. by apply elem_of_nil in Hx.
  - destruct (IH (keep_worst a x)) as (Hin & Hle & Hall). set (w := fold_left keep_worst l (keep_worst a x)) in *.
    clearbody w. unfold keep_worst in Hin, Hle. cbv zeta in *.
    destruct (Z.ltb_spec (rank (candidate x)) (rank a)) as [Hlt|Hge].
    + split; [right|]. { destruct Hin as [->|(y & Hy & ->)]; eexists; (split; [|done]); set_solver. }
      split; [lia|]. intros y [->|Hy]%elem_of_cons; [done|by apply Hall].
    + split; [|split; [done|]]. { destruct Hin as [->|(y & Hy & ->)]; [by left|right]. exists y. split; [set_solver|done]. }
      intros y [->|Hy]%elem_of_cons; [lia|by apply Hall].
Qed.
End worst.

Lemma rank_of_key h : rank_of (healthKey h) = healthRank h.
Proof. by destruct h. Qed.

(** Where a health comes from: the answer of [healthForRun], case by case. *)
Lemma healthForRun_cases status conclusion completed_at now :
  let h := healthForRun status conclusion completed_at now in
  (status = ""%string -> h = Unknown) /\
  (status <> ""%string -> status <> "completed"%string -> h = Running) /\
  (status = "completed"%string -> conclusion = "success"%string ->
     (h = Healthy <-> forall t, completed_at = Some t -> days_to t now < 7) /\
     (h = Stale <-> exists t, completed_at = Some t /\ 7 <= days_to t now)).
Proof.
  cbn. unfold healthForRun. split; [by intros ->|]. split.
  - intros H1 H2. apply String.eqb_neq in H1 as ->. by apply String.eqb_neq in H2 as ->.
  - intros -> ->. cbn. destruct completed_at as [t|]; [|by split; split; [|done|done|intros (t & ? & _)]].
    destruct (Z.leb_spec 7 (days_to t now)); (split; split; try done).
    + intros Ht. specialize (Ht t eq_refl). lia.
    + intros _. by exists t.
    + intros _ t' [= <-]. done.
    + intros (t' & [= <-] & ?). lia.
Qed.

Section health.
Context `{ProjectsLibrary}.

Lemma conclusionHealth_key job now : exists h, conclusionHealth job now = healthKey h.
Proof. eexists. reflexivity. Qed.

Lemma stage_cards_length jobs now : length (stage_cards jobs now) = Nat.min 4 (length jobs).
Proof.
  unfold stage_cards, shown_count. rewrite length_app, length_imap, length_take.
  destruct (Nat.leb_spec (length jobs) 4); destruct (Nat.ltb_spec 4 (length jobs)); cbn [length]; lia.
Qed.

(** The worst health is shown.  [aggregateHealth] of some projects is the health of
    one of them, and none has a worse one; without projects it is unknown.  The stages
    of a run are at most four cards: a job each for up to four jobs; otherwise the first
    three jobs and a card that says how many more there are, whose health is that of one
    of them, and no hidden job has a worse one. *)
Theorem projects_worst_health rows jobs now :
  (rows = [] -> aggregateHealth rows = "unknown"%string) /\
  (rows <> [] -> exists row, row ∈ rows /\ aggregateHealth rows = health row /\
     forall r, r ∈ rows -> rank_of (aggregateHealth rows) <= rank_of (health r)) /\
  length (stage_cards jobs now) = Nat.min 4 (length jobs) /\
  ((length jobs <= 4)%nat -> stage_cards jobs now = imap (job_card now) jobs) /\
  ((4 < length jobs)%nat -> exists more, stage_cards jobs now = imap (job_card now) (take 3 jobs) ++ [more] /\
     name more = ("+" ++ number_text (Z.of_nat (length jobs) - 3) ++ " jobs")%string /\
     (exists job, job ∈ drop 3 jobs /\ rank_of (health more) = rank_of (conclusionHealth job now)) /\
     forall job, job ∈ drop 3 jobs -> rank_of (health more) <= rank_of (conclusionHealth job now)).
Proof.
  split; [by intros ->|]. split; [|split; [apply stage_cards_length|split]].
  - destruct rows as [|row rest]; [done|]. intros _. cbn [aggregateHealth].
    change (fun worst r => _) with (keep_worst (fun r : Row => r) (fun r => rank_of (health r))).
    destruct (keep_worst_spec (fun r : Row => r) (fun r => rank_of (health r)) rest row) as (Hin & Hle & Hall).
    eexists. split; [|split; [done|]].
    + destruct Hin as [->|(x & Hx & ->)]; set_solver.
    + intros r [->|Hr]%elem_of_cons; [done|by apply Hall].
  - intros Hn. unfold stage_cards, shown_count. rewrite (proj2 (Nat.leb_le _ _)), (proj2 (Nat.ltb_ge _ _)) by lia.
    by rewrite app_nil_r, take_ge.
  - intros Hn. unfold stage_cards, shown_count. rewrite (proj2 (Nat.leb_gt _ _)), (proj2 (Nat.ltb_lt _ _)) by lia.
    rewrite Nat.min_l by lia. eexists. split; [done|]. split; [done|]. cbn [health].
    change (hidden_health now (drop 3 jobs)) with
      (fold_left (keep_worst (fun job => conclusionHealth job now) rank_of) (drop 3 jobs) (healthKey Healthy)).
    destruct (keep_worst_spec (fun job => conclusionHealth job now) rank_of (drop 3 jobs) (healthKey Healthy))
      as (Hin & Hle & Hall). split; [|done].
    destruct Hin as [Hin|(x & Hx & Heq)]; [|exists x; by rewrite Heq].
    destruct (drop 3 jobs) as [|job rest] eqn:E; [apply (f_equal length) in E; rewrite length_drop in E; cbn in E; lia|].
    exists job. split; [set_solver|]. specialize (Hall job ltac:(set_solver)). rewrite Hin in Hall |- *.
    destruct (conclusionHealth_key job now) as [h Hh]. rewrite Hh, !rank_of_key in *. apply Z.le_antisymm; [done|]. by destruct h.
Qed.

(** ** Rates *)

Lemma pollIntervalMs_range n : 15 * 60 * 1000 <= pollIntervalMs false n <= int32_max.
Proof. unfold pollIntervalMs, kAnonymousMinimumPollMs, int32_max. lia. Qed.

Lemma pollIntervalMs_budget n :
  n * (60 * 60 * 1000) <= 50 * pollIntervalMs false n \/ pollIntervalMs false n = int32_max.
Proof.
  unfold pollIntervalMs, kAnonymousMinimumPollMs, kAnonymousRequestBudgetPerHour, int32_max. cbv iota zeta.
  rewrite Z.quot_div_nonneg by lia. Z.div_mod_to_equations. lia.
Qed.

(** The two waits of [rateLimitBackoffMs], without wrap-around. *)
Definition limited (seconds : Z) : Z := Z.min seconds 2147483 * 1000.
Definition retry_ms (status : Z) (retry : option Z) : Z :=
  if (status =? 403) || (status =? 429) then match retry with Some n => if 0 <? n then limited n else 0 | None => 0 end else 0.
Definition reset_ms (now_s : Z) (remaining reset : option Z) : Z :=
  match remaining, reset with Some n, Some r => if (n =? 0) && (now_s <? r) then limited (r - now_s) else 0 | _, _ => 0 end.

Lemma rateLimitBackoffMs_eq status retry remaining reset now_s :
  0 <= now_s -> (forall r, to_longlong reset = Some r -> r <= int64_max) ->
  rateLimitBackoffMs status retry remaining reset now_s =
  Z.max (retry_ms status (to_longlong retry)) (reset_ms now_s (to_longlong remaining) (to_longlong reset)).
Proof.
  intros Hnow Hreset. unfold rateLimitBackoffMs. change (Z.quot int32_max 1000) with 2147483.
  fold (limited 0). set (a := if (status =? 403) || (status =? 429) then _ else 0).
  assert (a = retry_ms status (to_longlong retry)) as -> by done.
  assert (0 <= retry_ms status (to_longlong retry) <= 2147483000) as Ha
    by (unfold retry_ms, limited; repeat case_match; lia).
  unfold reset_ms. destruct (to_longlong remaining) as [n|]; [|unfold int32_max; lia].
  destruct (to_longlong reset) as [r|] eqn:Er; [|unfold int32_max; lia].
  destruct (n =? 0); cbn [andb]; [|unfold int32_max; lia].
  destruct (Z.ltb_spec now_s r); [|unfold int32_max; lia].
  rewrite i64_id by (specialize (Hreset r eq_refl); unfold int64_max in *; lia). unfold limited, int32_max. lia.
Qed.

(** Rates.  An authenticated client polls every minute.  An anonymous one waits at
    least a quarter of an hour, and long enough that at [request_count] requests per
    refresh it makes at most fifty an hour, unless the interval no longer fits an [int].
    After a limited reply the wait covers the seconds of a Retry-After of a 403 or 429
    and, when no requests remain, the time until the reset, up to what an [int] holds;
    otherwise it is none.  Neither is ever negative nor above an [int]. *)
Theorem projects_request_rate request_count status retry remaining reset now_s
    (Hnow : 0 <= now_s) (Hreset : forall r, to_longlong reset = Some r -> r <= int64_max) :
  let interval := pollIntervalMs false request_count in
  let backoff := rateLimitBackoffMs status retry remaining reset now_s in
  let cap := int32_max / 1000 * 1000 in
  pollIntervalMs true request_count = 60 * 1000 /\
  15 * 60 * 1000 <= interval <= int32_max /\
  (request_count * (60 * 60 * 1000) <= 50 * interval \/ interval = int32_max) /\
  0 <= backoff <= cap /\
  (forall n, status = 403 \/ status = 429 -> to_longlong retry = Some n -> 0 < n -> Z.min (n * 1000) cap <= backoff) /\
  (forall r, to_longlong remaining = Some 0 -> to_longlong reset = Some r -> now_s < r ->
     Z.min ((r - now_s) * 1000) cap <= backoff) /\
  (to_longlong remaining <> Some 0 -> status <> 403 -> status <> 429 -> backoff = 0).
Proof.
  cbn. split; [done|]. split; [apply pollIntervalMs_range|]. split; [by apply pollIntervalMs_budget|].
  rewrite rateLimitBackoffMs_eq by done. unfold retry_ms, reset_ms, limited. unfold int32_max.
  change (2147483647 / 1000 * 1000) with 2147483000.
  split; [repeat case_match; lia|]. split; [|split].
  - intros n Hs -> Hn. destruct Hs as [-> | ->]; cbn; rewrite (proj2 (Z.ltb_lt _ _)) by lia; repeat case_match; lia.
  - intros r -> -> Hr. rewrite (proj2 (Z.ltb_lt _ _)) by lia. cbn. repeat case_match; lia.
  - intros Hrem H403 H429. rewrite (proj2 (Z.eqb_neq _ _) H403), (proj2 (Z.eqb_neq _ _) H429). cbn.
    destruct (to_longlong remaining) as [n|]; [|done]. destruct (to_longlong reset); [|done].
    by rewrite (proj2 (Z.eqb_neq n 0)) by congruence.
Qed.
End health.

Definition rate_limited_reply := @rateLimitBackoffMs sample_projects 403 (bytes_of "120") (bytes_of "0") (bytes_of "1300") 1000.

Lemma projects_request_rate_witness : pollIntervalMs false 40 = 2880000 /\ rate_limited_reply = 300000 /\
  (40 * (60 * 60 * 1000) <= 50 * pollIntervalMs false 40 \/ pollIntervalMs false 40 = int32_max).
Proof.
  split; [vm_compute; reflexivity|]. split; [vm_compute; reflexivity|].
  refine (proj1 (proj2 (proj2 (@projects_request_rate sample_projects 40 403 (bytes_of "120") (bytes_of "0") (bytes_of "1300") 1000 _ _)))).
  - lia.
  - intros r Hr. assert (Some 1300 = Some r) as [= <-] by (rewrite <- Hr; vm_compute; reflexivity). unfold int64_max. lia.
Defined.
