(* ===== verification/ProjectsService.v ===== *)
(** * The projects service (src/projects/projects_service.cpp)

    [ProjectsService] as handlers over its state.  The callbacks a request carries are a
    tagged union ([Continuation]) of what the closures capture; lists and flags that
    several closures share live in the state ([run_batches], [runner_batches]) and the
    closures hold their index.  The network owns [in_flight]: the requests it was given
    and has not answered.  A handler reads the clock once. *)

From stdpp Require Import gmap strings.
From S2P Require Import Prelude.
From S2P Require Import Std.
From S2P Require Import QtModel.
From S2P Require Import Json.
From S2P Require Import Projects.

(** The success and failure functions of a request, by the call that makes it. *)
Inductive Continuation :=
| OnPublic (page : Z) (repositories : list Repository)       (* discoverRepositories *)
| OnPrivate (page : Z) (accumulated : list Repository)       (* discoverPrivateRepositories *)
| OnRuns (repository : Repository) (batch : nat)             (* loadRuns *)
| OnRunners (batch : nat)                                    (* loadRunners *)
| OnJobs (repository : string) (run_id : Z)                  (* loadSelectedDetails *)
| OnArtifacts (repository : string) (run_id : Z).

Record Request := { url : Url; continuation : Continuation }.

(** A request the network was given, with its If-None-Match header. *)
Record Sent := { sent_request : Request; if_none_match : option (list byte) }.

(** What a finished reply shows. *)
Record Reply := {
  no_error : bool; http_status : Z; exceeded_limit : bool; body : list byte; etag : list byte;
  retry_after : list byte; rate_limit_remaining : list byte; rate_limit_reset : list byte }.

Record Queue := {
  requests_ : list Request; in_flight : list Sent; active_requests_ : Z; refresh_request_count_ : Z;
  counting_refresh_requests_ : bool; etags_ : gmap string (list byte); cached_bodies_ : gmap string (list byte);
  poll_interval : Z }.

Record Collected := {
  pending_run_requests_ : Z; pending_runner_requests_ : Z;
  run_batches : list (list Row * bool);         (* [rows] and [failed] of each loadRuns *)
  runner_batches : list bool;                   (* [failed] of each loadRunners *)
  runner_ids_ : gset Z; online_runner_ids_ : gset Z; online_runners_ : Z; total_runners_ : Z }.

Record View := {
  projects_ : list Row; stages_ : list Row; history_ : list Row; selected_index_ : Z; selected_key_ : string;
  state_ : string; diagnostics_ : string; last_success_ : QDateTime; stale_ : bool }.

(** The service's signals, and [modelReset] of each of its three list models. *)
Inductive signal :=
| selectedProjectIndexChanged | selectedProjectChanged | snapshotChanged | stateChanged
| projectsReset | stagesReset | historyReset.

#[export] Instance signal_eq_dec : EqDecision signal. Proof. solve_decision. Defined.

(** What the properties are read from. *)
Definition shown_state : Type := View * Collected.

Record ProjectsService := { queue : Queue; collected : Collected; view : View; emitted : list (signal * shown_state) }.

(** ** Writing single fields *)

Definition with_queue (q : Queue) (s : ProjectsService) : ProjectsService :=
  {| queue := q; collected := collected s; view := view s; emitted := emitted s |}.
Definition with_collected (c : Collected) (s : ProjectsService) : ProjectsService :=
  {| queue := queue s; collected := c; view := view s; emitted := emitted s |}.
Definition with_view (v : View) (s : ProjectsService) : ProjectsService :=
  {| queue := queue s; collected := collected s; view := v; emitted := emitted s |}.
Definition emit (x : signal) (s : ProjectsService) : ProjectsService :=
  {| queue := queue s; collected := collected s; view := view s;
     emitted := emitted s ++ [(x, (view s, collected s))] |}.

Definition set_requests (l : list Request) (q : Queue) : Queue :=
  {| requests_ := l; in_flight := in_flight q; active_requests_ := active_requests_ q;
     refresh_request_count_ := refresh_request_count_ q; counting_refresh_requests_ := counting_refresh_requests_ q;
     etags_ := etags_ q; cached_bodies_ := cached_bodies_ q; poll_interval := poll_interval q |}.
Definition set_counting (b : bool) (n : Z) (q : Queue) : Queue :=
  {| requests_ := requests_ q; in_flight := in_flight q; active_requests_ := active_requests_ q;
     refresh_request_count_ := n; counting_refresh_requests_ := b;
     etags_ := etags_ q; cached_bodies_ := cached_bodies_ q; poll_interval := poll_interval q |}.
Definition set_interval (ms : Z) (q : Queue) : Queue :=
  {| requests_ := requests_ q; in_flight := in_flight q; active_requests_ := active_requests_ q;
     refresh_request_count_ := refresh_request_count_ q; counting_refresh_requests_ := counting_refresh_requests_ q;
     etags_ := etags_ q; cached_bodies_ := cached_bodies_ q; poll_interval := ms |}.
Definition store_body (k : string) (tag content : list byte) (q : Queue) : Queue :=
  {| requests_ := requests_ q; in_flight := in_flight q; active_requests_ := active_requests_ q;
     refresh_request_count_ := refresh_request_count_ q; counting_refresh_requests_ := counting_refresh_requests_ q;
     etags_ := <[k := tag]> (etags_ q); cached_bodies_ := <[k := content]> (cached_bodies_ q);
     poll_interval := poll_interval q |}.

Definition set_runs (pending : Z) (batches : list (list Row * bool)) (c : Collected) : Collected :=
  {| pending_run_requests_ := pending; pending_runner_requests_ := pending_runner_requests_ c; run_batches := batches;
     runner_batches := runner_batches c; runner_ids_ := runner_ids_ c; online_runner_ids_ := online_runner_ids_ c;
     online_runners_ := online_runners_ c; total_runners_ := total_runners_ c |}.
Definition set_runners (pending : Z) (batches : list bool) (ids online : gset Z) (c : Collected) : Collected :=
  {| pending_run_requests_ := pending_run_requests_ c; pending_runner_requests_ := pending; run_batches := run_batches c;
     runner_batches := batches; runner_ids_ := ids; online_runner_ids_ := online;
     online_runners_ := online_runners_ c; total_runners_ := total_runners_ c |}.
Definition set_runner_counts (online total : Z) (c : Collected) : Collected :=
  {| pending_run_requests_ := pending_run_requests_ c; pending_runner_requests_ := pending_runner_requests_ c;
     run_batches := run_batches c; runner_batches := runner_batches c; runner_ids_ := runner_ids_ c;
     online_runner_ids_ := online_runner_ids_ c; online_runners_ := online; total_runners_ := total |}.

Definition set_projects (l : list Row) (v : View) : View :=
  {| projects_ := l; stages_ := stages_ v; history_ := history_ v; selected_index_ := selected_index_ v;
     selected_key_ := selected_key_ v; state_ := state_ v; diagnostics_ := diagnostics_ v;
     last_success_ := last_success_ v; stale_ := stale_ v |}.
Definition set_stages (l : list Row) (v : View) : View :=
  {| projects_ := projects_ v; stages_ := l; history_ := history_ v; selected_index_ := selected_index_ v;
     selected_key_ := selected_key_ v; state_ := state_ v; diagnostics_ := diagnostics_ v;
     last_success_ := last_success_ v; stale_ := stale_ v |}.
Definition set_history (l : list Row) (v : View) : View :=
  {| projects_ := projects_ v; stages_ := stages_ v; history_ := l; selected_index_ := selected_index_ v;
     selected_key_ := selected_key_ v; state_ := state_ v; diagnostics_ := diagnostics_ v;
     last_success_ := last_success_ v; stale_ := stale_ v |}.
Definition set_selected (i : Z) (k : string) (v : View) : View :=
  {| projects_ := projects_ v; stages_ := stages_ v; history_ := history_ v; selected_index_ := i;
     selected_key_ := k; state_ := state_ v; diagnostics_ := diagnostics_ v;
     last_success_ := last_success_ v; stale_ := stale_ v |}.
Definition set_state (st diagnostic : string) (v : View) : View :=
  {| projects_ := projects_ v; stages_ := stages_ v; history_ := history_ v; selected_index_ := selected_index_ v;
     selected_key_ := selected_key_ v; state_ := st; diagnostics_ := diagnostic;
     last_success_ := last_success_ v; stale_ := stale_ v |}.
Definition set_stale (b : bool) (t : QDateTime) (v : View) : View :=
  {| projects_ := projects_ v; stages_ := stages_ v; history_ := history_ v; selected_index_ := selected_index_ v;
     selected_key_ := selected_key_ v; state_ := state_ v; diagnostics_ := diagnostics_ v;
     last_success_ := t; stale_ := b |}.

(** [replace] of the three [ProjectsListModel]s: views read the rows again at [endResetModel]. *)
Definition replace_projects (rows : list Row) (s : ProjectsService) : ProjectsService :=
  emit projectsReset (with_view (set_projects rows (view s)) s).
Definition replace_stages (rows : list Row) (s : ProjectsService) : ProjectsService :=
  emit stagesReset (with_view (set_stages rows (view s)) s).
Definition replace_history (rows : list Row) (s : ProjectsService) : ProjectsService :=
  emit historyReset (with_view (set_history rows (view s)) s).

Section service.
Context `{ProjectsLibrary} (owner_ : string) (token_ : list byte).

Definition authenticated : bool := match token_ with [] => false | _ => true end.

(** ** The request queue *)

(** One turn of the loop of [startRequests]: the request is given to the network. *)
Definition send (r : Request) (q : Queue) : Queue :=
  {| requests_ := requests_ q;
     in_flight := in_flight q ++ [{| sent_request := r; if_none_match := etags_ q !! url_text (url r) |}];
     active_requests_ := active_requests_ q + 1;
     refresh_request_count_ := refresh_request_count_ q + (if counting_refresh_requests_ q then 1 else 0);
     counting_refresh_requests_ := counting_refresh_requests_ q; etags_ := etags_ q;
     cached_bodies_ := cached_bodies_ q; poll_interval := poll_interval q |}.

Fixpoint start_loop (waiting : list Request) (q : Queue) : Queue :=
  match waiting with
  | [] => set_requests [] q
  | r :: rest => if active_requests_ q <? kMaximumConcurrentRequests then start_loop rest (send r q)
                 else set_requests waiting q
  end.

Definition startRequests (s : ProjectsService) : ProjectsService :=
  with_queue (start_loop (requests_ (queue s)) (queue s)) s.

Definition request (r : Request) (s : ProjectsService) : ProjectsService :=
  startRequests (with_queue (set_requests (requests_ (queue s) ++ [r]) (queue s)) s).

(** Requests in a loop. *)
Definition request_all (rs : list Request) (s : ProjectsService) : ProjectsService :=
  fold_left (fun s r => request r s) rs s.

(** ** State *)

Definition setState (st diagnostic : string) (s : ProjectsService) : ProjectsService :=
  emit stateChanged (with_view (set_state st diagnostic (view s)) s).

Definition failRefresh (diagnostic : string) (s : ProjectsService) : ProjectsService :=
  let s := with_queue (set_counting false (refresh_request_count_ (queue s)) (queue s)) s in
  let stale := match projects_ (view s) with [] => false | _ => true end in
  let s := with_view (set_stale stale (last_success_ (view s)) (view s)) s in
  setState (if stale then "ready" else "error") diagnostic s.

Definition selected_row (v : View) : option Row :=
  if 0 <=? selected_index_ v then projects_ v !! Z.to_nat (selected_index_ v) else None.

Definition loadRunners (s : ProjectsService) : ProjectsService :=
  let c := set_runner_counts (-1) (-1) (collected s) in
  let c := set_runners (pending_runner_requests_ c) (runner_batches c) ∅ ∅ c in
  let rows := projects_ (view s) in
  if negb authenticated || match rows with [] => true | _ => false end then emit snapshotChanged (with_collected c s)
  else
    let batch := length (runner_batches c) in
    let c := set_runners (Z.of_nat (length rows)) (runner_batches c ++ [false]) ∅ ∅ c in
    request_all (map (fun row => {| url := Runners (key row); continuation := OnRunners batch |}) rows)
      (with_collected c s).

Definition finishRefresh (now : Z) (s : ProjectsService) : ProjectsService :=
  let s := with_view (set_stale false (Some now) (view s)) s in
  let count := refresh_request_count_ (queue s) in
  let s := with_queue (set_interval (pollIntervalMs authenticated count) (set_counting false count (queue s))) s in
  let s := setState (match projects_ (view s) with [] => "empty" | _ => "ready" end) "" s in
  loadRunners (emit selectedProjectChanged (emit snapshotChanged s)).

Definition loadSelectedDetails (s : ProjectsService) : ProjectsService :=
  match selected_row (view s) with
  | None => emit selectedProjectChanged (replace_history [] (replace_stages [] s))
  | Some row =>
      let run_id := runId (detail row) in
      let s := replace_history (map history_row (history (detail row))) s in
      request {| url := Artifacts (key row) run_id; continuation := OnArtifacts (key row) run_id |}
        (request {| url := Jobs (key row) run_id; continuation := OnJobs (key row) run_id |} s)
  end.

(** ** Discovery *)

Definition discoverRepositories (page : Z) (repositories : list Repository) (s : ProjectsService) : ProjectsService :=
  request {| url := PublicRepositories owner_ page; continuation := OnPublic page repositories |} s.

Definition discoverPrivateRepositories (page : Z) (repositories : list Repository) (s : ProjectsService)
  : ProjectsService :=
  request {| url := PrivateRepositories page; continuation := OnPrivate page repositories |} s.

Definition loadRuns (now : Z) (repositories : list Repository) (s : ProjectsService) : ProjectsService :=
  match repositories with
  | [] => finishRefresh now (replace_projects [] s)
  | _ =>
      let batch := length (run_batches (collected s)) in
      let c := set_runs (Z.of_nat (length repositories)) (run_batches (collected s) ++ [([], false)]) (collected s) in
      request_all (map (fun r => {| url := WorkflowRuns (r_key r) (r_branch r); continuation := OnRuns r batch |})
                     repositories) (with_collected c s)
  end.

Definition refresh (s : ProjectsService) : ProjectsService :=
  if String.eqb (state_ (view s)) "loading" && (0 <? active_requests_ (queue s)) then s
  else
    discoverRepositories 1 []
      (setState "loading" "" (with_queue (set_counting true 0 (queue s)) s)).

Definition selectProject (index : Z) (s : ProjectsService) : ProjectsService :=
  let v := view s in
  if (index <? 0) || (Z.of_nat (length (projects_ v)) <=? index) || (index =? selected_index_ v) then s
  else
    let k := match projects_ v !! Z.to_nat index with Some row => key row | None => "" end in
    loadSelectedDetails
      (emit selectedProjectChanged (emit selectedProjectIndexChanged (with_view (set_selected index k v) s))).

(** ** Replies *)

Definition full_page (document : json) : bool := (length (jarray document) =? 100)%nat.

Definition public_success (page : Z) (repositories : list Repository) (document : json) (now : Z) (s : ProjectsService)
  : ProjectsService :=
  match public_page document repositories with
  | None => failRefresh "GitHub returned invalid repository data" s
  | Some repositories =>
      if full_page document then discoverRepositories (page + 1) repositories s
      else if authenticated then discoverPrivateRepositories 1 repositories s
      else loadRuns now repositories s
  end.

Definition private_success (page : Z) (accumulated : list Repository) (document : json) (now : Z) (s : ProjectsService)
  : ProjectsService :=
  match private_page owner_ document accumulated with
  | None => failRefresh "GitHub returned invalid private repository data" s
  | Some accumulated =>
      if full_page document then discoverPrivateRepositories (page + 1) accumulated s else loadRuns now accumulated s
  end.

Definition batch_of (batch : nat) (c : Collected) : list Row * bool := default ([], false) (run_batches c !! batch).

(** The last index with the key, 0 without one. *)
Definition index_of_key (k : string) (rows : list Row) : Z :=
  fold_left (fun found x => if String.eqb (key x.2) k then Z.of_nat x.1 else found) (imap pair rows) 0.

(** The runs of the last repository have arrived. *)
Definition publish_runs (rows : list Row) (now : Z) (s : ProjectsService) : ProjectsService :=
  let rows := retainLoadedProjectDetails (projects_ (view s)) (sortProjectsByLatestExecution rows) in
  let s := replace_projects rows s in
  let v := view s in
  let v := set_selected (index_of_key (selected_key_ v) rows) (selected_key_ v) v in
  let v := set_selected (selected_index_ v) (match selected_row v with Some row => key row | None => "" end) v in
  loadSelectedDetails (finishRefresh now (emit selectedProjectIndexChanged (with_view v s))).

Definition runs_success (repository : Repository) (batch : nat) (document : json) (now : Z) (s : ProjectsService)
  : ProjectsService :=
  let c := collected s in
  let '(rows, failed) := batch_of batch c in
  let failed := failed || negb (runs_valid document) in
  let rows := rows ++ option_list (run_row repository document now) in
  let pending := pending_run_requests_ c - 1 in
  let s := with_collected (set_runs pending (<[batch := (rows, failed)]> (run_batches c)) c) s in
  if pending =? 0 then
    if failed then failRefresh "GitHub returned invalid workflow run data" s else publish_runs rows now s
  else s.

Definition runs_failure (batch : nat) (error : string) (s : ProjectsService) : ProjectsService :=
  let c := collected s in
  let '(rows, _) := batch_of batch c in
  let pending := pending_run_requests_ c - 1 in
  let s := with_collected (set_runs pending (<[batch := (rows, true)]> (run_batches c)) c) s in
  if pending =? 0 then failRefresh error s else s.

Definition runners_success (batch : nat) (document : json) (s : ProjectsService) : ProjectsService :=
  let c := collected s in
  let failed := default false (runner_batches c !! batch) || negb (runners_valid document) in
  let values := runner_values document in
  let ids := runner_ids_ c ∪ list_to_set (map runner_id values) in
  let online := online_runner_ids_ c ∪ list_to_set (map runner_id (List.filter is_online values)) in
  let pending := pending_runner_requests_ c - 1 in
  let c := set_runners pending (<[batch := failed]> (runner_batches c)) ids online c in
  if pending =? 0 then
    emit snapshotChanged
      (with_collected (if failed then c
                       else set_runner_counts (Z.of_nat (base.size online)) (Z.of_nat (base.size ids)) c) s)
  else with_collected c s.

Definition runners_failure (batch : nat) (s : ProjectsService) : ProjectsService :=
  let c := collected s in
  let pending := pending_runner_requests_ c - 1 in
  let c := set_runners pending (<[batch := true]> (runner_batches c)) (runner_ids_ c) (online_runner_ids_ c) c in
  if pending =? 0 then emit snapshotChanged (with_collected c s) else with_collected c s.

(** Is the run the one of the selected row? *)
Definition run_selected (repository : string) (run_id : Z) (v : View) : bool :=
  String.eqb (selected_key_ v) repository
  && match selected_row v with Some row => runId (detail row) =? run_id | None => false end.

(** Is the run still the one of the first row of the repository? *)
Fixpoint has_run (repository : string) (run_id : Z) (rows : list Row) : bool :=
  match rows with
  | [] => false
  | row :: rest =>
      if String.eqb (key row) repository then runId (detail row) =? run_id else has_run repository run_id rest
  end.

(** The first row of the repository, if its run is still that one, is changed. *)
Fixpoint update_run (repository : string) (run_id : Z) (f : Detail -> Detail) (rows : list Row) : list Row :=
  match rows with
  | [] => []
  | row :: rest =>
      if String.eqb (key row) repository
      then (if runId (detail row) =? run_id then with_detail (f (detail row)) row else row) :: rest
      else row :: update_run repository run_id f rest
  end.

(** What the answers about a run add to its row; the rows are replaced only then. *)
Definition add_details (repository : string) (run_id : Z) (f : Detail -> Detail) (s : ProjectsService) : ProjectsService :=
  let rows := projects_ (view s) in
  if has_run repository run_id rows then replace_projects (update_run repository run_id f rows) s else s.

Definition jobs_success (repository : string) (run_id : Z) (document : json) (now : Z) (s : ProjectsService)
  : ProjectsService :=
  if negb (jobs_valid document) then
    if String.eqb (selected_key_ (view s)) repository then replace_stages [] s else s
  else
    let jobs := jarray (jvalue "jobs" document) in
    let s := add_details repository run_id (with_jobs jobs now) s in
    if run_selected repository run_id (view s)
    then emit selectedProjectChanged (replace_stages (stage_cards jobs now) s) else s.

Definition jobs_failure (repository : string) (run_id : Z) (s : ProjectsService) : ProjectsService :=
  if run_selected repository run_id (view s) then replace_stages [] s else s.

Definition artifacts_success (repository : string) (run_id : Z) (document : json) (s : ProjectsService) : ProjectsService :=
  match artifact_bytes document with
  | None => s
  | Some bytes =>
      let s := add_details repository run_id (with_artifacts bytes) s in
      if run_selected repository run_id (view s) then emit selectedProjectChanged s else s
  end.

Definition success (k : Continuation) (document : json) (now : Z) : ProjectsService -> ProjectsService :=
  match k with
  | OnPublic page repositories => public_success page repositories document now
  | OnPrivate page accumulated => private_success page accumulated document now
  | OnRuns repository batch => runs_success repository batch document now
  | OnRunners batch => runners_success batch document
  | OnJobs repository run_id => jobs_success repository run_id document now
  | OnArtifacts repository run_id => artifacts_success repository run_id document
  end.

Definition failure (k : Continuation) (error : string) (now : Z) : ProjectsService -> ProjectsService :=
  match k with
  | OnPublic _ _ => failRefresh error
  | OnPrivate _ accumulated => loadRuns now accumulated
  | OnRuns _ batch => runs_failure batch error
  | OnRunners batch => runners_failure batch
  | OnJobs repository run_id => jobs_failure repository run_id
  | OnArtifacts _ _ => fun s => s
  end.

(** The network no longer owns the request. *)
Definition take_reply (i : nat) (q : Queue) : Queue :=
  {| requests_ := requests_ q; in_flight := delete i (in_flight q); active_requests_ := active_requests_ q - 1;
     refresh_request_count_ := refresh_request_count_ q; counting_refresh_requests_ := counting_refresh_requests_ q;
     etags_ := etags_ q; cached_bodies_ := cached_bodies_ q; poll_interval := poll_interval q |}.

(** What a reply means: a document, or an error. *)
Definition reply_body (q : Queue) (cache_key : string) (reply : Reply) : list byte :=
  match cached_bodies_ q !! cache_key with
  | Some cached => if http_status reply =? 304 then cached
                   else if shouldReadReplyBody (no_error reply) (http_status reply) true then body reply else []
  | None => if shouldReadReplyBody (no_error reply) (http_status reply) false then body reply else []
  end.

Definition reply_accepted (reply : Reply) : bool :=
  no_error reply && (success_status (http_status reply) || (http_status reply =? 304)).

(** The slot connected to [QNetworkReply::finished], for the request [sent]. *)
Definition handle_reply (sent : Sent) (reply : Reply) (now : Z) (s : ProjectsService) : ProjectsService :=
  let k := continuation (sent_request sent) in
  let cache_key := url_text (url (sent_request sent)) in
  let content := reply_body (queue s) cache_key reply in
  if exceeded_limit reply then failure k "GitHub response exceeded 4 MiB" now s
  else if reply_accepted reply then
    match from_json_bytes content with
    | Some document =>
        let s := match etag reply with
                 | [] => s
                 | tag => with_queue (store_body cache_key tag content (queue s)) s
                 end in
        success k document now s
    | None => failure k "GitHub returned malformed JSON" now s
    end
  else
    let delay := rateLimitBackoffMs (http_status reply) (retry_after reply) (rate_limit_remaining reply)
                   (rate_limit_reset reply) (Z.quot now 1000) in
    let s := if 0 <? delay then with_queue (set_interval (Z.max (poll_interval (queue s)) delay) (queue s)) s else s in
    failure k ("GitHub request failed (" ++ number_text (http_status reply) ++ ")") now s.

Definition reply_finished (i : nat) (reply : Reply) (now : Z) (s : ProjectsService) : ProjectsService :=
  match in_flight (queue s) !! i with
  | None => s
  | Some sent => startRequests (handle_reply sent reply now (with_queue (take_reply i (queue s)) s))
  end.

(** ** What the network is given *)

Record NetworkRequest := { nr_address : Address; nr_headers : list (string * list byte); nr_timeout_ms : Z }.

Definition kRequestTimeoutMs : Z := 10000.

(** The [QNetworkRequest] of a turn of the loop of [startRequests]. *)
Definition network_request (sent : Sent) : NetworkRequest :=
  {| nr_address := address (url (sent_request sent));
     nr_headers :=
       [("Accept", list_byte_of_string "application/vnd.github+json");
        ("X-GitHub-Api-Version", list_byte_of_string "2022-11-28");
        ("User-Agent", list_byte_of_string "rpi-dashboard/0.1")]
       ++ (if authenticated then [("Authorization", app (list_byte_of_string "Bearer ") token_)] else [])
       ++ (match if_none_match sent with Some tag => [("If-None-Match", tag)] | None => [] end);
     nr_timeout_ms := kRequestTimeoutMs |}%string%list.

(** The service after its constructor; the first [refresh] is queued. *)
Definition new_service : ProjectsService :=
  {| queue := {| requests_ := []; in_flight := []; active_requests_ := 0; refresh_request_count_ := 0;
                 counting_refresh_requests_ := false; etags_ := ∅; cached_bodies_ := ∅;
                 poll_interval := pollIntervalMs authenticated 0 |};
     collected := {| pending_run_requests_ := 0; pending_runner_requests_ := 0; run_batches := []; runner_batches := [];
                     runner_ids_ := ∅; online_runner_ids_ := ∅; online_runners_ := -1; total_runners_ := -1 |};
     view := {| projects_ := []; stages_ := []; history_ := []; selected_index_ := -1; selected_key_ := "";
                state_ := "loading"; diagnostics_ := ""; last_success_ := None; stale_ := false |};
     emitted := [] |}.

(** ** What QML reads *)

Definition selectedHealth (v : View) : string := match selected_row v with Some row => health row | None => "unknown" end.
Definition selectedRevision (v : View) : string :=
  match selected_row v with Some row => revision (detail row) | None => "" end.
Definition selectedRun (v : View) : string := match selected_row v with Some row => runLabel (detail row) | None => "" end.
Definition selectedRunAge (v : View) (now : Z) : string :=
  match selected_row v with Some row => ageText (updatedAt (detail row)) now | None => "" end.
Definition historySuccessfulCount (v : View) : nat :=
  match selected_row v with Some row => countSuccessfulHistory (history (detail row)) | None => 0%nat end.
Definition historyCount (v : View) : nat :=
  match selected_row v with Some row => length (history (detail row)) | None => 0%nat end.
Definition shown_text (field : Detail -> option string) (v : View) : string :=
  match selected_row v with Some row => default ""%string (field (detail row)) | None => ""%string end.
Definition trackedCount (v : View) : nat := length (projects_ v).
End service.
