(* ===== verification/ProjectsLaws.v ===== *)
(** * What the projects service promises

    Runs of the service under the network's answers, the poll timer and the user: the
    request queue, the progress of a refresh, and what is selected. *)

From Stdlib Require Import Relation_Operators Lexicographic_Product Inverse_Image Inclusion.
From stdpp Require Import gmap strings.
From S2P Require Import Prelude.
From S2P Require Import Std.
From S2P Require Import QtModel.
From S2P Require Import Json.
From S2P Require Import Projects.
From S2P Require Import ProjectsService.

(** ** The queue *)

(** What was asked for and not answered, in the order of asking. *)
Definition outstanding (q : Queue) : list Request := map sent_request (in_flight q) ++ requests_ q.

Definition queue_ok (q : Queue) : Prop :=
  active_requests_ q = Z.of_nat (length (in_flight q)) /\ active_requests_ q <= kMaximumConcurrentRequests.

(** Nothing waits while the network has room. *)
Definition saturated (q : Queue) : Prop := requests_ q = [] \/ active_requests_ q = kMaximumConcurrentRequests.

(** The requests a refresh waits for. *)
Definition is_listing (r : Request) : bool :=
  match continuation r with OnPublic _ _ | OnPrivate _ _ => true | _ => false end.
Definition is_runs (r : Request) : bool := match continuation r with OnRuns _ _ => true | _ => false end.
Definition is_refresh (r : Request) : bool := is_listing r || is_runs r.

Definition refreshing (q : Queue) : list Request := List.filter is_refresh (outstanding q).

Lemma refreshing_of q q' : outstanding q = outstanding q' -> refreshing q = refreshing q'.
Proof. unfold refreshing. by intros ->. Qed.

Section laws.
Context `{ProjectsLibrary} (owner : string) (token : list byte).

Lemma outstanding_start waiting q :
  outstanding (start_loop waiting q) = map sent_request (in_flight q) ++ waiting.
Proof.
  revert q. induction waiting as [|r rest IH]; intros q; cbn [start_loop]; [done|].
  destruct (active_requests_ q <? _); [|done]. rewrite IH. cbn. by rewrite map_app, <- (assoc_L (++)).
Qed.

Lemma start_loop_ok waiting q : queue_ok q -> queue_ok (start_loop waiting q) /\ saturated (start_loop waiting q).
Proof.
  revert q. induction waiting as [|r rest IH]; intros q Hq; cbn [start_loop]; [split; [done|by left]|].
  destruct (Z.ltb_spec (active_requests_ q) kMaximumConcurrentRequests).
  - apply IH. destruct Hq as [Ha Hl]. split; cbn; [rewrite length_app; cbn; lia|lia].
  - destruct Hq as [Ha Hl]. split; [by split|right; cbn; lia].
Qed.

Lemma outstanding_request r s : outstanding (queue (request r s)) = outstanding (queue s) ++ [r].
Proof.
  unfold request, startRequests. cbn [queue with_queue]. rewrite outstanding_start. cbn [requests_ set_requests in_flight].
  unfold outstanding. by rewrite (assoc_L (++)).
Qed.

Lemma request_ok r s : queue_ok (queue s) -> queue_ok (queue (request r s)) /\ saturated (queue (request r s)).
Proof. intros Hq. by apply start_loop_ok. Qed.

(** ** Steps that do not touch the refresh *)

Definition fields (s : ProjectsService) : string * Z := (state_ (view s), pending_run_requests_ (collected s)).

Record calm (s s' : ProjectsService) : Prop := {
  calm_refreshing : refreshing (queue s') = refreshing (queue s);
  calm_fields : fields s' = fields s;
  calm_queue : queue_ok (queue s) -> queue_ok (queue s');
  calm_saturated : queue_ok (queue s) -> saturated (queue s) -> saturated (queue s') }.

#[export] Instance calm_preorder : PreOrder calm.
Proof.
  split; [by intros s; split|]. intros a b c [H1 H2 H3 H4] [K1 K2 K3 K4]. split; try congruence; auto.
Qed.

Lemma calm_same s s' : queue s' = queue s -> fields s' = fields s -> calm s s'.
Proof. intros Hq Hf. split; rewrite ?Hq; auto. Qed.

Lemma calm_request r s : is_refresh r = false -> calm s (request r s).
Proof.
  intros Hr. split; [|done|intros Hq; by apply request_ok|intros Hq _; by apply request_ok].
  unfold refreshing. rewrite outstanding_request, List.filter_app. cbn. rewrite Hr. apply app_nil_r.
Qed.

Lemma calm_request_all rs s : Forall (fun r => is_refresh r = false) rs -> calm s (request_all rs s).
Proof.
  unfold request_all. intros Hrs. revert s. induction Hrs as [|r rs Hr _ IH]; intros s; cbn; [reflexivity|].
  etransitivity; [by apply calm_request|apply IH].
Qed.

Lemma calm_emit x s : calm s (emit x s).
Proof. by apply calm_same. Qed.

Lemma calm_details s : calm s (loadSelectedDetails s).
Proof.
  unfold loadSelectedDetails. destruct (selected_row (view s)) as [row|]; [|by apply calm_same].
  etransitivity; [|by apply calm_request]. etransitivity; [|by apply calm_request]. by apply calm_same.
Qed.

Lemma calm_runners s : calm s (loadRunners token s).
Proof.
  unfold loadRunners. destruct (negb _ || _); [by apply calm_same|].
  etransitivity; [|apply calm_request_all; apply Forall_map, Forall_true; done]. by apply calm_same.
Qed.

(** ** The end of a refresh *)

(** Nothing of a refresh is under way. *)
Record settled (s s' : ProjectsService) : Prop := {
  settled_refreshing : refreshing (queue s') = refreshing (queue s);
  settled_state : state_ (view s') <> "loading"%string;
  settled_queue : queue_ok (queue s) -> queue_ok (queue s') }.

Lemma settled_calm s s1 s2 : settled s s1 -> calm s1 s2 -> settled s s2.
Proof. intros [H1 H2 H3] [K1 K2 K3 K4]. unfold fields in K2. split; [congruence|congruence|auto]. Qed.

Lemma calm_settled s s1 s2 : calm s s1 -> settled s1 s2 -> settled s s2.
Proof. intros [K1 K2 K3 K4] [H1 H2 H3]. split; [congruence|done|auto]. Qed.

Lemma failRefresh_settled diagnostic s : settled s (failRefresh diagnostic s).
Proof. split; [done| |done]. cbn. by destruct (projects_ (view s)). Qed.

Lemma finishRefresh_settled now s : settled s (finishRefresh token now s).
Proof.
  unfold finishRefresh. eapply settled_calm; [|apply calm_runners]. split; [done| |done]. cbn. by destruct (projects_ (view s)).
Qed.

Lemma publish_runs_settled rows now s : settled s (publish_runs token rows now s).
Proof.
  unfold publish_runs. eapply settled_calm; [|apply calm_details]. eapply calm_settled; [|apply finishRefresh_settled].
  by apply calm_same.
Qed.

(** ** The progress of a refresh *)

Lemma request_all_refreshing rs s : Forall (fun r => is_refresh r = true) rs ->
  refreshing (queue (request_all rs s)) = refreshing (queue s) ++ rs /\ fields (request_all rs s) = fields s /\
  (queue_ok (queue s) -> queue_ok (queue (request_all rs s))).
Proof.
  unfold request_all. intros Hrs. revert s. induction Hrs as [|r rs Hr _ IH]; intros s; cbn; [by rewrite app_nil_r|].
  destruct (IH (request r s)) as (IH1 & IH2 & IH3). split; [|split; [done|intros Hq; by apply IH3, request_ok]].
  rewrite IH1. unfold refreshing. rewrite outstanding_request, List.filter_app. cbn. by rewrite Hr, <- (assoc_L (++)).
Qed.

(** The states of a refresh: none, one page of repositories awaited, or the runs of the
    repositories awaited, as many as [pending_run_requests_] says. *)
Inductive phase (l : list Request) (pending : Z) (st : string) : Prop :=
| Settled (Hl : l = []) (Hst : st <> "loading"%string)
| Listing r (Hl : l = [r]) (Hr : is_listing r = true) (Hst : st = "loading"%string)
| Loading batch (Hl : Forall (fun r => exists repository, continuation r = OnRuns repository batch) l)
    (Hne : l <> []) (Hp : pending = Z.of_nat (length l)) (Hst : st = "loading"%string).

Definition phase_of (s : ProjectsService) : Prop :=
  phase (refreshing (queue s)) (pending_run_requests_ (collected s)) (state_ (view s)).

Lemma phase_settled s s' : settled s s' -> refreshing (queue s) = [] -> phase_of s'.
Proof. intros [H1 H2 _] Hn. apply Settled; [congruence|done]. Qed.

Lemma phase_calm s s' : calm s s' -> phase_of s -> phase_of s'.
Proof. intros [H1 H2 _] Hp. unfold phase_of, fields in *. rewrite H1. by injection H2 as -> ->. Qed.

(** A list request is added to a loading service that waits for nothing. *)
Lemma request_listing r s : refreshing (queue s) = [] -> state_ (view s) = "loading"%string -> is_listing r = true ->
  phase_of (request r s) /\ refreshing (queue (request r s)) = [r].
Proof.
  intros Hn Hst Hr. assert (refreshing (queue (request r s)) = [r]) as Hq; [|split; [by eapply Listing|done]].
  unfold refreshing in *. rewrite outstanding_request, List.filter_app, Hn. cbn. unfold is_refresh. by rewrite Hr.
Qed.

Lemma loadRuns_phase now repositories s : refreshing (queue s) = [] -> state_ (view s) = "loading"%string ->
  let s' := loadRuns token now repositories s in
  phase_of s' /\ (queue_ok (queue s) -> queue_ok (queue s')) /\ Forall (fun r => is_listing r = false) (refreshing (queue s')).
Proof.
  intros Hn Hst. destruct repositories as [|r0 rest]; cbn [loadRuns].
  - assert (settled s (finishRefresh token now (replace_projects [] s))) as Hs
      by (eapply calm_settled; [|apply finishRefresh_settled]; by apply calm_same).
    split; [by eapply phase_settled|]. split; [apply Hs|]. rewrite (settled_refreshing _ _ Hs), Hn. constructor.
  - set (rs := map _ (r0 :: rest)). set (s1 := with_collected _ s).
    destruct (request_all_refreshing rs s1) as (H1 & H2 & H3); [by apply Forall_map, Forall_true|].
    change (refreshing (queue s1)) with (refreshing (queue s)) in H1. rewrite Hn in H1. cbn [app] in H1.
    split; [|split; [done|rewrite H1; by apply Forall_map, Forall_true]].
    apply pair_equal_spec in H2 as [E1 E2]. unfold phase_of. rewrite E1, E2, H1. eapply Loading.
    + apply Forall_map, Forall_true. intros r. by exists r.
    + done.
    + unfold rs. rewrite length_map. done.
    + done.
Qed.

(** ** Replies *)

Definition reply_document (q : Queue) (sent : Sent) (reply : Reply) : option json :=
  from_json_bytes (reply_body q (url_text (url (sent_request sent))) reply).

(** A reply is a document or an error; what it does before is bookkeeping. *)
Lemma handle_reply_cases sent reply now s :
  let k := continuation (sent_request sent) in
  exists s1, calm s s1 /\ view s1 = view s /\ collected s1 = collected s /\
    ((exists document, reply_document (queue s) sent reply = Some document /\
        handle_reply owner token sent reply now s = success owner token k document now s1) \/
     (exists error, handle_reply owner token sent reply now s = failure token k error now s1)).
Proof.
  cbn. unfold handle_reply. destruct (exceeded_limit reply); [exists s; split; [reflexivity|eauto]|].
  destruct (reply_accepted reply).
  - unfold reply_document. destruct (from_json_bytes _) as [document|]; [|exists s; split; [reflexivity|eauto]].
    destruct (etag reply) as [|b tag]; eexists; (split; [|split; [|split; [|left; by eexists]]]); try done; by split.
  - set (delay := rateLimitBackoffMs _ _ _ _ _). destruct (0 <? delay); eexists;
      (split; [|split; [|split; [|right; by eexists]]]); try done; by split.
Qed.

(** The reply to a page of repositories. *)
Lemma listing_reply k s : is_listing {| url := PrivateRepositories 1; continuation := k |} = true ->
  refreshing (queue s) = [] -> state_ (view s) = "loading"%string ->
  (forall document now, phase_of (success owner token k document now s) /\
     (queue_ok (queue s) -> queue_ok (queue (success owner token k document now s)))) /\
  (forall error now, phase_of (failure token k error now s) /\
     (queue_ok (queue s) -> queue_ok (queue (failure token k error now s)))).
Proof.
  intros Hk Hn Hst.
  assert (forall r, is_listing r = true -> phase_of (request r s) /\ (queue_ok (queue s) -> queue_ok (queue (request r s)))) as Hreq
    by (intros r Hr; split; [by apply request_listing|intros Hq; by apply request_ok]).
  assert (forall d, phase_of (failRefresh d s) /\ (queue_ok (queue s) -> queue_ok (queue (failRefresh d s)))) as Hfail
    by (intros d; split; [by eapply phase_settled; [apply failRefresh_settled|]|done]).
  assert (forall now rs, phase_of (loadRuns token now rs s) /\ (queue_ok (queue s) -> queue_ok (queue (loadRuns token now rs s)))) as Hruns
    by (intros now rs; destruct (loadRuns_phase now rs s Hn Hst) as (? & ? & _); done).
  destruct k as [page rs|page rs|? ?|?|? ?|? ?]; try done; cbn [success failure]; (split; [intros document now|intros error now]); auto.
  - unfold public_success. destruct (public_page _ _); [|auto]. destruct (full_page document); [by apply Hreq|].
    destruct (authenticated token); [by apply Hreq|auto].
  - unfold private_success. destruct (private_page _ _ _); [|auto]. destruct (full_page document); [by apply Hreq|auto].
Qed.

(** The reply to the runs of a repository, [l] being the requests that are still out. *)
Lemma runs_reply repository batch s l :
  refreshing (queue s) = l -> Forall (fun r => exists repo, continuation r = OnRuns repo batch) l ->
  pending_run_requests_ (collected s) = Z.of_nat (length l) + 1 -> state_ (view s) = "loading"%string ->
  forall s', (exists document now, s' = runs_success token repository batch document now s) \/
             (exists error, s' = runs_failure batch error s) ->
  phase_of s' /\ (queue_ok (queue s) -> queue_ok (queue s')) /\ refreshing (queue s') = l.
Proof.
  intros Hl Hall Hp Hst s' Hs'.
  assert (forall s1, queue s1 = queue s -> view s1 = view s ->
    pending_run_requests_ (collected s1) = Z.of_nat (length l) -> l <> [] ->
    phase_of s1 /\ (queue_ok (queue s) -> queue_ok (queue s1)) /\ refreshing (queue s1) = l) as Hmore.
  { intros s1 Hq Hv Hc Hne. rewrite Hq. split; [|done]. by eapply Loading; rewrite ?Hq, ?Hl, ?Hv. }
  assert (forall s1 s2, queue s1 = queue s -> settled s1 s2 -> l = [] ->
    phase_of s2 /\ (queue_ok (queue s) -> queue_ok (queue s2)) /\ refreshing (queue s2) = l) as Hlast.
  { intros s1 s2 Hq Hsettled Hnil. split; [eapply phase_settled; [done|by rewrite Hq, Hl]|].
    split; [intros ?; apply Hsettled; by rewrite Hq|by rewrite (settled_refreshing _ _ Hsettled), Hq]. }
  destruct Hs' as [(document & now & ->)|[error ->]]; [unfold runs_success|unfold runs_failure];
    destruct (batch_of batch (collected s)) as [rows failed]; rewrite Hp;
    replace (_ + 1 - 1) with (Z.of_nat (length l)) by lia; destruct (Z.eqb_spec (Z.of_nat (length l)) 0) as [H0|H0];
    try (apply Hmore; [done|done|done|intros ->; done]); set (s1 := with_collected _ s);
    (assert (l = []) as Hnil by (destruct l; [done|cbn in H0; lia]));
    [destruct (failed || _)|]; apply (Hlast s1); auto using failRefresh_settled, publish_runs_settled.
Qed.

(** The replies that a refresh does not wait for. *)
Lemma other_reply k s : is_refresh {| url := PrivateRepositories 1; continuation := k |} = false ->
  (forall document now, calm s (success owner token k document now s)) /\ (forall error now, calm s (failure token k error now s)).
Proof.
  destruct k as [page rs|page rs|? ?|batch|repository run_id|repository run_id]; try done; intros _;
    (split; [intros document now|intros error now]); cbn [success failure];
    unfold runners_success, runners_failure, jobs_success, jobs_failure, artifacts_success, add_details; cbv zeta;
    repeat match goal with |- calm _ (if ?b then _ else _) => destruct b | |- calm _ (match ?b with _ => _ end) => destruct b end;
    apply calm_same; try reflexivity; unfold fields; cbn; by repeat case_match.
Qed.

Lemma take_reply_refreshing i q sent : in_flight q !! i = Some sent ->
  exists l1 l2, refreshing (take_reply i q) = l1 ++ l2 /\
    refreshing q = l1 ++ (if is_refresh (sent_request sent) then [sent_request sent] else []) ++ l2.
Proof.
  intros Hi. pose proof (take_drop_middle _ _ _ Hi) as Hm.
  exists (List.filter is_refresh (map sent_request (take i (in_flight q)))),
    (List.filter is_refresh (map sent_request (drop (S i) (in_flight q)) ++ requests_ q)).
  assert (outstanding q = map sent_request (take i (in_flight q)) ++
    sent_request sent :: map sent_request (drop (S i) (in_flight q)) ++ requests_ q) as Ho.
  { unfold outstanding. rewrite <- Hm at 1. by rewrite map_app, map_cons, <- (assoc_L (++)). }
  unfold refreshing. rewrite Ho. split.
  - unfold outstanding. cbn [take_reply in_flight requests_].
    by rewrite delete_take_drop, map_app, <- (assoc_L (++)), List.filter_app.
  - rewrite List.filter_app. cbn [List.filter]. by destruct (is_refresh (sent_request sent)).
Qed.

Lemma take_reply_ok i q : is_Some (in_flight q !! i) -> queue_ok q -> queue_ok (take_reply i q).
Proof.
  intros Hi [Ha Hl]. pose proof (lookup_lt_is_Some_1 _ _ Hi). split; cbn; [|lia].
  rewrite delete_take_drop, length_app, length_take, length_drop. lia.
Qed.

Lemma startRequests_phase s : queue_ok (queue s) -> phase_of s ->
  phase_of (startRequests s) /\ queue_ok (queue (startRequests s)) /\ saturated (queue (startRequests s)).
Proof.
  intros Hq Hp. split; [|by apply start_loop_ok]. unfold phase_of, startRequests in *. cbn.
  rewrite (refreshing_of _ (queue s)); [done|]. apply outstanding_start.
Qed.

Lemma reply_phase i reply now s : phase_of s -> queue_ok (queue s) -> saturated (queue s) ->
  let s' := reply_finished owner token i reply now s in phase_of s' /\ queue_ok (queue s') /\ saturated (queue s').
Proof.
  intros Hp Hq Hsat. cbn. unfold reply_finished. destruct (in_flight (queue s) !! i) as [sent|] eqn:Hi; [|done].
  destruct (take_reply_refreshing _ _ _ Hi) as (l1 & l2 & Ht & Hb).
  pose proof (take_reply_ok i (queue s) (ex_intro _ _ Hi) Hq) as Hq0. set (s0 := with_queue (take_reply i (queue s)) s).
  destruct (handle_reply_cases sent reply now s0) as (s1 & Hc & Hv & Hcol & Hcases).
  assert (phase_of (handle_reply owner token sent reply now s0) /\
    queue_ok (queue (handle_reply owner token sent reply now s0))) as [Hp' Hq'].
  2: { by apply startRequests_phase. }
  pose proof (calm_queue _ _ Hc Hq0) as Hq1. pose proof (calm_refreshing _ _ Hc) as Hr1. cbn [s0 queue with_queue] in Hr1.
  rewrite Ht in Hr1. assert (view s1 = view s) as Hv1 by done. assert (collected s1 = collected s) as Hc1 by done.
  destruct (is_refresh (sent_request sent)) eqn:Hr; cbn [app] in Hb.
  - unfold phase_of in Hp. rewrite Hb in Hp. inversion Hp as [Hl Hst|r Hl Hrl Hst|batch Hl Hne Hpend Hst].
    + by destruct l1.
    + assert (l1 ++ l2 = [] /\ sent_request sent = r) as [Hnil Heq].
      { destruct l1 as [|x l1]; cbn in Hl; [injection Hl as -> ->; done|]. injection Hl as _ Hl. by destruct l1. }
      rewrite Hnil in Hr1. rewrite Heq in *. destruct (listing_reply (continuation r) s1) as [Hs Hf]; [done|done|by rewrite Hv1|].
      destruct Hcases as [(document & _ & ->)|[error ->]]; [destruct (Hs document now)|destruct (Hf error now)]; auto.
    + assert (exists repository, continuation (sent_request sent) = OnRuns repository batch) as [repository Hk].
      { rewrite Forall_app, Forall_cons in Hl. tauto. }
      assert (Forall (fun r => exists repo, continuation r = OnRuns repo batch) (l1 ++ l2)) as Hl'.
      { rewrite Forall_app, Forall_cons in Hl. apply Forall_app. tauto. }
      rewrite length_app in Hpend. cbn [length] in Hpend.
      pose proof (runs_reply repository batch s1 (l1 ++ l2) Hr1 Hl' ltac:(rewrite Hc1, Hpend, length_app; lia)
        ltac:(by rewrite Hv1)) as Hruns.
      rewrite Hk in Hcases. destruct Hcases as [(document & _ & ->)|[error ->]]; cbn [success failure];
        [destruct (Hruns _ (or_introl (ex_intro _ document (ex_intro _ now eq_refl)))) as (? & ? & _)
        |destruct (Hruns _ (or_intror (ex_intro _ error eq_refl))) as (? & ? & _)]; auto.
  - destruct (other_reply (continuation (sent_request sent)) s1) as [Hs Hf]; [done|].
    assert (phase_of s1) as Hp1 by (unfold phase_of in *; rewrite Hr1, Hv1, Hc1, <- Hb; done).
    destruct Hcases as [(document & _ & ->)|[error ->]];
      [pose proof (Hs document now) as Hcalm|pose proof (Hf error now) as Hcalm]; (split; [by eapply phase_calm|by apply Hcalm]).
Qed.

(** ** Runs of the service *)

Inductive event := Refresh | Select (index : Z) | Answer (i : nat) (reply : Reply) (now : Z).

Definition handle (e : event) : ProjectsService -> ProjectsService :=
  match e with
  | Refresh => refresh owner
  | Select index => selectProject index
  | Answer i reply now => reply_finished owner token i reply now
  end.

Definition run (es : list event) : ProjectsService := fold_left (fun s e => handle e s) es (new_service token).

(** Is a refresh under way? *)
Definition under_way (s : ProjectsService) : bool := match refreshing (queue s) with [] => false | _ => true end.

Lemma outstanding_active q : queue_ok q -> saturated q -> outstanding q <> [] -> 0 < active_requests_ q.
Proof.
  intros [Ha _] Hs Hne. destruct (in_flight q) as [|x l] eqn:E; [|rewrite Ha; cbn; lia].
  destruct Hs as [Hr|Hr]; [|rewrite Hr; unfold kMaximumConcurrentRequests; lia].
  destruct Hne. unfold outstanding. by rewrite E, Hr.
Qed.

Lemma under_way_active s : queue_ok (queue s) -> saturated (queue s) -> under_way s = true -> 0 < active_requests_ (queue s).
Proof.
  intros Hq Hs Hu. apply outstanding_active; [done|done|]. intros Ho. unfold under_way, refreshing in Hu. by rewrite Ho in Hu.
Qed.

Lemma phase_state s : phase_of s -> (under_way s = true <-> state_ (view s) = "loading"%string).
Proof.
  unfold phase_of, under_way. intros Hp.
  inversion Hp as [-> Hst|r -> Hr Hst|batch Hl Hne Hpend Hst]; [by split|by split|].
  destruct (refreshing (queue s)); [done|by split].
Qed.

Lemma refresh_phase s : phase_of s \/ s = new_service token -> queue_ok (queue s) -> saturated (queue s) ->
  phase_of (refresh owner s) /\ queue_ok (queue (refresh owner s)) /\ saturated (queue (refresh owner s)) /\
  (under_way s = true -> refresh owner s = s) /\
  (under_way s = false -> refreshing (queue (refresh owner s)) =
     [{| url := PublicRepositories owner 1; continuation := OnPublic 1 [] |}] /\
     state_ (view (refresh owner s)) = "loading"%string).
Proof.
  intros Hp Hq Hs. set (s1 := setState "loading" "" (with_queue (set_counting true 0 (queue s)) s)).
  assert (under_way s = false -> refresh owner s = discoverRepositories owner 1 [] s1) as Hstart.
  { intros Hu. unfold refresh. destruct Hp as [Hp| ->]; [|done].
    destruct (String.eqb_spec (state_ (view s)) "loading") as [Hst|Hst]; [|done].
    apply (phase_state s Hp) in Hst. congruence. }
  destruct (under_way s) eqn:Hu.
  - destruct Hp as [Hp| ->]; [|done]. assert (refresh owner s = s) as ->; [|do 3 (split; [done|]); split; [done|done]].
    unfold refresh. pose proof (under_way_active s Hq Hs Hu). pose proof (proj1 (phase_state s Hp) Hu) as ->.
    by rewrite (proj2 (Z.ltb_lt _ _)).
  - rewrite Hstart by done. unfold discoverRepositories. assert (refreshing (queue s1) = []) as Hn.
    { unfold under_way in Hu. change (refreshing (queue s1)) with (refreshing (queue s)). by destruct (refreshing (queue s)). }
    destruct (request_listing {| url := PublicRepositories owner 1; continuation := OnPublic 1 [] |} s1) as [Hp' Hr']; [done..|].
    split; [done|]. destruct (request_ok {| url := PublicRepositories owner 1; continuation := OnPublic 1 [] |} s1) as [? ?]; [done|].
    do 2 (split; [done|]). split; [done|]. intros _. by split.
Qed.

Lemma select_calm index s : calm s (selectProject index s).
Proof.
  unfold selectProject. destruct (_ || _); [reflexivity|]. etransitivity; [|apply calm_details]. by apply calm_same.
Qed.

Lemma run_snoc es e : run (es ++ [e]) = handle e (run es).
Proof. unfold run. by rewrite fold_left_app. Qed.

Lemma new_service_ready : (phase_of (new_service token) \/ new_service token = new_service token) /\
  queue_ok (queue (new_service token)) /\ saturated (queue (new_service token)).
Proof. split; [by right|]. split; [split; [done|unfold kMaximumConcurrentRequests; cbn; lia]|by left]. Qed.

Lemma projects_run_phase es : (phase_of (run es) \/ run es = new_service token) /\ queue_ok (queue (run es)) /\ saturated (queue (run es)).
Proof.
  induction es as [|e es (Hp & Hq & Hs)] using rev_ind; [apply new_service_ready|].
  rewrite run_snoc. destruct e as [|index|i reply now]; cbn [handle].
  - destruct (refresh_phase _ Hp Hq Hs) as (? & ? & ? & _). auto.
  - destruct Hp as [Hp| ->].
    + pose proof (select_calm index (run es)) as Hc. split; [left; by eapply phase_calm|]. split; [by apply Hc|by apply Hc].
    + assert (selectProject index (new_service token) = new_service token) as ->; [|apply new_service_ready].
      unfold selectProject. destruct (Z.ltb_spec index 0); [done|]. cbn [orb].
      by rewrite (proj2 (Z.leb_le _ index)) by (cbn; lia).
  - destruct Hp as [Hp| ->]; [|apply new_service_ready].
    destruct (reply_phase i reply now _ Hp Hq Hs) as (? & ? & ?). auto.
Qed.

(** ** A refresh ends *)

(** How far a refresh is, if the owner has at most [pages] full pages of repositories:
    the pages to come, then the runs to come. *)
Definition stage (pages : nat) (k : Continuation) : nat :=
  match k with
  | OnPublic page _ => (2 * (pages + 2) + Z.to_nat (Z.of_nat pages + 1 - page))%nat
  | OnPrivate page _ => S (Z.to_nat (Z.of_nat pages + 1 - page))
  | _ => 0%nat
  end.

Definition variant (pages : nat) (l : list Request) : nat * nat :=
  match l with [] => (0%nat, 0%nat) | r :: _ => (stage pages (continuation r), length l) end.

Definition closer : relation (nat * nat) := slexprod nat nat lt lt.

Lemma closer_wf : well_founded closer.
Proof. apply wf_slexprod; apply lt_wf. Qed.

Lemma closer_stage a b x y : (a < b)%nat -> closer (a, x) (b, y).
Proof. apply left_slex. Qed.

Definition within (pages : nat) (k : Continuation) (document : json) : Prop :=
  full_page document = true ->
  match k with OnPublic page _ | OnPrivate page _ => page <= Z.of_nat pages | _ => True end.

Lemma no_listing_stage pages l : Forall (fun r => is_listing r = false) l -> (variant pages l).1 = 0%nat.
Proof. destruct l as [|[u k] l]; [done|]. rewrite Forall_cons. intros [Hr _]. by destruct k. Qed.

Lemma loadRuns_closer pages now rs s n m : refreshing (queue s) = [] -> state_ (view s) = "loading"%string -> (0 < n)%nat ->
  closer (variant pages (refreshing (queue (loadRuns token now rs s)))) (n, m).
Proof.
  intros Hn Hst Hpos. destruct (loadRuns_phase now rs s Hn Hst) as (_ & _ & Hall). apply (no_listing_stage pages) in Hall.
  destruct (variant _ _) as [a b]. cbn in Hall. subst a. by apply closer_stage.
Qed.

Lemma request_closer pages r s n m : refreshing (queue s) = [] -> state_ (view s) = "loading"%string -> is_listing r = true ->
  (stage pages (continuation r) < n)%nat -> closer (variant pages (refreshing (queue (request r s)))) (n, m).
Proof.
  intros Hn Hst Hr Hlt. destruct (request_listing r s Hn Hst Hr) as [_ ->]. by apply closer_stage.
Qed.

Lemma fail_closer pages d s n m : refreshing (queue s) = [] -> (0 < n)%nat ->
  closer (variant pages (refreshing (queue (failRefresh d s)))) (n, m).
Proof.
  intros Hn Hpos. rewrite (settled_refreshing _ _ (failRefresh_settled d s)), Hn. by apply closer_stage.
Qed.

(** The answer to a page brings the end closer. *)
Lemma listing_closer pages k s m : is_listing {| url := PrivateRepositories 1; continuation := k |} = true ->
  refreshing (queue s) = [] -> state_ (view s) = "loading"%string ->
  (forall document now, within pages k document ->
     closer (variant pages (refreshing (queue (success owner token k document now s)))) (stage pages k, m)) /\
  (forall error now, closer (variant pages (refreshing (queue (failure token k error now s)))) (stage pages k, m)).
Proof.
  intros Hk Hn Hst. unfold within.
  destruct k as [page rs|page rs|? ?|?|? ?|? ?]; try done; cbn [success failure]; (split; [intros document now Hw|intros error now]).
  - unfold public_success. destruct (public_page _ _); [|apply fail_closer; [done|cbn; lia]].
    destruct (full_page document); [apply request_closer; [done..|]; specialize (Hw eq_refl); cbn; lia|].
    destruct (authenticated token); [apply request_closer; [done..|cbn; lia]|apply loadRuns_closer; [done..|cbn; lia]].
  - apply fail_closer; [done|cbn; lia].
  - unfold private_success. destruct (private_page _ _ _); [|apply fail_closer; [done|cbn; lia]].
    destruct (full_page document); [apply request_closer; [done..|]; specialize (Hw eq_refl); cbn; lia|].
    apply loadRuns_closer; [done..|cbn; lia].
  - apply loadRuns_closer; [done..|cbn; lia].
Qed.

(** An answer to a request of the refresh that leaves the refresh under way, on an
    account with at most [pages] full pages. *)
Inductive refresh_step (pages : nat) : ProjectsService -> ProjectsService -> Prop :=
| refresh_step_intro s i sent reply now (Hp : phase_of s) (Hi : in_flight (queue s) !! i = Some sent)
    (Hr : is_refresh (sent_request sent) = true)
    (Hw : forall document, reply_document (queue (with_queue (take_reply i (queue s)) s)) sent reply = Some document ->
          within pages (continuation (sent_request sent)) document)
    (Hu : under_way (reply_finished owner token i reply now s) = true) :
    refresh_step pages (reply_finished owner token i reply now s) s.

Lemma refreshing_start s : refreshing (queue (startRequests s)) = refreshing (queue s).
Proof. apply refreshing_of, outstanding_start. Qed.

Lemma refresh_step_closer pages s' s : refresh_step pages s' s ->
  closer (variant pages (refreshing (queue s'))) (variant pages (refreshing (queue s))).
Proof.
  intros [s0 i sent reply now Hp Hi Hr Hw Hu]. unfold reply_finished in *. rewrite Hi in *.
  destruct (take_reply_refreshing _ _ _ Hi) as (l1 & l2 & Ht & Hb). rewrite Hr in Hb. cbn [app] in Hb.
  set (s1 := with_queue (take_reply i (queue s0)) s0) in *.
  destruct (handle_reply_cases sent reply now s1) as (s2 & Hc & Hv & Hcol & Hcases).
  assert (refreshing (queue s2) = l1 ++ l2) as Hr2 by (by rewrite (calm_refreshing _ _ Hc)).
  assert (view s2 = view s0) as Hv2 by done. assert (collected s2 = collected s0) as Hc2 by done.
  rewrite refreshing_start. unfold under_way in Hu. rewrite refreshing_start in Hu. unfold phase_of in Hp. rewrite Hb in *.
  inversion Hp as [Hl Hst|r Hl Hrl Hst|batch Hl Hne Hpend Hst]; [by destruct l1| |].
  - assert (l1 = [] /\ l2 = [] /\ sent_request sent = r) as (-> & -> & Heq).
    { destruct l1 as [|x l1]; cbn in Hl; [by injection Hl as -> ->|]. injection Hl as _ Hl. by destruct l1. }
    rewrite Heq in *. cbn [app variant length] in *.
    destruct (listing_closer pages (continuation r) s2 1) as [Hs Hf]; [done|done|by rewrite Hv2|].
    destruct Hcases as [(document & Hdoc & ->)|[error ->]]; [by apply Hs, Hw|apply Hf].
  - rewrite Forall_app, Forall_cons in Hl. destruct Hl as (Hl1 & [repository Hk] & Hl2).
    assert (Forall (fun r => exists repo, continuation r = OnRuns repo batch) (l1 ++ l2)) as Hl' by (by apply Forall_app).
    rewrite length_app in Hpend. cbn [length] in Hpend.
    pose proof (runs_reply repository batch s2 (l1 ++ l2) Hr2 Hl' ltac:(rewrite Hc2, Hpend, length_app; lia)
      ltac:(by rewrite Hv2)) as Hruns.
    assert (refreshing (queue (handle_reply owner token sent reply now s1)) = l1 ++ l2) as Hend.
    { rewrite Hk in Hcases. destruct Hcases as [(document & _ & ->)|[error ->]]; cbn [success failure];
        [destruct (Hruns _ (or_introl (ex_intro _ document (ex_intro _ now eq_refl)))) as (_ & _ & ->)
        |destruct (Hruns _ (or_intror (ex_intro _ error eq_refl))) as (_ & _ & ->)]; done. }
    rewrite Hend in *.
    assert (forall l, Forall (fun r => exists repo, continuation r = OnRuns repo batch) l -> (variant pages l) = (0%nat, length l)) as Hvar.
    { intros [|r l] Hall; [done|]. rewrite Forall_cons in Hall. destruct Hall as [[repo Hk'] _]. cbn. by rewrite Hk'. }
    rewrite !Hvar by (done || (apply Forall_app; split; [done|]; apply Forall_cons; split; [by exists repository|done])).
    apply right_slex. rewrite !length_app. cbn. lia.
Qed.

(** C33. Termination.  For an account with at most [pages] full pages of repositories,
    no sequence of answers to the requests of a refresh keeps it under way for ever:
    each answer, of whatever content and in whatever order, completed or failed, ends
    it or brings it closer to its end. *)
Theorem projects_refresh_terminates pages : well_founded (refresh_step pages).
Proof.
  apply (wf_incl _ _ (fun s' s => closer (variant pages (refreshing (queue s'))) (variant pages (refreshing (queue s))))).
  - intros s' s. apply refresh_step_closer.
  - apply wf_inverse_image, closer_wf.
Qed.

End laws.
