(* ===== verification/ProjectsRequests.v ===== *)
(** * The requests of the projects service

    What is sent to GitHub and what is kept of its answers.  Answers are stored with their
    ETag and asked for again under it; shown is that what a 304 then refers to is at hand
    and reads as a document.  A statement about the queue is carried through every handler
    by its closure under the few things a handler does to the queue ([closed]). *)

From stdpp Require Import gmap strings.
From S2P Require Import Prelude.
From S2P Require Import Std.
From S2P Require Import QtModel.
From S2P Require Import Json.
From S2P Require Import Projects.
From S2P Require Import ProjectsService.
From S2P Require Import ProjectsLaws.
From S2P Require Import ProjectsSample.

Section requests.
Context `{ProjectsLibrary} (owner : string) (token : list byte).

(** ** The token *)

(** The documented law of [QString::arg]: it replaces place markers, which begin with a
    percent sign, and keeps what is before the first. *)
Fixpoint no_marker (s : string) : bool :=
  match s with EmptyString => true | String c rest => negb (Ascii.eqb c "%") && no_marker rest end.

Class ArgLaw : Prop := arg_keeps before template text :
  no_marker before = true -> exists rest, arg (before ++ template) text = (before ++ rest)%string.

Definition github : string := "https://api.github.com/".

Lemma arg_github `{ArgLaw} template text : starts_with github template = true -> starts_with github (arg template text) = true.
Proof.
  intros Hg. apply starts_with_app in Hg as [rest ->]. destruct (arg_keeps github rest text) as [rest' ->]; [done|]. apply starts_with_app. by eexists.
Qed.

(** The token goes with every request when there is one, with no other, and to GitHub. *)
Theorem token_to_github `{ArgLaw} sent :
  let r := network_request token sent in
  starts_with github (base (nr_address r)) = true /\
  List.filter (fun h => String.eqb h.1 "Authorization") (nr_headers r) =
    (match token with [] => [] | _ => [("Authorization"%string, app (list_byte_of_string "Bearer ") token)] end).
Proof.
  cbv zeta. split.
  - cbn [network_request nr_address]. destruct (url (sent_request sent)); cbn [address base public_address private_address runs_address runners_address jobs_address artifacts_address]; repeat apply arg_github; done.
  - unfold network_request. cbn [nr_headers]. by destruct token, (if_none_match sent).
Qed.

(** ** What a handler does to the queue *)

Record closed (P : Queue -> Prop) : Prop := {
  closed_requests : forall l q, P q -> P (set_requests l q);
  closed_send : forall r q, P q -> P (send r q);
  closed_counting : forall b n q, P q -> P (set_counting b n q);
  closed_interval : forall ms q, P q -> P (set_interval ms q);
  closed_store : forall k tag content q, is_Some (from_json_bytes content) -> P q -> P (store_body k tag content q);
  closed_take : forall i q, P q -> P (take_reply i q) }.

Section handlers.
Context (P : Queue -> Prop) (HP : closed P).

(** [P] of the queue of a service. *)
Definition holds (s : ProjectsService) : Prop := P (queue s).

Lemma holds_start_loop l q : P q -> P (start_loop l q).
Proof.
  revert q. induction l as [|r l IH]; intros q Hq; cbn [start_loop]; [by apply HP|].
  destruct (_ <? _); [by apply IH, HP|by apply HP].
Qed.

Lemma holds_start s : holds s -> holds (startRequests s).
Proof. apply holds_start_loop. Qed.

Lemma holds_request r s : holds s -> holds (request r s).
Proof. intros Hs. apply holds_start_loop, HP, Hs. Qed.

Lemma holds_request_all rs s : holds s -> holds (request_all rs s).
Proof. unfold request_all. revert s. induction rs as [|r rs IH]; intros s Hs; [done|]. by apply IH, holds_request. Qed.

(** What leaves the queue is looked through; [request] and the fields that a handler sets
    are the closure's. *)
Ltac holds_step :=
  lazymatch goal with
  | |- holds (request _ _) => apply holds_request
  | |- holds (request_all _ _) => apply holds_request_all
  | |- holds (startRequests _) => apply holds_start
  | |- holds (emit _ ?s) => change (holds s)
  | |- holds (with_view _ ?s) => change (holds s)
  | |- holds (with_collected _ ?s) => change (holds s)
  | |- holds (replace_projects _ ?s) => change (holds s)
  | |- holds (replace_stages _ ?s) => change (holds s)
  | |- holds (replace_history _ ?s) => change (holds s)
  | |- holds (setState _ _ ?s) => change (holds s)
  | |- holds (with_queue (set_counting _ _ (queue ?s)) _) => apply (closed_counting P HP); change (holds s)
  | |- holds (with_queue (set_interval _ (queue ?s)) _) => apply (closed_interval P HP); change (holds s)
  | |- holds (if ?b then _ else _) => destruct b
  | |- holds (match ?b with _ => _ end) => destruct b
  end.
Ltac holds := cbv zeta; repeat holds_step; try done.

Lemma holds_finishRefresh now s : holds s -> holds (finishRefresh token now s).
Proof.
  intros Hs. unfold finishRefresh. cbv zeta. assert (forall s, holds s -> holds (loadRunners token s)) as Hrunners.
  { intros s1 Hs1. unfold loadRunners. holds. }
  apply Hrunners. apply (closed_interval P HP), (closed_counting P HP), Hs.
Qed.

Lemma holds_failRefresh diagnostic s : holds s -> holds (failRefresh diagnostic s).
Proof. intros Hs. unfold failRefresh. holds. Qed.

Lemma holds_loadSelectedDetails s : holds s -> holds (loadSelectedDetails s).
Proof. intros Hs. unfold loadSelectedDetails. holds. Qed.

Lemma holds_loadRuns now rs s : holds s -> holds (loadRuns token now rs s).
Proof. intros Hs. unfold loadRuns. destruct rs; [by apply holds_finishRefresh|]. holds. Qed.

Lemma holds_success k document now s : holds s -> holds (success owner token k document now s).
Proof.
  intros Hs. destruct k as [page rs|page rs|repository batch|batch|repository run_id|repository run_id]; cbn [success].
  - unfold public_success, discoverRepositories, discoverPrivateRepositories. holds; [by apply holds_loadRuns|by apply holds_failRefresh].
  - unfold private_success, discoverPrivateRepositories. holds; [by apply holds_loadRuns|by apply holds_failRefresh].
  - unfold runs_success, publish_runs. destruct (batch_of batch _) as [rows failed]. holds.
    + by apply holds_failRefresh.
    + by apply holds_loadSelectedDetails, holds_finishRefresh.
  - unfold runners_success. holds.
  - unfold jobs_success, add_details. holds.
  - unfold artifacts_success, add_details. holds.
Qed.

Lemma holds_failure k error now s : holds s -> holds (failure token k error now s).
Proof.
  intros Hs. destruct k as [page rs|page rs|repository batch|batch|repository run_id|repository run_id]; cbn [failure]; try done.
  - by apply holds_failRefresh.
  - by apply holds_loadRuns.
  - unfold runs_failure. destruct (batch_of batch _) as [rows failed]. holds. by apply holds_failRefresh.
  - unfold runners_failure. holds.
  - unfold jobs_failure. holds.
Qed.

Lemma holds_handle_reply sent reply now s : holds s -> holds (handle_reply owner token sent reply now s).
Proof.
  intros Hs. unfold handle_reply. cbv zeta. destruct (exceeded_limit reply); [by apply holds_failure|].
  destruct (reply_accepted reply).
  - destruct (from_json_bytes _) as [document|] eqn:E; [|by apply holds_failure].
    apply holds_success. destruct (etag reply) as [|b tag]; [done|]. apply (closed_store P HP); [by eexists|done].
  - apply holds_failure. destruct (0 <? _); [by apply (closed_interval P HP)|done].
Qed.

Lemma holds_run es : P (queue (new_service token)) -> P (queue (run owner token es)).
Proof.
  intros H0. change (holds (run owner token es)). induction es as [|e es IH] using rev_ind; [done|]. rewrite run_snoc.
  destruct e as [|index|i reply now]; cbn [handle].
  - unfold refresh, discoverRepositories. holds.
  - unfold selectProject. holds. by apply holds_loadSelectedDetails.
  - unfold reply_finished. destruct (in_flight _ !! i); [|done]. apply holds_start, holds_handle_reply. by apply (closed_take P HP).
Qed.
End handlers.

(** ** Stored answers *)

(** Every tag belongs to a stored answer, which reads as a document, and so does every tag
    a request was sent with. *)
Definition stored (q : Queue) (k : string) : Prop :=
  exists content, cached_bodies_ q !! k = Some content /\ is_Some (from_json_bytes content).

Record store_ok (q : Queue) : Prop := {
  tags_stored : forall k, is_Some (etags_ q !! k) -> stored q k;
  sent_stored : forall sent, sent ∈ in_flight q -> is_Some (if_none_match sent) -> stored q (url_text (url (sent_request sent))) }.

Lemma stored_store k tag content q k' : is_Some (from_json_bytes content) -> stored q k' \/ k' = k -> stored (store_body k tag content q) k'.
Proof.
  intros Hc Hk. unfold stored. cbn. destruct (decide (k = k')) as [->|Hne].
  - exists content. by rewrite lookup_insert_eq.
  - rewrite lookup_insert_ne by done. by destruct Hk as [Hk|Hk].
Qed.

Lemma store_closed : closed store_ok.
Proof.
  split.
  - by intros l q [].
  - intros r q [Ht Hs]. split; [done|]. intros sent Hin Htag. cbn in Hin. apply elem_of_app in Hin as [Hin|Hin]; [by apply Hs|].
    apply list_elem_of_singleton in Hin as ->. by apply Ht.
  - by intros b n q [].
  - by intros ms q [].
  - intros k tag content q Hc [Ht Hs]. split.
    + intros k' Htag. apply stored_store; [done|]. cbn in Htag. destruct (decide (k = k')) as [->|Hne]; [by right|left].
      rewrite lookup_insert_ne in Htag by done. by apply Ht.
    + intros sent Hin Htag. apply stored_store; [done|]. left. by apply Hs.
  - intros i q [Ht Hs]. split; [done|]. intros sent Hin. apply Hs. cbn in Hin.
    apply list_elem_of_lookup in Hin as [j Hj]. apply list_elem_of_lookup.
    destruct (decide (j < i)%nat); [exists j|exists (S j)];
      [by rewrite list_lookup_delete_lt in Hj by lia|by rewrite list_lookup_delete_ge in Hj by lia].
Qed.

Lemma run_store es : store_ok (queue (run owner token es)).
Proof. apply holds_run; [apply store_closed|]. split; [intros k [? Hk]; done|intros sent Hin]. by apply elem_of_nil in Hin. Qed.

(** A 304 to a request with a tag reads as the document stored under it. *)
Lemma not_modified_reads q i sent tag reply : store_ok q -> in_flight q !! i = Some sent -> if_none_match sent = Some tag ->
  http_status reply = 304 -> is_Some (reply_document (take_reply i q) sent reply).
Proof.
  intros [_ Hs] Hi Ht H304. destruct (Hs sent) as (content & Hc & Hread); [by eapply list_elem_of_lookup_2|by rewrite Ht|].
  unfold reply_document, reply_body. cbn [take_reply cached_bodies_]. by rewrite Hc, H304, Z.eqb_refl.
Qed.

(** C32. The request queue.  In every run, whatever the network answers and the user and
    the poll timer do: as many requests count as active as the network has, never more
    than four, and one waits only while there are four.  A refresh that is under way
    shows as loading, has an active request, and makes a further refresh do nothing;
    otherwise a refresh starts with the first page of repositories, and the service is
    not loading, unless it has just been made.  And when a request was sent with the tag of
    an earlier answer, a reply that nothing was modified is read as a stored document. *)
Theorem projects_requests es :
  let s := run owner token es in
  active_requests_ (queue s) = Z.of_nat (length (in_flight (queue s))) /\
  active_requests_ (queue s) <= kMaximumConcurrentRequests /\
  (requests_ (queue s) = [] \/ active_requests_ (queue s) = kMaximumConcurrentRequests) /\
  (under_way s = true ->
     state_ (view s) = "loading"%string /\ 0 < active_requests_ (queue s) /\ refresh owner s = s) /\
  (under_way s = false ->
     (state_ (view s) <> "loading"%string \/ s = new_service token) /\
     refreshing (queue (refresh owner s)) = [{| url := PublicRepositories owner 1; continuation := OnPublic 1 [] |}] /\
     state_ (view (refresh owner s)) = "loading"%string) /\
  (forall i sent tag reply, in_flight (queue s) !! i = Some sent -> if_none_match sent = Some tag -> http_status reply = 304 ->
     is_Some (reply_document (take_reply i (queue s)) sent reply)).
Proof.
  cbn. destruct (projects_run_phase owner token es) as (Hp & [Ha Hl] & Hs).
  destruct (refresh_phase owner token _ Hp (conj Ha Hl) Hs) as (_ & _ & _ & Hu & Hn).
  do 3 (split; [done|]). split; [|split].
  - intros Hw. split; [|split; [by apply under_way_active|by apply Hu]].
    destruct Hp as [Hp|Hp]; [by apply phase_state|by rewrite Hp].
  - intros Hw. split; [|by apply Hn]. destruct Hp as [Hp|Hp]; [left|by right]. intros Hst. apply (phase_state _ Hp) in Hst. congruence.
  - intros i sent tag reply Hi Ht H304. by eapply not_modified_reads; [apply run_store|..].
Qed.
End requests.

#[local] Existing Instance sample_projects.

#[export] Instance sample_arg : ArgLaw.
Proof.
  intros before. induction before as [|c before IH]; intros template text Hno; [by eexists|].
  cbn in Hno. apply andb_true_iff in Hno as [Hc Hbefore]. destruct (IH template text Hbefore) as [rest Hr].
  exists rest. cbn [append]. rewrite <- Hr. by destruct c as [[] [] [] [] [] [] [] []].
Qed.
