(* ===== verification/ProjectsView.v ===== *)
(** * What the projects service shows

    The order of the projects, the selection, and the worst health. *)

From stdpp Require Import gmap strings.
From S2P Require Import Prelude.
From S2P Require Import Std.
From S2P Require Import QtModel.
From S2P Require Import Json.
From S2P Require Import Projects.
From S2P Require Import ProjectsSample.
From S2P Require Import Float64.
From S2P Require Import ProjectsService.
From S2P Require Import ProjectsLaws.

(** ** The order of execution *)

Lemma later_trans a b c : later a b = true -> later b c = true -> later a c = true.
Proof. destruct a, b, c; cbn; try done. rewrite !Z.ltb_lt. lia. Qed.

Lemma later_asym a b : later a b = true -> later b a = false.
Proof. destruct a, b; cbn; try done. rewrite Z.ltb_lt, Z.ltb_ge. lia. Qed.

Lemma later_total a b : a <> b -> later a b = true \/ later b a = true.
Proof.
  destruct a as [x|], b as [y|]; intros Hne; cbn; [rewrite !Z.ltb_lt|by left|by right|done].
  destruct (Z.lt_total x y) as [?|[?|?]]; [by right|congruence|by left].
Qed.

Definition execution (r : Row) : QDateTime * string := (updatedAt (detail r), key r).

Lemma executed_before_asym x y : executed_before x y = true -> executed_before y x = false.
Proof.
  unfold executed_before. case_bool_decide as He; case_bool_decide as He'; try congruence;
    eauto using string_ltb_asym, later_asym.
Qed.

Lemma executed_before_trans x y z :
  executed_before y x = false -> executed_before z y = false -> executed_before z x = false.
Proof.
  unfold executed_before. set (a := updatedAt (detail x)). set (b := updatedAt (detail y)). set (c := updatedAt (detail z)).
  case_bool_decide as H1; case_bool_decide as H2; case_bool_decide as H3; try congruence.
  - apply string_ltb_ge_trans.
  - intros Hyx Hzy. destruct (later_total b a ltac:(congruence)) as [?|Hab]; [congruence|].
    destruct (later_total c b ltac:(congruence)) as [?|Hbc]; [congruence|].
    assert (later a c = true) as Hac by (eauto using later_trans). rewrite <- H3 in Hac. by pose proof (later_asym c c Hac); congruence.
  - intros Hyx Hzy. destruct (later c a) eqn:E; [|done].
    destruct (later_total b a ltac:(congruence)) as [?|Hab]; [congruence|].
    destruct (later_total c b ltac:(congruence)) as [?|Hbc]; [congruence|].
    assert (later a c = true) as Hac by (eauto using later_trans). by pose proof (later_asym _ _ Hac); congruence.
Qed.

Definition sorted (rows : list Row) : Prop := StronglySorted (fun x y => executed_before y x = false) rows.

Lemma sortProjects_sorted rows : sorted (sortProjectsByLatestExecution rows).
Proof. apply isort_sorted; [apply executed_before_asym|apply executed_before_trans]. Qed.

(** The order, apart from the comparator: [x] may stand before [y] when its latest run is
    later, or at the same time and its key not greater; a row without a valid time comes after
    those with one. *)
Definition latest_first (x y : Row) : Prop :=
  match updatedAt (detail x), updatedAt (detail y) with
  | Some s, Some t => t < s \/ (s = t /\ String.leb (key x) (key y) = true)
  | Some _, None => True
  | None, Some _ => False
  | None, None => String.leb (key x) (key y) = true
  end.

Lemma sorted_latest_first rows : sorted rows -> StronglySorted latest_first rows.
Proof.
  assert (forall a b, String.ltb b a = false -> String.leb a b = true) as Hle.
  { intros a b. unfold String.ltb, String.leb. rewrite (String.compare_antisym a b). by destruct (String.compare b a). }
  assert (forall x y, executed_before y x = false -> latest_first x y) as Hfirst.
  2: { induction 1 as [|x rows _ IH Hx]; constructor; [done|]. eapply Forall_impl; [exact Hx|]. apply Hfirst. }
  intros x y. unfold executed_before, latest_first.
  destruct (updatedAt (detail x)) as [s|], (updatedAt (detail y)) as [t|]; case_bool_decide as E; cbn; simplify_eq; try done; auto.
  rewrite Z.ltb_ge. intros Hle'. left. assert (s <> t) by congruence. lia.
Qed.

(** Rows that keep their keys and times keep their order. *)
Lemma sorted_execution rows rows' : map execution rows' = map execution rows -> sorted rows -> sorted rows'.
Proof.
  intros He Hs. revert rows' He. induction Hs as [|r rows Hs IH Hr]; intros [|r' rows'] He; try done; [constructor|].
  cbn in He. injection He as Hk Hu He. constructor; [by apply IH|].
  assert (forall a b a' b', execution a' = execution a -> execution b' = execution b -> executed_before a' b' = executed_before a b) as Hext.
  { intros a b a' b' [= Ea1 Ea2] [= Eb1 Eb2]. unfold executed_before. by rewrite Ea1, Ea2, Eb1, Eb2. }
  clear IH Hs. revert rows' He. induction Hr as [|x rows Hx _ IH]; intros [|x' rows'] He; try done. cbn in He.
  injection He as Hxk Hxu He. constructor; [|by apply IH]. rewrite (Hext x r); unfold execution; congruence.
Qed.

Lemma retain_execution previous rows : map execution (retainLoadedProjectDetails previous rows) = map execution rows.
Proof.
  unfold retainLoadedProjectDetails. rewrite map_map. apply map_ext. intros row. by destruct (find_row (key row) previous).
Qed.

Lemma update_run_execution repository run_id f rows : (forall d, updatedAt (f d) = updatedAt d) ->
  map execution (update_run repository run_id f rows) = map execution rows.
Proof.
  intros Hf. induction rows as [|row rows IH]; [done|]. cbn [update_run]. destruct (String.eqb (key row) repository); cbn; [|by rewrite IH].
  destruct (runId (detail row) =? run_id); [|done]. unfold execution. cbn. by rewrite Hf.
Qed.

Lemma execution_keys rows rows' : map execution rows' = map execution rows -> map key rows' = map key rows.
Proof.
  intros He. change (map key rows') with (map (fun r => (execution r).2) rows'). change (map key rows) with (map (fun r => (execution r).2) rows).
  by rewrite <- (map_map execution snd rows'), <- (map_map execution snd rows), He.
Qed.

(** ** The selection *)

Lemma index_of_key_snoc k rows row :
  index_of_key k (rows ++ [row]) = if String.eqb (key row) k then Z.of_nat (length rows) else index_of_key k rows.
Proof. unfold index_of_key. rewrite imap_app, fold_left_app. cbn. by rewrite Nat.add_0_r. Qed.

Lemma index_of_key_spec k rows :
  (exists i row, index_of_key k rows = Z.of_nat i /\ rows !! i = Some row /\ key row = k) \/
  (index_of_key k rows = 0 /\ k ∉ map key rows).
Proof.
  induction rows as [|row rows IH] using rev_ind; [by right; split; [|intros ?%elem_of_nil]|].
  rewrite index_of_key_snoc. destruct (String.eqb_spec (key row) k) as [Hk|Hk].
  - left. exists (length rows), row. split; [done|]. split; [by apply list_lookup_middle|done].
  - destruct IH as [(i & r & Hi & Hl & Hr)|[Hi Hno]].
    + left. exists i, r. split; [done|]. split; [by apply lookup_app_l_Some|done].
    + right. split; [done|]. rewrite map_app, not_elem_of_app. split; [done|]. cbn. rewrite list_elem_of_singleton. congruence.
Qed.

(** The selected row, if any, has the selected key. *)
Definition selection_ok (v : View) : Prop := forall row, selected_row v = Some row -> key row = selected_key_ v.

(** What a change of the rows must keep. *)
Definition listed (v : View) : list Row * Z * string := (projects_ v, selected_index_ v, selected_key_ v).

Definition view_ok (v : View) : Prop := sorted (projects_ v) /\ selection_ok v.

Lemma view_ok_listed v v' : listed v' = listed v -> view_ok v -> view_ok v'.
Proof. unfold view_ok, selection_ok, selected_row. intros [= -> -> ->]. done. Qed.

(** Rows whose keys and times stay. *)
Lemma view_ok_update rows v : map execution rows = map execution (projects_ v) -> view_ok v -> view_ok (set_projects rows v).
Proof.
  intros He [Hs Hsel]. split; [by eapply sorted_execution|]. intros row. unfold selected_row in *. cbn.
  destruct (0 <=? selected_index_ v) eqn:Ei; [|done]. intros Hl. unfold selection_ok, selected_row in Hsel. rewrite Ei in Hsel.
  apply execution_keys in He. pose proof (f_equal (fun l => l !! Z.to_nat (selected_index_ v)) He) as Hk. cbn in Hk.
  rewrite !list_lookup_fmap, Hl in Hk. cbn in Hk. destruct (projects_ v !! _) as [old|] eqn:E; [|done]. cbn in Hk.
  injection Hk as ->. by apply Hsel.
Qed.

Section laws.
Context `{ProjectsLibrary} (owner : string) (token : list byte).

Lemma request_view r s : view (request r s) = view s.
Proof. done. Qed.

Lemma request_all_view rs s : view (request_all rs s) = view s.
Proof. unfold request_all. revert s. induction rs as [|r rs IH]; intros s; [done|]. cbn. by rewrite IH. Qed.

Lemma loadRunners_view s : view (loadRunners token s) = view s.
Proof. unfold loadRunners. destruct (_ || _); [done|]. by rewrite request_all_view. Qed.

Lemma finishRefresh_listed now s : listed (view (finishRefresh token now s)) = listed (view s).
Proof. unfold finishRefresh. by rewrite loadRunners_view. Qed.

Lemma failRefresh_listed d s : listed (view (failRefresh d s)) = listed (view s).
Proof. done. Qed.

Lemma loadSelectedDetails_listed s : listed (view (loadSelectedDetails s)) = listed (view s).
Proof. unfold loadSelectedDetails. by destruct (selected_row (view s)). Qed.

Lemma loadRuns_ok now rs s : view_ok (view s) -> view_ok (view (loadRuns token now rs s)).
Proof.
  intros Hv. destruct rs as [|r rs]; cbn [loadRuns]; [|by rewrite request_all_view].
  eapply view_ok_listed; [apply finishRefresh_listed|]. split; [constructor|]. intros row. unfold selected_row. cbn.
  by destruct (0 <=? _); rewrite ?lookup_nil.
Qed.

(** The rows a refresh publishes. *)
Definition published (rows : list Row) (v : View) : list Row :=
  retainLoadedProjectDetails (projects_ v) (sortProjectsByLatestExecution rows).

Lemma publish_listed rows now s : let v := view s in let rows' := published rows v in
  exists i, projects_ (view (publish_runs token rows now s)) = rows' /\
    selected_index_ (view (publish_runs token rows now s)) = Z.of_nat i /\
    match rows' !! i with
    | Some row => selected_row (view (publish_runs token rows now s)) = Some row /\
                  selected_key_ (view (publish_runs token rows now s)) = key row /\
                  (key row = selected_key_ v \/ (i = 0%nat /\ selected_key_ v ∉ map key rows'))
    | None => rows' = [] /\ selected_row (view (publish_runs token rows now s)) = None
    end.
Proof.
  cbn. set (rows' := published rows (view s)).
  set (v1 := set_selected (index_of_key (selected_key_ (view s)) rows') (selected_key_ (view s)) (set_projects rows' (view s))).
  set (v2 := set_selected (selected_index_ v1) (match selected_row v1 with Some row => key row | None => "" end) v1).
  assert (listed (view (publish_runs token rows now s)) = listed v2) as Hl.
  { unfold publish_runs. rewrite loadSelectedDetails_listed, finishRefresh_listed. done. }
  assert (selected_row (view (publish_runs token rows now s)) = selected_row v2) as Hrow.
  { unfold selected_row. unfold listed in Hl. by injection Hl as -> -> _. }
  unfold listed in Hl. injection Hl as -> -> ->. rewrite Hrow. unfold v2, v1, selected_row. cbn.
  destruct (index_of_key_spec (selected_key_ (view s)) rows') as [(i & row & Hi & Hlook & Hk)|[Hi Hno]]; rewrite Hi.
  - exists i. rewrite (proj2 (Z.leb_le _ _)) by lia. rewrite Nat2Z.id, Hlook. split_and!; auto.
  - exists 0%nat. cbn. change (Z.to_nat 0) with 0%nat. destruct (rows' !! 0%nat) as [row|] eqn:E0.
    + split_and!; auto.
    + split_and!; auto. by destruct rows'.
Qed.

Lemma publish_ok rows now s : view_ok (view (publish_runs token rows now s)).
Proof.
  destruct (publish_listed rows now s) as (i & Hp & Hi & Hm). split.
  - rewrite Hp. eapply sorted_execution; [apply retain_execution|apply sortProjects_sorted].
  - intros row Hrow. destruct (published rows (view s) !! i); [|by destruct Hm as [_ Hm]; rewrite Hm in Hrow].
    destruct Hm as (Hs & Hk & _). rewrite Hs in Hrow. by injection Hrow as <-.
Qed.

(** ** Replies keep the view *)

Lemma runs_success_ok repository batch document now s :
  view_ok (view s) -> view_ok (view (runs_success token repository batch document now s)).
Proof.
  intros Hv. unfold runs_success. destruct (batch_of batch _) as [rows failed]. destruct (_ =? 0); [|done].
  destruct (failed || _); [done|apply publish_ok].
Qed.

Lemma add_details_ok repository run_id f s : view_ok (view s) -> (forall d, updatedAt (f d) = updatedAt d) ->
  view_ok (view (add_details repository run_id f s)).
Proof.
  intros Hv Hf. unfold add_details. cbv zeta. destruct (has_run _ _ _); [|done].
  apply view_ok_update; [by apply update_run_execution|done].
Qed.

Lemma view_ok_jobs repository run_id document now s :
  view_ok (view s) -> view_ok (view (jobs_success repository run_id document now s)).
Proof.
  intros Hv. unfold jobs_success. destruct (negb _); [by destruct (String.eqb _ _)|]. cbv zeta.
  destruct (run_selected _ _ _); [eapply view_ok_listed; [reflexivity|]|]; by apply add_details_ok.
Qed.

Lemma view_ok_artifacts repository run_id document s :
  view_ok (view s) -> view_ok (view (artifacts_success repository run_id document s)).
Proof.
  intros Hv. unfold artifacts_success. destruct (artifact_bytes document); [|done]. cbv zeta.
  destruct (run_selected _ _ _); by apply add_details_ok.
Qed.

Lemma success_ok k document now s : view_ok (view s) -> view_ok (view (success owner token k document now s)).
Proof.
  intros Hv. destruct k as [page rs|page rs|repository batch|batch|repository run_id|repository run_id]; cbn [success].
  - unfold public_success. destruct (public_page _ _); [|done]. destruct (full_page document); [done|].
    destruct (authenticated token); [done|by apply loadRuns_ok].
  - unfold private_success. destruct (private_page _ _ _); [|done]. destruct (full_page document); [done|by apply loadRuns_ok].
  - by apply runs_success_ok.
  - unfold runners_success. cbv zeta. by destruct (_ =? 0).
  - by apply view_ok_jobs.
  - by apply view_ok_artifacts.
Qed.

Lemma failure_ok k error now s : view_ok (view s) -> view_ok (view (failure token k error now s)).
Proof.
  intros Hv. destruct k as [page rs|page rs|repository batch|batch|repository run_id|repository run_id]; cbn [failure]; try done.
  - by apply loadRuns_ok.
  - unfold runs_failure. destruct (batch_of batch _) as [rows failed]. by destruct (_ =? 0).
  - unfold runners_failure. cbv zeta. by destruct (_ =? 0).
  - unfold jobs_failure. by destruct (run_selected _ _ _).
Qed.

Lemma handle_ok e s : view_ok (view s) -> view_ok (view (handle owner token e s)).
Proof.
  intros Hv. destruct e as [|index|i reply now]; cbn [handle].
  - unfold refresh. by destruct (_ && _).
  - unfold selectProject. cbv zeta. destruct (_ || _) eqn:E; [done|].
    eapply view_ok_listed; [apply loadSelectedDetails_listed|]. split; [apply Hv|]. intros row. unfold selected_row. cbn.
    destruct (0 <=? index); [|done]. by intros ->.
  - unfold reply_finished. destruct (in_flight (queue s) !! i) as [sent|]; [|done]. cbn [view startRequests with_queue].
    set (s0 := with_queue _ s). destruct (handle_reply_cases owner token sent reply now s0) as (s1 & _ & Hs1 & _ & Hcases).
    assert (view_ok (view s1)) as Hv1 by (by rewrite Hs1).
    destruct Hcases as [(document & _ & ->)|[error ->]]; [by apply success_ok|by apply failure_ok].
Qed.

(** C34. Selection.  Whatever the network answers, the poll timer does and the user
    selects, in any order: the projects, also those a refresh publishes, are sorted by the
    time of their latest run, the latest first and equal times by key, and the row at the selected index is the one
    with the selected key.  When a refresh publishes [rows], the project that was
    selected stays selected at its new place; if it is no longer tracked, the first one
    is selected; without projects none is.  A failed refresh keeps rows and selection,
    and says they are stale if there are any. *)
Theorem projects_selection es rows now diagnostic :
  let s := run owner token es in
  let published_view := view (publish_runs token rows now s) in
  StronglySorted latest_first (projects_ (view s)) /\ selection_ok (view s) /\
  StronglySorted latest_first (projects_ published_view) /\
  map execution (projects_ published_view) = map execution (sortProjectsByLatestExecution rows) /\
  projects_ published_view ≡ₚ retainLoadedProjectDetails (projects_ (view s)) rows /\
  (selected_key_ (view s) ∈ map key rows ->
     exists row, selected_row published_view = Some row /\ key row = selected_key_ (view s)) /\
  (selected_key_ (view s) ∉ map key rows -> selected_row published_view = projects_ published_view !! 0%nat) /\
  listed (view (failRefresh diagnostic s)) = listed (view s) /\
  stale_ (view (failRefresh diagnostic s)) = negb (bool_decide (projects_ (view s) = [])).
Proof.
  cbn. set (s := run owner token es).
  assert (view_ok (view s)) as [Hsort Hsel].
  { unfold s. induction es as [|e es IH] using rev_ind; [split; [constructor|done]|]. rewrite run_snoc. by apply handle_ok. }
  destruct (publish_listed rows now s) as (i & Hp & _ & Hm).
  assert (forall k, k ∈ map key (published rows (view s)) <-> k ∈ map key rows) as Hkeys.
  { intros k. unfold published. rewrite (execution_keys _ _ (retain_execution _ _)).
    apply elem_of_Permutation_proper, fmap_Permutation. apply isort_perm. }
  split; [by apply sorted_latest_first|]. split; [done|].
  split; [by apply sorted_latest_first, publish_ok|]. split; [rewrite Hp; apply retain_execution|].
  split; [rewrite Hp; apply fmap_Permutation, isort_perm|].
  split; [|split; [|split; [done|by destruct (projects_ (view s))]]].
  - intros Hin. rewrite <- Hkeys in Hin. destruct (published rows (view s) !! i) as [row|] eqn:E.
    + destruct Hm as (Hs & Hk & [He|[-> Hno]]); [by exists row|done].
    + destruct Hm as [Hnil _]. rewrite Hnil in Hin. by apply elem_of_nil in Hin.
  - intros Hno. rewrite <- Hkeys in Hno. rewrite Hp. destruct (published rows (view s) !! i) as [row|] eqn:E.
    + destruct Hm as (Hs & Hk & [He|[-> _]]); [|by rewrite E].
      destruct Hno. rewrite <- He. apply list_elem_of_lookup. exists i. by rewrite list_lookup_fmap, E.
    + destruct Hm as [Hnil Hs]. by rewrite Hs, Hnil.
Qed.

(** ** Where the code falls short *)

Lemma request_all_interval rs s : poll_interval (queue (request_all rs s)) = poll_interval (queue s).
Proof.
  assert (forall l q, poll_interval (start_loop l q) = poll_interval q) as Hl.
  { intros l. induction l as [|r l IH]; intros q; cbn [start_loop]; [done|]. destruct (_ <? _); [by rewrite IH|done]. }
  unfold request_all. revert s. induction rs as [|r rs IH]; intros s; [done|]. cbn [fold_left]. rewrite IH.
  unfold request, startRequests. cbn. by rewrite Hl.
Qed.

(** The end of a refresh sets the interval afresh, whatever wait a limited reply within
    the refresh asked for. *)
Lemma finishRefresh_interval now s :
  poll_interval (queue (finishRefresh token now s)) = pollIntervalMs (authenticated token) (refresh_request_count_ (queue s)).
Proof. unfold finishRefresh, loadRunners. cbv zeta. destruct (_ || _); [done|]. by rewrite request_all_interval. Qed.

(** Without repositories the stages and the history stay those of the last selection. *)
Lemma loadRuns_none_keeps_stages now s :
  projects_ (view (loadRuns token now [] s)) = [] /\ stages_ (view (loadRuns token now [] s)) = stages_ (view s) /\
  history_ (view (loadRuns token now [] s)) = history_ (view s).
Proof. cbn [loadRuns]. unfold finishRefresh. by rewrite loadRunners_view. Qed.
End laws.

#[local] Existing Instance sample_projects.

(** Two refreshes whose runner requests overlap, for one project: the answers of the first
    count for the second, whose own never come to show. *)
Definition runners_answer (ids : list Z) : json :=
  JObject [("runners", JArray (map (fun i => JObject [("id", of_int i); ("status", JText "online")]) ids))]%string.

Definition one_project (token : list byte) : ProjectsService :=
  with_view (set_projects [{| key := "a"; name := "a"; branch := "m"; age := ""; health := ""; status := ""; detail := no_detail |}]
               (view (new_service token))) (new_service token).

Definition overlapping_runners : ProjectsService :=
  let token := bytes_of "t" in
  let s := loadRunners token (loadRunners token (one_project token)) in
  runners_success 1 (runners_answer [1; 2; 3]) (runners_success 0 (runners_answer [7]) s).

Example runners_of_an_older_refresh :
  total_runners_ (collected overlapping_runners) = 1 /\ pending_runner_requests_ (collected overlapping_runners) = -1.
Proof. vm_compute. done. Qed.
