(* ===== verification/ProjectsBindings.v ===== *)
(** * The projects page never shows an old value (src/projects/projects_service.h)

    QML reads a property of [ProjectsService] once and again whenever the signal its
    Q_PROPERTY names is emitted.  Shown is that what every binding holds between two events
    is what the property would read then: every change is announced, and after it is made. *)

From stdpp Require Import gmap strings.
From S2P Require Import Prelude.
From S2P Require Import Std.
From S2P Require Import QtModel.
From S2P Require Import Json.
From S2P Require Import Projects.
From S2P Require Import ProjectsSample.
From S2P Require Import Float64.
From S2P Require Import ProjectsService.
From S2P Require Import ProjectsLaws.
From S2P Require Import ProjectsView.
From S2P Require Import Bindings.

Definition shown (s : ProjectsService) : shown_state := (view s, collected s).

Section bindings.
Context `{ProjectsLibrary} (owner : string) (token : list byte).

(** A binding made at the start is current. *)
Definition fresh {A} (read : shown_state -> A) (notify : signal) (s : ProjectsService) : Prop :=
  keeps_current read notify (shown (new_service token)) (emitted s) (shown s).

Lemma fresh_emitted {A} (read : shown_state -> A) notify s : fresh read notify (emit notify s).
Proof. apply (keeps_emitted read notify). Qed.

Lemma fresh_emit {A} (read : shown_state -> A) notify x s : fresh read notify s -> fresh read notify (emit x s).
Proof. apply (keeps_emit read notify). Qed.

Lemma fresh_quiet {A} (read : shown_state -> A) notify s s' : emitted s' = emitted s ->
  read (shown s') = read (shown s) -> fresh read notify s -> fresh read notify s'.
Proof. unfold fresh. intros ->. apply keeps_quiet. Qed.

(** ** What the properties depend on *)

Definition the_index (x : shown_state) : Z := selected_index_ x.1.
Definition the_selected (x : shown_state) : option Row := selected_row x.1.
Definition the_healths (x : shown_state) : list string := map health (projects_ x.1).
Definition the_counts (x : shown_state) : Z * Z := (online_runners_ x.2, total_runners_ x.2).
Definition the_state (x : shown_state) : string * bool * QDateTime * string :=
  (state_ x.1, stale_ x.1, last_success_ x.1, diagnostics_ x.1).

(** The counts of runners are announced when the last answer about them has come. *)
Record bindings_ok (s : ProjectsService) : Prop := {
  index_fresh : fresh the_index selectedProjectIndexChanged s;
  selected_fresh : fresh the_selected selectedProjectChanged s;
  healths_fresh : fresh the_healths snapshotChanged s;
  counts_fresh : 0 < pending_runner_requests_ (collected s) \/ fresh the_counts snapshotChanged s;
  state_fresh : fresh the_state stateChanged s }.

Lemma bindings_quiet s s' : emitted s' = emitted s -> the_index (shown s') = the_index (shown s) ->
  the_selected (shown s') = the_selected (shown s) ->
  the_healths (shown s') = the_healths (shown s) ->
  the_counts (shown s') = the_counts (shown s) ->
  the_state (shown s') = the_state (shown s) ->
  (0 < pending_runner_requests_ (collected s) -> 0 < pending_runner_requests_ (collected s')) ->
  bindings_ok s -> bindings_ok s'.
Proof.
  intros He H1 H2 H3 H4 H5 Hp []. constructor; try by eapply fresh_quiet.
  destruct counts_fresh0; [left; auto|right; by eapply fresh_quiet].
Qed.

Lemma bindings_emit x s : bindings_ok s -> bindings_ok (emit x s).
Proof. intros []. constructor; try by apply fresh_emit. destruct counts_fresh0; [by left|right; by apply fresh_emit]. Qed.

(** The queue is not shown. *)
Lemma bindings_queue q s : bindings_ok s -> bindings_ok (with_queue q s).
Proof. by apply bindings_quiet. Qed.

Lemma bindings_request r s : bindings_ok s -> bindings_ok (request r s).
Proof. intros Hs. by do 2 apply bindings_queue. Qed.

Lemma bindings_request_all rs s : bindings_ok s -> bindings_ok (request_all rs s).
Proof. revert s. induction rs as [|r rs IH]; [done|]. intros s Hs. by apply IH, bindings_request. Qed.

Lemma bindings_state v diagnostic st s : bindings_ok s ->
  listed v = listed (view s) -> bindings_ok (setState st diagnostic (with_view v s)).
Proof.
  intros [] Hl. unfold listed in Hl. injection Hl as Hp Hi Hk. unfold setState.
  constructor; [| | | |apply fresh_emitted].
  - apply fresh_emit. by eapply fresh_quiet; [| |exact index_fresh0].
  - apply fresh_emit. eapply fresh_quiet; [| |exact selected_fresh0]; [done|].
    unfold the_selected, selected_row. cbn. by rewrite Hi, Hp.
  - apply fresh_emit. eapply fresh_quiet; [| |exact healths_fresh0]; [done|]. unfold the_healths. cbn. by rewrite Hp.
  - destruct counts_fresh0 as [?|Hc]; [by left|right]. apply fresh_emit. by eapply fresh_quiet; [| |exact Hc].
Qed.

(** ** The handlers *)

Lemma loadRunners_bindings s : fresh the_index selectedProjectIndexChanged s -> fresh the_selected selectedProjectChanged s ->
  fresh the_healths snapshotChanged s -> fresh the_state stateChanged s -> bindings_ok (loadRunners token s).
Proof.
  intros Hi Hs Hh Hst. unfold loadRunners. destruct (negb (authenticated token) || _) eqn:E.
  - constructor; [..|right; apply fresh_emitted|]; by apply fresh_emit.
  - apply bindings_request_all. apply orb_false_iff in E as [_ E].
    constructor; try done. left. cbn. destruct (projects_ (view s)); [done|cbn; lia].
Qed.

Lemma finishRefresh_bindings now s : fresh the_index selectedProjectIndexChanged s -> bindings_ok (finishRefresh token now s).
Proof.
  intros Hi. unfold finishRefresh. cbv zeta. apply loadRunners_bindings.
  - by do 2 apply fresh_emit; apply fresh_emit.
  - apply fresh_emitted.
  - apply fresh_emit, fresh_emitted.
  - do 2 apply fresh_emit. apply fresh_emitted.
Qed.

Lemma failRefresh_bindings diagnostic s : bindings_ok s -> bindings_ok (failRefresh diagnostic s).
Proof. intros Hs. unfold failRefresh. cbv zeta. by apply bindings_state; [apply bindings_queue|]. Qed.

Lemma bindings_stages rows s : bindings_ok s -> bindings_ok (replace_stages rows s).
Proof. intros Hs. apply bindings_emit. by eapply bindings_quiet; [..|exact Hs]. Qed.

Lemma bindings_history rows s : bindings_ok s -> bindings_ok (replace_history rows s).
Proof. intros Hs. apply bindings_emit. by eapply bindings_quiet; [..|exact Hs]. Qed.

Lemma loadSelectedDetails_bindings s : bindings_ok s -> bindings_ok (loadSelectedDetails s).
Proof.
  intros Hs. unfold loadSelectedDetails. destruct (selected_row (view s)).
  - by do 2 apply bindings_request; apply bindings_history.
  - by apply bindings_emit, bindings_history, bindings_stages.
Qed.

Lemma loadRuns_bindings now rs s : bindings_ok s -> bindings_ok (loadRuns token now rs s).
Proof.
  intros Hs. unfold loadRuns. destruct rs as [|r rs].
  - apply finishRefresh_bindings. apply fresh_emit. by eapply fresh_quiet; [| |apply Hs].
  - apply bindings_request_all. by eapply bindings_quiet; [..|exact Hs].
Qed.

Lemma publish_runs_bindings rows now s : bindings_ok (publish_runs token rows now s).
Proof. unfold publish_runs. cbv zeta. apply loadSelectedDetails_bindings, finishRefresh_bindings, fresh_emitted. Qed.

Lemma update_run_healths repository run_id f rows : map health (update_run repository run_id f rows) = map health rows.
Proof.
  induction rows as [|row rows IH]; [done|]. cbn. destruct (String.eqb _ _); cbn; [|by rewrite IH].
  by destruct (runId (detail row) =? run_id).
Qed.

(** Details of another run than the selected row's are added elsewhere. *)
Lemma update_run_lookup repository run_id f rows i row : rows !! i = Some row ->
  update_run repository run_id f rows !! i = Some row \/ key row = repository /\ runId (detail row) = run_id.
Proof.
  revert i. induction rows as [|r rows IH]; [done|]. intros [|i]; cbn.
  - intros [= ->]. destruct (String.eqb_spec (key row) repository) as [Hk|Hk]; cbn; [|by left].
    destruct (Z.eqb_spec (runId (detail row)) run_id); [by right|by left].
  - intros Hi. destruct (String.eqb _ _); cbn; [by left|]. by apply IH.
Qed.

Lemma update_run_same repository run_id f rows i row row' : (forall d, runId (f d) = runId d) ->
  rows !! i = Some row -> update_run repository run_id f rows !! i = Some row' -> runId (detail row') = runId (detail row).
Proof.
  intros Hf. revert i. induction rows as [|r rows IH]; [done|]. intros [|i]; cbn.
  - intros [= ->]. destruct (String.eqb _ _); cbn; [|by intros [= <-]].
    destruct (runId (detail row) =? run_id); intros [= <-]; cbn; by rewrite ?Hf.
  - destruct (String.eqb _ _); cbn; [congruence|]. apply IH.
Qed.

Lemma update_run_length repository run_id f rows : length (update_run repository run_id f rows) = length rows.
Proof. rewrite <- (length_map health), update_run_healths. apply length_map. Qed.

Lemma update_run_selected repository run_id f v : selection_ok v -> (forall d, runId (f d) = runId d) ->
  let v' := set_projects (update_run repository run_id f (projects_ v)) v in
  run_selected repository run_id v' = false -> selected_row v' = selected_row v.
Proof.
  intros Hsel Hf. cbv zeta. unfold run_selected, selection_ok, selected_row in *. cbn.
  destruct (0 <=? selected_index_ v) eqn:E; [|done]. set (i := Z.to_nat (selected_index_ v)) in *.
  destruct (projects_ v !! i) as [row|] eqn:Hi.
  - destruct (update_run_lookup repository run_id f _ _ _ Hi) as [->|[Hk Hr]]; [done|].
    intros Hno. exfalso. rewrite <- (Hsel row eq_refl), Hk, String.eqb_refl in Hno. cbn in Hno.
    destruct (update_run repository run_id f (projects_ v) !! i) as [row'|] eqn:Hi'.
    + assert (runId (detail row') = run_id) as Hr' by (by rewrite (update_run_same _ _ _ _ _ _ _ Hf Hi Hi')).
      by rewrite Hr', Z.eqb_refl in Hno.
    + apply lookup_ge_None in Hi'. rewrite update_run_length in Hi'. apply lookup_lt_Some in Hi. lia.
  - intros _. apply lookup_ge_None in Hi. apply lookup_ge_None. by rewrite update_run_length.
Qed.

(** Only what is shown of the selected row may be old. *)
Record others_ok (s : ProjectsService) : Prop := {
  others_index : fresh the_index selectedProjectIndexChanged s;
  others_healths : fresh the_healths snapshotChanged s;
  others_counts : 0 < pending_runner_requests_ (collected s) \/ fresh the_counts snapshotChanged s;
  others_state : fresh the_state stateChanged s }.

Lemma others_of s : bindings_ok s -> others_ok s.
Proof. by intros []. Qed.

Lemma others_emit x s : others_ok s -> others_ok (emit x s).
Proof. intros []. constructor; try by apply fresh_emit. destruct others_counts0; [by left|right; by apply fresh_emit]. Qed.

Lemma others_quiet v s : the_index (v, collected s) = the_index (shown s) -> the_healths (v, collected s) = the_healths (shown s) ->
  the_state (v, collected s) = the_state (shown s) -> others_ok s -> others_ok (with_view v s).
Proof.
  intros H1 H2 H3 []. constructor; try by apply (fresh_quiet _ _ s).
  destruct others_counts0 as [?|Hc]; [by left|right]. by apply (fresh_quiet _ _ s).
Qed.

Lemma announce_selected s : others_ok s -> bindings_ok (emit selectedProjectChanged s).
Proof. intros [] %(others_emit selectedProjectChanged). constructor; try done. apply fresh_emitted. Qed.

(** What an answer about a run adds leaves the other properties, and, if the run is not
    the selected one, the selected row too. *)
Lemma add_details_others repository run_id f s : others_ok s -> others_ok (add_details repository run_id f s).
Proof.
  intros Hs. unfold add_details. cbv zeta. destruct (has_run _ _ _); [|done]. apply others_emit, others_quiet; try done.
  apply update_run_healths.
Qed.

Lemma add_details_bindings repository run_id f s (Hs : bindings_ok s) (Hsel : selection_ok (view s))
  (Hf : forall d, runId (f d) = runId d) (Hno : run_selected repository run_id (view (add_details repository run_id f s)) = false) :
  bindings_ok (add_details repository run_id f s).
Proof.
  destruct (add_details_others repository run_id f s (others_of _ Hs)) as [H1 H2 H3 H4]. constructor; try done.
  unfold add_details in *. cbv zeta in *. destruct (has_run _ _ _); [|apply Hs]. apply fresh_emit.
  eapply fresh_quiet; [| |apply Hs]; [done|]. by apply update_run_selected.
Qed.

Lemma selectProject_bindings index s : bindings_ok s -> bindings_ok (selectProject index s).
Proof.
  intros Hs. unfold selectProject. cbv zeta. destruct (_ || _); [done|]. apply loadSelectedDetails_bindings, announce_selected.
  destruct Hs. constructor; [apply fresh_emitted|..].
  - apply fresh_emit. by eapply fresh_quiet; [| |exact healths_fresh0].
  - destruct counts_fresh0 as [?|Hc]; [by left|right]. apply fresh_emit. by eapply fresh_quiet; [| |exact Hc].
  - apply fresh_emit. by eapply fresh_quiet; [| |exact state_fresh0].
Qed.

Lemma refresh_bindings s : bindings_ok s -> bindings_ok (refresh owner s).
Proof.
  intros Hs. unfold refresh. destruct (_ && _); [done|]. apply bindings_request.
  by apply (bindings_state (view s) _ _ (with_queue _ s)); [apply bindings_queue|].
Qed.

(** The last answer about the runners announces the counts; the others leave them. *)
Lemma waiting_counts c s : bindings_ok s -> pending_runner_requests_ c = pending_runner_requests_ (collected s) - 1 ->
  pending_runner_requests_ c <> 0 -> the_counts (view s, c) = the_counts (shown s) -> bindings_ok (with_collected c s).
Proof.
  intros [] Hc Hz Hcounts. constructor; [by eapply fresh_quiet; [| |eassumption]..| |by eapply fresh_quiet; [| |exact state_fresh0]].
  destruct counts_fresh0 as [Hp|Hf]; [left; cbn; lia|right]. by eapply fresh_quiet; [| |exact Hf].
Qed.

Lemma announced_counts c s : bindings_ok s -> bindings_ok (emit snapshotChanged (with_collected c s)).
Proof.
  intros []. constructor; [..|right; apply fresh_emitted|]; apply fresh_emit; by eapply fresh_quiet; [| |eassumption].
Qed.

Lemma runs_bindings c s : bindings_ok s -> pending_runner_requests_ c = pending_runner_requests_ (collected s) ->
  the_counts (view s, c) = the_counts (shown s) -> bindings_ok (with_collected c s).
Proof. intros Hs Hc Hcounts. eapply bindings_quiet; [..|exact Hs]; try done. cbn. by rewrite Hc. Qed.

Lemma success_bindings k document now s : bindings_ok s -> selection_ok (view s) ->
  bindings_ok (success owner token k document now s).
Proof.
  intros Hs Hsel. destruct k as [page rs|page rs|repository batch|batch|repository run_id|repository run_id]; cbn [success].
  - unfold public_success. destruct (public_page _ _); [|by apply failRefresh_bindings].
    destruct (full_page document); [by apply bindings_request|]. destruct (authenticated token); [by apply bindings_request|by apply loadRuns_bindings].
  - unfold private_success. destruct (private_page _ _ _); [|by apply failRefresh_bindings].
    destruct (full_page document); [by apply bindings_request|by apply loadRuns_bindings].
  - unfold runs_success. destruct (batch_of batch _) as [rows failed]. cbv zeta. destruct (_ =? 0).
    + destruct (failed || _); [apply failRefresh_bindings; by apply runs_bindings|apply publish_runs_bindings].
    + by apply runs_bindings.
  - unfold runners_success. cbv zeta. match goal with |- context [if ?b =? 0 then _ else _] => destruct (Z.eqb_spec b 0) as [E|E] end.
    + by apply announced_counts.
    + by apply waiting_counts.
  - unfold jobs_success. destruct (negb _); [destruct (String.eqb _ _); [by apply bindings_stages|done]|]. cbv zeta.
    destruct (run_selected _ _ _) eqn:E; [|by apply add_details_bindings].
    apply announce_selected, others_emit, others_quiet; try done. by apply add_details_others, others_of.
  - unfold artifacts_success. destruct (artifact_bytes document); [|done]. cbv zeta.
    destruct (run_selected _ _ _) eqn:E; [|by apply add_details_bindings].
    by apply announce_selected, add_details_others, others_of.
Qed.

Lemma failure_bindings k error now s : bindings_ok s -> bindings_ok (failure token k error now s).
Proof.
  intros Hs. destruct k as [page rs|page rs|repository batch|batch|repository run_id|repository run_id]; cbn [failure]; try done.
  - by apply failRefresh_bindings.
  - by apply loadRuns_bindings.
  - unfold runs_failure. destruct (batch_of batch _) as [rows failed]. cbv zeta.
    destruct (_ =? 0); [apply failRefresh_bindings|]; by apply runs_bindings.
  - unfold runners_failure. cbv zeta. match goal with |- context [if ?b =? 0 then _ else _] => destruct (Z.eqb_spec b 0) as [E|E] end.
    + by apply announced_counts.
    + by apply waiting_counts.
  - unfold jobs_failure. destruct (run_selected _ _ _); [by apply bindings_stages|done].
Qed.

Lemma handle_reply_bindings sent reply now s : bindings_ok s -> selection_ok (view s) ->
  bindings_ok (handle_reply owner token sent reply now s).
Proof.
  intros Hs Hsel. unfold handle_reply. cbv zeta. destruct (exceeded_limit reply); [by apply failure_bindings|].
  destruct (reply_accepted reply).
  - destruct (from_json_bytes _); [|by apply failure_bindings].
    apply success_bindings; destruct (etag reply); try done; by apply bindings_queue.
  - apply failure_bindings. destruct (0 <? _); [by apply bindings_queue|done].
Qed.

Lemma handle_bindings e s : bindings_ok s -> view_ok (view s) -> bindings_ok (handle owner token e s).
Proof.
  intros Hs [_ Hsel]. destruct e as [|index|i reply now]; cbn [handle].
  - by apply refresh_bindings.
  - by apply selectProject_bindings.
  - unfold reply_finished. destruct (in_flight (queue s) !! i); [|done]. apply bindings_queue, handle_reply_bindings; [|done].
    by apply bindings_queue.
Qed.

Lemma run_bindings es : bindings_ok (run owner token es) /\ view_ok (view (run owner token es)).
Proof.
  induction es as [|e es [IH Hv]] using rev_ind.
  - split; [|by split; [constructor|]]. constructor; [done..|by right|done].
  - rewrite run_snoc. split; [by apply handle_bindings|by apply handle_ok].
Qed.

(** ** The Q_PROPERTYs *)

(** The runner counts; the other properties never wait. *)
Definition is_count (name : string) : bool := String.eqb name "onlineRunnerCount" || String.eqb name "totalRunnerCount".

Definition date_value (t : QDateTime) : QVariant := match t with Some ms => OfDateTime ms | None => Invalid end.
Definition number_value (n : nat) : QVariant := OfInteger (Z.of_nat n).

Definition selectedRepository (v : View) : string := match selected_row v with Some row => name row | None => "" end.
Definition selectedBranch (v : View) : string := match selected_row v with Some row => branch row | None => "" end.

(** The properties with a notify signal: name, READ function and NOTIFY signal; ages as of [now]. *)
Definition properties (now : Z) : list (string * (shown_state -> QVariant) * signal) :=
  [("selectedProjectIndex", fun x => OfInteger (selected_index_ x.1), selectedProjectIndexChanged);
   ("selectedRepository", fun x => OfText (selectedRepository x.1), selectedProjectChanged);
   ("selectedBranch", fun x => OfText (selectedBranch x.1), selectedProjectChanged);
   ("selectedRevision", fun x => OfText (selectedRevision x.1), selectedProjectChanged);
   ("selectedRun", fun x => OfText (selectedRun x.1), selectedProjectChanged);
   ("selectedRunAge", fun x => OfText (selectedRunAge x.1 now), selectedProjectChanged);
   ("selectedHealth", fun x => OfText (selectedHealth x.1), selectedProjectChanged);
   ("historySuccessfulCount", fun x => number_value (historySuccessfulCount x.1), selectedProjectChanged);
   ("historyCount", fun x => number_value (historyCount x.1), selectedProjectChanged);
   ("duration", fun x => OfText (shown_text duration x.1), selectedProjectChanged);
   ("jobsSummary", fun x => OfText (shown_text jobsSummary x.1), selectedProjectChanged);
   ("artifactSize", fun x => OfText (shown_text artifactSize x.1), selectedProjectChanged);
   ("deployStatus", fun x => OfText (shown_text deployStatus x.1), selectedProjectChanged);
   ("trackedCount", fun x => number_value (trackedCount x.1), snapshotChanged);
   ("runningCount", fun x => number_value (runningCount (projects_ x.1)), snapshotChanged);
   ("failedCount", fun x => number_value (failedCount (projects_ x.1)), snapshotChanged);
   ("aggregateHealth", fun x => OfText (aggregateHealth (projects_ x.1)), snapshotChanged);
   ("onlineRunnerCount", fun x => OfInteger (online_runners_ x.2), snapshotChanged);
   ("totalRunnerCount", fun x => OfInteger (total_runners_ x.2), snapshotChanged);
   ("state", fun x => OfText (state_ x.1), stateChanged);
   ("stale", fun x => OfBool (stale_ x.1), stateChanged);
   ("lastSuccessUtc", fun x => date_value (last_success_ x.1), stateChanged);
   ("diagnostics", fun x => OfText (diagnostics_ x.1), stateChanged)]%string.

(** What counts and the worst health take from the rows are the healths. *)
Lemma count_health_healths h rows : count_health h rows = length (List.filter (fun x => String.eqb x h) (map health rows)).
Proof. unfold count_health. induction rows as [|r rows IH]; [done|]. cbn. destruct (String.eqb (health r) h); cbn; by rewrite IH. Qed.

Definition worst_of (healths : list string) : string :=
  match healths with
  | [] => "unknown"
  | h :: rest => fold_left (fun worst x => if rank_of x <? rank_of worst then x else worst) rest h
  end.

Lemma aggregateHealth_healths rows : aggregateHealth rows = worst_of (map health rows).
Proof.
  destruct rows as [|row rows]; [done|]. cbn. revert row. induction rows as [|r rows IH]; intros row; [done|]. cbn.
  rewrite IH. by destruct (rank_of (health r) <? rank_of (health row)).
Qed.

(** Which properties the selected row, the healths, the counts and the state determine. *)
Ltac determined :=
  intros x y E; cbv beta delta [the_index the_selected the_healths the_counts the_state] in E; cbv beta;
  first
    [ congruence
    | cbv beta delta [selectedRepository selectedBranch selectedRevision selectedRun selectedRunAge selectedHealth
        historySuccessfulCount historyCount shown_text]; rewrite E; reflexivity
    | cbv beta delta [runningCount failedCount trackedCount]; rewrite ?count_health_healths, ?aggregateHealth_healths;
      rewrite <- ?(length_map health (projects_ _)); rewrite E; reflexivity ].

Lemma every_binding_current es now property read notify (Hproperty : (property, read, notify) ∈ properties now) :
  let s := run owner token es in
  bound read notify (emitted s) (read (shown (new_service token))) = read (shown s) \/
  is_count property = true /\ 0 < pending_runner_requests_ (collected s).
Proof.
  cbv zeta. destruct (run_bindings es) as [[Hi Hs Hh Hc Hst] _]. set (s := run owner token es) in *.
  change (bound read notify (emitted s) (read (shown (new_service token))) = read (shown s)) with (fresh read notify s).
  unfold properties in Hproperty. apply list_elem_of_In in Hproperty; cbn [In] in Hproperty.
  repeat (destruct Hproperty as [[= <- <- <-]|Hproperty]); try done; try (destruct Hc as [Hc|Hc]; [by right|]); left;
    first [ refine (keeps_determined _ _ _ _ _ _ _ Hi); determined | refine (keeps_determined _ _ _ _ _ _ _ Hs); determined
          | refine (keeps_determined _ _ _ _ _ _ _ Hh); determined | refine (keeps_determined _ _ _ _ _ _ _ Hc); determined
          | refine (keeps_determined _ _ _ _ _ _ _ Hst); determined ].
Qed.

(** ** The list models *)

(** [rowCount] of a valid index is 0; a view of the list asks at the invalid one. *)
Definition rowCount (parent_valid : bool) (rows : list Row) : nat := if parent_valid then 0%nat else length rows.

(** What a view shows of a model in a role: [data] of every row. *)
Definition list_data (role : row_role) (rows : list Row) : list (option (QVariant + Detail)) :=
  map (fun i => data rows i role) (seq 0 (rowCount false rows)).

(** The models the service gives to QML, each with its [modelReset]. *)
Definition models : list (string * (View -> list Row) * signal) :=
  [("projectModel", projects_, projectsReset); ("stageModel", stages_, stagesReset);
   ("runHistoryModel", history_, historyReset)]%string.

Record models_ok (s : ProjectsService) : Prop := {
  projects_reset : fresh (fun x => projects_ x.1) projectsReset s;
  stages_reset : fresh (fun x => stages_ x.1) stagesReset s;
  history_reset : fresh (fun x => history_ x.1) historyReset s }.

Definition model_rows (v : View) : list Row * list Row * list Row := (projects_ v, stages_ v, history_ v).

Lemma models_quiet s s' : emitted s' = emitted s -> model_rows (view s') = model_rows (view s) -> models_ok s -> models_ok s'.
Proof. intros He [= Hp Hst Hh] []. constructor; by apply (fresh_quiet _ _ s). Qed.

Lemma models_emit x s : models_ok s -> models_ok (emit x s).
Proof. intros []. constructor; by apply fresh_emit. Qed.

(** What leaves the rows of the three models. *)
Lemma models_with_view v s : model_rows v = model_rows (view s) -> models_ok s -> models_ok (with_view v s).
Proof. intros Hv. by apply models_quiet. Qed.

Lemma models_with_collected c s : models_ok s -> models_ok (with_collected c s).
Proof. by apply models_quiet. Qed.

Lemma models_with_queue q s : models_ok s -> models_ok (with_queue q s).
Proof. by apply models_quiet. Qed.

Lemma models_request_all rs s : models_ok s -> models_ok (request_all rs s).
Proof.
  unfold request_all. revert s. induction rs as [|r rs IH]; intros s Hs; [done|]. cbn [fold_left].
  by apply IH, models_with_queue, models_with_queue.
Qed.

(** [replace] announces the rows it sets. *)
Lemma models_replace_projects rows s : models_ok s -> models_ok (replace_projects rows s).
Proof. intros []. constructor; [apply fresh_emitted|apply fresh_emit; by apply (fresh_quiet _ _ s)..]. Qed.

Lemma models_replace_stages rows s : models_ok s -> models_ok (replace_stages rows s).
Proof. intros []. constructor; [apply fresh_emit; by apply (fresh_quiet _ _ s)|apply fresh_emitted|apply fresh_emit; by apply (fresh_quiet _ _ s)]. Qed.

Lemma models_replace_history rows s : models_ok s -> models_ok (replace_history rows s).
Proof. intros []. constructor; [apply fresh_emit; by apply (fresh_quiet _ _ s)..|apply fresh_emitted]. Qed.

(** Every handler is made of these. *)
Ltac models_step :=
  lazymatch goal with
  | |- models_ok (emit _ _) => apply models_emit
  | |- models_ok (replace_projects _ _) => apply models_replace_projects
  | |- models_ok (replace_stages _ _) => apply models_replace_stages
  | |- models_ok (replace_history _ _) => apply models_replace_history
  | |- models_ok (with_view _ _) => apply models_with_view; [reflexivity|]
  | |- models_ok (with_collected _ _) => apply models_with_collected
  | |- models_ok (with_queue _ _) => apply models_with_queue
  | |- models_ok (request_all _ _) => apply models_request_all
  | |- models_ok (if ?b then _ else _) => destruct b
  | |- models_ok (match ?b with _ => _ end) => destruct b
  end.
Ltac models := cbv zeta; repeat models_step; try done.

Lemma models_finishRefresh now s : models_ok s -> models_ok (finishRefresh token now s).
Proof. intros Hs. unfold finishRefresh, loadRunners, setState. models. Qed.

Lemma models_failRefresh diagnostic s : models_ok s -> models_ok (failRefresh diagnostic s).
Proof. intros Hs. unfold failRefresh, setState. models. Qed.

Lemma models_loadSelectedDetails s : models_ok s -> models_ok (loadSelectedDetails s).
Proof. intros Hs. unfold loadSelectedDetails, request, startRequests. models. Qed.

Lemma models_loadRuns now rs s : models_ok s -> models_ok (loadRuns token now rs s).
Proof. intros Hs. unfold loadRuns. destruct rs; [apply models_finishRefresh|]; models. Qed.

Lemma models_success k document now s : models_ok s -> models_ok (success owner token k document now s).
Proof.
  intros Hs. assert (forall r, models_ok (request r s)) as Hrequest by (intros r; unfold request, startRequests; models).
  destruct k as [page rs|page rs|repository batch|batch|repository run_id|repository run_id]; cbn [success].
  - unfold public_success, discoverRepositories, discoverPrivateRepositories. models; [by apply models_loadRuns|by apply models_failRefresh].
  - unfold private_success, discoverPrivateRepositories. models; [by apply models_loadRuns|by apply models_failRefresh].
  - unfold runs_success, publish_runs. destruct (batch_of batch _) as [rows failed]. models.
    + apply models_failRefresh. models.
    + apply models_loadSelectedDetails, models_finishRefresh. models.
  - unfold runners_success. models.
  - unfold jobs_success, add_details. models.
  - unfold artifacts_success, add_details. models.
Qed.

Lemma models_failure k error now s : models_ok s -> models_ok (failure token k error now s).
Proof.
  intros Hs. destruct k as [page rs|page rs|repository batch|batch|repository run_id|repository run_id]; cbn [failure]; try done.
  - by apply models_failRefresh.
  - by apply models_loadRuns.
  - unfold runs_failure. destruct (batch_of batch _) as [rows failed]. models. apply models_failRefresh. models.
  - unfold runners_failure. models.
  - unfold jobs_failure. models.
Qed.

Lemma models_handle e s : models_ok s -> models_ok (handle owner token e s).
Proof.
  intros Hs. destruct e as [|index|i reply now]; cbn [handle].
  - unfold refresh, discoverRepositories, request, startRequests, setState. models.
  - unfold selectProject. models. apply models_loadSelectedDetails. models.
  - unfold reply_finished, startRequests, handle_reply. models; first [apply models_success | apply models_failure]; models.
Qed.

Lemma every_model_current es name model reset role (Hmodel : (name, model, reset) ∈ models) :
  let s := run owner token es in
  bound (fun x => list_data role (model x.1)) reset (emitted s) (list_data role (model (view (new_service token)))) =
    list_data role (model (view s)).
Proof.
  cbv zeta. assert (models_ok (run owner token es)) as [Hp Hst Hh].
  { induction es as [|e es IH] using rev_ind; [by constructor|]. rewrite run_snoc. by apply models_handle. }
  unfold models in Hmodel. apply list_elem_of_In in Hmodel. cbn [In] in Hmodel.
  destruct Hmodel as [[= <- <- <-]|[[= <- <- <-]|[[= <- <- <-]|[]]]];
    [refine (keeps_determined _ _ _ _ _ _ _ Hp)|refine (keeps_determined _ _ _ _ _ _ _ Hst)|refine (keeps_determined _ _ _ _ _ _ _ Hh)];
    intros x y; cbv beta; by intros ->.
Qed.

(** C35. What QML shows of the projects is never old.  Whatever the network answers and the
    user selects, after every event each binding to a property of the service, which reads
    it when its NOTIFY signal is emitted, shows what the property is; only the counts of
    runners may lag, while answers about the runners are awaited.  And each view of the
    projects, the stages and the history, which reads all rows when the model is reset,
    shows in every role what the rows are. *)
Theorem projects_bindings_current es now :
  let s := run owner token es in
  (forall property read notify, (property, read, notify) ∈ properties now ->
     bound read notify (emitted s) (read (shown (new_service token))) = read (shown s) \/
     is_count property = true /\ 0 < pending_runner_requests_ (collected s)) /\
  (forall name model reset role, (name, model, reset) ∈ models ->
     bound (fun x => list_data role (model x.1)) reset (emitted s) (list_data role (model (view (new_service token)))) =
       list_data role (model (view s))).
Proof.
  cbv zeta. split.
  - intros property read notify. apply every_binding_current.
  - intros name model reset role. apply (every_model_current es name).
Qed.
End bindings.

#[local] Existing Instance sample_projects.

(** A listing without repositories is read. *)
Definition empty_listing : Reply :=
  {| no_error := true; http_status := 200; exceeded_limit := false; body := bytes_of "[]"; etag := [];
     retry_after := []; rate_limit_remaining := []; rate_limit_reset := [] |}.

Definition sample_projects_events : list event := [Refresh; Answer 0 empty_listing 5000].

Lemma projects_bindings_current_witness :
  let s := run "me" [] sample_projects_events in
  bound (fun x => OfText (state_ x.1)) stateChanged (emitted s) (OfText "loading") = OfText "empty".
Proof.
  cbv zeta.
  destruct (projects_bindings_current "me" [] sample_projects_events 0) as [Hproperties _].
  destruct (Hproperties "state"%string (fun x => OfText (state_ x.1)) stateChanged)
    as [Hs|[Hc _]]; [apply list_elem_of_In; do 19 right; by left| |discriminate Hc].
  exact Hs.
Defined.

(** While answers about the runners are awaited the counts are reset but their bindings are not. *)
Example runner_counts_lag :
  let token := bytes_of "t" in
  let s := loadRunners token (runners_success 0 (runners_answer [7]) (loadRunners token (one_project token))) in
  total_runners_ (collected s) = -1 /\ pending_runner_requests_ (collected s) = 1 /\
  bound (fun x => total_runners_ x.2) snapshotChanged (emitted s) (-1) = 1.
Proof. vm_compute. done. Qed.
