(* ===== verification/DevicesPage.v ===== *)
(** * The devices page (src/dashboard/main.cpp, src/dashboard/device_model.cpp)

    The objects behind the list of devices, as [main] connects them: the services of the
    local machine, the registry of remote devices with the UDP receiver that fills it, and
    the device model over all three.  A step is what the event loop does at once: a slot
    runs, and the signals it emits run the slots of the model on the way.  Shown is that
    in every run the views of the list and the bindings to the services are current. *)

From S2P Require Import Prelude.
From S2P Require Import Std.
From S2P Require Import Float64.
From S2P Require Import Cbor.
From S2P Require Import DaemonText.
From S2P Require Import QtCbor.
From S2P Require Import Protocol.
From S2P Require Import DeviceSnapshot.
From S2P Require Import SnapshotWire.
From S2P Require Import QtModel.
From S2P Require Import Bindings.
From S2P Require Import Registry.
From S2P Require Import RegistryLaws.
From S2P Require Import Receiver.
From S2P Require InfoService MetricsService.
From S2P Require Import LocalBindings.
From S2P Require Import DeviceModel.
From S2P Require Import DeviceModelLaws.
From S2P Require Import LocalRow.

#[local] Existing Instances InfoService.signal_eq_dec MetricsService.signal_eq_dec.

(** The objects; the registry is the one the receiver points to. *)
Record Page := {
  info_service : InfoService.SysInfoService;
  metrics_service : MetricsService.SysMetricsService;
  telemetry_receiver : UdpTelemetryReceiver;
  structured_change : bool }.

Inductive page_event :=
| InfoRequested | InfoCollected (o : InfoService.outcome) (utc : Z)
| MetricsTick | MetricsDispatched | MetricsCollected (o : MetricsService.outcome) (elapsed utc : Z)
| Arrived (d : datagram)          (* into the queue of the socket *)
| Activated (envs : list env)     (* the receiver's slot, with the clocks and the disk at each datagram *)
| FreshnessTimer (v : env).

(** What a step emits: the services' signals, and what the model tells its views. *)
Record page_effects := {
  from_info : list InfoService.emission;
  from_metrics : list MetricsService.emission;
  from_model : list (model_call * DeviceModel) }.

Definition no_effects : page_effects := {| from_info := []; from_metrics := []; from_model := [] |}.

Section page.
Context `{QtCodec} `{DeviceLibrary}.

Definition page_registry (p : Page) : option Registry := registry (core (telemetry_receiver p)).

(** The device model points to the other objects. *)
Definition page_model (p : Page) : DeviceModel :=
  {| info_ := Some (info_service p); metrics_ := Some (metrics_service p); registry_ := page_registry p;
     structured_registry_change_ := structured_change p |}.

(** ** Construction *)

(** As [main] makes the objects and binds the receiver's socket. *)
Definition page_start (can_open : bool) (file : option (list byte)) (bound_to : string + Z) : Page :=
  {| info_service := InfoService.new_service; metrics_service := MetricsService.new_service;
     telemetry_receiver := (bind bound_to (new_receiver (load can_open file).1)).1.1; structured_change := false |}.

(** ** Steps *)

(** What a datagram makes of the registry, if it is one of the daemon's messages. *)
Definition caused (d : datagram) : option event :=
  if negb (dg_valid d) || (maximum_datagram_size <? len (received d)) then None
  else match decodeMessage (received d) with
       | inr (MHello h) => Some (EHello h (dg_address d) (dg_port d))
       | inr (MDeviceSnapshot s) => Some (ESnapshot s (dg_address d) (dg_port d))
       | _ => None
       end.

Definition after_datagram (v : env) (d : datagram) (r : Registry) : Registry :=
  match caused d with Some e => perform e v r | None => r end.

(** The registry's signals while a batch of the queue is served, and what is left. *)
Fixpoint batch_moments (n : nat) (envs : list env) (r : Registry) (ds : list datagram) : list moment :=
  match n, ds, envs with
  | S n', d :: rest, v :: envs' =>
      match caused d with Some e => moments e v r | None => [] end ++ batch_moments n' envs' (after_datagram v d r) rest
  | _, _, _ => []
  end.

Fixpoint batch_registry (n : nat) (envs : list env) (r : Registry) (ds : list datagram) : Registry :=
  match n, ds, envs with
  | S n', d :: rest, v :: envs' => batch_registry n' envs' (after_datagram v d r) rest
  | _, _, _ => r
  end.

Definition with_info_service (i : InfoService.SysInfoService) (p : Page) : Page :=
  {| info_service := i; metrics_service := metrics_service p; telemetry_receiver := telemetry_receiver p;
     structured_change := structured_change p |}.
Definition with_metrics_service (s : MetricsService.SysMetricsService) (p : Page) : Page :=
  {| info_service := info_service p; metrics_service := s; telemetry_receiver := telemetry_receiver p;
     structured_change := structured_change p |}.
Definition with_telemetry (u : UdpTelemetryReceiver) (flag : bool) (p : Page) : Page :=
  {| info_service := info_service p; metrics_service := metrics_service p; telemetry_receiver := u;
     structured_change := flag |}.

(** A slot of a service has run. *)
Definition info_effect (es : list InfoService.emission) (r : Registry) (p : Page) : page_effects :=
  {| from_info := es; from_metrics := [];
     from_model := concat (map (info_calls (metrics_service p) (structured_change p) r) es) |}.
Definition metrics_effect (es : list MetricsService.emission) (r : Registry) (p : Page) : page_effects :=
  {| from_info := []; from_metrics := es;
     from_model := concat (map (metrics_calls (info_service p) (structured_change p) r) es) |}.
Definition model_effect (calls : list (model_call * DeviceModel)) : page_effects :=
  {| from_info := []; from_metrics := []; from_model := calls |}.

Definition put_datagram (d : datagram) (u : UdpTelemetryReceiver) : UdpTelemetryReceiver :=
  {| core := {| registry := registry (core u); pending := pending (core u) ++ [d]; accepted := accepted (core u);
                dropped := dropped (core u); sent := sent (core u) |};
     local_port := local_port u; diagnostic_ := diagnostic_ u |}.

Definition put_registry (r : Registry) (u : UdpTelemetryReceiver) : UdpTelemetryReceiver :=
  {| core := {| registry := Some r; pending := pending (core u); accepted := accepted (core u);
                dropped := dropped (core u); sent := sent (core u) |};
     local_port := local_port u; diagnostic_ := diagnostic_ u |}.

(** A collection ends only while one runs, a queued call is dispatched only when there is
    one, and datagrams arrive only at a bound socket. *)
Definition page_step (e : page_event) (p : Page) : option (Page * page_effects) :=
  let i := info_service p in
  let s := metrics_service p in
  let u := telemetry_receiver p in
  r ← page_registry p;
  match e with
  | InfoRequested =>
      let '(i', es, _) := InfoService.refresh i in Some (with_info_service i' p, info_effect es r p)
  | InfoCollected o utc =>
      if InfoService.running i
      then let '(i', es) := InfoService.collectionFinished o utc i in Some (with_info_service i' p, info_effect es r p)
      else None
  | MetricsTick =>
      let '(s', es, _) := MetricsService.refresh s in Some (with_metrics_service s' p, metrics_effect es r p)
  | MetricsDispatched =>
      match MetricsService.queued s with
      | S q =>
          let s0 := MetricsService.with_flags (MetricsService.running s) q (MetricsService.refresh_pending s) s in
          let '(s', es, _) := MetricsService.refresh s0 in Some (with_metrics_service s' p, metrics_effect es r p)
      | O => None
      end
  | MetricsCollected o elapsed utc =>
      if MetricsService.running s
      then let '(s', es) := MetricsService.collectionFinished o elapsed utc s in
           Some (with_metrics_service s' p, metrics_effect es r p)
      else None
  | Arrived d => if 0 <? local_port u then Some (with_telemetry (put_datagram d u) (structured_change p) p, no_effects) else None
  | Activated envs =>
      let '(m, calls) := deliver (batch_moments batchSize envs r (pending (core u))) (page_model p) in
      Some (with_telemetry (activate envs u).1 (structured_registry_change_ m) p, model_effect calls)
  | FreshnessTimer v =>
      let '(m, calls) := update_registry ETick v r (page_model p) in
      Some (with_telemetry (put_registry (perform ETick v r) u) (structured_registry_change_ m) p, model_effect calls)
  end.

Fixpoint page_run (es : list page_event) (p : Page) : option (Page * list page_effects) :=
  match es with
  | [] => Some (p, [])
  | e :: es =>
      '(p1, f) ← page_step e p;
      '(p2, fs) ← page_run es p1;
      Some (p2, f :: fs)
  end.

(** The clock of a datagram has not run backwards from its start. *)
Definition clocks_ok (e : page_event) : Prop :=
  match e with Activated envs => Forall (fun v => 0 <= e_elapsed v) envs | _ => True end.
End page.
