(* ===== verification/DevicesPageLaws.v ===== *)
(** * What the devices page shows

    The views of the list of devices and the bindings to the local services are current in
    every run of the page: the theorems about the registry, the receiver, the services
    and the device model composed along the connections of [main]. *)

From S2P Require Import Prelude.
From S2P Require Import Std.
From S2P Require Import Float64.
From S2P Require Import Cbor.
From S2P Require Import DaemonText.
From S2P Require Import QtCbor.
From S2P Require Import Protocol.
From S2P Require Import DeviceSnapshot.
From S2P Require Import SnapshotCodec.
From S2P Require Import SnapshotWire.
From S2P Require Import QtModel.
From S2P Require Import Bindings.
From S2P Require Import Registry.
From S2P Require Import RegistryLaws.
From S2P Require Import Receiver.
From S2P Require InfoService MetricsService.
From S2P Require Import LocalBindings.
From S2P Require Import DeviceModel.
From S2P Require Import DeviceModelLaws.
From S2P Require Import LocalRow.
From S2P Require Import DevicesPage.

#[local] Existing Instances InfoService.signal_eq_dec MetricsService.signal_eq_dec.

Section laws.
Context `{QtCodec} `{DeviceLibrary}.

(** ** The receiver's slot as events of the registry *)

Lemma process_datagram_registry v d r st :
  registry (process_datagram v d r st) = Some (after_datagram v d r) /\ pending (process_datagram v d r st) = pending st.
Proof.
  unfold process_datagram, after_datagram, caused. case_if; [done|].
  destruct (decodeMessage _) as [|[h|m|s]]; try done; cbn [perform].
  - by destruct (registerHello _ _ _ _ _ _ _) as [[reason r'] sig].
  - by destruct (acceptSnapshot _ _ _ _ _ _ _ _) as [[[] r'] sig].
Qed.

Lemma process_batch_registry n envs r st : registry st = Some r ->
  registry (process_batch n envs r st) = Some (batch_registry n envs r (pending st)).
Proof.
  revert envs r st. induction n as [|n IH]; intros envs r st Hr; [done|]. cbn [process_batch batch_registry].
  destruct (pending st) as [|d rest]; [done|]. destruct envs as [|v envs]; [done|].
  destruct (process_datagram_registry v d r {| registry := registry st; pending := rest; accepted := accepted st;
    dropped := dropped st; sent := sent st |}) as [Hr' Hp']. cbv zeta. rewrite Hr', IH, Hp' by done. done.
Qed.

(** Every datagram is counted once, while the counters do not wrap. *)
Definition served (st : Receiver) : Z := accepted st + dropped st.

Definition counts_ok (total : Z) (st : Receiver) : Prop :=
  0 <= accepted st /\ 0 <= dropped st /\ served st + len (pending st) = total.

Lemma process_batch_counts n envs r st total : registry st = Some r -> counts_ok total st -> total <= uint64_max ->
  counts_ok total (process_batch n envs r st).
Proof.
  revert envs r st. induction n as [|n IH]; intros envs r st Hr Hc Hmax; [done|]. cbn [process_batch].
  destruct (pending st) as [|d rest] eqn:Ep; [done|]. destruct envs as [|v envs]; [done|]. cbv zeta.
  set (st0 := {| registry := registry st; pending := rest |}). destruct Hc as (Ha & Hd & Hsum). unfold served in *.
  rewrite Ep in Hsum. unfold len in *. cbn [length] in Hsum.
  destruct (process_datagram_accounts v d r st0) as ([r' Hr'] & Hp & Hs & Ha' & Hd'); [cbn; lia..|].
  rewrite Hr'. apply IH; [done| |done]. split; [done|]. split; [done|]. unfold served, len. rewrite Hp, Hs. cbn. lia.
Qed.

Lemma after_datagram_ok v d r : 0 <= e_elapsed v -> registry_ok any_text any_double r ->
  registry_ok any_text any_double (after_datagram v d r).
Proof.
  intros Hv Hr. eapply (process_datagram_ok v d r {| registry := Some r; pending := []; accepted := 0; dropped := 0; sent := [] |});
    [done|done|]. apply process_datagram_registry.
Qed.

Lemma batch_registry_ok n envs r ds : Forall (fun v => 0 <= e_elapsed v) envs -> registry_ok any_text any_double r ->
  registry_ok any_text any_double (batch_registry n envs r ds).
Proof.
  revert envs r ds. induction n as [|n IH]; intros envs r ds Henv Hr; [done|]. cbn [batch_registry].
  destruct ds as [|d ds]; [done|]. destruct envs as [|v envs]; [done|]. apply Forall_cons in Henv as [Hv Henv].
  apply IH; [done|]. by apply after_datagram_ok.
Qed.

(** A batch brings a view from the devices before it to those after it. *)
Lemma delivers_batch role i s n envs r ds : role <> DeviceNumberRole -> role ∈ map fst roleNames ->
  Forall (fun v => 0 <= e_elapsed v) envs -> registry_ok any_text any_double r ->
  exists counted, delivers role i s (batch_moments n envs r ds) (devices r) false (devices (batch_registry n envs r ds)) false counted.
Proof.
  intros Hn Hnamed. revert envs r ds. induction n as [|n IH]; intros envs r ds Henv Hr;
    [exists false; apply delivers_nil|].
  cbn [batch_moments batch_registry].
  destruct ds as [|d ds]; [exists false; apply delivers_nil|]. destruct envs as [|v envs]; [exists false; apply delivers_nil|].
  apply Forall_cons in Henv as [Hv Henv].
  destruct (IH envs (after_datagram v d r) ds Henv (after_datagram_ok v d r Hv Hr)) as (counted & Hrest).
  assert (exists c, delivers role i s (match caused d with Some e => moments e v r | None => [] end)
    (devices r) false (devices (after_datagram v d r)) false c) as (c & Hfirst).
  { unfold after_datagram. destruct (caused d) as [e|]; [|exists false; apply delivers_nil].
    eexists. apply delivers_event; [done|done|apply Hr]. }
  eexists. by eapply delivers_app.
Qed.

(** ** The invariant *)

Record page_ok (r : Registry) (p : Page) : Prop := {
  page_has_registry : page_registry p = Some r;
  page_registry_ok : registry_ok any_text any_double r;
  page_info_ok : InfoService.service_ok (info_service p);
  page_metrics_ok : MetricsService.service_ok (metrics_service p);
  page_unstructured : structured_change p = false }.

Lemma page_model_living r p : page_ok r p -> page_model p = living (info_service p) (metrics_service p) false r.
Proof. intros [Hr _ _ _ Hf]. unfold page_model. by rewrite Hr, Hf. Qed.

Lemma page_start_ok can_open file bound_to : page_ok (load can_open file).1 (page_start can_open file bound_to).
Proof.
  split; [by destruct bound_to|apply load_ok|apply InfoService.info_new_service_ok|apply MetricsService.metrics_new_service_ok|done].
Qed.

(** The row of a device of the registry. *)
Lemma device_row id dev r p : page_ok r p -> device id r = Some dev -> exists n, model_rows (page_model p) !! n = Some (Remote dev).
Proof.
  intros Hp Hdev. unfold device in Hdev. destruct (find_device id (devices r)) as [[n dev']|] eqn:Hf; [|done]. injection Hdev as ->.
  apply find_device_Some in Hf as [Hn _]. exists (S n). rewrite (page_model_living r p Hp).
  assert ((Remote <$> devices r) !! n = Some (Remote dev)) as Hfmap by (by rewrite list_lookup_fmap, Hn). exact Hfmap.
Qed.

(** What a step must do for the views and the bindings. *)
Definition keeps_shown (p : Page) (f : page_effects) (p' : Page) : Prop :=
  (forall role, role <> DeviceNumberRole -> role ∈ map fst roleNames ->
     mirrors (shown role (page_model p)) (row_signals role [] (from_model f)) (shown role (page_model p'))) /\
  Info.all_current (info_service p) (from_info f) (info_service p') /\
  Metrics.all_current (metrics_service p) (from_metrics f) (metrics_service p').

Lemma info_slot_shown es i' r p : page_ok r p -> InfoService.service_ok i' -> Info.handles (info_service p) es i' ->
  page_ok r (with_info_service i' p) /\ keeps_shown p (info_effect es r p) (with_info_service i' p).
Proof.
  intros Hp Hi' Hh. assert (page_ok r (with_info_service i' p)) as Hp' by (by destruct Hp).
  split; [done|]. split; [|split; [by apply Info.info_handlers_current|done]]. intros role _ _.
  rewrite (page_model_living r p), (page_model_living r (with_info_service i' p)) by done.
  unfold info_effect. cbn [from_model]. rewrite (page_unstructured r p Hp). by apply info_row_follows.
Qed.

Lemma metrics_same s : exists q, s = MetricsService.with_flags (MetricsService.running s) q (MetricsService.refresh_pending s) s.
Proof. exists (MetricsService.queued s). by destruct s. Qed.

Lemma metrics_slot_shown s0 es s' r p : page_ok r p -> MetricsService.service_ok s' -> Metrics.handles s0 es s' ->
  (exists q, s0 = MetricsService.with_flags (MetricsService.running (metrics_service p)) q
     (MetricsService.refresh_pending (metrics_service p)) (metrics_service p)) ->
  page_ok r (with_metrics_service s' p) /\ keeps_shown p (metrics_effect es r p) (with_metrics_service s' p).
Proof.
  intros Hp Hs' Hh [q ->]. assert (page_ok r (with_metrics_service s' p)) as Hp' by (by destruct Hp).
  split; [done|]. split; [|split; [done|by apply (Metrics.metrics_handlers_current _ _ _ Hh)]]. intros role _ _.
  rewrite (page_model_living r p), (page_model_living r (with_metrics_service s' p)) by done.
  unfold metrics_effect. cbn [from_model]. rewrite (page_unstructured r p Hp).
  exact (metrics_row_follows _ _ _ (info_service p) false r role Hh).
Qed.

Lemma deliver_shown u r r' ms calls m p : page_ok r p -> registry (core u) = Some r' -> registry_ok any_text any_double r' ->
  (forall role, role <> DeviceNumberRole -> role ∈ map fst roleNames -> exists counted,
     delivers role (info_service p) (metrics_service p) ms (devices r) false (devices r') false counted) ->
  deliver ms (page_model p) = (m, calls) ->
  let p' := with_telemetry u (structured_registry_change_ m) p in
  page_ok r' p' /\ keeps_shown p (model_effect calls) p'.
Proof.
  intros Hp Hu Hr' Hms Hd. rewrite (page_model_living r p Hp) in Hd.
  assert (structured_registry_change_ m = false) as Hm.
  { destruct (Hms HostnameRole) as (c & Hdel); [done|by_decision|]. destruct (Hdel r) as (r1 & calls' & E & _).
    rewrite E in Hd. by injection Hd as <- _. }
  cbv zeta. rewrite Hm. assert (page_ok r' (with_telemetry u false p)) as Hp' by (by destruct Hp).
  split; [done|]. split; [|done]. intros role Hn Hnamed.
  rewrite (page_model_living r p), (page_model_living r' (with_telemetry u false p)) by done.
  destruct (Hms role Hn Hnamed) as (c & Hdel). destruct (Hdel r) as (r1 & calls' & E & Hmir & _). rewrite E in Hd.
  injection Hd as _ <-. cbn [model_effect from_model info_service metrics_service with_telemetry].
  by rewrite !shown_rows.
Qed.

Lemma activate_core envs u : core (activate envs u).1 = (processPendingDatagrams envs (core u)).1.
Proof. unfold activate. by destruct (processPendingDatagrams envs (core u)). Qed.

Lemma processPending_batch envs r st : registry st = Some r ->
  (processPendingDatagrams envs st).1 = process_batch batchSize envs r st.
Proof. unfold processPendingDatagrams. by intros ->. Qed.

(** Without a datagram the socket's state shows nothing. *)
Lemma telemetry_shown u r p : page_ok r p -> registry (core u) = Some r ->
  let p' := with_telemetry u (structured_change p) p in page_ok r p' /\ keeps_shown p no_effects p'.
Proof.
  intros Hp Hu. cbv zeta. assert (page_ok r (with_telemetry u (structured_change p) p)) as Hp' by (by destruct Hp).
  split; [done|]. split; [|done]. intros role _ _.
  by rewrite (page_model_living r p), (page_model_living r (with_telemetry u (structured_change p) p)).
Qed.

Lemma info_refresh_ok s : InfoService.service_ok s -> InfoService.service_ok (InfoService.refresh s).1.1.
Proof.
  intros Hs. destruct (InfoService.refresh s) as [[s' sig] started] eqn:E.
  eapply InfoService.info_step_ok; [exact Hs|by apply InfoService.step_request].
Qed.

Lemma info_finished_ok o utc s : InfoService.service_ok s -> InfoService.running s = true ->
  InfoService.service_ok (InfoService.collectionFinished o utc s).1.
Proof.
  intros Hs Hrun. eapply InfoService.info_step_ok; [exact Hs|]. eapply InfoService.step_finish; [done|apply surjective_pairing].
Qed.

Lemma page_step_sound e r p p' f : page_ok r p -> clocks_ok e -> page_step e p = Some (p', f) ->
  (exists r', page_ok r' p') /\ keeps_shown p f p'.
Proof.
  intros Hp Hclocks. pose proof Hp as [Hreg Hr Hi Hs Hflag]. unfold page_step. rewrite Hreg. cbn [mbind option_bind].
  assert (forall r' p1 f1, page_ok r' p1 /\ keeps_shown p f1 p1 -> Some (p1, f1) = Some (p', f) ->
    (exists r', page_ok r' p') /\ keeps_shown p f p') as Hin by (intros r' p1 f1 [? ?] [= <- <-]; split; [by exists r'|done]).
  destruct e as [|o utc| | |o elapsed utc|d|envs|v]; cbv zeta.
  - pose proof (Info.handles_refresh (info_service p)) as Hh.
    pose proof (info_refresh_ok _ Hi) as Hi'.
    destruct (InfoService.refresh (info_service p)) as [[i' es] b]. apply Hin with r. by apply info_slot_shown.
  - destruct (InfoService.running (info_service p)) eqn:Erun; [|done]. pose proof (Info.handles_finished (info_service p) o utc) as Hh.
    pose proof (info_finished_ok o utc _ Hi Erun) as Hi'.
    destruct (InfoService.collectionFinished o utc (info_service p)) as [i' es]. apply Hin with r. by apply info_slot_shown.
  - pose proof (Metrics.handles_refresh (metrics_service p)) as Hh.
    pose proof (MetricsService.metrics_refresh_ok _ Hs) as Hs'.
    destruct (MetricsService.refresh (metrics_service p)) as [[s' es] b]. apply Hin with r. eapply metrics_slot_shown; [done|done|exact Hh|apply metrics_same].
  - destruct (MetricsService.queued (metrics_service p)) as [|q]; [done|].
    set (s0 := MetricsService.with_flags _ q _ _). pose proof (Metrics.handles_refresh s0) as Hh.
    pose proof (MetricsService.metrics_refresh_tick_ok (metrics_service p) q Hs : MetricsService.service_ok (MetricsService.refresh s0).1.1) as Hs'.
    destruct (MetricsService.refresh s0) as [[s' es] b]. apply Hin with r. eapply metrics_slot_shown; [done|done|exact Hh|by exists q].
  - destruct (MetricsService.running (metrics_service p)); [|done].
    pose proof (Metrics.handles_finished (metrics_service p) o elapsed utc) as Hh.
    pose proof (MetricsService.metrics_collectionFinished_ok o elapsed utc _ Hs) as Hs'.
    destruct (MetricsService.collectionFinished o elapsed utc (metrics_service p)) as [s' es]. apply Hin with r. eapply metrics_slot_shown; [done|done|exact Hh|apply metrics_same].
  - case_if; [|done]. apply Hin with r. by apply (telemetry_shown (put_datagram d (telemetry_receiver p))).
  - destruct (deliver _ _) as [m calls] eqn:Ed. cbn [clocks_ok] in Hclocks.
    assert (registry (core (activate envs (telemetry_receiver p)).1) =
      Some (batch_registry batchSize envs r (pending (core (telemetry_receiver p))))) as Hu
      by (rewrite activate_core, (processPending_batch envs r) by done; by apply process_batch_registry).
    eapply Hin. eapply deliver_shown; [done|exact Hu|by apply batch_registry_ok| |exact Ed].
    intros role Hn Hnamed. by apply delivers_batch.
  - unfold update_registry. destruct (deliver _ _) as [m calls] eqn:Ed. apply Hin with (perform ETick v r).
    apply (deliver_shown (put_registry (perform ETick v r) (telemetry_receiver p)) r (perform ETick v r) (moments ETick v r) calls m p);
      [done|done|by apply updateFreshness_ok| |done].
    intros role Hn Hnamed. eexists. apply delivers_event; [done|done|apply Hr].
Qed.

(** ** Runs *)

Lemma keeps_shown_nil p : keeps_shown p no_effects p.
Proof. done. Qed.

(** What a run told the views of a role and the bindings of the services. *)
Definition view_signals (role : Role) (fs : list page_effects) : list (row_signal * list QVariant) :=
  concat (map (fun f => row_signals role [] (from_model f)) fs).

Definition run_shown (p : Page) (fs : list page_effects) (p' : Page) : Prop :=
  (forall role, role <> DeviceNumberRole -> role ∈ map fst roleNames ->
     mirrors (shown role (page_model p)) (view_signals role fs) (shown role (page_model p'))) /\
  Info.all_current (info_service p) (concat (map from_info fs)) (info_service p') /\
  Metrics.all_current (metrics_service p) (concat (map from_metrics fs)) (metrics_service p').

Lemma run_shown_cons p f p1 fs p2 : keeps_shown p f p1 -> run_shown p1 fs p2 -> run_shown p (f :: fs) p2.
Proof.
  intros (Hv & Hi & Hs) (Hv' & Hi' & Hs'). split; [|split].
  - intros role Hn Hnamed. eapply mirrors_app; auto.
  - by eapply Info.info_current_app.
  - by eapply Metrics.metrics_current_app.
Qed.

Lemma page_run_sound es : forall r p p' fs, page_ok r p -> Forall clocks_ok es -> page_run es p = Some (p', fs) ->
  (exists r', page_ok r' p') /\ run_shown p fs p'.
Proof.
  induction es as [|e es IH]; intros r p p' fs Hp Hclocks Hrun; cbn in Hrun; [injection Hrun as <- <-; split; [by exists r|done]|].
  apply Forall_cons in Hclocks as [He Hes]. destruct (page_step e p) as [[p1 f]|] eqn:Estep; [|done]. cbn in Hrun.
  destruct (page_run es p1) as [[p2 fs']|] eqn:Erun; [|done]. injection Hrun as <- <-.
  destruct (page_step_sound e r p p1 f Hp He Estep) as [[r1 Hp1] Hf].
  destruct (IH r1 p1 p2 fs' Hp1 Hes Erun) as [Hp2 Hfs]. split; [done|]. by eapply run_shown_cons.
Qed.

Lemma page_run_app a b p : page_run (a ++ b) p =
  match page_run a p with
  | Some (p1, f1) => match page_run b p1 with Some (p2, f2) => Some (p2, f1 ++ f2) | None => None end
  | None => None
  end.
Proof.
  revert p. induction a as [|e a IH]; intros p; cbn [app page_run]; [by destruct (page_run b p) as [[??]|]|].
  destruct (page_step e p) as [[p1 f]|]; [|done]. cbn [mbind option_bind]. rewrite IH.
  destruct (page_run a p1) as [[p2 f2]|]; [|done]. cbn [mbind option_bind]. by destruct (page_run b p2) as [[p3 f3]|].
Qed.

(** ** The counters *)

Definition arrivals (es : list page_event) : Z := len (List.filter (fun e => match e with Arrived _ => true | _ => false end) es).

Lemma page_step_counts e p p' f total : page_step e p = Some (p', f) -> total <= uint64_max ->
  counts_ok total (core (telemetry_receiver p)) ->
  counts_ok (total + arrivals [e]) (core (telemetry_receiver p')).
Proof.
  unfold page_step. destruct (page_registry p) as [r|] eqn:Hr; [|done]. cbn [mbind option_bind]. intros Hstep Hmax Hc.
  assert (forall st, counts_ok total st -> counts_ok (total + 0) st) as Hsame by (intros st; by rewrite Z.add_0_r).
  destruct e as [|o utc| | |o elapsed utc|d|envs|v]; cbv zeta in Hstep;
    try (change (arrivals _) with 0; apply Hsame).
  - destruct (InfoService.refresh _) as [[??]?]. by injection Hstep as <- _.
  - destruct (InfoService.running _); [|done]. destruct (InfoService.collectionFinished _ _ _). by injection Hstep as <- _.
  - destruct (MetricsService.refresh _) as [[??]?]. by injection Hstep as <- _.
  - destruct (MetricsService.queued _); [done|]. destruct (MetricsService.refresh _) as [[??]?]. by injection Hstep as <- _.
  - destruct (MetricsService.running _); [|done]. destruct (MetricsService.collectionFinished _ _ _ _). by injection Hstep as <- _.
  - change (arrivals _) with 1. case_if; [|done]. injection Hstep as <- _. destruct Hc as (Ha & Hd & Hsum).
    split; [done|]. split; [done|]. unfold served, len in *. cbn [telemetry_receiver with_telemetry put_datagram core pending accepted dropped].
    rewrite length_app. cbn [length]. lia.
  - destruct (deliver _ _). injection Hstep as <- _. cbn [telemetry_receiver with_telemetry].
    rewrite activate_core, (processPending_batch envs r) by done. by apply process_batch_counts.
  - destruct (update_registry _ _ _ _). injection Hstep as <- _. exact Hc.
Qed.

Lemma arrivals_cons e es : arrivals (e :: es) = arrivals [e] + arrivals es.
Proof. unfold arrivals, len. cbn [List.filter]. destruct e; cbn [length]; lia. Qed.

Lemma arrivals_nonneg es : 0 <= arrivals es.
Proof. unfold arrivals, len. lia. Qed.

Lemma page_run_counts es : forall p p' fs total, page_run es p = Some (p', fs) -> total + arrivals es <= uint64_max ->
  counts_ok total (core (telemetry_receiver p)) -> counts_ok (total + arrivals es) (core (telemetry_receiver p')).
Proof.
  induction es as [|e es IH]; intros p p' fs total Hrun Hmax Hc; cbn in Hrun.
  - injection Hrun as <- _. change (arrivals []) with 0. by rewrite Z.add_0_r.
  - destruct (page_step e p) as [[p1 f]|] eqn:Estep; [|done]. cbn in Hrun.
    destruct (page_run es p1) as [[p2 fs']|] eqn:Erun; [|done]. injection Hrun as <- <-.
    rewrite arrivals_cons in *. pose proof (arrivals_nonneg es). pose proof (arrivals_nonneg [e]). rewrite Z.add_assoc in *.
    eapply IH; [done|lia|]. eapply page_step_counts; [done|lia|done].
Qed.

End laws.

(** ** A page *)

#[local] Existing Instances sample_library reference_codec.

Definition zero_env : env := {| e_elapsed := 0; e_utc := 0; e_saved := true |}.

(** The local machine is collected while a device says hello. *)
Definition sample_page_events : list page_event :=
  [InfoRequested; Arrived {| dg_valid := true; dg_payload := encodeMessage (MHello sample_hello); dg_address := sample_address; dg_port := 4000 |};
   Activated [zero_env]; InfoCollected InfoService.sample_outcome 7; FreshnessTimer zero_env].

Definition sample_page : Page := page_start true None (inr 51337).

Definition sample_page_run : Page * list page_effects := default (sample_page, []) (page_run sample_page_events sample_page).

