(* ===== verification/DeviceSilence.v ===== *)
(** * A daemon that falls silent

    The dashboard learns of a device only by its messages.  Shown is what the list shows of
    a device that is not heard of any more, whatever else happens: the age of its last
    snapshot decides, at the first run of the freshness timer after three and after ten of
    its intervals at the latest. *)

From S2P Require Import Prelude.
From S2P Require Import Std.
From S2P Require Import Float64.
From S2P Require Import QtCbor.
From S2P Require Import Protocol.
From S2P Require Import DeviceSnapshot.
From S2P Require Import SnapshotCodec.
From S2P Require Import SnapshotWire.
From S2P Require Import QtModel.
From S2P Require Import Registry.
From S2P Require Import RegistryLaws.
From S2P Require Import Receiver.
From S2P Require InfoService MetricsService.
From S2P Require Import DeviceModel.
From S2P Require Import DeviceModelLaws.
From S2P Require Import DevicesPage.
From S2P Require Import DevicesPageLaws.

Section silence.
Context `{QtCodec} `{DeviceLibrary} (id : QUuid).

(** ** Messages of other devices *)

Definition of_other (e : event) : Prop :=
  match e with
  | EHello h _ _ => h_device_id h <> id
  | ESnapshot s _ _ => s_device_id s <> id
  | ETick => True
  | EForget i => i <> id
  end.

Definition other_datagram (d : datagram) : Prop := match caused d with Some e => of_other e | None => True end.

(** The device does not send. *)
Definition unheard (e : page_event) : Prop := match e with Arrived d => other_datagram d | _ => True end.

(** ** What stays of the device *)

(** It is registered, with the last snapshot at [t] and the interval [i]. *)
Definition remembers (t i : Z) (r : Registry) : Prop :=
  exists d, device id r = Some d /\ last_snapshot_ms d = t /\ interval_seconds d = i.

Definition remembers_abs (t i : Z) (m : amap) : Prop :=
  exists d, m !! id = Some d /\ last_snapshot_ms d = t /\ interval_seconds d = i.

Lemma remembers_eq t i r : remembers t i r <-> remembers_abs t i (abs (devices r)).
Proof. unfold remembers, remembers_abs, device. by rewrite abs_lookup. Qed.

Lemma tick_remembers t i c m : remembers_abs t i m -> remembers_abs t i (abs_tick c m).
Proof.
  intros (d & Hd & Ht & Hi). exists (freshen c d). unfold abs_tick. rewrite lookup_fmap, Hd.
  split; [done|]. unfold freshen. by case_if.
Qed.

Lemma insert_remembers t i k d m : k <> id -> remembers_abs t i m -> remembers_abs t i (<[k := d]> m).
Proof. intros Hk (d' & Hd & Hrest). exists d'. by rewrite lookup_insert_ne. Qed.

Lemma perform_remembers T D t i e v r : registry_ok T D r -> of_other e -> remembers t i r -> remembers t i (perform e v r).
Proof.
  rewrite !remembers_eq. intros Hr He Hm. destruct e as [h addr p|s addr p| |k]; cbn [perform of_other] in *.
  - pose proof (hello_refines T D r Hr h addr p (e_elapsed v) (-1) (e_saved v)) as Href.
    destruct (registerHello _ _ _ _ _ _ _) as [[reason r'] sig]. cbn [fst snd]. apply (f_equal snd) in Href. cbn [snd] in Href.
    rewrite Href. apply (tick_remembers t i (now (e_elapsed v) (-1))) in Hm. unfold abs_hello. cbv zeta.
    destruct (abs_tick _ _ !! h_device_id h); [case_if|case_decide]; cbn [snd]; try done; by apply insert_remembers.
  - pose proof (snapshot_refines T D r Hr s addr p (e_elapsed v) (-1) (e_utc v) (e_saved v)) as Href.
    destruct (acceptSnapshot _ _ _ _ _ _ _ _) as [[acc r'] sig]. cbn [fst snd]. apply (f_equal snd) in Href. cbn [snd] in Href.
    rewrite Href. unfold abs_snapshot. destruct (abs _ !! s_device_id s); [|done]. case_if; [|done]. by apply insert_remembers.
  - rewrite abs_updateFreshness. by apply tick_remembers.
  - pose proof (forget_refines T D r Hr k (e_saved v)) as Href.
    destruct (forgetDevice _ _ _) as [[found r'] sig]. cbn [fst snd]. apply (f_equal snd) in Href. cbn [snd abs_forget] in Href.
    rewrite Href. destruct Hm as (d & Hd & Hrest). exists d. by rewrite lookup_delete_ne.
Qed.

(** ** Along the receiver's slot and the page *)

Lemma batch_remembers n envs r ds t i : Forall (fun v => 0 <= e_elapsed v) envs -> Forall other_datagram ds ->
  registry_ok any_text any_double r -> remembers t i r -> remembers t i (batch_registry n envs r ds).
Proof.
  revert envs r ds. induction n as [|n IH]; intros envs r ds Henv Hds Hr Hm; [done|]. cbn [batch_registry].
  destruct ds as [|d ds]; [done|]. destruct envs as [|v envs]; [done|].
  apply Forall_cons in Henv as [Hv Henv]. apply Forall_cons in Hds as [Hd Hds].
  apply IH; [done|done|by apply after_datagram_ok|]. unfold after_datagram, other_datagram in *.
  destruct (caused d) as [e|]; [|done]. by eapply perform_remembers.
Qed.

(** What waits after a batch waited before it. *)
Lemma batch_pending (P : datagram -> Prop) n envs r st : registry st = Some r ->
  Forall P (pending st) -> Forall P (pending (process_batch n envs r st)).
Proof.
  revert envs r st. induction n as [|n IH]; intros envs r st Hr Hp; [done|]. cbn [process_batch].
  destruct (pending st) as [|d rest] eqn:Ep; [by rewrite Ep|]. destruct envs as [|v envs]; [by rewrite Ep|]. cbv zeta.
  set (st0 := {| registry := registry st; pending := rest |}).
  destruct (process_datagram_registry v d r st0) as [Hr' Hp']. rewrite Hr'.
  apply IH; [done|]. rewrite Hp'. by apply Forall_cons in Hp as [_ Hp].
Qed.

Record silent (t i : Z) (p : Page) : Prop := {
  silent_registry : exists r, page_registry p = Some r /\ remembers t i r;
  silent_queue : Forall other_datagram (pending (core (telemetry_receiver p))) }.

Lemma page_step_silent t i e r p p' f : page_ok r p -> clocks_ok e -> unheard e -> page_step e p = Some (p', f) ->
  silent t i p -> silent t i p'.
Proof.
  intros [Hreg Hr _ _ _] Hclocks Hun Hstep [(r0 & Hr0 & Hm) Hq]. rewrite Hr0 in Hreg. injection Hreg as ->.
  unfold page_step in Hstep. rewrite Hr0 in Hstep. cbn [mbind option_bind] in Hstep.
  assert (forall p1, telemetry_receiver p1 = telemetry_receiver p -> silent t i p1) as Hsame.
  { intros p1 E. split; [exists r|]; unfold page_registry; by rewrite E. }
  destruct e as [|o utc| | |o elapsed utc|d|envs|v]; cbv zeta in Hstep.
  - destruct (InfoService.refresh _) as [[??]?]. injection Hstep as <- _. by apply Hsame.
  - destruct (InfoService.running _); [|done]. destruct (InfoService.collectionFinished _ _ _). injection Hstep as <- _. by apply Hsame.
  - destruct (MetricsService.refresh _) as [[??]?]. injection Hstep as <- _. by apply Hsame.
  - destruct (MetricsService.queued _); [done|]. destruct (MetricsService.refresh _) as [[??]?]. injection Hstep as <- _. by apply Hsame.
  - destruct (MetricsService.running _); [|done]. destruct (MetricsService.collectionFinished _ _ _ _). injection Hstep as <- _. by apply Hsame.
  - case_if; [|done]. injection Hstep as <- _. split; [by exists r|]. cbn. apply Forall_app. split; [done|by apply Forall_singleton].
  - destruct (deliver _ _). injection Hstep as <- _. cbn [clocks_ok] in Hclocks.
    split; cbn [telemetry_receiver with_telemetry]; unfold page_registry; cbn [telemetry_receiver with_telemetry];
      rewrite activate_core, (processPending_batch envs r) by done.
    + eexists. split; [by apply process_batch_registry|by apply batch_remembers].
    + by apply batch_pending.
  - destruct (update_registry _ _ _ _). injection Hstep as <- _. split; [|done]. exists (perform ETick v r).
    split; [done|]. by apply (perform_remembers any_text any_double).
Qed.

Lemma page_run_silent t i es : forall r p p' fs, page_ok r p -> Forall clocks_ok es -> Forall unheard es ->
  page_run es p = Some (p', fs) -> silent t i p -> silent t i p'.
Proof.
  induction es as [|e es IH]; intros r p p' fs Hp Hclocks Hun Hrun Hs; cbn in Hrun; [by injection Hrun as <- _|].
  apply Forall_cons in Hclocks as [He Hes]. apply Forall_cons in Hun as [Hue Hun].
  destruct (page_step e p) as [[p1 f]|] eqn:Estep; [|done]. cbn in Hrun.
  destruct (page_run es p1) as [[p2 fs']|] eqn:Erun; [|done]. injection Hrun as <- <-.
  destruct (page_step_sound e r p p1 f Hp He Estep) as [[r1 Hp1] _]. eapply IH; [exact Hp1|exact Hes|exact Hun|exact Erun|].
  exact (page_step_silent t i e r p p1 f Hp He Hue Estep Hs).
Qed.

(** ** What is shown *)

Definition silence_text (interval age : Z) : string :=
  if interval * 10000 <=? age then "offline" else if interval * 3000 <=? age then "stale" else "online".

Lemma silence_state c d : status_key (next_state c d) = silence_text (interval_seconds d) (c - last_snapshot_ms d).
Proof. unfold next_state, silence_text. cbv zeta. by repeat case_if. Qed.

Lemma timer_step v r p p' f : page_registry p = Some r -> page_step (FreshnessTimer v) p = Some (p', f) ->
  page_registry p' = Some (perform ETick v r).
Proof. unfold page_step. intros ->. cbn [mbind option_bind]. destruct (update_registry _ _ _ _). by intros [= <- _]. Qed.

(** The device after the timer. *)
Lemma timer_device v r t i : 0 <= e_elapsed v -> 0 <= t -> remembers t i r ->
  exists d, device id (perform ETick v r) = Some d /\ status_key (state d) = silence_text i (e_elapsed v - t).
Proof.
  intros Hv Ht. rewrite remembers_eq. intros (d & Hd & Hlast & Hi). exists (freshen (e_elapsed v) d). split.
  - unfold device. rewrite <- abs_lookup. cbn [perform]. rewrite abs_updateFreshness. unfold abs_tick, now. cbn [Z.leb Z.compare].
    by rewrite lookup_fmap, Hd.
  - rewrite freshen_state, silence_state by lia. by rewrite Hlast, Hi.
Qed.

(** C8. A device that falls silent is shown so.  At any moment of any run of the page, let
    a device be known with a snapshot.  If no message of it waits or arrives from then on,
    whatever else does, then after every run of the freshness timer, which fires each
    second, each view that followed the model's signals has a row in which the device's
    status is offline when the snapshot is ten of its intervals old, stale when it is
    three, and online before. *)
Theorem silence_shown can_open file bound_to es0 p fs0 d es v p' fs
  (Hclocks0 : Forall clocks_ok es0) (Hrun0 : page_run es0 (page_start can_open file bound_to) = Some (p, fs0))
  (Hknown : exists r, page_registry p = Some r /\ device id r = Some d) (Hseen : 0 <= last_snapshot_ms d)
  (Hqueue : Forall other_datagram (pending (core (telemetry_receiver p)))) (Hquiet : Forall unheard es)
  (Hclocks : Forall clocks_ok es) (Hv : 0 <= e_elapsed v) (Hrun : page_run (es ++ [FreshnessTimer v]) p = Some (p', fs)) :
  let status := OfText (silence_text (interval_seconds d) (e_elapsed v - last_snapshot_ms d)) in
  exists n, data (page_model p') n StatusKeyRole = status /\
    fold_left follow (view_signals StatusKeyRole fs) (shown StatusKeyRole (page_model p)) !! n = Some status.
Proof.
  cbv zeta. destruct Hknown as (r & Hr & Hd).
  destruct (page_run_sound es0 _ _ p fs0 (page_start_ok can_open file bound_to) Hclocks0 Hrun0) as [[r0 Hp] _].
  assert (r0 = r) as -> by (pose proof (page_has_registry _ _ Hp); congruence).
  assert (Forall clocks_ok (es ++ [FreshnessTimer v])) as Hall by (apply Forall_app; split; [done|by apply Forall_singleton]).
  destruct (page_run_sound _ r p p' fs Hp Hall Hrun) as [[r' Hp'] (Hview & _)].
  rewrite page_run_app in Hrun. destruct (page_run es p) as [[p1 fs1]|] eqn:E1; [|done]. cbn [page_run] in Hrun.
  destruct (page_step (FreshnessTimer v) p1) as [[p2 f]|] eqn:E2; [|done]. cbn in Hrun. injection Hrun as <- <-.
  destruct (page_run_silent (last_snapshot_ms d) (interval_seconds d) es r p p1 fs1 Hp Hclocks Hquiet E1) as [(r1 & Hr1 & Hm) _];
    [split; [by exists r; split; [|exists d]|done]|].
  pose proof (timer_step _ _ _ _ _ Hr1 E2) as Hr2. pose proof (page_has_registry _ _ Hp') as Hr3. rewrite Hr2 in Hr3. injection Hr3 as <-.
  destruct (timer_device v r1 _ _ Hv Hseen Hm) as (d' & Hd' & Hstate).
  destruct (device_row id d' _ p2 Hp' Hd') as [n Hrow]. exists n. rewrite <- Hstate. split.
  - unfold data. by rewrite Hrow.
  - rewrite (Hview StatusKeyRole ltac:(done) ltac:(by_decision)). unfold shown. by rewrite list_lookup_imap, Hrow.
Qed.
End silence.

(** ** A device that says hello, reports once and leaves *)

#[local] Existing Instances sample_library reference_codec.

Definition from_device (m : TelemetryMessage) : datagram :=
  {| dg_valid := true; dg_payload := encodeMessage m; dg_address := sample_address; dg_port := 4000 |}.

Definition heard : list page_event :=
  [Arrived (from_device (MHello sample_hello)); Activated [zero_env];
   Arrived (from_device (MDeviceSnapshot sample_report)); Activated [zero_env]].

Definition heard_run : Page * list page_effects := default (sample_page, []) (page_run heard sample_page).

Definition heard_device : Device := apply_snapshot sample_report 0 0 (new_device sample_hello sample_address 4000).

(** A minute passes. *)
Definition minute : env := {| e_elapsed := 60000; e_utc := 60000; e_saved := true |}.
Definition quiet_events : list page_event := [InfoRequested; Activated []].
Definition quiet_run : Page * list page_effects :=
  default (sample_page, []) (page_run (quiet_events ++ [FreshnessTimer minute]) heard_run.1).

Lemma silence_shown_witness : exists n,
  fold_left follow (view_signals StatusKeyRole quiet_run.2) (shown StatusKeyRole (page_model heard_run.1)) !! n = Some (OfText "offline").
Proof.
  destruct (silence_shown (s_device_id sample_report) true None (inr 51337) heard heard_run.1 heard_run.2 heard_device quiet_events minute
    quiet_run.1 quiet_run.2) as (n & _ & Hn).
  - repeat constructor; cbn; lia.
  - vm_compute. reflexivity.
  - destruct (page_registry heard_run.1) as [r|] eqn:Er; [|vm_compute in Er; discriminate Er]. exists r. split; [done|].
    vm_compute in Er. injection Er as <-. vm_compute. reflexivity.
  - vm_compute. discriminate.
  - assert (pending (core (telemetry_receiver heard_run.1)) = []) as -> by (vm_compute; reflexivity). constructor.
  - repeat constructor.
  - repeat constructor.
  - cbn. lia.
  - vm_compute. reflexivity.
  - exists n. rewrite Hn. vm_compute. reflexivity.
Defined.
