(* ===== verification/DaemonShown.v ===== *)
(** * From a daemon's machine to the dashboard's list

    The whole way of a report: what the daemon's collectors find is sent as a hello and a
    snapshot, the dashboard's receiver takes them from its socket, the registry brings the
    device online, and the views of the device model show a row with what was found. *)

From S2P Require Import Prelude.
From S2P Require Import Std.
From S2P Require Import Float64.
From S2P Require Import Cbor.
From S2P Require Import DaemonText.
From S2P Require Import QtCbor.
From S2P Require Import Protocol.
From S2P Require Import DeviceSnapshot.
From S2P Require Import SnapshotCodec.
From S2P Require Import SnapshotWire.
From S2P Require Import QtModel.
From S2P Require Import Registry.
From S2P Require Import RegistryLaws.
From S2P Require Import Receiver.
From S2P Require Import DaemonConfig.
From S2P Require DaemonCollector.
From S2P Require Import DaemonRun.
From S2P Require Import Interop.
From S2P Require Import DaemonReports.
From S2P Require Import DaemonMetricsReport.
From S2P Require Import DaemonUnderstood.
From S2P Require Import DeviceModel.
From S2P Require Import DeviceModelLaws.
From S2P Require Import DevicesPage.
From S2P Require Import DevicesPageLaws.

Section shown.
Context `{QtCodec} `{DeviceLibrary}.

Lemma page_arrives d p : is_Some (page_registry p) -> 0 < local_port (telemetry_receiver p) ->
  page_step (Arrived d) p = Some (with_telemetry (put_datagram d (telemetry_receiver p)) (structured_change p) p, no_effects).
Proof. unfold page_step. intros [r ->] Hport. cbn. by rewrite (proj2 (Z.ltb_lt _ _)). Qed.

Lemma page_serves envs r p : page_registry p = Some r -> exists flag f,
  page_step (Activated envs) p = Some (with_telemetry (activate envs (telemetry_receiver p)).1 flag p, f).
Proof. unfold page_step. intros ->. cbn [mbind option_bind]. destruct (deliver _ _). by do 2 eexists. Qed.

(** A datagram that is alone in the queue is served as it is. *)
Lemma process_alone v d r st : registry st = Some r -> pending st = [] ->
  process_batch batchSize [v] r {| registry := registry st; pending := pending st ++ [d]; accepted := accepted st;
    dropped := dropped st; sent := sent st |} = process_datagram v d r st.
Proof.
  destruct st as [reg queue acc drp out]. cbn [registry pending accepted dropped sent]. intros -> ->.
  change batchSize with 32%nat. cbn [app process_batch pending registry accepted dropped sent]. cbv zeta.
  by destruct (process_datagram_registry v d r {| registry := Some r; pending := []; accepted := acc; dropped := drp; sent := out |}) as [-> ->].
Qed.

Lemma serve_one v d r p : page_registry p = Some r -> pending (core (telemetry_receiver p)) = [] ->
  0 < local_port (telemetry_receiver p) ->
  exists p' fs, page_run [Arrived d; Activated [v]] p = Some (p', fs) /\
    core (telemetry_receiver p') = process_datagram v d r (core (telemetry_receiver p)) /\
    local_port (telemetry_receiver p') = local_port (telemetry_receiver p).
Proof.
  intros Hr Hq Hport. cbn [page_run]. rewrite page_arrives by (by rewrite ?Hr). cbn [mbind option_bind].
  set (p1 := with_telemetry _ _ p). destruct (page_serves [v] r p1) as (flag & f & ->); [done|]. cbn [mbind option_bind].
  do 2 eexists. split; [reflexivity|]. cbn [telemetry_receiver with_telemetry]. rewrite activate_core, (processPending_batch [v] r) by done.
  split; [by apply process_alone|]. unfold activate. by destruct (processPendingDatagrams _ _).
Qed.

Lemma serve_two v1 v2 d1 d2 r r1 p : page_registry p = Some r -> pending (core (telemetry_receiver p)) = [] ->
  0 < local_port (telemetry_receiver p) -> registry (process_datagram v1 d1 r (core (telemetry_receiver p))) = Some r1 ->
  exists p' fs, page_run [Arrived d1; Activated [v1]; Arrived d2; Activated [v2]] p = Some (p', fs) /\
    core (telemetry_receiver p') = process_datagram v2 d2 r1 (process_datagram v1 d1 r (core (telemetry_receiver p))).
Proof.
  intros Hr Hq Hport Hr1. destruct (serve_one v1 d1 r p) as (p1 & fs1 & Hrun1 & Hcore1 & Hport1); [done..|].
  destruct (serve_one v2 d2 r1 p1) as (p2 & fs2 & Hrun2 & Hcore2 & _).
  - unfold page_registry. by rewrite Hcore1.
  - rewrite Hcore1. by rewrite (proj2 (process_datagram_registry _ _ _ _)).
  - by rewrite Hport1.
  - exists p2, (fs1 ++ fs2). split; [|by rewrite Hcore2, Hcore1].
    change [Arrived d1; Activated [v1]; Arrived d2; Activated [v2]] with ([Arrived d1; Activated [v1]] ++ [Arrived d2; Activated [v2]]).
    by rewrite page_run_app, Hrun1, Hrun2.
Qed.

(** C1. A machine with a daemon appears.  On the side of the dashboard: a state that a run
    leads to, the receiver bound with an empty queue and clocks not before its start, fewer
    than 64 devices and none with the daemon's id.  On the side of the daemon: ids that are not null, a name of at most 128
    characters the dashboard takes, an interval of one to five seconds, a sequence number that
    fits the wire; machine data whose texts are plain and whose devices are named apart, an
    information that is not empty, counters since the last collection that make sense; and
    two datagrams within the size limit.  Then the hello and the snapshot the daemon makes of
    its collections lead to a row: the daemon is answered, with what it takes for an
    acceptance if the answer fits 2048 bytes, the registry holds exactly what was collected,
    and every view of the list, whatever role but the number it shows, has the cell of that
    device, which is online under the daemon's name. *)
Theorem daemon_shown can_open file bound_to es0 p fs0 c d i s root k now st v1 v2 addr port
  (Hclocks : Forall clocks_ok es0) (Hrun : page_run es0 (page_start can_open file bound_to) = Some (p, fs0))
  (Hqueue : pending (core (telemetry_receiver p)) = []) (Hport : 0 < local_port (telemetry_receiver p))
  (Hroom : forall r, page_registry p = Some r -> device d r = None /\ len (devices r) < maximumDevices)
  (Hd : valid_uuid d) (Hi : valid_uuid i) (Hname : validText (display_name c) 128 = true /\ rfc3629 (display_name c))
  (Hinterval : 1 <= interval_seconds c <= 5) (Hs : wire_int s)
  (Hinfo : plain_info root k) (Hsome : DaemonCollector.system_info root k <> VObject []) (Hmetrics : plain_metrics root k)
  (Hst : remembered_ok st) (Hclock : forall t, DaemonCollector.previous_time st = Some t -> 0 <= now - t <= 2 ^ 63)
  (Hv1 : 0 <= e_elapsed v1) (Hv2 : 0 <= e_elapsed v2) :
  let info := DaemonCollector.system_info root k in
  let report := (DaemonCollector.metrics root k now st).1 in
  let dg b := {| dg_valid := true; dg_payload := b; dg_address := addr; dg_port := port |} in
  len (hello c d i info) <= maximum_datagram_size -> len (snapshot c d i s info report) <= maximum_datagram_size ->
  exists p' fs n dev reply,
    page_run [Arrived (dg (hello c d i info)); Activated [v1]; Arrived (dg (snapshot c d i s info report)); Activated [v2]] p =
      Some (p', fs) /\
    sent (core (telemetry_receiver p')) = sent (core (telemetry_receiver p)) ++ [(reply, addr, port)] /\
    (len reply <= 2048 -> is_acceptance (Some reply) = true) /\
    system_info dev = info_said info /\ metrics dev = metrics_said <$> report /\
    DeviceModel.data (page_model p') n StatusKeyRole = OfText "online" /\ DeviceModel.data (page_model p') n HostnameRole = OfText (display_name c) /\
    (forall role, role <> DeviceNumberRole -> role ∈ map fst roleNames ->
       fold_left follow (view_signals role fs) (shown role (page_model p)) !! n = Some (row_data n (Remote dev) role)).
Proof.
  intros info report dg Hl1 Hl2. pose proof (page_start_ok can_open file bound_to) as Hp0.
  destruct (page_run_sound es0 _ _ p fs0 Hp0 Hclocks Hrun) as [[r Hp] _].
  destruct (info_understood root k Hinfo Hsome) as [Hw Hread].
  pose proof (metrics_understood root k now st Hmetrics Hst Hclock) as Hm. subst report.
  destruct (DaemonCollector.metrics root k now st) as [report st']. destruct Hm as (_ & _ & Hrw & Hrr). cbn [fst] in *.
  assert (announcement c d i info (info_said info)) as Han by by constructor.
  destruct (Hroom r (page_has_registry r p Hp)) as [Hunknown Hspace].
  destruct (comes_online c d i info (info_said info) r (core (telemetry_receiver p)) v1 v2 addr port s report
    (metrics_said (default (VMap []) report)) Han (page_registry_ok r p Hp) Hunknown Hspace Hv1 Hv2 Hs Hrw)
    as (Hsent & Hacc & r1 & Hr1 & r2 & dev & Hr2 & Hdev & Hstate & Hsi & Hme & Hna & _); [by intros x ->; apply Hrr|done|done|].
  cbv zeta in *. fold (dg (hello c d i info)) in *. fold (dg (snapshot c d i s info report)) in *.
  destruct (serve_two v1 v2 (dg (hello c d i info)) (dg (snapshot c d i s info report)) r r1 p) as (p2 & fs & Hall & Hcore);
    [by apply Hp|done..|].
  assert (Forall clocks_ok [Arrived (dg (hello c d i info)); Activated [v1]; Arrived (dg (snapshot c d i s info report)); Activated [v2]])
    as Hclocks' by (repeat constructor; done).
  destruct (page_run_sound _ r p p2 fs Hp Hclocks' Hall) as [[r2' Hp2] (Hv & _)].
  assert (r2' = r2) as -> by (pose proof (page_has_registry _ _ Hp2) as E; unfold page_registry in E; rewrite Hcore, Hr2 in E; by injection E).
  destruct (device_row d dev r2 p2 Hp2 Hdev) as [n Hrow].
  exists p2, fs, n, dev, (encodeMessage (registration_reply
    {| h_device_id := d; h_instance_id := i; h_display_name := display_name c; h_interval_seconds := interval_seconds c;
       h_system_info := info_said info |} "")).
  split; [done|]. split; [|split; [exact Hacc|split; [done|split; [by rewrite Hme; by destruct report|]]]].
  - rewrite Hcore. pose proof (decodeMessage_snapshot c d i info (info_said info) Han s report
      (metrics_said (default (VMap []) report)) Hs Hrw ltac:(by intros x ->; apply Hrr) Hl2) as Es.
    pose proof (hello_answered v2 (dg (snapshot c d i s info report)) r1
      (process_datagram v1 (dg (hello c d i info)) r (core (telemetry_receiver p))) eq_refl) as Ha.
    cbv zeta in Ha. unfold dg at 1 in Ha. rewrite received_small, Es in Ha by done. by rewrite Ha.
  - split; [unfold DeviceModel.data; rewrite Hrow; cbn; by rewrite Hstate|]. split.
    + unfold DeviceModel.data. rewrite Hrow. cbn. rewrite Hna. destruct Hname as [Hname _]. unfold validText in Hname.
      by destruct (String.eqb (display_name c) "").
    + intros role Hr0 Hnamed. rewrite (Hv role Hr0 Hnamed). unfold shown. by rewrite list_lookup_imap, Hrow.
Qed.
End shown.

(** ** The sample machine's daemon, the sample page *)

#[local] Existing Instances sample_library reference_codec.

Lemma daemon_shown_witness :
  let info := DaemonCollector.system_info "/" pi in
  let report := (DaemonCollector.metrics "/" pi 2000000000 pi_remembers).1 in
  let dg b := {| dg_valid := true; dg_payload := b; dg_address := Some "10.0.0.8"%string; dg_port := 4001 |} in
  exists p' fs n,
    page_run [Arrived (dg (hello sample_config (be_bytes 16 8) (be_bytes 16 9) info)); Activated [zero_env];
      Arrived (dg (snapshot sample_config (be_bytes 16 8) (be_bytes 16 9) 5 info report)); Activated [zero_env]] sample_page_run.1
      = Some (p', fs) /\
    DeviceModel.data (page_model p') n StatusKeyRole = OfText "online" /\
    DeviceModel.data (page_model p') n HostnameRole = OfText "Workshop Pi".
Proof.
  intros info report dg.
  destruct (daemon_shown true None (inr 51337) sample_page_events sample_page_run.1 sample_page_run.2 sample_config
    (be_bytes 16 8) (be_bytes 16 9) 5 "/" pi 2000000000 pi_remembers zero_env zero_env (Some "10.0.0.8"%string) 4001)
    as (p' & fs & n & dev & reply & Hrun & _ & _ & _ & _ & Hst & Hname & _).
  - repeat constructor; vm_compute; discriminate.
  - vm_compute. reflexivity.
  - vm_compute. reflexivity.
  - vm_compute. reflexivity.
  - intros r E. vm_compute in E. injection E as <-. split; vm_compute; reflexivity.
  - split; [reflexivity|by_decision].
  - split; [reflexivity|by_decision].
  - split; [reflexivity|by apply rfc3629_ascii].
  - split; vm_compute; discriminate.
  - split; vm_compute; discriminate.
  - apply pi_info.
  - vm_compute. discriminate.
  - apply pi_metrics.
  - split; [by vm_compute|]. repeat constructor; by vm_compute.
  - intros t [= <-]. split; vm_compute; discriminate.
  - vm_compute. discriminate.
  - vm_compute. discriminate.
  - by_decision.
  - by_decision.
  - exists p', fs, n. split; [exact Hrun|]. split; [exact Hst|exact Hname].
Defined.
