(* ===== verification/DashboardRun.v ===== *)
(** * A run of the dashboard (src/dashboard/main.cpp)

    All the objects [main] makes, under one event loop: the devices page, the weather with
    its providers, the projects, the screensaver, and the chart over the history of the
    local metrics.  Every event is of one of them; what they share they share inside the
    page.  The runs of the whole are interleavings of runs of the parts, and so what is
    proved of each part holds at every moment of every run of the program. *)

From S2P Require Import Prelude.
From S2P Require Import Std.
From S2P Require Import Float64.
From S2P Require Import QtCbor.
From S2P Require Import Protocol.
From S2P Require Import QtModel.
From S2P Require Import Bindings.
From S2P Require Import Json.
From S2P Require DashboardConfig Programs.
From S2P Require Import Registry.
From S2P Require Import RegistryLaws.
From S2P Require Import Receiver.
From S2P Require MetricHistory InfoService MetricsService.
From S2P Require Import DeviceModel.
From S2P Require Import DeviceModelLaws.
From S2P Require Import DevicesPage.
From S2P Require Import DevicesPageLaws.
From S2P Require HistorySeries HistorySeriesLaws Screensaver.
From S2P Require Weather BoundedReply WeatherReplies WeatherService WeatherCache WeatherLaws WeatherSystem.
From S2P Require Projects ProjectsService ProjectsLaws ProjectsView ProjectsBindings.

Abbreviation startup := Programs.Dashboard.startup.

Record Dashboard := {
  page : Page;
  weather : WeatherSystem.System;
  projects : ProjectsService.ProjectsService;
  screensaver : Z * Screensaver.ScreensaverController }.

Inductive dashboard_event :=
| OnPage (e : page_event) | OnWeather (e : WeatherSystem.system_event)
| OnProjects (e : ProjectsLaws.event) | OnScreen (i : Screensaver.input).

(** What an event leads to; the projects keep what they emitted. *)
Inductive effect :=
| PageEffect (f : page_effects) | WeatherEffect (out : list WeatherService.output)
| ProjectsEffect | ScreenEffect (swallowed : option bool).

Definition with_page (p : Page) (d : Dashboard) : Dashboard :=
  {| page := p; weather := weather d; projects := projects d; screensaver := screensaver d |}.
Definition with_weather (y : WeatherSystem.System) (d : Dashboard) : Dashboard :=
  {| page := page d; weather := y; projects := projects d; screensaver := screensaver d |}.
Definition with_projects (s : ProjectsService.ProjectsService) (d : Dashboard) : Dashboard :=
  {| page := page d; weather := weather d; projects := s; screensaver := screensaver d |}.
Definition with_screensaver (c : Z * Screensaver.ScreensaverController) (d : Dashboard) : Dashboard :=
  {| page := page d; weather := weather d; projects := projects d; screensaver := c |}.

Section dashboard.
Context `{QtCodec} `{DeviceLibrary} `{Weather.WeatherLibrary} `{WeatherReplies.RepliesLibrary} `{JsonLibrary} `{Projects.ProjectsLibrary}.

(** ** What main makes *)

(** What the objects find when they are made: the registry's file, the network's answer to
    the binding of the socket, the clocks and the weather's cache. *)
Record Surroundings := {
  devices_readable : bool; devices_file : option (list byte);
  socket_bound : string + Z;
  weather_clock : WeatherService.clock; cache_age : Z; weather_cache : option json_file;
  monotonic_ms : Z }.

Definition weather_keys (s : startup) : WeatherSystem.Keys :=
  {| WeatherSystem.openWeatherKey := Programs.Dashboard.s_openweather_key s;
     WeatherSystem.ipGeolocationKey := Programs.Dashboard.s_ipgeolocation_key s |}.

Definition weather_start (s : startup) (w : Surroundings) : WeatherSystem.System * list WeatherService.output :=
  match Programs.Dashboard.s_weather s with
  | Some config => WeatherSystem.system_start config (weather_keys s) (weather_clock w) (cache_age w) (weather_cache w)
  | None =>
      let '(service, out) := WeatherSystem.configured_service None (weather_keys s) (weather_clock w) (cache_age w) (weather_cache w) in
      ({| WeatherSystem.service := service; WeatherSystem.outstanding := [] |}, out)
  end.

(** The screensaver is given seconds. *)
Definition screensaver_timeout (s : startup) : Z := Programs.Dashboard.s_timeout s * 1000.

Definition dashboard_objects (s : startup) (w : Surroundings) : Dashboard :=
  {| page := page_start (devices_readable w) (devices_file w) (socket_bound w);
     weather := (weather_start s w).1;
     projects := ProjectsService.new_service (Programs.Dashboard.s_token s);
     screensaver := (monotonic_ms w, Screensaver.initialize (screensaver_timeout s) (monotonic_ms w)) |}.

(** ** Steps *)

(** Without a configuration no timer runs, no reply is awaited, and [refresh] returns. *)
Definition weather_step (s : startup) (e : WeatherSystem.system_event) (y : WeatherSystem.System)
  : option (WeatherSystem.System * list WeatherService.output) :=
  match Programs.Dashboard.s_weather s, e with
  | Some config, _ => WeatherSystem.system_step config (weather_keys s) e y
  | None, WeatherSystem.Refreshed => Some (y, [])
  | None, _ => None
  end.

Inductive dashboard_step (s : startup) : Dashboard -> dashboard_event * effect -> Dashboard -> Prop :=
| step_page d e p f (Hstep : page_step e (page d) = Some (p, f)) :
    dashboard_step s d (OnPage e, PageEffect f) (with_page p d)
| step_weather d e y out (Hstep : weather_step s e (weather d) = Some (y, out)) :
    dashboard_step s d (OnWeather e, WeatherEffect out) (with_weather y d)
| step_projects d e :
    dashboard_step s d (OnProjects e, ProjectsEffect)
      (with_projects (ProjectsLaws.handle (Programs.Dashboard.s_owner s) (Programs.Dashboard.s_token s) e (projects d)) d)
| step_screen d i a c (Hstep : Screensaver.step (screensaver_timeout s) (screensaver d) (i, a) c) :
    dashboard_step s d (OnScreen i, ScreenEffect a) (with_screensaver c d).

Inductive dashboard_run (s : startup) (d : Dashboard) : list (dashboard_event * effect) -> Dashboard -> Prop :=
| dashboard_nil : dashboard_run s d [] d
| dashboard_snoc tr d1 x d2 (Hrun : dashboard_run s d tr d1) (Hstep : dashboard_step s d1 x d2) :
    dashboard_run s d (tr ++ [x]) d2.

(** ** Parts of a run *)

Abbreviation trace := (list (dashboard_event * effect)).

Definition page_part (tr : trace) : list page_event := omap (fun x => match x.1 with OnPage e => Some e | _ => None end) tr.
Definition page_told (tr : trace) : list page_effects := omap (fun x => match x.2 with PageEffect f => Some f | _ => None end) tr.
Definition weather_part (tr : trace) : list WeatherSystem.system_event :=
  omap (fun x => match x.1 with OnWeather e => Some e | _ => None end) tr.
Definition projects_part (tr : trace) : list ProjectsLaws.event :=
  omap (fun x => match x.1 with OnProjects e => Some e | _ => None end) tr.
Definition screen_part (tr : trace) : list (Screensaver.input * option bool) :=
  omap (fun x => match x with (OnScreen i, ScreenEffect a) => Some (i, a) | _ => None end) tr.
End dashboard.
