(* ===== verification/DashboardRunLaws.v ===== *)
(** * What holds in every run of the dashboard

    The runs of the whole are projected to runs of its parts, and the invariants of the
    parts hold together. *)

From S2P Require Import Prelude.
From S2P Require Import Std.
From S2P Require Import Float64.
From S2P Require Import QtCbor.
From S2P Require Import Protocol.
From S2P Require Import SnapshotCodec.
From S2P Require Import QtModel.
From S2P Require Import Bindings.
From S2P Require Import Json.
From S2P Require DashboardConfig Programs.
From S2P Require Import Registry.
From S2P Require Import RegistryLaws.
From S2P Require Import Receiver.
From S2P Require MetricHistory InfoService MetricsService.
From S2P Require Import DeviceModel.
From S2P Require Import DeviceModelLaws.
From S2P Require Import DevicesPage.
From S2P Require Import DevicesPageLaws.
From S2P Require HistorySeries HistorySeriesLaws HistorySceneLaws Screensaver.
From S2P Require Weather WeatherReplies WeatherService WeatherCache WeatherLaws WeatherSystem WeatherSample.
From S2P Require Projects ProjectsService ProjectsLaws ProjectsView ProjectsBindings ProjectsSample.
From S2P Require Import DashboardRun.

#[local] Existing Instance ProjectsService.signal_eq_dec.

Section laws.
Context `{QtCodec} `{DeviceLibrary} `{Weather.WeatherLibrary} `{WeatherReplies.RepliesLibrary} `{JsonLibrary} `{Projects.ProjectsLibrary}.

(** ** The parts of a run are runs of the parts *)

Lemma weather_run_app config keys a b y : WeatherSystem.system_run config keys (a ++ b) y =
  match WeatherSystem.system_run config keys a y with
  | Some (y1, o1) => match WeatherSystem.system_run config keys b y1 with Some (y2, o2) => Some (y2, o1 ++ o2) | None => None end
  | None => None
  end.
Proof.
  revert y. induction a as [|e a IH]; intros y; cbn [app WeatherSystem.system_run].
  - by destruct (WeatherSystem.system_run config keys b y) as [[??]|].
  - destruct (WeatherSystem.system_step config keys e y) as [[y1 o]|]; [|done]. cbn [mbind option_bind]. rewrite IH.
    destruct (WeatherSystem.system_run config keys a y1) as [[y2 o2]|]; [|done]. cbn [mbind option_bind].
    destruct (WeatherSystem.system_run config keys b y2) as [[y3 o3]|]; [|done]. cbn. by rewrite (assoc_L (++)).
Qed.

Record parts (s : startup) (d0 : Dashboard) (tr : list (dashboard_event * effect)) (d : Dashboard) : Prop := {
  part_page : page_run (page_part tr) (page d0) = Some (page d, page_told tr);
  part_weather : match Programs.Dashboard.s_weather s with
                 | None => weather d = weather d0
                 | Some config => exists out,
                     WeatherSystem.system_run config (weather_keys s) (weather_part tr) (weather d0) = Some (weather d, out)
                 end;
  part_projects : projects d = fold_left (fun s' e =>
                    ProjectsLaws.handle (Programs.Dashboard.s_owner s) (Programs.Dashboard.s_token s) e s') (projects_part tr) (projects d0);
  part_screen : Screensaver.run (screensaver_timeout s) (screensaver d0) (screen_part tr) (screensaver d) }.

Lemma run_parts s d0 tr d : dashboard_run s d0 tr d -> parts s d0 tr d.
Proof.
  induction 1 as [|tr d1 x d2 _ [Hp Hw Hj Hs] Hstep].
  { split; [done| |done|constructor]. destruct (Programs.Dashboard.s_weather s); [by exists []|done]. }
  assert (forall e f, x = (e, f) ->
    page_part (tr ++ [x]) = page_part tr ++ (match e with OnPage e => [e] | _ => [] end) /\
    page_told (tr ++ [x]) = page_told tr ++ (match f with PageEffect f => [f] | _ => [] end) /\
    weather_part (tr ++ [x]) = weather_part tr ++ (match e with OnWeather e => [e] | _ => [] end) /\
    projects_part (tr ++ [x]) = projects_part tr ++ (match e with OnProjects e => [e] | _ => [] end) /\
    screen_part (tr ++ [x]) = screen_part tr ++ (match e, f with OnScreen i, ScreenEffect a => [(i, a)] | _, _ => [] end)) as Hparts.
  { intros e f ->. unfold page_part, page_told, weather_part, projects_part, screen_part. rewrite !omap_app. by destruct e, f. }
  destruct Hstep as [d e p f Hst|d e y out Hst|d e|d i a c Hst]; destruct (Hparts _ _ eq_refl) as (Ep & Et & Ew & Ej & Es);
    (split; rewrite ?Ep, ?Et, ?Ew, ?Ej, ?Es, ?app_nil_r; try done).
  - rewrite page_run_app, Hp. cbn [page_run]. by rewrite Hst.
  - unfold weather_step in Hst. destruct (Programs.Dashboard.s_weather s) as [config|].
    + destruct Hw as [out' Hw]. exists (out' ++ out). rewrite weather_run_app, Hw. cbn [WeatherSystem.system_run]. rewrite Hst. cbn.
      by rewrite app_nil_r.
    + destruct e; try done. by injection Hst as <- _.
  - rewrite fold_left_app. cbn [fold_left projects with_projects]. by rewrite <- Hj.
  - eapply Screensaver.run_snoc; [exact Hs|exact Hst].
Qed.

(** ** The history and the chart *)

(** The samples that the ends of collections add. *)
Definition collected (es : list page_event) : list MetricHistory.Sample :=
  omap (fun e => match e with MetricsCollected o elapsed _ => MetricsService.sample_of o elapsed | _ => None end) es.

Definition append_all (new rows : list MetricHistory.Sample) : list MetricHistory.Sample :=
  fold_left (fun rows x => (MetricHistory.appendSample x rows).1) new rows.

Lemma refresh_history s : MetricsService.usage_history (MetricsService.refresh s).1.1 = MetricsService.usage_history s.
Proof.
  rewrite (proj1 (MetricsService.metrics_refresh_eq s)). case_bool_decide; [done|]. by rewrite MetricsService.metrics_setState_eq.
Qed.

Lemma page_step_history e p p' f : page_step e p = Some (p', f) ->
  MetricsService.usage_history (metrics_service p') = append_all (collected [e]) (MetricsService.usage_history (metrics_service p)).
Proof.
  unfold page_step. destruct (page_registry p) as [r|]; [|done]. cbn [mbind option_bind].
  destruct e as [|o utc| | |o elapsed utc|dg|envs|v]; cbv zeta; intros Hstep.
  - destruct (InfoService.refresh _) as [[??]?]. by injection Hstep as <- _.
  - destruct (InfoService.running _); [|done]. destruct (InfoService.collectionFinished _ _ _). by injection Hstep as <- _.
  - pose proof (refresh_history (metrics_service p)) as Hh. destruct (MetricsService.refresh _) as [[??]?]. by injection Hstep as <- _.
  - destruct (MetricsService.queued _) as [|q]; [done|]. set (s0 := MetricsService.with_flags _ q _ _) in *.
    pose proof (refresh_history s0) as Hh. destruct (MetricsService.refresh s0) as [[??]?]. by injection Hstep as <- _.
  - destruct (MetricsService.running _); [|done].
    pose proof (MetricsService.metrics_collectionFinished_eq o elapsed utc (metrics_service p)) as Hh.
    destruct (MetricsService.collectionFinished _ _ _ _) as [s' es]. injection Hstep as <- _. cbn [fst] in Hh. subst s'.
    unfold collected. cbn. by destruct (MetricsService.sample_of o elapsed).
  - case_if; [|done]. by injection Hstep as <- _.
  - destruct (deliver _ _). by injection Hstep as <- _.
  - destruct (update_registry _ _ _ _). by injection Hstep as <- _.
Qed.

Lemma page_run_history es : forall p p' fs, page_run es p = Some (p', fs) ->
  MetricsService.usage_history (metrics_service p') = append_all (collected es) (MetricsService.usage_history (metrics_service p)).
Proof.
  induction es as [|e es IH]; intros p p' fs Hrun; cbn [page_run] in Hrun; [by injection Hrun as <- _|].
  destruct (page_step e p) as [[p1 f]|] eqn:Estep; [|done]. cbn [mbind option_bind] in Hrun.
  destruct (page_run es p1) as [[p2 fs']|] eqn:Erun; [|done]. injection Hrun as <- _.
  rewrite (IH _ _ _ Erun), (page_step_history _ _ _ _ Estep). unfold append_all. rewrite <- fold_left_app. f_equal.
  unfold collected. by rewrite <- omap_app.
Qed.

Lemma rows_after_all inputs rows : HistorySeriesLaws.rows_after inputs rows = append_all (HistorySeriesLaws.appended inputs) rows.
Proof.
  unfold HistorySeriesLaws.rows_after, append_all, HistorySeriesLaws.appended. revert rows.
  induction inputs as [|i inputs IH]; intros rows; [done|]. cbn [fold_left]. rewrite IH. by destruct i.
Qed.

(** ** The parts at every moment *)

Lemma weather_unconfigured s w tr d : dashboard_run s (dashboard_objects s w) tr d -> Programs.Dashboard.s_weather s = None ->
  WeatherService.state (WeatherSystem.service (weather d)) = "unconfigured"%string /\ WeatherSystem.outstanding (weather d) = [].
Proof.
  intros Hrun Hnone. destruct (run_parts _ _ _ _ Hrun) as [_ Hw _ _]. rewrite Hnone in Hw. rewrite Hw. cbn.
  unfold weather_start. by rewrite Hnone.
Qed.

(** The weather works once it has its keys, or the user has asked for it without. *)
Definition weather_asked (s : startup) (config : DashboardConfig.WeatherConfig) (tr : list (dashboard_event * effect)) : Prop :=
  WeatherCache.credential_diagnostic config (Programs.Dashboard.s_openweather_key s) (Programs.Dashboard.s_ipgeolocation_key s) = ""%string \/
  WeatherSystem.Refreshed ∈ weather_part tr.

Lemma weather_works s w tr d config : dashboard_run s (dashboard_objects s w) tr d -> Programs.Dashboard.s_weather s = Some config ->
  (weather_asked s config tr -> WeatherSystem.coherent config (weather_keys s) (weather d)) /\
  (~ weather_asked s config tr -> WeatherSystem.unkeyed (weather d)).
Proof.
  intros Hrun Hsome. destruct (run_parts _ _ _ _ Hrun) as [_ Hw _ _]. rewrite Hsome in Hw. destruct Hw as [out Hw].
  assert (exists out0, WeatherSystem.system_start config (weather_keys s) (weather_clock w) (cache_age w) (weather_cache w) =
    (weather (dashboard_objects s w), out0)) as [out0 Hstart].
  { cbn. unfold weather_start. rewrite Hsome. destruct (WeatherSystem.system_start _ _ _ _ _) as [y o]. by exists o. }
  unfold weather_asked. set (d0 := WeatherCache.credential_diagnostic _ _ _).
  destruct (decide (d0 = ""%string)) as [Hkeys|Hno].
  - destruct (WeatherSystem.start_coherent config (weather_keys s) _ _ _ _ _ Hkeys Hstart) as [_ Hy0].
    destruct (WeatherSystem.system_run_refines config (weather_keys s) (weather_part tr)
      (WeatherSystem.service (weather (dashboard_objects s w))) [] [] _ _ _ Hy0 (WeatherLaws.run_nil _ _) Hw) as [Hc _].
    split; [done|]. intros Hn. destruct Hn. by left.
  - pose proof (WeatherSystem.start_unkeyed config (weather_keys s) _ _ _ _ _ Hno Hstart) as Hy0.
    destruct (WeatherSystem.unkeyed_run config (weather_keys s) _ _ _ _ Hy0 Hw) as [H1' H2']. split; [|tauto].
    intros [?|?]; [done|auto].
Qed.

Lemma projects_run s w tr d : dashboard_run s (dashboard_objects s w) tr d ->
  projects d = ProjectsLaws.run (Programs.Dashboard.s_owner s) (Programs.Dashboard.s_token s) (projects_part tr).
Proof. intros Hrun. by destruct (run_parts _ _ _ _ Hrun) as [_ _ Hj _]. Qed.

Lemma screensaver_ok s w tr d : dashboard_run s (dashboard_objects s w) tr d ->
  Screensaver.controller_ok (screensaver_timeout s) (screensaver d).
Proof.
  intros Hrun. destruct (run_parts _ _ _ _ Hrun) as [_ _ _ Hs].
  eapply Screensaver.screensaver_run_ok; [|exact Hs]. apply Screensaver.screensaver_initialize_ok.
Qed.

Lemma chart_of_history `{HistorySeries.SeriesLibrary} inputs duration :
  HistorySeries.samples (HistorySeries.snapshot_ (HistorySeriesLaws.play (HistorySeriesLaws.script inputs [])
    (HistorySeries.setModel (Some (HistorySeries.history_model [])) (HistorySeries.setTransitionDuration duration HistorySeries.new_series)))) =
  append_all (HistorySeriesLaws.appended inputs) [].
Proof.
  rewrite <- rows_after_all. set (s0 := HistorySeries.setModel _ _).
  destruct (HistorySeriesLaws.script_follows (HistorySeriesLaws.window_ends (HistorySeriesLaws.script inputs []) s0) inputs [] [] s0)
    as [_ Hs _ _]; [done| |exact Hs].
  by apply HistorySeriesLaws.setModel_follows.
Qed.

(** C11. Every run of the whole program.  Made from whatever settings [main] settles on and
    whatever it finds, and whatever then happens in whatever order, with clocks of the
    receiver that do not run backwards from zero, at every moment: every view of the device
    list, whatever role but the number it shows, is current and the registry well formed; a
    chart of the usage history shows the samples of the local collections that are at most a
    minute old, as the service has them; the weather, once it has its keys or the user has
    refreshed it, awaits exactly the one reply of the operation under way besides those about
    the air, shows its own location and tells its state; without keys and before a refresh it
    shows an error and awaits nothing, and without a configuration it is unconfigured; at
    most four requests for the projects run, and their bindings are current, but for the
    counts while requests for runners are pending; with a timeout above zero the screensaver
    is active exactly when its timer rests, which else is due within the timeout, and with
    none it is never active and its timer never runs. *)
Theorem dashboard_runs `{HistorySeries.SeriesLibrary} s w tr d
  (Hrun : dashboard_run s (dashboard_objects s w) tr d) (Hclocks : Forall clocks_ok (page_part tr)) :
  (exists r, page_registry (page d) = Some r /\ registry_ok any_text any_double r /\
     forall role, role <> DeviceNumberRole -> role ∈ map fst roleNames ->
       mirrors (shown role (page_model (page (dashboard_objects s w)))) (view_signals role (page_told tr))
         (shown role (page_model (page d)))) /\
  (forall duration inputs, HistorySeriesLaws.appended inputs = collected (page_part tr) ->
     let chart := HistorySeriesLaws.play (HistorySeriesLaws.script inputs [])
       (HistorySeries.setModel (Some (HistorySeries.history_model [])) (HistorySeries.setTransitionDuration duration HistorySeries.new_series)) in
     HistorySeries.samples (HistorySeries.snapshot_ chart) = MetricsService.usage_history (metrics_service (page d))) /\
  (let y := weather d in
   match Programs.Dashboard.s_weather s with
   | None => WeatherService.state (WeatherSystem.service y) = "unconfigured"%string /\ WeatherSystem.outstanding y = []
   | Some config =>
       (weather_asked s config tr ->
        length (List.filter WeatherSystem.is_main (WeatherSystem.outstanding y)) = WeatherLaws.flying (WeatherSystem.service y) /\
        WeatherSystem.shown_here (WeatherSystem.service y) /\ WeatherSystem.state_shown (WeatherSystem.service y)) /\
       (~ weather_asked s config tr ->
        WeatherService.state (WeatherSystem.service y) = "error"%string /\ WeatherSystem.outstanding y = [])
   end) /\
  (ProjectsService.active_requests_ (ProjectsService.queue (projects d)) <= 4 /\
   forall now property read notify, (property, read, notify) ∈ ProjectsBindings.properties now ->
     bound read notify (ProjectsService.emitted (projects d)) (read (ProjectsBindings.shown (projects (dashboard_objects s w)))) =
       read (ProjectsBindings.shown (projects d)) \/
     ProjectsBindings.is_count property = true /\ 0 < ProjectsService.pending_runner_requests_ (ProjectsService.collected (projects d))) /\
  (let '(t, c) := screensaver d in
   (0 < Programs.Dashboard.s_timeout s ->
    (Screensaver.active c = true <-> Screensaver.timer c = None) /\
    (forall due, Screensaver.timer c = Some due -> t <= due <= t + Programs.Dashboard.s_timeout s * 1000)) /\
   (Programs.Dashboard.s_timeout s <= 0 -> Screensaver.active c = false /\ Screensaver.timer c = None)).
Proof.
  destruct (run_parts _ _ _ _ Hrun) as [Hp _ _ _].
  destruct (page_run_sound _ _ _ _ _ (page_start_ok (devices_readable w) (devices_file w) (socket_bound w)) Hclocks Hp)
    as [[r Hr] (Hv & _)].
  split; [|split; [|split; [|split]]].
  - exists r. split; [apply Hr|]. split; [apply Hr|exact Hv].
  - intros duration inputs Hin. cbv zeta. rewrite chart_of_history, Hin. by rewrite (page_run_history _ _ _ _ Hp).
  - cbv zeta. destruct (Programs.Dashboard.s_weather s) as [config|] eqn:Ew; [|by apply (weather_unconfigured s w tr)].
    destruct (weather_works s w tr d config Hrun Ew) as [Hc Hu]. split; [|by intros (? & _ & ?)%Hu].
    intros Hasked. specialize (Hc Hasked). split; [by eapply WeatherSystem.main_count|]. split; apply Hc.
  - rewrite (projects_run s w tr d Hrun). split.
    + by destruct (ProjectsLaws.projects_run_phase (Programs.Dashboard.s_owner s) (Programs.Dashboard.s_token s) (projects_part tr)) as (_ & [_ ?] & _).
    + intros now property read notify Hin. by apply (ProjectsBindings.every_binding_current _ _ _ now property).
  - pose proof (screensaver_ok s w tr d Hrun) as Hok. destruct (screensaver d) as [t c]. unfold Screensaver.controller_ok, screensaver_timeout in Hok.
    destruct (Screensaver.enabled c); [|destruct Hok as [? ->]; split; [lia|done]].
    destruct Hok as [? Hok]. split; [intros _|lia]. destruct (Screensaver.active c).
    + by rewrite Hok.
    + destruct Hok as (due & -> & Hdue). split; [done|]. by intros ? [= <-].
Qed.
End laws.

(** ** A run of the whole *)

#[local] Existing Instances sample_library reference_codec WeatherSample.sample_weather WeatherReplies.sample_replies
  WeatherSample.sample_json ProjectsSample.sample_projects HistorySceneLaws.sample_series.

Definition sample_startup : startup :=
  {| Programs.Dashboard.s_windowed := true; Programs.Dashboard.s_width := 800; Programs.Dashboard.s_height := 320;
     Programs.Dashboard.s_address := "0.0.0.0"; Programs.Dashboard.s_port := 51337; Programs.Dashboard.s_owner := "me";
     Programs.Dashboard.s_token := []; Programs.Dashboard.s_weather := Some WeatherSample.sample_config;
     Programs.Dashboard.s_openweather_key := [Byte.x6b]; Programs.Dashboard.s_ipgeolocation_key := [];
     Programs.Dashboard.s_timeout := 60; Programs.Dashboard.s_warnings := [] |}.

Definition sample_surroundings : Surroundings :=
  {| devices_readable := true; devices_file := None; socket_bound := inr 51337;
     weather_clock := WeatherSample.sample_clock 1700000000000; cache_age := 0; weather_cache := None; monotonic_ms := 0 |}.

(** The projects are asked for, the first collection of the metrics ends, the forecast is
    refused for now, and the screensaver starts. *)
Definition sample_dashboard : Dashboard := dashboard_objects sample_startup sample_surroundings.

Definition refused : WeatherSystem.system_event :=
  WeatherSystem.ReplyFinished 0 0 (WeatherSample.sample_clock 1700000000000) (WeatherSystem.reply_of_status 429).

Lemma dashboard_runs_witness : exists tr d,
  dashboard_run sample_startup sample_dashboard tr d /\
  MetricsService.usage_history (metrics_service (page d)) <> [] /\
  WeatherSystem.state_shown (WeatherSystem.service (weather d)) /\
  ProjectsService.active_requests_ (ProjectsService.queue (projects d)) <= 4 /\
  (Screensaver.active (screensaver d).2 = true <-> Screensaver.timer (screensaver d).2 = None).
Proof.
  eexists ((((([] ++ [(OnProjects ProjectsLaws.Refresh, ProjectsEffect)]) ++ [_]) ++ [_]) ++ [_]) ++ [(OnScreen Screensaver.Expiry, ScreenEffect None)]), _.
  assert (forall A B, A -> (A -> B) -> A /\ B) as Hboth by tauto. apply Hboth.
  - eapply dashboard_snoc.
    + eapply dashboard_snoc.
      * eapply dashboard_snoc.
        -- eapply dashboard_snoc; [eapply dashboard_snoc; [apply dashboard_nil|apply step_projects]|].
           eapply (step_page _ _ MetricsTick). vm_compute. reflexivity.
        -- eapply (step_page _ _ (MetricsCollected MetricsService.sample_outcome 1000 5000)). vm_compute. reflexivity.
      * eapply (step_weather _ _ refused). vm_compute. reflexivity.
    + eapply step_screen. eapply Screensaver.step_expiry; vm_compute; reflexivity.
  - intros Hrun. split; [vm_compute; discriminate|].
    destruct (dashboard_runs sample_startup sample_surroundings _ _ Hrun) as (_ & _ & Hw & Hj & Hs); [repeat constructor|].
    split; [exact (proj2 (proj2 (proj1 Hw (or_introl eq_refl))))|]. split; [apply Hj|]. exact (proj1 (proj1 Hs eq_refl)).
Defined.
